(* ===== verification/_CoqProject ===== *)
-Q . S2P
Prelude.v
GoStd.v
Journal.v
GoJson.v
Calls.v
Sim.v
Type2.v
Reconciler.v
GobgpAdapter.v
ExportRecovery.v
Exporter.v
RemoteType2.v
Netlink.v
NetlinkSafety.v
NetlinkRecovery.v
NetlinkHistory.v
NetlinkEffect.v
RemoteImport.v
RemoteImportSafety.v
RemoteImportBounds.v
RouteImporter.v
Model1.v
Model1Safety.v
Model1Programmer.v
Model1ProgrammerSafety.v
Attachment.v
OvsdbStore.v
Endpoint.v
Observer.v
CniTypes.v
CniServer.v
CniPlugin.v
CniContinuity.v
CniContinuitySafety.v
CniContinuityEffect.v
CniNode.v
VethBackend.v
VethSafety.v
ExportObserver.v
ExportObserverSafety.v
CniPluginSafety.v
CniResources.v
CniResourcesSafety.v
BgpHandler.v
BgpHandlerSafety.v
OperatorTypes.v
OperatorManifest.v
Operator.v
OperatorSpec.v
OperatorSafety.v
SimWorld.v
SimRemote.v
SimOvsdb.v
SimNetlink.v
RouteImporterRuns.v
SimCni.v
CniContinuityRuns.v
Witnesses.v
NetlinkWitnesses.v
SimModel1.v
Model1Witnesses.v
ExportWitnesses.v
VethWitnesses.v
CniResourcesWitnesses.v
CniPluginWitnesses.v
BgpHandlerWitnesses.v
CniWitnesses.v
SimOperator.v
OperatorWitnesses.v
