(* ===== verification/Prelude.v ===== *)
(** * EVPN for OVN: a verification library

    The program connects OVN networks to an EVPN fabric: a node agent attaches
    workloads to OVS, observes the local endpoints, advertises them as EVPN
    Type-2 (MAC/IP) routes through a GoBGP speaker, keeping the ownership of every
    route and attachment in durable or readable evidence, and observes the remote
    routes the speaker learns and programs them into the kernel; an operator installs all
    of it on Kubernetes.  This library models, in Go terms, the parts that decide ownership, and proves that they never claim or
    destroy what is not theirs and that they converge.

    ** Parts of the program and their models

    - [Journal] models [src/pkg/ownership/journal.go]: the write-ahead ownership
      journal.  [Journal.Journal] is the Go struct; [Open], [Snapshot], [Begin],
      [Commit], [Close] are its methods, [persist] and its pieces the atomic
      replacement of the file, [checkLock] and [openDirectory] the checks of the
      held inodes.  The kernel is the class [Posix]; [PosixLaws] is what POSIX
      promises about names in one directory.
    - [Type2] models the data of [src/pkg/evpn/type2.go] and
      [src/pkg/evpn/type2_lifecycle.go]: [LocalEndpoint], its validation and
      equivalence, [BuildType2Route], and [ribPathMatchesEndpoint], the comparison of
      a RIB path with an endpoint.  GoBGP's packet library is the class [BgpLib].
    - [Reconciler] models [RouteReconciler] of the same files: [Reconcile] plans
      deltas, [Apply] executes one, [Resync] and [resyncDurable] rebuild the applied
      state from the speaker's RIB.
    - [GobgpAdapter] models [src/pkg/evpn/type2_gobgp.go] (the speaker's RIB read and
      the guarded AddPath and DeletePath) and [SpeakerReadiness] of
      [src/pkg/evpn/exporter.go]; the gRPC client and apiutil are parameters.
    - [ExportRecovery] models [src/pkg/evpn/export_recovery.go]: receipts of advertised
      routes kept in the journal, [Recover], [x_Add] (Add) and [x_Delete] (Delete).
    - [Exporter] models [src/pkg/evpn/exporter.go]: configuration and the
      [EndpointExporter], which drives all of the above in one round.
    - [RemoteType2] models [src/pkg/evpn/remote_type2.go]: the complete read of the RIB,
      [DecodeRemoteType2], the import policy and [ReadOnlyType2Importer], whose [Poll]
      is split into [observe] (one observation) and [confirm] (its publication).
    - [Netlink] models [src/pkg/evpn/owned_netlink.go] and
      [src/pkg/evpn/remote_recovery.go]: the backend that owns FDB and neighbour entries,
      with a receipt per entry.  [ownedNetlinkState] is the Go struct, [ownedApply],
      [ownedWithdraw], [check], [verifyRecovered], [NewOwnedOVNNetlinkBackend] its
      operations; the kernel, the link subscription and the host are the classes
      [ownedKernel], [LinkSubscription] and [SystemLib].  [NetlinkSafety] shows which
      kernel writes happen, [NetlinkRecovery] and [NetlinkHistory] the invariant that
      keeps receipts acceptable after a restart, [NetlinkEffect] what the operations do
      to the set of receipts.
    - [RemoteImport] models [src/pkg/evpn/remote_netlink_import.go]: the importer that makes
      the backend agree with an authoritative snapshot; [RemoteImportSafety] composes it
      with the backend and the read-only importer, and [RemoteImportBounds] bounds its
      counters.
    - [RouteImporter] models [src/pkg/evpn/route_importer.go]: the importer without
      ownership, its validator, its backend of [bridge] and [ip] commands and its loop
      [Run]; [RouteImporterRuns] holds two runs in which it loses forwarding state.
    - [Model1] models the handler of [src/pkg/evpn/ovsdb_programmer.go], which turns a
      snapshot into static tunnels through the interface [Model1TunnelProgrammer], and
      [Model1Programmer] models its implementation in the same file and in
      [ovsdb_provider_bridge.go]: provider bridges, bridge mappings, localnet ports and
      tunnels, over libovsdb clients that are parameters.  [Model1Safety] and
      [Model1ProgrammerSafety] hold their theorems.
    - [Attachment] models [src/pkg/attachment/identity.go], [recovery.go] and [ovs.go]:
      ownership metadata in [external_ids] and the OVS attachment manager;
      [OvsdbStore] models [src/pkg/attachment/ovsdb_store.go], the store under it,
      over a libovsdb client that is a parameter.
    - [Endpoint] models [src/pkg/endpoint]: specifications, the endpoint manager and the
      OVN northbound backend.
    - [Observer] models [src/pkg/evpn/observer.go] and [observer_ovnctl.go]: the local
      endpoints that OVN shows, from the databases or from the command-line tools.
      [ExportObserver] models [export_observer.go] and [local_netlink_observer.go] of
      [src/pkg/nodeagent]: the readiness of an attachment in the three databases, the
      observer of CNI attachments, the observer of native ports and their selection;
      [ExportObserverSafety] shows what they offer and what an exporter on top of them
      advertises.
    - [CniTypes] and [CniServer] model [src/pkg/nodeagent/server.go] and the names and the
      in-memory backend of [network_backend.go]: the requests ADD, DEL and CHECK of a
      server without durable state, and the records and names they derive.
    - [CniContinuity] models [cni_continuity.go], [cni_activation.go] and
      [cni_continuity_export.go] of the same package: the durable acknowledgements of
      endpoints in the journal, with [continuity_add], [continuity_del],
      [continuity_check], [verifyPendingCNI], the exporter's gate and [recoverCNI].  The
      observer of resources, the attestor of workloads and the admission authority are
      interfaces of the code and records of functions here.  [CniContinuitySafety] holds
      the invariant of the acknowledgements, [CniContinuityEffect] what the requests do
      to the outside world, [CniContinuityRuns] a run in which an activation is stamped
      too late.
    - [CniNode] models the entry points of [CNIServer], which choose between the two, the
      drain, and [export_continuity.go], through which the exporter sees the server.
    - [VethBackend] models the Linux backend of [network_backend.go]: the veth pair of a pod,
      its creation, check and deletion, over the class [VethKernel] of netlink and network
      namespaces; [VethSafety] states what it does to the node under [veth_contract].
    - [CniResources] models what the continuity runs with on a node: the observer of the
      resources and their exact deletion ([cni_continuity_runtime.go],
      [cni_continuity_delete.go]), the attestor of workloads and the evidence of a sandbox in
      creation ([cni_continuity_sandbox.go], [provider_containerd_linux.go]).  They are
      instances of the interfaces that [CniContinuity] is proved against;
      [CniResourcesSafety] holds their theorems.
    - [CniPlugin] models [src/cmd/evpn-cni/main.go], the plugin that talks to the server, and
      [CniPluginSafety] relates it to the server and the exporter.
    - [BgpHandler] models [src/services/bgp_ad_handler/main.go], the service that turns paths of
      a speaker into ports of the OVSDB service or into entries of the Linux bridge, and
      [BgpHandlerSafety] states what it does under [ovsdb_contract] and [netlink_contract].
    - [OperatorTypes], [OperatorManifest] and [Operator] model [src/deploy/operator]: the
      types of [api/v1alpha1/evpncore_types.go] and the controller of [controllers].
      [Reconcile] is the entry point; its state is the snapshot of the custom resource,
      whose status is the journal of the installation, and the Kubernetes API is the class
      [Kube].  [OperatorSpec] is the abstract protocol: the cluster as the operator sees
      it, the promises of the API ([KubeStore]), the permitted steps ([op_step]) and their
      invariants; [OperatorSafety] is a weakest-precondition calculus for the controller
      and the proof that its runs take only such steps.
    - [GoStd] models what the code uses of the Go standard library (strings, net,
      netip, sort, hex), [GoJson] decoded JSON documents, and [Calls] is a small Hoare logic
      for calls with an invariant and a result; this file holds the error values, the state-and-error monad,
      machine integers, loop rules, and the preservation calculus with its hint
      database [evpn].
    - [Sim], [SimWorld], [SimRemote], [SimOvsdb], [SimNetlink], [SimCni], [SimOperator] and [SimModel1] are
      concrete instances of every parameter (file system, codec, speaker, databases, kernel,
      node, cluster) that satisfy the stated laws, and [Witnesses], [NetlinkWitnesses],
      [CniWitnesses], [OperatorWitnesses], [Model1Witnesses], [ExportWitnesses],
      [VethWitnesses], [CniResourcesWitnesses], [CniPluginWitnesses] and
      [BgpHandlerWitnesses] apply each property to a run in them.

    ** How Go is modelled

    A method is a function of the Go state it can reach and of a world [W] that stands
    for everything outside (kernel, speaker, database), in the monad [M S A = S -> S *
    result A]: the state is changed even when the call fails.  Early returns are
    [fail], a call whose error is inspected is [attempt], [fmt.Errorf] with [%w] is
    [wrap].  A mutex-protected method is one atomic step; interleavings of methods are
    the step relations [jstep], [rr_step], [x_step], [round], [pstep], [nstep], [gstep],
    [istep], [m1step], [cstep], [server_step] and [op_step], and other processes change the world between them
    ([js_world], [xs_world], [ps_world], [ns_env], [is_env], [m1_world], [cs_world], [ss_world]).  Strings are byte
    sequences; integers are [Z] with their width written where it matters
    ([uint64] sequence numbers).  Maps are [gmap], sets [gset]; loops over maps follow
    the sorted order the code uses, or any order of the keys ([MapRange]).  Pointers used as identities (planned operations)
    are numbers from an allocator.  Error values keep their sentinel, which the code
    tests, and drop the formatted text.  Loops are structural folds ([rfold], [mfold]);
    the endless [Run] takes fuel, one unit per round, and [Run_gives_up] shows that
    [maxRetries] units are enough once rounds keep failing; [observe_polls] takes 51, the
    polls of 100 ms that fit into its deadline of 5 s, after which the context is done.

    ** What the theorems show

    - Journal: reachable records are well formed and their sequence never
      decreases; a closed or failed journal is fenced for good; what is written is
      what is read; a write is atomic under every failure; [Open] never turns missing
      metadata into fresh ownership.
    - Routes and reconciler: a route carries exactly its endpoint; applied
      plans converge to the desired set, withdrawals first; on a live speaker they
      always run to the end; failures change nothing; ownership is adopted only with
      evidence in the RIB.
    - Speaker: snapshots are complete, writes are exclusive and exact.
    - Durable export: recovery never adopts, intents precede effects,
      receipts follow readbacks, memory agrees with the journal.
    - Exporter: convergence of a round, permanent fencing, dry run, gated
      writes, drains, and the meaning of an accepted configuration.
    - Attachments and endpoints: deletes and updates touch only what the
      identity owns, also against concurrent writers; checks are read only and sound;
      teardown is ordered; metadata round trips.
    - Remote observation: an endpoint set is published only after two
      equal complete observations in a row, each endpoint is backed by validated paths
      and allowed by the policy with no MAC or IP shared, and uncertainty freezes what
      was published.
    - Remote programming: a kernel write happens only right after a listing that showed
      the slot free, or the confirmed entry alone in it, with its intent durable
      ([netlink_writes_guarded]); the stored receipts are always ones a restart accepts
      ([receipts_survive_restart]); the importer only makes the calls this relies on
      ([importer_refines_guarded]), a round that returns has programmed exactly its
      snapshot ([round_programs_snapshot]), and its counters never wrap or go back
      ([counters_stay_bounded]).  Without ownership, a round still ends in the routes of
      an order-free reference ([ReconcileOnce_order_free]) and the loop gives up on a
      broken RIB ([Run_gives_up]).  The OVSDB-programmed handler ends a round with exactly
      the tunnels of its snapshot ([model1_converges]) and ignores old ones
      ([stale_snapshot_inert]); its programmer changes only rows it owns
      ([programmer_writes_owned]) and rewrites bridge mappings without losing any
      ([bridge_mappings_roundtrip]).
    - CNI: ADD and DEL of the plain server do what they answer and undo each other
      ([Add_spec], [add_del_roundtrip]).  With continuity, effects follow durable intents
      and answers follow observations ([durable_add_write_ahead],
      [durable_del_write_ahead]); an unresolved intent stops the agent
      ([uncertain_outcome_blocks]); a restart accepts what any history left
      ([acks_survive_restart]) and adopts nothing else ([recovery_adopts_nothing]); the
      whole server refines the continuity ([durable_server_refines]), is retired by its
      drain ([drained_server_retired]) and lets only acknowledged endpoints be advertised
      ([advertise_acknowledged]).  The plugin gives an endpoint the identity the exporter
      accepts ([plugin_identity_exportable]) and can print whatever the server answers
      ([added_is_printable]).
    - Resources of an endpoint: the Linux backend attaches as a whole or not at all
      ([veth_Ensure_atomic]), a passed check has seen both sides ([veth_Check_sound]) and only
      owned interfaces are deleted ([veth_Delete_owned]); the observer reports exactly what
      the databases hold ([observation_exact]), the deletion is fenced by the acknowledged
      receipt ([DeleteExact_fenced]) and the attestor answers what it read
      ([attestor_sound]).
    - Observers: a reason not to export is empty exactly when the databases show the
      attachment ([export_reason_exact]); each observer offers exactly the endpoints with
      evidence ([cni_observer_exact], [native_observer_exact], [ovn_observer_exact]), so that
      what is advertised is attached here ([advertised_is_attached]).

    - BGP advertisement handler: a path changes only the ports it names
      ([handlePathOVSDB_confined]) and only its entries of the bridge
      ([handlePathNetlink_confined]), a retried call ends within eight attempts
      ([ovsdbWithRetry_bounded]), and the default VNI is the least configured one
      ([defaultVNI_least]).  [two_speakers_share_a_tunnel], [distinguisher_crashes] and
      [withdraw_drops_shared_entries] show where routes disturb each other or the process.

    - Operator: a reconciliation follows the protocol ([operator_refines]), so it never
      touches foreign objects ([operator_spares_foreign]), strands no child
      ([operator_journal_complete]), keeps the journal a map ([operator_journal_typed]),
      yields to the holder of the lock ([operator_locked_out]) and, when deletion ends,
      has left nothing behind ([deletion_complete]).  [Ready] is never reported early
      ([workloadStatus_ready]), drift is detected exactly ([controlledFieldsEqual_spec]),
      and configured values cannot escape into a shell ([shellQuote_roundtrip]).

    ** Assumptions and bounds

    The hypotheses on outside code are the classes [PosixLaws], [JsonLaws] and [JsonStruct] (a value
    decodes to itself and a struct is not written as [null]; for strings that are valid UTF-8, which [encoding/json]
    preserves), [BgpLaws] (two NLRIs with the same encoding have the same text),
    [OvsdbWait] (RFC 7047: a transaction whose wait fails changes nothing), [TypedKernel]
    (the kernel gives a neighbour it lists a type), [devices_apart] (an interface index
    belongs to one interface) and
    [Sha256Laws] (a digest is not the empty text), [AnnotationLaws] (annotations that were set
    are read back) and [KubeStore] (reads are true and quiet, a write that fails has its effect
    or not, patches and deletes honour their preconditions, nobody else writes to the
    cluster during a reconciliation) and [TunnelStore] (an operation on a tunnel touches only
    that tunnel, and a creation that fails left nothing behind; [lost_answer_orphans_tunnel]
    is a run without the latter), [veth_contract] (netlink changes only the interface it
    names, and a thread that entered a namespace comes back: the code ignores an error there)
    and, for [DeleteExact_fenced], that nothing but a fenced transaction can break the
    predicate; [observe_sound] assumes that SHA-256
    does not collide on the endpoint identities of one observation ([collision_free]).
    Where a theorem speaks about an arbitrary world predicate [P], it is read as "no
    call but the named one can break [P]".

    ** Not modelled

    Log texts and error messages, context deadlines other than as an error value at
    the points the code tests, and crash-consistency of the file system below rename
    and fsync.  Of the node agent, the probes of processes and of containerd, the admission
    of callers and the wiring of its parts are not modelled; neither are the gRPC services
    [evpn_mgmt] and [ovsdb_mgmt] in [src/services] and the event stream of the third, nor the watches and events of the operator.  Generated code and the
    end-to-end tools are left out. *)

From stdpp Require Export base option list list_numbers strings gmap sets sorting pretty.
From Stdlib Require Export ZArith Lia.

#[global] Open Scope Z_scope.

(** ** Go error values

    An error is either produced by [fmt.Errorf]/[errors.New] with no sentinel
    in its chain, or wraps one of the sentinel errors the packages export
    ([%w]).  [ExtErr] is an error value returned by code outside the model
    (an RPC, a system call without a tested errno), [Errno] a system-call error
    number (tested with [errors.Is]), [CtxErr] the error of a finished context,
    [Wrapped] a [%w] of another error and [Joined] the result of [errors.Join]. *)

Inductive sentinel :=
  | SBlocked                       (* ownership.ErrBlocked *)
  | SRouteOwnership                (* evpn.ErrRouteOwnership *)
  | SStaleRouteOperation           (* evpn.ErrStaleRouteOperation *)
  | SRouteOrder                    (* evpn.ErrRouteOrder *)
  | SRouteResyncRequired           (* evpn.ErrRouteResyncRequired *)
  | SAttachmentOwnershipConflict   (* attachment.ErrAttachmentOwnershipConflict *)
  | SStaleOperation                (* attachment.ErrStaleOperation *)
  | SAttachmentNotFound            (* attachment.ErrAttachmentNotFound *)
  | SCNIRuntimePending             (* nodeagent.errCNIRuntimePending *)
  | SCNIIdentityConflict           (* nodeagent.errCNIIdentityConflict *)
  | SCNIResourceUnready            (* nodeagent.errCNIResourceUnready *)
  | SKubeNotFound                  (* apierrors.IsNotFound *)
  | SKubeAlreadyExists             (* apierrors.IsAlreadyExists *)
  | SKubeConflict                  (* apierrors.NewConflict *)
  | SSnapshotChanged               (* controllers.errSnapshotChanged *)
  | SInstallationConflict.         (* controllers.ownershipConflict *)

Inductive error :=
  | Errorf (msg : string)
  | Sentinel (s : sentinel) (msg : string)
  | Errno (n : Z)
  | ExtErr (msg : string)
  | CtxErr (msg : string)
  | Wrapped (msg : string) (e : error)
  | Joined (e1 e2 : error).

#[export] Instance sentinel_eq_dec : EqDecision sentinel.
Proof. solve_decision. Defined.
#[export] Instance error_eq_dec : EqDecision error.
Proof. solve_decision. Defined.

(** [errors.Is err s] for a sentinel. *)
Fixpoint errors_Is (e : error) (s : sentinel) : bool :=
  match e with
  | Sentinel s' _ => bool_decide (s = s')
  | Wrapped _ e => errors_Is e s
  | Joined e1 e2 => errors_Is e1 s || errors_Is e2 s
  | _ => false
  end.

(** [errors.Is err errno]. *)
Fixpoint errno_Is (e : error) (n : Z) : bool :=
  match e with
  | Errno n' => n =? n'
  | Wrapped _ e => errno_Is e n
  | Joined e1 e2 => errno_Is e1 n || errno_Is e2 n
  | _ => false
  end.

(** [errors.Join e1 e2]: [nil] operands are dropped. *)
Definition errors_Join (e1 e2 : option error) : option error :=
  match e1, e2 with
  | None, e => e
  | e, None => e
  | Some a, Some b => Some (Joined a b)
  end.

(** ** Results: the value of a Go function returning [(A, error)] or [error]. *)

Inductive result (A : Type) :=
  | Ok (a : A)
  | Err (e : error).
Arguments Ok {A} a.
Arguments Err {A} e.

#[export] Instance result_eq_dec {A} `{EqDecision A} : EqDecision (result A).
Proof. solve_decision. Defined.

Definition is_ok {A} (r : result A) : bool :=
  match r with Ok _ => true | Err _ => false end.

Definition of_error (e : option error) : result unit :=
  match e with None => Ok tt | Some e => Err e end.

Definition to_error {A} (r : result A) : option error :=
  match r with Ok _ => None | Err e => Some e end.

Definition rbind {A B} (r : result A) (k : A -> result B) : result B :=
  match r with Ok a => k a | Err e => Err e end.

(** The error of a library call, replaced by the caller's own ([fmt.Errorf]
    around it without [%w]). *)
Definition map_err {A} (f : error -> error) (r : result A) : result A :=
  match r with Ok a => Ok a | Err e => Err (f e) end.

Definition of_option {A} (e : error) (o : option A) : result A :=
  match o with Some a => Ok a | None => Err e end.

(** ** Effects: a state threaded through fallible calls.

    The state survives an error, as the fields of a Go struct do. *)

Definition M (S A : Type) : Type := S -> S * result A.

Definition ret {S A} (a : A) : M S A := fun s => (s, Ok a).
Definition fail {S A} (e : error) : M S A := fun s => (s, Err e).
Definition bind {S A B} (m : M S A) (k : A -> M S B) : M S B :=
  fun s => let '(s', r) := m s in
           match r with Ok a => k a s' | Err e => (s', Err e) end.
Definition lift {S A} (r : result A) : M S A := fun s => (s, r).
Definition gets {S A} (f : S -> A) : M S A := fun s => (s, Ok (f s)).
Definition modify {S} (f : S -> S) : M S unit := fun s => (f s, Ok tt).

(** Run a call and keep its error as a value: [x, err := f()]. *)
Definition attempt {S A} (m : M S A) : M S (result A) :=
  fun s => let '(s', r) := m s in (s', Ok r).

(** Map the error of a call ([fmt.Errorf("...: %w", err)]). *)
Definition wrap {S A} (f : error -> error) (m : M S A) : M S A :=
  fun s => let '(s', r) := m s in (s', map_err f r).

(** Run a call on the second component of the state: an object that owns a
    field of type [T] calls into the outside world [W]. *)
Definition on_snd {T W A} (m : M W A) : M (T * W) A :=
  fun s => let '(w', r) := m s.2 in ((s.1, w'), r).

(** [for _, x := range l { acc, err = f(acc, x); if err != nil { return } }]. *)
Fixpoint mfold {S A B} (f : B -> A -> M S B) (acc : B) (l : list A) : M S B :=
  match l with
  | [] => ret acc
  | x :: l => bind (f acc x) (fun acc => mfold f acc l)
  end.

(** The same loop over a pure fallible body. *)
Fixpoint rfold {A B} (f : B -> A -> result B) (acc : B) (l : list A) : result B :=
  match l with
  | [] => Ok acc
  | x :: l => rbind (f acc x) (fun acc => rfold f acc l)
  end.

(** [context.Context]: what [ctx.Err()] answers in a world. *)
Class Ctx (W : Type) := ctx_Err : W -> option error.

Declare Scope go_scope.
Delimit Scope go_scope with go.

Notation "'let!' x ':=' m 'in' k" := (bind m (fun x => k))
  (at level 10, x pattern, m at level 100, k at level 200) : go_scope.
Notation "'do!' m 'in' k" := (bind m (fun _ => k))
  (at level 10, m at level 100, k at level 200) : go_scope.
Notation "'let?' x ':=' r 'in' k" := (rbind r (fun x => k))
  (at level 10, x pattern, r at level 100, k at level 200) : go_scope.
#[global] Open Scope go_scope.

(** ** Machine integers *)

Definition u64_max : Z := 2 ^ 64 - 1.
Definition u32_max : Z := 2 ^ 32 - 1.
Definition wrap64 (z : Z) : Z := z mod 2 ^ 64.
Definition is_u64 (z : Z) : Prop := 0 <= z <= u64_max.
Definition max_vni : Z := 16777215.
#[global] Arguments wrap64 : simpl never.
#[global] Arguments u64_max : simpl never.
#[global] Arguments Z.mul : simpl never.
#[global] Arguments Z.land : simpl never.

Lemma wrap64_small z : is_u64 z -> wrap64 z = z.
Proof. unfold is_u64, u64_max, wrap64. intros. apply Z.mod_small. lia. Qed.

Lemma wrap64_range z : is_u64 (wrap64 z).
Proof.
  unfold is_u64, u64_max, wrap64. pose proof (Z.mod_pos_bound z (2 ^ 64)). lia.
Qed.

(** ** Automation *)

(** Split every conjunction of a boolean guard and every record equality. *)
Ltac go_simpl := repeat (progress (simplify_eq/= || destruct_and?)).

(** Case analysis on all the branches of an executed body. *)
Ltac go_cases := repeat (case_match; simplify_eq/=); try done.

(** Turn the boolean tests of the code into propositions. *)
Ltac bools :=
  repeat match goal with
  | H : bool_decide _ = true |- _ => apply bool_decide_eq_true_1 in H
  | H : bool_decide _ = false |- _ => apply bool_decide_eq_false_1 in H
  | H : negb _ = true |- _ => apply negb_true_iff in H
  | H : negb _ = false |- _ => apply negb_false_iff in H
  | H : (_ && _) = true |- _ => apply andb_true_iff in H as [? ?]
  | H : (_ || _) = false |- _ => apply orb_false_iff in H as [? ?]
  | H : (_ =? _) = true |- _ => apply Z.eqb_eq in H
  | H : (_ =? _) = false |- _ => apply Z.eqb_neq in H
  | H : (_ <? _) = true |- _ => apply Z.ltb_lt in H
  | H : (_ <? _) = false |- _ => apply Z.ltb_ge in H
  | H : (_ <=? _) = true |- _ => apply Z.leb_le in H
  | H : (_ <=? _) = false |- _ => apply Z.leb_gt in H
  end.

(** Inversion of an executed body: [H : m s = (s', r)] becomes one hypothesis
    per call it made. *)
Lemma bind_inv {S A B} (m : M S A) (k : A -> M S B) s s' r :
  bind m k s = (s', r) ->
  (exists s1 a, m s = (s1, Ok a) /\ k a s1 = (s', r)) \/
  (exists e, m s = (s', Err e) /\ r = Err e).
Proof. unfold bind. destruct (m s) as [s1 [a|e]]; naive_solver. Qed.

Lemma bind_ok_inv {S A B} (m : M S A) (k : A -> M S B) s s' b :
  bind m k s = (s', Ok b) -> exists s1 a, m s = (s1, Ok a) /\ k a s1 = (s', Ok b).
Proof. intros [?|(e & _ & ?)]%bind_inv; [done|discriminate]. Qed.

Lemma attempt_inv {S A} (m : M S A) s s' r :
  attempt m s = (s', r) -> exists r', m s = (s', r') /\ r = Ok r'.
Proof. unfold attempt. destruct (m s). naive_solver. Qed.

Lemma wrap_inv {S A} f (m : M S A) s s' r :
  wrap f m s = (s', r) -> exists r', m s = (s', r') /\ r = map_err f r'.
Proof. unfold wrap. destruct (m s). naive_solver. Qed.

Lemma wrap_ok_inv {S A} f (m : M S A) s s' a :
  wrap f m s = (s', Ok a) -> m s = (s', Ok a).
Proof. unfold wrap. destruct (m s) as [? []]; naive_solver. Qed.

Lemma on_snd_inv {T W A} (m : M W A) (s s' : T * W) r :
  on_snd m s = (s', r) -> s'.1 = s.1 /\ m s.2 = (s'.2, r).
Proof. unfold on_snd. destruct s, (m _). naive_solver. Qed.

Lemma bind_gets {S A B} (f : S -> A) (k : A -> M S B) s : bind (gets f) k s = k (f s) s.
Proof. done. Qed.

Lemma bind_lift {S A B} (x : result A) (k : A -> M S B) s :
  bind (lift x) k s = match x with Ok a => k a s | Err e => (s, Err e) end.
Proof. done. Qed.

Lemma bind_attempt {S A B} (m : M S A) (k : result A -> M S B) s : bind (attempt m) k s = k (m s).2 (m s).1.
Proof. unfold bind, attempt. by destruct (m s). Qed.

Ltac mstep :=
  match goal with
  | H : bind _ _ _ = (_, Ok _) |- _ => apply bind_ok_inv in H as (? & ? & ? & ?)
  | H : attempt _ _ = (_, _) |- _ => apply attempt_inv in H as (? & ? & ?)
  | H : wrap _ _ _ = (_, Ok _) |- _ => apply wrap_ok_inv in H
  | H : on_snd _ _ = (_, _) |- _ => apply on_snd_inv in H as [? ?]
  | H : ret _ _ = (_, _) |- _ => unfold ret in H
  | H : fail _ _ = (_, _) |- _ => unfold fail in H
  | H : lift _ _ = (_, _) |- _ => unfold lift in H
  | H : gets _ _ = (_, _) |- _ => unfold gets in H
  | H : modify _ _ = (_, _) |- _ => unfold modify in H
  | H : (if ?b then _ else _) _ = (_, _) |- _ => destruct b eqn:?
  | H : (match ?x with _ => _ end) _ = (_, _) |- _ => destruct x eqn:?
  | H : (_, _) = (_, _) |- _ => injection H as H; subst
  end; simplify_eq/=.

(** Run the inversion to the end; [msteps] leaves one goal per feasible path. *)
Ltac msteps := repeat mstep.

(** The same for calls whose result is not known to be [Ok]. *)
Ltac mstep_any :=
  match goal with
  | H : bind _ _ _ = (_, Ok _) |- _ => apply bind_ok_inv in H as (? & ? & ? & ?)
  | H : bind _ _ _ = (_, _) |- _ => apply bind_inv in H as [(? & ? & ? & ?)|(? & ? & ?)]
  | H : wrap _ _ _ = (_, Err _) |- _ => apply wrap_inv in H as (? & ? & ?)
  | _ => mstep
  end; simplify_eq/=.
Ltac msteps_any := repeat mstep_any.

Create HintDb evpn discriminated.

(** Loop invariants: [P done acc] holds before each round, where [done] are the
    elements already processed. *)
Lemma rfold_invariant {A B} (f : B -> A -> result B) (P : list A -> B -> Prop) l acc acc' :
  P [] acc ->
  (forall done x b b', x ∈ l -> P done b -> f b x = Ok b' -> P (done ++ [x]) b') ->
  rfold f acc l = Ok acc' -> P l acc'.
Proof.
  intros H0 Hs. assert (forall done l', l = done ++ l' -> forall b, P done b ->
    rfold f b l' = Ok acc' -> P l acc') as H; [|by apply (H [])].
  intros done l'. revert done. induction l' as [|x l' IH]; intros done -> b Hb; simpl.
  - intros [= ->]. by rewrite app_nil_r.
  - unfold rbind. destruct (f b x) as [b'|] eqn:E; [|done]. intros H.
    eapply (IH (done ++ [x])); [by rewrite <-app_assoc|..|exact H].
    eapply Hs; [|done..]. set_solver.
Qed.

Lemma mfold_invariant {S A B} (f : B -> A -> M S B) (P : list A -> B -> S -> Prop) l acc acc' s s' :
  P [] acc s ->
  (forall done x b b' s s', x ∈ l -> P done b s -> f b x s = (s', Ok b') -> P (done ++ [x]) b' s') ->
  mfold f acc l s = (s', Ok acc') -> P l acc' s'.
Proof.
  intros H0 Hs. assert (forall done l', l = done ++ l' -> forall b s, P done b s ->
    mfold f b l' s = (s', Ok acc') -> P l acc' s') as H; [|by eapply (H [])].
  intros done l'. revert done. induction l' as [|x l' IH]; intros done -> b s0 Hb; simpl.
  - intros [= -> ->]. by rewrite app_nil_r.
  - intros (s1 & b1 & Hf & H)%bind_ok_inv.
    eapply (IH (done ++ [x])); [by rewrite <-app_assoc|..|exact H].
    eapply Hs; [|done..]. set_solver.
Qed.

(** A relation every round respects, whatever the loop returns. *)
(** A loop whose steps keep [Q] with every outcome, and [P] when they succeed. *)
Lemma mfold_run {S A B} (f : B -> A -> M S B) (P Q : S -> Prop) l acc s s' r :
  (forall s, P s -> Q s) ->
  (forall b a s s' r, a ∈ l -> P s -> f b a s = (s', r) -> Q s' /\ (is_ok r = true -> P s')) ->
  P s -> mfold f acc l s = (s', r) -> Q s' /\ (is_ok r = true -> P s').
Proof.
  intros HPQ. revert acc s. induction l as [|a l IH]; intros acc s Hstep Hs H; simpl in H.
  - unfold ret in H. simplify_eq. auto.
  - apply bind_inv in H as [(s1 & b & Hf & H)|(e & Hf & ->)]; (eapply Hstep in Hf as [HQ HP]; [|left|done]); [|done].
    eapply IH; [|by apply HP|exact H]. intros. eapply Hstep; [by right|done..].
Qed.

Lemma mfold_preserves {S A B} (f : B -> A -> M S B) (P : S -> Prop) l :
  (forall x b s, P s -> P (f b x s).1) ->
  forall acc s, P s -> P (mfold f acc l s).1.
Proof.
  intros Hf. induction l as [|x l IH]; intros acc s Hs; simpl; [done|].
  unfold bind. pose proof (Hf x acc s Hs). destruct (f acc x s) as [s1 [b|e]]; [by apply IH|done].
Qed.

(** ** Preservation

    A body preserves a predicate of the state when every outcome does.  The
    lemmas follow the structure of the code; the database [evpn] applies them. *)
Definition preserves {S A} (I : S -> Prop) (m : M S A) : Prop := forall s, I s -> I (m s).1.

Section preserves.
Context {S : Type} (I : S -> Prop).

Lemma preserves_ret {A} (a : A) : preserves I (ret a).
Proof. by intros s. Qed.
Lemma preserves_fail {A} e : preserves I (fail (A := A) e).
Proof. by intros s. Qed.
Lemma preserves_lift {A} (r : result A) : preserves I (lift r).
Proof. by intros s. Qed.
Lemma preserves_gets {A} (f : S -> A) : preserves I (gets f).
Proof. by intros s. Qed.
Lemma preserves_modify f : (forall s, I s -> I (f s)) -> preserves I (modify f).
Proof. intros H s. apply H. Qed.
Lemma preserves_bind {A B} (m : M S A) (k : A -> M S B) :
  preserves I m -> (forall a, preserves I (k a)) -> preserves I (bind m k).
Proof.
  intros Hm Hk s Hs. unfold bind. specialize (Hm s Hs). destruct (m s) as [s' [a|e]]; [by apply Hk|done].
Qed.
Lemma preserves_bind_gets {A B} (f : S -> A) (k : A -> M S B) :
  (forall s, I s -> I (k (f s) s).1) -> preserves I (bind (gets f) k).
Proof. intros H s Hs. by apply H. Qed.
Lemma preserves_attempt {A} (m : M S A) : preserves I m -> preserves I (attempt m).
Proof. intros Hm s Hs. unfold attempt. specialize (Hm s Hs). by destruct (m s). Qed.
Lemma preserves_wrap {A} f (m : M S A) : preserves I m -> preserves I (wrap f m).
Proof. intros Hm s Hs. unfold wrap. specialize (Hm s Hs). by destruct (m s). Qed.
Lemma preserves_mfold {A B} (f : B -> A -> M S B) l :
  (forall b x, preserves I (f b x)) -> forall acc, preserves I (mfold f acc l).
Proof. intros Hf acc s Hs. by apply (mfold_preserves f I); [intros; apply Hf|]. Qed.
End preserves.

(** A predicate of the final state, by the outcome of the first call. *)
Lemma bind_case {S A B} (Q : S -> Prop) (m : M S A) (k : A -> M S B) s :
  (forall s1 a, m s = (s1, Ok a) -> Q (k a s1).1) -> (forall s1 e, m s = (s1, Err e) -> Q s1) ->
  Q (bind m k s).1.
Proof. unfold bind. destruct (m s) as [s1 [a|e]]; simpl; eauto. Qed.

#[export] Hint Resolve preserves_ret preserves_fail preserves_lift preserves_gets preserves_bind
  preserves_attempt preserves_wrap preserves_mfold : evpn.

(** Walk down a body; the calls it makes are left to the context and [evpn]. *)
Ltac pres :=
  repeat (intros; lazymatch goal with
    | |- preserves _ (ret _) => apply preserves_ret
    | |- preserves _ (fail _) => apply preserves_fail
    | |- preserves _ (lift _) => apply preserves_lift
    | |- preserves _ (gets _) => apply preserves_gets
    | |- preserves _ (bind _ _) => apply preserves_bind
    | |- preserves _ (attempt _) => apply preserves_attempt
    | |- preserves _ (wrap _ _) => apply preserves_wrap
    | |- preserves _ (mfold _ _ _) => apply preserves_mfold
    | |- preserves _ (match ?x with _ => _ end) => destruct x
    | |- preserves _ _ => solve [auto with evpn]
    end).

Lemma preserves_use {S A} (I : S -> Prop) (m : M S A) s : preserves I m -> I s -> I (m s).1.
Proof. auto. Qed.

Lemma preserves_run {S A} (I : S -> Prop) (m : M S A) s s' r :
  preserves I m -> I s -> m s = (s', r) -> I s'.
Proof. intros Hm Hs E. specialize (Hm s Hs). by rewrite E in Hm. Qed.

Lemma preserves_on_snd {T W A} (P : W -> Prop) (Q : T -> Prop) (m : M W A) :
  preserves P m -> preserves (fun s => Q s.1 /\ P s.2) (on_snd m).
Proof. intros Hm [t w] [Hq Hp]. unfold on_snd. specialize (Hm w Hp). simpl in *. by destruct (m w). Qed.
