(* ===== verification/GoStd.v ===== *)
(** * The parts of the Go standard library the program uses

    Strings are byte strings.  [TrimSpace] and [Fields] know every white-space
    rune of [unicode.IsSpace] by its UTF-8 encoding; [ParseMAC], [ParseAddr],
    [ParseIP] and [ParseCIDR] follow packages [net] and [net/netip], with the
    addresses they return and their [String] methods; [sort_Strings] is
    [sort.Strings].  The lemmas at the end are the facts the components use:
    trimming is idempotent, an IPv4 address prints to a string that parses back
    to it, sorting is a canonical form of a multiset of strings. *)

From S2P Require Import Prelude.
From Stdlib Require Import Ascii.

Definition chars (s : string) : list ascii := String.list_ascii_of_string s.
Definition str (l : list ascii) : string := String.string_of_list_ascii l.
Definition code (c : ascii) : Z := Z.of_N (N_of_ascii c).
Definition byte (z : Z) : ascii := ascii_of_N (Z.to_N z).

(** [err.Error()], without the formatted operands. *)
Fixpoint error_text (e : error) : string :=
  match e with
  | Errorf m | Sentinel _ m | ExtErr m | CtxErr m => m
  | Errno _ => ""
  | Wrapped m e => m +:+ ": " +:+ error_text e
  | Joined e1 e2 => error_text e1 +:+ str [byte 10] +:+ error_text e2
  end.

(** ** Package strings *)

(** The UTF-8 encodings of the runes of [unicode.IsSpace]. *)
Definition space_runes : list (list ascii) :=
  (map byte <$> [[9]; [10]; [11]; [12]; [13]; [32]; [194; 133]; [194; 160];
     [225; 154; 128]]) ++
  (map byte <$> ((fun z => [226; 128; z]) <$> seqZ 128 11)) ++
  (map byte <$> [[226; 128; 168]; [226; 128; 169]; [226; 128; 175];
     [226; 129; 159]; [227; 128; 128]]).

Fixpoint strip (p l : list ascii) : option (list ascii) :=
  match p, l with
  | [], l => Some l
  | a :: p, b :: l => if bool_decide (a = b) then strip p l else None
  | _ :: _, [] => None
  end.

(** The rest of [l] after the first of the encodings that begins it. *)
Fixpoint strip_any (ps : list (list ascii)) (l : list ascii) : option (list ascii) :=
  match ps with
  | [] => None
  | p :: ps => match strip p l with Some r => Some r | None => strip_any ps l end
  end.

Fixpoint trim_front (ps : list (list ascii)) (fuel : nat) (l : list ascii) : list ascii :=
  match fuel with
  | O => l
  | S fuel => match strip_any ps l with Some r => trim_front ps fuel r | None => l end
  end.

Definition trim_l (l : list ascii) : list ascii := trim_front space_runes (length l) l.
Definition trim_r (l : list ascii) : list ascii :=
  rev (trim_front (@rev ascii <$> space_runes) (length l) (rev l)).

Definition TrimSpace (s : string) : string := str (trim_r (trim_l (chars s))).

(** [strings.TrimSpace(s) == ""] *)
Definition blank (s : string) : bool := bool_decide (TrimSpace s = "").

(** [strings.Join] *)
Fixpoint Join (l : list string) (sep : string) : string :=
  match l with
  | [] => ""
  | [x] => x
  | x :: l => (x +:+ sep +:+ Join l sep)%string
  end.

Definition HasPrefix (s p : string) : bool := String.prefix p s.
(** [strings.Contains] *)
Fixpoint Contains (s sub : string) : bool :=
  String.prefix sub s || match s with String _ s => Contains s sub | EmptyString => false end.
Definition TrimPrefix (s p : string) : string :=
  match strip (chars p) (chars s) with Some r => str r | None => s end.

(** [strings.Contains(s, c)] and [strings.ContainsAny] for ASCII sets. *)
Definition ContainsAny (s cs : string) : bool :=
  existsb (fun a => existsb (Ascii.eqb a) (chars cs)) (chars s).

Definition lower (c : ascii) : ascii :=
  if (65 <=? code c) && (code c <=? 90) then byte (code c + 32) else c.

(** [strings.ToLower] on ASCII text; every use is on a MAC address or on a
    hexadecimal digest. *)
Definition ToLower (s : string) : string := str (map lower (chars s)).

(** [strings.Fields]: maximal runs of non-space bytes. *)
Fixpoint fields_go (fuel : nat) (cur : list ascii) (l : list ascii) : list string :=
  let flush := match cur with [] => [] | _ => [str (rev cur)] end in
  match fuel with
  | O => flush
  | S fuel =>
      match strip_any space_runes l with
      | Some r => flush ++ fields_go fuel [] r
      | None => match l with
                | [] => flush
                | c :: r => fields_go fuel (c :: cur) r
                end
      end
  end.
Definition Fields (s : string) : list string := fields_go (S (length (chars s))) [] (chars s).

(** [strconv.FormatUint(v, 10)], [fmt.Sprintf("%d", v)] *)
Definition itoa (z : Z) : string := pretty z.

(** ** Package sort *)

Definition sort_Strings (l : list string) : list string := merge_sort String.le l.

(** Sorting records by a string field ([sort.Slice] with a strict order on the
    field).  The program only sorts slices whose field values are distinct, or
    whose order of equal elements it does not observe. *)
Definition key_le {A} (key : A -> string) (a b : A) : Prop := String.le (key a) (key b).
#[export] Instance key_le_dec {A} (key : A -> string) (a b : A) : Decision (key_le key a b).
Proof. unfold key_le. apply _. Defined.
Definition sort_by {A} (key : A -> string) (l : list A) : list A := merge_sort (key_le key) l.

(** The keys of a map, in the order of [sort.Strings]. *)
Definition sorted_keys {A} (m : gmap string A) : list string := sort_Strings (map_to_list m).*1.

(** ** Package net and net/netip *)

Fixpoint split_go (c : ascii) (cur : list ascii) (l : list ascii) : list (list ascii) :=
  match l with
  | [] => [rev cur]
  | a :: l => if bool_decide (a = c) then rev cur :: split_go c [] l else split_go c (a :: cur) l
  end.
(** [strings.Split] with a one-byte separator. *)
Definition split (c : ascii) (l : list ascii) : list (list ascii) := split_go c [] l.

Definition digit (c : ascii) : option Z :=
  if (48 <=? code c) && (code c <=? 57) then Some (code c - 48) else None.
Definition hex_digit (c : ascii) : option Z :=
  if (48 <=? code c) && (code c <=? 57) then Some (code c - 48)
  else if (97 <=? code c) && (code c <=? 102) then Some (code c - 87)
  else if (65 <=? code c) && (code c <=? 70) then Some (code c - 55) else None.

Definition hex_pair (a b : ascii) : option Z :=
  x ← hex_digit a; y ← hex_digit b; Some (16 * x + y).

(** [net.ParseMAC]: EUI-48, EUI-64 and 20-octet addresses in colon, hyphen or
    dot notation. *)
Fixpoint mac_pairs (sep : ascii) (l : list ascii) : option (list Z) :=
  match l with
  | [a; b] => x ← hex_pair a b; Some [x]
  | a :: b :: c :: r =>
      if bool_decide (c = sep) then x ← hex_pair a b; xs ← mac_pairs sep r; Some (x :: xs)
      else None
  | _ => None
  end.
Fixpoint mac_quads (l : list ascii) : option (list Z) :=
  match l with
  | [a; b; c; d] => x ← hex_pair a b; y ← hex_pair c d; Some [x; y]
  | a :: b :: c :: d :: e :: r =>
      if bool_decide (e = "."%char) then
        x ← hex_pair a b; y ← hex_pair c d; xs ← mac_quads r; Some (x :: y :: xs)
      else None
  | _ => None
  end.
Definition mac_length_ok (hw : list Z) : bool :=
  bool_decide (length hw ∈ [6%nat; 8%nat; 20%nat]).
Definition ParseMAC (s : string) : option (list Z) :=
  let l := chars s in
  hw ← (match l !! 2%nat with
        | Some ":"%char => mac_pairs ":"%char l
        | Some "-"%char => mac_pairs "-"%char l
        | _ => match l !! 4%nat with Some "."%char => mac_quads l | _ => None end
        end);
  if mac_length_ok hw then Some hw else None.

Definition hex_char (z : Z) : ascii := if z <? 10 then byte (48 + z) else byte (87 + z).
Definition hex2 (z : Z) : list ascii := [hex_char (z / 16); hex_char (z mod 16)].
(** [net.HardwareAddr.String] and [hex.EncodeToString] *)
Definition HardwareAddr_String (hw : list Z) : string :=
  Join (map (fun z => str (hex2 z)) hw) ":".
Definition hex_EncodeToString (bs : list Z) : string := str (concat (map hex2 bs)).

(** [hex.DecodeString] *)
Fixpoint hex_decode (l : list ascii) : option (list Z) :=
  match l with
  | [] => Some []
  | a :: b :: l => x ← hex_pair a b; xs ← hex_decode l; Some (x :: xs)
  | [_] => None
  end.
Definition hex_DecodeString (s : string) : option (list Z) := hex_decode (chars s).

(** [netip.Addr]: an IPv4 address or the 16 bytes of an IPv6 address and its zone. *)
Inductive Addr :=
  | Addr4 (a b c d : Z)
  | Addr6 (bs : list Z) (zone : string).

#[export] Instance Addr_eq_dec : EqDecision Addr.
Proof. solve_decision. Defined.

Fixpoint decimal (acc : Z) (l : list ascii) : option Z :=
  match l with
  | [] => Some acc
  | c :: l => d ← digit c; decimal (10 * acc + d) l
  end.
(** One dotted-decimal field: at most 255, no leading zero. *)
Definition octet (l : list ascii) : option Z :=
  match l with
  | [] => None
  | c :: r =>
      if bool_decide (c = "0"%char) && negb (bool_decide (r = [])) then None
      else v ← decimal 0 l; if v <=? 255 then Some v else None
  end.
Definition parseIPv4 (l : list ascii) : option Addr :=
  match split "."%char l with
  | [a; b; c; d] => a ← octet a; b ← octet b; c ← octet c; d ← octet d; Some (Addr4 a b c d)
  | _ => None
  end.

(** The leading run of hexadecimal digits of a group: its value and the rest;
    [None] when it has more than four digits. *)
Fixpoint hex_group (off : nat) (acc : Z) (l : list ascii) : option (nat * Z * list ascii) :=
  match l with
  | [] => Some (off, acc, [])
  | c :: r =>
      match hex_digit c with
      | None => Some (off, acc, l)
      | Some d => if (3 <? Z.of_nat off) then None else hex_group (S off) (16 * acc + d) r
      end
  end.

(** The loop of [netip.parseIPv6]: [bs] are the bytes so far, [ell] the position
    of an ellipsis.  Eight rounds fill the sixteen bytes. *)
Fixpoint ipv6_groups (fuel : nat) (bs : list Z) (ell : option nat) (l : list ascii)
    : option (list Z * option nat * list ascii) :=
  match fuel with
  | O => Some (bs, ell, l)
  | S fuel =>
      '(off, acc, rest) ← hex_group 0 0 l;
      if bool_decide (off = 0%nat) then None else
      match rest with
      | "."%char :: _ =>
          if (bool_decide (ell = None) && negb (bool_decide (length bs = 12%nat)))
             || (16 <? Z.of_nat (length bs) + 4) then None else
          a ← parseIPv4 l;
          match a with Addr4 w x y z => Some (bs ++ [w; x; y; z], ell, []) | _ => None end
      | [] => Some (bs ++ [acc / 256; acc mod 256], ell, [])
      | ":"%char :: [] => None
      | ":"%char :: ":"%char :: r =>
          let bs := bs ++ [acc / 256; acc mod 256] in
          if bool_decide (ell = None) then
            match r with
            | [] => Some (bs, Some (length bs), [])
            | _ => ipv6_groups fuel bs (Some (length bs)) r
            end
          else None
      | ":"%char :: r => ipv6_groups fuel (bs ++ [acc / 256; acc mod 256]) ell r
      | _ => None
      end
  end.

Definition ipv6_expand (bs : list Z) (ell : option nat) : option (list Z) :=
  if (Z.of_nat (length bs) <? 16) then
    e ← ell; Some (take e bs ++ replicate (16 - length bs) 0 ++ drop e bs)
  else if bool_decide (ell = None) then Some bs else None.

Definition parseIPv6 (l : list ascii) : option Addr :=
  let '(s, zone) := match split "%"%char l with
                    | [s] => (s, None)
                    | s :: z => (s, Some (Join (map str z) "%"))
                    | [] => (l, None)
                    end in
  if bool_decide (zone = Some ""%string) then None else
  let zone := default ""%string zone in
  match s with
  | ":"%char :: ":"%char :: [] => Some (Addr6 (replicate 16 0) zone)
  | _ =>
      '(bs, ell, rest) ← match s with
                         | ":"%char :: ":"%char :: r => ipv6_groups 8 [] (Some 0%nat) r
                         | _ => ipv6_groups 8 [] None s
                         end;
      if negb (bool_decide (rest = [])) then None else
      bs ← ipv6_expand bs ell; Some (Addr6 bs zone)
  end.

(** [netip.ParseAddr]: the first '.', ':' or '%' selects the family. *)
Fixpoint ParseAddr_go (whole l : list ascii) : option Addr :=
  match l with
  | [] => None
  | c :: l =>
      if bool_decide (c = "."%char) then parseIPv4 whole
      else if bool_decide (c = ":"%char) then parseIPv6 whole
      else if bool_decide (c = "%"%char) then None
      else ParseAddr_go whole l
  end.
Definition ParseAddr (s : string) : option Addr := ParseAddr_go (chars s) (chars s).

Definition is_4in6 (bs : list Z) : bool :=
  bool_decide (take 12 bs = replicate 10 0 ++ [255; 255]).

Definition ipv4_string (a b c d : Z) : string :=
  Join [itoa a; itoa b; itoa c; itoa d] ".".

Fixpoint words16 (bs : list Z) : list Z :=
  match bs with h :: l :: r => (256 * h + l) :: words16 r | _ => [] end.
Fixpoint hex_nozero (fuel : nat) (z : Z) : list ascii :=
  match fuel with
  | O => []
  | S fuel => if z <? 16 then [hex_char z] else hex_nozero fuel (z / 16) ++ [hex_char (z mod 16)]
  end.
(** The number of leading zero groups. *)
Fixpoint zero_run (ws : list Z) : nat :=
  match ws with 0 :: ws => S (zero_run ws) | _ => 0%nat end.
(** Start and length of the first longest run of at least two zero groups. *)
Fixpoint longest_run (i : nat) (ws : list Z) (best : option (nat * nat)) : option (nat * nat) :=
  match ws with
  | [] => best
  | _ :: ws' =>
      let n := zero_run ws in
      let better := (1 <? Z.of_nat n) &&
        match best with None => true | Some (_, m) => (Z.of_nat m <? Z.of_nat n) end in
      longest_run (S i) ws' (if better then Some (i, n) else best)
  end.
Definition hex_groups (ws : list Z) : string := Join (map (fun w => str (hex_nozero 5 w)) ws) ":".
Definition ipv6_string (bs : list Z) : string :=
  let ws := words16 bs in
  match longest_run 0 ws None with
  | None => hex_groups ws
  | Some (i, n) => (hex_groups (take i ws) +:+ "::" +:+ hex_groups (drop (i + n) ws))%string
  end.

(** [netip.Addr.String] *)
Definition Addr_String (ip : Addr) : string :=
  match ip with
  | Addr4 a b c d => ipv4_string a b c d
  | Addr6 bs zone =>
      let base := match is_4in6 bs, drop 12 bs with
                  | true, [a; b; c; d] => ("::ffff:" +:+ ipv4_string a b c d)%string
                  | _, _ => ipv6_string bs
                  end in
      if bool_decide (zone = ""%string) then base else (base +:+ "%" +:+ zone)%string
  end.

Definition Is4 (ip : Addr) : bool := match ip with Addr4 _ _ _ _ => true | _ => false end.
Definition Is6 (ip : Addr) : bool := negb (Is4 ip).
Definition IsUnspecified (ip : Addr) : bool :=
  match ip with
  | Addr4 a b c d => bool_decide ([a; b; c; d] = [0; 0; 0; 0])
  | Addr6 bs zone => bool_decide (bs = replicate 16 0) && bool_decide (zone = ""%string)
  end.
Definition IsLoopback (ip : Addr) : bool :=
  match ip with
  | Addr4 a _ _ _ => a =? 127
  | Addr6 bs _ =>
      bool_decide (bs = replicate 15 0 ++ [1])
      || (is_4in6 bs && bool_decide (bs !! 12%nat = Some 127))
  end.
Definition IsMulticast (ip : Addr) : bool :=
  match ip with
  | Addr4 a _ _ _ => Z.land a 240 =? 224
  | Addr6 bs _ =>
      bool_decide (bs !! 0%nat = Some 255)
      || (is_4in6 bs && match bs !! 12%nat with Some a => Z.land a 240 =? 224 | None => false end)
  end.
Definition IsLinkLocalUnicast (ip : Addr) : bool :=
  match ip with
  | Addr4 a b _ _ => (a =? 169) && (b =? 254)
  | Addr6 bs _ =>
      match bs with
      | x :: y :: _ => ((x =? 254) && (Z.land y 192 =? 128))
                       || (is_4in6 bs && bool_decide (bs !! 12%nat = Some 169)
                           && bool_decide (bs !! 13%nat = Some 254))
      | _ => false
      end
  end.
Definition IsGlobalUnicast (ip : Addr) : bool :=
  match ip with
  | Addr4 a b c d =>
      negb (bool_decide ([a; b; c; d] = [0; 0; 0; 0]))
      && negb (bool_decide ([a; b; c; d] = [255; 255; 255; 255]))
  | Addr6 _ _ => negb (IsUnspecified ip)
  end && negb (IsLoopback ip) && negb (IsMulticast ip) && negb (IsLinkLocalUnicast ip).

(** [net.ParseIP]: a zoneless address; an IPv4-mapped address is the IPv4 one
    ([IP.To4], [IP.String]). *)
Definition unmap (ip : Addr) : Addr :=
  match ip with
  | Addr6 bs _ => match is_4in6 bs, drop 12 bs with
                  | true, [a; b; c; d] => Addr4 a b c d
                  | _, _ => ip
                  end
  | _ => ip
  end.
Definition zoneless (ip : Addr) : bool :=
  match ip with Addr6 _ zone => bool_decide (zone = ""%string) | _ => true end.
Definition ParseIP (s : string) : option Addr :=
  ip ← ParseAddr s; if zoneless ip then Some (unmap ip) else None.

(** [net.ParseCIDR]: the address part. *)
Definition ParseCIDR (s : string) : option Addr :=
  match split "/"%char (chars s) with
  | addr :: mask :: more =>
      ip ← ParseAddr (str addr);
      if negb (zoneless ip) || negb (bool_decide (more = [])) || bool_decide (mask = []) then None
      else n ← decimal 0 mask;
           if (n <=? (if Is4 ip then 32 else 128)) then Some (unmap ip) else None
  | _ => None
  end.

(** ** Facts *)

Example ParseMAC_colon : ParseMAC "02:42:0a:00:00:fF" = Some [2; 66; 10; 0; 0; 255].
Proof. vm_compute. reflexivity. Qed.
Example ParseMAC_dot : ParseMAC "0242.0a00.00ff" = Some [2; 66; 10; 0; 0; 255].
Proof. vm_compute. reflexivity. Qed.
Example ParseMAC_short : ParseMAC "02:42:0a:00:00" = None.
Proof. vm_compute. reflexivity. Qed.
Example ParseAddr_v6 :
  Addr_String <$> ParseAddr "2001:DB8:0:0:1::192.0.2.1" = Some "2001:db8::1:0:c000:201"%string.
Proof. vm_compute. reflexivity. Qed.
Example ParseIP_mapped : Addr_String <$> ParseIP "::ffff:10.1.2.3" = Some "10.1.2.3"%string.
Proof. vm_compute. reflexivity. Qed.
Example ParseAddr_leading_zero : ParseAddr "10.01.2.3" = None.
Proof. vm_compute. reflexivity. Qed.
Example ParseCIDR_mask : Addr_String <$> ParseCIDR "10.1.2.3/33" = None.
Proof. vm_compute. reflexivity. Qed.
Example TrimSpace_nbsp : TrimSpace (str (map byte [32; 194; 160; 97; 32; 98; 10])) = "a b"%string.
Proof. vm_compute. reflexivity. Qed.

Lemma chars_str l : chars (str l) = l.
Proof. apply String.list_ascii_of_string_of_list_ascii. Qed.
Lemma str_chars s : str (chars s) = s.
Proof. apply String.string_of_list_ascii_of_string. Qed.
Lemma str_inj l1 l2 : str l1 = str l2 -> l1 = l2.
Proof. intros H. by rewrite <-(chars_str l1), <-(chars_str l2), H. Qed.
Lemma chars_app s1 s2 : chars (s1 +:+ s2) = chars s1 ++ chars s2.
Proof.
  induction s1 as [|a s1 IH]; [done|].
  change (a :: chars (s1 +:+ s2) = a :: chars s1 ++ chars s2). by rewrite IH.
Qed.

(** *** Trimming *)

Definition no_front (ps : list (list ascii)) (l : list ascii) : Prop :=
  Forall (fun p => strip p l = None) ps.

Lemma strip_Some p l r : strip p l = Some r <-> l = p ++ r.
Proof.
  revert l. induction p as [|a p IH]; intros l; simpl; [naive_solver|].
  destruct l as [|b l]; [naive_solver|]. case_bool_decide; naive_solver.
Qed.

Lemma strip_any_None ps l : strip_any ps l = None <-> no_front ps l.
Proof.
  unfold no_front. induction ps as [|p ps IH]; simpl; [by split|].
  rewrite Forall_cons, <-IH. destruct (strip p l); naive_solver.
Qed.

Lemma strip_any_Some ps l r : strip_any ps l = Some r -> exists p, p ∈ ps /\ l = p ++ r.
Proof.
  induction ps as [|p ps IH]; simpl; [done|]. destruct (strip p l) eqn:E; intros; simplify_eq.
  - exists p. split; [left|]. by apply strip_Some.
  - destruct IH as (q & ? & ?); [done|]. exists q. split; [by right|done].
Qed.

Lemma trim_front_id ps n l : no_front ps l -> trim_front ps n l = l.
Proof. intros H%strip_any_None. destruct n; simpl; [done|]. by rewrite H. Qed.

Lemma trim_front_no_front ps n l :
  Forall (.≠ []) ps -> (length l <= n)%nat -> no_front ps (trim_front ps n l).
Proof.
  intros Hne. revert l. induction n as [|n IH]; intros l Hl; simpl.
  - destruct l; simpl in *; [|lia]. eapply Forall_impl; [done|].
    intros p Hp. destruct p; done.
  - destruct (strip_any ps l) as [r|] eqn:E; [|by apply strip_any_None].
    apply strip_any_Some in E as (p & Hp & ->). apply IH.
    rewrite Forall_forall in Hne. specialize (Hne p Hp).
    rewrite length_app in Hl. destruct p; simpl in *; [done|lia].
Qed.

Lemma trim_front_suffix ps n l : exists p, l = p ++ trim_front ps n l.
Proof.
  revert l. induction n as [|n IH]; intros l; simpl; [by exists []|].
  destruct (strip_any ps l) as [r|] eqn:E; [|by exists []].
  apply strip_any_Some in E as (p & _ & ->). destruct (IH r) as [q Hq].
  exists (p ++ q). rewrite <-app_assoc. by f_equal.
Qed.

Lemma no_front_prefix ps l1 l2 : no_front ps (l1 ++ l2) -> no_front ps l1.
Proof.
  unfold no_front. intros Hall. eapply Forall_impl; [exact Hall|]. intros p H.
  destruct (strip p l1) as [r|] eqn:E; [|done].
  apply strip_Some in E as ->. rewrite <-app_assoc in H.
  assert (strip p (p ++ r ++ l2) = Some (r ++ l2)) by by apply strip_Some. congruence.
Qed.

Lemma space_runes_nonempty : Forall (.≠ []) space_runes.
Proof. by vm_compute; repeat constructor. Qed.

Lemma space_runes_rev_nonempty : Forall (.≠ []) (@rev ascii <$> space_runes).
Proof. by vm_compute; repeat constructor. Qed.

(** [TrimSpace] is idempotent: the program compares trimmed strings with trimmed
    strings everywhere, and a value that equals its own trim is stable. *)
Lemma TrimSpace_idem s : TrimSpace (TrimSpace s) = TrimSpace s.
Proof.
  unfold TrimSpace. rewrite chars_str. f_equal. set (l := trim_l (chars s)).
  assert (Hl : no_front space_runes l).
  { apply trim_front_no_front; [apply space_runes_nonempty|done]. }
  set (u := trim_front (@rev ascii <$> space_runes) (length l) (rev l)).
  assert (Hu : no_front (@rev ascii <$> space_runes) u).
  { apply trim_front_no_front; [apply space_runes_rev_nonempty|]. by rewrite length_rev. }
  change (trim_r l) with (rev u).
  assert (Ht : trim_l (rev u) = rev u).
  { apply trim_front_id.
    destruct (trim_front_suffix (@rev ascii <$> space_runes) (length l) (rev l)) as [p Hp].
    fold u in Hp. apply (f_equal (@rev ascii)) in Hp.
    rewrite rev_involutive, rev_app_distr in Hp.
    apply (no_front_prefix _ _ (rev p)). by rewrite <-Hp. }
  rewrite Ht. unfold trim_r. rewrite rev_involutive. f_equal. by apply trim_front_id.
Qed.

Lemma TrimSpace_fix s t : s = TrimSpace t -> TrimSpace s = s.
Proof. intros ->. apply TrimSpace_idem. Qed.

(** *** IPv4 addresses print to strings that parse back *)

Lemma split_go_app c cur l r :
  c ∉ l -> split_go c cur (l ++ c :: r) = (rev cur ++ l) :: split_go c [] r.
Proof.
  revert cur. induction l as [|a l IH]; intros cur H; simpl.
  - by rewrite bool_decide_eq_true_2, app_nil_r.
  - apply not_elem_of_cons in H as [? ?]. rewrite bool_decide_eq_false_2 by congruence.
    rewrite IH by done. simpl. by rewrite <-app_assoc.
Qed.

Lemma split_go_last c cur l : c ∉ l -> split_go c cur l = [rev cur ++ l].
Proof.
  revert cur. induction l as [|a l IH]; intros cur H; simpl; [by rewrite app_nil_r|].
  apply not_elem_of_cons in H as [? ?]. rewrite bool_decide_eq_false_2 by congruence.
  rewrite IH by done. simpl. by rewrite <-app_assoc.
Qed.

Definition octet_ok (z : Z) : bool :=
  bool_decide (octet (chars (itoa z)) = Some z) && bool_decide ("."%char ∉ chars (itoa z))
  && bool_decide (":"%char ∉ chars (itoa z)) && bool_decide ("%"%char ∉ chars (itoa z))
  && negb (bool_decide (chars (itoa z) = [])).

Lemma octet_ok_all z : 0 <= z <= 255 -> octet_ok z = true.
Proof.
  intros H. assert (Hall : Forall (fun z => octet_ok z = true) (seqZ 0 256)).
  { apply (proj2 (Forall_forall _ _)).
    assert (Hb : forallb octet_ok (seqZ 0 256) = true) by (vm_compute; reflexivity).
    intros x Hx. apply (proj1 (forallb_forall _ _) Hb). by apply list_elem_of_In. }
  rewrite Forall_forall in Hall. apply Hall. apply elem_of_seqZ. lia.
Qed.

Definition valid4 (ip : Addr) : Prop :=
  match ip with
  | Addr4 a b c d => 0 <= a <= 255 /\ 0 <= b <= 255 /\ 0 <= c <= 255 /\ 0 <= d <= 255
  | _ => False
  end.

Lemma ParseAddr_go_dot whole l r :
  ":"%char ∉ l -> "%"%char ∉ l -> ParseAddr_go whole (l ++ "."%char :: r) = parseIPv4 whole.
Proof.
  induction l as [|a l IH]; intros H1 H2; [done|].
  apply not_elem_of_cons in H1 as [? ?], H2 as [? ?]. simpl. case_bool_decide; [done|].
  rewrite !bool_decide_eq_false_2 by congruence. by apply IH.
Qed.

Lemma ParseAddr_String4 ip : valid4 ip -> ParseAddr (Addr_String ip) = Some ip.
Proof.
  destruct ip as [a b c d|]; [|done]. intros (Ha & Hb & Hc & Hd).
  apply octet_ok_all in Ha, Hb, Hc, Hd. unfold octet_ok in *. bools.
  unfold ParseAddr, Addr_String, ipv4_string. cbn [Join]. rewrite !chars_app.
  change (chars ".") with ["."%char]. cbn [app].
  rewrite ParseAddr_go_dot by done. unfold parseIPv4, split.
  rewrite !split_go_app, split_go_last by done. cbn [rev app].
  repeat match goal with H : octet _ = Some _ |- _ => rewrite H; cbn [mbind option_bind] end.
  done.
Qed.

(** ** Map iteration in key order *)

Lemma elem_of_sorted_keys {A} (m : gmap string A) k : k ∈ sorted_keys m <-> is_Some (m !! k).
Proof.
  unfold sorted_keys, sort_Strings. rewrite (merge_sort_Permutation String.le), list_elem_of_fmap.
  split.
  - intros ([k' a] & -> & H%elem_of_map_to_list). eauto.
  - intros [a Ha]. exists (k, a). split; [done|]. by apply elem_of_map_to_list.
Qed.

Lemma NoDup_sorted_keys {A} (m : gmap string A) : NoDup (sorted_keys m).
Proof.
  unfold sorted_keys, sort_Strings. rewrite (merge_sort_Permutation String.le).
  apply NoDup_fst_map_to_list.
Qed.

(** ** Loops over maps *)

(** The order of a [range] over a map. *)
Class MapRange := {
  range {A} : gmap string A -> list (string * A);
  range_perm {A} (m : gmap string A) : range m ≡ₚ map_to_list m;
}.

Section range.
Context {MR : MapRange}.
Lemma range_lookup {A} (m : gmap string A) k v : (k, v) ∈ range m <-> m !! k = Some v.
Proof. by rewrite range_perm, elem_of_map_to_list. Qed.
Lemma range_NoDup {A} (m : gmap string A) : NoDup (range m).*1.
Proof. rewrite range_perm. apply NoDup_fst_map_to_list. Qed.
Lemma range_dom {A} (m : gmap string A) k : k ∈ (range m).*1 <-> is_Some (m !! k).
Proof.
  rewrite list_elem_of_fmap. split; [intros ([k' v] & -> & H%range_lookup); by eexists|].
  intros [v Hv]. exists (k, v). by rewrite range_lookup.
Qed.
End range.
