(* ===== verification/Journal.v ===== *)
(** * Package ownership: the durable operation journal

    Models [src/pkg/ownership/journal.go] whole: the ownership domain and its
    validation, the record and its checksummed envelope, [Open], [Snapshot],
    [Begin], [Commit], [Close], the lock checks and the write-then-rename
    persistence.  A journal is driven by a world [W] that answers the system
    calls; the calls, the JSON codec, SHA-256 and the UUID library are
    parameters.  What POSIX promises about them is [PosixLaws]. *)

From S2P Require Import Prelude GoStd.
From Stdlib Require Import Ascii.

(** ** Outside code *)

(** [encoding/json]: [json_Decode] reads one value, refusing unknown fields, and
    returns the input it did not consume. *)
Class Json (A : Type) := {
  json_Marshal : A -> result string;
  json_Decode : string -> option (A * string);
}.

(** A value that was encoded decodes to itself, consuming the whole text, and an
    encoding is never the empty text. *)
Class JsonLaws (A : Type) `{Json A} := {
  json_roundtrip a s : json_Marshal a = Ok s -> json_Decode s = Some (a, ""%string);
  json_nonempty a s : json_Marshal a = Ok s -> s <> ""%string;
}.

(** [github.com/google/uuid] *)
Class UuidLib := {
  UUID : Type;
  UUID_eq_dec :: EqDecision UUID;
  uuid_Parse : string -> option UUID;
  uuid_FromBytes : string -> option UUID;
  uuid_Nil : UUID;
  uuid_String : UUID -> string;
  uuid_Bytes : UUID -> string;
}.

(** [crypto/sha256] followed by [hex.EncodeToString]. *)
Class Sha256 := sha256_hex : string -> string.

Record Stat := {
  Dev : Z; Ino : Z; Mode : Z; Uid : Z; Nlink : Z;
}.

Class Posix (W : Type) := {
  Geteuid : W -> Z;
  OpenRoot : M W Z;
  Openat : Z -> string -> Z -> Z -> M W Z;
  Mkdirat : Z -> string -> Z -> M W unit;
  Fsync : Z -> M W unit;
  Close_fd : Z -> M W unit;
  Fstat : Z -> M W Stat;
  Fstatat : Z -> string -> M W Stat;
  Flock : Z -> M W unit;
  Write : Z -> string -> M W unit;
  ReadLimit : Z -> Z -> M W string;
  Renameat : Z -> string -> Z -> string -> M W unit;
  Unlinkat : Z -> string -> M W unit;
  NewUUID : M W string;
}.

(** ** Constants *)

Definition journalVersion : Z := 1.
Definition maxJournalSize : Z := Z.shiftl 4 20.
Definition lockName : string := "owner.lock".
Definition journalName : string := "journal.json".

Definition O_WRONLY : Z := 1.
Definition O_RDWR : Z := 2.
Definition O_CREAT : Z := 64.
Definition O_EXCL : Z := 128.
Definition O_NONBLOCK : Z := 2048.
Definition O_DIRECTORY : Z := 65536.
Definition O_NOFOLLOW : Z := 131072.
Definition O_CLOEXEC : Z := 524288.
Definition ENOENT : Z := 2.
Definition EEXIST : Z := 17.
Definition S_IFMT : Z := 61440.
Definition S_IFREG : Z := 32768.
Definition S_ISVTX : Z := 512.
Definition mode_bits : Z := 4095.          (* 07777 *)
Definition flags_of (l : list Z) : Z := foldr Z.lor 0 l.

(** ** Data *)

Record Domain := {
  InstallationUID : string;
  NodeUID : string;
  BootID : string;
  NetworkNamespace : string;
  ConfigDigest : string;
}.

Record Intent := {
  i_Sequence : Z;
  i_Operation : string;
  i_Payload : string;
}.

Record record := {
  r_Version : Z;
  r_Domain : Domain;
  r_Sequence : Z;
  r_State : string;
  r_Pending : option Intent;
}.

Record envelope := {
  e_Record : string;
  e_SHA256 : string;
}.

Record File := { f_fd : Z; f_name : string }.

Record Journal := {
  j_dir : File;
  j_lock : option Z;
  j_record : record;
  j_blocked : option error;
  j_closed : bool;
  j_fault : option (string -> option error);
}.

#[export] Instance Domain_eq_dec : EqDecision Domain.
Proof. solve_decision. Defined.
#[export] Instance Intent_eq_dec : EqDecision Intent.
Proof. solve_decision. Defined.
#[export] Instance record_eq_dec : EqDecision record.
Proof. solve_decision. Defined.

Definition set_record (r : record) (j : Journal) : Journal :=
  {| j_dir := j_dir j; j_lock := j_lock j; j_record := r; j_blocked := j_blocked j;
     j_closed := j_closed j; j_fault := j_fault j |}.
Definition set_blocked (e : option error) (j : Journal) : Journal :=
  {| j_dir := j_dir j; j_lock := j_lock j; j_record := j_record j; j_blocked := e;
     j_closed := j_closed j; j_fault := j_fault j |}.
Definition set_closed (b : bool) (j : Journal) : Journal :=
  {| j_dir := j_dir j; j_lock := j_lock j; j_record := j_record j; j_blocked := j_blocked j;
     j_closed := b; j_fault := j_fault j |}.

Definition ErrBlocked (msg : string) : error := Sentinel SBlocked msg.

(** ** Operations *)

Section journal.
Context {W : Type} {PX : Posix W} {UL : UuidLib} {SH : Sha256} {JR : Json record} {JE : Json envelope}.

(** [Domain.validate] *)
Definition uuid_ok (s : string) : bool :=
  match uuid_Parse s with Some id => negb (bool_decide (id = uuid_Nil)) | None => false end.

Definition Domain_validate (d : Domain) : result unit :=
  if negb (forallb uuid_ok [InstallationUID d; NodeUID d; BootID d])
  then Err (Errorf "installation, node and boot UUIDs are required")
  else if blank (NetworkNamespace d)
          || negb (bool_decide (NetworkNamespace d = TrimSpace (NetworkNamespace d)))
  then Err (Errorf "network namespace identity required")
  else match hex_DecodeString (ConfigDigest d) with
       | Some b =>
           if negb (bool_decide (length b = 32%nat))
              || negb (bool_decide (ToLower (ConfigDigest d) = ConfigDigest d))
           then Err (Errorf "configuration SHA-256 required") else Ok tt
       | None => Err (Errorf "configuration SHA-256 required")
       end.

(** [secureFile] *)
Definition secureFile (fd : Z) : M W unit :=
  let! s := Fstat fd in
  if negb (Z.land (Mode s) S_IFMT =? S_IFREG) || negb (Uid s =? 0)
     || negb (Z.land (Mode s) mode_bits =? 384) || negb (Nlink s =? 1)
  then fail (Errorf "expected a single-link root-owned regular file mode 0600")
  else ret tt.

(** An absolute path other than the root that [filepath.Clean] leaves as it is:
    no empty, "." or ".." element. *)
Definition path_parts (path : string) : list string :=
  map str (split "/"%char (chars (TrimPrefix path "/"))).
Definition clean_abs (path : string) : bool :=
  HasPrefix path "/" && negb (bool_decide (path = "/"%string))
  && forallb (fun p => negb (bool_decide (p ∈ [""; "."; ".."]%string))) (path_parts path).

Definition unsafe_component (final : bool) (s : Stat) : bool :=
  negb (Uid s =? 0)
  || (negb final && negb (Z.land (Mode s) 18 =? 0) && (Z.land (Mode s) S_ISVTX =? 0))
  || (final && negb (Z.land (Mode s) mode_bits =? 448)).

Definition open_dir_flags : Z := flags_of [O_DIRECTORY; O_NOFOLLOW; O_CLOEXEC].

(** The loop of [openDirectory] over the path components. *)
Fixpoint openDirectory_loop (create : bool) (fd : Z) (created : bool) (parts : list string)
    : M W (Z * bool) :=
  match parts with
  | [] => ret (fd, created)
  | part :: rest =>
      let final := bool_decide (rest = []) in
      let! first := attempt (Openat fd part open_dir_flags 0) in
      let! (next, created) :=
        match first with
        | Err e =>
            if errno_Is e ENOENT && create && final then
              let! mk := attempt (Mkdirat fd part 448) in
              match mk with
              | Err e => do! attempt (Close_fd fd) in fail e
              | Ok _ =>
                  let! sy := attempt (Fsync fd) in
                  match sy with
                  | Err e => do! attempt (Close_fd fd) in fail e
                  | Ok _ => let! again := attempt (Openat fd part open_dir_flags 0) in
                            ret (again, true)
                  end
              end
            else ret (first, created)
        | Ok _ => ret (first, created)
        end in
      do! attempt (Close_fd fd) in
      let! fd := lift next in
      let! st := attempt (Fstat fd) in
      match st with
      | Err e => do! attempt (Close_fd fd) in fail e
      | Ok s =>
          if unsafe_component final s then
            do! attempt (Close_fd fd) in
            fail (Errorf "unsafe ownership/permissions on journal path component")
          else openDirectory_loop create fd created rest
      end
  end.

Definition openDirectory (path : string) (create : bool) : M W (File * bool) :=
  if negb (clean_abs path) then fail (Errorf "explicit clean absolute journal directory required")
  else
    let! fd := OpenRoot in
    let! (fd, created) := openDirectory_loop create fd false (path_parts path) in
    ret ({| f_fd := fd; f_name := path |}, created).

Definition lock_fd (j : Journal) : Z := default (-1) (j_lock j).

(** [Journal.checkLock]: the held directory and lock are still the ones their
    paths name. *)
Definition checkLock (j : Journal) : M W unit :=
  let! (current, _) := wrap (fun _ => ErrBlocked "ownership directory unavailable")
                             (openDirectory (f_name (j_dir j)) false) in
  let! held := attempt (Fstat (f_fd (j_dir j))) in
  let! path := attempt (Fstat (f_fd current)) in
  let! cl := attempt (Close_fd (f_fd current)) in
  match held, path, cl with
  | Ok heldDir, Ok pathDir, Ok _ =>
      if negb (Dev heldDir =? Dev pathDir) || negb (Ino heldDir =? Ino pathDir)
      then fail (ErrBlocked "ownership directory inode changed")
      else
        let! held := wrap (fun _ => ErrBlocked "stat held lock") (Fstat (lock_fd j)) in
        let! path := wrap (fun _ => ErrBlocked "ownership lock unavailable")
                          (Fstatat (f_fd (j_dir j)) lockName) in
        do! wrap (fun _ => ErrBlocked "unsafe held lock") (secureFile (lock_fd j)) in
        if negb (Dev held =? Dev path) || negb (Ino held =? Ino path)
           || negb (Nlink path =? 1) || negb (Mode path =? Mode held)
        then fail (ErrBlocked "ownership lock inode changed; never unlink an active lock")
        else ret tt
  | _, _, _ => fail (ErrBlocked "stat ownership directory")
  end.

Definition boundary (j : Journal) (name : string) : result unit :=
  match j_fault j with Some f => of_error (f name) | None => Ok tt end.

(** The bytes [persist] writes: the record under its checksum, within the size
    bound. *)
Definition encode_journal (next : record) : result string :=
  let? data := json_Marshal next in
  let? wrapped := json_Marshal {| e_Record := data; e_SHA256 := sha256_hex data |} in
  if (maxJournalSize <? Z.of_nat (String.length wrapped))
  then Err (Errorf "ownership journal exceeds size bound") else Ok wrapped.

(** The deferred clean-up of [persist]: close the temporary file if it is still
    open, unlink exactly that file, join the errors. *)
Definition persist_cleanup (j : Journal) (name : string) (fd : Z) (open : bool)
    (err : option error) : M W unit :=
  let! c := (if open then attempt (Close_fd fd) else ret (Ok tt)) in
  let err := errors_Join err (to_error c) in
  let! u := attempt (Unlinkat (f_fd (j_dir j)) name) in
  match u with
  | Err e => if errno_Is e ENOENT then lift (of_error err)
             else lift (of_error (errors_Join err (Some e)))
  | Ok _ => lift (of_error err)
  end.

Definition persist_write (j : Journal) (fd : Z) (wrapped : string) : M W unit :=
  do! secureFile fd in
  do! Write fd wrapped in
  do! lift (boundary j "before-file-sync") in
  Fsync fd.

Definition persist_publish (j : Journal) (name : string) : M W unit :=
  do! lift (boundary j "before-rename") in
  do! Renameat (f_fd (j_dir j)) name (f_fd (j_dir j)) journalName in
  do! lift (boundary j "before-directory-sync") in
  do! Fsync (f_fd (j_dir j)) in
  lift (boundary j "after-directory-sync").

Definition persist_file (j : Journal) (wrapped : string) : M W unit :=
  do! lift (boundary j "before-create") in
  let! id := NewUUID in
  let name := (".journal-" +:+ id)%string in
  let! fd := Openat (f_fd (j_dir j)) name
                    (flags_of [O_WRONLY; O_CREAT; O_EXCL; O_NOFOLLOW; O_CLOEXEC]) 384 in
  let! written := attempt (persist_write j fd wrapped) in
  match written with
  | Err e => persist_cleanup j name fd true (Some e)
  | Ok _ =>
      let! closed := attempt (Close_fd fd) in
      match closed with
      | Err e => persist_cleanup j name fd false (Some e)
      | Ok _ =>
          let! published := attempt (persist_publish j name) in
          persist_cleanup j name fd false (to_error published)
      end
  end.

(** [Journal.persist]: any failure blocks the journal for good. *)
Definition persist (next : record) : M (Journal * W) unit :=
  let! j := gets fst in
  let! r := attempt (on_snd (do! checkLock j in
                             let! wrapped := lift (encode_journal next) in
                             persist_file j wrapped)) in
  match r with
  | Ok _ => ret tt
  | Err e =>
      let e := ErrBlocked "durable journal write failed; mutations must stop" in
      do! modify (fun s => (set_blocked (Some e) s.1, s.2)) in fail e
  end.

(** [Journal.check] *)
Definition Journal_check : M (Journal * W) unit :=
  let! j := gets fst in
  if j_closed j then fail (ErrBlocked "journal closed") else
  match j_blocked j with
  | Some e => fail e
  | None =>
      let! r := attempt (on_snd (checkLock j)) in
      match r with
      | Ok _ => ret tt
      | Err e => do! modify (fun s => (set_blocked (Some e) s.1, s.2)) in fail e
      end
  end.

(** [Journal.Snapshot]: the values returned are copies. *)
Definition Snapshot : M (Journal * W) (string * option Intent) :=
  do! Journal_check in
  let! j := gets fst in
  ret (r_State (j_record j), r_Pending (j_record j)).

(** [Journal.Begin] *)
Definition Begin {P} `{!Json P} (operation : string) (payload : P) : M (Journal * W) Z :=
  do! Journal_check in
  let! j := gets fst in
  let r := j_record j in
  if negb (bool_decide (r_Pending r = None)) then
    fail (ErrBlocked "unresolved operation must be verified before acknowledgement")
  else if blank operation || negb (bool_decide (operation = TrimSpace operation)) then
    fail (ErrBlocked "explicit operation required")
  else if r_Sequence r =? u64_max then fail (ErrBlocked "operation sequence exhausted")
  else
    let! data := lift (json_Marshal payload) in
    let seq := wrap64 (r_Sequence r + 1) in
    let next := {| r_Version := r_Version r; r_Domain := r_Domain r; r_Sequence := seq;
                   r_State := r_State r;
                   r_Pending := Some {| i_Sequence := seq; i_Operation := operation;
                                        i_Payload := data |} |} in
    do! persist next in
    do! modify (fun s => (set_record next s.1, s.2)) in
    ret seq.

(** [Journal.Commit] *)
Definition Commit {S} `{!Json S} (sequence : Z) (state : S) : M (Journal * W) unit :=
  do! Journal_check in
  let! j := gets fst in
  let r := j_record j in
  match r_Pending r with
  | None => fail (ErrBlocked "stale or missing operation acknowledgement")
  | Some i =>
      if negb (i_Sequence i =? sequence)
      then fail (ErrBlocked "stale or missing operation acknowledgement")
      else
        let! data := lift (json_Marshal state) in
        let next := {| r_Version := r_Version r; r_Domain := r_Domain r;
                       r_Sequence := r_Sequence r; r_State := data; r_Pending := None |} in
        do! persist next in
        modify (fun s => (set_record next s.1, s.2))
  end.

(** The files [Close] closes. *)
Definition close_files (j : Journal) : M W (option error) :=
  let! l := match j_lock j with Some fd => attempt (Close_fd fd) | None => ret (Ok tt) end in
  let! d := attempt (Close_fd (f_fd (j_dir j))) in
  ret (errors_Join (to_error l) (to_error d)).

(** [Journal.Close] *)
Definition Close : M (Journal * W) unit :=
  let! j := gets fst in
  if j_closed j then ret tt else
  do! modify (fun s => (set_closed true s.1, s.2)) in
  let! e := on_snd (close_files j) in
  lift (of_error e).

(** [decodeStrict]: one JSON value and nothing but white space after it. *)
Definition json_space (c : ascii) : bool := bool_decide (code c ∈ [32; 9; 10; 13]).
Definition decodeStrict {A} `{!Json A} (data : string) : result A :=
  match json_Decode data with
  | None => Err (Errorf "json")
  | Some (a, rest) =>
      if forallb json_space (chars rest) then Ok a
      else Err (Errorf "expected exactly one JSON value")
  end.

(** What [Open] accepts of a record it read. *)
Definition intent_ok (r : record) (i : Intent) : bool :=
  (i_Sequence i =? r_Sequence r) && negb (r_Sequence r =? 0)
  && negb (blank (i_Operation i)) && negb (bool_decide (i_Payload i = ""%string)).
Definition record_ok (domain : Domain) (r : record) : bool :=
  (r_Version r =? journalVersion) && bool_decide (r_Domain r = domain)
  && negb (bool_decide (r_State r = ""%string))
  && match r_Pending r with None => true | Some i => intent_ok r i end.

(** The integrity checks of [Open] on the bytes of an existing journal. *)
Definition decode_journal (data : string) (domain : Domain) : result record :=
  if (maxJournalSize <? Z.of_nat (String.length data))
  then Err (ErrBlocked "oversized ownership journal") else
  match decodeStrict (A := envelope) data with
  | Err _ => Err (ErrBlocked "invalid journal envelope")
  | Ok e =>
      if negb (bool_decide (e_SHA256 e = sha256_hex (e_Record e)))
      then Err (ErrBlocked "ownership journal checksum mismatch") else
      match decodeStrict (A := record) (e_Record e) with
      | Err _ => Err (ErrBlocked "invalid ownership record")
      | Ok r =>
          if negb (record_ok domain r)
          then Err (ErrBlocked "incompatible journal version, domain or operation sequence")
          else Ok r
      end
  end.

Definition null_record (domain : Domain) : record :=
  {| r_Version := journalVersion; r_Domain := domain; r_Sequence := 0; r_State := "null";
     r_Pending := None |}.

(** [fail] in [Open]: close what was opened and join the errors. *)
Definition open_fail {A} (j : Journal) (e : error) : M W A :=
  let! c := close_files j in
  lift (match errors_Join (Some e) c with Some e => Err e | None => Err e end).

Definition open_lock (dir : File) (created : bool) : M W (Z * bool) :=
  let flags := flags_of [O_RDWR; O_NOFOLLOW; O_CLOEXEC; O_NONBLOCK] in
  if created then
    let! r := attempt (Openat (f_fd dir) lockName (flags_of [flags; O_CREAT; O_EXCL]) 384) in
    match r with
    | Ok fd => ret (fd, true)
    | Err e => if errno_Is e EEXIST
               then let! fd := Openat (f_fd dir) lockName flags 0 in ret (fd, false)
               else fail e
    end
  else let! fd := Openat (f_fd dir) lockName flags 0 in ret (fd, false).

(** Read, verify and adopt the journal of an already open file. *)
Definition open_existing (j : Journal) (fd : Z) (domain : Domain) : M W Journal :=
  let! sec := attempt (secureFile fd) in
  match sec with
  | Err _ => do! attempt (Close_fd fd) in open_fail j (ErrBlocked "ownership journal")
  | Ok _ =>
      let! data := attempt (ReadLimit fd (maxJournalSize + 1)) in
      let! cl := attempt (Close_fd fd) in
      match data, cl with
      | Ok data, Ok _ =>
          match decode_journal data domain with
          | Err e => open_fail j e
          | Ok r => ret (set_record r j)
          end
      | _, _ => open_fail j (ErrBlocked "read ownership journal")
      end
  end.

(** The part of [Open] after the lock is held: an absent journal is initialised
    only under a lock this call created. *)
Definition open_locked (j : Journal) (domain : Domain) (create freshLock : bool) : M W Journal :=
  let! o := attempt (Openat (f_fd (j_dir j)) journalName
                            (flags_of [O_NOFOLLOW; O_CLOEXEC; O_NONBLOCK]) 0) in
  match o with
  | Err e =>
      if errno_Is e ENOENT && create && freshLock then
        fun w =>
          let j := set_record (null_record domain) j in
          let '((j, w), r) := persist (null_record domain) (j, w) in
          match r with Ok _ => (w, Ok j) | Err e => open_fail j e w end
      else open_fail j (ErrBlocked "open ownership journal")
  | Ok fd => open_existing j fd domain
  end.

(** [Open] *)
Definition Open (directory : string) (domain : Domain) (create : bool) : M W Journal :=
  let! euid := gets Geteuid in
  if negb (euid =? 0) then fail (ErrBlocked "ownership journals require root") else
  match Domain_validate domain with
  | Err _ => fail (ErrBlocked "invalid journal domain")
  | Ok _ =>
      let! (dir, created) := wrap (fun _ => ErrBlocked "journal directory")
                                   (openDirectory directory create) in
      let j := {| j_dir := dir; j_lock := None; j_record := null_record domain;
                  j_blocked := None; j_closed := false; j_fault := None |} in
      let! l := attempt (open_lock dir created) in
      match l with
      | Err _ => open_fail j (ErrBlocked "open journal lock")
      | Ok (fd, freshLock) =>
          let j := {| j_dir := dir; j_lock := Some fd; j_record := null_record domain;
                      j_blocked := None; j_closed := false; j_fault := None |} in
          let! s := attempt (secureFile fd) in
          if negb (is_ok s) then open_fail j (ErrBlocked "journal lock") else
          let! f := attempt (Flock fd) in
          if negb (is_ok f)
          then open_fail j (ErrBlocked "journal owner still active or lock unavailable") else
          let! c := attempt (checkLock j) in
          match c with
          | Err e => open_fail j e
          | Ok _ =>
              let! sy := (if freshLock then attempt (Fsync fd) else ret (Ok tt)) in
              if negb (is_ok sy) then open_fail j (ErrBlocked "sync initial ownership lock")
              else open_locked j domain create freshLock
          end
      end
  end.

End journal.

(** ** The protocol of one journal *)

(** A closed or blocked journal: no operation on it can succeed any more. *)
Definition fenced (j : Journal) : Prop := j_closed j = true \/ j_blocked j <> None.

Section protocol.
Context {W : Type} {PX : Posix W} {UL : UuidLib} {SH : Sha256} {JR : Json record} {JE : Json envelope}.
Implicit Types (j : Journal) (w : W).

Lemma fenced_blocked e j : fenced (set_blocked (Some e) j).
Proof. by right. Qed.

Lemma persist_run next j w j' w' res :
  persist next (j, w) = ((j', w'), res) ->
  (res = Ok tt /\ j' = j) \/ (exists e, res = Err e /\ j' = set_blocked (Some e) j).
Proof.
  unfold persist. intros H. msteps_any; destruct_and?; simplify_eq; eauto.
Qed.

Lemma check_run j w j' w' res :
  Journal_check (j, w) = ((j', w'), res) ->
  (res = Ok tt /\ j' = j /\ ~ fenced j) \/
  (exists e, res = Err e /\ fenced j' /\ j_record j' = j_record j /\
             (fenced j -> j' = j /\ w' = w)).
Proof.
  unfold Journal_check, fenced. intros H. msteps_any; simplify_eq.
  all: try (right; eexists; split_and!; [done|naive_solver..]).
  left. naive_solver.
Qed.

(** The record after a successful [Begin]. *)
Definition begun (r : record) (operation data : string) : record :=
  let seq := r_Sequence r + 1 in
  {| r_Version := r_Version r; r_Domain := r_Domain r; r_Sequence := seq; r_State := r_State r;
     r_Pending := Some {| i_Sequence := seq; i_Operation := operation; i_Payload := data |} |}.
(** The record after a successful [Commit]. *)
Definition committed (r : record) (data : string) : record :=
  {| r_Version := r_Version r; r_Domain := r_Domain r; r_Sequence := r_Sequence r;
     r_State := data; r_Pending := None |}.

(** What a reachable journal record satisfies: what [Open] demands, plus the
    width of the sequence number and the trimmed operation name of [Begin]. *)
Definition record_inv (domain : Domain) (r : record) : Prop :=
  record_ok domain r = true /\ is_u64 (r_Sequence r).

Lemma Begin_run {P} {JP : Json P} op (p : P) j w j' w' res :
  is_u64 (r_Sequence (j_record j)) ->
  Begin op p (j, w) = ((j', w'), res) ->
  (exists data w1, res = Ok (r_Sequence (j_record j) + 1) /\ json_Marshal p = Ok data /\
     r_Pending (j_record j) = None /\ blank op = false /\ op = TrimSpace op /\
     r_Sequence (j_record j) < u64_max /\ ~ fenced j /\
     j' = set_record (begun (j_record j) op data) j /\
     persist (begun (j_record j) op data) (j, w1) = ((j, w'), Ok tt)) \/
  (exists e, res = Err e /\ j_record j' = j_record j /\ (fenced j -> j' = j /\ w' = w) /\
     (j' = j \/ fenced j')).
Proof.
  intros Hu H. unfold Begin in H.
  apply bind_inv in H as [([j1 w1] & [] & Hc & H)|(e & Hc & ->)];
    apply check_run in Hc as [(? & -> & ?)|(e' & ? & ? & ? & ?)]; simplify_eq; [|right; eauto 10].
  assert (Hw : (r_Sequence (j_record j) =? u64_max) = false ->
               wrap64 (r_Sequence (j_record j) + 1) = r_Sequence (j_record j) + 1).
  { intros ?. apply wrap64_small. unfold is_u64 in *. bools. lia. }
  msteps_any; try (right; eexists; split_and!; [done|done|naive_solver|naive_solver]).
  all: try match goal with Hp : persist _ (_, _) = (?s, _) |- _ => is_var s; destruct s as [j2 w2] end.
  all: match goal with Hp : persist _ _ = _ |- _ =>
    pose proof (persist_run _ _ _ _ _ _ Hp) as [[? ->]|(e' & ? & ->)] end; simplify_eq/=.
  - left. rewrite Hw in * by done. bools. eexists _, _. split_and!; try done.
    unfold is_u64 in *. lia.
  - right. eexists. split_and!; [done|done|naive_solver|]. right. apply fenced_blocked.
Qed.

Lemma Commit_run {S} {JS : Json S} seq (st : S) j w j' w' res :
  Commit seq st (j, w) = ((j', w'), res) ->
  (exists data w1 i, res = Ok tt /\ json_Marshal st = Ok data /\
     r_Pending (j_record j) = Some i /\ i_Sequence i = seq /\ ~ fenced j /\
     j' = set_record (committed (j_record j) data) j /\
     persist (committed (j_record j) data) (j, w1) = ((j, w'), Ok tt)) \/
  (exists e, res = Err e /\ j_record j' = j_record j /\ (fenced j -> j' = j /\ w' = w) /\
     (j' = j \/ fenced j')).
Proof.
  intros H. unfold Commit in H.
  apply bind_inv in H as [([j1 w1] & [] & Hc & H)|(e & Hc & ->)];
    apply check_run in Hc as [(? & -> & ?)|(e' & ? & ? & ? & ?)]; simplify_eq; [|right; eauto 10].
  msteps_any; try (right; eexists; split_and!; [done|done|naive_solver|naive_solver]).
  all: try match goal with Hp : persist _ (_, _) = (?s, _) |- _ => is_var s; destruct s as [j2 w2] end.
  all: match goal with Hp : persist _ _ = _ |- _ =>
    pose proof (persist_run _ _ _ _ _ _ Hp) as [[? ->]|(e' & ? & ->)] end; simplify_eq/=.
  - left. bools. eexists _, _, _. split_and!; done.
  - right. eexists. split_and!; [done|done|naive_solver|]. right. apply fenced_blocked.
Qed.

Lemma Snapshot_run j w j' w' res :
  Snapshot (j, w) = ((j', w'), res) ->
  (res = Ok (r_State (j_record j), r_Pending (j_record j)) /\ j' = j /\ ~ fenced j) \/
  (exists e, res = Err e /\ j_record j' = j_record j /\ fenced j' /\
     (fenced j -> j' = j /\ w' = w)).
Proof.
  intros H. unfold Snapshot in H.
  apply bind_inv in H as [([j1 w1] & [] & Hc & H)|(e & Hc & ->)];
    apply check_run in Hc as [(? & -> & ?)|(e' & ? & ? & ? & ?)]; simplify_eq; [|right; eauto 10].
  msteps_any. left. by split_and!.
Qed.

Lemma Close_run j w j' w' res :
  Close (j, w) = ((j', w'), res) ->
  j' = set_closed true j /\ (j_closed j = true -> w' = w /\ res = Ok tt).
Proof.
  intros H. unfold Close in H. msteps_any; try done.
  destruct j' as [d l r b [] f]; done.
Qed.

(** The record only moves by a successful [Begin] or [Commit]; between two calls
    the world may change in any way. *)
Inductive jstep : Journal * W -> Journal * W -> Prop :=
  | js_begin P (JP : Json P) (JL : JsonLaws P) op (p : P) s s' r :
      Begin op p s = (s', r) -> jstep s s'
  | js_commit S (JS : Json S) (JL : JsonLaws S) seq (st : S) s s' r :
      Commit seq st s = (s', r) -> jstep s s'
  | js_snapshot s s' r : Snapshot s = (s', r) -> jstep s s'
  | js_close s s' r : Close s = (s', r) -> jstep s s'
  | js_world j w w' : jstep (j, w) (j, w').

Lemma begun_inv d r op data :
  record_inv d r -> r_Sequence r < u64_max -> blank op = false -> data <> ""%string ->
  record_inv d (begun r op data).
Proof.
  unfold record_inv, record_ok, intent_ok, is_u64. intros [Hr ?] ? Hop Hd. bools.
  split; [|simpl; lia]. cbn. rewrite Hop.
  repeat match goal with H : _ = true |- _ => rewrite ?H; clear H end.
  rewrite (bool_decide_eq_false_2 (data = _)) by done.
  assert ((r_Version r =? journalVersion) = true) as -> by by apply Z.eqb_eq.
  rewrite !bool_decide_eq_true_2, bool_decide_eq_false_2 by done.
  assert ((r_Sequence r + 1 =? r_Sequence r + 1) = true) as -> by (apply Z.eqb_eq; lia).
  assert ((r_Sequence r + 1 =? 0) = false) as -> by (apply Z.eqb_neq; lia). done.
Qed.

Lemma committed_inv d r data :
  record_inv d r -> data <> ""%string -> record_inv d (committed r data).
Proof.
  unfold record_inv, record_ok. intros [Hr ?] Hd. bools. split; [|done]. cbn.
  assert ((r_Version r =? journalVersion) = true) as -> by by apply Z.eqb_eq.
  rewrite (bool_decide_eq_false_2 (data = _)), bool_decide_eq_true_2 by done. done.
Qed.

Lemma jstep_record s s' :
  is_u64 (r_Sequence (j_record s.1)) -> jstep s s' ->
  j_record s'.1 = j_record s.1 \/
  (~ fenced s.1 /\ exists op data, j_record s'.1 = begun (j_record s.1) op data /\
     r_Pending (j_record s.1) = None /\ r_Sequence (j_record s.1) < u64_max /\
     blank op = false /\ data <> ""%string) \/
  (~ fenced s.1 /\ exists i data, j_record s'.1 = committed (j_record s.1) data /\
     r_Pending (j_record s.1) = Some i /\ data <> ""%string).
Proof.
  intros Hu Hs. destruct Hs as [P JP JL op p [j w] [j' w'] r H|S JS JL seq st [j w] [j' w'] r H
    |[j w] [j' w'] r H|[j w] [j' w'] r H|j w w']; simpl in *; [..|by left].
  - apply Begin_run in H as [(data & w1 & ? & Hm & ? & ? & ? & ? & ? & -> & _)|(e & ? & ? & _)];
      [|by left|done]. right. left. split; [done|].
    exists op, data. split_and!; try done. by eapply json_nonempty.
  - apply Commit_run in H as [(data & w1 & i & ? & Hm & ? & ? & ? & -> & _)|(e & ? & ? & _)];
      [|by left]. right. right. split; [done|].
    exists i, data. split_and!; try done. by eapply json_nonempty.
  - apply Snapshot_run in H as [(? & -> & _)|(e & ? & ? & _)]; by left.
  - apply Close_run in H as [-> _]. by left.
Qed.

Lemma jstep_fenced s s' : fenced s.1 -> jstep s s' -> fenced s'.1.
Proof.
  intros Hf Hs. destruct Hs as [P JP JL op p [j w] [j' w'] r H|S JS JL seq st [j w] [j' w'] r H
    |[j w] [j' w'] r H|[j w] [j' w'] r H|j w w']; simpl in *; [..|done].
  - unfold Begin in H. apply bind_inv in H as [([j1 w1] & [] & Hc & _)|(e & Hc & ->)];
      apply check_run in Hc as [(_ & _ & ?)|(? & ? & ? & _)]; done.
  - unfold Commit in H. apply bind_inv in H as [([j1 w1] & [] & Hc & _)|(e & Hc & ->)];
      apply check_run in Hc as [(_ & _ & ?)|(? & ? & ? & _)]; done.
  - apply Snapshot_run in H as [(? & -> & _)|(e & ? & _ & ? & _)]; done.
  - apply Close_run in H as [-> _]. by left.
Qed.

(** C28: in every state reachable from a valid journal by its operations, in any
    order and with any outcome, the record is one that [Open] accepts for the
    same domain (a pending intent carries the current nonzero sequence number, a
    nonblank operation and a payload), the sequence number is a 64-bit value
    that never wrapped, and it never decreases. *)
Theorem journal_reachable_inv d s s' :
  record_inv d (j_record s.1) -> rtc jstep s s' ->
  record_inv d (j_record s'.1) /\ r_Sequence (j_record s.1) <= r_Sequence (j_record s'.1).
Proof.
  intros Hinv Hs. induction Hs as [s|s s1 s' Hs _ IH]; [split; [done|lia]|].
  assert (record_inv d (j_record s1.1) /\ r_Sequence (j_record s.1) <= r_Sequence (j_record s1.1))
    as [? ?].
  { destruct (jstep_record s s1) as [->|[(_ & op & data & -> & ?)|(_ & i & data & -> & ?)]];
      [apply Hinv|done|split; [done|lia]|..]; destruct_and?.
    - split; [by apply begun_inv|simpl; lia].
    - split; [by apply committed_inv|simpl; lia]. }
  destruct IH; [done|]. split; [done|lia].
Qed.

(** Fencing is permanent.  Once a durable write failed, a lock check failed
    or the journal was closed, no sequence of operations changes its record
    again. *)
Theorem journal_fencing s s' :
  is_u64 (r_Sequence (j_record s.1)) -> fenced s.1 -> rtc jstep s s' ->
  fenced s'.1 /\ j_record s'.1 = j_record s.1.
Proof.
  intros Hu Hf Hs. induction Hs as [s|s s1 s' Hs _ IH]; [done|].
  assert (j_record s1.1 = j_record s.1) as Hr.
  { destruct (jstep_record s s1) as [?|[[? _]|[? _]]]; done. }
  destruct IH as [? ?]; [by rewrite Hr|by eapply jstep_fenced|]. split; [done|congruence].
Qed.

End protocol.

(** ** The bytes on disk *)

Section codec.
Context {UL : UuidLib} {SH : Sha256} {JR : Json record} {JE : Json envelope}
        {JRL : JsonLaws record} {JEL : JsonLaws envelope}.

Lemma decodeStrict_Marshal {A} {JA : Json A} {JL : JsonLaws A} (a : A) s :
  json_Marshal a = Ok s -> decodeStrict s = Ok a.
Proof. intros H%json_roundtrip. unfold decodeStrict. by rewrite H. Qed.

(** C29: round trip.  The bytes [persist] writes for a valid record are accepted
    by the integrity checks of [Open] for the record's domain and give the same
    record back. *)
Theorem decode_encode_journal d r data :
  record_inv d r -> encode_journal r = Ok data -> decode_journal data d = Ok r.
Proof.
  intros [Hr _] H. unfold encode_journal in H.
  destruct (json_Marshal r) as [rd|] eqn:E1; simpl in H; [|done].
  destruct (json_Marshal _) as [wd|] eqn:E2 in H; simpl in H; [|done].
  destruct (maxJournalSize <? _) eqn:E3; simplify_eq.
  unfold decode_journal. rewrite E3. erewrite decodeStrict_Marshal by done. simpl.
  rewrite bool_decide_eq_true_2 by done. simpl.
  erewrite decodeStrict_Marshal by done. by rewrite Hr.
Qed.
End codec.

(** What POSIX promises about the files of the directory held open as [d]:
    [entry w n] is the content of the file named [n] there, [opened w fd] the
    name under which [fd] was created there. *)
Class PosixLaws (W : Type) {PX : Posix W} (d : Z) := {
  entry : W -> string -> option string;
  opened : W -> Z -> option string;
  law_Fstat fd w w' r : Fstat fd w = (w', r) -> entry w' = entry w /\ opened w' = opened w;
  law_Fstatat fd n w w' r : Fstatat fd n w = (w', r) -> entry w' = entry w;
  law_OpenRoot w w' r : OpenRoot w = (w', r) -> entry w' = entry w;
  law_NewUUID w w' r : NewUUID w = (w', r) -> entry w' = entry w;
  law_Close fd w w' r : Close_fd fd w = (w', r) -> entry w' = entry w;
  law_Fsync fd w w' r : Fsync fd w = (w', r) -> entry w' = entry w;
  law_Openat_existing fd n fl m w w' r :
    Z.land fl O_CREAT = 0 -> Openat fd n fl m w = (w', r) -> entry w' = entry w;
  law_Openat_excl n fl m w w' fd :
    Openat d n (flags_of [fl; O_CREAT; O_EXCL]) m w = (w', Ok fd) -> opened w' fd = Some n;
  law_Openat_other n fl m w w' r k :
    k <> n -> Openat d n fl m w = (w', r) -> entry w' k = entry w k;
  law_Write fd s w w' n :
    opened w fd = Some n -> Write fd s w = (w', Ok tt) -> entry w' n = Some s;
  law_Write_other fd s w w' r k :
    opened w fd <> Some k -> Write fd s w = (w', r) -> entry w' k = entry w k;
  law_Renameat n m w w' : Renameat d n d m w = (w', Ok tt) -> entry w' m = entry w n;
  law_Renameat_err n m w w' e : Renameat d n d m w = (w', Err e) -> entry w' = entry w;
  law_Unlinkat n w w' r k : k <> n -> Unlinkat d n w = (w', r) -> entry w' k = entry w k;
}.

(** The journal whose directory is held open as [d]. *)
Definition held (d : Z) (j : Journal) : Prop := f_fd (j_dir j) = d.

Lemma held_eq d j : held d j -> f_fd (j_dir j) = d.
Proof. done. Qed.

Section disk.
Context {W : Type} {PX : Posix W} {UL : UuidLib} {SH : Sha256} {JR : Json record} {JE : Json envelope}.
Context {d : Z} {PL : PosixLaws W d}.
Implicit Types (j : Journal) (w : W).

Lemma secureFile_quiet fd w w' r :
  secureFile fd w = (w', r) -> entry w' = entry w /\ opened w' = opened w.
Proof.
  unfold secureFile. intros H. msteps_any;
    match goal with H : Fstat _ _ = _ |- _ => by eapply law_Fstat end.
Qed.

Ltac quiet :=
  repeat match goal with
  | H : Fstat _ _ = _ |- _ => apply law_Fstat in H as [? ?]
  | H : Fstatat _ _ _ = _ |- _ => apply law_Fstatat in H
  | H : OpenRoot _ = _ |- _ => apply law_OpenRoot in H
  | H : NewUUID _ = _ |- _ => apply law_NewUUID in H
  | H : Close_fd _ _ = _ |- _ => apply law_Close in H
  | H : Fsync _ _ = _ |- _ => apply law_Fsync in H
  | H : secureFile _ _ = _ |- _ => apply secureFile_quiet in H as [? ?]
  | H : Openat _ _ open_dir_flags _ _ = _ |- _ => apply law_Openat_existing in H; [|reflexivity]
  end.

Lemma openDirectory_loop_quiet fd created parts w w' r :
  openDirectory_loop false fd created parts w = (w', r) -> entry w' = entry w.
Proof.
  revert fd created w. induction parts as [|part rest IH]; intros fd created w H; simpl in H.
  - by msteps_any.
  - msteps_any; try done.
    all: try match goal with H : (_ && false && _) = true |- _ =>
      rewrite andb_false_r in H; done end.
    all: try match goal with H : openDirectory_loop _ _ _ _ _ = _ |- _ => apply IH in H end.
    all: quiet; congruence.
Qed.

Lemma checkLock_quiet j w w' r : checkLock j w = (w', r) -> entry w' = entry w.
Proof.
  unfold checkLock, openDirectory. intros H. msteps_any; try done.
  all: repeat match goal with H : openDirectory_loop _ _ _ _ _ = _ |- _ =>
    apply openDirectory_loop_quiet in H end.
  all: quiet; congruence.
Qed.

Lemma temp_name id : (".journal-" +:+ id)%string <> journalName.
Proof. unfold journalName. intros H. by inversion H. Qed.

Lemma persist_cleanup_run j name fd open err w w' r :
  held d j -> name <> journalName ->
  persist_cleanup j name fd open err w = (w', r) ->
  entry w' journalName = entry w journalName /\ (r = Ok tt -> err = None).
Proof.
  intros Hd Hn H. unfold persist_cleanup in H. rewrite (held_eq _ _ Hd) in H.
  destruct open; msteps_any; quiet; split;
    try (erewrite law_Unlinkat by done; congruence);
    repeat match goal with x : result unit |- _ => destruct x end; destruct err; done.
Qed.

Lemma persist_write_run j fd name wrapped w w' r :
  opened w fd = Some name -> name <> journalName ->
  persist_write j fd wrapped w = (w', r) ->
  entry w' journalName = entry w journalName /\ (r = Ok tt -> entry w' name = Some wrapped).
Proof.
  intros Ho Hn H. unfold persist_write in H.
  apply bind_inv in H as [(w1 & [] & H1 & H)|(e & H1 & ->)];
    apply secureFile_quiet in H1 as [E1 O1]; [|split; [congruence|done]].
  assert (Hop : opened w1 fd = Some name) by congruence.
  apply bind_inv in H as [(w2 & [] & H2 & H)|(e & H2 & ->)].
  2: { split; [|done]. erewrite law_Write_other; [|by rewrite Hop; intros [=]|done]. congruence. }
  assert (entry w2 journalName = entry w1 journalName) as E2.
  { eapply law_Write_other; [|exact H2]. rewrite Hop. by intros [=]. }
  pose proof (law_Write _ _ _ _ _ Hop H2) as C2.
  msteps_any; quiet; split; congruence.
Qed.

Lemma persist_publish_run j name w w' r :
  held d j ->
  persist_publish j name w = (w', r) ->
  (entry w' journalName = entry w journalName \/ entry w' journalName = entry w name) /\
  (r = Ok tt -> entry w' journalName = entry w name).
Proof.
  intros Hd H. unfold persist_publish in H. rewrite (held_eq _ _ Hd) in H. msteps_any; quiet.
  all: repeat match goal with
    | Hr : Renameat _ _ _ _ _ = (_, Ok ?u) |- _ => destruct u; apply law_Renameat in Hr
    | Hr : Renameat _ _ _ _ _ = (_, Err _) |- _ => apply law_Renameat_err in Hr
    end.
  all: split; [first [left; congruence | right; congruence]|]; intros; congruence.
Qed.

Lemma persist_file_run j wrapped w w' r :
  held d j ->
  persist_file j wrapped w = (w', r) ->
  (entry w' journalName = entry w journalName \/ entry w' journalName = Some wrapped) /\
  (r = Ok tt -> entry w' journalName = Some wrapped).
Proof.
  intros Hd H. unfold persist_file in H. rewrite (held_eq _ _ Hd) in H.
  apply bind_inv in H as [(w1 & u & H1 & H)|(e & H1 & ->)];
    [|by unfold lift in H1; simplify_eq; split; [left|]].
  apply bind_inv in H as [(w2 & id & H2 & H)|(e & H2 & ->)]; [|by unfold lift in H1; simplify_eq; quiet; split; [left; congruence|]].
  unfold lift in H1. simplify_eq. quiet. pose proof (temp_name id) as Hn.
  set (name := (".journal-" +:+ id)%string) in *.
  apply bind_inv in H as [(w3 & fd & H3 & H)|(e & H3 & ->)].
  2: { split; [left|done]. rewrite <-H2. eapply law_Openat_other; [|exact H3]. by apply not_eq_sym. }
  assert (entry w3 journalName = entry w1 journalName) as E3.
  { rewrite <-H2. eapply law_Openat_other; [|exact H3]. by apply not_eq_sym. }
  assert (opened w3 fd = Some name) as Ho.
  { eapply (law_Openat_excl _ (flags_of [O_WRONLY; O_NOFOLLOW; O_CLOEXEC])). exact H3. }
  apply bind_inv in H as [(w4 & u4 & H4 & H)|(e & H4 & ->)]; [|by msteps_any].
  apply attempt_inv in H4 as (r4 & H4 & ?); simplify_eq.
  apply (persist_write_run _ _ name) in H4 as [E4 C4]; [|done..].
  destruct r4 as [[]|e4].
  2: { apply persist_cleanup_run in H as [? Herr]; [|done..]. split; [left; congruence|naive_solver]. }
  apply bind_inv in H as [(w5 & u5 & H5 & H)|(e & H5 & ->)]; [|by msteps_any].
  apply attempt_inv in H5 as (r5 & H5 & ?); simplify_eq. quiet.
  destruct r5 as [[]|e5].
  2: { apply persist_cleanup_run in H as [? Herr]; [|done..]. split; [left; congruence|naive_solver]. }
  apply bind_inv in H as [(w6 & u6 & H6 & H)|(e & H6 & ->)]; [|by msteps_any].
  apply attempt_inv in H6 as (r6 & H6 & ?); simplify_eq.
  apply persist_publish_run in H6 as [P6 C6]; [|done].
  apply persist_cleanup_run in H as [E7 Herr]; [|done..].
  split; [destruct P6; [left|right]; naive_solver congruence|].
  intros ->. destruct r6 as [[]|]; [|naive_solver]. rewrite E7, C6; naive_solver congruence.
Qed.

(** C30: crash safety of a durable write.  Whatever fails on the way (any system
    call, any injected fault), the journal file holds either exactly what it
    held before or exactly the encoding of the next record, never a mixture; and
    when the write reports success it holds the encoding of the next record. *)
Theorem persist_atomic j w next j' w' r :
  held d j ->
  persist next (j, w) = ((j', w'), r) ->
  (entry w' journalName = entry w journalName \/
   exists data, encode_journal next = Ok data /\ entry w' journalName = Some data) /\
  (r = Ok tt -> exists data, encode_journal next = Ok data /\ entry w' journalName = Some data).
Proof.
  intros Hd H. unfold persist in H.
  apply bind_inv in H as [([j1 w1] & j2 & H1 & H)|(e & H1 & ->)]; [|by msteps_any].
  unfold gets in H1. simplify_eq/=.
  apply bind_inv in H as [([j3 w3] & r3 & H3 & H)|(e & H3 & ->)]; [|by msteps_any].
  apply attempt_inv in H3 as (r3' & H3 & ?); simplify_eq.
  apply on_snd_inv in H3 as [? H3]; simplify_eq/=.
  assert (Hgoal :
    (entry w3 journalName = entry w1 journalName \/
     exists data, encode_journal next = Ok data /\ entry w3 journalName = Some data) /\
    (r3' = Ok tt -> exists data, encode_journal next = Ok data /\ entry w3 journalName = Some data)).
  { apply bind_inv in H3 as [(w4 & u & H4 & H3)|(e & H4 & ->)]; apply checkLock_quiet in H4.
    2: { split; [left; congruence|done]. }
    apply bind_inv in H3 as [(w5 & data & H5 & H3)|(e & H5 & ->)]; unfold lift in H5; simplify_eq.
    2: { split; [left; congruence|done]. }
    apply persist_file_run in H3 as [Hp Hok]; [|done]. rewrite H4 in Hp. naive_solver. }
  destruct r3' as [[]|e3]; msteps_any; naive_solver.
Qed.

End disk.

(** ** Opening a journal *)

Section opening.
Context {W : Type} {PX : Posix W} {UL : UuidLib} {SH : Sha256} {JR : Json record} {JE : Json envelope}.
Implicit Types (j : Journal) (w : W).

Lemma open_fail_Err {A} j e w w' (a : A) : open_fail j e w <> (w', Ok a).
Proof.
  unfold open_fail, bind, lift. destruct (close_files j w) as [? [c|]]; [|done].
  destruct c; simpl; done.
Qed.

Lemma decode_journal_ok data d r : decode_journal data d = Ok r -> record_ok d r = true.
Proof. unfold decode_journal. intros H. repeat case_match; simplify_eq. by bools. Qed.

Lemma null_record_ok d : record_ok d (null_record d) = true.
Proof. unfold record_ok. cbn. by rewrite bool_decide_eq_true_2. Qed.

Ltac no_fail := try (exfalso; eapply open_fail_Err; eassumption).

Lemma open_existing_run j fd d w w' j' :
  open_existing j fd d w = (w', Ok j') ->
  exists data r, decode_journal data d = Ok r /\ j' = set_record r j.
Proof. unfold open_existing. intros H. msteps; no_fail. eauto. Qed.

Lemma open_locked_run j d create fresh w w' j' :
  ~ fenced j -> open_locked j d create fresh w = (w', Ok j') ->
  ~ fenced j' /\
  ((j_record j' = null_record d /\ create = true /\ fresh = true) \/
   exists data, decode_journal data d = Ok (j_record j')).
Proof.
  intros Hf H. unfold open_locked in H. msteps; no_fail.
  - apply open_existing_run in H0 as (data & r & ? & ->). eauto.
  - destruct (persist _ _) as [[j2 w2] [[]|]] eqn:Hp; no_fail. simplify_eq.
    apply persist_run in Hp as [[_ ->]|(? & ? & _)]; [|done]. bools. subst. auto.
Qed.

Lemma open_lock_fresh dir created w w' fd fresh :
  open_lock dir created w = (w', Ok (fd, fresh)) -> fresh = true -> created = true.
Proof. unfold open_lock. intros H ->. destruct created; [done|]. by msteps. Qed.

(** No implicit fresh ownership.  A successful [Open] returns an unfenced
    journal whose record is valid for the requested (validated) domain, and that
    record either was read from disk and passed the size, checksum, schema and
    domain checks, or is the initial record of a directory that this very call
    created; an existing directory without a journal is never initialised, even
    with [create]. *)
Theorem open_verified directory d create w w' j :
  Open directory d create w = (w', Ok j) ->
  Domain_validate d = Ok tt /\ ~ fenced j /\ record_ok d (j_record j) = true /\
  ((create = true /\ j_record j = null_record d /\
    exists w1 dir, openDirectory directory create w = (w1, Ok (dir, true))) \/
   exists data, decode_journal data d = Ok (j_record j)).
Proof.
  intros H. unfold Open in H.
  apply bind_ok_inv in H as (w0 & euid & Hg & H). unfold gets in Hg. simplify_eq.
  destruct (negb _); [by msteps|].
  destruct (Domain_validate d) as [[]|] eqn:Hv; [|by msteps]. split; [done|].
  apply bind_ok_inv in H as (w1 & [dir created] & Hd%wrap_ok_inv & H).
  apply bind_ok_inv in H as (w2 & l & Hl & H). apply attempt_inv in Hl as (l' & Hl & ?). simplify_eq.
  destruct l' as [[fd fresh]|]; no_fail.
  assert (Hop : exists j0 w3, ~ fenced j0 /\ open_locked j0 d create fresh w3 = (w', Ok j)).
  { msteps; no_fail; eexists _, _; split; try done; by intros []. }
  destruct Hop as (j0 & w3 & Hf & Hop).
  apply open_locked_run in Hop as [Hf' [(Hn & -> & ->)|[data Hdec]]]; [| |done].
  - split; [done|]. rewrite Hn. split; [apply null_record_ok|]. left. split_and!; [done..|].
    apply open_lock_fresh in Hl as ->; [|done]. eauto.
  - split; [done|]. split; [by eapply decode_journal_ok|]. eauto.
Qed.
End opening.

(** ** Frame

    What the file operations leave alone, the journal leaves alone. *)

Class PosixFrame {W} {PX : Posix W} (I : W -> Prop) := {
  frame_OpenRoot : preserves I OpenRoot;
  frame_Openat fd n fl m : preserves I (Openat fd n fl m);
  frame_Mkdirat fd n m : preserves I (Mkdirat fd n m);
  frame_Fsync fd : preserves I (Fsync fd);
  frame_Close fd : preserves I (Close_fd fd);
  frame_Fstat fd : preserves I (Fstat fd);
  frame_Fstatat fd n : preserves I (Fstatat fd n);
  frame_Flock fd : preserves I (Flock fd);
  frame_Write fd s : preserves I (Write fd s);
  frame_ReadLimit fd n : preserves I (ReadLimit fd n);
  frame_Renameat d n d' m : preserves I (Renameat d n d' m);
  frame_Unlinkat d n : preserves I (Unlinkat d n);
  frame_NewUUID : preserves I NewUUID;
}.

#[export] Hint Resolve frame_OpenRoot frame_Openat frame_Mkdirat frame_Fsync frame_Close frame_Fstat frame_Fstatat
  frame_Flock frame_Write frame_ReadLimit frame_Renameat frame_Unlinkat frame_NewUUID : evpn.

Section frame.
Context {W : Type} {PX : Posix W} {SH : Sha256} {JR : Json record} {JE : Json envelope} {UL : UuidLib}.
Context (I : W -> Prop) {PF : PosixFrame I}.
Let J (s : Journal * W) : Prop := I s.2.

Lemma openDirectory_loop_frame create fd created parts : preserves I (openDirectory_loop create fd created parts).
Proof. revert fd created. induction parts as [|p parts IH]; intros fd created; simpl; pres. Qed.
Hint Resolve openDirectory_loop_frame : evpn.

Lemma openDirectory_frame path create : preserves I (openDirectory path create).
Proof. unfold openDirectory. pres. Qed.
Lemma secureFile_frame fd : preserves I (secureFile fd).
Proof. unfold secureFile. pres. Qed.
Hint Resolve openDirectory_frame secureFile_frame : evpn.

Lemma checkLock_frame j : preserves I (checkLock j).
Proof. unfold checkLock. pres. Qed.
Lemma persist_file_frame j wrapped : preserves I (persist_file j wrapped).
Proof. unfold persist_file, persist_write, persist_publish, persist_cleanup. pres. Qed.
Hint Resolve checkLock_frame persist_file_frame : evpn.

Lemma modify_journal_frame (f : Journal -> Journal) : preserves J (modify (fun s => (f s.1, s.2))).
Proof. by apply preserves_modify. Qed.
Lemma on_snd_frame {T A} (m : M W A) : preserves I m -> preserves (fun s : T * W => I s.2) (on_snd m).
Proof. intros Hm [t w] Hw. unfold on_snd. specialize (Hm w Hw). simpl in *. by destruct (m w). Qed.
Hint Resolve modify_journal_frame : evpn.

Lemma Journal_check_frame : preserves J (Journal_check (W := W)).
Proof. unfold Journal_check. pres; apply on_snd_frame; pres. Qed.
Lemma persist_frame next : preserves J (persist (W := W) next).
Proof. unfold persist. pres; apply on_snd_frame; pres. Qed.
Hint Resolve Journal_check_frame persist_frame : evpn.

Lemma Begin_frame {P} {JP : Json P} op (p : P) : preserves J (Begin op p).
Proof. unfold Begin. pres. Qed.
Lemma Commit_frame {P} {JP : Json P} seq (p : P) : preserves J (Commit seq p).
Proof. unfold Commit. pres. Qed.
Lemma Snapshot_frame : preserves J (Snapshot (W := W)).
Proof. unfold Snapshot. pres. Qed.
Lemma Close_frame : preserves J (Close (W := W)).
Proof. unfold Close, close_files. pres. all: try (by apply preserves_modify); apply on_snd_frame; pres. Qed.
End frame.

(** The outcome of [Begin] for the pending intent, without bounds on the sequence. *)
Lemma Begin_pending {W} {PX : Posix W} {SH : Sha256} {JR : Json record} {JE : Json envelope} {P} {JP : Json P}
    op (p : P) j w j' w' (seq : Z) :
  Begin op p (j, w) = ((j', w'), Ok seq) ->
  exists data, json_Marshal p = Ok data /\ r_Pending (j_record j) = None /\
    r_State (j_record j') = r_State (j_record j) /\
    r_Pending (j_record j') = Some {| i_Sequence := seq; i_Operation := op; i_Payload := data |}.
Proof.
  unfold Begin. intros H. apply bind_ok_inv in H as ([j1 w1] & [] & Hc & H).
  apply check_run in Hc as [(_ & -> & _)|(e & ? & _)]; [|done]. msteps. bools.
  eexists. by split_and!.
Qed.
