(* ===== verification/GoJson.v ===== *)
(** * JSON documents

    Models what the code uses of [encoding/json] on values of type [any]: decoded documents
    and the reading of a whole text. *)

From S2P Require Import Prelude GoStd Journal.

(** ** JSON values: what [interface{}] holds after decoding *)

Inductive json :=
  | JNull
  | JBool (b : bool)
  | JNum (text : string)
  | JStr (s : string)
  | JArr (l : list json)
  | JObj (fields : list (string * json)).

Section json_ind.
Context (P : json -> Prop) (Hnull : P JNull) (Hbool : forall b, P (JBool b)) (Hnum : forall n, P (JNum n)) (Hstr : forall s, P (JStr s)).
Context (Harr : forall l, Forall P l -> P (JArr l)) (Hobj : forall m, Forall (fun kv => P kv.2) m -> P (JObj m)).
(** Induction through the elements and the fields. *)
Fixpoint json_rect' (j : json) : P j :=
  match j with
  | JNull => Hnull
  | JBool b => Hbool b
  | JNum n => Hnum n
  | JStr s => Hstr s
  | JArr l => Harr l ((fix go l := match l return Forall P l with [] => List.Forall_nil _ | x :: l => List.Forall_cons _ x l (json_rect' x) (go l) end) l)
  | JObj m => Hobj m ((fix go m := match m return Forall (fun kv => P kv.2) m with
                                   | [] => List.Forall_nil _ | x :: m => List.Forall_cons _ x m (json_rect' x.2) (go m) end) m)
  end.
End json_ind.

#[export] Instance json_eq_dec : EqDecision json.
Proof.
  refine (fix go (a b : json) : Decision (a = b) :=
    match a, b with
    | JNull, JNull => left eq_refl
    | JBool x, JBool y => cast_if (decide (x = y))
    | JNum x, JNum y => cast_if (decide (x = y))
    | JStr x, JStr y => cast_if (decide (x = y))
    | JArr x, JArr y => cast_if (@list_eq_dec _ go x y)
    | JObj x, JObj y => cast_if (@list_eq_dec _ (@prod_eq_dec _ _ _ go) x y)
    | _, _ => right _
    end); abstract congruence.
Defined.

(** [m[key]]: a missing key reads as [nil]. *)
Fixpoint field (key : string) (m : list (string * json)) : json :=
  match m with
  | [] => JNull
  | (k, v) :: m => if bool_decide (k = key) then v else field key m
  end.

(** [json.Unmarshal] into an [interface{}]: the whole text is one value. *)
Definition json_Unmarshal {A} `{!Json A} (text : string) : option A :=
  match json_Decode text with Some (a, rest) => if blank rest then Some a else None | None => None end.
