(* ===== verification/Calls.v ===== *)
(** * Calls with an invariant and a result

    A small Hoare logic for the monad [M]: a call that starts in a world with [P] ends in a
    world with [P'], whatever it returns, and what it returns without an error satisfies
    [Q]. *)

From S2P Require Import Prelude.

Definition call {W A} (P P' : W -> Prop) (m : M W A) (Q : A -> Prop) : Prop :=
  forall w w' r, P w -> m w = (w', r) -> P' w' /\ forall a, r = Ok a -> Q a.
(** What a successful call answered in a world with [P]. *)
Definition answers {W A} (P : W -> Prop) (m : M W A) (a : A) : Prop := exists w w', P w /\ m w = (w', Ok a).

Section calls.
Context {W : Type}.
Implicit Types P : W -> Prop.

Lemma call_bind {A B} P P' (m : M W A) (k : A -> M W B) Q R : call P P m Q -> (forall a, Q a -> call P P' (k a) R) -> (forall w, P w -> P' w) -> call P P' (bind m k) R.
Proof.
  intros Hm Hk Hsub w w' r Hw [(w1 & a & H1 & H2)|(e & H1 & ->)]%bind_inv; destruct (Hm _ _ _ Hw H1) as [Hw1 Hq]; [|split; [auto|done]].
  by eapply (Hk a (Hq a eq_refl)).
Qed.
Lemma call_seq {A B} P (m : M W A) (k : A -> M W B) Q R : call P P m Q -> (forall a, Q a -> call P P (k a) R) -> call P P (bind m k) R.
Proof. intros Hm Hk. by eapply call_bind. Qed.
Lemma call_lift {A} P (x : result A) (Q : A -> Prop) : (forall a, x = Ok a -> Q a) -> call P P (lift x) Q.
Proof. intros HQ w w' r Hw H. unfold lift in H. by simplify_eq. Qed.
Lemma call_ret {A} P (a : A) (Q : A -> Prop) : Q a -> call P P (ret a) Q.
Proof. intros HQ. apply (call_lift P (Ok a)). by intros ? [= <-]. Qed.
Lemma call_fail {A} P e (Q : A -> Prop) : call P P (fail e) Q.
Proof. by apply (call_lift P (Err e)). Qed.
Lemma call_wrap {A} P P' f (m : M W A) Q : call P P' m Q -> call P P' (wrap f m) Q.
Proof. intros Hm w w' r Hw (r' & H & ->)%wrap_inv. destruct (Hm _ _ _ Hw H) as [? HQ]. split; [done|]. destruct r'; [done|discriminate]. Qed.
Lemma call_answers {A} P (m : M W A) : preserves P m -> call P P m (answers P m).
Proof. intros Hm w w' r Hw H. pose proof (Hm w Hw) as Hp. rewrite H in Hp. split; [done|]. intros a ->. by exists w, w'. Qed.
Lemma call_keeps {A} P (m : M W A) : preserves P m -> call P P m (fun _ => True).
Proof. intros Hm w w' r Hw H. pose proof (Hm w Hw) as Hp. rewrite H in Hp. done. Qed.
Lemma call_weaken {A} P P' (m : M W A) (Q Q' : A -> Prop) : call P P' m Q -> (forall a, Q a -> Q' a) -> call P P' m Q'.
Proof. intros Hm HQ w w' r Hw H. destruct (Hm _ _ _ Hw H) as [? Ha]. split; [done|]. intros a Hr. by apply HQ, Ha. Qed.
Lemma call_attempt {A} P P' (m : M W A) Q : call P P' m Q -> call P P' (attempt m) (fun r => forall a, r = Ok a -> Q a).
Proof. intros Hm w w' r Hw (r' & H & ->)%attempt_inv. destruct (Hm _ _ _ Hw H) as [? HQ]. split; [done|]. by intros ? [= <-]. Qed.
Lemma call_if {A} P P' (b : bool) (m1 m2 : M W A) Q : (b = true -> call P P' m1 Q) -> (b = false -> call P P' m2 Q) -> call P P' (if b then m1 else m2) Q.
Proof. destruct b; auto. Qed.
Lemma call_preserves {A} P (m : M W A) Q : call P P m Q -> preserves P m.
Proof. intros H w Hw. destruct (m w) as [w' r] eqn:E. simpl. by destruct (H w w' r Hw E). Qed.
End calls.
