(* ===== verification/Sim.v ===== *)
(** * Concrete instances of the outside code

    A small in-memory file system that satisfies [PosixLaws], a self-delimiting
    codec that satisfies [JsonLaws], a UUID library and a digest.
    The theorems are proved for all instances; these let the witnesses run the
    definitions. *)

From S2P Require Import Prelude GoStd Journal.
From Stdlib Require Import Ascii.

(** ** A self-delimiting codec *)

Class Codec (A : Type) := {
  put : A -> string;
  get : string -> option (A * string);
  get_put a s : get (put a +:+ s) = Some (a, s);
}.

Lemma app_cons (c : ascii) (a b : string) : String c a +:+ b = String c (a +:+ b).
Proof. done. Qed.

Lemma app_assoc_str (a b c : string) : ((a +:+ b) +:+ c = a +:+ (b +:+ c))%string.
Proof. induction a as [|x a IH]; [done|]. by rewrite !app_cons, IH. Qed.

Lemma app_empty (a : string) : a +:+ EmptyString = a.
Proof. induction a as [|x a IH]; [done|]. by rewrite app_cons, IH. Qed.

Fixpoint put_pos (p : positive) : string :=
  match p with xH => "." | xO p => String "O" (put_pos p) | xI p => String "I" (put_pos p) end.
Fixpoint get_pos (s : string) : option (positive * string) :=
  match s with
  | String "." s => Some (xH, s)
  | String "O" s => prod_map xO id <$> get_pos s
  | String "I" s => prod_map xI id <$> get_pos s
  | _ => None
  end.
#[export] Program Instance pos_codec : Codec positive := {| put := put_pos; get := get_pos |}.
Next Obligation. intros p s. induction p as [p IH|p IH|]; [..|done]; simpl put_pos; rewrite app_cons; simpl get_pos; by rewrite IH. Qed.

Fixpoint put_string (s : string) : string :=
  match s with EmptyString => "." | String c s => String "c" (String c (put_string s)) end.
Fixpoint get_string (s : string) : option (string * string) :=
  match s with
  | String "." s => Some (EmptyString, s)
  | String "c" (String c s) => prod_map (String c) id <$> get_string s
  | _ => None
  end.
#[export] Program Instance string_codec : Codec string := {| put := put_string; get := get_string |}.
Next Obligation. intros a s. induction a as [|c a IH]; [done|]. simpl put_string. rewrite !app_cons. simpl get_string. by rewrite IH. Qed.

#[export] Program Instance prod_codec {A B} `{!Codec A, !Codec B} : Codec (A * B) := {|
  put p := (put p.1 +:+ put p.2)%string;
  get s := '(a, s) ← get s; '(b, s) ← get s; Some ((a, b), s);
|}.
Next Obligation. intros A B CA CB [a b] s. simpl. rewrite app_assoc_str, get_put. simpl. by rewrite get_put. Qed.

Definition put_option {A} `{!Codec A} (o : option A) : string :=
  match o with None => "." | Some a => String "S" (put a) end.
Definition get_option {A} `{!Codec A} (s : string) : option (option A * string) :=
  match s with
  | String "." s => Some (None, s)
  | String "S" s => prod_map Some id <$> get s
  | _ => None
  end.
#[export] Program Instance option_codec {A} `{!Codec A} : Codec (option A) := {| put := put_option; get := get_option |}.
Next Obligation. intros A CA [a|] s; [|done]. unfold put_option, get_option. rewrite app_cons. by rewrite get_put. Qed.

(** A list is its length and its elements. *)
Fixpoint get_elements {A} `{!Codec A} (n : nat) (s : string) : option (list A * string) :=
  match n with
  | O => Some ([], s)
  | S n => '(a, s) ← get s; '(l, s) ← get_elements n s; Some (a :: l, s)
  end.
Lemma get_elements_put {A} `{!Codec A} (l : list A) (s : string) :
  get_elements (length l) (foldr (fun a s => put a +:+ s) EmptyString l +:+ s) = Some (l, s).
Proof. induction l as [|a l IH]; [done|]. simpl. rewrite app_assoc_str, get_put. simpl. by rewrite IH. Qed.

Definition put_list {A} `{!Codec A} (l : list A) : string :=
  put (Pos.of_succ_nat (length l)) +:+ foldr (fun a s => put a +:+ s) EmptyString l.
Definition get_list {A} `{!Codec A} (s : string) : option (list A * string) :=
  '(n, s) ← get s; get_elements (Nat.pred (Pos.to_nat n)) s.
#[export] Program Instance list_codec {A} `{!Codec A} : Codec (list A) := {| put := put_list; get := get_list |}.
Next Obligation.
  intros A CA l s. unfold put_list, get_list. rewrite app_assoc_str, get_put.
  change (get_elements (Nat.pred (Pos.to_nat (Pos.of_succ_nat (length l))))
    (foldr (fun a s => put a +:+ s) EmptyString l +:+ s) = Some (l, s)).
  rewrite SuccNat2Pos.id_succ. apply get_elements_put.
Qed.

(** A type through a pair of conversions. *)
Program Definition via_codec {A B} `{!Codec B} (f : A -> B) (g : B -> A) (E : forall a, g (f a) = a) : Codec A := {|
  put a := put (f a);
  get s := prod_map g id <$> get s;
|}.
Next Obligation. intros A B CB f g E a s. simpl. rewrite get_put. simpl. by rewrite E. Qed.

#[export] Instance Z_codec : Codec Z :=
  via_codec (fun z => match z with Z0 => None | Zpos p => Some (p, None) | Zneg p => Some (p, Some p) end)
            (fun o => match o with None => Z0 | Some (p, None) => Zpos p | Some (p, Some _) => Zneg p end)
            ltac:(by intros []).
#[export] Instance bool_codec : Codec bool :=
  via_codec (fun b : bool => if b then 1 else 0) (fun z => z =? 1) ltac:(by intros []).

#[export] Instance gmap_codec {A} `{!Codec A} : Codec (gmap string A) :=
  via_codec (fun m : gmap string A => map_to_list m) (fun l : list (string * A) => list_to_map l)
    ltac:(intros; apply list_to_map_to_list).

#[export] Instance codec_json {A} `{!Codec A} : Json A := {
  json_Marshal a := Ok (String "J" (put a));
  json_Decode s := match s with String "J" s => get s | _ => None end;
}.

#[export] Instance codec_json_laws {A} `{!Codec A} : JsonLaws A.
Proof.
  split; intros a s [= <-]; [|done]. cbn.
  pose proof (get_put a EmptyString) as H. by rewrite app_empty in H.
Qed.

#[export] Instance Intent_codec : Codec Intent :=
  via_codec (fun i => (i_Sequence i, i_Operation i, i_Payload i))
            (fun '(a, b, c) => {| i_Sequence := a; i_Operation := b; i_Payload := c |}) ltac:(by intros []).
#[export] Instance Domain_codec : Codec Domain :=
  via_codec (fun d => (InstallationUID d, NodeUID d, BootID d, NetworkNamespace d, ConfigDigest d))
    (fun '(a, b, c, e, f) => {| InstallationUID := a; NodeUID := b; BootID := c;
                                NetworkNamespace := e; ConfigDigest := f |}) ltac:(by intros []).
#[export] Instance record_codec : Codec record :=
  via_codec (fun r => (r_Version r, r_Domain r, r_Sequence r, r_State r, r_Pending r))
    (fun '(a, b, c, e, f) => {| r_Version := a; r_Domain := b; r_Sequence := c;
                                r_State := e; r_Pending := f |}) ltac:(by intros []).
#[export] Instance envelope_codec : Codec envelope :=
  via_codec (fun e => (e_Record e, e_SHA256 e))
    (fun '(a, b) => {| e_Record := a; e_SHA256 := b |}) ltac:(by intros []).

#[export] Instance sim_range : MapRange := { range A m := map_to_list m; range_perm A m := reflexivity _ }.

(** A digest without collisions. *)
#[export] Instance sim_sha256 : Sha256 := String "035".

#[export] Instance sim_uuid : UuidLib := {
  UUID := string;
  uuid_Parse s := if bool_decide (s = ""%string) then None else Some s;
  uuid_FromBytes s := if bool_decide (s = ""%string) then None else Some s;
  uuid_Nil := "nil"%string;
  uuid_String s := s;
  uuid_Bytes s := s;
}.

(** ** A file system with one journal directory

    Descriptor 1 is the root directory; the directory "j" below it holds the
    files; [sf_fds] maps a descriptor to the file it was opened as, or to [None]
    for a directory. *)

Record simfs := {
  sf_dir : bool;
  sf_files : gmap string string;
  sf_fds : gmap Z (option string);
  sf_next : Z;
}.

Definition sim_empty : simfs :=
  {| sf_dir := false; sf_files := ∅; sf_fds := {[1 := None]}; sf_next := 2 |}.

Definition sim_alloc (o : option string) (files : gmap string string) (w : simfs) : simfs * result Z :=
  ({| sf_dir := sf_dir w; sf_files := files; sf_fds := <[sf_next w := o]> (sf_fds w);
      sf_next := sf_next w + 1 |}, Ok (sf_next w)).
Definition sim_files (f : gmap string string) (w : simfs) : simfs :=
  {| sf_dir := sf_dir w; sf_files := f; sf_fds := sf_fds w; sf_next := sf_next w |}.

Definition sim_stat (file : bool) (ino : Z) : Stat :=
  {| Dev := 1; Ino := ino; Mode := if file then 33152 else 16832; Uid := 0; Nlink := 1 |}.

Definition sim_Openat (fd : Z) (n : string) (fl m : Z) (w : simfs) : simfs * result Z :=
  if fd =? 1 then
    if sf_dir w then sim_alloc None (sf_files w) w else (w, Err (Errno ENOENT))
  else match sf_files w !! n with
       | Some _ => if Z.land fl O_EXCL =? 0 then sim_alloc (Some n) (sf_files w) w
                   else (w, Err (Errno EEXIST))
       | None => if Z.land fl O_CREAT =? 0 then (w, Err (Errno ENOENT))
                 else sim_alloc (Some n) (<[n := ""%string]> (sf_files w)) w
       end.

#[export] Instance sim_posix : Posix simfs := {
  Geteuid _ := 0;
  OpenRoot w := (w, Ok 1);
  Openat := sim_Openat;
  Mkdirat fd n m w := ({| sf_dir := true; sf_files := sf_files w; sf_fds := sf_fds w;
                          sf_next := sf_next w |}, Ok tt);
  Fsync fd w := (w, Ok tt);
  Close_fd fd w := (w, Ok tt);
  Fstat fd w := (w, match sf_fds w !! fd with
                    | Some (Some n) => Ok (sim_stat true (Z.of_nat (String.length n)))
                    | Some None => Ok (sim_stat false 0)
                    | None => Err (Errno 9)
                    end);
  Fstatat fd n w := (w, match sf_files w !! n with
                        | Some _ => Ok (sim_stat true (Z.of_nat (String.length n)))
                        | None => Err (Errno ENOENT)
                        end);
  Flock fd w := (w, Ok tt);
  Write fd s w := match sf_fds w !! fd with
                  | Some (Some n) => (sim_files (<[n := s]> (sf_files w)) w, Ok tt)
                  | _ => (w, Err (Errno 9))
                  end;
  ReadLimit fd n w := (w, match sf_fds w !! fd with
                          | Some (Some f) => of_option (Errno 9) (sf_files w !! f)
                          | _ => Err (Errno 9)
                          end);
  Renameat d n d' m w := match sf_files w !! n with
                         | Some c => (sim_files (<[m := c]> (delete n (sf_files w))) w, Ok tt)
                         | None => (w, Err (Errno ENOENT))
                         end;
  Unlinkat d n w := match sf_files w !! n with
                    | Some c => (sim_files (delete n (sf_files w)) w, Ok tt)
                    | None => (w, Err (Errno ENOENT))
                    end;
  NewUUID w := ({| sf_dir := sf_dir w; sf_files := sf_files w; sf_fds := sf_fds w;
                   sf_next := sf_next w + 1 |}, Ok (itoa (sf_next w)));
}.

(** The same file system inside a larger world. *)
Definition over {W A} (get : W -> simfs) (set : simfs -> W -> W) (m : M simfs A) : M W A :=
  fun w => let '(f, r) := m (get w) in (set f w, r).
Definition posix_over {W} (get : W -> simfs) (set : simfs -> W -> W) : Posix W := {|
  Geteuid w := Geteuid (get w);
  OpenRoot := over get set OpenRoot;
  Openat fd n fl m := over get set (Openat fd n fl m);
  Mkdirat fd n m := over get set (Mkdirat fd n m);
  Fsync fd := over get set (Fsync fd);
  Close_fd fd := over get set (Close_fd fd);
  Fstat fd := over get set (Fstat fd);
  Fstatat fd n := over get set (Fstatat fd n);
  Flock fd := over get set (Flock fd);
  Write fd s := over get set (Write fd s);
  ReadLimit fd n := over get set (ReadLimit fd n);
  Renameat d n d' m := over get set (Renameat d n d' m);
  Unlinkat d n := over get set (Unlinkat d n);
  NewUUID := over get set NewUUID;
|}.

Lemma sim_Openat_other n fl m w w' r k :
  k <> n -> sim_Openat 2 n fl m w = (w', r) -> sf_files w' !! k = sf_files w !! k.
Proof.
  unfold sim_Openat, sim_alloc. intros Hk H. simpl in H. repeat case_match; simplify_eq/=; try done.
  by rewrite lookup_insert_ne.
Qed.

Lemma sim_Openat_existing fd n fl m w w' r :
  Z.land fl O_CREAT = 0 -> sim_Openat fd n fl m w = (w', r) -> sf_files w' = sf_files w.
Proof.
  unfold sim_Openat, sim_alloc. intros Hfl H. rewrite Hfl in H.
  repeat case_match; simplify_eq/=; done.
Qed.

Lemma sim_Openat_excl n fl m w w' fd :
  sim_Openat 2 n fl m w = (w', Ok fd) -> mjoin (sf_fds w' !! fd) = Some n.
Proof.
  unfold sim_Openat, sim_alloc. intros H. simpl in H. repeat case_match; simplify_eq/=.
  all: by rewrite lookup_insert_eq.
Qed.

#[export] Instance sim_laws : PosixLaws simfs 2.
Proof.
  refine {| entry w n := sf_files w !! n; opened w fd := mjoin (sf_fds w !! fd) |}.
  - intros. by simplify_eq/=.
  - intros. by simplify_eq/=.
  - intros. by simplify_eq/=.
  - intros. by simplify_eq/=.
  - intros. by simplify_eq/=.
  - intros. by simplify_eq/=.
  - intros * ? H. apply sim_Openat_existing in H; [|done]. by rewrite H.
  - intros * H. by eapply sim_Openat_excl.
  - intros * ? H. by eapply sim_Openat_other.
  - intros * Ho H. simpl in H. repeat case_match; simplify_eq/=; try done.
    by rewrite lookup_insert_eq.
  - intros * Ho H. simpl in H. repeat case_match; simplify_eq/=; try done.
    rewrite lookup_insert_ne; [done|]. naive_solver.
  - intros * H. simpl in H. repeat case_match; simplify_eq/=; try done.
    rewrite lookup_insert_eq. congruence.
  - intros * H. simpl in H. repeat case_match; simplify_eq/=; done.
  - intros * ? H. simpl in H. repeat case_match; simplify_eq/=; try done.
    by rewrite lookup_delete_ne.
Defined.

Definition sim_domain : Domain :=
  {| InstallationUID := "i"; NodeUID := "n"; BootID := "b"; NetworkNamespace := "ns";
     ConfigDigest := "00000000000000000000000000000000000000000000000000000000000000ff" |}.

(** A fresh journal: [Open] on an empty file system. *)
Definition sim_open : simfs * result Journal := Open "/j" sim_domain true sim_empty.

(** The value of a call that is known to succeed. *)
Definition value {A} (d : A) (r : result A) : A := match r with Ok a => a | Err _ => d end.

Definition zero_journal : Journal :=
  {| j_dir := {| f_fd := 0; f_name := "" |}; j_lock := None; j_record := null_record sim_domain;
     j_blocked := None; j_closed := true; j_fault := None |}.

(** A journal just created. *)
Definition j_fresh : Journal := value zero_journal sim_open.2.
Definition fs_fresh : simfs := sim_open.1.

(** ** Running the definitions *)

(** Evaluate a closed boolean goal. *)
Ltac run := vm_compute; reflexivity.

(** Name the results of a call that succeeds by evaluation. *)
Tactic Notation "ok_run" constr(x) "as" simple_intropattern(p) "," simple_intropattern(q) "eqn" ident(E) :=
  let H := fresh in
  assert (is_ok x.2 = true) as H by run;
  destruct x as [p [q|?]] eqn:E; [clear H|discriminate H].

(** The same for a call whose result is [r]. *)
Tactic Notation "run_to" constr(x) constr(r) "as" simple_intropattern(p) "eqn" ident(E) :=
  let H := fresh in
  assert (x.2 = r) as H by run;
  destruct x as [p ?] eqn:E; cbn [snd] in H; subst.

(** Close a conjunction of known facts. *)
Ltac known := split_and!; first [assumption|reflexivity].
