(* ===== verification/Type2.v ===== *)
(** * Local Type-2 endpoints and routes

    Models [src/pkg/evpn/type2.go] up to [Reconcile]: the provider-neutral
    endpoint, its ownership and route keys, its equivalence, its validation and
    the construction of the BGP EVPN MAC/IP route.  The GoBGP packet library is
    a parameter ([BgpTypes], [BgpLib]): the program only parses, builds, prints
    and serialises with it. *)

From S2P Require Import Prelude GoStd.
From Stdlib Require Import Ascii.

(** ** The GoBGP packet library *)

Class BgpTypes := {
  RD : Type;
  RT : Type;
  RD_eq_dec :: EqDecision RD;
  RT_eq_dec :: EqDecision RT;
}.

Section bgp_data.
Context {BT : BgpTypes}.

(** [bgp.EVPNMacIPAdvertisementRoute]; [m_IP = None] is the invalid [netip.Addr]. *)
Record EVPNMacIP := {
  m_RD : option RD;
  m_ESI : list Z;
  m_ETag : Z;
  m_MacLength : Z;
  m_MAC : list Z;
  m_IPLength : Z;
  m_IP : option Addr;
  m_Labels : list Z;
}.

(** [bgp.EVPNNLRI]: other route types carry data the program does not read. *)
Record EVPNNLRI := {
  RouteType : Z;
  RouteTypeData : option EVPNMacIP;
}.

(** [bgp.ExtendedCommunityInterface] *)
Inductive ExtComm :=
  | ECRouteTarget (rt : RT)
  | ECEncap (tunnel : Z)
  | ECMacMobility (sequence : Z) (sticky : bool)
  | ECOther (bytes : string).

(** [bgp.PathAttributeInterface]; [AttrOther] is any attribute type the program
    names only by its type number. *)
Inductive PathAttr :=
  | AttrOrigin (value : Z)
  | AttrNextHop (ip : Addr)
  | AttrMpReach (afi safi : Z) (nexthop : Addr) (linklocal : bool) (nlris : list (option EVPNNLRI))
  | AttrExtComm (cs : list ExtComm)
  | AttrTunnelEncap
  | AttrOther (type : Z).

#[export] Instance EVPNMacIP_eq_dec : EqDecision EVPNMacIP.
Proof. solve_decision. Defined.
#[export] Instance EVPNNLRI_eq_dec : EqDecision EVPNNLRI.
Proof. solve_decision. Defined.
#[export] Instance ExtComm_eq_dec : EqDecision ExtComm.
Proof. solve_decision. Defined.
#[export] Instance PathAttr_eq_dec : EqDecision PathAttr.
Proof. solve_decision. Defined.
End bgp_data.

Definition EVPN_ROUTE_TYPE_MAC_IP_ADVERTISEMENT : Z := 2.
Definition BGP_ORIGIN_ATTR_TYPE_IGP : Z := 0.
Definition TUNNEL_TYPE_VXLAN : Z := 8.

Class BgpLib {BT : BgpTypes} := {
  ParseRouteDistinguisher : string -> option RD;
  RD_String : RD -> string;
  ParseRouteTarget : string -> option RT;
  RT_String : RT -> string;
  NewEVPNMacIPAdvertisementRoute : RD -> string -> Addr -> list Z -> result EVPNNLRI;
  NewPathAttributeNextHop : Addr -> result PathAttr;
  NLRI_String : EVPNNLRI -> string;
  NLRI_Serialize : EVPNNLRI -> result string;
  EC_Serialize : ExtComm -> result string;
  Attr_Serialize : PathAttr -> result string;
}.

(** Two NLRIs with the same wire bytes print the same. *)
Class BgpLaws {BT : BgpTypes} {BL : BgpLib} :=
  serialize_string n1 n2 b :
    NLRI_Serialize n1 = Ok b -> NLRI_Serialize n2 = Ok b -> NLRI_String n1 = NLRI_String n2.

(** ** Endpoints and routes *)

Inductive RouteAction := RouteAdvertise | RouteWithdraw.

Record LocalEndpoint := {
  NetworkID : string;
  EndpointID : string;
  Incarnation : string;
  MACAddress : string;
  IPAddresses : list string;
  VNI : Z;
  RouteDistinguisher : string;
  RouteTargets : list string;
  LocalVTEP : string;
  NodeName : string;
  Chassis : string;
  Advertise : bool;
  MACOnly : bool;
}.

#[export] Instance RouteAction_eq_dec : EqDecision RouteAction.
Proof. solve_decision. Defined.
#[export] Instance LocalEndpoint_eq_dec : EqDecision LocalEndpoint.
Proof. solve_decision. Defined.

Record OwnedType2Route := {
  o_Endpoint : LocalEndpoint;
  o_PathUUID : string;
}.

#[export] Instance OwnedType2Route_eq_dec : EqDecision OwnedType2Route.
Proof. solve_decision. Defined.

(** [Type2Route]; [t_operation] is the pointer to the planned operation. *)
Record Type2Route {BT : BgpTypes} := {
  t_Endpoint : LocalEndpoint;
  t_Action : RouteAction;
  t_NLRI : EVPNNLRI;
  t_PathAttributes : list PathAttr;
  t_operation : option nat;
}.

Record Type2RIBPath {BT : BgpTypes} := {
  p_PathUUID : string;
  p_Local : bool;
  p_NLRI : option EVPNNLRI;
  p_PathAttributes : list PathAttr;
}.

(** ** Pure helpers *)

(** [primaryIP]: the first address that parses, as text. *)
Definition one_ip (addr : string) : option string :=
  let trimmed := TrimSpace addr in
  if bool_decide (trimmed = ""%string) then None else
  match (if ContainsAny trimmed "/" then ParseCIDR trimmed else None) with
  | Some ip => Some (Addr_String ip)
  | None => Addr_String <$> ParseIP trimmed
  end.
Fixpoint primaryIP (addresses : list string) : string :=
  match addresses with
  | [] => ""
  | addr :: rest => match one_ip addr with Some s => s | None => primaryIP rest end
  end.

(** [equalStringSet]: compare the sorted copies position by position. *)
Fixpoint same_strings (l r : list string) : bool :=
  match l, r with
  | x :: l, y :: r => bool_decide (x = y) && same_strings l r
  | _, _ => true
  end.
Definition equalStringSet (lhs rhs : list string) : bool :=
  if negb (bool_decide (length lhs = length rhs)) then false
  else same_strings (sort_Strings lhs) (sort_Strings rhs).

(** [cloneLocalEndpoint] copies the slices; the copy is the same value. *)
Definition cloneLocalEndpoint (ep : LocalEndpoint) : LocalEndpoint := ep.

Definition OwnershipKey (ep : LocalEndpoint) : string :=
  (TrimSpace (EndpointID ep) +:+ "/" +:+ TrimSpace (Incarnation ep))%string.

Definition RouteKey (ep : LocalEndpoint) : string :=
  Join [TrimSpace (NetworkID ep); TrimSpace (EndpointID ep); TrimSpace (Incarnation ep);
        TrimSpace (RouteDistinguisher ep); TrimSpace (MACAddress ep); primaryIP (IPAddresses ep);
        itoa (VNI ep); TrimSpace (LocalVTEP ep)] "/".

(** [LocalEndpoint.Equivalent] *)
Definition Equivalent (ep other : LocalEndpoint) : bool :=
  bool_decide (NetworkID ep = NetworkID other)
  && bool_decide (EndpointID ep = EndpointID other)
  && bool_decide (Incarnation ep = Incarnation other)
  && bool_decide (RouteDistinguisher ep = RouteDistinguisher other)
  && bool_decide (MACAddress ep = MACAddress other)
  && bool_decide (VNI ep = VNI other)
  && bool_decide (MACOnly ep = MACOnly other)
  && bool_decide (primaryIP (IPAddresses ep) = primaryIP (IPAddresses other))
  && bool_decide (LocalVTEP ep = LocalVTEP other)
  && equalStringSet (RouteTargets ep) (RouteTargets other).

Section routes.
Context {BT : BgpTypes} {BL : BgpLib}.

(** [LocalEndpoint.Validate] *)
Definition Validate (ep : LocalEndpoint) : result unit :=
  if blank (NetworkID ep) then Err (Errorf "network id is required")
  else if blank (EndpointID ep) then Err (Errorf "endpoint id is required")
  else if blank (Incarnation ep) then Err (Errorf "incarnation is required")
  else if blank (MACAddress ep) then Err (Errorf "mac address is required")
  else match ParseAddr (LocalVTEP ep) with
  | None => Err (Errorf "invalid local vtep")
  | Some _ =>
  if VNI ep =? 0 then Err (Errorf "vni must be non-zero")
  else if blank (RouteDistinguisher ep) then Err (Errorf "route distinguisher is required")
  else match ParseRouteDistinguisher (RouteDistinguisher ep) with
  | None => Err (Errorf "invalid route distinguisher")
  | Some _ =>
  match RouteTargets ep with
  | [] => Err (Errorf "at least one route target is required")
  | rt0 :: _ =>
  if negb (forallb (fun rt => bool_decide (is_Some (ParseRouteTarget rt))) (RouteTargets ep))
  then Err (Errorf "invalid route target")
  else match ParseRouteTarget rt0 with
  | None => Err (Errorf "route target")
  | Some _ =>
  match ParseMAC (MACAddress ep) with
  | None => Err (Errorf "invalid mac address")
  | Some _ =>
  if MACOnly ep then
    if negb (bool_decide (length (IPAddresses ep) = 0%nat))
    then Err (Errorf "MAC-only advertisement cannot contain IP addresses") else Ok tt
  else if bool_decide (primaryIP (IPAddresses ep) = ""%string)
       then Err (Errorf "at least one ip address is required for EVPN Type-2 advertisement")
       else Ok tt
  end end end end end.

(** [parseSelectedIP] *)
Definition parseSelectedIP (addresses : list string) : result Addr :=
  let ipStr := primaryIP addresses in
  if bool_decide (ipStr = ""%string) then Err (Errorf "no host ip available")
  else of_option (Errorf "ParseAddr") (ParseAddr ipStr).

(** The loop of [BuildType2Route] over the route targets. *)
Fixpoint parse_targets (rts : list string) : result (list ExtComm) :=
  match rts with
  | [] => Ok []
  | rt :: rts =>
      match ParseRouteTarget rt with
      | None => Err (Errorf "route target")
      | Some t => let? l := parse_targets rts in Ok (ECRouteTarget t :: l)
      end
  end.

(** [BuildType2Route] *)
Definition BuildType2Route (ep : LocalEndpoint) : result Type2Route :=
  let? _ := Validate ep in
  let? ipAddr := (if MACOnly ep then Ok None
                  else let? ip := parseSelectedIP (IPAddresses ep) in Ok (Some ip)) in
  let? vtep := of_option (Errorf "ParseAddr") (ParseAddr (LocalVTEP ep)) in
  let? rd := of_option (Errorf "ParseRouteDistinguisher")
                       (ParseRouteDistinguisher (RouteDistinguisher ep)) in
  let? nlri := match ipAddr with
               | None =>
                   let mac := default [] (ParseMAC (MACAddress ep)) in
                   Ok {| RouteType := EVPN_ROUTE_TYPE_MAC_IP_ADVERTISEMENT;
                         RouteTypeData := Some {| m_RD := Some rd; m_ESI := replicate 10 0;
                           m_ETag := 0; m_MacLength := 48; m_MAC := mac; m_IPLength := 0;
                           m_IP := None; m_Labels := [VNI ep] |} |}
               | Some ip => NewEVPNMacIPAdvertisementRoute rd (MACAddress ep) ip [VNI ep]
               end in
  let? routeTargets := parse_targets (RouteTargets ep) in
  let? nextHop := NewPathAttributeNextHop vtep in
  Ok {| t_Endpoint := ep; t_Action := RouteAdvertise; t_NLRI := nlri;
        t_PathAttributes := [AttrOrigin BGP_ORIGIN_ATTR_TYPE_IGP; nextHop;
                             AttrExtComm (routeTargets ++ [ECEncap TUNNEL_TYPE_VXLAN])];
        t_operation := None |}.

(** The wire identity of an endpoint: [route.NLRI.String()]. *)
Definition wire (ep : LocalEndpoint) : option string :=
  match BuildType2Route ep with Ok r => Some (NLRI_String (t_NLRI r)) | Err _ => None end.

(** [pathNextHop] (route_importer.go) *)
Fixpoint pathNextHop (attrs : list PathAttr) : string :=
  match attrs with
  | [] => ""
  | AttrNextHop ip :: _ => Addr_String ip
  | AttrMpReach _ _ nh _ _ :: _ => Addr_String nh
  | _ :: attrs => pathNextHop attrs
  end.

(** The [communities] closures of [ribPathMatchesEndpoint]: the serialised
    communities kept by a filter, in order. *)
Definition serialize_comms (keep : ExtComm -> bool) (attrs : list PathAttr) : result (list string) :=
  rfold (fun acc attr =>
    match attr with
    | AttrExtComm cs =>
        rfold (fun acc c => if keep c then let? v := EC_Serialize c in Ok (acc ++ [v]) else Ok acc)
              acc cs
    | _ => Ok acc
    end) [] attrs.

Definition default_mobility (c : ExtComm) : bool :=
  match c with ECMacMobility seq sticky => (seq =? 0) && negb sticky | _ => false end.

(** The last ORIGIN attribute decides [originMatches]. *)
Definition origin_igp (attrs : list PathAttr) : bool :=
  fold_left (fun acc attr => match attr with
                             | AttrOrigin v => v =? BGP_ORIGIN_ATTR_TYPE_IGP
                             | _ => acc
                             end) attrs false.

(** [ribPathMatchesEndpoint] (type2_lifecycle.go) *)
Definition ribPathMatchesEndpoint (path : Type2RIBPath) (ep : LocalEndpoint) : bool :=
  match BuildType2Route ep, p_NLRI path with
  | Ok want, Some nlri =>
      match NLRI_Serialize nlri, NLRI_Serialize (t_NLRI want) with
      | Ok got, Ok wantNLRI =>
          bool_decide (got = wantNLRI)
          && bool_decide (pathNextHop (p_PathAttributes path) = pathNextHop (t_PathAttributes want))
          && origin_igp (p_PathAttributes path)
          && match serialize_comms (fun _ => true) (t_PathAttributes want),
                   serialize_comms (fun c => negb (default_mobility c)) (p_PathAttributes path) with
             | Ok wantRT, Ok filteredRT => equalStringSet filteredRT wantRT
             | _, _ => false
             end
      | _, _ => false
      end
  | _, _ => false
  end.
End routes.

(** ** Properties *)

Lemma same_strings_eq l r :
  length l = length r -> same_strings l r = true <-> l = r.
Proof.
  revert r. induction l as [|x l IH]; intros [|y r] Hl; simpl in *; try done.
  rewrite andb_true_iff, bool_decide_eq_true, IH by lia. naive_solver.
Qed.

Lemma sort_Strings_perm l : sort_Strings l ≡ₚ l.
Proof. apply merge_sort_Permutation. Qed.

Lemma sort_Strings_sorted l : StronglySorted String.le (sort_Strings l).
Proof. apply (StronglySorted_merge_sort _). Qed.

(** Sorting is a canonical form. *)
Lemma sort_Strings_canonical l r : sort_Strings l = sort_Strings r <-> l ≡ₚ r.
Proof.
  split.
  - intros H. by rewrite <-(sort_Strings_perm l), H, sort_Strings_perm.
  - intros H. apply (StronglySorted_unique String.le); [apply sort_Strings_sorted..|].
    by rewrite !sort_Strings_perm.
Qed.

Lemma equalStringSet_perm l r : equalStringSet l r = true <-> l ≡ₚ r.
Proof.
  unfold equalStringSet. case_bool_decide as Hl; simpl.
  - rewrite same_strings_eq; [apply sort_Strings_canonical|].
    by rewrite !(Permutation_length (sort_Strings_perm _)).
  - split; [done|]. intros ?%Permutation_length. done.
Qed.

(** Two endpoints the reconciler treats as the same route. *)
Definition equivalent (a b : LocalEndpoint) : Prop := Equivalent a b = true.

(** The fields [Equivalent] compares, with the route targets up to order. *)
Definition same_route_fields (a b : LocalEndpoint) : Prop :=
  NetworkID a = NetworkID b /\ EndpointID a = EndpointID b /\ Incarnation a = Incarnation b /\
  RouteDistinguisher a = RouteDistinguisher b /\ MACAddress a = MACAddress b /\ VNI a = VNI b /\
  MACOnly a = MACOnly b /\ primaryIP (IPAddresses a) = primaryIP (IPAddresses b) /\
  LocalVTEP a = LocalVTEP b /\ RouteTargets a ≡ₚ RouteTargets b.

Lemma equivalent_fields a b : equivalent a b <-> same_route_fields a b.
Proof.
  unfold equivalent, Equivalent, same_route_fields.
  rewrite !andb_true_iff, !bool_decide_eq_true, equalStringSet_perm. tauto.
Qed.

#[export] Instance equivalent_equivalence : Equivalence equivalent.
Proof.
  split.
  - intros a. apply equivalent_fields. unfold same_route_fields. done.
  - intros a b. rewrite !equivalent_fields. unfold same_route_fields. naive_solver.
  - intros a b c. rewrite !equivalent_fields. unfold same_route_fields.
    intros. destruct_and?. split_and!; try congruence. by etrans.
Qed.

Section route_properties.
Context {BT : BgpTypes} {BL : BgpLib}.

Lemma parse_targets_spec rts cs :
  parse_targets rts = Ok cs <->
  Forall2 (fun rt c => exists t, ParseRouteTarget rt = Some t /\ c = ECRouteTarget t) rts cs.
Proof.
  revert cs. induction rts as [|rt rts IH]; intros cs; simpl.
  - split; [intros [= <-]; constructor|by inversion 1].
  - destruct (ParseRouteTarget rt) as [t|] eqn:E; simpl.
    + destruct (parse_targets rts) as [l|] eqn:E2; simpl.
      * split.
        -- intros [= <-]. constructor; [eauto|]. by apply IH.
        -- inversion 1 as [|? ? ? ? (t' & ? & ->) Hr]; simplify_eq. apply IH in Hr. congruence.
      * split; [done|]. inversion 1 as [|? ? ? ? ? Hr]; simplify_eq. apply IH in Hr. congruence.
    + split; [done|]. inversion 1 as [|? ? ? ? (t' & ? & ->) Hr]; simplify_eq.
Qed.

Lemma Validate_inv ep :
  Validate ep = Ok tt ->
  blank (NetworkID ep) = false /\ blank (EndpointID ep) = false /\ blank (Incarnation ep) = false /\
  VNI ep <> 0 /\ RouteTargets ep <> [] /\
  Forall (fun rt => is_Some (ParseRouteTarget rt)) (RouteTargets ep) /\
  is_Some (ParseAddr (LocalVTEP ep)) /\
  is_Some (ParseRouteDistinguisher (RouteDistinguisher ep)) /\ is_Some (ParseMAC (MACAddress ep)) /\
  (if MACOnly ep then IPAddresses ep = [] else primaryIP (IPAddresses ep) <> ""%string).
Proof.
  unfold Validate. intros H. repeat (case_match; try discriminate); bools; split_and!; eauto.
  all: try (intros ?; congruence).
  all: try match goal with H : forallb _ _ = true |- _ =>
    apply Forall_forall; intros rt Hrt; rewrite forallb_forall in H;
    apply list_elem_of_In in Hrt; apply H in Hrt; by bools end.
  by apply nil_length_inv.
Qed.

(** The route built for an endpoint.  [BuildType2Route] only succeeds on a
    valid endpoint, and the route it returns is an IGP-origin advertisement of
    that endpoint: next hop the local VTEP, one route-target community per
    configured target in the configured order followed by the VXLAN
    encapsulation community, and for a MAC-only endpoint an NLRI with the parsed
    48-bit MAC, no IP and the VNI as its only label. *)
Theorem BuildType2Route_spec ep r :
  BuildType2Route ep = Ok r ->
  Validate ep = Ok tt /\ VNI ep <> 0 /\ t_Endpoint r = ep /\ t_Action r = RouteAdvertise /\
  exists vtep rd nh cs,
    ParseAddr (LocalVTEP ep) = Some vtep /\ NewPathAttributeNextHop vtep = Ok nh /\
    ParseRouteDistinguisher (RouteDistinguisher ep) = Some rd /\
    t_PathAttributes r = [AttrOrigin BGP_ORIGIN_ATTR_TYPE_IGP; nh;
                          AttrExtComm (cs ++ [ECEncap TUNNEL_TYPE_VXLAN])] /\
    cs <> [] /\
    Forall2 (fun rt c => exists t, ParseRouteTarget rt = Some t /\ c = ECRouteTarget t)
            (RouteTargets ep) cs /\
    (if MACOnly ep
     then exists mac, ParseMAC (MACAddress ep) = Some mac /\
          RouteTypeData (t_NLRI r) = Some {| m_RD := Some rd; m_ESI := replicate 10 0; m_ETag := 0;
            m_MacLength := 48; m_MAC := mac; m_IPLength := 0; m_IP := None; m_Labels := [VNI ep] |}
     else exists ip, ParseAddr (primaryIP (IPAddresses ep)) = Some ip /\
          NewEVPNMacIPAdvertisementRoute rd (MACAddress ep) ip [VNI ep] = Ok (t_NLRI r)).
Proof.
  unfold BuildType2Route. intros H. destruct (Validate ep) as [[]|] eqn:Hv; simpl in H; [|done].
  pose proof (Validate_inv _ Hv) as (_ & _ & _ & Hvni & Hrt & _ & [vtep Hvtep] & [rd Hrd] & [mac Hmac] & Hip).
  rewrite Hvtep, Hrd in H. destruct (MACOnly ep) eqn:Hm.
  - simpl in H. destruct (parse_targets _) as [cs|] eqn:Hcs; simpl in H; [|done].
    destruct (NewPathAttributeNextHop vtep) as [nh|] eqn:Hnh; simpl in H; [|done]. simplify_eq/=.
    rewrite Hmac. simpl. split_and!; try done. apply parse_targets_spec in Hcs as Hf.
    exists vtep, rd, nh, cs. split_and!; try done; [|by eauto].
    intros ->. by inversion Hf; simplify_eq.
  - unfold parseSelectedIP in H. rewrite bool_decide_eq_false_2 in H by done.
    destruct (ParseAddr (primaryIP _)) as [ip|] eqn:Hp; simpl in H; [|done].
    destruct (NewEVPNMacIPAdvertisementRoute _ _ _ _) as [n|] eqn:Hn; simpl in H; [|done].
    destruct (parse_targets _) as [cs|] eqn:Hcs; simpl in H; [|done].
    destruct (NewPathAttributeNextHop vtep) as [nh|] eqn:Hnh; simpl in H; [|done]. simplify_eq/=.
    split_and!; try done. apply parse_targets_spec in Hcs as Hf.
    exists vtep, rd, nh, cs. split_and!; try done; [|by eauto].
    intros ->. by inversion Hf; simplify_eq.
Qed.

(** A valid endpoint whose address is IPv4 (or that is MAC-only) builds, when the
    library's constructors accept what the parsers produced. *)
Lemma BuildType2Route_total ep :
  (forall vtep, is_ok (NewPathAttributeNextHop vtep) = true) ->
  (forall rd mac ip ls, is_ok (NewEVPNMacIPAdvertisementRoute rd mac ip ls) = true) ->
  Validate ep = Ok tt ->
  MACOnly ep = true \/ (exists ip, primaryIP (IPAddresses ep) = Addr_String ip /\ valid4 ip) ->
  exists r, BuildType2Route ep = Ok r.
Proof.
  intros Hnh Hnl Hv Hip.
  pose proof (Validate_inv _ Hv) as (_ & _ & _ & _ & _ & Hrts & [vtep Hvtep] & [rd Hrd] & _ & Hp).
  unfold BuildType2Route. rewrite Hv, Hvtep, Hrd. simpl.
  assert (exists cs, parse_targets (RouteTargets ep) = Ok cs) as [cs ->].
  { clear -Hrts. induction Hrts as [|rt rts [t Ht] _ [cs IH]]; [by exists []|].
    simpl. rewrite Ht, IH. simpl. eauto. }
  specialize (Hnh vtep). destruct (NewPathAttributeNextHop vtep) as [nh|]; [|done].
  destruct (MACOnly ep); simpl; [by eauto|]. destruct Hip as [|(ip & Hpip & Hip)]; [done|].
  unfold parseSelectedIP. rewrite bool_decide_eq_false_2 by done.
  rewrite Hpip, ParseAddr_String4 by done. simpl.
  specialize (Hnl rd (MACAddress ep) ip [VNI ep]).
  destruct (NewEVPNMacIPAdvertisementRoute _ _ _ _); [|done]. simpl. eauto.
Qed.

Lemma BuildType2Route_endpoint ep r : BuildType2Route ep = Ok r -> t_Endpoint r = ep.
Proof.
  unfold BuildType2Route, rbind. intros H. repeat (case_match; try discriminate); by simplify_eq.
Qed.

Lemma wire_Some ep k :
  wire ep = Some k <-> exists r, BuildType2Route ep = Ok r /\ NLRI_String (t_NLRI r) = k.
Proof. unfold wire. destruct (BuildType2Route ep); naive_solver. Qed.

(** A RIB path that matches an endpoint has the endpoint's wire identity. *)
Lemma ribPathMatches_wire {LW : BgpLaws} path ep n :
  ribPathMatchesEndpoint path ep = true -> p_NLRI path = Some n -> wire ep = Some (NLRI_String n).
Proof.
  unfold ribPathMatchesEndpoint, wire. intros H Hn. rewrite Hn in H.
  destruct (BuildType2Route ep) as [r|]; [|done].
  destruct (NLRI_Serialize n) as [g|] eqn:E1; [|done].
  destruct (NLRI_Serialize (t_NLRI r)) as [w|] eqn:E2; [|done]. bools. subst.
  f_equal. by eapply serialize_string.
Qed.
End route_properties.
