(* ===== verification/Reconciler.v ===== *)
(** * The route reconciler

    Models [RouteReconciler] of [src/pkg/evpn/type2.go] and
    [src/pkg/evpn/type2_lifecycle.go]: planning deltas ([Reconcile]), executing
    and acknowledging one delta ([Apply]), and the two resynchronisations with
    the speaker's RIB ([Resync], [resyncDurable]).  The map of planned
    operations is keyed by pointer in the code; here a pointer is a number drawn
    from the allocator [rr_heap], and [rr_pending] maps it to the immutable
    operation it points to. *)

From S2P Require Import Prelude GoStd Type2.

(** ** Interfaces *)

(** [Type2RIBSource] and [Type2RouteApplier]: interface values, which may be nil. *)
Record Type2RIBSource {BT : BgpTypes} (W : Type) := {
  source_Snapshot : M W (list Type2RIBPath);
}.
Arguments source_Snapshot {BT W} _.

Record Type2RouteApplier {BT : BgpTypes} (W : Type) := {
  applier_Add : Type2Route -> M W string;
  applier_Delete : OwnedType2Route -> M W unit;
}.
Arguments applier_Add {BT W} _ _.
Arguments applier_Delete {BT W} _ _.

(** ** State *)

Record routeOperation := {
  op_action : RouteAction;
  op_endpoint : LocalEndpoint;
  op_wireKey : string;
  op_pathUUID : string;
}.

#[export] Instance routeOperation_eq_dec : EqDecision routeOperation.
Proof. solve_decision. Defined.

Record RouteReconciler := {
  rr_applied : gmap string OwnedType2Route;
  rr_foreign : gset string;
  rr_pending : gmap nat routeOperation;
  rr_synchronized : bool;
  rr_heap : nat;
}.

Definition NewRouteReconciler : RouteReconciler :=
  {| rr_applied := ∅; rr_foreign := ∅; rr_pending := ∅; rr_synchronized := false; rr_heap := 0 |}.

Definition set_applied (m : gmap string OwnedType2Route) (r : RouteReconciler) : RouteReconciler :=
  {| rr_applied := m; rr_foreign := rr_foreign r; rr_pending := rr_pending r;
     rr_synchronized := rr_synchronized r; rr_heap := rr_heap r |}.
Definition set_pending (m : gmap nat routeOperation) (r : RouteReconciler) : RouteReconciler :=
  {| rr_applied := rr_applied r; rr_foreign := rr_foreign r; rr_pending := m;
     rr_synchronized := rr_synchronized r; rr_heap := rr_heap r |}.
Definition set_synchronized (b : bool) (r : RouteReconciler) : RouteReconciler :=
  {| rr_applied := rr_applied r; rr_foreign := rr_foreign r; rr_pending := rr_pending r;
     rr_synchronized := b; rr_heap := rr_heap r |}.
Definition alloc_operation (op : routeOperation) (r : RouteReconciler) : RouteReconciler :=
  {| rr_applied := rr_applied r; rr_foreign := rr_foreign r;
     rr_pending := <[rr_heap r := op]> (rr_pending r);
     rr_synchronized := rr_synchronized r; rr_heap := S (rr_heap r) |}.

Definition ErrRouteOwnership (msg : string) : error := Sentinel SRouteOwnership msg.
Definition ErrStaleRouteOperation : error := Sentinel SStaleRouteOperation "stale route operation".
Definition ErrRouteOrder : error :=
  Sentinel SRouteOrder "previous wire-route withdrawal is not acknowledged".
Definition ErrRouteResyncRequired : error :=
  Sentinel SRouteResyncRequired "successful RIB resynchronization is required".

Section reconciler.
Context {BT : BgpTypes} {BL : BgpLib}.

(** ** Planning *)

(** One round of the first loop of [Reconcile]. *)
Definition desired_step (foreign : gset string) (acc : gmap string LocalEndpoint)
    (endpoint : LocalEndpoint) : result (gmap string LocalEndpoint) :=
  if negb (Advertise endpoint) then Ok acc else
  let? route := BuildType2Route endpoint in
  let key := NLRI_String (t_NLRI route) in
  if match acc !! key with Some other => negb (Equivalent other endpoint) | None => false end
  then Err (ErrRouteOwnership "conflicting desired owners or attributes")
  else if bool_decide (key ∈ foreign) then Err (ErrRouteOwnership "unclaimed local path")
  else Ok (<[key := cloneLocalEndpoint endpoint]> acc).

Definition desired_map (foreign : gset string) (desired : list LocalEndpoint)
    : result (gmap string LocalEndpoint) := rfold (desired_step foreign) ∅ desired.

(** The closure [plan]: build the route, allocate its operation, register it. *)
Definition plan (op : routeOperation) : M RouteReconciler Type2Route :=
  let! route := lift (BuildType2Route (cloneLocalEndpoint (op_endpoint op))) in
  let! id := gets rr_heap in
  do! modify (alloc_operation op) in
  ret {| t_Endpoint := t_Endpoint route; t_Action := op_action op; t_NLRI := t_NLRI route;
         t_PathAttributes := t_PathAttributes route; t_operation := Some id |}.

(** The withdrawal planned for an applied key, if any. *)
Definition withdrawal (applied : gmap string OwnedType2Route) (desired : gmap string LocalEndpoint)
    (key : string) : option routeOperation :=
  match applied !! key with
  | None => None
  | Some existing =>
      if match desired !! key with
         | Some want => Equivalent (o_Endpoint existing) want
         | None => false
         end
      then None
      else Some {| op_action := RouteWithdraw; op_endpoint := o_Endpoint existing;
                   op_wireKey := key; op_pathUUID := o_PathUUID existing |}
  end.

(** The advertisement planned for a desired key, if any. *)
Definition advertisement (applied : gmap string OwnedType2Route)
    (desired : gmap string LocalEndpoint) (key : string) : option routeOperation :=
  match desired !! key with
  | None => None
  | Some endpoint =>
      if match applied !! key with
         | Some existing => Equivalent (o_Endpoint existing) endpoint
         | None => false
         end
      then None
      else Some {| op_action := RouteAdvertise; op_endpoint := endpoint;
                   op_wireKey := key; op_pathUUID := "" |}
  end.

(** A planning loop over sorted keys: skip or plan, append to [changes]. *)
Definition plan_loop (choose : string -> option routeOperation) (changes : list Type2Route)
    (keys : list string) : M RouteReconciler (list Type2Route) :=
  mfold (fun changes key =>
    match choose key with
    | None => ret changes
    | Some op => let! change := plan op in ret (changes ++ [change])
    end) changes keys.

(** [RouteReconciler.Reconcile] *)
Definition Reconcile (desired : list LocalEndpoint) : M RouteReconciler (list Type2Route) :=
  do! modify (set_pending ∅) in
  let! r := gets id in
  let! desiredMap := lift (desired_map (rr_foreign r) desired) in
  let! changes := plan_loop (withdrawal (rr_applied r) desiredMap) [] (sorted_keys (rr_applied r)) in
  plan_loop (advertisement (rr_applied r) desiredMap) changes (sorted_keys desiredMap).

(** ** Execution *)

Context {W : Type} {CX : Ctx W}.

(** [RouteReconciler.Apply] *)
Definition Apply (delta : Type2Route) (api : option (Type2RouteApplier W))
    : M (RouteReconciler * W) unit :=
  let! r := gets fst in
  if negb (rr_synchronized r) then fail ErrRouteResyncRequired else
  match (id ← t_operation delta; op ← rr_pending r !! id; Some (id, op)) with
  | None => fail ErrStaleRouteOperation
  | Some (id, op) =>
  match api with
  | None => fail (Errorf "route applier is required")
  | Some api =>
  let! cerr := gets (fun s => ctx_Err s.2) in
  do! lift (of_error cerr) in
  let current := rr_applied r !! op_wireKey op in
  do! match op_action op with
      | RouteAdvertise =>
          if bool_decide (is_Some current) then fail ErrRouteOrder else
          let! route := lift (BuildType2Route (cloneLocalEndpoint (op_endpoint op))) in
          let! uuid := wrap (Wrapped "advertise") (on_snd (applier_Add api route)) in
          if bool_decide (uuid = ""%string) then
            do! modify (fun s => (set_synchronized false s.1, s.2)) in
            fail (ErrRouteOwnership "AddPath returned no UUID")
          else
            modify (fun s =>
              (set_applied (<[op_wireKey op := {| o_Endpoint := cloneLocalEndpoint (op_endpoint op);
                                                  o_PathUUID := uuid |}]> (rr_applied s.1)) s.1, s.2))
      | RouteWithdraw =>
          match current with
          | Some current =>
              if negb (bool_decide (o_PathUUID current = op_pathUUID op))
                 || negb (Equivalent (o_Endpoint current) (op_endpoint op))
              then fail ErrStaleRouteOperation
              else
                do! wrap (Wrapped "withdraw")
                         (on_snd (applier_Delete api {| o_Endpoint := cloneLocalEndpoint (o_Endpoint current);
                                                        o_PathUUID := o_PathUUID current |})) in
                modify (fun s => (set_applied (delete (op_wireKey op) (rr_applied s.1)) s.1, s.2))
          | None => fail ErrStaleRouteOperation
          end
      end in
  modify (fun s => (set_pending (delete id (rr_pending s.1)) s.1, s.2))
  end end.

(** [RouteReconciler.AppliedRoutes] *)
Definition AppliedRoutes (r : RouteReconciler) : list OwnedType2Route :=
  omap (fun key => rr_applied r !! key) (sorted_keys (rr_applied r)).

(** ** Resynchronisation *)

(** The receipts by UUID, as [Resync] claims them. *)
Definition claim_step (claims : gmap string OwnedType2Route) (receipt : OwnedType2Route)
    : result (gmap string OwnedType2Route) :=
  if bool_decide (o_PathUUID receipt = ""%string) then Err (ErrRouteOwnership "receipt has no UUID")
  else if bool_decide (is_Some (claims !! o_PathUUID receipt))
  then Err (ErrRouteOwnership "duplicate UUID receipt")
  else match BuildType2Route (o_Endpoint receipt) with
       | Err e => Err (Wrapped "invalid ownership receipt" e)
       | Ok _ => Ok (<[o_PathUUID receipt := receipt]> claims)
       end.

Record resync_acc := {
  ra_applied : gmap string OwnedType2Route;
  ra_foreign : gset string;
  ra_claims : gmap string OwnedType2Route;
}.

(** One RIB path in the loop of [Resync]. *)
Definition resync_step (a : resync_acc) (path : Type2RIBPath) : result resync_acc :=
  match p_NLRI path with
  | None => Err (Errorf "RIB snapshot contains a nil NLRI")
  | Some nlri =>
  if negb (p_Local path) then Ok a else
  let key := NLRI_String nlri in
  match ra_claims a !! p_PathUUID path with
  | None => Ok {| ra_applied := ra_applied a; ra_foreign := {[key]} ∪ ra_foreign a;
                  ra_claims := ra_claims a |}
  | Some receipt =>
      if negb (ribPathMatchesEndpoint path (o_Endpoint receipt))
      then Err (ErrRouteOwnership "UUID payload differs from receipt")
      else if bool_decide (is_Some (ra_applied a !! key))
      then Err (ErrRouteOwnership "multiple owned paths")
      else Ok {| ra_applied := <[key := receipt]> (ra_applied a); ra_foreign := ra_foreign a;
                 ra_claims := delete (p_PathUUID path) (ra_claims a) |}
  end end.

(** [RouteReconciler.Resync] *)
Definition Resync (source : option (Type2RIBSource W)) (receipts : list OwnedType2Route)
    : M (RouteReconciler * W) unit :=
  do! modify (fun s => (set_pending ∅ (set_synchronized false s.1), s.2)) in
  match source with
  | None => fail (Errorf "RIB source is required")
  | Some source =>
  let! paths := wrap (Wrapped "read local Type-2 RIB") (on_snd (source_Snapshot source)) in
  let! cerr := gets (fun s => ctx_Err s.2) in
  do! lift (of_error cerr) in
  let! claims := lift (rfold claim_step ∅ receipts) in
  let! a := lift (rfold resync_step {| ra_applied := ∅; ra_foreign := ∅; ra_claims := claims |} paths) in
  if negb (bool_decide (ra_claims a = ∅))
  then fail (ErrRouteOwnership "claimed UUID not present in local RIB")
  else if negb (bool_decide (dom (ra_applied a) ## ra_foreign a))
  then fail (ErrRouteOwnership "owned and foreign paths share a wire route")
  else modify (fun s => ({| rr_applied := ra_applied a; rr_foreign := ra_foreign a;
                            rr_pending := rr_pending s.1; rr_synchronized := true;
                            rr_heap := rr_heap s.1 |}, s.2))
  end.

(** The receipts by wire route, as [resyncDurable] claims them. *)
Definition durable_claim_step (claims : gmap string OwnedType2Route) (receipt : OwnedType2Route)
    : result (gmap string OwnedType2Route) :=
  match BuildType2Route (o_Endpoint receipt) with
  | Ok route =>
      if bool_decide (o_PathUUID receipt = ""%string)
      then Err (ErrRouteOwnership "invalid durable receipt")
      else let key := NLRI_String (t_NLRI route) in
           if bool_decide (is_Some (claims !! key))
           then Err (ErrRouteOwnership "duplicate durable wire route")
           else Ok (<[key := receipt]> claims)
  | Err _ => Err (ErrRouteOwnership "invalid durable receipt")
  end.

(** One RIB path in the loop of [resyncDurable]. *)
Definition durable_step (claims : gmap string OwnedType2Route)
    (a : gmap string OwnedType2Route * gset string) (path : Type2RIBPath)
    : result (gmap string OwnedType2Route * gset string) :=
  match p_NLRI path with
  | None => Err (ErrRouteOwnership "nil recovery NLRI")
  | Some nlri =>
  if negb (p_Local path) then Ok a else
  let key := NLRI_String nlri in
  match claims !! key with
  | None => Ok (a.1, {[key]} ∪ a.2)
  | Some receipt =>
      if bool_decide (is_Some (a.1 !! key))
      then Err (ErrRouteOwnership "multiple local paths share durable route")
      else if negb (ribPathMatchesEndpoint path (o_Endpoint receipt))
              || (negb (bool_decide (p_PathUUID path = ""%string))
                  && negb (bool_decide (p_PathUUID path = o_PathUUID receipt)))
      then Err (ErrRouteOwnership "durable UUID payload conflict")
      else Ok (<[key := receipt]> a.1, a.2)
  end end.

(** [RouteReconciler.resyncDurable] *)
Definition resyncDurable (source : Type2RIBSource W) (receipts : list OwnedType2Route)
    : M (RouteReconciler * W) unit :=
  do! modify (fun s => (set_pending ∅ (set_synchronized false s.1), s.2)) in
  let! paths := wrap (fun _ => ErrRouteOwnership "recovery RIB unavailable")
                     (on_snd (source_Snapshot source)) in
  let! claims := lift (rfold durable_claim_step ∅ receipts) in
  let! a := lift (rfold (durable_step claims) (∅, ∅) paths) in
  if negb (bool_decide (size a.1 = size claims))
  then fail (ErrRouteOwnership "durable receipt disappeared during recovery")
  else
    do! modify (fun s => ({| rr_applied := a.1; rr_foreign := a.2; rr_pending := rr_pending s.1;
                             rr_synchronized := true; rr_heap := rr_heap s.1 |}, s.2)) in
    let! cerr := gets (fun s => ctx_Err s.2) in
    lift (of_error cerr).

(** Apply a plan in order, stopping at the first error, as the exporter does. *)
Definition ApplyAll (deltas : list Type2Route) (api : option (Type2RouteApplier W))
    : M (RouteReconciler * W) unit :=
  mfold (fun _ delta => Apply delta api) tt deltas.

End reconciler.

(** ** Planning: what [Reconcile] registers *)

(** The plan of a reconciliation: withdrawals in key order, then advertisements
    in key order. *)
Definition plan_ops (applied : gmap string OwnedType2Route) (desired : gmap string LocalEndpoint)
    : list routeOperation :=
  omap (withdrawal applied desired) (sorted_keys applied) ++
  omap (advertisement applied desired) (sorted_keys desired).

(** [deltas] carry pointers to the registered operations [ops], all distinct. *)
Record planned {BT : BgpTypes} (r : RouteReconciler) (ops : list routeOperation)
    (deltas : list Type2Route) : Prop := {
  planned_ops : Forall2 (fun op d => t_Action d = op_action op /\ t_Endpoint d = op_endpoint op /\
    exists id, t_operation d = Some id /\ rr_pending r !! id = Some op) ops deltas;
  planned_nodup : NoDup (t_operation <$> deltas);
  planned_heap : forall id, is_Some (rr_pending r !! id) -> (id < rr_heap r)%nat;
}.

(** The applied map after executing operations, whatever UUIDs the speaker gave. *)
Inductive executes : gmap string OwnedType2Route -> list routeOperation ->
    gmap string OwnedType2Route -> Prop :=
  | executes_nil A : executes A [] A
  | executes_withdraw A op ops A' :
      op_action op = RouteWithdraw -> executes (delete (op_wireKey op) A) ops A' ->
      executes A (op :: ops) A'
  | executes_advertise A op ops A' uuid :
      op_action op = RouteAdvertise -> A !! op_wireKey op = None -> uuid <> ""%string ->
      executes (<[op_wireKey op := {| o_Endpoint := op_endpoint op; o_PathUUID := uuid |}]> A) ops A' ->
      executes A (op :: ops) A'.

(** The applied routes realise the desired endpoints: the same wire keys, each
    with an equivalent endpoint. *)
Definition converged (applied : gmap string OwnedType2Route) (desired : gmap string LocalEndpoint)
    : Prop :=
  forall k, option_Forall2 (fun o e => equivalent (o_Endpoint o) e) (applied !! k) (desired !! k).

Section planning.
Context {BT : BgpTypes} {BL : BgpLib}.

Lemma plan_ok_inv op r r' d :
  plan op r = (r', Ok d) ->
  r' = alloc_operation op r /\ t_Action d = op_action op /\ t_Endpoint d = op_endpoint op /\
  t_operation d = Some (rr_heap r) /\ is_Some (wire (op_endpoint op)).
Proof.
  unfold plan. intros H. msteps. split_and!; try done.
  - by eapply BuildType2Route_endpoint.
  - eexists. apply wire_Some. eauto.
Qed.

Lemma planned_alloc r ops ds op d :
  planned r ops ds -> t_Action d = op_action op -> t_Endpoint d = op_endpoint op ->
  t_operation d = Some (rr_heap r) ->
  planned (alloc_operation op r) (ops ++ [op]) (ds ++ [d]).
Proof.
  intros [Hf Hn Hh] Ha He Ho. split.
  - apply Forall2_app.
    + eapply Forall2_impl; [exact Hf|]. simpl. intros o d' (? & ? & id & ? & Hid).
      split_and!; [done..|]. exists id. split; [done|]. rewrite lookup_insert_ne; [done|].
      intros <-. specialize (Hh (rr_heap r)). rewrite Hid in Hh. specialize (Hh ltac:(eauto)). lia.
    + constructor; [|constructor]. split_and!; [done..|]. exists (rr_heap r). simpl.
      by rewrite lookup_insert_eq.
  - rewrite fmap_app. apply NoDup_app. split_and!; [done| |apply NoDup_singleton].
    intros x Hx [= ->]%list_elem_of_singleton. apply list_elem_of_fmap in Hx as (d' & Hd' & Hin).
    apply list_elem_of_lookup in Hin as [i Hi].
    destruct (Forall2_lookup_r _ _ _ _ _ Hf Hi) as (o & _ & _ & _ & id & Hid & Hp).
    rewrite Hid, Ho in Hd'. simplify_eq. specialize (Hh (rr_heap r)). rewrite Hp in Hh.
    specialize (Hh ltac:(eauto)). lia.
  - simpl. intros id [->|[? H]]%lookup_insert_is_Some; [lia|]. apply Hh in H. lia.
Qed.

(** The fields planning leaves alone. *)
Definition same_core (r r' : RouteReconciler) : Prop :=
  rr_applied r' = rr_applied r /\ rr_foreign r' = rr_foreign r /\
  rr_synchronized r' = rr_synchronized r.

Lemma plan_loop_planned choose keys r0 r ops ds r' ds' :
  same_core r0 r -> planned r ops ds -> plan_loop choose ds keys r = (r', Ok ds') ->
  same_core r0 r' /\ planned r' (ops ++ omap choose keys) ds'.
Proof.
  intros Hc Hp H. unfold plan_loop in H.
  eapply (mfold_invariant _ (fun done ds r =>
    same_core r0 r /\ planned r (ops ++ omap choose done) ds)) in H; [exact H|..].
  - simpl. by rewrite app_nil_r.
  - clear. intros done key ds1 ds2 r1 r2 _ [Hc Hp] H. rewrite omap_app. simpl.
    destruct (choose key) as [op|]; msteps; rewrite ?app_nil_r; [|done].
    match goal with H : plan _ _ = _ |- _ => apply plan_ok_inv in H as (-> & ? & ? & ? & _) end.
    rewrite app_assoc. split; [exact Hc|]. by apply planned_alloc.
Qed.

(** [Reconcile] registers exactly the plan. *)
Lemma Reconcile_planned desired r r' ds :
  Reconcile desired r = (r', Ok ds) ->
  exists dm, desired_map (rr_foreign r) desired = Ok dm /\ same_core r r' /\
             planned r' (plan_ops (rr_applied r) dm) ds.
Proof.
  unfold Reconcile. intros H. msteps.
  match goal with H : desired_map _ _ = Ok ?dm |- _ => exists dm; split; [done|] end.
  match goal with H1 : plan_loop _ [] _ _ = (?r1, Ok ?ch), H2 : plan_loop _ ?ch _ ?r1 = _ |- _ =>
    apply (plan_loop_planned _ _ r _ []) in H1 as [Hc Hp]; [|done|];
    [eapply (plan_loop_planned _ _ r) in H2; [|done..]; exact H2|] end.
  split; [constructor|constructor|]. simpl. intros id [? Hid]. by rewrite lookup_empty in Hid.
Qed.
End planning.

(** ** Execution *)

Section execution.
Context {BT : BgpTypes} {BL : BgpLib} {W : Type} {CX : Ctx W}.
Implicit Types (r : RouteReconciler) (api : option (Type2RouteApplier W)).

(** An acknowledged delta executed exactly the registered operation. *)
Lemma Apply_ok_inv delta api r w r' w' :
  Apply delta api (r, w) = ((r', w'), Ok tt) ->
  rr_synchronized r = true /\
  exists id op, t_operation delta = Some id /\ rr_pending r !! id = Some op /\
    executes (rr_applied r) [op] (rr_applied r') /\ rr_foreign r' = rr_foreign r /\
    rr_synchronized r' = true /\ rr_heap r' = rr_heap r /\
    rr_pending r' = delete id (rr_pending r).
Proof.
  unfold Apply. intros H.
  msteps; bools;
    match goal with H : _ ≫= _ = Some _ |- _ =>
      apply bind_Some in H as (id & Ho & (op & Hid & [= <- <-])%bind_Some) end;
    (split; [done|]); eexists _, _; split_and!; try done.
  - eapply executes_advertise; [done| |done|constructor]. by apply eq_None_not_Some.
  - eapply executes_withdraw; [done|constructor].
Qed.

Lemma planned_step r r' id op ops d ds :
  planned r (op :: ops) (d :: ds) -> t_operation d = Some id ->
  rr_heap r' = rr_heap r -> rr_pending r' = delete id (rr_pending r) ->
  planned r' ops ds.
Proof.
  intros [Hf Hn Hh] Hd Hhp Hpd. inversion_clear Hf as [|? ? ? ? Hop Hf'].
  rewrite fmap_cons in Hn. apply NoDup_cons in Hn as [Hni Hn]. split; [|done|].
  - apply Forall2_same_length_lookup_2; [by eapply Forall2_length|].
    intros i o d' Hi Hi'. pose proof (Forall2_lookup_lr _ _ _ _ _ _ Hf' Hi Hi') as (? & ? & id' & Hd' & ?).
    split_and!; [done..|]. exists id'. split; [done|]. rewrite Hpd.
    rewrite lookup_delete_ne; [done|]. intros <-. apply Hni. rewrite Hd, <-Hd'.
    apply list_elem_of_fmap. eexists; split; [done|]. by eapply list_elem_of_lookup_2.
  - rewrite Hhp, Hpd. intros id' [? [_ ?]%lookup_delete_Some]. apply Hh. eauto.
Qed.

Lemma planned_head r op ops d ds :
  planned r (op :: ops) (d :: ds) ->
  exists id, t_operation d = Some id /\ rr_pending r !! id = Some op.
Proof. intros [Hf _ _]. inversion_clear Hf. naive_solver. Qed.

Lemma executes_nil_inv A A' : executes A [] A' -> A' = A.
Proof. by inversion 1. Qed.

Lemma executes_cons A op A1 ops A' :
  executes A [op] A1 -> executes A1 ops A' -> executes A (op :: ops) A'.
Proof.
  intros H1 H2. remember [op] as l eqn:El. destruct H1 as [|A o l' B Ha H|A o l' B u Ha Hn Hu H];
    simplify_eq; inversion H; subst; eauto using executes_withdraw, executes_advertise.
Qed.

(** Deltas acknowledged one after the other, the world changing in between. *)
Inductive apply_chain : RouteReconciler -> list Type2Route -> RouteReconciler -> Prop :=
  | chain_nil r : apply_chain r [] r
  | chain_cons r r1 r2 d ds api (w w1 : W) :
      Apply d api (r, w) = ((r1, w1), Ok tt) -> apply_chain r1 ds r2 -> apply_chain r (d :: ds) r2.

Lemma ApplyAll_chain ds api : forall r w r' w',
  ApplyAll ds api (r, w) = ((r', w'), Ok tt) -> apply_chain r ds r'.
Proof.
  unfold ApplyAll. induction ds as [|d ds IH]; intros r w r' w' H; simpl in H.
  - msteps. constructor.
  - apply bind_ok_inv in H as ([r1 w1] & [] & H1 & H2). econstructor; eauto.
Qed.

(** Executing a whole plan. *)
Lemma chain_executes r ds r' :
  apply_chain r ds r' -> forall ops, planned r ops ds ->
  executes (rr_applied r) ops (rr_applied r') /\ rr_foreign r' = rr_foreign r.
Proof.
  induction 1 as [r|r r1 r2 d ds api w w1 H1 _ IH]; intros ops Hp;
    pose proof (planned_ops _ _ _ Hp) as Hf.
  - inversion Hf; subst. split; [constructor|done].
  - inversion Hf as [|op ? ops' ? Hop _]; subst.
    apply Apply_ok_inv in H1 as (_ & id & op' & Hd & Hid & Hex & Hfo & Hsy & Hhp & Hpd).
    destruct (planned_head _ _ _ _ _ Hp) as (id2 & Hd2 & Hid2).
    assert (id2 = id) as -> by congruence. assert (op' = op) as -> by congruence.
    pose proof (planned_step _ r1 _ _ _ _ _ Hp Hd Hhp Hpd) as Hp1.
    destruct (IH _ Hp1) as [Hex' Hfo']. split; [by eapply executes_cons|congruence].
Qed.
End execution.

(** ** The effect of a plan on the applied map *)

Lemma executes_app A l1 l2 A' :
  executes A (l1 ++ l2) A' -> exists A1, executes A l1 A1 /\ executes A1 l2 A'.
Proof.
  revert A. induction l1 as [|op l1 IH]; intros A H; simpl in H; [by eexists; split; [constructor|]|].
  inversion H; subst; edestruct IH as (A1 & ? & ?); eauto using executes_withdraw, executes_advertise.
Qed.

Lemma executes_withdrawals A ops A' :
  Forall (fun op => op_action op = RouteWithdraw) ops -> executes A ops A' ->
  forall k, A' !! k = if bool_decide (k ∈ op_wireKey <$> ops) then None else A !! k.
Proof.
  intros Hw H k. induction H as [A|A op ops A' Ha H IH|A op ops A' u Ha].
  - by rewrite bool_decide_eq_false_2 by set_solver.
  - apply Forall_cons in Hw as [_ Hw]. rewrite (IH Hw).
    destruct (decide (k ∈ op_wireKey <$> ops)); [rewrite !bool_decide_eq_true_2 by set_solver; done|].
    rewrite bool_decide_eq_false_2 by done. destruct (decide (k = op_wireKey op)) as [->|Hne].
    + by rewrite bool_decide_eq_true_2, lookup_delete_eq by set_solver.
    + by rewrite bool_decide_eq_false_2, lookup_delete_ne by set_solver.
  - apply Forall_cons in Hw as [? _]. congruence.
Qed.

Lemma executes_keep A ops A' k :
  k ∉ op_wireKey <$> ops -> executes A ops A' -> A' !! k = A !! k.
Proof.
  intros Hk H. induction H as [A|A op ops A' Ha H IH|A op ops A' u Ha Hn Hu H IH]; [done|..];
    rewrite fmap_cons, not_elem_of_cons in Hk; destruct Hk as [Hk1 Hk2]; rewrite (IH Hk2);
    [by rewrite lookup_delete_ne|by rewrite lookup_insert_ne].
Qed.

Lemma executes_advertised A ops A' op :
  Forall (fun op => op_action op = RouteAdvertise) ops -> NoDup (op_wireKey <$> ops) ->
  executes A ops A' -> op ∈ ops ->
  exists u, u <> ""%string /\
    A' !! op_wireKey op = Some {| o_Endpoint := op_endpoint op; o_PathUUID := u |}.
Proof.
  intros Hw Hn H Hin. induction H as [A|A o ops A' Ha H IH|A o ops A' u Ha Hno Hu H IH].
  - set_solver.
  - apply Forall_cons in Hw as [? _]. congruence.
  - rewrite fmap_cons in Hn. apply NoDup_cons in Hn as [Hni Hn]. apply Forall_cons in Hw as [_ Hw].
    apply elem_of_cons in Hin as [->|Hin]; [|by apply IH].
    exists u. split; [done|]. rewrite (executes_keep _ _ _ _ Hni H). by rewrite lookup_insert_eq.
Qed.

Section choose.
Context (choose : string -> option routeOperation).
Hypothesis choose_key : forall k op, choose k = Some op -> op_wireKey op = k.

Lemma choose_keys k (keys : list string) :
  k ∈ op_wireKey <$> omap choose keys <-> k ∈ keys /\ is_Some (choose k).
Proof.
  rewrite list_elem_of_fmap. split.
  - intros (op & -> & (k' & Hk & Ho)%list_elem_of_omap). rewrite (choose_key _ _ Ho). eauto.
  - intros [Hk [op Ho]]. exists op. rewrite (choose_key _ _ Ho), list_elem_of_omap. eauto.
Qed.

Lemma choose_keys_nodup (keys : list string) : NoDup keys -> NoDup (op_wireKey <$> omap choose keys).
Proof.
  induction 1 as [|k keys Hk Hn IH]; simpl; [constructor|].
  destruct (choose k) as [op|] eqn:E; [|done]. rewrite fmap_cons. constructor; [|done].
  rewrite choose_keys, (choose_key _ _ E). naive_solver.
Qed.
End choose.

Lemma withdrawal_key A D k op : withdrawal A D k = Some op -> op_wireKey op = k.
Proof. unfold withdrawal. intros. repeat case_match; by simplify_eq. Qed.
Lemma advertisement_key A D k op : advertisement A D k = Some op -> op_wireKey op = k.
Proof. unfold advertisement. intros. repeat case_match; by simplify_eq. Qed.
#[local] Hint Resolve withdrawal_key advertisement_key NoDup_sorted_keys : evpn.

Lemma withdrawals_action A D (keys : list string) :
  Forall (fun op => op_action op = RouteWithdraw) (omap (withdrawal A D) keys).
Proof.
  apply Forall_forall. intros op (k & _ & H)%list_elem_of_omap. unfold withdrawal in H.
  repeat case_match; by simplify_eq.
Qed.
Lemma advertisements_action A D (keys : list string) :
  Forall (fun op => op_action op = RouteAdvertise) (omap (advertisement A D) keys).
Proof.
  apply Forall_forall. intros op (k & _ & H)%list_elem_of_omap. unfold advertisement in H.
  repeat case_match; by simplify_eq.
Qed.

(** After the withdrawals, what remains is exactly what is still desired. *)
Lemma withdrawals_leave A D A1 :
  executes A (omap (withdrawal A D) (sorted_keys A)) A1 ->
  forall k, A1 !! k = match A !! k, D !! k with
                      | Some o, Some e => if Equivalent (o_Endpoint o) e then Some o else None
                      | _, _ => None
                      end.
Proof.
  intros H k. rewrite (executes_withdrawals _ _ _ (withdrawals_action _ _ _) H).
  destruct (A !! k) as [o|] eqn:Ha; [|by case_match].
  case_bool_decide as Hk; rewrite choose_keys in Hk by eauto with evpn;
    unfold withdrawal in Hk; rewrite Ha in Hk.
  - destruct Hk as [_ [op Hop]]. repeat case_match; try done.
  - repeat case_match; try done; destruct Hk; (split; [by apply elem_of_sorted_keys; eauto|eauto]).
Qed.

(** Executing the whole plan converges. *)
Lemma plan_converges A D A' : executes A (plan_ops A D) A' -> converged A' D.
Proof.
  intros (A1 & Hw & Ha)%executes_app k. pose proof (withdrawals_leave _ _ _ Hw k) as H1.
  pose proof (choose_keys (advertisement A D) (advertisement_key A D) k (sorted_keys D)) as Hk.
  rewrite elem_of_sorted_keys in Hk.
  destruct (advertisement A D k) as [op|] eqn:Hadv.
  - assert (op ∈ omap (advertisement A D) (sorted_keys D)) as Hin.
    { apply list_elem_of_omap. exists k. split; [|done]. apply elem_of_sorted_keys.
      unfold advertisement in Hadv. destruct (D !! k); [eauto|done]. }
    eapply executes_advertised in Ha as (u & _ & Hu); [|apply advertisements_action| |exact Hin];
      [|apply choose_keys_nodup; eauto with evpn].
    rewrite (advertisement_key _ _ _ _ Hadv) in Hu. rewrite Hu. unfold advertisement in Hadv.
    destruct (D !! k) as [e|]; [|done]. case_match; simplify_eq/=. constructor. simpl. reflexivity.
  - rewrite (executes_keep _ _ _ k) by (try exact Ha; rewrite Hk; intros [_ [? ?]]; done).
    rewrite H1. unfold advertisement in Hadv.
    destruct (D !! k) as [e|]; destruct (A !! k) as [o|]; simpl in *; try done; [|constructor..].
    case_match; [|done]. by constructor.
Qed.

Lemma converged_no_plan A D : converged A D -> plan_ops A D = [].
Proof.
  intros H. unfold plan_ops.
  assert (forall f (keys : list string), (forall k, f k = None) -> omap f keys = ([] : list routeOperation)) as Hnil.
  { intros f keys Hf. induction keys as [|k keys IH]; simpl; [done|]. by rewrite Hf. }
  rewrite !Hnil; [done|..]; intros k; specialize (H k); unfold withdrawal, advertisement;
    inversion H as [o e He|]; unfold equivalent in *; by rewrite ?He.
Qed.

(** What [Reconcile] wants: the advertisable endpoints by wire key, none of them
    the key of a foreign path. *)
Lemma desired_map_inv {BT : BgpTypes} {BL : BgpLib} foreign desired dm :
  desired_map foreign desired = Ok dm ->
  (forall k e, dm !! k = Some e ->
     wire e = Some k /\ k ∉ foreign /\ e ∈ desired /\ Advertise e = true) /\
  (forall e, e ∈ desired -> Advertise e = true ->
     exists k e', wire e = Some k /\ dm !! k = Some e' /\ equivalent e' e).
Proof.
  unfold desired_map. intros H. revert H.
  apply (rfold_invariant _ (fun done dm =>
    (forall k e, dm !! k = Some e -> wire e = Some k /\ k ∉ foreign /\ e ∈ done /\ Advertise e = true) /\
    (forall e, e ∈ done -> Advertise e = true ->
       exists k e', wire e = Some k /\ dm !! k = Some e' /\ equivalent e' e))).
  - split; [intros ? ?; by rewrite lookup_empty|set_solver].
  - intros done e m m' _ [IH1 IH2] H. unfold desired_step, rbind in H.
    destruct (Advertise e) eqn:Ha; simpl in H; simplify_eq.
    2:{ split; [intros k e' ?%IH1; set_solver|]. intros e' [|He]%elem_of_app Hadv; [by apply IH2|].
        apply list_elem_of_singleton in He as ->. congruence. }
    destruct (BuildType2Route e) as [route|] eqn:Hb; [|done].
    set (k0 := NLRI_String (t_NLRI route)) in *.
    assert (wire e = Some k0) as Hw by (apply wire_Some; eauto).
    destruct (match m !! k0 with Some _ => _ | None => _ end) eqn:Hc; [done|].
    case_bool_decide as Hf; simplify_eq. unfold cloneLocalEndpoint. split.
    + intros k e' [[<- <-]|[Hne He']]%lookup_insert_Some; [set_solver|].
      destruct (IH1 _ _ He') as (? & ? & ? & ?). set_solver.
    + intros e' [He'|He']%elem_of_app Hadv.
      * destruct (IH2 _ He' Hadv) as (k & e'' & Hk & He'' & Heq).
        destruct (decide (k0 = k)) as [<-|Hne]; [|exists k, e''; by rewrite lookup_insert_ne].
        exists k0, e. rewrite lookup_insert_eq. split_and!; [done..|].
        rewrite He'' in Hc. bools. etrans; [|exact Heq]. by symmetry.
      * apply list_elem_of_singleton in He' as ->. exists k0, e. by rewrite lookup_insert_eq.
Qed.

Section liveness.
Context {BT : BgpTypes} {BL : BgpLib} {W : Type} {CX : Ctx W}.

(** A speaker that answers every call while [P] holds. *)
Record live_api (P : W -> Prop) (api : Type2RouteApplier W) : Prop := {
  live_ctx w : P w -> ctx_Err w = None;
  live_Add w route : P w -> exists w' u, applier_Add api route w = (w', Ok u) /\ u <> ""%string /\ P w';
  live_Delete w owned : P w -> exists w', applier_Delete api owned w = (w', Ok tt) /\ P w';
}.

(** Operations that [Apply] accepts one after the other. *)
Inductive executable : gmap string OwnedType2Route -> list routeOperation -> Prop :=
  | executable_nil A : executable A []
  | executable_withdraw A op ops o :
      op_action op = RouteWithdraw -> A !! op_wireKey op = Some o ->
      o_PathUUID o = op_pathUUID op -> equivalent (o_Endpoint o) (op_endpoint op) ->
      executable (delete (op_wireKey op) A) ops -> executable A (op :: ops)
  | executable_advertise A op ops :
      op_action op = RouteAdvertise -> A !! op_wireKey op = None ->
      is_Some (wire (op_endpoint op)) ->
      (forall u, executable (<[op_wireKey op := {| o_Endpoint := op_endpoint op; o_PathUUID := u |}]> A) ops) ->
      executable A (op :: ops).

Lemma executable_withdrawals A0 D rest : forall (keys : list string) A,
  NoDup keys -> (forall k, k ∈ keys -> A !! k = A0 !! k) ->
  (forall A', (forall k, k ∉ op_wireKey <$> omap (withdrawal A0 D) keys -> A' !! k = A !! k) ->
              (forall k, k ∈ op_wireKey <$> omap (withdrawal A0 D) keys -> A' !! k = None) ->
              executable A' rest) ->
  executable A (omap (withdrawal A0 D) keys ++ rest).
Proof.
  induction keys as [|k keys IH]; intros A Hnd Hag Hrest; simpl.
  - apply Hrest; [done|]. simpl. set_solver.
  - apply NoDup_cons in Hnd as [Hk Hnd]. simpl in Hrest.
    destruct (withdrawal A0 D k) as [op|] eqn:Hw; [|apply IH; [done|set_solver|done]].
    unfold withdrawal in Hw.
    destruct (A0 !! k) as [o|] eqn:Ho; [|done].
    destruct (match D !! k with Some _ => _ | None => _ end); [done|]. simplify_eq/=.
    eapply executable_withdraw; simpl; [done|rewrite Hag by set_solver; exact Ho|done|reflexivity|].
    apply IH; [done| |].
    + intros k' Hk'. rewrite lookup_delete_ne by set_solver. apply Hag. set_solver.
    + intros A' Hn Hy. apply Hrest.
      * intros k'. rewrite not_elem_of_cons. intros [Hne Hk'].
        rewrite Hn by done. by rewrite lookup_delete_ne.
      * intros k'. rewrite elem_of_cons. intros [->|Hk']; [|by apply Hy].
        rewrite Hn, lookup_delete_eq; [done|].
        rewrite choose_keys by eauto using withdrawal_key. naive_solver.
Qed.

Lemma executable_advertisements A0 D : forall (keys : list string) A,
  NoDup keys -> (forall k e, D !! k = Some e -> is_Some (wire e)) ->
  (forall k, k ∈ keys -> is_Some (advertisement A0 D k) -> A !! k = None) ->
  executable A (omap (advertisement A0 D) keys).
Proof.
  induction keys as [|k keys IH]; intros A Hnd Hwire Hag; simpl; [constructor|].
  apply NoDup_cons in Hnd as [Hk Hnd].
  destruct (advertisement A0 D k) as [op|] eqn:Ha;
    [|apply IH; [done..|]; intros; apply Hag; [by right|done]].
  pose proof (advertisement_key _ _ _ _ Ha) as Hkey. apply executable_advertise.
  - clear Hkey. unfold advertisement in Ha. repeat case_match; by simplify_eq.
  - rewrite Hkey. apply Hag; [by left|]. rewrite Ha. eauto.
  - clear Hkey. unfold advertisement in Ha. destruct (D !! k) eqn:HD; repeat case_match; simplify_eq/=; eauto.
  - intros u. apply IH; [done..|]. intros k' Hk' ?. rewrite lookup_insert_ne by set_solver.
    apply Hag; [set_solver|done].
Qed.

Lemma plan_executable A D :
  (forall k e, D !! k = Some e -> is_Some (wire e)) -> executable A (plan_ops A D).
Proof.
  intros Hw. apply executable_withdrawals; [apply NoDup_sorted_keys|done|].
  intros A' Hkeep Hgone. apply executable_advertisements; [apply NoDup_sorted_keys|done|].
  intros k Hk [op Hop]. unfold advertisement in Hop. destruct (D !! k) as [e|] eqn:HD; [|done].
  pose proof (choose_keys (withdrawal A D) (withdrawal_key A D) k (sorted_keys A)) as Hc.
  rewrite elem_of_sorted_keys in Hc. unfold withdrawal in Hc at 2. rewrite HD in Hc.
  destruct (A !! k) as [o|] eqn:Ho.
  - destruct (Equivalent (o_Endpoint o) e); [done|]. apply Hgone, Hc. eauto.
  - rewrite Hkeep; [done|]. rewrite Hc. intros [[? ?] _]. done.
Qed.

Lemma Apply_live P api d id op ops r w :
  live_api P api -> P w -> rr_synchronized r = true ->
  t_operation d = Some id -> rr_pending r !! id = Some op ->
  executable (rr_applied r) (op :: ops) ->
  exists r' w', Apply d (Some api) (r, w) = ((r', w'), Ok tt) /\ P w' /\ executable (rr_applied r') ops.
Proof.
  intros [Hctx Hadd Hdel] Hw Hs Hd Hp Hex. unfold Apply, bind, gets. simpl.
  rewrite Hs, Hd. simpl. rewrite Hp. simpl. rewrite (Hctx _ Hw). simpl. unfold wrap, on_snd, lift. simpl.
  inversion Hex as [|? ? ? o Ha Ho Hu Heq Hn|? ? ? Ha Hno [k Hk] Hn]; subst; rewrite Ha.
  - rewrite Ho, Hu, Heq, bool_decide_eq_true_2 by done. simpl.
    edestruct (Hdel w) as (w' & Hdw & Hw'); [done|]. rewrite Hdw. simpl.
    by eexists _, _.
  - rewrite Hno, bool_decide_eq_false_2 by (by intros [? ?]).
    apply wire_Some in Hk as (route & Hb & _). unfold cloneLocalEndpoint. rewrite Hb. simpl.
    destruct (Hadd w route Hw) as (w' & u & Haw & Hu & Hw'). rewrite Haw. simpl.
    rewrite bool_decide_eq_false_2 by done. simpl.
    eexists _, _. split; [reflexivity|]. split; [done|]. apply Hn.
Qed.

Lemma ApplyAll_live P api : live_api P api -> forall ds ops r w,
  P w -> rr_synchronized r = true -> planned r ops ds -> executable (rr_applied r) ops ->
  exists r' w', ApplyAll ds (Some api) (r, w) = ((r', w'), Ok tt) /\ P w' /\ rr_synchronized r' = true.
Proof.
  intros Hl. unfold ApplyAll. induction ds as [|d ds IH]; intros ops r w Hw Hs Hp Hex; simpl; [eauto|].
  pose proof (planned_ops _ _ _ Hp) as Hf. inversion Hf as [|op ? ops' ? Hop _]; subst.
  destruct (planned_head _ _ _ _ _ Hp) as (id & Hd & Hid).
  destruct (Apply_live P api d id op ops' r w) as (r1 & w1 & H1 & Hw1 & Hex1); try done.
  pose proof H1 as H2. apply Apply_ok_inv in H2 as (_ & id' & op' & Hd' & _ & _ & _ & Hs1 & Hhp & Hpd).
  assert (id' = id) as -> by congruence. unfold bind. rewrite H1.
  eapply IH; [done|done|by eapply planned_step|done].
Qed.

(** C31: reconciliation converges.  When [Reconcile] returns a plan and every
    delta of it is applied in order, against whatever speaker, the applied
    routes have exactly the wire keys of the desired advertisable endpoints,
    each with an equivalent endpoint; the plan withdraws before it advertises;
    the foreign set is untouched; and reconciling the same endpoints again
    plans nothing. *)
Theorem reconcile_converges desired api r r1 w deltas r2 w2 :
  Reconcile desired r = (r1, Ok deltas) ->
  ApplyAll deltas api (r1, w) = ((r2, w2), Ok tt) ->
  exists dm, desired_map (rr_foreign r) desired = Ok dm /\ converged (rr_applied r2) dm /\
    rr_foreign r2 = rr_foreign r /\
    (exists ws ads, deltas = ws ++ ads /\ Forall (fun d => t_Action d = RouteWithdraw) ws /\
                    Forall (fun d => t_Action d = RouteAdvertise) ads) /\
    (Reconcile desired r2).2 = Ok [].
Proof.
  intros Hr Ha. apply Reconcile_planned in Hr as (dm & Hdm & (Hap & Hfo & Hsy) & Hp).
  exists dm. destruct (chain_executes _ _ _ (ApplyAll_chain _ _ _ _ _ _ Ha) _ Hp) as (Hex & Hf2).
  rewrite Hap in Hex. pose proof (plan_converges _ _ _ Hex) as Hc. rewrite Hfo in Hf2.
  split_and!; try done.
  - destruct Hp as [Hops _ _]. unfold plan_ops in Hops.
    apply Forall2_app_inv_l in Hops as (ws & ads & Hws & Hads & ->). exists ws, ads. split; [done|].
    split; (eapply Forall2_Forall_r; [eassumption|]).
    + eapply Forall_impl; [apply withdrawals_action|]. simpl. intros op Hop d (? & _). congruence.
    + eapply Forall_impl; [apply advertisements_action|]. simpl. intros op Hop d (? & _). congruence.
  - apply converged_no_plan in Hc. unfold plan_ops in Hc. apply app_nil in Hc as [Hc1 Hc2].
    assert (forall choose keys changes s, omap choose keys = [] ->
      plan_loop choose changes keys s = (s, Ok changes)) as Hnil.
    { intros choose keys. induction keys as [|k keys IH]; intros changes s Ho; [done|].
      simpl in Ho. unfold plan_loop. simpl. destruct (choose k); [done|]. simpl. by apply IH. }
    unfold Reconcile, bind, modify, gets, lift. simpl. rewrite Hf2, Hdm. rewrite Hnil by done.
    by rewrite Hnil by done.
Qed.

(** C32: reconciliation makes progress.  From a synchronised reconciler and a
    speaker that answers, a plan returned by [Reconcile] is applied completely:
    no delta is refused as stale or out of order, the reconciler stays
    synchronised, and the applied routes converge to the desired endpoints. *)
Theorem reconcile_live P api desired r r1 w deltas :
  live_api P api -> P w -> rr_synchronized r = true ->
  Reconcile desired r = (r1, Ok deltas) ->
  exists r2 w2 dm, ApplyAll deltas (Some api) (r1, w) = ((r2, w2), Ok tt) /\ P w2 /\
    rr_synchronized r2 = true /\ desired_map (rr_foreign r) desired = Ok dm /\
    converged (rr_applied r2) dm.
Proof.
  intros Hl Hw Hs Hr. apply Reconcile_planned in Hr as (dm & Hdm & (Hap & Hfo & Hsy) & Hp).
  destruct (ApplyAll_live P api Hl _ _ r1 w Hw ltac:(congruence) Hp) as (r2 & w2 & Ha & Hw2 & Hs2).
  { rewrite Hap. apply plan_executable. intros k e He. apply desired_map_inv in Hdm as [Hdm _].
    apply Hdm in He as [? _]. eauto. }
  exists r2, w2, dm. split_and!; try done.
  destruct (chain_executes _ _ _ (ApplyAll_chain _ _ _ _ _ _ Ha) _ Hp) as (Hex & _). rewrite Hap in Hex.
  by apply plan_converges in Hex.
Qed.
End liveness.

(** ** Refusals and the ownership invariant *)

(** One call of the speaker on behalf of a registered operation. *)
Definition called {BT : BgpTypes} {BL : BgpLib} {W} (api : Type2RouteApplier W) (op : routeOperation)
    (applied : gmap string OwnedType2Route) (w w' : W) : Prop :=
  match op_action op with
  | RouteAdvertise => applied !! op_wireKey op = None /\
      exists route r, BuildType2Route (op_endpoint op) = Ok route /\ applier_Add api route w = (w', r)
  | RouteWithdraw => exists o r, applied !! op_wireKey op = Some o /\ o_PathUUID o = op_pathUUID op /\
      equivalent (o_Endpoint o) (op_endpoint op) /\ applier_Delete api o w = (w', r)
  end.

Record rr_inv {BT : BgpTypes} {BL : BgpLib} (r : RouteReconciler) : Prop := {
  rr_inv_applied k o : rr_applied r !! k = Some o ->
    wire (o_Endpoint o) = Some k /\ o_PathUUID o <> ""%string;
  rr_inv_foreign : dom (rr_applied r) ## rr_foreign r;
  rr_inv_pending id op : rr_pending r !! id = Some op ->
    wire (op_endpoint op) = Some (op_wireKey op) /\
    (op_action op = RouteAdvertise -> op_wireKey op ∉ rr_foreign r);
}.

Section invariant.
Context {BT : BgpTypes} {BL : BgpLib} {LW : BgpLaws} {W : Type} {CX : Ctx W}.

(** A refused or failed delta acknowledges nothing.  When [Apply] returns an
    error the applied routes, the foreign set and the plan are unchanged (at
    most the reconciler is marked out of sync, and only because the speaker
    returned no UUID); and the speaker was not called at all, or exactly once,
    for the registered operation of this delta, from a synchronised reconciler
    with a live context, an [Add] only for a wire key that is not applied and a
    [Delete] only of the applied receipt the plan recorded. *)
Theorem Apply_error delta api r w r' w' e :
  Apply delta api (r, w) = ((r', w'), Err e) ->
  (r' = r \/ r' = set_synchronized false r /\ e = ErrRouteOwnership "AddPath returned no UUID") /\
  (w' = w \/
    exists api' id op, api = Some api' /\ rr_synchronized r = true /\ ctx_Err w = None /\
      t_operation delta = Some id /\ rr_pending r !! id = Some op /\
      called api' op (rr_applied r) w w').
Proof.
  unfold Apply. intros H. msteps_any; repeat match goal with x : RouteReconciler * W |- _ =>
    destruct x; simplify_eq/= end; (split; [by auto|]); try (by left); bools;
    match goal with H : _ ≫= _ = Some _ |- _ =>
      apply bind_Some in H as (id & Ho & (op & Hid & [= <- <-])%bind_Some) end;
    right; eexists _, _, _; unfold called;
    match goal with H : of_error (ctx_Err _) = Ok _ |- _ =>
      let E := fresh in destruct (ctx_Err w) eqn:E; [done|] end;
    match goal with H : op_action _ = _ |- _ => rewrite H end.
  - split_and!; [done..|by apply eq_None_not_Some|eauto].
  - split_and!; [done..|by apply eq_None_not_Some|eauto].
  - match goal with o : OwnedType2Route |- _ => split_and!; [done..|]; exists o; destruct o end.
    eexists. by split_and!.
Qed.

(** A local path of a snapshot that carries an endpoint's route. *)
Definition backed (paths : list Type2RIBPath) (k : string) (o : OwnedType2Route) : Prop :=
  exists p n, p ∈ paths /\ p_Local p = true /\ p_NLRI p = Some n /\ NLRI_String n = k /\
    ribPathMatchesEndpoint p (o_Endpoint o) = true /\
    (p_PathUUID p = o_PathUUID o \/ p_PathUUID p = ""%string).

(** Every local path of a snapshot is accounted for. *)
Definition accounted (paths : list Type2RIBPath) (applied : gmap string OwnedType2Route)
    (foreign : gset string) : Prop :=
  forall p, p ∈ paths -> exists n, p_NLRI p = Some n /\
    (p_Local p = true -> is_Some (applied !! NLRI_String n) \/ NLRI_String n ∈ foreign).

Lemma backed_app paths q k o : backed paths k o -> backed (paths ++ q) k o.
Proof. intros (p & n & ? & ?). exists p, n. set_solver. Qed.

Lemma accounted_snoc paths p n A F A' F' :
  accounted paths A F -> p_NLRI p = Some n ->
  (forall k, is_Some (A !! k) -> is_Some (A' !! k)) -> F ⊆ F' ->
  (p_Local p = true -> is_Some (A' !! NLRI_String n) \/ NLRI_String n ∈ F') ->
  accounted (paths ++ [p]) A' F'.
Proof.
  intros H Hn HA HF Hp q [Hq| ->%list_elem_of_singleton]%elem_of_app; [|eauto].
  destruct (H q Hq) as (m & Hm & Hl). exists m. split; [done|]. intros ?.
  destruct Hl as [?|?]; [done|left; auto|right; set_solver].
Qed.

Lemma claim_fold receipts claims :
  rfold claim_step ∅ receipts = Ok claims ->
  (forall u o, claims !! u = Some o -> o ∈ receipts /\ o_PathUUID o = u /\ u <> ""%string) /\
  (forall o, o ∈ receipts -> claims !! o_PathUUID o = Some o).
Proof.
  apply (rfold_invariant _ (fun done claims =>
    (forall u o, claims !! u = Some o -> o ∈ done /\ o_PathUUID o = u /\ u <> ""%string) /\
    (forall o, o ∈ done -> claims !! o_PathUUID o = Some o))).
  - split; [intros ? ?; by rewrite lookup_empty|set_solver].
  - intros done o m m' _ [H1 H2] H. unfold claim_step in H. repeat case_match; simplify_eq. bools.
    split.
    + intros u o' [[<- <-]|[? Ho']]%lookup_insert_Some; [set_solver|]. apply H1 in Ho'. set_solver.
    + intros o' [Ho'| ->%list_elem_of_singleton]%elem_of_app; [|by rewrite lookup_insert_eq].
      rewrite lookup_insert_ne; [by apply H2|]. intros E. apply H2 in Ho'. rewrite E in *. eauto.
Qed.

Lemma resync_fold claims paths a :
  (forall u o, claims !! u = Some o -> o_PathUUID o = u) ->
  rfold resync_step {| ra_applied := ∅; ra_foreign := ∅; ra_claims := claims |} paths = Ok a ->
  (forall k o, ra_applied a !! k = Some o -> claims !! o_PathUUID o = Some o /\ backed paths k o) /\
  (forall u o, claims !! u = Some o -> ra_claims a !! u = Some o \/ exists k, ra_applied a !! k = Some o) /\
  ra_claims a ⊆ claims /\ accounted paths (ra_applied a) (ra_foreign a).
Proof.
  intros Hcl. apply (rfold_invariant _ (fun done a =>
    (forall k o, ra_applied a !! k = Some o -> claims !! o_PathUUID o = Some o /\ backed done k o) /\
    (forall u o, claims !! u = Some o -> ra_claims a !! u = Some o \/ exists k, ra_applied a !! k = Some o) /\
    ra_claims a ⊆ claims /\ accounted done (ra_applied a) (ra_foreign a))).
  - simpl. split_and!; [intros ? ?; by rewrite lookup_empty|eauto|done|]. intros p Hp. set_solver.
  - clear a. intros done p a a' _ (H1 & H2 & H3 & H4) H. unfold resync_step in H.
    destruct (p_NLRI p) as [n|] eqn:Hn; [|done]. destruct (p_Local p) eqn:Hl; simpl in H; simplify_eq.
    2:{ split_and!; [intros k o [? ?]%H1; eauto using backed_app|done|done|].
        eapply accounted_snoc; eauto. congruence. }
    destruct (ra_claims a !! p_PathUUID p) as [o|] eqn:Hc; simplify_eq/=.
    2:{ split_and!; [intros k o [? ?]%H1; eauto using backed_app|done|done|].
        eapply accounted_snoc; eauto; set_solver. }
    destruct (ribPathMatchesEndpoint p (o_Endpoint o)) eqn:Hm; simpl in H; [|done].
    case_bool_decide as Hk; simplify_eq/=. pose proof (lookup_weaken _ _ _ _ Hc H3) as Hc0.
    pose proof (Hcl _ _ Hc0) as Hu. split_and!.
    + intros k o' [[<- <-]|[? Ho']]%lookup_insert_Some; [|apply H1 in Ho' as [? ?]; eauto using backed_app].
      rewrite Hu. split; [done|]. exists p, n. set_solver.
    + intros u o' Ho'. destruct (decide (p_PathUUID p = u)) as [<-|Hne].
      { right. exists (NLRI_String n). rewrite lookup_insert_eq. congruence. }
      destruct (H2 _ _ Ho') as [?|[k Hk']]; [left; by rewrite lookup_delete_ne|right].
      exists k. rewrite lookup_insert_ne; [done|]. intros <-. destruct Hk. eauto.
    + etrans; [apply delete_subseteq|done].
    + eapply accounted_snoc; eauto; [intros k ?; apply lookup_insert_is_Some'; eauto|].
      left. rewrite lookup_insert_eq. eauto.
Qed.

Lemma durable_claim_fold receipts claims :
  rfold durable_claim_step ∅ receipts = Ok claims ->
  (forall k o, claims !! k = Some o ->
     o ∈ receipts /\ wire (o_Endpoint o) = Some k /\ o_PathUUID o <> ""%string) /\
  (forall o, o ∈ receipts -> exists k, claims !! k = Some o).
Proof.
  apply (rfold_invariant _ (fun done claims =>
    (forall k o, claims !! k = Some o ->
       o ∈ done /\ wire (o_Endpoint o) = Some k /\ o_PathUUID o <> ""%string) /\
    (forall o, o ∈ done -> exists k, claims !! k = Some o))).
  - split; [intros ? ?; by rewrite lookup_empty|set_solver].
  - intros done o m m' _ [H1 H2] H. unfold durable_claim_step in H.
    destruct (BuildType2Route (o_Endpoint o)) as [route|] eqn:Hb; [|done].
    repeat case_bool_decide; simplify_eq/=. split.
    + intros k o' [[<- <-]|[? Ho']]%lookup_insert_Some.
      * split_and!; [set_solver| |done]. apply wire_Some. eauto.
      * apply H1 in Ho'. set_solver.
    + intros o' [Ho'| ->%list_elem_of_singleton]%elem_of_app.
      * apply H2 in Ho' as [k Hk]. exists k. rewrite lookup_insert_ne; [done|]. intros <-. eauto.
      * exists (NLRI_String (t_NLRI route)). by rewrite lookup_insert_eq.
Qed.

Lemma durable_fold claims paths a :
  rfold (durable_step claims) (∅, ∅) paths = Ok a ->
  (forall k o, a.1 !! k = Some o -> claims !! k = Some o /\ backed paths k o) /\
  (forall k, k ∈ a.2 -> claims !! k = None) /\ accounted paths a.1 a.2.
Proof.
  apply (rfold_invariant _ (fun done a =>
    (forall k o, a.1 !! k = Some o -> claims !! k = Some o /\ backed done k o) /\
    (forall k, k ∈ a.2 -> claims !! k = None) /\ accounted done a.1 a.2)).
  - simpl. split_and!; [intros ? ?; by rewrite lookup_empty|set_solver|]. intros p Hp. set_solver.
  - clear a. intros done p a a' _ (H1 & H2 & H3) H. unfold durable_step in H.
    destruct (p_NLRI p) as [n|] eqn:Hn; [|done]. destruct (p_Local p) eqn:Hl; simpl in H; simplify_eq.
    2:{ split_and!; [intros k o [? ?]%H1; eauto using backed_app|done|].
        eapply accounted_snoc; eauto. congruence. }
    destruct (claims !! NLRI_String n) as [o|] eqn:Hc; simplify_eq/=.
    2:{ split_and!; [intros k o [? ?]%H1; eauto using backed_app|set_solver|].
        eapply accounted_snoc; eauto; set_solver. }
    case_bool_decide as Hk; [done|].
    destruct (_ || _) eqn:Hor in H; [done|]. simplify_eq/=. apply orb_false_iff in Hor as [Hm Hu]. bools.
    split_and!; [|done|].
    + intros k o' [[<- <-]|[? Ho']]%lookup_insert_Some; [|apply H1 in Ho' as [? ?]; eauto using backed_app].
      split; [done|]. exists p, n. split_and!; try done; [set_solver|].
      apply andb_false_iff in Hu as [Hu|Hu]; bools; auto.
    + eapply accounted_snoc; eauto; [intros k ?; apply lookup_insert_is_Some'; eauto|].
      left. rewrite lookup_insert_eq. eauto.
Qed.

(** What a resynchronisation adopts.  A successful [Resync] read one complete
    snapshot and makes the applied routes exactly the given receipts: every
    applied receipt was given, has a UUID, and is backed by a local path of the
    snapshot at its wire key with the receipt's payload; no given receipt is
    dropped; every other local path is foreign and foreign keys are not applied;
    the plan is cleared.  A failed one leaves the applied and foreign routes
    untouched and the reconciler out of sync. *)
Theorem Resync_spec source receipts r w r' w' res :
  Resync source receipts (r, w) = ((r', w'), res) ->
  rr_pending r' = ∅ /\
  match res with
  | Ok _ => exists src paths, source = Some src /\ source_Snapshot src w = (w', Ok paths) /\
      ctx_Err w' = None /\ rr_synchronized r' = true /\
      (forall k o, rr_applied r' !! k = Some o ->
         o ∈ receipts /\ o_PathUUID o <> ""%string /\ backed paths k o /\ k ∉ rr_foreign r') /\
      (forall o, o ∈ receipts -> exists k, rr_applied r' !! k = Some o) /\
      accounted paths (rr_applied r') (rr_foreign r')
  | Err _ => rr_synchronized r' = false /\ rr_applied r' = rr_applied r /\
      rr_foreign r' = rr_foreign r
  end.
Proof.
  unfold Resync. intros H. msteps_any; try (by repeat match goal with x : RouteReconciler * W |- _ =>
    destruct x; simplify_eq/= end).
  match goal with x : RouteReconciler * W |- _ => destruct x; simplify_eq/= end. bools.
  match goal with H : rfold claim_step _ _ = _ |- _ => apply claim_fold in H as [Hc1 Hc2] end.
  match goal with H : rfold resync_step _ _ = _ |- _ =>
    apply resync_fold in H as (Hr1 & Hr2 & _ & Hr4); [|naive_solver] end.
  split; [done|]. eexists _, _. split_and!; try done.
  - by destruct (ctx_Err _).
  - intros k o Ho. destruct (Hr1 _ _ Ho) as [Hcl ?]. destruct (Hc1 _ _ Hcl) as (? & ? & ?).
    split_and!; try done. intros ?.
    match goal with H : dom _ ## _ |- _ => apply (H k); [|done] end. by apply elem_of_dom.
  - intros o Ho. destruct (Hr2 _ _ (Hc2 _ Ho)) as [Hx|?]; [|done].
    match goal with H : ra_claims _ = ∅ |- _ => rewrite H in Hx end. by rewrite lookup_empty in Hx.
Qed.

(** The durable resynchronisation.  A successful [resyncDurable] makes the
    applied routes exactly the durable receipts, at the wire keys of their
    endpoints; each is backed by a local path that carries its payload and its
    UUID (or no UUID); no foreign key is applied.  An error other than that of
    the context leaves the applied routes untouched and the reconciler out of
    sync. *)
Theorem resyncDurable_spec source receipts r w r' w' res :
  resyncDurable source receipts (r, w) = ((r', w'), res) ->
  rr_pending r' = ∅ /\
  match res with
  | Ok _ => exists paths, source_Snapshot source w = (w', Ok paths) /\ ctx_Err w' = None /\
      rr_synchronized r' = true /\
      (forall k o, rr_applied r' !! k = Some o ->
         o ∈ receipts /\ o_PathUUID o <> ""%string /\ wire (o_Endpoint o) = Some k /\
         backed paths k o /\ k ∉ rr_foreign r') /\
      (forall o, o ∈ receipts -> exists k, rr_applied r' !! k = Some o) /\
      accounted paths (rr_applied r') (rr_foreign r')
  | Err e => ctx_Err w' = Some e \/
      rr_synchronized r' = false /\ rr_applied r' = rr_applied r /\ rr_foreign r' = rr_foreign r
  end.
Proof.
  unfold resyncDurable. intros H. msteps_any; try (by repeat match goal with x : RouteReconciler * W |- _ =>
    destruct x; simplify_eq/= end; auto).
  match goal with x : RouteReconciler * W |- _ => destruct x; simplify_eq/= end. bools.
  split; [done|]. destruct (ctx_Err _) as [e|] eqn:He; simplify_eq/=; [by left|].
  match goal with H : rfold durable_claim_step _ _ = Ok ?c |- _ =>
    apply durable_claim_fold in H as [Hc1 Hc2]; rename c into claims end.
  match goal with H : rfold (durable_step _) _ _ = Ok ?x |- _ =>
    apply durable_fold in H as (Hr1 & Hr2 & Hr3); rename x into a end.
  assert (a.1 = claims) as Ha.
  { apply map_subseteq_size_eq; [|lia]. apply map_subseteq_spec. naive_solver. }
  eexists. split_and!; try done.
  - intros k o Ho. destruct (Hr1 _ _ Ho) as [Hcl ?]. destruct (Hc1 _ _ Hcl) as (? & ? & ?).
    split_and!; try done. intros ?%Hr2. congruence.
  - rewrite Ha. done.
Qed.

(** The operations of the reconciler, with whatever source, applier and world. *)
Inductive rr_step : RouteReconciler -> RouteReconciler -> Prop :=
  | rr_step_Reconcile desired r : rr_step r (Reconcile desired r).1
  | rr_step_Apply delta api r (w : W) : rr_step r (Apply delta api (r, w)).1.1
  | rr_step_Resync source receipts r (w : W) : rr_step r (Resync source receipts (r, w)).1.1
  | rr_step_resyncDurable source receipts r (w : W) :
      rr_step r (resyncDurable source receipts (r, w)).1.1.

Lemma plan_loop_inv (choose : string -> option routeOperation) keys changes r :
  (forall k op, choose k = Some op -> wire (op_endpoint op) = Some (op_wireKey op) /\
     (op_action op = RouteAdvertise -> op_wireKey op ∉ rr_foreign r)) ->
  rr_inv r -> rr_inv (plan_loop choose changes keys r).1.
Proof.
  intros Hch Hr. unfold plan_loop.
  cut (rr_inv (plan_loop choose changes keys r).1 /\ rr_foreign (plan_loop choose changes keys r).1 = rr_foreign r);
    [by intros []|].
  unfold plan_loop. apply (mfold_preserves _ (fun r' => rr_inv r' /\ rr_foreign r' = rr_foreign r)); [|done].
  clear changes keys Hr. intros k changes r' [Hr Hf]. destruct (choose k) as [op|] eqn:Hop; [|done].
  unfold plan, bind, lift, gets, modify. destruct (BuildType2Route _); simpl; [|done].
  split; [|done]. destruct Hr as [H1 H2 H3]. split; [done..|]. simpl.
  intros id op' [[<- <-]|[? Hop']]%lookup_insert_Some; [|by eapply H3]. rewrite Hf. by eapply Hch.
Qed.

Lemma Reconcile_inv desired r : rr_inv r -> rr_inv (Reconcile desired r).1.
Proof.
  intros [H1 H2 H3]. assert (rr_inv (set_pending ∅ r)) as H0.
  { split; [done..|]. intros ? ?. simpl. by rewrite lookup_empty. }
  unfold Reconcile, bind, modify, gets, lift. simpl.
  destruct (desired_map (rr_foreign r) desired) as [dm|] eqn:Hdm; [|done].
  apply desired_map_inv in Hdm as [Hdm _].
  pose proof (plan_loop_inv (withdrawal (rr_applied r) dm) (sorted_keys (rr_applied r)) [] _
    ltac:(simpl; intros k op Hop; unfold withdrawal in Hop; destruct (rr_applied r !! k) eqn:E; [|done];
          apply H1 in E; repeat case_match; simplify_eq/=; naive_solver) H0) as Hi.
  destruct (plan_loop (withdrawal _ _) _ _ _) as [r1 [ch|]] eqn:E; [|done]. simpl in Hi.
  apply plan_loop_inv; [|done].
  apply (plan_loop_planned _ _ r _ [] []) in E as [(_ & Hf & _) _]; [|done|].
  - intros k op Hop. unfold advertisement in Hop. destruct (dm !! k) as [e|] eqn:Hk; [|done].
    destruct (Hdm _ _ Hk) as (? & ? & _). rewrite Hf. repeat case_match; by simplify_eq/=.
  - split; [constructor|constructor|]. simpl. intros id [? Hid]. by rewrite lookup_empty in Hid.
Qed.

Lemma rr_inv_executes r r' op id :
  rr_inv r -> rr_pending r !! id = Some op -> executes (rr_applied r) [op] (rr_applied r') ->
  rr_foreign r' = rr_foreign r -> rr_pending r' = delete id (rr_pending r) -> rr_inv r'.
Proof.
  intros [H1 H2 H3] Hop Hex Hf Hp. destruct (H3 _ _ Hop) as [Hw Hnf].
  assert (forall id' op', rr_pending r' !! id' = Some op' ->
    wire (op_endpoint op') = Some (op_wireKey op') /\
    (op_action op' = RouteAdvertise -> op_wireKey op' ∉ rr_foreign r')) as Hpend.
  { intros id' op'. rewrite Hp, Hf. intros [_ ?]%lookup_delete_Some. eauto. }
  inversion Hex as [|? ? ? ? Ha Hn|? ? ? ? u Ha Hno Hu Hn]; subst; apply executes_nil_inv in Hn as E.
  - split; [|rewrite E, Hf, dom_delete_L; set_solver|done]. intros k o. rewrite E.
    intros [_ ?]%lookup_delete_Some. eauto.
  - specialize (Hnf Ha). split; [|rewrite E, Hf, dom_insert_L; set_solver|done].
    intros k o. rewrite E. intros [[<- <-]|[_ ?]]%lookup_insert_Some; [done|eauto].
Qed.

Lemma Apply_inv delta api r w : rr_inv r -> rr_inv (Apply delta api (r, w)).1.1.
Proof.
  intros Hr. destruct (Apply delta api (r, w)) as [[r' w'] [[]|e]] eqn:H; simpl.
  - apply Apply_ok_inv in H as (_ & id & op & _ & Hid & Hex & Hf & _ & _ & Hp).
    by eapply rr_inv_executes.
  - unfold Apply in H. msteps_any; repeat match goal with x : RouteReconciler * W |- _ =>
      destruct x; simplify_eq/= end; try done. by destruct Hr.
Qed.

Lemma rr_inv_cleared r : rr_inv r -> rr_inv (set_pending ∅ (set_synchronized false r)).
Proof. intros [H1 H2 _]. split; [done..|]. intros ? ?. simpl. by rewrite lookup_empty. Qed.

Lemma Resync_inv source receipts r w : rr_inv r -> rr_inv (Resync source receipts (r, w)).1.1.
Proof.
  intros Hr%rr_inv_cleared. destruct (Resync source receipts (r, w)) as [[r' w'] res] eqn:H; simpl.
  unfold Resync in H. msteps_any; repeat match goal with x : RouteReconciler * W |- _ =>
    destruct x; simplify_eq/= end; try done. bools.
  match goal with H : rfold claim_step _ _ = _ |- _ => apply claim_fold in H as [Hc1 Hc2] end.
  match goal with H : rfold resync_step _ _ = _ |- _ =>
    apply resync_fold in H as (Hr1 & _); [|naive_solver] end.
  split; simpl; [|done|intros ? ?; by rewrite lookup_empty].
  intros k o Ho. destruct (Hr1 _ _ Ho) as [(_ & _ & ?)%Hc1 (p & n & _ & _ & Hn & <- & Hm & _)].
  split; [|done]. by eapply ribPathMatches_wire.
Qed.

Lemma resyncDurable_inv source receipts r w :
  rr_inv r -> rr_inv (resyncDurable source receipts (r, w)).1.1.
Proof.
  intros Hr%rr_inv_cleared. destruct (resyncDurable source receipts (r, w)) as [[r' w'] res] eqn:H; simpl.
  unfold resyncDurable in H. msteps_any; repeat match goal with x : RouteReconciler * W |- _ =>
    destruct x; simplify_eq/= end; try done.
  match goal with H : rfold durable_claim_step _ _ = _ |- _ => apply durable_claim_fold in H as [Hc1 _] end.
  match goal with H : rfold (durable_step _) _ _ = _ |- _ => apply durable_fold in H as (Hr1 & Hr2 & _) end.
  split; simpl; [| |intros ? ?; by rewrite lookup_empty].
  - intros k o Ho. destruct (Hr1 _ _ Ho) as [(_ & ? & ?)%Hc1 _]. done.
  - intros k [o Ho]%elem_of_dom Hk%Hr2. destruct (Hr1 _ _ Ho). congruence.
Qed.

(** C33: the ownership invariant.  However the reconciler is driven (plans,
    deltas, resynchronisations, failures, any speaker), every applied entry is
    stored under the wire key its endpoint builds and has a UUID, no applied key
    is foreign, and every registered operation names its endpoint's wire key and
    never advertises over a foreign path. *)
Theorem reconciler_reachable_inv r : rtc rr_step NewRouteReconciler r -> rr_inv r.
Proof.
  intros H. cut (rr_inv NewRouteReconciler).
  - revert H. generalize NewRouteReconciler. induction 1 as [|? ? ? Hs _ IH]; [done|].
    intros Hr. apply IH. destruct Hs;
      [by apply Reconcile_inv|by apply Apply_inv|by apply Resync_inv|by apply resyncDurable_inv].
  - split; simpl; [intros ? ?|set_solver|intros ? ?]; by rewrite lookup_empty.
Qed.
End invariant.
