(* ===== verification/GobgpAdapter.v ===== *)
(** * The GoBGP adapter

    Models [GoBGPType2Adapter] of [src/pkg/evpn/type2_gobgp.go] and
    [SpeakerReadiness] of [src/pkg/evpn/exporter.go]: a complete read of the
    speaker's EVPN RIB, an AddPath that refuses to replace a local wire route
    and a DeletePath of one exact UUID.  The gRPC client and [apiutil] are
    parameters.  A [ListPath] stream is the sequence of the responses [Recv]
    returns and how it ends ([None]: [io.EOF]). *)

From S2P Require Import Prelude GoStd Journal Type2 Reconciler.

(** ** The GoBGP API *)

Class ApiTypes := { ApiNlri : Type; ApiAttrs : Type }.

(** [api.Path], the fields the adapter and the remote importer read or write.
    [ap_Pattrs] is what is read of the attributes before they are decoded: a nil
    attribute is [None], an MP_REACH one has its number of next hops. *)
Record ApiPath {AT : ApiTypes} := {
  ap_Uuid : string;
  ap_Family : option (Z * Z);
  ap_NeighborIp : string;
  ap_SourceId : string;
  ap_SourceAsn : Z;
  ap_Identifier : Z;
  ap_LocalIdentifier : Z;
  ap_IsFromExternal : bool;
  ap_IsWithdraw : bool;
  ap_Best : bool;
  ap_Stale : bool;
  ap_Filtered : bool;
  ap_IsNexthopInvalid : bool;
  ap_Nlri : option ApiNlri;
  ap_NlriBinary : string;
  ap_Pattrs : list (option (option nat));
  ap_Attrs : ApiAttrs;
}.

(** [path.NlriBinary = b; path.Nlri = nil] *)
Definition set_NlriBinary {AT : ApiTypes} (b : string) (p : ApiPath) : ApiPath :=
  {| ap_Uuid := ap_Uuid p; ap_Family := ap_Family p; ap_NeighborIp := ap_NeighborIp p;
     ap_SourceId := ap_SourceId p; ap_SourceAsn := ap_SourceAsn p; ap_Identifier := ap_Identifier p;
     ap_LocalIdentifier := ap_LocalIdentifier p; ap_IsFromExternal := ap_IsFromExternal p;
     ap_IsWithdraw := ap_IsWithdraw p; ap_Best := ap_Best p; ap_Stale := ap_Stale p;
     ap_Filtered := ap_Filtered p; ap_IsNexthopInvalid := ap_IsNexthopInvalid p; ap_Nlri := None;
     ap_NlriBinary := b; ap_Pattrs := ap_Pattrs p; ap_Attrs := ap_Attrs p |}.

(** [apiutil]: a native NLRI that is not an [*bgp.EVPNNLRI] is [None]. *)
Class ApiUtil {AT : ApiTypes} {BT : BgpTypes} := {
  GetNativeNlri : ApiPath -> result (option EVPNNLRI);
  GetNativePathAttributes : ApiPath -> result (list PathAttr);
  NewPath : EVPNNLRI -> list PathAttr -> result ApiPath;
}.

(** [*api.ListPathResponse]: its destination's paths, which may be nil. *)
Record ListPathStream {AT : ApiTypes} := {
  st_responses : list (option (option (list (option ApiPath))));
  st_end : option error;
}.

Record Global := { g_Asn : Z; g_RouterId : string; g_Families : list Z }.

Record GoBgpServiceClient {AT : ApiTypes} (W : Type) := {
  client_GetBgp : M W (option Global);
  client_ListPath : M W (option ListPathStream);
  client_AddPath : ApiPath -> M W string;
  client_DeletePath : string -> M W unit;
}.
Arguments client_GetBgp {AT W} _.
Arguments client_ListPath {AT W} _.
Arguments client_AddPath {AT W} _ _.
Arguments client_DeletePath {AT W} _ _.

(** [ReadinessGate]: the interface value's [Check]. *)
Definition ReadinessGate (W : Type) : Type := M W unit.

Record GoBGPType2Adapter {AT : ApiTypes} (W : Type) := {
  a_Client : option (GoBgpServiceClient W);
  a_Gate : option (ReadinessGate W);
}.
Arguments a_Client {AT W} _.
Arguments a_Gate {AT W} _.

Section adapter.
Context {AT : ApiTypes} {BT : BgpTypes} {BL : BgpLib} {AU : ApiUtil} {UL : UuidLib}.

(** One path of a response; [None] is [continue]. *)
Definition native_path (p : option ApiPath) : result (option Type2RIBPath) :=
  match p with
  | None => Err (Errorf "nil GoBGP RIB path")
  | Some p =>
  let? nlri := GetNativeNlri p in
  match nlri with
  | Some evpn =>
      if negb (RouteType evpn =? EVPN_ROUTE_TYPE_MAC_IP_ADVERTISEMENT) then Ok None else
      let? attrs := GetNativePathAttributes p in
      let? id := (if negb (bool_decide (ap_Uuid p = ""%string)) then
                    match uuid_FromBytes (ap_Uuid p) with
                    | Some value => if bool_decide (value = uuid_Nil)
                                    then Err (Errorf "invalid GoBGP RIB UUID")
                                    else Ok (uuid_String value)
                    | None => Err (Errorf "invalid GoBGP RIB UUID")
                    end
                  else Ok ""%string) in
      Ok (Some {| p_PathUUID := id;
                  p_Local := negb (bool_decide (id = ""%string))
                             || bool_decide (ap_NeighborIp p = ""%string) && negb (ap_IsFromExternal p);
                  p_NLRI := Some evpn; p_PathAttributes := attrs |})
  | None => Ok None
  end end.

(** One response of the stream. *)
Definition recv_paths (acc : list Type2RIBPath) (response : option (option (list (option ApiPath))))
    : result (list Type2RIBPath) :=
  match response with
  | Some (Some (p :: ps)) =>
      rfold (fun acc p => let? q := native_path p in
                          Ok (match q with Some q => acc ++ [q] | None => acc end)) acc (p :: ps)
  | _ => Err (Errorf "incomplete GoBGP RIB response")
  end.

Section world.
Context {W : Type} {CX : Ctx W}.

(** [if a.Gate != nil { if err := a.Gate.Check(ctx); err != nil { return err } }] *)
Definition check_gate (g : option (ReadinessGate W)) : M W unit :=
  match g with None => ret tt | Some check => check end.

(** [GoBGPType2Adapter.Snapshot] *)
Definition adapter_Snapshot (a : GoBGPType2Adapter W) : M W (list Type2RIBPath) :=
  match a_Client a with
  | None => fail (Errorf "GoBGP client is required")
  | Some client =>
  do! check_gate (a_Gate a) in
  let! stream := client_ListPath client in
  match stream with
  | None => fail (Errorf "nil GoBGP RIB stream")
  | Some stream =>
  let! paths := lift (rfold recv_paths [] (st_responses stream)) in
  match st_end stream with
  | Some e => fail e
  | None =>
  let! cerr := gets ctx_Err in
  do! lift (of_error cerr) in
  do! check_gate (a_Gate a) in
  ret paths
  end end end.

(** A local path of the snapshot on the same wire route. *)
Definition on_wire (want : Type2Route) (path : Type2RIBPath) : bool :=
  p_Local path && match p_NLRI path with
                  | Some n => bool_decide (NLRI_String n = NLRI_String (t_NLRI want))
                  | None => false
                  end.

(** [GoBGPType2Adapter.Add] *)
Definition adapter_Add (a : GoBGPType2Adapter W) (route : Type2Route) : M W string :=
  let! want := lift (BuildType2Route (t_Endpoint route)) in
  let! paths := adapter_Snapshot a in
  if existsb (on_wire want) paths then fail (ErrRouteOwnership "local wire route already exists") else
  let! path := lift (NewPath (t_NLRI want) (t_PathAttributes want)) in
  let! path := (if MACOnly (t_Endpoint want)
                then let! b := lift (NLRI_Serialize (t_NLRI want)) in
                     ret (set_NlriBinary b path)
                else ret path) in
  do! check_gate (a_Gate a) in
  match a_Client a with
  | None => fail (Errorf "GoBGP client is required")
  | Some client =>
  let! uuid := client_AddPath client path in
  match uuid_FromBytes uuid with
  | Some id => if bool_decide (id = uuid_Nil)
               then fail (ErrRouteOwnership "AddPath returned no valid UUID")
               else ret (uuid_String id)
  | None => fail (ErrRouteOwnership "AddPath returned no valid UUID")
  end end.

(** [GoBGPType2Adapter.Delete]: only the first local path on the wire route is
    looked at, every branch of the loop body returns. *)
Definition adapter_Delete (a : GoBGPType2Adapter W) (owned : OwnedType2Route) : M W unit :=
  match uuid_Parse (o_PathUUID owned) with
  | None => fail (ErrRouteOwnership "exact UUID required for DeletePath")
  | Some id =>
  if bool_decide (id = uuid_Nil) then fail (ErrRouteOwnership "exact UUID required for DeletePath") else
  let! paths := adapter_Snapshot a in
  let! want := lift (BuildType2Route (o_Endpoint owned)) in
  match List.find (on_wire want) paths with
  | None => ret tt
  | Some path =>
      if negb (bool_decide (p_PathUUID path = ""%string))
         && negb (bool_decide (p_PathUUID path = uuid_String id))
      then fail (ErrRouteOwnership "wire route has another UUID")
      else if negb (ribPathMatchesEndpoint path (o_Endpoint owned))
      then fail (ErrRouteOwnership "UUID payload changed")
      else
        do! check_gate (a_Gate a) in
        match a_Client a with
        | None => fail (Errorf "GoBGP client is required")
        | Some client => client_DeletePath client (uuid_Bytes id)
        end
  end end.

(** The adapter as the interface values the reconciler and the exporter use. *)
Definition adapter_source (a : GoBGPType2Adapter W) : Type2RIBSource W :=
  {| source_Snapshot := adapter_Snapshot a |}.
Definition adapter_applier (a : GoBGPType2Adapter W) : Type2RouteApplier W :=
  {| applier_Add := adapter_Add a; applier_Delete := adapter_Delete a |}.

(** ** [SpeakerReadiness.Check] *)

Record SpeakerReadiness := {
  sr_Client : option (GoBgpServiceClient W);
  sr_ASN : Z;
  sr_RouterID : string;
}.

(** [uint32(oc.AFI_SAFI_TYPE_L2VPN_EVPN.ToInt())] *)
Context (AFI_SAFI_TYPE_L2VPN_EVPN : Z).

Definition readiness_Check (s : SpeakerReadiness) : M W unit :=
  match sr_Client s with
  | None => fail (Errorf "speaker API is not configured")
  | Some client =>
  let! g := wrap (Wrapped "speaker GetBgp") (client_GetBgp client) in
  match g with
  | None => fail (Errorf "speaker not ready")
  | Some g =>
      if (sr_ASN s =? 0) || negb (g_Asn g =? sr_ASN s) || negb (bool_decide (g_RouterId g = sr_RouterID s))
      then fail (Errorf "speaker not ready")
      else if existsb (fun family => family =? AFI_SAFI_TYPE_L2VPN_EVPN) (g_Families g)
      then ret tt
      else fail (Errorf "speaker not ready: EVPN family missing")
  end end.
End world.
End adapter.

(** ** Properties *)

Section adapter_properties.
Context {AT : ApiTypes} {BT : BgpTypes} {BL : BgpLib} {AU : ApiUtil} {UL : UuidLib}.
Context {W : Type} {CX : Ctx W}.
Implicit Types (a : GoBGPType2Adapter W) (w : W).

(** The paths of a snapshot, as a function of the paths that were listed. *)
Definition decodes (raw : list (option ApiPath)) (paths : list Type2RIBPath) : Prop :=
  exists natives, Forall2 (fun p q => native_path p = Ok q) raw natives /\ paths = omap id natives.

Lemma decodes_app r1 p1 r2 p2 : decodes r1 p1 -> decodes r2 p2 -> decodes (r1 ++ r2) (p1 ++ p2).
Proof.
  intros (n1 & H1 & ->) (n2 & H2 & ->). exists (n1 ++ n2). split; [by apply Forall2_app|].
  by rewrite omap_app.
Qed.

Lemma recv_paths_decodes response acc paths :
  recv_paths acc response = Ok paths ->
  exists raw more, response = Some (Some raw) /\ raw <> [] /\ paths = acc ++ more /\ decodes raw more.
Proof.
  unfold recv_paths. destruct response as [[[|p ps]|]|]; try done. intros H.
  eapply (rfold_invariant _ (fun done paths => exists more, paths = acc ++ more /\ decodes done more))
    in H as (more & -> & Hd).
  - by exists (p :: ps), more.
  - exists []. split; [by rewrite app_nil_r|]. by exists [].
  - intros done q b b' _ (more & -> & Hd) Hs. destruct (native_path q) as [o|] eqn:Hq; simplify_eq/=.
    exists (more ++ omap id [o]). split; [by destruct o; rewrite ?app_nil_r, <-?app_assoc|].
    apply decodes_app; [done|]. exists [o]. split; [|done]. by repeat constructor.
Qed.

Lemma stream_decodes responses paths :
  rfold recv_paths [] responses = Ok paths ->
  exists raws, responses = (fun raw => Some (Some raw)) <$> raws /\ Forall (fun raw => raw <> []) raws /\
    decodes (concat raws) paths.
Proof.
  apply (rfold_invariant _ (fun done paths => exists raws, done = (fun raw => Some (Some raw)) <$> raws /\
    Forall (fun raw => raw <> []) raws /\ decodes (concat raws) paths)).
  - exists []. split_and!; [done|constructor|by exists []].
  - intros done x b b' _ (raws & -> & Hne & Hd) (raw & more & -> & ? & -> & Hm)%recv_paths_decodes.
    exists (raws ++ [raw]). rewrite fmap_app, concat_app. split_and!; [done|by apply Forall_app; auto|].
    apply decodes_app; [done|]. simpl. by rewrite app_nil_r.
Qed.

Lemma native_path_type2 p q :
  native_path p = Ok (Some q) ->
  exists n, p_NLRI q = Some n /\ RouteType n = EVPN_ROUTE_TYPE_MAC_IP_ADVERTISEMENT.
Proof.
  unfold native_path, rbind. intros H. repeat (case_match; simplify_eq/=; try done); bools; eauto.
Qed.

Lemma decodes_type2 raw paths :
  decodes raw paths ->
  Forall (fun q => exists n, p_NLRI q = Some n /\ RouteType n = EVPN_ROUTE_TYPE_MAC_IP_ADVERTISEMENT) paths.
Proof.
  intros (natives & Hf & ->). apply Forall_forall. intros q (o & Ho & Hq)%list_elem_of_omap.
  simpl in Hq. subst o. apply list_elem_of_lookup in Ho as [i Hi].
  destruct (Forall2_lookup_r _ _ _ _ _ Hf Hi) as (p & _ & Hp). by eapply native_path_type2.
Qed.

(** A snapshot is complete or an error.  When [Snapshot] succeeds, the speaker
    ended the stream with [io.EOF], every response carried paths, and the result
    is exactly the decoding, in order, of every path of every response: no
    path was skipped other than those of another route type; each has a
    MAC/IP NLRI; and the context was alive when the stream ended. *)
Theorem adapter_Snapshot_complete a w w' paths :
  adapter_Snapshot a w = (w', Ok paths) ->
  exists client stream raws w1 w2, a_Client a = Some client /\
    client_ListPath client w1 = (w2, Ok (Some stream)) /\ st_end stream = None /\
    st_responses stream = (fun raw => Some (Some raw)) <$> raws /\
    Forall (fun raw => raw <> []) raws /\ decodes (concat raws) paths /\ ctx_Err w2 = None /\
    Forall (fun q => exists n, p_NLRI q = Some n /\
                      RouteType n = EVPN_ROUTE_TYPE_MAC_IP_ADVERTISEMENT) paths.
Proof.
  unfold adapter_Snapshot. intros H. msteps.
  match goal with H : rfold recv_paths _ _ = _ |- _ => apply stream_decodes in H as (raws & ? & ? & Hd) end.
  pose proof (decodes_type2 _ _ Hd). eexists _, _, raws, _, _. split_and!; try done.
  by destruct (ctx_Err _).
Qed.

(** ** What the adapter may write

    [P] is any fact about the world that reading the speaker does not change. *)
Section frame.
Context (P : W -> Prop) (a : GoBGPType2Adapter W).
Hypothesis gate_reads : forall g w, a_Gate a = Some g -> P w -> P (g w).1.
Hypothesis list_reads : forall c w, a_Client a = Some c -> P w -> P (client_ListPath c w).1.

Lemma check_gate_frame_run w w' r : P w -> check_gate (a_Gate a) w = (w', r) -> P w'.
Proof.
  unfold check_gate. intros Hw H. destruct (a_Gate a) as [g|] eqn:E; [|by msteps].
  specialize (gate_reads g w eq_refl Hw). by rewrite H in gate_reads.
Qed.

Lemma list_frame_run c w w' r : a_Client a = Some c -> P w -> client_ListPath c w = (w', r) -> P w'.
Proof. intros Hc Hw H. specialize (list_reads c w Hc Hw). by rewrite H in list_reads. Qed.

Lemma Snapshot_frame_run w w' r : P w -> adapter_Snapshot a w = (w', r) -> P w'.
Proof.
  pose proof check_gate_frame_run as Hg. pose proof list_frame_run as Hl.
  unfold adapter_Snapshot. intros Hw H. msteps_any; eauto.
Qed.

(** C34: exact-UUID deletion.  [Delete] writes to the speaker at most once, and only
    a DeletePath with the bytes of the receipt's own, valid, non-nil UUID, after
    a complete snapshot showed a local path on the receipt's wire route with the
    receipt's payload and no other UUID.  It succeeds without writing only when
    the snapshot has no local path on that wire route. *)
Theorem adapter_Delete_exact owned w w' r :
  P w -> adapter_Delete a owned w = (w', r) ->
  (P w' /\ (r = Ok tt -> exists want paths w1,
       BuildType2Route (o_Endpoint owned) = Ok want /\ adapter_Snapshot a w = (w1, Ok paths) /\
       existsb (on_wire want) paths = false)) \/
  (exists client id want paths path w1 w2, a_Client a = Some client /\
     uuid_Parse (o_PathUUID owned) = Some id /\ id <> uuid_Nil /\
     adapter_Snapshot a w = (w1, Ok paths) /\ path ∈ paths /\
     BuildType2Route (o_Endpoint owned) = Ok want /\ on_wire want path = true /\
     ribPathMatchesEndpoint path (o_Endpoint owned) = true /\
     (p_PathUUID path = ""%string \/ p_PathUUID path = uuid_String id) /\
     P w2 /\ client_DeletePath client (uuid_Bytes id) w2 = (w', r)).
Proof.
  pose proof Snapshot_frame_run as HS. pose proof check_gate_frame_run as Hg.
  unfold adapter_Delete. intros Hw H. destruct (uuid_Parse _) as [id|] eqn:Hid; msteps_any; bools;
    try (left; split; [by eauto|done]);
    match goal with
    | Hs : adapter_Snapshot a w = _, Hf : List.find _ ?paths = Some _ |- _ =>
        apply List.find_some in Hf as [Hin%list_elem_of_In Hon];
        pose proof (HS _ _ _ Hw Hs) as HP
    | Hs : adapter_Snapshot a w = _, Hf : List.find _ ?paths = None |- _ =>
        pose proof (HS _ _ _ Hw Hs) as HP
    end.
  - right. match goal with H : client_DeletePath ?g _ ?x = _ |- _ =>
      exists g, id; eexists _, _, _, _, x end. split_and!; try done.
    + match goal with H : _ && _ = false |- _ => apply andb_false_iff in H as [?|?]; bools; auto end.
    + by eauto.
  - left. split; [done|]. intros _. eexists _, _, _. split_and!; try done.
    apply not_true_iff_false. rewrite existsb_exists. intros (x & Hx & Hon).
    match goal with Hf : List.find _ _ = None |- _ => eapply List.find_none in Hf; [|exact Hx] end. congruence.
Qed.

(** No replacement.  [Add] calls AddPath at most once, and only after a complete
    snapshot showed no local path on the endpoint's wire route; the identifier
    it returns is the text of a valid non-nil UUID. *)
Theorem adapter_Add_exclusive route w w' r :
  P w -> adapter_Add a route w = (w', r) ->
  (P w' /\ exists e, r = Err e) \/
  (exists client want path paths w1 w2 u, a_Client a = Some client /\
     BuildType2Route (t_Endpoint route) = Ok want /\ adapter_Snapshot a w = (w1, Ok paths) /\
     existsb (on_wire want) paths = false /\ P w2 /\ client_AddPath client path w2 = (w', u) /\
     forall uuid, r = Ok uuid -> exists bytes id, u = Ok bytes /\ uuid_FromBytes bytes = Some id /\
       id <> uuid_Nil /\ uuid = uuid_String id).
Proof.
  pose proof Snapshot_frame_run as HS. pose proof check_gate_frame_run as Hg.
  unfold adapter_Add. intros Hw H. msteps_any; bools;
    try (left; split; [by eauto|by eauto]);
    right; match goal with H : client_AddPath ?g ?p ?x = (_, ?u) |- _ =>
      exists g; eexists _; exists p; eexists _, _; exists x, u end; split_and!; try done;
    try (by eauto);
    intros uuid Hu; simplify_eq; by eauto 10.
Qed.
End frame.
End adapter_properties.
