(* ===== verification/ExportRecovery.v ===== *)
(** * Durable export ownership

    Models [src/pkg/evpn/export_recovery.go]: [ExportRecovery] keeps, in the
    ownership journal, the receipts of the routes it advertised.  [Recover]
    reconciles the durable receipts and an unresolved intent with one attested
    observation of the speaker, [Add] and [Delete] write an intent before they
    touch the speaker and commit the receipt only after a readback.

    A Go slice whose nil-ness is observable ([reflect.DeepEqual] on the
    receipts) is an [option (list _)]. *)

From S2P Require Import Prelude GoStd Journal Type2 Reconciler.

(** ** Data *)

Record exportReceipt := {
  er_Owned : OwnedType2Route;
  er_NLRI : string;
  er_Attributes : list string;
  er_Incarnation : string;
}.

Record exportRecoveryState := {
  es_Version : Z;
  es_Incarnation : string;
  es_Receipts : option (list exportReceipt);
}.

Record exportIntent := {
  ei_Incarnation : string;
  ei_Route : exportReceipt;
}.

#[export] Instance exportReceipt_eq_dec : EqDecision exportReceipt.
Proof. solve_decision. Defined.
#[export] Instance exportRecoveryState_eq_dec : EqDecision exportRecoveryState.
Proof. solve_decision. Defined.
#[export] Instance exportIntent_eq_dec : EqDecision exportIntent.
Proof. solve_decision. Defined.

(** The elements of [r.state.Receipts]. *)
Definition es_receipts (s : exportRecoveryState) : list exportReceipt := default [] (es_Receipts s).

(** [append(s, x)] *)
Definition slice_append {A} (s : option (list A)) (x : A) : option (list A) := Some (default [] s ++ [x]).

(** [VerifiedSpeaker] *)
Record VerifiedSpeaker (W : Type) := {
  speaker_Check : M W unit;
  speaker_Incarnation : M W string;
}.
Arguments speaker_Check {W} _.
Arguments speaker_Incarnation {W} _.

Record ExportRecovery {BT : BgpTypes} (W : Type) := {
  x_journal : Journal;
  x_state : exportRecoveryState;
  x_source : Type2RIBSource W;
  x_applier : Type2RouteApplier W;
  x_speaker : VerifiedSpeaker W;
  x_fault : option (string -> result unit);
}.
Arguments x_journal {BT W} _.
Arguments x_state {BT W} _.
Arguments x_source {BT W} _.
Arguments x_applier {BT W} _.
Arguments x_speaker {BT W} _.
Arguments x_fault {BT W} _.

Record ExportRecoveryConfig := {
  rc_StateDirectory : string;
  rc_Domain : Domain;
}.

Section data.
Context {BT : BgpTypes} {W : Type}.
Definition set_journal (j : Journal) (r : ExportRecovery W) : ExportRecovery W :=
  {| x_journal := j; x_state := x_state r; x_source := x_source r; x_applier := x_applier r;
     x_speaker := x_speaker r; x_fault := x_fault r |}.
Definition set_state (s : exportRecoveryState) (r : ExportRecovery W) : ExportRecovery W :=
  {| x_journal := x_journal r; x_state := s; x_source := x_source r; x_applier := x_applier r;
     x_speaker := x_speaker r; x_fault := x_fault r |}.

(** Call the journal the recovery owns. *)
Definition on_journal {A} (m : M (Journal * W) A) : M (ExportRecovery W * W) A :=
  fun s => let '(j, w, a) := m (x_journal s.1, s.2) in ((set_journal j s.1, w), a).
End data.

Section recovery.
Context {BT : BgpTypes} {BL : BgpLib} {UL : UuidLib}.

(** [decodeExportRecord] *)
Definition decodeExportRecord {A} `{!Json A} (data : string) : result A :=
  match json_Decode data with
  | None => Err (Errorf "json")
  | Some (a, rest) =>
      if forallb json_space (chars rest) then Ok a else Err (Errorf "expected one exporter record")
  end.

(** [durableExportRoute] *)
Definition durableExportRoute (endpoint : LocalEndpoint) (incarnation id : string)
    : result exportReceipt :=
  let? route := BuildType2Route endpoint in
  let? nlri := NLRI_Serialize (t_NLRI route) in
  let? attributes := rfold (fun acc attribute => let? v := Attr_Serialize attribute in Ok (acc ++ [v]))
                           [] (t_PathAttributes route) in
  Ok {| er_Owned := {| o_Endpoint := cloneLocalEndpoint endpoint; o_PathUUID := id |};
        er_NLRI := nlri; er_Attributes := attributes; er_Incarnation := incarnation |}.

(** [sameExportPayload] *)
Definition sameExportPayload (a b : exportReceipt) : bool :=
  bool_decide (er_NLRI a = er_NLRI b) && bool_decide (er_Attributes a = er_Attributes b).

(** One receipt in the loop of [validate]: [keys] are the wire routes seen,
    [ids] the UUIDs seen. *)
Definition validate_step (incarnation : string) (seen : gset string * gset string)
    (receipt : exportReceipt) : result (gset string * gset string) :=
  match uuid_Parse (o_PathUUID (er_Owned receipt)) with
  | None => Err (Errorf "invalid or duplicate UUID/incarnation receipt")
  | Some id =>
  if bool_decide (id = uuid_Nil) || bool_decide (uuid_String id ∈ seen.2)
     || negb (bool_decide (er_Incarnation receipt = incarnation))
  then Err (Errorf "invalid or duplicate UUID/incarnation receipt")
  else match durableExportRoute (o_Endpoint (er_Owned receipt)) (er_Incarnation receipt)
                                (o_PathUUID (er_Owned receipt)) with
  | Err _ => Err (Errorf "receipt payload differs from recorded endpoint")
  | Ok want =>
  if negb (sameExportPayload want receipt)
  then Err (Errorf "receipt payload differs from recorded endpoint")
  else if bool_decide (er_NLRI receipt ∈ seen.1) then Err (Errorf "duplicate wire-route receipt")
  else Ok ({[er_NLRI receipt]} ∪ seen.1, {[uuid_String id]} ∪ seen.2)
  end end.

(** [ExportRecovery.validate] *)
Definition validate (s : exportRecoveryState) : result unit :=
  if negb (es_Version s =? 1)
     || bool_decide (es_Incarnation s = ""%string) && negb (bool_decide (length (es_receipts s) = 0%nat))
  then Err (Errorf "incompatible exporter schema/incarnation")
  else let? _ := rfold (validate_step (es_Incarnation s)) (∅, ∅) (es_receipts s) in Ok tt.

(** [matchingExportPaths] *)
Definition matching_path (receipt : exportReceipt) (path : Type2RIBPath) : bool :=
  match p_NLRI path with
  | Some n => match NLRI_Serialize n with
              | Ok value => p_Local path && bool_decide (value = er_NLRI receipt)
              | Err _ => false
              end
  | None => false
  end.
Definition matchingExportPaths (paths : list Type2RIBPath) (receipt : exportReceipt)
    : list Type2RIBPath := List.filter (matching_path receipt) paths.

(** [withoutExportReceipt]: the result is never nil. *)
Definition withoutExportReceipt (receipts : option (list exportReceipt)) (id : string)
    : option (list exportReceipt) :=
  Some (List.filter (fun r => negb (bool_decide (o_PathUUID (er_Owned r) = id))) (default [] receipts)).

(** [ExportRecovery.receipts] *)
Definition receipts (s : exportRecoveryState) : list OwnedType2Route :=
  sort_by o_PathUUID (er_Owned <$> es_receipts s).

(** The readback tests of one retained path. *)
Definition path_confirms (found : list Type2RIBPath) (ep : LocalEndpoint) (id : string) : bool :=
  match found with
  | [p] => ribPathMatchesEndpoint p ep
           && (bool_decide (p_PathUUID p = ""%string) || bool_decide (p_PathUUID p = id))
  | _ => false
  end.

Section world.
Context {W : Type} {PX : Posix W} {SH : Sha256} {JR : Json record} {JE : Json envelope}.
Context {JS : Json exportRecoveryState} {JI : Json exportIntent}.
Notation XM := (M (ExportRecovery W * W)).

(** [OpenExportRecovery] *)
Definition OpenExportRecovery (cfg : ExportRecoveryConfig) (source : option (Type2RIBSource W))
    (applier : option (Type2RouteApplier W)) (speaker : option (VerifiedSpeaker W))
    : M W (ExportRecovery W) :=
  match source, applier, speaker with
  | Some source, Some applier, Some speaker =>
      let! j := Open (rc_StateDirectory cfg) (rc_Domain cfg) true in
      fun w =>
        let '((j, w), snap) := Snapshot (j, w) in
        let zero := {| es_Version := 0; es_Incarnation := ""; es_Receipts := None |} in
        let fresh := {| es_Version := 1; es_Incarnation := ""; es_Receipts := None |} in
        let '(state, pending, err) :=
          match snap with
          | Err e => (zero, None, Some e)
          | Ok (data, pending) =>
              if negb (bool_decide (data = "null"%string)) then
                match decodeExportRecord data with
                | Err e => (zero, pending, Some e)
                | Ok s => (s, pending, to_error (validate s))
                end
              else match pending with
                   | None => (fresh, pending, None)
                   | Some i => if bool_decide (i_Operation i = "export-checkpoint"%string)
                               then (fresh, pending, None) else (zero, pending, None)
                   end
          end in
        if negb (bool_decide (err = None)) || ((es_Version state =? 0) && bool_decide (is_Some pending))
        then let '((_, w), c) := Close (j, w) in
             (w, Err (match errors_Join (Some (ErrBlocked "invalid exporter state")) (to_error c) with
                      | Some e => e | None => ErrBlocked "invalid exporter state" end))
        else (w, Ok {| x_journal := j; x_state := state; x_source := source; x_applier := applier;
                       x_speaker := speaker; x_fault := None |})
  | _, _, _ => fail (ErrBlocked "exporter recovery requires attested speaker, RIB and applier")
  end.

(** The validation of every RIB path that ends [observation]. *)
Definition check_paths (paths : list Type2RIBPath) : result unit :=
  rfold (fun _ path => match p_NLRI path with
                       | None => Err (ErrBlocked "nil RIB NLRI")
                       | Some n => match NLRI_Serialize n with
                                   | Err _ => Err (ErrBlocked "invalid RIB NLRI")
                                   | Ok _ => Ok tt
                                   end
                       end) tt paths.

(** [ExportRecovery.observation] *)
Definition observation : XM (string * list Type2RIBPath) :=
  let! r := gets fst in
  do! wrap (fun _ => ErrBlocked "provider attestation") (on_snd (speaker_Check (x_speaker r))) in
  let! before := wrap (fun _ => ErrBlocked "missing speaker incarnation")
                      (on_snd (speaker_Incarnation (x_speaker r))) in
  if bool_decide (before = ""%string) then fail (ErrBlocked "missing speaker incarnation") else
  let! paths := wrap (fun _ => ErrBlocked "incomplete/unavailable RIB")
                     (on_snd (source_Snapshot (x_source r))) in
  do! wrap (fun _ => ErrBlocked "speaker changed during RIB read") (on_snd (speaker_Check (x_speaker r))) in
  let! after := wrap (fun _ => ErrBlocked "RIB incarnation changed")
                     (on_snd (speaker_Incarnation (x_speaker r))) in
  if negb (bool_decide (before = after)) then fail (ErrBlocked "RIB incarnation changed") else
  do! lift (check_paths paths) in
  ret (before, paths).

(** One receipt in the first loop of [Recover]. *)
Definition retain_step (current : string) (paths : list Type2RIBPath)
    (acc : option (list exportReceipt)) (receipt : exportReceipt)
    : result (option (list exportReceipt)) :=
  let found := matchingExportPaths paths receipt in
  if bool_decide (length found = 0%nat) then Ok acc
  else if negb (bool_decide (current = er_Incarnation receipt))
          || negb (path_confirms found (o_Endpoint (er_Owned receipt)) (o_PathUUID (er_Owned receipt)))
  then Err (ErrBlocked "retained old or conflicting path; no adoption")
  else Ok (slice_append acc receipt).

Definition next_state (current : string) (rs : option (list exportReceipt)) : exportRecoveryState :=
  {| es_Version := 1; es_Incarnation := current; es_Receipts := rs |}.

(** The "export-delete" branch of [Recover]: finish an interrupted withdrawal. *)
Definition recover_delete (current : string) (paths : list Type2RIBPath) (intent : exportIntent)
    (next : exportRecoveryState) : XM exportRecoveryState :=
  let! r := gets fst in
  let route := ei_Route intent in
  if negb (existsb (fun receipt =>
        bool_decide (o_PathUUID (er_Owned receipt) = o_PathUUID (er_Owned route))
        && sameExportPayload receipt route) (es_receipts (x_state r)))
  then fail (ErrBlocked "deletion intent has no durable UUID receipt") else
  do! (if negb (bool_decide (length (matchingExportPaths paths route) = 0%nat)) then
         if negb (bool_decide (current = ei_Incarnation intent))
         then fail (ErrBlocked "withdrawal cannot cross incarnations") else
         do! wrap (fun _ => ErrBlocked "exact pending UUID withdrawal")
                  (on_snd (applier_Delete (x_applier r) (er_Owned route))) in
         let! (verified, observed) := wrap (fun _ => ErrBlocked "pending withdrawal absence unverified")
                                           observation in
         if negb (bool_decide (verified = current))
            || negb (bool_decide (length (matchingExportPaths observed route) = 0%nat))
         then fail (ErrBlocked "pending withdrawal absence unverified") else ret tt
       else ret tt) in
  ret (next_state (es_Incarnation next)
                  (withoutExportReceipt (es_Receipts next) (o_PathUUID (er_Owned route)))).

(** The branch of [Recover] for an unresolved intent; the state to commit. *)
Definition recover_pending (current : string) (paths : list Type2RIBPath) (pending : Intent)
    (next : exportRecoveryState) : XM exportRecoveryState :=
  let! r := gets fst in
  if bool_decide (i_Operation pending = "export-checkpoint"%string) then
    let! checkpoint := lift (map_err (fun _ => ErrBlocked "invalid exporter checkpoint")
                                     (decodeExportRecord (A := exportRecoveryState) (i_Payload pending))) in
    if negb (es_Version checkpoint =? 1) then fail (ErrBlocked "invalid exporter checkpoint") else
    if negb (forallb (fun candidate => bool_decide (candidate ∈ es_receipts (x_state r)))
                     (es_receipts checkpoint))
    then fail (ErrBlocked "checkpoint cannot introduce ownership") else ret next
  else
    let! intent := lift (map_err (fun _ => ErrBlocked "invalid exporter intent")
                                 (decodeExportRecord (A := exportIntent) (i_Payload pending))) in
    let route := ei_Route intent in
    let! want := lift (map_err (fun _ => ErrBlocked "invalid intent payload")
                   (durableExportRoute (o_Endpoint (er_Owned route)) (ei_Incarnation intent)
                                       (o_PathUUID (er_Owned route)))) in
    if negb (sameExportPayload want route) || bool_decide (ei_Incarnation intent = ""%string)
    then fail (ErrBlocked "invalid intent payload") else
    if bool_decide (i_Operation pending = "export-add"%string) then
      if negb (bool_decide (o_PathUUID (er_Owned route) = ""%string))
         || negb (bool_decide (length (matchingExportPaths paths route) = 0%nat))
      then fail (ErrBlocked "unresolved AddPath with retained route") else ret next
    else if bool_decide (i_Operation pending = "export-delete"%string) then
      recover_delete current paths intent next
    else fail (ErrBlocked "unknown exporter operation").

(** [ExportRecovery.Recover] *)
Definition Recover : XM (list OwnedType2Route) :=
  let! (current, paths) := observation in
  let! (_, pending) := on_journal Snapshot in
  let! r := gets fst in
  let! retained := lift (rfold (retain_step current paths) None (es_receipts (x_state r))) in
  let next := next_state current retained in
  let! next := match pending with
               | Some pending =>
                   let! next := recover_pending current paths pending next in
                   do! on_journal (Commit (i_Sequence pending) next) in
                   ret next
               | None =>
                   if negb (bool_decide (x_state r = next)) then
                     let! seq := on_journal (Begin "export-checkpoint" next) in
                     do! on_journal (Commit seq next) in
                     ret next
                   else ret next
               end in
  do! modify (fun s => (set_state next s.1, s.2)) in
  ret (receipts next).

(** [ExportRecovery.boundary] *)
Definition x_boundary (name : string) : XM unit :=
  let! r := gets fst in
  lift (match x_fault r with Some f => f name | None => Ok tt end).

(** [ExportRecovery.Add], once the intent is durable. *)
Definition add_execute (route : Type2Route) (current : string) (receipt : exportReceipt) (seq : Z)
    : XM string :=
  let! r := gets fst in
  do! x_boundary "add-intent" in
  let! id := on_snd (applier_Add (x_applier r) route) in
  do! x_boundary "add-executed" in
  match uuid_Parse id with
  | None => fail (ErrBlocked "no acknowledged UUID")
  | Some parsed =>
  if bool_decide (parsed = uuid_Nil) then fail (ErrBlocked "no acknowledged UUID") else
  let! (verified, observed) := wrap (fun _ => ErrBlocked "AddPath readback unverified") observation in
  if negb (bool_decide (verified = current))
     || negb (path_confirms (matchingExportPaths observed receipt) (t_Endpoint route) id)
  then fail (ErrBlocked "AddPath readback unverified") else
  let receipt := {| er_Owned := {| o_Endpoint := o_Endpoint (er_Owned receipt); o_PathUUID := id |};
                    er_NLRI := er_NLRI receipt; er_Attributes := er_Attributes receipt;
                    er_Incarnation := er_Incarnation receipt |} in
  let next := {| es_Version := es_Version (x_state r); es_Incarnation := es_Incarnation (x_state r);
                 es_Receipts := slice_append (es_Receipts (x_state r)) receipt |} in
  do! on_journal (Commit seq next) in
  do! modify (fun s => (set_state next s.1, s.2)) in
  do! x_boundary "add-ack" in
  ret id
  end.

(** [ExportRecovery.Add] *)
Definition x_Add (route : Type2Route) : XM string :=
  let! (current, paths) := observation in
  let! r := gets fst in
  if negb (bool_decide (current = es_Incarnation (x_state r)))
  then fail (ErrBlocked "speaker requires recovery") else
  let! receipt := lift (durableExportRoute (t_Endpoint route) current "") in
  if negb (bool_decide (length (matchingExportPaths paths receipt) = 0%nat))
  then fail (ErrBlocked "foreign/unclaimed local route") else
  let! seq := on_journal (Begin "export-add" {| ei_Incarnation := current; ei_Route := receipt |}) in
  add_execute route current receipt seq.

(** The receipt [Delete] finds: the last match of its loop. *)
Definition find_receipt (owned : OwnedType2Route) (rs : list exportReceipt) : option exportReceipt :=
  last (List.filter (fun r => bool_decide (o_PathUUID (er_Owned r) = o_PathUUID owned)
                              && Equivalent (o_Endpoint (er_Owned r)) (o_Endpoint owned)) rs).

(** [ExportRecovery.Delete], once the intent is durable. *)
Definition delete_execute (owned : OwnedType2Route) (current : string) (receipt : exportReceipt)
    (seq : Z) : XM unit :=
  let! r := gets fst in
  do! x_boundary "delete-intent" in
  do! on_snd (applier_Delete (x_applier r) owned) in
  do! x_boundary "delete-executed" in
  let! (verified, paths) := wrap (fun _ => ErrBlocked "withdrawal readback unverified") observation in
  if negb (bool_decide (verified = current))
     || negb (bool_decide (length (matchingExportPaths paths receipt) = 0%nat))
  then fail (ErrBlocked "withdrawal readback unverified") else
  let next := {| es_Version := es_Version (x_state r); es_Incarnation := es_Incarnation (x_state r);
                 es_Receipts := withoutExportReceipt (es_Receipts (x_state r)) (o_PathUUID owned) |} in
  do! on_journal (Commit seq next) in
  do! modify (fun s => (set_state next s.1, s.2)) in
  x_boundary "delete-ack".

(** [ExportRecovery.Delete] *)
Definition x_Delete (owned : OwnedType2Route) : XM unit :=
  let! (current, _) := observation in
  let! r := gets fst in
  match find_receipt owned (es_receipts (x_state r)) with
  | None => fail (ErrBlocked "exact durable receipt in current incarnation required")
  | Some receipt =>
  if negb (bool_decide (er_Incarnation receipt = current))
  then fail (ErrBlocked "exact durable receipt in current incarnation required") else
  let! seq := on_journal (Begin "export-delete" {| ei_Incarnation := current; ei_Route := receipt |}) in
  delete_execute owned current receipt seq
  end.

(** [ExportRecovery.Close] *)
Definition x_Close : XM unit := on_journal Close.

(** [ExportRecovery.Rebind] *)
Definition Rebind (source : option (Type2RIBSource W)) (applier : option (Type2RouteApplier W))
    (speaker : option (VerifiedSpeaker W)) : XM unit :=
  match source, applier, speaker with
  | Some source, Some applier, Some speaker =>
      modify (fun s => ({| x_journal := x_journal s.1; x_state := x_state s.1; x_source := source;
                           x_applier := applier; x_speaker := speaker; x_fault := x_fault s.1 |}, s.2))
  | _, _, _ => fail (ErrBlocked "missing replacement transport evidence")
  end.
End world.
End recovery.

(** ** Invariant of the durable state *)

Section state_inv.
Context {BT : BgpTypes} {BL : BgpLib} {UL : UuidLib} {JS : Json exportRecoveryState}.

(** A receipt of an incarnation: an acknowledged UUID, and the exact payload its
    endpoint builds. *)
Definition receipt_ok (incarnation : string) (rc : exportReceipt) : Prop :=
  (exists u, uuid_Parse (o_PathUUID (er_Owned rc)) = Some u /\ u <> uuid_Nil) /\
  durableExportRoute (o_Endpoint (er_Owned rc)) incarnation (o_PathUUID (er_Owned rc)) = Ok rc.

Definition state_ok (s : exportRecoveryState) : Prop :=
  es_Version s = 1 /\ (es_Incarnation s = ""%string -> es_receipts s = []) /\
  Forall (receipt_ok (es_Incarnation s)) (es_receipts s).

Definition fresh_state : exportRecoveryState :=
  {| es_Version := 1; es_Incarnation := ""; es_Receipts := None |}.

(** The receipts in memory are the ones the journal holds. *)
Definition agrees (j : Journal) (s : exportRecoveryState) : Prop :=
  decodeExportRecord (r_State (j_record j)) = Ok s \/
  (r_State (j_record j) = "null"%string /\ s = fresh_state).

Lemma durable_payload ep inc id rc :
  durableExportRoute ep inc id = Ok rc ->
  er_Owned rc = {| o_Endpoint := ep; o_PathUUID := id |} /\ er_Incarnation rc = inc.
Proof.
  unfold durableExportRoute, rbind. intros H. repeat (case_match; simplify_eq/=; try done).
Qed.

(** Only the payload of a receipt depends on its endpoint: the UUID is a label. *)
Lemma durable_relabel ep inc id id' rc :
  durableExportRoute ep inc id = Ok rc ->
  durableExportRoute ep inc id' =
    Ok {| er_Owned := {| o_Endpoint := ep; o_PathUUID := id' |}; er_NLRI := er_NLRI rc;
          er_Attributes := er_Attributes rc; er_Incarnation := inc |}.
Proof.
  unfold durableExportRoute, rbind. intros H. repeat (case_match; simplify_eq/=; try done).
Qed.

Lemma same_payload_receipt want rc :
  sameExportPayload want rc = true -> er_Owned want = er_Owned rc ->
  er_Incarnation want = er_Incarnation rc -> want = rc.
Proof. destruct want, rc. unfold sameExportPayload. simpl. intros. bools. by subst. Qed.

Lemma validate_state_ok s : validate s = Ok tt -> state_ok s.
Proof.
  unfold validate. intros H. destruct (_ || _) eqn:Hg; [done|]. apply orb_false_iff in Hg as [Hv Hi].
  bools. destruct (rfold _ _ _) as [seen|] eqn:Hr; [|done]. split_and!; [done| |].
  - intros E. rewrite bool_decide_eq_true_2 in Hi by done. simpl in Hi. bools.
    by apply nil_length_inv.
  - revert Hr. apply (rfold_invariant _ (fun done _ => Forall (receipt_ok (es_Incarnation s)) done)).
    + constructor.
    + intros done rc b b' _ Hd Hs. apply Forall_app. split; [done|]. constructor; [|done].
      unfold validate_step in Hs. destruct (uuid_Parse _) as [u|] eqn:Hu; [|done].
      destruct (_ || _) eqn:Hg; [done|]. bools. subst.
      destruct (durableExportRoute _ _ _) as [want|] eqn:Hw; [|done].
      destruct (sameExportPayload want rc) eqn:Hp; [|done].
      destruct (durable_payload _ _ _ _ Hw) as [Ho Hin].
      match goal with H : er_Incarnation rc = _ |- _ => rewrite <-H end.
      split; [eauto|]. rewrite Hw. f_equal. apply same_payload_receipt; [done| |done].
      rewrite Ho. by destruct (er_Owned rc).
Qed.

Lemma agrees_committed {JL : JsonLaws exportRecoveryState} j s data :
  json_Marshal s = Ok data -> agrees (set_record (committed (j_record j) data) j) s.
Proof.
  intros H. left. unfold decodeExportRecord. simpl. rewrite (json_roundtrip _ _ H). done.
Qed.

Lemma agrees_state j j' s : r_State (j_record j') = r_State (j_record j) -> agrees j s -> agrees j' s.
Proof. unfold agrees. by intros ->. Qed.
End state_inv.

(** ** Operations *)

Section operations.
Context {BT : BgpTypes} {BL : BgpLib} {UL : UuidLib}.
Context {W : Type} {PX : Posix W} {SH : Sha256} {JR : Json record} {JE : Json envelope}.
Context {JS : Json exportRecoveryState} {JI : Json exportIntent} {JL : JsonLaws exportRecoveryState}.
Implicit Types (r : ExportRecovery W) (w : W).

Lemma on_journal_inv {A} (m : M (Journal * W) A) (s s' : ExportRecovery W * W) a :
  on_journal m s = (s', a) ->
  exists j', m (x_journal s.1, s.2) = ((j', s'.2), a) /\ s'.1 = set_journal j' s.1.
Proof. unfold on_journal. destruct (m _) as [[j w] b]. intros. simplify_eq. eauto. Qed.

(** An observation reads: the recovery is unchanged, and the current incarnation
    it reports is not empty. *)
Lemma observation_run (s s' : ExportRecovery W * W) res :
  observation s = (s', res) ->
  s'.1 = s.1 /\ (forall current paths, res = Ok (current, paths) -> current <> ""%string).
Proof.
  unfold observation. intros H. msteps_any; (split; [congruence|]); intros; simplify_eq; bools; done.
Qed.

Lemma boundary_run name (s s' : ExportRecovery W * W) res : x_boundary name s = (s', res) -> s' = s.
Proof. unfold x_boundary. intros H. by msteps_any. Qed.

(** The transport of a recovery: everything but its journal and its receipts. *)
Definition same_transport r r' : Prop :=
  x_source r' = x_source r /\ x_applier r' = x_applier r /\ x_speaker r' = x_speaker r /\
  x_fault r' = x_fault r.

Definition x_inv r : Prop :=
  state_ok (x_state r) /\ agrees (x_journal r) (x_state r) /\ is_u64 (r_Sequence (j_record (x_journal r))).

(** What a call that leaves the receipts alone does. *)
Definition keeps r r' : Prop :=
  x_state r' = x_state r /\ same_transport r r' /\ (x_inv r -> x_inv r').

#[local] Instance keeps_preorder : PreOrder keeps.
Proof.
  split.
  - intros r. unfold keeps, same_transport. naive_solver.
  - intros r1 r2 r3 (H1 & T1 & I1) (H2 & T2 & I2). unfold keeps, same_transport in *.
    destruct_and?. split_and!; try congruence. auto.
Qed.

Lemma keeps_journal r j' :
  r_State (j_record j') = r_State (j_record (x_journal r)) ->
  (is_u64 (r_Sequence (j_record (x_journal r))) -> is_u64 (r_Sequence (j_record j'))) ->
  keeps r (set_journal j' r).
Proof.
  intros Hs Hq. split_and!; [done|done|]. intros (H1 & H2 & H3).
  split_and!; [done|by eapply agrees_state|by apply Hq].
Qed.

Lemma journal_Snapshot_keeps (s s' : ExportRecovery W * W) res :
  on_journal Snapshot s = (s', res) -> keeps s.1 s'.1 /\
  (forall d p, res = Ok (d, p) -> p = r_Pending (j_record (x_journal s.1)) /\ s'.1 = s.1).
Proof.
  intros (j' & H & ->)%on_journal_inv.
  apply Snapshot_run in H as [(-> & -> & _)|(e & -> & Hr & _)].
  - split; [by apply keeps_journal|]. intros d p [= <- <-]. by destruct s as [[] ?].
  - split; [apply keeps_journal; by rewrite Hr|done].
Qed.

Lemma journal_Begin_keeps {P} {JP : Json P} op (p : P) (s s' : ExportRecovery W * W) res :
  is_u64 (r_Sequence (j_record (x_journal s.1))) ->
  on_journal (Begin op p) s = (s', res) -> keeps s.1 s'.1 /\
  (forall seq, res = Ok seq -> exists data, json_Marshal p = Ok data /\
     r_Pending (j_record (x_journal s'.1)) =
       Some {| i_Sequence := seq; i_Operation := op; i_Payload := data |}).
Proof.
  intros Hu (j' & H & ->)%on_journal_inv.
  apply Begin_run in H as [(data & w1 & -> & Hd & _ & _ & _ & Hlt & _ & -> & _)|(e & -> & Hr & _)]; [..|done].
  - split.
    + apply keeps_journal; [done|]. simpl. unfold is_u64 in *. lia.
    + intros seq [= <-]. eauto.
  - split; [apply keeps_journal; by rewrite Hr|done].
Qed.

Lemma journal_Commit_run seq (st : exportRecoveryState) (s s' : ExportRecovery W * W) res :
  on_journal (Commit seq st) s = (s', res) ->
  (res = Ok tt /\ x_state s'.1 = x_state s.1 /\ same_transport s.1 s'.1 /\
     agrees (x_journal s'.1) st /\ r_Pending (j_record (x_journal s'.1)) = None /\
     r_Sequence (j_record (x_journal s'.1)) = r_Sequence (j_record (x_journal s.1))) \/
  (exists e, res = Err e /\ keeps s.1 s'.1 /\
     r_Pending (j_record (x_journal s'.1)) = r_Pending (j_record (x_journal s.1))).
Proof.
  intros (j' & H & ->)%on_journal_inv.
  apply Commit_run in H as [(data & w1 & i & -> & Hd & _ & _ & _ & -> & _)|(e & -> & Hr & _)].
  - left. split_and!; try done. by apply agrees_committed.
  - right. exists e. split_and!; [done|apply keeps_journal; by rewrite Hr|by rewrite <-Hr].
Qed.

Lemma observation_keeps (s s' : ExportRecovery W * W) res : observation s = (s', res) -> keeps s.1 s'.1.
Proof. intros [-> _]%observation_run. reflexivity. Qed.

(** *** Recovery *)

Lemma retain_fold current paths rcs kept :
  rfold (retain_step current paths) None rcs = Ok kept ->
  (forall rc, rc ∈ default [] kept -> rc ∈ rcs /\ er_Incarnation rc = current /\
     path_confirms (matchingExportPaths paths rc) (o_Endpoint (er_Owned rc)) (o_PathUUID (er_Owned rc)) = true) /\
  (forall rc, rc ∈ rcs -> matchingExportPaths paths rc <> [] -> rc ∈ default [] kept).
Proof.
  apply (rfold_invariant _ (fun done kept =>
    (forall rc, rc ∈ default [] kept -> rc ∈ done /\ er_Incarnation rc = current /\
       path_confirms (matchingExportPaths paths rc) (o_Endpoint (er_Owned rc)) (o_PathUUID (er_Owned rc)) = true) /\
    (forall rc, rc ∈ done -> matchingExportPaths paths rc <> [] -> rc ∈ default [] kept))).
  - split; set_solver.
  - intros done rc b b' _ [H1 H2] H. unfold retain_step in H. case_bool_decide as Hl.
    + simplify_eq. apply nil_length_inv in Hl. split.
      * intros x [? ?]%H1. set_solver.
      * intros x [Hx| ->%list_elem_of_singleton]%elem_of_app ?; [by apply H2|done].
    + destruct (_ || _) eqn:Hg in H; [done|]. apply orb_false_iff in Hg as [Hi Hp]. bools. simplify_eq.
      unfold slice_append. simpl. split.
      * intros x [Hx| ->%list_elem_of_singleton]%elem_of_app; [apply H1 in Hx; set_solver|].
        split_and!; [set_solver|done|done].
      * intros x [Hx| ->%list_elem_of_singleton]%elem_of_app ?; [|set_solver].
        apply elem_of_app. left. by apply H2.
Qed.

Lemma recover_delete_run current paths intent next (s s' : ExportRecovery W * W) res :
  recover_delete current paths intent next s = (s', res) ->
  s'.1 = s.1 /\ (forall n, res = Ok n -> n = next_state (es_Incarnation next)
    (withoutExportReceipt (es_Receipts next) (o_PathUUID (er_Owned (ei_Route intent))))).
Proof.
  unfold recover_delete. intros H. msteps_any; (split; [|intros; by simplify_eq]);
    repeat match goal with H : observation _ = _ |- _ => apply observation_run in H as [H _] end;
    congruence.
Qed.

Lemma recover_pending_run current paths pending next (s s' : ExportRecovery W * W) res :
  recover_pending current paths pending next s = (s', res) ->
  s'.1 = s.1 /\ (forall n, res = Ok n -> n = next \/
    exists intent, i_Operation pending = "export-delete"%string /\
      decodeExportRecord (i_Payload pending) = Ok intent /\
      n = next_state (es_Incarnation next)
            (withoutExportReceipt (es_Receipts next) (o_PathUUID (er_Owned (ei_Route intent))))).
Proof.
  unfold recover_pending. intros H.
  msteps_any; try match goal with H : recover_delete _ _ _ _ _ = _ |- _ =>
    apply recover_delete_run in H as [? Hn] end; (split; [congruence|intros n ?; simplify_eq; auto]).
  right. repeat match goal with H : map_err _ ?x = Ok _ |- _ => destruct x eqn:?; simplify_eq/= end.
  bools. eexists. split_and!; [done..|]. by apply Hn.
Qed.

Lemma state_ok_next current paths rcs kept s :
  state_ok s -> rcs = es_receipts s -> current <> ""%string ->
  rfold (retain_step current paths) None rcs = Ok kept -> state_ok (next_state current kept).
Proof.
  intros (_ & _ & Hok) -> Hne [H _]%retain_fold. split_and!; [done|done|]. simpl.
  apply Forall_forall. intros rc Hrc. destruct (H rc Hrc) as (Hin & Hi & _).
  rewrite Forall_forall in Hok. destruct (Hok _ Hin) as [Hu Hd].
  destruct (durable_payload _ _ _ _ Hd) as [_ Hinc]. simpl. split; [done|]. congruence.
Qed.

Lemma elem_of_without rc rcs id :
  rc ∈ default [] (withoutExportReceipt rcs id) <->
  rc ∈ default [] rcs /\ o_PathUUID (er_Owned rc) <> id.
Proof.
  simpl. rewrite list_elem_of_In, List.filter_In, <-list_elem_of_In, negb_true_iff, bool_decide_eq_false.
  done.
Qed.

Lemma state_ok_without s id :
  state_ok s -> state_ok {| es_Version := es_Version s; es_Incarnation := es_Incarnation s;
                            es_Receipts := withoutExportReceipt (es_Receipts s) id |}.
Proof.
  intros (H1 & H2 & H3). split_and!; [done| |].
  - simpl. intros E. unfold es_receipts in *. simpl. by rewrite (H2 E).
  - simpl. rewrite Forall_forall in *. intros rc [Hin _]%elem_of_without. by apply H3.
Qed.

(** How [Recover] settles the journal once it knows the state to keep. *)
Definition settle (pending : option Intent) (current : string) (paths : list Type2RIBPath)
    (next : exportRecoveryState) (s s' : ExportRecovery W * W) (res : result exportRecoveryState) : Prop :=
  same_transport s.1 s'.1 /\ x_state s'.1 = x_state s.1 /\
  match res with
  | Err _ => x_inv s.1 -> x_inv s'.1
  | Ok n => (x_inv s.1 -> agrees (x_journal s'.1) n /\ is_u64 (r_Sequence (j_record (x_journal s'.1)))) /\
      (n = next \/ exists p intent, pending = Some p /\ i_Operation p = "export-delete"%string /\
         decodeExportRecord (i_Payload p) = Ok intent /\
         n = next_state (es_Incarnation next)
               (withoutExportReceipt (es_Receipts next) (o_PathUUID (er_Owned (ei_Route intent)))))
  end.

Lemma settle_pending current paths p next (s s' : ExportRecovery W * W) res :
  (let! next := recover_pending current paths p next in
   do! on_journal (Commit (i_Sequence p) next) in ret next) s = (s', res) ->
  settle (Some p) current paths next s s' res.
Proof.
  intros H. apply bind_inv in H as [(s1 & n & H1 & H2)|(e & H1 & ->)];
    apply recover_pending_run in H1 as [Hs Hn].
  - apply bind_inv in H2 as [(s2 & [] & H2 & H3)|(e & H2 & ->)];
      apply journal_Commit_run in H2 as [(? & Hst & Ht & Ha & Hp & Hq)|(e' & ? & (Hst & Ht & Hk) & _)];
      simplify_eq; unfold settle; rewrite <-Hs; [|done].
    msteps. split_and!; [done|done|intros (_ & _ & ?); rewrite Hq; done|].
    destruct (Hn _ eq_refl) as [->|(intent & ? & ? & ->)]; [by left|right]. by eexists _, _.
  - unfold settle. rewrite Hs. done.
Qed.

Lemma settle_checkpoint current paths next (s s' : ExportRecovery W * W) res :
  x_inv s.1 ->
  (if negb (bool_decide (x_state s.1 = next)) then
     let! seq := on_journal (Begin "export-checkpoint" next) in
     do! on_journal (Commit seq next) in ret next
   else ret next) s = (s', res) ->
  settle None current paths next s s' res.
Proof.
  intros (Hi1 & Hi2 & Hi3) H. case_bool_decide as Heq; simpl in H.
  - msteps. unfold settle. split_and!; [done..| |by left]. intros _. done.
  - apply bind_inv in H as [(s1 & seq & H1 & H2)|(e & H1 & ->)];
      apply journal_Begin_keeps in H1 as [(Hst1 & Ht1 & Hk1) _]; try done.
    apply bind_inv in H2 as [(s2 & [] & H2 & H3)|(e & H2 & ->)];
      apply journal_Commit_run in H2 as [(? & Hst & Ht & Ha & Hp & Hq)|(e' & ? & (Hst & Ht & Hk) & _)];
      simplify_eq; unfold settle; unfold same_transport in *.
    + msteps. destruct_and?. split_and!; try congruence; [|by left]. intros _. split; [done|].
      rewrite Hq. apply Hk1. done.
    + destruct_and?. split_and!; try congruence. auto.
Qed.

(** The calls of [Recover], in order. *)
Lemma Recover_inv (s s' : ExportRecovery W * W) res :
  x_inv s.1 -> Recover s = (s', res) ->
  (exists e, res = Err e /\ x_inv s'.1 /\ same_transport s.1 s'.1 /\ x_state s'.1 = x_state s.1) \/
  (exists current paths kept s1 s2 s3 n, observation s = (s1, Ok (current, paths)) /\ s1.1 = s.1 /\ s2.1 = s.1 /\
     current <> ""%string /\
     rfold (retain_step current paths) None (es_receipts (x_state s.1)) = Ok kept /\
     settle (r_Pending (j_record (x_journal s.1))) current paths (next_state current kept) s2 s3 (Ok n) /\
     s' = (set_state n s3.1, s3.2) /\ res = Ok (receipts n)).
Proof.
  intros Hi H. unfold Recover in H.
  apply bind_inv in H as [(s1 & [current paths] & H1 & H)|(e & H1 & ->)];
    pose proof (observation_run _ _ _ H1) as [Hs1 Hc];
    [|left; exists e; rewrite Hs1; by split_and!].
  apply bind_inv in H as [(s2 & [d pending] & H2 & H)|(e & H2 & ->)];
    pose proof (journal_Snapshot_keeps _ _ _ H2) as [(Hst2 & Ht2 & Hk2) Hp2]; rewrite Hs1 in *;
    [|left; exists e; split_and!; auto].
  destruct (Hp2 _ _ eq_refl) as [-> Hs2].
  rewrite bind_gets, bind_lift, Hs2 in H.
  destruct (rfold (retain_step current paths) _ _) as [kept|e] eqn:Hk;
    [|simplify_eq; left; exists e; rewrite Hs2; by split_and!].
  assert (forall s3 res3, (match r_Pending (j_record (x_journal s.1)) with
    | Some p => let! next := recover_pending current paths p (next_state current kept) in
                do! on_journal (Commit (i_Sequence p) next) in ret next
    | None => if negb (bool_decide (x_state s.1 = next_state current kept)) then
                let! seq := on_journal (Begin "export-checkpoint" (next_state current kept)) in
                do! on_journal (Commit seq (next_state current kept)) in ret (next_state current kept)
              else ret (next_state current kept)
    end) s2 = (s3, res3) ->
    settle (r_Pending (j_record (x_journal s.1))) current paths (next_state current kept) s2 s3 res3)
    as Hsettle.
  { intros s3 res3 Hm. destruct (r_Pending _) as [p|]; [by apply settle_pending|].
    apply settle_checkpoint; by rewrite Hs2. }
  apply bind_inv in H as [(s3 & n & Hn & H)|(e & Hn & ->)]; pose proof (Hsettle _ _ Hn) as Hse.
  - right. exists current, paths, kept, s1, s2, s3, n.
    unfold bind, modify, ret in H. simplify_eq. split_and!; try done. by apply Hc with paths.
  - left. exists e. destruct Hse as (Ht & Hst & Hx). rewrite Hs2 in *. by split_and!; auto.
Qed.

(** C35: recovery never adopts.  A successful [Recover] made one attested observation
    and keeps, in the observed incarnation, only receipts it already held for that
    very incarnation, each confirmed by exactly one local path on its wire route
    with its payload and no other UUID; a held receipt whose wire route is still
    occupied is dropped only by the journal's own unresolved withdrawal of that
    UUID; the routes it returns are exactly the receipts it keeps.  A failed
    [Recover] changes no receipt. *)
Theorem Recover_no_adoption (s s' : ExportRecovery W * W) res :
  x_inv s.1 -> Recover s = (s', res) ->
  match res with
  | Err _ => x_state s'.1 = x_state s.1
  | Ok out => exists current paths s1, observation s = (s1, Ok (current, paths)) /\
      es_Incarnation (x_state s'.1) = current /\
      (forall rc, rc ∈ es_receipts (x_state s'.1) ->
         rc ∈ es_receipts (x_state s.1) /\ er_Incarnation rc = current /\
         path_confirms (matchingExportPaths paths rc)
                       (o_Endpoint (er_Owned rc)) (o_PathUUID (er_Owned rc)) = true) /\
      (forall rc, rc ∈ es_receipts (x_state s.1) -> matchingExportPaths paths rc <> [] ->
         rc ∈ es_receipts (x_state s'.1) \/
         exists p intent, r_Pending (j_record (x_journal s.1)) = Some p /\
           i_Operation p = "export-delete"%string /\ decodeExportRecord (i_Payload p) = Ok intent /\
           o_PathUUID (er_Owned (ei_Route intent)) = o_PathUUID (er_Owned rc)) /\
      out ≡ₚ er_Owned <$> es_receipts (x_state s'.1)
  end.
Proof.
  intros Hi [(e & -> & _ & _ & Hst)|(current & paths & kept & s1 & s2 & s3 & n & Ho & _ & _ & _ & Hk & Hse & -> & ->)]%Recover_inv;
    [done| |done].
  exists current, paths, s1. apply retain_fold in Hk as [Hk1 Hk2]. destruct Hse as (_ & _ & _ & Hn).
  split; [done|]. simpl. assert (receipts n ≡ₚ er_Owned <$> es_receipts n) as Hout by apply merge_sort_Permutation.
  destruct Hn as [->|(p & intent & Hp & Hop & Hd & ->)]; simpl; split_and!; try done.
  - intros rc Hrc Hm. left. by apply Hk2.
  - intros rc [Hrc _]%elem_of_without. by apply Hk1.
  - intros rc Hrc Hm. destruct (decide (o_PathUUID (er_Owned rc) = o_PathUUID (er_Owned (ei_Route intent)))).
    + right. exists p, intent. split_and!; congruence.
    + left. apply elem_of_without. split; [by apply Hk2|done].
Qed.

Lemma Recover_keeps_inv (s s' : ExportRecovery W * W) res :
  x_inv s.1 -> Recover s = (s', res) -> x_inv s'.1 /\ same_transport s.1 s'.1.
Proof.
  intros Hi [(e & -> & Hi' & Ht & _)|(current & paths & kept & s1 & s2 & s3 & n & _ & _ & Hs2 & Hc & Hk & Hse & -> & ->)]%Recover_inv;
    [done| |done].
  destruct Hse as (Ht & _ & Hag & Hn). rewrite Hs2 in *. destruct (Hag Hi) as [Ha Hq].
  split; [|done]. simpl. split_and!; [|done|done].
  pose proof (state_ok_next _ _ _ _ _ (proj1 Hi) eq_refl Hc Hk) as Hok.
  destruct Hn as [->|(p & intent & _ & _ & _ & ->)]; [done|]. by apply (state_ok_without (next_state current kept)).
Qed.

(** *** Advertisement and withdrawal *)

(** Everything but the speaker's write calls. *)
Section frame.
Context (P : W -> Prop).
Record quiet r : Prop := {
  quiet_check w : P w -> P (speaker_Check (x_speaker r) w).1;
  quiet_incarnation w : P w -> P (speaker_Incarnation (x_speaker r) w).1;
  quiet_source w : P w -> P (source_Snapshot (x_source r) w).1;
  quiet_begin op (i : exportIntent) j w : P w -> P (Begin op i (j, w)).1.2;
  quiet_commit seq (st : exportRecoveryState) j w : P w -> P (Commit seq st (j, w)).1.2;
}.

Lemma observation_frame (s s' : ExportRecovery W * W) res :
  quiet s.1 -> P s.2 -> observation s = (s', res) -> P s'.2.
Proof.
  intros [Hch Hin Hso _ _] Hw H. unfold observation in H. rewrite bind_gets in H.
  assert (forall w w' x, P w -> speaker_Check (x_speaker s.1) w = (w', x) -> P w') as H1.
  { intros w w' x Hp E. specialize (Hch w Hp). by rewrite E in Hch. }
  assert (forall w w' x, P w -> speaker_Incarnation (x_speaker s.1) w = (w', x) -> P w') as H2.
  { intros w w' x Hp E. specialize (Hin w Hp). by rewrite E in Hin. }
  assert (forall w w' x, P w -> source_Snapshot (x_source s.1) w = (w', x) -> P w') as H3.
  { intros w w' x Hp E. specialize (Hso w Hp). by rewrite E in Hso. }
  clear Hch Hin Hso. msteps_any; repeat match goal with
    | H : speaker_Check _ _ = _ |- _ => apply H1 in H; [|assumption]
    | H : speaker_Incarnation _ _ = _ |- _ => apply H2 in H; [|assumption]
    | H : source_Snapshot _ _ = _ |- _ => apply H3 in H; [|assumption]
    end; assumption.
Qed.

Lemma begin_frame op (i : exportIntent) (s s' : ExportRecovery W * W) res :
  quiet s.1 -> P s.2 -> on_journal (Begin op i) s = (s', res) -> P s'.2.
Proof.
  intros [_ _ _ Hb _] Hw (j' & H & _)%on_journal_inv. specialize (Hb op i (x_journal s.1) s.2 Hw).
  by rewrite H in Hb.
Qed.

Lemma quiet_transport r r' : same_transport r r' -> quiet r -> quiet r'.
Proof. intros (Hs & Ha & Hp & _) []. split; rewrite ?Hs, ?Hp; done. Qed.

Lemma boundary_none name (s : ExportRecovery W * W) :
  x_fault s.1 = None -> x_boundary name s = (s, Ok tt).
Proof. intros H. unfold x_boundary. by rewrite bind_gets, H. Qed.

(** The first half of [Add]: refused before any write, or the intent is durable. *)
Lemma x_Add_prefix route (s s' : ExportRecovery W * W) res :
  x_inv s.1 -> quiet s.1 -> P s.2 -> x_Add route s = (s', res) ->
  (exists e, res = Err e /\ keeps s.1 s'.1 /\ P s'.2) \/
  (exists current paths receipt seq data s0 s1, observation s = (s0, Ok (current, paths)) /\
     current <> ""%string /\ es_Incarnation (x_state s.1) = current /\
     durableExportRoute (t_Endpoint route) current "" = Ok receipt /\
     matchingExportPaths paths receipt = [] /\
     json_Marshal {| ei_Incarnation := current; ei_Route := receipt |} = Ok data /\
     keeps s.1 s1.1 /\ P s1.2 /\
     r_Pending (j_record (x_journal s1.1)) =
       Some {| i_Sequence := seq; i_Operation := "export-add"; i_Payload := data |} /\
     add_execute route current receipt seq s1 = (s', res)).
Proof.
  intros Hi Hq Hw H. unfold x_Add in H.
  apply bind_inv in H as [(s0 & [current paths] & Ho & H)|(e & Ho & ->)];
    pose proof (observation_run _ _ _ Ho) as [Hs0 Hc];
    pose proof (observation_frame _ _ _ Hq Hw Ho) as Hw0;
    [|left; exists e; rewrite Hs0; by split_and!].
  assert (keeps s.1 s0.1) as Hk0 by by rewrite Hs0.
  rewrite bind_gets in H. case_bool_decide as Hinc; cbn [negb] in H;
    [|unfold fail in H; simplify_eq; left; eauto].
  rewrite bind_lift in H. destruct (durableExportRoute _ _ _) as [receipt|e] eqn:Hd; [|simplify_eq; left; eauto].
  case_bool_decide as Hm; cbn [negb] in H; [|unfold fail in H; simplify_eq; left; eauto].
  apply bind_inv in H as [(s1 & seq & Hb & H)|(e & Hb & ->)];
    pose proof (begin_frame _ _ _ _ _ ltac:(by rewrite Hs0) Hw0 Hb) as Hw1;
    apply journal_Begin_keeps in Hb as [Hk Hp]; try (rewrite Hs0; apply Hi);
    [|left; exists e; split_and!; [done|by rewrite Hs0 in Hk|done]].
  destruct (Hp _ eq_refl) as (data & Hdata & Hpend). right.
  exists current, paths, receipt, seq, data, s0, s1. rewrite Hs0 in *.
  split_and!; try done; [by apply Hc with paths|by apply nil_length_inv].
Qed.

Lemma add_execute_run route current receipt seq (s s' : ExportRecovery W * W) res :
  x_fault s.1 = None -> add_execute route current receipt seq s = (s', res) ->
  exists w2 a, applier_Add (x_applier s.1) route s.2 = (w2, a) /\
  ((exists e, res = Err e /\ keeps s.1 s'.1 /\
      r_Pending (j_record (x_journal s'.1)) = r_Pending (j_record (x_journal s.1))) \/
   (exists id u observed (s2 s3 : ExportRecovery W * W), a = Ok id /\ res = Ok id /\ uuid_Parse id = Some u /\ u <> uuid_Nil /\
      observation s2 = (s3, Ok (current, observed)) /\
      path_confirms (matchingExportPaths observed receipt) (t_Endpoint route) id = true /\
      same_transport s.1 s'.1 /\ r_Pending (j_record (x_journal s'.1)) = None /\
      r_Sequence (j_record (x_journal s'.1)) = r_Sequence (j_record (x_journal s.1)) /\
      agrees (x_journal s'.1) (x_state s'.1) /\
      x_state s'.1 = {| es_Version := es_Version (x_state s.1); es_Incarnation := es_Incarnation (x_state s.1);
        es_Receipts := slice_append (es_Receipts (x_state s.1))
          {| er_Owned := {| o_Endpoint := o_Endpoint (er_Owned receipt); o_PathUUID := id |};
             er_NLRI := er_NLRI receipt; er_Attributes := er_Attributes receipt;
             er_Incarnation := er_Incarnation receipt |} |})).
Proof.
  intros Hf H. unfold add_execute in H. rewrite bind_gets in H.
  unfold bind at 1 in H. rewrite boundary_none in H by done.
  apply bind_inv in H as [(s1 & id & Ha & H)|(e & Ha & ->)];
    apply on_snd_inv in Ha as [Hs1 Ha]; do 2 eexists; (split; [exact Ha|]);
    [|left; exists e; by rewrite Hs1].
  unfold bind at 1 in H. rewrite boundary_none in H by (by rewrite Hs1).
  destruct (uuid_Parse id) as [u|] eqn:Hu; [|unfold fail in H; simplify_eq; left; eexists; by rewrite Hs1].
  case_bool_decide as Hnil; [unfold fail in H; simplify_eq; left; eexists; by rewrite Hs1|].
  apply bind_inv in H as [(s2 & [verified observed] & Ho & H)|(e & Ho & ->)];
    [apply wrap_ok_inv in Ho|apply wrap_inv in Ho as (? & Ho & _)];
    pose proof (observation_run _ _ _ Ho) as [Hs2 _]; rewrite Hs1 in Hs2;
    [|left; exists e; by rewrite Hs2].
  destruct (_ || _) eqn:Hg in H; [unfold fail in H; simplify_eq; left; eexists; by rewrite Hs2|].
  apply orb_false_iff in Hg as [Hv Hc]. bools. subst verified.
  apply bind_inv in H as [(s3 & [] & Hcm & H)|(e & Hcm & ->)];
    apply journal_Commit_run in Hcm as [(? & Hst & Ht & Hag & Hp & Hq)|(e' & ? & Hk & Hp)]; simplify_eq;
    rewrite Hs2 in *; [|left; eauto].
  right. unfold bind at 1 in H. unfold modify in H. destruct Ht as (Ht1 & Ht2 & Ht3 & Ht4).
  unfold bind at 1 in H. rewrite boundary_none in H by (simpl; congruence). unfold ret in H. simplify_eq.
  eexists id, u, observed, _, _. by split_and!.
Qed.


Lemma find_receipt_Some owned rcs rc :
  find_receipt owned rcs = Some rc ->
  rc ∈ rcs /\ o_PathUUID (er_Owned rc) = o_PathUUID owned /\
  equivalent (o_Endpoint (er_Owned rc)) (o_Endpoint owned).
Proof.
  unfold find_receipt. intros H%last_Some_elem_of. rewrite list_elem_of_In, List.filter_In, <-list_elem_of_In in H.
  destruct H as [Hin Hg]. by bools.
Qed.

Lemma x_Delete_prefix owned (s s' : ExportRecovery W * W) res :
  x_inv s.1 -> quiet s.1 -> P s.2 -> x_Delete owned s = (s', res) ->
  (exists e, res = Err e /\ keeps s.1 s'.1 /\ P s'.2) \/
  (exists current paths receipt seq data s0 s1, observation s = (s0, Ok (current, paths)) /\
     find_receipt owned (es_receipts (x_state s.1)) = Some receipt /\ er_Incarnation receipt = current /\
     json_Marshal {| ei_Incarnation := current; ei_Route := receipt |} = Ok data /\
     keeps s.1 s1.1 /\ P s1.2 /\
     r_Pending (j_record (x_journal s1.1)) =
       Some {| i_Sequence := seq; i_Operation := "export-delete"; i_Payload := data |} /\
     delete_execute owned current receipt seq s1 = (s', res)).
Proof.
  intros Hi Hq Hw H. unfold x_Delete in H.
  apply bind_inv in H as [(s0 & [current paths] & Ho & H)|(e & Ho & ->)];
    pose proof (observation_run _ _ _ Ho) as [Hs0 Hc];
    pose proof (observation_frame _ _ _ Hq Hw Ho) as Hw0;
    [|left; exists e; rewrite Hs0; by split_and!].
  assert (keeps s.1 s0.1) as Hk0 by by rewrite Hs0.
  rewrite bind_gets in H.
  destruct (find_receipt _ _) as [receipt|] eqn:Hd; [|unfold fail in H; simplify_eq; left; eauto].
  case_bool_decide as Hm; cbn [negb] in H; [|unfold fail in H; simplify_eq; left; eauto].
  apply bind_inv in H as [(s1 & seq & Hb & H)|(e & Hb & ->)];
    pose proof (begin_frame _ _ _ _ _ ltac:(by rewrite Hs0) Hw0 Hb) as Hw1;
    apply journal_Begin_keeps in Hb as [Hk Hp]; try (rewrite Hs0; apply Hi);
    [|left; exists e; split_and!; [done|by rewrite Hs0 in Hk|done]].
  destruct (Hp _ eq_refl) as (data & Hdata & Hpend). right.
  exists current, paths, receipt, seq, data, s0, s1. rewrite Hs0 in *. by split_and!.
Qed.

Lemma delete_execute_run owned current receipt seq (s s' : ExportRecovery W * W) res :
  x_fault s.1 = None -> delete_execute owned current receipt seq s = (s', res) ->
  exists w2 a, applier_Delete (x_applier s.1) owned s.2 = (w2, a) /\
  ((exists e, res = Err e /\ keeps s.1 s'.1 /\
      r_Pending (j_record (x_journal s'.1)) = r_Pending (j_record (x_journal s.1))) \/
   (exists observed (s2 s3 : ExportRecovery W * W), a = Ok tt /\ res = Ok tt /\
      observation s2 = (s3, Ok (current, observed)) /\ matchingExportPaths observed receipt = [] /\
      same_transport s.1 s'.1 /\ r_Pending (j_record (x_journal s'.1)) = None /\
      r_Sequence (j_record (x_journal s'.1)) = r_Sequence (j_record (x_journal s.1)) /\
      agrees (x_journal s'.1) (x_state s'.1) /\
      x_state s'.1 = {| es_Version := es_Version (x_state s.1); es_Incarnation := es_Incarnation (x_state s.1);
        es_Receipts := withoutExportReceipt (es_Receipts (x_state s.1)) (o_PathUUID owned) |})).
Proof.
  intros Hf H. unfold delete_execute in H. rewrite bind_gets in H.
  unfold bind at 1 in H. rewrite boundary_none in H by done.
  apply bind_inv in H as [(s1 & [] & Ha & H)|(e & Ha & ->)];
    apply on_snd_inv in Ha as [Hs1 Ha]; do 2 eexists; (split; [exact Ha|]);
    [|left; exists e; by rewrite Hs1].
  unfold bind at 1 in H. rewrite boundary_none in H by (by rewrite Hs1).
  apply bind_inv in H as [(s2 & [verified observed] & Ho & H)|(e & Ho & ->)];
    [apply wrap_ok_inv in Ho|apply wrap_inv in Ho as (? & Ho & _)];
    pose proof (observation_run _ _ _ Ho) as [Hs2 _]; rewrite Hs1 in Hs2;
    [|left; exists e; by rewrite Hs2].
  destruct (_ || _) eqn:Hg in H; [unfold fail in H; simplify_eq; left; eexists; by rewrite Hs2|].
  apply orb_false_iff in Hg as [Hv Hc]. bools. subst verified.
  apply bind_inv in H as [(s3 & [] & Hcm & H)|(e & Hcm & ->)];
    apply journal_Commit_run in Hcm as [(? & Hst & Ht & Hag & Hp & Hq)|(e' & ? & Hk & Hp)]; simplify_eq;
    rewrite Hs2 in *; [|left; eauto].
  right. unfold bind at 1 in H. unfold modify in H. destruct Ht as (Ht1 & Ht2 & Ht3 & Ht4).
  rewrite boundary_none in H by (simpl; congruence). simplify_eq.
  eexists observed, _, _. split_and!; try done. by apply nil_length_inv.
Qed.

(** Withdrawals are write-ahead and exact.  Either the speaker was not asked to
    delete anything and no receipt changed, or DeletePath was asked exactly
    once, for a route whose UUID and endpoint are those of a durable receipt of
    the attested incarnation, with the "export-delete" intent already in the
    journal.  A failure after that call keeps the intent pending and every
    receipt; a success drops exactly the receipts with that UUID, durably, after
    an observation of the same incarnation with no local path on the wire
    route. *)
Theorem Delete_write_ahead owned (s s' : ExportRecovery W * W) res :
  x_inv s.1 -> quiet s.1 -> P s.2 -> x_fault s.1 = None -> x_Delete owned s = (s', res) ->
  (exists e, res = Err e /\ P s'.2 /\ x_state s'.1 = x_state s.1) \/
  exists current paths receipt seq data s0 j1 w1 w2 a, observation s = (s0, Ok (current, paths)) /\
    receipt ∈ es_receipts (x_state s.1) /\ er_Incarnation receipt = current /\
    o_PathUUID (er_Owned receipt) = o_PathUUID owned /\
    equivalent (o_Endpoint (er_Owned receipt)) (o_Endpoint owned) /\
    json_Marshal {| ei_Incarnation := current; ei_Route := receipt |} = Ok data /\
    r_Pending (j_record j1) =
      Some {| i_Sequence := seq; i_Operation := "export-delete"; i_Payload := data |} /\
    P w1 /\ applier_Delete (x_applier s.1) owned w1 = (w2, a) /\
    match res with
    | Err _ => x_state s'.1 = x_state s.1 /\
               r_Pending (j_record (x_journal s'.1)) = r_Pending (j_record j1)
    | Ok _ => a = Ok tt /\
        (exists observed (s2 s3 : ExportRecovery W * W), observation s2 = (s3, Ok (current, observed)) /\
           matchingExportPaths observed receipt = []) /\
        agrees (x_journal s'.1) (x_state s'.1) /\ r_Pending (j_record (x_journal s'.1)) = None /\
        forall rc, rc ∈ es_receipts (x_state s'.1) <->
          rc ∈ es_receipts (x_state s.1) /\ o_PathUUID (er_Owned rc) <> o_PathUUID owned
    end.
Proof.
  intros Hi Hq Hw Hf H. apply x_Delete_prefix in H as
    [(e & -> & (Hk & _) & Hw')|(current & paths & receipt & seq & data & s0 & s1 & Ho & Hfd & Hinc & Hj & (Hst & Ht & _) & Hw1 & Hp & H)];
    [left; eauto| |done..].
  right. destruct Ht as (Ht1 & Ht2 & Ht3 & Ht4). apply find_receipt_Some in Hfd as (? & ? & ?).
  apply delete_execute_run in H as (w2 & a & Ha & H); [|congruence]. rewrite Ht2 in Ha.
  exists current, paths, receipt, seq, data, s0, (x_journal s1.1), s1.2, w2, a. split_and!; try done.
  destruct H as [(e & -> & (Hst' & _) & Hp')|(observed & s2 & s3 & -> & -> & Ho2 & Hm & _ & Hpn & _ & Hag & Hs')].
  - split; congruence.
  - split_and!; try done; [by eauto|]. rewrite Hs', Hst. intros rc. apply elem_of_without.
Qed.
End frame.

(** ** Reachable recoveries *)

Lemma quiet_trivial r : quiet (fun _ => True) r.
Proof. by split. Qed.

Lemma x_Add_inv route (s s' : ExportRecovery W * W) res :
  x_fault s.1 = None -> x_inv s.1 -> x_Add route s = (s', res) -> x_inv s'.1 /\ same_transport s.1 s'.1.
Proof.
  intros Hf Hi H. apply (x_Add_prefix (fun _ => True)) in H as
    [(e & -> & (_ & Ht & Hk) & _)|(current & paths & receipt & seq & data & s0 & s1 & _ & Hne & Hinc & Hd & _ & _ & (Hst & Ht & Hk) & _ & _ & H)];
    [by auto| |done|apply quiet_trivial|done].
  destruct Ht as (Ht1 & Ht2 & Ht3 & Ht4). unfold same_transport.
  apply add_execute_run in H as (w2 & a & Ha & [(e & -> & (_ & (T1 & T2 & T3 & T4) & Hk') & _)|
    (id & u & observed & s2 & s3 & -> & -> & Hu & Hnil & _ & _ & (T1 & T2 & T3 & T4) & _ & Hsq & Hag & Hs')]); [..|congruence].
  - split_and!; try congruence. auto.
  - split_and!; try congruence. destruct (Hk Hi) as ((Hv & Hin & Hok) & _ & Hu64).
    split_and!; [|done|congruence]. rewrite Hs'. split_and!; [done|simpl; rewrite Hst; congruence|].
    unfold es_receipts, slice_append in *. simpl. apply Forall_app. split; [done|]. constructor; [|done].
    destruct (durable_payload _ _ _ _ Hd) as [Ho Hi']. split; simpl; [eauto|].
    rewrite Hst, Hinc, Ho, Hi'. simpl. by apply (durable_relabel _ _ "").
Qed.

Lemma x_Delete_inv owned (s s' : ExportRecovery W * W) res :
  x_fault s.1 = None -> x_inv s.1 -> x_Delete owned s = (s', res) -> x_inv s'.1 /\ same_transport s.1 s'.1.
Proof.
  intros Hf Hi H. apply (x_Delete_prefix (fun _ => True)) in H as
    [(e & -> & (_ & Ht & Hk) & _)|(current & paths & receipt & seq & data & s0 & s1 & _ & _ & _ & _ & (Hst & Ht & Hk) & _ & _ & H)];
    [by auto| |done|apply quiet_trivial|done].
  destruct Ht as (Ht1 & Ht2 & Ht3 & Ht4). unfold same_transport.
  apply delete_execute_run in H as (w2 & a & Ha & [(e & -> & (_ & (T1 & T2 & T3 & T4) & Hk') & _)|
    (observed & s2 & s3 & -> & -> & _ & _ & (T1 & T2 & T3 & T4) & _ & Hsq & Hag & Hs')]); [..|congruence].
  - split_and!; try congruence. auto.
  - split_and!; try congruence. destruct (Hk Hi) as (Hok & _ & Hu64).
    split_and!; [|done|congruence]. rewrite Hs'. by apply state_ok_without.
Qed.

Lemma OpenExportRecovery_inv cfg source applier speaker (w w' : W) r :
  OpenExportRecovery cfg source applier speaker w = (w', Ok r) ->
  is_u64 (r_Sequence (j_record (x_journal r))) -> x_inv r /\ x_fault r = None.
Proof.
  unfold OpenExportRecovery. intros H Hu.
  destruct source as [source|], applier as [applier|], speaker as [speaker|]; try done.
  apply bind_ok_inv in H as (w1 & j & _ & H).
  destruct (Snapshot (j, w1)) as [[j1 w2] snap] eqn:Hs.
  apply Snapshot_run in Hs as [(-> & -> & _)|(e & -> & _)];
    [|by simpl in H; destruct (Close _) as [[? ?] ?]].
  case_bool_decide as Hn; simpl in H.
  - assert (agrees j fresh_state) as Ha by by right.
    destruct (r_Pending (j_record j)) as [i|]; [case_bool_decide as Hop|]; simpl in H;
      [|by destruct (Close _) as [[? ?] ?]|]; simplify_eq;
      (split; [|done]); split_and!; try done; (split_and!; [done|done|constructor]).
  - destruct (decodeExportRecord _) as [st|] eqn:Hd; [|by simpl in H; destruct (Close _) as [[? ?] ?]].
    destruct (validate st) as [[]|] eqn:Hv; [|by simpl in H; destruct (Close _) as [[? ?] ?]].
    simpl in H. destruct (_ && _); simpl in H; [by destruct (Close _) as [[? ?] ?]|]. simplify_eq.
    split; [|done]. split_and!; [by apply validate_state_ok|by left|done].
Qed.

(** The operations of a recovery in any order, any outcome, any speaker, with
    arbitrary changes of the world and transport replacements in between. *)
Inductive x_step : ExportRecovery W * W -> ExportRecovery W * W -> Prop :=
  | xs_Recover s s' res : Recover s = (s', res) -> x_step s s'
  | xs_Add route s s' res : x_Add route s = (s', res) -> x_step s s'
  | xs_Delete owned s s' res : x_Delete owned s = (s', res) -> x_step s s'
  | xs_Close s s' res : x_Close s = (s', res) -> x_step s s'
  | xs_Rebind source applier speaker s s' res : Rebind source applier speaker s = (s', res) -> x_step s s'
  | xs_world r w w' : x_step (r, w) (r, w').

Lemma x_step_inv s s' :
  x_step s s' -> x_inv s.1 /\ x_fault s.1 = None -> x_inv s'.1 /\ x_fault s'.1 = None.
Proof.
  intros Hs [Hi Hf]. destruct Hs as [s s' res H|route s s' res H|owned s s' res H|s s' res H|source applier speaker s s' res H|r w w'].
  - apply Recover_keeps_inv in H as (? & _ & _ & _ & ?); [|done]. split; congruence.
  - apply x_Add_inv in H as (? & _ & _ & _ & ?); [|done..]. split; congruence.
  - apply x_Delete_inv in H as (? & _ & _ & _ & ?); [|done..]. split; congruence.
  - apply on_journal_inv in H as (j' & H & ->). apply Close_run in H as [-> _]. done.
  - unfold Rebind in H. destruct source, applier, speaker; unfold modify, fail in H; by simplify_eq.
  - done.
Qed.

(** The durable invariant.  From a successful [OpenExportRecovery] on, after any
    sequence of [Recover], [Add], [Delete], [Close] and [Rebind], with any
    outcome, every receipt carries a valid UUID, belongs to the recorded
    incarnation and has exactly the payload its endpoint builds; there are no
    receipts without an incarnation; and the receipts in memory are the ones the
    journal's committed state decodes to. *)
Theorem recovery_reachable_inv cfg source applier speaker w w0 r0 s :
  OpenExportRecovery cfg source applier speaker w = (w0, Ok r0) ->
  is_u64 (r_Sequence (j_record (x_journal r0))) -> rtc x_step (r0, w0) s ->
  state_ok (x_state s.1) /\ agrees (x_journal s.1) (x_state s.1).
Proof.
  intros Ho Hu Hs. apply OpenExportRecovery_inv in Ho as H0; [|done].
  assert (x_inv s.1 /\ x_fault s.1 = None) as [(? & ? & _) _]; [|done].
  change r0 with (r0, w0).1 in H0. clear Ho Hu. induction Hs as [|? ? ? Hs _ IH]; [done|].
  apply IH. by eapply x_step_inv.
Qed.
End operations.
