(* ===== verification/Exporter.v ===== *)
(** * The endpoint exporter

    Models [src/pkg/evpn/exporter.go]: the configuration and its validation, and
    [EndpointExporter], which drives the reconciler: observe, check the speaker,
    recover or resynchronise, plan, and apply one gated delta at a time.

    [ExportResult] is a named result of [reconcile], assigned before every
    return, so it is part of the state of the body.  [Recovery] is the [Recover]
    method of an [ExportRecovery] living in the world [W]; the applier of such a
    deployment is its [Add] and [Delete]. *)

From S2P Require Import Prelude GoStd Journal Type2 Reconciler GobgpAdapter ExportRecovery.

(** ** Configuration *)

(** [EVPNNetworkConfig] (observer.go) *)
Record EVPNNetworkConfig := {
  n_NetworkID : string;
  n_LogicalSwitch : string;
  n_Enabled : bool;
  n_VNI : Z;
  n_RouteDistinguisher : string;
  n_RouteTargets : list string;
  n_LocalVTEP : string;
  n_ExporterSource : string;
  n_BridgeDevice : string;
  n_VXLANDevice : string;
  n_AdvertiseDevice : string;
}.

(** [EVPNNetworkConfig.ExportSource] *)
Definition ExportSource (c : EVPNNetworkConfig) : string :=
  if bool_decide (n_ExporterSource c = ""%string) then "cni" else n_ExporterSource c.

Record ExporterConfig := {
  c_Enabled : bool;
  c_DryRun : bool;
  c_ProcessContinuity : bool;
  c_NodeName : string;
  c_LocalChassis : string;
  c_GRPCEndpoint : string;
  c_ASN : Z;
  c_RouterID : string;
  c_Networks : list EVPNNetworkConfig;
  c_AttestationConfigPath : string;
  c_Recovery : option ExportRecoveryConfig;
}.

(** [net.SplitHostPort] and [strconv.ParseUint(port, 10, 16)]. *)
Class HostPort := {
  SplitHostPort : string -> option (string * string);
  ParsePort : string -> option Z;
}.

(** The maps of the network loop: network ids, switches, devices, native VNIs. *)
Record seen_networks := {
  sn_seen : gset string;
  sn_switches : gset string;
  sn_devices : gset string;
  sn_vnis : gset Z;
}.

(** A Linux device name, distinct from the ones already used. *)
Definition device_step (devices : gset string) (name : string) : result (gset string) :=
  if bool_decide (name = ""%string) || bool_decide (name = "."%string)
     || bool_decide (name = ".."%string) || (15 <? Z.of_nat (String.length name))
     || ContainsAny name (str (Ascii.ascii_of_nat <$> [47; 32; 9; 10]%nat))   (* slash, space, tab, newline *)
     || bool_decide (name ∈ devices)
  then Err (Errorf "native exporter requires distinct explicit Linux device names")
  else Ok ({[name]} ∪ devices).

Section config.
Context {BT : BgpTypes} {BL : BgpLib} {HP : HostPort}.

(** One network of [ExporterConfig.Validate]. *)
Definition network_step (c : ExporterConfig) (s : seen_networks) (cfg : EVPNNetworkConfig)
    : result seen_networks :=
  if bool_decide (n_NetworkID cfg = ""%string) || bool_decide (n_LogicalSwitch cfg = ""%string)
     || bool_decide (n_NetworkID cfg ∈ sn_seen s) || bool_decide (n_LogicalSwitch cfg ∈ sn_switches s)
  then Err (Errorf "networks require unique nonempty NetworkID and LogicalSwitch") else
  let? (devices, vnis) :=
    (if bool_decide (ExportSource cfg = "cni"%string) || bool_decide (ExportSource cfg = "framework"%string) then
       if negb (bool_decide (n_BridgeDevice cfg = ""%string)) || negb (bool_decide (n_VXLANDevice cfg = ""%string))
          || negb (bool_decide (n_AdvertiseDevice cfg = ""%string))
       then Err (Errorf "Netlink devices require ovn-netlink authority")
       else Ok (sn_devices s, sn_vnis s)
     else if bool_decide (ExportSource cfg = "ovn-netlink"%string) then
       if negb (c_DryRun c) && negb (c_ProcessContinuity c)
       then Err (Errorf "native live export requires process continuity and a shared host PID namespace")
       else if bool_decide (n_VNI cfg ∈ sn_vnis s)
       then Err (Errorf "native exporter requires unique VNI mapping")
       else let? devices := rfold device_step (sn_devices s)
                                  [n_BridgeDevice cfg; n_VXLANDevice cfg; n_AdvertiseDevice cfg] in
            Ok (devices, {[n_VNI cfg]} ∪ sn_vnis s)
     else Err (Errorf "unsupported exporter source")) in
  if (n_VNI cfg =? 0) || (max_vni <? n_VNI cfg) then Err (Errorf "VNI outside 1..16777215") else
  match ParseAddr (n_LocalVTEP cfg) with
  | None => Err (Errorf "explicit unicast VTEP IPv4 required")
  | Some vtep =>
  if negb (Is4 vtep) || IsUnspecified vtep || IsMulticast vtep || IsLoopback vtep
  then Err (Errorf "explicit unicast VTEP IPv4 required") else
  match ParseRouteDistinguisher (n_RouteDistinguisher cfg) with
  | None => Err (Errorf "invalid RD")
  | Some _ =>
  if bool_decide (length (n_RouteTargets cfg) = 0%nat) then Err (Errorf "export RT required")
  else if negb (forallb (fun rt => bool_decide (is_Some (ParseRouteTarget rt))) (n_RouteTargets cfg))
  then Err (Errorf "invalid RT")
  else Ok {| sn_seen := {[n_NetworkID cfg]} ∪ sn_seen s;
             sn_switches := {[n_LogicalSwitch cfg]} ∪ sn_switches s;
             sn_devices := devices; sn_vnis := vnis |}
  end end.

(** [ExporterConfig.Validate] *)
Definition ExporterConfig_Validate (c : ExporterConfig) : result unit :=
  if negb (c_Enabled c) then Ok tt else
  if match c_Recovery c with
     | Some rc => negb (c_ProcessContinuity c) || bool_decide (c_AttestationConfigPath c = ""%string)
                  || bool_decide (rc_StateDirectory rc = ""%string)
     | None => false
     end
  then Err (Errorf "export recovery requires process continuity, provider attestation and a private journal")
  else if bool_decide (c_NodeName c = ""%string) || bool_decide (c_LocalChassis c = ""%string) || (c_ASN c =? 0)
  then Err (Errorf "export requires node name, local chassis and nonzero expected ASN") else
  match ParseAddr (c_RouterID c) with
  | None => Err (Errorf "expected router ID must be a unicast IPv4 address")
  | Some rid =>
  if negb (Is4 rid) || IsUnspecified rid || IsMulticast rid
  then Err (Errorf "expected router ID must be a unicast IPv4 address") else
  let? _ :=
    (if HasPrefix (c_GRPCEndpoint c) "unix:///" then
       if bool_decide (TrimPrefix (c_GRPCEndpoint c) "unix://" = "/"%string)
       then Err (Errorf "node-local gRPC socket path is required") else Ok tt
     else if c_ProcessContinuity c
     then Err (Errorf "process continuity requires a node-local Unix socket")
     else match SplitHostPort (c_GRPCEndpoint c) with
          | None => Err (Errorf "GoBGP endpoint must be an absolute Unix socket or loopback host:port")
          | Some (host, port) =>
              match ParseIP host, ParsePort port with
              | Some ip, Some number =>
                  if negb (IsLoopback ip) || (number =? 0)
                  then Err (Errorf "GoBGP endpoint must be an absolute Unix socket or loopback host:port")
                  else Ok tt
              | _, _ => Err (Errorf "GoBGP endpoint must be an absolute Unix socket or loopback host:port")
              end
          end) in
  let? _ := rfold (network_step c) {| sn_seen := ∅; sn_switches := ∅; sn_devices := ∅; sn_vnis := ∅ |}
                  (c_Networks c) in
  Ok tt
  end.
End config.

(** ** The exporter *)

Record ExportResult := {
  xr_Desired : list LocalEndpoint;
  xr_Applied : list OwnedType2Route;
  xr_DryRun : bool;
  xr_OwnershipUnverified : bool;
  xr_RecoveryState : string;
}.

Record EndpointExporter {BT : BgpTypes} (W : Type) := {
  e_Observer : option (M W (list LocalEndpoint));
  e_Gate : option (ReadinessGate W);
  e_Continuity : option (ReadinessGate W);
  e_Source : option (Type2RIBSource W);
  e_Applier : option (Type2RouteApplier W);
  e_DryRun : bool;
  e_Recovery : option (M W (list OwnedType2Route));
  e_reconciler : option RouteReconciler;
  e_initialized : bool;
  e_blocked : option error;
}.
Arguments e_Observer {BT W} _.
Arguments e_Gate {BT W} _.
Arguments e_Continuity {BT W} _.
Arguments e_Source {BT W} _.
Arguments e_Applier {BT W} _.
Arguments e_DryRun {BT W} _.
Arguments e_Recovery {BT W} _.
Arguments e_reconciler {BT W} _.
Arguments e_initialized {BT W} _.
Arguments e_blocked {BT W} _.

Section exporter.
Context {BT : BgpTypes} {BL : BgpLib} {W : Type} {CX : Ctx W}.

Definition set_reconciler (r : RouteReconciler) (e : EndpointExporter W) : EndpointExporter W :=
  {| e_Observer := e_Observer e; e_Gate := e_Gate e; e_Continuity := e_Continuity e;
     e_Source := e_Source e; e_Applier := e_Applier e; e_DryRun := e_DryRun e;
     e_Recovery := e_Recovery e; e_reconciler := Some r; e_initialized := e_initialized e;
     e_blocked := e_blocked e |}.
Definition set_initialized (e : EndpointExporter W) : EndpointExporter W :=
  {| e_Observer := e_Observer e; e_Gate := e_Gate e; e_Continuity := e_Continuity e;
     e_Source := e_Source e; e_Applier := e_Applier e; e_DryRun := e_DryRun e;
     e_Recovery := e_Recovery e; e_reconciler := e_reconciler e; e_initialized := true;
     e_blocked := e_blocked e |}.
Definition set_e_blocked (err : error) (e : EndpointExporter W) : EndpointExporter W :=
  {| e_Observer := e_Observer e; e_Gate := e_Gate e; e_Continuity := e_Continuity e;
     e_Source := e_Source e; e_Applier := e_Applier e; e_DryRun := e_DryRun e;
     e_Recovery := e_Recovery e; e_reconciler := e_reconciler e; e_initialized := e_initialized e;
     e_blocked := Some err |}.

(** The body's state: the exporter and the named result, then the world. *)
Definition XS : Type := EndpointExporter W * ExportResult * W.
Definition the_rr (e : EndpointExporter W) : RouteReconciler := default NewRouteReconciler (e_reconciler e).

Definition on_rr {A} (m : M (RouteReconciler * W) A) : M XS A :=
  fun s => let '(r, w, a) := m (the_rr s.1.1, s.2) in ((set_reconciler r s.1.1, s.1.2, w), a).
Definition upd_e (f : EndpointExporter W -> EndpointExporter W) : M XS unit :=
  modify (fun s => (f s.1.1, s.1.2, s.2)).
(** [result.Applied = e.reconciler.AppliedRoutes()] *)
Definition put_applied : M XS unit :=
  modify (fun s => (s.1.1, {| xr_Desired := xr_Desired s.1.2; xr_Applied := AppliedRoutes (the_rr s.1.1);
                              xr_DryRun := xr_DryRun s.1.2; xr_OwnershipUnverified := xr_OwnershipUnverified s.1.2;
                              xr_RecoveryState := xr_RecoveryState s.1.2 |}, s.2)).
Definition put_desired (d : list LocalEndpoint) : M XS unit :=
  modify (fun s => (s.1.1, {| xr_Desired := d; xr_Applied := xr_Applied s.1.2; xr_DryRun := xr_DryRun s.1.2;
                              xr_OwnershipUnverified := xr_OwnershipUnverified s.1.2;
                              xr_RecoveryState := xr_RecoveryState s.1.2 |}, s.2)).
(** [e.blocked = err; return result, e.blocked] *)
Definition block {A} (err : error) : M XS A := do! upd_e (set_e_blocked err) in fail err.

(** The readiness checks before anything is read or written. *)
Definition pre_checks (gate : ReadinessGate W) : M XS unit :=
  let! e := gets (fun s => s.1.1) in
  let! res := gets (fun s => s.1.2) in
  do! match e_Continuity e with
      | Some cont =>
          if e_initialized e then
            let! c := attempt (on_snd cont) in
            match c with
            | Ok _ => ret tt
            | Err err =>
                if bool_decide (is_Some (e_Recovery e))
                then fail (Wrapped "RECOVERY_BLOCKED: speaker re-attestation required" err)
                else block (Wrapped "speaker continuity lost; no writes" err)
            end
          else ret tt
      | None => ret tt
      end in
  let! g := attempt (on_snd gate) in
  do! match g with
      | Ok _ => ret tt
      | Err err =>
          if bool_decide (is_Some (e_Recovery e)) then fail err
          else if negb (bool_decide (length (xr_Applied res) = 0%nat)) then
            let! lost := match e_Continuity e with
                         | None => ret true
                         | Some cont => let! c := attempt (on_snd cont) in ret (negb (is_ok c))
                         end in
            if lost then block (Wrapped "speaker continuity lost; restart/resync required" err)
            else fail err
          else fail err
      end in
  match e_Continuity e with
  | Some cont => wrap (Wrapped "speaker continuity unverified; no writes") (on_snd cont)
  | None => ret tt
  end.

(** Adopting ownership evidence: recovery, or the first resynchronisation. *)
Definition adopt (source : Type2RIBSource W) : M XS unit :=
  let! e := gets (fun s => s.1.1) in
  match e_Recovery e with
  | Some recover =>
      let! receipts := on_snd recover in
      do! on_rr (resyncDurable source receipts) in
      do! put_applied in
      upd_e set_initialized
  | None =>
      if negb (e_initialized e) then
        do! on_rr (Resync (Some source) []) in
        upd_e set_initialized
      else ret tt
  end.

(** Every acknowledged route must still be in the RIB. *)
Definition confirmed (paths : list Type2RIBPath) (owned : OwnedType2Route) : bool :=
  existsb (fun path => p_Local path && ribPathMatchesEndpoint path (o_Endpoint owned)) paths.

(** The checks before each delta. *)
Definition delta_checks (gate : ReadinessGate W) : M XS unit :=
  let! e := gets (fun s => s.1.1) in
  let! g := attempt (on_snd gate) in
  do! match g with
      | Ok _ => ret tt
      | Err err =>
          if bool_decide (is_Some (e_Recovery e)) then fail err else
          let! lost := match e_Continuity e with
                       | None => ret true
                       | Some cont => let! c := attempt (on_snd cont) in ret (negb (is_ok c))
                       end in
          if lost then block (Wrapped "speaker readiness lost before mutation" err)
          else fail (Wrapped "speaker readiness uncertain; writes frozen" err)
      end in
  match e_Continuity e with
  | None => ret tt
  | Some cont =>
      let! c := attempt (on_snd cont) in
      match c with
      | Ok _ => ret tt
      | Err err => if bool_decide (is_Some (e_Recovery e)) then fail err
                   else block (Wrapped "speaker continuity lost before mutation" err)
      end
  end.

(** One round of the loop over the deltas. *)
Definition apply_delta (gate : ReadinessGate W) (delta : Type2Route) : M XS unit :=
  do! delta_checks gate in
  let! e := gets (fun s => s.1.1) in
  let! a := attempt (on_rr (Apply delta (e_Applier e))) in
  do! put_applied in
  lift a.

(** The body of [EndpointExporter.reconcile] after the reconciler exists. *)
Definition reconcile_body (observer : option (M W (list LocalEndpoint))) : M XS unit :=
  do! put_applied in
  let! e := gets (fun s => s.1.1) in
  match e_blocked e with
  | Some err => fail err
  | None =>
  match observer with
  | None => fail (Errorf "endpoint observer required")
  | Some observe =>
  let! desired := wrap (Wrapped "endpoint observation failed; retaining applied routes") (on_snd observe) in
  do! put_desired desired in
  do! lift (rfold (fun _ ep => match BuildType2Route ep with
                               | Ok _ => Ok tt
                               | Err err => Err (Wrapped "invalid observed endpoint" err)
                               end) tt desired) in
  if e_DryRun e then ret tt else
  match e_Gate e, e_Source e, e_Applier e with
  | Some gate, Some source, Some _ =>
      do! pre_checks gate in
      do! adopt source in
      let! paths := wrap (Wrapped "RIB unavailable; no writes") (on_snd (source_Snapshot source)) in
      let! res := gets (fun s => s.1.2) in
      if negb (forallb (confirmed paths) (xr_Applied res))
      then block (Sentinel SRouteResyncRequired "confirmed path disappeared; possible speaker restart, no writes")
      else
        let! deltas := on_rr (fun s => let '(r, a) := Reconcile desired s.1 in ((r, s.2), a)) in
        do! mfold (fun _ delta => apply_delta gate delta) tt deltas in
        put_applied
  | _, _, _ => fail (Errorf "speaker readiness, RIB source and applier required")
  end end end.

(** The deferred function: the ownership and recovery state of the result. *)
Definition finish (e : EndpointExporter W) (res : ExportResult) (err : option error) : ExportResult :=
  let unverified := bool_decide (is_Some (e_blocked e)) || bool_decide (is_Some err) in
  {| xr_Desired := xr_Desired res; xr_Applied := xr_Applied res; xr_DryRun := xr_DryRun res;
     xr_OwnershipUnverified := unverified;
     xr_RecoveryState := if bool_decide (is_Some (e_Recovery e))
                         then if unverified then "RECOVERY_BLOCKED" else "RUNNING"
                         else xr_RecoveryState res |}.

(** [EndpointExporter.reconcile] *)
Definition reconcile (observer : option (M W (list LocalEndpoint))) (s : EndpointExporter W * W)
    : EndpointExporter W * W * (ExportResult * option error) :=
  let res0 := {| xr_Desired := []; xr_Applied := []; xr_DryRun := e_DryRun s.1;
                 xr_OwnershipUnverified := false; xr_RecoveryState := "" |} in
  let '(e, res, w, r) := reconcile_body observer (set_reconciler (the_rr s.1) s.1, res0, s.2) in
  ((e, w), (finish e res (to_error r), to_error r)).

(** [EndpointExporter.Reconcile] *)
Definition exporter_Reconcile (s : EndpointExporter W * W)
    : EndpointExporter W * W * (ExportResult * option error) := reconcile (e_Observer s.1) s.

(** [EndpointExporter.DrainNetworks], with [fixedLocalEndpoints] as its observer. *)
Definition drain_keep (networks : gset string) (e : EndpointExporter W) : list LocalEndpoint :=
  match e_reconciler e with
  | None => []
  | Some r => o_Endpoint <$> List.filter (fun route =>
                negb (bool_decide (NetworkID (o_Endpoint route) ∈ networks))) (AppliedRoutes r)
  end.
Definition DrainNetworks (networks : gset string) (s : EndpointExporter W * W)
    : EndpointExporter W * W * (ExportResult * option error) :=
  reconcile (Some (ret (drain_keep networks s.1))) s.
End exporter.

(** ** Properties of the exporter *)

Section exporter_properties.
Context {BT : BgpTypes} {BL : BgpLib} {W : Type} {CX : Ctx W}.
Implicit Types (e : EndpointExporter W) (s : @XS BT W) (w : W).

(** The dependencies and the mode of an exporter, which no operation changes. *)
Definition same_setup e e' : Prop :=
  e_Observer e' = e_Observer e /\ e_Gate e' = e_Gate e /\ e_Continuity e' = e_Continuity e /\
  e_Source e' = e_Source e /\ e_Applier e' = e_Applier e /\ e_DryRun e' = e_DryRun e /\
  e_Recovery e' = e_Recovery e.

#[local] Instance same_setup_preorder : PreOrder same_setup.
Proof. split; unfold same_setup; [done|]. intros ? ? ? ? ?. destruct_and?. split_and!; congruence. Qed.

Lemma the_rr_set rr e : the_rr (set_reconciler rr e) = rr.
Proof. done. Qed.

Lemma on_rr_inv {A} (m : M (RouteReconciler * W) A) s s' r :
  on_rr m s = (s', r) ->
  exists rr, m (the_rr s.1.1, s.2) = ((rr, s'.2), r) /\ s'.1 = (set_reconciler rr s.1.1, s.1.2).
Proof. unfold on_rr. destruct (m _) as [[rr w] a]. intros. simplify_eq. by exists rr. Qed.

Lemma pre_checks_ok gate s s' : pre_checks gate s = (s', Ok tt) -> s'.1 = s.1.
Proof.
  unfold pre_checks, block, upd_e. intros H. msteps; congruence.
Qed.

Lemma apply_delta_ok gate delta s s' :
  apply_delta gate delta s = (s', Ok tt) ->
  exists rr w1, Apply delta (e_Applier s.1.1) (the_rr s.1.1, w1) = ((rr, s'.2), Ok tt) /\
    s'.1.1 = set_reconciler rr s.1.1 /\ xr_Desired s'.1.2 = xr_Desired s.1.2.
Proof.
  unfold apply_delta, delta_checks, block, upd_e, put_applied. intros H. msteps; simplify_eq;
    match goal with H : on_rr _ _ = _ |- _ => apply on_rr_inv in H as (rr & Ha & Hs) end;
    exists rr; eexists; rewrite ?Hs in *; simpl;
    repeat match goal with H : ?x.1 = ?y.1 |- _ => rewrite H in *; clear H end; done.
Qed.

Lemma apply_deltas_ok gate ds : forall s s',
  mfold (fun _ delta => apply_delta gate delta) tt ds s = (s', Ok tt) ->
  apply_chain (W := W) (the_rr s.1.1) ds (the_rr s'.1.1) /\
  e_blocked s'.1.1 = e_blocked s.1.1 /\ xr_Desired s'.1.2 = xr_Desired s.1.2.
Proof.
  induction ds as [|d ds IH]; intros s s' H; simpl in H.
  - msteps. split; [constructor|done].
  - apply bind_ok_inv in H as (s1 & [] & H1 & H2). apply apply_delta_ok in H1 as (rr & w1 & Ha & Hs1 & Hd).
    apply IH in H2 as (Hc & Hb & Hd'). rewrite Hs1 in *. split_and!; [|done|congruence].
    econstructor; [exact Ha|exact Hc].
Qed.

Lemma adopt_ok source s s' :
  adopt source s = (s', Ok tt) ->
  e_blocked s'.1.1 = e_blocked s.1.1 /\ xr_Desired s'.1.2 = xr_Desired s.1.2.
Proof.
  unfold adopt, upd_e, put_applied. intros H. msteps; try congruence;
    repeat match goal with H : on_rr _ _ = _ |- _ => apply on_rr_inv in H as (? & _ & H) end;
    repeat match goal with H : ?x.1 = _ |- _ => rewrite H in *; clear H end; done.
Qed.

(** A round that returns no error outside dry-run. *)
Lemma reconcile_success observer e w e' w' res :
  reconcile observer (e, w) = ((e', w'), (res, None)) -> e_DryRun e = false ->
  exists observe w1 desired dm, observer = Some observe /\ observe w = (w1, Ok desired) /\
    Forall (fun ep => is_ok (BuildType2Route ep) = true) desired /\
    desired_map (rr_foreign (the_rr e')) desired = Ok dm /\
    converged (rr_applied (the_rr e')) dm /\
    xr_Applied res = AppliedRoutes (the_rr e') /\ xr_Desired res = desired /\
    e_blocked e' = None /\ xr_OwnershipUnverified res = false.
Proof.
  unfold reconcile. intros H Hd. destruct (reconcile_body _ _) as [[[e1 res1] w2] [[]|]] eqn:Hb; [|done].
  simpl in H. simplify_eq. unfold reconcile_body, put_applied, put_desired, block, upd_e in Hb.
  msteps; simpl in *; try congruence.
  repeat match goal with
  | H : pre_checks _ _ = (_, Ok ?u) |- _ => destruct u; apply pre_checks_ok in H; simpl in H
  | H : adopt _ _ = (_, Ok ?u) |- _ => destruct u; apply adopt_ok in H as [Hab Had]; simpl in Hab, Had
  | H : on_rr _ _ = _ |- _ => apply on_rr_inv in H as (rr & Hrec & Hrr); simpl in Hrec
  | H : mfold _ _ _ _ = (_, Ok ?u) |- _ => destruct u; apply apply_deltas_ok in H as (Hch & Hcb & Hcd)
  end.
  destruct (Reconcile _ _) as [r1 ds] eqn:Hr. simplify_eq.
  apply Reconcile_planned in Hr as (dm & Hdm & (Hap & Hfo & Hsy) & Hp).
  rewrite Hrr in *. cbn [fst snd] in *. rewrite the_rr_set in Hch. destruct (chain_executes _ _ _ Hch _ Hp) as [Hex Hf].
  rewrite Hap in Hex. apply plan_converges in Hex. rewrite Hf, Hfo.
  eexists _, _, _, dm. split_and!; try done.
  - match goal with H : rfold _ _ _ = Ok _ |- _ =>
      revert H; apply (rfold_invariant _ (fun done _ => Forall (fun ep => is_ok (BuildType2Route ep) = true) done)) end.
    + constructor.
    + intros done ep ? ? _ Hdone Hs. apply Forall_app. split; [done|]. constructor; [|done].
      by destruct (BuildType2Route ep).
  - repeat match goal with H : _.1 = _ |- _ => rewrite H in *; clear H end. simpl in *. congruence.
  - repeat match goal with H : _.1 = _ |- _ => rewrite H in *; clear H end. simpl in *. congruence.
  - rewrite bool_decide_eq_false_2; [done|]. rewrite Hcb.
    repeat match goal with H : _.1 = _ |- _ => rewrite H in *; clear H end. simpl in *. rewrite Hab. intros [? ?]. congruence.
Qed.

(** *** Fencing *)

(** A round of a blocked exporter stops before it calls anything. *)
Lemma reconcile_blocked observer e w err :
  e_blocked e = Some err ->
  exists res, reconcile observer (e, w) = ((set_reconciler (the_rr e) e, w), (res, Some err)) /\
    xr_OwnershipUnverified res = true /\ xr_Applied res = AppliedRoutes (the_rr e).
Proof.
  intros Hb. unfold reconcile, reconcile_body, put_applied, bind, modify, gets. simpl. rewrite Hb.
  unfold fail. simpl. eexists. split; [done|]. simpl. rewrite Hb. by rewrite bool_decide_eq_true_2 by eauto.
Qed.

(** Rounds of an exporter, with any observer: [Reconcile] and [DrainNetworks]. *)
Inductive round : EndpointExporter W * W -> EndpointExporter W * W -> Prop :=
  | round_Reconcile (s s' : EndpointExporter W * W) r : exporter_Reconcile s = (s', r) -> round s s'
  | round_Drain networks (s s' : EndpointExporter W * W) r : DrainNetworks networks s = (s', r) -> round s s'.

(** Losing ownership evidence fences the exporter for good.  Once an exporter is
    blocked, no number of reconcile and drain rounds touches the world (no
    observation, no RIB read, no route added or withdrawn), changes its
    acknowledged routes or clears the block. *)
Theorem exporter_fenced (s s' : EndpointExporter W * W) err :
  e_blocked s.1 = Some err -> rtc round s s' ->
  s'.2 = s.2 /\ e_blocked s'.1 = Some err /\ the_rr s'.1 = the_rr s.1.
Proof.
  intros Hb Hs. induction Hs as [s|s s1 s' Hs _ IH]; [done|].
  assert (exists observer r, reconcile observer s = (s1, r)) as (observer & r & Hr)
    by (destruct Hs; do 2 eexists; eassumption).
  destruct s as [e w]. destruct (reconcile_blocked observer e w err Hb) as (res & Hrr & _).
  rewrite Hrr in Hr. simplify_eq. by apply IH.
Qed.

(** Dry-run never writes.  In dry-run a round only runs the observer: the rest of
    the world, the acknowledged routes and the block are unchanged, whatever it
    returns. *)
Theorem exporter_dry_run observer e w e' w' r :
  e_DryRun e = true -> reconcile observer (e, w) = ((e', w'), r) ->
  the_rr e' = the_rr e /\ e_blocked e' = e_blocked e /\ e_initialized e' = e_initialized e /\
  (w' = w \/ exists observe, observer = Some observe /\ w' = (observe w).1).
Proof.
  intros Hd H. unfold reconcile, reconcile_body, put_applied, put_desired in H. unfold bind at 1 in H.
  cbn [modify] in H. rewrite bind_gets in H. cbn [fst snd e_blocked e_DryRun set_reconciler] in H. rewrite Hd in H.
  destruct (e_blocked e) as [err|] eqn:Hb; [cbn in H; simplify_eq; naive_solver|].
  destruct observer as [observe|]; [|cbn in H; simplify_eq; naive_solver].
  unfold bind, wrap, on_snd, modify, lift in H. simpl in H.
  destruct (observe w) as [w1 [desired|e1]] eqn:Ho; simpl in H; [destruct (rfold _ _ _); simpl in H|];
    simplify_eq; (split_and!; [done..|]); right; exists observe; by rewrite Ho.
Qed.

(** *** Gated writes *)

Section gated.
Context (P R0 R : W -> Prop) (e0 : EndpointExporter W).
Hypothesis gate_reads : forall g, e_Gate e0 = Some g -> preserves P g.
Hypothesis cont_reads : forall c, e_Continuity e0 = Some c -> preserves P c.
Hypothesis source_reads : forall so, e_Source e0 = Some so -> preserves P (source_Snapshot so).
Hypothesis recovery_keeps : forall m, e_Recovery e0 = Some m -> preserves P m.
Hypothesis gate_ready : forall g w w', e_Gate e0 = Some g -> P w -> g w = (w', Ok tt) -> R0 w'.
Hypothesis cont_ready : forall w w', R0 w ->
  match e_Continuity e0 with None => w' = w | Some c => c w = (w', Ok tt) end -> R w'.
Hypothesis writes : forall a w, e_Applier e0 = Some a -> P w -> R w ->
  (forall route, P (applier_Add a route w).1) /\ (forall o, P (applier_Delete a o w).1).

(** The invariant of a round: the frame [P] of the world and the exporter's set-up. *)
Let I s : Prop := same_setup e0 s.1.1 /\ P s.2.

Lemma gated_on_snd {A} (m : M W A) : preserves P m -> preserves I (on_snd m).
Proof. intros Hm. apply (preserves_on_snd P (fun t => same_setup e0 t.1) m Hm). Qed.

Lemma gated_on_rr {A} (m : M (RouteReconciler * W) A) :
  preserves (fun s : RouteReconciler * W => P s.2) m -> preserves I (on_rr m).
Proof.
  intros Hm s [Hs Hp]. unfold on_rr. specialize (Hm (the_rr s.1.1, s.2) Hp).
  destruct (m _) as [[rr w] a]. split; [|exact Hm]. etrans; [exact Hs|]. done.
Qed.

Lemma gated_upd f : (forall e, same_setup e (f e)) -> preserves I (upd_e f).
Proof. intros Hf s [Hs Hp]. split; [|done]. simpl. etrans; [exact Hs|]. apply Hf. Qed.

Lemma gated_put_applied : preserves I put_applied.
Proof. by intros s Hs. Qed.
Lemma gated_put_desired d : preserves I (put_desired d).
Proof. by intros s Hs. Qed.

Lemma gated_block {A} err : preserves I (block (A := A) err).
Proof. apply preserves_bind; [by apply gated_upd|]. intros _. apply preserves_fail. Qed.

Lemma Resync_frame source receipts :
  preserves P (source_Snapshot source) -> preserves (fun s : RouteReconciler * W => P s.2) (Resync (Some source) receipts).
Proof.
  intros Hs. unfold Resync.
  pose proof (preserves_on_snd (T := RouteReconciler) P (fun _ => True) _ Hs) as Hos.
  assert (preserves (fun s : RouteReconciler * W => P s.2) (on_snd (source_Snapshot source))) as Hos'.
  { intros s Hp. by apply Hos. }
  apply preserves_bind; [by apply preserves_modify|]. intros _.
  pres; by apply preserves_modify.
Qed.

Lemma resyncDurable_frame source receipts :
  preserves P (source_Snapshot source) -> preserves (fun s : RouteReconciler * W => P s.2) (resyncDurable source receipts).
Proof.
  intros Hs. unfold resyncDurable.
  pose proof (preserves_on_snd (T := RouteReconciler) P (fun _ => True) _ Hs) as Hos.
  assert (preserves (fun s : RouteReconciler * W => P s.2) (on_snd (source_Snapshot source))) as Hos'.
  { intros s Hp. by apply Hos. }
  pres; by apply preserves_modify.
Qed.

Lemma Apply_frame delta a w rr :
  e_Applier e0 = a -> P w -> R w -> P (Apply delta a (rr, w)).1.2.
Proof.
  intros Ha Hp Hr. destruct (Apply delta a (rr, w)) as [[r' w'] res] eqn:H. simpl. unfold Apply in H.
  destruct a as [a|]; [destruct (writes a w Ha Hp Hr) as [Wa Wd]|]; msteps_any; try done;
    repeat match goal with
    | H : applier_Add _ ?route _ = _ |- _ => specialize (Wa route); rewrite H in Wa; clear H
    | H : applier_Delete _ ?o _ = _ |- _ => specialize (Wd o); rewrite H in Wd; clear H
    end; simpl in *; try done; try congruence.
Qed.

Lemma gated_checks_preserve gate :
  e_Gate e0 = Some gate -> preserves I (delta_checks gate).
Proof.
  intros Hg. apply preserves_bind_gets. intros s HI. pose proof HI as [(_ & _ & Hsc & _ & _ & _ & _) _].
  assert (forall c, e_Continuity s.1.1 = Some c -> preserves I (on_snd c)) as Hcont.
  { intros c Hc. apply gated_on_snd. rewrite Hsc in Hc. auto. }
  revert s Hsc Hcont HI. intros s _ Hcont. apply preserves_bind; [by apply preserves_attempt, gated_on_snd, gate_reads|].
  intros g. destruct (e_Continuity s.1.1) as [c|]; [specialize (Hcont c eq_refl)|clear Hcont];
    pose proof @gated_block; pres.
Qed.

Lemma gated_checks_ready gate s s' :
  e_Gate e0 = Some gate -> I s -> delta_checks gate s = (s', Ok tt) -> R s'.2 /\ s'.1 = s.1.
Proof.
  intros Hg [(_ & _ & Hc & _) Hp] H. unfold delta_checks in H. rewrite bind_gets in H.
  apply bind_ok_inv in H as (s1 & g & H1 & H). apply attempt_inv in H1 as (g' & H1 & [= ->]).
  apply on_snd_inv in H1 as [Hs1 H1].
  apply bind_ok_inv in H as (s2 & [] & H2 & H). destruct g' as [[]|err].
  2:{ unfold block, upd_e in H2. by msteps. }
  unfold ret in H2. simplify_eq. pose proof (gate_ready _ _ _ Hg Hp H1) as Hr.
  specialize (cont_ready s2.2 s'.2 Hr). rewrite Hc in H. destruct (e_Continuity e0) as [c|].
  - apply bind_ok_inv in H as (s3 & cr & H3 & H). apply attempt_inv in H3 as (cr' & H3 & [= ->]).
    apply on_snd_inv in H3 as [Hs3 H3]. destruct cr' as [[]|]; [|unfold block, upd_e in H; by msteps].
    unfold ret in H. simplify_eq. split; [by apply cont_ready|congruence].
  - unfold ret in H. simplify_eq. split; [by apply cont_ready|done].
Qed.

(** A delta is applied only in a world that has just passed both checks. *)
Lemma gated_apply_delta gate delta : e_Gate e0 = Some gate -> preserves I (apply_delta gate delta).
Proof.
  intros Hg s HI. unfold apply_delta, bind at 1.
  pose proof (gated_checks_preserve gate Hg s HI) as HI1.
  destruct (delta_checks gate s) as [s1 [[]|]] eqn:Hc; [|done].
  destruct (gated_checks_ready _ _ _ Hg HI Hc) as [Hr Hs1]. rewrite bind_gets.
  assert (I (on_rr (Apply delta (e_Applier s1.1.1)) s1).1) as HI2.
  { destruct HI1 as [Hs Hp]. simpl in Hs, Hp. pose proof Hs as (_ & _ & _ & _ & Ha & _).
    unfold on_rr. pose proof (Apply_frame delta (e_Applier s1.1.1) s1.2 (the_rr s1.1.1) (eq_sym Ha) Hp Hr) as Hw.
    destruct (Apply _ _ _) as [[rr w] a]. split; [|exact Hw]. etrans; [exact Hs|done]. }
  unfold bind, attempt. destruct (on_rr _ s1) as [s2 a]. simpl. exact HI2.
Qed.

Lemma gated_pre_checks gate : e_Gate e0 = Some gate -> preserves I (pre_checks gate).
Proof.
  intros Hg. apply preserves_bind_gets. intros s HI. pose proof HI as [(_ & _ & Hsc & _ & _ & _ & _) _].
  assert (forall c, e_Continuity s.1.1 = Some c -> preserves I (on_snd c)) as Hcont.
  { intros c Hc. apply gated_on_snd. rewrite Hsc in Hc. auto. }
  revert s Hsc Hcont HI. intros s _ Hcont. apply preserves_bind; [apply preserves_gets|]. intros res.
  pose proof (gated_on_snd _ (gate_reads _ Hg)) as Hgp. pose proof @gated_block.
  destruct (e_Continuity s.1.1) as [c|]; [specialize (Hcont c eq_refl)|clear Hcont]; pres.
Qed.

Lemma gated_adopt source : e_Source e0 = Some source -> preserves I (adopt source).
Proof.
  intros Hso. pose proof (source_reads _ Hso) as Hsr. apply preserves_bind_gets. intros s HI.
  pose proof HI as [(_ & _ & _ & _ & _ & _ & Hrec) _]. revert s Hrec HI. intros s Hrec.
  pose proof gated_put_applied. pose proof (gated_upd set_initialized ltac:(done)).
  pose proof (fun rs => gated_on_rr _ (Resync_frame source rs Hsr)).
  pose proof (fun rs => gated_on_rr _ (resyncDurable_frame source rs Hsr)).
  apply preserves_use. destruct (e_Recovery s.1.1) as [m|].
  - assert (preserves I (on_snd m)) by (apply gated_on_snd, recovery_keeps; by rewrite <-Hrec).
    pres.
  - pres.
Qed.

End gated.

(** *** Success *)

(** C37: an export round that succeeds has exported.  When [Reconcile] returns no
    error outside dry-run, every endpoint the observer returned is valid, the
    acknowledged routes converge to the advertisable ones (same wire keys,
    equivalent endpoints, no foreign key), the result lists exactly the
    acknowledged routes, and the exporter is not blocked. *)
Theorem exporter_converges e w e' w' res :
  exporter_Reconcile (e, w) = ((e', w'), (res, None)) -> e_DryRun e = false ->
  exists observe w1 desired dm, e_Observer e = Some observe /\ observe w = (w1, Ok desired) /\
    Forall (fun ep => is_ok (BuildType2Route ep) = true) desired /\
    desired_map (rr_foreign (the_rr e')) desired = Ok dm /\
    converged (rr_applied (the_rr e')) dm /\
    xr_Applied res = AppliedRoutes (the_rr e') /\ xr_Desired res = desired /\
    e_blocked e' = None /\ xr_OwnershipUnverified res = false.
Proof. apply reconcile_success. Qed.

Lemma elem_of_AppliedRoutes r o : o ∈ AppliedRoutes r <-> exists k, rr_applied r !! k = Some o.
Proof.
  unfold AppliedRoutes. rewrite list_elem_of_omap. split; [naive_solver|].
  intros [k Hk]. exists k. split; [|done]. apply elem_of_sorted_keys. eauto.
Qed.

Lemma elem_of_drain_keep networks e ep :
  ep ∈ drain_keep networks e <->
  NetworkID ep ∉ networks /\ exists r k o, e_reconciler e = Some r /\ rr_applied r !! k = Some o /\ o_Endpoint o = ep.
Proof.
  unfold drain_keep. destruct (e_reconciler e) as [r|]; [|set_solver].
  rewrite list_elem_of_fmap. setoid_rewrite list_elem_of_In. setoid_rewrite List.filter_In.
  setoid_rewrite <-list_elem_of_In. setoid_rewrite negb_true_iff. setoid_rewrite bool_decide_eq_false.
  setoid_rewrite elem_of_AppliedRoutes. naive_solver.
Qed.

(** Draining removes the named networks and nothing else.  After a successful
    live [DrainNetworks], no acknowledged route belongs to a drained network, and
    every route that was acknowledged for another network (and advertisable) is
    still acknowledged on the same wire key with an equivalent endpoint. *)
Theorem drain_networks networks e w e' w' res :
  DrainNetworks networks (e, w) = ((e', w'), (res, None)) -> e_DryRun e = false ->
  (forall k o, rr_applied (the_rr e') !! k = Some o -> NetworkID (o_Endpoint o) ∉ networks) /\
  (forall r k o, e_reconciler e = Some r -> rr_applied r !! k = Some o ->
     Advertise (o_Endpoint o) = true -> NetworkID (o_Endpoint o) ∉ networks ->
     exists k' o', wire (o_Endpoint o) = Some k' /\ rr_applied (the_rr e') !! k' = Some o' /\
       equivalent (o_Endpoint o') (o_Endpoint o)).
Proof.
  intros H Hd. apply reconcile_success in H as (observe & w1 & desired & dm & [= <-] & Ho & _ & Hdm & Hc & _); [|done].
  cbn in Ho. unfold ret in Ho. simplify_eq. apply desired_map_inv in Hdm as [Hd1 Hd2]. split.
  - intros k o Hk. specialize (Hc k). rewrite Hk in Hc. inversion Hc as [? ep Heq Ho Hep|]; subst.
    destruct (Hd1 k ep) as (_ & _ & Hin & _); [done|]. apply elem_of_drain_keep in Hin as [Hn _].
    apply equivalent_fields in Heq as (-> & _). done.
  - intros r k o Hr Hk Ha Hn. destruct (Hd2 (o_Endpoint o)) as (k' & ep & Hw & Hep & Heq); [|done|].
    { apply elem_of_drain_keep. split; [done|]. eauto 10. }
    specialize (Hc k'). rewrite Hep in Hc. inversion Hc as [o' ? Heq' Ho' Hx|]; subst.
    exists k', o'. split_and!; [done..|]. by etrans.
Qed.
End exporter_properties.

(** ** Properties of the configuration *)

Section config_properties.
Context {BT : BgpTypes} {BL : BgpLib} {HP : HostPort}.

Definition native (cfg : EVPNNetworkConfig) : bool := bool_decide (ExportSource cfg = "ovn-netlink"%string).
Definition native_devices (cfg : EVPNNetworkConfig) : list string :=
  if native cfg then [n_BridgeDevice cfg; n_VXLANDevice cfg; n_AdvertiseDevice cfg] else [].

(** What each accepted network satisfies on its own. *)
Definition network_ok (c : ExporterConfig) (cfg : EVPNNetworkConfig) : Prop :=
  n_NetworkID cfg <> ""%string /\ n_LogicalSwitch cfg <> ""%string /\ n_VNI cfg <> 0 /\ n_VNI cfg <= max_vni /\
  (exists vtep, ParseAddr (n_LocalVTEP cfg) = Some vtep /\ Is4 vtep = true /\ IsUnspecified vtep = false /\
     IsMulticast vtep = false /\ IsLoopback vtep = false) /\
  is_Some (ParseRouteDistinguisher (n_RouteDistinguisher cfg)) /\ n_RouteTargets cfg <> [] /\
  Forall (fun rt => is_Some (ParseRouteTarget rt)) (n_RouteTargets cfg) /\
  (native cfg = true -> c_DryRun c = true \/ c_ProcessContinuity c = true) /\
  (native cfg = false -> n_BridgeDevice cfg = ""%string /\ n_VXLANDevice cfg = ""%string /\
     n_AdvertiseDevice cfg = ""%string).

(** The sets of the loop are the values seen so far, without repetition. *)
Definition seen_ok (done : list EVPNNetworkConfig) (s : seen_networks) : Prop :=
  sn_seen s = list_to_set (n_NetworkID <$> done) /\ NoDup (n_NetworkID <$> done) /\
  sn_switches s = list_to_set (n_LogicalSwitch <$> done) /\ NoDup (n_LogicalSwitch <$> done) /\
  sn_devices s = list_to_set (mbind native_devices done) /\ NoDup (mbind native_devices done) /\
  sn_vnis s = list_to_set (n_VNI <$> List.filter native done) /\ NoDup (n_VNI <$> List.filter native done).

Lemma device_fold names ds ds' used :
  rfold device_step ds names = Ok ds' -> ds = list_to_set used -> NoDup used ->
  ds' = list_to_set (used ++ names) /\ NoDup (used ++ names).
Proof.
  intros H Hd Hn. revert H.
  apply (rfold_invariant _ (fun done ds => ds = list_to_set (used ++ done) /\ NoDup (used ++ done))).
  - by rewrite app_nil_r.
  - intros done x b b' _ [-> Hnd] Hs. unfold device_step in Hs. destruct (_ || _) eqn:Hg in Hs; [done|].
    bools. simplify_eq. rewrite app_assoc. split; [rewrite !list_to_set_app_L; set_solver|].
    apply NoDup_app. split_and!; [done| |apply NoDup_singleton].
    intros y Hy ->%list_elem_of_singleton.
    match goal with H : x ∉ _ |- _ => apply H end. by apply elem_of_list_to_set.
Qed.

Lemma nodup_snoc {A B} (f : A -> B) `{Countable B} l x :
  NoDup (f <$> l) -> f x ∉ (list_to_set (f <$> l) : gset B) -> NoDup (f <$> l ++ [x]).
Proof.
  intros Hn Hx. rewrite fmap_app. apply NoDup_app. split_and!; [done| |apply NoDup_singleton].
  intros y Hy ->%list_elem_of_singleton. apply Hx. by apply elem_of_list_to_set.
Qed.

Lemma snoc_set {A B} (f : A -> B) `{Countable B} l x :
  {[f x]} ∪ list_to_set (f <$> l) = (list_to_set (f <$> l ++ [x]) : gset B).
Proof. rewrite fmap_app, list_to_set_app_L. set_solver. Qed.

Lemma native_snoc done cfg :
  mbind native_devices (done ++ [cfg]) = mbind native_devices done ++ native_devices cfg /\
  List.filter native (done ++ [cfg]) = List.filter native done ++ (if native cfg then [cfg] else []).
Proof.
  rewrite bind_app, List.filter_app. simpl. rewrite app_nil_r. split; [done|]. by destruct (native cfg).
Qed.

Lemma network_step_ok c done s s' cfg :
  seen_ok done s -> network_step c s cfg = Ok s' -> seen_ok (done ++ [cfg]) s' /\ network_ok c cfg.
Proof.
  intros (Hs1 & Hn1 & Hs2 & Hn2 & Hs3 & Hn3 & Hs4 & Hn4) H. unfold network_step in H.
  destruct (_ || _) eqn:Hg in H; [done|]. bools.
  destruct (if _ || _ then _ else _) as [[devices vnis]|] eqn:Hsrc in H; [|done]. simpl in H.
  destruct (_ || _) eqn:Hv in H; [done|]. bools.
  destruct (ParseAddr _) as [vtep|] eqn:Hp; [|done]. destruct (_ || _) eqn:Hvt in H; [done|]. bools.
  destruct (ParseRouteDistinguisher _) eqn:Hrd; [|done]. case_bool_decide as Hrt; [done|].
  destruct (forallb _ _) eqn:Hrts; [|done]. simplify_eq/=.
  assert (seen_ok (done ++ [cfg]) {| sn_seen := {[n_NetworkID cfg]} ∪ sn_seen s;
    sn_switches := {[n_LogicalSwitch cfg]} ∪ sn_switches s; sn_devices := devices; sn_vnis := vnis |} /\
    (native cfg = true -> c_DryRun c = true \/ c_ProcessContinuity c = true) /\
    (native cfg = false -> n_BridgeDevice cfg = ""%string /\ n_VXLANDevice cfg = ""%string /\
     n_AdvertiseDevice cfg = ""%string)) as (Hseen & Hnat & Hnot).
  { destruct (native_snoc done cfg) as [Hbd Hfl]. unfold seen_ok. simpl. rewrite Hbd, Hfl.
    rewrite Hs1, Hs2, !snoc_set in *. unfold native_devices.
    assert (NoDup (n_NetworkID <$> done ++ [cfg])) by (by refine (nodup_snoc _ _ _ _ _)).
    assert (NoDup (n_LogicalSwitch <$> done ++ [cfg])) by (by refine (nodup_snoc _ _ _ _ _)).
    destruct (_ || _) eqn:Hcni in Hsrc.
    - destruct (_ || _) eqn:Hdev in Hsrc; [done|]. bools. simplify_eq.
      assert (native cfg = false) as ->.
      { apply bool_decide_eq_false. apply orb_true_iff in Hcni as [E|E]; bools; rewrite E; done. }
      rewrite !app_nil_r. by split_and!.
    - destruct (native cfg) eqn:Hnt; unfold native in Hnt; rewrite Hnt in Hsrc; [|done].
      destruct (_ && _) eqn:Hl in Hsrc; [done|].
      destruct (bool_decide (n_VNI cfg ∈ _)) eqn:Hvn in Hsrc; [done|]. bools.
      destruct (let? acc := device_step (sn_devices s) _ in _) as [ds|] eqn:Hds in Hsrc; [|done].
      simplify_eq/=. destruct (device_fold [n_BridgeDevice cfg; n_VXLANDevice cfg; n_AdvertiseDevice cfg]
        _ _ (mbind native_devices done) Hds Hs3 Hn3) as [-> Hnd].
      rewrite Hs4, snoc_set in *. split_and!; try done; [by refine (nodup_snoc _ _ _ _ _)|].
      intros _. apply andb_false_iff in Hl as [E|E]; bools; auto. }
  split; [done|]. unfold network_ok. split_and!; try done; try lia; eauto.
  - exists vtep. by split_and!.
  - intros E. by rewrite E in Hrt.
  - apply Forall_forall. intros rt Hrt'. rewrite forallb_forall in Hrts. apply list_elem_of_In, Hrts in Hrt'. by bools.
Qed.

(** What an accepted live configuration guarantees.  An enabled configuration that
    [Validate] accepts names a node, a chassis and an ASN; its networks have
    pairwise distinct identifiers and switches, natively observed networks also
    pairwise distinct VNIs and devices; every network has a nonzero (unsigned) VNI of
    at most 16777215, a unicast IPv4 VTEP, a route distinguisher and at least one
    route target that parse; native live export implies process continuity; and
    durable recovery implies process continuity, attestation and a state
    directory. *)
Theorem ExporterConfig_Validate_sound c :
  ExporterConfig_Validate c = Ok tt -> c_Enabled c = true ->
  c_NodeName c <> ""%string /\ c_LocalChassis c <> ""%string /\ c_ASN c <> 0 /\
  NoDup (n_NetworkID <$> c_Networks c) /\ NoDup (n_LogicalSwitch <$> c_Networks c) /\
  NoDup (n_VNI <$> List.filter native (c_Networks c)) /\
  NoDup (mbind native_devices (c_Networks c)) /\
  Forall (network_ok c) (c_Networks c) /\
  (forall rc, c_Recovery c = Some rc -> c_ProcessContinuity c = true /\
     c_AttestationConfigPath c <> ""%string /\ rc_StateDirectory rc <> ""%string).
Proof.
  unfold ExporterConfig_Validate. intros H He. rewrite He in H. simpl in H.
  destruct (match c_Recovery c with Some _ => _ | None => _ end) eqn:Hr; [done|].
  destruct (_ || _) eqn:Hn in H; [done|]. bools.
  destruct (ParseAddr (c_RouterID c)) as [rid|]; [|done]. destruct (_ || _) in H; [done|].
  destruct (if HasPrefix _ _ then _ else _); [|done]. simpl in H.
  destruct (rfold (network_step c) _ _) as [s|] eqn:Hf; [|done].
  eapply (rfold_invariant _ (fun done s => seen_ok done s /\ Forall (network_ok c) done)) in Hf as [Hs Hok].
  - destruct Hs as (_ & ? & _ & ? & _ & ? & _ & ?). split_and!; try done.
    intros rc Hrc. rewrite Hrc in Hr. by bools.
  - split; [|constructor]. unfold seen_ok. simpl. split_and!; try done; constructor.
  - intros done x b b' _ [Hs Hok] Hst. destruct (network_step_ok _ _ _ _ _ Hs Hst) as [? ?].
    split; [done|]. apply Forall_app. auto.
Qed.
End config_properties.
