(* ===== verification/RemoteType2.v ===== *)
(** * Remote Type-2 routes, read only

    Models [src/pkg/evpn/remote_type2.go]: the complete read of the speaker's RIB,
    the decoding of a path ([DecodeRemoteType2]), the import policy
    ([RemoteImportConfig]) and [ReadOnlyType2Importer], which publishes a set of
    remote endpoints only after two equal complete observations.  The gRPC client,
    [apiutil] and the packet library are parameters. *)

From S2P Require Import Prelude GoStd Journal Type2 Reconciler GobgpAdapter.

(** ** Data *)

(** [RemotePathIdentity] *)
Record RemotePathIdentity := {
  rp_Key : string;
  rp_NeighborIP : string;
  rp_SourceID : string;
  rp_SourceASN : Z;
  rp_Identifier : Z;
  rp_LocalIdentifier : Z;
}.

(** The values of [Classification] on a path that decodes. *)
Inductive Classification := CWithdrawn | CLocal | CRemote.

Record DecodedRemoteType2 := {
  d_Source : RemotePathIdentity;
  d_Classification : Classification;
  d_RouteType : Z;
  d_RD : string;
  d_EthernetTag : Z;
  d_ESI : string;
  d_MAC : string;
  d_IP : string;
  d_Labels : list Z;
  d_RouteTargets : list string;
  d_Encapsulation : list string;
  d_NextHop : string;
  d_Best : bool;
  d_Stale : bool;
  d_Filtered : bool;
  d_NexthopInvalid : bool;
  d_AttributeKey : string;
}.

Record RemoteImportNetwork := {
  rn_NetworkID : string;
  rn_VNI : Z;
  rn_ImportRouteTargets : list string;
  rn_AllowedVTEPs : list string;
}.

Record RemoteImportConfig := {
  ri_LocalVTEP : string;
  ri_Networks : list RemoteImportNetwork;
}.

Record ValidatedRemoteRoute := {
  v_NetworkID : string;
  v_VNI : Z;
  v_Route : DecodedRemoteType2;
}.

(** [DesiredRemoteEndpoint]; its [ValidationState] is "validated" or, in a zero
    value, empty. *)
Record DesiredRemoteEndpoint := {
  de_Key : string;
  de_NetworkID : string;
  de_VNI : Z;
  de_MAC : string;
  de_IP : string;
  de_RemoteVTEP : string;
  de_Validated : bool;
  de_Routes : list ValidatedRemoteRoute;
}.

Record RemoteImportIssue := { ii_PathKey : string; ii_Reason : string }.

Record RemoteImportSnapshot := {
  is_Authoritative : bool;
  is_Generation : Z;
  is_Endpoints : list DesiredRemoteEndpoint;
  is_Issues : list RemoteImportIssue;
}.

#[export] Instance Classification_eq_dec : EqDecision Classification.
Proof. solve_decision. Defined.

Definition zero_endpoint : DesiredRemoteEndpoint :=
  {| de_Key := ""; de_NetworkID := ""; de_VNI := 0; de_MAC := ""; de_IP := ""; de_RemoteVTEP := "";
     de_Validated := false; de_Routes := [] |}.
Definition zero_snapshot : RemoteImportSnapshot :=
  {| is_Authoritative := false; is_Generation := 0; is_Endpoints := []; is_Issues := [] |}.

(** ** The packet library *)

Definition AFI_L2VPN : Z := 25.
Definition SAFI_EVPN : Z := 70.
Definition BGP_ORIGIN_ATTR_TYPE_INCOMPLETE : Z := 2.
Definition BGP_ATTR_TYPE_ORIGIN : Z := 1.
Definition BGP_ATTR_TYPE_MP_REACH_NLRI : Z := 14.
Definition BGP_ATTR_TYPE_EXTENDED_COMMUNITIES : Z := 16.

(** [TunnelType.String], [EthernetSegmentIdentifier.Serialize] *)
Class RemoteLib := {
  TunnelType_String : Z -> string;
  ESI_Serialize : list Z -> result (list Z);
}.

(** [attr.GetType()] *)
Definition attr_type {BT : BgpTypes} (a : PathAttr) : Z :=
  match a with
  | AttrOrigin _ => BGP_ATTR_TYPE_ORIGIN
  | AttrNextHop _ => 3
  | AttrMpReach _ _ _ _ _ => BGP_ATTR_TYPE_MP_REACH_NLRI
  | AttrExtComm _ => BGP_ATTR_TYPE_EXTENDED_COMMUNITIES
  | AttrTunnelEncap => 23
  | AttrOther t => t
  end.

(** AS_PATH, MULTI_EXIT_DISC, LOCAL_PREF, ATOMIC_AGGREGATE, AGGREGATOR, COMMUNITIES,
    AS4_PATH, AS4_AGGREGATOR *)
Definition ignored_attrs : list Z := [2; 4; 5; 6; 7; 8; 17; 18].

(** [hex.EncodeToString] of wire bytes. *)
Definition hex_bytes (b : string) : string := hex_EncodeToString (code <$> chars b).

(** [remoteHash] *)
Definition remoteHash {A} {SH : Sha256} {J : Json A} (value : A) : string :=
  sha256_hex (match json_Marshal value with Ok b => b | Err _ => ""%string end).

(** [unicastIPv4] *)
Definition unicastIPv4 (value : string) : bool :=
  match ParseAddr value with
  | Some ip => Is4 ip && IsGlobalUnicast ip && negb (IsLoopback ip)
  | None => false
  end.

(** [containsRemote] *)
Definition containsRemote (values : list string) (value : string) : bool :=
  existsb (fun candidate => bool_decide (candidate = value)) values.

(** ** Decoding *)

Section decode.
Context {AT : ApiTypes} {BT : BgpTypes} {BL : BgpLib} {AU : ApiUtil} {RL : RemoteLib}.
Context {SH : Sha256} {JP : Json (string * RemotePathIdentity)} {JL : Json (list string)}.

(** The class of a path by its source. *)
Definition classify (path : ApiPath) : result Classification :=
  if ap_IsWithdraw path then Ok CWithdrawn
  else if bool_decide (ap_NeighborIp path = ""%string) && negb (ap_IsFromExternal path) then Ok CLocal
  else if bool_decide (is_Some (ParseIP (ap_NeighborIp path)))
          && bool_decide (is_Some (ParseIP (ap_SourceId path))) && negb (ap_SourceAsn path =? 0)
  then Ok CRemote
  else Err (Errorf "ambiguous route source").

(** What the attribute loop collects. *)
Record attr_acc := {
  aa_seen : gset Z;
  aa_bytes : list string;
  aa_RouteTargets : list string;
  aa_Encapsulation : list string;
  aa_NextHop : string;
}.

Definition comm_step (a : attr_acc) (c : ExtComm) : result attr_acc :=
  match c with
  | ECRouteTarget rt =>
      Ok {| aa_seen := aa_seen a; aa_bytes := aa_bytes a; aa_RouteTargets := aa_RouteTargets a ++ [RT_String rt];
            aa_Encapsulation := aa_Encapsulation a; aa_NextHop := aa_NextHop a |}
  | ECEncap t =>
      Ok {| aa_seen := aa_seen a; aa_bytes := aa_bytes a; aa_RouteTargets := aa_RouteTargets a;
            aa_Encapsulation := aa_Encapsulation a ++ [TunnelType_String t]; aa_NextHop := aa_NextHop a |}
  | _ => Err (Errorf "unsupported extended community")
  end.

(** One round of the attribute loop; [wire] is the serialised NLRI of the path. *)
Definition attr_step (wire : string) (a : attr_acc) (attr : PathAttr) : result attr_acc :=
  if bool_decide (attr_type attr ∈ aa_seen a) then Err (Errorf "duplicate path attribute") else
  let? b := Attr_Serialize attr in
  let a := {| aa_seen := {[attr_type attr]} ∪ aa_seen a; aa_bytes := aa_bytes a ++ [hex_bytes b];
              aa_RouteTargets := aa_RouteTargets a; aa_Encapsulation := aa_Encapsulation a;
              aa_NextHop := aa_NextHop a |} in
  match attr with
  | AttrOrigin v => if BGP_ORIGIN_ATTR_TYPE_INCOMPLETE <? v then Err (Errorf "invalid origin") else Ok a
  | AttrMpReach afi safi nexthop linklocal nlris =>
      if negb (afi =? AFI_L2VPN) || negb (safi =? SAFI_EVPN) || linklocal
      then Err (Errorf "unsupported MP_REACH family/next-hop") else
      match nlris with
      | [Some n] =>
          match NLRI_Serialize n with
          | Ok reachWire =>
              if bool_decide (wire = reachWire)
              then Ok {| aa_seen := aa_seen a; aa_bytes := aa_bytes a; aa_RouteTargets := aa_RouteTargets a;
                         aa_Encapsulation := aa_Encapsulation a; aa_NextHop := Addr_String nexthop |}
              else Err (Errorf "MP_REACH NLRI differs from path NLRI")
          | Err _ => Err (Errorf "MP_REACH NLRI differs from path NLRI")
          end
      | _ => Err (Errorf "exactly one matching MP_REACH NLRI required")
      end
  | AttrNextHop _ => Err (Errorf "EVPN requires MP_REACH next-hop")
  | AttrExtComm cs => rfold comm_step a cs
  | AttrTunnelEncap => Err (Errorf "tunnel encapsulation attribute unsupported; VXLAN extended community required")
  | AttrOther t => if bool_decide (t ∈ ignored_attrs) then Ok a else Err (Errorf "unsupported path attribute")
  end.

(** The attributes of a remote path, from the raw ones to the sorted results. *)
Definition decode_attrs (path : ApiPath) (wire : string) : result attr_acc :=
  let? _ := rfold (fun _ p =>
                match p with
                | None => Err (Errorf "nil path attribute")
                | Some (Some n) => if bool_decide (n = 1%nat) then Ok tt
                                   else Err (Errorf "exactly one MP_REACH next-hop required")
                | Some None => Ok tt
                end) tt (ap_Pattrs path) in
  let? attrs := map_err (Wrapped "decode path attributes") (GetNativePathAttributes path) in
  let? a := rfold (attr_step wire) {| aa_seen := ∅; aa_bytes := []; aa_RouteTargets := [];
                                      aa_Encapsulation := []; aa_NextHop := "" |} attrs in
  if bool_decide (BGP_ATTR_TYPE_ORIGIN ∈ aa_seen a) && bool_decide (BGP_ATTR_TYPE_MP_REACH_NLRI ∈ aa_seen a)
     && bool_decide (BGP_ATTR_TYPE_EXTENDED_COMMUNITIES ∈ aa_seen a)
  then Ok a
  else Err (Errorf "missing required origin, MP_REACH or extended communities").

(** [netip.Addr.String] of an address that may be invalid. *)
Definition ip_text (ip : option Addr) : string := match ip with Some ip => Addr_String ip | None => "invalid IP" end.

(** The checks on the address and MAC lengths of a Type-2 route. *)
Definition mac_ip_ok (m : EVPNMacIP) : result unit :=
  if negb (m_IPLength m =? 0)
     && negb ((m_IPLength m =? 32) && match m_IP m with Some ip => Is4 ip | None => false end)
     && negb ((m_IPLength m =? 128) && match m_IP m with Some ip => Is6 ip | None => false end)
  then Err (Errorf "inconsistent IP length")
  else if negb (m_MacLength m =? 48) || negb (bool_decide (length (m_MAC m) = 6%nat))
  then Err (Errorf "invalid MAC length") else Ok tt.

(** [DecodeRemoteType2].  The caller of a failed decoding only uses the key of the
    source, which is the state here. *)
Definition DecodeRemoteType2 (path : ApiPath) : M string DecodedRemoteType2 :=
  if negb (bool_decide (ap_Family path = Some (AFI_L2VPN, SAFI_EVPN)))
  then fail (Errorf "expected EVPN AFI/SAFI") else
  let! nlri := wrap (Wrapped "decode EVPN NLRI") (lift (GetNativeNlri path)) in
  match nlri with
  | None => fail (Errorf "non-EVPN NLRI in EVPN table")
  | Some n =>
  let! wire := lift (NLRI_Serialize n) in
  let source := {| rp_Key := ""; rp_NeighborIP := ap_NeighborIp path; rp_SourceID := ap_SourceId path;
                   rp_SourceASN := ap_SourceAsn path; rp_Identifier := ap_Identifier path;
                   rp_LocalIdentifier := ap_LocalIdentifier path |} in
  let key := remoteHash (hex_bytes wire, source) in
  do! modify (fun _ => key) in
  let source := {| rp_Key := key; rp_NeighborIP := ap_NeighborIp path; rp_SourceID := ap_SourceId path;
                   rp_SourceASN := ap_SourceAsn path; rp_Identifier := ap_Identifier path;
                   rp_LocalIdentifier := ap_LocalIdentifier path |} in
  let! class := lift (classify path) in
  let decoded rd mac tag ip esi labels a akey :=
    {| d_Source := source; d_Classification := class; d_RouteType := RouteType n; d_RD := rd;
       d_EthernetTag := tag; d_ESI := esi; d_MAC := mac; d_IP := ip; d_Labels := labels;
       d_RouteTargets := sort_Strings (aa_RouteTargets a); d_Encapsulation := sort_Strings (aa_Encapsulation a);
       d_NextHop := aa_NextHop a; d_Best := ap_Best path; d_Stale := ap_Stale path;
       d_Filtered := ap_Filtered path; d_NexthopInvalid := ap_IsNexthopInvalid path; d_AttributeKey := akey |} in
  let none := {| aa_seen := ∅; aa_bytes := []; aa_RouteTargets := []; aa_Encapsulation := []; aa_NextHop := "" |} in
  if negb (RouteType n =? EVPN_ROUTE_TYPE_MAC_IP_ADVERTISEMENT)
  then ret (decoded ""%string ""%string 0 ""%string ""%string [] none ""%string) else
  match RouteTypeData n with
  | Some m =>
      match m_RD m with
      | None => fail (Errorf "missing Type-2 route data or RD")
      | Some rd =>
          do! lift (mac_ip_ok m) in
          let! esi := lift (ESI_Serialize (m_ESI m)) in
          let ip := if m_IPLength m =? 0 then ""%string else ip_text (m_IP m) in
          let decoded := decoded (RD_String rd) (HardwareAddr_String (m_MAC m)) (m_ETag m) ip
                                 (hex_EncodeToString esi) (m_Labels m) in
          if ap_IsWithdraw path || bool_decide (class = CLocal) then ret (decoded none ""%string) else
          let! a := lift (decode_attrs path wire) in
          ret (decoded a (remoteHash (sort_Strings (aa_bytes a))))
      end
  | None => fail (Errorf "missing Type-2 route data or RD")
  end end.

(** ** Policy *)

(** One network of [RemoteImportConfig.Validate]. *)
Definition import_network_step (c : RemoteImportConfig) (seen : gset string * gset Z) (n : RemoteImportNetwork)
    : result (gset string * gset Z) :=
  if blank (rn_NetworkID n) || bool_decide (rn_NetworkID n ∈ seen.1) || (rn_VNI n =? 0)
     || (max_vni <? rn_VNI n) || bool_decide (rn_VNI n ∈ seen.2)
  then Err (Errorf "unique network IDs and explicit unique VNIs in 1..16777215 required")
  else if bool_decide (length (rn_ImportRouteTargets n) = 0%nat) || bool_decide (length (rn_AllowedVTEPs n) = 0%nat)
  then Err (Errorf "network requires explicit import RT and VTEP allowlists")
  else if negb (forallb (fun rt => match ParseRouteTarget rt with
                                   | Some parsed => bool_decide (RT_String parsed = rt)
                                   | None => false
                                   end) (rn_ImportRouteTargets n))
  then Err (Errorf "invalid/noncanonical import RT")
  else if negb (forallb (fun ip => unicastIPv4 ip && negb (bool_decide (ip = ri_LocalVTEP c))) (rn_AllowedVTEPs n))
  then Err (Errorf "invalid/locally owned remote VTEP")
  else Ok ({[rn_NetworkID n]} ∪ seen.1, {[rn_VNI n]} ∪ seen.2).

(** [RemoteImportConfig.Validate] *)
Definition RemoteImportConfig_Validate (c : RemoteImportConfig) : result unit :=
  if negb (unicastIPv4 (ri_LocalVTEP c)) || bool_decide (length (ri_Networks c) = 0%nat)
  then Err (Errorf "explicit local IPv4 VTEP and import networks required")
  else let? _ := rfold (import_network_step c) (∅, ∅) (ri_Networks c) in Ok tt.

(** The network loop of [ValidateRoute]: the first network with the VNI decides. *)
Definition route_network (c : RemoteImportConfig) (r : DecodedRemoteType2) (vni : Z) : result ValidatedRemoteRoute :=
  match List.find (fun n => rn_VNI n =? vni) (ri_Networks c) with
  | None => Err (Errorf "no configured VNI mapping")
  | Some n =>
      if negb (containsRemote (rn_AllowedVTEPs n) (d_NextHop r)) then Err (Errorf "remote VTEP not allowlisted")
      else if existsb (containsRemote (d_RouteTargets r)) (rn_ImportRouteTargets n)
      then Ok {| v_NetworkID := rn_NetworkID n; v_VNI := rn_VNI n; v_Route := r |}
      else Err (Errorf "no import RT intersection")
  end.

(** [RemoteImportConfig.ValidateRoute] *)
Definition ValidateRoute (c : RemoteImportConfig) (r : DecodedRemoteType2) : result ValidatedRemoteRoute :=
  if negb (bool_decide (d_Classification r = CRemote))
     || negb (d_RouteType r =? EVPN_ROUTE_TYPE_MAC_IP_ADVERTISEMENT)
     || d_Stale r || d_Filtered r || d_NexthopInvalid r
  then Err (Errorf "not an eligible current remote Type-2 path")
  else if bool_decide (ParseRouteDistinguisher (d_RD r) = None) then Err (Errorf "invalid RD")
  else if negb match ParseMAC (d_MAC r) with
               | Some (m0 :: mac) => bool_decide (length (m0 :: mac) = 6%nat) && (Z.land m0 1 =? 0)
               | _ => false
               end
          || bool_decide (d_MAC r = "00:00:00:00:00:00"%string)
          || (negb (bool_decide (d_IP r = ""%string)) && negb (unicastIPv4 (d_IP r)))
  then Err (Errorf "unsupported unicast MAC/optional IPv4")
  else match d_Labels r, d_Encapsulation r with
       | [vni], [encap] =>
           if negb (bool_decide (d_ESI r = "00000000000000000000"%string)) || negb (d_EthernetTag r =? 0)
              || negb (bool_decide (encap = "vxlan"%string))
           then Err (Errorf "only zero ESI/tag, one VXLAN VNI and explicit VXLAN encapsulation supported")
           else if negb (unicastIPv4 (d_NextHop r)) || bool_decide (d_NextHop r = ri_LocalVTEP c)
           then Err (Errorf "invalid or local path next-hop")
           else route_network c r vni
       | _, _ => Err (Errorf "only zero ESI/tag, one VXLAN VNI and explicit VXLAN encapsulation supported")
       end.
End decode.

(** ** Reading the RIB *)

(** [RemoteRIBSnapshot] *)
Record RemoteRIBSnapshot {AT : ApiTypes} := { raw_Paths : list ApiPath; raw_Complete : bool }.

(** [GoBGPRemoteRIBSource]; [RemotePathReader] is the [ListPath] of the client. *)
Record GoBGPRemoteRIBSource {AT : ApiTypes} (W : Type) := {
  g_Client : option (M W (option ListPathStream));
  g_Gate : option (ReadinessGate W);
}.
Arguments g_Client {AT W} _.
Arguments g_Gate {AT W} _.

(** One response of the stream. *)
Definition recv_raw {AT : ApiTypes} (acc : list ApiPath) (response : option (option (list (option ApiPath))))
    : result (list ApiPath) :=
  match response with
  | Some (Some (p :: ps)) =>
      rfold (fun acc p => match p with
                          | None => Err (Errorf "nil remote RIB path")
                          | Some path => Ok (acc ++ [path])
                          end) acc (p :: ps)
  | _ => Err (Errorf "incomplete remote RIB destination")
  end.

(** [GoBGPRemoteRIBSource.ReadRemoteRIB] *)
Definition ReadRemoteRIB {AT : ApiTypes} {W : Type} {CX : Ctx W} (s : GoBGPRemoteRIBSource W) : M W RemoteRIBSnapshot :=
  match g_Client s, g_Gate s with
  | Some listPath, Some gate =>
      do! gate in
      let! stream := listPath in
      match stream with
      | None => fail (Errorf "nil remote RIB stream")
      | Some stream =>
          let! paths := lift (rfold recv_raw [] (st_responses stream)) in
          match st_end stream with
          | Some e => fail (Wrapped "incomplete remote RIB stream" e)
          | None =>
              let! cerr := gets ctx_Err in
              do! lift (of_error cerr) in
              do! gate in
              ret {| raw_Paths := paths; raw_Complete := true |}
          end
      end
  | _, _ => fail (Errorf "remote RIB reader and actual speaker readiness gate required")
  end.

(** ** Observation *)

(** The text of an error, without the arguments of its format.  No error the code
    meets has an empty text. *)
Fixpoint error_words (e : error) : string :=
  match e with
  | Errorf m | Sentinel _ m | ExtErr m | CtxErr m => m
  | Errno n => itoa n
  | Wrapped m e => m +:+ ": " +:+ error_words e
  | Joined a b => error_words a +:+ str [byte 10] +:+ error_words b
  end%string.
Definition error_text (e : error) : string :=
  if bool_decide (error_words e = ""%string) then "error"%string else error_words e.

Lemma error_text_nonempty e : error_text e <> ""%string.
Proof. unfold error_text. by case_bool_decide. Qed.

(** The order of [next.Issues]. *)
Definition issue_le (a b : RemoteImportIssue) : Prop :=
  if bool_decide (ii_PathKey a = ii_PathKey b) then String.le (ii_Reason a) (ii_Reason b)
  else String.le (ii_PathKey a) (ii_PathKey b).
#[export] Instance issue_le_dec a b : Decision (issue_le a b).
Proof. unfold issue_le. destruct (bool_decide _); apply _. Defined.

(** The maps and lists [Poll] fills. *)
Record poll_acc := {
  pa_endpoints : gmap string DesiredRemoteEndpoint;
  pa_identities : gmap string string;
  pa_macs : gmap string string;
  pa_ips : gmap string string;
  pa_issues : list RemoteImportIssue;
  pa_quarantined : list DecodedRemoteType2;
}.

Definition slash (a b : string) : string := (a +:+ "/" +:+ b)%string.
Definition set_key_ip (key ip : string) (ep : DesiredRemoteEndpoint) : DesiredRemoteEndpoint :=
  {| de_Key := key; de_NetworkID := de_NetworkID ep; de_VNI := de_VNI ep; de_MAC := de_MAC ep; de_IP := ip;
     de_RemoteVTEP := de_RemoteVTEP ep; de_Validated := de_Validated ep; de_Routes := de_Routes ep |}.
Definition set_routes (rs : list ValidatedRemoteRoute) (ep : DesiredRemoteEndpoint) : DesiredRemoteEndpoint :=
  {| de_Key := de_Key ep; de_NetworkID := de_NetworkID ep; de_VNI := de_VNI ep; de_MAC := de_MAC ep;
     de_IP := de_IP ep; de_RemoteVTEP := de_RemoteVTEP ep; de_Validated := de_Validated ep; de_Routes := rs |}.

(** [if previous, ok := ips[ipKey]; ok && previous != key] *)
Definition other_owner (ips : gmap string string) (ipKey key : string) : bool :=
  match ips !! ipKey with Some previous => negb (bool_decide (previous = key)) | None => false end.

(** [ReadOnlyType2Importer]; the configuration is a private copy. *)
Record ReadOnlyType2Importer {AT : ApiTypes} (W : Type) := {
  im_source : M W RemoteRIBSnapshot;
  im_config : RemoteImportConfig;
  im_confirmed : RemoteImportSnapshot;
  im_pending : string;
}.
Arguments im_source {AT W} _.
Arguments im_config {AT W} _.
Arguments im_confirmed {AT W} _.
Arguments im_pending {AT W} _.

Section poll.
Context {AT : ApiTypes} {BT : BgpTypes} {BL : BgpLib} {AU : ApiUtil} {RL : RemoteLib}.
Context {SH : Sha256} {JP : Json (string * RemotePathIdentity)} {JL : Json (list string)}.

(** Find or make the endpoint of a validated route: its key, and the maps. *)
Definition place (a : poll_acc) (valid : ValidatedRemoteRoute)
    : result (string * gmap string DesiredRemoteEndpoint * gmap string string) :=
  let r := v_Route valid in
  let macKey := slash (v_NetworkID valid) (d_MAC r) in
  let ipKey := slash (v_NetworkID valid) (d_IP r) in
  let fresh := remoteHash [v_NetworkID valid; d_MAC r; d_IP r] in
  let has_ip := negb (bool_decide (d_IP r = ""%string)) in
  match pa_macs a !! macKey with
  | Some key =>
      let ep := default zero_endpoint (pa_endpoints a !! key) in
      if negb (bool_decide (de_RemoteVTEP ep = d_NextHop r)) then Err (Errorf "conflicting remote VTEPs")
      else if negb (bool_decide (de_IP ep = ""%string)) && has_ip && negb (bool_decide (de_IP ep = d_IP r))
      then Err (Errorf "conflicting IPv4 bindings")
      else if bool_decide (de_IP ep = ""%string) && has_ip then
        if other_owner (pa_ips a) ipKey key then Err (Errorf "conflicting IPv4 bindings")
        else Ok (fresh, <[fresh := set_key_ip fresh (d_IP r) ep]> (delete key (pa_endpoints a)),
                 <[macKey := fresh]> (pa_macs a))
      else Ok (key, pa_endpoints a, pa_macs a)
  | None =>
      if has_ip && other_owner (pa_ips a) ipKey fresh then Err (Errorf "conflicting IPv4 bindings")
      else Ok (fresh, <[fresh := {| de_Key := fresh; de_NetworkID := v_NetworkID valid; de_VNI := v_VNI valid;
                                    de_MAC := d_MAC r; de_IP := d_IP r; de_RemoteVTEP := d_NextHop r;
                                    de_Validated := true; de_Routes := [] |}]> (pa_endpoints a),
               <[macKey := fresh]> (pa_macs a))
  end.

(** A validated route joins its endpoint. *)
Definition admit_route (a : poll_acc) (valid : ValidatedRemoteRoute) : result poll_acc :=
  let? (key, eps, macs) := place a valid in
  let ip := d_IP (v_Route valid) in
  let ipKey := slash (v_NetworkID valid) ip in
  let? ips := (if negb (bool_decide (ip = ""%string)) then
                 if other_owner (pa_ips a) ipKey key then Err (Errorf "conflicting IPv4 bindings")
                 else Ok (<[ipKey := key]> (pa_ips a))
               else Ok (pa_ips a)) in
  let ep := default zero_endpoint (eps !! key) in
  Ok {| pa_endpoints := <[key := set_routes (de_Routes ep ++ [valid]) ep]> eps;
        pa_identities := pa_identities a; pa_macs := macs; pa_ips := ips;
        pa_issues := pa_issues a; pa_quarantined := pa_quarantined a |}.

(** One path of the observation.  The state is the list of issues that goes with an
    uncertain answer. *)
Definition poll_path (c : RemoteImportConfig) (a : poll_acc) (path : ApiPath) : M (list RemoteImportIssue) poll_acc :=
  match DecodeRemoteType2 path ""%string with
  | (key, Err e) =>
      do! modify (fun _ => [{| ii_PathKey := key; ii_Reason := error_text e |}]) in
      fail (Wrapped "invalid raw BGP path" e)
  | (_, Ok r) =>
      if bool_decide (d_Classification r = CLocal) || bool_decide (d_Classification r = CWithdrawn) then ret a
      else if d_Stale r || d_Filtered r || d_NexthopInvalid r then fail (Errorf "remote path validity uncertain")
      else match pa_identities a !! rp_Key (d_Source r) with
      | Some previous =>
          if negb (bool_decide (previous = d_AttributeKey r))
          then fail (Errorf "conflicting payloads for the same remote path identity") else ret a
      | None =>
          let a := {| pa_endpoints := pa_endpoints a;
                      pa_identities := <[rp_Key (d_Source r) := d_AttributeKey r]> (pa_identities a);
                      pa_macs := pa_macs a; pa_ips := pa_ips a; pa_issues := pa_issues a;
                      pa_quarantined := pa_quarantined a |} in
          match ValidateRoute c r with
          | Err e => ret {| pa_endpoints := pa_endpoints a; pa_identities := pa_identities a; pa_macs := pa_macs a;
                            pa_ips := pa_ips a;
                            pa_issues := pa_issues a ++ [{| ii_PathKey := rp_Key (d_Source r);
                                                            ii_Reason := error_text e |}];
                            pa_quarantined := pa_quarantined a ++ [r] |}
          | Ok valid => lift (admit_route a valid)
          end
      end
  end.

(** The closure [overlap]. *)
Definition overlap (n : RemoteImportNetwork) (r : DecodedRemoteType2) (ep : DesiredRemoteEndpoint) : bool :=
  bool_decide (de_NetworkID ep = rn_NetworkID n)
  && (bool_decide (de_MAC ep = d_MAC r)
      || negb (bool_decide (d_IP r = ""%string)) && bool_decide (de_IP ep = d_IP r)).

(** A quarantined route against one network. *)
Definition quarantine_check (endpoints confirmed : list DesiredRemoteEndpoint) (r : DecodedRemoteType2)
    (n : RemoteImportNetwork) : result unit :=
  if match d_Labels r with [] => true | l :: _ => negb (rn_VNI n =? l) end then Ok tt
  else if existsb (overlap n r) endpoints
  then Err (Errorf "quarantined route conflicts with validated endpoint")
  else if existsb (overlap n r) confirmed
  then Err (Errorf "quarantined route conflicts with confirmed endpoint")
  else Ok tt.

(** The part of [Poll] between the read and the confirmation: one observation of
    [paths] under the configuration, given the confirmed endpoints. *)
Definition observe (c : RemoteImportConfig) (confirmed : list DesiredRemoteEndpoint) (paths : list ApiPath)
    : M (list RemoteImportIssue) RemoteImportSnapshot :=
  let! a := mfold (poll_path c) {| pa_endpoints := ∅; pa_identities := ∅; pa_macs := ∅; pa_ips := ∅;
                                   pa_issues := []; pa_quarantined := [] |} paths in
  let endpoints := (map_to_list (pa_endpoints a)).*2 in
  let! q := attempt (lift (rfold (fun _ r =>
              rfold (fun _ n => quarantine_check endpoints confirmed r n) tt (ri_Networks c)) tt (pa_quarantined a))) in
  match q with
  | Err e => do! modify (fun _ => pa_issues a) in fail e
  | Ok _ =>
      ret {| is_Authoritative := false; is_Generation := 0;
             is_Endpoints := sort_by de_Key
               ((fun ep => set_routes (sort_by (fun v => rp_Key (d_Source (v_Route v))) (de_Routes ep)) ep) <$> endpoints);
             is_Issues := merge_sort issue_le (pa_issues a) |}
  end.

(** ** The importer *)

Context {W : Type} {CX : Ctx W} {JS : Json RemoteImportSnapshot}.

(** [NewReadOnlyType2Importer] *)
Definition NewReadOnlyType2Importer (source : option (M W RemoteRIBSnapshot)) (config : RemoteImportConfig)
    : result (ReadOnlyType2Importer W) :=
  match source with
  | None => Err (Errorf "remote RIB source required")
  | Some source =>
      let? _ := RemoteImportConfig_Validate config in
      Ok {| im_source := source; im_config := config; im_confirmed := zero_snapshot; im_pending := "" |}
  end.

Definition set_authoritative (b : bool) (s : RemoteImportSnapshot) : RemoteImportSnapshot :=
  {| is_Authoritative := b; is_Generation := is_Generation s; is_Endpoints := is_Endpoints s; is_Issues := is_Issues s |}.
Definition set_issues (l : list RemoteImportIssue) (s : RemoteImportSnapshot) : RemoteImportSnapshot :=
  {| is_Authoritative := is_Authoritative s; is_Generation := is_Generation s; is_Endpoints := is_Endpoints s;
     is_Issues := l |}.
Definition with_importer (confirmed : RemoteImportSnapshot) (pending : string) (i : ReadOnlyType2Importer W)
    : ReadOnlyType2Importer W :=
  {| im_source := im_source i; im_config := im_config i; im_confirmed := confirmed; im_pending := pending |}.

(** [ReadOnlyType2Importer.RebindSource] *)
Definition RebindSource (source : option (M W RemoteRIBSnapshot)) (i : ReadOnlyType2Importer W)
    : ReadOnlyType2Importer W * result unit :=
  match source with
  | None => (i, Err (Errorf "remote RIB source required"))
  | Some source => ({| im_source := source; im_config := im_config i;
                       im_confirmed := set_authoritative false (im_confirmed i); im_pending := "" |}, Ok tt)
  end.

(** The closure [uncertain]. *)
Definition uncertain (i : ReadOnlyType2Importer W) (w : W) (e : error) (issues : list RemoteImportIssue)
    : (ReadOnlyType2Importer W * W) * (RemoteImportSnapshot * option error) :=
  ((with_importer (im_confirmed i) ""%string i, w),
   (set_issues (is_Issues (im_confirmed i) ++ issues) (set_authoritative false (im_confirmed i)), Some e)).

(** A snapshot as an observation: what [comparison] is of the confirmed one. *)
Definition content (s : RemoteImportSnapshot) : RemoteImportSnapshot :=
  {| is_Authoritative := false; is_Generation := 0; is_Endpoints := is_Endpoints s; is_Issues := is_Issues s |}.

(** The confirmation of an observation: two equal digests in a row publish it. *)
Definition confirm (i : ReadOnlyType2Importer W) (w : W) (next : RemoteImportSnapshot)
    : (ReadOnlyType2Importer W * W) * (RemoteImportSnapshot * option error) :=
  let key := remoteHash next in
  if negb (bool_decide (im_pending i = key)) then
    ((with_importer (im_confirmed i) key i, w),
     (set_issues (is_Issues next) (set_authoritative false (im_confirmed i)), None))
  else
    let generation := if negb (bool_decide (remoteHash (content (im_confirmed i)) = key))
                      then wrap64 (is_Generation (im_confirmed i) + 1) else is_Generation (im_confirmed i) in
    let next := {| is_Authoritative := true; is_Generation := generation; is_Endpoints := is_Endpoints next;
                   is_Issues := is_Issues next |} in
    ((with_importer next (im_pending i) i, w), (next, None)).

(** [ReadOnlyType2Importer.Poll] *)
Definition Poll (s : ReadOnlyType2Importer W * W)
    : (ReadOnlyType2Importer W * W) * (RemoteImportSnapshot * option error) :=
  let '(i, w) := s in
  let '(w, raw) := im_source i w in
  match raw with
  | Err e => uncertain i w e []
  | Ok raw =>
      if negb (raw_Complete raw) || bool_decide (is_Some (ctx_Err w))
      then uncertain i w (Errorf "incomplete/cancelled RIB observation") [] else
      match observe (im_config i) (is_Endpoints (im_confirmed i)) (raw_Paths raw) [] with
      | (issues, Err e) => uncertain i w e issues
      | (_, Ok next) => confirm i w next
      end
  end.
End poll.

(** ** Publication *)

(** What the code relies on of SHA-256: a digest is never the empty text. *)
Class Sha256Laws {SH : Sha256} := sha256_nonempty s : sha256_hex s <> ""%string.

Section publication.
Context {AT : ApiTypes} {BT : BgpTypes} {BL : BgpLib} {AU : ApiUtil} {RL : RemoteLib}.
Context {SH : Sha256} {SL : Sha256Laws} {JP : Json (string * RemotePathIdentity)} {JL : Json (list string)}.
Context {W : Type} {CX : Ctx W} {JS : Json RemoteImportSnapshot}.
Implicit Types (s : ReadOnlyType2Importer W * W) (i : ReadOnlyType2Importer W).

(** The observation a [Poll] makes, if it makes one. *)
Definition observed s : option RemoteImportSnapshot :=
  let '(w, raw) := im_source s.1 s.2 in
  match raw with
  | Err _ => None
  | Ok raw =>
      if negb (raw_Complete raw) || bool_decide (is_Some (ctx_Err w)) then None
      else match observe (im_config s.1) (is_Endpoints (im_confirmed s.1)) (raw_Paths raw) [] with
           | (_, Ok next) => Some next
           | (_, Err _) => None
           end
  end.

Lemma Poll_run s :
  match observed s with
  | Some next => exists w, Poll s = confirm s.1 w next
  | None => exists w e issues, Poll s = uncertain s.1 w e issues
  end.
Proof.
  destruct s as [i w]. unfold observed, Poll. simpl. destruct (im_source i w) as [w' [raw|e]]; [|by eauto].
  destruct (_ || _); [by eauto|]. destruct (observe _ _ _ _) as [issues [next|e]]; eauto.
Qed.

(** Polls, rebinds and the rest of the world, with the observation of the last poll. *)
Inductive pstep : (ReadOnlyType2Importer W * W) * option RemoteImportSnapshot ->
                  (ReadOnlyType2Importer W * W) * option RemoteImportSnapshot -> Prop :=
  | ps_Poll s s' g out : Poll s = (s', out) -> pstep (s, g) (s', observed s)
  | ps_Rebind source i i' w g r : RebindSource source i = (i', r) -> r = Ok tt -> pstep ((i, w), g) ((i', w), None)
  | ps_world i w w' g : pstep ((i, w), g) ((i, w'), g).

Definition digest (g : option RemoteImportSnapshot) : string :=
  match g with Some n => remoteHash n | None => ""%string end.

Lemma pstep_pending x x' : pstep x x' -> im_pending x.1.1 = digest x.2 -> im_pending x'.1.1 = digest x'.2.
Proof.
  intros [s s' g out H|source i i' w g r H Hr|i w w' g] Hp; simpl in *; [| |done].
  - pose proof (Poll_run s) as Hrun. destruct (observed s) as [n|]; simpl.
    + destruct Hrun as [w Hw]. rewrite H in Hw. unfold confirm in Hw. case_bool_decide; simplify_eq/=; done.
    + destruct Hrun as (w & e & issues & Hw). rewrite H in Hw. unfold uncertain in Hw. by simplify_eq/=.
  - unfold RebindSource in H. destruct source; simplify_eq/=; done.
Qed.

(** C39: endpoints are published only after two equal complete observations in a row.
    In any history of polls and source rebinds of an importer, when [Poll] answers
    with an authoritative snapshot, the poll right before it (no failed poll and no
    rebind in between) had made a complete observation with the same digest, and
    the snapshot published and stored is the one just observed, without error. *)
Theorem Poll_confirmed_twice source config i0 w0 s g s' snap err :
  NewReadOnlyType2Importer source config = Ok i0 -> rtc pstep ((i0, w0), None) (s, g) ->
  Poll s = (s', (snap, err)) -> is_Authoritative snap = true ->
  exists m n, g = Some m /\ observed s = Some n /\ remoteHash m = remoteHash n /\ err = None /\
    is_Endpoints snap = is_Endpoints n /\ is_Issues snap = is_Issues n /\ im_confirmed s'.1 = snap.
Proof.
  intros Hnew Hsteps Hpoll Hauth.
  assert (im_pending s.1 = digest g) as Hp.
  { change (im_pending (s, g).1.1 = digest (s, g).2).
    eapply (rtc_ind_r (fun x => im_pending x.1.1 = digest x.2)); [| |exact Hsteps].
    - unfold NewReadOnlyType2Importer, rbind in Hnew. repeat case_match; simplify_eq/=; done.
    - intros x y _ Hxy Hx. by eapply pstep_pending. }
  pose proof (Poll_run s) as Hrun. destruct (observed s) as [n|].
  - destruct Hrun as [w Hw]. rewrite Hpoll in Hw. unfold confirm in Hw.
    case_bool_decide as Hk; simplify_eq/=. destruct g as [m|]; simpl in Hp.
    + exists m, n. split_and!; try done. congruence.
    + destruct (sha256_nonempty (match json_Marshal n with Ok b => b | Err _ => ""%string end)).
      unfold remoteHash in Hk. congruence.
  - destruct Hrun as (w & e & issues & Hw). rewrite Hpoll in Hw. by unfold uncertain in Hw; simplify_eq/=.
Qed.

(** Uncertainty freezes the published state.  A [Poll] whose answer is not
    authoritative (a failed, incomplete or conflicting read, or a first observation
    of a change) keeps the confirmed snapshot as it is and answers with its
    endpoints and generation; after an error two fresh observations are needed.  An
    authoritative [Poll] advances the generation by one exactly when the digest of
    the published content changed. *)
Theorem Poll_frozen s s' snap err :
  Poll s = (s', (snap, err)) ->
  if is_Authoritative snap
  then exists n, observed s = Some n /\ im_confirmed s'.1 = snap /\
         is_Generation snap = (if bool_decide (remoteHash (content (im_confirmed s.1)) = remoteHash n)
                               then is_Generation (im_confirmed s.1)
                               else wrap64 (is_Generation (im_confirmed s.1) + 1))
  else im_confirmed s'.1 = im_confirmed s.1 /\ is_Endpoints snap = is_Endpoints (im_confirmed s.1) /\
       is_Generation snap = is_Generation (im_confirmed s.1) /\ (err <> None -> im_pending s'.1 = ""%string).
Proof.
  intros Hpoll. pose proof (Poll_run s) as Hrun. destruct (observed s) as [n|].
  - destruct Hrun as [w Hw]. rewrite Hpoll in Hw. unfold confirm in Hw.
    case_bool_decide as Hk; simplify_eq/=; [|done].
    exists n. split_and!; [done..|]. by case_bool_decide.
  - destruct Hrun as (w & e & issues & Hw). rewrite Hpoll in Hw. unfold uncertain in Hw. by simplify_eq/=.
Qed.
End publication.

(** ** What is published *)

Section soundness.
Context {AT : ApiTypes} {BT : BgpTypes} {BL : BgpLib} {AU : ApiUtil} {RL : RemoteLib}.
Context {SH : Sha256} {JP : Json (string * RemotePathIdentity)} {JL : Json (list string)}.
Context (c : RemoteImportConfig) (paths : list ApiPath).

(** A validated route that comes from a path of the RIB. *)
Definition evidence (v : ValidatedRemoteRoute) : Prop :=
  exists path key, path ∈ paths /\ DecodeRemoteType2 path ""%string = (key, Ok (v_Route v)) /\
    ValidateRoute c (v_Route v) = Ok v.

(** The identity an endpoint's key is the digest of. *)
Definition triple (v : ValidatedRemoteRoute) : list string :=
  [v_NetworkID v; d_MAC (v_Route v); d_IP (v_Route v)].

(** SHA-256 does not collide on the endpoint identities of this observation. *)
Definition collision_free : Prop :=
  forall v v', evidence v -> evidence v' -> remoteHash (triple v) = remoteHash (triple v') -> triple v = triple v'.

(** The route agrees with the endpoint it is listed under. *)
Definition route_of (ep : DesiredRemoteEndpoint) (v : ValidatedRemoteRoute) : Prop :=
  evidence v /\ v_NetworkID v = de_NetworkID ep /\ v_VNI v = de_VNI ep /\ d_MAC (v_Route v) = de_MAC ep /\
  d_NextHop (v_Route v) = de_RemoteVTEP ep /\ (d_IP (v_Route v) = ""%string \/ d_IP (v_Route v) = de_IP ep).

(** An endpoint with the evidence for each of its fields. *)
Definition endpoint_backed (ep : DesiredRemoteEndpoint) : Prop :=
  de_Validated ep = true /\ de_Key ep = remoteHash [de_NetworkID ep; de_MAC ep; de_IP ep] /\
  de_Routes ep <> [] /\ Forall (route_of ep) (de_Routes ep) /\
  (de_IP ep <> ""%string -> Exists (fun v => d_IP (v_Route v) = de_IP ep) (de_Routes ep)).

(** The policy allows the endpoint. *)
Definition endpoint_allowed (ep : DesiredRemoteEndpoint) : Prop :=
  exists n, n ∈ ri_Networks c /\ de_NetworkID ep = rn_NetworkID n /\ de_VNI ep = rn_VNI n /\
    de_RemoteVTEP ep ∈ rn_AllowedVTEPs n /\ unicastIPv4 (de_RemoteVTEP ep) = true /\
    de_RemoteVTEP ep <> ri_LocalVTEP c /\ (de_IP ep = ""%string \/ unicastIPv4 (de_IP ep) = true).

Lemma containsRemote_elem l x : containsRemote l x = true <-> x ∈ l.
Proof.
  unfold containsRemote. rewrite existsb_exists. setoid_rewrite bool_decide_eq_true.
  setoid_rewrite <-list_elem_of_In. naive_solver.
Qed.

Lemma ValidateRoute_ok r v :
  ValidateRoute c r = Ok v ->
  v_Route v = r /\ d_RouteType r = EVPN_ROUTE_TYPE_MAC_IP_ADVERTISEMENT /\
  unicastIPv4 (d_NextHop r) = true /\ d_NextHop r <> ri_LocalVTEP c /\
  (d_IP r = ""%string \/ unicastIPv4 (d_IP r) = true) /\
  exists n, n ∈ ri_Networks c /\ v_NetworkID v = rn_NetworkID n /\ v_VNI v = rn_VNI n /\
    d_NextHop r ∈ rn_AllowedVTEPs n.
Proof.
  unfold ValidateRoute, route_network. intros H.
  destruct (d_Labels r) as [|l [|]], (d_Encapsulation r) as [|t [|]];
    try (repeat (case_match; try done); fail).
  repeat match type of H with (if ?b then _ else _) = _ => destruct b eqn:?; [done|] end.
  destruct (List.find _ _) as [n|] eqn:Hf; [|done]. apply find_some in Hf as [Hin _].
  repeat match type of H with (if ?b then _ else _) = _ => destruct b eqn:?; try done end.
  simplify_eq/=. bools. rewrite containsRemote_elem in *.
  split_and!; try done.
  - destruct (d_IP r); [by left|right]. match goal with H : _ && _ = false |- _ => by apply negb_false_iff in H end.
  - exists n. split_and!; [by apply list_elem_of_In|done..].
Qed.

Lemma chars_length x : length (chars x) = String.length x.
Proof. induction x as [|a x IH]; [done|]. simpl. by f_equal. Qed.

Lemma slash_inj a b a' b' : slash a b = slash a' b' -> String.length b = String.length b' -> a = a' /\ b = b'.
Proof.
  unfold slash. intros H Hl. apply (f_equal chars) in H. rewrite !chars_app in H.
  rewrite !app_assoc in H. rewrite <-!chars_length in Hl. apply app_inj_2 in H as [H1 H2]; [|done].
  apply app_inj_tail in H1 as [H1 _].
  split; [rewrite <-(str_chars a), <-(str_chars a')|rewrite <-(str_chars b), <-(str_chars b')]; congruence.
Qed.

(** In a valid configuration the network determines the VNI. *)
Lemma config_networks : RemoteImportConfig_Validate c = Ok tt -> NoDup (rn_NetworkID <$> ri_Networks c).
Proof.
  unfold RemoteImportConfig_Validate, rbind. intros H. case_match; [done|].
  destruct (rfold _ _ _) as [seen|] eqn:Hf; [|done].
  eapply (rfold_invariant _ (fun done seen => NoDup (rn_NetworkID <$> done) /\
            (forall x, x ∈ seen.1 <-> x ∈ rn_NetworkID <$> done))) in Hf as [? _]; [done|..].
  - split; [constructor|]. set_solver.
  - intros done n b b' _ [Hd Hs] Hstep. unfold import_network_step in Hstep.
    repeat match type of Hstep with (if ?b then _ else _) = _ => destruct b eqn:?; [done|] end.
    simplify_eq/=. bools. rewrite fmap_app. split; [|set_solver].
    apply NoDup_app. split_and!; [done| |apply NoDup_singleton]. set_solver.
Qed.

Lemma network_vni v v' :
  RemoteImportConfig_Validate c = Ok tt -> evidence v -> evidence v' -> v_NetworkID v = v_NetworkID v' ->
  v_VNI v = v_VNI v'.
Proof.
  intros Hc%config_networks (p & k & _ & _ & Hv) (p' & k' & _ & _ & Hv') E.
  apply ValidateRoute_ok in Hv as (_ & _ & _ & _ & _ & n & Hn & Hi & -> & _).
  apply ValidateRoute_ok in Hv' as (_ & _ & _ & _ & _ & n' & Hn' & Hi' & -> & _).
  assert (n = n') as ->; [|done]. apply list_elem_of_lookup in Hn as [x Hx], Hn' as [y Hy].
  assert (x = y) as ->; [|congruence].
  apply (NoDup_lookup _ x y (rn_NetworkID n) Hc); rewrite list_lookup_fmap; [by rewrite Hx|].
  rewrite Hy. simpl. congruence.
Qed.

Lemma HardwareAddr_length hw : length hw = 6%nat -> String.length (HardwareAddr_String hw) = 17%nat.
Proof. destruct hw as [|? [|? [|? [|? [|? [|? [|]]]]]]]; try done. Qed.

Lemma decode_mac path key r :
  DecodeRemoteType2 path ""%string = (key, Ok r) -> d_RouteType r = EVPN_ROUTE_TYPE_MAC_IP_ADVERTISEMENT ->
  String.length (d_MAC r) = 17%nat.
Proof.
  unfold DecodeRemoteType2. intros H Ht. msteps; simplify_eq/=; try (bools; congruence).
  all: apply HardwareAddr_length;
    match goal with H : mac_ip_ok _ = Ok _ |- _ => unfold mac_ip_ok in H end;
    repeat case_match; simplify_eq/=; bools; done.
Qed.

(** ** The observation loop *)

Lemma backed_triple ep :
  endpoint_backed ep -> exists v, evidence v /\ triple v = [de_NetworkID ep; de_MAC ep; de_IP ep] /\
    v_VNI v = de_VNI ep /\ v ∈ de_Routes ep.
Proof.
  intros (_ & _ & Hne & Hr & Hip). rewrite Forall_forall in Hr. unfold triple.
  destruct (decide (de_IP ep = ""%string)) as [E|E].
  - destruct (de_Routes ep) as [|v l]; [done|]. destruct (Hr v) as (He & Hn & Hv & Hm & _ & Hi); [left|].
    exists v. rewrite Hn, Hm. rewrite E in *. split_and!; [done| |done|left]. by destruct Hi as [->| ->].
  - apply Hip, Exists_exists in E as (v & Hin & Hv). destruct (Hr v Hin) as (He & Hn & Hvn & Hm & _).
    exists v. by rewrite Hn, Hm, Hv.
Qed.

Definition endpoint_slots (macs ips : gmap string string) (k : string) (ep : DesiredRemoteEndpoint) : Prop :=
  endpoint_backed ep /\ de_Key ep = k /\ String.length (de_MAC ep) = 17%nat /\
  macs !! slash (de_NetworkID ep) (de_MAC ep) = Some k /\
  (de_IP ep <> ""%string -> ips !! slash (de_NetworkID ep) (de_IP ep) = Some k).

(** Every MAC slot belongs to an endpoint. *)
Definition macs_owned (eps : gmap string DesiredRemoteEndpoint) (macs : gmap string string) : Prop :=
  forall mk k, macs !! mk = Some k -> exists ep, eps !! k = Some ep /\ mk = slash (de_NetworkID ep) (de_MAC ep).

Definition poll_inv (a : poll_acc) : Prop :=
  (forall k ep, pa_endpoints a !! k = Some ep -> endpoint_slots (pa_macs a) (pa_ips a) k ep) /\
  macs_owned (pa_endpoints a) (pa_macs a).

(** The endpoint [place] finds or makes, ready to take the route. *)
Definition placed (ips : gmap string string) (key : string) (valid : ValidatedRemoteRoute) (ep : DesiredRemoteEndpoint) : Prop :=
  de_Validated ep = true /\ de_Key ep = key /\ key = remoteHash [de_NetworkID ep; de_MAC ep; de_IP ep] /\
  Forall (route_of ep) (de_Routes ep) /\ route_of ep valid /\ String.length (de_MAC ep) = 17%nat /\
  (de_IP ep <> ""%string -> Exists (fun v => d_IP (v_Route v) = de_IP ep) (de_Routes ep ++ [valid])) /\
  (de_IP ep <> ""%string -> d_IP (v_Route valid) = ""%string -> ips !! slash (de_NetworkID ep) (de_IP ep) = Some key).

Section loop.
Context (Hconfig : RemoteImportConfig_Validate c = Ok tt) (Hfree : collision_free).

Lemma evidence_mac v : evidence v -> String.length (d_MAC (v_Route v)) = 17%nat.
Proof.
  intros (path & key & _ & Hd & Hv). eapply decode_mac; [exact Hd|]. by apply ValidateRoute_ok in Hv as (_ & ? & _).
Qed.

(** Endpoints with the digest of a route's identity have that identity. *)
Lemma fresh_slot a k ep v :
  poll_inv a -> evidence v -> pa_endpoints a !! k = Some ep -> k = remoteHash (triple v) ->
  de_NetworkID ep = v_NetworkID v /\ de_MAC ep = d_MAC (v_Route v) /\ de_IP ep = d_IP (v_Route v).
Proof.
  intros [Ha _] Hv Hk Hh. destruct (Ha k ep Hk) as (Hb & Hkey & _).
  pose proof Hb as (_ & Hh' & _). destruct (backed_triple ep Hb) as (v' & Hv' & Ht & _).
  assert (triple v' = triple v) as E by (apply Hfree; [done..|]; congruence).
  rewrite Ht in E. unfold triple in E. by simplify_eq.
Qed.

(** The endpoint in the MAC slot of a route. *)
Lemma mac_slot a v key :
  poll_inv a -> evidence v -> pa_macs a !! slash (v_NetworkID v) (d_MAC (v_Route v)) = Some key ->
  exists ep, pa_endpoints a !! key = Some ep /\ endpoint_slots (pa_macs a) (pa_ips a) key ep /\
    de_NetworkID ep = v_NetworkID v /\ de_MAC ep = d_MAC (v_Route v) /\ de_VNI ep = v_VNI v.
Proof.
  intros [Ha Hm] Hv Hk. destruct (Hm _ _ Hk) as (ep & Hep & Hs). pose proof (Ha _ _ Hep) as Hslots.
  pose proof Hslots as (Hb & _ & Hl & _). apply slash_inj in Hs as [Hn Hmac]; [|by rewrite Hl, evidence_mac].
  exists ep. split_and!; try done. destruct (backed_triple ep Hb) as (v' & Hv' & Ht & <- & _).
  apply network_vni; [done..|]. unfold triple in Ht. simplify_eq. congruence.
Qed.

Lemma route_of_update ep ep' v :
  de_NetworkID ep' = de_NetworkID ep -> de_VNI ep' = de_VNI ep -> de_MAC ep' = de_MAC ep ->
  de_RemoteVTEP ep' = de_RemoteVTEP ep -> (de_IP ep = ""%string \/ de_IP ep' = de_IP ep) ->
  route_of ep v -> route_of ep' v.
Proof. unfold route_of. intros -> -> -> -> Hi (? & ? & ? & ? & ? & Hv). split_and!; try done.
  destruct Hi, Hv; first [left; congruence|right; congruence].
Qed.

Lemma other_owner_false ips ipKey key k :
  other_owner ips ipKey key = false -> ips !! ipKey = Some k -> k = key.
Proof. unfold other_owner. intros H Hk. rewrite Hk in H. by bools. Qed.

(** What [place] leaves: the endpoint of the route, and the others as they were. *)
Definition place_spec (a : poll_acc) (valid : ValidatedRemoteRoute) (key : string)
    (eps : gmap string DesiredRemoteEndpoint) (macs : gmap string string) : Prop :=
  (exists ep, eps !! key = Some ep /\ placed (pa_ips a) key valid ep /\
     macs !! slash (de_NetworkID ep) (de_MAC ep) = Some key) /\
  (forall k ep, k <> key -> eps !! k = Some ep -> endpoint_slots macs (pa_ips a) k ep) /\
  macs_owned eps macs.

Lemma place_found a valid key ep :
  poll_inv a -> evidence valid -> pa_endpoints a !! key = Some ep -> endpoint_slots (pa_macs a) (pa_ips a) key ep ->
  de_NetworkID ep = v_NetworkID valid -> de_MAC ep = d_MAC (v_Route valid) -> de_VNI ep = v_VNI valid ->
  de_RemoteVTEP ep = d_NextHop (v_Route valid) ->
  (d_IP (v_Route valid) = ""%string \/ d_IP (v_Route valid) = de_IP ep) ->
  place_spec a valid key (pa_endpoints a) (pa_macs a).
Proof.
  intros [Ha Hm] Hv Hep ((Hval & Hkey & Hne & Hr & Hx) & Hk & Hl & Hmac & Hip) En Em Ev Et Hi. split_and!; [|by auto|done].
  exists ep. split_and!; [done| |done]. unfold placed. split_and!; try done; [congruence| |by auto].
  intros. apply Exists_app. left. auto.
Qed.

Lemma place_upgrade a valid key ep :
  poll_inv a -> evidence valid -> pa_endpoints a !! key = Some ep -> endpoint_slots (pa_macs a) (pa_ips a) key ep ->
  de_NetworkID ep = v_NetworkID valid -> de_MAC ep = d_MAC (v_Route valid) -> de_VNI ep = v_VNI valid ->
  de_RemoteVTEP ep = d_NextHop (v_Route valid) -> de_IP ep = ""%string -> d_IP (v_Route valid) <> ""%string ->
  let fresh := remoteHash (triple valid) in
  place_spec a valid fresh (<[fresh := set_key_ip fresh (d_IP (v_Route valid)) ep]> (delete key (pa_endpoints a)))
    (<[slash (v_NetworkID valid) (d_MAC (v_Route valid)) := fresh]> (pa_macs a)).
Proof.
  intros Hinv Hv Hep (Hb & Hk & Hl & Hmac & _) En Em Ev Et Ei Hi fresh. pose proof Hinv as [Ha Hm].
  rewrite <-En, <-Em. split_and!.
  - exists (set_key_ip fresh (d_IP (v_Route valid)) ep). simpl. rewrite !lookup_insert_eq. split_and!; [done| |done].
    destruct Hb as (Hval & _ & _ & Hr & _). unfold placed. simpl. split_and!; try done.
    + unfold fresh, triple. by rewrite En, Em.
    + eapply Forall_impl; [exact Hr|]. intros v. apply route_of_update; simpl; auto.
    + unfold route_of. simpl. rewrite En, Em, Ev, Et. auto 8.
    + intros _. apply Exists_app. right. by constructor.
  - intros k ep' Hne Hk'. rewrite lookup_insert_ne in Hk' by done.
    apply lookup_delete_Some in Hk' as [Hkk Hk']. destruct (Ha _ _ Hk') as (? & ? & ? & Hm' & ?).
    split_and!; try done. rewrite lookup_insert_ne; [done|]. intros E. rewrite <-E in Hm'. congruence.
  - intros mk k Hmk. destruct (decide (mk = slash (de_NetworkID ep) (de_MAC ep))) as [->|Hne].
    + rewrite lookup_insert_eq in Hmk. simplify_eq. eexists. by rewrite lookup_insert_eq.
    + rewrite lookup_insert_ne in Hmk by done. destruct (Hm _ _ Hmk) as (ep' & Hep' & ->).
      exists ep'. split; [|done]. rewrite lookup_insert_ne, lookup_delete_ne; [done|..].
      * intros ->. naive_solver.
      * intros E. destruct (fresh_slot a k ep' valid Hinv Hv Hep') as (? & ? & _); [done|]. congruence.
Qed.

Lemma place_new a valid :
  poll_inv a -> evidence valid -> pa_macs a !! slash (v_NetworkID valid) (d_MAC (v_Route valid)) = None ->
  let fresh := remoteHash (triple valid) in
  place_spec a valid fresh
    (<[fresh := {| de_Key := fresh; de_NetworkID := v_NetworkID valid; de_VNI := v_VNI valid;
                   de_MAC := d_MAC (v_Route valid); de_IP := d_IP (v_Route valid);
                   de_RemoteVTEP := d_NextHop (v_Route valid); de_Validated := true; de_Routes := [] |}]> (pa_endpoints a))
    (<[slash (v_NetworkID valid) (d_MAC (v_Route valid)) := fresh]> (pa_macs a)).
Proof.
  intros Hinv Hv Hnone fresh. pose proof Hinv as [Ha Hm]. split_and!.
  - eexists. rewrite lookup_insert_eq. split_and!; [done| |by simpl; rewrite lookup_insert_eq]. unfold placed. simpl. split_and!; try done.
    + unfold route_of. simpl. auto 8.
    + by apply evidence_mac.
    + intros _. by constructor.
  - intros k ep Hne Hk. rewrite lookup_insert_ne in Hk by done.
    destruct (Ha _ _ Hk) as (? & ? & ? & Hm' & ?). split_and!; try done.
    rewrite lookup_insert_ne; [done|]. congruence.
  - intros mk k Hmk. destruct (decide (mk = slash (v_NetworkID valid) (d_MAC (v_Route valid)))) as [->|Hne].
    + rewrite lookup_insert_eq in Hmk. simplify_eq. eexists. by rewrite lookup_insert_eq.
    + rewrite lookup_insert_ne in Hmk by done. destruct (Hm _ _ Hmk) as (ep & Hep & ->).
      exists ep. split; [|done]. rewrite lookup_insert_ne; [done|].
      intros E. destruct (fresh_slot a k ep valid Hinv Hv Hep) as (? & ? & _); [done|]. congruence.
Qed.

Lemma place_run a valid key eps macs :
  poll_inv a -> evidence valid -> place a valid = Ok (key, eps, macs) -> place_spec a valid key eps macs.
Proof.
  intros Hinv Hv. unfold place. destruct (pa_macs a !! _) as [k|] eqn:Hk.
  - destruct (mac_slot a valid k Hinv Hv Hk) as (ep & Hep & Hslots & En & Em & Ev). rewrite Hep. simpl. intros H.
    repeat match type of H with (if ?b then _ else _) = _ => destruct b eqn:?; try done end; simplify_eq; bools.
    + by apply (place_upgrade a valid k).
    + eapply place_found; try done.
      destruct (decide (d_IP (v_Route valid) = ""%string)) as [|Hi]; [by left|right].
      rewrite (bool_decide_eq_false_2 _ Hi) in *. simpl in *.
      destruct (decide (de_IP ep = ""%string)) as [E|E]; [by rewrite bool_decide_eq_true_2 in *|].
      rewrite (bool_decide_eq_false_2 _ E) in *. simpl in *. by bools.
  - intros H. case_match; [done|]. simplify_eq. by apply place_new.
Qed.

Lemma placed_backed ips key valid ep :
  placed ips key valid ep -> endpoint_backed (set_routes (de_Routes ep ++ [valid]) ep).
Proof.
  intros (Hval & Hk & Hh & Hr & Hv & Hl & Hx & _). unfold endpoint_backed. simpl. split_and!; try done.
  - congruence.
  - by destruct (de_Routes ep).
  - apply Forall_app. split; [|by constructor]. exact Hr.
Qed.

Lemma admit_route_inv a valid a' :
  poll_inv a -> evidence valid -> admit_route a valid = Ok a' -> poll_inv a'.
Proof.
  intros Hinv Hv. unfold admit_route, rbind. destruct (place a valid) as [[[key eps] macs]|] eqn:Hp; [|done].
  apply place_run in Hp as ((ep & Hep & Hpl & Hmac) & Hothers & Hm); [|done..]. rewrite Hep. simpl.
  destruct (if negb _ then _ else _) as [ips|] eqn:Hips; [|done]. intros [= <-].
  pose proof Hpl as (_ & Hkey & _ & _ & (_ & En & _ & _ & _ & Hi) & Hl & _ & Hold).
  assert ((forall k, k <> key -> forall x, pa_ips a !! x = Some k -> ips !! x = Some k) /\
          (de_IP ep <> ""%string -> ips !! slash (de_NetworkID ep) (de_IP ep) = Some key)) as [Hk1 Hk2].
  { case_bool_decide as E; simpl in Hips; simplify_eq.
    - split; [done|]. intros. by apply Hold.
    - destruct (other_owner _ _ _) eqn:Ho; simplify_eq. split.
      + intros k Hne x Hx. rewrite lookup_insert_ne; [done|]. intros <-. by apply (other_owner_false _ _ _ k) in Ho.
      + intros _. destruct Hi as [|<-]; [done|]. rewrite En. by rewrite lookup_insert_eq. }
  split; simpl.
  - intros k ep' Hk. destruct (decide (k = key)) as [->|Hne].
    + rewrite lookup_insert_eq in Hk. simplify_eq. split_and!; simpl; try done. by eapply placed_backed.
    + rewrite lookup_insert_ne in Hk by done. destruct (Hothers _ _ Hne Hk) as (? & ? & ? & ? & ?).
      split_and!; try done. intros. apply Hk1; auto.
  - intros mk k Hmk. destruct (Hm _ _ Hmk) as (ep' & Hep' & ->). destruct (decide (k = key)) as [->|Hne].
    + eexists. rewrite lookup_insert_eq. simplify_eq. done.
    + exists ep'. by rewrite lookup_insert_ne.
Qed.

Lemma poll_path_inv a path iss iss' a' :
  path ∈ paths -> poll_inv a -> poll_path c a path iss = (iss', Ok a') -> poll_inv a'.
Proof.
  intros Hpath Hinv. unfold poll_path. destruct (DecodeRemoteType2 path _) as [key [r|e]] eqn:Hd; [|done].
  intros H. repeat match type of H with
  | (if ?b then _ else _) _ = _ => destruct b eqn:?; msteps
  | (match ?x with _ => _ end) _ = _ => destruct x eqn:?; msteps
  end; simplify_eq; try done.
  match goal with H : ValidateRoute c r = Ok ?v |- _ => pose proof (ValidateRoute_ok _ _ H) as (Hr & _);
    eapply (admit_route_inv _ v); [|exists path, key; by rewrite Hr|eassumption] end. done.
Qed.
End loop.

(** The final form of an endpoint: its routes in order. *)
Definition finish_endpoint (ep : DesiredRemoteEndpoint) : DesiredRemoteEndpoint :=
  set_routes (sort_by (fun v => rp_Key (d_Source (v_Route v))) (de_Routes ep)) ep.

Lemma finish_endpoint_backed ep : endpoint_backed ep -> endpoint_backed (finish_endpoint ep).
Proof.
  intros (Hv & Hk & Hne & Hr & Hip). unfold endpoint_backed, finish_endpoint. simpl.
  pose proof (merge_sort_Permutation (key_le (fun v => rp_Key (d_Source (v_Route v)))) (de_Routes ep)) as Hp.
  split_and!; try done.
  - intros E. unfold sort_by in E. rewrite E in Hp. by apply Permutation_nil_l in Hp.
  - unfold sort_by. change (route_of (set_routes _ ep)) with (route_of ep). by rewrite Hp.
  - intros E. unfold sort_by. rewrite Hp. auto.
Qed.

Lemma backed_allowed ep : endpoint_backed ep -> endpoint_allowed ep.
Proof.
  intros Hb. destruct (backed_triple ep Hb) as (v & (path & key & _ & _ & Hv) & Ht & Hvni & Hin).
  destruct Hb as (_ & _ & _ & Hr & _). rewrite Forall_forall in Hr. destruct (Hr v Hin) as (_ & _ & _ & _ & Hnh & _).
  apply ValidateRoute_ok in Hv as (_ & _ & Hu & Hl & Hi & n & Hn & En & Ev & Ha).
  unfold triple in Ht. simplify_eq. exists n. rewrite <-Hnh, <-Hvni. split_and!; congruence.
Qed.

(** The endpoints of a snapshot, by the map they come from. *)
Lemma observe_run confirmed iss iss' n :
  RemoteImportConfig_Validate c = Ok tt -> collision_free ->
  observe c confirmed paths iss = (iss', Ok n) ->
  exists a, poll_inv a /\ is_Endpoints n ≡ₚ finish_endpoint <$> (map_to_list (pa_endpoints a)).*2.
Proof.
  intros Hc Hfree H. unfold observe in H. msteps. simplify_eq/=.
  match goal with H : mfold _ _ _ _ = (_, Ok ?a) |- _ => exists a; rename H into Hfold end. split.
  - eapply (mfold_invariant _ (fun _ a _ => poll_inv a)) in Hfold; [done|..].
    + split; [intros k ep Hk|intros k ep Hk]; exfalso; simpl in Hk; revert Hk; rewrite lookup_empty; done.
    + intros. by eapply poll_path_inv.
  - apply merge_sort_Permutation.
Qed.

(** What an observation publishes is backed by the RIB and allowed by the
    policy.  Under a valid configuration, every endpoint of a successful
    observation lists at least one route, each decoded from a path of the RIB,
    validated by the policy and agreeing with the endpoint on network, VNI, MAC,
    next hop and, where it has one, IP; an IP is confirmed by one of them.  Its VTEP
    is a unicast address allowed for that network and not the local one.  In one
    network no MAC and no IP has two endpoints, and keys are unique. *)
Theorem observe_sound confirmed iss iss' n :
  RemoteImportConfig_Validate c = Ok tt -> collision_free ->
  observe c confirmed paths iss = (iss', Ok n) ->
  Forall (fun ep => endpoint_backed ep /\ endpoint_allowed ep) (is_Endpoints n) /\
  NoDup (de_Key <$> is_Endpoints n) /\
  (forall e1 e2, e1 ∈ is_Endpoints n -> e2 ∈ is_Endpoints n -> de_NetworkID e1 = de_NetworkID e2 ->
     de_MAC e1 = de_MAC e2 \/ (de_IP e1 <> ""%string /\ de_IP e1 = de_IP e2) -> e1 = e2).
Proof.
  intros Hc Hfree (a & [Ha _] & Hp)%observe_run; [|done..].
  assert (forall e, e ∈ is_Endpoints n -> exists k ep, e = finish_endpoint ep /\ pa_endpoints a !! k = Some ep) as Hin.
  { intros e. rewrite Hp. intros (ep & -> & ([k ?] & -> & Hk%elem_of_map_to_list)%list_elem_of_fmap)%list_elem_of_fmap. eauto. }
  split_and!.
  - apply Forall_forall. intros e (k & ep & -> & Hk)%Hin. destruct (Ha _ _ Hk) as (Hb%finish_endpoint_backed & _).
    split; [done|by apply backed_allowed].
  - rewrite Hp, <-!list_fmap_compose. rewrite (list_fmap_ext _ fst); [apply NoDup_fst_map_to_list|].
    intros i [k ep] Hk%list_elem_of_lookup_2%elem_of_map_to_list. by destruct (Ha _ _ Hk) as (_ & ? & _).
  - intros e1 e2 (k1 & p1 & -> & H1)%Hin (k2 & p2 & -> & H2)%Hin. simpl. intros En Hor.
    assert (k1 = k2) as ->; [|congruence].
    destruct (Ha _ _ H1) as (_ & _ & _ & Hm1 & Hi1), (Ha _ _ H2) as (_ & _ & _ & Hm2 & Hi2).
    destruct Hor as [E|[E1 E2]]; [congruence|]. rewrite E2 in E1, Hi1. rewrite En in Hi1. specialize (Hi1 E1). specialize (Hi2 E1). congruence.
Qed.
End soundness.
