(* ===== verification/Netlink.v ===== *)
(** * Owned kernel state

    Models [src/pkg/evpn/owned_netlink.go] and [src/pkg/evpn/remote_recovery.go]: the
    backend that programs FDB and neighbour entries of remote endpoints, with a
    receipt for every entry it created, a marker file, and the ownership journal.
    The kernel, the link subscription and the system identity are parameters.

    Receipts are pointers in Go: an operation on one object of a receipt changes the
    state that [durableState] reads.  Here an object is named by its key and side, and
    is read and written in the state. *)

From S2P Require Import Prelude GoStd Journal Type2 Reconciler GobgpAdapter RemoteType2.

(** ** Data *)

Record RemoteNetlinkNetwork := {
  nn_NetworkID : string;
  nn_LogicalSwitch : string;
  nn_VNI : Z;
  nn_BridgeDevice : string;
  nn_VXLANDevice : string;
}.

Record RemoteNetlinkConfig := {
  nc_Enabled : bool;
  nc_ExclusiveWriter : bool;
  nc_StateDirectory : string;
  nc_Networks : list RemoteNetlinkNetwork;
  nc_Recovery : option Domain;
}.

Record RemoteDeviceIdentity := {
  rd_Name : string;
  rd_Ifindex : Z;
  rd_Kind : string;
  rd_MasterIndex : Z;
  rd_VNI : Z;
  rd_Local : string;
  rd_Port : Z;
  rd_MAC : string;
  rd_Alias : string;
}.

Record RemoteKernelEntry := {
  ke_Family : Z;
  ke_Ifindex : Z;
  ke_MAC : string;
  ke_IP : string;
  ke_State : Z;
  ke_Flags : Z;
  ke_FlagsExt : Z;
  ke_Type : Z;
  ke_VLAN : Z;
  ke_VNI : Z;
  ke_Master : Z;
}.

Record RemoteObjectReceipt := {
  ob_Request : RemoteKernelEntry;
  ob_Observed : RemoteKernelEntry;
  ob_Status : string;
  ob_ACK : bool;
  ob_DeleteACK : bool;
  ob_Error : string;
}.

Record RemoteNetlinkReceipt := {
  nr_Controller : string;
  nr_Target : string;
  nr_Network : RemoteNetlinkNetwork;
  nr_Endpoint : DesiredRemoteEndpoint;
  nr_Incarnation : Z;
  nr_Generation : Z;
  nr_Devices : list RemoteDeviceIdentity;
  nr_FDB : RemoteObjectReceipt;
  nr_Neighbor : option RemoteObjectReceipt;
  nr_Status : string;
  nr_Retiring : bool;
}.

(** [remoteReceiptState]; a nil map is [None], a nil receipt [None]. *)
Record remoteReceiptState := {
  rs_Version : Z;
  rs_Controller : string;
  rs_Target : string;
  rs_Networks : list RemoteNetlinkNetwork;
  rs_Devices : gmap string RemoteDeviceIdentity;
  rs_Receipts : option (gmap string (option RemoteNetlinkReceipt));
  rs_Latest : option (gmap string Z);
  rs_Snapshot : RemoteImportSnapshot;
  rs_Quarantine : string;
}.

(** [ImportedType2Route] *)
Record ImportedType2Route := {
  ir_Key : string;
  ir_NetworkName : string;
  ir_VNI : Z;
  ir_MAC : string;
  ir_IP : string;
  ir_RemoteVTEP : string;
  ir_VXLANDevice : string;
  ir_BridgeDevice : string;
  ir_NeighborDevice : string;
  ir_incarnation : Z;
  ir_generation : Z;
  ir_validated : option DesiredRemoteEndpoint;
  ir_retiring : bool;
}.

(** [ownedNetlinkState], without the handles: the kernel and the subscription are
    parameters, and the test hook [fault] does nothing in a running process. *)
Record ownedNetlinkState := {
  os_config : RemoteNetlinkConfig;
  os_controller : string;
  os_target : string;
  os_devices : gmap string RemoteDeviceIdentity;
  os_receipts : gmap string RemoteNetlinkReceipt;
  os_withdrawals : list RemoteNetlinkReceipt;
  os_latest : gmap string Z;
  os_lost : bool;
  os_blocked : string;
  os_closed : bool;
  os_markerPath : string;
  os_journal : option Journal;
  os_snapshot : RemoteImportSnapshot;
  os_recoveryState : string;
}.

#[export] Instance RemotePathIdentity_eq_dec : EqDecision RemotePathIdentity.
Proof. solve_decision. Defined.
#[export] Instance DecodedRemoteType2_eq_dec : EqDecision DecodedRemoteType2.
Proof. solve_decision. Defined.
#[export] Instance ValidatedRemoteRoute_eq_dec : EqDecision ValidatedRemoteRoute.
Proof. solve_decision. Defined.
#[export] Instance DesiredRemoteEndpoint_eq_dec : EqDecision DesiredRemoteEndpoint.
Proof. solve_decision. Defined.
#[export] Instance RemoteNetlinkNetwork_eq_dec : EqDecision RemoteNetlinkNetwork.
Proof. solve_decision. Defined.
#[export] Instance RemoteDeviceIdentity_eq_dec : EqDecision RemoteDeviceIdentity.
Proof. solve_decision. Defined.
#[export] Instance RemoteKernelEntry_eq_dec : EqDecision RemoteKernelEntry.
Proof. solve_decision. Defined.

Definition zero_device : RemoteDeviceIdentity :=
  {| rd_Name := ""; rd_Ifindex := 0; rd_Kind := ""; rd_MasterIndex := 0; rd_VNI := 0; rd_Local := "";
     rd_Port := 0; rd_MAC := ""; rd_Alias := "" |}.
Definition zero_entry : RemoteKernelEntry :=
  {| ke_Family := 0; ke_Ifindex := 0; ke_MAC := ""; ke_IP := ""; ke_State := 0; ke_Flags := 0;
     ke_FlagsExt := 0; ke_Type := 0; ke_VLAN := 0; ke_VNI := 0; ke_Master := 0 |}.
Definition new_object (request : RemoteKernelEntry) : RemoteObjectReceipt :=
  {| ob_Request := request; ob_Observed := zero_entry; ob_Status := "unattempted"; ob_ACK := false;
     ob_DeleteACK := false; ob_Error := "" |}.

(** ** Linux constants *)

Definition AF_INET : Z := 2.
Definition AF_BRIDGE : Z := 7.
Definition AF_INET6 : Z := 10.
Definition RTN_UNICAST : Z := 1.
Definition RTN_BROADCAST : Z := 3.
Definition NUD_NOARP : Z := 64.
Definition NUD_PERMANENT : Z := 128.
Definition NTF_SELF : Z := 2.
Definition NTF_EXT_LEARNED : Z := 16.
Definition RTM_DELLINK : Z := 17.
Definition AT_FDCWD : Z := -100.
Definition EPERM : Z := 1.
Definition ESRCH : Z := 3.
Definition EACCES : Z := 13.
Definition EINVAL : Z := 22.
Definition EOPNOTSUPP : Z := 95.

(** ** The netlink library *)

Record Vxlan := { vx_VxlanId : Z; vx_SrcAddr : option Addr; vx_Port : Z }.
(** [netlink.Link] with its [Attrs] and [Type]. *)
Record Link := {
  l_Name : string;
  l_Index : Z;
  l_Type : string;
  l_MasterIndex : Z;
  l_HardwareAddr : list Z;
  l_Alias : string;
  l_Vxlan : option Vxlan;
}.
(** [netlink.LinkUpdate] *)
Record LinkUpdate := { lu_Type : Z; lu_Family : Z; lu_Link : option Link }.
(** [netlink.Neigh]; an empty [IP] is [None]. *)
Record Neigh := {
  ng_LinkIndex : Z;
  ng_Family : Z;
  ng_State : Z;
  ng_Flags : Z;
  ng_FlagsExt : Z;
  ng_Type : Z;
  ng_IP : option Addr;
  ng_HardwareAddr : list Z;
  ng_Vlan : Z;
  ng_VNI : Z;
  ng_MasterIndex : Z;
}.

(** [ownedKernel] *)
Class ownedKernel (W : Type) := {
  LinkByName : string -> M W Link;
  NeighList : Z -> Z -> M W (list Neigh);
  NeighAdd : Neigh -> M W unit;
  NeighDel : Neigh -> M W unit;
  KernelClose : M W unit;
}.

(** The link subscription: the updates one drain of the channel receives, whether it
    then found the channel closed, and the flag its error callback sets. *)
Class LinkSubscription (W : Type) := {
  recv_updates : W -> W * (list LinkUpdate * bool);
  subscription_lost : W -> bool;
}.

(** The system identity and handles of a new backend. *)
Class SystemLib (W : Type) := {
  netns_Get : M W string;
  netns_Close : M W unit;
  ReadBootID : M W string;
  newOwnedKernelHandle : M W unit;
  SetSocketTimeout : M W unit;
  LinkSubscribe : M W unit;
  uuid_NewString : W -> W * string;
}.

(** A [context.Context] as the error it reports. *)
Definition Context (W : Type) : Type := W -> option error.
Definition Background {W} : Context W := fun _ => None.

(** [filepath.Join] of an absolute directory and a name. *)
Definition path_step (acc : list string) (part : string) : list string :=
  if bool_decide (part ∈ [""; "."]%string) then acc
  else if bool_decide (part = ".."%string) then tail acc else part :: acc.
Definition filepath_Join (dir name : string) : string :=
  ("/" +:+ Join (rev (foldl path_step [] (path_parts dir ++ [name]))) "/")%string.

(** ** Field updates *)

Definition with_controller (v : string) (s : ownedNetlinkState) : ownedNetlinkState :=
  {| os_config := os_config s; os_controller := v; os_target := os_target s; os_devices := os_devices s;
     os_receipts := os_receipts s; os_withdrawals := os_withdrawals s; os_latest := os_latest s; os_lost
     := os_lost s; os_blocked := os_blocked s; os_closed := os_closed s; os_markerPath := os_markerPath
     s; os_journal := os_journal s; os_snapshot := os_snapshot s; os_recoveryState := os_recoveryState s |}.
Definition with_devices (v : gmap string RemoteDeviceIdentity) (s : ownedNetlinkState) : ownedNetlinkState :=
  {| os_config := os_config s; os_controller := os_controller s; os_target := os_target s; os_devices :=
     v; os_receipts := os_receipts s; os_withdrawals := os_withdrawals s; os_latest := os_latest s;
     os_lost := os_lost s; os_blocked := os_blocked s; os_closed := os_closed s; os_markerPath :=
     os_markerPath s; os_journal := os_journal s; os_snapshot := os_snapshot s; os_recoveryState :=
     os_recoveryState s |}.
Definition with_receipts (v : gmap string RemoteNetlinkReceipt) (s : ownedNetlinkState) : ownedNetlinkState :=
  {| os_config := os_config s; os_controller := os_controller s; os_target := os_target s; os_devices :=
     os_devices s; os_receipts := v; os_withdrawals := os_withdrawals s; os_latest := os_latest s;
     os_lost := os_lost s; os_blocked := os_blocked s; os_closed := os_closed s; os_markerPath :=
     os_markerPath s; os_journal := os_journal s; os_snapshot := os_snapshot s; os_recoveryState :=
     os_recoveryState s |}.
Definition with_withdrawals (v : list RemoteNetlinkReceipt) (s : ownedNetlinkState) : ownedNetlinkState :=
  {| os_config := os_config s; os_controller := os_controller s; os_target := os_target s; os_devices :=
     os_devices s; os_receipts := os_receipts s; os_withdrawals := v; os_latest := os_latest s; os_lost
     := os_lost s; os_blocked := os_blocked s; os_closed := os_closed s; os_markerPath := os_markerPath
     s; os_journal := os_journal s; os_snapshot := os_snapshot s; os_recoveryState := os_recoveryState s |}.
Definition with_latest (v : gmap string Z) (s : ownedNetlinkState) : ownedNetlinkState :=
  {| os_config := os_config s; os_controller := os_controller s; os_target := os_target s; os_devices :=
     os_devices s; os_receipts := os_receipts s; os_withdrawals := os_withdrawals s; os_latest := v;
     os_lost := os_lost s; os_blocked := os_blocked s; os_closed := os_closed s; os_markerPath :=
     os_markerPath s; os_journal := os_journal s; os_snapshot := os_snapshot s; os_recoveryState :=
     os_recoveryState s |}.
Definition with_lost (v : bool) (s : ownedNetlinkState) : ownedNetlinkState :=
  {| os_config := os_config s; os_controller := os_controller s; os_target := os_target s; os_devices :=
     os_devices s; os_receipts := os_receipts s; os_withdrawals := os_withdrawals s; os_latest :=
     os_latest s; os_lost := v; os_blocked := os_blocked s; os_closed := os_closed s; os_markerPath :=
     os_markerPath s; os_journal := os_journal s; os_snapshot := os_snapshot s; os_recoveryState :=
     os_recoveryState s |}.
Definition with_blocked (v : string) (s : ownedNetlinkState) : ownedNetlinkState :=
  {| os_config := os_config s; os_controller := os_controller s; os_target := os_target s; os_devices :=
     os_devices s; os_receipts := os_receipts s; os_withdrawals := os_withdrawals s; os_latest :=
     os_latest s; os_lost := os_lost s; os_blocked := v; os_closed := os_closed s; os_markerPath :=
     os_markerPath s; os_journal := os_journal s; os_snapshot := os_snapshot s; os_recoveryState :=
     os_recoveryState s |}.
Definition with_closed (v : bool) (s : ownedNetlinkState) : ownedNetlinkState :=
  {| os_config := os_config s; os_controller := os_controller s; os_target := os_target s; os_devices :=
     os_devices s; os_receipts := os_receipts s; os_withdrawals := os_withdrawals s; os_latest :=
     os_latest s; os_lost := os_lost s; os_blocked := os_blocked s; os_closed := v; os_markerPath :=
     os_markerPath s; os_journal := os_journal s; os_snapshot := os_snapshot s; os_recoveryState :=
     os_recoveryState s |}.
Definition with_markerPath (v : string) (s : ownedNetlinkState) : ownedNetlinkState :=
  {| os_config := os_config s; os_controller := os_controller s; os_target := os_target s; os_devices :=
     os_devices s; os_receipts := os_receipts s; os_withdrawals := os_withdrawals s; os_latest :=
     os_latest s; os_lost := os_lost s; os_blocked := os_blocked s; os_closed := os_closed s;
     os_markerPath := v; os_journal := os_journal s; os_snapshot := os_snapshot s; os_recoveryState :=
     os_recoveryState s |}.
Definition with_journal (v : option Journal) (s : ownedNetlinkState) : ownedNetlinkState :=
  {| os_config := os_config s; os_controller := os_controller s; os_target := os_target s; os_devices :=
     os_devices s; os_receipts := os_receipts s; os_withdrawals := os_withdrawals s; os_latest :=
     os_latest s; os_lost := os_lost s; os_blocked := os_blocked s; os_closed := os_closed s;
     os_markerPath := os_markerPath s; os_journal := v; os_snapshot := os_snapshot s; os_recoveryState :=
     os_recoveryState s |}.
Definition with_snapshot (v : RemoteImportSnapshot) (s : ownedNetlinkState) : ownedNetlinkState :=
  {| os_config := os_config s; os_controller := os_controller s; os_target := os_target s; os_devices :=
     os_devices s; os_receipts := os_receipts s; os_withdrawals := os_withdrawals s; os_latest :=
     os_latest s; os_lost := os_lost s; os_blocked := os_blocked s; os_closed := os_closed s;
     os_markerPath := os_markerPath s; os_journal := os_journal s; os_snapshot := v; os_recoveryState :=
     os_recoveryState s |}.
Definition with_recoveryState (v : string) (s : ownedNetlinkState) : ownedNetlinkState :=
  {| os_config := os_config s; os_controller := os_controller s; os_target := os_target s; os_devices :=
     os_devices s; os_receipts := os_receipts s; os_withdrawals := os_withdrawals s; os_latest :=
     os_latest s; os_lost := os_lost s; os_blocked := os_blocked s; os_closed := os_closed s;
     os_markerPath := os_markerPath s; os_journal := os_journal s; os_snapshot := os_snapshot s;
     os_recoveryState := v |}.

(** The objects of a receipt, and their updates. *)
Inductive side := OnFDB | OnNeighbor.
#[export] Instance side_eq_dec : EqDecision side.
Proof. solve_decision. Defined.

Definition obj_of (o : side) (r : RemoteNetlinkReceipt) : option RemoteObjectReceipt :=
  match o with OnFDB => Some (nr_FDB r) | OnNeighbor => nr_Neighbor r end.
Definition put_obj (o : side) (x : RemoteObjectReceipt) (r : RemoteNetlinkReceipt) : RemoteNetlinkReceipt :=
  {| nr_Controller := nr_Controller r; nr_Target := nr_Target r; nr_Network := nr_Network r;
     nr_Endpoint := nr_Endpoint r; nr_Incarnation := nr_Incarnation r; nr_Generation := nr_Generation r;
     nr_Devices := nr_Devices r; nr_FDB := if o is OnFDB then x else nr_FDB r;
     nr_Neighbor := if o is OnNeighbor then Some x else nr_Neighbor r;
     nr_Status := nr_Status r; nr_Retiring := nr_Retiring r |}.
Definition put_status (status : string) (retiring : bool) (r : RemoteNetlinkReceipt) : RemoteNetlinkReceipt :=
  {| nr_Controller := nr_Controller r; nr_Target := nr_Target r; nr_Network := nr_Network r;
     nr_Endpoint := nr_Endpoint r; nr_Incarnation := nr_Incarnation r; nr_Generation := nr_Generation r;
     nr_Devices := nr_Devices r; nr_FDB := nr_FDB r; nr_Neighbor := nr_Neighbor r;
     nr_Status := status; nr_Retiring := retiring |}.

Definition ob_set (observed : RemoteKernelEntry) (status : string) (ack dack : bool) (err : string)
    (x : RemoteObjectReceipt) : RemoteObjectReceipt :=
  {| ob_Request := ob_Request x; ob_Observed := observed; ob_Status := status; ob_ACK := ack;
     ob_DeleteACK := dack; ob_Error := err |}.
(** [r.Status, r.Error = status, err] *)
Definition ob_status (status err : string) (x : RemoteObjectReceipt) : RemoteObjectReceipt :=
  ob_set (ob_Observed x) status (ob_ACK x) (ob_DeleteACK x) err x.

(** ** Entries *)

(** [remoteDeviceIdentity] *)
Definition remoteDeviceIdentity (link : Link) : RemoteDeviceIdentity :=
  let v := l_Vxlan link in
  {| rd_Name := l_Name link; rd_Ifindex := l_Index link; rd_Kind := l_Type link;
     rd_MasterIndex := l_MasterIndex link;
     rd_VNI := from_option vx_VxlanId 0 v;
     rd_Local := match v with
                 | Some v => from_option (fun ip => Addr_String (unmap ip)) "<nil>"%string (vx_SrcAddr v)
                 | None => ""%string
                 end;
     rd_Port := from_option vx_Port 0 v;
     rd_MAC := HardwareAddr_String (l_HardwareAddr link); rd_Alias := l_Alias link |}.

(** [linkLifetimeChanged] *)
Definition linkLifetimeChanged (update : LinkUpdate) (prior : RemoteDeviceIdentity) : bool :=
  match lu_Link update with
  | None => true
  | Some link =>
      (lu_Type update =? RTM_DELLINK)
      || negb (l_Index link =? rd_Ifindex prior) || negb (bool_decide (l_Name link = rd_Name prior))
      || (negb (lu_Family update =? AF_BRIDGE) && negb (bool_decide (remoteDeviceIdentity link = prior)))
  end.

(** [kernelEntry] *)
Definition kernelEntry (n : Neigh) : RemoteKernelEntry :=
  {| ke_Family := ng_Family n; ke_Ifindex := ng_LinkIndex n; ke_MAC := HardwareAddr_String (ng_HardwareAddr n);
     ke_IP := from_option (fun ip => Addr_String (unmap ip)) ""%string (ng_IP n);
     ke_State := ng_State n; ke_Flags := ng_Flags n; ke_FlagsExt := ng_FlagsExt n; ke_Type := ng_Type n;
     ke_VLAN := ng_Vlan n; ke_VNI := ng_VNI n; ke_Master := ng_MasterIndex n |}.

(** [RemoteKernelEntry.neigh] *)
Definition neigh (e : RemoteKernelEntry) : Neigh :=
  {| ng_LinkIndex := ke_Ifindex e; ng_Family := ke_Family e; ng_State := ke_State e; ng_Flags := ke_Flags e;
     ng_FlagsExt := ke_FlagsExt e; ng_Type := ke_Type e; ng_IP := ParseIP (ke_IP e);
     ng_HardwareAddr := default [] (ParseMAC (ke_MAC e)); ng_Vlan := ke_VLAN e; ng_VNI := ke_VNI e;
     ng_MasterIndex := ke_Master e |}.

(** [sameKernelSlot] *)
Definition sameKernelSlot (a b : RemoteKernelEntry) : bool :=
  if negb (ke_Family a =? ke_Family b) || negb (ke_Ifindex a =? ke_Ifindex b) then false
  else if ke_Family a =? AF_BRIDGE then bool_decide (ke_MAC a = ke_MAC b) else bool_decide (ke_IP a = ke_IP b).

(** [errors.As(err, &errno)] *)
Fixpoint errno_As (e : error) : option Z :=
  match e with
  | Errno n => Some n
  | Wrapped _ e => errno_As e
  | Joined a b => match errno_As a with Some n => Some n | None => errno_As b end
  | _ => None
  end.

(** [definitiveReject] *)
Definition definitiveReject (e : error) : bool :=
  match errno_As e with
  | Some n => bool_decide (n ∈ [EEXIST; EPERM; EACCES; EINVAL; EOPNOTSUPP; ENOENT; ESRCH])
  | None => false
  end.

(** [RemoteNetlinkConfig.Validate]: one network; [seen] are the names, VNIs and
    devices so far. *)
Definition netlink_network_step (seen : gset string * gset Z * gset string) (n : RemoteNetlinkNetwork)
    : result (gset string * gset Z * gset string) :=
  let '(names, vnis, devices) := seen in
  if blank (nn_NetworkID n) || blank (nn_LogicalSwitch n) || (nn_VNI n =? 0) || (max_vni <? nn_VNI n)
     || bool_decide (nn_NetworkID n ∈ names) || bool_decide (nn_VNI n ∈ vnis)
  then Err (Errorf "unique explicit network/switch/VNI mapping required") else
  let? devices := rfold (fun devices name =>
      if bool_decide (name = ""%string) || (15 <? Z.of_nat (String.length name))
         || ContainsAny name (str (byte <$> [47; 32; 9; 10])) || bool_decide (name ∈ devices)
      then Err (Errorf "distinct explicit Linux device names required")
      else Ok ({[name]} ∪ devices)) devices [nn_BridgeDevice n; nn_VXLANDevice n] in
  Ok ({[nn_NetworkID n]} ∪ names, {[nn_VNI n]} ∪ vnis, devices).

Definition RemoteNetlinkConfig_Validate (c : RemoteNetlinkConfig) : result unit :=
  if negb (nc_Enabled c) then Ok tt
  else if negb (nc_ExclusiveWriter c) || negb (HasPrefix (nc_StateDirectory c) "/")
          || bool_decide (length (nc_Networks c) = 0%nat)
  then Err (Errorf "remote Netlink requires explicit exclusive writer, absolute state directory and networks")
  else let? _ := rfold netlink_network_step (∅, ∅, ∅) (nc_Networks c) in Ok tt.

(** [ownedNetlinkState.newReceipt]; a device that is not known reads as the zero
    value.  The route's proof is present at every call. *)
Definition device_of (s : ownedNetlinkState) (name : string) : RemoteDeviceIdentity :=
  default zero_device (os_devices s !! name).
Definition fdb_request (s : ownedNetlinkState) (network : RemoteNetlinkNetwork) (mac vtep : string) : RemoteKernelEntry :=
  {| ke_Family := AF_BRIDGE; ke_Ifindex := rd_Ifindex (device_of s (nn_VXLANDevice network)); ke_MAC := mac;
     ke_IP := vtep; ke_State := Z.lor NUD_NOARP NUD_PERMANENT; ke_Flags := Z.lor NTF_SELF NTF_EXT_LEARNED;
     ke_FlagsExt := 0; ke_Type := RTN_UNICAST; ke_VLAN := 0; ke_VNI := 0; ke_Master := 0 |}.
Definition neigh_request (s : ownedNetlinkState) (network : RemoteNetlinkNetwork) (mac ip : string) : RemoteKernelEntry :=
  {| ke_Family := match ParseIP ip with Some (Addr4 _ _ _ _) => AF_INET | _ => AF_INET6 end;
     ke_Ifindex := rd_Ifindex (device_of s (nn_BridgeDevice network)); ke_MAC := mac; ke_IP := ip;
     ke_State := NUD_NOARP; ke_Flags := NTF_EXT_LEARNED; ke_FlagsExt := 0; ke_Type := 0; ke_VLAN := 0;
     ke_VNI := 0; ke_Master := 0 |}.
Definition newReceipt (s : ownedNetlinkState) (network : RemoteNetlinkNetwork) (route : ImportedType2Route)
    : RemoteNetlinkReceipt :=
  {| nr_Controller := os_controller s; nr_Target := os_target s; nr_Network := network;
     nr_Endpoint := default zero_endpoint (ir_validated route);
     nr_Incarnation := ir_incarnation route; nr_Generation := ir_generation route;
     nr_Devices := [device_of s (nn_BridgeDevice network); device_of s (nn_VXLANDevice network)];
     nr_FDB := new_object (fdb_request s network (ir_MAC route) (ir_RemoteVTEP route));
     nr_Neighbor := if bool_decide (ir_IP route = ""%string) then None
                    else Some (new_object (neigh_request s network (ir_MAC route) (ir_IP route)));
     nr_Status := ""; nr_Retiring := false |}.

(** [receiptRoute] *)
Definition receiptRoute (r : RemoteNetlinkReceipt) : ImportedType2Route :=
  let ep := nr_Endpoint r in
  {| ir_Key := de_Key ep; ir_NetworkName := de_NetworkID ep; ir_VNI := de_VNI ep; ir_MAC := de_MAC ep;
     ir_IP := de_IP ep; ir_RemoteVTEP := de_RemoteVTEP ep; ir_VXLANDevice := nn_VXLANDevice (nr_Network r);
     ir_BridgeDevice := nn_BridgeDevice (nr_Network r); ir_NeighborDevice := nn_BridgeDevice (nr_Network r);
     ir_incarnation := nr_Incarnation r; ir_generation := nr_Generation r; ir_validated := Some ep;
     ir_retiring := nr_Retiring r |}.

(** [ownedNetlinkState.hasConfirmedEntry] *)
Definition obj_confirms (entry : RemoteKernelEntry) (x : RemoteObjectReceipt) : bool :=
  bool_decide (ob_Status x = "confirmed"%string) && ob_ACK x && bool_decide (ob_Observed x = entry).
Definition hasConfirmedEntry (s : ownedNetlinkState) (entry : RemoteKernelEntry) : bool :=
  existsb (fun '(_, r) => obj_confirms entry (nr_FDB r) || from_option (obj_confirms entry) false (nr_Neighbor r))
          (map_to_list (os_receipts s)).

(** [ownedNetlinkState.durableState] *)
Definition durableState (s : ownedNetlinkState) : remoteReceiptState :=
  {| rs_Version := 1; rs_Controller := os_controller s; rs_Target := os_target s;
     rs_Networks := nc_Networks (os_config s); rs_Devices := os_devices s;
     rs_Receipts := Some (Some <$> os_receipts s); rs_Latest := Some (os_latest s);
     rs_Snapshot := os_snapshot s; rs_Quarantine := os_blocked s |}.

(** ** The backend *)

Section backend.
Context {W : Type} {PX : Posix W} {SH : Sha256} {JR : Json record} {JE : Json envelope} {UL : UuidLib}.
Context {AT : ApiTypes} {BT : BgpTypes} {BL : BgpLib} {RL : RemoteLib}.
Context {JN : Json remoteReceiptState} {JO : Json (remoteReceiptState * RemoteObjectReceipt)} {JL : Json (list string)}.
Context {K : ownedKernel W} {LS : LinkSubscription W} {MR : MapRange}.
Notation NM := (M (ownedNetlinkState * W)).
Implicit Types (ctx : Context W) (key : string) (o : side).

Definition update (f : ownedNetlinkState -> ownedNetlinkState) : NM unit := modify (fun s => (f s.1, s.2)).
Definition block (reason : string) : NM unit := update (with_blocked reason).
Definition update_obj key o (f : RemoteObjectReceipt -> RemoteObjectReceipt) : NM unit :=
  update (fun s => with_receipts (alter (fun r => match obj_of o r with
                                                  | Some x => put_obj o (f x) r
                                                  | None => r
                                                  end) key (os_receipts s)) s).
Definition get_obj key o (s : ownedNetlinkState) : RemoteObjectReceipt :=
  default (new_object zero_entry) (r ← os_receipts s !! key; obj_of o r).
Definition read_obj key o : NM RemoteObjectReceipt := gets (fun s => get_obj key o s.1).

(** Call the journal the backend holds. *)
Definition on_owned {A} (m : M (Journal * W) A) : NM A :=
  fun s => match os_journal s.1 with
           | Some j => let '((j, w), a) := m (j, s.2) in ((with_journal (Some j) s.1, w), a)
           | None => (s, Err (Errorf "nil journal"))
           end.
Definition journaled : NM bool := gets (fun s => bool_decide (is_Some (os_journal s.1))).

(** Block the backend for a failed journal call. *)
Definition recovery_blocked (reason : string) : NM unit :=
  update (fun s => with_recoveryState "RECOVERY_BLOCKED" (with_blocked reason s)).

(** [ownedNetlinkState.ackMutation] *)
Definition ackMutation (sequence : Z) : NM unit :=
  let! j := journaled in
  if negb j then ret tt else
  let! s := gets fst in
  let! r := attempt (on_owned (Commit sequence (durableState s))) in
  match r with
  | Err e => do! recovery_blocked (error_text e) in fail e
  | Ok _ => ret tt
  end.

(** [ownedNetlinkState.checkpoint] *)
Definition checkpoint : NM unit :=
  let! j := journaled in
  if negb j then ret tt else
  let! s := gets fst in
  let! r := attempt (on_owned (Begin "importer-checkpoint" (durableState s))) in
  match r with
  | Err e => do! recovery_blocked (error_text e) in fail e
  | Ok seq => ackMutation seq
  end.

(** [ownedNetlinkState.beginMutation] *)
Definition beginMutation (operation : string) key o : NM Z :=
  let! j := journaled in
  if negb j then ret 0 else
  let! s := gets fst in
  let! r := attempt (on_owned (Begin operation (durableState s, get_obj key o s))) in
  match r with
  | Err e => do! recovery_blocked (error_text e) in fail e
  | Ok seq => ret seq
  end.

(** [ownedNetlinkState.quarantineError]: the error it returns. *)
Definition quarantineError : NM error :=
  let err := ErrBlocked "remote ownership quarantined" in
  let! j := journaled in
  if negb j then ret err else
  let! snap := attempt (on_owned Snapshot) in
  match snap with
  | Ok (_, None) =>
      let! c := attempt checkpoint in
      ret (default err (errors_Join (Some err) (to_error c)))
  | _ => ret err
  end.
Definition quarantine {A} : NM A := let! e := quarantineError in fail e.

(** [ownedNetlinkState.device] *)
Definition device (name : string) : NM RemoteDeviceIdentity :=
  let! link := on_snd (LinkByName name) in ret (remoteDeviceIdentity link).

(** The marker's content. *)
Definition newline : string := str [byte 10].
Definition marker_text (s : ownedNetlinkState) : string :=
  (os_controller s +:+ newline +:+ os_target s +:+ newline)%string.

(** [ownedNetlinkState.verifyMarker] *)
Definition verifyMarker (s : ownedNetlinkState) : M W unit :=
  let! fd := wrap (fun _ => ErrBlocked "journal requires its original marker")
                  (Openat AT_FDCWD (os_markerPath s) (flags_of [O_NOFOLLOW; O_NONBLOCK; O_CLOEXEC]) 0) in
  let! r := attempt (
    let! st := Fstat fd in
    if negb (Uid st =? 0) || negb (Z.land (Mode st) S_IFMT =? S_IFREG)
       || negb (Z.land (Mode st) mode_bits =? 384) || negb (Nlink st =? 1)
    then fail (ErrBlocked "unsafe importer marker") else
    let! value := attempt (ReadLimit fd 513) in
    if bool_decide (value = Ok (marker_text s)) then ret tt
    else fail (ErrBlocked "importer marker differs from durable controller/domain")) in
  do! attempt (Close_fd fd) in
  lift r.

(** The marker check of [check] for a backend without journal; the reason to block. *)
Definition markerChanged (s : ownedNetlinkState) : M W (option string) :=
  let! f := attempt (Openat AT_FDCWD (os_markerPath s) (flags_of [O_NOFOLLOW; O_CLOEXEC]) 0) in
  match f with
  | Err _ => ret (Some "ownership marker lost"%string)
  | Ok fd =>
      let! value := attempt (ReadLimit fd 512) in
      let! closed := attempt (Close_fd fd) in
      ret (if bool_decide (value = Ok (marker_text s)) && is_ok closed then None
           else Some "ownership marker changed or unreadable"%string)
  end.

Definition check_marker (s : ownedNetlinkState) : NM unit :=
  let! r := on_snd (markerChanged s) in
  match r with Some reason => block reason | None => ret tt end.

(** The update loop of [check]: the flag [lost] and the reason [blocked]. *)
Definition drain_step (devices : gmap string RemoteDeviceIdentity) (acc : bool * string) (u : LinkUpdate)
    : bool * string :=
  let '(lost, blocked) := acc in
  match lu_Link u with
  | None => (true, blocked)
  | Some link =>
      (lost,
       if bool_decide (blocked = ""%string)
          && existsb (fun '(name, id) => ((l_Index link =? rd_Ifindex id) || bool_decide (l_Name link = name))
                                         && linkLifetimeChanged u id) (map_to_list devices)
       then "managed device lifecycle/identity event; receipts invalidated"%string else blocked)
  end.
Definition drain : NM unit :=
  fun s =>
    let '(w, (updates, closed)) := recv_updates s.2 in
    let '(lost, blocked) := foldl (drain_step (os_devices s.1)) (os_lost s.1, os_blocked s.1) updates in
    let lost := lost || closed in
    let blocked := if (lost || subscription_lost w) && bool_decide (blocked = ""%string)
                   then "link observation continuity lost"%string else blocked in
    ((with_lost lost (with_blocked blocked s.1), w), Ok tt).

(** The device loop of [check]. *)
Definition check_devices : NM unit :=
  let! s := gets fst in
  mfold (fun _ '(name, expected) =>
    let! got := attempt (device name) in
    if bool_decide (got = Ok expected) then ret tt
    else do! block "device identity changed" in quarantine) tt (range (os_devices s)).

(** [ownedNetlinkState.check] *)
Definition check ctx : NM unit :=
  let! cerr := gets (fun s => ctx s.2) in
  do! lift (of_error cerr) in
  let! s := gets fst in
  if os_closed s then fail (Errorf "remote backend is closed") else
  do! (if bool_decide (is_Some (os_journal s)) then
         let! snap := attempt (on_owned Snapshot) in
         match snap with Err e => block (error_text e) | Ok _ => ret tt end
       else ret tt) in
  let! s := gets fst in
  do! (if bool_decide (os_markerPath s = ""%string) then ret tt
       else if bool_decide (is_Some (os_journal s)) then
         let! r := attempt (on_snd (verifyMarker s)) in
         match r with Err e => block (error_text e) | Ok _ => ret tt end
       else
         check_marker s) in
  do! drain in
  let! s := gets fst in
  if negb (bool_decide (os_blocked s = ""%string)) then quarantine else check_devices.

(** [ownedNetlinkState.slot] *)
Definition slot ctx (want : RemoteKernelEntry) : NM (list RemoteKernelEntry) :=
  do! check ctx in
  let! entries := attempt (on_snd (NeighList (ke_Ifindex want) (ke_Family want))) in
  match entries with
  | Err e => do! block ("kernel observation failed: " +:+ error_text e) in quarantine
  | Ok entries => ret (List.filter (fun e => sameKernelSlot e want) (kernelEntry <$> entries))
  end.

Definition set_type (t : Z) (e : RemoteKernelEntry) : RemoteKernelEntry :=
  {| ke_Family := ke_Family e; ke_Ifindex := ke_Ifindex e; ke_MAC := ke_MAC e; ke_IP := ke_IP e;
     ke_State := ke_State e; ke_Flags := ke_Flags e; ke_FlagsExt := ke_FlagsExt e; ke_Type := t;
     ke_VLAN := ke_VLAN e; ke_VNI := ke_VNI e; ke_Master := ke_Master e |}.

(** The entry [confirm] expects, given the one it found. *)
Definition expected_entry (x : RemoteObjectReceipt) (found : RemoteKernelEntry) : RemoteKernelEntry :=
  let request := ob_Request x in
  if bool_decide (ob_Status x = "confirmed"%string) then ob_Observed x
  else if (ke_Type request =? 0) && negb (ke_Family request =? AF_BRIDGE)
          && ((ke_Type found =? RTN_UNICAST) || (ke_Type found =? RTN_BROADCAST))
  then set_type (ke_Type found) request else request.

(** [ownedNetlinkState.confirm] *)
Definition confirm_obj ctx key o (absent : bool) : NM unit :=
  let! x := read_obj key o in
  let! found := slot ctx (ob_Request x) in
  let conflict :=
    do! block "kernel entry differs from confirmed operation" in
    do! update_obj key o (ob_status "conflict" "kernel entry differs from confirmed operation") in
    let! e := quarantineError in
    fail (Joined e (Errorf "want, observed")) in
  if absent then
    match found with
    | [] => update_obj key o (ob_status "absent-confirmed" "")
    | _ => conflict
    end
  else match found with
       | [f] => if bool_decide (f = expected_entry x f)
                then update_obj key o (fun x => ob_set f "confirmed" (ob_ACK x) (ob_DeleteACK x) "" x)
                else conflict
       | _ => conflict
       end.

(** The kernel's answer to a creation that failed. *)
Definition add_failed key o (e : error) : NM unit :=
  do! update_obj key o (ob_status "failed" (error_text e)) in
  do! (if negb (definitiveReject e) then
         do! update_obj key o (fun x => ob_status "outcome-unknown" (ob_Error x) x) in
         block "unacknowledged kernel creation"
       else ret tt) in
  let! j := journaled in
  do! (if j then recovery_blocked ("unresolved durable Netlink add intent: " +:+ error_text e) else ret tt) in
  fail (Wrapped "exclusive kernel creation" e).

(** The creation, once its intent is durable. *)
Definition add_object ctx key o (request : RemoteKernelEntry) (seq : Z) : NM unit :=
  let! found := slot ctx request in
  if negb (bool_decide (found = [])) then
    do! block "kernel slot changed while persisting creation intent" in
    fail (Errorf "kernel slot changed while persisting creation intent")
  else
  let! added := attempt (on_snd (NeighAdd (neigh request))) in
  match added with
  | Err e => add_failed key o e
  | Ok _ =>
      do! update_obj key o (fun x => ob_set (ob_Observed x) (ob_Status x) true (ob_DeleteACK x) (ob_Error x) x) in
      let! c := attempt (confirm_obj ctx key o false) in
      match c with
      | Err e =>
          do! update_obj key o (fun x => ob_status "outcome-unknown" (ob_Error x) x) in
          do! block "creation ACK without verified readback" in fail e
      | Ok _ => ackMutation seq
      end
  end.

(** [ownedNetlinkState.applyObject] *)
Definition applyObject ctx key o : NM unit :=
  let! x := read_obj key o in
  if bool_decide (ob_Status x = "confirmed"%string) then confirm_obj ctx key o false else
  let! found := slot ctx (ob_Request x) in
  if negb (bool_decide (found = [])) then
    do! update_obj key o (ob_status "conflict" "preexisting kernel slot is not owned") in
    do! block "preexisting kernel slot is not owned" in
    let! e := quarantineError in fail (Joined e (Errorf "observed"))
  else
  do! check ctx in
  do! update_obj key o (fun x => ob_status "pending" (ob_Error x) x) in
  let! seq := beginMutation "netlink-add" key o in
  add_object ctx key o (ob_Request x) seq.

(** The kernel's answer to a deletion that failed. *)
Definition delete_failed key o (e : error) : NM unit :=
  do! update_obj key o (fun x => ob_status (ob_Status x) (error_text e) x) in
  do! (if negb (definitiveReject e) then
         do! update_obj key o (fun x => ob_status "outcome-unknown" (ob_Error x) x) in
         block "unacknowledged kernel deletion"
       else ret tt) in
  let! j := journaled in
  do! (if j then recovery_blocked ("unresolved durable Netlink delete intent: " +:+ error_text e) else ret tt) in
  fail (Wrapped "owned kernel deletion" e).

(** The deletion, once its intent is durable. *)
Definition delete_object ctx key o (seq : Z) : NM unit :=
  do! confirm_obj ctx key o false in
  let! x := read_obj key o in
  let! deleted := attempt (on_snd (NeighDel (neigh (ob_Observed x)))) in
  match deleted with
  | Err e => delete_failed key o e
  | Ok _ =>
      do! update_obj key o (fun x => ob_set (ob_Observed x) (ob_Status x) (ob_ACK x) true (ob_Error x) x) in
      let! c := attempt (confirm_obj ctx key o true) in
      match c with
      | Err e =>
          do! update_obj key o (fun x => ob_status "outcome-unknown" (ob_Error x) x) in
          do! block "deletion ACK without verified absence" in fail e
      | Ok _ => ackMutation seq
      end
  end.

(** [ownedNetlinkState.withdrawObject] *)
Definition withdrawObject ctx key o : NM unit :=
  let! x := read_obj key o in
  if bool_decide (ob_Status x = "absent-confirmed"%string) then ret tt
  else if bool_decide (ob_Status x ∈ ["failed"; "unattempted"]%string) then
    let! found := slot ctx (ob_Request x) in
    if negb (bool_decide (found = [])) then
      do! block "unowned slot appeared during partial withdrawal" in
      fail (Errorf "unowned slot appeared during partial withdrawal")
    else update_obj key o (fun x => ob_status "absent-confirmed" (ob_Error x) x)
  else if negb (bool_decide (ob_Status x = "confirmed"%string)) || negb (ob_ACK x)
  then fail (Errorf "no confirmed receipt for withdrawal") else
  do! confirm_obj ctx key o false in
  do! check ctx in
  let! seq := beginMutation "netlink-delete" key o in
  delete_object ctx key o seq.

(** [ownedNetlinkState.route] *)
Definition route_proof (route : ImportedType2Route) : result unit :=
  match ir_validated route with
  | None => Err (Errorf "verified importer proof and route incarnation required")
  | Some ep =>
      if (ir_incarnation route =? 0) || (ir_generation route =? 0) || negb (de_Validated ep)
         || bool_decide (length (de_Routes ep) = 0%nat)
      then Err (Errorf "verified importer proof and route incarnation required")
      else if negb (bool_decide (de_Key ep = ir_Key route)) || negb (bool_decide (de_NetworkID ep = ir_NetworkName route))
              || negb (de_VNI ep =? ir_VNI route) || negb (bool_decide (de_MAC ep = ir_MAC route))
              || negb (bool_decide (de_IP ep = ir_IP route))
              || negb (bool_decide (de_RemoteVTEP ep = ir_RemoteVTEP route))
      then Err (Errorf "backend DTO differs from validated endpoint") else Ok tt
  end.
Definition route_network_of (s : ownedNetlinkState) (route : ImportedType2Route) : result RemoteNetlinkNetwork :=
  of_option (Errorf "no explicit remote network/device mapping")
    (List.find (fun n => bool_decide (nn_NetworkID n = ir_NetworkName route) && (nn_VNI n =? ir_VNI route)
                         && bool_decide (nn_VXLANDevice n = ir_VXLANDevice route)
                         && bool_decide (nn_BridgeDevice n = ir_NeighborDevice route)) (nc_Networks (os_config s))).
Definition route_check ctx (route : ImportedType2Route) : NM RemoteNetlinkNetwork :=
  do! check ctx in
  do! lift (route_proof route) in
  let! s := gets fst in
  lift (route_network_of s route).

(** The receipt is the one this controller holds for this route and payload. *)
Definition receipt_matches (s : ownedNetlinkState) (route : ImportedType2Route) (r : RemoteNetlinkReceipt) : bool :=
  bool_decide (nr_Controller r = os_controller s) && bool_decide (nr_Target r = os_target s)
  && (nr_Generation r =? ir_generation route) && (nr_Incarnation r =? ir_incarnation route)
  && bool_decide (Some (nr_Endpoint r) = ir_validated route).

Definition update_status key (status : string) (retiring : RemoteNetlinkReceipt -> bool) : NM unit :=
  update (fun s => with_receipts (alter (fun r => put_status status (retiring r) r) key (os_receipts s)) s).

(** [OVNNetlinkBackend.ownedApply] *)
Definition ownedApply ctx (route : ImportedType2Route) : NM unit :=
  let! network := route_check ctx route in
  let! s := gets fst in
  let key := ir_Key route in
  do! match os_receipts s !! key with
      | Some r => if receipt_matches s route r then ret tt else fail (Errorf "receipt incarnation/payload conflict")
      | None =>
          if ir_incarnation route <=? default 0 (os_latest s !! key) then fail (Errorf "stale route incarnation") else
          update (fun s => with_receipts (<[key := newReceipt s network route]> (os_receipts s))
                             (with_latest (<[key := ir_incarnation route]> (os_latest s)) s))
      end in
  do! update_status key "partially-applied" nr_Retiring in
  do! applyObject ctx key OnFDB in
  let! s := gets fst in
  do! match os_receipts s !! key ≫= nr_Neighbor with
      | Some _ => applyObject ctx key OnNeighbor
      | None => ret tt
      end in
  do! update_status key "applied" nr_Retiring in
  checkpoint.

(** [s.withdrawals], the last 64. *)
Definition keep_withdrawal (r : RemoteNetlinkReceipt) (l : list RemoteNetlinkReceipt) : list RemoteNetlinkReceipt :=
  let l := l ++ [r] in drop (length l - 64) l.

(** [OVNNetlinkBackend.ownedWithdraw] *)
Definition ownedWithdraw ctx (route : ImportedType2Route) : NM unit :=
  do! route_check ctx route in
  let! s := gets fst in
  let key := ir_Key route in
  match os_receipts s !! key with
  | None => fail (Errorf "withdrawal requires current controller/route receipt")
  | Some r =>
      if negb (receipt_matches s route r) || negb (default 0 (os_latest s !! key) =? ir_incarnation route)
      then fail (Errorf "withdrawal requires current controller/route receipt") else
      do! update_status key "partially-withdrawn" (fun _ => true) in
      do! checkpoint in
      do! match nr_Neighbor r with Some _ => withdrawObject ctx key OnNeighbor | None => ret tt end in
      do! withdrawObject ctx key OnFDB in
      do! update_status key "withdrawn" nr_Retiring in
      do! update (fun s => match os_receipts s !! key with
                           | Some r => with_receipts (delete key (os_receipts s))
                                         (with_withdrawals (keep_withdrawal r (os_withdrawals s)) s)
                           | None => s
                           end) in
      checkpoint
  end.

(** What [applyValidatedSnapshot] does to the backend: remember the snapshot before
    the routes, and report that it runs after them. *)
Definition record_snapshot (snapshot : RemoteImportSnapshot) : NM unit :=
  do! update (with_snapshot snapshot) in checkpoint.
Definition mark_running : NM unit :=
  update (fun s => if bool_decide (is_Some (os_journal s)) then with_recoveryState "RUNNING" s else s).

(** [OVNNetlinkBackend.Close], with [closeOwnershipJournal] *)
Definition backend_Close : NM unit :=
  let! s := gets fst in
  if os_closed s then ret tt else
  do! update (with_closed true) in
  let! k := attempt (on_snd KernelClose) in
  let! j := (if bool_decide (is_Some (os_journal s)) then attempt (on_owned Close) else ret (Ok tt)) in
  lift (of_error (errors_Join (to_error k) (to_error j))).

(** [OVNNetlinkBackend.RecoveryState] *)
Definition RecoveryState (s : ownedNetlinkState) : string :=
  if bool_decide (os_blocked s = ""%string) then os_recoveryState s else "RECOVERY_BLOCKED"%string.

(** ** Recovery *)

(** The device topology part of [validateReceipts]. *)
Definition topology_ok (s : ownedNetlinkState) (n : RemoteNetlinkNetwork) : bool :=
  match os_devices s !! nn_BridgeDevice n, os_devices s !! nn_VXLANDevice n with
  | Some br, Some vx =>
      bool_decide (rd_Name br = nn_BridgeDevice n) && bool_decide (rd_Name vx = nn_VXLANDevice n)
      && (0 <? rd_Ifindex br) && (0 <? rd_Ifindex vx)
      && bool_decide (rd_Kind br = "bridge"%string) && bool_decide (rd_Kind vx = "vxlan"%string)
      && (rd_VNI vx =? nn_VNI n) && (rd_MasterIndex vx =? rd_Ifindex br)
  | _, _ => false
  end.

(** The identity part, for one receipt. *)
Definition receipt_identity_ok (s : ownedNetlinkState) (key : string) (r : RemoteNetlinkReceipt) : bool :=
  let ep := nr_Endpoint r in
  bool_decide (nr_Controller r = os_controller s) && bool_decide (nr_Target r = os_target s)
  && bool_decide (de_Key ep = key) && bool_decide (key = remoteHash [de_NetworkID ep; de_MAC ep; de_IP ep])
  && negb (nr_Incarnation r =? 0) && negb (nr_Generation r =? 0)
  && (nr_Generation r <=? is_Generation (os_snapshot s))
  && (default 0 (os_latest s !! key) =? nr_Incarnation r) && de_Validated ep
  && negb (bool_decide (length (de_Routes ep) = 0%nat)).

Definition receipt_status_ok (r : RemoteNetlinkReceipt) : bool :=
  bool_decide (nr_Status r ∈ ["partially-applied"; "applied"; "partially-withdrawn"]%string)
  && bool_decide (nr_Retiring r = bool_decide (nr_Status r = "partially-withdrawn"%string)).

Definition receipt_network_ok (s : ownedNetlinkState) (r : RemoteNetlinkReceipt) : bool :=
  let n := nr_Network r in
  bool_decide (n ∈ nc_Networks (os_config s))
  && bool_decide (nn_NetworkID n = de_NetworkID (nr_Endpoint r)) && (nn_VNI n =? de_VNI (nr_Endpoint r))
  && bool_decide (nr_Devices r = [device_of s (nn_BridgeDevice n); device_of s (nn_VXLANDevice n)]).

(** The kernel tuples are those of the endpoint. *)
Definition receipt_requests_ok (s : ownedNetlinkState) (r : RemoteNetlinkReceipt) : bool :=
  let expected := newReceipt s (nr_Network r) (receiptRoute r) in
  bool_decide (ob_Request (nr_FDB expected) = ob_Request (nr_FDB r))
  && bool_decide (ob_Request <$> nr_Neighbor expected = ob_Request <$> nr_Neighbor r).

(** [slot] in [validateReceipts]; the separators keep the parts apart. *)
Definition slot_key (e : RemoteKernelEntry) : Z * Z * string :=
  (ke_Family e, ke_Ifindex e, if ke_Family e =? AF_BRIDGE then ke_MAC e else ke_IP e).

(** The evidence one object carries for its status. *)
Definition object_ok (x : RemoteObjectReceipt) : bool :=
  if bool_decide (ob_Status x = "confirmed"%string) then
    ob_ACK x && negb (ob_DeleteACK x)
    && bool_decide (ob_Observed x = set_type (ke_Type (ob_Observed x)) (ob_Request x))
    && (if ke_Family (ob_Request x) =? AF_BRIDGE then ke_Type (ob_Observed x) =? ke_Type (ob_Request x)
        else (ke_Type (ob_Observed x) =? RTN_UNICAST) || (ke_Type (ob_Observed x) =? RTN_BROADCAST))
  else if bool_decide (ob_Status x ∈ ["unattempted"; "failed"]%string) then
    negb (ob_ACK x) && negb (ob_DeleteACK x) && bool_decide (ob_Observed x = zero_entry)
  else bool_decide (ob_Status x = "absent-confirmed"%string).

Definition objects (r : RemoteNetlinkReceipt) : list RemoteObjectReceipt := nr_FDB r :: option_list (nr_Neighbor r).

Definition validate_object (slots : gset (Z * Z * string)) (x : RemoteObjectReceipt) : result (gset (Z * Z * string)) :=
  if bool_decide (slot_key (ob_Request x) ∈ slots) then Err (ErrBlocked "duplicate durable kernel slot")
  else if negb (object_ok x) then Err (ErrBlocked "invalid kernel receipt evidence")
  else Ok ({[slot_key (ob_Request x)]} ∪ slots).
Definition validate_receipt (s : ownedNetlinkState) (slots : gset (Z * Z * string)) (kr : string * RemoteNetlinkReceipt)
    : result (gset (Z * Z * string)) :=
  let '(key, r) := kr in
  if negb (receipt_identity_ok s key r) then Err (ErrBlocked "invalid durable importer receipt identity/generation")
  else if negb (receipt_status_ok r) then Err (ErrBlocked "invalid durable route status")
  else if negb (receipt_network_ok s r) then Err (ErrBlocked "receipt device/network mapping conflict")
  else if negb (receipt_requests_ok s r) then Err (ErrBlocked "durable kernel tuple differs from validated endpoint")
  else rfold validate_object slots (objects r).

(** [ownedNetlinkState.validateReceipts] *)
Definition validateReceipts (s : ownedNetlinkState) : result unit :=
  if negb (forallb (topology_ok s) (nc_Networks (os_config s)))
  then Err (ErrBlocked "invalid durable device topology") else
  let? _ := rfold (validate_receipt s) ∅ (range (os_receipts s)) in Ok tt.

(** A missing name, as [os.Lstat] reports it. *)
Definition lstat (path : string) : M W (option error) :=
  let! r := attempt (Fstatat AT_FDCWD path) in ret (to_error r).

(** What [openRecovery] requires of a decoded state. *)
Definition durable_ok (s : ownedNetlinkState) (r : remoteReceiptState) : bool :=
  match uuid_Parse (rs_Controller r) with
  | None => false
  | Some controller =>
      negb (bool_decide (controller = uuid_Nil)) && (rs_Version r =? 1) && bool_decide (rs_Target r = os_target s)
      && bool_decide (rs_Networks r = nc_Networks (os_config s))
      && bool_decide (size (rs_Devices r) = (2 * length (rs_Networks r))%nat)
      && bool_decide (is_Some (rs_Receipts r)) && bool_decide (is_Some (rs_Latest r))
  end.

(** [s.controller, s.devices, ... = r.Controller, r.Devices, ...] *)
Definition load_state (r : remoteReceiptState) (marker : string) (s : ownedNetlinkState) : ownedNetlinkState :=
  with_markerPath marker (with_snapshot (rs_Snapshot r) (with_latest (default ∅ (rs_Latest r))
    (with_receipts (omap id (default ∅ (rs_Receipts r)))
      (with_devices (rs_Devices r) (with_controller (rs_Controller r) s))))).

(** The end of [openRecovery], once the journal is open; [marked] says the marker
    exists.  A nil receipt is refused with the others. *)
Definition load_journal (marker : string) (marked : bool) : NM unit :=
  let! (state, pending) := on_owned Snapshot in
  if negb (bool_decide (pending = None))
  then fail (ErrBlocked "unresolved importer mutation; do not infer ownership from kernel tuples")
  else if bool_decide (state = "null"%string) then
    if marked then fail (ErrBlocked "marker exists without durable importer receipts") else ret tt
  else match json_Decode state with
  | None => fail (ErrBlocked "invalid importer receipt state")
  | Some (r, rest) =>
      if negb (forallb json_space (chars rest)) then fail (ErrBlocked "trailing importer state")
      else if negb (bool_decide (rs_Quarantine r = ""%string)) then fail (ErrBlocked "durable importer quarantine") else
      let! s := gets fst in
      if negb (durable_ok s r)
      then fail (ErrBlocked "invalid importer version, domain, devices or controller") else
      do! update (load_state r marker) in
      let! s := gets fst in
      do! on_snd (verifyMarker s) in
      if existsb (fun '(_, v) => bool_decide (v = None)) (map_to_list (default ∅ (rs_Receipts r)))
      then fail (ErrBlocked "invalid durable importer receipt identity/generation")
      else lift (validateReceipts s)
  end.

(** [ownedNetlinkState.openRecovery] *)
Definition openRecovery (boot namespace : string) (d : Domain) : NM unit :=
  do! update (with_recoveryState "VERIFYING_OWNERSHIP") in
  let! s := gets fst in
  if negb (bool_decide (BootID d = boot)) || negb (bool_decide (NetworkNamespace d = namespace))
  then fail (ErrBlocked "actual boot/network namespace differs from journal domain") else
  let path := filepath_Join (nc_StateDirectory (os_config s)) "receipts-v1" in
  let marker := filepath_Join (nc_StateDirectory (os_config s)) "remote-netlink-owner" in
  let! markerErr := on_snd (lstat marker) in
  let! marked := match markerErr with
                 | None =>
                     let! missing := on_snd (lstat path) in
                     if bool_decide (missing = None) then ret true
                     else fail (ErrBlocked "marker-only installation has no valid receipt journal; explicit administrator migration required")
                 | Some e => if errno_Is e ENOENT then ret false else fail (ErrBlocked "inspect legacy marker")
                 end in
  let! j := on_snd (Open path d true) in
  do! update (with_journal (Some j)) in
  load_journal marker marked.

(** One object of [verifyRecovered]. *)
Definition verify_object ctx (retiring : bool) (acc : unit) (ko : string * side) : NM unit :=
  let '(key, o) := ko in
  let! x := read_obj key o in
  let! found := slot ctx (ob_Request x) in
  if bool_decide (ob_Status x = "confirmed"%string) && bool_decide (found = [ob_Observed x]) then ret tt
  else if negb (bool_decide (found = [])) then
    do! block "foreign/conflicting kernel slot during recovery" in quarantine
  else if retiring then update_obj key o (fun x => ob_status "absent-confirmed" (ob_Error x) x)
  else
    do! update_obj key o (fun x => ob_set zero_entry "unattempted" false false (ob_Error x) x) in
    update_status key "partially-applied" nr_Retiring.

Definition sides (r : RemoteNetlinkReceipt) : list side :=
  OnFDB :: match nr_Neighbor r with Some _ => [OnNeighbor] | None => [] end.

(** [ownedNetlinkState.verifyRecovered] *)
Definition verifyRecovered ctx : NM unit :=
  let! s := gets fst in
  do! lift (validateReceipts s) in
  do! mfold (fun _ '(key, r) => mfold (verify_object ctx (nr_Retiring r)) tt ((key,.) <$> sides r))
            tt (range (os_receipts s)) in
  checkpoint.

(** ** Start *)

(** [acquireRemoteMarker] *)
Definition acquireRemoteMarker (directory : string) (text : string) : M W unit :=
  let! dir := Openat AT_FDCWD directory (flags_of [O_DIRECTORY; O_NOFOLLOW; O_CLOEXEC]) 0 in
  let! r := attempt (
    let! st := Fstat dir in
    if negb (Uid st =? 0) || negb (Z.land (Mode st) 18 =? 0)
    then fail (Errorf "remote state directory must be root-owned and not group/world writable") else
    let! fd := wrap (Wrapped "remote ownership marker unavailable; no restart adoption")
                    (Openat dir "remote-netlink-owner" (flags_of [O_WRONLY; O_CREAT; O_EXCL; O_NOFOLLOW]) 384) in
    let! we := attempt (Write fd text) in
    let! se := attempt (Fsync fd) in
    let! ce := attempt (Close_fd fd) in
    let! de := attempt (Fsync dir) in
    lift (of_error (errors_Join (errors_Join (to_error we) (to_error se)) (errors_Join (to_error ce) (to_error de))))) in
  do! attempt (Close_fd dir) in
  lift r.

(** The startup observation of one network's devices and tables. *)
Definition bind_device (name : string) : NM unit :=
  let! id := device name in
  let! s := gets fst in
  match os_devices s !! name with
  | Some expected => if bool_decide (expected = id) then ret tt
                     else do! block "managed device identity changed" in quarantine
  | None => update (fun s => with_devices (<[name := id]> (os_devices s)) s)
  end.
Definition observe_scope (_ : unit) (scope : Z * Z) : NM unit :=
  let '(index, family) := scope in
  let! entries := wrap (Wrapped "initial remote-domain observation") (on_snd (NeighList index family)) in
  mfold (fun _ entry =>
    if negb (Z.land (ng_Flags entry) NTF_EXT_LEARNED =? 0) || ((family =? AF_BRIDGE) && bool_decide (is_Some (ng_IP entry)))
    then let! s := gets fst in
         if bool_decide (is_Some (os_journal s)) && hasConfirmedEntry s (kernelEntry entry) then ret tt
         else do! block "unowned remote kernel state; no startup adoption" in quarantine
    else ret tt) tt entries.
Definition start_network (_ : unit) (network : RemoteNetlinkNetwork) : NM unit :=
  do! bind_device (nn_BridgeDevice network) in
  do! bind_device (nn_VXLANDevice network) in
  let! s := gets fst in
  let bridge := device_of s (nn_BridgeDevice network) in
  let vxlan := device_of s (nn_VXLANDevice network) in
  if negb (bool_decide (rd_Kind bridge = "bridge"%string)) || negb (bool_decide (rd_Kind vxlan = "vxlan"%string))
     || negb (rd_VNI vxlan =? nn_VNI network) || negb (rd_MasterIndex vxlan =? rd_Ifindex bridge)
  then fail (Errorf "network has invalid bridge/VXLAN topology") else
  mfold observe_scope tt [(rd_Ifindex vxlan, AF_BRIDGE); (rd_Ifindex bridge, AF_INET); (rd_Ifindex bridge, AF_INET6)].

(** Everything [NewOwnedOVNNetlinkBackend] does once the backend exists. *)
Definition start (boot namespace : string) : NM unit :=
  let! s := gets fst in
  do! match nc_Recovery (os_config s) with Some d => openRecovery boot namespace d | None => ret tt end in
  do! mfold start_network tt (nc_Networks (os_config s)) in
  do! check Background in
  let! s := gets fst in
  do! (if bool_decide (os_markerPath s = ""%string) then
         do! (if bool_decide (is_Some (os_journal s)) then checkpoint else ret tt) in
         do! on_snd (acquireRemoteMarker (nc_StateDirectory (os_config s)) (marker_text s)) in
         update (with_markerPath (filepath_Join (nc_StateDirectory (os_config s)) "remote-netlink-owner"))
       else ret tt) in
  let! j := journaled in
  if j then do! verifyRecovered Background in update (with_recoveryState "RECONCILING_STATE") else ret tt.

(** [NewOwnedOVNNetlinkBackend] *)
Definition new_state (config : RemoteNetlinkConfig) (controller target : string) : ownedNetlinkState :=
  {| os_config := config; os_controller := controller; os_target := target; os_devices := ∅; os_receipts := ∅;
     os_withdrawals := []; os_latest := ∅; os_lost := false; os_blocked := ""; os_closed := false;
     os_markerPath := ""; os_journal := None; os_snapshot := zero_snapshot; os_recoveryState := "" |}.
Definition NewOwnedOVNNetlinkBackend {SL : SystemLib W} (config : RemoteNetlinkConfig) : M W ownedNetlinkState :=
  do! lift (RemoteNetlinkConfig_Validate config) in
  if negb (nc_Enabled config) then fail (Errorf "remote Netlink writes are disabled") else
  let! ns := netns_Get in
  let! r := attempt (
    let! boot := ReadBootID in
    do! newOwnedKernelHandle in
    let! t := attempt SetSocketTimeout in
    match t with
    | Err e => do! attempt KernelClose in fail e
    | Ok _ =>
        fun w =>
          let '(w, controller) := uuid_NewString w in
          let s := new_state config controller (TrimSpace boot +:+ "/" +:+ ns)%string in
          let '(w, sub) := LinkSubscribe w in
          match sub with
          | Err e => let '(w, _) := KernelClose w in (w, Err (Wrapped "link lifetime subscription" e))
          | Ok _ =>
              let '((s, w), r) := start (TrimSpace boot) ns (s, w) in
              match r with
              | Ok _ => (w, Ok s)
              | Err e => let '((_, w), _) := backend_Close (s, w) in (w, Err e)
              end
          end
    end) in
  do! attempt netns_Close in
  lift r.
End backend.
