(* ===== verification/NetlinkSafety.v ===== *)
(** * What the backend does to the kernel

    Properties of the operations of [Netlink]: every kernel write is allowed by a
    readback that directly precedes it and by a durable intent. *)

From S2P Require Import Prelude GoStd Journal Type2 Reconciler GobgpAdapter RemoteType2 Netlink.

Section safety.
Context {W : Type} {PX : Posix W} {SH : Sha256} {JR : Json record} {JE : Json envelope} {UL : UuidLib}.
Context {AT : ApiTypes} {BT : BgpTypes} {BL : BgpLib} {RL : RemoteLib}.
Context {JN : Json remoteReceiptState} {JO : Json (remoteReceiptState * RemoteObjectReceipt)} {JL : Json (list string)}.
Context {K : ownedKernel W} {LS : LinkSubscription W} {MR : MapRange}.
Implicit Types (s : ownedNetlinkState) (x : ownedNetlinkState * W) (ctx : Context W) (key : string) (o : side).

(** ** What reading changes

    The checks and the journal leave everything but the block, the lost flag, the
    recovery state and the journal; a block is never lifted. *)
Record keeps s s' : Prop := {
  k_config : os_config s' = os_config s;
  k_controller : os_controller s' = os_controller s;
  k_target : os_target s' = os_target s;
  k_devices : os_devices s' = os_devices s;
  k_receipts : os_receipts s' = os_receipts s;
  k_withdrawals : os_withdrawals s' = os_withdrawals s;
  k_latest : os_latest s' = os_latest s;
  k_closed : os_closed s' = os_closed s;
  k_marker : os_markerPath s' = os_markerPath s;
  k_snapshot : os_snapshot s' = os_snapshot s;
  k_blocked : os_blocked s <> ""%string -> os_blocked s' <> ""%string;
  k_journal : is_Some (os_journal s') <-> is_Some (os_journal s);
}.

Lemma keeps_refl s : keeps s s.
Proof. done. Qed.
Lemma keeps_trans s1 s2 s3 : keeps s1 s2 -> keeps s2 s3 -> keeps s1 s3.
Proof. intros [] []. split; try congruence; [auto|]. by etrans. Qed.

(** The journal's record. *)
Definition jrec s : option record := j_record <$> os_journal s.

(** A property of the world that only kernel writes can break. *)
Class KernelFrame (I : W -> Prop) := {
  frame_posix :: PosixFrame I;
  frame_LinkByName name : preserves I (LinkByName name);
  frame_NeighList i f : preserves I (NeighList i f);
  frame_KernelClose : preserves I KernelClose;
  frame_updates w : I w -> I (recv_updates w).1;
}.

Section frame.
Context (I : W -> Prop) {KF : KernelFrame I}.
Let PF : PosixFrame I := frame_posix.

Let J s0 x : Prop := keeps s0 x.1 /\ I x.2.
Local Hint Resolve frame_LinkByName frame_NeighList frame_KernelClose : evpn.

Lemma keeps_update s0 f : (forall s, keeps s (f s)) -> preserves (J s0) (update f).
Proof. intros Hf. apply preserves_modify. intros [s w] [Hk Hw]. split; [|done]. by eapply keeps_trans. Qed.
Lemma keeps_world s0 {A} (m : M W A) : preserves I m -> preserves (J s0) (on_snd m).
Proof. apply (preserves_on_snd I (keeps s0)). Qed.

Lemma keeps_block s0 reason : reason <> ""%string -> preserves (J s0) (block reason).
Proof. intros. by apply keeps_update. Qed.
Lemma keeps_recovery_blocked s0 reason : reason <> ""%string -> preserves (J s0) (recovery_blocked reason).
Proof. intros. by apply keeps_update. Qed.

Lemma keeps_on_owned s0 {A} (m : M (Journal * W) A) :
  preserves (fun y : Journal * W => I y.2) m -> preserves (J s0) (on_owned m).
Proof.
  intros Hm [s w] [Hk Hw]. unfold on_owned. simpl. destruct (os_journal s) as [j|] eqn:Hj; [|done].
  specialize (Hm (j, w) Hw). destruct (m (j, w)) as [[j' w'] a]. simpl in *. split; [|done].
  eapply keeps_trans; [done|]. split; simpl; rewrite ?Hj; done.
Qed.
Hint Resolve keeps_block keeps_recovery_blocked error_text_nonempty keeps_world keeps_on_owned
  Begin_frame Commit_frame Snapshot_frame Close_frame : evpn.

Lemma keeps_ackMutation s0 seq : preserves (J s0) (ackMutation seq).
Proof. unfold ackMutation, journaled. pres. Qed.
Hint Resolve keeps_ackMutation : evpn.
Lemma keeps_checkpoint s0 : preserves (J s0) checkpoint.
Proof. unfold checkpoint, journaled. pres. Qed.
Hint Resolve keeps_checkpoint : evpn.
Lemma keeps_beginMutation s0 op key o : preserves (J s0) (beginMutation op key o).
Proof. unfold beginMutation, journaled. pres. Qed.
Lemma keeps_quarantineError s0 : preserves (J s0) quarantineError.
Proof. unfold quarantineError, journaled. pres. Qed.
Hint Resolve keeps_quarantineError : evpn.
Lemma keeps_quarantine s0 {A} : preserves (J s0) (quarantine (A := A)).
Proof. unfold quarantine. pres. Qed.
Hint Resolve keeps_quarantine : evpn.

Lemma drain_step_blocked devices acc u : acc.2 <> ""%string -> (drain_step devices acc u).2 <> ""%string.
Proof. destruct acc as [lost blocked]. simpl. intros Hb. destruct (lu_Link u); [|done]. simpl. by case_match. Qed.
Lemma drain_blocked devices us acc : acc.2 <> ""%string -> (foldl (drain_step devices) acc us).2 <> ""%string.
Proof. revert acc. induction us as [|u us IH]; intros acc Hb; simpl; [done|]. by apply IH, drain_step_blocked. Qed.

Lemma keeps_drain s0 : preserves (J s0) drain.
Proof.
  intros [s w] [Hk Hw]. unfold drain. simpl. pose proof (frame_updates w Hw) as Hw'.
  destruct (recv_updates w) as [w' [us closed]]. pose proof (drain_blocked (os_devices s) us (os_lost s, os_blocked s)) as Hb.
  destruct (foldl _ _ us) as [lost blocked]. simpl in *. split; [|done]. eapply keeps_trans; [done|].
  split; try done. simpl. intros Hs. by case_match; auto.
Qed.
Lemma keeps_device s0 name : preserves (J s0) (device name).
Proof. unfold device. pres. Qed.
Hint Resolve keeps_drain keeps_device : evpn.

Lemma verifyMarker_frame s : preserves I (verifyMarker s).
Proof. unfold verifyMarker. pres. Qed.
Lemma markerChanged_reason s w w' reason : markerChanged s w = (w', Ok (Some reason)) -> reason <> ""%string.
Proof. unfold markerChanged. intros H. msteps; try done; case_match; by simplify_eq. Qed.
Lemma markerChanged_frame s : preserves I (markerChanged s).
Proof. unfold markerChanged. pres. Qed.
Hint Resolve verifyMarker_frame markerChanged_frame : evpn.

Lemma keeps_check_devices s0 : preserves (J s0) check_devices.
Proof. unfold check_devices. pres. Qed.
Hint Resolve keeps_check_devices : evpn.

Lemma keeps_check_marker s0 s : preserves (J s0) (check_marker s).
Proof.
  intros x Hx. unfold check_marker, bind.
  pose proof (keeps_world s0 (markerChanged s) (markerChanged_frame _) x Hx) as Hx'.
  destruct (on_snd (markerChanged s) x) as [x' [[reason|]|e]] eqn:E; [|done..].
  apply on_snd_inv in E as [_ E]. apply markerChanged_reason in E. by apply keeps_block.
Qed.
Hint Resolve keeps_check_marker : evpn.

Lemma keeps_check s0 ctx : preserves (J s0) (check ctx).
Proof. unfold check. pres. Qed.
Hint Resolve keeps_check : evpn.

Lemma keeps_slot s0 ctx want : preserves (J s0) (slot ctx want).
Proof. unfold slot. pres. Qed.
End frame.

(** ** Successful checks *)

Lemma on_owned_inv {A} (m : M (Journal * W) A) x x' r :
  on_owned m x = (x', r) ->
  (os_journal x.1 = None /\ x' = x /\ r = Err (Errorf "nil journal")) \/
  exists j j', os_journal x.1 = Some j /\ m (j, x.2) = ((j', x'.2), r) /\ x'.1 = with_journal (Some j') x.1.
Proof.
  unfold on_owned. destruct (os_journal x.1) as [j|]; intros H; [right|left; by simplify_eq].
  destruct (m (j, x.2)) as [[j' w'] a] eqn:E. simplify_eq. eauto 10.
Qed.

Lemma on_owned_Snapshot x x' r : on_owned Snapshot x = (x', r) -> jrec x'.1 = jrec x.1.
Proof.
  intros [(_ & -> & _)|(j & j' & Hj & H & ->)]%on_owned_inv; [done|].
  unfold jrec. rewrite Hj. simpl. f_equal.
  apply Snapshot_run in H as [(_ & -> & _)|(e & _ & ? & _)]; done.
Qed.

Lemma drain_jrec x x' r : drain x = (x', r) -> jrec x'.1 = jrec x.1.
Proof.
  unfold drain. destruct (recv_updates x.2) as [w [us closed]]. destruct (foldl _ _ _) as [lost blocked].
  intros H. by simplify_eq.
Qed.

Lemma check_devices_ok x x' : check_devices x = (x', Ok tt) -> x'.1 = x.1.
Proof.
  unfold check_devices. intros H. msteps.
  eapply (mfold_invariant _ (fun _ _ y => y.1 = x0.1)) in H0; [exact H0|done|].
  intros done [name id] [] [] y y' _ Hy Hstep. unfold device, quarantine in Hstep. msteps; bools; simplify_eq; msteps; congruence.
Qed.

Section record.
Context (r0 : option record).
Let R x : Prop := jrec x.1 = r0.
Lemma record_block reason : preserves R (block reason).
Proof. apply preserves_modify. intros [s w] Hx. exact Hx. Qed.
Lemma record_world {A} (m : M W A) : preserves R (on_snd m).
Proof. intros [s w] Hs. unfold on_snd. simpl. by destruct (m w). Qed.
Lemma record_Snapshot : preserves R (on_owned Snapshot).
Proof.
  intros x Hx. destruct (on_owned Snapshot x) as [x' r] eqn:E. unfold R in *. simpl.
  by rewrite (on_owned_Snapshot _ _ _ E).
Qed.
Lemma record_drain : preserves R drain.
Proof. intros x Hx. destruct (drain x) as [x' r] eqn:E. unfold R in *. simpl. by rewrite (drain_jrec _ _ _ E). Qed.
Hint Resolve record_block record_world record_Snapshot record_drain : evpn.

(** A check that passes leaves the journal's record and finds no block. *)
Lemma check_ok_aux ctx x x' : R x -> check ctx x = (x', Ok tt) -> R x' /\ os_blocked x'.1 = ""%string.
Proof.
  intros Hx H. unfold check in H. rewrite bind_gets, bind_lift in H. destruct (of_error _); [|done].
  rewrite bind_gets in H. destruct (os_closed _); [by msteps|].
  apply bind_ok_inv in H as (x2 & u & H2 & H). eapply preserves_run in H2; [|..|exact Hx]; [|pres].
  rewrite bind_gets in H. apply bind_ok_inv in H as (x3 & u' & H3 & H).
  eapply preserves_run in H3; [|..|exact H2]; [|unfold check_marker; pres].
  apply bind_ok_inv in H as (x4 & u'' & H4 & H). eapply preserves_run in H4; [|..|exact H3]; [|pres].
  rewrite bind_gets in H. case_bool_decide as Hb; simpl in H; [|unfold quarantine in H; by msteps].
  apply check_devices_ok in H. unfold R. by rewrite H.
Qed.
End record.

Lemma check_ok ctx x x' : check ctx x = (x', Ok tt) -> jrec x'.1 = jrec x.1 /\ os_blocked x'.1 = ""%string.
Proof. by apply check_ok_aux. Qed.

Lemma slot_ok ctx want x x' found :
  slot ctx want x = (x', Ok found) ->
  exists w0 entries, NeighList (ke_Ifindex want) (ke_Family want) w0 = (x'.2, Ok entries) /\
    found = List.filter (fun e => sameKernelSlot e want) (kernelEntry <$> entries) /\
    jrec x'.1 = jrec x.1 /\ os_blocked x'.1 = ""%string.
Proof.
  unfold slot. intros H. apply bind_ok_inv in H as (y & [] & Hc & H). apply check_ok in Hc as [Hj Hb].
  msteps; unfold quarantine in *; msteps. eexists _, _. split_and!; try done; congruence.
Qed.

Lemma slot_free ctx want x x' :
  slot ctx want x = (x', Ok []) ->
  exists w0 entries, NeighList (ke_Ifindex want) (ke_Family want) w0 = (x'.2, Ok entries) /\
    Forall (fun n => sameKernelSlot (kernelEntry n) want = false) entries /\ jrec x'.1 = jrec x.1.
Proof.
  intros (w0 & entries & Hn & Hf & Hj & _)%slot_ok. exists w0, entries. split_and!; try done.
  apply Forall_forall. intros n Hin. apply not_true_is_false. intros Ht.
  assert (kernelEntry n ∈ ([] : list RemoteKernelEntry)) as []%not_elem_of_nil. rewrite Hf. apply list_elem_of_In, filter_In.
  split; [|done]. apply list_elem_of_In, list_elem_of_fmap. eauto.
Qed.

Lemma confirm_ok ctx key o absent x x' :
  confirm_obj ctx key o absent x = (x', Ok tt) ->
  exists x1 found, slot ctx (ob_Request (get_obj key o x.1)) x = (x1, Ok found) /\
    if absent then found = [] /\ update_obj key o (ob_status "absent-confirmed" "") x1 = (x', Ok tt)
    else exists f, found = [f] /\ f = expected_entry (get_obj key o x.1) f /\
      update_obj key o (fun ob => ob_set f "confirmed" (ob_ACK ob) (ob_DeleteACK ob) "" ob) x1 = (x', Ok tt).
Proof.
  unfold confirm_obj, read_obj. rewrite bind_gets. intros H. apply bind_ok_inv in H as (x1 & found & Hs & H).
  exists x1, found. split; [done|].
  destruct absent, found as [|f [|]]; try (by msteps). case_bool_decide; [|by msteps]. eauto.
Qed.

(** ** Writes *)

(** The journal, where there is one, holds the intent for this object. *)
Definition intent (op : string) (request : RemoteKernelEntry) s : Prop :=
  match jrec s with
  | None => True
  | Some r => exists seq data st ob, json_Marshal ((st, ob) : remoteReceiptState * RemoteObjectReceipt) = Ok data /\
      ob_Request ob = request /\
      r_Pending r = Some {| i_Sequence := seq; i_Operation := op; i_Payload := data |}
  end.

(** A creation in world [w1]: the listing that led to [w1] showed the slot free. *)
Definition add_allowed s (w0 w1 : W) (request : RemoteKernelEntry) : Prop :=
  intent "netlink-add" request s /\
  exists entries, NeighList (ke_Ifindex request) (ke_Family request) w0 = (w1, Ok entries) /\
    Forall (fun n => sameKernelSlot (kernelEntry n) request = false) entries.

(** A deletion in world [w1]: a receipt confirmed the entry, and the listing that led
    to [w1] showed exactly that entry in its slot. *)
Definition del_allowed s (w0 w1 : W) (entry : RemoteKernelEntry) : Prop :=
  exists key o, let ob := get_obj key o s in
    ob_Status ob = "confirmed"%string /\ ob_ACK ob = true /\ ob_Observed ob = entry /\
    intent "netlink-delete" (ob_Request ob) s /\
    exists entries, NeighList (ke_Ifindex (ob_Request ob)) (ke_Family (ob_Request ob)) w0 = (w1, Ok entries) /\
      List.filter (fun e => sameKernelSlot e (ob_Request ob)) (kernelEntry <$> entries) = [entry].

Section writes.
Context (I : W -> Prop) {KF : KernelFrame I}.
Context (Hadd : forall s w0 w1 req, add_allowed s w0 w1 req -> I w1 -> I (NeighAdd (neigh req) w1).1).
Context (Hdel : forall s w0 w1 e, del_allowed s w0 w1 e -> I w1 -> I (NeighDel (neigh e) w1).1).
Let V x : Prop := I x.2.

Lemma world_kept {A} (m : M (ownedNetlinkState * W) A) :
  (forall s0, preserves (fun x => keeps s0 x.1 /\ I x.2) m) -> preserves V m.
Proof. intros Hm x Hx. by destruct (Hm x.1 x (conj (keeps_refl _) Hx)). Qed.
Lemma world_update f : preserves V (update f).
Proof. by apply preserves_modify. Qed.
Lemma world_update_obj key o f : preserves V (update_obj key o f).
Proof. apply world_update. Qed.
Lemma world_slot ctx want : preserves V (slot ctx want).
Proof. apply world_kept. intros. by apply keeps_slot. Qed.
Lemma world_check ctx : preserves V (check ctx).
Proof. apply world_kept. intros. by apply keeps_check. Qed.
Lemma world_block reason : preserves V (block reason).
Proof. apply world_update. Qed.
Lemma world_recovery_blocked reason : preserves V (recovery_blocked reason).
Proof. apply world_update. Qed.
Lemma world_quarantineError : preserves V quarantineError.
Proof. apply world_kept. intros. by apply keeps_quarantineError. Qed.
Lemma world_ackMutation seq : preserves V (ackMutation seq).
Proof. apply world_kept. intros. by apply keeps_ackMutation. Qed.
Lemma world_checkpoint : preserves V checkpoint.
Proof. apply world_kept. intros. by apply keeps_checkpoint. Qed.
Lemma world_beginMutation op key o : preserves V (beginMutation op key o).
Proof. apply world_kept. intros. by apply keeps_beginMutation. Qed.
Hint Resolve world_update world_update_obj world_slot world_check world_block world_recovery_blocked
  world_quarantineError world_ackMutation world_checkpoint world_beginMutation : evpn.

Lemma world_confirm ctx key o absent : preserves V (confirm_obj ctx key o absent).
Proof. unfold confirm_obj, read_obj. pres. Qed.
Lemma world_add_failed key o e : preserves V (add_failed key o e).
Proof. unfold add_failed, journaled. pres. Qed.
Lemma world_delete_failed key o e : preserves V (delete_failed key o e).
Proof. unfold delete_failed, journaled. pres. Qed.
Hint Resolve world_confirm world_add_failed world_delete_failed : evpn.

Lemma intent_jrec op req s s' : jrec s' = jrec s -> intent op req s -> intent op req s'.
Proof. unfold intent. by intros ->. Qed.

Lemma check_keeps ctx x x' r : V x -> check ctx x = (x', r) -> keeps x.1 x'.1 /\ V x'.
Proof. intros Hx H. by apply (preserves_run _ _ _ _ _ (keeps_check I x.1 ctx) (conj (keeps_refl _) Hx)) in H. Qed.
Lemma slot_keeps ctx want x x' r : V x -> slot ctx want x = (x', r) -> keeps x.1 x'.1 /\ V x'.
Proof. intros Hx H. by apply (preserves_run _ _ _ _ _ (keeps_slot I x.1 ctx want) (conj (keeps_refl _) Hx)) in H. Qed.
Lemma begin_keeps op key o x x' r : V x -> beginMutation op key o x = (x', r) -> keeps x.1 x'.1 /\ V x'.
Proof. intros Hx H. by apply (preserves_run _ _ _ _ _ (keeps_beginMutation I x.1 op key o) (conj (keeps_refl _) Hx)) in H. Qed.

Lemma world_add_object ctx key o req seq x :
  V x -> intent "netlink-add" req x.1 -> V (add_object ctx key o req seq x).1.
Proof.
  intros Hx Hi. unfold add_object. apply bind_case; [|by intros x1 e [_ ?]%slot_keeps]. intros x1 found Hs.
  pose proof (slot_keeps _ _ _ _ _ Hx Hs) as [_ Hx1].
  case_bool_decide as Hf; cbn [negb]; [|revert Hx1; apply (preserves_use V); pres]. subst found.
  apply slot_free in Hs as (w0 & entries & Hn & He & Hj).
  apply bind_case; [|by intros ? ? (? & ? & ?)%attempt_inv].
  intros x2 r (r' & Ha & [= <-])%attempt_inv. apply on_snd_inv in Ha as [_ Ha].
  assert (V x2) as Hx2.
  { unfold V. replace x2.2 with (NeighAdd (neigh req) x1.2).1 by by rewrite Ha.
    apply (Hadd x1.1 w0); [|done]. split; [by eapply intent_jrec|]. eauto. }
  revert Hx2. apply (preserves_use V). pres.
Qed.

(** [Begin] leaves the intent of the object. *)
Lemma beginMutation_intent op key o x x' seq :
  beginMutation op key o x = (x', Ok seq) -> intent op (ob_Request (get_obj key o x.1)) x'.1.
Proof.
  unfold beginMutation, journaled. rewrite !bind_gets. case_bool_decide as Hj; simpl; intros H.
  - rewrite bind_gets in H. apply bind_ok_inv in H as (y & r & (r' & Hb & [= <-])%attempt_inv & H).
    destruct r as [seq'|e]; msteps.
    apply on_owned_inv in Hb as [(_ & _ & ?)|(j & j' & _ & Hb & ->)]; [done|].
    apply Begin_pending in Hb as (data & Hm & _ & _ & Hp). unfold intent, jrec. simpl. eauto 10.
  - unfold ret in H. simplify_eq. unfold intent, jrec. by destruct (os_journal x'.1); [destruct Hj; eauto|].
Qed.

(** Updates of an object keep its request. *)
Lemma update_obj_request key o f x x' r :
  (forall ob, ob_Request (f ob) = ob_Request ob) -> update_obj key o f x = (x', r) ->
  ob_Request (get_obj key o x'.1) = ob_Request (get_obj key o x.1).
Proof.
  intros Hf H. unfold update_obj, update, modify in H. simplify_eq. unfold get_obj. simpl.
  rewrite lookup_alter_eq. destruct (os_receipts x.1 !! key) as [rc|]; [|done]. simpl.
  destruct (obj_of o rc) eqn:E; [|by rewrite E]. destruct o; simpl in *; simplify_eq; by rewrite ?Hf.
Qed.

Lemma keeps_get_obj key o s s' : keeps s s' -> get_obj key o s' = get_obj key o s.
Proof. intros [_ _ _ _ E _ _ _ _ _ _ _]. unfold get_obj. by rewrite E. Qed.

Lemma world_applyObject ctx key o : preserves V (applyObject ctx key o).
Proof.
  unfold applyObject. apply preserves_bind_gets. intros x Hx.
  case_bool_decide; [by apply world_confirm|]. set (req := ob_Request (get_obj key o x.1)).
  apply bind_case; [|by intros x1 e [_ ?]%slot_keeps]. intros x1 found [Hk1 Hx1]%slot_keeps; [|done].
  case_bool_decide; cbn [negb]; [|revert Hx1; apply (preserves_use V); pres].
  apply bind_case; [|by intros x2 e [_ ?]%check_keeps]. intros x2 [] [Hk2 Hx2]%check_keeps; [|done].
  apply bind_case; [|done]. intros x3 [] Hu. pose proof Hu as Hr. apply update_obj_request in Hr; [|done].
  assert (V x3) as Hx3 by (unfold update_obj, update, modify in Hu; by simplify_eq).
  apply bind_case; [|by intros x4 e [_ ?]%begin_keeps]. intros x4 seq Hb.
  pose proof (begin_keeps _ _ _ _ _ _ Hx3 Hb) as [_ Hx4]. apply beginMutation_intent in Hb.
  apply world_add_object; [done|]. rewrite Hr in Hb.
  by rewrite (keeps_get_obj _ _ _ _ Hk2), (keeps_get_obj _ _ _ _ Hk1) in Hb.
Qed.

(** An object that exists is updated in place. *)
Lemma update_obj_get key o f x x' r :
  ob_Status (get_obj key o x.1) <> "unattempted"%string -> update_obj key o f x = (x', r) ->
  get_obj key o x'.1 = f (get_obj key o x.1) /\ jrec x'.1 = jrec x.1 /\ x'.2 = x.2.
Proof.
  intros Hs H. unfold update_obj, update, modify in H. simplify_eq. split; [|done]. revert Hs. unfold get_obj. simpl.
  rewrite lookup_alter_eq. destruct (os_receipts x.1 !! key) as [rc|]; [|done]. simpl.
  destruct (obj_of o rc) eqn:E; [|by rewrite E]. intros _. by destruct o.
Qed.

Lemma world_delete_object ctx key o seq x :
  V x -> ob_Status (get_obj key o x.1) = "confirmed"%string -> ob_ACK (get_obj key o x.1) = true ->
  intent "netlink-delete" (ob_Request (get_obj key o x.1)) x.1 -> V (delete_object ctx key o seq x).1.
Proof.
  intros Hx Hst Hack Hi. unfold delete_object. pose proof (world_confirm ctx key o false x Hx) as Hconf.
  apply bind_case; [|intros x1 e E; by rewrite E in Hconf].
  intros x2 [] Hc. apply confirm_ok in Hc as (x1 & found & Hs & f & -> & Hf & Hu).
  unfold expected_entry in Hf. rewrite Hst in Hf. simpl in Hf.
  pose proof (slot_keeps _ _ _ _ _ Hx Hs) as [Hk Hx1]. apply slot_ok in Hs as (w0 & entries & Hn & He & Hj & _).
  rewrite <-(keeps_get_obj key o _ _ Hk) in *. set (ob := get_obj key o x1.1) in *.
  apply update_obj_get in Hu as (Hg & Hj2 & Hw); [|fold ob; by rewrite Hst]. fold ob in Hg.
  unfold read_obj. rewrite bind_gets, Hg. simpl.
  apply bind_case; [|by intros ? ? (? & ? & ?)%attempt_inv].
  intros x3 r (r' & Ha & [= <-])%attempt_inv. apply on_snd_inv in Ha as [_ Ha].
  assert (V x3) as Hx3.
  { unfold V. replace x3.2 with (NeighDel (neigh f) x2.2).1 by by rewrite Ha.
    apply (Hdel x2.1 w0); [|by rewrite Hw]. exists key, o. rewrite Hg. simpl. split_and!; try done.
    - eapply intent_jrec; [|exact Hi]. congruence.
    - exists entries. rewrite Hw. by split. }
  revert Hx3. apply (preserves_use V). pres.
Qed.

Lemma world_withdrawObject ctx key o : preserves V (withdrawObject ctx key o).
Proof.
  unfold withdrawObject. apply preserves_bind_gets. intros x Hx.
  case_bool_decide; [done|]. case_bool_decide; [revert Hx; apply (preserves_use V); pres|].
  destruct (_ || _) eqn:Hb; [done|]. bools. pose proof (world_confirm ctx key o false x Hx) as Hconf.
  apply bind_case; [|intros x1 e E; by rewrite E in Hconf]. intros x1 [] Hc. rewrite Hc in Hconf. simpl in Hconf.
  apply confirm_ok in Hc as (y & found & Hs & f & -> & Hf & Hu).
  pose proof (slot_keeps _ _ _ _ _ Hx Hs) as [Hk0 _]. rewrite <-(keeps_get_obj key o _ _ Hk0) in *.
  apply update_obj_get in Hu as (Hg & _ & _); [|congruence].
  apply bind_case; [|by intros x2 e [_ ?]%check_keeps]. intros x2 [] [Hk2 Hx2]%check_keeps; [|done].
  apply bind_case; [|by intros x3 e [_ ?]%begin_keeps]. intros x3 seq Hbg.
  pose proof (begin_keeps _ _ _ _ _ _ Hx2 Hbg) as [Hk3 Hx3]. apply beginMutation_intent in Hbg.
  rewrite <-(keeps_get_obj key o _ _ Hk3) in Hbg.
  apply world_delete_object; try done; rewrite (keeps_get_obj key o _ _ Hk3), (keeps_get_obj key o _ _ Hk2), Hg; done.
Qed.
Hint Resolve world_applyObject world_withdrawObject : evpn.

Lemma world_on_snd {A} (m : M W A) : preserves I m -> preserves V (on_snd m).
Proof. intros Hm. apply world_kept. intros. by apply keeps_world. Qed.
Lemma world_on_owned {A} (m : M (Journal * W) A) : preserves (fun y : Journal * W => I y.2) m -> preserves V (on_owned m).
Proof. intros Hm. apply world_kept. intros. by apply keeps_on_owned. Qed.
Hint Resolve world_on_snd world_on_owned frame_KernelClose Close_frame : evpn.

Lemma world_ownedApply ctx route : preserves V (ownedApply ctx route).
Proof. unfold ownedApply, route_check, update_status. pres. Qed.
Lemma world_ownedWithdraw ctx route : preserves V (ownedWithdraw ctx route).
Proof. unfold ownedWithdraw, route_check, update_status. pres. Qed.
Lemma world_backend_Close : preserves V backend_Close.
Proof. pose proof frame_posix as PF. unfold backend_Close. pres. Qed.
Lemma world_record_snapshot sn : preserves V (record_snapshot sn).
Proof. unfold record_snapshot. pres. Qed.
End writes.

(** ** Histories *)

(** The operations of the backend, with any arguments, and the rest of the system. *)
Inductive nstep (env : W -> W -> Prop) : ownedNetlinkState * W -> ownedNetlinkState * W -> Prop :=
  | ns_Apply ctx route x x' r : ownedApply ctx route x = (x', r) -> nstep env x x'
  | ns_Withdraw ctx route x x' r : ownedWithdraw ctx route x = (x', r) -> nstep env x x'
  | ns_snapshot sn x x' r : record_snapshot sn x = (x', r) -> nstep env x x'
  | ns_running x x' r : mark_running x = (x', r) -> nstep env x x'
  | ns_Close x x' r : backend_Close x = (x', r) -> nstep env x x'
  | ns_env s w w' : env w w' -> nstep env (s, w) (s, w').

End safety.
