(* ===== verification/NetlinkRecovery.v ===== *)
(** * The backend can always recover its receipts

    What [validateReceipts] demands of a durable state after a restart is an invariant
    of the running backend, so a state it stored without a quarantine is one it
    accepts. *)

From S2P Require Import Prelude GoStd Journal Type2 Reconciler GobgpAdapter RemoteType2 Netlink NetlinkSafety.

Section recovery.
Context {W : Type} {PX : Posix W} {SH : Sha256} {JR : Json record} {JE : Json envelope} {UL : UuidLib}.
Context {AT : ApiTypes} {BT : BgpTypes} {BL : BgpLib} {RL : RemoteLib}.
Context {JN : Json remoteReceiptState} {JO : Json (remoteReceiptState * RemoteObjectReceipt)} {JL : Json (list string)}.
Context {K : ownedKernel W} {LS : LinkSubscription W} {MR : MapRange}.
Implicit Types (s : ownedNetlinkState) (x : ownedNetlinkState * W) (ctx : Context W) (key : string) (o : side).

(** ** The validation as a predicate *)

Definition obj_slot (ob : RemoteObjectReceipt) : Z * Z * string := slot_key (ob_Request ob).

Lemma validate_objects slots l slots' :
  rfold validate_object slots l = Ok slots' <->
  Forall (fun ob => object_ok ob = true) l /\ NoDup (obj_slot <$> l) /\
  (forall ob, ob ∈ l -> obj_slot ob ∉ slots) /\ slots' = list_to_set (obj_slot <$> l) ∪ slots.
Proof.
  revert slots. induction l as [|ob l IH]; intros slots; simpl.
  - split; [intros [= <-]|intros (_ & _ & _ & ->)]; [|by rewrite (left_id_L ∅ (∪))].
    split_and!; [done|constructor|set_solver|by rewrite (left_id_L ∅ (∪))].
  - unfold validate_object at 1, rbind. fold (obj_slot ob). case_bool_decide as Hs; [|destruct (object_ok ob) eqn:Ho].
    + split; [done|]. intros (_ & _ & H & _). exfalso. apply (H ob); [left|done].
    + simpl. rewrite IH. rewrite Forall_cons, NoDup_cons. setoid_rewrite elem_of_cons. rewrite list_elem_of_fmap. split.
      * intros (Hl & Hn & Hd & ->). split_and!; [done|done| |done| |by rewrite (assoc_L (∪)), (comm_L (∪) (list_to_set _))].
        -- intros (y & E & Hy). apply (Hd y Hy). rewrite <-E. by apply elem_of_union_l, elem_of_singleton.
        -- intros y [->|Hy]; [done|]. by destruct (proj1 (not_elem_of_union _ _ _) (Hd y Hy)).
      * intros ([_ Hl] & [Hni Hn] & Hd & ->). split_and!; [done|done| |by rewrite (assoc_L (∪)), (comm_L (∪) (list_to_set _))].
        intros y Hy. specialize (Hd y (or_intror Hy)). intros [E%elem_of_singleton|E]%elem_of_union; [|done].
        apply Hni. eauto.
    + split; [done|]. intros (H & _). inversion H. congruence.
Qed.

(** What is asked of a receipt, apart from its objects. *)
Definition header_ok s key (r : RemoteNetlinkReceipt) : Prop :=
  receipt_identity_ok s key r = true /\ receipt_status_ok r = true /\ receipt_network_ok s r = true /\
  receipt_requests_ok s r = true.

Definition objects_of (l : list (string * RemoteNetlinkReceipt)) : list RemoteObjectReceipt :=
  l ≫= (fun kr => objects kr.2).

Lemma validate_receipt_ok s slots key r slots' :
  validate_receipt s slots (key, r) = Ok slots' <-> header_ok s key r /\ rfold validate_object slots (objects r) = Ok slots'.
Proof.
  unfold validate_receipt, header_ok.
  destruct (receipt_identity_ok s key r), (receipt_status_ok r), (receipt_network_ok s r), (receipt_requests_ok s r);
    simpl; naive_solver.
Qed.

Lemma validate_fold s slots l :
  is_ok (rfold (validate_receipt s) slots l) = true <->
  Forall (fun kr => header_ok s kr.1 kr.2) l /\ Forall (fun ob => object_ok ob = true) (objects_of l) /\
  NoDup (obj_slot <$> objects_of l) /\ (forall ob, ob ∈ objects_of l -> obj_slot ob ∉ slots).
Proof.
  revert slots. induction l as [|[key r] l IH]; intros slots; cbn [rfold].
  - unfold objects_of. simpl. split; [intros _|done]. split_and!; [done|done|constructor|set_solver].
  - unfold rbind. rewrite Forall_cons. change (objects_of ((key, r) :: l)) with (objects r ++ objects_of l).
    rewrite Forall_app, fmap_app, NoDup_app. setoid_rewrite elem_of_app.
    destruct (validate_receipt s slots (key, r)) as [slots'|e] eqn:E.
    + apply validate_receipt_ok in E as [Hh (Ho & Hn & Hd & ->)%validate_objects]. rewrite IH. split.
      * intros (Hl & Ho' & Hn' & Hd'). split_and!; try done.
        -- intros k (y & -> & Hy)%list_elem_of_fmap (z & Ez & Hz)%list_elem_of_fmap. apply (Hd' z Hz).
           apply elem_of_union. left. apply elem_of_list_to_set, list_elem_of_fmap. eauto.
        -- intros ob [Hob|Hob]; [by apply Hd|]. by destruct (proj1 (not_elem_of_union _ _ _) (Hd' ob Hob)).
      * intros ([_ Hl] & [_ Ho'] & (_ & Hx & Hn') & Hd'). split_and!; try done.
        intros ob Hob [Hin%elem_of_list_to_set|Hin]%elem_of_union; [|by apply (Hd' ob); auto].
        apply (Hx _ Hin), list_elem_of_fmap. eauto.
    + split; [done|]. intros ([Hh _] & [Ho _] & (Hn & _ & _) & Hd). exfalso.
      assert (validate_receipt s slots (key, r) = Ok (list_to_set (obj_slot <$> objects r) ∪ slots)); [|congruence].
      apply validate_receipt_ok. split; [done|]. apply validate_objects. split_and!; auto.
Qed.

(** Every object of the backend with its place. *)
Definition obj_at s key o : option RemoteObjectReceipt := os_receipts s !! key ≫= obj_of o.

Definition headers_ok s : Prop := forall key r, os_receipts s !! key = Some r -> header_ok s key r.
Definition objects_hold (P : RemoteObjectReceipt -> Prop) s : Prop := forall key o ob, obj_at s key o = Some ob -> P ob.
(** No two objects in one kernel slot. *)
Definition slots_apart s : Prop :=
  forall k1 o1 b1 k2 o2 b2, obj_at s k1 o1 = Some b1 -> obj_at s k2 o2 = Some b2 -> obj_slot b1 = obj_slot b2 ->
    k1 = k2 /\ o1 = o2.
Definition topology s : Prop := forallb (topology_ok s) (nc_Networks (os_config s)) = true.

Definition places (l : list (string * RemoteNetlinkReceipt)) : list (string * side * RemoteObjectReceipt) :=
  l ≫= (fun kr => (kr.1, OnFDB, nr_FDB kr.2) :: (pair (kr.1, OnNeighbor) <$> option_list (nr_Neighbor kr.2))).

Lemma places_objects l : (places l).*2 = objects_of l.
Proof.
  induction l as [|[k r] l IH]; [done|].
  change (objects_of ((k, r) :: l)) with (objects r ++ objects_of l). rewrite <-IH. unfold places. simpl.
  rewrite fmap_app. unfold objects. simpl. by destruct (nr_Neighbor r).
Qed.

Lemma elem_of_places l k o ob : (k, o, ob) ∈ places l <-> exists r, (k, r) ∈ l /\ obj_of o r = Some ob.
Proof.
  unfold places. rewrite list_elem_of_bind. split.
  - intros ([k' r] & Hin & Hl). simpl in *. apply elem_of_cons in Hin as [Hin|Hin]; [simplify_eq; eauto|].
    apply list_elem_of_fmap in Hin as (ob' & E & Hn). simplify_eq. destruct (nr_Neighbor r) eqn:En; simpl in Hn; [|by apply not_elem_of_nil in Hn].
    apply list_elem_of_singleton in Hn as ->. eauto.
  - intros (r & Hl & Ho). exists (k, r). split; [|done]. simpl. destruct o; simpl in Ho.
    + simplify_eq. left.
    + rewrite Ho. simpl. right. left.
Qed.

Lemma places_NoDup l : NoDup l.*1 -> NoDup (places l).*1.
Proof.
  induction l as [|[k r] l IH]; [intros; constructor|]. cbn [fmap list_fmap fst]. intros [Hk Hl]%NoDup_cons.
  assert (forall o, (k, o) ∉ (places l).*1) as Hfresh.
  { intros o ([[k2 o2] ob] & E & (r' & Hr & _)%elem_of_places)%list_elem_of_fmap. simpl in E. simplify_eq.
    apply Hk, list_elem_of_fmap. by exists (k2, r'). }
  unfold places. simpl. rewrite fmap_app. fold (places l). specialize (IH Hl).
  destruct (nr_Neighbor r); simpl; repeat constructor; auto. rewrite elem_of_cons. intros [?|?]; [done|]. by eapply Hfresh.
Qed.

Lemma validateReceipts_iff s :
  validateReceipts s = Ok tt <->
  topology s /\ headers_ok s /\ objects_hold (fun ob => object_ok ob = true) s /\ slots_apart s.
Proof.
  unfold validateReceipts, topology, rbind. destruct (forallb _ _); simpl; [|naive_solver].
  set (l := range (os_receipts s)).
  assert (forall k r, (k, r) ∈ l <-> os_receipts s !! k = Some r) as Hl.
  { intros k r. unfold l. by rewrite range_perm, elem_of_map_to_list. }
  assert (forall k o ob, (k, o, ob) ∈ places l <-> obj_at s k o = Some ob) as Hp.
  { intros k o ob. rewrite elem_of_places. setoid_rewrite Hl. unfold obj_at. rewrite bind_Some. done. }
  assert (NoDup (places l).*1) as Hnd.
  { apply places_NoDup. unfold l. rewrite range_perm. apply NoDup_fst_map_to_list. }
  transitivity (is_ok (rfold (validate_receipt s) ∅ l) = true); [by destruct (rfold _ _ _)|].
  rewrite validate_fold, <-places_objects, !Forall_forall. split.
  - intros (Hh & Ho & Hn & _). split_and!; [done|..].
    + intros k r Hk. by apply (Hh (k, r)), Hl.
    + intros k o ob Hob%Hp. apply Ho, list_elem_of_fmap. by exists (k, o, ob).
    + intros k1 o1 b1 k2 o2 b2 [i Hi]%Hp%list_elem_of_lookup [j Hj]%Hp%list_elem_of_lookup E.
      assert (i = j) as ->; [|by simplify_eq]. apply (NoDup_lookup _ i j (obj_slot b1) Hn); rewrite !list_lookup_fmap; [by rewrite Hi|].
      rewrite Hj. simpl. by rewrite E.
  - intros (_ & Hh & Ho & Hs). split_and!; [| | |set_solver].
    + intros [k r] Hk%Hl. by apply Hh.
    + intros ob ([[k o] ob'] & -> & Hob%Hp)%list_elem_of_fmap. by eapply Ho.
    + rewrite <-list_fmap_compose. apply NoDup_fmap_2_strong; [|by apply NoDup_fmap_1 in Hnd].
      intros [[k1 o1] b1] [[k2 o2] b2] H1%Hp H2%Hp E. simpl in E. destruct (Hs _ _ _ _ _ _ H1 H2 E) as [-> ->].
      congruence.
Qed.

(** ** Reads and journal calls *)

(** Only a receipt that is being retired has objects known to be gone. *)
Definition retired_ok s : Prop := forall key o r ob, os_receipts s !! key = Some r -> obj_of o r = Some ob ->
  ob_Status ob = "absent-confirmed"%string -> nr_Retiring r = true.

(** A state that a restart accepts. *)
Definition recoverable s : Prop := validateReceipts s = Ok tt /\ retired_ok s.

(** The stored state is one the backend had, and a restart accepts it unless it is
    quarantined. *)
Definition durable s : Prop :=
  match jrec s with
  | None => True
  | Some r => r_State r = "null"%string \/
      exists s1, json_Marshal (durableState s1) = Ok (r_State r) /\
        (os_blocked s1 = ""%string -> recoverable s1)
  end.

Definition reads x x' : Prop :=
  keeps x.1 x'.1 /\ (durable x.1 -> durable x'.1) /\ (os_blocked x'.1 = ""%string -> jrec x'.1 = jrec x.1).

Lemma keeps_unblocked s s' : keeps s s' -> os_blocked s' = ""%string -> os_blocked s = ""%string.
Proof. intros Hk E. destruct (decide (os_blocked s = ""%string)) as [|Hn]; [done|]. by apply (k_blocked _ _ Hk) in Hn. Qed.

Lemma reads_refl x : reads x x.
Proof. done. Qed.
Lemma reads_trans x y z : reads x y -> reads y z -> reads x z.
Proof.
  intros (Hk1 & Hd1 & Hj1) (Hk2 & Hd2 & Hj2). split_and!; [by eapply keeps_trans|auto|].
  intros E. rewrite Hj2, Hj1; [done| |done]. by eapply keeps_unblocked.
Qed.

#[local] Instance true_frame : KernelFrame (fun _ : W => True).
Proof. repeat split. Qed.

Lemma with_blocked_keeps reason s : reason <> ""%string -> keeps s (with_blocked reason s).
Proof. done. Qed.
Lemma durable_jrec s s' : jrec s' = jrec s -> durable s -> durable s'.
Proof. unfold durable. by intros ->. Qed.
Lemma reads_jrec x x' : keeps x.1 x'.1 -> jrec x'.1 = jrec x.1 -> reads x x'.
Proof. intros Hk Hj. split_and!; [done| |done]. by apply durable_jrec. Qed.

(** The outcomes of a commit: the record is the new state, or the backend is blocked. *)
Lemma ackMutation_run seq x x' r :
  ackMutation seq x = (x', r) ->
  keeps x.1 x'.1 /\ ((os_blocked x.1 = ""%string -> recoverable x.1) -> durable x.1 -> durable x'.1) /\
  match r with
  | Ok _ => os_blocked x'.1 = os_blocked x.1 /\
      match jrec x'.1 with Some rc => r_Pending rc = None | None => jrec x.1 = None end
  | Err _ => os_blocked x'.1 <> ""%string /\ jrec x'.1 = jrec x.1
  end.
Proof.
  intros H. pose proof (preserves_run _ _ _ _ _ (keeps_ackMutation (fun _ => True) x.1 seq) (conj (keeps_refl _) I) H) as [Hk _].
  split; [done|]. unfold ackMutation, journaled in H. rewrite bind_gets in H.
  case_bool_decide as Hj; simpl in H; last first.
  { unfold ret in H. simplify_eq. split; [done|]. unfold jrec. destruct (os_journal _); [destruct Hj; eauto|done]. }
  rewrite bind_gets in H. unfold attempt, bind in H.
  destruct (on_owned _ x) as [y c] eqn:Ho. simpl in H.
  apply on_owned_inv in Ho as [(Hn & _)|(j & j' & Hj1 & Hc & Hy)]; [rewrite Hn in Hj; by destruct Hj|].
  assert (jrec x.1 = Some (j_record j)) as Ej by (unfold jrec; by rewrite Hj1).
  apply Commit_run in Hc as [(data & w1 & i & -> & Hm & _ & _ & _ & -> & _)|(e & -> & Hr & _)].
  - unfold ret in H. simplify_eq. rewrite Hy. split; [|done]. intros Hv _. unfold durable, jrec. simpl. right. eauto.
  - unfold recovery_blocked, update, modify, fail in H. simpl in H. simplify_eq. rewrite Hy. simpl.
    assert (jrec (with_journal (Some j') x.1) = jrec x.1) as E by (rewrite Ej; unfold jrec; simpl; by rewrite Hr).
    split; [intros _; by apply durable_jrec|]. split; [apply error_text_nonempty|done].
Qed.

Definition pending s : Prop := match jrec s with Some rc => r_Pending rc <> None | None => True end.
Definition idle s : Prop := forall rc, jrec s = Some rc -> r_Pending rc = None.

Lemma durable_state s s' rc rc' :
  jrec s = Some rc -> jrec s' = Some rc' -> r_State rc' = r_State rc -> durable s -> durable s'.
Proof. unfold durable. by intros -> -> ->. Qed.

Lemma owned_Begin {P} {JP : Json P} op (p : P) x x' r :
  is_Some (os_journal x.1) -> on_owned (Begin op p) x = (x', r) ->
  keeps x.1 x'.1 /\ os_blocked x'.1 = os_blocked x.1 /\ (durable x.1 -> durable x'.1) /\
  match r with Ok _ => pending x'.1 /\ idle x.1 | Err _ => jrec x'.1 = jrec x.1 end.
Proof.
  intros Hj [(Hn & _)|(j & j' & Hj1 & Hb & Hx)]%on_owned_inv; [rewrite Hn in Hj; by destruct Hj|].
  rewrite Hx. assert (jrec x.1 = Some (j_record j)) as Ej by (unfold jrec; by rewrite Hj1).
  split; [by split; simpl; rewrite ?Hj1|]. split; [done|]. destruct r as [seq|e].
  - apply Begin_pending in Hb as (data & _ & Hn & Hs & Hp). split; [by apply (durable_state _ _ _ (j_record j') Ej)|].
    unfold pending, idle. rewrite Ej. unfold jrec. simpl. split; congruence.
  - assert (j_record j' = j_record j) as Hr.
    { unfold Begin in Hb. apply bind_inv in Hb as [([j1 w1] & [] & Hc & Hb)|(e' & Hc & _)];
        apply check_run in Hc as [(_ & -> & _)|(e1 & ? & _ & Hr & _)]; try done.
      rewrite bind_gets in Hb. simpl in Hb. msteps_any; try done.
      match goal with H : persist _ _ = _ |- _ => apply persist_run in H as [[? _]|(? & ? & ->)]; done end. }
    assert (jrec (with_journal (Some j') x.1) = jrec x.1) as E by (rewrite Ej; unfold jrec; simpl; by rewrite Hr).
    split; [by apply durable_jrec|done].
Qed.

Lemma beginMutation_run op key o x x' r :
  beginMutation op key o x = (x', r) ->
  keeps x.1 x'.1 /\ (durable x.1 -> durable x'.1) /\
  match r with Ok _ => os_blocked x'.1 = os_blocked x.1 /\ pending x'.1 /\ idle x.1 | Err _ => os_blocked x'.1 <> ""%string end.
Proof.
  unfold beginMutation, journaled. rewrite bind_gets. case_bool_decide as Hj; simpl; last first.
  { intros [= <- <-]. unfold pending, idle, jrec. split_and!; try done; destruct (os_journal _); try done; destruct Hj; eauto. }
  rewrite bind_gets. unfold attempt, bind. destruct (on_owned _ x) as [y c] eqn:Ho. simpl.
  apply owned_Begin in Ho as (Hk & Hb & Hd & Hc); [|done]. destruct c as [seq|e]; unfold ret; intros H; simplify_eq; [done|].
  unfold recovery_blocked, update, modify, fail in H. simpl in H. simplify_eq. simpl.
  split_and!; [|by apply durable_jrec|apply error_text_nonempty].
  eapply keeps_trans; [exact Hk|]. split; try done. intros _. apply error_text_nonempty.
Qed.

Lemma keeps_recoverable s s' : keeps s s' -> recoverable s -> recoverable s'.
Proof. intros [? ? ? ? ? ? ? ? ? ? _ _]. destruct s, s'. simpl in *. by subst. Qed.
Lemma jrec_Some s : is_Some (jrec s) <-> is_Some (os_journal s).
Proof. unfold jrec. by rewrite fmap_is_Some. Qed.

Lemma checkpoint_run x x' r :
  checkpoint x = (x', r) ->
  keeps x.1 x'.1 /\
  ((os_blocked x.1 = ""%string -> is_Some (jrec x.1) -> idle x.1 -> recoverable x.1) -> durable x.1 -> durable x'.1) /\
  match r with
  | Ok _ => os_blocked x'.1 = os_blocked x.1 /\ idle x'.1 /\ idle x.1
  | Err _ => os_blocked x'.1 <> ""%string
  end.
Proof.
  unfold checkpoint, journaled. rewrite bind_gets. case_bool_decide as Hj; simpl; last first.
  { intros [= <- <-]. split_and!; try done; intros rc E; destruct Hj; apply jrec_Some; by rewrite E. }
  rewrite bind_gets. unfold attempt, bind. destruct (on_owned _ x) as [y c] eqn:Ho. simpl.
  apply owned_Begin in Ho as (Hk & Hb & Hd & Hc); [|done]. destruct c as [seq|e]; intros H.
  - apply ackMutation_run in H as (Hk' & Hd' & Hr). split; [by eapply keeps_trans|]. split.
    + intros Hv Hx. destruct Hc as [_ Hc]. apply Hd'; [|auto]. rewrite Hb. intros E. eapply keeps_recoverable; [done|].
      apply Hv; [done| |done]. by apply jrec_Some.
    + destruct r; [|by destruct Hr]. destruct Hr as [-> Hr]. split_and!; [done| |by destruct Hc]. intros rc E. by rewrite E in Hr.
  - unfold recovery_blocked, update, modify, fail in H. simpl in H. simplify_eq. simpl.
    split_and!; [|intros _ Hx%Hd; exact Hx|apply error_text_nonempty].
    eapply keeps_trans; [exact Hk|]. split; try done. intros _. apply error_text_nonempty.
Qed.

(** A quarantine is recorded, or the backend was not journalled. *)
Lemma quarantineError_run x x' r :
  os_blocked x.1 <> ""%string -> quarantineError x = (x', r) -> reads x x' /\ os_blocked x'.1 <> ""%string.
Proof.
  intros Hb H. pose proof (preserves_run _ _ _ _ _ (keeps_quarantineError (fun _ => True) x.1) (conj (keeps_refl _) I) H) as [Hk _].
  assert (os_blocked x'.1 <> ""%string) as Hb' by by apply (k_blocked _ _ Hk).
  split; [|done]. split_and!; [done| |done]. unfold quarantineError, journaled in H. rewrite bind_gets in H.
  destruct (bool_decide _); simpl in H; [|unfold ret in H; by simplify_eq].
  unfold attempt, bind in H. destruct (on_owned Snapshot x) as [y c] eqn:Ho.
  pose proof (preserves_run _ _ _ _ _ (keeps_on_owned (fun _ => True) x.1 Snapshot (fun _ _ => I)) (conj (keeps_refl _) I) Ho) as [Hky _].
  apply on_owned_Snapshot in Ho. simpl in H. intros Hd%(durable_jrec _ _ Ho).
  destruct c as [[? [p|]]|e]; unfold ret in H; simplify_eq; try done.
  destruct (checkpoint y) as [z c] eqn:Hc. simpl in H. simplify_eq.
  apply checkpoint_run in Hc as (_ & Hd' & _). apply Hd'; [|done]. intros E. by apply (keeps_unblocked _ _ Hky) in E.
Qed.

Section reading.
Context (x0 : ownedNetlinkState * W).
Let R x : Prop := reads x0 x.

Lemma reads_step x x' : R x -> keeps x.1 x'.1 -> jrec x'.1 = jrec x.1 -> R x'.
Proof. intros Hx Hk Hj. eapply reads_trans; [exact Hx|]. by apply reads_jrec. Qed.
Lemma reads_block reason : reason <> ""%string -> preserves R (block reason).
Proof. intros Hr. apply preserves_modify. intros x Hx. by apply (reads_step x). Qed.
Lemma reads_world {A} (m : M W A) : preserves R (on_snd m).
Proof.
  intros x Hx. unfold on_snd. destruct (m x.2) as [w r]. simpl. by apply (reads_step x).
Qed.
Lemma reads_Snapshot : preserves R (on_owned Snapshot).
Proof.
  intros x Hx. destruct (on_owned Snapshot x) as [x' r] eqn:E. simpl. apply (reads_step x); [done| |by eapply on_owned_Snapshot].
  by destruct (preserves_run _ _ _ _ _ (keeps_on_owned (fun _ => True) x.1 Snapshot (fun _ _ => I)) (conj (keeps_refl _) I) E).
Qed.
Lemma reads_drain : preserves R drain.
Proof.
  intros x Hx. destruct (drain x) as [x' r] eqn:E. simpl. apply (reads_step x); [done| |by eapply drain_jrec].
  by destruct (preserves_run _ _ _ _ _ (keeps_drain (fun _ => True) x.1) (conj (keeps_refl _) I) E).
Qed.
Lemma reads_quarantine {A} x : R x -> os_blocked x.1 <> ""%string -> R (quarantine (A := A) x).1.
Proof.
  intros Hx Hb. unfold quarantine, bind. destruct (quarantineError x) as [y c] eqn:E.
  apply quarantineError_run in E as [Hy _]; [|done]. pose proof (reads_trans _ _ _ Hx Hy). by destruct c.
Qed.
Lemma reads_block_quarantine {A} reason : reason <> ""%string -> preserves R (do! block reason in quarantine (A := A)).
Proof. intros Hr x Hx. apply reads_quarantine; [by apply (reads_block reason)|done]. Qed.
Hint Resolve reads_block reads_world reads_Snapshot reads_drain error_text_nonempty : evpn.

Lemma reads_check_marker s : preserves R (check_marker s).
Proof.
  intros x Hx. unfold check_marker, bind. pose proof (reads_world (markerChanged s) x Hx) as Hx'.
  destruct (on_snd (markerChanged s) x) as [x' [[reason|]|e]] eqn:E; [|done..].
  apply on_snd_inv in E as [_ E]. apply markerChanged_reason in E. by apply reads_block.
Qed.
Lemma reads_check_devices : preserves R check_devices.
Proof.
  unfold check_devices, device. apply preserves_bind; [pres|]. intros s. apply preserves_mfold. intros _ [name id].
  apply preserves_bind; [pres|]. intros got. case_bool_decide; [pres|]. by apply reads_block_quarantine.
Qed.
Hint Resolve reads_check_marker reads_check_devices : evpn.

Lemma reads_check ctx : preserves R (check ctx).
Proof.
  unfold check. apply preserves_bind; [pres|]. intros cerr. apply preserves_bind; [pres|]. intros _.
  apply preserves_bind; [pres|]. intros s. destruct (os_closed s); [pres|].
  apply preserves_bind; [pres|]. intros _. apply preserves_bind; [pres|]. intros s'.
  apply preserves_bind; [pres|]. intros _. apply preserves_bind; [pres|]. intros _.
  apply preserves_bind_gets. intros x Hx. case_bool_decide; simpl; [by apply reads_check_devices|by apply reads_quarantine].
Qed.
Hint Resolve reads_check : evpn.

Lemma reads_slot ctx want : preserves R (slot ctx want).
Proof.
  unfold slot. apply preserves_bind; [pres|]. intros _. apply preserves_bind; [pres|]. intros [entries|e]; [pres|].
  by apply reads_block_quarantine.
Qed.
End reading.

Lemma check_reads ctx x x' r : check ctx x = (x', r) -> reads x x'.
Proof. intros H. exact (preserves_run _ _ _ _ _ (reads_check x ctx) (reads_refl x) H). Qed.
Lemma slot_reads ctx want x x' r : slot ctx want x = (x', r) -> reads x x'.
Proof. intros H. exact (preserves_run _ _ _ _ _ (reads_slot x ctx want) (reads_refl x) H). Qed.

(** ** The invariant *)

Definition no_evidence (ob : RemoteObjectReceipt) : Prop :=
  ob_ACK ob = false /\ ob_DeleteACK ob = false /\ ob_Observed ob = zero_entry.

(** An object is in a state a restart accepts, or its creation is only intended. *)
Definition obj_inv s (ob : RemoteObjectReceipt) : Prop :=
  object_ok ob = true \/ (ob_Status ob = "pending"%string /\ no_evidence ob /\ pending s).

(** The invariant, except for the object an operation is working on. *)
Definition inv_except (ex : option (string * side)) s : Prop :=
  topology s /\ durable s /\
  (os_blocked s = ""%string ->
   headers_ok s /\ slots_apart s /\ retired_ok s /\
   forall key o ob, Some (key, o) <> ex -> obj_at s key o = Some ob -> obj_inv s ob).
Definition inv : ownedNetlinkState -> Prop := inv_except None.

(** What is left of a backend that blocked itself. *)
Definition frozen s s' : Prop :=
  os_blocked s' <> ""%string /\ (durable s -> durable s') /\ os_config s' = os_config s /\ os_devices s' = os_devices s.

Lemma topology_same s s' : os_config s' = os_config s -> os_devices s' = os_devices s -> topology s -> topology s'.
Proof.
  unfold topology. intros -> Hd. rewrite !forallb_forall. intros Ht n Hn. rewrite <-(Ht n Hn).
  unfold topology_ok. by rewrite Hd.
Qed.

Lemma inv_frozen ex ex' s s' : inv_except ex s -> frozen s s' -> inv_except ex' s'.
Proof.
  intros (Ht & Hd & _) (Hb & Hd' & Hc & Hdev). split_and!; [by eapply topology_same|auto|done].
Qed.

Lemma inv_weaken key o s : inv s -> inv_except (Some (key, o)) s.
Proof. intros (Ht & Hd & H). split_and!; [done..|]. intros (? & ? & ? & Ho)%H. split_and!; [done..|]. intros. by eapply Ho. Qed.

Lemma inv_restore key o s :
  inv_except (Some (key, o)) s -> (os_blocked s = ""%string -> forall ob, obj_at s key o = Some ob -> obj_inv s ob) -> inv s.
Proof.
  intros (Ht & Hd & H) Hob. split_and!; [done..|]. intros Hb. destruct (H Hb) as (? & ? & ? & Ho). split_and!; [done..|].
  intros k o' ob _ Hk. destruct (decide ((k, o') = (key, o))) as [[= -> ->]|Hne]; [by apply Hob|].
  eapply Ho; [|done]. congruence.
Qed.

Lemma inv_reads ex x x' : inv_except ex x.1 -> reads x x' -> inv_except ex x'.1.
Proof.
  intros (Ht & Hd & H) (Hk & Hd' & Hj). pose proof (keeps_unblocked _ _ Hk) as Hub.
  destruct x as [s w], x' as [s' w']. simpl in *. destruct Hk as [Ec ? ? Ed ? ? ? ? ? ? _ _].
  split_and!; [by eapply topology_same|by auto|].
  - intros Hb. specialize (Hj Hb). specialize (Hub Hb). clear Hd Hd' Hb. unfold obj_inv, pending in *. rewrite Hj.
    destruct s, s'. simpl in *. subst. exact (H eq_refl).
Qed.

(** ** Updates of one object *)

Lemma update_obj_at key o f x x' r :
  update_obj key o f x = (x', r) ->
  r = Ok tt /\ x'.2 = x.2 /\ (forall k o', obj_at x'.1 k o' = if decide ((k, o') = (key, o)) then f <$> obj_at x.1 key o else obj_at x.1 k o').
Proof.
  unfold update_obj, update, modify. intros [= <- <-]. split_and!; [done..|]. intros k o'. unfold obj_at. simpl.
  destruct (decide (k = key)) as [->|Hk].
  - rewrite lookup_alter_eq. destruct (os_receipts x.1 !! key) as [rc|]; simpl; [|by case_decide].
    case_decide as E; [simplify_eq; destruct (obj_of o rc) eqn:Eo; [by destruct o|by rewrite Eo]|].
    destruct (obj_of o rc) eqn:Eo; [|done]. destruct o, o'; simpl in *; congruence.
  - rewrite lookup_alter_ne by done. case_decide; [congruence|done].
Qed.

(** The parts of a header do not depend on the evidence of the objects. *)
Lemma header_put s key o f r :
  (forall ob, ob_Request (f ob) = ob_Request ob) -> header_ok s key r ->
  header_ok s key (match obj_of o r with Some ob => put_obj o (f ob) r | None => r end).
Proof.
  intros Hf H. destruct (obj_of o r) as [ob|] eqn:Eo; [|done]. destruct H as (Hi & Hs & Hn & Hr). split_and!; try done.
  revert Hr. unfold receipt_requests_ok. simpl. destruct o; simpl in *; simplify_eq; rewrite ?Hf; [done|]. by rewrite Eo.
Qed.

Lemma inv_update_obj ex key o f x x' r :
  (forall ob, ob_Request (f ob) = ob_Request ob) -> update_obj key o f x = (x', r) ->
  (forall rc ob, os_receipts x.1 !! key = Some rc -> obj_of o rc = Some ob ->
     ob_Status (f ob) = "absent-confirmed"%string -> nr_Retiring rc = true) ->
  inv_except ex x.1 -> ex = None \/ ex = Some (key, o) -> inv_except (Some (key, o)) x'.1.
Proof.
  intros Hf Hu Hret (Ht & Hd & H) Hex. pose proof (update_obj_at _ _ _ _ _ _ Hu) as (_ & _ & Hat).
  assert (topology x'.1 /\ durable x'.1 /\ os_blocked x'.1 = os_blocked x.1 /\ jrec x'.1 = jrec x.1 /\
    (forall k rc, header_ok x.1 k rc -> header_ok x'.1 k rc) /\
    os_receipts x'.1 = alter (fun rc => match obj_of o rc with Some ob => put_obj o (f ob) rc | None => rc end) key (os_receipts x.1))
    as (Ht' & Hd' & Eb & Ej & Hhdr & Er) by (unfold update_obj, update, modify in Hu; by simplify_eq).
  clear Hu. split_and!; [done|done|]. rewrite Eb. intros Hb. destruct (H Hb) as (Hh & Hs & Hr & Ho). split_and!.
  - intros k rc. rewrite Er, lookup_alter_Some. intros [(<- & rc' & Hrc & ->)|[_ Hrc]]; [|by apply Hhdr, Hh].
    by apply Hhdr, header_put, Hh.
  - assert (forall k o' b, obj_at x'.1 k o' = Some b -> exists b', obj_at x.1 k o' = Some b' /\ obj_slot b' = obj_slot b) as Hslot.
    { intros k o' b. rewrite Hat. case_decide as E; [|eauto]. simplify_eq. intros (b' & Hb' & ->)%fmap_Some.
      exists b'. split; [done|]. unfold obj_slot. by rewrite Hf. }
    intros k1 o1 b1 k2 o2 b2 (b1' & H1 & E1)%Hslot (b2' & H2 & E2)%Hslot E. eapply (Hs _ _ _ _ _ _ H1 H2). congruence.
  - intros k o' rc ob. rewrite Er, lookup_alter_Some. intros [(<- & rc' & Hrc & ->)|[_ Hrc]] Hob Hst; [|by eapply Hr].
    destruct (obj_of o rc') as [ob'|] eqn:Eo; [|by eapply Hr]. cut (nr_Retiring rc' = true); [by destruct o|].
    destruct (decide (o' = o)) as [->|Hne]; [eapply Hret; [done..|]; destruct o; simpl in *; congruence|].
    eapply (Hr key o' rc' ob); [done| |done]. destruct o, o'; done.
  - intros k o' ob Hne. rewrite Hat. case_decide as E; [by rewrite E in Hne|]. intros Hob. unfold obj_inv, pending. rewrite Ej.
    eapply (Ho k o' ob); [|done]. by destruct Hex as [->| ->].
Qed.

(** ** A blocked backend stays as it is *)

Section freezing.
Context (s0 : ownedNetlinkState).
Let F x : Prop := frozen s0 x.1.

Lemma frozen_reads x x' : F x -> reads x x' -> F x'.
Proof.
  intros (Hb & Hd & Hc & Hdv) (Hk & Hd' & _). split_and!; [by apply (k_blocked _ _ Hk)|auto|..].
  - by rewrite (k_config _ _ Hk).
  - by rewrite (k_devices _ _ Hk).
Qed.
Lemma frozen_block reason : reason <> ""%string -> preserves F (block reason).
Proof. intros Hr. apply preserves_modify. intros x (Hb & Hd & ? & ?). by split_and!. Qed.
Lemma frozen_recovery_blocked reason : reason <> ""%string -> preserves F (recovery_blocked reason).
Proof. intros Hr. apply preserves_modify. intros x (Hb & Hd & ? & ?). by split_and!. Qed.
Lemma frozen_update_obj key o f : preserves F (update_obj key o f).
Proof. apply preserves_modify. intros x (Hb & Hd & ? & ?). by split_and!. Qed.
Lemma frozen_quarantineError : preserves F quarantineError.
Proof.
  intros x Hx. destruct (quarantineError x) as [x' r] eqn:E. pose proof Hx as (Hb & _).
  apply quarantineError_run in E as [Hr _]; [|done]. by eapply frozen_reads.
Qed.
Lemma frozen_ackMutation seq : preserves F (ackMutation seq).
Proof.
  intros x (Hb & Hd & Hc & Hdv). destruct (ackMutation seq x) as [x' r] eqn:E.
  apply ackMutation_run in E as (Hk & Hd' & _). split_and!; [by apply (k_blocked _ _ Hk)|intros; by apply Hd'; auto|..]; simpl.
  - by rewrite (k_config _ _ Hk).
  - by rewrite (k_devices _ _ Hk).
Qed.
End freezing.

Lemma frozen_from x x1 s' : reads x x1 -> frozen x1.1 s' -> frozen x.1 s'.
Proof.
  intros (Hk & Hd & _) (Hb & Hd' & Hc & Hdv). split_and!; [done|auto|..].
  - by rewrite Hc, (k_config _ _ Hk).
  - by rewrite Hdv, (k_devices _ _ Hk).
Qed.

(** Blocking freezes. *)
Lemma block_frozen {A} reason (m : M (ownedNetlinkState * W) A) x x' r :
  reason <> ""%string -> (forall s0, preserves (fun y => frozen s0 y.1) m) ->
  (do! block reason in m) x = (x', r) -> frozen x.1 x'.1.
Proof.
  intros Hr Hm H. unfold bind, block, update, modify in H. eapply (preserves_run _ _ _ _ _ (Hm x.1)); [|exact H]. by split_and!.
Qed.

#[local] Hint Resolve frozen_block frozen_recovery_blocked frozen_update_obj frozen_quarantineError frozen_ackMutation
  error_text_nonempty : evpn.

Lemma confirm_run ctx key o absent x x' r :
  confirm_obj ctx key o absent x = (x', r) ->
  match r with
  | Ok _ => exists x1 found, slot ctx (ob_Request (get_obj key o x.1)) x = (x1, Ok found) /\
      if absent then found = [] /\ update_obj key o (ob_status "absent-confirmed" "") x1 = (x', Ok tt)
      else exists f, found = [f] /\ f = expected_entry (get_obj key o x.1) f /\
        update_obj key o (fun ob => ob_set f "confirmed" (ob_ACK ob) (ob_DeleteACK ob) "" ob) x1 = (x', Ok tt)
  | Err _ => reads x x' \/ frozen x.1 x'.1
  end.
Proof.
  intros H. destruct r as [[]|e]; [by apply confirm_ok|]. unfold confirm_obj, read_obj in H. rewrite bind_gets in H.
  apply bind_inv in H as [(x1 & found & Hs & H)|(e' & Hs & _)]; apply slot_reads in Hs; [right|by left].
  eapply frozen_from; [done|]. destruct absent, found as [|f [|]]; try case_bool_decide.
  all: first [eapply block_frozen; [| |exact H]; [done|]; intros; pres
             |by apply update_obj_at in H as [? _]].
Qed.

(** ** Operations on one object *)

Definition calm s s' : Prop := (durable s -> durable s') /\ os_config s' = os_config s /\ os_devices s' = os_devices s.
Lemma calm_trans s1 s2 s3 : calm s1 s2 -> calm s2 s3 -> calm s1 s3.
Proof. intros (? & ? & ?) (? & ? & ?). split_and!; [auto|congruence..]. Qed.
Lemma calm_frozen s1 s2 s3 : calm s1 s2 -> frozen s2 s3 -> frozen s1 s3.
Proof. intros Hc (? & Hf). split; [done|]. by apply (calm_trans s1 s2 s3). Qed.
Lemma reads_calm x x' : reads x x' -> calm x.1 x'.1.
Proof. intros (Hk & Hd & _). split_and!; [done|apply (k_config _ _ Hk)|apply (k_devices _ _ Hk)]. Qed.
Lemma frozen_calm s s' : frozen s s' -> calm s s'.
Proof. by intros []. Qed.
Lemma update_obj_calm key o f x x' r : update_obj key o f x = (x', r) -> calm x.1 x'.1.
Proof. unfold update_obj, update, modify. by intros [= <- <-]. Qed.

Lemma obj_at_get s key o ob : obj_at s key o = Some ob -> get_obj key o s = ob.
Proof. intros H. change (default (new_object zero_entry) (obj_at s key o) = ob). by rewrite H. Qed.
Lemma keeps_obj_at s s' key o : keeps s s' -> obj_at s' key o = obj_at s key o.
Proof. intros Hk. unfold obj_at. by rewrite (k_receipts _ _ Hk). Qed.

Lemma keeps_jrec s s' : keeps s s' -> jrec s = None -> jrec s' = None.
Proof.
  intros Hk. unfold jrec. rewrite !fmap_None. intros E. destruct (os_journal s') eqn:E'; [|done].
  destruct (proj1 (k_journal _ _ Hk)) as [? ?]; [by rewrite E'|congruence].
Qed.

(** When nothing is pending, every object is accepted by a restart. *)
Lemma inv_settled s : inv s -> os_blocked s = ""%string -> is_Some (jrec s) -> idle s -> recoverable s.
Proof.
  intros (Ht & _ & H) Hb [rc Hj] Hidle. destruct (H Hb) as (Hh & Hs & Hr & Ho). split; [|done].
  apply validateReceipts_iff. split_and!; [done..| |done]. intros k o ob Hob.
  destruct (Ho k o ob) as [|(_ & _ & Hp)]; [done..|]. unfold pending in Hp. rewrite Hj in Hp. by destruct Hp; apply Hidle.
Qed.

Lemma inv_keeps s s' :
  inv s -> keeps s s' -> durable s' ->
  (os_blocked s' = ""%string -> (pending s -> pending s') \/ objects_hold (fun ob => object_ok ob = true) s) -> inv s'.
Proof.
  intros (Ht & _ & H) Hk Hd Hp. pose proof (keeps_unblocked _ _ Hk) as Hub.
  split_and!; [eapply topology_same; [apply (k_config _ _ Hk)|apply (k_devices _ _ Hk)|done]|done|].
  intros Hb. specialize (Hp Hb). destruct (H (Hub Hb)) as (Hh & Hs & Hr & Ho). clear H Hub.
  assert (forall k o ob, obj_at s' k o = Some ob -> obj_inv s' ob) as Ho'.
  { intros k o ob. rewrite (keeps_obj_at _ _ _ _ Hk). intros Hob. destruct Hp as [Hp|Hp]; [|left; by eapply Hp].
    destruct (Ho k o ob) as [|(? & ? & ?)]; [done..|by left|right; auto]. }
  split_and!; [| | |by intros; eapply Ho']; clear Ho' Ho Hp Ht Hd Hb.
  all: destruct Hk as [? ? ? ? ? ? ? ? ? ? _ _]; destruct s, s'; simpl in *; by subst.
Qed.

Lemma inv_checkpoint x x' r : inv x.1 -> checkpoint x = (x', r) -> inv x'.1.
Proof.
  intros Hi (Hk & Hd & Hr)%checkpoint_run. eapply inv_keeps; [done..| |].
  - apply Hd; [|by destruct Hi as (_ & ? & _)]. intros. by apply inv_settled.
  - intros Hb. destruct r as [[]|]; [|done]. destruct Hr as (Eb & _ & Hidle). destruct (jrec x.1) as [rc|] eqn:Ej.
    + right. destruct (inv_settled x.1 Hi) as [(_ & _ & Ho & _)%validateReceipts_iff _]; [congruence|by rewrite Ej|done..].
    + left. intros _. unfold pending. by rewrite (keeps_jrec _ _ Hk Ej).
Qed.

Lemma inv_ackMutation seq x x' r :
  inv x.1 -> (is_Some (jrec x.1) -> os_blocked x.1 = ""%string -> objects_hold (fun ob => object_ok ob = true) x.1) ->
  ackMutation seq x = (x', r) -> inv x'.1.
Proof.
  intros Hi Ho (Hk & Hd & Hr)%ackMutation_run. eapply inv_keeps; [done..| |].
  - destruct (jrec x.1) as [rc|] eqn:Ej.
    + apply Hd; [|by destruct Hi as (_ & ? & _)]. intros Hb. destruct Hi as (Ht & _ & H). destruct (H Hb) as (? & ? & ? & _).
      split; [|done]. apply validateReceipts_iff. split_and!; try done. by apply Ho.
    + unfold durable. by rewrite (keeps_jrec _ _ Hk Ej).
  - intros Hb. destruct (jrec x.1) as [rc|] eqn:Ej.
    + right. apply Ho; [done|]. by eapply keeps_unblocked.
    + left. intros _. unfold pending. by rewrite (keeps_jrec _ _ Hk Ej).
Qed.

(** The kernel gives every neighbour it lists a type. *)
Class TypedKernel := typed_neighbours i f (w w' : W) entries n :
  NeighList i f w = (w', Ok entries) -> n ∈ entries -> ng_Family n <> AF_BRIDGE -> ng_Type n <> 0.
Context {TK : TypedKernel}.

Lemma slot_typed ctx want x x' found f :
  slot ctx want x = (x', Ok found) -> f ∈ found -> ke_Family want <> AF_BRIDGE -> ke_Type f <> 0.
Proof.
  intros (w0 & entries & Hn & -> & _)%slot_ok Hf Hw.
  rewrite list_elem_of_In, filter_In, <-list_elem_of_In in Hf. destruct Hf as [(n & -> & Hin)%list_elem_of_fmap Hs].
  eapply (typed_neighbours _ _ _ _ _ n Hn Hin). unfold sameKernelSlot in Hs. simpl in *.
  destruct (ng_Family n =? ke_Family want) eqn:E; [|done]. apply Z.eqb_eq in E. congruence.
Qed.

Lemma request_shape s key rc o ob :
  header_ok s key rc -> obj_of o rc = Some ob ->
  ke_Family (ob_Request ob) = AF_BRIDGE \/ (ke_Family (ob_Request ob) <> AF_BRIDGE /\ ke_Type (ob_Request ob) = 0).
Proof.
  intros (_ & _ & _ & Hr) Ho. unfold receipt_requests_ok in Hr. simpl in Hr. bools. destruct o; simpl in Ho.
  - left. simplify_eq. match goal with H : _ = ob_Request (nr_FDB rc) |- _ => by rewrite <-H end.
  - right. rewrite Ho in *. simpl in *. case_bool_decide; simplify_eq/=.
    match goal with H : _ = ob_Request ob |- _ => rewrite <-H end.
    split; [|done]. simpl. by repeat case_match.
Qed.

Lemma set_type_id e : set_type (ke_Type e) e = e.
Proof. by destruct e. Qed.

(** A creation read back gives a receipt that a restart accepts. *)
Lemma confirmed_ok ob f :
  ob_Status ob <> "confirmed"%string -> ob_ACK ob = true -> ob_DeleteACK ob = false -> f = expected_entry ob f ->
  ke_Family (ob_Request ob) = AF_BRIDGE \/ (ke_Family (ob_Request ob) <> AF_BRIDGE /\ ke_Type (ob_Request ob) = 0) ->
  (ke_Family (ob_Request ob) <> AF_BRIDGE -> ke_Type f <> 0) ->
  object_ok (ob_set f "confirmed" (ob_ACK ob) (ob_DeleteACK ob) "" ob) = true.
Proof.
  intros Hs Ha Hd Hf Hshape Hty. unfold expected_entry in Hf. rewrite bool_decide_eq_false_2 in Hf by done.
  unfold object_ok. simpl. rewrite Ha, Hd. simpl. destruct Hshape as [E|[E E0]].
  - rewrite E in *. simpl in *. rewrite andb_false_r in Hf. simpl in Hf. subst f. rewrite set_type_id.
    rewrite bool_decide_eq_true_2 by done. by rewrite Z.eqb_refl.
  - specialize (Hty E). rewrite E0 in Hf. rewrite (proj2 (Z.eqb_neq _ _) E) in *. simpl in Hf.
    destruct (_ || _) eqn:Ht; [|congruence]. rewrite <-Hf. rewrite bool_decide_eq_true_2 by done. done.
Qed.

Lemma reconfirmed_ok ob f :
  ob_Status ob = "confirmed"%string -> f = expected_entry ob f -> object_ok ob = true ->
  object_ok (ob_set f "confirmed" (ob_ACK ob) (ob_DeleteACK ob) "" ob) = true.
Proof. unfold expected_entry, object_ok. intros Hs. rewrite !Hs. simpl. by intros ->. Qed.

Lemma update_obj_same key o f x x' r :
  update_obj key o f x = (x', r) -> jrec x'.1 = jrec x.1 /\ os_blocked x'.1 = os_blocked x.1 /\
    (forall k, is_Some (os_receipts x'.1 !! k) <-> is_Some (os_receipts x.1 !! k)).
Proof.
  unfold update_obj, update, modify. intros [= <- <-]. split_and!; [done..|]. intros k. simpl. by rewrite lookup_alter_is_Some.
Qed.

(** Write an object that satisfies the invariant. *)
Lemma inv_put ex key o f x x' r ob :
  update_obj key o f x = (x', r) -> obj_at x.1 key o = Some ob -> (forall ob, ob_Request (f ob) = ob_Request ob) ->
  inv_except ex x.1 -> ex = None \/ ex = Some (key, o) ->
  (forall rc, os_receipts x.1 !! key = Some rc -> ob_Status (f ob) = "absent-confirmed"%string -> nr_Retiring rc = true) ->
  (os_blocked x.1 = ""%string -> obj_inv x.1 (f ob)) -> inv x'.1.
Proof.
  intros Hu Hob Hf Hi Hex Hret Hnew. pose proof (update_obj_same _ _ _ _ _ _ Hu) as (Ej & Eb & _).
  pose proof (update_obj_at _ _ _ _ _ _ Hu) as (_ & _ & Hat). apply (inv_restore key o).
  - eapply inv_update_obj; [exact Hf|exact Hu| |exact Hi|exact Hex]. intros rc ob' Hrc Hob' Hst. apply (Hret rc Hrc).
    assert (obj_at x.1 key o = Some ob') as E by (unfold obj_at; by rewrite Hrc). congruence.
  - rewrite Eb. intros Hb ob'. rewrite Hat, decide_True, Hob by done. intros [= <-].
    destruct (Hnew Hb) as [|(? & ? & ?)]; [by left|right]. unfold pending in *. by rewrite Ej.
Qed.

(** Every other object is accepted by a restart. *)
Definition others_ok key o s : Prop :=
  forall k o' ob, (k, o') <> (key, o) -> obj_at s k o' = Some ob -> object_ok ob = true.

Lemma add_failed_inv key o e x x' r ob :
  inv x.1 -> obj_at x.1 key o = Some ob -> no_evidence ob -> add_failed key o e x = (x', r) -> inv x'.1.
Proof.
  intros Hi Hob Hne H. unfold add_failed in H. destruct (update_obj key o (ob_status "failed" (error_text e)) x) as [x1 c] eqn:Hu.
  assert (inv x1.1) as Hi1.
  { eapply inv_put; [exact Hu|exact Hob|done|exact Hi|by left|done|]. intros _. left. destruct Hne as (Ha & Hd & Hz).
    unfold object_ok. simpl. by rewrite Ha, Hd, Hz. }
  unfold bind in H. rewrite Hu in H. apply update_obj_at in Hu as [-> _].
  unfold block, recovery_blocked, journaled, update_obj, update, modify, gets, ret, fail in H.
  destruct (negb (definitiveReject e)), (decide (is_Some (os_journal x1.1))) as [Hj|Hj]; simpl in H;
    rewrite ?(bool_decide_eq_true_2 _ Hj), ?(bool_decide_eq_false_2 _ Hj) in H; simplify_eq; try done.
  all: eapply inv_frozen; [exact Hi1|]; by split_and!.
Qed.

Lemma delete_failed_inv key o e x x' r ob :
  inv x.1 -> obj_at x.1 key o = Some ob -> ob_Status ob = "confirmed"%string -> object_ok ob = true ->
  delete_failed key o e x = (x', r) -> inv x'.1.
Proof.
  intros Hi Hob Hst Hok H. unfold delete_failed in H.
  destruct (update_obj key o (fun ob => ob_status (ob_Status ob) (error_text e) ob) x) as [x1 c] eqn:Hu.
  assert (inv x1.1) as Hi1.
  { eapply inv_put; [exact Hu|exact Hob|done|exact Hi|by left| |].
    - intros rc _. simpl. by rewrite Hst.
    - intros _. left. exact Hok. }
  unfold bind in H. rewrite Hu in H. apply update_obj_at in Hu as [-> _].
  unfold block, recovery_blocked, journaled, update_obj, update, modify, gets, ret, fail in H.
  destruct (negb (definitiveReject e)), (decide (is_Some (os_journal x1.1))) as [Hj|Hj]; simpl in H;
    rewrite ?(bool_decide_eq_true_2 _ Hj), ?(bool_decide_eq_false_2 _ Hj) in H; simplify_eq; try done.
  all: eapply inv_frozen; [exact Hi1|]; by split_and!.
Qed.

Lemma unverified_inv {A} ex key o f reason e x x1 x' (r : result A) :
  reason <> ""%string -> inv_except ex x.1 -> reads x x1 \/ frozen x.1 x1.1 ->
  (do! update_obj key o f in do! block reason in fail e) x1 = (x', r) -> inv x'.1.
Proof.
  intros Hr Hi Hx H. eapply inv_frozen; [exact Hi|]. eapply calm_frozen.
  - destruct Hx as [Hx|Hx]; [by apply reads_calm|by apply frozen_calm].
  - unfold block, update_obj, update, modify, bind, fail in H. simplify_eq. by split_and!.
Qed.

Lemma header_shape s key o ob :
  headers_ok s -> obj_at s key o = Some ob ->
  ke_Family (ob_Request ob) = AF_BRIDGE \/ (ke_Family (ob_Request ob) <> AF_BRIDGE /\ ke_Type (ob_Request ob) = 0).
Proof. intros Hh (rc & Hrc & Ho)%bind_Some. eapply request_shape; [by apply Hh|done]. Qed.

Lemma others_ok_reads key o x x' : reads x x' -> others_ok key o x.1 -> others_ok key o x'.1.
Proof. intros (Hk & _ & _) Ho k o' ob Hne. rewrite (keeps_obj_at _ _ _ _ Hk). by apply Ho. Qed.
Lemma others_ok_update key o f x x' r : update_obj key o f x = (x', r) -> others_ok key o x.1 -> others_ok key o x'.1.
Proof. intros (_ & _ & Hat)%update_obj_at Ho k o' ob Hne. rewrite Hat, decide_False by done. by apply Ho. Qed.
Lemma others_ok_all key o s ob :
  others_ok key o s -> obj_at s key o = Some ob -> object_ok ob = true -> objects_hold (fun ob => object_ok ob = true) s.
Proof.
  intros Ho Hob Hok k o' ob' Hk. destruct (decide ((k, o') = (key, o))) as [[= -> ->]|Hne]; [congruence|by eapply Ho].
Qed.

Lemma add_object_inv ctx key o req seq x x' r ob :
  inv x.1 -> os_blocked x.1 = ""%string -> (is_Some (jrec x.1) -> others_ok key o x.1) ->
  obj_at x.1 key o = Some ob -> ob_Status ob = "pending"%string -> no_evidence ob -> ob_Request ob = req ->
  add_object ctx key o req seq x = (x', r) -> inv x'.1.
Proof.
  intros Hi Hb Hoth Hob Hst Hne <- H. unfold add_object in H.
  apply bind_inv in H as [(x1 & found & Hs & H)|(e & Hs & _)]; apply slot_reads in Hs as Hrd;
    pose proof (inv_reads _ _ _ Hi Hrd) as Hi1; [|done].
  assert (obj_at x1.1 key o = Some ob) as Hob1 by (rewrite (keeps_obj_at _ _ _ _ (proj1 Hrd)); done).
  case_bool_decide as Hf; cbn [negb] in H; [subst found|]; last first.
  { eapply inv_frozen; [exact Hi1|]. eapply block_frozen; [| |exact H]; [done|]. intros. pres. }
  pose proof (slot_ok _ _ _ _ _ Hs) as (_ & _ & _ & _ & Ej1 & Hb1).
  rewrite bind_attempt in H. destruct (on_snd _ x1) as [x2 c] eqn:Ha. cbn [fst snd] in H. apply on_snd_inv in Ha as [E2 _].
  rewrite <-E2 in Hi1, Hob1, Ej1, Hb1. destruct c as [[]|e]; [|by eapply add_failed_inv].
  apply bind_inv in H as [(x3 & [] & Hu & H)|(? & Hu & _)]; [|by apply update_obj_at in Hu as [? _]].
  pose proof (update_obj_same _ _ _ _ _ _ Hu) as (Ej3 & Eb3 & _). pose proof (update_obj_at _ _ _ _ _ _ Hu) as (_ & _ & Hat).
  assert (inv_except (Some (key, o)) x3.1) as Hi3.
  { eapply inv_update_obj; [|exact Hu| |exact Hi1|by left]; [done|]. intros rc ob' Hrc Ho Hs'. simpl in Hs'.
    assert (obj_at x2.1 key o = Some ob') by (unfold obj_at; by rewrite Hrc). congruence. }
  set (ob3 := ob_set (ob_Observed ob) (ob_Status ob) true (ob_DeleteACK ob) (ob_Error ob) ob).
  assert (obj_at x3.1 key o = Some ob3) as Hob3 by (rewrite Hat, decide_True, Hob1; done).
  rewrite bind_attempt in H. destruct (confirm_obj ctx key o false x3) as [x4 c] eqn:Hc. cbn [fst snd] in H.
  apply confirm_run in Hc. destruct c as [[]|e]; [|eapply unverified_inv; [|exact Hi3|exact Hc|exact H]; done].
  destruct Hc as (x3' & found & Hs3 & f & -> & Hf & Hu4). rewrite (obj_at_get _ _ _ _ Hob3) in Hs3, Hf.
  pose proof (slot_reads _ _ _ _ _ Hs3) as Hrd3. pose proof (inv_reads _ _ _ Hi3 Hrd3) as Hi3'.
  assert (obj_at x3'.1 key o = Some ob3) as Hob3' by (rewrite (keeps_obj_at _ _ _ _ (proj1 Hrd3)); done).
  pose proof (slot_ok _ _ _ _ _ Hs3) as (_ & _ & _ & _ & Ej3' & Hb3').
  assert (object_ok (ob_set f "confirmed" (ob_ACK ob3) (ob_DeleteACK ob3) "" ob3) = true) as Hok.
  { apply confirmed_ok; try done; [unfold ob3; simpl; by rewrite Hst|by destruct Hne as (_ & ? & _)|..].
    - destruct Hi3' as (_ & _ & H3). destruct (H3 Hb3') as (Hh & _). by eapply header_shape.
    - intros Hfam. eapply slot_typed; [exact Hs3|left|done]. }
  assert (inv x4.1) as Hi4.
  { eapply inv_put; [exact Hu4|exact Hob3'|done|exact Hi3'|by right|done|]. intros _. by left. }
  eapply inv_ackMutation; [exact Hi4| |exact H]. pose proof (update_obj_same _ _ _ _ _ _ Hu4) as (Ej4 & _ & _).
  pose proof (update_obj_at _ _ _ _ _ _ Hu4) as (_ & _ & Hat4). intros Hj _.
  eapply others_ok_all; [|by rewrite Hat4, decide_True, Hob3'|exact Hok].
  eapply others_ok_update; [exact Hu4|]. eapply others_ok_reads; [exact Hrd3|]. eapply others_ok_update; [exact Hu|].
  rewrite E2. eapply others_ok_reads; [exact Hrd|]. apply Hoth. by rewrite <-Ej1, <-Ej3, <-Ej3', <-Ej4.
Qed.

Lemma run_frozen x x' : keeps x.1 x'.1 -> (durable x.1 -> durable x'.1) -> os_blocked x'.1 <> ""%string -> frozen x.1 x'.1.
Proof. intros Hk Hd Hb. split_and!; [done|done|apply (k_config _ _ Hk)|apply (k_devices _ _ Hk)]. Qed.

(** An intent is written: the object may wait for it, the others are settled. *)
Lemma begin_inv op key o x x' r ob :
  inv_except (Some (key, o)) x.1 -> obj_at x.1 key o = Some ob ->
  (os_blocked x.1 = ""%string -> object_ok ob = true \/ (ob_Status ob = "pending"%string /\ no_evidence ob)) ->
  beginMutation op key o x = (x', r) ->
  inv x'.1 /\ obj_at x'.1 key o = Some ob /\
  (is_ok r = true -> os_blocked x'.1 = os_blocked x.1 /\ (is_Some (jrec x'.1) -> os_blocked x.1 = ""%string -> others_ok key o x'.1)).
Proof.
  intros Hi Hob Hst (Hk & Hd & Hr)%beginMutation_run.
  assert (obj_at x'.1 key o = Some ob) as Hob' by (rewrite (keeps_obj_at _ _ _ _ Hk); done).
  destruct r as [seq|e]; [|split_and!; [eapply inv_frozen; [exact Hi|by apply run_frozen]|done|done]].
  destruct Hr as (Eb & Hp & Hidle). destruct Hi as (Ht & Hdx & H).
  assert (os_blocked x.1 = ""%string -> is_Some (jrec x.1) -> others_ok key o x.1) as Hoth.
  { intros Hb [rc Hj] k o' ob' Hne Hk'. destruct (H Hb) as (_ & _ & _ & Ho).
    destruct (Ho k o' ob') as [|(_ & _ & Hp')]; [congruence|done|done|]. unfold pending in Hp'. rewrite Hj in Hp'. by destruct Hp'; apply Hidle. }
  split_and!; [|done|].
  - split_and!; [eapply topology_same; [apply (k_config _ _ Hk)|apply (k_devices _ _ Hk)|done]|auto|].
    rewrite Eb. intros Hb. destruct (H Hb) as (Hh & Hs & Hre & Ho).
    assert (forall k o' ob', obj_at x'.1 k o' = Some ob' -> obj_inv x'.1 ob') as Ho'.
    { intros k o' ob' Hk'. destruct (decide ((k, o') = (key, o))) as [[= -> ->]|Hne].
      - assert (ob' = ob) as -> by congruence. destruct (Hst Hb) as [|[]]; [by left|by right].
      - rewrite (keeps_obj_at _ _ _ _ Hk) in Hk'. destruct (Ho k o' ob') as [|(? & ? & _)]; [congruence|done|by left|by right]. }
    split_and!; [| | |by intros; eapply Ho'].
    all: clear -Hk Hh Hs Hre; destruct Hk as [? ? ? ? ? ? ? ? ? ? _ _]; destruct x as [s w], x' as [s' w'];
      simpl in *; destruct s, s'; simpl in *; by subst.
  - intros _. split; [done|]. intros Hj Hb. assert (is_Some (jrec x.1)) as Hj' by (apply jrec_Some, (k_journal _ _ Hk), jrec_Some, Hj).
    specialize (Hoth Hb Hj'). intros k o' ob' Hne. rewrite (keeps_obj_at _ _ _ _ Hk). by apply Hoth.
Qed.

Definition retiring_at key s : Prop := forall rc, os_receipts s !! key = Some rc -> nr_Retiring rc = true.
Lemma retiring_keeps key s s' : keeps s s' -> retiring_at key s -> retiring_at key s'.
Proof. intros Hk. unfold retiring_at. by rewrite (k_receipts _ _ Hk). Qed.
Lemma retiring_update key k o f x x' r : update_obj k o f x = (x', r) -> retiring_at key x.1 -> retiring_at key x'.1.
Proof.
  unfold update_obj, update, modify, retiring_at. intros [= <- <-] Hr rc. simpl. rewrite lookup_alter_Some.
  intros [(<- & rc' & Hrc & ->)|[_ Hrc]]; [|by apply Hr]. case_match; [|by apply Hr]. simpl. by apply Hr.
Qed.

Lemma confirm_inv ctx key o x x' r ob :
  inv x.1 -> obj_at x.1 key o = Some ob -> ob_Status ob = "confirmed"%string ->
  confirm_obj ctx key o false x = (x', r) ->
  inv x'.1 /\
  (is_ok r = true -> jrec x'.1 = jrec x.1 /\ os_blocked x'.1 = ""%string /\
    exists ob', obj_at x'.1 key o = Some ob' /\ ob_Status ob' = "confirmed"%string /\ object_ok ob' = true /\
      (others_ok key o x.1 -> others_ok key o x'.1) /\ (retiring_at key x.1 -> retiring_at key x'.1)).
Proof.
  intros Hi Hob Hst Hc%confirm_run. destruct r as [[]|e]; last first.
  { split; [|done]. destruct Hc as [Hc|Hc]; [by eapply inv_reads|by eapply inv_frozen]. }
  destruct Hc as (x1 & found & Hs & f & -> & Hf & Hu). rewrite (obj_at_get _ _ _ _ Hob) in Hf.
  pose proof (slot_reads _ _ _ _ _ Hs) as Hrd. pose proof (inv_reads _ _ _ Hi Hrd) as Hi1.
  assert (obj_at x1.1 key o = Some ob) as Hob1 by (rewrite (keeps_obj_at _ _ _ _ (proj1 Hrd)); done).
  pose proof (slot_ok _ _ _ _ _ Hs) as (_ & _ & _ & _ & Ej & Hb). pose proof (update_obj_same _ _ _ _ _ _ Hu) as (Ej' & Eb & _).
  assert (object_ok ob = true) as Hok.
  { destruct Hi1 as (_ & _ & H). destruct (H Hb) as (_ & _ & _ & Ho). destruct (Ho key o ob) as [|(E & _)]; [done..|congruence]. }
  pose proof (reconfirmed_ok _ _ Hst Hf Hok) as Hok'. split.
  - eapply inv_put; [exact Hu|exact Hob1|done|exact Hi1|by left|done|]. intros _. by left.
  - intros _. split_and!; [congruence|congruence|]. eexists. pose proof (update_obj_at _ _ _ _ _ _ Hu) as (_ & _ & Hat).
    rewrite Hat, decide_True, Hob1 by done. split_and!; [done|done|done|..].
    + intros Ho. eapply others_ok_update; [exact Hu|]. by eapply others_ok_reads.
    + intros Hr. eapply retiring_update; [exact Hu|]. eapply retiring_keeps; [apply Hrd|done].
Qed.

Lemma applyObject_inv ctx key o x x' r ob :
  inv x.1 -> obj_at x.1 key o = Some ob -> (os_blocked x.1 = ""%string -> ob_Status ob <> "absent-confirmed"%string) ->
  applyObject ctx key o x = (x', r) -> inv x'.1.
Proof.
  intros Hi Hob Hna H. unfold applyObject, read_obj in H. rewrite bind_gets, (obj_at_get _ _ _ _ Hob) in H.
  case_bool_decide as Hst; [by eapply confirm_inv|].
  apply bind_inv in H as [(x1 & found & Hs & H)|(e & Hs & _)]; apply slot_reads in Hs as Hrd;
    pose proof (inv_reads _ _ _ Hi Hrd) as Hi1; [|done].
  case_bool_decide as Hf; cbn [negb] in H; last first.
  { eapply inv_frozen; [exact Hi1|].
    apply bind_inv in H as [(x2 & [] & Hu & H)|(? & Hu & _)]; [|by apply update_obj_at in Hu as [? _]].
    eapply calm_frozen; [by eapply update_obj_calm|]. eapply block_frozen; [| |exact H]; [done|]. intros. pres. }
  apply bind_inv in H as [(x2 & [] & Hc & H)|(e & Hc & _)]; apply check_reads in Hc as Hrd2;
    pose proof (inv_reads _ _ _ Hi1 Hrd2) as Hi2; [|done].
  apply check_ok in Hc as [_ Hb2]. pose proof (keeps_unblocked _ _ (proj1 (reads_trans _ _ _ Hrd Hrd2)) Hb2) as Hb.
  assert (obj_at x2.1 key o = Some ob) as Hob2.
  { by rewrite (keeps_obj_at _ _ _ _ (proj1 Hrd2)), (keeps_obj_at _ _ _ _ (proj1 Hrd)). }
  assert (no_evidence ob) as Hne.
  { destruct Hi as (_ & _ & H0). destruct (H0 Hb) as (_ & _ & _ & Ho). destruct (Ho key o ob) as [Hok|(_ & ? & _)]; [done..| |done].
    specialize (Hna Hb). unfold object_ok in Hok. rewrite (bool_decide_eq_false_2 _ Hst) in Hok.
    case_bool_decide; [by bools|]. by bools. }
  apply bind_inv in H as [(x3 & [] & Hu & H)|(? & Hu & _)]; [|by apply update_obj_at in Hu as [? _]].
  pose proof (update_obj_at _ _ _ _ _ _ Hu) as (_ & _ & Hat). pose proof (update_obj_same _ _ _ _ _ _ Hu) as (_ & Eb3 & _).
  set (ob3 := ob_status "pending" (ob_Error ob) ob).
  assert (obj_at x3.1 key o = Some ob3) as Hob3 by (rewrite Hat, decide_True, Hob2; done).
  assert (inv_except (Some (key, o)) x3.1) as Hi3 by (eapply inv_update_obj; [|exact Hu| |exact Hi2|by left]; done).
  apply bind_inv in H as [(x4 & seq & Hbg & H)|(e & Hbg & _)];
    eapply begin_inv in Hbg as (Hi4 & Hob4 & Hr4); try exact Hi3; try exact Hob3; try (intros _; by right); [|done].
  destruct (Hr4 eq_refl) as [Eb4 Hoth]. eapply add_object_inv; [exact Hi4| | |exact Hob4|done|done|done|exact H].
  - congruence.
  - intros Hj. apply Hoth; [done|congruence].
Qed.

Lemma delete_object_inv ctx key o seq x x' r ob :
  inv x.1 -> (is_Some (jrec x.1) -> others_ok key o x.1) -> retiring_at key x.1 ->
  obj_at x.1 key o = Some ob -> ob_Status ob = "confirmed"%string -> delete_object ctx key o seq x = (x', r) -> inv x'.1.
Proof.
  intros Hi Hoth Hret Hob Hst H. unfold delete_object in H.
  apply bind_inv in H as [(x1 & [] & Hc & H)|(e & Hc & _)]; eapply confirm_inv in Hc as [Hi1 Hc]; try done.
  destruct (Hc eq_refl) as (Ej1 & Hb1 & ob1 & Hob1 & Hst1 & Hok1 & Hoth1 & Hret1). clear Hc.
  unfold read_obj in H. rewrite bind_gets, (obj_at_get _ _ _ _ Hob1), bind_attempt in H.
  destruct (on_snd _ x1) as [x2 c] eqn:Ha. cbn [fst snd] in H. apply on_snd_inv in Ha as [E2 _].
  rewrite <-E2 in Hi1, Hob1, Ej1, Hb1, Hoth1, Hret1. destruct c as [[]|e]; [|by eapply delete_failed_inv].
  apply bind_inv in H as [(x3 & [] & Hu & H)|(? & Hu & _)]; [|by apply update_obj_at in Hu as [? _]].
  pose proof (update_obj_same _ _ _ _ _ _ Hu) as (Ej3 & Eb3 & _). pose proof (update_obj_at _ _ _ _ _ _ Hu) as (_ & _ & Hat).
  assert (inv_except (Some (key, o)) x3.1) as Hi3.
  { eapply inv_update_obj; [|exact Hu| |exact Hi1|by left]; [done|]. intros rc ob' Hrc Ho Hs'. by apply Hret1. }
  set (ob3 := ob_set (ob_Observed ob1) (ob_Status ob1) (ob_ACK ob1) true (ob_Error ob1) ob1).
  assert (obj_at x3.1 key o = Some ob3) as Hob3 by (rewrite Hat, decide_True, Hob1; done).
  rewrite bind_attempt in H. destruct (confirm_obj ctx key o true x3) as [x4 c] eqn:Hc. cbn [fst snd] in H.
  apply confirm_run in Hc. destruct c as [[]|e]; [|eapply unverified_inv; [|exact Hi3|exact Hc|exact H]; done].
  destruct Hc as (x3' & found & Hs3 & -> & Hu4).
  pose proof (slot_reads _ _ _ _ _ Hs3) as Hrd3. pose proof (inv_reads _ _ _ Hi3 Hrd3) as Hi3'.
  assert (obj_at x3'.1 key o = Some ob3) as Hob3' by (rewrite (keeps_obj_at _ _ _ _ (proj1 Hrd3)); done).
  pose proof (slot_ok _ _ _ _ _ Hs3) as (_ & _ & _ & _ & Ej3' & Hb3').
  assert (inv x4.1) as Hi4.
  { eapply inv_put; [exact Hu4|exact Hob3'|done|exact Hi3'|by right| |]; [|intros _; by left].
    intros rc Hrc _. eapply retiring_keeps; [apply Hrd3| |exact Hrc]. eapply retiring_update; [exact Hu|auto]. }
  eapply inv_ackMutation; [exact Hi4| |exact H]. pose proof (update_obj_same _ _ _ _ _ _ Hu4) as (Ej4 & _ & _).
  pose proof (update_obj_at _ _ _ _ _ _ Hu4) as (_ & _ & Hat4). intros Hj _.
  eapply others_ok_all; [|by rewrite Hat4, decide_True, Hob3'|done].
  eapply others_ok_update; [exact Hu4|]. eapply others_ok_reads; [exact Hrd3|]. eapply others_ok_update; [exact Hu|].
  apply Hoth1, Hoth. by rewrite <-Ej1, <-Ej3, <-Ej3', <-Ej4.
Qed.

Lemma withdrawObject_inv ctx key o x x' r ob :
  inv x.1 -> retiring_at key x.1 -> obj_at x.1 key o = Some ob -> withdrawObject ctx key o x = (x', r) -> inv x'.1.
Proof.
  intros Hi Hret Hob H. unfold withdrawObject, read_obj in H. rewrite bind_gets, (obj_at_get _ _ _ _ Hob) in H.
  case_bool_decide; [by msteps_any|]. case_bool_decide as Hst.
  - apply bind_inv in H as [(x1 & found & Hs & H)|(e & Hs & _)]; apply slot_reads in Hs as Hrd;
      pose proof (inv_reads _ _ _ Hi Hrd) as Hi1; [|done].
    case_bool_decide as Hf; cbn [negb] in H.
    + eapply inv_put; [exact H| |done|exact Hi1|by left| |]; [by rewrite (keeps_obj_at _ _ _ _ (proj1 Hrd))| |intros _; by left].
      intros rc Hrc _. eapply retiring_keeps; [apply Hrd|done..].
    + eapply inv_frozen; [exact Hi1|]. eapply block_frozen; [| |exact H]; [done|]. intros. pres.
  - destruct (_ || _) eqn:Hb; [by msteps_any|]. bools.
    apply bind_inv in H as [(x1 & [] & Hc & H)|(e & Hc & _)]; eapply confirm_inv in Hc as [Hi1 Hc]; try done.
    destruct (Hc eq_refl) as (Ej1 & Hb1 & ob1 & Hob1 & Hst1 & Hok1 & _ & Hret1). clear Hc.
    apply bind_inv in H as [(x2 & [] & Hc & H)|(e & Hc & _)]; apply check_reads in Hc as Hrd2;
      pose proof (inv_reads _ _ _ Hi1 Hrd2) as Hi2; [|done].
    assert (obj_at x2.1 key o = Some ob1) as Hob2 by (by rewrite (keeps_obj_at _ _ _ _ (proj1 Hrd2))).
    apply check_ok in Hc as [_ Hb2].
    apply bind_inv in H as [(x3 & seq & Hbg & H)|(e & Hbg & _)]; pose proof Hbg as Hrun; apply beginMutation_run in Hrun as (Hk3 & _);
      eapply begin_inv in Hbg as (Hi3 & Hob3 & Hr3); try exact (inv_weaken _ _ _ Hi2); try exact Hob2; try (intros _; by left); [|done].
    destruct (Hr3 eq_refl) as [Eb3 Hoth3]. eapply delete_object_inv; [exact Hi3| | |exact Hob3|done|exact H].
    + intros Hj. by apply Hoth3.
    + eapply retiring_keeps; [exact Hk3|]. eapply retiring_keeps; [apply Hrd2|auto].
Qed.

(** ** Operations on receipts *)

(** A receipt without the evidence of its objects. *)
Definition head (rc : RemoteNetlinkReceipt) : RemoteNetlinkReceipt :=
  put_obj OnFDB (new_object zero_entry)
    (match nr_Neighbor rc with Some _ => put_obj OnNeighbor (new_object zero_entry) rc | None => rc end).
Definition heads s : gmap string RemoteNetlinkReceipt := head <$> os_receipts s.

(** What an operation on one object leaves alone. *)
Definition still s :=
  (heads s, os_config s, os_devices s, os_snapshot s, os_latest s, os_controller s, os_target s, os_withdrawals s).

Section heads.
Context (s0 : ownedNetlinkState).
Let H x : Prop := still x.1 = still s0.
Lemma heads_kept {A} (m : M (ownedNetlinkState * W) A) :
  (forall s1, preserves (fun x => keeps s1 x.1 /\ True) m) -> preserves H m.
Proof.
  intros Hm x Hx. destruct (Hm x.1 x (conj (keeps_refl _) I)) as [[? ? ? ? E ? ? ? ? ? _ _] _]. unfold H, still, heads in *.
  by rewrite E; congruence.
Qed.
Lemma heads_update_obj key o f : preserves H (update_obj key o f).
Proof.
  apply preserves_modify. intros x Hx. unfold H. rewrite <-Hx.
  match goal with |- still ?s = _ => cut (heads s = heads x.1); [unfold still; by intros ->|] end.
  unfold heads. apply map_eq. intros k. simpl. rewrite !lookup_fmap. destruct (decide (k = key)) as [->|Hne]; [rewrite lookup_alter_eq|by rewrite lookup_alter_ne].
  destruct (os_receipts x.1 !! key) as [rc|]; [|done]. simpl. f_equal. destruct (obj_of o rc) eqn:E; [|done].
  destruct o; simpl in E; unfold head; simpl; [by destruct (nr_Neighbor rc)|by rewrite E].
Qed.
Lemma heads_slot ctx want : preserves H (slot ctx want).
Proof. apply heads_kept. intros s1. exact (keeps_slot (fun _ => True) s1 ctx want). Qed.
Lemma heads_check ctx : preserves H (check ctx).
Proof. apply heads_kept. intros s1. exact (keeps_check (fun _ => True) s1 ctx). Qed.
Lemma heads_block reason : preserves H (block reason).
Proof. by apply preserves_modify. Qed.
Lemma heads_recovery_blocked reason : preserves H (recovery_blocked reason).
Proof. by apply preserves_modify. Qed.
Lemma heads_quarantineError : preserves H quarantineError.
Proof. apply heads_kept. intros s1. exact (keeps_quarantineError (fun _ => True) s1 ). Qed.
Lemma heads_ackMutation seq : preserves H (ackMutation seq).
Proof. apply heads_kept. intros s1. exact (keeps_ackMutation (fun _ => True) s1 seq). Qed.
Lemma heads_beginMutation op key o : preserves H (beginMutation op key o).
Proof. apply heads_kept. intros s1. exact (keeps_beginMutation (fun _ => True) s1 op key o). Qed.
Lemma heads_world {A} (m : M W A) : preserves H (on_snd m).
Proof. apply heads_kept. intros s1. by apply (keeps_world (fun _ => True) s1 m). Qed.
Hint Resolve heads_update_obj heads_slot heads_check heads_block heads_recovery_blocked heads_quarantineError
  heads_ackMutation heads_beginMutation heads_world : evpn.
Lemma heads_confirm ctx key o absent : preserves H (confirm_obj ctx key o absent).
Proof. unfold confirm_obj, read_obj. pres. Qed.
Hint Resolve heads_confirm : evpn.
Lemma heads_applyObject ctx key o : preserves H (applyObject ctx key o).
Proof. unfold applyObject, add_object, add_failed, read_obj, journaled. pres. Qed.
Lemma heads_withdrawObject ctx key o : preserves H (withdrawObject ctx key o).
Proof. unfold withdrawObject, delete_object, delete_failed, read_obj, journaled. pres. Qed.
End heads.

Lemma still_heads s s' : still s' = still s -> heads s' = heads s.
Proof. by intros [=]. Qed.
Lemma applyObject_still ctx key o x x' r : applyObject ctx key o x = (x', r) -> still x'.1 = still x.1.
Proof. exact (preserves_run _ _ _ _ _ (heads_applyObject x.1 ctx key o) eq_refl). Qed.
Lemma withdrawObject_still ctx key o x x' r : withdrawObject ctx key o x = (x', r) -> still x'.1 = still x.1.
Proof. exact (preserves_run _ _ _ _ _ (heads_withdrawObject x.1 ctx key o) eq_refl). Qed.

Lemma heads_at s s' key rc :
  heads s' = heads s -> os_receipts s !! key = Some rc ->
  exists rc', os_receipts s' !! key = Some rc' /\ head rc' = head rc.
Proof.
  intros E%(f_equal (lookup key)) Hrc. unfold heads in E. rewrite !lookup_fmap, Hrc in E. by apply fmap_Some in E as (rc' & ? & ?); eauto.
Qed.

Lemma head_retiring rc rc' : head rc' = head rc -> nr_Retiring rc' = nr_Retiring rc.
Proof. intros E%(f_equal nr_Retiring). unfold head in E. by repeat case_match. Qed.
Lemma head_status rc rc' : head rc' = head rc -> nr_Status rc' = nr_Status rc.
Proof. intros E%(f_equal nr_Status). unfold head in E. by repeat case_match. Qed.
Lemma head_neighbor rc rc' : head rc' = head rc -> is_Some (nr_Neighbor rc') <-> is_Some (nr_Neighbor rc).
Proof. intros E%(f_equal nr_Neighbor). unfold head in E. simpl in E. destruct (nr_Neighbor rc) eqn:E1, (nr_Neighbor rc') eqn:E2; simpl in E; try done; congruence. Qed.
End recovery.
