(* ===== verification/NetlinkHistory.v ===== *)
(** * Histories of the owned backend

    The operations of the backend on whole receipts keep the invariant of
    [NetlinkRecovery], so at every point of a history the journal holds a state that a
    restart accepts. *)

From S2P Require Import Prelude GoStd Journal Type2 Reconciler GobgpAdapter RemoteType2 Netlink NetlinkSafety NetlinkRecovery.

Section history.
Context {W : Type} {PX : Posix W} {SH : Sha256} {JR : Json record} {JE : Json envelope} {UL : UuidLib}.
Context {AT : ApiTypes} {BT : BgpTypes} {BL : BgpLib} {RL : RemoteLib}.
Context {JN : Json remoteReceiptState} {JO : Json (remoteReceiptState * RemoteObjectReceipt)} {JL : Json (list string)}.
Context {K : ownedKernel W} {LS : LinkSubscription W} {MR : MapRange}.
Implicit Types (s : ownedNetlinkState) (x : ownedNetlinkState * W) (ctx : Context W) (key : string) (o : side).

(** ** Changes of one receipt *)

(** The parts of the state that an operation on receipts leaves alone. *)
Record same_base s s' : Prop := {
  sb_config : os_config s' = os_config s;
  sb_devices : os_devices s' = os_devices s;
  sb_controller : os_controller s' = os_controller s;
  sb_target : os_target s' = os_target s;
  sb_blocked : os_blocked s' = os_blocked s;
  sb_journal : jrec s' = jrec s;
  sb_snapshot : is_Generation (os_snapshot s) <= is_Generation (os_snapshot s');
}.

Lemma header_same s s' key rc :
  same_base s s' -> os_latest s' !! key = os_latest s !! key -> header_ok s key rc -> header_ok s' key rc.
Proof.
  intros [Ec Ed Eo Et _ _ Hg] El (Hi & Hs & Hn & Hr). split_and!; [|done|..].
  - revert Hi. unfold receipt_identity_ok. rewrite Eo, Et, El, !andb_true_iff, !Z.leb_le. intros. destruct_and!. split_and!; try done; lia.
  - revert Hn. unfold receipt_network_ok, device_of. by rewrite Ec, Ed.
  - revert Hr. unfold receipt_requests_ok. simpl. unfold fdb_request, neigh_request, device_of. by rewrite Ed.
Qed.

Lemma obj_inv_same s s' ob : jrec s' = jrec s -> obj_inv s ob -> obj_inv s' ob.
Proof. unfold obj_inv, pending. by intros ->. Qed.

Lemma inv_insert key rc s s' :
  same_base s s' -> os_receipts s' = <[key := rc]> (os_receipts s) ->
  (forall k, k <> key -> os_latest s' !! k = os_latest s !! k) -> inv s ->
  (os_blocked s = ""%string ->
   header_ok s' key rc /\
   (forall o ob, obj_of o rc = Some ob -> obj_inv s ob /\ (ob_Status ob = "absent-confirmed"%string -> nr_Retiring rc = true)) /\
   (forall k o b o' b', obj_of o rc = Some b -> obj_at s' k o' = Some b' -> obj_slot b = obj_slot b' -> k = key /\ o' = o)) ->
  inv s'.
Proof.
  intros Hsb Er El (Ht & Hd & H) Hnew. pose proof Hsb as [Ec Ed _ _ Eb Ej _].
  split_and!; [by eapply topology_same|by eapply durable_jrec|]. rewrite Eb. intros Hb.
  destruct (H Hb) as (Hh & Hs & Hr & Ho). destruct (Hnew Hb) as (Hh' & Ho' & Hs').
  assert (forall k o, k <> key -> obj_at s' k o = obj_at s k o) as Hne by (intros; unfold obj_at; by rewrite Er, lookup_insert_ne).
  assert (forall o, obj_at s' key o = obj_of o rc) as Heq by (intros; unfold obj_at; by rewrite Er, lookup_insert_eq).
  split_and!.
  - intros k rc'. rewrite Er, lookup_insert_Some. intros [[<- <-]|[Hk Hrc]]; [done|]. eapply header_same; eauto.
  - intros k1 o1 b1 k2 o2 b2 H1 H2 E. destruct (decide (k1 = key)) as [->|Hk1].
    + rewrite Heq in H1. by destruct (Hs' _ _ _ _ _ H1 H2 E).
    + destruct (decide (k2 = key)) as [->|Hk2]; [|rewrite Hne in H1, H2 by done; by eapply Hs].
      rewrite Heq in H2. by destruct (Hs' _ _ _ _ _ H2 H1 (eq_sym E)).
  - intros k o rc' ob. rewrite Er, lookup_insert_Some. intros [[<- <-]|[Hk Hrc]] Hob; [by apply (Ho' o ob)|by eapply Hr].
  - intros k o ob _. destruct (decide (k = key)) as [->|Hk].
    + rewrite Heq. intros [? _]%Ho'. by eapply obj_inv_same.
    + rewrite Hne by done. intros ?%Ho; [|done]. by eapply obj_inv_same.
Qed.

(** Receipts may go. *)
Lemma inv_shrink s s' :
  same_base s s' -> os_receipts s' ⊆ os_receipts s -> os_latest s' = os_latest s -> inv s -> inv s'.
Proof.
  intros Hsb Hsub El (Ht & Hd & H). pose proof Hsb as [Ec Ed _ _ Eb Ej _].
  split_and!; [by eapply topology_same|by eapply durable_jrec|]. rewrite Eb. intros Hb.
  destruct (H Hb) as (Hh & Hs & Hr & Ho).
  assert (forall k rc, os_receipts s' !! k = Some rc -> os_receipts s !! k = Some rc) as Hrc by (intros; by eapply lookup_weaken).
  assert (forall k o b, obj_at s' k o = Some b -> obj_at s k o = Some b) as Hob.
  { intros k o b (rc & ? & ?)%bind_Some. unfold obj_at. by rewrite (Hrc k rc). }
  split_and!.
  - intros k rc Hk. eapply header_same; [done|by rewrite El|auto].
  - intros k1 o1 b1 k2 o2 b2 H1%Hob H2%Hob. by apply Hs.
  - intros k o rc ob Hk%Hrc. exact (Hr k o rc ob Hk).
  - intros k o ob Hne ?%Hob. eapply obj_inv_same; [done|]. by eapply Ho.
Qed.

Lemma inv_update_status key status ret x x' r :
  update_status key status ret x = (x', r) -> inv x.1 ->
  (forall rc, os_receipts x.1 !! key = Some rc ->
     receipt_status_ok (put_status status (ret rc) rc) = true /\ (nr_Retiring rc = true -> ret rc = true)) ->
  inv x'.1.
Proof.
  unfold update_status, update, modify. intros [= <- <-] Hi Hok. simpl.
  destruct (os_receipts x.1 !! key) as [rc|] eqn:Hrc; last first.
  { revert Hi. apply inv_shrink; [done| |done]. simpl. by rewrite alter_id by (intros ? E; congruence). }
  destruct (Hok rc eq_refl) as [Hst Hret]. set (rc' := put_status status (ret rc) rc).
  assert (forall o, obj_of o rc' = obj_of o rc) as Eo by by intros [].
  eapply (inv_insert key rc' x.1); [done| |done|exact Hi|].
  - apply map_eq. intros k. simpl. destruct (decide (k = key)) as [->|Hne].
    + by rewrite lookup_alter_eq, Hrc, lookup_insert_eq.
    + by rewrite lookup_alter_ne, lookup_insert_ne.
  - intros Hb. destruct Hi as (_ & _ & H). destruct (H Hb) as (Hh & Hs & Hr & Ho).
    assert (forall k o, obj_at (with_receipts (alter (fun r => put_status status (ret r) r) key (os_receipts x.1)) x.1) k o = obj_at x.1 k o) as Hat.
    { intros k o. unfold obj_at. simpl. destruct (decide (k = key)) as [->|Hne]; [|by rewrite lookup_alter_ne].
      rewrite lookup_alter_eq, Hrc. exact (Eo o). }
    assert (forall o, obj_at x.1 key o = obj_of o rc) as Hk by (intros; unfold obj_at; by rewrite Hrc).
    split_and!.
    + destruct (Hh key rc Hrc) as (Hi' & _ & Hn & Hq). by split_and!.
    + intros o ob. rewrite Eo. intros Hob. split; [apply (Ho key o); [done|by rewrite Hk]|].
      intros Hst'. by apply Hret, (Hr key o rc ob).
    + intros k o b o' b'. rewrite Eo, Hat, <-Hk. intros H1 H2 E. by destruct (Hs _ _ _ _ _ _ H1 H2 E).
Qed.

(** ** Operations *)

(** What the importer guarantees for a route it applies: the proof's key is the
    canonical one, its generation is not ahead of the recorded snapshot, the route is
    not being withdrawn, and no other receipt uses its kernel slots. *)
Record may_apply s (route : ImportedType2Route) : Prop := {
  ma_generation : ir_generation route <= is_Generation (os_snapshot s);
  ma_key ep : ir_validated route = Some ep -> ir_Key route = remoteHash [de_NetworkID ep; de_MAC ep; de_IP ep];
  ma_live rc : os_receipts s !! ir_Key route = Some rc -> nr_Retiring rc = false;
  ma_slots network k o ob o' ob' :
    os_blocked s = ""%string -> route_network_of s route = Ok network -> k <> ir_Key route -> obj_at s k o = Some ob ->
    obj_of o' (newReceipt s network route) = Some ob' -> obj_slot ob' <> obj_slot ob;
}.

Lemma may_apply_keeps s s' route : keeps s s' -> may_apply s route -> may_apply s' route.
Proof.
  intros Hk Hm. pose proof (keeps_unblocked _ _ Hk) as Hub. destruct Hk as [? ? ? ? ? ? ? ? ? ? _ _], Hm as [? ? ? Hs].
  destruct s, s'. simpl in *. subst. split; try done. intros network k o ob o' ob' ?%Hub. by eapply Hs.
Qed.

Lemma route_check_run ctx route x x' r :
  route_check ctx route x = (x', r) ->
  reads x x' /\ (forall network, r = Ok network ->
    os_blocked x'.1 = ""%string /\ route_proof route = Ok tt /\ route_network_of x'.1 route = Ok network).
Proof.
  unfold route_check. intros [(x1 & [] & Hc & H)|(e & Hc & ->)]%bind_inv; apply check_reads in Hc as Hrd; [|done].
  apply check_ok in Hc as [_ Hb]. unfold lift, bind, gets in H. destruct (route_proof route) as [[]|] eqn:Ep; simplify_eq; [|done].
  split; [done|]. intros network ->. done.
Qed.

(** The receipt of a route that passed its checks. *)
Lemma new_header s s' network route :
  same_base s s' -> route_proof route = Ok tt -> route_network_of s route = Ok network -> may_apply s route ->
  os_latest s' !! ir_Key route = Some (ir_incarnation route) ->
  header_ok s' (ir_Key route) (put_status "partially-applied" false (newReceipt s network route)).
Proof.
  intros [Ec Ed Eo Et _ _ Hg] Hp Hn [Hgen Hkey _ _] El. unfold route_proof in Hp.
  destruct (ir_validated route) as [ep|] eqn:Ev; [|done]. specialize (Hkey ep eq_refl).
  unfold route_network_of, of_option in Hn. destruct (List.find _ _) as [n|] eqn:Ef; [|done]. simplify_eq.
  apply find_some in Ef as [Hin Hm]. destruct (_ || _) eqn:H1 in Hp; [done|]. destruct (_ || _) eqn:H2 in Hp; [done|]. clear Hp.
  bools. split_and!; [|done|..].
  - unfold receipt_identity_ok. simpl. rewrite Ev, Eo, Et, El. simpl. rewrite !andb_true_iff, !negb_true_iff, !bool_decide_eq_true, bool_decide_eq_false, !Z.eqb_neq, Z.leb_le, Z.eqb_eq.
    split_and!; try done; lia.
  - unfold receipt_network_ok. simpl. rewrite Ev, Ec. unfold device_of. rewrite Ed. simpl.
    rewrite !andb_true_iff, !bool_decide_eq_true, Z.eqb_eq, list_elem_of_In. split_and!; congruence.
  - unfold receipt_requests_ok. simpl. rewrite Ev. simpl. unfold fdb_request, neigh_request, device_of. rewrite Ed.
    replace (de_IP ep) with (ir_IP route) by done. replace (de_MAC ep) with (ir_MAC route) by done.
    replace (de_RemoteVTEP ep) with (ir_RemoteVTEP route) by done. by rewrite !bool_decide_eq_true_2.
Qed.

Lemma new_slots s network route o1 o2 b1 b2 :
  obj_of o1 (newReceipt s network route) = Some b1 -> obj_of o2 (newReceipt s network route) = Some b2 ->
  obj_slot b1 = obj_slot b2 -> o2 = o1.
Proof.
  assert (forall ip, match ParseIP ip with Some (Addr4 _ _ _ _) => AF_INET | _ => AF_INET6 end <> AF_BRIDGE) as Hf
    by (intros; by repeat case_match).
  intros H1 H2 E%(f_equal (fun k => k.1.1)). destruct o1, o2; try done; simpl in H1, H2; case_bool_decide; try done;
    injection H1 as <-; injection H2 as <-; simpl in E; [symmetry in E|]; by apply Hf in E.
Qed.

(** A fresh receipt enters the state. *)
Lemma inv_new network route x x' :
  inv x.1 -> route_proof route = Ok tt -> route_network_of x.1 route = Ok network -> may_apply x.1 route ->
  x'.1 = with_receipts (<[ir_Key route := put_status "partially-applied" false (newReceipt x.1 network route)]> (os_receipts x.1))
           (with_latest (<[ir_Key route := ir_incarnation route]> (os_latest x.1)) x.1) ->
  inv x'.1.
Proof.
  intros Hi Hp Hn Hma E. assert (same_base x.1 x'.1) as Hsb by (rewrite E; by split). 
  eapply (inv_insert (ir_Key route) _ x.1); [done|by rewrite E| |done|].
  - intros k Hk. rewrite E. simpl. by rewrite lookup_insert_ne.
  - intros Hb. split_and!.
    + eapply new_header; try done. rewrite E. simpl. by rewrite lookup_insert_eq.
    + intros o ob Hob. assert (ob_Status ob = "unattempted"%string /\ no_evidence ob) as [Hst (Ha & Hd & Hz)].
      { destruct o; simpl in Hob; [by simplify_eq|]. case_bool_decide; by simplify_eq. }
      split; [left; unfold object_ok; by rewrite Hst, Ha, Hd, Hz|]. by rewrite Hst.
    + intros k o b o' b' Hob. unfold obj_at. rewrite E. simpl. intros Hk Hs.
      destruct (decide (k = ir_Key route)) as [->|Hne].
      * rewrite lookup_insert_eq in Hk. split; [done|]. by eapply (new_slots x.1 network route).
      * rewrite lookup_insert_ne in Hk by done. exfalso. by eapply (ma_slots _ _ Hma network k o' b' o b Hb).
Qed.

Context {TK : TypedKernel}.

Definition live_at key s : Prop := exists rc, os_receipts s !! key = Some rc /\ nr_Retiring rc = false.
Lemma live_heads key s s' : heads s' = heads s -> live_at key s -> live_at key s'.
Proof.
  intros E (rc & Hrc & Hr). destruct (heads_at _ _ _ _ E Hrc) as (rc' & Hrc' & Eh). exists rc'. split; [done|].
  by rewrite (head_retiring _ _ Eh).
Qed.

Lemma apply_one ctx key o x x' r :
  inv x.1 -> live_at key x.1 -> is_Some (obj_at x.1 key o) -> applyObject ctx key o x = (x', r) -> inv x'.1 /\ live_at key x'.1.
Proof.
  intros Hi Hl [ob Hob] H. split.
  - eapply applyObject_inv; [exact Hi|exact Hob| |exact H]. intros Hb Hst. destruct Hi as (_ & _ & Hi). destruct (Hi Hb) as (_ & _ & Hr & _).
    destruct Hl as (rc & Hrc & Hl). unfold obj_at in Hob. rewrite Hrc in Hob. rewrite (Hr key o rc ob Hrc Hob Hst) in Hl. done.
  - eapply live_heads; [|exact Hl]. by eapply still_heads, applyObject_still.
Qed.

Lemma status_run key status ret x x' r :
  update_status key status ret x = (x', r) ->
  r = Ok tt /\ x' = (with_receipts (alter (fun rc => put_status status (ret rc) rc) key (os_receipts x.1)) x.1, x.2).
Proof. unfold update_status, update, modify. by intros [= <- <-]. Qed.

Lemma live_status key status x x' r :
  update_status key status nr_Retiring x = (x', r) -> live_at key x.1 -> live_at key x'.1.
Proof. intros [_ ->]%status_run (rc & Hrc & Hl). eexists. simpl. by rewrite lookup_alter_eq, Hrc. Qed.

Lemma inv_live_status key status x x' r :
  status ∈ ["partially-applied"; "applied"]%string ->
  update_status key status nr_Retiring x = (x', r) -> inv x.1 -> live_at key x.1 -> inv x'.1.
Proof.
  intros Hs H Hi (rc & Hrc & Hl). eapply inv_update_status; [exact H|done|]. intros rc' Hrc'. simplify_eq. split; [|done].
  unfold receipt_status_ok. simpl. rewrite Hl. apply elem_of_cons in Hs as [->|Hs%list_elem_of_singleton]; [|subst status]; done.
Qed.

(** The receipt is there before anything is programmed. *)
Lemma apply_receipt {A} (k : M (ownedNetlinkState * W) A) network route x x' r :
  inv x.1 -> route_proof route = Ok tt -> route_network_of x.1 route = Ok network -> may_apply x.1 route ->
  (do! match os_receipts x.1 !! ir_Key route with
       | Some rc => if receipt_matches x.1 route rc then ret tt else fail (Errorf "receipt incarnation/payload conflict")
       | None =>
           if ir_incarnation route <=? default 0 (os_latest x.1 !! ir_Key route) then fail (Errorf "stale route incarnation") else
           update (fun s => with_receipts (<[ir_Key route := newReceipt s network route]> (os_receipts s))
                              (with_latest (<[ir_Key route := ir_incarnation route]> (os_latest s)) s))
       end in
   do! update_status (ir_Key route) "partially-applied" nr_Retiring in k) x = (x', r) ->
  x' = x \/ exists x2, inv x2.1 /\ live_at (ir_Key route) x2.1 /\ k x2 = (x', r).
Proof.
  intros Hi Hp Hn Hma H. destruct (os_receipts x.1 !! ir_Key route) as [rc|] eqn:Hrc.
  - assert (live_at (ir_Key route) x.1) as Hl by (exists rc; split; [done|by apply (ma_live _ _ Hma)]).
    destruct (receipt_matches x.1 route rc); [|unfold bind, fail in H; simplify_eq; by left]. right.
    unfold bind at 1, ret at 1 in H. apply bind_inv in H as [(x2 & [] & Hu & H)|(e & [? _]%status_run & _)]; [|done].
    exists x2. split_and!; [eapply inv_live_status; [|exact Hu|done..]; by left|by eapply live_status|done].
  - destruct (_ <=? _); [unfold bind, fail in H; simplify_eq; by left|]. right.
    unfold bind at 1, update at 1, modify at 1 in H.
    apply bind_inv in H as [(x2 & [] & Hu & H)|(e & [? _]%status_run & _)]; [|done].
    apply status_run in Hu as [_ Hu]. exists x2. split_and!; [..|done].
    + eapply (inv_new network route x); try done. rewrite Hu. simpl. by rewrite alter_insert_eq.
    + eexists. rewrite Hu. simpl. by rewrite lookup_alter_eq, lookup_insert_eq.
Qed.

Lemma ownedApply_inv ctx route x x' r :
  inv x.1 -> may_apply x.1 route -> ownedApply ctx route x = (x', r) -> inv x'.1.
Proof.
  intros Hi Hma H. unfold ownedApply in H.
  apply bind_inv in H as [(x1 & network & Hc & H)|(e & [Hrd _]%route_check_run & _)]; [|by eapply inv_reads].
  apply route_check_run in Hc as [Hrd Hc]. destruct (Hc network eq_refl) as (Hb & Hp & Hn). clear Hc.
  pose proof (inv_reads _ _ _ Hi Hrd) as Hi1. eapply may_apply_keeps in Hma; [|apply Hrd]. clear Hi.
  rewrite bind_gets in H. apply apply_receipt in H as [->|(x2 & Hi2 & Hl2 & H)]; try done.
  apply bind_inv in H as [(x3 & [] & Ha & H)|(e & Ha & _)]; apply apply_one in Ha as [Hi3 Hl3]; try done.
  all: try (destruct Hl2 as (rc & Hrc & _); unfold obj_at; rewrite Hrc; by eexists).
  rewrite bind_gets in H.
  apply bind_inv in H as [(x4 & [] & Ha & H)|(e & Ha & _)].
  - assert (inv x4.1 /\ live_at (ir_Key route) x4.1) as [Hi4 Hl4].
    { destruct (_ ≫= _) eqn:E; [|unfold ret in Ha; by simplify_eq]. eapply apply_one; [..|exact Ha]; [done..|].
      eexists. exact E. }
    apply bind_inv in H as [(x5 & [] & Hu & H)|(e & [? _]%status_run & _)]; [|done].
    eapply inv_checkpoint; [|exact H]. eapply inv_live_status; [|exact Hu|done..]. set_solver.
  - destruct (_ ≫= _) eqn:E; [|done]. eapply apply_one; [..|exact Ha]; [done..|]. eexists. exact E.
Qed.

Lemma withdraw_one ctx key o x x' r :
  inv x.1 -> retiring_at key x.1 -> is_Some (obj_at x.1 key o) -> withdrawObject ctx key o x = (x', r) ->
  inv x'.1 /\ heads x'.1 = heads x.1.
Proof.
  intros Hi Hr [ob Hob] H. split; [by eapply withdrawObject_inv|].
  by eapply still_heads, withdrawObject_still.
Qed.

Lemma retiring_heads key s s' : heads s' = heads s -> retiring_at key s -> retiring_at key s'.
Proof.
  intros E Hr rc Hrc. destruct (heads_at s' s key rc (eq_sym E) Hrc) as (rc' & Hrc' & Eh).
  rewrite <-(head_retiring _ _ Eh). by apply Hr.
Qed.

(** The receipt leaves the state. *)
Definition drop_receipt key s : ownedNetlinkState :=
  match os_receipts s !! key with
  | Some r => with_receipts (delete key (os_receipts s)) (with_withdrawals (keep_withdrawal r (os_withdrawals s)) s)
  | None => s
  end.
Lemma inv_drop key s : inv s -> inv (drop_receipt key (with_receipts (alter (fun r => put_status "withdrawn" (nr_Retiring r) r) key (os_receipts s)) s)).
Proof.
  apply inv_shrink; unfold drop_receipt; simpl; rewrite lookup_alter_eq; destruct (os_receipts s !! key) eqn:E; simpl; try done.
  - rewrite delete_alter, decide_True by done. apply delete_subseteq.
  - by rewrite alter_id by (intros ? ?; congruence).
Qed.

Lemma ownedWithdraw_inv ctx route x x' r :
  inv x.1 -> ownedWithdraw ctx route x = (x', r) -> inv x'.1.
Proof.
  intros Hi H. unfold ownedWithdraw in H.
  apply bind_inv in H as [(x1 & network & [Hrd _]%route_check_run & H)|(e & [Hrd _]%route_check_run & _)]; [|by eapply inv_reads].
  pose proof (inv_reads _ _ _ Hi Hrd) as Hi1. clear Hi. rewrite bind_gets in H. set (key := ir_Key route) in *.
  destruct (os_receipts x1.1 !! key) as [rc|] eqn:Hrc; [|by msteps_any].
  destruct (_ || _); [by msteps_any|].
  apply bind_inv in H as [(x2 & [] & Hu & H)|(e & [? _]%status_run & _)]; [|done].
  assert (inv x2.1) as Hi2 by (eapply inv_update_status; [exact Hu|done|]; done).
  apply status_run in Hu as [_ Hu].
  apply bind_inv in H as [(x3 & [] & Hc & H)|(e & Hc & _)]; pose proof (inv_checkpoint _ _ _ Hi2 Hc) as Hi3; [|done].
  apply checkpoint_run in Hc as (Hk & _).
  assert (os_receipts x3.1 !! key = Some (put_status "partially-withdrawn" true rc)) as Hrc3.
  { rewrite (k_receipts _ _ Hk), Hu. simpl. by rewrite lookup_alter_eq, Hrc. }
  assert (retiring_at key x3.1) as Hr3 by (intros ? ?; by simplify_eq).
  assert (forall x4 r, match nr_Neighbor rc with Some _ => withdrawObject ctx key OnNeighbor | None => ret tt end x3 = (x4, r) ->
    inv x4.1 /\ heads x4.1 = heads x3.1) as Hnb.
  { intros x4 r4. destruct (nr_Neighbor rc) as [nb|] eqn:En; [|unfold ret; by intros; simplify_eq].
    apply withdraw_one; [done..|]. exists nb. unfold obj_at. by rewrite Hrc3. }
  apply bind_inv in H as [(x4 & [] & [Hi4 Hh4]%Hnb & H)|(e & [? _]%Hnb & _)]; [|done].
  pose proof (retiring_heads key _ _ Hh4 Hr3) as Hr4.
  destruct (heads_at _ _ _ _ Hh4 Hrc3) as (rc4 & Hrc4 & _).
  assert (is_Some (obj_at x4.1 key OnFDB)) as Hob by (unfold obj_at; rewrite Hrc4; by eexists).
  apply bind_inv in H as [(x5 & [] & Hw & H)|(e & Hw & _)]; apply withdraw_one in Hw as [Hi5 _]; try done.
  apply bind_inv in H as [(x6 & [] & Hu6 & H)|(e & [? _]%status_run & _)]; [|done].
  apply status_run in Hu6 as [_ Hu6].
  apply bind_inv in H as [(x7 & [] & Hd & H)|(e & Hd & _)]; unfold update, modify in Hd; [|done].
  eapply inv_checkpoint; [|exact H]. simplify_eq. by apply inv_drop.
Qed.

Lemma record_snapshot_inv sn x x' r :
  is_Generation (os_snapshot x.1) <= is_Generation sn -> inv x.1 -> record_snapshot sn x = (x', r) -> inv x'.1.
Proof.
  intros Hg Hi H. unfold record_snapshot in H.
  apply bind_inv in H as [(x1 & [] & Hu & H)|(e & Hu & _)]; unfold update, modify in Hu; [|done]. simplify_eq.
  eapply inv_checkpoint; [|exact H]. revert Hi. by apply inv_shrink.
Qed.

Lemma mark_running_inv x x' r : inv x.1 -> mark_running x = (x', r) -> inv x'.1.
Proof.
  unfold mark_running, update, modify. intros Hi [= <- _]. revert Hi. simpl. by case_bool_decide; apply inv_shrink.
Qed.

Lemma backend_Close_inv x x' r : inv x.1 -> backend_Close x = (x', r) -> inv x'.1.
Proof.
  intros Hi H. unfold backend_Close in H. rewrite bind_gets in H. destruct (os_closed x.1); [unfold ret in H; by simplify_eq|].
  revert Hi. unfold bind at 1, update, modify in H. rewrite bind_attempt in H.
  destruct (on_snd _ _) as [x1 c] eqn:Hk. apply on_snd_inv in Hk as [E1 _]. simpl in E1. cbn [fst snd] in H.
  destruct (bool_decide _).
  - rewrite bind_attempt in H. destruct (on_owned Close x1) as [x2 c2] eqn:Hc. cbn [fst snd] in H.
    assert (x'.1 = x2.1) as -> by (unfold lift in H; by simplify_eq).
    apply on_owned_inv in Hc as [(_ & -> & _)|(j & j' & Hj & Hc & ->)]; [by rewrite E1; apply inv_shrink|].
    apply Close_run in Hc as [-> _]. simpl. rewrite E1 in *. apply inv_shrink; try done. split; try done.
    unfold jrec. simpl in *. by rewrite Hj.
  - assert (x'.1 = x1.1) as -> by (unfold bind, ret, lift in H; by simplify_eq). rewrite E1. by apply inv_shrink.
Qed.

(** ** Verification after a restart *)

(** What [verifyRecovered] leaves of each receipt. *)
Definition shape (rc : RemoteNetlinkReceipt) : bool * bool := (nr_Retiring rc, bool_decide (is_Some (nr_Neighbor rc))).
Definition shapes s : gmap string (bool * bool) := shape <$> os_receipts s.

Lemma shapes_at s s' key rc :
  shapes s' = shapes s -> os_receipts s !! key = Some rc -> exists rc', os_receipts s' !! key = Some rc' /\ shape rc' = shape rc.
Proof. intros E%(f_equal (lookup key)) Hrc. unfold shapes in E. rewrite !lookup_fmap, Hrc in E. apply fmap_Some in E as (rc' & ? & ?). eauto. Qed.

Lemma shapes_keeps s s' : keeps s s' -> shapes s' = shapes s.
Proof. intros Hk. unfold shapes. by rewrite (k_receipts _ _ Hk). Qed.

Lemma shapes_alter f key (m : gmap string RemoteNetlinkReceipt) :
  (forall rc, shape (f rc) = shape rc) -> shape <$> alter f key m = shape <$> m.
Proof.
  intros Hf. apply map_eq. intros k. rewrite !lookup_fmap. destruct (decide (k = key)) as [->|Hne]; [|by rewrite lookup_alter_ne].
  rewrite lookup_alter_eq. destruct (m !! key); [|done]. simpl. by rewrite Hf.
Qed.
Lemma shapes_update_obj key o f x x' r : update_obj key o f x = (x', r) -> shapes x'.1 = shapes x.1.
Proof.
  unfold update_obj, update, modify. intros [= <- _]. apply shapes_alter. intros rc. destruct (obj_of o rc) eqn:E; [|done].
  unfold shape. destruct o; simpl in *; [done|]. by rewrite E.
Qed.
Lemma shapes_update_status key status x x' r : update_status key status nr_Retiring x = (x', r) -> shapes x'.1 = shapes x.1.
Proof. unfold update_status, update, modify. intros [= <- _]. by apply shapes_alter. Qed.

Lemma verify_object_inv ctx rc key o x x' r :
  inv x.1 -> (exists rc', os_receipts x.1 !! key = Some rc' /\ shape rc' = shape rc) -> o ∈ sides rc ->
  verify_object ctx (nr_Retiring rc) tt (key, o) x = (x', r) -> inv x'.1 /\ (is_ok r = true -> shapes x'.1 = shapes x.1).
Proof.
  intros Hi (rc' & Hrc' & Esh) Ho H. pose proof (f_equal fst Esh) as Eret. pose proof (f_equal snd Esh) as Enb.
  simpl in Eret, Enb. clear Esh. unfold verify_object, read_obj in H. rewrite bind_gets in H.
  assert (exists ob, obj_at x.1 key o = Some ob) as [ob Hob].
  { unfold obj_at. rewrite Hrc'. simpl. destruct o; [by eexists|]. unfold sides in Ho.
    destruct (nr_Neighbor rc); [|set_solver]. simpl in *. by destruct (nr_Neighbor rc'); [eexists|]. }
  clear Enb. rewrite (obj_at_get _ _ _ _ Hob) in H.
  apply bind_inv in H as [(x1 & found & Hs & H)|(e & Hs & ->)]; apply slot_reads in Hs as Hrd; pose proof (inv_reads _ _ _ Hi Hrd) as Hi1; [|done].
  pose proof (proj1 Hrd) as Hk1. assert (obj_at x1.1 key o = Some ob) as Hob1 by by rewrite (keeps_obj_at _ _ _ _ Hk1).
  rewrite <-(shapes_keeps _ _ Hk1). destruct (_ && _); [unfold ret in H; by simplify_eq|].
  case_bool_decide as Hf; cbn [negb] in H; last first.
  { assert (frozen x1.1 x'.1 /\ is_ok r = false) as [Hfr ->]; [|by split; [eapply inv_frozen|]].
    split; [eapply block_frozen; [| |exact H]; [done|]; intros; unfold quarantine; pres; by apply frozen_quarantineError|].
    unfold quarantine, bind, block, update, modify, fail in H. by destruct (quarantineError _) as [? []]; simplify_eq. }
  rewrite <-Eret in H. destruct (nr_Retiring rc') eqn:Eret'.
  - split; [|intros _; by eapply shapes_update_obj].
    eapply inv_put; [exact H|exact Hob1|done|exact Hi1|by left| |by intros _; left].
    intros rc1 Hrc1 _. rewrite (k_receipts _ _ Hk1) in Hrc1. by simplify_eq.
  - apply bind_inv in H as [(x2 & [] & Hu & H)|(e & Hu & _)]; [|by apply update_obj_at in Hu as [? _]].
    split; [|intros _; rewrite (shapes_update_status _ _ _ _ _ H); by eapply shapes_update_obj].
    eapply inv_live_status; [|exact H|..]; [by left|..].
    + eapply inv_put; [exact Hu|exact Hob1|done|exact Hi1|by left|done|by intros _; left].
    + destruct (shapes_at _ _ key rc' (shapes_update_obj _ _ _ _ _ _ Hu)) as (rc2 & Hrc2 & E2%(f_equal fst)); [by rewrite (k_receipts _ _ Hk1)|].
      exists rc2. split; [done|]. simpl in E2. congruence.
Qed.

Lemma verifyRecovered_inv ctx x x' r : inv x.1 -> verifyRecovered ctx x = (x', r) -> inv x'.1.
Proof.
  intros Hi H. unfold verifyRecovered in H. rewrite bind_gets in H.
  apply bind_inv in H as [(x1 & [] & Hl & H)|(e & Hl & _)]; unfold lift in Hl; simplify_eq; [|done].
  set (P := fun y : ownedNetlinkState * W => inv y.1 /\ shapes y.1 = shapes x1.1).
  assert (forall y y' r, mfold (fun _ '(key, rc) => mfold (verify_object ctx (nr_Retiring rc)) tt ((key,.) <$> sides rc))
            tt (range (os_receipts x1.1)) y = (y', r) -> P y -> inv y'.1) as Hloop.
  { intros y y' r' Hy HP. eapply (mfold_run _ P (fun y => inv y.1)) in Hy as [? _]; [done|by intros ? []| |exact HP].
    intros _ [key rc] z z' rz Hin Hz. rewrite range_perm, elem_of_map_to_list in Hin.
    apply (mfold_run _ P (fun y => inv y.1)); [by intros ? []| |done].
    intros [] [k o] u u' ru (o' & [= -> ->] & Ho)%list_elem_of_fmap [Hu Hsh] Hv.
    eapply verify_object_inv in Hv as [Hv1 Hv2]; [|done| |done]; [|by eapply shapes_at]. split; [done|].
    intros Hr. split; [done|]. by rewrite Hv2. }
  apply bind_inv in H as [(x2 & [] & Hm & H)|(e & Hm & _)]; apply Hloop in Hm; try done.
  by eapply inv_checkpoint.
Qed.

(** ** Histories *)

(** The operations of the backend, with routes and snapshots as the importer gives
    them, the verification after a restart, and the rest of the system. *)
Inductive gstep (env : W -> W -> Prop) : ownedNetlinkState * W -> ownedNetlinkState * W -> Prop :=
  | gs_Apply ctx route x x' r : may_apply x.1 route -> ownedApply ctx route x = (x', r) -> gstep env x x'
  | gs_Withdraw ctx route x x' r : ownedWithdraw ctx route x = (x', r) -> gstep env x x'
  | gs_snapshot sn x x' r :
      is_Generation (os_snapshot x.1) <= is_Generation sn -> record_snapshot sn x = (x', r) -> gstep env x x'
  | gs_running x x' r : mark_running x = (x', r) -> gstep env x x'
  | gs_recover ctx x x' r : verifyRecovered ctx x = (x', r) -> gstep env x x'
  | gs_Close x x' r : backend_Close x = (x', r) -> gstep env x x'
  | gs_env s w w' : env w w' -> gstep env (s, w) (s, w').

Lemma gstep_inv env x x' : gstep env x x' -> inv x.1 -> inv x'.1.
Proof.
  intros [] Hi; [by eapply ownedApply_inv|by eapply ownedWithdraw_inv|by eapply record_snapshot_inv|by eapply mark_running_inv
    |by eapply verifyRecovered_inv|by eapply backend_Close_inv|done].
Qed.
Lemma gsteps_inv env x x' : rtc (gstep env) x x' -> inv x.1 -> inv x'.1.
Proof. induction 1; eauto using gstep_inv. Qed.

Lemma recoverable_inv s : recoverable s -> durable s -> inv s.
Proof.
  intros [(Ht & Hh & Ho & Hs)%validateReceipts_iff Hr] Hd. split_and!; [done..|]. intros _. split_and!; try done.
  intros key o ob _ Hob. left. by eapply Ho.
Qed.

(** What a restart decodes has the receipts of the state that was stored. *)
Lemma validate_loaded s s0 marker :
  nc_Networks (os_config s0) = nc_Networks (os_config s) -> os_target s0 = os_target s ->
  validateReceipts (load_state (durableState s) marker s0) = validateReceipts s.
Proof.
  intros Hn Ht. unfold validateReceipts, load_state. simpl.
  assert (omap id (Some <$> os_receipts s) = os_receipts s) as ->.
  { apply map_eq. intros k. rewrite lookup_omap, lookup_fmap. by destruct (os_receipts s !! k). }
  assert (forall s1 : ownedNetlinkState, os_devices s1 = os_devices s -> topology_ok s1 = topology_ok s) as Htop
    by (intros s1 E; unfold topology_ok; by rewrite E).
  rewrite Hn, Htop by done. destruct (forallb _ _); [simpl|done]. f_equal.
  assert (forall s1 : ownedNetlinkState, os_controller s1 = os_controller s -> os_target s1 = os_target s ->
    os_devices s1 = os_devices s -> os_snapshot s1 = os_snapshot s -> os_latest s1 = os_latest s ->
    nc_Networks (os_config s1) = nc_Networks (os_config s) -> validate_receipt s1 = validate_receipt s) as Hv; [|by rewrite Hv].
  intros s1 E1 E2 E3 E4 E5 E6. unfold validate_receipt, receipt_identity_ok, receipt_network_ok, receipt_requests_ok. simpl.
  unfold fdb_request, neigh_request, device_of. by rewrite E1, E2, E3, E4, E5, E6.
Qed.

(** C3: receipts survive a restart.  Start from a backend whose receipts pass
    [validateReceipts], and let it run: routes and snapshots as the importer gives
    them, withdrawals, verifications and other processes in any order, every call
    with any outcome, and stop it anywhere.  If the state in the journal is not
    quarantined and passes the version, domain and network checks of [openRecovery],
    then the restarted process, which decodes it, accepts its receipts: the recorded
    evidence never locks the backend out of the entries it owns. *)
Theorem receipts_survive_restart {JLaws : JsonLaws remoteReceiptState} env x x' r st rest s0 marker :
  validateReceipts x.1 = Ok tt -> retired_ok x.1 -> durable x.1 -> rtc (gstep env) x x' ->
  jrec x'.1 = Some r -> r_State r <> "null"%string -> json_Decode (r_State r) = Some (st, rest) ->
  rs_Quarantine st = ""%string -> durable_ok s0 st = true ->
  validateReceipts (load_state st marker s0) = Ok tt.
Proof.
  intros Hv Hr Hd Hs Hj Hnull Hdec Hq Hok. apply gsteps_inv in Hs as (_ & Hd' & _); [|by apply recoverable_inv].
  unfold durable in Hd'. rewrite Hj in Hd'. destruct Hd' as [?|(s1 & Hm & Hrec)]; [done|].
  apply json_roundtrip in Hm. rewrite Hm in Hdec. simplify_eq. destruct (Hrec Hq) as [Hv1 _].
  unfold durable_ok in Hok. case_match; [|done]. bools. by rewrite validate_loaded.
Qed.
End history.
