(* ===== verification/NetlinkEffect.v ===== *)
(** * What the operations of the owned backend do to its receipts

    [ownedApply] adds at most the receipt of its route and, when it returns, leaves it
    applied with every object confirmed; [ownedWithdraw] removes exactly the receipt of
    its route when it returns, and otherwise only marks it as retiring. *)

From S2P Require Import Prelude GoStd Journal Type2 Reconciler GobgpAdapter RemoteType2 Netlink NetlinkSafety NetlinkRecovery NetlinkHistory.

Section effect.
Context {W : Type} {PX : Posix W} {SH : Sha256} {JR : Json record} {JE : Json envelope} {UL : UuidLib}.
Context {AT : ApiTypes} {BT : BgpTypes} {BL : BgpLib} {RL : RemoteLib}.
Context {JN : Json remoteReceiptState} {JO : Json (remoteReceiptState * RemoteObjectReceipt)} {JL : Json (list string)}.
Context {K : ownedKernel W} {LS : LinkSubscription W} {MR : MapRange}.
Implicit Types (s : ownedNetlinkState) (x : ownedNetlinkState * W) (ctx : Context W) (key : string) (o : side).

#[local] Instance true_frame' : KernelFrame (fun _ : W => True).
Proof. repeat split. Qed.

(** ** Other objects are not touched *)

Section untouched.
Context key o s0.
Let U x : Prop := forall k o', (k, o') <> (key, o) -> obj_at x.1 k o' = obj_at s0 k o'.
Lemma untouched_kept {A} (m : M (ownedNetlinkState * W) A) :
  (forall s1, preserves (fun x => keeps s1 x.1 /\ True) m) -> preserves U m.
Proof.
  intros Hm x Hx k o' Hne. destruct (Hm x.1 x (conj (keeps_refl _) I)) as [Hk _].
  rewrite (keeps_obj_at _ _ _ _ Hk). by apply Hx.
Qed.
Lemma untouched_update f : preserves U (update_obj key o f).
Proof.
  intros x Hx k o' Hne. destruct (update_obj key o f x) as [x' r] eqn:E. apply update_obj_at in E as (_ & _ & Hat). simpl.
  rewrite Hat, decide_False by done. by apply Hx.
Qed.
Lemma untouched_modify f : (forall s, os_receipts (f s) = os_receipts s) -> preserves U (update f).
Proof. intros Hf. apply preserves_modify. intros x Hx k o' Hne. unfold obj_at. simpl. rewrite Hf. by apply Hx. Qed.
Lemma untouched_slot ctx want : preserves U (slot ctx want).
Proof. apply untouched_kept. intros s1. exact (keeps_slot (fun _ => True) s1 ctx want). Qed.
Lemma untouched_check ctx : preserves U (check ctx).
Proof. apply untouched_kept. intros s1. exact (keeps_check (fun _ => True) s1 ctx). Qed.
Lemma untouched_block reason : preserves U (block reason).
Proof. by apply untouched_modify. Qed.
Lemma untouched_recovery_blocked reason : preserves U (recovery_blocked reason).
Proof. by apply untouched_modify. Qed.
Lemma untouched_quarantineError : preserves U quarantineError.
Proof. apply untouched_kept. intros s1. exact (keeps_quarantineError (fun _ => True) s1). Qed.
Lemma untouched_ackMutation seq : preserves U (ackMutation seq).
Proof. apply untouched_kept. intros s1. exact (keeps_ackMutation (fun _ => True) s1 seq). Qed.
Lemma untouched_beginMutation op k o' : preserves U (beginMutation op k o').
Proof. apply untouched_kept. intros s1. exact (keeps_beginMutation (fun _ => True) s1 op k o'). Qed.
Lemma untouched_world {A} (m : M W A) : preserves U (on_snd m).
Proof. apply untouched_kept. intros s1. by apply (keeps_world (fun _ => True) s1 m). Qed.
Hint Resolve untouched_update untouched_slot untouched_check untouched_block untouched_recovery_blocked untouched_quarantineError
  untouched_ackMutation untouched_beginMutation untouched_world : evpn.
Lemma untouched_confirm ctx absent : preserves U (confirm_obj ctx key o absent).
Proof. unfold confirm_obj, read_obj. pres. Qed.
Hint Resolve untouched_confirm : evpn.
Lemma untouched_applyObject ctx : preserves U (applyObject ctx key o).
Proof. unfold applyObject, add_object, add_failed, read_obj, journaled. pres. Qed.
Lemma untouched_withdrawObject ctx : preserves U (withdrawObject ctx key o).
Proof. unfold withdrawObject, delete_object, delete_failed, read_obj, journaled. pres. Qed.
End untouched.

Lemma applyObject_others ctx key o x x' r k o' :
  applyObject ctx key o x = (x', r) -> (k, o') <> (key, o) -> obj_at x'.1 k o' = obj_at x.1 k o'.
Proof. intros H. exact (preserves_run _ _ _ _ _ (untouched_applyObject key o x.1 ctx) (fun _ _ _ => eq_refl) H k o'). Qed.

(** ** An object that was applied is confirmed *)

Definition confirmed_at key o s : Prop := exists ob, obj_at s key o = Some ob /\ ob_Status ob = "confirmed"%string.

Lemma confirm_confirms ctx key o x x' :
  is_Some (obj_at x.1 key o) -> confirm_obj ctx key o false x = (x', Ok tt) -> confirmed_at key o x'.1.
Proof.
  intros [ob Hob] (x1 & found & Hs & f & _ & _ & Hu)%confirm_ok. apply slot_reads in Hs as (Hk & _).
  rewrite <-(keeps_obj_at _ _ _ _ Hk) in Hob. apply update_obj_at in Hu as (_ & _ & Hat). eexists.
  by rewrite Hat, decide_True, Hob by done.
Qed.

Lemma update_obj_is_Some key o f x x' r k o' :
  update_obj key o f x = (x', r) -> is_Some (obj_at x.1 k o') -> is_Some (obj_at x'.1 k o').
Proof. intros (_ & _ & Hat)%update_obj_at. rewrite Hat. case_decide; [simplify_eq|done]. by rewrite fmap_is_Some. Qed.
Lemma keeps_is_Some s s' key o : keeps s s' -> is_Some (obj_at s key o) -> is_Some (obj_at s' key o).
Proof. intros Hk. by rewrite (keeps_obj_at _ _ _ _ Hk). Qed.

Lemma applyObject_ok ctx key o x x' :
  is_Some (obj_at x.1 key o) -> applyObject ctx key o x = (x', Ok tt) -> confirmed_at key o x'.1.
Proof.
  intros Hob H. unfold applyObject, read_obj in H. rewrite bind_gets in H.
  case_bool_decide; [by eapply confirm_confirms|].
  apply bind_ok_inv in H as (x1 & found & (Hk1 & _)%slot_reads & H). eapply keeps_is_Some in Hob; [|exact Hk1].
  destruct (negb _); [exfalso; unfold bind in H; repeat case_match; by simplify_eq|].
  apply bind_ok_inv in H as (x2 & [] & (Hk2 & _)%check_reads & H). eapply keeps_is_Some in Hob; [|exact Hk2].
  apply bind_ok_inv in H as (x3 & [] & Hu & H). eapply update_obj_is_Some in Hob; [|exact Hu].
  apply bind_ok_inv in H as (x4 & seq & (Hk4 & _)%beginMutation_run & H). eapply keeps_is_Some in Hob; [|exact Hk4].
  unfold add_object in H. apply bind_ok_inv in H as (x5 & found' & (Hk5 & _)%slot_reads & H). eapply keeps_is_Some in Hob; [|exact Hk5].
  destruct (negb _); [by msteps_any|]. rewrite bind_attempt in H. destruct (on_snd _ x5) as [x6 [[]|e]] eqn:Ha; cbn [fst snd] in H.
  - apply on_snd_inv in Ha as [E _]. rewrite <-E in Hob.
    apply bind_ok_inv in H as (x7 & [] & Hu7 & H). eapply update_obj_is_Some in Hob; [|exact Hu7].
    rewrite bind_attempt in H. destruct (confirm_obj ctx key o false x7) as [x8 [[]|e]] eqn:Hc; cbn [fst snd] in H.
    + apply confirm_confirms in Hc as (ob & Hob8 & Hst); [|done]. apply ackMutation_run in H as (Hk & _).
      exists ob. by rewrite (keeps_obj_at _ _ _ _ Hk).
    + exfalso. clear -H. unfold bind, fail in H. repeat case_match; by simplify_eq.
  - exfalso. clear -H. unfold add_failed, bind, fail in H. repeat case_match; by simplify_eq.
Qed.

(** ** The set of receipts *)

(** What a receipt is for, without its progress. *)
Definition ident (rc : RemoteNetlinkReceipt) : DesiredRemoteEndpoint * RemoteNetlinkNetwork * Z * bool :=
  (nr_Endpoint rc, nr_Network rc, nr_Incarnation rc, nr_Retiring rc).
Definition idents s := ident <$> os_receipts s.
Definition base s := (os_config s, os_devices s, os_snapshot s, os_controller s, os_target s).
Definition retire (i : DesiredRemoteEndpoint * RemoteNetlinkNetwork * Z * bool) := (i.1.1.1, i.1.1.2, i.1.2, true).

Lemma idents_heads s : idents s = ident <$> heads s.
Proof.
  unfold idents, heads. rewrite <-map_fmap_compose. apply map_fmap_ext. intros k rc _. simpl. unfold head.
  by destruct (nr_Neighbor rc).
Qed.
Lemma still_idents s s' : still s' = still s -> idents s' = idents s /\ base s' = base s /\ os_latest s' = os_latest s.
Proof. intros E. rewrite !idents_heads, (still_heads _ _ E). unfold still in E. unfold base. injection E. intros. split_and!; congruence. Qed.
Lemma keeps_idents s s' : keeps s s' -> idents s' = idents s /\ base s' = base s /\ os_latest s' = os_latest s.
Proof. intros [E1 E2 E3 E4 E5 E6 E7 E8 E9 E10 _ _]. unfold idents, base. by rewrite E1, E2, E3, E4, E5, E7, E10. Qed.

Lemma idents_status key status ret s :
  idents (with_receipts (alter (fun r => put_status status (ret r) r) key (os_receipts s)) s)
  = (match os_receipts s !! key with Some rc => <[key := (nr_Endpoint rc, nr_Network rc, nr_Incarnation rc, ret rc)]> (idents s)
     | None => idents s end).
Proof.
  unfold idents. apply map_eq. intros k. simpl. rewrite lookup_fmap. destruct (decide (k = key)) as [->|Hne].
  - rewrite lookup_alter_eq. destruct (os_receipts s !! key) as [rc|] eqn:E; simpl; [by rewrite lookup_insert_eq|].
    by rewrite lookup_fmap, E.
  - rewrite lookup_alter_ne by done. case_match; [rewrite lookup_insert_ne by done|]; by rewrite lookup_fmap.
Qed.
Lemma idents_same_status key status s :
  idents (with_receipts (alter (fun r => put_status status (nr_Retiring r) r) key (os_receipts s)) s) = idents s.
Proof.
  rewrite idents_status. case_match eqn:E; [|done]. apply insert_id. unfold idents. by rewrite lookup_fmap, E.
Qed.

Lemma status_effect key status x x' r :
  update_status key status nr_Retiring x = (x', r) ->
  idents x'.1 = idents x.1 /\ base x'.1 = base x.1 /\ os_latest x'.1 = os_latest x.1.
Proof. intros [_ ->]%status_run. simpl. split_and!; [|done..]. apply idents_same_status. Qed.

(** The same receipts, with the same bounds. *)
Definition same_set s s' : Prop := idents s' = idents s /\ base s' = base s /\ os_latest s' = os_latest s.
Lemma same_set_trans s1 s2 s3 : same_set s1 s2 -> same_set s2 s3 -> same_set s1 s3.
Proof. intros (? & ? & ?) (? & ? & ?). split_and!; congruence. Qed.
Lemma same_set_refl s : same_set s s.
Proof. done. Qed.

Section same.
Context (s0 : ownedNetlinkState).
Let S x : Prop := same_set s0 x.1.
Lemma same_applyObject ctx key o : preserves S (applyObject ctx key o).
Proof. intros x Hx. destruct (applyObject ctx key o x) eqn:E. eapply same_set_trans; [exact Hx|]. by eapply still_idents, applyObject_still. Qed.
Lemma same_withdrawObject ctx key o : preserves S (withdrawObject ctx key o).
Proof. intros x Hx. destruct (withdrawObject ctx key o x) eqn:E. eapply same_set_trans; [exact Hx|]. by eapply still_idents, withdrawObject_still. Qed.
Lemma same_status key status : preserves S (update_status key status nr_Retiring).
Proof. intros x Hx. destruct (update_status _ _ _ x) eqn:E. eapply same_set_trans; [exact Hx|]. by eapply status_effect. Qed.
Lemma same_checkpoint : preserves S checkpoint.
Proof. intros x Hx. destruct (checkpoint x) eqn:E. apply checkpoint_run in E as (Hk & _). eapply same_set_trans; [exact Hx|]. by apply keeps_idents. Qed.
End same.
Hint Resolve same_applyObject same_withdrawObject same_status same_checkpoint : evpn.

(** The programming part of [ownedApply]. *)
Definition program ctx key : M (ownedNetlinkState * W) unit :=
  do! applyObject ctx key OnFDB in
  let! s := gets fst in
  do! match os_receipts s !! key ≫= nr_Neighbor with Some _ => applyObject ctx key OnNeighbor | None => ret tt end in
  do! update_status key "applied" nr_Retiring in checkpoint.
Lemma program_effect ctx key x x' r : program ctx key x = (x', r) -> same_set x.1 x'.1.
Proof.
  apply (preserves_run (fun y => same_set x.1 y.1)); [|done]. unfold program. pres.
Qed.

Lemma ownedApply_effect ctx route x x' r :
  ownedApply ctx route x = (x', r) ->
  same_set x.1 x'.1 \/
  exists network, route_proof route = Ok tt /\ route_network_of x.1 route = Ok network /\
    os_receipts x.1 !! ir_Key route = None /\ default 0 (os_latest x.1 !! ir_Key route) < ir_incarnation route /\
    base x'.1 = base x.1 /\ os_latest x'.1 = <[ir_Key route := ir_incarnation route]> (os_latest x.1) /\
    idents x'.1 = <[ir_Key route := ident (newReceipt x.1 network route)]> (idents x.1).
Proof.
  intros H. unfold ownedApply in H.
  apply bind_inv in H as [(x1 & network & Hc & H)|(e & [(Hk & _) _]%route_check_run & _)]; [|left; by apply keeps_idents].
  apply route_check_run in Hc as [(Hk & _) Hc]. destruct (Hc network eq_refl) as (_ & Hp & Hn). clear Hc.
  pose proof (keeps_idents _ _ Hk) as Hs1. rewrite bind_gets in H.
  destruct (os_receipts x1.1 !! ir_Key route) as [rc|] eqn:Hrc.
  - left. eapply same_set_trans; [exact Hs1|].
    revert H. apply (preserves_run (fun y => same_set x1.1 y.1)); [|done]. destruct (receipt_matches _ _ _); pres.
  - destruct (_ <=? _) eqn:Hle; [left; unfold bind, fail in H; simplify_eq; by apply keeps_idents|right].
    apply Z.leb_gt in Hle. unfold bind at 1, update at 1, modify at 1 in H.
    apply bind_inv in H as [(x2 & [] & Hu & H)|(e & [? _]%status_run & _)]; [|done].
    apply status_effect in Hu. apply program_effect in H as (Ei & Eb & El). destruct Hu as (Ei2 & Eb2 & El2), Hs1 as (Ei1 & Eb1 & El1).
    simpl in Eb2, El2. exists network. rewrite Ei, Ei2, Eb, Eb2, El, El2, El1, <-(k_receipts _ _ Hk), <-El1.
    unfold route_network_of in *. rewrite <-(k_config _ _ Hk). split_and!; try done.
    rewrite <-Ei1. unfold idents. simpl. by rewrite fmap_insert.
Qed.

Lemma route_matches s route rc : receipt_matches s route rc = true -> Some (nr_Endpoint rc) = ir_validated route.
Proof. unfold receipt_matches. intros. by bools. Qed.

(** The receipt of the route is there, applied and confirmed. *)
Definition settled key s : Prop :=
  exists rc, os_receipts s !! key = Some rc /\ nr_Status rc = "applied"%string /\
    forall o ob, obj_of o rc = Some ob -> ob_Status ob = "confirmed"%string.

Lemma settled_iff key s :
  settled key s <-> (nr_Status <$> heads s !! key) = Some "applied"%string /\
    forall o ob, obj_at s key o = Some ob -> ob_Status ob = "confirmed"%string.
Proof.
  unfold settled, heads, obj_at. rewrite lookup_fmap. destruct (os_receipts s !! key) as [rc|]; [|by split; [intros (? & ? & _)|intros [? _]]].
  assert (nr_Status (head rc) = nr_Status rc) as E by (unfold head; by destruct (nr_Neighbor rc)).
  cbn -[head]. rewrite E. split; [intros (rc' & [= <-] & -> & Ho); done|]. intros [[= Hst] Ho]. by exists rc.
Qed.

Lemma settled_still key s s' :
  still s' = still s -> (forall o, obj_at s' key o = obj_at s key o) -> settled key s -> settled key s'.
Proof. intros E Ho. rewrite !settled_iff, (still_heads _ _ E). setoid_rewrite Ho. done. Qed.
Lemma settled_keeps key s s' : keeps s s' -> settled key s -> settled key s'.
Proof. intros Hk. unfold settled. by rewrite (k_receipts _ _ Hk). Qed.
Lemma settled_lookup key s s' : os_receipts s' !! key = os_receipts s !! key -> settled key s -> settled key s'.
Proof. unfold settled. by intros ->. Qed.
Lemma status_others key status ret x x' r k :
  update_status key status ret x = (x', r) -> k <> key -> os_receipts x'.1 !! k = os_receipts x.1 !! k.
Proof. intros [_ ->]%status_run Hne. simpl. by rewrite lookup_alter_ne. Qed.

Lemma program_ok ctx key x x' :
  is_Some (os_receipts x.1 !! key) -> program ctx key x = (x', Ok tt) ->
  settled key x'.1 /\ (forall k, k <> key -> settled k x.1 -> settled k x'.1).
Proof.
  intros [rc Hrc] H. unfold program in H. apply bind_ok_inv in H as (x1 & [] & Ha1 & H). rewrite bind_gets in H.
  apply bind_ok_inv in H as (x2 & [] & Ha2 & H). apply bind_ok_inv in H as (x3 & [] & Hu & H).
  apply checkpoint_run in H as (Hk & _).
  assert (is_Some (obj_at x.1 key OnFDB)) as Hs by (unfold obj_at; rewrite Hrc; by eexists).
  pose proof (applyObject_ok _ _ _ _ _ Hs Ha1) as (ob1 & Hob1 & Hst1). pose proof (applyObject_still _ _ _ _ _ _ Ha1) as E1.
  destruct (heads_at _ _ _ _ (still_heads _ _ E1) Hrc) as (rc1 & Hrc1 & Eh1).
  assert (still x2.1 = still x1.1 /\ (forall k, k <> key -> forall o, obj_at x2.1 k o = obj_at x1.1 k o) /\
    (forall o ob, obj_at x2.1 key o = Some ob -> ob_Status ob = "confirmed"%string)) as (E2 & Hoth & Hconf).
  { rewrite Hrc1 in Ha2. simpl in Ha2. destruct (nr_Neighbor rc1) as [nb|] eqn:En.
    - split_and!; [by eapply applyObject_still|intros; eapply applyObject_others; [exact Ha2|congruence]|].
      assert (is_Some (obj_at x1.1 key OnNeighbor)) as Hs1 by (unfold obj_at; rewrite Hrc1; simpl; by rewrite En).
      destruct (applyObject_ok _ _ _ _ _ Hs1 Ha2) as (ob2 & Hob2 & Hst2). intros [] ob Hob; [|congruence].
      rewrite (applyObject_others _ _ _ _ _ _ key OnFDB Ha2) in Hob by done. congruence.
    - unfold ret in Ha2. simplify_eq. split_and!; try done. intros [] ob Hob; [congruence|].
      unfold obj_at in Hob. rewrite Hrc1 in Hob. simpl in Hob. congruence. }
  split.
  - eapply settled_keeps; [exact Hk|]. apply status_run in Hu as [_ ->]. 
    destruct (heads_at _ _ _ _ (still_heads _ _ E2) Hrc1) as (rc2 & Hrc2 & _).
    exists (put_status "applied" (nr_Retiring rc2) rc2). simpl. rewrite lookup_alter_eq, Hrc2. split_and!; try done.
    intros o ob Hob. apply (Hconf o). unfold obj_at. rewrite Hrc2. by destruct o.
  - intros k Hne Hs0. eapply settled_keeps; [exact Hk|]. eapply settled_lookup; [by eapply status_others|].
    eapply settled_still; [exact E2|by apply Hoth|]. eapply settled_still; [exact E1| |exact Hs0].
    intros o. eapply applyObject_others; [exact Ha1|congruence].
Qed.

Lemma ownedApply_ok ctx route x x' :
  ownedApply ctx route x = (x', Ok tt) ->
  settled (ir_Key route) x'.1 /\ (forall k, k <> ir_Key route -> settled k x.1 -> settled k x'.1) /\
  fst <$> (fst <$> (fst <$> idents x'.1 !! ir_Key route)) = ir_validated route.
Proof.
  intros H.
  unfold ownedApply in H. apply bind_ok_inv in H as (x1 & network & Hc & H).
  apply route_check_run in Hc as [(Hk & _) Hc]. destruct (Hc network eq_refl) as (_ & Hp & _). clear Hc. rewrite bind_gets in H.
  assert (exists x2, is_Some (os_receipts x2.1 !! ir_Key route) /\ program ctx (ir_Key route) x2 = (x', Ok tt) /\
    (forall k, k <> ir_Key route -> os_receipts x2.1 !! k = os_receipts x1.1 !! k) /\
    fst <$> (fst <$> (fst <$> idents x2.1 !! ir_Key route)) = ir_validated route) as (x2 & Hs & Hprog & Hoth & Hep).
  { apply bind_ok_inv in H as (y & [] & Hm & H). apply bind_ok_inv in H as (x2 & [] & Hu & H). exists x2.
    pose proof (status_effect _ _ _ _ _ Hu) as (Ei & _ & _). rewrite Ei.
    pose proof (fun k => status_others _ _ _ _ _ _ k Hu) as Hk2.
    assert (is_Some (os_receipts y.1 !! ir_Key route) -> is_Some (os_receipts x2.1 !! ir_Key route)) as Hsome.
    { apply status_run in Hu as [_ ->]. simpl. rewrite lookup_alter_eq. by rewrite fmap_is_Some. }
    unfold idents. rewrite lookup_fmap. destruct (os_receipts x1.1 !! ir_Key route) as [rc|] eqn:Hrc.
    - destruct (receipt_matches x1.1 route rc) eqn:Hmt; unfold ret in Hm; simplify_eq.
      apply route_matches in Hmt. rewrite Hrc in *. split_and!; eauto.
    - destruct (_ <=? _); [done|]. unfold update, modify in Hm. simplify_eq. simpl in *. rewrite lookup_insert_eq in *. split_and!; eauto.
      + intros k Hne. by rewrite (Hk2 k Hne), lookup_insert_ne.
      + simpl. unfold route_proof in Hp. by destruct (ir_validated route). }
  apply program_ok in Hprog as Hok; [|done]. destruct Hok as [Hset Hset']. apply program_effect in Hprog as (Ei & _ & _).
  split_and!; [done| |].
  - intros k Hne Hk0. apply Hset'; [done|]. eapply settled_lookup; [by apply Hoth|]. by eapply settled_keeps.
  - rewrite Ei. done.
Qed.

Lemma drop_effect key s :
  idents (drop_receipt key s) = delete key (idents s) /\ base (drop_receipt key s) = base s /\
  os_latest (drop_receipt key s) = os_latest s.
Proof.
  unfold drop_receipt. destruct (os_receipts s !! key) as [rc|] eqn:E; split_and!; try done; unfold idents; simpl.
  - by rewrite fmap_delete.
  - symmetry. apply delete_id. by rewrite lookup_fmap, E.
Qed.

(** The receipt of a withdrawn route is gone; a withdrawal that failed marked it at most. *)
Lemma ownedWithdraw_effect ctx route x x' r :
  ownedWithdraw ctx route x = (x', r) ->
  base x'.1 = base x.1 /\ os_latest x'.1 = os_latest x.1 /\
  match r with
  | Ok _ => idents x'.1 = delete (ir_Key route) (idents x.1)
  | Err _ => idents x'.1 = idents x.1 \/ idents x'.1 = alter retire (ir_Key route) (idents x.1) \/
             idents x'.1 = delete (ir_Key route) (idents x.1)
  end.
Proof.
  intros H. unfold ownedWithdraw in H. set (key := ir_Key route) in *.
  apply bind_inv in H as [(x1 & network & [(Hk & _) _]%route_check_run & H)|(e & [(Hk & _) _]%route_check_run & ->)];
    apply keeps_idents in Hk as (Ei1 & Eb1 & El1); [|auto].
  rewrite <-Ei1, <-Eb1, <-El1. rewrite bind_gets in H.
  destruct (os_receipts x1.1 !! key) as [rc|] eqn:Hrc; [|unfold fail in H; simplify_eq; auto].
  destruct (_ || _); [unfold fail in H; simplify_eq; auto|].
  apply bind_inv in H as [(x2 & [] & Hu & H)|(e & [? _]%status_run & _)]; [|done].
  assert (idents x2.1 = alter retire key (idents x1.1) /\ base x2.1 = base x1.1 /\ os_latest x2.1 = os_latest x1.1) as (Ei2 & Eb2 & El2).
  { apply status_run in Hu as [_ ->]. cbn [fst]. rewrite idents_status, Hrc. split_and!; [|done..]. apply map_eq. intros k.
    destruct (decide (k = key)) as [->|Hne]; [|by rewrite lookup_insert_ne, lookup_alter_ne].
    rewrite lookup_insert_eq, lookup_alter_eq. unfold idents. by rewrite lookup_fmap, Hrc. }
  rewrite <-Eb2, <-El2.
  assert (forall y', same_set x2.1 y' -> base y' = base x2.1 /\ os_latest y' = os_latest x2.1 /\
    (idents y' = idents x1.1 \/ idents y' = alter retire key (idents x1.1) \/ idents y' = delete key (idents x1.1))) as Hfin.
  { intros y' (Ei & ? & ?). split_and!; [done..|right; left; congruence]. }
  assert (same_set x2.1 x2.1) as Hs2 by done.
  apply bind_inv in H as [(x3 & [] & Hc & H)|(e & Hc & ->)];
    pose proof (preserves_run _ _ _ _ _ (same_checkpoint x2.1) Hs2 Hc) as Hs3; [|by apply Hfin].
  apply bind_inv in H as [(x4 & [] & Hc4 & H)|(e & Hc4 & ->)].
  2: { apply Hfin. revert Hc4. apply (preserves_run (fun y => same_set x2.1 y.1)); [|done]. destruct (nr_Neighbor rc); pres. }
  assert (same_set x2.1 x4.1) as Hs4.
  { revert Hc4. apply (preserves_run (fun y => same_set x2.1 y.1)); [|done]. destruct (nr_Neighbor rc); pres. }
  apply bind_inv in H as [(x5 & [] & Hc5 & H)|(e & Hc5 & ->)];
    pose proof (preserves_run _ _ _ _ _ (same_withdrawObject x2.1 _ _ _) Hs4 Hc5) as Hs5; [|by apply Hfin].
  apply bind_inv in H as [(x6 & [] & Hu6 & H)|(e & [? _]%status_run & _)]; [|done].
  pose proof (same_set_trans _ _ _ Hs5 (status_effect _ _ _ _ _ Hu6)) as (Ei6 & Eb6 & El6).
  apply bind_inv in H as [(x7 & [] & Hd & H)|(e & Hd & _)]; unfold update, modify in Hd; [|done].
  apply checkpoint_run in H as (Hk & _). apply keeps_idents in Hk as (Ei & Eb & El).
  assert (x7.1 = drop_receipt key x6.1) as E7 by (by injection Hd as <-). rewrite E7 in Ei, Eb, El.
  destruct (drop_effect key x6.1) as (Ei7 & Eb7 & El7).
  assert (idents x'.1 = delete key (idents x1.1)) as Hdel.
  { rewrite Ei, Ei7, Ei6, Ei2. by rewrite delete_alter, decide_True. }
  split_and!; [congruence..|]. destruct r; auto.
Qed.
End effect.
