(* ===== verification/RemoteImport.v ===== *)
(** * The importer of verified remote endpoints

    Models [src/pkg/evpn/remote_netlink_import.go] and [restoreReceipts] of
    [src/pkg/evpn/remote_recovery.go]: each round polls the read-only importer and makes
    the owned backend agree with an authoritative snapshot, withdrawals first.  The
    theorems compose the three components: the rounds only ever make the backend
    operations that [NetlinkHistory] allows, and a round that succeeds leaves exactly the
    snapshot programmed. *)

From S2P Require Import Prelude GoStd Journal Type2 Reconciler GobgpAdapter RemoteType2 Netlink NetlinkSafety NetlinkRecovery NetlinkHistory NetlinkEffect.

(** [RemoteType2Importer], its state in the verified mode. *)
Record RemoteType2Importer := {
  ti_active : gmap string ImportedType2Route;
  ti_last : RemoteImportSnapshot;
  ti_epoch : Z;
  ti_confirmedGeneration : Z;
  ti_confirmedDigest : string;
}.

Definition with_active (v : gmap string ImportedType2Route) (i : RemoteType2Importer) : RemoteType2Importer :=
  {| ti_active := v; ti_last := ti_last i; ti_epoch := ti_epoch i; ti_confirmedGeneration := ti_confirmedGeneration i;
     ti_confirmedDigest := ti_confirmedDigest i |}.
Definition with_last (v : RemoteImportSnapshot) (i : RemoteType2Importer) : RemoteType2Importer :=
  {| ti_active := ti_active i; ti_last := v; ti_epoch := ti_epoch i; ti_confirmedGeneration := ti_confirmedGeneration i;
     ti_confirmedDigest := ti_confirmedDigest i |}.
Definition with_epoch (v : Z) (i : RemoteType2Importer) : RemoteType2Importer :=
  {| ti_active := ti_active i; ti_last := ti_last i; ti_epoch := v; ti_confirmedGeneration := ti_confirmedGeneration i;
     ti_confirmedDigest := ti_confirmedDigest i |}.
Definition with_confirmed (generation : Z) (digest : string) (i : RemoteType2Importer) : RemoteType2Importer :=
  {| ti_active := ti_active i; ti_last := ti_last i; ti_epoch := ti_epoch i; ti_confirmedGeneration := generation;
     ti_confirmedDigest := digest |}.

(** [NewRemoteType2Importer] *)
Definition NewRemoteType2Importer : RemoteType2Importer :=
  {| ti_active := ∅; ti_last := zero_snapshot; ti_epoch := 0; ti_confirmedGeneration := 0; ti_confirmedDigest := "" |}.

Definition set_incarnation (n : Z) (r : ImportedType2Route) : ImportedType2Route :=
  {| ir_Key := ir_Key r; ir_NetworkName := ir_NetworkName r; ir_VNI := ir_VNI r; ir_MAC := ir_MAC r; ir_IP := ir_IP r;
     ir_RemoteVTEP := ir_RemoteVTEP r; ir_VXLANDevice := ir_VXLANDevice r; ir_BridgeDevice := ir_BridgeDevice r;
     ir_NeighborDevice := ir_NeighborDevice r; ir_incarnation := n; ir_generation := ir_generation r;
     ir_validated := ir_validated r; ir_retiring := ir_retiring r |}.
Definition set_retiring (r : ImportedType2Route) : ImportedType2Route :=
  {| ir_Key := ir_Key r; ir_NetworkName := ir_NetworkName r; ir_VNI := ir_VNI r; ir_MAC := ir_MAC r; ir_IP := ir_IP r;
     ir_RemoteVTEP := ir_RemoteVTEP r; ir_VXLANDevice := ir_VXLANDevice r; ir_BridgeDevice := ir_BridgeDevice r;
     ir_NeighborDevice := ir_NeighborDevice r; ir_incarnation := ir_incarnation r; ir_generation := ir_generation r;
     ir_validated := ir_validated r; ir_retiring := true |}.

(** ** Operations *)

Section import.
Context {W : Type} {PX : Posix W} {SH : Sha256} {JR : Json record} {JE : Json envelope} {UL : UuidLib}.
Context {AT : ApiTypes} {BT : BgpTypes} {BL : BgpLib} {AU : ApiUtil} {RL : RemoteLib}.
Context {JN : Json remoteReceiptState} {JO : Json (remoteReceiptState * RemoteObjectReceipt)} {JL : Json (list string)}.
Context {JD : Json (list DesiredRemoteEndpoint)} {JP : Json (string * RemotePathIdentity)} {JS : Json RemoteImportSnapshot}.
Context {K : ownedKernel W} {LS : LinkSubscription W} {MR : MapRange} {CX : Ctx W}.
Implicit Types (i : RemoteType2Importer) (ctx : Context W) (key : string).
Notation IM := (M (RemoteType2Importer * (ownedNetlinkState * W))).

(** One route of an endpoint against the policy: the same test in
    [applyValidatedSnapshot] and [restoreReceipts]. *)
Definition route_evidence (c : RemoteImportConfig) (ep : DesiredRemoteEndpoint) (route : ValidatedRemoteRoute) : bool :=
  match ValidateRoute c (v_Route route) with
  | Err _ => false
  | Ok valid =>
      bool_decide (v_NetworkID valid = de_NetworkID ep) && (v_VNI valid =? de_VNI ep)
      && bool_decide (v_NetworkID route = de_NetworkID ep) && (v_VNI route =? de_VNI ep)
      && bool_decide (d_MAC (v_Route route) = de_MAC ep)
      && (bool_decide (d_IP (v_Route route) = de_IP ep) || bool_decide (d_IP (v_Route route) = ""%string))
      && bool_decide (d_NextHop (v_Route route) = de_RemoteVTEP ep)
      && negb (bool_decide (rp_Key (d_Source (v_Route route)) = ""%string))
  end.
Definition ip_confirmed (ep : DesiredRemoteEndpoint) : bool :=
  bool_decide (de_IP ep = ""%string) || existsb (fun route => bool_decide (d_IP (v_Route route) = de_IP ep)) (de_Routes ep).

(** The writer mapping of an endpoint: the last one of the loop. *)
Definition writer_network (networks : list RemoteNetlinkNetwork) (ep : DesiredRemoteEndpoint) : option RemoteNetlinkNetwork :=
  foldl (fun found n => if bool_decide (nn_NetworkID n = de_NetworkID ep) && (nn_VNI n =? de_VNI ep) then Some n else found)
        None networks.

Definition alias_keys (network : RemoteNetlinkNetwork) (ep : DesiredRemoteEndpoint) : list string :=
  (nn_VXLANDevice network +:+ "/mac/" +:+ de_MAC ep)%string
  :: (if bool_decide (de_IP ep = ""%string) then [] else [(nn_BridgeDevice network +:+ "/ip/" +:+ de_IP ep)%string]).

Definition take_slot (slots : gset string) key : result (gset string) :=
  if bool_decide (key ∈ slots) then Err (Errorf "desired endpoints alias kernel slot") else Ok ({[key]} ∪ slots).

Definition desired_route (generation : Z) (network : RemoteNetlinkNetwork) (ep : DesiredRemoteEndpoint) : ImportedType2Route :=
  {| ir_Key := de_Key ep; ir_NetworkName := de_NetworkID ep; ir_VNI := de_VNI ep; ir_MAC := de_MAC ep; ir_IP := de_IP ep;
     ir_RemoteVTEP := de_RemoteVTEP ep; ir_VXLANDevice := nn_VXLANDevice network; ir_BridgeDevice := nn_BridgeDevice network;
     ir_NeighborDevice := nn_BridgeDevice network; ir_incarnation := 0; ir_generation := generation;
     ir_validated := Some ep; ir_retiring := false |}.

(** One endpoint of the snapshot: the routes wanted so far and the kernel slots they
    take. *)
Definition desired_step (c : RemoteImportConfig) (networks : list RemoteNetlinkNetwork) (generation : Z)
    (acc : gmap string ImportedType2Route * gset string) (ep : DesiredRemoteEndpoint)
    : result (gmap string ImportedType2Route * gset string) :=
  let '(desired, slots) := acc in
  if negb (de_Validated ep) || bool_decide (length (de_Routes ep) = 0%nat) || (generation =? 0)
     || negb (bool_decide (de_Key ep = remoteHash [de_NetworkID ep; de_MAC ep; de_IP ep]))
  then Err (Errorf "invalid validated endpoint identity")
  else if negb (forallb (route_evidence c ep) (de_Routes ep))
  then Err (Errorf "endpoint differs from validated source evidence")
  else if negb (ip_confirmed ep) then Err (Errorf "endpoint IP lacks matching validated source evidence")
  else match writer_network networks ep with
  | None => Err (Errorf "endpoint network has no exclusive writer mapping")
  | Some network =>
      let? slots := rfold take_slot slots (alias_keys network ep) in
      Ok (<[de_Key ep := desired_route generation network ep]> desired, slots)
  end.

Definition desired_of (c : RemoteImportConfig) (networks : list RemoteNetlinkNetwork) (snapshot : RemoteImportSnapshot)
    : result (gmap string ImportedType2Route) :=
  let? (desired, _) := rfold (desired_step c networks (is_Generation snapshot)) (∅, ∅) (is_Endpoints snapshot) in
  Ok desired.

Definition set_importer (f : RemoteType2Importer -> RemoteType2Importer) : IM unit := modify (fun s => (f s.1, s.2)).

(** The route differs from what is wanted. *)
Definition must_withdraw (current : ImportedType2Route) (want : option ImportedType2Route) : bool :=
  match want with
  | None => true
  | Some want => ir_retiring current || negb (bool_decide (ir_validated current = ir_validated want))
                 || negb (bool_decide (ir_VXLANDevice current = ir_VXLANDevice want))
                 || negb (bool_decide (ir_NeighborDevice current = ir_NeighborDevice want))
  end.

(** One active route; [keys] are keys of [active]. *)
Definition withdraw_stale ctx (desired : gmap string ImportedType2Route) (_ : unit) key : IM unit :=
  let! i := gets fst in
  match ti_active i !! key with
  | None => ret tt
  | Some current =>
      if must_withdraw current (desired !! key) then
        do! set_importer (fun i => with_active (<[key := set_retiring current]> (ti_active i)) i) in
        do! on_snd (ownedWithdraw ctx (set_retiring current)) in
        set_importer (fun i => with_active (delete key (ti_active i)) i)
      else ret tt
  end.

(** One wanted route; [keys] are keys of [desired]. *)
Definition apply_desired ctx (desired : gmap string ImportedType2Route) (_ : unit) key : IM unit :=
  let! i := gets fst in
  match ti_active i !! key, desired !! key with
  | Some route, _ => on_snd (ownedApply ctx route)
  | None, None => ret tt
  | None, Some want =>
      if ti_epoch i =? u64_max then fail (Errorf "route incarnation exhausted") else
      let epoch := ti_epoch i + 1 in
      let route := set_incarnation epoch want in
      do! set_importer (fun i => with_active (<[key := route]> (ti_active i)) (with_epoch epoch i)) in
      on_snd (ownedApply ctx route)
  end.

(** [RemoteType2Importer.applyValidatedSnapshot] *)
Definition applyValidatedSnapshot (c : RemoteImportConfig) ctx (snapshot : RemoteImportSnapshot) : IM unit :=
  if negb (is_Authoritative snapshot) then fail (Errorf "non-authoritative snapshot cannot mutate Netlink") else
  let! i := gets fst in
  if (is_Generation snapshot <? ti_confirmedGeneration i)
     || (is_Generation snapshot =? ti_confirmedGeneration i) && negb (bool_decide (ti_confirmedDigest i = ""%string))
        && negb (bool_decide (ti_confirmedDigest i = remoteHash (is_Endpoints snapshot)))
  then fail (Errorf "stale or conflicting importer generation") else
  let! s := gets (fun x => x.2.1) in
  let! desired := lift (desired_of c (nc_Networks (os_config s)) snapshot) in
  do! set_importer (with_confirmed (is_Generation snapshot) (remoteHash (is_Endpoints snapshot))) in
  do! on_snd (record_snapshot snapshot) in
  let! i := gets fst in
  do! mfold (withdraw_stale ctx desired) tt (sorted_keys (ti_active i)) in
  do! mfold (apply_desired ctx desired) tt (sorted_keys desired) in
  on_snd mark_running.

(** [RemoteType2Importer.reconcileValidated] *)
Definition reconcileValidated
    : M ((RemoteType2Importer * ReadOnlyType2Importer W) * (ownedNetlinkState * W)) unit :=
  fun st =>
    let '((i, reader), (s, w)) := st in
    let '((reader, w), (snapshot, err)) := Poll (reader, w) in
    let i := with_last snapshot i in
    match err with
    | Some e => (((i, reader), (s, w)), Err (Wrapped "remote observation frozen" e))
    | None =>
        if negb (is_Authoritative snapshot)
        then (((i, reader), (s, w)), Err (Errorf "remote observation non-authoritative: all Netlink mutations frozen")) else
        let '((i, x), r) := applyValidatedSnapshot (im_config reader) ctx_Err snapshot (i, (s, w)) in
        (((i, reader), x), r)
    end.

(** [RemoteType2Importer.LastSnapshot] *)
Definition LastSnapshot i : RemoteImportSnapshot := ti_last i.

(** One recovered receipt of [restoreReceipts]. *)
Definition restore_receipt (c : RemoteImportConfig) (s : ownedNetlinkState) i key : result RemoteType2Importer :=
  match os_receipts s !! key with
  | None => Ok i
  | Some r =>
      if negb (forallb (route_evidence c (nr_Endpoint r)) (de_Routes (nr_Endpoint r)))
      then Err (ErrBlocked "recovered receipt violates current import policy")
      else if negb (ip_confirmed (nr_Endpoint r)) then Err (ErrBlocked "recovered IP lacks validated source evidence")
      else Ok (with_active (<[key := receiptRoute r]> (ti_active i)) i)
  end.

(** [RemoteType2Importer.restoreReceipts]; the keys are those with a recorded
    incarnation and a receipt. *)
Definition restoreReceipts (s : ownedNetlinkState) (reader : ReadOnlyType2Importer W) i
    : ReadOnlyType2Importer W * result RemoteType2Importer :=
  if negb (bool_decide (is_Some (os_journal s))) then (reader, Ok i) else
  let i := with_confirmed (is_Generation (os_snapshot s)) (remoteHash (is_Endpoints (os_snapshot s))) i in
  let reader := with_importer (set_authoritative false (os_snapshot s)) ""%string reader in
  let i := with_epoch (foldr Z.max (ti_epoch i) (map_to_list (os_latest s)).*2) i in
  let keys := sort_Strings (List.filter (fun key => bool_decide (is_Some (os_receipts s !! key))) (map_to_list (os_latest s)).*1) in
  (reader, rfold (restore_receipt (im_config reader) s) i keys).

(** [NewValidatedRemoteType2Importer] *)
Definition NewValidatedRemoteType2Importer (reader : ReadOnlyType2Importer W) (s : ownedNetlinkState)
    : ReadOnlyType2Importer W * result RemoteType2Importer :=
  if negb (forallb (fun n => existsb (fun policy => bool_decide (rn_NetworkID policy = nn_NetworkID n)
                                                    && (rn_VNI policy =? nn_VNI n)) (ri_Networks (im_config reader)))
                   (nc_Networks (os_config s)))
  then (reader, Err (Errorf "Netlink network missing from verified import policy"))
  else restoreReceipts s reader NewRemoteType2Importer.
End import.
