(* ===== verification/RemoteImportSafety.v ===== *)
(** * The importer drives the backend as the backend requires

    The rounds of the verified importer are histories of [NetlinkHistory], and a round
    that returns leaves exactly the endpoints of its snapshot programmed. *)

From S2P Require Import Prelude GoStd Journal Type2 Reconciler GobgpAdapter RemoteType2 Netlink NetlinkSafety NetlinkRecovery NetlinkHistory NetlinkEffect RemoteImport.

Section importer.
Context {W : Type} {PX : Posix W} {SH : Sha256} {JR : Json record} {JE : Json envelope} {UL : UuidLib}.
Context {AT : ApiTypes} {BT : BgpTypes} {BL : BgpLib} {AU : ApiUtil} {RL : RemoteLib}.
Context {JN : Json remoteReceiptState} {JO : Json (remoteReceiptState * RemoteObjectReceipt)} {JL : Json (list string)}.
Context {JD : Json (list DesiredRemoteEndpoint)} {JP : Json (string * RemotePathIdentity)} {JS : Json RemoteImportSnapshot}.
Context {K : ownedKernel W} {LS : LinkSubscription W} {MR : MapRange} {CX : Ctx W}.
Implicit Types (i : RemoteType2Importer) (s : ownedNetlinkState) (x : ownedNetlinkState * W) (ctx : Context W) (key : string).

(** ** Routes *)

(** A route carries the proof it was made from. *)
Definition route_wf key (route : ImportedType2Route) : Prop :=
  exists ep, ir_validated route = Some ep /\ ir_Key route = key /\ de_Key ep = key /\
    key = remoteHash [de_NetworkID ep; de_MAC ep; de_IP ep] /\ ir_MAC route = de_MAC ep /\ ir_IP route = de_IP ep.

(** The kernel slots of a route, by device name. *)
Definition route_alias (route : ImportedType2Route) : list string :=
  (ir_VXLANDevice route +:+ "/mac/" +:+ ir_MAC route)%string
  :: (if bool_decide (ir_IP route = ""%string) then [] else [(ir_NeighborDevice route +:+ "/ip/" +:+ ir_IP route)%string]).

(** The routes of a snapshot: each is one of its endpoints, and no two share a slot. *)
Record desired_spec (generation : Z) (eps : list DesiredRemoteEndpoint) (desired : gmap string ImportedType2Route) : Prop := {
  ds_route key route : desired !! key = Some route ->
    route_wf key route /\ ir_generation route = generation /\ ir_retiring route = false /\
    exists ep, ep ∈ eps /\ ir_validated route = Some ep;
  ds_apart k1 k2 r1 r2 a : desired !! k1 = Some r1 -> desired !! k2 = Some r2 -> k1 <> k2 ->
    a ∈ route_alias r1 -> a ∉ route_alias r2;
  ds_all ep : ep ∈ eps -> is_Some (desired !! de_Key ep);
}.

Lemma alias_fold slots l slots' :
  rfold take_slot slots l = Ok slots' -> (forall a, a ∈ l -> a ∉ slots /\ a ∈ slots') /\ slots ⊆ slots'.
Proof.
  revert slots. induction l as [|a l IH]; intros slots H; simpl in H; [simplify_eq; split; [set_solver|done]|].
  unfold take_slot at 1, rbind in H. case_bool_decide as Ha; [done|]. apply IH in H as [H Hsub]. split; [|set_solver].
  intros b [->|Hb]%elem_of_cons; [set_solver|]. destruct (H b Hb). set_solver.
Qed.

Lemma desired_step_run c networks generation desired slots ep d' slots' :
  desired_step c networks generation (desired, slots) ep = Ok (d', slots') ->
  exists route, d' = <[de_Key ep := route]> desired /\ route_wf (de_Key ep) route /\ ir_generation route = generation /\
    ir_retiring route = false /\ ir_validated route = Some ep /\ slots ⊆ slots' /\
    (forall a, a ∈ route_alias route -> a ∉ slots /\ a ∈ slots').
Proof.
  unfold desired_step. destruct (_ || _ || _ || _) eqn:Hid; [done|]. destruct (forallb _ _); [|done]. cbn [negb].
  destruct (ip_confirmed ep); [|done]. cbn [negb]. destruct (writer_network networks ep) as [n|]; [|done]. unfold rbind. destruct (rfold _ _ _) as [sl|] eqn:E; [|done].
  intros [= <- <-]. apply alias_fold in E as [Ha Hsub]. bools. eexists. split_and!; try done. by exists ep.
Qed.

Lemma desired_of_spec c networks sn desired :
  desired_of c networks sn = Ok desired -> desired_spec (is_Generation sn) (is_Endpoints sn) desired.
Proof.
  unfold desired_of, rbind. destruct (rfold _ _ _) as [[d slots]|] eqn:E; [|done]. intros [= <-].
  eapply (rfold_invariant _ (fun l acc => desired_spec (is_Generation sn) l acc.1 /\
    forall k r a, acc.1 !! k = Some r -> a ∈ route_alias r -> a ∈ acc.2)) in E as [H _]; [exact H| |].
  { split; [split|]; simpl; try (intros *; rewrite lookup_empty; done). set_solver. }
  intros l ep [d1 sl] [d' sl'] _ [[Hr Hap Hall] Hsl] (route & -> & Hwf & Hg & Hre & Hv & Hsub & Ha)%desired_step_run. simpl in *.
  split; [split|].
  - intros k r [[<- <-]|[Hne Hk]]%lookup_insert_Some.
    + split_and!; try done. exists ep. set_solver.
    + destruct (Hr k r Hk) as (? & ? & ? & ep' & ? & ?). split_and!; try done. exists ep'. set_solver.
  - intros k1 k2 r1 r2 a [[<- <-]|[Hne1 H1]]%lookup_insert_Some [[<- <-]|[Hne2 H2]]%lookup_insert_Some Hne Hin Hin2; try done.
    + by apply (Ha a Hin), (Hsl k2 r2).
    + by apply (Ha a Hin2), (Hsl k1 r1).
    + by apply (Hap _ _ _ _ a H1 H2 Hne).
  - intros ep' [Hin| ->%list_elem_of_singleton]%elem_of_app; [|by rewrite lookup_insert_eq].
    destruct (decide (de_Key ep = de_Key ep')) as [->|Hne]; [by rewrite lookup_insert_eq|]. rewrite lookup_insert_ne by done. by apply Hall.
  - intros k r a [[<- <-]|[Hne Hk]]%lookup_insert_Some Hin; [by apply Ha|]. apply Hsub. by eapply Hsl.
Qed.

(** ** The importer and the backend *)

(** Linux gives every interface an index of its own. *)
Definition devices_apart s : Prop := forall n1 n2 d1 d2,
  os_devices s !! n1 = Some d1 -> os_devices s !! n2 = Some d2 -> rd_Ifindex d1 = rd_Ifindex d2 -> n1 = n2.

(** The importer knows every receipt: its route carries the same proof and devices, and
    is retiring if the receipt is. *)
Record imp_ok i s : Prop := {
  io_routes key route : ti_active i !! key = Some route -> route_wf key route /\ ir_generation route <= ti_confirmedGeneration i;
  io_generation : ti_confirmedGeneration i = is_Generation (os_snapshot s);
  io_receipts key ep n inc retiring : idents s !! key = Some (ep, n, inc, retiring) ->
    exists route, ti_active i !! key = Some route /\ ir_validated route = Some ep /\
      nn_VXLANDevice n = ir_VXLANDevice route /\ nn_BridgeDevice n = ir_NeighborDevice route /\
      (retiring = true -> ir_retiring route = true);
}.

Lemma imp_ok_set i s s' : base s' = base s -> idents s' = idents s -> imp_ok i s -> imp_ok i s'.
Proof. intros Eb Ei [H1 H2 H3]. unfold base in Eb. simplify_eq. split; [done|congruence|by rewrite Ei]. Qed.

Lemma base_fields s s' : base s' = base s -> os_config s' = os_config s /\ os_devices s' = os_devices s /\ os_snapshot s' = os_snapshot s.
Proof. by intros [= -> -> -> _ _]. Qed.

(** Receipts may go, or be marked where the route is retiring. *)
Lemma imp_ok_shrink i s s' :
  base s' = base s ->
  (forall key v, idents s' !! key = Some v -> idents s !! key = Some v \/
     exists u, idents s !! key = Some u /\ v = retire u /\ forall route, ti_active i !! key = Some route -> ir_retiring route = true) ->
  imp_ok i s -> imp_ok i s'.
Proof.
  intros (_ & _ & Es)%base_fields Hid [H1 H2 H3]. split; [done|congruence|].
  intros key ep n inc re Hk. destruct (Hid _ _ Hk) as [Hk'|([[[ep' n'] inc'] re'] & Hk' & [= -> -> -> ->] & Hret)].
  - by apply (H3 _ _ _ _ _ Hk').
  - destruct (H3 _ _ _ _ _ Hk') as (route & ? & ? & ? & ? & _). exists route. split_and!; auto.
Qed.

Definition any (w w' : W) : Prop := True.
Context {TK : TypedKernel}.

(** The invariant of a round that started at [x0]. *)
Definition good x0 (y : RemoteType2Importer * (ownedNetlinkState * W)) : Prop :=
  imp_ok y.1 y.2.1 /\ inv y.2.1 /\ devices_apart y.2.1 /\ rtc (gstep any) x0 y.2.

Lemma good_step x0 y y' :
  good x0 y -> gstep any y.2 y'.2 -> base y'.2.1 = base y.2.1 -> imp_ok y'.1 y'.2.1 -> good x0 y'.
Proof.
  intros (_ & Hi & Hd & Hs) Hg Eb Hok. split_and!; [done|by eapply gstep_inv| |by eapply rtc_r].
  apply base_fields in Eb as (_ & Ed & _). unfold devices_apart. by rewrite Ed.
Qed.

(** Nothing in [active] at this key has to be withdrawn. *)
Definition matches (desired : gmap string ImportedType2Route) i key : Prop :=
  forall route, ti_active i !! key = Some route -> must_withdraw route (desired !! key) = false.

Lemma withdraw_stale_run x0 ctx desired key y y' r :
  good x0 y -> withdraw_stale ctx desired tt key y = (y', r) ->
  good x0 y' /\ (is_ok r = true -> matches desired y'.1 key /\ forall k, k <> key -> ti_active y'.1 !! k = ti_active y.1 !! k).
Proof.
  intros Hg H. unfold withdraw_stale in H. rewrite bind_gets in H. unfold matches.
  destruct (ti_active y.1 !! key) as [current|] eqn:Hcur; [|unfold ret in H; simplify_eq; split; [done|]; split; [congruence|done]].
  destruct (must_withdraw current (desired !! key)) eqn:Hmw; [|unfold ret in H; simplify_eq; split; [done|]; split; [congruence|done]].
  unfold bind at 1, set_importer at 1, modify at 1 in H.
  pose proof Hg as (Hok & _). destruct (io_routes _ _ Hok key current Hcur) as [Hwf Hgen].
  assert (ir_Key (set_retiring current) = key) as Ekey by (by destruct Hwf as (? & _ & ? & _)).
  set (i1 := with_active (<[key := set_retiring current]> (ti_active y.1)) y.1) in *.
  assert (imp_ok i1 y.2.1) as Hok1.
  { destruct Hok as [H1 H2 H3]. split; [|done|].
    - intros k route. simpl. intros [[<- <-]|[Hne Hk]]%lookup_insert_Some; [done|by apply H1].
    - intros k ep n inc re Hid. destruct (H3 k ep n inc re Hid) as (route & Hk & Hv & Hvx & Hbr & Hre). simpl.
      destruct (decide (k = key)) as [->|Hne]; [rewrite lookup_insert_eq|rewrite lookup_insert_ne by done; eauto 10].
      rewrite Hcur in Hk. simplify_eq. by exists (set_retiring route). }
  assert (forall x1 r1, ownedWithdraw ctx (set_retiring current) y.2 = (x1, r1) ->
    gstep any y.2 x1 /\ base x1.1 = base y.2.1 /\ imp_ok i1 x1.1 /\ (is_ok r1 = true -> idents x1.1 = delete key (idents y.2.1))) as Hw.
  { intros x1 r1 Hx. split; [by eapply gs_Withdraw|]. apply ownedWithdraw_effect in Hx as (Eb & _ & Heff). rewrite Ekey in Heff.
    split_and!; [done| |by destruct r1]. eapply imp_ok_shrink; [exact Eb| |exact Hok1]. intros k v Hk.
    assert (forall k v, delete key (idents y.2.1) !! k = Some v -> idents y.2.1 !! k = Some v) as Hdel
      by (intros ? ? [_ ?]%lookup_delete_Some; done).
    destruct r1 as [|e]; [rewrite Heff in Hk; left; by apply Hdel|].
    destruct Heff as [E|[E|E]]; rewrite E in Hk; [by left| |left; by apply Hdel].
    apply lookup_alter_Some in Hk as [(<- & u & Hu & ->)|[_ Hk]]; [right|by left].
    exists u. split_and!; [done..|]. simpl. rewrite lookup_insert_eq. by intros ? [= <-]. }
  apply bind_inv in H as [([i2 x2] & [] & Hx & H)|(e & Hx & ->)]; apply on_snd_inv in Hx as [E Hx]; apply Hw in Hx as (Hgs & Eb & Hok2 & Hid).
  - simpl in E. subst i2. unfold set_importer, modify in H. injection H as <- <-. simpl in *. split.
    + eapply good_step; [exact Hg|exact Hgs|exact Eb|]. destruct Hok2 as [H1 H2 H3]. split; [|done|].
      * intros k route. simpl. intros [Hne [[? ?]|[_ Hk]]%lookup_insert_Some]%lookup_delete_Some; [done|]. apply H1. simpl. by rewrite lookup_insert_ne.
      * intros k ep n inc re Hk. cbn [fst snd] in Hk. rewrite Hid in Hk by done. apply lookup_delete_Some in Hk as [Hne Hk].
        destruct (io_receipts _ _ Hok _ _ _ _ _ Hk) as (route & Hr & ?). exists route. simpl.
        by rewrite lookup_delete_ne, lookup_insert_ne.
    + intros _. split; [intros route; by rewrite lookup_delete_eq|]. intros k Hne. by rewrite lookup_delete_ne, lookup_insert_ne.
  - split; [|done]. simpl in E. eapply good_step; [exact Hg|exact Hgs|exact Eb|]. by rewrite E.
Qed.

Lemma withdraw_phase x0 ctx desired keys y y' r :
  good x0 y -> mfold (withdraw_stale ctx desired) tt keys y = (y', r) ->
  good x0 y' /\ (is_ok r = true -> forall k, k ∈ keys \/ matches desired y.1 k -> matches desired y'.1 k).
Proof.
  revert y. induction keys as [|key keys IH]; intros y Hg H; simpl in H.
  - unfold ret in H. simplify_eq. split; [done|]. intros _ k [?%elem_of_nil|?]; done.
  - apply bind_inv in H as [(y1 & [] & Hw & H)|(e & Hw & ->)]; apply withdraw_stale_run with (x0 := x0) in Hw as [Hg1 Hw]; try done.
    destruct (Hw eq_refl) as [Hm Hoth]. apply IH in H as [Hg' H]; [|done]. split; [done|]. intros Hr k Hk. apply (H Hr).
    destruct (decide (k = key)) as [->|Hne]; [by right|]. destruct Hk as [[?|Hk]%elem_of_cons|Hk]; [done|by left|right].
    intros route. rewrite (Hoth k Hne). apply Hk.
Qed.

(** ** Applying *)

Lemma topology_device s n name :
  topology s -> n ∈ nc_Networks (os_config s) -> name = nn_BridgeDevice n \/ name = nn_VXLANDevice n ->
  os_devices s !! name = Some (device_of s name).
Proof.
  unfold topology. rewrite forallb_forall. intros Ht Hn%list_elem_of_In Hname. specialize (Ht n Hn). unfold topology_ok in Ht.
  unfold device_of. destruct Hname as [-> | ->]; repeat case_match; try done.
Qed.

Lemma same_device s n1 n2 a b :
  topology s -> devices_apart s -> n1 ∈ nc_Networks (os_config s) -> n2 ∈ nc_Networks (os_config s) ->
  a = nn_BridgeDevice n1 \/ a = nn_VXLANDevice n1 -> b = nn_BridgeDevice n2 \/ b = nn_VXLANDevice n2 ->
  rd_Ifindex (device_of s a) = rd_Ifindex (device_of s b) -> a = b.
Proof. intros Ht Hd H1 H2 Ha Hb E. eapply Hd; [by apply (topology_device s n1)|by apply (topology_device s n2)|done]. Qed.

Lemma route_network_of_run s route n :
  route_network_of s route = Ok n ->
  n ∈ nc_Networks (os_config s) /\ nn_VXLANDevice n = ir_VXLANDevice route /\ nn_BridgeDevice n = ir_NeighborDevice route.
Proof.
  unfold route_network_of, of_option. destruct (List.find _ _) as [n'|] eqn:E; [|done]. intros [= ->].
  apply find_some in E as [Hin%list_elem_of_In Hm]. bools. done.
Qed.

Definition slot_of s (n : RemoteNetlinkNetwork) (mac ip : string) (o : side) : Z * Z * string :=
  match o with
  | OnFDB => (AF_BRIDGE, rd_Ifindex (device_of s (nn_VXLANDevice n)), mac)
  | OnNeighbor => (match ParseIP ip with Some (Addr4 _ _ _ _) => AF_INET | _ => AF_INET6 end,
                   rd_Ifindex (device_of s (nn_BridgeDevice n)), ip)
  end.

Lemma new_slot s n route o ob :
  obj_of o (newReceipt s n route) = Some ob ->
  obj_slot ob = slot_of s n (ir_MAC route) (ir_IP route) o /\ (o = OnNeighbor -> ir_IP route <> ""%string).
Proof.
  destruct o; simpl; [by intros [= <-]|]. case_bool_decide as He; [done|]. intros [= <-]. split; [|done].
  unfold obj_slot, slot_key. simpl. by destruct (ParseIP (ir_IP route)) as [[]|].
Qed.

Lemma header_slot s key rc o ob :
  header_ok s key rc -> obj_of o rc = Some ob ->
  obj_slot ob = slot_of s (nr_Network rc) (de_MAC (nr_Endpoint rc)) (de_IP (nr_Endpoint rc)) o /\
  (o = OnNeighbor -> de_IP (nr_Endpoint rc) <> ""%string).
Proof.
  intros (_ & _ & _ & Hreq) Hob. unfold receipt_requests_ok in Hreq. apply andb_true_iff in Hreq as [Hf Hn].
  apply bool_decide_eq_true in Hf, Hn.
  assert (exists ob2, obj_of o (newReceipt s (nr_Network rc) (receiptRoute rc)) = Some ob2 /\ ob_Request ob2 = ob_Request ob) as (ob2 & H2 & E).
  { destruct o; cbn [obj_of] in *; [eexists; split; [done|congruence]|]. rewrite Hob in Hn. apply fmap_Some in Hn as (ob2 & ? & ?). eauto. }
  apply new_slot in H2. unfold obj_slot in *. by rewrite E in H2.
Qed.

(** A receipt in the slot of a route has an alias in common with it. *)
Lemma slot_alias s key rc o ob route n o' ob' (rt : ImportedType2Route) :
  topology s -> devices_apart s -> header_ok s key rc -> obj_of o rc = Some ob ->
  ir_MAC rt = de_MAC (nr_Endpoint rc) -> ir_IP rt = de_IP (nr_Endpoint rc) ->
  nn_VXLANDevice (nr_Network rc) = ir_VXLANDevice rt -> nn_BridgeDevice (nr_Network rc) = ir_NeighborDevice rt ->
  route_network_of s route = Ok n -> obj_of o' (newReceipt s n route) = Some ob' -> obj_slot ob' = obj_slot ob ->
  exists a, a ∈ route_alias rt /\ a ∈ route_alias route.
Proof.
  intros Ht Hd Hh Hob Em Ei Evx Ebr (Hn & Evx' & Ebr')%route_network_of_run [E1 Hip1]%new_slot Hs.
  destruct (header_slot _ _ _ _ _ Hh Hob) as [E2 Hip2]. rewrite E1, E2 in Hs. clear E1 E2.
  assert (nr_Network rc ∈ nc_Networks (os_config s)) as Hn' by (destruct Hh as (_ & _ & Hh & _); unfold receipt_network_ok in Hh; by bools).
  assert (forall ip, match ParseIP ip with Some (Addr4 _ _ _ _) => AF_INET | _ => AF_INET6 end <> AF_BRIDGE) as Hf
    by (intros; by repeat case_match).
  unfold slot_of in Hs. destruct o, o'.
  - injection Hs as Hif Hmac. eapply same_device in Hif; [|done|done|exact Hn|exact Hn'|by right|by right].
    exists (ir_VXLANDevice rt +:+ "/mac/" +:+ ir_MAC rt)%string. split; [left|].
    replace (ir_VXLANDevice rt) with (ir_VXLANDevice route) by congruence. replace (ir_MAC rt) with (ir_MAC route) by congruence. left.
  - injection Hs as Hfam _ _. by apply Hf in Hfam.
  - injection Hs as Hfam _ _. symmetry in Hfam. by apply Hf in Hfam.
  - injection Hs as _ Hif Hip. eapply same_device in Hif; [|done|done|exact Hn|exact Hn'|by left|by left].
    specialize (Hip1 eq_refl). exists (ir_NeighborDevice rt +:+ "/ip/" +:+ ir_IP rt)%string. unfold route_alias.
    replace (ir_NeighborDevice rt) with (ir_NeighborDevice route) by congruence. replace (ir_IP rt) with (ir_IP route) by congruence.
    rewrite bool_decide_eq_false_2 by done. split; right; left.
Qed.

Lemma matches_run desired i key route :
  matches desired i key -> ti_active i !! key = Some route ->
  exists want, desired !! key = Some want /\ ir_retiring route = false /\ ir_validated route = ir_validated want /\
    ir_VXLANDevice route = ir_VXLANDevice want /\ ir_NeighborDevice route = ir_NeighborDevice want.
Proof.
  intros Hm Hr. specialize (Hm route Hr). unfold must_withdraw in Hm. destruct (desired !! key) as [want|]; [|done].
  bools. exists want. done.
Qed.

Lemma wf_alias key route want :
  route_wf key route -> route_wf key want -> ir_validated route = ir_validated want ->
  ir_VXLANDevice route = ir_VXLANDevice want -> ir_NeighborDevice route = ir_NeighborDevice want ->
  route_alias route = route_alias want.
Proof.
  intros (ep & Hv & _ & _ & _ & Em & Ei) (ep' & Hv' & _ & _ & _ & Em' & Ei') E Evx En. assert (ep' = ep) as -> by congruence.
  unfold route_alias. by rewrite Em, Ei, Em', Ei', Evx, En.
Qed.

Lemma active_may_apply gen eps desired i s key route :
  desired_spec gen eps desired -> imp_ok i s -> inv s -> devices_apart s -> (forall k, matches desired i k) ->
  ti_active i !! key = Some route -> may_apply s route.
Proof.
  intros Hds Hok Hi Hd Hm Hact. destruct (io_routes _ _ Hok key route Hact) as [Hwf Hgen].
  assert (ir_Key route = key) as Ek by (by destruct Hwf as (? & _ & ? & _)).
  destruct (matches_run _ _ _ _ (Hm key) Hact) as (want & Hwant & Hre & Ev & Evx & En).
  split; rewrite ?Ek.
  - by rewrite <-(io_generation _ _ Hok).
  - intros ep Hv. destruct Hwf as (ep' & Hv' & _ & _ & -> & _). congruence.
  - intros rc Hrc. destruct (nr_Retiring rc) eqn:Er; [|done].
    assert (idents s !! key = Some (nr_Endpoint rc, nr_Network rc, nr_Incarnation rc, true)) as Hid
      by (unfold idents; rewrite lookup_fmap, Hrc; simpl; unfold ident; by rewrite Er).
    destruct (io_receipts _ _ Hok _ _ _ _ _ Hid) as (route' & ? & _ & _ & _ & Hr). specialize (Hr eq_refl). congruence.
  - intros n k o ob o' ob' Hb Hn Hne (rc & Hrc & Hob)%bind_Some Hob' Hs. destruct Hi as (Ht & _ & Hi). destruct (Hi Hb) as (Hh & _).
    assert (idents s !! k = Some (nr_Endpoint rc, nr_Network rc, nr_Incarnation rc, nr_Retiring rc)) as Hid
      by (unfold idents; by rewrite lookup_fmap, Hrc).
    destruct (io_receipts _ _ Hok _ _ _ _ _ Hid) as (rt & Hrt & Hvt & Evt & Ent & _).
    destruct (io_routes _ _ Hok k rt Hrt) as [Hwft _]. pose proof Hwft as (ep' & Hv' & _ & _ & _ & Em' & Ei').
    assert (ep' = nr_Endpoint rc) as -> by congruence.
    destruct (slot_alias s k rc o ob route n o' ob' rt) as (a & Ha1 & Ha2); try done; [by apply Hh|].
    destruct (matches_run _ _ _ _ (Hm k) Hrt) as (want' & Hwant' & _ & Ev' & Evx' & En').
    erewrite wf_alias in Ha1, Ha2; [| |by apply (ds_route _ _ _ Hds _ _ Hwant)|done..]; [|done].
    erewrite wf_alias in Ha1; [| |by apply (ds_route _ _ _ Hds _ _ Hwant')|done..]; [|done].
    by apply (ds_apart _ _ _ Hds _ _ _ _ a Hwant' Hwant Hne).
Qed.

(** One application by the importer. *)
Lemma apply_active x0 gen eps desired ctx key route y x' r :
  desired_spec gen eps desired -> good x0 y -> (forall k, matches desired y.1 k) -> ti_active y.1 !! key = Some route ->
  ownedApply ctx route y.2 = (x', r) -> good x0 (y.1, x').
Proof.
  intros Hds Hg Hm Hact H. pose proof Hg as (Hok & Hi & Hd & _).
  assert (may_apply y.2.1 route) as Hma by by eapply active_may_apply.
  destruct (io_routes _ _ Hok key route Hact) as [Hwf _].
  pose proof (ownedApply_effect _ _ _ _ _ H) as [(Ei & Eb & _)|(n & Hp & Hn & _ & _ & Eb & _ & Ei)].
  - eapply good_step; [exact Hg|by eapply gs_Apply|exact Eb|]. by eapply imp_ok_set.
  - eapply good_step; [exact Hg|by eapply gs_Apply|exact Eb|]. simpl. split.
    + apply (io_routes _ _ Hok).
    + apply base_fields in Eb as (_ & _ & ->). apply (io_generation _ _ Hok).
    + destruct Hwf as (ep0 & Hv & Ek & _). intros k ep n' inc re. rewrite Ei, Ek.
      intros [[<- [= <- <- <- <-]]|[_ Hk]]%lookup_insert_Some; [|by eapply (io_receipts _ _ Hok)].
      exists route. rewrite Hv. apply route_network_of_run in Hn as (_ & ? & ?). done.
Qed.

Definition ready x0 gen (desired : gmap string ImportedType2Route) (y : RemoteType2Importer * (ownedNetlinkState * W)) : Prop :=
  good x0 y /\ (forall k, matches desired y.1 k) /\ ti_confirmedGeneration y.1 = gen.

Lemma apply_desired_run x0 gen eps desired ctx key y y' r :
  desired_spec gen eps desired -> ready x0 gen desired y -> is_Some (desired !! key) ->
  apply_desired ctx desired tt key y = (y', r) ->
  ready x0 gen desired y' /\
  (is_ok r = true -> settled key y'.2.1 /\ forall k, settled k y.2.1 -> settled k y'.2.1).
Proof.
  intros Hds (Hg & Hm & Egen) [want Hwant] H. unfold apply_desired in H. rewrite bind_gets in H.
  assert (forall i' route, ti_active i' !! key = Some route -> ready x0 gen desired (i', y.2) ->
    on_snd (ownedApply ctx route) (i', y.2) = (y', r) ->
    ready x0 gen desired y' /\ (is_ok r = true -> settled key y'.2.1 /\ forall k, settled k y.2.1 -> settled k y'.2.1)) as Hap.
  { intros i' route Hact (Hg' & Hm' & Eg') Ho. apply on_snd_inv in Ho as [E Ho]. destruct y' as [i1 x1]. simpl in *. subst i1.
    split; [split_and!; [|done..]; by eapply (apply_active _ _ _ _ _ _ _ (i', y.2))|].
    intros Hr. destruct r as [[]|]; [|done]. apply ownedApply_ok in Ho as (Hs & Hoth & _).
    assert (ir_Key route = key) as Ek by (destruct Hg' as (Hok & _); destruct (io_routes _ _ Hok _ _ Hact) as [(? & _ & ? & _) _]; done).
    rewrite Ek in *. split; [done|]. intros k Hk. destruct (decide (k = key)) as [->|Hne]; [done|by apply Hoth]. }
  destruct (ti_active y.1 !! key) as [route|] eqn:Hact; [apply (Hap y.1 route); [done|by split_and!|by destruct y]|].
  rewrite Hwant in H. destruct (_ =? _); [unfold fail in H; simplify_eq; by split_and!|].
  unfold bind, set_importer, modify in H. revert H. apply Hap; [simpl; by rewrite lookup_insert_eq|].
  destruct (ds_route _ _ _ Hds _ _ Hwant) as (Hwf & Hgen & Hret & _). split_and!; [|..|done].
  - pose proof Hg as ([H1 H2 H3] & ? & ? & ?). split_and!; [|done..]. split; [|done|].
    + intros k route. simpl. intros [[<- <-]|[_ Hk]]%lookup_insert_Some; [split; [exact Hwf|simpl; lia]|by apply H1].
    + intros k ep n inc re Hid. destruct (H3 k ep n inc re Hid) as (route & Hr & ?). exists route. simpl.
      rewrite lookup_insert_ne by congruence. done.
  - intros k route. simpl. intros [[<- <-]|[_ Hk]]%lookup_insert_Some; [|by apply Hm].
    rewrite Hwant. unfold must_withdraw. simpl. by rewrite Hret, !bool_decide_eq_true_2.
Qed.

Lemma apply_phase x0 gen eps desired ctx keys y y' r :
  desired_spec gen eps desired -> ready x0 gen desired y -> (forall k, k ∈ keys -> is_Some (desired !! k)) ->
  mfold (apply_desired ctx desired) tt keys y = (y', r) ->
  ready x0 gen desired y' /\
  (is_ok r = true -> forall k, k ∈ keys \/ settled k y.2.1 -> settled k y'.2.1).
Proof.
  intros Hds. revert y. induction keys as [|key keys IH]; intros y Hr Hk H; simpl in H.
  - unfold ret in H. simplify_eq. split; [done|]. intros _ k [?%elem_of_nil|?]; done.
  - apply bind_inv in H as [(y1 & [] & Ha & H)|(e & Ha & ->)];
      eapply apply_desired_run in Ha as [Hr1 Ha]; try done; try (apply Hk; left).
    destruct (Ha eq_refl) as [Hset Hoth]. apply IH in H as [Hr' H]; [|done|intros; apply Hk; by right]. split; [done|].
    intros Hrr k Hkk. apply (H Hrr). destruct Hkk as [[->|?]%elem_of_cons|?]; auto.
Qed.

(** ** Rounds *)

(** Exactly the endpoints of the snapshot are programmed, every kernel entry confirmed. *)
Definition programmed (sn : RemoteImportSnapshot) s : Prop :=
  (forall key rc, os_receipts s !! key = Some rc -> nr_Endpoint rc ∈ is_Endpoints sn /\ de_Key (nr_Endpoint rc) = key /\ settled key s) /\
  (forall ep, ep ∈ is_Endpoints sn -> is_Some (os_receipts s !! de_Key ep)).

Lemma ready_programmed x0 gen sn desired y :
  desired_spec gen (is_Endpoints sn) desired -> ready x0 gen desired y ->
  (forall k, is_Some (desired !! k) -> settled k y.2.1) -> programmed sn y.2.1.
Proof.
  intros Hds ((Hok & _) & Hm & _) Hset. split.
  - intros key rc Hrc. assert (idents y.2.1 !! key = Some (nr_Endpoint rc, nr_Network rc, nr_Incarnation rc, nr_Retiring rc)) as Hid
      by (unfold idents; by rewrite lookup_fmap, Hrc).
    destruct (io_receipts _ _ Hok _ _ _ _ _ Hid) as (route & Hact & Hv & _).
    destruct (matches_run _ _ _ _ (Hm key) Hact) as (want & Hwant & _ & Ev & _).
    destruct (ds_route _ _ _ Hds _ _ Hwant) as ((ep & Hv' & _ & Hk & _) & _ & _ & ep' & Hin & Hv'').
    assert (ep' = nr_Endpoint rc /\ ep = nr_Endpoint rc) as [-> ->] by (split; congruence). split_and!; [done..|]. by apply Hset.
  - intros ep Hin. destruct (Hset (de_Key ep)) as (rc & Hrc & _); [by apply (ds_all _ _ _ Hds)|]. by eexists.
Qed.

Lemma sorted_keys_elem {A} (m : gmap string A) k : k ∈ sorted_keys m <-> is_Some (m !! k).
Proof.
  unfold sorted_keys, sort_Strings. rewrite merge_sort_Permutation, list_elem_of_fmap. split.
  - intros ([k' v] & -> & H%elem_of_map_to_list). by eexists.
  - intros [v Hv]. exists (k, v). by rewrite elem_of_map_to_list.
Qed.

Lemma good_snapshot x0 sn i x x1 r :
  good x0 (i, x) -> ti_confirmedGeneration i <= is_Generation sn -> record_snapshot sn x = (x1, r) ->
  good x0 (with_confirmed (is_Generation sn) (remoteHash (is_Endpoints sn)) i, x1).
Proof.
  intros ([H1 H2 H3] & Hi & Hd & Hs) Hle H. simpl in *.
  assert (gstep any x x1) as Hg by (eapply gs_snapshot; [|exact H]; by rewrite <-H2).
  unfold record_snapshot in H. apply bind_inv in H as [(x2 & [] & Hu & H)|(e & Hu & _)]; unfold update, modify in Hu; [|done].
  injection Hu as <-. apply checkpoint_run in H as (Hk & _). apply keeps_idents in Hk as (Ei & Eb & _).
  apply base_fields in Eb as (_ & Ed & Es). simpl in Ed, Es. split_and!; simpl.
  - split; simpl; [|by rewrite Es|].
    + intros key route [? ?]%H1. split; [done|lia].
    + intros key ep n inc re Hid. rewrite Ei in Hid. by apply H3 in Hid.
  - by eapply gstep_inv.
  - unfold devices_apart. by rewrite Ed.
  - by eapply rtc_r.
Qed.

Lemma withdraw_generation g ctx desired keys :
  preserves (fun y : RemoteType2Importer * (ownedNetlinkState * W) => ti_confirmedGeneration y.1 = g)
    (mfold (withdraw_stale ctx desired) tt keys).
Proof.
  apply preserves_mfold. intros [] key. unfold withdraw_stale, set_importer. pres.
  all: intros; try (apply preserves_modify; intros y Hy; exact Hy).
  intros y Hy. destruct (on_snd _ y) as [y' r] eqn:E. apply on_snd_inv in E as [E _]. simpl. by rewrite E.
Qed.

Lemma withdraw_generation_run ctx desired keys y y' r :
  mfold (withdraw_stale ctx desired) tt keys y = (y', r) -> ti_confirmedGeneration y'.1 = ti_confirmedGeneration y.1.
Proof. exact (preserves_run _ _ y _ _ (withdraw_generation _ ctx desired keys) eq_refl). Qed.

Lemma applyValidatedSnapshot_run x0 c ctx sn y y' r :
  good x0 y -> applyValidatedSnapshot c ctx sn y = (y', r) -> good x0 y' /\ (is_ok r = true -> programmed sn y'.2.1).
Proof.
  intros Hg H. unfold applyValidatedSnapshot in H. destruct (negb _); [unfold fail in H; by simplify_eq|].
  rewrite bind_gets in H. destruct (_ || _) eqn:Hstale; [unfold fail in H; by simplify_eq|].
  apply orb_false_iff in Hstale as [Hle%Z.ltb_ge _]. rewrite bind_gets, bind_lift in H.
  destruct (desired_of _ _ _) as [desired|] eqn:Hd; [|unfold fail in H; by simplify_eq].
  apply desired_of_spec in Hd as Hds. unfold bind at 1, set_importer, modify in H. destruct y as [i x]. simpl in *.
  apply bind_inv in H as [([i1 x1] & [] & Hs & H)|(e & Hs & ->)]; apply on_snd_inv in Hs as [E Hs]; simpl in *;
    [subst i1|destruct y' as [i1 x1]; simpl in *; subst i1]; pose proof (good_snapshot _ _ _ _ _ _ Hg Hle Hs) as Hg1; [|done].
  rewrite bind_gets in H. simpl in H.
  apply bind_inv in H as [(y2 & [] & Hw & H)|(e & Hw & ->)];
    pose proof (withdraw_generation_run _ _ _ _ _ _ Hw) as Eg;
    apply withdraw_phase with (x0 := x0) in Hw as [Hg2 Hm]; try done.
  assert (ready x0 (is_Generation sn) desired y2) as Hr2.
  { split_and!; [done| |done]. intros k. apply (Hm eq_refl). destruct (decide (is_Some (ti_active i !! k))) as [Hk|Hk].
    - left. by apply sorted_keys_elem.
    - right. intros route Hroute. destruct Hk. by eexists. }
  apply bind_inv in H as [(y3 & [] & Ha & H)|(e & Ha & ->)];
    eapply apply_phase in Ha as [Hr3 Hset]; try done; try (intros k ?; by apply sorted_keys_elem); [|by destruct Hr3].
  assert (programmed sn y3.2.1) as Hprog.
  { eapply ready_programmed; [exact Hds|exact Hr3|]. intros k Hk. apply (Hset eq_refl). left. by apply sorted_keys_elem. }
  destruct Hr3 as (Hg3 & _). apply on_snd_inv in H as [E Hrun]. pose proof Hrun as Hmk. unfold mark_running, update, modify in Hrun.
  assert (base y'.2.1 = base y3.2.1 /\ os_receipts y'.2.1 = os_receipts y3.2.1) as [Eb Er]
    by (injection Hrun as Ex _; rewrite <-Ex; simpl; by destruct (bool_decide _)).
  split.
  - eapply good_step; [exact Hg3|by eapply gs_running|done|]. rewrite E.
    eapply imp_ok_set; [exact Eb|unfold idents; by rewrite Er|by destruct Hg3].
  - intros _. unfold programmed, settled in *. by rewrite Er.
Qed.

Lemma last_kept c ctx sn y y' r : applyValidatedSnapshot c ctx sn y = (y', r) -> ti_last y'.1 = ti_last y.1.
Proof.
  apply (preserves_run (fun y' : RemoteType2Importer * (ownedNetlinkState * W) => ti_last y'.1 = ti_last y.1)); [|done].
  assert (forall A (m : M (ownedNetlinkState * W) A),
    preserves (fun y' : RemoteType2Importer * (ownedNetlinkState * W) => ti_last y'.1 = ti_last y.1) (on_snd m)) as Hsnd.
  { intros A m z Hz. destruct (on_snd m z) as [z' r'] eqn:E. apply on_snd_inv in E as [E _]. simpl. by rewrite E. }
  assert (forall f, (forall i, ti_last (f i) = ti_last i) ->
    preserves (fun y' : RemoteType2Importer * (ownedNetlinkState * W) => ti_last y'.1 = ti_last y.1) (set_importer f)) as Hset.
  { intros f Hf. apply preserves_modify. intros z Hz. simpl. by rewrite Hf. }
  unfold applyValidatedSnapshot, withdraw_stale, apply_desired. pres; intros; auto with evpn.
Qed.

(** ** Recovered receipts *)

Lemma restore_fold c s gen i keys i' :
  ti_active i = ∅ -> ti_confirmedGeneration i = gen -> rfold (restore_receipt c s) i keys = Ok i' ->
  ti_confirmedGeneration i' = gen /\
  forall k route, ti_active i' !! k = Some route <-> k ∈ keys /\ exists rc, os_receipts s !! k = Some rc /\ route = receiptRoute rc.
Proof.
  intros Ha Hg H.
  eapply (rfold_invariant _ (fun l i' => ti_confirmedGeneration i' = gen /\ forall k route, ti_active i' !! k = Some route <->
    k ∈ l /\ exists rc, os_receipts s !! k = Some rc /\ route = receiptRoute rc)) in H; [done| |].
  - split; [done|]. intros k route. rewrite Ha, lookup_empty. split; [done|]. intros [?%elem_of_nil _]. done.
  - clear. intros l key j j' _ [Hg Hk] H. unfold restore_receipt in H. destruct (os_receipts s !! key) as [rc|] eqn:Hrc.
    + destruct (negb _); [done|]. destruct (negb _); [done|]. simplify_eq. split; [done|]. intros k route. simpl.
      rewrite lookup_insert_Some, Hk, elem_of_app, list_elem_of_singleton. destruct (decide (key = k)) as [->|]; naive_solver.
    + simplify_eq. split; [done|]. intros k route. rewrite Hk, elem_of_app, list_elem_of_singleton. naive_solver congruence.
Qed.

Lemma restored_imp_ok (reader reader' : ReadOnlyType2Importer W) s i :
  validateReceipts s = Ok tt -> (os_journal s = None -> os_receipts s = ∅ /\ is_Generation (os_snapshot s) = 0) ->
  NewValidatedRemoteType2Importer reader s = (reader', Ok i) -> imp_ok i s.
Proof.
  intros (_ & Hh & _)%validateReceipts_iff Hnone H. unfold NewValidatedRemoteType2Importer in H. destruct (negb _); [done|].
  unfold restoreReceipts in H. case_bool_decide as Hj; cbn [negb] in H; last first.
  { simplify_eq. destruct Hnone as [Er Eg]; [by destruct (os_journal s); [destruct Hj; eauto|]|].
    split; simpl; [intros ??; by rewrite lookup_empty|done|]. intros k ep n inc re. unfold idents. by rewrite Er, fmap_empty, lookup_empty. }
  injection H as <- H. apply restore_fold with (gen := is_Generation (os_snapshot s)) in H as [Hg Hact]; [|done..].
  assert (forall k rc, os_receipts s !! k = Some rc -> ti_active i !! k = Some (receiptRoute rc)) as Hall.
  { intros k rc Hrc. apply Hact. split; [|eauto]. unfold sort_Strings. rewrite merge_sort_Permutation.
    rewrite list_elem_of_In, filter_In, <-list_elem_of_In, Hrc. split; [|by apply bool_decide_eq_true_2].
    destruct (Hh k rc Hrc) as (Hid & _). unfold receipt_identity_ok in Hid. bools.
    destruct (os_latest s !! k) as [z|] eqn:El; [|simpl in *; congruence].
    apply list_elem_of_fmap. exists (k, z). by rewrite elem_of_map_to_list. }
  split; [|done|].
  - intros k route (_ & rc & Hrc & ->)%Hact. destruct (Hh k rc Hrc) as (Hid & _). unfold receipt_identity_ok in Hid. bools.
    split; [|simpl; lia]. exists (nr_Endpoint rc). split_and!; done.
  - intros k ep n inc re. unfold idents. rewrite lookup_fmap. intros (rc & Hrc & [= -> -> -> ->])%fmap_Some.
    exists (receiptRoute rc). split_and!; try done. by apply Hall.
Qed.

(** ** Histories of the importer *)

(** A process with an importer: rounds, a new BGP source, the shutdown, and other processes. *)
Inductive istep : (RemoteType2Importer * ReadOnlyType2Importer W) * (ownedNetlinkState * W) ->
    (RemoteType2Importer * ReadOnlyType2Importer W) * (ownedNetlinkState * W) -> Prop :=
  | is_reconcile st st' r : reconcileValidated st = (st', r) -> istep st st'
  | is_rebind source i reader x : istep ((i, reader), x) ((i, (RebindSource source reader).1), x)
  | is_Close st x' r : backend_Close st.2 = (x', r) -> istep st (st.1, x')
  | is_env p s w w' : istep (p, (s, w)) (p, (s, w')).

Lemma good_world x0 i s w w' : good x0 (i, (s, w)) -> good x0 (i, (s, w')).
Proof. intros (? & ? & ? & Hs). split_and!; try done. simpl in *. eapply rtc_r; [exact Hs|]. by apply gs_env. Qed.
Lemma good_last x0 i x sn : good x0 (i, x) -> good x0 (with_last sn i, x).
Proof. intros ([H1 H2 H3] & ? & ? & ?). by split_and!. Qed.

Lemma reconcile_run x0 st st' r :
  good x0 (st.1.1, st.2) -> reconcileValidated st = (st', r) ->
  good x0 (st'.1.1, st'.2) /\ (is_ok r = true -> exists sn, programmed sn st'.2.1 /\ ti_last st'.1.1 = sn).
Proof.
  destruct st as [[i reader] [s w]]. unfold reconcileValidated. cbn [fst snd]. intros Hg.
  destruct (Poll (reader, w)) as [[reader' w'] [sn err]]. apply (good_world _ _ _ _ w'), (good_last _ _ _ sn) in Hg.
  destruct err as [e|]; [intros [= <- <-]; done|]. destruct (negb _); [intros [= <- <-]; done|].
  destruct (applyValidatedSnapshot _ _ _ _) as [[i' x'] r'] eqn:E. intros [= <- <-]. simpl.
  pose proof (last_kept _ _ _ _ _ _ E) as El. apply applyValidatedSnapshot_run with (x0 := x0) in E as [Hg' Hp]; [|done].
  split; [done|]. intros Hr. exists sn. split; [by apply Hp|done].
Qed.

Lemma istep_good x0 st st' : istep st st' -> good x0 (st.1.1, st.2) -> good x0 (st'.1.1, st'.2).
Proof.
  intros [st1 st1' r H|source i reader x|st1 x' r H|p s w w'] Hg.
  - by eapply reconcile_run.
  - done.
  - pose proof Hg as (Hok & _). simpl in *. assert (base x'.1 = base st1.2.1 /\ idents x'.1 = idents st1.2.1) as [Eb Ei].
    { clear -H. unfold backend_Close in H. rewrite bind_gets in H. destruct (os_closed _); [unfold ret in H; by simplify_eq|].
      unfold bind at 1, update, modify in H. rewrite bind_attempt in H.
      destruct (on_snd _ _) as [x1 c] eqn:Hk. apply on_snd_inv in Hk as [E1 _]. simpl in E1. cbn [fst snd] in H.
      destruct (bool_decide _); [rewrite bind_attempt in H|].
      - destruct (on_owned Close x1) as [x2 c2] eqn:Hc. cbn [fst snd] in H. unfold lift in H. injection H as <- _.
        apply on_owned_inv in Hc as [(_ & -> & _)|(j & j' & _ & _ & ->)]; by rewrite E1.
      - unfold bind, ret, lift in H. injection H as <- _. by rewrite E1. }
    eapply (good_step x0 (st1.1.1, st1.2) (st1.1.1, x')); [exact Hg|by eapply gs_Close|exact Eb|]. by eapply imp_ok_set.
  - by eapply good_world.
Qed.
Lemma isteps_good x0 st st' : rtc istep st st' -> good x0 (st.1.1, st.2) -> good x0 (st'.1.1, st'.2).
Proof. induction 1; eauto using istep_good. Qed.

(** A backend as a successful start leaves it, with the importer that restored its
    receipts. *)
Record started (reader : ReadOnlyType2Importer W) s (reader' : ReadOnlyType2Importer W) i : Prop := {
  st_new : NewValidatedRemoteType2Importer reader s = (reader', Ok i);
  st_valid : validateReceipts s = Ok tt;
  st_retired : retired_ok s;
  st_durable : durable s;
  st_fresh : os_journal s = None -> os_receipts s = ∅ /\ is_Generation (os_snapshot s) = 0 /\ os_latest s = ∅;
  st_words key n : os_latest s !! key = Some n -> is_u64 n;
  st_withdrawals : os_withdrawals s = [];
  st_apart : devices_apart s;
}.

Lemma started_good reader s reader' i w : started reader s reader' i -> good (s, w) (i, (s, w)).
Proof.
  intros [Hn Hv Hr Hd Hf _ _ Ha]. split_and!; [|by apply recoverable_inv|done|done].
  eapply restored_imp_ok; [done| |done]. by intros (? & ? & _)%Hf.
Qed.


End importer.
