(* ===== verification/RemoteImportBounds.v ===== *)
(** * Bounds of the importer

    Route incarnations are 64-bit counters that never wrap and are never used twice, and
    the backend's record of withdrawals is bounded. *)

From S2P Require Import Prelude GoStd Journal Type2 Reconciler GobgpAdapter RemoteType2 Netlink NetlinkSafety NetlinkRecovery NetlinkHistory NetlinkEffect RemoteImport RemoteImportSafety.

Section bounds.
Context {W : Type} {PX : Posix W} {SH : Sha256} {JR : Json record} {JE : Json envelope} {UL : UuidLib}.
Context {AT : ApiTypes} {BT : BgpTypes} {BL : BgpLib} {AU : ApiUtil} {RL : RemoteLib}.
Context {JN : Json remoteReceiptState} {JO : Json (remoteReceiptState * RemoteObjectReceipt)} {JL : Json (list string)}.
Context {JD : Json (list DesiredRemoteEndpoint)} {JP : Json (string * RemotePathIdentity)} {JS : Json RemoteImportSnapshot}.
Context {K : ownedKernel W} {LS : LinkSubscription W} {MR : MapRange} {CX : Ctx W}.
Implicit Types (i : RemoteType2Importer) (s : ownedNetlinkState) (x : ownedNetlinkState * W) (ctx : Context W) (key : string).

(** ** The record of withdrawals *)

Section withdrawals.
Let D x : Prop := (length (os_withdrawals x.1) <= 64)%nat.
Lemma kept_few {A} (m : M (ownedNetlinkState * W) A) :
  (forall s0, preserves (fun x => keeps s0 x.1 /\ True) m) -> preserves D m.
Proof. intros Hm x Hx. destruct (Hm x.1 x (conj (keeps_refl _) I)) as [Hk _]. unfold D. by rewrite (k_withdrawals _ _ Hk). Qed.
Lemma still_few {A} (m : M (ownedNetlinkState * W) A) :
  (forall x x' r, m x = (x', r) -> still x'.1 = still x.1) -> preserves D m.
Proof.
  intros Hm x Hx. destruct (m x) as [x' r] eqn:E. apply Hm in E. unfold still in E. unfold D in *. simpl.
  replace (os_withdrawals x'.1) with (os_withdrawals x.1) by congruence. done.
Qed.
Lemma few_applyObject ctx key o : preserves D (applyObject ctx key o).
Proof. apply still_few. intros x x' r. apply applyObject_still. Qed.
Lemma few_withdrawObject ctx key o : preserves D (withdrawObject ctx key o).
Proof. apply still_few. intros x x' r. apply withdrawObject_still. Qed.
#[local] Instance any_frame : KernelFrame (fun _ : W => True).
Proof. repeat split. Qed.
Lemma few_checkpoint : preserves D checkpoint.
Proof. apply kept_few. intros s0. exact (keeps_checkpoint (fun _ => True) s0). Qed.
Lemma few_check ctx : preserves D (check ctx).
Proof. apply kept_few. intros s0. exact (keeps_check (fun _ => True) s0 ctx). Qed.
Lemma few_update f : (forall s, (length (os_withdrawals s) <= 64)%nat -> (length (os_withdrawals (f s)) <= 64)%nat) -> preserves D (update f).
Proof. intros Hf. apply preserves_modify. intros x. apply Hf. Qed.
Hint Resolve few_applyObject few_withdrawObject few_checkpoint few_check : evpn.

Lemma keep_withdrawal_few r l : (length (keep_withdrawal r l) <= 64)%nat.
Proof. unfold keep_withdrawal. rewrite length_drop. lia. Qed.

Lemma few_ownedApply ctx route : preserves D (ownedApply ctx route).
Proof. unfold ownedApply, route_check, update_status. pres; by apply few_update. Qed.
Lemma few_ownedWithdraw ctx route : preserves D (ownedWithdraw ctx route).
Proof.
  unfold ownedWithdraw, route_check, update_status. pres; apply few_update; [done..|].
  intros s. destruct (os_receipts s !! ir_Key route); [|done]. intros _. apply keep_withdrawal_few.
Qed.
Lemma few_record_snapshot sn : preserves D (record_snapshot sn).
Proof. unfold record_snapshot. pres; by apply few_update. Qed.
End withdrawals.

(** ** Incarnations *)

(** Counters stay 64-bit words: the epoch has not wrapped, no route and no record is
    ahead of it, and at most 64 withdrawals are remembered. *)
Record bounded i s : Prop := {
  bd_epoch : is_u64 (ti_epoch i);
  bd_active key route : ti_active i !! key = Some route -> 0 <= ir_incarnation route <= ti_epoch i;
  bd_latest key n : os_latest s !! key = Some n -> 0 <= n <= ti_epoch i;
  bd_few : (length (os_withdrawals s) <= 64)%nat;
}.

(** No counter goes back. *)
Definition forward (a b : RemoteType2Importer * (ownedNetlinkState * W)) : Prop :=
  ti_epoch a.1 <= ti_epoch b.1 /\
  forall key n, os_latest a.2.1 !! key = Some n -> exists n', os_latest b.2.1 !! key = Some n' /\ n <= n'.

Lemma forward_same a b : ti_epoch b.1 = ti_epoch a.1 -> os_latest b.2.1 = os_latest a.2.1 -> forward a b.
Proof. unfold forward. intros -> ->. split; [done|]. eauto using Z.le_refl. Qed.
#[export] Instance forward_preorder : PreOrder forward.
Proof.
  split.
  - intros a. by apply forward_same.
  - intros a b c [H1 H2] [H3 H4]. split; [lia|]. intros key n (n1 & Hn1 & ?)%H2. destruct (H4 key n1 Hn1) as (n2 & ? & ?). exists n2. split; [done|lia].
Qed.

Section counters.
Context (y0 : RemoteType2Importer * (ownedNetlinkState * W)).
Let P (y : RemoteType2Importer * (ownedNetlinkState * W)) : Prop := bounded y.1 y.2.1 /\ forward y0 y.

Lemma bounded_set i x x' :
  os_latest x'.1 = os_latest x.1 -> (length (os_withdrawals x'.1) <= 64)%nat -> P (i, x) -> P (i, x').
Proof. unfold P, forward. simpl. intros E Hf [[H1 H2 H3 H4] Hl]. rewrite E. split; [|done]. split; try done. by rewrite E. Qed.

Lemma bounded_Withdraw ctx route : preserves P (on_snd (ownedWithdraw ctx route)).
Proof.
  intros [i x] HP. destruct (on_snd _ _) as [[i' x'] r] eqn:E. apply on_snd_inv in E as [Ei E]. simpl in *. subst i'.
  pose proof (preserves_run _ _ _ _ _ (few_ownedWithdraw ctx route) (bd_few _ _ (proj1 HP)) E) as Hf.
  apply ownedWithdraw_effect in E as (_ & El & _). by eapply bounded_set.
Qed.

Lemma bounded_Apply ctx route : preserves (fun y => P y /\ 0 <= ir_incarnation route <= ti_epoch y.1) (on_snd (ownedApply ctx route)).
Proof.
  intros [i x] [HP Hinc]. destruct (on_snd _ _) as [[i' x'] r] eqn:E. apply on_snd_inv in E as [Ei E]. simpl in *. subst i'.
  pose proof (preserves_run _ _ _ _ _ (few_ownedApply ctx route) (bd_few _ _ (proj1 HP)) E) as Hf. split; [|done].
  apply ownedApply_effect in E as [(_ & _ & El)|(n & _ & _ & _ & Hlt & _ & El & _)]; [by eapply bounded_set|].
  destruct HP as [[H1 H2 H3 H4] [He Hl]]. split; [split; try done|split; [done|]]; simpl in *; rewrite El.
  - intros k m [[<- <-]|[_ Hk]]%lookup_insert_Some; [done|by eapply H3].
  - intros k m (m' & Hm' & ?)%Hl. destruct (decide (ir_Key route = k)) as [<-|Hne].
    + exists (ir_incarnation route). rewrite lookup_insert_eq. rewrite Hm' in Hlt. simpl in Hlt. split; [done|lia].
    + exists m'. by rewrite lookup_insert_ne.
Qed.

Lemma bounded_withdraw_stale ctx desired key : preserves P (withdraw_stale ctx desired tt key).
Proof.
  unfold withdraw_stale. intros y HP. rewrite bind_gets. destruct (ti_active y.1 !! key) as [current|] eqn:Hc; [|done].
  destruct (must_withdraw _ _); [|done].
  assert (P ((set_importer (fun i => with_active (<[key := set_retiring current]> (ti_active i)) i) y).1)) as H1.
  { destruct HP as [[H1 H2 H3 H4] ?]. split; [split; try done|done]. simpl. intros k route [[<- <-]|[_ Hk]]%lookup_insert_Some; [exact (H2 _ _ Hc)|exact (H2 _ _ Hk)]. }
  unfold set_importer, modify in H1. unfold bind at 1, set_importer at 1, modify at 1.
  revert H1. apply (preserves_bind P); [apply bounded_Withdraw|]. intros _. apply preserves_modify.
  intros z [[H1 H2 H3 H4] ?]. split; [split; try done|done]. simpl. intros k route [_ Hk]%lookup_delete_Some. by eapply H2.
Qed.

Lemma bounded_apply_desired ctx desired key : preserves P (apply_desired ctx desired tt key).
Proof.
  unfold apply_desired. intros y HP. rewrite bind_gets.
  destruct (ti_active y.1 !! key) as [route|] eqn:Hc.
  { apply (bounded_Apply ctx route y). split; [done|]. by eapply bd_active; [apply HP|]. }
  destruct (desired !! key) as [want|]; [|done]. destruct (_ =? _) eqn:Emax; [done|]. apply Z.eqb_neq in Emax.
  unfold bind, set_importer, modify. simpl.
  refine (proj1 (bounded_Apply ctx _ _ _)). destruct HP as [[H1 H2 H3 H4] [He Hl]]. unfold is_u64 in *.
  split; [split; [split|split]|]; simpl in *; try done; unfold is_u64 in *; try lia.
  - intros k route [[<- <-]|[_ Hk]]%lookup_insert_Some; simpl; [lia|]. apply H2 in Hk. lia.
  - intros k n Hk. apply H3 in Hk. lia.
Qed.

Lemma bounded_quiet {A} (m : M (ownedNetlinkState * W) A) :
  (forall x x' r, m x = (x', r) -> os_latest x'.1 = os_latest x.1 /\ os_withdrawals x'.1 = os_withdrawals x.1) ->
  preserves P (on_snd m).
Proof.
  intros Hm [i x] HP. destruct (on_snd _ _) as [[i' x'] r] eqn:E. apply on_snd_inv in E as [Ei E]. simpl in *. subst i'.
  apply Hm in E as [El Ew]. eapply bounded_set; [exact El|rewrite Ew; by apply HP|done].
Qed.

Lemma bounded_record_snapshot sn : preserves P (on_snd (record_snapshot sn)).
Proof.
  apply bounded_quiet. intros x x' r H. unfold record_snapshot in H.
  apply bind_inv in H as [(x2 & [] & Hu & H)|(e & Hu & _)]; unfold update, modify in Hu; [|done].
  injection Hu as <-. apply checkpoint_run in H as (Hk & _). split; [by rewrite (k_latest _ _ Hk)|by rewrite (k_withdrawals _ _ Hk)].
Qed.

Lemma bounded_mark_running : preserves P (on_snd mark_running).
Proof. apply bounded_quiet. unfold mark_running, update, modify. intros x x' r [= <- _]. simpl. by destruct (bool_decide _). Qed.

Lemma bounded_Close : preserves P (on_snd backend_Close).
Proof.
  apply bounded_quiet. intros x x' r H. unfold backend_Close in H. rewrite bind_gets in H.
  destruct (os_closed _); [unfold ret in H; by simplify_eq|].
  unfold bind at 1, update, modify in H. rewrite bind_attempt in H.
  destruct (on_snd _ _) as [x1 c] eqn:Hk. apply on_snd_inv in Hk as [E1 _]. simpl in E1. cbn [fst snd] in H.
  destruct (bool_decide _); [rewrite bind_attempt in H|].
  - destruct (on_owned Close x1) as [x2 c2] eqn:Hc. cbn [fst snd] in H. unfold lift in H. injection H as <- _.
    apply on_owned_inv in Hc as [(_ & -> & _)|(j & j' & _ & _ & ->)]; by rewrite E1.
  - unfold bind, ret, lift in H. injection H as <- _. by rewrite E1.
Qed.

Lemma bounded_set_importer (f : RemoteType2Importer -> RemoteType2Importer) :
  (forall i, ti_epoch (f i) = ti_epoch i /\ ti_active (f i) = ti_active i) -> preserves P (set_importer f).
Proof.
  intros Hf. apply preserves_modify. intros [i x] [[H1 H2 H3 H4] Hl]. destruct (Hf i) as [E1 E2]. unfold P, forward in *. simpl in *.
  rewrite E1. split; [|done]. split; rewrite ?E1, ?E2; done.
Qed.
Hint Resolve bounded_record_snapshot bounded_mark_running bounded_withdraw_stale bounded_apply_desired : evpn.

Lemma bounded_round c ctx sn : preserves P (applyValidatedSnapshot c ctx sn).
Proof. unfold applyValidatedSnapshot. pres; auto with evpn; try (by apply bounded_set_importer); intros []; auto with evpn. Qed.
End counters.

Lemma bounded_reconcile st st' r :
  reconcileValidated st = (st', r) -> bounded st.1.1 st.2.1 -> bounded st'.1.1 st'.2.1 /\ forward (st.1.1, st.2) (st'.1.1, st'.2).
Proof.
  destruct st as [[i reader] [s w]]. unfold reconcileValidated. cbn [fst snd]. intros H Hb. revert H.
  destruct (Poll (reader, w)) as [[reader' w'] [sn err]]. assert (bounded (with_last sn i) s) as Hb1 by (by destruct Hb).
  assert (forward (i, (s, w)) (with_last sn i, (s, w'))) as Hf by by apply forward_same.
  destruct err as [e|]; [by intros [= <- <-]|]. destruct (negb _); [by intros [= <- <-]|].
  destruct (applyValidatedSnapshot _ _ _ _) as [[i' x'] r'] eqn:E. intros [= <- <-].
  exact (preserves_run _ _ (with_last sn i, (s, w')) _ _ (bounded_round (i, (s, w)) _ _ _) (conj Hb1 Hf) E).
Qed.

Lemma bounded_istep st st' :
  istep st st' -> bounded st.1.1 st.2.1 -> bounded st'.1.1 st'.2.1 /\ forward (st.1.1, st.2) (st'.1.1, st'.2).
Proof.
  intros [st1 st1' r H|source i reader x|[[i reader] x] x' r H|[i reader] s w w'] Hb; try by (split; [|apply forward_same]).
  - by eapply bounded_reconcile.
  - assert (on_snd backend_Close (i, x) = ((i, x'), r)) as E by (unfold on_snd; simpl in *; by rewrite H).
    exact (preserves_run _ _ (i, x) _ _ (bounded_Close (i, x)) (conj Hb (reflexivity _)) E).
Qed.
Lemma bounded_isteps st st' :
  rtc istep st st' -> bounded st.1.1 st.2.1 -> bounded st'.1.1 st'.2.1 /\ forward (st.1.1, st.2) (st'.1.1, st'.2).
Proof.
  induction 1 as [st|st st1 st2 H _ IH]; intros Hb; [by split|]. apply bounded_istep in H as [Hb1 Hf]; [|done].
  apply IH in Hb1 as [Hb2 Hf2]. split; [done|]. by etrans.
Qed.

(** A start restores the counters from the journal. *)
Lemma max_all n l m : m ∈ n :: l -> m <= foldr Z.max n l.
Proof.
  induction l as [|a l IH]; intros Hm; simpl; [apply list_elem_of_singleton in Hm; lia|].
  rewrite !elem_of_cons in *. destruct Hm as [?|[->|?]]; [|lia|]; rewrite IH by auto; lia.
Qed.
Lemma max_in n l : foldr Z.max n l ∈ n :: l.
Proof. induction l as [|a l IH]; [left|]. simpl. destruct (Z.max_spec a (foldr Z.max n l)) as [[_ ->]|[_ ->]]; set_solver. Qed.

Lemma started_bounded (reader : ReadOnlyType2Importer W) s reader' i : started reader s reader' i -> bounded i s.
Proof.
  intros [Hn Hv _ _ Hf Hw Hwd _]. apply validateReceipts_iff in Hv as (_ & Hh & _).
  unfold NewValidatedRemoteType2Importer in Hn. destruct (negb _); [done|].
  unfold restoreReceipts in Hn. case_bool_decide as Hj; cbn [negb] in Hn; last first.
  { simplify_eq. destruct Hf as (_ & _ & El); [by destruct (os_journal s); [destruct Hj; eauto|]|].
    split; simpl; [done| | |by rewrite Hwd; simpl; lia]; intros ??; [by rewrite lookup_empty|by rewrite El, lookup_empty]. }
  injection Hn as <- H.
  set (epoch := foldr Z.max _ _) in H.
  assert (is_u64 epoch /\ forall key n, os_latest s !! key = Some n -> 0 <= n <= epoch) as [He Hle].
  { split.
    - unfold epoch. pose proof (max_in 0 (map_to_list (os_latest s)).*2) as [E|Hin]%elem_of_cons; [by rewrite E|].
      simpl. apply list_elem_of_fmap in Hin as ([k n] & -> & Hk%elem_of_map_to_list). by eapply Hw.
    - intros key n Hk. split; [by apply (Hw key n Hk)|]. apply max_all. right. apply list_elem_of_fmap. exists (key, n).
      by rewrite elem_of_map_to_list. }
  eapply (rfold_invariant _ (fun _ j => ti_epoch j = epoch /\ forall key route, ti_active j !! key = Some route -> 0 <= ir_incarnation route <= epoch)) in H
    as [Ee Ha].
  - split; rewrite ?Ee; [done..|]. rewrite Hwd. simpl. lia.
  - split; [done|]. intros key route. simpl. by rewrite lookup_empty.
  - clear H. intros l key j j' _ [Ej Hj'] H. unfold restore_receipt in H. destruct (os_receipts s !! key) as [rc|] eqn:Hrc; [|by simplify_eq].
    destruct (negb _); [done|]. destruct (negb _); [done|]. simplify_eq. split; [done|]. intros k route. simpl.
    intros [[<- <-]|[_ Hk]]%lookup_insert_Some; [|by eapply Hj']. simpl.
    destruct (Hh key rc Hrc) as (Hid & _). unfold receipt_identity_ok in Hid. bools.
    destruct (os_latest s !! key) as [z|] eqn:El; simpl in *; [|lia]. apply Hle in El. lia.
Qed.

(** C26: counters of the importer stay in their machine words.  After any history of a
    process with an importer, from any journal a start accepts, the epoch is a 64-bit
    word that has not wrapped around, every active route and every recorded incarnation
    is at most the epoch, no recorded incarnation has gone back, and the backend keeps
    at most 64 withdrawals, although no call bounds the number of rounds. *)
Theorem counters_stay_bounded (reader : ReadOnlyType2Importer W) s reader' i w st st' :
  started reader s reader' i -> rtc istep ((i, reader'), (s, w)) st -> rtc istep st st' ->
  bounded st'.1.1 st'.2.1 /\ forward (st.1.1, st.2) (st'.1.1, st'.2).
Proof.
  intros Hs%started_bounded H1 H2. apply bounded_isteps in H1 as [Hb _]; [|done]. by apply bounded_isteps in H2.
Qed.
End bounds.
