(* ===== verification/RouteImporter.v ===== *)
(** * The unverified importer

    Models [src/pkg/evpn/route_importer.go]: the older loop, which takes the routes of an
    embedded GoBGP server, validates them against the configured networks and keeps a
    dataplane backend in step, and the backend that calls the [bridge] command.  The
    server, the command runner and the clock are parameters. *)

From S2P Require Import Prelude GoStd Journal Type2 Reconciler GobgpAdapter RemoteType2 Netlink.

(** ** Data *)

Record EVPNImportNetwork := {
  en_Name : string;
  en_VNI : Z;
  en_RouteTarget : string;
  en_VXLANDevice : string;
  en_BridgeDevice : string;
  en_NeighborDevice : string;
}.

Record ReceivedType2Route {BT : BgpTypes} := {
  rr_MAC : string;
  rr_IP : string;
  rr_RD : string;
  rr_Labels : list Z;
  rr_NextHop : string;
  rr_Attrs : list PathAttr;
}.

Record Type2RouteValidator := {
  tv_LocalVTEP : string;
  tv_Networks : list EVPNImportNetwork;
}.

(** [apiutil.Path], the fields the importer reads; an invalid [PeerAddress] is [None]. *)
Record ServerPath {BT : BgpTypes} := {
  sp_Withdrawal : bool;
  sp_Stale : bool;
  sp_Attrs : list PathAttr;
  sp_PeerAddress : option Addr;
}.

(** [BgpServer.ListPath] over the global EVPN table: the prefixes its callback gets, in
    order.  A prefix that is nil or not an EVPN route is [None]. *)
Class BgpServer {BT : BgpTypes} (W : Type) := ListPath : M W (list (option EVPNNLRI * list ServerPath)).

(** [exec.Command(...).CombinedOutput()] *)
Class Exec (W : Type) := CombinedOutput : list string -> W -> W * (string * option error).

(** [DataplaneBackend] *)
Record DataplaneBackend (W : Type) := {
  backend_Apply : ImportedType2Route -> M W unit;
  backend_Withdraw : ImportedType2Route -> M W unit;
}.
Arguments backend_Apply {W} _ _.
Arguments backend_Withdraw {W} _ _.

(** ** Routes of the server *)

Section routes.
Context {BT : BgpTypes} {BL : BgpLib}.

(** [netip.Addr.String] *)
Definition addr_text (a : option Addr) : string := from_option Addr_String "invalid IP"%string a.

(** One path of a MAC/IP prefix. *)
Definition received (mac : EVPNMacIP) (ip : string) (p : ServerPath) : option ReceivedType2Route :=
  if sp_Withdrawal p || sp_Stale p then None else
  let remoteVTEP := TrimSpace (addr_text (sp_PeerAddress p)) in
  let remoteVTEP := if bool_decide (remoteVTEP ∈ [""; "<nil>"; "invalid IP"]%string) || bool_decide (ParseIP remoteVTEP = None)
                    then TrimSpace (pathNextHop (sp_Attrs p)) else remoteVTEP in
  Some {| rr_MAC := ToLower (TrimSpace (HardwareAddr_String (m_MAC mac))); rr_IP := ip;
          rr_RD := TrimSpace (from_option RD_String "<nil>"%string (m_RD mac)); rr_Labels := m_Labels mac;
          rr_NextHop := remoteVTEP; rr_Attrs := sp_Attrs p |}.

(** The callback of [GoBGPServerSnapshotSource.Snapshot]. *)
Definition received_prefix (entry : option EVPNNLRI * list ServerPath) : list ReceivedType2Route :=
  match entry.1 with
  | None => []
  | Some nlri =>
      if negb (RouteType nlri =? EVPN_ROUTE_TYPE_MAC_IP_ADVERTISEMENT) then [] else
      match RouteTypeData nlri with
      | None => []
      | Some mac =>
          let ip := TrimSpace (addr_text (m_IP mac)) in
          omap (received mac (if bool_decide (ip = "<nil>"%string) then ""%string else ip)) entry.2
      end
  end.
Definition server_Snapshot {W} {BS : BgpServer W} : M W (list ReceivedType2Route) :=
  let! entries := ListPath in ret (entries ≫= received_prefix).

(** [pathHasRouteTarget] *)
Fixpoint comms_contain (want : string) (cs : list ExtComm) : result bool :=
  match cs with
  | [] => Ok false
  | c :: cs => let? got := EC_Serialize c in if bool_decide (got = want) then Ok true else comms_contain want cs
  end.
Fixpoint attrs_contain (want : string) (attrs : list PathAttr) : result bool :=
  match attrs with
  | [] => Ok false
  | AttrExtComm cs :: attrs =>
      let? found := comms_contain want cs in if found : bool then Ok true else attrs_contain want attrs
  | _ :: attrs => attrs_contain want attrs
  end.
Definition pathHasRouteTarget (attrs : list PathAttr) (wantRT : string) : result bool :=
  match ParseRouteTarget wantRT with
  | None => Err (Errorf "invalid route target")
  | Some want => let? wantBytes := EC_Serialize (ECRouteTarget want) in attrs_contain wantBytes attrs
  end.

(** [Type2RouteValidator.Validate]: the networks in order, then the whole check. *)
Definition imported (network : EVPNImportNetwork) (route : ReceivedType2Route) : ImportedType2Route :=
  {| ir_Key := Join [en_Name network; itoa (en_VNI network); ToLower (rr_MAC route); rr_IP route] "/";
     ir_NetworkName := en_Name network; ir_VNI := en_VNI network; ir_MAC := ToLower (rr_MAC route);
     ir_IP := TrimSpace (rr_IP route); ir_RemoteVTEP := TrimSpace (rr_NextHop route);
     ir_VXLANDevice := en_VXLANDevice network; ir_BridgeDevice := en_BridgeDevice network;
     ir_NeighborDevice := en_NeighborDevice network; ir_incarnation := 0; ir_generation := 0; ir_validated := None;
     ir_retiring := false |}.
Fixpoint import_into (networks : list EVPNImportNetwork) (label : Z) (route : ReceivedType2Route)
    : result (option ImportedType2Route) :=
  match networks with
  | [] => Ok None
  | network :: networks =>
      if negb (label =? en_VNI network) then import_into networks label route else
      let? matchRT := pathHasRouteTarget (rr_Attrs route) (en_RouteTarget network) in
      if matchRT : bool then Ok (Some (imported network route)) else import_into networks label route
  end.
Definition validator_Validate (v : Type2RouteValidator) (route : ReceivedType2Route) : result (option ImportedType2Route) :=
  if blank (rr_MAC route) || bool_decide (ParseMAC (rr_MAC route) = None) then Ok None else
  match rr_Labels route with
  | [] => Ok None
  | label :: _ =>
      if (label =? 0) || bool_decide (rr_IP route = ""%string) then Ok None else
      match ParseIP (rr_IP route) with
      | Some (Addr4 _ _ _ _) =>
          if bool_decide (ParseIP (rr_NextHop route) = None)
             || negb (blank (tv_LocalVTEP v)) && bool_decide (TrimSpace (rr_NextHop route) = TrimSpace (tv_LocalVTEP v))
          then Ok None else import_into (tv_Networks v) label route
      | _ => Ok None
      end
  end.
End routes.

(** ** The bridge commands *)

Section commands.
Context {W : Type} {EX : Exec W}.

(** A run of [sudo -n bridge args...] whose output may excuse its failure. *)
Definition bridge (args : list string) (excused : string -> bool) : M W unit :=
  fun w => let '(w, (out, err)) := CombinedOutput ("sudo"%string :: "-n"%string :: "bridge"%string :: args) w in
    (w, match err with
        | None => Ok tt
        | Some e => if excused (TrimSpace out) then Ok tt else Err (Wrapped "bridge failed" e)
        end).
Definition no_such (msg : string) : bool := Contains msg "No such file" || Contains msg "Cannot find".

(** [setRemoteMacFdb] *)
Definition setRemoteMacFdb (vxlanName macAddr remoteVTEP : string) (withdraw : bool) : M W unit :=
  bridge ["fdb"; if withdraw then "del" else "replace"; macAddr; "dev"; vxlanName; "dst"; remoteVTEP; "self"; "permanent"]%string
         (fun msg => withdraw && no_such msg).

Definition flood_mac : string := "00:00:00:00:00:00".

(** The arguments [removeFloodEntry] keeps of a listed entry, after the MAC. *)
Fixpoint flood_args (fields : list string) : list string :=
  match fields with
  | [] => []
  | f :: rest =>
      if bool_decide (f ∈ ["dst"; "vlan"; "via"]%string) then
        match rest with
        | v :: rest => f :: v :: flood_args rest
        | [] => []
        end
      else if bool_decide (f ∈ ["self"; "permanent"; "master"; "router"; "extern_learn"; "static"]%string)
      then f :: flood_args rest else flood_args rest
  end.

(** [removeFloodEntry] *)
Definition remove_line (vxlanName remoteVTEP : string) (_ : unit) (line : string) : M W unit :=
  let trimmed := TrimSpace line in
  if bool_decide (trimmed = ""%string) || negb (HasPrefix trimmed flood_mac)
     || negb (Contains trimmed ("dst " +:+ remoteVTEP)) then ret tt
  else bridge (["fdb"; "del"; flood_mac; "dev"; vxlanName]%string ++ flood_args (tail (Fields trimmed))) no_such.
Definition removeFloodEntry (vxlanName remoteVTEP : string) : M W unit :=
  fun w =>
    let '(w, (out, err)) := CombinedOutput ["sudo"; "-n"; "bridge"; "fdb"; "show"; "dev"; vxlanName]%string w in
    match err with
    | Some e => (w, Err (Wrapped "bridge fdb show failed" e))
    | None => mfold (remove_line vxlanName remoteVTEP) tt (str <$> split (byte 10) (chars out)) w
    end.

(** [setFloodFdb] *)
Definition setFloodFdb (vxlanName remoteVTEP : string) (withdraw : bool) : M W unit :=
  if withdraw then removeFloodEntry vxlanName remoteVTEP
  else bridge ["fdb"; "append"; flood_mac; "dev"; vxlanName; "dst"; remoteVTEP; "self"; "permanent"]%string
              (fun msg => Contains msg "File exists").

(** [setIPNeighbor] *)
Definition setIPNeighbor (device ipAddr mac : string) (withdraw : bool) : M W unit :=
  if bool_decide (ParseIP ipAddr = None) then fail (Errorf "invalid neighbor ip")
  else if bool_decide (ParseMAC mac = None) then fail (Errorf "invalid neighbor mac") else
  fun w =>
    let '(w, (out, err)) := CombinedOutput ["sudo"; "-n"; "ip"; "neigh"; if withdraw then "del" else "replace"; ipAddr;
                                            "lladdr"; mac; "dev"; device; "nud"; "permanent"]%string w in
    (w, match err with
        | None => Ok tt
        | Some e => if withdraw && no_such (TrimSpace out) then Ok tt else Err (Wrapped "ip neigh failed" e)
        end).

(** [LinuxVXLANBackend] *)
Definition LinuxVXLANBackend : DataplaneBackend W := {|
  backend_Apply route :=
    do! setRemoteMacFdb (ir_VXLANDevice route) (ir_MAC route) (ir_RemoteVTEP route) false in
    setFloodFdb (ir_VXLANDevice route) (ir_RemoteVTEP route) false;
  backend_Withdraw route :=
    do! setRemoteMacFdb (ir_VXLANDevice route) (ir_MAC route) (ir_RemoteVTEP route) true in
    setFloodFdb (ir_VXLANDevice route) (ir_RemoteVTEP route) true;
|}.
End commands.

(** ** The loop *)

Section loop.
Context {BT : BgpTypes} {BL : BgpLib} {W : Type} {MR : MapRange}.
Context (source : M W (list ReceivedType2Route)) (validator : Type2RouteValidator) (backend : DataplaneBackend W).
Notation active := (gmap string ImportedType2Route).
Notation LM := (M (active * W)).

Definition desired_routes (received : list ReceivedType2Route) : result active :=
  rfold (fun desired route =>
           let? parsed := validator_Validate validator route in
           Ok (match parsed with Some r => <[ir_Key r := r]> desired | None => desired end)) ∅ received.

Definition set_active (f : active -> active) : LM unit := modify (fun s => (f s.1, s.2)).

Definition same_tunnel (a b : ImportedType2Route) : bool :=
  bool_decide (ir_RemoteVTEP a = ir_RemoteVTEP b) && bool_decide (ir_MAC a = ir_MAC b) && bool_decide (ir_IP a = ir_IP b).

(** The two loops of [ReconcileOnce]. *)
Definition retire_step (desired : active) (_ : unit) (kc : string * ImportedType2Route) : LM unit :=
  let '(key, current) := kc in
  match desired !! key with
  | None =>
      do! on_snd (backend_Withdraw backend current) in
      set_active (delete key)
  | Some want =>
      if same_tunnel current want then ret tt else
      do! on_snd (backend_Withdraw backend current) in
      do! on_snd (backend_Apply backend want) in
      set_active <[key := want]>
  end.
Definition admit_step (_ : unit) (kw : string * ImportedType2Route) : LM unit :=
  let '(key, want) := kw in
  let! a := gets fst in
  if bool_decide (is_Some (a !! key)) then ret tt else
  do! on_snd (backend_Apply backend want) in
  set_active <[key := want]>.

(** [RemoteType2Importer.ReconcileOnce] without a verified reader. *)
Definition ReconcileOnce : LM unit :=
  let! received := on_snd source in
  let! desired := lift (desired_routes received) in
  let! a := gets fst in
  do! mfold (retire_step desired) tt (range a) in
  mfold admit_step tt (range desired).

(** The clock: a [select] between the context and a timer reports whether the context
    was chosen, and then its error. *)
Context (wait : Z -> W -> W * option error).

Definition maxRetries : Z := 3.
Definition pollInterval : Z := 500.

(** [RemoteType2Importer.Run], with at most [fuel] rounds; [None] is still running. *)
Fixpoint Run_from (fuel : nat) (failures : Z) (s : active * W) : option ((active * W) * result unit) :=
  match fuel with
  | O => None
  | S fuel =>
      let '(s, r) := ReconcileOnce s in
      let tick failures (s : active * W) :=
        let '(w, done) := wait pollInterval s.2 in
        if bool_decide (is_Some done) then Some ((s.1, w), Ok tt) else Run_from fuel failures (s.1, w) in
      match r with
      | Ok _ => tick 0 s
      | Err e =>
          let failures := failures + 1 in
          if maxRetries <=? failures then Some (s, Err e) else
          let '(w, done) := wait (failures * 300) s.2 in
          match done with
          | Some e => Some ((s.1, w), Err e)
          | None => tick failures (s.1, w)
          end
      end
  end.
Definition Run (fuel : nat) : active * W -> option ((active * W) * result unit) := Run_from fuel 0.

(** ** What a round does *)

(** The routes a round aims at: the wanted ones, each as it is programmed already if its
    tunnel is the same. *)
Definition target (current desired : active) : active :=
  merge (fun c d => match c, d with
                    | Some c, Some d => Some (if same_tunnel c d then c else d)
                    | None, Some d => Some d
                    | _, None => None
                    end) current desired.

(** What the first loop leaves at a key. *)
Definition retired (desired : active) (c : ImportedType2Route) (key : string) : option ImportedType2Route :=
  d ← desired !! key; Some (if same_tunnel c d then c else d).

Lemma retire_step_run desired key c s s' :
  s.1 !! key = Some c -> retire_step desired tt (key, c) s = (s', Ok tt) ->
  s'.1 !! key = retired desired c key /\ forall k, k <> key -> s'.1 !! k = s.1 !! k.
Proof.
  intros Hc H. unfold retire_step, retired in *. destruct (desired !! key) as [d|]; simpl.
  - destruct (same_tunnel c d); [unfold ret in H; by simplify_eq|].
    apply bind_ok_inv in H as (s1 & [] & [E1 _]%on_snd_inv & H). apply bind_ok_inv in H as (s2 & [] & [E2 _]%on_snd_inv & H).
    unfold set_active, modify in H. simplify_eq. simpl. rewrite E2, E1. split; [by rewrite lookup_insert_eq|].
    intros k Hne. by rewrite lookup_insert_ne.
  - apply bind_ok_inv in H as (s1 & [] & [E1 _]%on_snd_inv & H).
    unfold set_active, modify in H. simplify_eq. simpl. rewrite E1. split; [by rewrite lookup_delete_eq|].
    intros k Hne. by rewrite lookup_delete_ne.
Qed.

Lemma retire_loop desired l s s' :
  NoDup l.*1 -> (forall k c, (k, c) ∈ l -> s.1 !! k = Some c) -> mfold (retire_step desired) tt l s = (s', Ok tt) ->
  (forall k c, (k, c) ∈ l -> s'.1 !! k = retired desired c k) /\ (forall k, k ∉ l.*1 -> s'.1 !! k = s.1 !! k).
Proof.
  revert s. induction l as [|[key c] l IH]; intros s Hnd Hl H; simpl in H.
  - unfold ret in H. simplify_eq. split; [intros k c ?%elem_of_nil; done|done].
  - simpl in Hnd. apply NoDup_cons in Hnd as [Hk Hnd]. apply bind_ok_inv in H as (s1 & [] & Hs & H).
    apply retire_step_run in Hs as [Hs Hoth]; [|apply Hl; left].
    apply IH in H as [H1 H2]; [|done|].
    + split.
      * intros k c' [[= -> ->]|Hin]%elem_of_cons; [by rewrite H2|by apply H1].
      * intros k. simpl. rewrite not_elem_of_cons. intros [Hne Hnin]. by rewrite H2, Hoth.
    + intros k c' Hin. rewrite Hoth; [apply Hl; by right|]. intros ->. apply Hk, list_elem_of_fmap. by exists (key, c').
Qed.

Lemma admit_loop l s s' :
  NoDup l.*1 -> mfold admit_step tt l s = (s', Ok tt) ->
  (forall k d, (k, d) ∈ l -> s'.1 !! k = Some (default d (s.1 !! k))) /\ (forall k, k ∉ l.*1 -> s'.1 !! k = s.1 !! k).
Proof.
  revert s. induction l as [|[key d] l IH]; intros s Hnd H; simpl in H.
  - unfold ret in H. simplify_eq. split; [intros k c ?%elem_of_nil; done|done].
  - simpl in Hnd. apply NoDup_cons in Hnd as [Hk Hnd]. apply bind_ok_inv in H as (s1 & [] & Hs & H).
    assert (s1.1 !! key = Some (default d (s.1 !! key)) /\ forall k, k <> key -> s1.1 !! k = s.1 !! k) as [Hs1 Hoth].
    { unfold admit_step in Hs. rewrite bind_gets in Hs. case_bool_decide as Hkey.
      - unfold ret in Hs. simplify_eq. destruct Hkey as [c Hc]. by rewrite Hc.
      - apply bind_ok_inv in Hs as (s2 & [] & [E _]%on_snd_inv & Hs). unfold set_active, modify in Hs. simplify_eq. simpl. rewrite E.
        split; [|intros k Hne; by rewrite lookup_insert_ne]. rewrite lookup_insert_eq. destruct (s.1 !! key); [by destruct Hkey|done]. }
    apply IH in H as [H1 H2]; [|done]. split.
    + intros k d' [[= -> ->]|Hin]%elem_of_cons; [by rewrite H2|]. rewrite (H1 k d' Hin), Hoth; [done|].
      intros ->. apply Hk, list_elem_of_fmap. by exists (key, d').
    + intros k. simpl. rewrite not_elem_of_cons. intros [Hne Hnin]. by rewrite H2, Hoth.
Qed.

(** A round of the unverified importer does not depend on the order in which Go
    iterates over its maps.  Whatever that order is, when a round returns without an
    error the active routes are those of [target]: the routes wanted by the validated
    RIB, and nothing else, where a route that was active with the same tunnel stays as
    it is. *)
Theorem ReconcileOnce_order_free s s' :
  ReconcileOnce s = (s', Ok tt) ->
  exists w received desired, source s.2 = (w, Ok received) /\ desired_routes received = Ok desired /\ s'.1 = target s.1 desired.
Proof.
  intros H. unfold ReconcileOnce in H. apply bind_ok_inv in H as (s1 & received & [E1 Hs]%on_snd_inv & H).
  rewrite bind_lift in H. destruct (desired_routes received) as [desired|] eqn:Hd; [|done]. rewrite bind_gets in H.
  apply bind_ok_inv in H as (s2 & [] & Hr & H). exists s1.2, received, desired. split_and!; [done..|].
  apply retire_loop in Hr as [Hr Hr']; [|apply range_NoDup|by intros k c ?%range_lookup].
  apply admit_loop in H as [Ha Ha']; [|apply range_NoDup]. rewrite <-E1. apply map_eq. intros k. unfold target. rewrite lookup_merge.
  assert (s2.1 !! k = c ← s1.1 !! k; retired desired c k) as Es2.
  { destruct (s1.1 !! k) as [c|] eqn:Hc; [by apply Hr, range_lookup|]. rewrite Hr', Hc; [done|]. rewrite range_dom, Hc. by intros []. }
  destruct (desired !! k) as [d|] eqn:Hdk.
  - rewrite (Ha k d) by by apply range_lookup. rewrite Es2. unfold retired. rewrite Hdk. by destruct (s1.1 !! k).
  - rewrite Ha' by (rewrite range_dom, Hdk; by intros []). rewrite Es2. unfold retired. rewrite Hdk. by destruct (s1.1 !! k).
Qed.

(** The loop gives up.  If no round succeeds any more, [Run] returns after at most
    [maxRetries] rounds, whatever the clock and the context do. *)
Theorem Run_gives_up s fuel :
  (forall s, is_ok (ReconcileOnce s).2 = false) -> (Z.to_nat maxRetries <= fuel)%nat -> is_Some (Run fuel s).
Proof.
  intros Hf. unfold Run. assert (forall n fuel failures s, 0 <= failures -> maxRetries - failures <= Z.of_nat n -> (n <= fuel)%nat -> (0 < n)%nat ->
    is_Some (Run_from fuel failures s)) as H.
  { clear s fuel. induction n as [|n IH]; intros fuel failures s H0 Hn Hfuel Hpos; [lia|]. destruct fuel as [|fuel]; [lia|].
    simpl. specialize (Hf s). destruct (ReconcileOnce s) as [s1 [u|e]]; [done|]. destruct (maxRetries <=? failures + 1) eqn:E; [by eexists|].
    apply Z.leb_gt in E. destruct (wait _ s1.2) as [w [e'|]]; [by eexists|]. simpl. destruct (wait _ w) as [w' dn].
    case_bool_decide; [by eexists|]. apply IH; lia. }
  intros Hfuel. apply (H (Z.to_nat maxRetries)); unfold maxRetries in *; lia.
Qed.
End loop.
