(* ===== verification/Model1.v ===== *)
(** * The OVSDB-programmed integration: the route consumer

    Models the data and the handler of [src/pkg/evpn/ovsdb_programmer.go] and the names of
    [src/pkg/evpn/ovsdb_provider_bridge.go]: [Model1Type2Handler] turns an authoritative
    snapshot of remote endpoints into static tunnels, through the interface
    [Model1TunnelProgrammer].  A mutex makes [ReconcileSnapshot] one step. *)

From S2P Require Import Prelude GoStd Journal Type2 Reconciler GobgpAdapter RemoteType2.

(** ** Data *)

(** [Model1Network] and [Model1Config] *)
Record Model1Network := {
  mn_NetworkID : string; mn_LogicalSwitch : string; mn_PhysicalNetwork : string; mn_ProviderBridge : string; mn_VNI : Z;
}.
Record Model1Config := { mc_Networks : list Model1Network; mc_UDPPort : Z; mc_ExclusiveWriter : bool }.

(** [Model1TunnelKey] and [Model1Tunnel] *)
Record Model1TunnelKey := { tk_NetworkID : string; tk_LogicalSwitch : string; tk_VNI : Z; tk_RemoteVTEP : string }.
Record Model1Tunnel := {
  mt_Key : Model1TunnelKey; mt_Name : string; mt_Addresses : list string; mt_UDPPort : Z; mt_Bridge : string;
}.
#[export] Instance Model1TunnelKey_eq_dec : EqDecision Model1TunnelKey.
Proof. solve_decision. Defined.
#[export] Instance Model1Tunnel_eq_dec : EqDecision Model1Tunnel.
Proof. solve_decision. Defined.
Definition with_addresses (l : list string) (t : Model1Tunnel) : Model1Tunnel :=
  {| mt_Key := mt_Key t; mt_Name := mt_Name t; mt_Addresses := l; mt_UDPPort := mt_UDPPort t; mt_Bridge := mt_Bridge t |}.

(** [validModel1BridgeMapping] *)
Definition validModel1BridgeMapping (physicalNetwork bridge : string) : bool :=
  if blank physicalNetwork || blank bridge then false
  else if (15 <? Z.of_nat (length (chars bridge))) || bool_decide (bridge ∈ ["."; ".."; "br-int"]%string) then false
  else forallb (fun value => negb (ContainsAny value ":,") && negb (ContainsAny value (str [byte 32; byte 9; byte 13; byte 10])))
               [physicalNetwork; bridge].

Definition network_ok (n : Model1Network) : bool :=
  negb (blank (mn_NetworkID n)) && negb (blank (mn_LogicalSwitch n))
  && validModel1BridgeMapping (mn_PhysicalNetwork n) (mn_ProviderBridge n) && negb (mn_VNI n =? 0) && (mn_VNI n <=? max_vni).
(** [validateModel1Network] *)
Definition validateModel1Network (n : Model1Network) : result unit :=
  if network_ok n then Ok tt else Err (Errorf "invalid OVSDB-Programmed provider network identity").

(** One network of [Model1Config.Validate], with the identities seen before. *)
Definition config_step (seen : list Model1Network) (n : Model1Network) : result (list Model1Network) :=
  if negb (network_ok n)
     || existsb (fun m => bool_decide (mn_NetworkID m = mn_NetworkID n) || bool_decide (mn_LogicalSwitch m = mn_LogicalSwitch n)
                          || (mn_VNI m =? mn_VNI n) || bool_decide (mn_PhysicalNetwork m = mn_PhysicalNetwork n)) seen
  then Err (Errorf "OVSDB-Programmed network, logical switch, physnet, provider bridge, and VNI mapping must be valid and unique")
  else Ok (n :: seen).
(** [Model1Config.Validate] *)
Definition Model1Config_Validate (c : Model1Config) : result unit :=
  if negb (mc_ExclusiveWriter c) then Err (Errorf "OVSDB-Programmed integration requires explicit exclusive-writer ownership")
  else if mc_UDPPort c =? 0 then Err (Errorf "OVSDB-Programmed integration requires an explicit VXLAN UDP port")
  else if negb (bool_decide (length (mc_Networks c) = 1%nat))
  then Err (Errorf "OVSDB-Programmed provider-bridge integration requires exactly one network mapping")
  else let? _ := rfold config_step [] (mc_Networks c) in Ok tt.

(** ** Names *)

Section names.
Context {SH : Sha256}.

Definition nul : string := str [byte 0].
(** [model1TunnelID] and [model1TunnelName] *)
Definition model1TunnelID (key : Model1TunnelKey) : string :=
  sha256_hex (tk_NetworkID key +:+ nul +:+ tk_LogicalSwitch key +:+ nul +:+ itoa (tk_VNI key) +:+ nul +:+ tk_RemoteVTEP key)%string.
Definition prefix_of (n : nat) (s : string) : string := str (take n (chars s)).
Definition model1TunnelName (key : Model1TunnelKey) : string := ("m1-" +:+ prefix_of 12 (model1TunnelID key))%string.
(** [model1NetworkPortName] *)
Definition model1NetworkPortName (n : Model1Network) : string :=
  ("m1ln-" +:+ prefix_of 10 (model1TunnelID {| tk_NetworkID := mn_NetworkID n; tk_LogicalSwitch := mn_LogicalSwitch n; tk_VNI := mn_VNI n;
                                               tk_RemoteVTEP := "" |}))%string.
(** [model1BridgeMappingOwnerKey] *)
Definition model1BridgeMappingOwnerKey (physicalNetwork : string) : string :=
  ("evpn4ovn-model1-bridge-map-"
   +:+ prefix_of 12 (model1TunnelID {| tk_NetworkID := physicalNetwork; tk_LogicalSwitch := "provider"; tk_VNI := 1; tk_RemoteVTEP := "" |}))%string.
End names.

(** [compactStrings] *)
Fixpoint compact_from (last : string) (l : list string) : list string :=
  match l with
  | [] => []
  | x :: l => if bool_decide (x = last) then compact_from last l else x :: compact_from x l
  end.
Definition compactStrings (l : list string) : list string := match l with [] => [] | x :: l => x :: compact_from x l end.

(** ** The handler *)

(** [Model1TunnelProgrammer] *)
Record Model1TunnelProgrammer (W : Type) := {
  tp_DeleteProviderBridge : Model1Network -> M W unit;
  tp_EnsureNetwork : Model1Network -> M W unit;
  tp_DeleteNetwork : Model1Network -> M W unit;
  tp_EnsureTunnel : Model1Tunnel -> M W unit;
  tp_DeleteTunnel : Model1Tunnel -> M W unit;
}.
Arguments tp_DeleteProviderBridge {W} _ _.
Arguments tp_EnsureNetwork {W} _ _.
Arguments tp_DeleteNetwork {W} _ _.
Arguments tp_EnsureTunnel {W} _ _.
Arguments tp_DeleteTunnel {W} _ _.

(** [Model1Type2Handler] *)
Record Model1Type2Handler {AT : ApiTypes} (W : Type) := {
  mh_reader : ReadOnlyType2Importer W; mh_config : Model1Config; mh_active : gmap string Model1Tunnel; mh_generation : Z; mh_digest : string;
}.
Arguments mh_reader {AT W} _.
Arguments mh_config {AT W} _.
Arguments mh_active {AT W} _.
Arguments mh_generation {AT W} _.
Arguments mh_digest {AT W} _.

Section handler.
Context {AT : ApiTypes} {BT : BgpTypes} {BL : BgpLib} {AU : ApiUtil} {RL : RemoteLib}.
Context {SH : Sha256} {JP : Json (string * RemotePathIdentity)} {JL : Json (list string)} {JD : Json (list DesiredRemoteEndpoint)}.
Context {W : Type} {CX : Ctx W} {JS : Json RemoteImportSnapshot} (programmer : Model1TunnelProgrammer W).
Notation handler := (Model1Type2Handler W).
Notation HM := (M (handler * W)).
Implicit Types (h : handler).

Definition with_reader i h : handler :=
  {| mh_reader := i; mh_config := mh_config h; mh_active := mh_active h; mh_generation := mh_generation h; mh_digest := mh_digest h |}.
Definition with_active f h : handler :=
  {| mh_reader := mh_reader h; mh_config := mh_config h; mh_active := f (mh_active h); mh_generation := mh_generation h; mh_digest := mh_digest h |}.
Definition with_generation g d h : handler :=
  {| mh_reader := mh_reader h; mh_config := mh_config h; mh_active := mh_active h; mh_generation := g; mh_digest := d |}.

(** [NewModel1Type2Handler] *)
Definition imported (c : RemoteImportConfig) (n : Model1Network) : bool :=
  existsb (fun i => bool_decide (rn_NetworkID i = mn_NetworkID n) && (rn_VNI i =? mn_VNI n)) (ri_Networks c).
Definition NewModel1Type2Handler (reader : option (ReadOnlyType2Importer W)) (config : Model1Config) : result handler :=
  match reader with
  | None => Err (Errorf "validated GoBGP reader and OVSDB-Programmed tunnel programmer are required")
  | Some reader =>
      let? _ := Model1Config_Validate config in
      let? _ := map_err (Wrapped "invalid shared remote import policy") (RemoteImportConfig_Validate (im_config reader)) in
      if negb (forallb (imported (im_config reader)) (mc_Networks config))
      then Err (Errorf "OVSDB-Programmed network is absent from the validated import policy")
      else Ok {| mh_reader := reader; mh_config := config; mh_active := ∅; mh_generation := 0; mh_digest := "" |}
  end.

(** What the endpoint loop of [ReconcileSnapshot] collects. *)
Record desired_acc := {
  da_desired : gmap string Model1Tunnel; da_macs : gmap string DesiredRemoteEndpoint; da_ips : gmap string DesiredRemoteEndpoint;
}.

(** The evidence of one route. *)
Definition route_agrees (c : RemoteImportConfig) (ep : DesiredRemoteEndpoint) (route : ValidatedRemoteRoute) : bool :=
  match ValidateRoute c (v_Route route) with
  | Err _ => false
  | Ok validated =>
      bool_decide (v_NetworkID validated = de_NetworkID ep) && (v_VNI validated =? de_VNI ep) && bool_decide (v_NetworkID route = de_NetworkID ep)
      && (v_VNI route =? de_VNI ep) && bool_decide (d_MAC (v_Route route) = de_MAC ep)
      && (bool_decide (d_IP (v_Route route) = de_IP ep) || bool_decide (d_IP (v_Route route) = ""%string))
      && bool_decide (d_NextHop (v_Route route) = de_RemoteVTEP ep) && negb (bool_decide (rp_Key (d_Source (v_Route route)) = ""%string))
  end.
Definition ip_confirmed (ep : DesiredRemoteEndpoint) : bool :=
  bool_decide (de_IP ep = ""%string) || existsb (fun route => bool_decide (d_IP (v_Route route) = de_IP ep)) (de_Routes ep).

(** [networks[network.NetworkID] = network] in a loop: the last one stays. *)
Definition network_map (c : Model1Config) : gmap string Model1Network :=
  foldl (fun m n => <[mn_NetworkID n := n]> m) ∅ (mc_Networks c).
Definition tunnel_key (n : Model1Network) (ep : DesiredRemoteEndpoint) : Model1TunnelKey :=
  {| tk_NetworkID := de_NetworkID ep; tk_LogicalSwitch := mn_LogicalSwitch n; tk_VNI := de_VNI ep; tk_RemoteVTEP := de_RemoteVTEP ep |}.
Definition address_of (ep : DesiredRemoteEndpoint) : string :=
  if bool_decide (de_IP ep = ""%string) then de_MAC ep else (de_MAC ep +:+ " " +:+ de_IP ep)%string.
Definition slot (network value : string) : string := (network +:+ "/" +:+ value)%string.

(** The tunnel of an endpoint, with its address appended. *)
Definition add_address (c : Model1Config) (n : Model1Network) (ep : DesiredRemoteEndpoint) (desired : gmap string Model1Tunnel)
    : result (gmap string Model1Tunnel) :=
  let key := tunnel_key n ep in
  let id := model1TunnelID key in
  let tunnel := default {| mt_Key := key; mt_Name := model1TunnelName key; mt_Addresses := []; mt_UDPPort := mc_UDPPort c;
                           mt_Bridge := mn_ProviderBridge n |} (desired !! id) in
  if negb (bool_decide (mt_Key tunnel = key)) then Err (Errorf "OVSDB-Programmed tunnel identifier collision")
  else Ok (<[id := with_addresses (mt_Addresses tunnel ++ [address_of ep]) tunnel]> desired).

(** One endpoint of the loop. *)
Definition endpoint_step (policy : RemoteImportConfig) (c : Model1Config) (acc : desired_acc) (ep : DesiredRemoteEndpoint) : result desired_acc :=
  if negb (de_Validated ep) || bool_decide (de_Routes ep = []) || negb (bool_decide (de_Key ep = remoteHash [de_NetworkID ep; de_MAC ep; de_IP ep]))
  then Err (Errorf "invalid validated OVSDB-Programmed endpoint identity") else
  match network_map c !! de_NetworkID ep with
  | None => Err (Errorf "endpoint has no matching OVSDB-Programmed network/VNI mapping")
  | Some n =>
      if negb (mn_VNI n =? de_VNI ep) || negb (unicastIPv4 (de_RemoteVTEP ep))
      then Err (Errorf "endpoint has no matching OVSDB-Programmed network/VNI mapping")
      else if bool_decide (ParseMAC (de_MAC ep) = None) then Err (Errorf "endpoint has invalid MAC")
      else if negb (forallb (route_agrees policy ep) (de_Routes ep)) then Err (Errorf "endpoint differs from validated Type-2 route evidence")
      else if negb (ip_confirmed ep) then Err (Errorf "endpoint IP lacks matching Type-2 source evidence") else
      let macSlot := slot (de_NetworkID ep) (de_MAC ep) in
      if match da_macs acc !! macSlot with
         | Some p => negb (bool_decide (de_IP p = de_IP ep)) || negb (bool_decide (de_RemoteVTEP p = de_RemoteVTEP ep))
         | None => false end
      then Err (Errorf "conflicting OVSDB-Programmed endpoint for MAC") else
      let ipSlot := slot (de_NetworkID ep) (de_IP ep) in
      let has_ip := negb (bool_decide (de_IP ep = ""%string)) in
      if has_ip && match da_ips acc !! ipSlot with
                   | Some p => negb (bool_decide (de_MAC p = de_MAC ep)) || negb (bool_decide (de_RemoteVTEP p = de_RemoteVTEP ep))
                   | None => false end
      then Err (Errorf "conflicting OVSDB-Programmed endpoint for IP") else
      let? desired := add_address c n ep (da_desired acc) in
      Ok {| da_desired := desired; da_macs := <[macSlot := ep]> (da_macs acc);
            da_ips := if has_ip then <[ipSlot := ep]> (da_ips acc) else da_ips acc |}
  end.

Definition finish (t : Model1Tunnel) : Model1Tunnel := with_addresses (compactStrings (sort_Strings (mt_Addresses t))) t.
(** The tunnels of a snapshot. *)
Definition desired_tunnels (policy : RemoteImportConfig) (c : Model1Config) (eps : list DesiredRemoteEndpoint) : result (gmap string Model1Tunnel) :=
  let? acc := rfold (endpoint_step policy c) {| da_desired := ∅; da_macs := ∅; da_ips := ∅ |} eps in
  let desired := finish <$> da_desired acc in
  let vteps : gset string := list_to_set ((fun kv => tk_RemoteVTEP (mt_Key kv.2)) <$> map_to_list desired) in
  if (1 <? Z.of_nat (size vteps)) then Err (Errorf "OVSDB-Programmed provider-bridge integration supports one remote VTEP per network")
  else Ok desired.

(** The part of [ReconcileSnapshot] before the first effect. *)
Definition plan h (snapshot : RemoteImportSnapshot) : result (string * gmap string Model1Tunnel) :=
  if negb (is_Authoritative snapshot) || (is_Generation snapshot =? 0)
  then Err (Errorf "non-authoritative or uninitialized snapshot cannot mutate OVSDB-Programmed state") else
  let digest := remoteHash (is_Endpoints snapshot) in
  if (is_Generation snapshot <? mh_generation h)
     || (is_Generation snapshot =? mh_generation h) && negb (bool_decide (mh_digest h = ""%string)) && negb (bool_decide (digest = mh_digest h))
  then Err (Errorf "stale or conflicting OVSDB-Programmed snapshot generation") else
  let? desired := desired_tunnels (im_config (mh_reader h)) (mh_config h) (is_Endpoints snapshot) in
  Ok (digest, desired).

Definition get_h : HM handler := gets fst.
Definition set_h (f : handler -> handler) : HM unit := modify (fun s => (f s.1, s.2)).

(** Withdraw the tunnels that are not wanted. *)
Definition withdraw_tunnel (desired : gmap string Model1Tunnel) (_ : unit) (id : string) : HM unit :=
  if bool_decide (is_Some (desired !! id)) then ret tt else
  let! h := get_h in
  match mh_active h !! id with
  | None => ret tt
  | Some t => do! wrap (Wrapped "delete OVSDB-Programmed tunnel") (on_snd (tp_DeleteTunnel programmer t)) in set_h (with_active (delete id))
  end.
Definition ensure_tunnel (desired : gmap string Model1Tunnel) (_ : unit) (id : string) : HM unit :=
  match desired !! id with
  | None => ret tt
  | Some t => do! wrap (Wrapped "ensure OVSDB-Programmed tunnel") (on_snd (tp_EnsureTunnel programmer t)) in set_h (with_active (<[id := t]>))
  end.

(** [ReconcileSnapshot]; the configuration has a network, or indexing it panics. *)
Definition program (network : Model1Network) (desired : gmap string Model1Tunnel) : HM unit :=
  do! (if bool_decide (desired = ∅) then ret tt
       else wrap (Wrapped "ensure OVSDB-Programmed provider network") (on_snd (tp_EnsureNetwork programmer network))) in
  let! h := get_h in
  do! mfold (withdraw_tunnel desired) tt (sorted_keys (mh_active h)) in
  do! mfold (ensure_tunnel desired) tt (sorted_keys desired) in
  if negb (bool_decide (desired = ∅)) then ret tt else
  do! wrap (Wrapped "delete OVSDB-Programmed provider network") (on_snd (tp_DeleteNetwork programmer network)) in
  wrap (Wrapped "delete OVSDB-Programmed provider bridge") (on_snd (tp_DeleteProviderBridge programmer network)).
Definition ReconcileSnapshot (snapshot : RemoteImportSnapshot) : HM unit :=
  let! h := get_h in
  let! (digest, desired) := lift (plan h snapshot) in
  match mc_Networks (mh_config h) with
  | [] => fail (Errorf "index out of range")
  | network :: _ => do! program network desired in set_h (with_generation (is_Generation snapshot) digest)
  end.

(** [ReconcileOnce] *)
Definition model1_ReconcileOnce : HM unit := fun s =>
  let '((i, w), (snapshot, err)) := Poll (mh_reader s.1, s.2) in
  let s := (with_reader i s.1, w) in
  match err with
  | Some e => (s, Err (Wrapped "OVSDB-Programmed remote route observation failed" e))
  | None => ReconcileSnapshot snapshot s
  end.
End handler.
