(* ===== verification/Model1Safety.v ===== *)
(** * What the OVSDB-programmed handler achieves

    The tunnels of a snapshot, as a reference ([tunnels_for]); the promise of the programmer
    ([TunnelStore]); and that a round of the handler of [src/pkg/evpn/ovsdb_programmer.go]
    which returns without an error leaves exactly those tunnels programmed. *)

From S2P Require Import Prelude GoStd Journal Type2 Reconciler GobgpAdapter RemoteType2 Model1.

(** ** Sorted lists without repetitions *)

Lemma compact_from_elem last l x : x ∈ last :: compact_from last l <-> x ∈ last :: l.
Proof.
  revert last. induction l as [|y l IH]; intros last; [done|]. simpl. case_bool_decide as Hy; [subst y; rewrite IH|rewrite elem_of_cons, IH]; set_solver.
Qed.
Lemma compact_elem l x : x ∈ compactStrings l <-> x ∈ l.
Proof. destruct l as [|y l]; [done|]. apply compact_from_elem. Qed.
Lemma compact_from_sorted last l : StronglySorted String.le (last :: l) -> NoDup (last :: compact_from last l) /\ StronglySorted String.le (last :: compact_from last l).
Proof.
  revert last. induction l as [|y l IH]; intros last Hs; simpl; [split; [apply NoDup_singleton|by repeat constructor]|].
  apply StronglySorted_inv in Hs as [Hs Hf]. apply Forall_cons in Hf as [Hy Hl]. case_bool_decide as E.
  - subst y. by apply IH.
  - destruct (IH y Hs) as [Hn Hs']. assert (Forall (String.le last) (y :: compact_from y l)) as Hall.
    { apply Forall_forall. intros x Hx. apply (proj1 (compact_from_elem _ _ _)), elem_of_cons in Hx as [->|Hx]; [done|]. rewrite Forall_forall in Hl. by apply Hl. }
    split; [|by constructor]. constructor; [|done]. intros Hin.
    apply StronglySorted_inv in Hs' as [_ Hf']. apply elem_of_cons in Hin as [->|Hin]; [done|].
    rewrite Forall_forall in Hf'. apply E. apply (anti_symm String.le); [by apply Hf'|done].
Qed.
Lemma compact_sorted l : StronglySorted String.le l -> NoDup (compactStrings l) /\ StronglySorted String.le (compactStrings l).
Proof. destruct l as [|x l]; [split; [constructor|done]|]. apply compact_from_sorted. Qed.
Lemma sort_Strings_elem l x : x ∈ sort_Strings l <-> x ∈ l.
Proof. unfold sort_Strings. by rewrite merge_sort_Permutation. Qed.

Section safety.
Context {AT : ApiTypes} {BT : BgpTypes} {BL : BgpLib} {AU : ApiUtil} {RL : RemoteLib}.
Context {SH : Sha256} {JP : Json (string * RemotePathIdentity)} {JL : Json (list string)} {JD : Json (list DesiredRemoteEndpoint)}.

(** ** The tunnels of a snapshot *)

Section desired.
Context (policy : RemoteImportConfig) (c : Model1Config).

(** The endpoint is reached through the tunnel of this key. *)
Definition reached (ep : DesiredRemoteEndpoint) (key : Model1TunnelKey) : Prop :=
  exists n, network_map c !! de_NetworkID ep = Some n /\ mn_VNI n = de_VNI ep /\ tunnel_key n ep = key.
Definition well_named (id : string) (t : Model1Tunnel) : Prop :=
  id = model1TunnelID (mt_Key t) /\ mt_Name t = model1TunnelName (mt_Key t) /\ mt_UDPPort t = mc_UDPPort c
  /\ exists n, network_map c !! tk_NetworkID (mt_Key t) = Some n /\ mt_Bridge t = mn_ProviderBridge n
     /\ tk_LogicalSwitch (mt_Key t) = mn_LogicalSwitch n /\ tk_VNI (mt_Key t) = mn_VNI n.
Definition grouped (eps : list DesiredRemoteEndpoint) (m : gmap string Model1Tunnel) : Prop :=
  (forall id t, m !! id = Some t -> well_named id t
     /\ forall a, a ∈ mt_Addresses t <-> exists ep, ep ∈ eps /\ reached ep (mt_Key t) /\ address_of ep = a)
  /\ forall ep, ep ∈ eps -> exists key t, reached ep key /\ m !! model1TunnelID key = Some t /\ mt_Key t = key.
(** The reference: one tunnel per key, with the sorted addresses behind it, and one remote VTEP. *)
Definition tunnels_for (eps : list DesiredRemoteEndpoint) (m : gmap string Model1Tunnel) : Prop :=
  grouped eps m /\ (forall id t, m !! id = Some t -> NoDup (mt_Addresses t) /\ StronglySorted String.le (mt_Addresses t))
  /\ forall id id' t t', m !! id = Some t -> m !! id' = Some t' -> tk_RemoteVTEP (mt_Key t) = tk_RemoteVTEP (mt_Key t').

Lemma reached_unique ep k k' : reached ep k -> reached ep k' -> k = k'.
Proof. intros (n & Hn & _ & <-) (n' & Hn' & _ & <-). congruence. Qed.

Lemma add_address_grouped done ep n m m' : grouped done m -> network_map c !! de_NetworkID ep = Some n -> mn_VNI n = de_VNI ep ->
  add_address c n ep m = Ok m' -> grouped (done ++ [ep]) m'.
Proof.
  intros [Hm Hall] Hn Hv H. unfold add_address in H. set (key := tunnel_key n ep) in *. set (id := model1TunnelID key) in *.
  set (t0 := default _ _) in H. case_match eqn:Ek; simplify_eq. bools. assert (reached ep key) as Hr by (exists n; done).
  assert (well_named id t0 /\ forall a, a ∈ mt_Addresses t0 <-> exists ep, ep ∈ done /\ reached ep (mt_Key t0) /\ address_of ep = a) as [Hw Ha].
  { subst t0. destruct (m !! id) as [t|] eqn:E; [by apply Hm|]. split; [split_and!; try done; by exists n|]. simpl. intros a. split; [set_solver|].
    intros (ep' & Hin & Hr' & _). destruct (Hall ep' Hin) as (key' & t & Hr1 & Ht & _). rewrite (reached_unique _ _ _ Hr1 Hr') in Ht. change (m !! id = Some t) in Ht. congruence. }
  split.
  - intros id' t [[<- <-]|[Hne Ht]]%lookup_insert_Some; simpl.
    + split; [done|]. intros a. rewrite Ek, elem_of_app, Ha, Ek, list_elem_of_singleton. split.
      * intros [(ep' & ? & ?)| ->]; [exists ep'|exists ep]; set_solver.
      * intros (ep' & [?|Hl]%elem_of_app & ?); [left; by exists ep'|]. apply list_elem_of_singleton in Hl as ->. right. naive_solver.
    + destruct (Hm id' t Ht) as [Hw' Ha']. split; [done|]. intros a. rewrite Ha'. split; [intros (ep' & ? & ?); exists ep'; set_solver|].
      intros (ep' & [?|Hl]%elem_of_app & Hr' & ?); [by exists ep'|]. apply list_elem_of_singleton in Hl as ->.
      destruct Hne. rewrite (proj1 Hw'). unfold id. f_equal. by eapply reached_unique.
  - intros ep' [Hin|Hl]%elem_of_app.
    + destruct (Hall ep' Hin) as (key' & t & Hr' & Ht & Hk'). exists key'. destruct (decide (model1TunnelID key' = id)) as [E|E].
      * rewrite E, lookup_insert_eq. eexists. split_and!; [done|done|]. simpl. rewrite E in Ht. subst t0. by rewrite Ht.
      * rewrite lookup_insert_ne by done. by exists t.
    + apply list_elem_of_singleton in Hl as ->. exists key. eexists. split_and!; [done|apply lookup_insert_eq|done].
Qed.

Lemma endpoint_step_grouped done ep acc acc' : grouped done (da_desired acc) -> endpoint_step policy c acc ep = Ok acc' -> grouped (done ++ [ep]) (da_desired acc').
Proof.
  intros Hg H. unfold endpoint_step in H. case_match; [done|]. destruct (network_map c !! de_NetworkID ep) as [n|] eqn:En; [|done].
  case_match eqn:Ev; [done|]. do 3 (case_match; [done|]). cbv zeta in H. case_match; [done|]. case_match; [done|].
  destruct (add_address c n ep (da_desired acc)) as [m|] eqn:Ea; simplify_eq/=. bools. by eapply add_address_grouped.
Qed.

Lemma desired_tunnels_spec eps m : desired_tunnels policy c eps = Ok m -> tunnels_for eps m.
Proof.
  unfold desired_tunnels. destruct (rfold _ _ eps) as [acc|] eqn:Hf; [|done]. simpl. intros H. case_match eqn:Hsz; simplify_eq.
  apply (rfold_invariant _ (fun done acc => grouped done (da_desired acc))) in Hf as [Hg Hall].
  - split_and!.
    + split.
      * intros id t Ht. rewrite lookup_fmap in Ht. destruct (da_desired acc !! id) as [t0|] eqn:E; simplify_eq/=.
        destruct (Hg id t0 E) as [Hw Ha]. split; [done|]. intros a. simpl. rewrite compact_elem, sort_Strings_elem. apply Ha.
      * intros ep Hep. destruct (Hall ep Hep) as (key & t & Hr & Ht & Hk). exists key, (finish t). rewrite lookup_fmap, Ht. done.
    + intros id t Ht. rewrite lookup_fmap in Ht. destruct (da_desired acc !! id) as [t0|]; simplify_eq/=. apply compact_sorted, sort_Strings_sorted.
    + intros id id' t t' Ht Ht'. apply Z.ltb_ge in Hsz. set (vteps := list_to_set _) in Hsz.
      assert (forall id t, (finish <$> da_desired acc) !! id = Some t -> tk_RemoteVTEP (mt_Key t) ∈ (vteps : gset string)) as Hin.
      { intros i x Hx. apply elem_of_list_to_set, list_elem_of_fmap. exists (i, x). split; [done|]. by apply elem_of_map_to_list. }
      destruct (decide (tk_RemoteVTEP (mt_Key t) = tk_RemoteVTEP (mt_Key t'))) as [|Hne]; [done|].
      assert ({[tk_RemoteVTEP (mt_Key t); tk_RemoteVTEP (mt_Key t')]} ⊆ vteps) as Hsub by (intros x; set_solver).
      apply subseteq_size in Hsub. rewrite size_union, !size_singleton in Hsub by set_solver. lia.
  - split; [intros i t H; simpl in H; by rewrite lookup_empty in H|intros ep H; by apply not_elem_of_nil in H].
  - intros done ep b b' _ Hb Hs. by eapply endpoint_step_grouped.
Qed.
End desired.

(** ** The programmer's promise *)

Section programming.
Context {W : Type} {CX : Ctx W} {JS : Json RemoteImportSnapshot} (programmer : Model1TunnelProgrammer W).
Notation handler := (Model1Type2Handler W).
Notation HM := (M (handler * W)).

(** The tunnels of the databases.  An [Ensure] that fails has left them alone; a [Delete] that
    fails has removed the tunnel or not. *)
Class TunnelStore := {
  tunnels : W -> gmap string Model1Tunnel;
  store_Ensure t w w' r : tp_EnsureTunnel programmer t w = (w', r) ->
    tunnels w' = if is_ok r then <[model1TunnelID (mt_Key t) := t]> (tunnels w) else tunnels w;
  store_Delete t w w' r : tp_DeleteTunnel programmer t w = (w', r) ->
    tunnels w' = delete (model1TunnelID (mt_Key t)) (tunnels w) \/ is_ok r = false /\ tunnels w' = tunnels w;
  store_EnsureNetwork n w w' r : tp_EnsureNetwork programmer n w = (w', r) -> tunnels w' = tunnels w;
  store_DeleteNetwork n w w' r : tp_DeleteNetwork programmer n w = (w', r) -> tunnels w' = tunnels w;
  store_DeleteBridge n w w' r : tp_DeleteProviderBridge programmer n w = (w', r) -> tunnels w' = tunnels w;
}.
Context {TS : TunnelStore}.

(** The handler knows every tunnel that is programmed. *)
Definition tracked (s : handler * W) : Prop :=
  tunnels s.2 ⊆ mh_active s.1 /\ forall id t, mh_active s.1 !! id = Some t -> id = model1TunnelID (mt_Key t).

Lemma withdraw_run desired u id s s' r : tracked s -> withdraw_tunnel programmer desired u id s = (s', r) ->
  tracked s' /\ (is_ok r = true -> mh_active s'.1 = (if decide (is_Some (desired !! id)) then mh_active s.1 else delete id (mh_active s.1))).
Proof.
  intros [Hsub Hid] H. unfold withdraw_tunnel in H. rewrite <-decide_bool_decide in H. destruct (decide _) as [Hd|Hd].
  { unfold ret in H. by simplify_eq. }
  apply bind_inv in H as [(s1 & h & Hg & H)|(e & Hg & _)]; [|done]. unfold get_h, gets in Hg. simplify_eq.
  destruct (mh_active s1.1 !! id) as [t|] eqn:Et; [|unfold ret in H; simplify_eq; split; [done|]; intros _; by rewrite delete_id].
  pose proof (Hid id t Et) as ->. apply bind_inv in H as [(s2 & [] & Hdel & H)|(e & Hdel & ->)].
  - apply wrap_ok_inv, on_snd_inv in Hdel as [Hh Hdel]. unfold set_h, modify in H. simplify_eq/=. rewrite Hh.
    split; [|done]. apply store_Delete in Hdel as [Hdel|[? _]]; [|done]. split; simpl.
    + rewrite Hdel. by apply map_delete_subseteq_delete || by apply delete_mono.
    + intros id' t' [_ ?]%lookup_delete_Some. by apply Hid.
  - split; [|done]. apply wrap_inv in Hdel as (r' & [Hh Hdel]%on_snd_inv & Hr). destruct r'; [done|].
    unfold tracked. rewrite Hh. split; [|done]. apply store_Delete in Hdel as [->|[_ ->]]; [|done]. by transitivity (tunnels s1.2); [apply delete_subseteq|].
Qed.

Lemma ensure_run desired u id s s' r : (forall id t, desired !! id = Some t -> id = model1TunnelID (mt_Key t)) ->
  tracked s -> ensure_tunnel programmer desired u id s = (s', r) ->
  tracked s' /\ (is_ok r = true -> forall t, desired !! id = Some t ->
                 mh_active s'.1 = <[id := t]> (mh_active s.1) /\ tunnels s'.2 = <[id := t]> (tunnels s.2)).
Proof.
  intros Hdes [Hsub Hid] H. unfold ensure_tunnel in H. destruct (desired !! id) as [t|] eqn:Et; [|unfold ret in H; by simplify_eq].
  apply bind_inv in H as [(s2 & [] & Hens & H)|(e & Hens & ->)].
  - apply wrap_ok_inv, on_snd_inv in Hens as [Hh Hens]. unfold set_h, modify in H. simplify_eq/=. rewrite Hh.
    apply store_Ensure in Hens. simpl in Hens. rewrite <-(Hdes id t Et) in Hens. split.
    + split; simpl; [rewrite Hens; by apply insert_mono|]. intros id' t' [[<- <-]|[_ ?]]%lookup_insert_Some; [by apply Hdes|by apply Hid].
    + intros _ t' [= <-]. by rewrite Hens.
  - split; [|done]. apply wrap_inv in Hens as (r' & [Hh Hens]%on_snd_inv & Hr). destruct r'; [done|]. apply store_Ensure in Hens. simpl in Hens.
    unfold tracked. by rewrite Hh, Hens.
Qed.

Definition keyed (m : gmap string Model1Tunnel) : Prop := forall id t, m !! id = Some t -> id = model1TunnelID (mt_Key t).

Lemma withdraw_all desired s s' r : tracked s -> mfold (withdraw_tunnel programmer desired) tt (sorted_keys (mh_active s.1)) s = (s', r) ->
  tracked s' /\ (is_ok r = true -> forall id, desired !! id = None -> mh_active s'.1 !! id = None).
Proof.
  intros Hs H. split.
  { eapply (mfold_run _ tracked tracked) in H as [H _]; [done|done| |done]. intros u id s1 s2 r1 _ H1 H2. eapply withdraw_run in H2 as [? _]; done. }
  intros Hr. destruct r as [u|]; [|done]. clear Hr.
  apply (mfold_invariant _ (fun done _ s1 => tracked s1 /\ forall id, desired !! id = None -> mh_active s.1 !! id = None \/ id ∈ done -> mh_active s1.1 !! id = None)) in H.
  - intros id Hid. apply H; [done|]. destruct (mh_active s.1 !! id) eqn:E; [right|by left]. apply elem_of_sorted_keys. by eexists.
  - split; [done|]. intros id _ [?|Hn]; [done|by apply not_elem_of_nil in Hn].
  - intros done id u1 u2 s1 s2 _ [H1 H2] Hw. eapply withdraw_run in Hw as [Ht Ha]; [|done]. split; [done|]. specialize (Ha eq_refl).
    intros id' Hd Hor. rewrite Ha. assert (id' = id \/ mh_active s1.1 !! id' = None) as [->|Hn].
    { destruct Hor as [?|[?|Hi]%elem_of_app]; [right; apply H2; auto..|]. apply list_elem_of_singleton in Hi. by left. }
    + rewrite decide_False by (rewrite Hd; by intros [? ?]). apply lookup_delete_eq.
    + destruct (decide _); [done|]. apply lookup_delete_None. by right.
Qed.

Lemma ensure_all desired s s' r : keyed desired -> tracked s -> (forall id, desired !! id = None -> mh_active s.1 !! id = None) ->
  mfold (ensure_tunnel programmer desired) tt (sorted_keys desired) s = (s', r) ->
  tracked s' /\ (is_ok r = true -> mh_active s'.1 = desired /\ tunnels s'.2 = desired).
Proof.
  intros Hk Hs Hn H. split.
  { eapply (mfold_run _ tracked tracked) in H as [H _]; [done|done| |done]. intros u id s1 s2 r1 _ H1 H2. eapply ensure_run in H2 as [? _]; done. }
  intros Hr. destruct r as [u|]; [|done]. clear Hr.
  apply (mfold_invariant _ (fun done _ s1 => tracked s1 /\ (forall id, desired !! id = None -> mh_active s1.1 !! id = None)
    /\ forall id t, id ∈ done -> desired !! id = Some t -> mh_active s1.1 !! id = Some t /\ tunnels s1.2 !! id = Some t)) in H.
  - destruct H as ([Hsub _] & Ha & Hin).
    assert (forall id t, desired !! id = Some t -> mh_active s'.1 !! id = Some t /\ tunnels s'.2 !! id = Some t) as Hd
      by (intros id t Ht; apply Hin; [apply elem_of_sorted_keys; by eexists|done]).
    split; apply map_eq; intros id; destruct (desired !! id) as [t|] eqn:E; [by apply Hd|by apply Ha|by apply Hd|].
    destruct (tunnels s'.2 !! id) as [t|] eqn:Et; [|done]. eapply lookup_weaken in Et; [|done]. by rewrite Ha in Et.
  - split_and!; [done..|]. intros id t Hi. by apply not_elem_of_nil in Hi.
  - intros done id u1 u2 s1 s2 Hin (H1 & H2 & H3) He. apply elem_of_sorted_keys in Hin as [t Ht].
    eapply ensure_run in He as [Htr Ha]; [|done..]. destruct (Ha eq_refl t Ht) as [Ha1 Ha2]. rewrite Ha1, Ha2. split_and!; [done|..].
    + intros id' Hd. rewrite lookup_insert_ne; [by apply H2|]. intros ->. congruence.
    + intros id' t' Hi Ht'. destruct (decide (id' = id)) as [->|Hne]; [rewrite !lookup_insert_eq; naive_solver|].
      rewrite !lookup_insert_ne by done. apply H3; [|done]. apply elem_of_app in Hi as [?|Hi]; [done|]. apply list_elem_of_singleton in Hi. done.
Qed.

(** A call that leaves the tunnels alone. *)
Lemma quiet_call {A} f (m : M W A) (s s' : handler * W) r : (forall w w' r, m w = (w', r) -> tunnels w' = tunnels w) ->
  wrap f (on_snd m) s = (s', r) -> s'.1 = s.1 /\ tunnels s'.2 = tunnels s.2.
Proof. intros Hm (r' & [Hh H]%on_snd_inv & _)%wrap_inv. split; [done|]. by eapply Hm. Qed.

Lemma program_run n desired s s' r : keyed desired -> tracked s -> program programmer n desired s = (s', r) ->
  tracked s' /\ (is_ok r = true -> mh_active s'.1 = desired /\ tunnels s'.2 = desired).
Proof.
  intros Hk Hs H. assert (forall s1 s2 : handler * W, s2.1 = s1.1 /\ tunnels s2.2 = tunnels s1.2 -> tracked s1 -> tracked s2) as Hq.
  { intros s1 s2 [H1 H2]. unfold tracked. by rewrite H1, H2. }
  unfold program in H. apply bind_inv in H as [(s1 & u & He & H)|(e & He & ->)].
  2:{ split; [|done]. apply (Hq s); [|done]. destruct (bool_decide _); [done|]. by eapply quiet_call; [apply store_EnsureNetwork|]. }
  assert (tracked s1) as Hs1. { apply (Hq s); [|done]. destruct (bool_decide _); [unfold ret in He; by simplify_eq|]. by eapply quiet_call; [apply store_EnsureNetwork|]. }
  unfold get_h in H. rewrite bind_gets in H. apply bind_inv in H as [(s2 & u2 & Hw & H)|(e & Hw & ->)]; (apply withdraw_all in Hw as [Hs2 Hw]; [|done]); [|done].
  apply bind_inv in H as [(s3 & u3 & Hen & H)|(e & Hen & ->)]; (eapply ensure_all in Hen as [Hs3 Hen]; [|done|done|by apply Hw]); [|done].
  destruct (Hen eq_refl) as [Ha Ht]. case_match; [unfold ret in H; by simplify_eq|].
  assert (forall s2 : handler * W, s2.1 = s3.1 /\ tunnels s2.2 = tunnels s3.2 -> tracked s2 /\ (is_ok r = true -> mh_active s2.1 = desired /\ tunnels s2.2 = desired)) as Hend.
  { intros s4 Hs4. split; [by apply (Hq s3)|]. destruct Hs4 as [-> ->]. auto. }
  apply bind_inv in H as [(s4 & u4 & Hd & H)|(e & Hd & ->)]; (eapply quiet_call in Hd; [|apply store_DeleteNetwork]); [|by apply Hend].
  eapply quiet_call in H; [|apply store_DeleteBridge]. apply Hend. destruct Hd, H. split; congruence.
Qed.

(** Programming keeps the configuration and the generation. *)
Lemma program_keeps n desired (h0 : handler) : preserves (fun s => mh_config s.1 = mh_config h0 /\ mh_generation s.1 = mh_generation h0) (program programmer n desired).
Proof.
  assert (forall A f (m : M W A), preserves (fun s : handler * W => mh_config s.1 = mh_config h0 /\ mh_generation s.1 = mh_generation h0) (wrap f (on_snd m))) as Hc.
  { intros A f m. apply preserves_wrap. intros s Hs. unfold on_snd. by destruct (m s.2). }
  unfold program. apply preserves_bind; [case_match; [apply preserves_ret|apply Hc]|]. intros _. apply preserves_bind; [apply preserves_gets|]. intros h.
  apply preserves_bind; [|intros _; apply preserves_bind; [|intros _; case_match; [apply preserves_ret|apply preserves_bind; [apply Hc|intros _; apply Hc]]]].
  - apply preserves_mfold. intros u id. unfold withdraw_tunnel. case_match; [apply preserves_ret|]. apply preserves_bind; [apply preserves_gets|]. intros h'.
    case_match; [|apply preserves_ret]. apply preserves_bind; [apply Hc|]. intros _. by apply preserves_modify.
  - apply preserves_mfold. intros u id. unfold ensure_tunnel. case_match; [|apply preserves_ret]. apply preserves_bind; [apply Hc|]. intros _. by apply preserves_modify.
Qed.

Lemma plan_inv (h : handler) snapshot digest desired : plan h snapshot = Ok (digest, desired) ->
  is_Authoritative snapshot = true /\ mh_generation h <= is_Generation snapshot /\ digest = remoteHash (is_Endpoints snapshot)
  /\ desired_tunnels (im_config (mh_reader h)) (mh_config h) (is_Endpoints snapshot) = Ok desired.
Proof.
  unfold plan. intros H. case_match eqn:E1; [done|]. cbv zeta in H. case_match eqn:E2; [done|]. apply orb_false_iff in E1 as [E1 _], E2 as [E2 _].
  destruct (desired_tunnels _ _ _); simplify_eq/=. bools. done.
Qed.

Lemma ReconcileSnapshot_run snapshot s s' r : tracked s -> ReconcileSnapshot programmer snapshot s = (s', r) ->
  tracked s' /\ mh_config s'.1 = mh_config s.1 /\ mh_generation s.1 <= mh_generation s'.1
  /\ (is_ok r = true -> exists desired, desired_tunnels (im_config (mh_reader s.1)) (mh_config s.1) (is_Endpoints snapshot) = Ok desired
      /\ mh_active s'.1 = desired /\ tunnels s'.2 = desired /\ mh_generation s'.1 = is_Generation snapshot).
Proof.
  intros Hs H. unfold ReconcileSnapshot, get_h in H. rewrite bind_gets, bind_lift in H.
  destruct (plan s.1 snapshot) as [[digest desired]|e] eqn:Ep; [|simplify_eq; by split_and!]. apply plan_inv in Ep as (_ & Hg & _ & Hd).
  destruct (mc_Networks (mh_config s.1)) as [|n l]; [unfold fail in H; simplify_eq; by split_and!|].
  assert (keyed desired) as Hk. { apply desired_tunnels_spec in Hd as [[Hd _] _]. intros id t Ht. by apply Hd in Ht as [[? _] _]. }
  assert (forall s1 r1, program programmer n desired s = (s1, r1) -> mh_config s1.1 = mh_config s.1 /\ mh_generation s1.1 = mh_generation s.1) as Hkeep.
  { intros s1 r1 Hp. pose proof (program_keeps n desired s.1 s (conj eq_refl eq_refl)) as Hpk. by rewrite Hp in Hpk. }
  apply bind_inv in H as [(s1 & u & Hp & H)|(e & Hp & ->)]; destruct (Hkeep _ _ Hp) as [Hc Hge]; (apply program_run in Hp as [Hs1 Hp]; [|done|done]).
  - unfold set_h, modify in H. simplify_eq. destruct (Hp eq_refl) as [Ha Ht]. split_and!; [done|done|done|]. intros _. by exists desired.
  - split_and!; [done|done|by rewrite Hge|done].
Qed.

(** ** Histories *)

(** A round on any snapshot, with any outcome, and changes of the rest of the world. *)
Inductive m1step : handler * W -> handler * W -> Prop :=
  | m1_round snapshot s s' r : ReconcileSnapshot programmer snapshot s = (s', r) -> m1step s s'
  | m1_world s w : tunnels w = tunnels s.2 -> m1step s (s.1, w).

Lemma history_tracked s s' : rtc m1step s s' -> tracked s ->
  tracked s' /\ mh_config s'.1 = mh_config s.1 /\ mh_generation s.1 <= mh_generation s'.1.
Proof.
  induction 1 as [s|s s1 s2 H _ IH]; intros Hs; [done|]. destruct H as [snapshot s s1 r H|s w H].
  - apply ReconcileSnapshot_run in H as (H1 & H2 & H3 & _); [|done]. destruct (IH H1) as (? & ? & ?). split_and!; [done|congruence|lia].
  - apply IH. unfold tracked. simpl. by rewrite H.
Qed.


(** C40: old or unconfirmed snapshots do nothing: a snapshot that is not authoritative, is
    older than the last one programmed, or has its generation with other endpoints, is
    refused without a call to the programmer. *)
Theorem stale_snapshot_inert snapshot (s : handler * W) :
  is_Authoritative snapshot = false \/ is_Generation snapshot < mh_generation s.1
  \/ (is_Generation snapshot = mh_generation s.1 /\ mh_digest s.1 <> ""%string /\ remoteHash (is_Endpoints snapshot) <> mh_digest s.1) ->
  exists e, ReconcileSnapshot programmer snapshot s = (s, Err e).
Proof.
  intros H. unfold ReconcileSnapshot, get_h. rewrite bind_gets, bind_lift. unfold plan.
  destruct (is_Authoritative snapshot) eqn:Ea; [|simpl; eauto]. destruct (is_Generation snapshot =? 0); [simpl; eauto|]. simpl.
  destruct H as [?|[H|(H1 & H2 & H3)]]; [done|..].
  - apply Z.ltb_lt in H. rewrite H. simpl. eauto.
  - rewrite H1, Z.ltb_irrefl, Z.eqb_refl, !bool_decide_eq_false_2 by done. simpl. eauto.
Qed.
End programming.
End safety.
