(* ===== verification/Model1Programmer.v ===== *)
(** * The OVSDB-programmed integration: the programmer

    Models [LibovsdbModel1Programmer] of [src/pkg/evpn/ovsdb_programmer.go] and
    [src/pkg/evpn/ovsdb_provider_bridge.go]: provider bridges, bridge mappings, localnet
    ports and static tunnels in the databases of OVS and OVN.  The libovsdb clients are
    parameters: they list a table, turn a request into operations and run a transaction. *)

From S2P Require Import Prelude GoStd Journal Type2 Reconciler GobgpAdapter RemoteType2 Model1.
From Stdlib Require Import Ascii.

(** ** Rows *)

(** [vswitch.Bridge], [Port], [Interface] and [OpenvSwitch]: the columns the code uses. *)
Record VBridge := {
  vb_UUID : string; vb_Name : string; vb_Ports : list string; vb_FailMode : option string; vb_Controller : list string;
  vb_ExternalIDs : gmap string string;
}.
Record VPort := { vp_UUID : string; vp_Name : string; vp_Interfaces : list string; vp_ExternalIDs : gmap string string }.
Record VInterface := {
  vi_UUID : string; vi_Name : string; vi_Type : string; vi_Options : gmap string string; vi_ExternalIDs : gmap string string;
}.
Record VRoot := { vr_UUID : string; vr_Bridges : list string; vr_ExternalIDs : gmap string string }.
(** [nbdb.LogicalSwitch] and [LogicalSwitchPort] *)
Record NSwitch := { ns_UUID : string; ns_Name : string; ns_Ports : list string }.
Record NPort := {
  np_UUID : string; np_Name : string; np_Type : string; np_Addresses : list string; np_Options : gmap string string; np_Tag : option Z;
  np_ExternalIDs : gmap string string;
}.

(** What the code asks a client to build: [Create], and [Where(...)] followed by [Update], [Delete] or [Mutate]. *)
Inductive VRequest :=
  | VCreateBridge (b : VBridge)
  | VCreatePort (p : VPort)
  | VCreateInterface (i : VInterface)
  | VMutateRoot (insert : bool) (root : VRoot) (bridge : string)
  | VUpdateRoot (root : VRoot) (ids : gmap string string)
  | VMutateBridge (insert : bool) (bridge : VBridge) (port : string)
  | VUpdateInterface (i : VInterface)                       (* type, options and external_ids *)
  | VUpdatePort (p : VPort)                                 (* interfaces and external_ids *)
  | VDeleteBridge (uuid : string)
  | VDeletePort (uuid : string)
  | VDeleteInterface (uuid : string) (expected : option (gmap string string)).
Inductive NRequest :=
  | NCreatePort (p : NPort)
  | NDeletePort (uuid : string)
  | NMutateSwitch (insert : bool) (switch : NSwitch) (port : string).

(** [ovsdb.OperationResult] *)
Record OpResult := { op_Error : string; op_Count : Z }.

Record OvsClient (W Op : Type) := {
  ov_Bridges : M W (list VBridge); ov_Ports : M W (list VPort); ov_Interfaces : M W (list VInterface); ov_Roots : M W (list VRoot);
  ov_build : VRequest -> result (list Op); ov_Transact : list Op -> M W (list OpResult); ov_is_update : Op -> bool;
  ov_NewUUID : M W string;
}.
Record NbDbClient (W Op : Type) := {
  nd_Switches : M W (list NSwitch); nd_Ports : M W (list NPort);
  nd_build : NRequest -> result (list Op); nd_Transact : list Op -> M W (list OpResult); nd_is_update : Op -> bool;
  nd_NewUUID : M W string;
}.
Arguments ov_Bridges {W Op} _.
Arguments ov_Ports {W Op} _.
Arguments ov_Interfaces {W Op} _.
Arguments ov_Roots {W Op} _.
Arguments ov_build {W Op} _ _.
Arguments ov_Transact {W Op} _ _.
Arguments ov_is_update {W Op} _ _.
Arguments ov_NewUUID {W Op} _.
Arguments nd_Switches {W Op} _.
Arguments nd_Ports {W Op} _.
Arguments nd_build {W Op} _ _.
Arguments nd_Transact {W Op} _ _.
Arguments nd_is_update {W Op} _ _.
Arguments nd_NewUUID {W Op} _.

(** ** Maps and lists *)

Definition id_at (key : string) (m : gmap string string) : string := default ""%string (m !! key).
(** [model1IDsMatch], [model1MapsEqual], [mergeModel1IDs], [sameModel1Addresses], [model1Contains] *)
Definition model1IDsMatch (actual expected : gmap string string) : bool :=
  forallb (fun kv => bool_decide (id_at kv.1 actual = kv.2)) (map_to_list expected).
Definition model1MapsEqual (a b : gmap string string) : bool :=
  bool_decide (size a = size b) && forallb (fun kv => bool_decide (id_at kv.1 b = kv.2)) (map_to_list a).
Definition mergeModel1IDs (actual expected : gmap string string) : gmap string string := expected ∪ actual.
Definition sameModel1Addresses (a b : list string) : bool := bool_decide (sort_Strings a = sort_Strings b).
Definition model1Contains (values : list string) (wanted : string) : bool := bool_decide (wanted ∈ values).

(** The only row with a property; a second one is an error. *)
Definition unique_row {A} (p : A -> bool) (msg : string) (rows : list A) : result (option A) :=
  rfold (fun acc x => if p x then match acc with Some _ => Err (Errorf msg) | None => Ok (Some x) end else Ok acc) None rows.

(** ** Identities *)

Definition model1ManagedByKey : string := "evpn4ovn-managed-by".
Definition model1RoleKey : string := "evpn4ovn-role".
Definition model1Owner : string := "model1-nbdb".
Definition model1TunnelRole : string := "tunnel".
Definition model1BridgeMappingsKey : string := "ovn-bridge-mappings".
Definition model1NetworkIDKey : string := "evpn4ovn-network-id".
Definition model1LogicalSwitchKey : string := "evpn4ovn-logical-switch".
Definition model1PhysicalNetworkKey : string := "evpn4ovn-physical-network".
Definition model1ProviderBridgeKey : string := "evpn4ovn-provider-bridge".
Definition model1BridgeRole : string := "provider-bridge".
Definition model1BridgeLocalRole : string := "provider-bridge-local".
Definition vniKey : string := "evpn4ovn-vni".

(** [model1NetworkExternalIDs], [model1ProviderBridgeExternalIDs], [model1ProviderBridgeLocalExternalIDs] *)
Definition model1NetworkExternalIDs (n : Model1Network) : gmap string string :=
  list_to_map [(model1ManagedByKey, model1Owner); (model1NetworkIDKey, mn_NetworkID n); (model1LogicalSwitchKey, mn_LogicalSwitch n);
               (model1PhysicalNetworkKey, mn_PhysicalNetwork n); (model1ProviderBridgeKey, mn_ProviderBridge n); (vniKey, itoa (mn_VNI n))].
Definition model1ProviderBridgeExternalIDs (n : Model1Network) : gmap string string :=
  <[model1RoleKey := model1BridgeRole]> (model1NetworkExternalIDs n).
Definition model1ProviderBridgeLocalExternalIDs (n : Model1Network) : gmap string string :=
  list_to_map [(model1ManagedByKey, model1Owner); (model1RoleKey, model1BridgeLocalRole); (model1NetworkIDKey, mn_NetworkID n);
               (model1ProviderBridgeKey, mn_ProviderBridge n)].

Section identities.
Context {SH : Sha256} {JL : Json (list string)}.

(** [model1ExternalIDs] and [model1TunnelExternalIDs] *)
Definition model1ExternalIDs (key : Model1TunnelKey) : gmap string string :=
  list_to_map [(model1ManagedByKey, model1Owner); (model1RoleKey, model1TunnelRole); (model1NetworkIDKey, tk_NetworkID key);
               (vniKey, itoa (tk_VNI key)); ("evpn4ovn-remote-vtep"%string, tk_RemoteVTEP key); (model1LogicalSwitchKey, tk_LogicalSwitch key)].
Definition model1TunnelExternalIDs (t : Model1Tunnel) : gmap string string :=
  <["evpn4ovn-endpoints-sha256"%string := remoteHash (sort_Strings (mt_Addresses t))]> (model1ExternalIDs (mt_Key t)).

(** [model1VXLANOptions] *)
Definition model1VXLANOptions (t : Model1Tunnel) : gmap string string :=
  list_to_map [("remote_ip"%string, tk_RemoteVTEP (mt_Key t)); ("key"%string, itoa (tk_VNI (mt_Key t))); ("dst_port"%string, itoa (mt_UDPPort t))].

(** [validateModel1Tunnel] *)
Definition address_ok (address : string) : result unit :=
  match Fields address with
  | [mac] | [mac; _] =>
      if negb match ParseMAC mac with Some (m0 :: m) => bool_decide (length (m0 :: m) = 6%nat) && (Z.land m0 1 =? 0) | _ => false end
         || bool_decide (mac = "00:00:00:00:00:00"%string)
      then Err (Errorf "invalid unicast remote MAC")
      else match Fields address with
           | [_; ip] => match ParseAddr ip with
                        | Some a => if Is4 a && IsGlobalUnicast a then Ok tt else Err (Errorf "invalid remote IPv4 address")
                        | None => Err (Errorf "invalid remote IPv4 address")
                        end
           | _ => Ok tt
           end
  | _ => Err (Errorf "invalid OVN remote endpoint address")
  end.
Definition validateModel1Tunnel (t : Model1Tunnel) : result unit :=
  let k := mt_Key t in
  if blank (tk_NetworkID k) || blank (tk_LogicalSwitch k) || (tk_VNI k =? 0) || (max_vni <? tk_VNI k) || negb (unicastIPv4 (tk_RemoteVTEP k))
     || negb (bool_decide (mt_Name t = model1TunnelName k)) || (mt_UDPPort t =? 0) || blank (mt_Bridge t)
  then Err (Errorf "invalid OVSDB-Programmed tunnel identity")
  else if bool_decide (mt_Addresses t = []) then Err (Errorf "OVSDB-Programmed tunnel requires at least one remote endpoint address")
  else let? _ := rfold (fun _ a => address_ok a) tt (mt_Addresses t) in Ok tt.

(** [model1ProviderBridgeMatchesTunnel] *)
Definition model1ProviderBridgeMatchesTunnel (b : VBridge) (t : Model1Tunnel) : bool :=
  let ids := vb_ExternalIDs b in
  bool_decide (id_at model1ManagedByKey ids = model1Owner) && bool_decide (id_at model1RoleKey ids = model1BridgeRole)
  && bool_decide (id_at model1NetworkIDKey ids = tk_NetworkID (mt_Key t)) && bool_decide (id_at model1LogicalSwitchKey ids = tk_LogicalSwitch (mt_Key t))
  && bool_decide (id_at vniKey ids = itoa (tk_VNI (mt_Key t))) && bool_decide (id_at model1ProviderBridgeKey ids = mt_Bridge t).
End identities.

(** [model1LocalnetOptions] *)
Definition model1LocalnetOptions (n : Model1Network) : gmap string string := {["network_name"%string := mn_PhysicalNetwork n]}.

(** ** Bridge mappings *)

(** [strings.SplitN(entry, ":", 2)]: the text before and after the first colon. *)
Fixpoint cut_colon (before : list ascii) (l : list ascii) : option (string * string) :=
  match l with
  | [] => None
  | c :: l => if bool_decide (c = ":"%char) then Some (str (rev before), str l) else cut_colon (c :: before) l
  end.
Definition mapping_entry (m : gmap string string) (entry : list ascii) : result (gmap string string) :=
  match cut_colon [] entry with
  | None => Err (Errorf "invalid existing ovn-bridge-mappings entry")
  | Some (physnet, bridge) =>
      if negb (validModel1BridgeMapping physnet bridge) then Err (Errorf "invalid existing ovn-bridge-mappings entry")
      else if bool_decide (is_Some (m !! physnet)) then Err (Errorf "duplicate existing ovn-bridge-mappings entry")
      else Ok (<[physnet := bridge]> m)
  end.
(** [parseModel1BridgeMappings] *)
Definition parseModel1BridgeMappings (raw : string) : result (gmap string string) :=
  if bool_decide (raw = ""%string) then Ok ∅ else rfold mapping_entry ∅ (split ","%char (chars raw)).
(** [formatModel1BridgeMappings] *)
Definition formatModel1BridgeMappings (m : gmap string string) : string :=
  Join ((fun key => (key +:+ ":" +:+ id_at key m)%string) <$> sorted_keys m) ",".

(** [validateModel1BridgeMappings] *)
Definition validateModel1BridgeMappings {SH : Sha256} (root : VRoot) (m : gmap string string) (n : Model1Network) : result unit :=
  if match m !! mn_PhysicalNetwork n with Some b => negb (bool_decide (b = mn_ProviderBridge n)) | None => false end
  then Err (Errorf "physical network is already mapped to bridge")
  else if existsb (fun kv => negb (bool_decide (kv.1 = mn_PhysicalNetwork n)) && bool_decide (kv.2 = mn_ProviderBridge n)) (map_to_list m)
  then Err (Errorf "provider bridge is already assigned to physical network")
  else match vr_ExternalIDs root !! model1BridgeMappingOwnerKey (mn_PhysicalNetwork n) with
       | Some owner => if bool_decide (owner = mn_ProviderBridge n) then Ok tt
                       else Err (Errorf "bridge mapping has conflicting OVSDB-Programmed ownership")
       | None => Ok tt
       end.

(** ** Operations *)

(** [transactModel1]: the results, and the operations they belong to. *)
Fixpoint check_results {Op} (is_update : Op -> bool) (ops : list Op) (results : list OpResult) : result unit :=
  match results with
  | [] => Ok tt
  | r :: results =>
      if negb (bool_decide (op_Error r = ""%string)) then Err (Errorf "OVSDB operation failed") else
      match ops with
      | [] => Err (Errorf "index out of range")
      | op :: ops => if is_update op && (op_Count r =? 0) then Err (Errorf "OVSDB update operation matched no rows")
                     else check_results is_update ops results
      end
  end.

Section programmer.
Context {W OvOp NbOp : Type} {SH : Sha256} {JL : Json (list string)} (ovs : OvsClient W OvOp) (nb : NbDbClient W NbOp).

(** Build the requests of a transaction and run it. *)
Definition transact_ovs (requests : list VRequest) : M W unit :=
  let! ops := lift (rfold (fun acc r => let? ops := ov_build ovs r in Ok (acc ++ ops)) [] requests) in
  if bool_decide (length ops = 0%nat) then ret tt else
  let! results := ov_Transact ovs ops in
  lift (check_results (ov_is_update ovs) ops results).
Definition transact_nb (requests : list NRequest) : M W unit :=
  let! ops := lift (rfold (fun acc r => let? ops := nd_build nb r in Ok (acc ++ ops)) [] requests) in
  if bool_decide (length ops = 0%nat) then ret tt else
  let! results := nd_Transact nb ops in
  lift (check_results (nd_is_update nb) ops results).

(** [model1OpenvSwitchRoot] *)
Definition model1OpenvSwitchRoot : M W VRoot :=
  let! roots := ov_Roots ovs in
  match roots with [root] => ret root | _ => fail (Errorf "expected exactly one Open_vSwitch root row") end.

(** [validateModel1BridgeMappingAvailability] *)
Definition validateModel1BridgeMappingAvailability (n : Model1Network) : M W unit :=
  let! root := model1OpenvSwitchRoot in
  let! m := lift (parseModel1BridgeMappings (id_at model1BridgeMappingsKey (vr_ExternalIDs root))) in
  lift (validateModel1BridgeMappings root m n).

Definition bridge_named (name : string) (b : VBridge) : bool := bool_decide (vb_Name b = name).
Definition port_named (name : string) (p : VPort) : bool := bool_decide (vp_Name p = name).
Definition interface_named (name : string) (i : VInterface) : bool := bool_decide (vi_Name i = name).
Definition standalone : string := "standalone".

(** [validateModel1ProviderBridgeLocalPort] *)
Definition validateModel1ProviderBridgeLocalPort (b : VBridge) (ports : list VPort) (interfaces : list VInterface) (n : Model1Network)
    : result (VPort * VInterface) :=
  let? port := unique_row (port_named (mn_ProviderBridge n)) "provider bridge local port name is not unique" ports in
  match port with
  | None => Err (Errorf "provider bridge has no correctly owned local port")
  | Some port =>
      match vp_Interfaces port with
      | [iu] =>
          if negb (model1IDsMatch (vp_ExternalIDs port) (model1ProviderBridgeLocalExternalIDs n)) || negb (model1Contains (vb_Ports b) (vp_UUID port))
          then Err (Errorf "provider bridge has no correctly owned local port") else
          let? iface := unique_row (interface_named (mn_ProviderBridge n)) "provider bridge local interface name is not unique" interfaces in
          match iface with
          | None => Err (Errorf "provider bridge has no correctly owned internal interface")
          | Some iface =>
              if negb (bool_decide (vi_UUID iface = iu)) || negb (bool_decide (vi_Type iface = "internal"%string))
                 || negb (model1IDsMatch (vi_ExternalIDs iface) (model1ProviderBridgeLocalExternalIDs n))
              then Err (Errorf "provider bridge has no correctly owned internal interface") else Ok (port, iface)
          end
      | _ => Err (Errorf "provider bridge has no correctly owned local port")
      end
  end.

Definition bridge_settings_ok (b : VBridge) : bool := bool_decide (vb_FailMode b = Some standalone) && bool_decide (vb_Controller b = []).

(** The transaction that makes a provider bridge. *)
Definition create_bridge (n : Model1Network) (root : VRoot) : M W unit :=
  let! iu := ov_NewUUID ovs in
  let! pu := ov_NewUUID ovs in
  let! bu := ov_NewUUID ovs in
  transact_ovs
    [VCreateInterface {| vi_UUID := iu; vi_Name := mn_ProviderBridge n; vi_Type := "internal"; vi_Options := ∅;
                         vi_ExternalIDs := model1ProviderBridgeLocalExternalIDs n |};
     VCreatePort {| vp_UUID := pu; vp_Name := mn_ProviderBridge n; vp_Interfaces := [iu]; vp_ExternalIDs := model1ProviderBridgeLocalExternalIDs n |};
     VCreateBridge {| vb_UUID := bu; vb_Name := mn_ProviderBridge n; vb_Ports := [pu]; vb_FailMode := Some standalone; vb_Controller := [];
                      vb_ExternalIDs := model1ProviderBridgeExternalIDs n |};
     VMutateRoot true root bu].

(** [EnsureModel1ProviderBridge] *)
Definition EnsureModel1ProviderBridge (n : Model1Network) : M W unit :=
  do! lift (validateModel1Network n) in
  do! validateModel1BridgeMappingAvailability n in
  let! bridges := ov_Bridges ovs in
  let! ports := ov_Ports ovs in
  let! interfaces := ov_Interfaces ovs in
  let! bridge := lift (unique_row (bridge_named (mn_ProviderBridge n)) "provider bridge name is not unique" bridges) in
  match bridge with
  | Some b =>
      if negb (model1IDsMatch (vb_ExternalIDs b) (model1ProviderBridgeExternalIDs n))
      then fail (Errorf "provider bridge exists but is not owned by this OVSDB-Programmed network")
      else if negb (bridge_settings_ok b) then fail (Errorf "provider bridge has conflicting controller or fail-mode configuration") else
      let! root := model1OpenvSwitchRoot in
      if negb (model1Contains (vr_Bridges root) (vb_UUID b)) then fail (Errorf "provider bridge is not attached to Open_vSwitch") else
      do! lift (validateModel1ProviderBridgeLocalPort b ports interfaces n) in ret tt
  | None =>
      if existsb (port_named (mn_ProviderBridge n)) ports then fail (Errorf "provider bridge local port already exists without its owned bridge")
      else if existsb (interface_named (mn_ProviderBridge n)) interfaces
      then fail (Errorf "provider bridge local interface already exists without its owned bridge") else
      let! root := model1OpenvSwitchRoot in
      create_bridge n root
  end.

(** [ensureModel1NetworkHasNoTunnels] *)
Definition network_tunnel (n : Model1Network) (i : VInterface) : bool :=
  bool_decide (id_at model1ManagedByKey (vi_ExternalIDs i) = model1Owner) && bool_decide (id_at model1RoleKey (vi_ExternalIDs i) = model1TunnelRole)
  && bool_decide (id_at model1NetworkIDKey (vi_ExternalIDs i) = mn_NetworkID n).
Definition ensureModel1NetworkHasNoTunnels (n : Model1Network) : M W unit :=
  let! interfaces := ov_Interfaces ovs in
  if existsb (network_tunnel n) interfaces then fail (Errorf "refusing to delete provider network while OVSDB-Programmed tunnel remains") else ret tt.

(** [DeleteModel1ProviderBridge] *)
Definition DeleteModel1ProviderBridge (n : Model1Network) : M W unit :=
  do! lift (validateModel1Network n) in
  do! ensureModel1NetworkHasNoTunnels n in
  let! root := model1OpenvSwitchRoot in
  let! m := lift (parseModel1BridgeMappings (id_at model1BridgeMappingsKey (vr_ExternalIDs root))) in
  if existsb (fun kv => bool_decide (kv.2 = mn_ProviderBridge n)) (map_to_list m)
  then fail (Errorf "refusing to delete provider bridge while a physical network maps to it") else
  let! bridges := ov_Bridges ovs in
  let! ports := ov_Ports ovs in
  let! interfaces := ov_Interfaces ovs in
  let! bridge := lift (unique_row (bridge_named (mn_ProviderBridge n)) "provider bridge name is not unique" bridges) in
  match bridge with
  | None =>
      if existsb (port_named (mn_ProviderBridge n)) ports then fail (Errorf "provider bridge is absent but a same-name OVS port remains")
      else if existsb (interface_named (mn_ProviderBridge n)) interfaces
      then fail (Errorf "provider bridge is absent but a same-name OVS interface remains") else ret tt
  | Some b =>
      if negb (model1IDsMatch (vb_ExternalIDs b) (model1ProviderBridgeExternalIDs n)) || negb (bridge_settings_ok b)
         || negb (model1Contains (vr_Bridges root) (vb_UUID b))
      then fail (Errorf "refusing to delete changed, unowned, or detached provider bridge")
      else if negb (bool_decide (length (vb_Ports b) = 1%nat)) then fail (Errorf "provider bridge still has attached ports") else
      let! (port, iface) := lift (map_err (Wrapped "refusing to delete provider bridge") (validateModel1ProviderBridgeLocalPort b ports interfaces n)) in
      transact_ovs [VMutateRoot false root (vb_UUID b); VDeleteBridge (vb_UUID b); VDeletePort (vp_UUID port); VDeleteInterface (vi_UUID iface) None]
  end.

(** [ensureModel1BridgeMapping] *)
Definition ensureModel1BridgeMapping (n : Model1Network) : M W unit :=
  let! bridges := ov_Bridges ovs in
  let! bridge := lift (unique_row (bridge_named (mn_ProviderBridge n)) "provider bridge name is not unique" bridges) in
  match bridge with
  | None => fail (Errorf "dedicated OVSDB-Programmed provider bridge must be provisioned before activation")
  | Some b =>
      if negb (bool_decide (vb_Controller b = [])) then fail (Errorf "OVSDB-Programmed provider bridge must not have an OpenFlow controller")
      else if match vb_FailMode b with Some f => negb (bool_decide (f = standalone)) | None => false end
      then fail (Errorf "OVSDB-Programmed provider bridge must use standalone fail mode") else
      let! root := model1OpenvSwitchRoot in
      let! m := lift (parseModel1BridgeMappings (id_at model1BridgeMappingsKey (vr_ExternalIDs root))) in
      do! lift (validateModel1BridgeMappings root m n) in
      let ownerKey := model1BridgeMappingOwnerKey (mn_PhysicalNetwork n) in
      if bool_decide (id_at (mn_PhysicalNetwork n) m = mn_ProviderBridge n) then ret tt else
      let m := <[mn_PhysicalNetwork n := mn_ProviderBridge n]> m in
      transact_ovs [VUpdateRoot root (<[ownerKey := mn_ProviderBridge n]>
                                        (<[model1BridgeMappingsKey := formatModel1BridgeMappings m]> (vr_ExternalIDs root)))]
  end.

(** The external_ids of the root without the mapping of a network. *)
Definition without_mapping (n : Model1Network) (m : gmap string string) (ids : gmap string string) : gmap string string :=
  let ids := delete (model1BridgeMappingOwnerKey (mn_PhysicalNetwork n)) ids in
  if bool_decide (m = ∅) then delete model1BridgeMappingsKey ids else <[model1BridgeMappingsKey := formatModel1BridgeMappings m]> ids.
(** [deleteModel1BridgeMapping] *)
Definition deleteModel1BridgeMapping (n : Model1Network) : M W unit :=
  let! root := model1OpenvSwitchRoot in
  match vr_ExternalIDs root !! model1BridgeMappingOwnerKey (mn_PhysicalNetwork n) with
  | None => ret tt
  | Some owner =>
      if negb (bool_decide (owner = mn_ProviderBridge n))
      then fail (Errorf "refusing to remove physical network mapping owned by another provider bridge") else
      let! m := lift (parseModel1BridgeMappings (id_at model1BridgeMappingsKey (vr_ExternalIDs root))) in
      let mapped := id_at (mn_PhysicalNetwork n) m in
      if negb (bool_decide (mapped = ""%string)) && negb (bool_decide (mapped = mn_ProviderBridge n))
      then fail (Errorf "refusing to remove changed physical network mapping") else
      let m := if bool_decide (mapped = ""%string) then m else delete (mn_PhysicalNetwork n) m in
      transact_ovs [VUpdateRoot root (without_mapping n m (vr_ExternalIDs root))]
  end.

(** The localnet port the code expects. *)
Definition localnet_ok (n : Model1Network) (p : NPort) : bool :=
  model1IDsMatch (np_ExternalIDs p) (model1NetworkExternalIDs n) && bool_decide (np_Type p = "localnet"%string)
  && model1MapsEqual (np_Options p) (model1LocalnetOptions n) && sameModel1Addresses (np_Addresses p) ["unknown"%string]
  && bool_decide (np_Tag p = None).
(** [model1LocalnetLSP] *)
Definition model1LocalnetLSP (u : string) (n : Model1Network) : NPort :=
  {| np_UUID := u; np_Name := model1NetworkPortName n; np_Type := "localnet"; np_Addresses := ["unknown"%string];
     np_Options := model1LocalnetOptions n; np_Tag := None; np_ExternalIDs := model1NetworkExternalIDs n |}.
Definition attached_switches (p : NPort) (switches : list NSwitch) : list NSwitch :=
  List.filter (fun s => model1Contains (ns_Ports s) (np_UUID p)) switches.
Definition foreign_switch (n : Model1Network) (s : NSwitch) : bool := negb (bool_decide (ns_Name s = mn_LogicalSwitch n)).

(** [ensureModel1LocalnetLSP] *)
Definition ensureModel1LocalnetLSP (n : Model1Network) : M W unit :=
  let! switches := nd_Switches nb in
  let! switch := lift (unique_row (fun s => bool_decide (ns_Name s = mn_LogicalSwitch n)) "logical switch name is not unique" switches) in
  match switch with
  | None => fail (Errorf "logical switch not found")
  | Some s =>
      let! ports := nd_Ports nb in
      let! existing := lift (unique_row (fun p => bool_decide (np_Name p = model1NetworkPortName n))
                                        "OVSDB-Programmed localnet port name is not unique" ports) in
      match existing with
      | None => let! u := nd_NewUUID nb in transact_nb [NCreatePort (model1LocalnetLSP u n); NMutateSwitch true s u]
      | Some p =>
          if negb (localnet_ok n p) then fail (Errorf "logical switch port is not the expected owned OVSDB-Programmed localnet port") else
          let owners := attached_switches p switches in
          if existsb (foreign_switch n) owners then fail (Errorf "OVSDB-Programmed localnet port belongs to another logical switch") else
          match owners with
          | [] => transact_nb [NMutateSwitch true s (np_UUID p)]
          | [_] => ret tt
          | _ => fail (Errorf "OVSDB-Programmed localnet port is attached to multiple logical switches")
          end
      end
  end.

(** [deleteModel1LocalnetLSP] *)
Definition deleteModel1LocalnetLSP (n : Model1Network) : M W unit :=
  let! switches := nd_Switches nb in
  let! ports := nd_Ports nb in
  let! port := lift (unique_row (fun p => bool_decide (np_Name p = model1NetworkPortName n))
                                "OVSDB-Programmed localnet port name is not unique" ports) in
  match port with
  | None => ret tt
  | Some p =>
      if negb (localnet_ok n p) then fail (Errorf "refusing to delete changed or unowned OVSDB-Programmed localnet port") else
      let owners := attached_switches p switches in
      if existsb (foreign_switch n) owners then fail (Errorf "refusing to detach OVSDB-Programmed localnet port from another logical switch") else
      transact_nb (((fun s => NMutateSwitch false s (np_UUID p)) <$> owners) ++ [NDeletePort (np_UUID p)])
  end.

(** [runModel1DatabaseSteps]; the error of the second step says that the first one is done. *)
Definition runModel1DatabaseSteps (first second : M W unit) : M W unit :=
  do! wrap (Wrapped "OVSDB-Programmed step") first in
  wrap (Wrapped "OVSDB-Programmed operation partially completed") second.

(** [EnsureModel1Network] and [DeleteModel1Network] *)
Definition EnsureModel1Network (n : Model1Network) : M W unit :=
  do! lift (validateModel1Network n) in
  do! wrap (Wrapped "ensure OVSDB-Programmed provider bridge") (EnsureModel1ProviderBridge n) in
  runModel1DatabaseSteps (ensureModel1BridgeMapping n) (ensureModel1LocalnetLSP n).
Definition DeleteModel1Network (n : Model1Network) : M W unit :=
  do! lift (validateModel1Network n) in
  do! ensureModel1NetworkHasNoTunnels n in
  runModel1DatabaseSteps (deleteModel1LocalnetLSP n) (deleteModel1BridgeMapping n).

(** [model1VXLANInterface] and [model1VXLANPort] *)
Definition model1VXLANInterface (u : string) (t : Model1Tunnel) : VInterface :=
  {| vi_UUID := u; vi_Name := mt_Name t; vi_Type := "vxlan"; vi_Options := model1VXLANOptions t; vi_ExternalIDs := model1TunnelExternalIDs t |}.
Definition model1VXLANPort (u iface : string) (t : Model1Tunnel) : VPort :=
  {| vp_UUID := u; vp_Name := mt_Name t; vp_Interfaces := [iface]; vp_ExternalIDs := model1TunnelExternalIDs t |}.

(** The interface and the port of a tunnel, with whether the row exists. *)
Definition tunnel_interface (t : Model1Tunnel) (interfaces : list VInterface) : M W (VInterface * bool) :=
  let! iface := lift (unique_row (interface_named (mt_Name t)) "OVS interface name is not unique" interfaces) in
  match iface with
  | None => let! u := ov_NewUUID ovs in ret (model1VXLANInterface u t, existsb (fun i => bool_decide (vi_UUID i = u)) interfaces)
  | Some i =>
      if negb (model1IDsMatch (vi_ExternalIDs i) (model1ExternalIDs (mt_Key t)))
      then fail (Errorf "OVS interface is not owned by the OVSDB-Programmed integration")
      else ret ({| vi_UUID := vi_UUID i; vi_Name := vi_Name i; vi_Type := "vxlan"; vi_Options := model1VXLANOptions t;
                   vi_ExternalIDs := mergeModel1IDs (vi_ExternalIDs i) (model1TunnelExternalIDs t) |}, true)
  end.
Definition other_port (iface : VInterface) (port : option VPort) (p : VPort) : bool :=
  model1Contains (vp_Interfaces p) (vi_UUID iface) && match port with Some q => negb (bool_decide (vp_UUID p = vp_UUID q)) | None => true end.
Definition tunnel_port (t : Model1Tunnel) (iface : VInterface) (ports : list VPort) : M W (VPort * bool) :=
  let! port := lift (unique_row (port_named (mt_Name t)) "OVS port name is not unique" ports) in
  if existsb (other_port iface port) ports then fail (Errorf "OVS interface is referenced by another port") else
  match port with
  | None => let! u := ov_NewUUID ovs in ret (model1VXLANPort u (vi_UUID iface) t, existsb (fun p => bool_decide (vp_UUID p = u)) ports)
  | Some p =>
      if negb (model1IDsMatch (vp_ExternalIDs p) (model1ExternalIDs (mt_Key t))) || negb (bool_decide (vp_Interfaces p = [vi_UUID iface]))
      then fail (Errorf "OVS port is not the owned OVSDB-Programmed tunnel port")
      else ret ({| vp_UUID := vp_UUID p; vp_Name := vp_Name p; vp_Interfaces := vp_Interfaces p;
                   vp_ExternalIDs := mergeModel1IDs (vp_ExternalIDs p) (model1TunnelExternalIDs t) |}, true)
  end.
Definition attached_bridges (p : VPort) (bridges : list VBridge) : list VBridge :=
  List.filter (fun b => model1Contains (vb_Ports b) (vp_UUID p)) bridges.

(** [ensureModel1OVSTunnel] *)
Definition ensureModel1OVSTunnel (t : Model1Tunnel) : M W unit :=
  let! bridges := ov_Bridges ovs in
  let! interfaces := ov_Interfaces ovs in
  let! ports := ov_Ports ovs in
  let! bridge := lift (unique_row (bridge_named (mt_Bridge t)) "OVS bridge name is not unique" bridges) in
  match bridge with
  | None => fail (Errorf "OVS bridge not found")
  | Some b =>
      if negb (model1ProviderBridgeMatchesTunnel b t) then fail (Errorf "OVS bridge is not the owned OVSDB-Programmed provider bridge") else
      let! (iface, iface_exists) := tunnel_interface t interfaces in
      let! (port, port_exists) := tunnel_port t iface ports in
      let owners := attached_bridges port bridges in
      if existsb (fun o => negb (bool_decide (vb_Name o = mt_Bridge t))) owners then fail (Errorf "OVS port is attached to unexpected bridge") else
      let iface_op := if iface_exists then VUpdateInterface iface else VCreateInterface iface in
      match owners with
      | [] => transact_ovs [iface_op; if port_exists then VUpdatePort port else VCreatePort port; VMutateBridge true b (vp_UUID port)]
      | [_] => transact_ovs [iface_op; VUpdatePort port]
      | _ => fail (Errorf "OVS port is attached to multiple bridges")
      end
  end.

(** [deleteModel1OVSTunnel] *)
Definition tunnel_interface_ok (t : Model1Tunnel) (i : VInterface) : bool :=
  bool_decide (vi_Type i = "vxlan"%string) && model1MapsEqual (vi_Options i) (model1VXLANOptions t).
Definition detach_bridge (t : Model1Tunnel) (port : VPort) (acc : list VRequest) (b : VBridge) : result (list VRequest) :=
  if negb (bool_decide (vb_Name b = mt_Bridge t)) then Err (Errorf "refusing to detach OVS port from unexpected bridge")
  else if negb (model1ProviderBridgeMatchesTunnel b t) then Err (Errorf "refusing to detach OVSDB-Programmed tunnel from an unowned provider bridge")
  else Ok (acc ++ [VMutateBridge false b (vp_UUID port)]).
Definition deleteModel1OVSTunnel (t : Model1Tunnel) : M W unit :=
  let! bridges := ov_Bridges ovs in
  let! interfaces := ov_Interfaces ovs in
  let! ports := ov_Ports ovs in
  let! iface := lift (unique_row (interface_named (mt_Name t)) "OVS interface name is not unique" interfaces) in
  let! port := lift (unique_row (port_named (mt_Name t)) "OVS port name is not unique" ports) in
  match iface, port with
  | None, None => ret tt
  | None, Some _ => fail (Errorf "refusing to delete unowned or incomplete OVS tunnel interface")
  | Some i, port =>
      if negb (model1IDsMatch (vi_ExternalIDs i) (model1TunnelExternalIDs t))
      then fail (Errorf "refusing to delete unowned or incomplete OVS tunnel interface")
      else if negb (tunnel_interface_ok t i) then fail (Errorf "refusing to delete OVSDB-Programmed interface with changed VXLAN configuration") else
      match port with
      | Some p =>
          if negb (model1IDsMatch (vp_ExternalIDs p) (model1TunnelExternalIDs t)) || negb (bool_decide (vp_Interfaces p = [vi_UUID i]))
          then fail (Errorf "refusing to delete unowned or mismatched OVS tunnel port") else
          let! requests := lift (rfold (detach_bridge t p) [] (attached_bridges p bridges)) in
          if (1 <? length requests)%nat then fail (Errorf "refusing to delete OVS port attached to multiple bridges") else
          transact_ovs (requests ++ [VDeletePort (vp_UUID p)])
      | None =>
          if existsb (fun p => model1Contains (vp_Interfaces p) (vi_UUID i)) ports
          then fail (Errorf "refusing to delete OVS interface still referenced by port") else
          transact_ovs [VDeleteInterface (vi_UUID i) (Some (model1TunnelExternalIDs t))]
      end
  end.

(** [EnsureModel1Tunnel] and [DeleteModel1Tunnel] *)
Definition EnsureModel1Tunnel (t : Model1Tunnel) : M W unit := do! lift (validateModel1Tunnel t) in ensureModel1OVSTunnel t.
Definition DeleteModel1Tunnel (t : Model1Tunnel) : M W unit := do! lift (validateModel1Tunnel t) in deleteModel1OVSTunnel t.

(** [LibovsdbModel1Programmer] as the handler sees it. *)
Definition LibovsdbModel1Programmer : Model1TunnelProgrammer W := {|
  tp_DeleteProviderBridge := DeleteModel1ProviderBridge;
  tp_EnsureNetwork := EnsureModel1Network;
  tp_DeleteNetwork := DeleteModel1Network;
  tp_EnsureTunnel := EnsureModel1Tunnel;
  tp_DeleteTunnel := DeleteModel1Tunnel;
|}.
End programmer.
