(* ===== verification/Model1ProgrammerSafety.v ===== *)
(** * What the OVSDB programmer writes

    Bridge mappings survive being printed and read, and every transaction of
    [LibovsdbModel1Programmer] ([src/pkg/evpn/ovsdb_programmer.go],
    [src/pkg/evpn/ovsdb_provider_bridge.go]) writes only rows that carry its ownership. *)

From S2P Require Import Prelude GoStd Journal Calls Type2 Reconciler GobgpAdapter RemoteType2 Model1 Model1Programmer.
From Stdlib Require Import Ascii.

(** ** Bridge mappings *)

(** Splitting what was joined. *)
Lemma split_join c l : l <> [] -> (forall s, s ∈ l -> c ∉ chars s) -> split c (chars (Join l (str [c]))) = chars <$> l.
Proof.
  intros Hne Hc. unfold split. induction l as [|s l IH]; [done|]. destruct l as [|s' l].
  - simpl. apply split_go_last. apply Hc. left.
  - change (Join (s :: s' :: l) (str [c])) with (s +:+ str [c] +:+ Join (s' :: l) (str [c]))%string.
    rewrite !chars_app, chars_str. simpl app. rewrite split_go_app by (apply Hc; left). rewrite fmap_cons. f_equal. apply IH; [done|].
    intros x Hx. apply Hc. by right.
Qed.

Lemma cut_colon_word before l rest : ":"%char ∉ l -> cut_colon before (l ++ ":"%char :: rest) = Some (str (rev before ++ l), str rest).
Proof.
  revert before. induction l as [|a l IH]; intros before Hc; simpl; [by rewrite app_nil_r|]. apply not_elem_of_cons in Hc as [Ha Hl].
  rewrite bool_decide_eq_false_2 by congruence. rewrite IH by done. simpl. by rewrite <-app_assoc.
Qed.

Lemma ContainsAny_spec s cs c : ContainsAny s cs = false -> c ∈ chars cs -> c ∉ chars s.
Proof.
  unfold ContainsAny. intros H Hc Hs. assert (existsb (fun a => existsb (Ascii.eqb a) (chars cs)) (chars s) = true) as E; [|congruence].
  apply existsb_exists. exists c. split; [by apply list_elem_of_In|]. apply existsb_exists. exists c. split; [by apply list_elem_of_In|apply Ascii.eqb_refl].
Qed.
Lemma mapping_plain k v : validModel1BridgeMapping k v = true -> ":"%char ∉ chars k /\ ","%char ∉ chars k /\ ","%char ∉ chars v.
Proof.
  unfold validModel1BridgeMapping. intros H. destruct (blank k || blank v); [done|]. destruct (_ || _); [done|]. cbn [forallb] in H. bools.
  split_and!; [apply (ContainsAny_spec k ":,")|apply (ContainsAny_spec k ":,")|apply (ContainsAny_spec v ":,")]; try done;
    [left|right; left|right; left].
Qed.

Definition mapping_text (m : gmap string string) (key : string) : string := (key +:+ ":" +:+ id_at key m)%string.
Lemma mapping_entry_text m acc k v : m !! k = Some v -> acc !! k = None -> validModel1BridgeMapping k v = true ->
  mapping_entry acc (chars (mapping_text m k)) = Ok (<[k := v]> acc).
Proof.
  intros Hm Ha Hv. destruct (mapping_plain k v Hv) as (Hk & _). unfold mapping_entry, mapping_text, id_at. rewrite Hm. simpl default.
  rewrite !chars_app. change (chars ":") with [":"%char]. simpl app. rewrite cut_colon_word by done. simpl. rewrite !str_chars, Hv. simpl.
  by rewrite Ha, bool_decide_eq_false_2 by (by intros [? ?]).
Qed.
Lemma mapping_entries m ks acc : NoDup ks -> (forall k, k ∈ ks -> acc !! k = None /\ exists v, m !! k = Some v /\ validModel1BridgeMapping k v = true) ->
  exists r, rfold mapping_entry acc (chars <$> (mapping_text m <$> ks)) = Ok r /\ forall k, r !! k = if decide (k ∈ ks) then m !! k else acc !! k.
Proof.
  revert acc. induction ks as [|k ks IH]; intros acc Hnd Hks; simpl; [exists acc; done|].
  apply NoDup_cons in Hnd as [Hk Hnd]. destruct (Hks k) as (Ha & v & Hm & Hv); [left|]. rewrite (mapping_entry_text m acc k v) by done. simpl.
  destruct (IH (<[k := v]> acc) Hnd) as (r & Hr & Hlook).
  { intros k' Hk'. destruct (Hks k') as (Ha' & Hv'); [by right|]. split; [|done]. rewrite lookup_insert_ne; [done|]. by intros ->. }
  exists r. split; [done|]. intros k'. rewrite Hlook. destruct (decide (k' = k)) as [->|Hne].
  - rewrite decide_False by done. rewrite lookup_insert_eq, decide_True by left. done.
  - rewrite lookup_insert_ne by done. destruct (decide (k' ∈ ks)); [rewrite decide_True by (by right)|rewrite decide_False by set_solver]; done.
Qed.

Lemma bridge_mappings_text m : (forall k v, m !! k = Some v -> validModel1BridgeMapping k v = true) ->
  parseModel1BridgeMappings (formatModel1BridgeMappings m) = Ok m.
Proof.
  intros Hv. unfold parseModel1BridgeMappings, formatModel1BridgeMappings. destruct (decide (m = ∅)) as [->|Hne]; [done|].
  change (fun key => _) with (mapping_text m).
  assert (sorted_keys m <> []) as Hks.
  { intros E. destruct (map_choose m Hne) as (k & v & Hk). assert (k ∈ sorted_keys m) as Hin by (apply elem_of_sorted_keys; by eexists).
    rewrite E in Hin. by apply not_elem_of_nil in Hin. }
  case_bool_decide as He.
  { exfalso. destruct (sorted_keys m) as [|k [|k' ks]]; [done|..]; simpl in He; unfold mapping_text in He;
      apply (f_equal chars) in He; rewrite !chars_app in He; by destruct (chars k). }
  change ","%string with (str [","%char]). rewrite split_join.
  - destruct (mapping_entries m (sorted_keys m) ∅) as (r & -> & Hr); [apply NoDup_sorted_keys|..].
    + intros k [v Hk]%elem_of_sorted_keys. split; [apply lookup_empty|]. eauto.
    + f_equal. apply map_eq. intros k. rewrite Hr. case_decide as Hk; [done|]. rewrite lookup_empty.
      destruct (m !! k) eqn:E; [|done]. destruct Hk. apply elem_of_sorted_keys. by eexists.
  - by destruct (sorted_keys m).
  - intros s (k & -> & [v Hk]%elem_of_sorted_keys)%list_elem_of_fmap. unfold mapping_text, id_at. rewrite Hk. simpl.
    destruct (mapping_plain k v (Hv k v Hk)) as (_ & H1 & H2). rewrite !chars_app. change (chars ":") with [":"%char]. set_solver.
Qed.

(** The bridge mappings of Open vSwitch survive a rewrite: mappings the code accepts are
    read back from the text it writes for them, entry by entry. *)
Theorem bridge_mappings_roundtrip m : (forall k v, m !! k = Some v -> validModel1BridgeMapping k v = true) ->
  parseModel1BridgeMappings (formatModel1BridgeMappings m) = Ok m.
Proof. apply bridge_mappings_text. Qed.

(** Mappings that were read are valid. *)
Lemma parse_valid raw m k v : parseModel1BridgeMappings raw = Ok m -> m !! k = Some v -> validModel1BridgeMapping k v = true.
Proof.
  unfold parseModel1BridgeMappings. case_bool_decide as Hr; [intros [= <-] Hk; by rewrite lookup_empty in Hk|]. intros H.
  set (I := fun (_ : list (list ascii)) (m : gmap string string) => forall k v, m !! k = Some v -> validModel1BridgeMapping k v = true).
  apply (rfold_invariant _ I) in H; [apply H|..].
  - intros k' v' Hk. by rewrite lookup_empty in Hk.
  - intros dn entry b b' _ Hb He k' v'. unfold mapping_entry in He. destruct (cut_colon [] entry) as [[physnet bridge]|]; [|done].
    destruct (validModel1BridgeMapping physnet bridge) eqn:Ev; [|done]. simpl in He. case_match; simplify_eq.
    intros [[<- <-]|[_ ?]]%lookup_insert_Some; [done|by apply Hb].
Qed.

(** ** Ownership *)

Definition managed (ids : gmap string string) : Prop := id_at model1ManagedByKey ids = model1Owner.

(** How the external_ids of the root may change for a network: only the mapping of its
    physical network and the note of its owner, and only when it was free or its own. *)
Definition root_edit {SH : Sha256} (n : Model1Network) (old new : gmap string string) : Prop :=
  (forall key, key <> model1BridgeMappingsKey -> key <> model1BridgeMappingOwnerKey (mn_PhysicalNetwork n) -> new !! key = old !! key)
  /\ exists m m', parseModel1BridgeMappings (id_at model1BridgeMappingsKey old) = Ok m
     /\ parseModel1BridgeMappings (id_at model1BridgeMappingsKey new) = Ok m'
     /\ (forall k, k <> mn_PhysicalNetwork n -> m' !! k = m !! k)
     /\ (m !! mn_PhysicalNetwork n = None \/ m !! mn_PhysicalNetwork n = Some (mn_ProviderBridge n)).

Lemma owner_key_ne {SH : Sha256} p : model1BridgeMappingOwnerKey p <> model1BridgeMappingsKey.
Proof. unfold model1BridgeMappingOwnerKey, model1BridgeMappingsKey. discriminate. Qed.
Lemma IDsMatch_managed actual expected : model1IDsMatch actual expected = true -> expected !! model1ManagedByKey = Some model1Owner -> managed actual.
Proof.
  unfold model1IDsMatch, managed. rewrite forallb_forall. intros H He. specialize (H (model1ManagedByKey, model1Owner)). simpl in H.
  apply elem_of_map_to_list, list_elem_of_In in He. apply H in He. by bools.
Qed.
Lemma merge_managed actual expected : expected !! model1ManagedByKey = Some model1Owner -> managed (mergeModel1IDs actual expected).
Proof. intros H. unfold managed, id_at, mergeModel1IDs. by rewrite (lookup_union_Some_l _ _ _ _ H). Qed.
Lemma own_managed ids : ids !! model1ManagedByKey = Some model1Owner -> managed ids.
Proof. intros H. unfold managed, id_at. by rewrite H. Qed.

Lemma unique_row_in {A} p msg (rows : list A) x : unique_row p msg rows = Ok (Some x) -> x ∈ rows /\ p x = true.
Proof.
  intros H. set (I := fun (done : list A) acc => forall x, acc = Some x -> x ∈ done /\ p x = true).
  apply (rfold_invariant _ I) in H; [by apply H|done|].
  intros done y b b' _ Hb Hy z ->. destruct (p y) eqn:E; [destruct b; simplify_eq; set_solver|]. simplify_eq. destruct (Hb z eq_refl). set_solver.
Qed.

Section writes.
Context {W OvOp NbOp : Type} {SH : Sha256} {JL : Json (list string)} (ovs : OvsClient W OvOp) (nb : NbDbClient W NbOp).
Context (P : W -> Prop).

(** A row that a listing showed, and an identifier the code made. *)
Definition listed {A} (m : M W (list A)) (x : A) : Prop := exists w w' rows, P w /\ m w = (w', Ok rows) /\ x ∈ rows.
Definition generated (u : string) : Prop := exists w w', P w /\ ov_NewUUID ovs w = (w', Ok u).

(** The requests the programmer may make: it creates rows that carry its mark, and changes
    only rows that were listed with the mark, or that have an identifier it just made. *)
Inductive v_allowed : VRequest -> Prop :=
  | allow_create_bridge b : managed (vb_ExternalIDs b) -> v_allowed (VCreateBridge b)
  | allow_create_port p : managed (vp_ExternalIDs p) -> v_allowed (VCreatePort p)
  | allow_create_interface i : managed (vi_ExternalIDs i) -> v_allowed (VCreateInterface i)
  | allow_attach root u : listed (ov_Roots ovs) root -> generated u -> v_allowed (VMutateRoot true root u)
  | allow_detach root b : listed (ov_Roots ovs) root -> listed (ov_Bridges ovs) b -> managed (vb_ExternalIDs b) -> v_allowed (VMutateRoot false root (vb_UUID b))
  | allow_root root n ids : listed (ov_Roots ovs) root -> root_edit n (vr_ExternalIDs root) ids -> v_allowed (VUpdateRoot root ids)
  | allow_bridge insert b port : listed (ov_Bridges ovs) b -> managed (vb_ExternalIDs b) -> v_allowed (VMutateBridge insert b port)
  | allow_update_interface i : managed (vi_ExternalIDs i) ->
      generated (vi_UUID i) \/ (exists old, listed (ov_Interfaces ovs) old /\ managed (vi_ExternalIDs old) /\ vi_UUID i = vi_UUID old) -> v_allowed (VUpdateInterface i)
  | allow_update_port p : managed (vp_ExternalIDs p) ->
      generated (vp_UUID p) \/ (exists old, listed (ov_Ports ovs) old /\ managed (vp_ExternalIDs old) /\ vp_UUID p = vp_UUID old) -> v_allowed (VUpdatePort p)
  | allow_delete_bridge b : listed (ov_Bridges ovs) b -> managed (vb_ExternalIDs b) -> v_allowed (VDeleteBridge (vb_UUID b))
  | allow_delete_port p : listed (ov_Ports ovs) p -> managed (vp_ExternalIDs p) -> v_allowed (VDeletePort (vp_UUID p))
  | allow_delete_interface i e : listed (ov_Interfaces ovs) i -> managed (vi_ExternalIDs i) -> v_allowed (VDeleteInterface (vi_UUID i) e).
Inductive n_allowed : NRequest -> Prop :=
  | allow_n_create p : managed (np_ExternalIDs p) -> n_allowed (NCreatePort p)
  | allow_n_delete p : listed (nd_Ports nb) p -> managed (np_ExternalIDs p) -> n_allowed (NDeletePort (np_UUID p))
  | allow_n_switch insert s port : listed (nd_Switches nb) s ->
      (exists p, listed (nd_Ports nb) p /\ managed (np_ExternalIDs p) /\ np_UUID p = port)
      \/ insert = true /\ (exists w w', P w /\ nd_NewUUID nb w = (w', Ok port)) -> n_allowed (NMutateSwitch insert s port).

(** Reading keeps [P], and so does a transaction of permitted requests. *)
Record keeps : Prop := {
  keeps_bridges : preserves P (ov_Bridges ovs); keeps_ports : preserves P (ov_Ports ovs); keeps_interfaces : preserves P (ov_Interfaces ovs);
  keeps_roots : preserves P (ov_Roots ovs); keeps_uuid : preserves P (ov_NewUUID ovs);
  keeps_switches : preserves P (nd_Switches nb); keeps_lsps : preserves P (nd_Ports nb); keeps_nb_uuid : preserves P (nd_NewUUID nb);
  keeps_ovs requests ops : Forall v_allowed requests ->
    rfold (fun acc r => let? ops := ov_build ovs r in Ok (acc ++ ops)) [] requests = Ok ops -> preserves P (ov_Transact ovs ops);
  keeps_nb requests ops : Forall n_allowed requests ->
    rfold (fun acc r => let? ops := nd_build nb r in Ok (acc ++ ops)) [] requests = Ok ops -> preserves P (nd_Transact nb ops);
}.
Context (K : keeps).

(** ** The calls of the programmer *)

Notation call m Q := (Calls.call P P m Q).
Lemma call_list {A} (m : M W (list A)) : preserves P m -> call m (fun rows => forall x, x ∈ rows -> listed m x).
Proof.
  intros Hm w w' r Hw H. pose proof (Hm w Hw) as Hp. rewrite H in Hp. split; [done|]. intros rows -> x Hx. by exists w, w', rows.
Qed.
Lemma call_uuid : call (ov_NewUUID ovs) generated.
Proof. intros w w' r Hw H. pose proof (keeps_uuid K w Hw) as Hp. rewrite H in Hp. split; [done|]. intros u ->. by exists w, w'. Qed.

Notation done_ := (fun _ : unit => True).
Lemma call_ovs requests : Forall v_allowed requests -> call (transact_ovs ovs requests) done_.
Proof.
  intros Ha. apply (call_seq P _ _ (fun ops => rfold (fun acc r => let? ops := ov_build ovs r in Ok (acc ++ ops)) [] requests = Ok ops)); [by apply call_lift|].
  intros ops Hops. case_match; [by apply call_ret|].
  apply (call_seq P _ _ (fun _ => True)); [|intros results _; by apply call_lift].
  intros w w' r Hw H1. pose proof (keeps_ovs K requests ops Ha Hops w Hw) as Hp. rewrite H1 in Hp. done.
Qed.
Lemma call_nb requests : Forall n_allowed requests -> call (transact_nb nb requests) done_.
Proof.
  intros Ha. apply (call_seq P _ _ (fun ops => rfold (fun acc r => let? ops := nd_build nb r in Ok (acc ++ ops)) [] requests = Ok ops)); [by apply call_lift|].
  intros ops Hops. case_match; [by apply call_ret|].
  apply (call_seq P _ _ (fun _ => True)); [|intros results _; by apply call_lift].
  intros w w' r Hw H1. pose proof (keeps_nb K requests ops Ha Hops w Hw) as Hp. rewrite H1 in Hp. done.
Qed.
Lemma call_root : call (model1OpenvSwitchRoot ovs) (listed (ov_Roots ovs)).
Proof.
  eapply call_seq; [apply call_list, K|]. intros [|root [|]] Hr; try apply call_fail. apply call_ret, Hr. left.
Qed.

Lemma map_err_Ok {A} f (x : result A) a : map_err f x = Ok a -> x = Ok a.
Proof. by destruct x. Qed.
Lemma call_validate n : call (lift (validateModel1Network n)) (fun _ => network_ok n = true).
Proof. apply call_lift. intros []. unfold validateModel1Network. by destruct (network_ok n). Qed.
Lemma call_unique {A} p msg (rows : list A) : call (lift (unique_row p msg rows)) (fun o => forall x, o = Some x -> x ∈ rows).
Proof. apply call_lift. intros o H x ->. by eapply unique_row_in. Qed.
Lemma call_lift_any {A} (x : result A) : call (lift x) (fun _ => True).
Proof. by apply call_lift. Qed.

Lemma network_ids_managed n : model1NetworkExternalIDs n !! model1ManagedByKey = Some model1Owner.
Proof. apply lookup_insert_eq. Qed.
Lemma bridge_ids_managed n : model1ProviderBridgeExternalIDs n !! model1ManagedByKey = Some model1Owner.
Proof. unfold model1ProviderBridgeExternalIDs. rewrite lookup_insert_ne by discriminate. apply network_ids_managed. Qed.
Lemma local_ids_managed n : model1ProviderBridgeLocalExternalIDs n !! model1ManagedByKey = Some model1Owner.
Proof. apply lookup_insert_eq. Qed.
Lemma key_ids_managed k : model1ExternalIDs k !! model1ManagedByKey = Some model1Owner.
Proof. apply lookup_insert_eq. Qed.
Lemma tunnel_ids_managed t : model1TunnelExternalIDs t !! model1ManagedByKey = Some model1Owner.
Proof. unfold model1TunnelExternalIDs. rewrite lookup_insert_ne by discriminate. apply key_ids_managed. Qed.
Hint Resolve network_ids_managed bridge_ids_managed local_ids_managed key_ids_managed tunnel_ids_managed IDsMatch_managed merge_managed own_managed : core.

Lemma local_port_inv b ports interfaces n p i : validateModel1ProviderBridgeLocalPort b ports interfaces n = Ok (p, i) ->
  p ∈ ports /\ i ∈ interfaces /\ managed (vp_ExternalIDs p) /\ managed (vi_ExternalIDs i).
Proof.
  unfold validateModel1ProviderBridgeLocalPort. destruct (unique_row _ _ ports) as [[port|]|] eqn:Ep; [|done..]. simpl.
  destruct (vp_Interfaces port) as [|iu []]; [done| |done]. case_match eqn:E1; [done|].
  destruct (unique_row _ _ interfaces) as [[iface|]|] eqn:Ei; [|done..]. simpl. case_match eqn:E2; [done|]. intros [= <- <-]. bools.
  apply unique_row_in in Ep as [? _], Ei as [? _]. split_and!; eauto.
Qed.

Lemma call_create_bridge n root : listed (ov_Roots ovs) root -> call (create_bridge ovs n root) done_.
Proof.
  intros Hr. do 3 (eapply call_seq; [apply call_uuid|]; intros ? ?). apply call_ovs. repeat constructor; simpl; auto.
Qed.

Lemma call_EnsureBridge n : call (EnsureModel1ProviderBridge ovs n) done_.
Proof.
  eapply call_seq; [apply call_validate|]. intros _ _. eapply call_seq.
  { eapply call_seq; [apply call_root|]. intros root _. eapply call_seq; [apply call_lift_any|]. intros m _. apply call_lift_any. }
  intros _ _. eapply call_seq; [apply call_list, K|]. intros bridges Hb. eapply call_seq; [apply call_list, K|]. intros ports Hp.
  eapply call_seq; [apply call_list, K|]. intros interfaces Hi. eapply call_seq; [apply call_unique|]. intros [b|] Hub.
  - case_match; [apply call_fail|]. case_match; [apply call_fail|]. eapply call_seq; [apply call_root|]. intros root Hr.
    case_match; [apply call_fail|]. eapply call_seq; [apply call_lift_any|]. intros _ _. by apply call_ret.
  - case_match; [apply call_fail|]. case_match; [apply call_fail|]. eapply call_seq; [apply call_root|]. intros root Hr. by apply call_create_bridge.
Qed.

Lemma call_no_tunnels n : call (ensureModel1NetworkHasNoTunnels ovs n) done_.
Proof. eapply call_seq; [apply call_list, K|]. intros interfaces _. case_match; [apply call_fail|by apply call_ret]. Qed.

Lemma call_DeleteBridge n : call (DeleteModel1ProviderBridge ovs n) done_.
Proof.
  eapply call_seq; [apply call_validate|]. intros _ _. eapply call_seq; [apply call_no_tunnels|]. intros _ _.
  eapply call_seq; [apply call_root|]. intros root Hr. eapply call_seq; [apply call_lift_any|]. intros m _. case_match; [apply call_fail|].
  eapply call_seq; [apply call_list, K|]. intros bridges Hb. eapply call_seq; [apply call_list, K|]. intros ports Hp.
  eapply call_seq; [apply call_list, K|]. intros interfaces Hi. eapply call_seq; [apply call_unique|]. intros [b|] Hub.
  - case_match eqn:Eb; [apply call_fail|]. case_match; [apply call_fail|]. bools.
    eapply (call_seq P _ _ (fun pi => pi.1 ∈ ports /\ pi.2 ∈ interfaces /\ managed (vp_ExternalIDs pi.1) /\ managed (vi_ExternalIDs pi.2))).
    { apply call_lift. intros [p i] Hv%map_err_Ok. by eapply local_port_inv. }
    intros [p i] (Hpp & Hii & Hmp & Hmi). apply call_ovs. repeat constructor; eauto.
  - case_match; [apply call_fail|]. case_match; [apply call_fail|by apply call_ret].
Qed.

(** The two branches of a guard. *)
Ltac branch E := match goal with |- call (if ?b then _ else _) _ => let H := fresh E in destruct b eqn:H end.

(** The edits of the root row. *)
Lemma ensure_root_edit n ids m : network_ok n = true -> parseModel1BridgeMappings (id_at model1BridgeMappingsKey ids) = Ok m ->
  (m !! mn_PhysicalNetwork n = None \/ m !! mn_PhysicalNetwork n = Some (mn_ProviderBridge n)) ->
  root_edit n ids (<[model1BridgeMappingOwnerKey (mn_PhysicalNetwork n) := mn_ProviderBridge n]>
    (<[model1BridgeMappingsKey := formatModel1BridgeMappings (<[mn_PhysicalNetwork n := mn_ProviderBridge n]> m)]> ids)).
Proof.
  intros Hn Hm Hold. split.
  - intros key H1 H2. by rewrite !lookup_insert_ne.
  - exists m, (<[mn_PhysicalNetwork n := mn_ProviderBridge n]> m). split_and!; [done| |intros k Hk; by rewrite lookup_insert_ne|done].
    unfold id_at at 1. rewrite lookup_insert_ne, lookup_insert_eq by apply owner_key_ne. simpl. apply bridge_mappings_text.
    intros k v [[<- <-]|[_ Hk]]%lookup_insert_Some; [unfold network_ok in Hn; by bools|by eapply parse_valid].
Qed.
Lemma delete_root_edit n ids m m' : parseModel1BridgeMappings (id_at model1BridgeMappingsKey ids) = Ok m ->
  (m !! mn_PhysicalNetwork n = None \/ m !! mn_PhysicalNetwork n = Some (mn_ProviderBridge n)) -> m' = m \/ m' = delete (mn_PhysicalNetwork n) m ->
  root_edit n ids (without_mapping n m' ids).
Proof.
  intros Hm Hold Hm'. unfold without_mapping. split.
  - intros key H1 H2. case_match; rewrite ?lookup_delete_ne, ?lookup_insert_ne, ?lookup_delete_ne by done; done.
  - exists m, m'. split_and!; [done| |destruct Hm' as [->| ->]; [done|]; intros k Hk; by rewrite lookup_delete_ne|done].
    case_bool_decide as He; unfold id_at at 1; [rewrite lookup_delete_eq; by subst|]. rewrite lookup_insert_eq. simpl. apply bridge_mappings_text.
    intros k v Hk. eapply parse_valid; [done|]. destruct Hm' as [->| ->]; [done|]. by apply lookup_delete_Some in Hk as [_ ?].
Qed.

Lemma call_ensureMapping n : network_ok n = true -> call (ensureModel1BridgeMapping ovs n) done_.
Proof.
  intros Hn. eapply call_seq; [apply call_list, K|]. intros bridges Hb. eapply call_seq; [apply call_unique|]. intros [b|] _; [|apply call_fail].
  branch Eg; [apply call_fail|]. branch Eg; [apply call_fail|]. eapply call_seq; [apply call_root|]. intros root Hr.
  eapply (call_seq P _ _ (fun m => parseModel1BridgeMappings (id_at model1BridgeMappingsKey (vr_ExternalIDs root)) = Ok m)); [by apply call_lift|]. intros m Hm.
  eapply (call_seq P _ _ (fun _ => m !! mn_PhysicalNetwork n = None \/ m !! mn_PhysicalNetwork n = Some (mn_ProviderBridge n))).
  { apply call_lift. intros []. unfold validateModel1BridgeMappings. destruct (m !! mn_PhysicalNetwork n) as [b'|] eqn:E; [|by left].
    destruct (bool_decide (b' = mn_ProviderBridge n)) eqn:Eb; [|done]. intros _. right. bools. by subst. }
  intros _ Hold. cbv zeta. branch Eid; [by apply call_ret|]. apply call_ovs. constructor; [|done]. eapply allow_root; [done|]. by apply ensure_root_edit.
Qed.
Lemma call_deleteMapping n : call (deleteModel1BridgeMapping ovs n) done_.
Proof.
  eapply call_seq; [apply call_root|]. intros root Hr. destruct (vr_ExternalIDs root !! _) as [owner|]; [|by apply call_ret].
  branch Eg; [apply call_fail|].
  eapply (call_seq P _ _ (fun m => parseModel1BridgeMappings (id_at model1BridgeMappingsKey (vr_ExternalIDs root)) = Ok m)); [by apply call_lift|]. intros m Hm.
  cbv zeta. branch E; [apply call_fail|]. apply call_ovs. constructor; [|done]. eapply allow_root; [done|]. apply (delete_root_edit n _ m); [done|..].
  - unfold id_at in E. destruct (m !! mn_PhysicalNetwork n) as [v|] eqn:Ev; [|by left]. right. simpl in E. apply andb_false_iff in E as [E|E]; bools; [|by subst].
    subst v. apply (parse_valid _ _ _ _ Hm) in Ev. unfold validModel1BridgeMapping in Ev. by rewrite orb_true_r in Ev.
  - case_match; auto.
Qed.

(** The localnet port of a network. *)
Lemma localnet_managed n p : localnet_ok n p = true -> managed (np_ExternalIDs p).
Proof. unfold localnet_ok. intros H. bools. eauto. Qed.
Lemma call_nb_uuid : call (nd_NewUUID nb) (fun u => exists w w', P w /\ nd_NewUUID nb w = (w', Ok u)).
Proof. intros w w' r Hw H. pose proof (keeps_nb_uuid K w Hw) as Hp. rewrite H in Hp. split; [done|]. intros u ->. by exists w, w'. Qed.
Lemma call_ensureLocalnet n : call (ensureModel1LocalnetLSP nb n) done_.
Proof.
  eapply call_seq; [apply call_list, K|]. intros switches Hs. eapply call_seq; [apply call_unique|]. intros [s|] Hus; [|apply call_fail].
  eapply call_seq; [apply call_list, K|]. intros ports Hp. eapply call_seq; [apply call_unique|]. intros [p|] Hup.
  - cbv zeta. destruct (localnet_ok n p) eqn:E; [|apply call_fail]. simpl negb. cbv iota. apply localnet_managed in E. branch Eg; [apply call_fail|].
    destruct (attached_switches p switches) as [|o [|]]; [|by apply call_ret|apply call_fail].
    apply call_nb. constructor; [|done]. constructor; [eauto|]. left. exists p. split_and!; eauto.
  - eapply call_seq; [apply call_nb_uuid|]. intros u Hu. apply call_nb. constructor; [constructor; simpl; auto|]. constructor; [|done]. constructor; eauto.
Qed.
Lemma call_deleteLocalnet n : call (deleteModel1LocalnetLSP nb n) done_.
Proof.
  eapply call_seq; [apply call_list, K|]. intros switches Hs. eapply call_seq; [apply call_list, K|]. intros ports Hp.
  eapply call_seq; [apply call_unique|]. intros [p|] Hup; [|by apply call_ret]. cbv zeta.
  destruct (localnet_ok n p) eqn:E; [|apply call_fail]. simpl negb. cbv iota. apply localnet_managed in E. branch Eg; [apply call_fail|].
  apply call_nb, Forall_app. split; [|constructor; [constructor; eauto|done]]. apply Forall_forall. intros r (s & -> & Hin)%list_elem_of_fmap.
  constructor; [|left; exists p; split_and!; eauto]. apply Hs. unfold attached_switches in Hin. apply list_elem_of_In, filter_In in Hin as [Hin _]. by apply list_elem_of_In.
Qed.
Lemma call_steps first second : call first done_ -> call second done_ -> call (runModel1DatabaseSteps first second) done_.
Proof. intros H1 H2. eapply call_seq; [apply call_wrap, H1|]. intros _ _. apply call_wrap, H2. Qed.
Lemma call_EnsureNetwork n : call (EnsureModel1Network ovs nb n) done_.
Proof.
  eapply call_seq; [apply call_validate|]. intros ? Hn. eapply call_seq; [apply call_wrap, call_EnsureBridge|]. intros _ _.
  apply call_steps; [by apply call_ensureMapping|apply call_ensureLocalnet].
Qed.
Lemma call_DeleteNetwork n : call (DeleteModel1Network ovs nb n) done_.
Proof.
  eapply call_seq; [apply call_validate|]. intros ? Hn. eapply call_seq; [apply call_no_tunnels|]. intros _ _.
  apply call_steps; [apply call_deleteLocalnet|apply call_deleteMapping].
Qed.

(** The interface and the port of a tunnel. *)
Definition owned_interface (i : VInterface) : Prop := managed (vi_ExternalIDs i)
  /\ (generated (vi_UUID i) \/ exists old, listed (ov_Interfaces ovs) old /\ managed (vi_ExternalIDs old) /\ vi_UUID i = vi_UUID old).
Definition owned_port (p : VPort) : Prop := managed (vp_ExternalIDs p)
  /\ (generated (vp_UUID p) \/ exists old, listed (ov_Ports ovs) old /\ managed (vp_ExternalIDs old) /\ vp_UUID p = vp_UUID old).
Lemma call_tunnel_interface t rows : (forall i, i ∈ rows -> listed (ov_Interfaces ovs) i) ->
  call (tunnel_interface ovs t rows) (fun ie => owned_interface ie.1).
Proof.
  intros Hr. eapply call_seq; [apply call_unique|]. intros [i|] Hi.
  - branch E; [apply call_fail|]. bools. apply call_ret. simpl. split; [simpl; auto|]. right. exists i. split_and!; eauto.
  - eapply call_seq; [apply call_uuid|]. intros u Hu. apply call_ret. split; simpl; auto.
Qed.
Lemma call_tunnel_port t iface rows : (forall p, p ∈ rows -> listed (ov_Ports ovs) p) ->
  call (tunnel_port ovs t iface rows) (fun pe => owned_port pe.1).
Proof.
  intros Hr. eapply call_seq; [apply call_unique|]. intros port Hp. branch Eg; [apply call_fail|]. destruct port as [p|].
  - branch E; [apply call_fail|]. bools. apply call_ret. simpl. split; [simpl; auto|]. right. exists p. split_and!; eauto.
  - eapply call_seq; [apply call_uuid|]. intros u Hu. apply call_ret. split; simpl; auto.
Qed.
Lemma matches_managed b t : model1ProviderBridgeMatchesTunnel b t = true -> managed (vb_ExternalIDs b).
Proof. unfold model1ProviderBridgeMatchesTunnel. intros H. bools. done. Qed.
Lemma interface_op_allowed i (e : bool) : owned_interface i -> v_allowed (if e then VUpdateInterface i else VCreateInterface i).
Proof. intros [? ?]. destruct e; by constructor. Qed.
Lemma port_op_allowed p (e : bool) : owned_port p -> v_allowed (if e then VUpdatePort p else VCreatePort p).
Proof. intros [? ?]. destruct e; by constructor. Qed.
Lemma call_ensureTunnel t : call (ensureModel1OVSTunnel ovs t) done_.
Proof.
  eapply call_seq; [apply call_list, K|]. intros bridges Hb. eapply call_seq; [apply call_list, K|]. intros interfaces Hi.
  eapply call_seq; [apply call_list, K|]. intros ports Hp. eapply call_seq; [apply call_unique|]. intros [b|] Hub; [|apply call_fail].
  destruct (model1ProviderBridgeMatchesTunnel b t) eqn:E; [|apply call_fail]. simpl negb. cbv iota. apply matches_managed in E.
  eapply call_seq; [by apply call_tunnel_interface|]. intros [iface ie] Ho. eapply call_seq; [by apply call_tunnel_port|]. intros [port pe] Hop.
  simpl in Ho, Hop. cbv zeta. branch Eg; [apply call_fail|].
  assert (v_allowed (VMutateBridge true b (vp_UUID port))) as Hm by (constructor; eauto).
  destruct (attached_bridges port bridges) as [|o [|]]; [..|apply call_fail]; apply call_ovs; repeat apply Forall_cons_2; try done;
    first [by apply interface_op_allowed|by apply port_op_allowed|by apply (port_op_allowed port true)].
Qed.

Lemma detach_allowed t p (bridges rows : list VBridge) requests : (forall b, b ∈ bridges -> listed (ov_Bridges ovs) b) ->
  (forall b, b ∈ rows -> b ∈ bridges) -> rfold (detach_bridge t p) [] rows = Ok requests -> Forall v_allowed requests.
Proof.
  intros Hb Hsub H. set (I := fun (dn : list VBridge) (rs : list VRequest) => (forall b, b ∈ dn -> b ∈ bridges) -> Forall v_allowed rs).
  apply (rfold_invariant _ I) in H; [by apply H|by intros _|]. intros dn b rs rs' _ IH Hs Hd. unfold detach_bridge in Hs.
  case_match; [done|]. destruct (model1ProviderBridgeMatchesTunnel b t) eqn:E; [|done]. simpl in Hs. simplify_eq. apply Forall_app.
  split; [apply IH; set_solver|]. constructor; [|done]. constructor; [apply Hb, Hd; set_solver|by eapply matches_managed].
Qed.
Lemma call_deleteTunnel t : call (deleteModel1OVSTunnel ovs t) done_.
Proof.
  eapply call_seq; [apply call_list, K|]. intros bridges Hb. eapply call_seq; [apply call_list, K|]. intros interfaces Hi.
  eapply call_seq; [apply call_list, K|]. intros ports Hp. eapply call_seq; [apply call_unique|]. intros iface Hui.
  eapply call_seq; [apply call_unique|]. intros port Hup. destruct iface as [i|]; [|destruct port; [apply call_fail|by apply call_ret]].
  branch Ei; [apply call_fail|]. branch Eg; [apply call_fail|]. bools. destruct port as [p|].
  - branch Ep; [apply call_fail|]. bools. eapply (call_seq P _ _ (Forall v_allowed)).
    { apply call_lift. intros requests Hr. eapply detach_allowed; [exact Hb| |exact Hr]. intros b Hin. unfold attached_bridges in Hin.
      apply list_elem_of_In, filter_In in Hin as [Hin _]. by apply list_elem_of_In. }
    intros requests Hr. branch Eg; [apply call_fail|]. apply call_ovs, Forall_app. split; [done|]. constructor; [|done]. constructor; eauto.
  - branch Eg; [apply call_fail|]. apply call_ovs. constructor; [|done]. constructor; eauto.
Qed.

End writes.

Section owned.
Context {W OvOp NbOp : Type} {SH : Sha256} {JL : Json (list string)} (ovs : OvsClient W OvOp) (nb : NbDbClient W NbOp).

End owned.
