(* ===== verification/Attachment.v ===== *)
(** * Local OVS attachments

    Models [src/pkg/attachment]: the identity recorded in [external_ids]
    ([identity.go]), its reading and matching ([recovery.go]), the attachment
    manager ([ovs.go]) and the libovsdb store under it ([ovsdb_store.go]).
    The OVSDB client is a parameter; a nil [external_ids] map is [None]. *)

From S2P Require Import Prelude GoStd Journal.

(** ** OVS rows *)

Record Interface := {
  if_UUID : string;
  if_Name : string;
  if_Type : string;
  if_ExternalIDs : option (gmap string string);
}.
Record Port := { po_UUID : string; po_Name : string; po_Interfaces : list string }.
Record Bridge := { br_UUID : string; br_Name : string; br_Ports : list string }.

#[export] Instance Interface_eq_dec : EqDecision Interface.
Proof. solve_decision. Defined.
#[export] Instance Port_eq_dec : EqDecision Port.
Proof. solve_decision. Defined.
#[export] Instance Bridge_eq_dec : EqDecision Bridge.
Proof. solve_decision. Defined.

(** ** Identity *)

Definition ExternalIDManagedBy : string := "evpn.framework/managed-by".
Definition ExternalIDEndpointID : string := "evpn.framework/endpoint-id".
Definition ExternalIDNetworkID : string := "evpn.framework/network-id".
Definition ExternalIDAttachID : string := "evpn.framework/attachment-id".
Definition ExternalIDWorkloadUID : string := "evpn.framework/workload-uid".
Definition ExternalIDIncarnation : string := "evpn.framework/incarnation".
Definition ExternalIDIfaceID : string := "iface-id".
Definition OwnerValue : string := "evpn-node-agent".

(** [Identity] = [endpoint.AttachmentIdentity] *)
Record Identity := {
  id_EndpointID : string;
  id_NetworkID : string;
  id_AttachmentID : string;
  id_WorkloadUID : string;
  id_Incarnation : string;
}.

#[export] Instance Identity_eq_dec : EqDecision Identity.
Proof. solve_decision. Defined.

(** [endpoint.AttachmentSpec], [endpoint.AttachmentStatus] *)
Record AttachmentSpec := {
  as_EndpointID : string;
  as_LogicalSwitchPort : string;
  as_OVSInterfaceName : string;
  as_MACAddress : string;
}.
Record AttachmentStatus := { at_OVSInterfaceName : string }.

Inductive DeleteOutcome := DeleteOutcomeDeleted | DeleteOutcomeMissing | DeleteOutcomeStale.

Record AttachmentRecord := {
  ar_InterfaceName : string;
  ar_LogicalSwitchPort : string;
  ar_Identity : Identity;
  ar_ManagedBy : string;
}.

Definition ErrAttachmentOwnershipConflict (msg : string) : error := Sentinel SAttachmentOwnershipConflict msg.
Definition ErrStaleOperation (msg : string) : error := Sentinel SStaleOperation msg.
Definition ErrAttachmentNotFound : error := Sentinel SAttachmentNotFound "attachment not found".

(** [ValidateIdentity] *)
Definition ValidateIdentity (i : Identity) : result unit :=
  if blank (id_EndpointID i) then Err (Errorf "endpoint_id is required")
  else if blank (id_NetworkID i) then Err (Errorf "network_id is required")
  else if blank (id_AttachmentID i) then Err (Errorf "attachment_id is required")
  else if blank (id_WorkloadUID i) then Err (Errorf "workload_uid is required")
  else if blank (id_Incarnation i) then Err (Errorf "incarnation is required")
  else Ok tt.

(** [ExternalIDsForIdentity] *)
Definition ExternalIDsForIdentity (i : Identity) (logicalSwitchPort mac : string) : gmap string string :=
  let ids : gmap string string :=
    list_to_map [(ExternalIDManagedBy, OwnerValue); (ExternalIDEndpointID, id_EndpointID i);
                 (ExternalIDNetworkID, id_NetworkID i); (ExternalIDAttachID, id_AttachmentID i);
                 (ExternalIDWorkloadUID, id_WorkloadUID i); (ExternalIDIncarnation, id_Incarnation i);
                 (ExternalIDIfaceID, logicalSwitchPort)] in
  if negb (blank mac) then <["attached-mac"%string := mac]> ids else ids.

(** [m[key]] on a Go map of strings: the zero value when absent. *)
Definition at_key (m : gmap string string) (key : string) : string := default ""%string (m !! key).

(** [identityFromExternalIDs] *)
Definition identityFromExternalIDs (externalIDs : option (gmap string string)) : Identity :=
  match externalIDs with
  | None => {| id_EndpointID := ""; id_NetworkID := ""; id_AttachmentID := ""; id_WorkloadUID := "";
               id_Incarnation := "" |}
  | Some m => {| id_EndpointID := TrimSpace (at_key m ExternalIDEndpointID);
                 id_NetworkID := TrimSpace (at_key m ExternalIDNetworkID);
                 id_AttachmentID := TrimSpace (at_key m ExternalIDAttachID);
                 id_WorkloadUID := TrimSpace (at_key m ExternalIDWorkloadUID);
                 id_Incarnation := TrimSpace (at_key m ExternalIDIncarnation) |}
  end.

(** [isManagedByFramework] *)
Definition isManagedByFramework (iface : Interface) : bool :=
  match if_ExternalIDs iface with
  | None => false
  | Some m => bool_decide (TrimSpace (at_key m ExternalIDManagedBy) = OwnerValue)
  end.

(** [validateIdentityMatch] *)
Definition validateIdentityMatch (existing wanted : Identity) : result unit :=
  if negb (bool_decide (id_EndpointID existing = id_EndpointID wanted))
  then Err (ErrAttachmentOwnershipConflict "endpoint mismatch")
  else if negb (bool_decide (id_NetworkID existing = id_NetworkID wanted))
  then Err (ErrAttachmentOwnershipConflict "network mismatch")
  else if negb (bool_decide (id_AttachmentID existing = id_AttachmentID wanted))
  then Err (ErrAttachmentOwnershipConflict "attachment mismatch")
  else if negb (bool_decide (id_WorkloadUID existing = id_WorkloadUID wanted))
  then Err (ErrAttachmentOwnershipConflict "workload uid mismatch")
  else Ok tt.

(** [contains] *)
Definition contains (items : list string) (target : string) : bool :=
  existsb (fun item => bool_decide (item = target)) items.

(** ** The store interface *)

Record OVSStore (W : Type) := {
  ListBridges : M W (list Bridge);
  ListInterfaces : M W (list Interface);
  ListPorts : M W (list Port);
  CreateInterface : Interface -> M W unit;
  CreateInterfacePortAndAttachBridge : string -> Interface -> Port -> M W unit;
  UpdateInterface : Interface -> M W unit;
  DeleteInterface : Interface -> M W unit;
  DeleteInterfaceIfExternalIDsMatch : string -> gmap string string -> M W bool;
  CreatePort : Port -> M W unit;
  CreatePortAndAttachBridge : string -> Port -> M W unit;
  UpdatePort : Port -> M W unit;
  DeletePort : Port -> M W unit;
  EnsureBridgePort : string -> string -> M W unit;
  DetachPortFromBridgeIfInterfaceOwned : string -> string -> string -> gmap string string -> M W bool;
}.
Arguments ListBridges {W} _.
Arguments ListInterfaces {W} _.
Arguments ListPorts {W} _.
Arguments CreateInterfacePortAndAttachBridge {W} _ _ _ _.
Arguments UpdateInterface {W} _ _.
Arguments DeleteInterfaceIfExternalIDsMatch {W} _ _ _.
Arguments CreatePortAndAttachBridge {W} _ _ _.
Arguments UpdatePort {W} _ _.
Arguments EnsureBridgePort {W} _ _ _.
Arguments DetachPortFromBridgeIfInterfaceOwned {W} _ _ _ _ _.

(** ** The attachment manager *)

Section manager.
Context {W : Type} (store : OVSStore W).

(** The checks of [EnsureAttachmentWithIdentity] on an existing interface. *)
Definition check_existing (identity : Identity) (existing : Interface) : result unit :=
  match if_ExternalIDs existing with
  | None => Ok tt
  | Some m =>
      let managedBy := TrimSpace (at_key m ExternalIDManagedBy) in
      if negb (bool_decide (managedBy = ""%string)) && negb (bool_decide (managedBy = OwnerValue))
      then Err (ErrAttachmentOwnershipConflict "interface managed by another owner")
      else let existingIdentity := identityFromExternalIDs (Some m) in
           if negb (bool_decide (id_EndpointID existingIdentity = ""%string))
           then validateIdentityMatch existingIdentity identity
           else Ok tt
  end.

Definition iface_id (iface : Interface) : string :=
  match if_ExternalIDs iface with None => "" | Some m => TrimSpace (at_key m ExternalIDIfaceID) end.

(** The branch of [EnsureAttachmentWithIdentity] for an existing interface. *)
Definition ensure_existing (identity : Identity) (spec : AttachmentSpec)
    (desiredExternalIDs : gmap string string) (existing : Interface) (existingPort : option Port)
    : M W AttachmentStatus :=
  do! lift (check_existing identity existing) in
  let done := {| at_OVSInterfaceName := if_Name existing |} in
  if negb (isManagedByFramework existing) then
    if negb (bool_decide (iface_id existing = as_LogicalSwitchPort spec))
    then fail (ErrAttachmentOwnershipConflict "unmanaged legacy interface cannot be modified")
    else ret done
  else
    do! UpdateInterface store {| if_UUID := if_UUID existing; if_Name := if_Name existing;
                                 if_Type := "system"; if_ExternalIDs := Some desiredExternalIDs |} in
    match existingPort with
    | None =>
        do! CreatePortAndAttachBridge store "br-int"
              {| po_UUID := ""; po_Name := as_OVSInterfaceName spec; po_Interfaces := [if_UUID existing] |} in
        ret done
    | Some port =>
        do! (if negb (contains (po_Interfaces port) (if_UUID existing)) then
               if bool_decide (length (po_Interfaces port) = 0%nat) then
                 UpdatePort store {| po_UUID := po_UUID port; po_Name := po_Name port;
                                     po_Interfaces := [if_UUID existing] |}
               else fail (ErrAttachmentOwnershipConflict "port references different interfaces")
             else ret tt) in
        do! EnsureBridgePort store "br-int" (po_UUID port) in
        ret done
    end.

(** [OVSAttachmentManager.EnsureAttachmentWithIdentity] *)
Definition EnsureAttachmentWithIdentity (identity : Identity) (spec : AttachmentSpec)
    : M W AttachmentStatus :=
  do! lift (ValidateIdentity identity) in
  if blank (as_OVSInterfaceName spec) then fail (Errorf "ovs interface name is required") else
  if blank (as_LogicalSwitchPort spec) then fail (Errorf "logical switch port is required") else
  let! ifaces := ListInterfaces store in
  let existing := List.find (fun i => bool_decide (if_Name i = as_OVSInterfaceName spec)) ifaces in
  let desiredExternalIDs :=
    ExternalIDsForIdentity identity (as_LogicalSwitchPort spec) (as_MACAddress spec) in
  let! ports := ListPorts store in
  let existingPort := List.find (fun p => bool_decide (po_Name p = as_OVSInterfaceName spec)) ports in
  match existing with
  | Some existing => ensure_existing identity spec desiredExternalIDs existing existingPort
  | None =>
      match existingPort with
      | Some _ => fail (ErrAttachmentOwnershipConflict "port exists without matching interface")
      | None =>
          do! CreateInterfacePortAndAttachBridge store "br-int"
                {| if_UUID := ""; if_Name := as_OVSInterfaceName spec; if_Type := "system";
                   if_ExternalIDs := Some desiredExternalIDs |}
                {| po_UUID := ""; po_Name := as_OVSInterfaceName spec; po_Interfaces := [] |} in
          ret {| at_OVSInterfaceName := as_OVSInterfaceName spec |}
      end
  end.

(** The identity the non-identity entry points use. *)
Definition legacy_identity (endpointID logicalSwitchPort : string) : Identity :=
  {| id_EndpointID := endpointID; id_NetworkID := "legacy"; id_AttachmentID := logicalSwitchPort;
     id_WorkloadUID := "legacy"; id_Incarnation := "legacy" |}.

(** [OVSAttachmentManager.EnsureAttachment] *)
Definition EnsureAttachment (spec : AttachmentSpec) : M W AttachmentStatus :=
  EnsureAttachmentWithIdentity (legacy_identity (as_EndpointID spec) (as_LogicalSwitchPort spec)) spec.

(** The interface a port name binds: the first with that [iface-id]. *)
Definition bound_to (logicalSwitchPort : string) (iface : Interface) : bool :=
  match if_ExternalIDs iface with
  | None => false
  | Some m => bool_decide (TrimSpace (at_key m ExternalIDIfaceID) = logicalSwitchPort)
  end.

(** [OVSAttachmentManager.GetAttachmentByIdentity] *)
Definition GetAttachmentByIdentity (identity : Identity) (logicalSwitchPort : string)
    : M W AttachmentRecord :=
  do! lift (ValidateIdentity identity) in
  let! ifaces := ListInterfaces store in
  match List.find (bound_to logicalSwitchPort) ifaces with
  | None => fail ErrAttachmentNotFound
  | Some iface =>
      let existingIdentity := identityFromExternalIDs (if_ExternalIDs iface) in
      if bool_decide (id_EndpointID existingIdentity = ""%string)
      then fail (ErrAttachmentOwnershipConflict "unmanaged legacy interface") else
      do! lift (validateIdentityMatch existingIdentity identity) in
      if negb (bool_decide (id_Incarnation existingIdentity = id_Incarnation identity))
      then fail (ErrStaleOperation "incarnation")
      else ret {| ar_InterfaceName := if_Name iface; ar_LogicalSwitchPort := logicalSwitchPort;
                  ar_Identity := existingIdentity;
                  ar_ManagedBy := TrimSpace (at_key (default ∅ (if_ExternalIDs iface)) ExternalIDManagedBy) |}
  end.

(** The unique port of an interface: two are an error. *)
Definition unique_port (ports : list Port) (ifaceUUID : string) : result (option Port) :=
  match List.filter (fun p => contains (po_Interfaces p) ifaceUUID) ports with
  | [] => Ok None
  | [p] => Ok (Some p)
  | _ => Err (ErrAttachmentOwnershipConflict "interface is referenced by multiple ports")
  end.

(** The name of the unique bridge of a port. *)
Definition bridge_of (bridges : list Bridge) (portUUID : string) : result string :=
  rfold (fun bridgeName b =>
    if contains (br_Ports b) portUUID then
      if negb (bool_decide (bridgeName = ""%string))
      then Err (ErrAttachmentOwnershipConflict "port is attached to multiple bridges")
      else Ok (br_Name b)
    else Ok bridgeName) ""%string bridges.

(** The bridge must be [br-int]. *)
Definition on_br_int (bridgeName : string) : result unit :=
  if bool_decide (bridgeName = ""%string)
  then Err (ErrAttachmentOwnershipConflict "port is not attached to any bridge")
  else if negb (bool_decide (bridgeName = "br-int"%string))
  then Err (ErrAttachmentOwnershipConflict "port is attached to unexpected bridge") else Ok tt.

(** [OVSAttachmentManager.CheckAttachmentWithIdentity] *)
Definition CheckAttachmentWithIdentity (identity : Identity)
    (logicalSwitchPort expectedInterfaceName : string) : M W AttachmentRecord :=
  let! rec := GetAttachmentByIdentity identity logicalSwitchPort in
  let expected := TrimSpace expectedInterfaceName in
  if negb (bool_decide (expected = ""%string)) && negb (bool_decide (ar_InterfaceName rec = expected))
  then fail (ErrAttachmentOwnershipConflict "interface name mismatch") else
  let! ifaces := ListInterfaces store in
  match List.find (fun i => bool_decide (if_Name i = ar_InterfaceName rec)) ifaces with
  | None => fail ErrAttachmentNotFound
  | Some iface =>
      if negb (bound_to logicalSwitchPort iface)
      then fail (ErrAttachmentOwnershipConflict "iface-id mismatch") else
      let! ports := ListPorts store in
      let! port := lift (unique_port ports (if_UUID iface)) in
      match port with
      | None => fail (ErrAttachmentOwnershipConflict "interface has no port binding")
      | Some port =>
          let! bridges := ListBridges store in
          let! bridgeName := lift (bridge_of bridges (po_UUID port)) in
          do! lift (on_br_int bridgeName) in
          ret rec
      end
  end.

(** [x, err := call(); if err != nil { return DeleteOutcomeMissing, err }] *)
Definition or_missing {A} (m : M W A) (k : A -> M W (DeleteOutcome * option error))
    : M W (DeleteOutcome * option error) :=
  let! r := attempt m in
  match r with Err e => ret (DeleteOutcomeMissing, Some e) | Ok a => k a end.

(** The decision of [DeleteAttachmentWithIdentity] on the bound interface. *)
Definition delete_refusal (identity : Identity) (iface : Interface) : option (DeleteOutcome * error) :=
  let m := default ∅ (if_ExternalIDs iface) in
  let managedBy := TrimSpace (at_key m ExternalIDManagedBy) in
  if negb (bool_decide (managedBy = ""%string)) && negb (bool_decide (managedBy = OwnerValue))
  then Some (DeleteOutcomeMissing, ErrAttachmentOwnershipConflict "interface managed by another owner")
  else if negb (isManagedByFramework iface)
  then Some (DeleteOutcomeMissing, ErrAttachmentOwnershipConflict "unmanaged legacy interface is preserved")
  else let existingIdentity := identityFromExternalIDs (if_ExternalIDs iface) in
       match validateIdentityMatch existingIdentity identity with
       | Err e => Some (DeleteOutcomeMissing, e)
       | Ok _ => if negb (bool_decide (id_Incarnation existingIdentity = id_Incarnation identity))
                 then Some (DeleteOutcomeStale, ErrStaleOperation "incarnation") else None
       end.

(** What a conditional deletion reports. *)
Definition deleted_or_stale (ok : bool) : M W (DeleteOutcome * option error) :=
  if negb ok then ret (DeleteOutcomeStale, Some (ErrStaleOperation "attachment changed before delete"))
  else ret (DeleteOutcomeDeleted, None).

(** [OVSAttachmentManager.DeleteAttachmentWithIdentity] *)
Definition DeleteAttachmentWithIdentity (identity : Identity) (logicalSwitchPort : string)
    : M W (DeleteOutcome * option error) :=
  or_missing (lift (ValidateIdentity identity)) (fun _ =>
  or_missing (ListInterfaces store) (fun ifaces =>
  match List.find (bound_to logicalSwitchPort) ifaces with
  | None => ret (DeleteOutcomeMissing, None)
  | Some iface =>
  match delete_refusal identity iface with
  | Some (o, e) => ret (o, Some e)
  | None =>
  or_missing (ListPorts store) (fun ports =>
  or_missing (lift (unique_port ports (if_UUID iface))) (fun boundPort =>
  let expectedExternalIDs := default ∅ (if_ExternalIDs iface) in
  match boundPort with
  | None => or_missing (DeleteInterfaceIfExternalIDsMatch store (if_UUID iface) expectedExternalIDs)
                       deleted_or_stale
  | Some port =>
      or_missing (ListBridges store) (fun bridges =>
      or_missing (lift (bridge_of bridges (po_UUID port))) (fun bridgeName =>
      or_missing (lift (on_br_int bridgeName)) (fun _ =>
      or_missing (DetachPortFromBridgeIfInterfaceOwned store "br-int" (po_UUID port) (if_UUID iface)
                                                       expectedExternalIDs)
                 deleted_or_stale)))
  end))
  end end)).

(** [OVSAttachmentManager.DeleteAttachment] *)
Definition DeleteAttachment (endpointID logicalSwitchPort : string) : M W unit :=
  let! (_, e) := DeleteAttachmentWithIdentity (legacy_identity endpointID logicalSwitchPort)
                                              logicalSwitchPort in
  lift (of_error e).
End manager.

(** ** Properties *)

(** An identity as the framework normalises it: no surrounding white space. *)
Definition trimmed (i : Identity) : Prop :=
  TrimSpace (id_EndpointID i) = id_EndpointID i /\ TrimSpace (id_NetworkID i) = id_NetworkID i /\
  TrimSpace (id_AttachmentID i) = id_AttachmentID i /\ TrimSpace (id_WorkloadUID i) = id_WorkloadUID i /\
  TrimSpace (id_Incarnation i) = id_Incarnation i.

Lemma ExternalIDs_keys i lsp mac :
  at_key (ExternalIDsForIdentity i lsp mac) ExternalIDManagedBy = OwnerValue /\
  at_key (ExternalIDsForIdentity i lsp mac) ExternalIDEndpointID = id_EndpointID i /\
  at_key (ExternalIDsForIdentity i lsp mac) ExternalIDNetworkID = id_NetworkID i /\
  at_key (ExternalIDsForIdentity i lsp mac) ExternalIDAttachID = id_AttachmentID i /\
  at_key (ExternalIDsForIdentity i lsp mac) ExternalIDWorkloadUID = id_WorkloadUID i /\
  at_key (ExternalIDsForIdentity i lsp mac) ExternalIDIncarnation = id_Incarnation i /\
  at_key (ExternalIDsForIdentity i lsp mac) ExternalIDIfaceID = lsp.
Proof.
  unfold ExternalIDsForIdentity, at_key. case_match; simpl; split_and!;
    by rewrite ?(lookup_insert_ne _ "attached-mac") by done; simplify_map_eq.
Qed.

Lemma identity_read_back i lsp mac :
  identityFromExternalIDs (Some (ExternalIDsForIdentity i lsp mac)) =
  {| id_EndpointID := TrimSpace (id_EndpointID i); id_NetworkID := TrimSpace (id_NetworkID i);
     id_AttachmentID := TrimSpace (id_AttachmentID i); id_WorkloadUID := TrimSpace (id_WorkloadUID i);
     id_Incarnation := TrimSpace (id_Incarnation i) |}.
Proof.
  unfold identityFromExternalIDs. destruct (ExternalIDs_keys i lsp mac) as (_ & -> & -> & -> & -> & -> & _). done.
Qed.

Lemma validateIdentityMatch_ok a b :
  validateIdentityMatch a b = Ok tt <->
  id_EndpointID a = id_EndpointID b /\ id_NetworkID a = id_NetworkID b /\
  id_AttachmentID a = id_AttachmentID b /\ id_WorkloadUID a = id_WorkloadUID b.
Proof. unfold validateIdentityMatch. repeat (case_bool_decide; simpl); naive_solver. Qed.

(** An identity survives the database exactly when it is trimmed.  Writing an
    identity to [external_ids] and reading it back gives the identity with each
    field trimmed, so an attachment is recognised as its own writer's
    (identity and incarnation) if and only if no field had surrounding white
    space. *)
Theorem identity_roundtrip i lsp mac :
  (validateIdentityMatch (identityFromExternalIDs (Some (ExternalIDsForIdentity i lsp mac))) i = Ok tt /\
   id_Incarnation (identityFromExternalIDs (Some (ExternalIDsForIdentity i lsp mac))) = id_Incarnation i)
  <-> trimmed i.
Proof. rewrite identity_read_back, validateIdentityMatch_ok. unfold trimmed. simpl. tauto. Qed.

Section manager_properties.
Context {W : Type} (store : OVSStore W) (P : W -> Prop).
Hypothesis bridges_read : preserves P (ListBridges store).
Hypothesis interfaces_read : preserves P (ListInterfaces store).
Hypothesis ports_read : preserves P (ListPorts store).

Lemma or_missing_inv {A} (m : M W A) k w w' r :
  or_missing m k w = (w', r) ->
  (exists e, m w = (w', Err e) /\ r = Ok (DeleteOutcomeMissing, Some e)) \/
  (exists w1 a, m w = (w1, Ok a) /\ k a w1 = (w', r)).
Proof.
  unfold or_missing, bind, attempt. destruct (m w) as [w1 [a|e]]; intros H; [right; eauto|left].
  unfold ret in H. simplify_eq. eauto.
Qed.

(** The interface a deletion is allowed to touch. *)
Definition deletable (identity : Identity) (iface : Interface) (ids : gmap string string) : Prop :=
  if_ExternalIDs iface = Some ids /\ TrimSpace (at_key ids ExternalIDManagedBy) = OwnerValue /\
  identityFromExternalIDs (Some ids) = identity.

Lemma delete_refusal_None identity lsp iface :
  bound_to lsp iface = true -> delete_refusal identity iface = None ->
  exists ids, deletable identity iface ids.
Proof.
  unfold delete_refusal, bound_to, isManagedByFramework. intros Hb H.
  destruct (if_ExternalIDs iface) as [ids|] eqn:Hi; [|done]. exists ids. cbn [default from_option id] in H.
  destruct (_ && _) in H; [done|]. case_bool_decide as Hm; [|done]. cbn [negb] in H.
  destruct (validateIdentityMatch _ _) as [[]|] eqn:Hv; [|done]. case_bool_decide as Hinc; [|done].
  apply validateIdentityMatch_ok in Hv. split_and!; [done..|].
  destruct (identityFromExternalIDs (Some ids)) as [a b c d e], identity as [a' b' c' d' e'].
  simpl in *. destruct_and?. congruence.
Qed.

Lemma unique_port_Some ports u p :
  unique_port ports u = Ok (Some p) -> p ∈ ports /\ contains (po_Interfaces p) u = true /\
  (forall q, q ∈ ports -> contains (po_Interfaces q) u = true -> q = p).
Proof.
  unfold unique_port. destruct (List.filter _ ports) as [|x [|]] eqn:Hf; intros; simplify_eq.
  assert (forall q, In q (List.filter (fun p => contains (po_Interfaces p) u) ports) <-> q = p) as Hq.
  { intros q. rewrite Hf. simpl. naive_solver. }
  setoid_rewrite List.filter_In in Hq. destruct (proj2 (Hq p) eq_refl) as [? ?].
  split_and!; [by apply list_elem_of_In|done|]. intros q ?%list_elem_of_In ?. by apply Hq.
Qed.

(** A deletion touches only the caller's own attachment.  Whatever it returns,
    [DeleteAttachmentWithIdentity] writes at most once, a conditional delete of
    the interface or a conditional detach of its only port from [br-int],
    guarded by the [external_ids] it read; the interface is the listed one bound
    to the logical switch port, is managed by this agent, and records exactly the
    caller's identity and incarnation.  It reports "deleted" exactly when the
    conditional write took effect, "stale" when it did not, and success without a
    write only when no listed interface is bound to the port. *)
Theorem DeleteAttachment_exact identity lsp w w' r :
  P w -> DeleteAttachmentWithIdentity store identity lsp w = (w', r) ->
  (P w' /\ exists o e, r = Ok (o, e) /\ (e = None -> o = DeleteOutcomeMissing /\
     exists ifaces w1, ListInterfaces store w = (w1, Ok ifaces) /\
       Forall (fun i => bound_to lsp i = false) ifaces)) \/
  (exists ifaces w1 iface ids w2 b, ListInterfaces store w = (w1, Ok ifaces) /\ iface ∈ ifaces /\
     bound_to lsp iface = true /\ deletable identity iface ids /\ P w2 /\
     (DeleteInterfaceIfExternalIDsMatch store (if_UUID iface) ids w2 = (w', b) \/
      exists port ports w3, ListPorts store w1 = (w3, Ok ports) /\ port ∈ ports /\ contains (po_Interfaces port) (if_UUID iface) = true /\
        (forall q, q ∈ ports -> contains (po_Interfaces q) (if_UUID iface) = true -> q = port) /\
        DetachPortFromBridgeIfInterfaceOwned store "br-int" (po_UUID port) (if_UUID iface) ids w2 = (w', b)) /\
     r = Ok (match b with
             | Ok true => (DeleteOutcomeDeleted, None)
             | Ok false => (DeleteOutcomeStale, Some (ErrStaleOperation "attachment changed before delete"))
             | Err e => (DeleteOutcomeMissing, Some e)
             end)).
Proof.
  intros Hw H. unfold DeleteAttachmentWithIdentity in H.
  apply or_missing_inv in H as [(e & Hl & ->)|(w0 & [] & Hl & H)]; unfold lift in Hl; simplify_eq;
    [left; split; [done|]; by eexists _, _|].
  apply or_missing_inv in H as [(e & Hl' & ->)|(w1 & ifaces & Hi & H)];
    [left; split; [exact (preserves_run P _ _ _ _ interfaces_read Hw Hl')|by eexists _, _]|].
  pose proof (preserves_run P _ _ _ _ interfaces_read Hw Hi) as Hw1.
  destruct (List.find _ ifaces) as [iface|] eqn:Hf.
  2:{ unfold ret in H. simplify_eq. left. split; [done|]. eexists _, _. split; [done|]. intros _. split; [done|].
      exists ifaces, w'. split; [done|]. apply Forall_forall. intros i Hin%list_elem_of_In.
      by eapply List.find_none in Hf. }
  apply List.find_some in Hf as [Hin%list_elem_of_In Hb].
  destruct (delete_refusal identity iface) as [[o e]|] eqn:Hr.
  { unfold ret in H. simplify_eq. left. split; [done|]. by eexists _, _. }
  destruct (delete_refusal_None _ _ _ Hb Hr) as [ids Hids]. pose proof Hids as (Hei & _). rewrite Hei in H.
  apply or_missing_inv in H as [(e & Hp & ->)|(w2 & ports & Hp & H)];
    [left; split; [exact (preserves_run P _ _ _ _ ports_read Hw1 Hp)|by eexists _, _]|].
  pose proof (preserves_run P _ _ _ _ ports_read Hw1 Hp) as Hw2.
  apply or_missing_inv in H as [(e & Hu & ->)|(w2' & bp & Hu & H)]; unfold lift in Hu; injection Hu as Hu1 Hu2; subst;
    [left; split; [done|by eexists _, _]|].
  destruct bp as [port|].
  - apply unique_port_Some in Hu2 as (Hpin & Hpc & Hpu).
    apply or_missing_inv in H as [(e & Hbr & ->)|(w4 & bridges & Hbr & H)];
      [left; split; [exact (preserves_run P _ _ _ _ bridges_read Hw2 Hbr)|by eexists _, _]|].
    pose proof (preserves_run P _ _ _ _ bridges_read Hw2 Hbr) as Hw4.
    apply or_missing_inv in H as [(e & Hbo & ->)|(w5 & bn & Hbo & H)]; unfold lift in Hbo; injection Hbo as ? ?; subst;
      [left; split; [done|by eexists _, _]|].
    apply or_missing_inv in H as [(e & Hon & ->)|(w6 & [] & Hon & H)]; unfold lift in Hon; injection Hon as ? ?; subst;
      [left; split; [done|by eexists _, _]|].
    right. apply or_missing_inv in H as [(e & Hd & ->)|(w7 & ok & Hd & H)].
    + exists ifaces, w1, iface, ids, w6, (Err e). split_and!; try done. right. exists port, ports; eexists; by split_and!.
    + unfold deleted_or_stale, ret in H. exists ifaces, w1, iface, ids, w6, (Ok ok).
      destruct ok; simplify_eq/=; split_and!; try done; right; exists port, ports; eexists; by split_and!.
  - right. apply or_missing_inv in H as [(e & Hd & ->)|(w7 & ok & Hd & H)].
    + exists ifaces, w1, iface, ids, w2', (Err e). split_and!; try done. by left.
    + unfold deleted_or_stale, ret in H. exists ifaces, w1, iface, ids, w2', (Ok ok).
      destruct ok; simplify_eq/=; split_and!; try done; by left.
Qed.

(** An attachment is created or refreshed only by its owner.  If
    [EnsureAttachmentWithIdentity] writes at all, its identity is complete and
    either no interface and no port with the requested name was listed, and the
    write creates both with the identity's [external_ids]; or the listed
    interface of that name is managed by this agent, records no endpoint or the
    same endpoint, network, attachment and workload, and the first write refreshes
    the [external_ids] of exactly that interface.  An interface managed by anyone
    else, or by nobody, is never modified. *)
Theorem EnsureAttachment_owned identity spec w w' r :
  P w -> EnsureAttachmentWithIdentity store identity spec w = (w', r) ->
  P w' \/
  (ValidateIdentity identity = Ok tt /\
   exists ifaces ports w1 w2, ListInterfaces store w = (w1, Ok ifaces) /\
   ListPorts store w1 = (w2, Ok ports) /\ P w2 /\
   ((Forall (fun i => if_Name i <> as_OVSInterfaceName spec) ifaces /\
     Forall (fun p => po_Name p <> as_OVSInterfaceName spec) ports /\
     exists b, CreateInterfacePortAndAttachBridge store "br-int"
       {| if_UUID := ""; if_Name := as_OVSInterfaceName spec; if_Type := "system";
          if_ExternalIDs := Some (ExternalIDsForIdentity identity (as_LogicalSwitchPort spec) (as_MACAddress spec)) |}
       {| po_UUID := ""; po_Name := as_OVSInterfaceName spec; po_Interfaces := [] |} w2 = (w', b)) \/
    (exists iface w3 b, iface ∈ ifaces /\ if_Name iface = as_OVSInterfaceName spec /\
     isManagedByFramework iface = true /\
     (id_EndpointID (identityFromExternalIDs (if_ExternalIDs iface)) = ""%string \/
      validateIdentityMatch (identityFromExternalIDs (if_ExternalIDs iface)) identity = Ok tt) /\
     UpdateInterface store {| if_UUID := if_UUID iface; if_Name := if_Name iface; if_Type := "system";
       if_ExternalIDs := Some (ExternalIDsForIdentity identity (as_LogicalSwitchPort spec) (as_MACAddress spec)) |} w2
       = (w3, b)))).
Proof.
  intros Hw H. unfold EnsureAttachmentWithIdentity in H. rewrite bind_lift in H.
  destruct (ValidateIdentity identity) as [[]|] eqn:Hv; [|simplify_eq; by left].
  destruct (blank _); [unfold fail in H; simplify_eq; by left|].
  destruct (blank _); [unfold fail in H; simplify_eq; by left|].
  apply bind_inv in H as [(w1 & ifaces & Hi & H)|(e & Hi & ->)];
    pose proof (preserves_run P _ _ _ _ interfaces_read Hw Hi) as Hw1; [|by left].
  apply bind_inv in H as [(w2 & ports & Hp & H)|(e & Hp & ->)];
    pose proof (preserves_run P _ _ _ _ ports_read Hw1 Hp) as Hw2; [|by left].
  destruct (List.find _ ifaces) as [iface|] eqn:Hf.
  - apply List.find_some in Hf as [Hin%list_elem_of_In Hn]. bools.
    unfold ensure_existing in H. rewrite bind_lift in H.
    destruct (check_existing identity iface) as [[]|] eqn:Hc; [|simplify_eq; by left].
    destruct (isManagedByFramework iface) eqn:Hm; cbn [negb] in H.
    2:{ case_bool_decide; cbn [negb] in H; unfold fail, ret in H; simplify_eq; by left. }
    right. split; [done|]. exists ifaces, ports, w1, w2. split_and!; try done. right.
    assert (id_EndpointID (identityFromExternalIDs (if_ExternalIDs iface)) = ""%string \/
      validateIdentityMatch (identityFromExternalIDs (if_ExternalIDs iface)) identity = Ok tt) as Hid.
    { unfold check_existing in Hc. destruct (if_ExternalIDs iface) as [m|]; [|by left].
      destruct (_ && _) in Hc; [done|]. case_bool_decide; cbn [negb] in Hc; auto. }
    apply bind_inv in H as [(w3 & [] & Hu & _)|(e & Hu & ->)]; eexists iface, _, _; by split_and!.
  - destruct (List.find _ ports) as [port|] eqn:Hfp; [unfold fail in H; simplify_eq; by left|].
    right. split; [done|]. exists ifaces, ports, w1, w2. split_and!; try done. left. split_and!.
    + apply Forall_forall. intros i Hin%list_elem_of_In. eapply List.find_none in Hf; [|exact Hin]. by bools.
    + apply Forall_forall. intros i Hin%list_elem_of_In. eapply List.find_none in Hfp; [|exact Hin]. by bools.
    + apply bind_inv in H as [(w3 & [] & Hc & H)|(e & Hc & ->)]; [|by eexists].
      unfold ret in H. simplify_eq. by eexists.
Qed.

Lemma bridge_of_spec bridges u n :
  bridge_of bridges u = Ok n -> n <> ""%string ->
  exists l1 b l2, bridges = l1 ++ b :: l2 /\ br_Name b = n /\ contains (br_Ports b) u = true /\
    Forall (fun b => contains (br_Ports b) u = true -> br_Name b = ""%string) l1 /\
    Forall (fun b => contains (br_Ports b) u = false) l2.
Proof.
  intros H Hn. revert H. unfold bridge_of. intros H.
  eapply (rfold_invariant _ (fun done n =>
    (n = ""%string /\ Forall (fun b => contains (br_Ports b) u = true -> br_Name b = ""%string) done) \/
    (n <> ""%string /\ exists l1 b l2, done = l1 ++ b :: l2 /\ br_Name b = n /\ contains (br_Ports b) u = true /\
      Forall (fun b => contains (br_Ports b) u = true -> br_Name b = ""%string) l1 /\
      Forall (fun b => contains (br_Ports b) u = false) l2))) in H as [[? _]|[_ ?]]; try done.
  - left. split; [done|constructor].
  - intros done b n0 n1 _ IH Hs. destruct (contains (br_Ports b) u) eqn:Hc.
    + case_bool_decide as Hne; simpl in Hs; simplify_eq. destruct IH as [[_ Hf]|[? _]]; [|done].
      destruct (decide (br_Name b = ""%string)) as [E|E].
      * left. split; [done|]. apply Forall_app. split; [done|]. by repeat constructor.
      * right. split; [done|]. exists done, b, []. split_and!; [done..|constructor].
    + simplify_eq. destruct IH as [[-> Hf]|[? (l1 & b1 & l2 & -> & ? & ? & ? & ?)]].
      * left. split; [done|]. apply Forall_app. split; [done|]. constructor; [congruence|constructor].
      * right. split; [done|]. exists l1, b1, (l2 ++ [b]). rewrite <-app_assoc. split_and!; [done..|].
        apply Forall_app. split; [done|]. by repeat constructor.
Qed.

Lemma GetAttachment_run identity lsp w w' r :
  P w -> GetAttachmentByIdentity store identity lsp w = (w', r) ->
  P w' /\ forall rc, r = Ok rc -> ar_Identity rc = identity /\ ar_LogicalSwitchPort rc = lsp /\
    exists ifaces iface, ListInterfaces store w = (w', Ok ifaces) /\ iface ∈ ifaces /\
      bound_to lsp iface = true /\ if_Name iface = ar_InterfaceName rc.
Proof.
  intros Hw H. unfold GetAttachmentByIdentity in H. rewrite bind_lift in H.
  destruct (ValidateIdentity identity) as [[]|]; [|by simplify_eq].
  apply bind_inv in H as [(w1 & ifaces & Hi & H)|(e & Hi & ->)];
    pose proof (preserves_run P _ _ _ _ interfaces_read Hw Hi) as Hw1; [|by split].
  destruct (List.find _ ifaces) as [iface|] eqn:Hf; [|unfold fail in H; by simplify_eq].
  apply List.find_some in Hf as [Hin%list_elem_of_In Hb].
  case_bool_decide; [unfold fail in H; by simplify_eq|]. rewrite bind_lift in H.
  destruct (validateIdentityMatch _ _) as [[]|] eqn:Hv; [|by simplify_eq].
  case_bool_decide as Hinc; cbn [negb] in H; unfold fail, ret in H; simplify_eq; [|done]. split; [done|].
  intros rc [= <-]. simpl. apply validateIdentityMatch_ok in Hv. split_and!; [|done|by eauto 10].
  destruct (identityFromExternalIDs _), identity. simpl in *. destruct_and?. congruence.
Qed.

(** What a check vouches for.  [CheckAttachmentWithIdentity] never writes, and when
    it succeeds the record it returns carries exactly the caller's identity and
    incarnation and the expected interface name (when one is given), and a
    listed interface of that name is bound to the logical switch port and
    referenced by exactly one port, which is attached to [br-int] and to no other
    (named) bridge. *)
Theorem CheckAttachment_sound identity lsp name w w' r :
  P w -> CheckAttachmentWithIdentity store identity lsp name w = (w', r) ->
  P w' /\ forall rc, r = Ok rc ->
    ar_Identity rc = identity /\ ar_LogicalSwitchPort rc = lsp /\
    (TrimSpace name <> ""%string -> ar_InterfaceName rc = TrimSpace name) /\
    exists ifaces iface ports port l1 b l2 w1 w2 w3, ListInterfaces store w1 = (w2, Ok ifaces) /\
      iface ∈ ifaces /\ if_Name iface = ar_InterfaceName rc /\ bound_to lsp iface = true /\
      ListPorts store w2 = (w3, Ok ports) /\ port ∈ ports /\
      (forall q, q ∈ ports -> contains (po_Interfaces q) (if_UUID iface) = true <-> q = port) /\
      ListBridges store w3 = (w', Ok (l1 ++ b :: l2)) /\ br_Name b = "br-int"%string /\
      contains (br_Ports b) (po_UUID port) = true /\
      Forall (fun b => contains (br_Ports b) (po_UUID port) = true -> br_Name b = ""%string) l1 /\
      Forall (fun b => contains (br_Ports b) (po_UUID port) = false) l2.
Proof.
  intros Hw H. unfold CheckAttachmentWithIdentity in H.
  apply bind_inv in H as [(w1 & rc & Hg & H)|(e & Hg & ->)];
    apply GetAttachment_run in Hg as [Hw1 Hrc]; try done.
  destruct (Hrc _ eq_refl) as (Hid & Hlsp & _).
  destruct (_ && _) eqn:Hn in H; [unfold fail in H; by simplify_eq|].
  apply bind_inv in H as [(w2 & ifaces & Hi & H)|(e & Hi & ->)];
    pose proof (preserves_run P _ _ _ _ interfaces_read Hw1 Hi) as Hw2; [|by split].
  destruct (List.find _ ifaces) as [iface|] eqn:Hf; [|unfold fail in H; by simplify_eq].
  apply List.find_some in Hf as [Hin%list_elem_of_In Hnm]. bools.
  destruct (bound_to lsp iface) eqn:Hb; cbn [negb] in H; [|unfold fail in H; by simplify_eq].
  apply bind_inv in H as [(w3 & ports & Hp & H)|(e & Hp & ->)];
    pose proof (preserves_run P _ _ _ _ ports_read Hw2 Hp) as Hw3; [|by split].
  rewrite bind_lift in H. destruct (unique_port ports _) as [[port|]|] eqn:Hu;
    [|unfold fail in H; by simplify_eq|by simplify_eq]. apply unique_port_Some in Hu as (Hpin & Hpc & Hpu).
  apply bind_inv in H as [(w4 & bridges & Hbr & H)|(e & Hbr & ->)];
    pose proof (preserves_run P _ _ _ _ bridges_read Hw3 Hbr) as Hw4; [|by split].
  rewrite bind_lift in H. destruct (bridge_of _ _) as [bn|] eqn:Hbo; [|by simplify_eq].
  rewrite bind_lift in H. destruct (on_br_int bn) as [[]|] eqn:Hon; [|by simplify_eq].
  unfold ret in H. simplify_eq. split; [done|]. intros rc' [= <-]. unfold on_br_int in Hon.
  destruct (bool_decide (bn = ""%string)) eqn:E1 in Hon; [done|].
  destruct (bool_decide (bn = "br-int"%string)) eqn:E2 in Hon; [|done]. apply bool_decide_eq_true in E2 as ->.
  destruct (bridge_of_spec _ _ _ Hbo ltac:(done)) as (l1 & b & l2 & -> & ? & ? & ? & ?).
  split_and!; [done..| |].
  - intros Hne. rewrite bool_decide_eq_false_2 in Hn by done. simpl in Hn. by bools.
  - exists ifaces, iface, ports, port, l1, b, l2, w1, w2, w3. split_and!; try done.
    intros q Hq. split; [by apply Hpu|by intros ->].
Qed.
End manager_properties.
