(* ===== verification/OvsdbStore.v ===== *)
(** * The libovsdb store

    Models [src/pkg/attachment/ovsdb_store.go]: the [OVSStore] the attachment
    manager uses, over a libovsdb client.  The client is a parameter: it lists a
    table, turns a request into OVSDB operations, and runs a transaction.  The
    rows passed by pointer are only read back by the caller through the
    database, so filling in their UUIDs is local to each call. *)

From S2P Require Import Prelude GoStd Attachment.

(** What the code asks the client to build: [Create], and [Where(...)] followed by
    [Update], [Delete], [Mutate] or [Wait]. *)
Inductive Request :=
  | CreateIface (iface : Interface)
  | CreatePortRow (port : Port)
  | UpdateIface (uuid : string) (iface : Interface)
  | UpdatePortRow (uuid : string) (port : Port)
  | DeleteIface (uuid : string) (expected : option (gmap string string))
  | DeletePortRow (uuid : string)
  | MutateBridgePorts (insert : bool) (bridge : string) (ports : list string)
  | WaitIface (uuid : string) (expected : gmap string string).   (* equal, timeout 0 *)

(** [ovsdb.OperationResult] *)
Record OperationResult := { or_Error : string; or_Details : string; or_Count : Z }.

Record Client (W Op : Type) := {
  cl_Bridges : M W (list Bridge);
  cl_Interfaces : M W (list Interface);
  cl_Ports : M W (list Port);
  cl_build : Request -> result (list Op);
  cl_Transact : list Op -> M W (list OperationResult);
  cl_NewUUID : M W string;                                       (* [uuid.New().String()] *)
}.
Arguments cl_Bridges {W Op} _.
Arguments cl_Interfaces {W Op} _.
Arguments cl_Ports {W Op} _.
Arguments cl_build {W Op} _ _.
Arguments cl_Transact {W Op} _ _.
Arguments cl_NewUUID {W Op} _.

(** [stringsTrim]: despite its name it returns its argument. *)
Definition stringsTrim (v : string) : string := if bool_decide (v = ""%string) then "" else v.

(** [strings.ReplaceAll(s, "-", "_")] *)
Definition dash_underscore (s : string) : string :=
  str ((fun c => if bool_decide (code c = 45) then byte 95 else c) <$> chars s).

(** The first failed operation of a transaction, with its index. *)
Fixpoint first_error (i : nat) (results : list OperationResult) : option (nat * OperationResult) :=
  match results with
  | [] => None
  | r :: results => if negb (bool_decide (or_Error r = ""%string)) then Some (i, r)
                    else first_error (S i) results
  end.

Section store.
Context {W Op : Type} (c : Client W Op).

(** [transactNoErr] *)
Definition transactNoErr (ops : list Op) : M W unit :=
  let! results := cl_Transact c ops in
  match first_error 0 results with
  | Some _ => fail (Errorf "ovs op failed")
  | None => ret tt
  end.

(** Build one request and run it. *)
Definition run_request (r : Request) : M W unit :=
  let! ops := lift (cl_build c r) in transactNoErr ops.

(** [if stringsTrim(uuid) == "" { uuid = uuid.New().String() }] *)
Definition fill_uuid (uuid : string) : M W string :=
  if bool_decide (stringsTrim uuid = ""%string) then cl_NewUUID c else ret uuid.

(** [LibovsdbOVSStore.CreateInterface] *)
Definition store_CreateInterface (iface : Interface) : M W unit :=
  let! u := fill_uuid (if_UUID iface) in
  run_request (CreateIface {| if_UUID := u; if_Name := if_Name iface; if_Type := if_Type iface;
                              if_ExternalIDs := if_ExternalIDs iface |}).

(** [namedUUID] *)
Definition namedUUID (prefix : string) : M W string :=
  let! u := cl_NewUUID c in ret (prefix +:+ "_" +:+ dash_underscore u)%string.

(** [LibovsdbOVSStore.bridgeUUIDByName] *)
Definition bridgeUUIDByName (bridgeName : string) : M W string :=
  let! bridges := cl_Bridges c in
  match List.find (fun b => bool_decide (br_Name b = bridgeName)) bridges with
  | Some b => ret (br_UUID b)
  | None => fail (Errorf "bridge not found")
  end.

(** [LibovsdbOVSStore.buildCreateInterfacePortAndAttachBridgeOps] *)
Definition build_create_ops (iface : Interface) (port : Port) (bridgeUUID : string) : M W (list Op) :=
  let! iu := (if bool_decide (stringsTrim (if_UUID iface) = ""%string)
              then namedUUID "iface" else ret (if_UUID iface)) in
  let! pu := (if bool_decide (stringsTrim (po_UUID port) = ""%string)
              then namedUUID "port" else ret (po_UUID port)) in
  let interfaces := match po_Interfaces port with
                    | [] => [iu]
                    | i0 :: _ => if bool_decide (stringsTrim i0 = ""%string) then [iu] else po_Interfaces port
                    end in
  let! ifaceOps := lift (cl_build c (CreateIface {| if_UUID := iu; if_Name := if_Name iface;
                           if_Type := if_Type iface; if_ExternalIDs := if_ExternalIDs iface |})) in
  let! portOps := lift (cl_build c (CreatePortRow {| po_UUID := pu; po_Name := po_Name port;
                           po_Interfaces := interfaces |})) in
  let! bridgeOps := lift (cl_build c (MutateBridgePorts true bridgeUUID [pu])) in
  ret (ifaceOps ++ portOps ++ bridgeOps).

(** [LibovsdbOVSStore.CreateInterfacePortAndAttachBridge] *)
Definition store_CreateInterfacePortAndAttachBridge (bridgeName : string) (iface : Interface)
    (port : Port) : M W unit :=
  let! bridgeUUID := bridgeUUIDByName bridgeName in
  let! ops := build_create_ops iface port bridgeUUID in
  transactNoErr ops.

(** [LibovsdbOVSStore.UpdateInterface], [DeleteInterface], [UpdatePort], [DeletePort] *)
Definition store_UpdateInterface (iface : Interface) : M W unit := run_request (UpdateIface (if_UUID iface) iface).
Definition store_DeleteInterface (iface : Interface) : M W unit := run_request (DeleteIface (if_UUID iface) None).
Definition store_UpdatePort (port : Port) : M W unit := run_request (UpdatePortRow (po_UUID port) port).
Definition store_DeletePort (port : Port) : M W unit := run_request (DeletePortRow (po_UUID port)).

(** [LibovsdbOVSStore.DeleteInterfaceIfExternalIDsMatch] *)
Definition store_DeleteInterfaceIfExternalIDsMatch (uuid : string) (expected : gmap string string)
    : M W bool :=
  let! ops := lift (cl_build c (DeleteIface uuid (Some expected))) in
  let! results := cl_Transact c ops in
  match first_error 0 results with
  | Some _ => fail (Errorf "ovs conditional delete op failed")
  | None => ret (existsb (fun r => 0 <? or_Count r) results)
  end.

(** [LibovsdbOVSStore.CreatePort] *)
Definition store_CreatePort (port : Port) : M W unit :=
  let! u := fill_uuid (po_UUID port) in
  run_request (CreatePortRow {| po_UUID := u; po_Name := po_Name port; po_Interfaces := po_Interfaces port |}).

(** [LibovsdbOVSStore.CreatePortAndAttachBridge] *)
Definition store_CreatePortAndAttachBridge (bridgeName : string) (port : Port) : M W unit :=
  let! bridgeUUID := bridgeUUIDByName bridgeName in
  let! u := fill_uuid (po_UUID port) in
  let! portOps := lift (cl_build c (CreatePortRow {| po_UUID := u; po_Name := po_Name port;
                                                     po_Interfaces := po_Interfaces port |})) in
  let! bridgeOps := lift (cl_build c (MutateBridgePorts true bridgeUUID [u])) in
  transactNoErr (portOps ++ bridgeOps).

(** [LibovsdbOVSStore.EnsureBridgePort] *)
Definition store_EnsureBridgePort (bridgeName portUUID : string) : M W unit :=
  let! bridgeUUID := bridgeUUIDByName bridgeName in
  run_request (MutateBridgePorts true bridgeUUID [portUUID]).

(** [LibovsdbOVSStore.DetachPortFromBridgeIfInterfaceOwned] *)
Definition store_DetachPort (bridgeName portUUID ifaceUUID : string) (expected : gmap string string)
    : M W bool :=
  let! bridgeUUID := bridgeUUIDByName bridgeName in
  let! waitOps := lift (cl_build c (WaitIface ifaceUUID expected)) in
  let! bridgeOps := lift (cl_build c (MutateBridgePorts false bridgeUUID [portUUID])) in
  let! results := cl_Transact c (waitOps ++ bridgeOps) in
  match first_error 0 results with
  | None => ret true
  | Some (i, r) =>
      if bool_decide (i = 0%nat) && bool_decide (ToLower (or_Error r) = "timed out"%string)
      then ret false else fail (Errorf "ovs op failed")
  end.

(** The store as the interface value of the attachment manager. *)
Definition libovsdb_store : OVSStore W := {|
  ListBridges := cl_Bridges c;
  ListInterfaces := cl_Interfaces c;
  ListPorts := cl_Ports c;
  CreateInterface := store_CreateInterface;
  CreateInterfacePortAndAttachBridge := store_CreateInterfacePortAndAttachBridge;
  UpdateInterface := store_UpdateInterface;
  DeleteInterface := store_DeleteInterface;
  DeleteInterfaceIfExternalIDsMatch := store_DeleteInterfaceIfExternalIDsMatch;
  CreatePort := store_CreatePort;
  CreatePortAndAttachBridge := store_CreatePortAndAttachBridge;
  UpdatePort := store_UpdatePort;
  DeletePort := store_DeletePort;
  EnsureBridgePort := store_EnsureBridgePort;
  DetachPortFromBridgeIfInterfaceOwned := store_DetachPort;
|}.
End store.

(** ** Conditional detachment under concurrent writers

    What OVSDB promises of a transaction that starts with a [wait] on a row's
    [external_ids] (RFC 7047): unless the row has the expected value at the time
    of the transaction, the wait reports an error and the transaction changes
    nothing.  [db] is the content of the database. *)
Class OvsdbWait {W Op D : Type} (c : Client W Op) (db : W -> D) (external_ids : W -> string -> option (gmap string string)) := {
  list_reads w : db (cl_Bridges c w).1 = db w;
  wait_guards w uuid expected ops rest w' r :
    cl_build c (WaitIface uuid expected) = Ok ops -> cl_Transact c (ops ++ rest) w = (w', r) ->
    external_ids w uuid <> Some expected ->
    db w' = db w /\ (forall results, r = Ok results -> first_error 0 results <> None);
}.

Section detach.
Context {W Op D : Type} (c : Client W Op) (db : W -> D).
Context (external_ids : W -> string -> option (gmap string string)) {OW : OvsdbWait c db external_ids}.

(** Detaching is safe against concurrent changes.  If
    [DetachPortFromBridgeIfInterfaceOwned] changes the database at all, the
    change is its one transaction, and at that moment the interface had exactly
    the expected [external_ids]; and it answers [true] only if that held.  In
    particular an attachment that another writer replaced after it was listed is
    never detached. *)
Theorem DetachPort_guarded bridge port iface expected w w' r :
  store_DetachPort c bridge port iface expected w = (w', r) ->
  (db w' = db w /\ r <> Ok true) \/
  (exists w1 waitOps mutateOps bridgeUUID res,
     cl_build c (WaitIface iface expected) = Ok waitOps /\
     cl_build c (MutateBridgePorts false bridgeUUID [port]) = Ok mutateOps /\
     db w1 = db w /\ cl_Transact c (waitOps ++ mutateOps) w1 = (w', res) /\
     external_ids w1 iface = Some expected).
Proof.
  unfold store_DetachPort, bridgeUUIDByName. intros H.
  assert (forall w1 x, cl_Bridges c w = (w1, x) -> db w1 = db w) as Hb.
  { intros w1 x E. pose proof (list_reads (c := c) w) as Hl. by rewrite E in Hl. }
  apply bind_inv in H as [(w1 & bu & H1 & H)|(e & H1 & ->)].
  2:{ left. split; [|done]. msteps_any; eauto. }
  assert (db w1 = db w) as Hw1 by (msteps; eauto).
  rewrite !bind_lift in H. destruct (cl_build c (WaitIface iface expected)) as [wops|] eqn:Hwait; [|left; by simplify_eq].
  rewrite bind_lift in H. destruct (cl_build c (MutateBridgePorts false bu [port])) as [mops|] eqn:Hm; [|left; by simplify_eq].
  destruct (cl_Transact c (wops ++ mops) w1) as [w2 res] eqn:Ht.
  assert (w' = w2) as ->.
  { unfold bind in H. rewrite Ht in H. destruct res; [|by simplify_eq]. by repeat case_match; unfold ret, fail in H; simplify_eq. }
  destruct (decide (external_ids w1 iface = Some expected)) as [Heq|Hne];
    [right; by eexists w1, wops, mops, bu, res|].
  destruct (wait_guards w1 iface expected wops mops w2 res Hwait Ht Hne) as [Hdb Hres]. left.
  split; [congruence|]. intros ->. unfold bind in H. rewrite Ht in H. destruct res as [results|]; [|done].
  specialize (Hres _ eq_refl). destruct (first_error 0 results) as [[i x]|]; [|done].
  destruct (_ && _) in H; by unfold ret, fail in H; simplify_eq.
Qed.
End detach.
