(* ===== verification/Endpoint.v ===== *)
(** * Endpoints and the OVN backend

    Models [src/pkg/endpoint]: the endpoint specification and its validation
    ([types.go], [lifecycle.go]), the endpoint manager that ensures the OVN port
    and then the local attachment ([manager.go]), and the OVN northbound backend
    ([ovn_libovsdb_backend.go]).  The libovsdb client is a parameter. *)

From S2P Require Import Prelude GoStd Attachment OvsdbStore.

(** ** Specifications *)

Record WorkloadRef := {
  wl_Kind : string; wl_UID : string; wl_Name : string; wl_Namespace : string; wl_NodeName : string;
}.

Record EndpointSpec := {
  sp_ID : string;
  sp_NetworkID : string;
  sp_AttachmentID : string;
  sp_Incarnation : string;
  sp_Workload : WorkloadRef;
  sp_LogicalSwitch : string;
  sp_LogicalSwitchPort : string;
  sp_OVSInterfaceName : string;
  sp_MACAddress : string;
  sp_IPAddresses : list string;
}.

(** [ObservationState]; [StateZero] is the empty string of a zero value. *)
Inductive ObservationState := StateZero | StateUnobserved | StateEnsured | StateSkipped | StateConflict | StateError.

#[export] Instance ObservationState_eq_dec : EqDecision ObservationState.
Proof. solve_decision. Defined.

(** [EndpointStatus] without its free-text message. *)
Record EndpointStatus := {
  es_ID : string;
  es_LogicalSwitch : string;
  es_LogicalSwitchPort : string;
  es_OVSInterfaceName : string;
  es_OVNPortState : ObservationState;
  es_LocalAttachState : ObservationState;
  es_DataplaneState : ObservationState;
  es_EVPNAdvertiseState : ObservationState;
}.

Definition zero_status : EndpointStatus :=
  {| es_ID := ""; es_LogicalSwitch := ""; es_LogicalSwitchPort := ""; es_OVSInterfaceName := "";
     es_OVNPortState := StateZero; es_LocalAttachState := StateZero;
     es_DataplaneState := StateZero; es_EVPNAdvertiseState := StateZero |}.

(** One address of [EndpointSpec.Validate]. *)
Definition address_ok (ip : string) : result unit :=
  let ip := TrimSpace ip in
  if bool_decide (ip = ""%string) then Ok tt
  else if ContainsAny ip "/" then
    match ParseCIDR ip with Some _ => Ok tt | None => Err (Errorf "invalid ip prefix") end
  else match ParseIP ip with Some _ => Ok tt | None => Err (Errorf "invalid ip address") end.

(** [EndpointSpec.Validate] *)
Definition EndpointSpec_Validate (s : EndpointSpec) : result unit :=
  if blank (sp_ID s) then Err (Errorf "endpoint id is required")
  else if blank (sp_NetworkID s) then Err (Errorf "network id is required")
  else if blank (sp_AttachmentID s) then Err (Errorf "attachment id is required")
  else if blank (sp_LogicalSwitch s) then Err (Errorf "logical switch is required")
  else if blank (sp_LogicalSwitchPort s) then Err (Errorf "logical switch port is required")
  else if blank (sp_MACAddress s) then Err (Errorf "mac address is required")
  else match ParseMAC (sp_MACAddress s) with
       | None => Err (Errorf "invalid mac address")
       | Some _ => rfold (fun _ ip => address_ok ip) tt (sp_IPAddresses s)
       end.

(** [NewEndpointID] *)
Definition NewEndpointID (networkID attachmentID workloadUID : string) : string :=
  (TrimSpace networkID +:+ "|" +:+ TrimSpace attachmentID +:+ "|" +:+ TrimSpace workloadUID)%string.

Record OVNPortSpec := {
  op_EndpointID : string;
  op_NetworkID : string;
  op_AttachmentID : string;
  op_WorkloadUID : string;
  op_Incarnation : string;
  op_LogicalSwitch : string;
  op_LogicalSwitchPort : string;
  op_Addresses : list string;
}.

Record OVNPortStatus := { os_LogicalSwitch : string; os_LogicalSwitchPort : string }.

(** ** The endpoint manager *)

(** [OVNBackend]; [CheckLogicalSwitchPortIdentity] is optional (a type assertion). *)
Record OVNBackend (W : Type) := {
  EnsureLogicalSwitchPort : OVNPortSpec -> M W OVNPortStatus;
  GetLogicalSwitchPort : string -> M W OVNPortStatus;
  DeleteLogicalSwitchPort : OVNPortSpec -> M W unit;
  CheckLogicalSwitchPortIdentity : option (OVNPortSpec -> M W unit);
}.
Arguments EnsureLogicalSwitchPort {W} _ _.
Arguments GetLogicalSwitchPort {W} _ _.
Arguments DeleteLogicalSwitchPort {W} _ _.
Arguments CheckLogicalSwitchPortIdentity {W} _.

(** [IdentityAwareAttachmentManager] *)
Record IdentityAware (W : Type) := {
  EnsureWithIdentity : Identity -> AttachmentSpec -> M W AttachmentStatus;
  DeleteWithIdentity : Identity -> string -> M W (DeleteOutcome * option error);
}.
Arguments EnsureWithIdentity {W} _ _ _.
Arguments DeleteWithIdentity {W} _ _ _.

(** [Manager]; [m_attach = Some None] is an attachment manager that is not
    identity aware. *)
Record Manager (W : Type) := {
  m_ovn : OVNBackend W;
  m_attach : option (option (IdentityAware W));
  m_allowAttach : bool;
}.
Arguments m_ovn {W} _.
Arguments m_attach {W} _.
Arguments m_allowAttach {W} _.

(** [attachmentIdentityFromSpec]: the endpoint identifier is not trimmed. *)
Definition attachmentIdentityFromSpec (spec : EndpointSpec) : Identity :=
  {| id_EndpointID := sp_ID spec; id_NetworkID := TrimSpace (sp_NetworkID spec);
     id_AttachmentID := TrimSpace (sp_AttachmentID spec);
     id_WorkloadUID := TrimSpace (wl_UID (sp_Workload spec));
     id_Incarnation := TrimSpace (sp_Incarnation spec) |}.

Definition port_spec (spec : EndpointSpec) (addresses : list string) : OVNPortSpec :=
  {| op_EndpointID := sp_ID spec; op_NetworkID := sp_NetworkID spec; op_AttachmentID := sp_AttachmentID spec;
     op_WorkloadUID := wl_UID (sp_Workload spec); op_Incarnation := sp_Incarnation spec;
     op_LogicalSwitch := sp_LogicalSwitch spec; op_LogicalSwitchPort := sp_LogicalSwitchPort spec;
     op_Addresses := addresses |}.

(** The addresses of the OVN port: "MAC IP" per address, or the bare MAC. *)
Definition port_addresses (spec : EndpointSpec) : list string :=
  let addresses := omap (fun ip => if blank ip then None
                                   else Some (sp_MACAddress spec +:+ " " +:+ TrimSpace ip)%string)
                        (sp_IPAddresses spec) in
  if bool_decide (length addresses = 0%nat) then [sp_MACAddress spec] else addresses.

Definition with_attach (st : ObservationState) (ifname : string) (s : EndpointStatus) : EndpointStatus :=
  {| es_ID := es_ID s; es_LogicalSwitch := es_LogicalSwitch s;
     es_LogicalSwitchPort := es_LogicalSwitchPort s; es_OVSInterfaceName := ifname;
     es_OVNPortState := es_OVNPortState s; es_LocalAttachState := st;
     es_DataplaneState := es_DataplaneState s; es_EVPNAdvertiseState := es_EVPNAdvertiseState s |}.

Section manager.
Context {W : Type} {CX : Ctx W} (m : Manager W).

(** [Manager.EnsureEndpoint]: a status is returned with or without an error. *)
Definition EnsureEndpoint (spec : EndpointSpec) : M W (EndpointStatus * option error) :=
  match EndpointSpec_Validate spec with
  | Err e => ret (zero_status, Some e)
  | Ok _ =>
  let! cerr := gets ctx_Err in
  match cerr with
  | Some e => ret (zero_status, Some e)
  | None =>
  let! r := attempt (EnsureLogicalSwitchPort (m_ovn m) (port_spec spec (port_addresses spec))) in
  match r with
  | Err e =>
      ret ({| es_ID := sp_ID spec; es_LogicalSwitch := sp_LogicalSwitch spec;
              es_LogicalSwitchPort := sp_LogicalSwitchPort spec;
              es_OVSInterfaceName := sp_OVSInterfaceName spec; es_OVNPortState := StateError;
              es_LocalAttachState := StateSkipped; es_DataplaneState := StateUnobserved;
              es_EVPNAdvertiseState := StateUnobserved |}, Some e)
  | Ok ovnStatus =>
      let status := {| es_ID := sp_ID spec; es_LogicalSwitch := os_LogicalSwitch ovnStatus;
                       es_LogicalSwitchPort := os_LogicalSwitchPort ovnStatus;
                       es_OVSInterfaceName := sp_OVSInterfaceName spec;
                       es_OVNPortState := StateEnsured; es_LocalAttachState := StateSkipped;
                       es_DataplaneState := StateUnobserved;
                       es_EVPNAdvertiseState := StateUnobserved |} in
      match (if m_allowAttach m then m_attach m else None) with
      | None => ret (status, None)
      | Some None =>
          ret (status, Some (Errorf "attachment manager must support identity-aware lifecycle operations"))
      | Some (Some am) =>
          let! a := attempt (EnsureWithIdentity am (attachmentIdentityFromSpec spec)
                       {| as_EndpointID := sp_ID spec; as_LogicalSwitchPort := sp_LogicalSwitchPort spec;
                          as_OVSInterfaceName := sp_OVSInterfaceName spec;
                          as_MACAddress := sp_MACAddress spec |}) in
          match a with
          | Err e => ret (with_attach StateError (sp_OVSInterfaceName spec) status, Some e)
          | Ok st => ret (with_attach StateEnsured (at_OVSInterfaceName st) status, None)
          end
      end
  end end end.

(** [Manager.GetEndpoint] *)
Definition GetEndpoint (id logicalSwitchPort : string) : M W (EndpointStatus * option error) :=
  let! r := attempt (GetLogicalSwitchPort (m_ovn m) logicalSwitchPort) in
  match r with
  | Err e => ret ({| es_ID := id; es_LogicalSwitch := ""; es_LogicalSwitchPort := logicalSwitchPort;
                     es_OVSInterfaceName := ""; es_OVNPortState := StateError;
                     es_LocalAttachState := StateUnobserved; es_DataplaneState := StateUnobserved;
                     es_EVPNAdvertiseState := StateUnobserved |}, Some e)
  | Ok s => ret ({| es_ID := id; es_LogicalSwitch := os_LogicalSwitch s;
                    es_LogicalSwitchPort := os_LogicalSwitchPort s; es_OVSInterfaceName := "";
                    es_OVNPortState := StateEnsured; es_LocalAttachState := StateUnobserved;
                    es_DataplaneState := StateUnobserved; es_EVPNAdvertiseState := StateUnobserved |}, None)
  end.

(** [Manager.DeleteEndpoint] *)
Definition DeleteEndpoint (spec : EndpointSpec) : M W unit :=
  if blank (sp_ID spec) then fail (Errorf "endpoint id is required") else
  do! match (if m_allowAttach m then m_attach m else None) with
      | None => ret tt
      | Some None => fail (Errorf "attachment manager must support identity-aware lifecycle operations")
      | Some (Some am) =>
          let! (_, e) := DeleteWithIdentity am (attachmentIdentityFromSpec spec) (sp_LogicalSwitchPort spec) in
          lift (of_error e)
      end in
  DeleteLogicalSwitchPort (m_ovn m) (port_spec spec []).

(** [Manager.CheckEndpointIdentity] *)
Definition CheckEndpointIdentity (spec : EndpointSpec) : M W unit :=
  if blank (sp_ID spec) then fail (Errorf "endpoint id is required") else
  match CheckLogicalSwitchPortIdentity (m_ovn m) with
  | Some check => check (port_spec spec [])
  | None => let! (_, e) := GetEndpoint (sp_ID spec) (sp_LogicalSwitchPort spec) in lift (of_error e)
  end.
End manager.

(** The OVS attachment manager as the identity-aware interface. *)
Definition ovs_attachments {W} (store : OVSStore W) : IdentityAware W :=
  {| EnsureWithIdentity := EnsureAttachmentWithIdentity store;
     DeleteWithIdentity := DeleteAttachmentWithIdentity store |}.

(** ** The OVN northbound backend *)

Record LogicalSwitch := { ls_UUID : string; ls_Name : string; ls_Ports : list string }.
Record LogicalSwitchPort := {
  lsp_UUID : string; lsp_Name : string; lsp_Addresses : list string; lsp_ExternalIDs : gmap string string;
}.

(** What the backend asks the client to build. *)
Inductive NbRequest :=
  | CreateLSP (lsp : LogicalSwitchPort)
  | UpdateLSP (uuid : string) (addresses : list string) (external_ids : gmap string string)
  | DeleteLSP (uuid : string)
  | MutateSwitchPorts (insert : bool) (switch : LogicalSwitch) (ports : list string).

Record NbClient (W Op : Type) := {
  nb_Switches : M W (list LogicalSwitch);
  nb_Ports : M W (list LogicalSwitchPort);
  nb_build : NbRequest -> result (list Op);
  nb_Transact : list Op -> M W (list OperationResult);
  nb_NewUUID : M W string;
}.
Arguments nb_Switches {W Op} _.
Arguments nb_Ports {W Op} _.
Arguments nb_build {W Op} _ _.
Arguments nb_Transact {W Op} _ _.
Arguments nb_NewUUID {W Op} _.

(** [ovnExternalIDsForSpec] *)
Definition ovnExternalIDsForSpec (spec : OVNPortSpec) : gmap string string :=
  list_to_map [(ExternalIDManagedBy, OwnerValue); (ExternalIDEndpointID, TrimSpace (op_EndpointID spec));
               (ExternalIDNetworkID, TrimSpace (op_NetworkID spec));
               (ExternalIDAttachID, TrimSpace (op_AttachmentID spec));
               (ExternalIDWorkloadUID, TrimSpace (op_WorkloadUID spec));
               (ExternalIDIncarnation, TrimSpace (op_Incarnation spec));
               (ExternalIDIfaceID, TrimSpace (op_LogicalSwitchPort spec))].

(** A recorded field that is present must be the caller's. *)
Definition field_conflicts (ids : gmap string string) (key want : string) : bool :=
  let v := TrimSpace (at_key ids key) in
  negb (bool_decide (v = ""%string)) && negb (bool_decide (v = TrimSpace want)).

(** [validateOVNOwnership] *)
Definition validateOVNOwnership (ids : gmap string string) (spec : OVNPortSpec) : result unit :=
  if bool_decide (size ids = 0%nat) then Err (Errorf "ovn lsp has no ownership metadata")
  else let managedBy := TrimSpace (at_key ids ExternalIDManagedBy) in
  if negb (bool_decide (managedBy = ""%string)) && negb (bool_decide (managedBy = OwnerValue))
  then Err (Errorf "ovn lsp managed by another owner")
  else if field_conflicts ids ExternalIDEndpointID (op_EndpointID spec)
  then Err (Errorf "endpoint ownership mismatch")
  else if field_conflicts ids ExternalIDNetworkID (op_NetworkID spec)
  then Err (Errorf "network ownership mismatch")
  else if field_conflicts ids ExternalIDAttachID (op_AttachmentID spec)
  then Err (Errorf "attachment ownership mismatch")
  else if field_conflicts ids ExternalIDWorkloadUID (op_WorkloadUID spec)
  then Err (Errorf "workload ownership mismatch")
  else Ok tt.

(** [validateOVNIncarnation] *)
Definition validateOVNIncarnation (ids : gmap string string) (expected : string) : result unit :=
  let expected := TrimSpace expected in
  if bool_decide (expected = ""%string) then Ok tt
  else let got := TrimSpace (at_key ids ExternalIDIncarnation) in
  if bool_decide (got = ""%string) then Err (Errorf "ovn lsp missing incarnation metadata")
  else if negb (bool_decide (got = expected)) then Err (Errorf "stale operation")
  else Ok tt.

Section backend.
Context {W Op : Type}.

Definition nb_transactNoErr (c : NbClient W Op) (ops : list Op) : M W unit :=
  let! results := nb_Transact c ops in
  match first_error 0 results with
  | Some _ => fail (Errorf "ovn op failed")
  | None => ret tt
  end.

(** [getLogicalSwitchByName], [getLogicalSwitchPortByName], [findLogicalSwitchForPort] *)
Definition getLogicalSwitchByName (c : NbClient W Op) (name : string) : M W LogicalSwitch :=
  let! switches := nb_Switches c in
  match List.find (fun s => bool_decide (ls_Name s = name)) switches with
  | Some s => ret s
  | None => fail (Errorf "logical switch not found")
  end.
Definition getLogicalSwitchPortByName (c : NbClient W Op) (name : string) : M W (option LogicalSwitchPort) :=
  let! all := nb_Ports c in
  ret (List.find (fun p => bool_decide (lsp_Name p = name)) all).
Definition findLogicalSwitchForPort (c : NbClient W Op) (lspUUID : string) : M W string :=
  let! switches := nb_Switches c in
  match List.find (fun s => contains (ls_Ports s) lspUUID) switches with
  | Some s => ret (ls_Name s)
  | None => fail (Errorf "logical switch for lsp UUID not found")
  end.

(** The branch of [EnsureLogicalSwitchPort] for an existing port. *)
Definition update_lsp (c : NbClient W Op) (spec : OVNPortSpec) (ls : LogicalSwitch)
    (existing : LogicalSwitchPort) : M W unit :=
  do! lift (validateOVNOwnership (lsp_ExternalIDs existing) spec) in
  let! updateOps := lift (nb_build c (UpdateLSP (lsp_UUID existing) (op_Addresses spec)
                                                (ovnExternalIDsForSpec spec))) in
  do! nb_transactNoErr c updateOps in
  if negb (contains (ls_Ports ls) (lsp_UUID existing)) then
    let! mutateOps := lift (nb_build c (MutateSwitchPorts true ls [lsp_UUID existing])) in
    nb_transactNoErr c mutateOps
  else ret tt.

(** [LibovsdbOVNBackend.EnsureLogicalSwitchPort] *)
Definition backend_Ensure (client : option (NbClient W Op)) (spec : OVNPortSpec) : M W OVNPortStatus :=
  match client with
  | None => fail (Errorf "ovn backend client is not configured")
  | Some c =>
  let lsName := TrimSpace (op_LogicalSwitch spec) in
  if bool_decide (lsName = ""%string) then fail (Errorf "logical switch is required") else
  let lspName := TrimSpace (op_LogicalSwitchPort spec) in
  if bool_decide (lspName = ""%string) then fail (Errorf "logical switch port is required") else
  let! ls := getLogicalSwitchByName c lsName in
  let! existing := getLogicalSwitchPortByName c lspName in
  do! match existing with
      | Some existing => update_lsp c spec ls existing
      | None =>
          let! lspUUID := nb_NewUUID c in
          let! createOps := lift (nb_build c (CreateLSP {| lsp_UUID := lspUUID; lsp_Name := lspName;
                                    lsp_Addresses := op_Addresses spec;
                                    lsp_ExternalIDs := ovnExternalIDsForSpec spec |})) in
          let! mutateOps := lift (nb_build c (MutateSwitchPorts true ls [lspUUID])) in
          nb_transactNoErr c (createOps ++ mutateOps)
      end in
  ret {| os_LogicalSwitch := lsName; os_LogicalSwitchPort := lspName |}
  end.

(** [LibovsdbOVNBackend.GetLogicalSwitchPort] *)
Definition backend_Get (client : option (NbClient W Op)) (logicalSwitchPort : string) : M W OVNPortStatus :=
  match client with
  | None => fail (Errorf "ovn backend client is not configured")
  | Some c =>
  let lspName := TrimSpace logicalSwitchPort in
  if bool_decide (lspName = ""%string) then fail (Errorf "logical switch port is required") else
  let! lsp := getLogicalSwitchPortByName c lspName in
  match lsp with
  | None => fail (Errorf "logical switch port not found")
  | Some lsp => let! lsName := findLogicalSwitchForPort c (lsp_UUID lsp) in
                ret {| os_LogicalSwitch := lsName; os_LogicalSwitchPort := lsp_Name lsp |}
  end end.

(** The operations of [DeleteLogicalSwitchPort]: remove the port from every switch
    that lists it, then delete its row. *)
Definition delete_ops (c : NbClient W Op) (switches : list LogicalSwitch) (lspUUID : string)
    : result (list Op) :=
  let? ops := rfold (fun ops ls =>
                if contains (ls_Ports ls) lspUUID
                then let? o := nb_build c (MutateSwitchPorts false ls [lspUUID]) in Ok (ops ++ o)
                else Ok ops) [] switches in
  let? deleteOps := nb_build c (DeleteLSP lspUUID) in
  Ok (ops ++ deleteOps).

(** [LibovsdbOVNBackend.DeleteLogicalSwitchPort] *)
Definition backend_Delete (client : option (NbClient W Op)) (spec : OVNPortSpec) : M W unit :=
  match client with
  | None => fail (Errorf "ovn backend client is not configured")
  | Some c =>
  let lspName := TrimSpace (op_LogicalSwitchPort spec) in
  if bool_decide (lspName = ""%string) then fail (Errorf "logical switch port is required") else
  let! lsp := getLogicalSwitchPortByName c lspName in
  match lsp with
  | None => ret tt
  | Some lsp =>
  do! lift (validateOVNOwnership (lsp_ExternalIDs lsp) spec) in
  do! lift (validateOVNIncarnation (lsp_ExternalIDs lsp) (op_Incarnation spec)) in
  let! switches := nb_Switches c in
  let! ops := lift (delete_ops c switches (lsp_UUID lsp)) in
  nb_transactNoErr c ops
  end end.

(** [LibovsdbOVNBackend.CheckLogicalSwitchPortIdentity] *)
Definition backend_Check (client : option (NbClient W Op)) (spec : OVNPortSpec) : M W unit :=
  match client with
  | None => fail (Errorf "ovn backend client is not configured")
  | Some c =>
  let! lsp := getLogicalSwitchPortByName c (op_LogicalSwitchPort spec) in
  match lsp with
  | None => fail (Errorf "logical switch port not found")
  | Some lsp =>
  do! lift (validateOVNOwnership (lsp_ExternalIDs lsp) spec) in
  do! lift (validateOVNIncarnation (lsp_ExternalIDs lsp) (op_Incarnation spec)) in
  let expectedIfaceID := TrimSpace (op_LogicalSwitchPort spec) in
  if negb (bool_decide (expectedIfaceID = ""%string))
     && negb (bool_decide (TrimSpace (at_key (lsp_ExternalIDs lsp) ExternalIDIfaceID) = expectedIfaceID))
  then fail (Errorf "iface-id mismatch") else
  if negb (blank (op_LogicalSwitch spec)) then
    let! lsName := findLogicalSwitchForPort c (lsp_UUID lsp) in
    if negb (bool_decide (lsName = TrimSpace (op_LogicalSwitch spec)))
    then fail (Errorf "attached to another logical switch") else ret tt
  else ret tt
  end end.

(** The backend as the interface value of the manager. *)
Definition libovsdb_ovn (client : option (NbClient W Op)) : OVNBackend W :=
  {| EnsureLogicalSwitchPort := backend_Ensure client; GetLogicalSwitchPort := backend_Get client;
     DeleteLogicalSwitchPort := backend_Delete client;
     CheckLogicalSwitchPortIdentity := Some (backend_Check client) |}.
End backend.

(** ** Properties of the manager *)

Section manager_properties.
Context {W : Type} {CX : Ctx W} (m : Manager W).

(** The attachment manager that is in use, if any. *)
Definition attaching : option (option (IdentityAware W)) := if m_allowAttach m then m_attach m else None.

(** Teardown order.  [DeleteEndpoint] deletes the OVN port only after the local
    attachment of the same identity was deleted (or found missing) without error,
    or when local attachment is not configured; otherwise it fails and the OVN
    backend is not called. *)
Theorem DeleteEndpoint_order spec w w' r :
  DeleteEndpoint m spec w = (w', r) ->
  (exists w1, (attaching = None /\ w1 = w \/
     exists am o, attaching = Some (Some am) /\
       DeleteWithIdentity am (attachmentIdentityFromSpec spec) (sp_LogicalSwitchPort spec) w = (w1, Ok (o, None))) /\
     blank (sp_ID spec) = false /\ DeleteLogicalSwitchPort (m_ovn m) (port_spec spec []) w1 = (w', r)) \/
  (exists e, r = Err e /\ (w' = w \/
     exists am x, attaching = Some (Some am) /\ x <> Ok (DeleteOutcomeDeleted, None) /\
       DeleteWithIdentity am (attachmentIdentityFromSpec spec) (sp_LogicalSwitchPort spec) w = (w', x))).
Proof.
  unfold DeleteEndpoint. fold attaching. intros H. destruct (blank _).
  { unfold fail in H. simplify_eq. right. eauto. }
  destruct attaching as [[am|]|] eqn:Ha.
  - apply bind_inv in H as [(w1 & [] & H1 & H2)|(e & H1 & ->)].
    + apply bind_ok_inv in H1 as (w2 & [o [e|]] & Hd & H1); [done|]. unfold lift in H1. simplify_eq/=.
      left. exists w1. split_and!; try done. right. by exists am, o.
    + right. exists e. split; [done|]. right.
      apply bind_inv in H1 as [(w2 & [o [e'|]] & Hd & H1)|(e' & Hd & Hx)]; [unfold lift in H1; simplify_eq/=..|].
      * by exists am, (Ok (o, Some e)).
      * by exists am, (Err e').
  - right. unfold bind, fail in H. simplify_eq. eauto.
  - left. exists w. unfold bind, ret in H. split_and!; try done. by left.
Qed.

(** The OVN addresses name the endpoint's MAC in every entry. *)
Lemma port_addresses_mac spec :
  port_addresses spec <> [] /\
  Forall (fun a => a = sp_MACAddress spec \/
    exists ip, ip ∈ sp_IPAddresses spec /\ blank ip = false /\
      a = (sp_MACAddress spec +:+ " " +:+ TrimSpace ip)%string) (port_addresses spec).
Proof.
  unfold port_addresses. case_bool_decide as Hl.
  - split; [done|]. repeat constructor.
  - split; [intros E; by rewrite E in Hl|]. apply Forall_forall. intros a (ip & Hin & Hip)%list_elem_of_omap.
    right. exists ip. destruct (blank ip) eqn:E; by simplify_eq.
Qed.

(** What ensuring an endpoint reports.  [EnsureEndpoint] reports the OVN port as
    ensured exactly when the backend ensured it, for a valid specification, with
    a live context and with addresses that all carry the endpoint's MAC; the
    local attachment is attempted only after that, with the specification's
    identity; and it returns no error exactly when every configured step
    succeeded, the attachment being reported as ensured, or skipped when none is
    configured. *)
Theorem EnsureEndpoint_reports spec w w' st err :
  EnsureEndpoint m spec w = (w', Ok (st, err)) ->
  (es_OVNPortState st <> StateEnsured /\ err <> None) \/
  (exists w1 ps, EndpointSpec_Validate spec = Ok tt /\ ctx_Err w = None /\
     EnsureLogicalSwitchPort (m_ovn m) (port_spec spec (port_addresses spec)) w = (w1, Ok ps) /\
     Forall (fun a => a = sp_MACAddress spec \/ exists ip, ip ∈ sp_IPAddresses spec /\ blank ip = false /\
       a = (sp_MACAddress spec +:+ " " +:+ TrimSpace ip)%string) (port_addresses spec) /\
     es_OVNPortState st = StateEnsured /\ es_ID st = sp_ID spec /\
     match attaching with
     | None => w' = w1 /\ err = None /\ es_LocalAttachState st = StateSkipped
     | Some None => w' = w1 /\ err <> None /\ es_LocalAttachState st = StateSkipped
     | Some (Some am) => exists a,
         EnsureWithIdentity am (attachmentIdentityFromSpec spec)
           {| as_EndpointID := sp_ID spec; as_LogicalSwitchPort := sp_LogicalSwitchPort spec;
              as_OVSInterfaceName := sp_OVSInterfaceName spec; as_MACAddress := sp_MACAddress spec |} w1 = (w', a) /\
         err = to_error a /\
         es_LocalAttachState st = (if is_ok a then StateEnsured else StateError)
     end).
Proof.
  unfold EnsureEndpoint. fold attaching. intros H.
  destruct (EndpointSpec_Validate spec) as [[]|e] eqn:Hv; [|unfold ret in H; simplify_eq; by left].
  rewrite bind_gets in H. destruct (ctx_Err w) as [e|] eqn:Hc; [unfold ret in H; simplify_eq; by left|].
  apply bind_ok_inv in H as (w1 & r & Hr & H). apply attempt_inv in Hr as (ps & Hr & [= ->]).
  destruct ps as [ps|e]; [|unfold ret in H; simplify_eq; by left]. right. exists w1, ps.
  pose proof (port_addresses_mac spec) as [_ Hmac].
  destruct attaching as [[am|]|]; [|unfold ret in H; simplify_eq; by split_and!..].
  apply bind_ok_inv in H as (w2 & a & Ha & H). apply attempt_inv in Ha as (a' & Ha & [= ->]).
  destruct a' as [a'|e]; unfold ret in H; simplify_eq/=; split_and!; try done; by eexists.
Qed.
End manager_properties.

(** ** Properties of the OVN backend *)

Lemma ovn_ids_keys spec :
  at_key (ovnExternalIDsForSpec spec) ExternalIDManagedBy = OwnerValue /\
  at_key (ovnExternalIDsForSpec spec) ExternalIDEndpointID = TrimSpace (op_EndpointID spec) /\
  at_key (ovnExternalIDsForSpec spec) ExternalIDNetworkID = TrimSpace (op_NetworkID spec) /\
  at_key (ovnExternalIDsForSpec spec) ExternalIDAttachID = TrimSpace (op_AttachmentID spec) /\
  at_key (ovnExternalIDsForSpec spec) ExternalIDWorkloadUID = TrimSpace (op_WorkloadUID spec) /\
  at_key (ovnExternalIDsForSpec spec) ExternalIDIncarnation = TrimSpace (op_Incarnation spec).
Proof. unfold ovnExternalIDsForSpec, at_key. simpl. split_and!; by simplify_map_eq. Qed.

(** The identity two port specifications share. *)
Definition same_owner (a b : OVNPortSpec) : Prop :=
  TrimSpace (op_EndpointID a) = TrimSpace (op_EndpointID b) /\
  TrimSpace (op_NetworkID a) = TrimSpace (op_NetworkID b) /\
  TrimSpace (op_AttachmentID a) = TrimSpace (op_AttachmentID b) /\
  TrimSpace (op_WorkloadUID a) = TrimSpace (op_WorkloadUID b).

Lemma field_conflicts_false ids key want :
  field_conflicts ids key want = false <->
  TrimSpace (at_key ids key) = ""%string \/ TrimSpace (at_key ids key) = TrimSpace want.
Proof.
  unfold field_conflicts. rewrite andb_false_iff, !negb_false_iff, !bool_decide_eq_true. done.
Qed.

(** What passing the ownership check says of the recorded fields. *)
Definition owned_fields (ids : gmap string string) (spec : OVNPortSpec) : Prop :=
  size ids <> 0%nat /\
  (TrimSpace (at_key ids ExternalIDManagedBy) = ""%string \/ TrimSpace (at_key ids ExternalIDManagedBy) = OwnerValue) /\
  Forall (fun kv => TrimSpace (at_key ids kv.1) = ""%string \/ TrimSpace (at_key ids kv.1) = TrimSpace kv.2)
    [(ExternalIDEndpointID, op_EndpointID spec); (ExternalIDNetworkID, op_NetworkID spec);
     (ExternalIDAttachID, op_AttachmentID spec); (ExternalIDWorkloadUID, op_WorkloadUID spec)].

Lemma validateOVNOwnership_ok ids spec : validateOVNOwnership ids spec = Ok tt <-> owned_fields ids spec.
Proof.
  unfold validateOVNOwnership, owned_fields. rewrite !Forall_cons, <-!field_conflicts_false. simpl.
  case_bool_decide as Hs; [naive_solver|].
  destruct (_ && _) eqn:Hm.
  - bools. naive_solver.
  - apply andb_false_iff in Hm. rewrite !negb_false_iff, !bool_decide_eq_true in Hm.
    repeat case_match; rewrite ?Forall_nil; naive_solver.
Qed.

Lemma validateOVNIncarnation_ok ids expected :
  validateOVNIncarnation ids expected = Ok tt <->
  TrimSpace expected = ""%string \/ TrimSpace (at_key ids ExternalIDIncarnation) = TrimSpace expected.
Proof.
  unfold validateOVNIncarnation. case_bool_decide as H1; [naive_solver|].
  case_bool_decide as H2; [split; [done|]; intros [?|E]; [done|]; rewrite E in H2; done|].
  case_bool_decide as H3; cbn [negb]; naive_solver.
Qed.

(** An OVN port's recorded identity is recognised by its owner and by nobody
    else.  The [external_ids] written for a specification pass the ownership and
    incarnation checks of that specification, with or without surrounding white
    space; and when its identity is complete they pass the ownership check of
    another specification only if the two identities are the same. *)
Theorem ovn_ownership_roundtrip spec spec' :
  validateOVNOwnership (ovnExternalIDsForSpec spec) spec = Ok tt /\
  validateOVNIncarnation (ovnExternalIDsForSpec spec) (op_Incarnation spec) = Ok tt /\
  (forallb (fun f => negb (blank f)) [op_EndpointID spec; op_NetworkID spec; op_AttachmentID spec; op_WorkloadUID spec] = true ->
   validateOVNOwnership (ovnExternalIDsForSpec spec) spec' = Ok tt <-> same_owner spec spec').
Proof.
  rewrite !validateOVNOwnership_ok, validateOVNIncarnation_ok. unfold owned_fields. rewrite !Forall_cons, !Forall_nil. simpl.
  destruct (ovn_ids_keys spec) as (-> & -> & -> & -> & -> & ->). rewrite !TrimSpace_idem.
  assert (size (ovnExternalIDsForSpec spec) <> 0%nat) as Hs.
  { intros E%map_size_empty_inv. pose proof (ovn_ids_keys spec) as [Hk _]. rewrite E in Hk. done. }
  assert (TrimSpace OwnerValue = OwnerValue) as -> by reflexivity.
  split; [by auto 20|]. split; [by auto|]. intros Hb. rewrite !andb_true_iff, !negb_true_iff in Hb.
  unfold blank, same_owner in *. rewrite !bool_decide_eq_false in Hb. naive_solver.
Qed.

Section backend_properties.
Context {W Op : Type} (c : NbClient W Op) (P : W -> Prop).
Hypothesis switches_read : preserves P (nb_Switches c).
Hypothesis ports_read : preserves P (nb_Ports c).

(** The OVN backend deletes only the caller's port.  [DeleteLogicalSwitchPort] runs
    at most one transaction; it removes exactly the listed port of that name from
    the listed switches that reference it and deletes its row; the port's
    recorded fields are the caller's (or absent), it is not managed by another
    owner, and its incarnation is the caller's when the caller names one. *)
Theorem backend_Delete_owned spec w w' r :
  P w -> backend_Delete (Some c) spec w = (w', r) ->
  P w' \/
  (exists ports lsp switches ops w1 w2 res, nb_Ports c w = (w1, Ok ports) /\ lsp ∈ ports /\
     lsp_Name lsp = TrimSpace (op_LogicalSwitchPort spec) /\ owned_fields (lsp_ExternalIDs lsp) spec /\
     (TrimSpace (op_Incarnation spec) = ""%string \/
      TrimSpace (at_key (lsp_ExternalIDs lsp) ExternalIDIncarnation) = TrimSpace (op_Incarnation spec)) /\
     nb_Switches c w1 = (w2, Ok switches) /\ P w2 /\ delete_ops c switches (lsp_UUID lsp) = Ok ops /\
     nb_Transact c ops w2 = (w', res) /\
     (r = Ok tt -> exists results, res = Ok results /\ first_error 0 results = None)).
Proof.
  intros Hw H. unfold backend_Delete, getLogicalSwitchPortByName in H. case_bool_decide.
  { unfold fail in H. simplify_eq. by left. }
  apply bind_inv in H as [(w1 & lsp & H1 & H)|(e & H1 & ->)].
  2:{ left. msteps_any. by eapply (preserves_run P _ _ _ _ ports_read). }
  apply bind_ok_inv in H1 as (w1' & ports & Hp & H1). unfold ret in H1. simplify_eq.
  pose proof (preserves_run P _ _ _ _ ports_read Hw Hp) as Hw1.
  destruct (List.find _ ports) as [lsp|] eqn:Hf; [|unfold ret in H; simplify_eq; by left].
  apply List.find_some in Hf as [Hin%list_elem_of_In Hn]. bools.
  rewrite bind_lift in H. destruct (validateOVNOwnership _ _) as [[]|] eqn:Ho; [|simplify_eq; by left].
  rewrite bind_lift in H. destruct (validateOVNIncarnation _ _) as [[]|] eqn:Hi; [|simplify_eq; by left].
  apply bind_inv in H as [(w2 & switches & Hs & H)|(e & Hs & ->)];
    pose proof (preserves_run P _ _ _ _ switches_read Hw1 Hs) as Hw2; [|by left].
  rewrite bind_lift in H. destruct (delete_ops c switches _) as [ops|] eqn:Hops; [|simplify_eq; by left].
  right. apply validateOVNOwnership_ok in Ho. apply validateOVNIncarnation_ok in Hi.
  unfold nb_transactNoErr, bind in H. destruct (nb_Transact c ops w2) as [w3 res] eqn:Ht.
  exists ports, lsp, switches, ops, w1, w2, res.
  assert (w' = w3) as -> by (destruct res; [|by simplify_eq]; case_match; unfold fail, ret in H; by simplify_eq).
  split_and!; try done. intros ->. destruct res as [results|]; [|done].
  exists results. split; [done|]. by destruct (first_error 0 results).
Qed.
End backend_properties.
