(* ===== verification/Observer.v ===== *)
(** * Endpoints from the state of OVN

    Models [src/pkg/evpn/observer.go], which resolves the endpoints of this chassis from the
    northbound and southbound databases, and [src/pkg/evpn/observer_ovnctl.go], which reads
    those databases through the JSON output of [ovn-nbctl] and [ovn-sbctl]; the command
    runner is a parameter. *)

From S2P Require Import Prelude GoStd Journal GoJson Type2 Exporter Attachment.

(** ** Data *)

(** [OVNLogicalSwitchPort] and [OVNPortBinding] *)
Record OVNLogicalSwitchPort := { olp_Name : string; olp_Addresses : list string; olp_ExternalIDs : gmap string string }.
Record OVNPortBinding := { opb_LogicalPort : string; opb_Chassis : string }.
(** [OVNStateSource] *)
Record OVNStateSource (W : Type) := {
  os_ListLogicalSwitchPorts : M W (list OVNLogicalSwitchPort);
  os_ListPortBindings : M W (list OVNPortBinding);
}.
Arguments os_ListLogicalSwitchPorts {W} _.
Arguments os_ListPortBindings {W} _.
(** [OVNEndpointObserver] *)
Record OVNEndpointObserver (W : Type) := {
  oo_Source : option (OVNStateSource W); oo_LocalNode : string; oo_LocalChassis : string; oo_Networks : gmap string EVPNNetworkConfig;
}.
Arguments oo_Source {W} _.
Arguments oo_LocalNode {W} _.
Arguments oo_LocalChassis {W} _.
Arguments oo_Networks {W} _.

(** ** Addresses and identifiers *)

(** One entry of [parseAddressPair]. *)
Definition address_pair (raw : string) : option (string * string) :=
  match Fields (TrimSpace raw) with
  | p0 :: p1 :: _ =>
      let candidateMAC := TrimSpace p0 in
      let candidateIP := TrimSpace p1 in
      if bool_decide (ParseMAC candidateMAC = None) then None else
      match ParseIP candidateIP with
      | Some _ => Some (candidateMAC, candidateIP)
      | None => (fun ip => (candidateMAC, Addr_String ip)) <$> ParseCIDR candidateIP
      end
  | _ => None
  end.
(** [parseAddressPair]: the first entry with a MAC and an IP. *)
Fixpoint parseAddressPair (addresses : list string) : option (string * string) :=
  match addresses with
  | [] => None
  | raw :: addresses => match address_pair raw with Some p => Some p | None => parseAddressPair addresses end
  end.

Section observer.
Context {MR : MapRange}.

(** [normalizeExternalIDs] *)
Definition normalizeExternalIDs (ids : gmap string string) : gmap string string :=
  foldl (fun out kv => <[TrimSpace kv.1 := TrimSpace kv.2]> out) ∅ (range ids).

(** [bindingByPort]: the last binding of a port stays. *)
Definition binding_step (m : gmap string string) (b : OVNPortBinding) : gmap string string :=
  if blank (opb_LogicalPort b) then m else <[TrimSpace (opb_LogicalPort b) := TrimSpace (opb_Chassis b)]> m.
Definition bindingByPort (bindings : list OVNPortBinding) : gmap string string := foldl binding_step ∅ bindings.

Context {W : Type}.

(** The endpoint of one port, if it is to be advertised. *)
Definition resolve (o : OVNEndpointObserver W) (bound : gmap string string) (lsp : OVNLogicalSwitchPort) : option LocalEndpoint :=
  let lspName := TrimSpace (olp_Name lsp) in
  if bool_decide (lspName = ""%string) then None
  else if negb (bool_decide (TrimSpace (at_key bound lspName) = TrimSpace (oo_LocalChassis o))) then None else
  let ids := normalizeExternalIDs (olp_ExternalIDs lsp) in
  let networkID := at_key ids ExternalIDNetworkID in
  match oo_Networks o !! networkID with
  | None => None
  | Some cfg =>
      if negb (n_Enabled cfg) then None
      else if bool_decide (at_key ids ExternalIDEndpointID = ""%string) || bool_decide (at_key ids ExternalIDIncarnation = ""%string)
              || bool_decide (at_key ids ExternalIDAttachID = ""%string) || bool_decide (at_key ids ExternalIDWorkloadUID = ""%string)
      then None else
      match parseAddressPair (olp_Addresses lsp) with
      | None => None
      | Some (mac, ip) =>
          Some {| NetworkID := networkID; EndpointID := at_key ids ExternalIDEndpointID; Incarnation := at_key ids ExternalIDIncarnation;
                  MACAddress := mac; IPAddresses := [ip]; VNI := n_VNI cfg; RouteDistinguisher := n_RouteDistinguisher cfg;
                  RouteTargets := n_RouteTargets cfg; LocalVTEP := n_LocalVTEP cfg; NodeName := TrimSpace (oo_LocalNode o);
                  Chassis := TrimSpace (oo_LocalChassis o); Advertise := true; MACOnly := false |}
      end
  end.
Definition resolve_step (o : OVNEndpointObserver W) (bound : gmap string string) (m : gmap string LocalEndpoint) (lsp : OVNLogicalSwitchPort)
    : gmap string LocalEndpoint :=
  match resolve o bound lsp with Some ep => <[RouteKey ep := ep]> m | None => m end.
Definition resolved (o : OVNEndpointObserver W) (ports : list OVNLogicalSwitchPort) (bindings : list OVNPortBinding) : list LocalEndpoint :=
  sort_by RouteKey (range (foldl (resolve_step o (bindingByPort bindings)) ∅ ports)).*2.

(** [DesiredLocalEndpoints] *)
Definition ovn_DesiredLocalEndpoints (o : OVNEndpointObserver W) : M W (list LocalEndpoint) :=
  match oo_Source o with
  | None => fail (Errorf "ovn source is required")
  | Some source =>
      if blank (oo_LocalChassis o) then fail (Errorf "local chassis is required") else
      let! ports := os_ListLogicalSwitchPorts source in
      let! bindings := os_ListPortBindings source in
      ret (resolved o ports bindings)
  end.
End observer.

(** ** Reading through the command line tools *)

(** [ovnTableJSON] *)
Record ovnTableJSON := { tj_Headings : list string; tj_Data : list json }.
(** [rowList] *)
Definition rowList (raw : json) : option (list json) := match raw with JArr l => Some l | _ => None end.
Definition as_string (j : json) : string := match j with JStr s => s | _ => "" end.
Definition as_array (j : json) : list json := match j with JArr l => l | _ => [] end.
Definition strings_in (l : list json) : list string :=
  omap (fun j => match j with JStr s => if blank s then None else Some (TrimSpace s) | _ => None end) l.

(** [ovsSetToStrings] *)
Definition ovsSetToStrings (v : json) : list string :=
  match v with
  | JStr s => if blank s then [] else [TrimSpace s]
  | JArr l =>
      match l with
      | [tag; x] =>
          if bool_decide (as_string tag = "set"%string) then strings_in (as_array x)
          else if bool_decide (as_string tag = "uuid"%string) then
            match x with JStr s => if blank s then strings_in l else [TrimSpace s] | _ => strings_in l end
          else strings_in l
      | _ => strings_in l
      end
  | _ => []
  end.
(** [ovsMapToStringMap] *)
Definition map_item (m : gmap string string) (item : json) : gmap string string :=
  match item with
  | JArr [k; v] => if blank (as_string k) then m else <[TrimSpace (as_string k) := TrimSpace (as_string v)]> m
  | _ => m
  end.
Definition ovsMapToStringMap (v : json) : gmap string string :=
  match v with
  | JArr [tag; items] => if bool_decide (as_string tag = "map"%string) then foldl map_item ∅ (as_array items) else ∅
  | _ => ∅
  end.

(** [colIndex]: the last column with a heading. *)
Definition colIndex (headings : list string) : gmap string nat :=
  foldl (fun m ih => <[ih.2 := ih.1]> m) ∅ (imap pair headings).
(** [row[i]] *)
Definition cell (row : list json) (i : nat) : result json := of_option (Errorf "index out of range") (row !! i).

(** [OVNCtlSource] *)
Record OVNCtlSource (W : Type) := {
  cs_Runner : string -> list string -> M W string; cs_KubeContext : string; cs_Namespace : string; cs_CentralPod : string; cs_Container : string;
}.
Arguments cs_Runner {W} _ _ _.
Arguments cs_KubeContext {W} _.
Arguments cs_Namespace {W} _.
Arguments cs_CentralPod {W} _.
Arguments cs_Container {W} _.

Section ctl.
Context {W : Type} {JT : Json ovnTableJSON}.

(** [runOVN] *)
Definition runOVN (s : OVNCtlSource W) (tool : string) (extraArgs : list string) : M W string :=
  let container := if blank (cs_Container s) then "ovn-ovs"%string else TrimSpace (cs_Container s) in
  cs_Runner s "kubectl" (["--context"; cs_KubeContext s; "-n"; cs_Namespace s; "exec"; cs_CentralPod s; "-c"; container; "--"; tool]%string ++ extraArgs).

(** [decodeOVNJSON] *)
Definition decodeOVNJSON (raw : string) : result ovnTableJSON := of_option (ExtErr "json") (json_Unmarshal raw).

(** One row of each listing. *)
Definition port_of_row (cols : gmap string nat) (acc : list OVNLogicalSwitchPort) (raw : json) : result (list OVNLogicalSwitchPort) :=
  match rowList raw with
  | None => Ok acc
  | Some row =>
      match cols !! "name"%string, cols !! "addresses"%string, cols !! "external_ids"%string with
      | Some ni, Some ai, Some ii =>
          if (length row <=? ii)%nat then Ok acc else
          let? name := cell row ni in
          let? addresses := cell row ai in
          let? ids := cell row ii in
          Ok (acc ++ [{| olp_Name := TrimSpace (as_string name); olp_Addresses := ovsSetToStrings addresses; olp_ExternalIDs := ovsMapToStringMap ids |}])
      | _, _, _ => Ok acc
      end
  end.
Definition binding_of_row (cols : gmap string nat) (acc : list OVNPortBinding) (raw : json) : result (list OVNPortBinding) :=
  match rowList raw with
  | None => Ok acc
  | Some row =>
      match cols !! "logical_port"%string, cols !! "chassis"%string with
      | Some li, Some ci =>
          if (length row <=? ci)%nat then Ok acc else
          let? lp := cell row li in
          let? ch := cell row ci in
          Ok (acc ++ [{| opb_LogicalPort := TrimSpace (as_string lp); opb_Chassis := TrimSpace (default ""%string (head (ovsSetToStrings ch))) |}])
      | _, _ => Ok acc
      end
  end.

(** [ListLogicalSwitchPorts] and [ListPortBindings] *)
Definition ctl_ListLogicalSwitchPorts (s : OVNCtlSource W) : M W (list OVNLogicalSwitchPort) :=
  let! raw := runOVN s "ovn-nbctl" ["--format=json"; "--columns=name,addresses,external_ids"; "list"; "Logical_Switch_Port"]%string in
  let! table := lift (map_err (Wrapped "decode nb json") (decodeOVNJSON raw)) in
  lift (rfold (port_of_row (colIndex (tj_Headings table))) [] (tj_Data table)).
Definition ctl_ListPortBindings (s : OVNCtlSource W) : M W (list OVNPortBinding) :=
  let! raw := runOVN s "ovn-sbctl" ["--format=json"; "--columns=logical_port,chassis"; "list"; "Port_Binding"]%string in
  let! table := lift (map_err (Wrapped "decode sb json") (decodeOVNJSON raw)) in
  lift (rfold (binding_of_row (colIndex (tj_Headings table))) [] (tj_Data table)).
Definition ctl_source (s : OVNCtlSource W) : OVNStateSource W :=
  {| os_ListLogicalSwitchPorts := ctl_ListLogicalSwitchPorts s; os_ListPortBindings := ctl_ListPortBindings s |}.
End ctl.

(** ** What is observed *)

Section sorted.
Context {A : Type} (key : A -> string).
#[local] Instance key_le_total : Total (key_le key).
Proof. intros x y. apply (total String.le). Qed.
#[local] Instance key_le_trans : Transitive (key_le key).
Proof. intros x y z. apply (transitivity (R := String.le)). Qed.
Lemma sort_by_elem l x : x ∈ sort_by key l <-> x ∈ l.
Proof. unfold sort_by. by rewrite merge_sort_Permutation. Qed.
Lemma sort_by_sorted l : StronglySorted (key_le key) (sort_by key l).
Proof. apply Sorted_StronglySorted; [apply _|]. apply (Sorted_merge_sort (key_le key)). Qed.
Lemma sort_by_NoDup l : NoDup (key <$> l) -> NoDup (key <$> sort_by key l).
Proof. intros H. unfold sort_by. by rewrite merge_sort_Permutation. Qed.
End sorted.

(** The binding of a port that counts is its last one. *)
Definition bound_to_chassis (bindings : list OVNPortBinding) (name chassis : string) : Prop :=
  exists before b after, bindings = before ++ b :: after /\ TrimSpace (opb_LogicalPort b) = name /\ TrimSpace (opb_Chassis b) = chassis
    /\ Forall (fun b' => TrimSpace (opb_LogicalPort b') <> name) after.
Lemma bindingByPort_spec bindings name chassis : name <> ""%string -> chassis <> ""%string ->
  at_key (bindingByPort bindings) name = chassis <-> bound_to_chassis bindings name chassis.
Proof.
  intros Hn Hc. unfold bindingByPort. induction bindings as [|b l IH] using rev_ind; simpl.
  - unfold at_key. rewrite lookup_empty. simpl. split; [congruence|]. intros (b1 & b & b2 & H & _). by destruct b1.
  - rewrite foldl_app. simpl. set (m := foldl _ _ l) in *. unfold binding_step, blank.
    destruct (decide (TrimSpace (opb_LogicalPort b) = name)) as [E|E].
    + rewrite bool_decide_eq_false_2 by (by rewrite E). rewrite E. unfold at_key at 1. rewrite lookup_insert_eq. simpl. split.
      * intros Hb. exists l, b, []. done.
      * intros (l1 & b' & l2 & Hl & Hb & Hch & Hf). destruct l2 as [|x l2 _] using rev_ind; [by apply app_inj_tail in Hl as [_ ->]|].
        rewrite app_comm_cons, app_assoc in Hl. apply app_inj_tail in Hl as [_ ->]. apply Forall_app in Hf as [_ Hf]. by apply Forall_inv in Hf.
    + assert (at_key (if bool_decide (TrimSpace (opb_LogicalPort b) = ""%string) then m else <[TrimSpace (opb_LogicalPort b) := TrimSpace (opb_Chassis b)]> m) name
              = at_key m name) as -> by (case_bool_decide; [done|]; unfold at_key; by rewrite lookup_insert_ne).
      rewrite IH. split.
      * intros (l1 & b' & l2 & -> & Hb & Hch & Hf). exists l1, b', (l2 ++ [b]). rewrite <-app_assoc. split_and!; try done. by apply Forall_app; repeat constructor.
      * intros (l1 & b' & l2 & Hl & Hb & Hch & Hf). destruct l2 as [|x l2 _] using rev_ind; [apply app_inj_tail in Hl as [_ ->]; done|].
        rewrite app_comm_cons, app_assoc in Hl. apply app_inj_tail in Hl as [-> ->]. apply Forall_app in Hf as [Hf _]. by exists l1, b', l2.
Qed.

Section observed.
Context {MR : MapRange} {W : Type} (o : OVNEndpointObserver W).

(** The ports whose endpoints are advertised, and as what. *)
Record advertisable (bindings : list OVNPortBinding) (lsp : OVNLogicalSwitchPort) (ep : LocalEndpoint) : Prop := {
  av_named : TrimSpace (olp_Name lsp) <> ""%string;
  av_bound : bound_to_chassis bindings (TrimSpace (olp_Name lsp)) (TrimSpace (oo_LocalChassis o));
  av_identity : let ids := normalizeExternalIDs (olp_ExternalIDs lsp) in
    NetworkID ep = at_key ids ExternalIDNetworkID /\ EndpointID ep = at_key ids ExternalIDEndpointID
    /\ Incarnation ep = at_key ids ExternalIDIncarnation
    /\ Forall (fun k => at_key ids k <> ""%string) [ExternalIDEndpointID; ExternalIDIncarnation; ExternalIDAttachID; ExternalIDWorkloadUID];
  av_network : exists cfg, oo_Networks o !! NetworkID ep = Some cfg /\ n_Enabled cfg = true
    /\ (VNI ep, RouteDistinguisher ep, RouteTargets ep, LocalVTEP ep) = (n_VNI cfg, n_RouteDistinguisher cfg, n_RouteTargets cfg, n_LocalVTEP cfg);
  av_address : exists ip, parseAddressPair (olp_Addresses lsp) = Some (MACAddress ep, ip) /\ IPAddresses ep = [ip];
  av_node : (NodeName ep, Chassis ep, Advertise ep, MACOnly ep) = (TrimSpace (oo_LocalNode o), TrimSpace (oo_LocalChassis o), true, false);
}.
Lemma bound_trimmed bindings name : TrimSpace (at_key (bindingByPort bindings) name) = at_key (bindingByPort bindings) name.
Proof.
  unfold bindingByPort. induction bindings as [|b l IH] using rev_ind; [done|]. rewrite foldl_app. simpl. unfold binding_step at 1 3.
  case_match; [done|]. unfold at_key in *. destruct (decide (TrimSpace (opb_LogicalPort b) = name)) as [->|E]; [rewrite lookup_insert_eq; apply TrimSpace_idem|].
  by rewrite lookup_insert_ne.
Qed.
Lemma resolve_spec bindings lsp ep : blank (oo_LocalChassis o) = false ->
  resolve o (bindingByPort bindings) lsp = Some ep <-> advertisable bindings lsp ep.
Proof.
  intros Hch. unfold blank in Hch. bools. unfold resolve. cbv zeta. rewrite bound_trimmed. split.
  - intros H. case_bool_decide as Hn; [done|]. destruct (bool_decide (at_key _ _ = _)) eqn:Hb; [|done]. bools.
    destruct (oo_Networks o !! _) as [cfg|] eqn:Hc; [|done]. destruct (n_Enabled cfg) eqn:He; [|done]. simpl in H.
    destruct (_ || _) eqn:Hids; [done|]. destruct (parseAddressPair _) as [[mac ip]|] eqn:Ha; simplify_eq. bools.
    split; simpl; try done; eauto; [by apply bindingByPort_spec|]. by repeat constructor.
  - intros [Hn Hb (H1 & H2 & H3 & Hids) (cfg & Hc & He & Hcfg) (ip & Ha & Hip) Hnode].
    rewrite bool_decide_eq_false_2 by done. apply bindingByPort_spec in Hb; [|done..]. rewrite bool_decide_eq_true_2 by done. simpl.
    rewrite <-H1, Hc, He. simpl. inversion_clear Hids as [|?? E1 Hids']. inversion_clear Hids' as [|?? E2 Hids'']. inversion_clear Hids'' as [|?? E3 Hids3].
    apply Forall_inv in Hids3 as E4. rewrite !bool_decide_eq_false_2 by done. simpl. rewrite Ha. destruct ep. simpl in *. by simplify_eq.
Qed.

Definition table_of (bindings : list OVNPortBinding) (ports : list OVNLogicalSwitchPort) : gmap string LocalEndpoint :=
  foldl (resolve_step o (bindingByPort bindings)) ∅ ports.
Lemma table_spec bindings ports :
  (forall k ep, table_of bindings ports !! k = Some ep -> k = RouteKey ep /\ exists lsp, lsp ∈ ports /\ resolve o (bindingByPort bindings) lsp = Some ep)
  /\ forall lsp ep, lsp ∈ ports -> resolve o (bindingByPort bindings) lsp = Some ep -> is_Some (table_of bindings ports !! RouteKey ep).
Proof.
  unfold table_of. induction ports as [|lsp l [IH1 IH2]] using rev_ind; simpl.
  - split; [intros k ep H; by rewrite lookup_empty in H|intros lsp ep H; by apply not_elem_of_nil in H].
  - rewrite foldl_app. simpl. unfold resolve_step at 1 3. destruct (resolve o _ lsp) as [ep0|] eqn:E.
    + split.
      * intros k ep [[<- <-]|[_ Hk]]%lookup_insert_Some; [split; [done|]; exists lsp; set_solver|].
        apply IH1 in Hk as (-> & x & Hx & ?). split; [done|]. exists x. set_solver.
      * intros x ep [Hx| ->%list_elem_of_singleton]%elem_of_app Hr; [|simplify_eq; rewrite lookup_insert_eq; by eexists].
        destruct (decide (RouteKey ep = RouteKey ep0)) as [->|Hne]; [rewrite lookup_insert_eq; by eexists|]. rewrite lookup_insert_ne by done. by eapply IH2.
    + split; [intros k ep Hk; apply IH1 in Hk as (-> & x & Hx & ?); split; [done|]; exists x; set_solver|].
      intros x ep [Hx| ->%list_elem_of_singleton]%elem_of_app Hr; [by eapply IH2|congruence].
Qed.

(** The OVN observer advertises exactly the owned endpoints of this chassis.  When
    [DesiredLocalEndpoints] answers, its endpoints are sorted by route key without a
    repeated key; each is the endpoint of a listed port whose last binding is on the local
    chassis, with a complete identity, a valid address pair and the settings of an enabled
    network; and the route key of every such port is among them. *)
Theorem ovn_observer_exact w w' eps : ovn_DesiredLocalEndpoints o w = (w', Ok eps) ->
  exists source ports bindings w1, oo_Source o = Some source
    /\ os_ListLogicalSwitchPorts source w = (w1, Ok ports) /\ os_ListPortBindings source w1 = (w', Ok bindings)
    /\ StronglySorted (key_le RouteKey) eps /\ NoDup (RouteKey <$> eps)
    /\ (forall ep, ep ∈ eps -> exists lsp, lsp ∈ ports /\ advertisable bindings lsp ep)
    /\ (forall lsp ep, lsp ∈ ports -> advertisable bindings lsp ep -> RouteKey ep ∈ (RouteKey <$> eps)).
Proof.
  unfold ovn_DesiredLocalEndpoints. destruct (oo_Source o) as [source|] eqn:Es; [|by intros [=]]. destruct (blank (oo_LocalChassis o)) eqn:Ech; [by intros [=]|].
  intros [(w1 & ports & H1 & [(w2 & bindings & H2 & [= <- <-])|(e & _ & [=])]%bind_inv)|(e & _ & [=])]%bind_inv.
  exists source, ports, bindings, w1. unfold resolved. fold (table_of bindings ports). destruct (table_spec bindings ports) as [Ht Hall].
  assert (forall ep, ep ∈ (range (table_of bindings ports)).*2 <-> table_of bindings ports !! RouteKey ep = Some ep) as Hel.
  { intros ep. rewrite list_elem_of_fmap. split.
    - intros ([k ep'] & -> & Hk%range_lookup). simpl. by destruct (Ht k ep' Hk) as [-> _].
    - intros Hk. exists (RouteKey ep, ep). by rewrite range_lookup. }
  split_and!; [done..|apply sort_by_sorted| | |].
  - apply sort_by_NoDup. rewrite <-list_fmap_compose. erewrite list_fmap_ext; [apply range_NoDup|]. intros i [k ep] Hi. simpl.
    apply list_elem_of_lookup_2, range_lookup, Ht in Hi as [-> _]. done.
  - intros ep Hep%sort_by_elem%Hel. apply Ht in Hep as (_ & lsp & Hin & Hr). exists lsp. split; [done|]. by apply resolve_spec.
  - intros lsp ep Hin Hr%resolve_spec; [|done]. destruct (Hall lsp ep Hin Hr) as [ep' Hk]. destruct (Ht _ _ Hk) as [E _]. rewrite E.
    apply list_elem_of_fmap. exists ep'. split; [done|]. apply sort_by_elem, Hel. by rewrite <-E.
Qed.
End observed.

(** With the columns that were asked for, in their order, no index is out of range. *)
Lemma port_rows_total data acc : exists l, rfold (port_of_row (colIndex ["name"; "addresses"; "external_ids"]%string)) acc data = Ok l.
Proof.
  revert acc. induction data as [|raw data IH]; intros acc; simpl; [by eexists|]. assert (exists l, port_of_row (colIndex ["name"; "addresses"; "external_ids"]%string) acc raw = Ok l) as [l ->]; [|apply IH].
  unfold port_of_row. destruct (rowList raw) as [row|]; [|by eexists].
  change (colIndex _ !! "name"%string) with (Some 0%nat). change (colIndex _ !! "addresses"%string) with (Some 1%nat). change (colIndex _ !! "external_ids"%string) with (Some 2%nat).
  destruct row as [|a [|b [|c row]]]; by eexists.
Qed.
Lemma binding_rows_total data acc : exists l, rfold (binding_of_row (colIndex ["logical_port"; "chassis"]%string)) acc data = Ok l.
Proof.
  revert acc. induction data as [|raw data IH]; intros acc; simpl; [by eexists|]. assert (exists l, binding_of_row (colIndex ["logical_port"; "chassis"]%string) acc raw = Ok l) as [l ->]; [|apply IH].
  unfold binding_of_row. destruct (rowList raw) as [row|]; [|by eexists].
  change (colIndex _ !! "logical_port"%string) with (Some 0%nat). change (colIndex _ !! "chassis"%string) with (Some 1%nat).
  destruct row as [|a [|b row]]; by eexists.
Qed.
Example port_row_read : rfold (port_of_row (colIndex ["name"; "addresses"; "external_ids"]%string)) []
    [JArr [JStr " vm "; JArr [JStr "set"; JArr [JStr "dynamic"; JStr "0a:00:00:00:00:01 10.0.0.5"]]; JArr [JStr "map"; JArr [JArr [JStr "k"; JStr "v"]]]]; JArr [JStr "short"]]
  = Ok [{| olp_Name := "vm"; olp_Addresses := ["dynamic"; "0a:00:00:00:00:01 10.0.0.5"]; olp_ExternalIDs := {["k" := "v"]} |}].
Proof. vm_compute. reflexivity. Qed.
