(* ===== verification/CniTypes.v ===== *)
(** * Requests, records and names of the node agent

    Models the data of [src/pkg/nodeagent/server.go] and the pure helpers of that file and
    of [src/pkg/nodeagent/network_backend.go]: the messages of the CNI service, the
    validation of a request, the endpoint specification it stands for, the comparison of
    records, and the names given to ports and interfaces.  A message pointer is an
    [option]; the generated getters answer the zero value for [nil]. *)

From S2P Require Import Prelude GoStd Attachment Endpoint.
From Stdlib Require Import Ascii.

(** ** gRPC status errors *)

Inductive codes := InvalidArgument | NotFound | AlreadyExists | FailedPrecondition | Internal | Unavailable.
Definition code_name (c : codes) : string :=
  match c with
  | InvalidArgument => "InvalidArgument" | NotFound => "NotFound" | AlreadyExists => "AlreadyExists"
  | FailedPrecondition => "FailedPrecondition" | Internal => "Internal" | Unavailable => "Unavailable"
  end.
(** [status.Error] *)
Definition status (c : codes) (msg : string) : error := Errorf ("rpc error: code = " +:+ code_name c +:+ " desc = " +:+ msg).
(** [status.Errorf] with [%v] of an error. *)
Definition status_of (c : codes) (msg : string) (_ : error) : error := status c msg.

(** ** Messages *)

Record EndpointIdentity := {
  ei_EndpointId : string; ei_NetworkId : string; ei_AttachmentId : string; ei_WorkloadUid : string; ei_Incarnation : string;
}.
Record K8SIdentity := { k8_PodNamespace : string; k8_PodName : string; k8_PodUid : string; k8_NodeName : string }.
Record CNIRuntimeContext := { rt_CniVersion : string; rt_ContainerId : string; rt_NetnsPath : string; rt_IfName : string }.
Record AttachmentRequest := { ar_LogicalSwitch : string; ar_OvsInterfaceName : string; ar_StaticIpCidr : string; ar_StaticMac : string }.
Record CNIInterface := { ci_Name : string; ci_Mac : string; ci_Sandbox : string }.
Record CNIIPConfig := { ip_Address : string; ip_Interface : Z; ip_Gateway : string }.
Record CNIRoute := { ro_Dst : string; ro_Gw : string }.
Record CNIDNS := { dns_Nameservers : list string; dns_Searches : list string; dns_Options : list string; dns_Domain : string }.
Record CNIResult := {
  cr_CniVersion : string; cr_Interfaces : list CNIInterface; cr_Ips : list CNIIPConfig; cr_Routes : list CNIRoute; cr_Dns : option CNIDNS;
}.
Record CNIAddRequest := {
  add_Identity : option EndpointIdentity; add_Runtime : option CNIRuntimeContext; add_Attachment : option AttachmentRequest;
  add_K8S : option K8SIdentity;
}.
(** [CNIDelRequest] and [CNICheckRequest] have the fields the code reads in common. *)
Record CNIDelRequest := {
  del_Identity : option EndpointIdentity; del_Runtime : option CNIRuntimeContext; del_Attachment : option AttachmentRequest;
  del_K8S : option K8SIdentity;
}.
Notation CNICheckRequest := CNIDelRequest (only parsing).

Inductive DelOutcome := DEL_DELETED | DEL_ALREADY_ABSENT | DEL_STALE_OPERATION.
Record CNIAddResponse := { ad_Result : option CNIResult; ad_Identity : option EndpointIdentity; ad_IdempotentReplay : bool }.
Record CNIDelResponse := { dr_Outcome : DelOutcome; dr_Identity : option EndpointIdentity }.
Record CNICheckResponse := { ck_Identity : option EndpointIdentity; ck_OvsAttachmentPresent : bool; ck_NetnsAttachmentPresent : bool }.

#[export] Instance EndpointIdentity_eq_dec : EqDecision EndpointIdentity.
Proof. solve_decision. Defined.
#[export] Instance CNIRuntimeContext_eq_dec : EqDecision CNIRuntimeContext.
Proof. solve_decision. Defined.
#[export] Instance AttachmentRequest_eq_dec : EqDecision AttachmentRequest.
Proof. solve_decision. Defined.
#[export] Instance CNIInterface_eq_dec : EqDecision CNIInterface.
Proof. solve_decision. Defined.
#[export] Instance CNIIPConfig_eq_dec : EqDecision CNIIPConfig.
Proof. solve_decision. Defined.
#[export] Instance CNIRoute_eq_dec : EqDecision CNIRoute.
Proof. solve_decision. Defined.
#[export] Instance CNIDNS_eq_dec : EqDecision CNIDNS.
Proof. solve_decision. Defined.
#[export] Instance CNIResult_eq_dec : EqDecision CNIResult.
Proof. solve_decision. Defined.
#[export] Instance WorkloadRef_eq_dec : EqDecision WorkloadRef.
Proof. solve_decision. Defined.
#[export] Instance EndpointSpec_eq_dec : EqDecision EndpointSpec.
Proof. solve_decision. Defined.
#[export] Instance DelOutcome_eq_dec : EqDecision DelOutcome.
Proof. solve_decision. Defined.

Section getters.
Implicit Types (i : option EndpointIdentity) (r : option CNIRuntimeContext) (a : option AttachmentRequest) (k : option K8SIdentity).
Definition GetEndpointId i := from_option ei_EndpointId ""%string i.
Definition GetNetworkId i := from_option ei_NetworkId ""%string i.
Definition GetAttachmentId i := from_option ei_AttachmentId ""%string i.
Definition GetWorkloadUid i := from_option ei_WorkloadUid ""%string i.
Definition GetIncarnation i := from_option ei_Incarnation ""%string i.
Definition GetCniVersion r := from_option rt_CniVersion ""%string r.
Definition GetContainerId r := from_option rt_ContainerId ""%string r.
Definition GetNetnsPath r := from_option rt_NetnsPath ""%string r.
Definition GetIfName r := from_option rt_IfName ""%string r.
Definition GetLogicalSwitch a := from_option ar_LogicalSwitch ""%string a.
Definition GetOvsInterfaceName a := from_option ar_OvsInterfaceName ""%string a.
Definition GetStaticIpCidr a := from_option ar_StaticIpCidr ""%string a.
Definition GetStaticMac a := from_option ar_StaticMac ""%string a.
Definition GetPodUid k := from_option k8_PodUid ""%string k.
Definition GetPodName k := from_option k8_PodName ""%string k.
Definition GetPodNamespace k := from_option k8_PodNamespace ""%string k.
Definition GetNodeName k := from_option k8_NodeName ""%string k.
End getters.

(** [endpointRecord] *)
Record endpointRecord := {
  rec_identity : option EndpointIdentity;
  rec_runtime : option CNIRuntimeContext;
  rec_attachment : option AttachmentRequest;
  rec_result : option CNIResult;
  rec_endpointSpec : EndpointSpec;
}.
#[export] Instance endpointRecord_eq_dec : EqDecision endpointRecord.
Proof. solve_decision. Defined.

Definition zero_attachment : AttachmentRequest :=
  {| ar_LogicalSwitch := ""; ar_OvsInterfaceName := ""; ar_StaticIpCidr := ""; ar_StaticMac := "" |}.

(** ** Names *)

Definition maxNameLen : nat := 63.
Definition ifNameMaxLen : nat := 15.

(** [trimName] *)
Definition trimName (v : string) : string :=
  if (String.length v <=? maxNameLen)%nat then v else String.substring 0 maxNameLen v.

(** [strings.ToLower] as far as [sanitizeName] can see it: a letter outside ASCII stays
    outside, but for the Kelvin sign and the dotted capital I. *)
Fixpoint lower_name (l : list ascii) : list ascii :=
  match l with
  | [] => []
  | a :: l1 =>
      let plain := lower a :: lower_name l1 in
      match l1 with
      | [] => plain
      | b :: l2 =>
          if (code a =? 196) && (code b =? 176) then byte 105 :: lower_name l2 else
          match l2 with
          | [] => plain
          | c :: l3 => if (code a =? 226) && (code b =? 132) && (code c =? 170) then byte 107 :: lower_name l3 else plain
          end
      end
  end.

(** The replacer and the filter of [sanitizeName], byte by byte. *)
Definition name_char (c : ascii) : list ascii :=
  let c := if bool_decide (code c ∈ [47; 58; 46; 95; 32]) then byte 45 else c in
  if (97 <=? code c) && (code c <=? 122) || (48 <=? code c) && (code c <=? 57) || (code c =? 45) then [c] else [].
Fixpoint drop_dashes (l : list ascii) : list ascii :=
  match l with c :: l' => if code c =? 45 then drop_dashes l' else l | [] => [] end.

(** [sanitizeName] *)
Definition sanitizeName (v : string) : string :=
  let v := TrimSpace (str (lower_name (chars v))) in
  if bool_decide (v = ""%string) then "ep"%string else
  let out := str (rev (drop_dashes (rev (drop_dashes (concat (map name_char (chars v))))))) in
  if bool_decide (out = ""%string) then "ep"%string else trimName out.

(** [firstNonEmpty] *)
Fixpoint firstNonEmpty (values : list string) : string :=
  match values with
  | [] => ""
  | v :: values => let t := TrimSpace v in if bool_decide (t = ""%string) then firstNonEmpty values else t
  end.

(** [fnv32a]: uint32 arithmetic. *)
Definition wrap32 (z : Z) : Z := z mod 2 ^ 32.
Definition fnv_step (hash : Z) (c : ascii) : Z := wrap32 (Z.lxor hash (code c) * 16777619).
Definition fnv32a (v : string) : Z := foldl fnv_step 2166136261 (chars v).

(** [%08x] of a uint32. *)
Definition hex8 (z : Z) : list ascii :=
  concat (map (fun k => hex2 (Z.land (Z.shiftr z k) 255)) [24; 16; 8; 0]).

(** [shortHash] *)
Definition shortHash (v : string) (n : nat) : string :=
  str (firstn n (hex8 (fnv32a v) ++ hex8 (fnv32a (v +:+ "-alt")))).

Definition hostVethNameForKey (key : string) : string := "evp" +:+ shortHash key (ifNameMaxLen - 3).
Definition peerVethNameForKey (key : string) : string := "evc" +:+ shortHash key (ifNameMaxLen - 3).
Definition ownerAliasForKey (key : string) : string := "evpn-node-agent|" +:+ key.

(** ** Requests *)

(** [validateIdentity] *)
Definition validateIdentity (identity : option EndpointIdentity) : result EndpointIdentity :=
  match identity with
  | None => Err (status InvalidArgument "identity is required")
  | Some i =>
      if blank (ei_EndpointId i) then Err (status InvalidArgument "identity.endpoint_id is required")
      else if blank (ei_NetworkId i) then Err (status InvalidArgument "identity.network_id is required")
      else if blank (ei_AttachmentId i) then Err (status InvalidArgument "identity.attachment_id is required")
      else Ok i
  end.

(** [validateStaticConfig] *)
Definition validateStaticConfig (attachment : AttachmentRequest) : result unit :=
  let ip := TrimSpace (ar_StaticIpCidr attachment) in
  let mac := TrimSpace (ar_StaticMac attachment) in
  if negb (bool_decide (ip = ""%string)) && negb (bool_decide (is_Some (ParseCIDR ip)))
  then Err (status InvalidArgument "attachment.static_ip_cidr invalid")
  else if negb (bool_decide (mac = ""%string)) && negb (bool_decide (is_Some (ParseMAC mac)))
  then Err (status InvalidArgument "attachment.static_mac invalid")
  else Ok tt.

(** [validateAddRequest] *)
Definition validateAddRequest (req : option CNIAddRequest) : result (EndpointIdentity * CNIRuntimeContext * AttachmentRequest) :=
  match req with
  | None => Err (status InvalidArgument "request is required")
  | Some req =>
      let? identity := validateIdentity (add_Identity req) in
      match add_Runtime req with
      | None => Err (status InvalidArgument "runtime is required")
      | Some runtime =>
          if blank (rt_CniVersion runtime) then Err (status InvalidArgument "runtime.cni_version is required") else
          let attachment := default zero_attachment (add_Attachment req) in
          let? _ := validateStaticConfig attachment in
          Ok (identity, runtime, attachment)
      end
  end.

(** The names both [mapCNIAddRequestToEndpointSpec] and [buildRecoveredRecord] derive. *)
Definition logical_switch (i : EndpointIdentity) (a : AttachmentRequest) : string :=
  firstNonEmpty [TrimSpace (ar_LogicalSwitch a); ("ls-" +:+ sanitizeName (ei_NetworkId i))%string].
Definition logical_switch_port (i : EndpointIdentity) (r : CNIRuntimeContext) (a : AttachmentRequest) : string :=
  let base := firstNonEmpty [TrimSpace (ar_OvsInterfaceName a); TrimSpace (rt_IfName r)] in
  let base := if bool_decide (base = ""%string) then "ep"%string else base in
  trimName (Join [base; sanitizeName (ei_NetworkId i); sanitizeName (ei_AttachmentId i); sanitizeName (ei_EndpointId i)] "-").
Definition spec_of (i : EndpointIdentity) (r : CNIRuntimeContext) (a : AttachmentRequest) (k : option K8SIdentity) (mac : string)
    : EndpointSpec :=
  let lsp := logical_switch_port i r a in
  let ip := TrimSpace (ar_StaticIpCidr a) in
  {| sp_ID := TrimSpace (ei_EndpointId i); sp_NetworkID := TrimSpace (ei_NetworkId i);
     sp_AttachmentID := TrimSpace (ei_AttachmentId i); sp_Incarnation := TrimSpace (ei_Incarnation i);
     sp_Workload := {| wl_Kind := "pod"; wl_UID := firstNonEmpty [ei_WorkloadUid i; GetPodUid k; rt_ContainerId r];
                       wl_Name := TrimSpace (GetPodName k); wl_Namespace := TrimSpace (GetPodNamespace k);
                       wl_NodeName := TrimSpace (GetNodeName k) |};
     sp_LogicalSwitch := logical_switch i a; sp_LogicalSwitchPort := lsp;
     sp_OVSInterfaceName := firstNonEmpty [TrimSpace (ar_OvsInterfaceName a); TrimSpace (rt_IfName r); lsp];
     sp_MACAddress := mac; sp_IPAddresses := if bool_decide (ip = ""%string) then [] else [ip] |}.

Definition set_uid (uid : string) (s : EndpointSpec) : EndpointSpec :=
  {| sp_ID := sp_ID s; sp_NetworkID := sp_NetworkID s; sp_AttachmentID := sp_AttachmentID s; sp_Incarnation := sp_Incarnation s;
     sp_Workload := {| wl_Kind := wl_Kind (sp_Workload s); wl_UID := uid; wl_Name := wl_Name (sp_Workload s);
                       wl_Namespace := wl_Namespace (sp_Workload s); wl_NodeName := wl_NodeName (sp_Workload s) |};
     sp_LogicalSwitch := sp_LogicalSwitch s; sp_LogicalSwitchPort := sp_LogicalSwitchPort s;
     sp_OVSInterfaceName := sp_OVSInterfaceName s; sp_MACAddress := sp_MACAddress s; sp_IPAddresses := sp_IPAddresses s |}.
Definition set_interface (name : string) (s : EndpointSpec) : EndpointSpec :=
  {| sp_ID := sp_ID s; sp_NetworkID := sp_NetworkID s; sp_AttachmentID := sp_AttachmentID s; sp_Incarnation := sp_Incarnation s;
     sp_Workload := sp_Workload s; sp_LogicalSwitch := sp_LogicalSwitch s; sp_LogicalSwitchPort := sp_LogicalSwitchPort s;
     sp_OVSInterfaceName := name; sp_MACAddress := sp_MACAddress s; sp_IPAddresses := sp_IPAddresses s |}.

(** [mapCNIAddRequestToEndpointSpec]; the callers' request is not [nil]. *)
Definition mapCNIAddRequestToEndpointSpec (req : CNIAddRequest) : result EndpointSpec :=
  match add_Identity req, add_Runtime req with
  | Some i, Some r =>
      let a := default zero_attachment (add_Attachment req) in
      let mac := TrimSpace (ar_StaticMac a) in
      if bool_decide (mac = ""%string) then Err (Errorf "attachment.static_mac is required to create endpoint state") else
      let spec := spec_of i r a (add_K8S req) mac in
      let spec := if bool_decide (wl_UID (sp_Workload spec) = ""%string) then set_uid (rt_ContainerId r) spec else spec in
      let? _ := EndpointSpec_Validate spec in
      Ok spec
  | _, _ => Err (Errorf "identity and runtime are required")
  end.

(** [endpointKey] *)
Definition endpointKey (i : option EndpointIdentity) : string :=
  Join [TrimSpace (GetNetworkId i); TrimSpace (GetAttachmentId i); TrimSpace (GetEndpointId i)] "|".

(** The CNI result of an interface name, a MAC, a sandbox and an address. *)
Definition cni_result (version name mac sandbox ip : string) : CNIResult :=
  {| cr_CniVersion := version;
     cr_Interfaces := if negb (bool_decide (name = ""%string)) || negb (bool_decide (mac = ""%string)) || negb (bool_decide (sandbox = ""%string))
                      then [{| ci_Name := name; ci_Mac := mac; ci_Sandbox := sandbox |}] else [];
     cr_Ips := if bool_decide (ip = ""%string) then [] else [{| ip_Address := ip; ip_Interface := 0; ip_Gateway := "" |}];
     cr_Routes := []; cr_Dns := None |}.

(** [buildResultFromStaticConfig] *)
Definition buildResultFromStaticConfig (r : option CNIRuntimeContext) (a : option AttachmentRequest) : CNIResult :=
  cni_result (TrimSpace (GetCniVersion r)) (TrimSpace (GetIfName r)) (TrimSpace (GetStaticMac a)) (TrimSpace (GetNetnsPath r))
             (TrimSpace (GetStaticIpCidr a)).

(** [networkState] *)
Record networkState := { ns_HostIfName : string; ns_ContainerIfName : string; ns_MACAddress : string; ns_StaticIPCIDR : string }.
#[export] Instance networkState_eq_dec : EqDecision networkState.
Proof. solve_decision. Defined.

(** [buildResultFromNetworkState] *)
Definition buildResultFromNetworkState (r : option CNIRuntimeContext) (a : option AttachmentRequest) (state : networkState) : CNIResult :=
  cni_result (TrimSpace (GetCniVersion r)) (firstNonEmpty [TrimSpace (ns_ContainerIfName state); TrimSpace (GetIfName r)])
             (firstNonEmpty [TrimSpace (ns_MACAddress state); TrimSpace (GetStaticMac a)]) (TrimSpace (GetNetnsPath r))
             (firstNonEmpty [TrimSpace (ns_StaticIPCIDR state); TrimSpace (GetStaticIpCidr a)]).

(** ** Comparison of records *)

Definition normalizeIdentity (o : option EndpointIdentity) : string :=
  match o with
  | None => "<nil>"
  | Some i => Join [TrimSpace (ei_EndpointId i); TrimSpace (ei_NetworkId i); TrimSpace (ei_AttachmentId i);
                    TrimSpace (ei_WorkloadUid i); TrimSpace (ei_Incarnation i)] "|"
  end.
Definition normalizeRuntime (o : option CNIRuntimeContext) : string :=
  match o with
  | None => "<nil>"
  | Some r => Join [TrimSpace (rt_CniVersion r); TrimSpace (rt_ContainerId r); TrimSpace (rt_NetnsPath r); TrimSpace (rt_IfName r)] "|"
  end.
Definition normalizeAttachment (o : option AttachmentRequest) : string :=
  match o with
  | None => "<nil>"
  | Some a => Join [TrimSpace (ar_LogicalSwitch a); TrimSpace (ar_OvsInterfaceName a); TrimSpace (ar_StaticIpCidr a);
                    TrimSpace (ar_StaticMac a)] "|"
  end.
Definition normalizeEndpointSpec (s : EndpointSpec) : string :=
  Join [TrimSpace (sp_ID s); TrimSpace (sp_NetworkID s); TrimSpace (sp_AttachmentID s); TrimSpace (sp_Incarnation s);
        TrimSpace (wl_UID (sp_Workload s)); TrimSpace (wl_Name (sp_Workload s)); TrimSpace (wl_Namespace (sp_Workload s));
        TrimSpace (wl_NodeName (sp_Workload s)); TrimSpace (sp_LogicalSwitch s); TrimSpace (sp_LogicalSwitchPort s);
        TrimSpace (sp_OVSInterfaceName s); TrimSpace (sp_MACAddress s); Join (sp_IPAddresses s) ","] "|".
Definition normalizeResult (o : option CNIResult) : string :=
  match o with
  | None => "<nil>"
  | Some r =>
      TrimSpace (cr_CniVersion r) +:+ ";"
      +:+ String.concat "" (map (fun i => Join [TrimSpace (ci_Name i); TrimSpace (ci_Mac i); TrimSpace (ci_Sandbox i)] "," +:+ ";") (cr_Interfaces r))
      +:+ String.concat "" (map (fun i => TrimSpace (ip_Address i) +:+ "," +:+ itoa (ip_Interface i) +:+ "," +:+ TrimSpace (ip_Gateway i) +:+ ";")
                                (cr_Ips r))
  end.

(** [isIdentityMismatch] *)
Definition isIdentityMismatch (existing requested : option EndpointIdentity) : bool :=
  negb (bool_decide (normalizeIdentity existing = normalizeIdentity requested)).

(** [equivalentRecord] of two records that are not [nil] *)
Definition equivalentRecord (existing requested : endpointRecord) : bool :=
  negb (isIdentityMismatch (rec_identity existing) (rec_identity requested))
  && bool_decide (normalizeRuntime (rec_runtime existing) = normalizeRuntime (rec_runtime requested))
  && bool_decide (normalizeAttachment (rec_attachment existing) = normalizeAttachment (rec_attachment requested))
  && bool_decide (normalizeResult (rec_result existing) = normalizeResult (rec_result requested))
  && bool_decide (normalizeEndpointSpec (rec_endpointSpec existing) = normalizeEndpointSpec (rec_endpointSpec requested)).

(** [isStaleDelete] *)
Definition isStaleDelete (existing requested : option EndpointIdentity) : bool :=
  match existing, requested with
  | Some e, Some r =>
      let differs f := negb (bool_decide (TrimSpace (f e) = TrimSpace (f r))) in
      let set f := negb (bool_decide (TrimSpace (f r) = ""%string)) && negb (bool_decide (TrimSpace (f e) = ""%string)) in
      differs ei_EndpointId || differs ei_NetworkId || differs ei_AttachmentId
      || set ei_WorkloadUid && differs ei_WorkloadUid || set ei_Incarnation && differs ei_Incarnation
  | _, _ => true
  end.

(** [buildRecoveredRecord] *)
Definition buildRecoveredRecord (identity : option EndpointIdentity) (runtime : option CNIRuntimeContext)
    (attachment : option AttachmentRequest) (k8s : option K8SIdentity) : result endpointRecord :=
  let? i := validateIdentity identity in
  match runtime with
  | None => Err (Errorf "runtime is required")
  | Some r =>
      let a := default zero_attachment attachment in
      Ok {| rec_identity := Some i; rec_runtime := Some r; rec_attachment := Some a;
            rec_result := Some (buildResultFromStaticConfig (Some r) (Some a));
            rec_endpointSpec := spec_of i r a k8s (TrimSpace (ar_StaticMac a)) |}
  end.

(** [isStaleOperationErr] *)
Definition isStaleOperationErr (e : error) : bool :=
  errors_Is e SStaleOperation || Contains (ToLower (error_text e)) "stale operation".

(** ** Interfaces of the server *)

(** [networkBackend]; [DeleteAcknowledged] is optional (a type assertion). *)
Record networkBackend (W : Type) := {
  nb_Ensure : string -> endpointRecord -> M W (networkState * bool);
  nb_Delete : string -> endpointRecord -> M W unit;
  nb_Check : string -> endpointRecord -> M W networkState;
  nb_DeleteAcknowledged : option (string -> endpointRecord -> Z -> M W unit);
}.
Arguments nb_Ensure {W} _ _ _.
Arguments nb_Delete {W} _ _ _.
Arguments nb_Check {W} _ _ _.
Arguments nb_DeleteAcknowledged {W} _.

(** [endpoint.EndpointManager]; [CheckEndpointIdentity] is optional. *)
Record EndpointManager (W : Type) := {
  em_Ensure : EndpointSpec -> M W EndpointStatus;
  em_Get : string -> string -> M W EndpointStatus;
  em_Delete : EndpointSpec -> M W unit;
  em_CheckIdentity : option (EndpointSpec -> M W unit);
}.
Arguments em_Ensure {W} _ _.
Arguments em_Get {W} _ _ _.
Arguments em_Delete {W} _ _.
Arguments em_CheckIdentity {W} _.

(** The status of a call that reports one with every error, when only the error is used. *)
Definition or_error {S A} (m : M S (A * option error)) : M S A :=
  let! (a, e) := m in match e with None => ret a | Some e => fail e end.

(** [endpoint.Manager] as that interface. *)
Definition manager_of {W} {CX : Ctx W} (m : Manager W) : EndpointManager W := {|
  em_Ensure spec := or_error (EnsureEndpoint m spec);
  em_Get id port := or_error (GetEndpoint m id port);
  em_Delete := DeleteEndpoint m;
  em_CheckIdentity := Some (CheckEndpointIdentity m);
|}.

(** ** Bounds of the names *)

Lemma str_length l : String.length (str l) = length l.
Proof. unfold str. induction l as [|a l IH]; [done|]. simpl. by rewrite IH. Qed.
Lemma app_string_length a b : String.length (a +:+ b) = (String.length a + String.length b)%nat.
Proof. induction a as [|c a IH]; [done|]. simpl. by rewrite IH. Qed.
Lemma substring_length n s : (n <= String.length s)%nat -> String.length (String.substring 0 n s) = n.
Proof. revert n. induction s; intros [|n] H; simpl in *; try lia. f_equal. apply IHs. lia. Qed.

Lemma trimName_length v : (String.length (trimName v) <= maxNameLen)%nat /\ (v <> ""%string -> trimName v <> ""%string).
Proof.
  unfold trimName. destruct (_ <=? _)%nat eqn:E; [apply Nat.leb_le in E; done|]. apply Nat.leb_gt in E.
  rewrite substring_length by (unfold maxNameLen in *; lia). split; [done|]. by destruct v.
Qed.

Lemma hex8_length z : length (hex8 z) = 8%nat.
Proof. done. Qed.
Lemma shortHash_length v n : (n <= 16)%nat -> String.length (shortHash v n) = n.
Proof. intros Hn. unfold shortHash. rewrite str_length, firstn_length, length_app, !hex8_length. lia. Qed.

(** The names the agent derives fit where they are used.  The two veth names of an
    endpoint have exactly the 15 bytes Linux allows for an interface and differ from each
    other, whatever the endpoint key is; a sanitised name is never empty and a logical
    switch port name has at most 63 bytes, whatever the request says. *)
Theorem derived_names_bounded key v i r a :
  String.length (hostVethNameForKey key) = ifNameMaxLen /\ String.length (peerVethNameForKey key) = ifNameMaxLen /\
  hostVethNameForKey key <> peerVethNameForKey key /\
  sanitizeName v <> ""%string /\ (String.length (sanitizeName v) <= maxNameLen)%nat /\
  logical_switch_port i r a <> ""%string /\ (String.length (logical_switch_port i r a) <= maxNameLen)%nat.
Proof.
  assert (forall v, sanitizeName v <> ""%string /\ (String.length (sanitizeName v) <= maxNameLen)%nat) as Hs.
  { intros v'. unfold sanitizeName. cbv zeta. case_bool_decide; [split; [done|unfold maxNameLen; simpl; lia]|].
    case_bool_decide; [split; [done|unfold maxNameLen; simpl; lia]|]. split; by apply trimName_length. }
  split_and!; try apply Hs; try apply trimName_length.
  - unfold hostVethNameForKey. rewrite app_string_length, shortHash_length by (unfold ifNameMaxLen; lia). done.
  - unfold peerVethNameForKey. rewrite app_string_length, shortHash_length by (unfold ifNameMaxLen; lia). done.
  - done.
  - intros H. apply (f_equal String.length) in H. revert H. cbn [Join]. rewrite !app_string_length.
    change (String.length "-") with 1%nat. change (String.length "") with 0%nat. lia.
Qed.

(** Two Pods of one network with a long name. *)
Definition long_network : string := "tenant-a-production-frontend-network-west".
Definition pod_identity (uid : string) : EndpointIdentity :=
  {| ei_EndpointId := (long_network +:+ "|net1|" +:+ uid)%string; ei_NetworkId := long_network; ei_AttachmentId := "net1";
     ei_WorkloadUid := uid; ei_Incarnation := uid |}.
Definition pod_port (uid : string) : string :=
  logical_switch_port (pod_identity uid) {| rt_CniVersion := "1.0.0"; rt_ContainerId := uid; rt_NetnsPath := "/n"; rt_IfName := "net1" |}
                      zero_attachment.

(** The name of a logical switch port ends with the endpoint identity, and is cut at its
    end: with a network name of 41 bytes nothing of the Pod is left in it, and all Pods of
    the network are given the same port. *)
Theorem long_network_ports_collide :
  pod_port "11111111-1111-1111-1111-111111111111" = pod_port "22222222-2222-2222-2222-222222222222".
Proof. vm_compute. reflexivity. Qed.
