(* ===== verification/CniServer.v ===== *)
(** * The CNI server

    Models [src/pkg/nodeagent/server.go]: the endpoint store, the requests of a server
    without durable continuity, and the in-memory endpoint manager and network backend of
    that file and of [src/pkg/nodeagent/network_backend.go].  The mutex [operations]
    serialises the requests, so each is one step. *)

From S2P Require Import Prelude GoStd Attachment Endpoint CniTypes.

(** [Store]; [cloneRecord] copies, so a record is a value. *)
Notation Store := (gmap string endpointRecord).

(** [Store.putIfAbsentOrEqual]: the record found, if any. *)
Definition putIfAbsentOrEqual (key : string) (rec : endpointRecord) (s : Store) : Store * option endpointRecord :=
  match s !! key with
  | Some existing => (s, Some existing)
  | None => (<[key := rec]> s, None)
  end.

(** [Store.deleteIfRecordMatches] *)
Definition deleteIfRecordMatches (key : string) (rec : endpointRecord) (s : Store) : Store :=
  match s !! key with
  | Some existing => if equivalentRecord existing rec then delete key s else s
  | None => s
  end.

Definition set_spec (spec : EndpointSpec) (r : endpointRecord) : endpointRecord :=
  {| rec_identity := rec_identity r; rec_runtime := rec_runtime r; rec_attachment := rec_attachment r; rec_result := rec_result r;
     rec_endpointSpec := spec |}.
Definition set_result (result : CNIResult) (r : endpointRecord) : endpointRecord :=
  {| rec_identity := rec_identity r; rec_runtime := rec_runtime r; rec_attachment := rec_attachment r; rec_result := Some result;
     rec_endpointSpec := rec_endpointSpec r |}.

(** The record an ADD asks for, before the network is attached. *)
Definition requested (identity : EndpointIdentity) (runtime : CNIRuntimeContext) (attachment : AttachmentRequest) (spec : EndpointSpec)
    : endpointRecord :=
  {| rec_identity := Some identity; rec_runtime := Some runtime; rec_attachment := Some attachment;
     rec_result := Some (buildResultFromStaticConfig (Some runtime) (Some attachment)); rec_endpointSpec := spec |}.
(** The record with what the network backend reports. *)
Definition attached (rec : endpointRecord) (state : networkState) : endpointRecord :=
  let host := TrimSpace (ns_HostIfName state) in
  let rec1 := if bool_decide (host = ""%string) then rec else set_spec (set_interface host (rec_endpointSpec rec)) rec in
  set_result (buildResultFromNetworkState (rec_runtime rec) (rec_attachment rec) state) rec1.

Section server.
Context {W : Type} (endpoint : EndpointManager W) (network : networkBackend W).
Context (attachmentChecker : option (EndpointSpec -> M W unit)).
Notation SM := (M (Store * W)).

Definition on_store {A} (f : Store -> Store * A) : SM A := fun s => let '(st, a) := f s.1 in ((st, s.2), Ok a).

(** [_ = f()]: the error is dropped. *)
Definition ignore {S A} (m : M S A) : M S unit := do! attempt m in ret tt.

(** [CNIServer.Add] without continuity, once the record was stored or found. *)
Definition add_stored (key : string) (rec : endpointRecord) (createdNetwork : bool) (existing : option endpointRecord)
    : SM CNIAddResponse :=
  match existing with
  | Some existing =>
      if negb (equivalentRecord existing rec) then
        do! (if createdNetwork then ignore (on_snd (nb_Delete network key rec)) else ret tt) in
        fail (status AlreadyExists "conflicting ADD")
      else
        do! wrap (status_of FailedPrecondition "failed to ensure endpoint for idempotent add") (on_snd (em_Ensure endpoint (rec_endpointSpec rec))) in
        ret {| ad_Result := rec_result rec; ad_Identity := rec_identity existing; ad_IdempotentReplay := true |}
  | None =>
      let! r := attempt (on_snd (em_Ensure endpoint (rec_endpointSpec rec))) in
      match r with
      | Err e =>
          do! (if createdNetwork then ignore (on_snd (nb_Delete network key rec)) else ret tt) in
          do! on_store (fun st => (delete key st, tt)) in
          fail (status_of FailedPrecondition "failed to ensure endpoint" e)
      | Ok _ => ret {| ad_Result := rec_result rec; ad_Identity := rec_identity rec; ad_IdempotentReplay := false |}
      end
  end.

Definition network_status (e : error) : error :=
  if Contains (error_text e) "network attachment conflict" then status AlreadyExists "conflicting ADD"
  else status FailedPrecondition "failed to ensure network attachment".

(** [CNIServer.Add] without continuity *)
Definition Add (req : option CNIAddRequest) : SM CNIAddResponse :=
  let! (identity, runtime, attachment) := lift (validateAddRequest req) in
  let! spec := lift (map_err (status_of InvalidArgument "failed to map add request")
                             (match req with Some req => mapCNIAddRequestToEndpointSpec req | None => Err (Errorf "request is required") end)) in
  let key := endpointKey (Some identity) in
  let rec := requested identity runtime attachment spec in
  let! (netState, createdNetwork) := wrap network_status (on_snd (nb_Ensure network key rec)) in
  let rec := attached rec netState in
  let! existing := on_store (putIfAbsentOrEqual key rec) in
  add_stored key rec createdNetwork existing.

Definition deleted_response (outcome : DelOutcome) (identity : EndpointIdentity) : CNIDelResponse :=
  {| dr_Outcome := outcome; dr_Identity := Some identity |}.

(** [CNIServer.Del] of an endpoint that is not in the store. *)
Definition del_unknown (req : CNIDelRequest) (identity : EndpointIdentity) : SM CNIDelResponse :=
  match attachmentChecker with
  | None => ret (deleted_response DEL_ALREADY_ABSENT identity)
  | Some _ =>
      let! rec := lift (map_err (status_of FailedPrecondition "cannot establish endpoint state for delete")
                          (buildRecoveredRecord (del_Identity req) (del_Runtime req) (del_Attachment req) (del_K8S req))) in
      let! d := attempt (on_snd (em_Delete endpoint (rec_endpointSpec rec))) in
      match d with
      | Err e => if isStaleOperationErr e then ret (deleted_response DEL_STALE_OPERATION identity)
                 else fail (status_of FailedPrecondition "failed to delete endpoint" e)
      | Ok _ =>
          do! wrap (status_of FailedPrecondition "failed to delete network attachment")
                   (on_snd (nb_Delete network (endpointKey (Some identity)) rec)) in
          ret (deleted_response DEL_DELETED identity)
      end
  end.

(** [CNIServer.Del] without continuity *)
Definition Del (req : option CNIDelRequest) : SM CNIDelResponse :=
  match req with
  | None => fail (status InvalidArgument "request is required")
  | Some req =>
      let! identity := lift (validateIdentity (del_Identity req)) in
      let key := endpointKey (Some identity) in
      let! existing := gets (fun s => s.1 !! key) in
      match existing with
      | None => del_unknown req identity
      | Some rec =>
          if isStaleDelete (rec_identity rec) (Some identity) then ret (deleted_response DEL_STALE_OPERATION identity) else
          do! wrap (status_of FailedPrecondition "failed to delete endpoint") (on_snd (em_Delete endpoint (rec_endpointSpec rec))) in
          do! wrap (status_of FailedPrecondition "failed to delete network attachment") (on_snd (nb_Delete network key rec)) in
          do! on_store (fun st => (deleteIfRecordMatches key rec st, tt)) in
          ret (deleted_response DEL_DELETED identity)
      end
  end.

(** The error [network.Check] is reported with. *)
Definition errAttachmentNotFound : error := Errorf "attachment not found".
Fixpoint is_not_found (e : error) : bool :=
  match e with
  | Wrapped _ e => is_not_found e
  | Joined e1 e2 => is_not_found e1 || is_not_found e2
  | e => bool_decide (e = errAttachmentNotFound)
  end.
Definition check_status (e : error) : error :=
  if is_not_found e then status NotFound "network attachment missing" else status_of FailedPrecondition "network attachment check failed" e.

(** [CNIServer.Check], after the continuity check *)
Definition Check (req : option CNICheckRequest) : SM CNICheckResponse :=
  match req with
  | None => fail (status InvalidArgument "request is required")
  | Some req =>
      let! identity := lift (validateIdentity (del_Identity req)) in
      let key := endpointKey (Some identity) in
      let! existing := gets (fun s => s.1 !! key) in
      let! rec := match existing, attachmentChecker with
                  | Some rec, _ => ret rec
                  | None, None => fail (status NotFound "endpoint not found")
                  | None, Some _ => lift (map_err (status_of NotFound "endpoint not found")
                      (buildRecoveredRecord (del_Identity req) (del_Runtime req) (del_Attachment req) (del_K8S req)))
                  end in
      if isIdentityMismatch (rec_identity rec) (Some identity) then fail (status FailedPrecondition "identity mismatch") else
      do! match em_CheckIdentity endpoint with
          | Some check => wrap (status_of FailedPrecondition "endpoint identity check failed") (on_snd (check (rec_endpointSpec rec)))
          | None => do! wrap (status_of NotFound "endpoint not found in endpoint manager")
                             (on_snd (em_Get endpoint (sp_ID (rec_endpointSpec rec)) (sp_LogicalSwitchPort (rec_endpointSpec rec)))) in ret tt
          end in
      let! netState := wrap check_status (on_snd (nb_Check network key rec)) in
      let! ovsPresent := match attachmentChecker with
                         | None => ret (negb (blank (ns_HostIfName netState)))
                         | Some check =>
                             do! wrap (status_of FailedPrecondition "ovs attachment check failed")
                                      (on_snd (check (set_interface (ns_HostIfName netState) (rec_endpointSpec rec)))) in
                             ret true
                         end in
      ret {| ck_Identity := rec_identity rec; ck_OvsAttachmentPresent := ovsPresent;
             ck_NetnsAttachmentPresent := negb (blank (ns_ContainerIfName netState)) |}
  end.

(** ** What the requests do *)

Lemma isIdentityMismatch_refl i : isIdentityMismatch i i = false.
Proof. unfold isIdentityMismatch. by rewrite bool_decide_eq_true_2. Qed.
Lemma equivalentRecord_refl r : equivalentRecord r r = true.
Proof. unfold equivalentRecord. by rewrite isIdentityMismatch_refl, !bool_decide_eq_true_2. Qed.
Lemma isStaleDelete_refl i : isStaleDelete (Some i) (Some i) = false.
Proof.
  unfold isStaleDelete. cbv zeta. rewrite !(bool_decide_eq_true_2 (TrimSpace (_ i) = TrimSpace (_ i))) by done.
  simpl. by rewrite !andb_false_r.
Qed.

Lemma on_store_run {A} (f : Store -> Store * A) s s' r :
  on_store f s = (s', r) -> s' = ((f s.1).1, s.2) /\ r = Ok (f s.1).2.
Proof. unfold on_store. destruct (f s.1). naive_solver. Qed.

Lemma ignore_run {S A} (m : M S A) s s' r : ignore m s = (s', r) -> s' = (m s).1 /\ r = Ok tt.
Proof. unfold ignore, bind, attempt, ret. destruct (m s). naive_solver. Qed.

(** The cleanup of a failed ADD: it deletes the network attachment if the ADD made it. *)
Lemma cleanup_run (b : bool) key rec (s s' : Store * W) r :
  (if b then ignore (on_snd (nb_Delete network key rec)) else ret tt) s = (s', r) ->
  r = Ok tt /\ s'.1 = s.1 /\ (b = false -> s' = s).
Proof.
  destruct b; [|unfold ret; intros [= <- <-]; done]. intros [-> ->]%ignore_run.
  destruct (on_snd _ s) as [s1 r1] eqn:E. apply on_snd_inv in E as [E _]. done.
Qed.

(** What an accepted ADD asks for. *)
Inductive accepted (req : option CNIAddRequest) (key : string) (rec : endpointRecord) : Prop :=
  Accepted req0 identity runtime attachment spec :
    req = Some req0 -> validateAddRequest req = Ok (identity, runtime, attachment) ->
    mapCNIAddRequestToEndpointSpec req0 = Ok spec -> key = endpointKey (Some identity) ->
    rec = requested identity runtime attachment spec -> accepted req key rec.

Lemma Add_inv req s s' r :
  Add req s = (s', r) ->
  (exists e, r = Err e /\ s' = s) \/
  exists key rec w1, accepted req key rec /\
    ((exists e, nb_Ensure network key rec s.2 = (w1, Err e) /\ r = Err (network_status e) /\ s' = (s.1, w1)) \/
     (exists st created, nb_Ensure network key rec s.2 = (w1, Ok (st, created)) /\
        add_stored key (attached rec st) created (putIfAbsentOrEqual key (attached rec st) s.1).2
                   ((putIfAbsentOrEqual key (attached rec st) s.1).1, w1) = (s', r))).
Proof.
  intros H. unfold Add in H. rewrite bind_lift in H. destruct (validateAddRequest req) as [[[i rt] a]|e] eqn:Hv; [|naive_solver].
  rewrite bind_lift in H. destruct req as [req|]; [|by simpl in H; naive_solver].
  destruct (mapCNIAddRequestToEndpointSpec req) as [spec|e] eqn:Hm; [|by simpl in H; naive_solver]. simpl in H. right.
  exists (endpointKey (Some i)), (requested i rt a spec).
  apply bind_inv in H as [(s1 & [st created] & Hw & H)|(e & (r' & [E Hn]%on_snd_inv & Er)%wrap_inv & ->)].
  - apply wrap_ok_inv, on_snd_inv in Hw as [E Hn]. exists s1.2. split; [by econstructor|]. right. exists st, created. split; [done|].
    apply bind_inv in H as [(s2 & ex & [-> [= ->]]%on_store_run & H)|(e & [_ [=]]%on_store_run & _)]. by rewrite <-E.
  - exists s'.2. split; [by econstructor|]. left. destruct r' as [|e']; [done|]. simpl in Er. simplify_eq. exists e'.
    split_and!; [done..|]. rewrite <-E. by destruct s'.
Qed.

Lemma add_stored_run key rec created s0 w1 s' r :
  add_stored key rec created (putIfAbsentOrEqual key rec s0).2 ((putIfAbsentOrEqual key rec s0).1, w1) = (s', r) ->
  match r with
  | Err _ => s'.1 = s0 /\
      (created = false -> s'.2 = w1 \/ exists e, em_Ensure endpoint (rec_endpointSpec rec) w1 = (s'.2, Err e))
  | Ok resp => (exists st, em_Ensure endpoint (rec_endpointSpec rec) w1 = (s'.2, Ok st)) /\ ad_Result resp = rec_result rec /\
      if ad_IdempotentReplay resp then s'.1 = s0 /\ exists old, s0 !! key = Some old /\ equivalentRecord old rec = true
      else s0 !! key = None /\ s'.1 = <[key := rec]> s0
  end.
Proof.
  unfold putIfAbsentOrEqual. destruct (s0 !! key) as [old|] eqn:Hk; cbn [fst snd add_stored].
  - destruct (equivalentRecord old rec) eqn:He; cbn [negb]; intros H.
    + apply bind_inv in H as [(s1 & st & (r1 & [E Hm]%on_snd_inv & Er)%wrap_inv & H)|(e & (r1 & [E Hm]%on_snd_inv & Er)%wrap_inv & ->)]; simpl in *.
      * destruct r1; [|done]. unfold ret in H. simplify_eq. simpl. split_and!; eauto.
      * split; [done|]. intros _. right. destruct r1 as [|e1]; [done|]. eauto.
    + apply bind_inv in H as [(s1 & u & (_ & E & Hc)%cleanup_run & H)|(e & (? & _)%cleanup_run & _)]; [|done].
      unfold fail in H. injection H as <- <-. simpl in *. split; [done|]. intros ->. left. by rewrite Hc.
  - intros H. rewrite bind_attempt in H. destruct (on_snd _ _) as [s1 r1] eqn:Ho. apply on_snd_inv in Ho as [E Hm]. simpl in *.
    destruct r1 as [st|e].
    + unfold ret in H. simplify_eq. simpl. split_and!; eauto.
    + apply bind_inv in H as [(s2 & u & (_ & E2 & Hc)%cleanup_run & H)|(e2 & (? & _)%cleanup_run & _)]; [|done].
      apply bind_inv in H as [(s3 & [] & [-> _]%on_store_run & H)|(e2 & [_ [=]]%on_store_run & _)].
      unfold fail in H. injection H as <- <-. simpl. split; [by rewrite E2, E, delete_insert_id|]. intros ->. right.
      rewrite Hc by done. eauto.
Qed.

(** What an ADD does.  An ADD that fails leaves the endpoint store as it was.  One that
    succeeds was valid, attached the network and ensured the endpoint of exactly the
    record it answers with, and either stored that record under a key that was free, or
    found an equivalent record there and says so. *)
Theorem Add_spec req s s' r :
  Add req s = (s', r) ->
  match r with
  | Err _ => s'.1 = s.1
  | Ok resp => exists key rec0 w1 st created, accepted req key rec0 /\ nb_Ensure network key rec0 s.2 = (w1, Ok (st, created)) /\
      let rec := attached rec0 st in
      (exists status, em_Ensure endpoint (rec_endpointSpec rec) w1 = (s'.2, Ok status)) /\ ad_Result resp = rec_result rec /\
      if ad_IdempotentReplay resp then s'.1 = s.1 /\ exists old, s.1 !! key = Some old /\ equivalentRecord old rec = true
      else s.1 !! key = None /\ s'.1 = <[key := rec]> s.1
  end.
Proof.
  intros [(e & -> & ->)|(key & rec & w1 & Ha & [(e & _ & -> & ->)|(st & created & Hn & H)])]%Add_inv; [done..|].
  apply add_stored_run in H. destruct r; [|by destruct H]. exists key, rec, w1, st, created. done.
Qed.

(** An ADD never tears down an attachment it did not make.  Any property of the
    outside world that ensuring an attachment and an endpoint keep is kept by an ADD,
    whatever fails, unless the network backend reported that this very call created the
    attachment: only then may the cleanup delete it. *)
Theorem Add_spares_attachments (P : W -> Prop) req s s' r :
  (forall key rec, preserves P (nb_Ensure network key rec)) -> (forall spec, preserves P (em_Ensure endpoint spec)) ->
  (forall key rec w1 st, accepted req key rec -> nb_Ensure network key rec s.2 <> (w1, Ok (st, true))) ->
  P s.2 -> Add req s = (s', r) -> P s'.2.
Proof.
  intros Hn He Hc HP [(e & -> & ->)|(key & rec & w1 & Ha & [(e & Hens & -> & ->)|(st & created & Hens & H)])]%Add_inv; [done| |].
  - by eapply preserves_run in Hens.
  - assert (P w1) as HP1 by by eapply preserves_run in Hens. destruct created; [by eapply Hc in Hens|].
    apply add_stored_run in H. destruct r as [resp|e].
    + destruct H as ((x & Hx) & _). by eapply preserves_run in Hx.
    + destruct H as [_ [->|(e' & Hx)]]; [done..|]. by eapply preserves_run in Hx.
Qed.

(** What a DEL of a known endpoint does.  A request whose identity differs from the
    stored one is answered as stale and touches nothing.  Otherwise the endpoint is deleted
    before its network attachment, both with the stored record, and the record leaves the
    store only after both succeeded; a failure keeps it, so that the DEL can be repeated. *)
Theorem Del_known_spec req identity rec s s' r :
  validateIdentity (del_Identity req) = Ok identity -> s.1 !! endpointKey (Some identity) = Some rec -> Del (Some req) s = (s', r) ->
  if isStaleDelete (rec_identity rec) (Some identity) then s' = s /\ r = Ok (deleted_response DEL_STALE_OPERATION identity)
  else match r with
  | Ok resp => resp = deleted_response DEL_DELETED identity /\ s'.1 = delete (endpointKey (Some identity)) s.1 /\
      exists w1, em_Delete endpoint (rec_endpointSpec rec) s.2 = (w1, Ok tt) /\
                 nb_Delete network (endpointKey (Some identity)) rec w1 = (s'.2, Ok tt)
  | Err _ => s'.1 = s.1
  end.
Proof.
  intros Hi Hrec H. unfold Del in H. rewrite bind_lift, Hi, bind_gets, Hrec in H.
  destruct (isStaleDelete _ _); [unfold ret in H; by simplify_eq|].
  apply bind_inv in H as [(s1 & [] & (r1 & [E1 H1]%on_snd_inv & Er1)%wrap_inv & H)|(e & (r1 & [E1 H1]%on_snd_inv & _)%wrap_inv & ->)]; [|done].
  destruct r1 as [[]|]; [|done].
  apply bind_inv in H as [(s2 & [] & (r2 & [E2 H2]%on_snd_inv & Er2)%wrap_inv & H)|(e & (r2 & [E2 H2]%on_snd_inv & _)%wrap_inv & ->)]; [|congruence].
  destruct r2 as [[]|]; [|done].
  apply bind_inv in H as [(s3 & [] & [-> _]%on_store_run & H)|(e & [_ [=]]%on_store_run & _)]. unfold ret in H. simplify_eq. simpl.
  split_and!; [done| |eauto]. unfold deleteIfRecordMatches. by rewrite E2, E1, Hrec, equivalentRecord_refl.
Qed.

(** DEL undoes ADD.  An ADD that stored a new endpoint stored exactly one record,
    and if the backends can delete the endpoint and the attachment of that record, the DEL
    with the same identity answers "deleted" and leaves the store as it was before the
    ADD. *)
Theorem add_del_roundtrip req identity dreq s s1 resp :
  Add req s = (s1, Ok resp) -> ad_IdempotentReplay resp = false ->
  (exists rt a, validateAddRequest req = Ok (identity, rt, a)) -> del_Identity dreq = Some identity ->
  let key := endpointKey (Some identity) in
  exists rec, s1.1 = <[key := rec]> s.1 /\
    forall w2 w3, em_Delete endpoint (rec_endpointSpec rec) s1.2 = (w2, Ok tt) -> nb_Delete network key rec w2 = (w3, Ok tt) ->
    Del (Some dreq) s1 = ((s.1, w3), Ok (deleted_response DEL_DELETED identity)).
Proof.
  intros Ha Hr (rt & a & Hv) Hd. apply Add_inv in Ha as [(e & ? & _)|(key & rec & w1 & Hacc & [(e & _ & ? & _)|(st & created & _ & H)])]; [done..|].
  apply add_stored_run in H as (_ & _ & H). rewrite Hr in H. destruct H as [Hnone Hs].
  destruct Hacc as [req0 i rt' a' spec -> Hv' _ -> ->]. rewrite Hv in Hv'. simplify_eq. eexists. split; [exact Hs|]. intros w2 w3 He Hn.
  assert (validateIdentity (Some i) = Ok i) as Hi.
  { unfold validateAddRequest in Hv. destruct (add_Identity req0) as [i0|]; [|done]. simpl in *. repeat case_match; try done; simplify_eq.
    all: unfold rbind in Hv; repeat case_match; try done; simplify_eq; congruence. }
  unfold Del. rewrite bind_lift, Hd, Hi, bind_gets, Hs, lookup_insert_eq.
  replace (isStaleDelete _ _) with false; last first.
  { symmetry. unfold attached. case_bool_decide; simpl; apply isStaleDelete_refl. }
  destruct s1 as [st1 w1']. simpl in *. subst st1. unfold wrap, on_snd, bind. simpl. rewrite He. simpl. rewrite Hn. simpl.
  unfold on_store, deleteIfRecordMatches. simpl. by rewrite lookup_insert_eq, equivalentRecord_refl, delete_insert_id.
Qed.
End server.

(** ** The in-memory backends *)

Module InMemory.
(** [inMemoryNetworkBackend.records], and [ports] and [attachments] of
    [inMemoryEndpointBackend]. *)
Record world := {
  mem_networks : gmap string networkState;
  mem_ports : gmap string OVNPortSpec;
  mem_attachments : gmap string (AttachmentSpec * Identity);
}.
Definition empty : world := {| mem_networks := ∅; mem_ports := ∅; mem_attachments := ∅ |}.
Definition set_networks v (w : world) := {| mem_networks := v; mem_ports := mem_ports w; mem_attachments := mem_attachments w |}.
Definition set_ports v (w : world) := {| mem_networks := mem_networks w; mem_ports := v; mem_attachments := mem_attachments w |}.
Definition set_attachments v (w : world) := {| mem_networks := mem_networks w; mem_ports := mem_ports w; mem_attachments := v |}.

Definition desired_network (rec : endpointRecord) : networkState :=
  {| ns_HostIfName := sp_OVSInterfaceName (rec_endpointSpec rec); ns_ContainerIfName := TrimSpace (GetIfName (rec_runtime rec));
     ns_MACAddress := TrimSpace (GetStaticMac (rec_attachment rec)); ns_StaticIPCIDR := TrimSpace (GetStaticIpCidr (rec_attachment rec)) |}.

(** [inMemoryNetworkBackend] *)
Definition network : networkBackend world := {|
  nb_Ensure key rec w :=
    match mem_networks w !! key with
    | Some existing => (w, if bool_decide (existing = desired_network rec) then Ok (existing, false) else Err (Errorf "network attachment conflict"))
    | None => (set_networks (<[key := desired_network rec]> (mem_networks w)) w, Ok (desired_network rec, true))
    end;
  nb_Delete key _ w := (set_networks (delete key (mem_networks w)) w, Ok tt);
  nb_Check key _ w := (w, of_option errAttachmentNotFound (mem_networks w !! key));
  nb_DeleteAcknowledged := None;
|}.

(** The OVN side of [inMemoryEndpointBackend] *)
Definition ovn : OVNBackend world := {|
  EnsureLogicalSwitchPort spec w :=
    let port := op_LogicalSwitchPort spec in
    if match mem_ports w !! port with Some existing => negb (bool_decide (op_EndpointID existing = op_EndpointID spec)) | None => false end
    then (w, Err (Errorf "logical switch port is owned by another endpoint"))
    else (set_ports (<[port := spec]> (mem_ports w)) w, Ok {| os_LogicalSwitch := op_LogicalSwitch spec; os_LogicalSwitchPort := port |});
  GetLogicalSwitchPort port w :=
    (w, match mem_ports w !! port with
        | Some spec => Ok {| os_LogicalSwitch := op_LogicalSwitch spec; os_LogicalSwitchPort := op_LogicalSwitchPort spec |}
        | None => Err (Errorf "logical switch port not found")
        end);
  DeleteLogicalSwitchPort spec w := (set_ports (delete (op_LogicalSwitchPort spec) (mem_ports w)) w, Ok tt);
  CheckLogicalSwitchPortIdentity := None;
|}.

Definition same_owner (a b : Identity) : bool :=
  bool_decide (id_EndpointID a = id_EndpointID b) && bool_decide (id_NetworkID a = id_NetworkID b)
  && bool_decide (id_AttachmentID a = id_AttachmentID b) && bool_decide (id_WorkloadUID a = id_WorkloadUID b).
Definition stale (existing identity : Identity) : bool :=
  negb (bool_decide (id_Incarnation existing = ""%string)) && negb (bool_decide (id_Incarnation identity = ""%string))
  && negb (bool_decide (id_Incarnation existing = id_Incarnation identity)).

(** The attachment side of [inMemoryEndpointBackend] *)
Definition attachments : IdentityAware world := {|
  EnsureWithIdentity identity spec w :=
    let port := as_LogicalSwitchPort spec in
    if match mem_attachments w !! port with Some (_, existing) => negb (same_owner existing identity) | None => false end
    then (w, Err (Errorf "attachment is owned by another endpoint identity"))
    else (set_attachments (<[port := (spec, identity)]> (mem_attachments w)) w, Ok {| at_OVSInterfaceName := as_OVSInterfaceName spec |});
  DeleteWithIdentity identity port w :=
    match mem_attachments w !! port with
    | None => (w, Ok (DeleteOutcomeMissing, None))
    | Some (_, existing) =>
        if negb (same_owner existing identity)
        then (w, Ok (DeleteOutcomeMissing, Some (Errorf "attachment belongs to another endpoint identity")))
        else if stale existing identity then (w, Ok (DeleteOutcomeStale, Some (Errorf "stale delete for incarnation")))
        else (set_attachments (delete port (mem_attachments w)) w, Ok (DeleteOutcomeDeleted, None))
    end;
|}.

(** [newInMemoryEndpointManager]; its contexts are never done. *)
#[export] Instance background : Ctx world := fun _ => None.
Definition endpoint : EndpointManager world := manager_of {| m_ovn := ovn; m_attach := Some (Some attachments); m_allowAttach := true |}.
End InMemory.
