(* ===== verification/CniPlugin.v ===== *)
(** * The CNI plugin

    Models [src/cmd/evpn-cni/main.go]: the configuration, the requests it sends to the node
    agent and the result it prints.  The decoding of the configuration and of the CNI
    arguments, the connection and the printing are parameters. *)

From S2P Require Import Prelude GoStd Journal GoJson Calls Type2 Attachment Endpoint CniTypes CniServer.
From Stdlib Require Import Ascii.

(** ** Configuration *)

(** [pluginConfig]; [pc_CNIVersion] is the field of the embedded [types.NetConf]. *)
Record pluginConfig := {
  pc_CNIVersion : string; pc_NodeAgentSocket : string; pc_NetworkID : string; pc_LogicalSwitch : string; pc_AttachmentID : string; pc_IPAddress : string;
  pc_MACAddress : string; pc_OVSInterfaceName : string; pc_TimeoutSeconds : Z; pc_RequestID : string; pc_EndpointID : string; pc_WorkloadUID : string;
  pc_Incarnation : string; pc_SupportedVersions : list string; pc_CreationIdentity : bool;
}.
(** [cniArgs] *)
Record cniArgs := {
  K8S_POD_NAMESPACE : string; K8S_POD_NAME : string; K8S_POD_UID : string; K8S_POD_INFRA_CONTAINER_ID : string; K8S_NODE_NAME : string;
  REQUEST_ID : string; WORKLOAD_UID : string; INCARNATION : string; ENDPOINT_ID : string;
}.
Definition no_args : cniArgs :=
  {| K8S_POD_NAMESPACE := ""; K8S_POD_NAME := ""; K8S_POD_UID := ""; K8S_POD_INFRA_CONTAINER_ID := ""; K8S_NODE_NAME := ""; REQUEST_ID := "";
     WORKLOAD_UID := ""; INCARNATION := ""; ENDPOINT_ID := "" |}.
(** [skel.CmdArgs] *)
Record CmdArgs := { ca_ContainerID : string; ca_Netns : string; ca_IfName : string; ca_Args : string; ca_StdinData : string }.
Definition defaultTimeoutSeconds : Z := 10.

(** The fields that are trimmed, and the default of the timeout. *)
Definition trimmed_config (c : pluginConfig) : pluginConfig :=
  {| pc_CNIVersion := pc_CNIVersion c; pc_NodeAgentSocket := TrimSpace (pc_NodeAgentSocket c); pc_NetworkID := TrimSpace (pc_NetworkID c);
     pc_LogicalSwitch := TrimSpace (pc_LogicalSwitch c); pc_AttachmentID := TrimSpace (pc_AttachmentID c); pc_IPAddress := TrimSpace (pc_IPAddress c);
     pc_MACAddress := TrimSpace (pc_MACAddress c); pc_OVSInterfaceName := TrimSpace (pc_OVSInterfaceName c);
     pc_TimeoutSeconds := if pc_TimeoutSeconds c <=? 0 then defaultTimeoutSeconds else pc_TimeoutSeconds c; pc_RequestID := TrimSpace (pc_RequestID c);
     pc_EndpointID := TrimSpace (pc_EndpointID c); pc_WorkloadUID := TrimSpace (pc_WorkloadUID c); pc_Incarnation := TrimSpace (pc_Incarnation c);
     pc_SupportedVersions := pc_SupportedVersions c; pc_CreationIdentity := pc_CreationIdentity c |}.
Definition is_kubernetes (a : cniArgs) : bool :=
  negb (bool_decide (firstNonEmpty [K8S_POD_NAME a; K8S_POD_NAMESPACE a; K8S_POD_UID a; K8S_POD_INFRA_CONTAINER_ID a] = ""%string)).
Section config.
Context {JP : Json pluginConfig} (LoadArgs : string -> result cniArgs).
(** [parseConfig] *)
Definition parseConfig (stdinData rawArgs : string) : result (pluginConfig * cniArgs) :=
  let? c := of_option (Errorf "parse CNI config") (json_Unmarshal stdinData) in
  let c := trimmed_config c in
  if bool_decide (pc_NodeAgentSocket c = ""%string) then Err (Errorf "invalid CNI config: nodeAgentSocket is required")
  else if bool_decide (pc_NetworkID c = ""%string) then Err (Errorf "invalid CNI config: networkID is required")
  else if bool_decide (pc_AttachmentID c = ""%string) then Err (Errorf "invalid CNI config: attachmentID is required")
  else if bool_decide (pc_CNIVersion c = ""%string) then Err (Errorf "invalid CNI config: cniVersion is required")
  else if match pc_SupportedVersions c with [] => false | l => negb (existsb (fun v => bool_decide (TrimSpace v = pc_CNIVersion c)) l) end
  then Err (Errorf "invalid CNI config: cniVersion is not present in supportedVersions") else
  let? parsed := (if blank rawArgs then Ok no_args else map_err (Wrapped "parse CNI_ARGS") (LoadArgs rawArgs)) in
  if is_kubernetes parsed && bool_decide (firstNonEmpty [pc_WorkloadUID c; WORKLOAD_UID parsed; K8S_POD_UID parsed] = ""%string)
  then Err (Errorf "Kubernetes CNI request requires K8S_POD_UID or explicit workloadUID; refusing ambiguous identity")
  else Ok (c, parsed).
End config.

(** ** Requests *)

(** [buildRuntimeContext], [buildK8sIdentity], [buildEndpointIdentity], [buildAttachment] *)
Definition buildRuntimeContext (c : pluginConfig) (args : CmdArgs) : CNIRuntimeContext :=
  {| rt_CniVersion := pc_CNIVersion c; rt_ContainerId := TrimSpace (ca_ContainerID args); rt_NetnsPath := TrimSpace (ca_Netns args); rt_IfName := TrimSpace (ca_IfName args) |}.
Definition buildK8sIdentity (a : cniArgs) : K8SIdentity :=
  {| k8_PodNamespace := K8S_POD_NAMESPACE a; k8_PodName := K8S_POD_NAME a; k8_PodUid := K8S_POD_UID a; k8_NodeName := K8S_NODE_NAME a |}.
Definition buildEndpointIdentity (c : pluginConfig) (a : cniArgs) (args : CmdArgs) : EndpointIdentity :=
  let workloadUID := firstNonEmpty [pc_WorkloadUID c; WORKLOAD_UID a; K8S_POD_UID a; TrimSpace (ca_ContainerID args)] in
  let endpointID := firstNonEmpty [pc_EndpointID c; ENDPOINT_ID a] in
  {| ei_EndpointId := if bool_decide (endpointID = ""%string) then (pc_NetworkID c +:+ "|" +:+ pc_AttachmentID c +:+ "|" +:+ workloadUID)%string else endpointID;
     ei_NetworkId := pc_NetworkID c; ei_AttachmentId := pc_AttachmentID c; ei_WorkloadUid := workloadUID;
     ei_Incarnation := firstNonEmpty [pc_Incarnation c; INCARNATION a; TrimSpace (ca_ContainerID args)] |}.
Definition buildAttachment (c : pluginConfig) (args : CmdArgs) : AttachmentRequest :=
  {| ar_LogicalSwitch := pc_LogicalSwitch c; ar_OvsInterfaceName := firstNonEmpty [pc_OVSInterfaceName c; TrimSpace (ca_IfName args)];
     ar_StaticIpCidr := pc_IPAddress c; ar_StaticMac := pc_MACAddress c |}.
(** The request without its metadata, which the server does not read. *)
Definition buildAddRequest (c : pluginConfig) (a : cniArgs) (args : CmdArgs) : CNIAddRequest :=
  {| add_Identity := Some (buildEndpointIdentity c a args); add_Runtime := Some (buildRuntimeContext c args); add_Attachment := Some (buildAttachment c args);
     add_K8S := Some (buildK8sIdentity a) |}.
(** [buildDelRequest] and [buildCheckRequest] *)
Definition buildDelRequest (c : pluginConfig) (a : cniArgs) (args : CmdArgs) : CNIDelRequest :=
  {| del_Identity := Some (buildEndpointIdentity c a args); del_Runtime := Some (buildRuntimeContext c args); del_Attachment := Some (buildAttachment c args);
     del_K8S := Some (buildK8sIdentity a) |}.
(** [RequestMeta] *)
Record RequestMeta := { rm_RequestId : string; rm_TimeoutSeconds : Z }.
(** [buildRequestMeta]; [id] is a fresh UUID, used when nobody named the request. *)
Definition buildRequestMeta (c : pluginConfig) (a : cniArgs) (id : string) : RequestMeta :=
  let requestID := firstNonEmpty [pc_RequestID c; REQUEST_ID a] in
  {| rm_RequestId := if bool_decide (requestID = ""%string) then id else requestID; rm_TimeoutSeconds := wrap32 (pc_TimeoutSeconds c) |}.

(** ** Time *)

(** [int64] arithmetic *)
Definition int64 (z : Z) : Z := (z + 2 ^ 63) mod 2 ^ 64 - 2 ^ 63.
Definition second : Z := 10 ^ 9.
Definition defaultDialTimeout : Z := 3 * second.
(** [rpcTimeout], [dialTimeout]: durations in nanoseconds *)
Definition rpcTimeout (c : pluginConfig) : Z := int64 (pc_TimeoutSeconds c * second).
Definition dialTimeout (c : pluginConfig) : Z := if rpcTimeout c <=? defaultDialTimeout then rpcTimeout c else defaultDialTimeout.

(** ** The printed result *)

(** [net.IPNet] with the address of the host, [cni100.Result] *)
Record IPNet := { in_IP : Addr; in_Ones : Z }.
Record IPConfig := { pi_Address : IPNet; pi_Gateway : option Addr; pi_Interface : option Z }.
Record Route := { pr_Dst : IPNet; pr_GW : option Addr }.
Record DNS := { pd_Nameservers : list string; pd_Search : list string; pd_Options : list string; pd_Domain : string }.
Record Result := { pr_CNIVersion : string; pr_Interfaces : list CNIInterface; pr_IPs : list IPConfig; pr_Routes : list Route; pr_DNS : option DNS }.
(** [parseCIDR] *)
Definition parseCIDR (v : string) : option IPNet :=
  ip ← ParseCIDR v;
  match split "/"%char (chars v) with
  | [_; mask] => n ← decimal 0 mask; Some {| in_IP := ip; in_Ones := n |}
  | _ => None
  end.
(** A gateway that may be empty. *)
Definition parse_gateway (gw : string) : result (option Addr) :=
  if bool_decide (gw = ""%string) then Ok None else
  match ParseIP (TrimSpace gw) with Some a => Ok (Some a) | None => Err (Errorf "invalid gateway") end.
Definition to_ip (interfaces : nat) (acc : list IPConfig) (ip : CNIIPConfig) : result (list IPConfig) :=
  let? address := of_option (Errorf "invalid IP address") (parseCIDR (TrimSpace (ip_Address ip))) in
  let? gw := parse_gateway (ip_Gateway ip) in
  if bool_decide (interfaces = O) then Ok (acc ++ [{| pi_Address := address; pi_Gateway := gw; pi_Interface := None |}])
  else if (ip_Interface ip <? 0) || (Z.of_nat interfaces <=? ip_Interface ip) then Err (Errorf "ip interface index out of range")
  else Ok (acc ++ [{| pi_Address := address; pi_Gateway := gw; pi_Interface := Some (ip_Interface ip) |}]).
Definition to_route (acc : list Route) (r : CNIRoute) : result (list Route) :=
  let? dst := of_option (Errorf "invalid route destination") (parseCIDR (TrimSpace (ro_Dst r))) in
  let? gw := parse_gateway (ro_Gw r) in
  Ok (acc ++ [{| pr_Dst := dst; pr_GW := gw |}]).
(** [toCNIResult] *)
Definition toCNIResult (pb : option CNIResult) (cniVersion : string) : result Result :=
  match pb with
  | None => Err (Errorf "missing CNI result")
  | Some r =>
      let interfaces := (fun i => {| ci_Name := TrimSpace (ci_Name i); ci_Mac := TrimSpace (ci_Mac i); ci_Sandbox := TrimSpace (ci_Sandbox i) |}) <$> cr_Interfaces r in
      let? ips := rfold (to_ip (length interfaces)) [] (cr_Ips r) in
      let? routes := rfold to_route [] (cr_Routes r) in
      Ok {| pr_CNIVersion := if blank cniVersion then TrimSpace (cr_CniVersion r) else cniVersion; pr_Interfaces := interfaces; pr_IPs := ips; pr_Routes := routes;
            pr_DNS := (fun d => {| pd_Nameservers := dns_Nameservers d; pd_Search := dns_Searches d; pd_Options := dns_Options d;
                                   pd_Domain := TrimSpace (dns_Domain d) |}) <$> cr_Dns r |}
  end.

(** ** The commands *)

(** What the RPCs answer: [GetSuccess] with the part that is read; [None] is a nil reply. *)
Record AddReply := { ar_Success : bool; ar_Result : option CNIResult }.
(** [None] stands for an outcome that the plugin does not know. *)
Record DelReply := { dl_Success : bool; dl_Outcome : option DelOutcome }.
(** The connection to the node agent, and what else the plugin does to the node. *)
Record AgentClient (W : Type) := {
  ac_Add : CNIAddRequest -> RequestMeta -> M W (option AddReply);
  ac_Del : CNIDelRequest -> RequestMeta -> M W (option DelReply);
  ac_Check : CNICheckRequest -> RequestMeta -> M W (option bool);
  ac_Close : M W unit;
}.
Arguments ac_Add {W} _ _ _.
Arguments ac_Del {W} _ _ _.
Arguments ac_Check {W} _ _ _.
Arguments ac_Close {W} _.
Record PluginNode (W : Type) := {
  pn_Open : string -> M W Z;
  pn_Close : Z -> M W unit;
  pn_Dial : string -> Z -> M W (AgentClient W);
  pn_NewUUID : M W string;
  pn_Print : Result -> string -> M W unit;
}.
Arguments pn_Open {W} _ _.
Arguments pn_Close {W} _ _.
Arguments pn_Dial {W} _ _ _.
Arguments pn_NewUUID {W} _.
Arguments pn_Print {W} _ _ _.

Section commands.
Context {W : Type} {JP : Json pluginConfig} (LoadArgs : string -> result cniArgs) (node : PluginNode W).

(** A deferred call runs after the body, whatever the body returned. *)
Definition deferring {A} (close : M W unit) (body : M W A) : M W A :=
  let! r := attempt body in do! ignore close in lift r.
(** Dialling, with the closing of the connection deferred. *)
Definition with_client {A} (c : pluginConfig) (body : AgentClient W -> M W A) : M W A :=
  let! client := wrap (Wrapped "dial node-agent socket") (pn_Dial node ("unix://" +:+ pc_NodeAgentSocket c)%string (dialTimeout c)) in
  deferring (ac_Close client) (body client).
Definition request_meta (c : pluginConfig) (a : cniArgs) : M W RequestMeta :=
  let! id := (if bool_decide (firstNonEmpty [pc_RequestID c; REQUEST_ID a] = ""%string) then pn_NewUUID node else ret ""%string) in
  ret (buildRequestMeta c a id).
(** [cmdAdd] *)
Definition add_body (c : pluginConfig) (req : CNIAddRequest) (meta : RequestMeta) : M W unit :=
  with_client c (fun client =>
    let! resp := wrap (Wrapped "node-agent Add RPC failed") (ac_Add client req meta) in
    match resp with
    | Some resp =>
        if negb (ar_Success resp) then fail (Errorf "node-agent Add unsuccessful") else
        let! result := lift (map_err (Wrapped "failed to translate Add result") (toCNIResult (ar_Result resp) (pc_CNIVersion c))) in
        pn_Print node result (pc_CNIVersion c)
    | None => fail (Errorf "node-agent Add unsuccessful")
    end).
Definition cmdAdd (args : CmdArgs) : M W unit :=
  let! (c, a) := lift (parseConfig LoadArgs (ca_StdinData args) (ca_Args args)) in
  let req := buildAddRequest c a args in
  let! meta := request_meta c a in
  if pc_CreationIdentity c then
    let! namespace := wrap (Wrapped "hold CNI network namespace") (pn_Open node (ca_Netns args)) in
    deferring (pn_Close node namespace) (add_body c req meta)
  else add_body c req meta.
(** [cmdDel] *)
Definition cmdDel (args : CmdArgs) : M W unit :=
  let! (c, a) := lift (parseConfig LoadArgs (ca_StdinData args) (ca_Args args)) in
  let! meta := request_meta c a in
  with_client c (fun client =>
    let! resp := wrap (Wrapped "node-agent Del RPC failed") (ac_Del client (buildDelRequest c a args) meta) in
    match resp with
    | Some resp =>
        if negb (dl_Success resp) then fail (Errorf "node-agent Del unsuccessful") else
        match dl_Outcome resp with
        | Some DEL_DELETED | Some DEL_ALREADY_ABSENT | Some DEL_STALE_OPERATION => ret tt
        | None => fail (Errorf "node-agent Del returned unsupported outcome")
        end
    | None => fail (Errorf "node-agent Del unsuccessful")
    end).
(** [cmdCheck] *)
Definition cmdCheck (args : CmdArgs) : M W unit :=
  let! (c, a) := lift (parseConfig LoadArgs (ca_StdinData args) (ca_Args args)) in
  let! meta := request_meta c a in
  with_client c (fun client =>
    let! resp := wrap (Wrapped "node-agent Check RPC failed") (ac_Check client (buildDelRequest c a args) meta) in
    if bool_decide (resp = Some true) then ret tt else fail (Errorf "node-agent Check unsuccessful")).
End commands.
