(* ===== verification/CniContinuity.v ===== *)
(** * Durable continuity of CNI endpoints

    Models [src/pkg/nodeagent/cni_continuity.go], [cni_activation.go] and
    [cni_continuity_export.go], and the shape check of admission evidence of
    [cni_caller_linux.go]: the node agent keeps, in the ownership journal, an
    acknowledgement (ACK) of every endpoint it created, with the identifiers of the
    resources.  An ADD and a DEL write their intent before they change anything and commit
    only what was observed; a restart restores only ACKs whose resources it observes
    again.  The observer of the resources, the attestor of the workload and the authority
    that admits an ADD are interfaces of the code and parameters here. *)

From S2P Require Import Prelude GoStd Journal Type2 Attachment Endpoint CniTypes CniServer.
From Stdlib Require Import Ascii.

(** ** Data *)

(** [CNIProcessEvidence] *)
Record CNIProcessEvidence := { pe_PID : Z; pe_StartTicks : string; pe_ExecutableSHA256 : string; pe_BootID : string }.
(** [CNIAdmissionEvidence] *)
Record CNIAdmissionEvidence := {
  ae_Caller : CNIProcessEvidence;
  ae_Processes : list CNIProcessEvidence;
  ae_NetNSDevice : Z;
  ae_NetNSInode : Z;
  ae_ContainerID : string;
  ae_PodUID : string;
}.
(** [cniReceipt] *)
Record cniReceipt := {
  rc_SwitchUUID : string; rc_LSPUUID : string; rc_InterfaceUUID : string; rc_PortUUID : string; rc_BridgeUUID : string;
  rc_HostIfIndex : Z;
  rc_NetNSDevice : Z;
  rc_NetNSInode : Z;
}.

(** [time.Time], in nanoseconds of the Unix epoch; the zero time is the year 1. *)
Notation Time := Z (only parsing).
Definition zero_time : Time := -62135596800 * 10 ^ 9.
Definition two_minutes : Z := 120 * 10 ^ 9.

(** [cniEndpointACK] *)
Record cniEndpointACK := {
  ack_Identity : option EndpointIdentity;
  ack_Runtime : option CNIRuntimeContext;
  ack_Attachment : option AttachmentRequest;
  ack_Result : option CNIResult;
  ack_Spec : EndpointSpec;
  ack_Receipt : cniReceipt;
  ack_State : string;
  ack_Admission : option CNIAdmissionEvidence;
  ack_CreatedAt : Time;
  ack_VerifyBy : Time;
  ack_VerifiedAt : Time;
  ack_Reason : string;
}.
(** [cniACKState] *)
Record cniACKState := { st_Version : Z; st_Endpoints : option (gmap string cniEndpointACK) }.

#[export] Instance CNIProcessEvidence_eq_dec : EqDecision CNIProcessEvidence.
Proof. solve_decision. Defined.
#[export] Instance CNIAdmissionEvidence_eq_dec : EqDecision CNIAdmissionEvidence.
Proof. solve_decision. Defined.
#[export] Instance cniReceipt_eq_dec : EqDecision cniReceipt.
Proof. solve_decision. Defined.
#[export] Instance cniEndpointACK_eq_dec : EqDecision cniEndpointACK.
Proof. solve_decision. Defined.

(** [cniEndpointACK.record] *)
Definition ack_record (a : cniEndpointACK) : endpointRecord :=
  {| rec_identity := ack_Identity a; rec_runtime := ack_Runtime a; rec_attachment := ack_Attachment a; rec_result := ack_Result a;
     rec_endpointSpec := ack_Spec a |}.

(** An ACK of a record. *)
Definition ack_of (rec : endpointRecord) (receipt : cniReceipt) (state : string) : cniEndpointACK :=
  {| ack_Identity := rec_identity rec; ack_Runtime := rec_runtime rec; ack_Attachment := rec_attachment rec; ack_Result := rec_result rec;
     ack_Spec := rec_endpointSpec rec; ack_Receipt := receipt; ack_State := state; ack_Admission := None; ack_CreatedAt := zero_time;
     ack_VerifyBy := zero_time; ack_VerifiedAt := zero_time; ack_Reason := "" |}.
Definition set_status (state reason : string) (verified : Time) (a : cniEndpointACK) : cniEndpointACK :=
  {| ack_Identity := ack_Identity a; ack_Runtime := ack_Runtime a; ack_Attachment := ack_Attachment a; ack_Result := ack_Result a;
     ack_Spec := ack_Spec a; ack_Receipt := ack_Receipt a; ack_State := state; ack_Admission := ack_Admission a;
     ack_CreatedAt := ack_CreatedAt a; ack_VerifyBy := ack_VerifyBy a; ack_VerifiedAt := verified; ack_Reason := reason |}.
Definition set_admission (admission : option CNIAdmissionEvidence) (a : cniEndpointACK) : cniEndpointACK :=
  {| ack_Identity := ack_Identity a; ack_Runtime := ack_Runtime a; ack_Attachment := ack_Attachment a; ack_Result := ack_Result a;
     ack_Spec := ack_Spec a; ack_Receipt := ack_Receipt a; ack_State := ack_State a; ack_Admission := admission;
     ack_CreatedAt := ack_CreatedAt a; ack_VerifyBy := ack_VerifyBy a; ack_VerifiedAt := ack_VerifiedAt a; ack_Reason := ack_Reason a |}.
Definition drop_result (a : cniEndpointACK) : cniEndpointACK :=
  {| ack_Identity := ack_Identity a; ack_Runtime := ack_Runtime a; ack_Attachment := ack_Attachment a; ack_Result := None;
     ack_Spec := ack_Spec a; ack_Receipt := ack_Receipt a; ack_State := ack_State a; ack_Admission := ack_Admission a;
     ack_CreatedAt := ack_CreatedAt a; ack_VerifyBy := ack_VerifyBy a; ack_VerifiedAt := ack_VerifiedAt a; ack_Reason := ack_Reason a |}.
Definition set_created (now : Time) (a : cniEndpointACK) : cniEndpointACK :=
  {| ack_Identity := ack_Identity a; ack_Runtime := ack_Runtime a; ack_Attachment := ack_Attachment a; ack_Result := ack_Result a;
     ack_Spec := ack_Spec a; ack_Receipt := ack_Receipt a; ack_State := ack_State a; ack_Admission := ack_Admission a;
     ack_CreatedAt := now; ack_VerifyBy := now + two_minutes; ack_VerifiedAt := ack_VerifiedAt a; ack_Reason := ack_Reason a |}.

Definition zero_receipt : cniReceipt :=
  {| rc_SwitchUUID := ""; rc_LSPUUID := ""; rc_InterfaceUUID := ""; rc_PortUUID := ""; rc_BridgeUUID := "";
     rc_HostIfIndex := 0; rc_NetNSDevice := 0; rc_NetNSInode := 0 |}.
Definition unobserved : cniReceipt :=
  {| rc_SwitchUUID := "unobserved"; rc_LSPUUID := "unobserved"; rc_InterfaceUUID := "unobserved"; rc_PortUUID := "unobserved";
     rc_BridgeUUID := "unobserved"; rc_HostIfIndex := 0; rc_NetNSDevice := 0; rc_NetNSInode := 0 |}.

Definition empty_str (s : string) : bool := bool_decide (s = ""%string).
Definition same_str (a b : string) : bool := bool_decide (a = b).

(** [strconv.ParseUint(s, 10, 64)] *)
Definition ParseUint64 (s : string) : option Z :=
  if empty_str s then None else
  match decimal 0 (chars s) with Some n => if n <=? u64_max then Some n else None | None => None end.

(** [validSHA256] *)
Definition validSHA256 (s : string) : bool :=
  match hex_DecodeString s with Some b => bool_decide (length b = 32%nat) && same_str (ToLower s) s | None => false end.

Section validation.
Context {UL : UuidLib}.

(** One process of [CNIAdmissionEvidence.validate]. *)
Definition process_ok (e : CNIAdmissionEvidence) (seen : list Z) (p : CNIProcessEvidence) : result (list Z) :=
  let ticks := ParseUint64 (pe_StartTicks p) in
  if (pe_PID p <=? 0) || bool_decide (pe_PID p ∈ seen) || match ticks with Some n => n =? 0 | None => true end
     || negb (bool_decide (is_Some (uuid_Parse (pe_BootID p)))) || negb (same_str (pe_BootID p) (pe_BootID (ae_Caller e)))
     || negb (validSHA256 (pe_ExecutableSHA256 p))
  then Err (Errorf "invalid creation-time CNI process evidence") else Ok (pe_PID p :: seen).
(** [CNIAdmissionEvidence.validate] *)
Definition Evidence_validate (e : CNIAdmissionEvidence) : result unit :=
  let n := length (ae_Processes e) in
  if negb (bool_decide (n = 3%nat)) && negb (bool_decide (n = 4%nat)) || negb (bool_decide (head (ae_Processes e) = Some (ae_Caller e)))
     || (ae_NetNSDevice e =? 0) || (ae_NetNSInode e =? 0) || empty_str (ae_ContainerID e) || (256 <? String.length (ae_ContainerID e))%nat
     || empty_str (ae_PodUID e) || (128 <? String.length (ae_PodUID e))%nat
     || negb (same_str (TrimSpace (ae_ContainerID e)) (ae_ContainerID e)) || negb (same_str (TrimSpace (ae_PodUID e)) (ae_PodUID e))
  then Err (Errorf "incomplete creation-time CNI admission evidence")
  else let? _ := rfold (process_ok e) [] (ae_Processes e) in Ok tt.

(** The tests of [validateCNIACK]. *)
Definition ack_metadata_ok (key : string) (a : cniEndpointACK) : bool :=
  bool_decide (is_Some (ack_Identity a)) && bool_decide (is_Some (ack_Runtime a)) && bool_decide (is_Some (ack_Attachment a))
  && bool_decide (is_Some (ack_Result a)) && same_str key (endpointKey (ack_Identity a))
  && bool_decide (ack_State a ∈ ["active"; "deleted"; "pending_creation"; "quarantined"]%string).
Definition pending_ok (a : cniEndpointACK) : bool :=
  negb (same_str (ack_State a) "pending_creation")
  || bool_decide (is_Some (ack_Admission a)) && negb (ack_CreatedAt a =? zero_time) && (ack_CreatedAt a <? ack_VerifyBy a)
     && negb (two_minutes <? ack_VerifyBy a - ack_CreatedAt a).
Definition activation_ok (a : cniEndpointACK) : bool :=
  negb (same_str (ack_State a) "active")
  || negb (ack_VerifiedAt a =? zero_time) && negb (ack_VerifiedAt a <? ack_CreatedAt a) && negb (ack_VerifyBy a <? ack_VerifiedAt a).
Definition admission_ok (a : cniEndpointACK) : bool :=
  match ack_Admission a with
  | None => true
  | Some e =>
      same_str (ae_ContainerID e) (GetContainerId (ack_Runtime a)) && same_str (ae_PodUID e) (GetWorkloadUid (ack_Identity a))
      && negb (ae_NetNSDevice e =? 0) && negb (ae_NetNSInode e =? 0)
      && (ae_NetNSDevice e =? rc_NetNSDevice (ack_Receipt a)) && (ae_NetNSInode e =? rc_NetNSInode (ack_Receipt a))
  end.
Definition identity_fields_ok (a : cniEndpointACK) : bool :=
  let w := sp_Workload (ack_Spec a) in
  let rc := ack_Receipt a in
  same_str (wl_Kind w) "pod" && negb (empty_str (wl_UID w)) && negb (empty_str (wl_Name w)) && negb (empty_str (wl_Namespace w))
  && negb (empty_str (wl_NodeName w)) && same_str (GetWorkloadUid (ack_Identity a)) (wl_UID w)
  && same_str (GetIncarnation (ack_Identity a)) (GetContainerId (ack_Runtime a))
  && same_str (sp_Incarnation (ack_Spec a)) (GetIncarnation (ack_Identity a))
  && same_str (sp_ID (ack_Spec a)) (GetEndpointId (ack_Identity a)) && same_str (sp_NetworkID (ack_Spec a)) (GetNetworkId (ack_Identity a))
  && same_str (sp_AttachmentID (ack_Spec a)) (GetAttachmentId (ack_Identity a))
  && same_str (sp_ID (ack_Spec a)) (sp_NetworkID (ack_Spec a) +:+ "|" +:+ sp_AttachmentID (ack_Spec a) +:+ "|" +:+ wl_UID w)
  && negb (empty_str (rc_SwitchUUID rc)) && negb (empty_str (rc_LSPUUID rc)) && negb (empty_str (rc_InterfaceUUID rc))
  && negb (empty_str (rc_PortUUID rc)) && negb (empty_str (rc_BridgeUUID rc)).
Definition runtime_ok (a : cniEndpointACK) : bool :=
  negb (empty_str (GetNetnsPath (ack_Runtime a))) && negb (empty_str (GetIfName (ack_Runtime a)))
  && negb (empty_str (GetStaticMac (ack_Attachment a))) && negb (empty_str (GetStaticIpCidr (ack_Attachment a))).
(** The request that would create the recorded endpoint. *)
Definition ack_request (a : cniEndpointACK) : CNIAddRequest :=
  let w := sp_Workload (ack_Spec a) in
  {| add_Identity := ack_Identity a; add_Runtime := ack_Runtime a; add_Attachment := ack_Attachment a;
     add_K8S := Some {| k8_PodUid := wl_UID w; k8_PodName := wl_Name w; k8_PodNamespace := wl_Namespace w; k8_NodeName := wl_NodeName w |} |}.
Definition config_ok (key : string) (a : cniEndpointACK) (expected : EndpointSpec) : bool :=
  same_str (normalizeEndpointSpec (set_interface (hostVethNameForKey key) expected)) (normalizeEndpointSpec (ack_Spec a))
  && same_str (normalizeResult (ack_Result a)) (normalizeResult (Some (buildResultFromStaticConfig (ack_Runtime a) (ack_Attachment a)))).

(** [validateCNIACK] *)
Definition validateCNIACK (key : string) (a : cniEndpointACK) : result unit :=
  if negb (ack_metadata_ok key a) then Err (Errorf "invalid endpoint ACK metadata")
  else if negb (pending_ok a) then Err (Errorf "pending endpoint has no bounded durable creation authority")
  else if negb (admission_ok a) then Err (Errorf "durable admission identity differs from endpoint receipt")
  else let? _ := match ack_Admission a with
                 | None => Ok tt
                 | Some e =>
                     let? _ := map_err (fun _ => Errorf "invalid durable creation authority") (Evidence_validate e) in
                     if negb (activation_ok a) then Err (Errorf "active endpoint has no bounded activation acknowledgement") else Ok tt
                 end in
  let? _ := validateIdentity (ack_Identity a) in
  if negb (identity_fields_ok a) then Err (Errorf "incomplete or conflicting durable identity/UUID")
  else if negb (runtime_ok a) then Err (Errorf "incomplete durable runtime/static configuration")
  else let? expected := mapCNIAddRequestToEndpointSpec (ack_request a) in
  if negb (config_ok key a expected) then Err (Errorf "durable spec/result differ from acknowledged CNI configuration") else Ok tt.
End validation.

(** ** Interfaces *)

(** [CNIWorkloadAttestor]; [VerifyPod] and [VerifyCreating] are type assertions. *)
Record CNIWorkloadAttestor (W : Type) := {
  wa_Verify : WorkloadRef -> string -> string -> M W bool;
  wa_VerifyPod : option (WorkloadRef -> M W bool);
  wa_VerifyCreating : option (WorkloadRef -> string -> string -> M W bool);
}.
Arguments wa_Verify {W} _ _ _ _.
Arguments wa_VerifyPod {W} _.
Arguments wa_VerifyCreating {W} _.

(** [cniResourceObserver] *)
Record cniResourceObserver (W : Type) := {
  ro_Observe : endpointRecord -> M W (cniReceipt * bool);
  ro_NetworkAbsent : string -> M W unit;
  ro_DeleteExact : cniEndpointACK -> M W unit;
}.
Arguments ro_Observe {W} _ _.
Arguments ro_NetworkAbsent {W} _ _.
Arguments ro_DeleteExact {W} _ _.

(** The clock: [time.Now], and a [select] between a context with a deadline and a timer,
    which answers the error of the context if that was chosen. *)
Class Clock (W : Type) := {
  time_Now : W -> W * Time;
  timer_or_done : W -> W * option error;
}.

(** [cniContinuity]; the journal is the ownership journal. *)
Record cniContinuity (W : Type) := {
  cc_nodeName : string;
  cc_journal : Journal;
  cc_workload : CNIWorkloadAttestor W;
  cc_observer : cniResourceObserver W;
  cc_state : cniACKState;
  cc_authority : option (CNIAddRequest -> M W CNIAdmissionEvidence);
}.
Arguments cc_nodeName {W} _.
Arguments cc_journal {W} _.
Arguments cc_workload {W} _.
Arguments cc_observer {W} _.
Arguments cc_state {W} _.
Arguments cc_authority {W} _.

Definition with_journal {W} (j : Journal) (c : cniContinuity W) : cniContinuity W :=
  {| cc_nodeName := cc_nodeName c; cc_journal := j; cc_workload := cc_workload c; cc_observer := cc_observer c; cc_state := cc_state c;
     cc_authority := cc_authority c |}.
Definition with_state {W} (s : cniACKState) (c : cniContinuity W) : cniContinuity W :=
  {| cc_nodeName := cc_nodeName c; cc_journal := cc_journal c; cc_workload := cc_workload c; cc_observer := cc_observer c; cc_state := s;
     cc_authority := cc_authority c |}.
(** [c.state.Endpoints], and an assignment to one of its keys. *)
Definition acks {W} (c : cniContinuity W) : gmap string cniEndpointACK := default ∅ (st_Endpoints (cc_state c)).
Definition put_ack (key : string) (a : cniEndpointACK) (s : cniACKState) : cniACKState :=
  {| st_Version := st_Version s; st_Endpoints := Some (<[key := a]> (default ∅ (st_Endpoints s))) |}.

(** ** Operations *)

Section continuity.
Context {W : Type} {PX : Posix W} {SH : Sha256} {JR : Json record} {JE : Json envelope} {UL : UuidLib}.
Context {JA : Json cniEndpointACK} {JT : Json cniACKState} {MR : MapRange} {CL : Clock W}.
Context (endpoint : EndpointManager W) (network : networkBackend W).
Notation cst := (cniContinuity W * Store)%type.
Notation CM := (M (cst * W)).

Definition on_cni_journal {A} (m : M (Journal * W) A) : CM A :=
  fun s => let '((j, w), r) := m (cc_journal s.1.1, s.2) in (((with_journal j s.1.1, s.1.2), w), r).
Definition get_c : CM (cniContinuity W) := gets (fun s => s.1.1).
Definition get_ack (key : string) : CM (option cniEndpointACK) := gets (fun s => acks s.1.1 !! key).
Definition set_acks (f : cniACKState -> cniACKState) : CM unit := modify (fun s => ((with_state (f (cc_state s.1.1)) s.1.1, s.1.2), s.2)).
Definition set_store (f : Store -> Store) : CM unit := modify (fun s => ((s.1.1, f s.1.2), s.2)).
Definition now : CM Time := fun s => let '(w, t) := time_Now s.2 in ((s.1, w), Ok t).

(** [fail] of [add] and [del] *)
Definition cni_fail (e : error) : error := status_of FailedPrecondition "CNI continuity" e.
Definition refuse {A} (msg : string) : CM A := fail (cni_fail (Errorf msg)).

(** [cniContinuity.ready] *)
Definition ready : CM unit :=
  let! (_, pending) := on_cni_journal Snapshot in
  match pending with
  | Some i => fail (ErrBlocked "uncertain CNI outcome")
  | None => ret tt
  end.

(** [cniContinuity.verifyResources] *)
Definition verifyResources (a : cniEndpointACK) : CM unit :=
  let! c := get_c in
  let! (receipt, absent) := on_snd (ro_Observe (cc_observer c) (ack_record a)) in
  if absent || negb (bool_decide (receipt = ack_Receipt a)) then fail (Errorf "durable endpoint resource UUID changed or absent") else
  do! on_snd (nb_Check network (endpointKey (ack_Identity a)) (ack_record a)) in
  ret tt.

Definition verify_workload (a : cniEndpointACK) : CM bool :=
  let! c := get_c in
  on_snd (wa_Verify (cc_workload c) (sp_Workload (ack_Spec a)) (GetContainerId (ack_Runtime a)) (GetNetnsPath (ack_Runtime a))).

(** [cniContinuity.check] *)
Definition continuity_check (req : option CNICheckRequest) : CM unit :=
  let identity := match req with Some r => del_Identity r | None => None end in
  do! ready in
  let! ack := get_ack (endpointKey identity) in
  match ack with
  | None => fail (Errorf "no matching durable active endpoint ACK")
  | Some a =>
      if negb (same_str (ack_State a) "active") || negb (same_str (normalizeIdentity (ack_Identity a)) (normalizeIdentity identity))
      then fail (Errorf "no matching durable active endpoint ACK") else
      let! deleted := verify_workload a in
      if (deleted : bool) then fail (Errorf "Kubernetes Pod deleted") else verifyResources a
  end.

(** [cniContinuity.verifyAddWorkload] *)
Definition verifyAddWorkload (ref : WorkloadRef) (container netns : string) : CM bool :=
  let! c := get_c in
  on_snd (match wa_VerifyCreating (cc_workload c) with
          | Some verify => verify ref container netns
          | None => wa_Verify (cc_workload c) ref container netns
          end).

(** The polls of [observeCreated]: the context ends after 5 s and each poll waits 100 ms,
    so there are at most 51. *)
Fixpoint observe_polls (fuel : nat) (rec : endpointRecord) : CM (cniReceipt * bool) :=
  match fuel with
  | O => fail (CtxErr "CNI owned attachment readback")
  | S fuel =>
      let! c := get_c in
      let! r := attempt (on_snd (ro_Observe (cc_observer c) rec)) in
      match r with
      | Ok v => ret v
      | Err e =>
          if negb (errors_Is e SCNIResourceUnready) then fail e else
          let! finished := (fun s => let '(w, d) := timer_or_done s.2 in ((s.1, w), Ok d)) in
          match finished with
          | Some e => fail (Wrapped "CNI owned attachment readback" e)
          | None => observe_polls fuel rec
          end
      end
  end.
Definition observeCreated : endpointRecord -> CM (cniReceipt * bool) := observe_polls 51.

(** The node name of [add]: a missing claim is filled in, a different one refused. *)
Definition claim_node (nodeName : string) (req : CNIAddRequest) : result CNIAddRequest :=
  let k8s := default {| k8_PodNamespace := ""; k8_PodName := ""; k8_PodUid := ""; k8_NodeName := "" |} (add_K8S req) in
  let with_node n := {| add_Identity := add_Identity req; add_Runtime := add_Runtime req; add_Attachment := add_Attachment req;
                        add_K8S := Some {| k8_PodNamespace := k8_PodNamespace k8s; k8_PodName := k8_PodName k8s; k8_PodUid := k8_PodUid k8s;
                                           k8_NodeName := n |} |} in
  if blank (k8_NodeName k8s) then Ok (with_node nodeName)
  else if negb (same_str (k8_NodeName k8s) nodeName) then Err (Errorf "CNI node claim differs from trusted local node scope")
  else Ok (with_node (k8_NodeName k8s)).

(** The admission of [add]: the evidence, where the endpoint needs it, and whether the Pod
    is gone. *)
Definition admission_for (key : string) (req : CNIAddRequest) (spec : EndpointSpec) (runtime : CNIRuntimeContext)
    : CM (option CNIAdmissionEvidence * bool) :=
  let! c := get_c in
  match cc_authority c with
  | None => let! deleted := verifyAddWorkload (sp_Workload spec) (rt_ContainerId runtime) (rt_NetnsPath runtime) in ret (None, deleted)
  | Some authority =>
      let creating := match acks c !! key with
                      | None => true
                      | Some a => same_str (ack_State a) "deleted" || same_str (ack_State a) "pending_creation"
                      end in
      let! admission := if (creating : bool) then let! e := on_snd (authority req) in ret (Some e) else ret None in
      match wa_VerifyPod (cc_workload c) with
      | None => fail (Errorf "creation authority requires independent Pod verifier")
      | Some verify => let! deleted := on_snd (verify (sp_Workload spec)) in ret (admission, deleted)
      end
  end.

(** [add] of an endpoint that has an ACK and is not deleted. *)
Definition add_replay (key : string) (a : cniEndpointACK) (rec : endpointRecord) (runtime : CNIRuntimeContext)
    (admission : option CNIAdmissionEvidence) : CM CNIAddResponse :=
  if same_str (ack_State a) "quarantined" then refuse "endpoint quarantined; no ADD adoption"
  else if negb (equivalentRecord (ack_record a) rec) then fail (status AlreadyExists "conflicting durable ADD") else
  do! (if same_str (ack_State a) "active" then
         let! c := get_c in
         let! deleted := wrap cni_fail (on_snd (wa_Verify (cc_workload c) (sp_Workload (ack_Spec a)) (rt_ContainerId runtime) (rt_NetnsPath runtime))) in
         if (deleted : bool) then refuse "duplicate ADD runtime identity unverified" else ret tt
       else match admission with
            | None => refuse "pending ADD replay lacks matching creation authority"
            | Some e => if negb (ae_NetNSDevice e =? rc_NetNSDevice (ack_Receipt a)) || negb (ae_NetNSInode e =? rc_NetNSInode (ack_Receipt a))
                        then refuse "pending ADD replay lacks matching creation authority" else ret tt
            end) in
  do! wrap cni_fail (verifyResources a) in
  do! set_store (fun st => (putIfAbsentOrEqual key (ack_record a) st).1) in
  ret {| ad_Result := ack_Result a; ad_Identity := rec_identity rec; ad_IdempotentReplay := true |}.

(** The second check of the workload and of the authority, before the commit of [add]. *)
Definition recheck (req : CNIAddRequest) (spec : EndpointSpec) (runtime : CNIRuntimeContext) (admission : option CNIAdmissionEvidence)
    : CM unit :=
  let! c := get_c in
  match cc_authority c with
  | None =>
      let! deleted := verifyAddWorkload (sp_Workload spec) (rt_ContainerId runtime) (rt_NetnsPath runtime) in
      if (deleted : bool) then fail (Errorf "ADD workload no longer verified") else ret tt
  | Some authority =>
      match wa_VerifyPod (cc_workload c) with
      | None => fail (Errorf "creation authority requires independent Pod verifier")
      | Some verify =>
          let! deleted := on_snd (verify (sp_Workload spec)) in
          if (deleted : bool) then fail (Errorf "ADD workload no longer verified") else
          match admission with
          | None => ret tt
          | Some e =>
              let! second := on_snd (authority req) in
              if negb (ae_NetNSDevice second =? ae_NetNSDevice e) || negb (ae_NetNSInode second =? ae_NetNSInode e)
              then fail (Errorf "creation authority changed during ADD") else ret tt
          end
      end
  end.

(** The ACK of a created endpoint. *)
Definition new_ack (rec : endpointRecord) (receipt : cniReceipt) (admission : option CNIAdmissionEvidence) : CM cniEndpointACK :=
  match admission with
  | None => ret (ack_of rec receipt "active")
  | Some e =>
      let! t := now in
      if negb (ae_NetNSDevice e =? rc_NetNSDevice receipt) || negb (ae_NetNSInode e =? rc_NetNSInode receipt)
      then fail (Errorf "creation namespace changed during ADD")
      else ret (set_created t (set_admission (Some e) (ack_of rec receipt "pending_creation")))
  end.

(** [add], once its intent is durable: it creates, observes and checks again. *)
Definition add_create (key : string) (req : CNIAddRequest) (spec : EndpointSpec) (rec : endpointRecord) (runtime : CNIRuntimeContext)
    (attach : AttachmentRequest) (admission : option CNIAdmissionEvidence) : CM (endpointRecord * cniEndpointACK) :=
  let! (netState, _) := on_snd (nb_Ensure network key rec) in
  let rec := set_result (buildResultFromNetworkState (Some runtime) (Some attach) netState)
               (set_spec (set_interface (ns_HostIfName netState) (rec_endpointSpec rec)) rec) in
  do! on_snd (em_Ensure endpoint (rec_endpointSpec rec)) in
  let! (receipt, absent) := observeCreated rec in
  if (absent : bool) then fail (Errorf "ADD resource observation absent") else
  let! a := new_ack rec receipt admission in
  do! lift (validateCNIACK key a) in
  do! verifyResources a in
  do! recheck req spec runtime admission in
  ret (rec, a).

(** The commit that ends [add] and [del]. *)
Definition commit_ack (key : string) (a : cniEndpointACK) (seq : Z) : CM unit :=
  do! set_acks (put_ack key a) in
  let! c := get_c in
  on_cni_journal (Commit seq (cc_state c)).

Definition add_execute (key : string) (req : CNIAddRequest) (spec : EndpointSpec) (rec : endpointRecord) (runtime : CNIRuntimeContext)
    (attach : AttachmentRequest) (admission : option CNIAdmissionEvidence) (seq : Z) : CM endpointRecord :=
  let! (rec, a) := add_create key req spec rec runtime attach admission in
  do! commit_ack key a seq in
  do! set_store (fun st => (putIfAbsentOrEqual key rec st).1) in
  ret rec.

(** [add] of an endpoint without an ACK, or with one of a deleted endpoint. *)
Definition add_fresh (key : string) (req : CNIAddRequest) (spec : EndpointSpec) (rec : endpointRecord) (runtime : CNIRuntimeContext)
    (attach : AttachmentRequest) (admission : option CNIAdmissionEvidence) : CM CNIAddResponse :=
  let! c := get_c in
  let! (preflight, absent) := wrap cni_fail (on_snd (ro_Observe (cc_observer c) rec)) in
  if negb absent then refuse "fresh ADD requires independently absent resources" else
  if match acks c !! key with Some previous => negb (same_str (rc_SwitchUUID (ack_Receipt previous)) (rc_SwitchUUID preflight)) | None => false end
  then refuse "durable network switch UUID changed" else
  do! wrap cni_fail (on_snd (ro_NetworkAbsent (cc_observer c) key)) in
  let! seq := wrap cni_fail (on_cni_journal (Begin "cni-add" (set_admission admission (drop_result (ack_of rec zero_receipt ""))))) in
  let! rec := wrap cni_fail (add_execute key req spec rec runtime attach admission seq) in
  ret {| ad_Result := rec_result rec; ad_Identity := rec_identity rec; ad_IdempotentReplay := false |}.

(** [cniContinuity.add] *)
Definition continuity_add (req : option CNIAddRequest) : CM CNIAddResponse :=
  let! (id, runtime, attach) := lift (validateAddRequest req) in
  do! wrap cni_fail ready in
  let! c := get_c in
  let! req := lift (map_err cni_fail (match req with Some req => claim_node (cc_nodeName c) req | None => Err (Errorf "request is required") end)) in
  let! spec := lift (map_err cni_fail (mapCNIAddRequestToEndpointSpec req)) in
  let key := endpointKey (Some id) in
  let rec := requested id runtime attach (set_interface (hostVethNameForKey key) spec) in
  do! lift (map_err cni_fail (validateCNIACK key (ack_of rec unobserved "active"))) in
  let! (admission, deleted) := wrap cni_fail (admission_for key req spec runtime) in
  if (deleted : bool) then refuse "Kubernetes Pod deleted; ADD refused" else
  let! existing := get_ack key in
  match existing with
  | Some a => if negb (same_str (ack_State a) "deleted") then add_replay key a rec runtime admission
              else add_fresh key req spec rec runtime attach admission
  | None => add_fresh key req spec rec runtime attach admission
  end.

(** [del], once its intent is durable: it deletes and observes the absence. *)
Definition del_remove (key : string) (a : cniEndpointACK) : CM unit :=
  let! c := get_c in
  do! on_snd (ro_DeleteExact (cc_observer c) a) in
  do! on_snd (match nb_DeleteAcknowledged network with
              | Some exact => exact key (ack_record a) (rc_HostIfIndex (ack_Receipt a))
              | None => nb_Delete network key (ack_record a)
              end) in
  let! (_, absent) := on_snd (ro_Observe (cc_observer c) (ack_record a)) in
  if negb absent then fail (Errorf "DEL resource absence not verified") else
  on_snd (ro_NetworkAbsent (cc_observer c) key).

Definition del_execute (key : string) (a : cniEndpointACK) (seq : Z) : CM unit :=
  do! del_remove key a in
  do! commit_ack key (set_status "deleted" (ack_Reason a) (ack_VerifiedAt a) a) seq in
  set_store (delete key).

(** [cniContinuity.del]; the getters accept a request that is [nil]. *)
Definition continuity_del (req : option CNIDelRequest) : CM CNIDelResponse :=
  let! id := lift (validateIdentity (match req with Some r => del_Identity r | None => None end)) in
  do! wrap cni_fail ready in
  let key := endpointKey (Some id) in
  let! ack := get_ack key in
  match ack with
  | None => ret (deleted_response DEL_ALREADY_ABSENT id)
  | Some a =>
      if negb (same_str (normalizeIdentity (ack_Identity a)) (normalizeIdentity (Some id)))
      then ret (deleted_response DEL_STALE_OPERATION id)
      else if bool_decide (ack_State a ∈ ["active"; "pending_creation"; "quarantined"]%string) then
        do! wrap cni_fail (verifyResources a) in
        let! seq := wrap cni_fail (on_cni_journal (Begin "cni-del" a)) in
        do! wrap cni_fail (del_execute key a seq) in
        ret (deleted_response DEL_DELETED id)
      else ret (deleted_response DEL_ALREADY_ABSENT id)
  end.

(** ** Activation *)

(** [time.Now().Before(deadline)] *)
Definition before (deadline : Time) : CM bool := let! t := now in ret (t <? deadline).

(** Why a pending endpoint is quarantined, or the empty string. *)
Definition quarantine_reason (a : cniEndpointACK) : CM string :=
  let! r := attempt (verify_workload a) in
  let! reason :=
    match r with
    | Ok true => ret "Pod deleted before activation"%string
    | Err e =>
        if errors_Is e SCNIIdentityConflict then ret ("runtime workload identity conflict: " +:+ error_text e)%string else
        let! early := before (ack_VerifyBy a) in
        if negb early then ret "runtime publication deadline expired"%string
        else fail (Wrapped "pending CNI runtime verification" e)
    | Ok false =>
        let! early := before (ack_VerifyBy a) in
        if negb early then ret "runtime publication deadline expired"%string else
        let! v := attempt (verifyResources a) in
        ret (if is_ok v then ""%string else "acknowledged resource identity unavailable or changed"%string)
    end in
  if negb (empty_str reason) then ret reason else
  let! early := before (ack_VerifyBy a) in
  ret (if (early : bool) then ""%string else "runtime publication deadline expired during verification"%string).

(** One endpoint of [verifyPendingCNI]. *)
Definition activate_one (_ : unit) (ka : string * cniEndpointACK) : CM unit :=
  let '(key, a) := ka in
  if negb (same_str (ack_State a) "pending_creation") then ret tt else
  let! reason := quarantine_reason a in
  let! a' := (if negb (empty_str reason) then ret (set_status "quarantined" reason (ack_VerifiedAt a) a)
              else let! t := now in ret (set_status "active" (ack_Reason a) t a)) in
  let! seq := on_cni_journal (Begin "cni-identity" a') in
  let! c := get_c in
  let next := put_ack key a' (cc_state c) in
  do! wrap (fun _ => ErrBlocked "activation acknowledgement") (on_cni_journal (Commit seq next)) in
  do! set_acks (fun _ => next) in
  if same_str (ack_State a') "quarantined" then set_store (delete key) else ret tt.

(** [CNIServer.verifyPendingCNI] of a server that is not stopping *)
Definition verifyPendingCNI : CM unit :=
  do! ready in
  let! c := get_c in
  mfold activate_one tt (range (acks c)).

(** ** The gate of the exporter *)

(** One endpoint of [validateContinuityLocked]. *)
Definition validate_one (_ : unit) (ka : string * cniEndpointACK) : CM unit :=
  let '(key, a) := ka in
  if same_str (ack_State a) "pending_creation" || same_str (ack_State a) "quarantined"
  then fail (Errorf "RECOVERY_BLOCKED: endpoint is pending or quarantined")
  else if negb (same_str (ack_State a) "active") then ret tt else
  let! deleted := verify_workload a in
  if (deleted : bool) then set_store (delete key) else verifyResources a.

(** [CNIServer.validateContinuityLocked] *)
Definition validateContinuity : CM unit :=
  do! ready in
  let! c := get_c in
  mfold validate_one tt (range (acks c)).

(** [strings.EqualFold] with a MAC address: both sides are ASCII when it answers true. *)
Definition EqualFold (a b : string) : bool := same_str (ToLower a) (ToLower b).

(** The address comparison of [validateRecoveredExportEndpointsLocked]. *)
Fixpoint same_ips (ips cidrs : list string) : bool :=
  match ips, cidrs with
  | [], [] => true
  | ip :: ips, cidr :: cidrs => match ParseCIDR cidr with Some a => same_str ip (Addr_String (unmap a)) && same_ips ips cidrs | None => false end
  | _, _ => false
  end.

(** One ACK against one exported endpoint: whether it is the endpoint's. *)
Definition export_match (st : Store) (ep : LocalEndpoint) (ka : string * cniEndpointACK) : result bool :=
  let '(key, a) := ka in
  let id := sp_ID (ack_Spec a) in
  if negb (same_str (ack_State a) "active") || negb (same_str (NetworkID ep) (sp_NetworkID (ack_Spec a))) then Ok false
  else if negb (same_str (EndpointID ep) id) && negb (same_str (EndpointID ep) ("ovn-netlink/" +:+ rc_LSPUUID (ack_Receipt a)))
  then Ok false
  else if negb (bool_decide (is_Some (st !! key))) then Err (Errorf "deleted Pod cannot be exported from residual native resources")
  else if same_str (EndpointID ep) id && negb (same_str (Incarnation ep) (sp_Incarnation (ack_Spec a)))
  then Err (Errorf "CNI export incarnation mismatch")
  else if negb (EqualFold (MACAddress ep) (sp_MACAddress (ack_Spec a))) then Err (Errorf "export address differs from durable endpoint")
  else if MACOnly ep then
    if negb (bool_decide (length (IPAddresses ep) = 0%nat)) then Err (Errorf "MAC-only export contains IP addresses") else Ok true
  else if negb (same_ips (IPAddresses ep) (sp_IPAddresses (ack_Spec a))) then Err (Errorf "export IP set differs from durable endpoint")
  else Ok true.
(** The inner loop: the first ACK that is the endpoint's. *)
Fixpoint export_find (st : Store) (ep : LocalEndpoint) (l : list (string * cniEndpointACK)) : result bool :=
  match l with
  | [] => Ok false
  | ka :: l => let? m := export_match st ep ka in if (m : bool) then Ok true else export_find st ep l
  end.
Definition export_one (st : Store) (l : list (string * cniEndpointACK)) (_ : unit) (ep : LocalEndpoint) : result unit :=
  let? m := export_find st ep l in
  if (m : bool) then Ok tt else Err (Errorf "native/CNI export endpoint has no verified durable ACK").

(** [CNIServer.validateRecoveredExportEndpointsLocked] of a server that is not stopping *)
Definition validateRecoveredExportEndpoints (endpoints : list LocalEndpoint) : CM unit :=
  do! validateContinuity in
  let! c := get_c in
  let! st := gets (fun s => s.1.2) in
  lift (rfold (export_one st (range (acks c))) tt endpoints).

(** ** Recovery *)

(** [decodeCNIState] *)
Definition decodeCNIState {A} `{!Json A} (raw : string) : result A := decodeStrict raw.

(** The state of the journal. *)
Definition recovered_state (raw : string) : result cniACKState :=
  let? st := (if same_str raw "null" then Ok {| st_Version := 1; st_Endpoints := Some ∅ |}
              else map_err (fun _ => ErrBlocked "CNI metadata") (decodeCNIState raw)) in
  if negb (st_Version st =? 1) || negb (bool_decide (is_Some (st_Endpoints st))) then Err (ErrBlocked "incompatible CNI metadata") else Ok st.

(** The identity checkpoint that an interrupted activation leaves: it must be an ACK the
    state holds, but for its status. *)
Definition checkpoint_ok (st : cniACKState) (i : Intent) : result unit :=
  if negb (same_str (i_Operation i) "cni-identity") then Err (ErrBlocked "unresolved CNI intent") else
  let? candidate := map_err (fun _ => ErrBlocked "invalid identity checkpoint") (decodeCNIState (A := cniEndpointACK) (i_Payload i)) in
  match default ∅ (st_Endpoints st) !! endpointKey (ack_Identity candidate) with
  | None => Err (ErrBlocked "identity checkpoint cannot introduce ownership")
  | Some previous =>
      if negb (same_str (ack_State previous) "pending_creation")
         || negb (bool_decide (set_status (ack_State previous) (ack_Reason previous) (ack_VerifiedAt previous) candidate = previous))
      then Err (ErrBlocked "identity checkpoint cannot introduce ownership") else Ok tt
  end.

(** One ACK of [recoverCNI]. *)
Definition recover_one (restored : Store) (ka : string * cniEndpointACK) : CM Store :=
  let '(key, a) := ka in
  do! lift (map_err (fun _ => ErrBlocked "invalid ACK") (validateCNIACK key a)) in
  if same_str (ack_State a) "deleted" || same_str (ack_State a) "quarantined" then ret restored
  else if same_str (ack_State a) "pending_creation" then
    do! wrap (fun _ => ErrBlocked "pending endpoint resource identity") (verifyResources a) in
    ret (<[key := ack_record a]> restored)
  else
    let! deleted := wrap (fun _ => ErrBlocked "workload observation") (verify_workload a) in
    if (deleted : bool) then ret restored else
    do! wrap (fun _ => ErrBlocked "resource identity") (verifyResources a) in
    ret (<[key := ack_record a]> restored).

(** [CNIServer.recoverCNI] of a complete continuity that is not enabled yet *)
Definition recoverCNI : CM unit :=
  let! (raw, pending) := on_cni_journal Snapshot in
  let! st := lift (recovered_state raw) in
  do! set_acks (fun _ => st) in
  do! match pending with
      | None => ret tt
      | Some i => do! lift (checkpoint_ok st i) in on_cni_journal (Commit (i_Sequence i) st)
      end in
  let! restored := mfold recover_one ∅ (range (default ∅ (st_Endpoints st))) in
  let! store := gets (fun s => s.1.2) in
  if negb (bool_decide (store = ∅)) then fail (ErrBlocked "recovery requires empty endpoint store") else
  set_store (fun _ => restored).
End continuity.
