(* ===== verification/CniContinuitySafety.v ===== *)
(** * The CNI journal always describes what a restart accepts

    The invariant of [CniContinuity]: every acknowledgement in memory and in the journal
    passes the validation of a restart, and an interrupted activation can be resolved.
    The exception is an activation stamped outside its window; [CniContinuityRuns] shows
    that the code can make one. *)

From S2P Require Import Prelude GoStd Journal Type2 Attachment Endpoint CniTypes CniServer CniContinuity.

(** [encoding/json] writes a struct as an object. *)
Class JsonStruct (A : Type) `{Json A} := json_object (a : A) s : json_Marshal a = Ok s -> s <> "null"%string.

Section safety.
Context {W : Type} {PX : Posix W} {SH : Sha256} {JR : Json record} {JE : Json envelope} {UL : UuidLib}.
Context {JA : Json cniEndpointACK} {JT : Json cniACKState} {MR : MapRange} {CL : Clock W}.
Context {LA : JsonLaws cniEndpointACK} {LT : JsonLaws cniACKState} {OT : JsonStruct cniACKState}.
Context (endpoint : EndpointManager W) (network : networkBackend W).
Notation cst := (cniContinuity W * Store)%type.
Notation CM := (M (cst * W)).
Implicit Types (s : cst * W) (c : cniContinuity W) (a : cniEndpointACK) (key : string).

(** ** Calls that leave the agent alone *)

Section quiet.
Context (c0 : cst).
Let Q s : Prop := s.1 = c0.
Lemma quiet_on_snd {A} (m : M W A) : preserves Q (on_snd m).
Proof. intros s Hs. destruct (on_snd m s) as [s' r] eqn:E. apply on_snd_inv in E as [E _]. unfold Q in *. simpl. congruence. Qed.
Lemma quiet_now : preserves Q now.
Proof. intros s Hs. unfold now. by destruct (time_Now s.2). Qed.
Lemma quiet_get_c : preserves Q get_c.
Proof. by intros s. Qed.
Lemma quiet_get_ack key : preserves Q (get_ack key).
Proof. by intros s. Qed.
Hint Resolve quiet_on_snd quiet_now quiet_get_c quiet_get_ack : evpn.
Lemma quiet_verifyResources a : preserves Q (verifyResources network a).
Proof. unfold verifyResources. pres. Qed.
Lemma quiet_verify_workload a : preserves Q (verify_workload a).
Proof. unfold verify_workload. pres. Qed.
Lemma quiet_verifyAddWorkload ref container netns : preserves Q (verifyAddWorkload ref container netns).
Proof. unfold verifyAddWorkload. pres. Qed.
Lemma quiet_observe_polls fuel rec : preserves Q (observe_polls fuel rec).
Proof.
  induction fuel as [|fuel IH]; simpl; pres. intros s Hs. by destruct (timer_or_done s.2).
Qed.
Hint Resolve quiet_verifyResources quiet_verify_workload quiet_verifyAddWorkload quiet_observe_polls : evpn.
Lemma quiet_admit key req spec runtime : preserves Q (admission_for key req spec runtime).
Proof. unfold admission_for. pres. Qed.
Lemma quiet_recheck req spec runtime admission : preserves Q (recheck req spec runtime admission).
Proof. unfold recheck. pres. Qed.
Lemma quiet_new_ack rec receipt admission : preserves Q (new_ack rec receipt admission).
Proof. unfold new_ack. pres. Qed.
Hint Resolve quiet_admit quiet_recheck quiet_new_ack : evpn.
Lemma quiet_add_create key req spec rec runtime attach admission :
  preserves Q (add_create endpoint network key req spec rec runtime attach admission).
Proof. unfold add_create, observeCreated. pres. Qed.
Lemma quiet_del_remove key a : preserves Q (del_remove network key a).
Proof. unfold del_remove. pres. Qed.
Lemma quiet_quarantine_reason a : preserves Q (quarantine_reason network a).
Proof. unfold quarantine_reason, before. pres. Qed.
End quiet.

Lemma quiet_run {A} (m : CM A) s s' r : (forall x : cst, preserves (fun s => s.1 = x) m) -> m s = (s', r) -> s'.1 = s.1.
Proof. intros Hm H. exact (preserves_run _ _ s _ _ (Hm s.1) eq_refl H). Qed.

(** ** The journal *)

Lemma on_cni_journal_inv {A} (m : M (Journal * W) A) s s' r :
  on_cni_journal m s = (s', r) ->
  exists j', m (cc_journal s.1.1, s.2) = ((j', s'.2), r) /\ s'.1 = (with_journal j' s.1.1, s.1.2).
Proof. unfold on_cni_journal. destruct (m _) as [[j' w'] a]. intros. simplify_eq. eauto. Qed.

Definition crec c : record := j_record (cc_journal c).

Lemma ready_run s s' r :
  ready s = (s', r) -> s'.1.2 = s.1.2 /\ cc_state s'.1.1 = cc_state s.1.1 /\ crec s'.1.1 = crec s.1.1 /\
    (is_ok r = true -> r_Pending (crec s.1.1) = None /\ s'.1 = s.1).
Proof.
  unfold ready. intros H. apply bind_inv in H as [(s1 & [raw pending] & (j' & Hj & E)%on_cni_journal_inv & H)|(e & (j' & Hj & E)%on_cni_journal_inv & ->)];
    apply Snapshot_run in Hj as [(Hr & -> & _)|(e' & Hr & Hrec & _)]; try done.
  - simplify_eq. assert (s1.1 = s.1) as E1 by (rewrite E; by destruct s as [[[] ?] ?]).
    destruct (r_Pending _) eqn:Ep; unfold fail, ret in H; simplify_eq; rewrite E1; split_and!; try done.
  - rewrite E. by split_and!.
Qed.

Lemma Begin_record {P} {JP : Json P} op (p : P) s s' r :
  on_cni_journal (Begin op p) s = (s', r) ->
  s'.1.2 = s.1.2 /\ cc_state s'.1.1 = cc_state s.1.1 /\ cc_observer s'.1.1 = cc_observer s.1.1 /\
  match r with
  | Ok seq => exists data, json_Marshal p = Ok data /\ r_State (crec s'.1.1) = r_State (crec s.1.1) /\ r_Pending (crec s.1.1) = None /\
      r_Pending (crec s'.1.1) = Some {| i_Sequence := seq; i_Operation := op; i_Payload := data |}
  | Err _ => crec s'.1.1 = crec s.1.1
  end.
Proof.
  intros (j' & H & E)%on_cni_journal_inv. rewrite E. simpl. split_and!; try done. destruct r as [seq|e].
  - apply Begin_pending in H as (data & ? & ? & ? & ?). eauto 10.
  - unfold crec. simpl. unfold Begin in H.
    apply bind_inv in H as [([j1 w1] & [] & Hc & H)|(e' & Hc & _)]; apply check_run in Hc as [(_ & -> & _)|(e1 & ? & _ & Hr & _)]; try done.
    msteps_any; try done. all: try match goal with Hp : persist _ (_, _) = (?z, _) |- _ => is_var z; destruct z as [j2 w2] end.
    all: match goal with Hp : persist _ _ = _ |- _ => pose proof (persist_run _ _ _ _ _ _ Hp) as [[? ->]|(e2 & ? & ->)] end; by simplify_eq/=.
Qed.

Lemma Commit_record {S} {JS : Json S} seq (st : S) s s' r :
  on_cni_journal (Commit seq st) s = (s', r) ->
  s'.1.2 = s.1.2 /\ cc_state s'.1.1 = cc_state s.1.1 /\
  match r with
  | Ok _ => exists data, json_Marshal st = Ok data /\ r_State (crec s'.1.1) = data /\ r_Pending (crec s'.1.1) = None
  | Err _ => crec s'.1.1 = crec s.1.1
  end.
Proof.
  intros (j' & H & E)%on_cni_journal_inv. rewrite E. simpl. split_and!; try done.
  apply Commit_run in H as [(data & w1 & i & -> & ? & _ & _ & _ & -> & _)|(e & -> & ? & _)]; [eauto|done].
Qed.

(** ** Acknowledgements *)

(** What does not depend on the status of an ACK. *)
Definition ack_core key a : Prop :=
  is_Some (ack_Identity a) /\ is_Some (ack_Runtime a) /\ is_Some (ack_Attachment a) /\ is_Some (ack_Result a) /\
  key = endpointKey (ack_Identity a) /\ admission_ok a = true /\ is_ok (validateIdentity (ack_Identity a)) = true /\
  identity_fields_ok a = true /\ runtime_ok a = true /\
  (exists expected, mapCNIAddRequestToEndpointSpec (ack_request a) = Ok expected /\ config_ok key a expected = true) /\
  forall e, ack_Admission a = Some e -> Evidence_validate e = Ok tt.
Definition status_ok a : Prop :=
  ack_State a ∈ ["active"; "deleted"; "pending_creation"; "quarantined"]%string /\ pending_ok a = true.

Lemma validateCNIACK_iff key a :
  validateCNIACK key a = Ok tt <->
  ack_core key a /\ status_ok a /\ (is_Some (ack_Admission a) -> activation_ok a = true).
Proof.
  unfold validateCNIACK, ack_core, status_ok, ack_metadata_ok. split.
  - intros H. destruct (negb _) eqn:Hm in H; [done|]. bools. destruct (pending_ok a); [|done]. cbn [negb map_err] in H.
    destruct (admission_ok a); [|done]. cbn [negb map_err] in H. unfold same_str in *. bools.
    unfold rbind in H. destruct (ack_Admission a) as [e|] eqn:Ha.
    + destruct (Evidence_validate e) as [[]|] eqn:He; [|done]. cbn [negb map_err] in H. destruct (activation_ok a) eqn:Hac; [|done]. cbn [negb map_err] in H.
      destruct (validateIdentity _); [|done]. destruct (identity_fields_ok a); [|done]. destruct (runtime_ok a); [|done]. cbn [negb map_err] in H.
      destruct (mapCNIAddRequestToEndpointSpec _) as [ex|]; [|done]. destruct (config_ok key a ex) eqn:Hc; [|done].
      split_and!; try done; [eauto|intros ? [= <-]; by rewrite He].
    + destruct (validateIdentity _); [|done]. destruct (identity_fields_ok a); [|done]. destruct (runtime_ok a); [|done]. cbn [negb map_err] in H.
      destruct (mapCNIAddRequestToEndpointSpec _) as [ex|]; [|done]. destruct (config_ok key a ex) eqn:Hc; [|done].
      split_and!; try done; eauto; naive_solver.
  - intros ((H1 & H2 & H3 & H4 & H5 & H6 & H7 & H8 & H9 & (ex & H10 & H11) & H12) & (H13 & H14) & H15).
    rewrite !bool_decide_eq_true_2 by done. unfold same_str. rewrite bool_decide_eq_true_2 by done. cbn [negb andb map_err]. rewrite H14, H6. cbn [negb andb map_err].
    unfold rbind. destruct (ack_Admission a) as [e|] eqn:Ha.
    + rewrite (H12 e eq_refl), H15 by eauto. cbn [negb andb map_err]. destruct (validateIdentity _); [|done]. by rewrite H8, H9, H10, H11.
    + destruct (validateIdentity _); [|done]. by rewrite H8, H9, H10, H11.
Qed.

Lemma core_status key a state reason t : ack_core key (set_status state reason t a) <-> ack_core key a.
Proof. done. Qed.

(** A validated ACK, or one activated outside its window. *)
Definition durable_ack key a : Prop :=
  ack_core key a /\ status_ok a /\ (is_Some (ack_Admission a) -> activation_ok a = false -> ack_State a = "active"%string /\ ack_CreatedAt a < ack_VerifyBy a).
Definition timely a : Prop := is_Some (ack_Admission a) -> activation_ok a = true.

Lemma durable_timely key a : durable_ack key a -> timely a -> validateCNIACK key a = Ok tt.
Proof. intros (Hc & Hs & _) Ht. by apply validateCNIACK_iff. Qed.
Lemma valid_durable key a : validateCNIACK key a = Ok tt -> durable_ack key a /\ timely a.
Proof. intros (Hc & Hs & Ht)%validateCNIACK_iff. split; [|done]. split_and!; try done. intros Ha. by rewrite Ht. Qed.

Lemma durable_deleted key a reason t : durable_ack key a -> durable_ack key (set_status "deleted" reason t a).
Proof. intros (Hc & Hs & Ha). split_and!; [by apply core_status| |by intros]. split; [set_solver|done]. Qed.
Lemma durable_quarantined key a reason t : durable_ack key a -> durable_ack key (set_status "quarantined" reason t a).
Proof. intros (Hc & Hs & Ha). split_and!; [by apply core_status| |by intros]. split; [set_solver|done]. Qed.
Lemma durable_active key a reason t :
  durable_ack key a -> ack_State a = "pending_creation"%string -> durable_ack key (set_status "active" reason t a).
Proof.
  intros (Hc & (_ & Hp) & Ha) Hst. split_and!; [by apply core_status|split; [set_solver|done]|]. intros _ _. split; [done|].
  unfold pending_ok in Hp. rewrite Hst in Hp. simpl in Hp. bools. done.
Qed.

(** ** The invariant *)

Definition well_formed (st : cniACKState) : Prop :=
  st_Version st = 1 /\ is_Some (st_Endpoints st) /\ forall key a, default ∅ (st_Endpoints st) !! key = Some a -> durable_ack key a.

Record cinv c : Prop := {
  ci_state : well_formed (cc_state c);
  ci_stored : exists st, recovered_state (r_State (crec c)) = Ok st /\ well_formed st /\
    (r_Pending (crec c) = None -> st = cc_state c) /\
    forall i, r_Pending (crec c) = Some i -> i_Operation i = "cni-identity"%string -> checkpoint_ok st i = Ok tt;
}.

Lemma cinv_same c c' : cc_state c' = cc_state c -> crec c' = crec c -> cinv c -> cinv c'.
Proof. intros Es Er [H1 H2]. split; [by rewrite Es|]. by rewrite Es, Er. Qed.

Lemma stored_roundtrip st data : well_formed st -> json_Marshal st = Ok data -> recovered_state data = Ok st.
Proof.
  intros (Hv & He & _) Hm. unfold recovered_state, same_str. rewrite bool_decide_eq_false_2 by by apply json_object in Hm.
  unfold decodeCNIState, decodeStrict. rewrite (json_roundtrip _ _ Hm). simpl. rewrite Hv. simpl. by rewrite bool_decide_eq_true_2.
Qed.

Lemma put_well_formed key a st : well_formed st -> durable_ack key a -> well_formed (put_ack key a st).
Proof. intros (Hv & He & Ha) Hd. split_and!; [done|by eexists|]. intros k b. simpl. intros [[<- <-]|[_ Hk]]%lookup_insert_Some; [done|by apply Ha]. Qed.

Let CI s : Prop := cinv s.1.1.

Lemma inv_quiet {A} (m : CM A) : (forall x : cst, preserves (fun s => s.1 = x) m) -> preserves CI m.
Proof. intros Hm s Hs. unfold CI. by rewrite (Hm s.1 s eq_refl). Qed.
Lemma inv_ready : preserves CI ready.
Proof. intros s Hs. destruct (ready s) as [s' r] eqn:E. apply ready_run in E as (_ & Es & Er & _). by eapply cinv_same. Qed.
Lemma inv_set_store f : preserves CI (set_store f).
Proof. by intros s Hs. Qed.

(** An intent of [add] or [del]: the state stays as stored. *)
Definition intent_open c : Prop := exists i, r_Pending (crec c) = Some i /\ i_Operation i <> "cni-identity"%string.

Lemma inv_Begin op a s s' r :
  op <> "cni-identity"%string -> cinv s.1.1 -> on_cni_journal (Begin op a) s = (s', r) ->
  cinv s'.1.1 /\ (is_ok r = true -> intent_open s'.1.1) /\ cc_state s'.1.1 = cc_state s.1.1.
Proof.
  intros Hop Hi (_ & Es & _ & H)%Begin_record. destruct r as [seq|e]; [|split_and!; [by eapply cinv_same|done..]].
  destruct H as (data & _ & Er & Hn & Hp). split_and!; [|intros _; eexists; by split|done].
  destruct Hi as [H1 (st & Hst & Hw & Hsame & _)]. split; [by rewrite Es|]. exists st. rewrite Er, Es, Hp. split_and!; try done.
  intros i [= <-]. done.
Qed.

Lemma inv_commit key a seq s s' r :
  cinv s.1.1 -> intent_open s.1.1 -> durable_ack key a -> commit_ack key a seq s = (s', r) -> cinv s'.1.1.
Proof.
  intros [H1 (st & Hst & Hw & _ & _)] (i & Hp & Hop) Hd H. unfold commit_ack in H.
  unfold bind at 1, set_acks, modify in H. unfold get_c in H. rewrite bind_gets in H. simpl in H.
  pose proof (put_well_formed key a _ H1 Hd) as Hwf. apply Commit_record in H as (_ & Es & H). simpl in Es.
  split; [by rewrite Es|]. destruct r as [[]|e].
  - destruct H as (data & Hm & Er & Hn). exists (put_ack key a (cc_state s.1.1)). rewrite Er, Hn, Es.
    split_and!; try done. by apply stored_roundtrip.
  - exists st. rewrite H. unfold crec in *. simpl. rewrite Hp. split_and!; try done. intros i' [= <-]. done.
Qed.

(** ** Every operation keeps the invariant *)

Hint Resolve inv_quiet inv_ready inv_set_store quiet_on_snd quiet_get_c quiet_get_ack quiet_now quiet_verifyResources quiet_verify_workload
  quiet_admit quiet_add_create quiet_del_remove quiet_quarantine_reason : evpn.

Lemma add_create_valid key req spec rec runtime attach admission s s' rec' a :
  add_create endpoint network key req spec rec runtime attach admission s = (s', Ok (rec', a)) -> validateCNIACK key a = Ok tt.
Proof.
  unfold add_create. intros H. apply bind_ok_inv in H as (s1 & [ns cr] & _ & H). apply bind_ok_inv in H as (s2 & st & _ & H).
  apply bind_ok_inv in H as (s3 & [receipt absent] & _ & H). destruct absent; [done|]. apply bind_ok_inv in H as (s4 & a' & _ & H).
  rewrite bind_lift in H. destruct (validateCNIACK key a') as [[]|] eqn:Hv; [|done]. apply bind_ok_inv in H as (s5 & [] & _ & H).
  apply bind_ok_inv in H as (s6 & [] & _ & H). unfold ret in H. by simplify_eq.
Qed.

Lemma inv_add_execute key req spec rec runtime attach admission seq s s' r :
  cinv s.1.1 -> intent_open s.1.1 -> add_execute endpoint network key req spec rec runtime attach admission seq s = (s', r) -> cinv s'.1.1.
Proof.
  intros Hi Ho H. unfold add_execute in H.
  apply bind_inv in H as [(s1 & [rec' a] & Hc & H)|(e & Hc & ->)];
    pose proof (quiet_run _ _ _ _ (fun x => quiet_add_create x key req spec rec runtime attach admission) Hc) as E; rewrite <-E in Hi, Ho; [|done].
  apply add_create_valid, valid_durable in Hc as [Hd _].
  apply bind_inv in H as [(s2 & [] & Hm & H)|(e & Hm & _)]; eapply inv_commit in Hm; try done.
  unfold bind, set_store, modify, ret in H. by simplify_eq.
Qed.

Lemma inv_del_execute key a seq s s' r :
  cinv s.1.1 -> intent_open s.1.1 -> durable_ack key a -> del_execute network key a seq s = (s', r) -> cinv s'.1.1.
Proof.
  intros Hi Ho Hd H. unfold del_execute in H.
  apply bind_inv in H as [(s1 & [] & Hc & H)|(e & Hc & _)];
    pose proof (quiet_run _ _ _ _ (fun x => quiet_del_remove x key a) Hc) as E; rewrite <-E in Hi, Ho; [|done].
  apply bind_inv in H as [(s2 & [] & Hm & H)|(e & Hm & _)]; eapply inv_commit in Hm; try done; try by apply durable_deleted.
  unfold set_store, modify in H. by simplify_eq.
Qed.

Lemma inv_add_fresh key req spec rec runtime attach admission :
  preserves CI (add_fresh endpoint network key req spec rec runtime attach admission).
Proof.
  unfold add_fresh, refuse. apply preserves_bind; [pres|]. intros c. apply preserves_bind; [pres|]. intros [pre absent].
  destruct (negb absent); [pres|]. destruct (match acks c !! key with Some _ => _ | None => _ end); [pres|].
  apply preserves_bind; [pres|]. intros _ s Hs. destruct (bind _ _ s) as [s' r] eqn:H. unfold CI in *. simpl.
  apply bind_inv in H as [(s1 & seq & (r1 & Hb & Er)%wrap_inv & H)|(e & (r1 & Hb & Er)%wrap_inv & _)];
    apply inv_Begin in Hb as (Hi & Ho & _); try done. destruct r1 as [seq'|]; [|done]. specialize (Ho eq_refl).
  apply bind_inv in H as [(s2 & rec' & (r2 & Hx & _)%wrap_inv & H)|(e & (r2 & Hx & _)%wrap_inv & _)]; eapply inv_add_execute in Hx; try done.
  unfold ret in H. by simplify_eq.
Qed.
Lemma inv_add_replay key a rec runtime admission : preserves CI (add_replay network key a rec runtime admission).
Proof. unfold add_replay, refuse. pres. Qed.
Hint Resolve inv_add_fresh inv_add_replay : evpn.

Lemma inv_continuity_add req : preserves CI (continuity_add endpoint network req).
Proof. unfold continuity_add, refuse. pres. Qed.
Lemma inv_continuity_check req : preserves CI (continuity_check network req).
Proof. unfold continuity_check. pres. Qed.
Lemma inv_validateContinuity : preserves CI (validateContinuity network).
Proof. unfold validateContinuity, validate_one. pres. Qed.
Lemma inv_validateExport eps : preserves CI (validateRecoveredExportEndpoints network eps).
Proof. unfold validateRecoveredExportEndpoints. pres. apply inv_validateContinuity. Qed.

Lemma inv_continuity_del req : preserves CI (continuity_del network req).
Proof.
  unfold continuity_del. apply preserves_bind; [pres|]. intros id. apply preserves_bind; [pres|]. intros []. unfold get_ack.
  apply preserves_bind_gets. intros s Hs. unfold CI in *. destruct (acks s.1.1 !! _) as [a|] eqn:Ha; [|done].
  destruct (negb _); [done|]. case_bool_decide; [|done].
  assert (durable_ack (endpointKey (Some id)) a) as Hd by (destruct Hs as [(_ & _ & Hd) _]; by apply Hd).
  destruct (bind _ _ s) as [s' r] eqn:E. simpl.
  apply bind_inv in E as [(s1 & [] & (r1 & Hv & _)%wrap_inv & E)|(e & (r1 & Hv & _)%wrap_inv & _)];
    apply quiet_run in Hv; try (intros; apply quiet_verifyResources); rewrite <-Hv in Hs; [|done].
  apply bind_inv in E as [(s2 & seq & (r2 & Hb & Er)%wrap_inv & E)|(e & (r2 & Hb & _)%wrap_inv & _)];
    apply inv_Begin in Hb as (Hi & Ho & _); try done. destruct r2 as [seq'|]; [|done]. specialize (Ho eq_refl).
  apply bind_inv in E as [(s3 & [] & (r3 & Hx & _)%wrap_inv & E)|(e & (r3 & Hx & _)%wrap_inv & _)]; eapply inv_del_execute in Hx; try done.
  unfold ret in E. by simplify_eq.
Qed.

(** ** Activation *)

Lemma set_status_back state reason t a : set_status (ack_State a) (ack_Reason a) (ack_VerifiedAt a) (set_status state reason t a) = a.
Proof. by destruct a. Qed.

Lemma checkpoint_resolves st key a state reason t data seq :
  durable_ack key a -> default ∅ (st_Endpoints st) !! key = Some a -> ack_State a = "pending_creation"%string ->
  json_Marshal (set_status state reason t a) = Ok data ->
  checkpoint_ok st {| i_Sequence := seq; i_Operation := "cni-identity"; i_Payload := data |} = Ok tt.
Proof.
  intros (Hc & _) Hk Hst Hm. unfold checkpoint_ok. cbn [i_Operation i_Payload]. unfold decodeCNIState, decodeStrict.
  rewrite (json_roundtrip _ _ Hm). cbn [forallb chars String.list_ascii_of_string map_err rbind].
  change (ack_Identity (set_status state reason t a)) with (ack_Identity a).
  destruct Hc as (_ & _ & _ & _ & <- & _). rewrite Hk, set_status_back, Hst, bool_decide_eq_true_2 by done. done.
Qed.

Lemma inv_activate key a a' s s' r state reason t :
  cinv s.1.1 -> acks s.1.1 !! key = Some a -> ack_State a = "pending_creation"%string -> durable_ack key a' ->
  a' = set_status state reason t a ->
  bind (on_cni_journal (Begin "cni-identity" a')) (fun seq =>
    let! c := get_c in let next := put_ack key a' (cc_state c) in
    do! wrap (fun _ => ErrBlocked "activation acknowledgement") (on_cni_journal (Commit seq next)) in
    do! set_acks (fun _ => next) in
    if same_str (ack_State a') "quarantined" then set_store (delete key) else ret tt) s = (s', r) ->
  cinv s'.1.1 /\ forall k, k <> key -> acks s'.1.1 !! k = acks s.1.1 !! k.
Proof.
  intros [Hw (st & Hst & Hwst & Hsame & Hcp)] Hk Hpend Hd Ea H. pose proof Hw as (_ & _ & Hall).
  apply bind_inv in H as [(s1 & seq & (_ & Es & _ & Hb)%Begin_record & H)|(e & (_ & Es & _ & Hb)%Begin_record & ->)]; last first.
  { split; [|intros; unfold acks; by rewrite Es]. apply (cinv_same s.1.1); [done..|]. split; [done|]. by exists st. }
  destruct Hb as (data & Hm & Er & Hn & Hp). specialize (Hsame Hn) as ->.
  assert (cinv s1.1.1) as Hi1.
  { split; [by rewrite Es|]. exists (cc_state s.1.1). rewrite Er, Es, Hp. split_and!; try done. intros i [= <-] _.
    subst a'. by eapply checkpoint_resolves; [apply Hall|..]. }
  unfold get_c in H. rewrite bind_gets in H. cbv zeta in H.
  set (next := put_ack key a' (cc_state s1.1.1)) in *.
  assert (well_formed next) as Hwn by (apply put_well_formed; [by rewrite Es|done]).
  apply bind_inv in H as [(s2 & [] & (r2 & (Est & Es2 & Hc)%Commit_record & Er2)%wrap_inv & H)|(e & (r2 & (_ & Es2 & Hc)%Commit_record & Er2)%wrap_inv & ->)];
    destruct r2 as [[]|e2]; try done; last first.
  { split; [by eapply cinv_same|]. intros. unfold acks. by rewrite Es2, Es. }
  destruct Hc as (d2 & Hm2 & Er' & Hn'). unfold bind, set_acks, modify in H.
  assert (cc_state s'.1.1 = next /\ crec s'.1.1 = crec s2.1.1) as [Es3 Er3].
  { unfold set_store, modify, ret in H. destruct (same_str _ _); by simplify_eq. }
  split.
  - split; [by rewrite Es3|]. exists next. rewrite Er3, Er', Hn', Es3. split_and!; try done. by apply stored_roundtrip.
  - intros k Hne. unfold acks. rewrite Es3. simpl. by rewrite Es, lookup_insert_ne.
Qed.

Lemma inv_activate_one key a s s' r :
  cinv s.1.1 -> acks s.1.1 !! key = Some a -> activate_one network tt (key, a) s = (s', r) ->
  cinv s'.1.1 /\ forall k, k <> key -> acks s'.1.1 !! k = acks s.1.1 !! k.
Proof.
  intros Hi Hk H. unfold activate_one in H. destruct (same_str (ack_State a) "pending_creation") eqn:Hp; [|cbn [negb] in H; unfold ret in H; simplify_eq; by split].
  cbn [negb] in H. unfold same_str in Hp. apply bool_decide_eq_true in Hp.
  assert (durable_ack key a) as Hd by (destruct Hi as [(_ & _ & Hd) _]; by apply Hd).
  apply bind_inv in H as [(s1 & reason & Hq & H)|(e & Hq & _)]; apply quiet_run in Hq; try (intros; apply quiet_quarantine_reason);
    [|rewrite Hq; by split]. rewrite <-Hq in Hi, Hk |- *. clear Hq.
  apply bind_inv in H as [(s2 & a' & Ha' & H)|(e & Ha' & _)]; last first.
  { destruct (negb _); [done|]. unfold bind, now, ret in Ha'. by destruct (time_Now _). }
  destruct (negb (empty_str reason)).
  - unfold ret in Ha'. injection Ha' as <- <-. eapply (inv_activate key a); [done..| |done|exact H]. by apply durable_quarantined.
  - apply bind_ok_inv in Ha' as (s3 & t & Hn & Ha'). apply quiet_run in Hn; [|intros; apply quiet_now].
    unfold ret in Ha'. injection Ha' as -> <-. rewrite <-Hn in Hi, Hk |- *.
    eapply (inv_activate key a); [done..| |done|exact H]. by apply durable_active.
Qed.

Lemma inv_verifyPendingCNI : preserves CI (verifyPendingCNI network).
Proof.
  unfold verifyPendingCNI. apply preserves_bind; [pres|]. intros []. unfold get_c. apply preserves_bind_gets. intros s Hs.
  assert (forall l s, NoDup l.*1 -> (forall k a, (k, a) ∈ l -> acks s.1.1 !! k = Some a) -> CI s -> CI (mfold (activate_one network) tt l s).1) as H.
  { clear s Hs. induction l as [|[k a] l IH]; intros s Hnd Hl Hs; [done|]. simpl in Hnd. apply NoDup_cons in Hnd as [Hk Hnd]. cbn [mfold].
    unfold bind. destruct (activate_one network tt (k, a) s) as [s1 r] eqn:E.
    apply inv_activate_one in E as [Hi Hoth]; [|done|apply Hl; left]. destruct r as [[]|]; [|done]. apply IH; [done| |done].
    intros k' a' Hin. rewrite Hoth; [apply Hl; by right|]. intros ->. apply Hk, list_elem_of_fmap. by exists (k, a'). }
  apply H; [apply range_NoDup|by intros k a ?%range_lookup|done].
Qed.

(** ** Recovery *)

(** What recovery restores under a key: the record of an ACK whose resources it saw. *)
Definition restored_from c key (rec : endpointRecord) : Prop :=
  exists a w w', acks c !! key = Some a /\ rec = ack_record a /\
    (ack_State a = "active"%string \/ ack_State a = "pending_creation"%string) /\
    ro_Observe (cc_observer c) (ack_record a) w = (w', Ok (ack_Receipt a, false)).

Lemma verifyResources_ok a s s' :
  verifyResources network a s = (s', Ok tt) ->
  s'.1 = s.1 /\ exists w', ro_Observe (cc_observer s.1.1) (ack_record a) s.2 = (w', Ok (ack_Receipt a, false)).
Proof.
  intros H. split; [apply quiet_run in H; [done|intros; apply quiet_verifyResources]|]. unfold verifyResources, get_c in H. rewrite bind_gets in H.
  apply bind_ok_inv in H as (s1 & [rc ab] & [_ Ho]%on_snd_inv & H). destruct ab; [done|]. simpl in H. case_bool_decide as E; [|done].
  subst rc. eauto.
Qed.

Lemma recover_one_run restored key a s s' restored' :
  acks s.1.1 !! key = Some a -> (forall k rec, restored !! k = Some rec -> restored_from s.1.1 k rec) ->
  recover_one network restored (key, a) s = (s', Ok restored') ->
  s'.1 = s.1 /\ validateCNIACK key a = Ok tt /\ forall k rec, restored' !! k = Some rec -> restored_from s.1.1 k rec.
Proof.
  intros Hk Hres H. unfold recover_one in H. rewrite bind_lift in H. destruct (validateCNIACK key a) as [[]|] eqn:Hv; [|done]. cbn [map_err] in H.
  assert (forall s1 s2, s1.1 = s.1 -> (ack_State a = "active"%string \/ ack_State a = "pending_creation"%string) ->
    verifyResources network a s1 = (s2, Ok tt) -> s2.1 = s.1 /\
    forall k rec, <[key := ack_record a]> restored !! k = Some rec -> restored_from s.1.1 k rec) as Hver.
  { intros s1 s2 E Hst (E2 & w' & Ho)%verifyResources_ok. split; [congruence|].
    intros k rec [[<- <-]|[_ Hk']]%lookup_insert_Some; [|by apply Hres]. exists a, s1.2, w'. rewrite <-E. rewrite <-E in Hk. done. }
  destruct (same_str (ack_State a) "deleted" || same_str (ack_State a) "quarantined") eqn:Hd; [unfold ret in H; by simplify_eq|].
  destruct (same_str (ack_State a) "pending_creation") eqn:Hp.
  - apply bind_ok_inv in H as (s1 & [] & Hv1%wrap_ok_inv & H). unfold ret in H. simplify_eq.
    apply Hver in Hv1 as [E Hr]; [done|done|right]. unfold same_str in Hp. by apply bool_decide_eq_true in Hp.
  - apply bind_ok_inv in H as (s1 & deleted & Hw%wrap_ok_inv & H). apply quiet_run in Hw; [|intros; apply quiet_verify_workload].
    destruct deleted; [unfold ret in H; by simplify_eq|].
    apply bind_ok_inv in H as (s2 & [] & Hv1%wrap_ok_inv & H). unfold ret in H. simplify_eq.
    apply Hver in Hv1 as [E Hr]; [done|done|left]. apply validateCNIACK_iff in Hv as (_ & [Hin _] & _).
    unfold same_str in *. bools. set_solver.
Qed.

Lemma recover_loop l restored s s' restored' :
  (forall k a, (k, a) ∈ l -> acks s.1.1 !! k = Some a) -> (forall k rec, restored !! k = Some rec -> restored_from s.1.1 k rec) ->
  mfold (recover_one network) restored l s = (s', Ok restored') ->
  s'.1 = s.1 /\ (forall k a, (k, a) ∈ l -> validateCNIACK k a = Ok tt) /\ forall k rec, restored' !! k = Some rec -> restored_from s.1.1 k rec.
Proof.
  revert restored s. induction l as [|[key a] l IH]; intros restored s Hl Hres H; cbn [mfold] in H.
  - unfold ret in H. simplify_eq. split_and!; try done. intros k a ?%elem_of_nil. done.
  - apply bind_ok_inv in H as (s1 & r1 & Hone & H). apply recover_one_run in Hone as (E & Hv & Hres1); [|apply Hl; left|done].
    rewrite <-E in Hres1, Hl |- *. apply IH in H as (E' & Hvs & Hr); [|intros; apply Hl; by right|done].
    split_and!; try done. intros k b [[= -> ->]|Hin]%elem_of_cons; [done|by apply Hvs].
Qed.

Lemma recoverCNI_run s s' :
  recoverCNI network s = (s', Ok tt) -> cinv s'.1.1 /\ forall key rec, s'.1.2 !! key = Some rec -> restored_from s'.1.1 key rec.
Proof.
  intros H. unfold recoverCNI in H. apply bind_ok_inv in H as (s1 & [raw pending] & (j1 & Hs & E1)%on_cni_journal_inv & H).
  apply Snapshot_run in Hs as [(Hr & -> & _)|(e & ? & _)]; [|done]. simplify_eq.
  rewrite bind_lift in H. destruct (recovered_state _) as [st|] eqn:Hst; [|done].
  unfold bind at 1, set_acks, modify in H. cbn [fst snd] in H.
  apply bind_ok_inv in H as (s2 & [] & Hp & H). apply bind_ok_inv in H as (s3 & restored & Hl & H). rewrite bind_gets in H.
  case_bool_decide; [|done]. cbn [negb] in H. unfold set_store, modify in H. simplify_eq. cbn [fst snd].
  assert (cc_state s2.1.1 = st /\ r_Pending (crec s2.1.1) = None /\ recovered_state (r_State (crec s2.1.1)) = Ok st) as (Es & Hn & Hrs).
  { assert (crec s1.1.1 = crec s.1.1 /\ cc_state s1.1.1 = cc_state s.1.1) as [E2 E3] by (by rewrite E1). unfold crec in E2.
    destruct (r_Pending (j_record (cc_journal s.1.1))) as [i|] eqn:Hi; cycle 1.
    - unfold ret in Hp. simplify_eq. unfold crec. simpl. rewrite E2. by rewrite Hi.
    - rewrite bind_lift in Hp. destruct (checkpoint_ok st i); [|done]. apply Commit_record in Hp as (_ & Es & data & Hm & Er & Hn).
      simpl in Es. split_and!; try done. rewrite Er. unfold recovered_state in Hst |- *. unfold rbind in Hst.
      unfold same_str at 1. rewrite bool_decide_eq_false_2 by by apply json_object in Hm. unfold decodeCNIState, decodeStrict.
      rewrite (json_roundtrip _ _ Hm). simpl. destruct (if same_str _ _ then _ else _) as [st'|]; [|done].
      destruct (_ || _) eqn:Eo in Hst; [done|]. injection Hst as ->. by rewrite Eo. }
  assert (st_Version st = 1 /\ is_Some (st_Endpoints st)) as [Hv Hsome].
  { unfold recovered_state, rbind in Hst. destruct (if same_str _ _ then _ else _) as [st'|]; [|done].
    destruct (_ || _) eqn:Eo in Hst; [done|]. injection Hst as ->. bools. done. }
  apply recover_loop in Hl as (E3 & Hvs & Hres); [|intros k a Hin%range_lookup; unfold acks; by rewrite Es|intros ??; by rewrite lookup_empty].
  rewrite E3. split; [|done]. assert (well_formed st) as Hwf.
  { split_and!; try done. intros k a Hk. eapply valid_durable, Hvs. by apply range_lookup. }
  split; [by rewrite Es|]. exists st. rewrite Hn, Es. split_and!; try done.
Qed.

(** ** Histories *)

(** A process with continuity: requests, the verification of pending endpoints, the gate
    of the exporter, the end of the process and other processes. *)
Inductive cstep : cst * W -> cst * W -> Prop :=
  | cs_add req s s' r : continuity_add endpoint network req s = (s', r) -> cstep s s'
  | cs_del req s s' r : continuity_del network req s = (s', r) -> cstep s s'
  | cs_check req s s' r : continuity_check network req s = (s', r) -> cstep s s'
  | cs_verify s s' r : verifyPendingCNI network s = (s', r) -> cstep s s'
  | cs_validate s s' r : validateContinuity network s = (s', r) -> cstep s s'
  | cs_export eps s s' r : validateRecoveredExportEndpoints network eps s = (s', r) -> cstep s s'
  | cs_close s s' r : on_cni_journal Close s = (s', r) -> cstep s s'
  | cs_world (x : cst) w w' : cstep (x, w) (x, w').

Lemma cstep_inv s s' : cstep s s' -> cinv s.1.1 -> cinv s'.1.1.
Proof.
  intros [req s1 s2 r H|req s1 s2 r H|req s1 s2 r H|s1 s2 r H|s1 s2 r H|eps s1 s2 r H|s1 s2 r H|x w w'] Hi; [..|done].
  - exact (preserves_run _ _ _ _ _ (inv_continuity_add req) Hi H).
  - exact (preserves_run _ _ _ _ _ (inv_continuity_del req) Hi H).
  - exact (preserves_run _ _ _ _ _ (inv_continuity_check req) Hi H).
  - exact (preserves_run _ _ _ _ _ inv_verifyPendingCNI Hi H).
  - exact (preserves_run _ _ _ _ _ inv_validateContinuity Hi H).
  - exact (preserves_run _ _ _ _ _ (inv_validateExport eps) Hi H).
  - apply on_cni_journal_inv in H as (j' & H & E). apply Close_run in H as [-> _]. rewrite E. by apply (cinv_same s1.1.1).
Qed.
Lemma csteps_inv s s' : rtc cstep s s' -> cinv s.1.1 -> cinv s'.1.1.
Proof. induction 1; eauto using cstep_inv. Qed.

(** C6: the journal of the node agent never locks it out.  Whatever requests, activations
    and exports follow a recovery, with any outcome of every call, and wherever the process
    stops: a restart can decode the state in the journal; every acknowledgement in it
    passes its validation, unless it was activated outside its own window; and if the
    process stopped in the middle of an activation, the checkpoint it left is accepted. *)
Theorem acks_survive_restart s0 s s' :
  recoverCNI network s0 = (s, Ok tt) -> rtc cstep s s' ->
  exists st, recovered_state (r_State (crec s'.1.1)) = Ok st /\
    (forall key a, default ∅ (st_Endpoints st) !! key = Some a -> timely a -> validateCNIACK key a = Ok tt) /\
    (forall i, r_Pending (crec s'.1.1) = Some i -> i_Operation i = "cni-identity"%string -> checkpoint_ok st i = Ok tt).
Proof.
  intros [Hi _]%recoverCNI_run Hs. apply csteps_inv in Hs as [_ (st & Hst & (_ & _ & Hall) & _ & Hcp)]; [|done].
  exists st. split_and!; try done. intros key a Hk. by apply durable_timely, Hall.
Qed.

(** Recovery adopts nothing.  Every endpoint that a restart takes back into its store
    is the record of an acknowledgement in the journal that was active or pending, and its
    resources were observed during the recovery with exactly the recorded identifiers. *)
Theorem recovery_adopts_nothing s s' key rec :
  recoverCNI network s = (s', Ok tt) -> s'.1.2 !! key = Some rec -> restored_from s'.1.1 key rec.
Proof. intros [_ Hr]%recoverCNI_run Hk. by apply Hr. Qed.

(** A call that fails and does nothing but ask the journal. *)
Definition stopped {A} s (m : CM A) : Prop :=
  exists s' e, m s = (s', Err e) /\ (s' = s \/ exists x, on_cni_journal Snapshot s = (s', x)).

(** C9: an uncertain outcome stops the agent.  While the journal holds an unresolved
    intent, every request, every activation and every export check fails, and does nothing
    but ask the journal. *)
Theorem uncertain_outcome_blocks s i req dreq eps :
  r_Pending (crec s.1.1) = Some i ->
  stopped s (continuity_add endpoint network req) /\ stopped s (continuity_del network dreq) /\ stopped s (continuity_check network dreq) /\
  stopped s (verifyPendingCNI network) /\ stopped s (validateRecoveredExportEndpoints network eps).
Proof.
  intros Hp.
  assert (exists s' e, ready s = (s', Err e) /\ exists x, on_cni_journal Snapshot s = (s', x)) as (s' & e & Hr & x & Hx).
  { destruct (ready s) as [s' r] eqn:E. pose proof E as (_ & _ & _ & Hok)%ready_run. destruct r as [[]|e]; [destruct (Hok eq_refl); congruence|].
    exists s', e. split; [done|]. unfold ready in E. apply bind_inv in E as [(s1 & [raw p] & Hj & E)|(e' & Hj & _)]; [|eauto].
    exists (Ok (raw, p)). destruct p; unfold fail, ret in E; simplify_eq. done. }
  assert (forall A B (pre : result B) f (k : B -> unit -> CM A), stopped s (bind (lift pre) (fun b => bind (wrap f ready) (k b)))) as Hadd.
  { intros A B pre f k. unfold stopped. rewrite bind_lift. destruct pre as [b|e0]; [|eauto 10]. unfold bind, wrap. rewrite Hr. eauto 10. }
  assert (forall A (k : unit -> CM A), stopped s (bind ready k)) as Hrd.
  { intros A k. unfold stopped, bind. rewrite Hr. eauto 10. }
  split_and!.
  - unfold continuity_add. unfold stopped. rewrite bind_lift. destruct (validateAddRequest req) as [[[id rt] at']|e0]; [|eauto 10].
    unfold bind at 1, wrap. rewrite Hr. eauto 10.
  - apply Hadd.
  - apply Hrd.
  - apply Hrd.
  - unfold validateRecoveredExportEndpoints, validateContinuity, stopped. unfold bind at 1, bind at 1. rewrite Hr. eauto 10.
Qed.
End safety.
