(* ===== verification/CniContinuityEffect.v ===== *)
(** * What a durable ADD and DEL do

    Intents come before effects and acknowledgements after observations: the requests of
    [CniContinuity] change OVN, OVS or the kernel only while the journal holds their
    intent, and answer only what was observed.  The last theorem is the gate of the
    exporter. *)

From S2P Require Import Prelude GoStd Journal Type2 Attachment Endpoint CniTypes CniServer CniContinuity CniContinuitySafety.

Section effect.
Context {W : Type} {PX : Posix W} {SH : Sha256} {JR : Json record} {JE : Json envelope} {UL : UuidLib}.
Context {JA : Json cniEndpointACK} {JT : Json cniACKState} {MR : MapRange} {CL : Clock W}.
Context (endpoint : EndpointManager W) (network : networkBackend W).
Notation cst := (cniContinuity W * Store)%type.
Notation CM := (M (cst * W)).
Implicit Types (s : cst * W) (c : cniContinuity W) (a : cniEndpointACK) (key : string).

(** The calls that only observe keep [P]. *)
Record reads_only (P : W -> Prop) c : Prop := {
  rd_Observe rec : preserves P (ro_Observe (cc_observer c) rec);
  rd_NetworkAbsent key : preserves P (ro_NetworkAbsent (cc_observer c) key);
  rd_Verify ref x y : preserves P (wa_Verify (cc_workload c) ref x y);
  rd_VerifyPod f ref : wa_VerifyPod (cc_workload c) = Some f -> preserves P (f ref);
  rd_VerifyCreating f ref x y : wa_VerifyCreating (cc_workload c) = Some f -> preserves P (f ref x y);
  rd_Admit f req : cc_authority c = Some f -> preserves P (f req);
  rd_Check key rec : preserves P (nb_Check network key rec);
}.

Section reads.
Context (P : W -> Prop) {PF : PosixFrame P} (c0 : cniContinuity W) (HR : reads_only P c0).
Let F s : Prop := s.1.1 = c0 /\ P s.2.

Lemma F_on_snd {A} (m : M W A) : preserves P m -> preserves F (on_snd m).
Proof.
  intros Hm s [Hx Hp]. destruct (on_snd m s) as [s' r] eqn:E. apply on_snd_inv in E as [E1 E2]. split; simpl; [congruence|].
  by eapply preserves_run in E2.
Qed.
Lemma F_get_c {A} (k : cniContinuity W -> CM A) : preserves F (k c0) -> preserves F (bind get_c k).
Proof. intros Hk. apply preserves_bind_gets. intros s Hs. destruct Hs as [E Hp]. rewrite E. by apply Hk. Qed.
Lemma journal_frame {A} (m : M (Journal * W) A) s s' r :
  preserves (fun y : Journal * W => P y.2) m -> P s.2 -> on_cni_journal m s = (s', r) -> P s'.2.
Proof. intros Hm Hp (j' & Hj & _)%on_cni_journal_inv. exact (preserves_run (fun y : Journal * W => P y.2) m (_, s.2) _ _ Hm Hp Hj). Qed.
Lemma F_set_store f : preserves F (set_store f).
Proof. by intros s Hs. Qed.
Hint Resolve F_on_snd F_set_store : evpn.

Lemma F_verifyResources a : preserves F (verifyResources network a).
Proof.
  unfold verifyResources. apply F_get_c, preserves_bind; [apply F_on_snd, HR|]. intros [rc ab]. destruct (_ || _); [pres|].
  apply preserves_bind; [apply F_on_snd, HR|]. pres.
Qed.
Lemma F_verifyAddWorkload ref y z : preserves F (verifyAddWorkload ref y z).
Proof.
  unfold verifyAddWorkload. apply F_get_c, F_on_snd. destruct (wa_VerifyCreating _) eqn:E; [|apply HR]. by apply (rd_VerifyCreating _ _ HR).
Qed.
Hint Resolve F_verifyResources F_verifyAddWorkload : evpn.
Lemma F_admit key req spec runtime : preserves F (admission_for key req spec runtime).
Proof.
  unfold admission_for. apply F_get_c. destruct (cc_authority c0) as [f|] eqn:E.
  - apply preserves_bind; [destruct (match _ !! _ with Some _ => _ | None => _ end); pres; apply F_on_snd; by apply (rd_Admit _ _ HR)|].
    intros adm. destruct (wa_VerifyPod _) eqn:Ev; [|pres]. apply preserves_bind; [apply F_on_snd; by apply (rd_VerifyPod _ _ HR)|pres].
  - pres.
Qed.
Lemma F_add_replay key a rec runtime admission : preserves F (add_replay network key a rec runtime admission).
Proof.
  unfold add_replay, refuse. destruct (same_str _ _); [pres|]. destruct (negb _); [pres|].
  apply preserves_bind; [|pres]. destruct (same_str _ _); [|pres]. apply F_get_c. pres. apply F_on_snd, HR.
Qed.

(** The part of [add] before its intent. *)
Lemma add_fresh_run key req spec rec runtime attach admission s s' r :
  F s -> add_fresh endpoint network key req spec rec runtime attach admission s = (s', r) ->
  (is_ok r = false /\ P s'.2 /\ cc_state s'.1.1 = cc_state c0 /\ crec s'.1.1 = crec c0) \/
  exists s1 s2 seq, F s1 /\ P s2.2 /\
    on_cni_journal (Begin "cni-add" (set_admission admission (drop_result (ack_of rec zero_receipt "")))) s1 = (s2, Ok seq) /\
    exists r2, add_execute endpoint network key req spec rec runtime attach admission seq s2 = (s', r2) /\ is_ok r = is_ok r2.
Proof.
  intros Hs H. pose proof Hs as [E _]. unfold add_fresh, refuse, get_c in H. rewrite bind_gets, E in H.
  assert (forall s, F s -> is_ok (Err (A := CNIAddResponse) (Errorf "")) = false /\ P s.2 /\ cc_state s.1.1 = cc_state c0 /\ crec s.1.1 = crec c0) as Hstop
    by (by intros s1 [-> ?]).
  apply bind_inv in H as [(s1 & [pre absent] & Ho%wrap_ok_inv & H)|(e & (r1 & Ho & _)%wrap_inv & ->)];
    (eapply preserves_run in Ho; [|apply F_on_snd, HR|exact Hs]); [|left; by apply Hstop].
  destruct (negb absent); [unfold fail in H; simplify_eq; left; by apply Hstop|].
  destruct (match _ !! _ with Some _ => _ | None => _ end); [unfold fail in H; simplify_eq; left; by apply Hstop|].
  apply bind_inv in H as [(s2 & [] & Hn%wrap_ok_inv & H)|(e & (r1 & Hn & _)%wrap_inv & ->)];
    (eapply preserves_run in Hn; [|apply F_on_snd, HR|exact Ho]); [|left; by apply Hstop].
  apply bind_inv in H as [(s3 & seq & Hb%wrap_ok_inv & H)|(e & (r1 & Hb & Er)%wrap_inv & ->)].
  - right. exists s2, s3, seq. split_and!; try done.
    + eapply journal_frame; [|apply Hn|exact Hb]; by apply Begin_frame.
    + apply bind_inv in H as [(s4 & rec' & (r2 & Hx & Er)%wrap_inv & H)|(e & (r2 & Hx & Er)%wrap_inv & ->)]; exists r2.
      * unfold ret in H. destruct r2; [|done]. by simplify_eq.
      * by destruct r2.
  - left. destruct Hn as [En Hpn]. assert (P s'.2) by (eapply journal_frame; [|exact Hpn|exact Hb]; apply Begin_frame; done).
    apply Begin_record in Hb as (_ & Es & _ & Hb). destruct r1; [done|]. split_and!; try done; congruence.
Qed.
End reads.

(** The part of [add] after its intent. *)
Lemma cni_add_execute_run key req spec rec runtime attach admission seq s s' r :
  add_execute endpoint network key req spec rec runtime attach admission seq s = (s', r) ->
  match r with
  | Err _ => crec s'.1.1 = crec s.1.1
  | Ok rec' => exists a w w', acks s'.1.1 = <[key := a]> (acks s.1.1) /\ validateCNIACK key a = Ok tt /\ r_Pending (crec s'.1.1) = None /\
      ack_record a = rec' /\ is_Some (s'.1.2 !! key) /\
      ro_Observe (cc_observer s.1.1) (ack_record a) w = (w', Ok (ack_Receipt a, false))
  end.
Proof.
  intros H. unfold add_execute in H. apply bind_inv in H as [(s1 & [rec' a] & Hc & H)|(e & Hc & ->)]; last first.
  { apply quiet_run in Hc; [by rewrite Hc|]. intros. apply quiet_add_create. }
  assert (s1.1 = s.1) as E1 by (apply quiet_run in Hc; [done|intros; apply quiet_add_create]).
  unfold commit_ack in H.
  assert (forall s2 r2, (do! set_acks (put_ack key a) in let! c := get_c in on_cni_journal (Commit seq (cc_state c))) s1 = (s2, r2) ->
    s2.1.2 = s.1.2 /\ match r2 with Ok _ => acks s2.1.1 = <[key := a]> (acks s.1.1) /\ r_Pending (crec s2.1.1) = None
                                 | Err _ => crec s2.1.1 = crec s.1.1 end) as Hcm.
  { intros s2 r2 Hx. unfold bind at 1, set_acks, modify in Hx. unfold get_c in Hx. rewrite bind_gets in Hx.
    apply Commit_record in Hx as (Est & Es & Hx). cbn [fst snd] in *. rewrite E1 in *. split; [done|]. destruct r2 as [[]|].
    - destruct Hx as (data & _ & _ & Hn). split; [|done]. unfold acks. by rewrite Es.
    - done. }
  apply bind_inv in H as [(s2 & [] & Hm & H)|(e & Hm & ->)]; apply Hcm in Hm as [Est Hm]; [|done].
  destruct Hm as [Ha Hn]. unfold bind, set_store, modify, ret in H. injection H as <- <-. cbn [fst snd].
  assert (exists w w', ro_Observe (cc_observer s.1.1) (ack_record a) w = (w', Ok (ack_Receipt a, false)) /\ ack_record a = rec') as (w & w' & Ho & Er).
  { clear -Hc. unfold add_create in Hc. apply bind_ok_inv in Hc as (s2 & [ns cr] & [E2 _]%on_snd_inv & H).
    apply bind_ok_inv in H as (s3 & st & [E3 _]%on_snd_inv & H). apply bind_ok_inv in H as (s4 & [receipt absent] & Hp & H).
    apply quiet_run in Hp; [|intros; apply quiet_observe_polls]. destruct absent; [done|].
    apply bind_ok_inv in H as (s5 & a' & Hna & H). pose proof Hna as E5. apply quiet_run in E5; [|intros; apply quiet_new_ack].
    rewrite bind_lift in H. destruct (validateCNIACK key a'); [|done]. apply bind_ok_inv in H as (s6 & [] & Hv & H).
    apply verifyResources_ok in Hv as (_ & w' & Ho). apply bind_ok_inv in H as (s7 & [] & _ & H). unfold ret in H. simplify_eq.
    exists s5.2, w'. split; [by rewrite <-E2, <-E3, <-Hp, <-E5|].
    unfold new_ack in Hna. destruct admission as [e|]; [|unfold ret in Hna; by simplify_eq].
    apply bind_ok_inv in Hna as (s8 & t & _ & Hna). destruct (_ || _); [done|]. unfold ret in Hna. by simplify_eq. }
  exists a, w, w'. split_and!; try done; [by eapply add_create_valid|]. unfold putIfAbsentOrEqual.
  destruct (s2.1.2 !! key) eqn:Ek; simpl; [by rewrite Ek|by rewrite lookup_insert_eq].
Qed.

(** Nothing but observations: the world as far as [P] sees it, the ACKs and the journal
    are as before. *)
Definition untouched (P : W -> Prop) s s' : Prop :=
  P s'.2 /\ cc_state s'.1.1 = cc_state s.1.1 /\ crec s'.1.1 = crec s.1.1.

Lemma ready_frame P {PF : PosixFrame P} s s' r : P s.2 -> ready s = (s', r) -> P s'.2.
Proof.
  intros Hp H. unfold ready in H. apply bind_inv in H as [(s1 & [raw pd] & Hj & H)|(e & Hj & _)];
    (eapply journal_frame in Hj; [|apply Snapshot_frame; exact PF|exact Hp]); [|done].
  destruct pd; unfold fail, ret in H; by simplify_eq.
Qed.

(** What [continuity_add] decides on before it changes anything. *)
Lemma continuity_add_run P {PF : PosixFrame P} req s s' r :
  reads_only P s.1.1 -> P s.2 -> continuity_add endpoint network req s = (s', r) ->
  untouched P s s' \/
  exists key req' spec rec runtime attach admission s1 s2 seq,
    (forall a, acks s.1.1 !! key = Some a -> ack_State a = "deleted"%string) /\ s1.1.1 = s.1.1 /\ P s1.2 /\ P s2.2 /\
    on_cni_journal (Begin "cni-add" (set_admission admission (drop_result (ack_of rec zero_receipt "")))) s1 = (s2, Ok seq) /\
    exists r2, add_execute endpoint network key req' spec rec runtime attach admission seq s2 = (s', r2) /\ is_ok r = is_ok r2.
Proof.
  intros HR Hp H. unfold continuity_add, refuse in H. assert (untouched P s s) as Hrefl by by split_and!.
  rewrite bind_lift in H. destruct (validateAddRequest req) as [[[id rt] at']|e]; [|simplify_eq; by left].
  apply bind_inv in H as [(s1 & [] & Hr%wrap_ok_inv & H)|(e & (r1 & Hr & _)%wrap_inv & ->)];
    pose proof (ready_frame P _ _ _ Hp Hr) as Hp1; apply ready_run in Hr as (_ & Es & Er & Hr); [|by left; split_and!].
  destruct (Hr eq_refl) as [_ E1]. clear Hr Es Er. unfold get_c at 1 in H. rewrite bind_gets in H.
  assert (forall s2, s2.1.1 = s1.1.1 -> P s2.2 -> untouched P s s2) as Hun by (intros s2 E ?; split_and!; [done|by rewrite E, E1..]).
  rewrite bind_lift in H. destruct (map_err _ _) as [req'|e]; [|simplify_eq; left; by apply Hun].
  rewrite bind_lift in H. destruct (map_err _ _) as [spec|e]; [|simplify_eq; left; by apply Hun].
  rewrite bind_lift in H. destruct (map_err _ _) as [[]|e]; [|simplify_eq; left; by apply Hun].
  assert (reads_only P s1.1.1) as HR1 by by rewrite E1.
  apply bind_inv in H as [(s2 & [admission deleted] & Ha & H)|(e & Ha & ->)]; apply wrap_inv in Ha as (r2 & Ha & _);
    destruct (preserves_run _ _ s1 _ _ (F_admit P s1.1.1 HR1 _ _ _ _) (conj eq_refl Hp1) Ha) as [E2 Hp2]; [|left; by apply Hun].
  destruct deleted; [unfold fail in H; simplify_eq; left; by apply Hun|]. unfold get_ack in H. rewrite bind_gets, E2, E1 in H.
  set (key := endpointKey (Some id)) in *.
  assert (forall rec, add_fresh endpoint network key req' spec rec rt at' admission s2 = (s', r) ->
    (forall a, acks s.1.1 !! key = Some a -> ack_State a = "deleted"%string) -> untouched P s s' \/
    exists key req' spec rec runtime attach admission s1 s2 seq,
    (forall a, acks s.1.1 !! key = Some a -> ack_State a = "deleted"%string) /\ s1.1.1 = s.1.1 /\ P s1.2 /\ P s2.2 /\
    on_cni_journal (Begin "cni-add" (set_admission admission (drop_result (ack_of rec zero_receipt "")))) s1 = (s2, Ok seq) /\
    exists r2, add_execute endpoint network key req' spec rec runtime attach admission seq s2 = (s', r2) /\ is_ok r = is_ok r2) as Hfresh.
  { intros rec Hf Hdel. assert (s2.1.1 = s.1.1) as Es2 by congruence.
    destruct (add_fresh_run P s.1.1 HR _ _ _ _ _ _ _ s2 s' r (conj Es2 Hp2) Hf) as [(_ & Hp' & Es & Er)|(s3 & s4 & seq & [E3 Hp3] & Hp4 & Hb & Hx)].
    - left. by split_and!.
    - right. eexists key, req', spec, rec, rt, at', admission, s3, s4, seq. by split_and!. }
  destruct (acks s.1.1 !! key) as [a|] eqn:Hk; [|by eapply Hfresh].
  destruct (same_str (ack_State a) "deleted") eqn:Hd; cbn [negb] in H.
  - eapply Hfresh; [exact H|]. intros ? [= <-]. unfold same_str in Hd. by apply bool_decide_eq_true in Hd.
  - left. assert (s2.1.1 = s.1.1) as Es2 by congruence.
    destruct (preserves_run _ _ s2 _ _ (F_add_replay P s.1.1 HR _ _ _ _ _) (conj Es2 Hp2) H) as [E3 Hp3]. apply Hun; [congruence|done].
Qed.


(** ** DEL *)

Lemma cni_del_execute_run key a seq s s' r :
  del_execute network key a seq s = (s', r) ->
  match r with
  | Err _ => crec s'.1.1 = crec s.1.1
  | Ok _ => acks s'.1.1 = <[key := set_status "deleted" (ack_Reason a) (ack_VerifiedAt a) a]> (acks s.1.1) /\
      r_Pending (crec s'.1.1) = None /\ s'.1.2 = delete key s.1.2 /\
      exists w w' rc, ro_Observe (cc_observer s.1.1) (ack_record a) w = (w', Ok (rc, true))
  end.
Proof.
  intros H. unfold del_execute in H. apply bind_inv in H as [(s1 & [] & Hc & H)|(e & Hc & ->)]; last first.
  { apply quiet_run in Hc; [by rewrite Hc|]. intros. apply quiet_del_remove. }
  assert (s1.1 = s.1) as E1 by (apply quiet_run in Hc; [done|intros; apply quiet_del_remove]).
  assert (exists w w' rc, ro_Observe (cc_observer s.1.1) (ack_record a) w = (w', Ok (rc, true))) as Ho.
  { clear -Hc. unfold del_remove, get_c in Hc. rewrite bind_gets in Hc. apply bind_ok_inv in Hc as (s2 & [] & _ & H).
    apply bind_ok_inv in H as (s3 & [] & _ & H). apply bind_ok_inv in H as (s4 & [rc ab] & [_ Ho]%on_snd_inv & H).
    destruct ab; [|done]. eauto. }
  unfold commit_ack in H. apply bind_inv in H as [(s2 & [] & Hm & H)|(e & Hm & ->)];
    unfold bind at 1, set_acks, modify in Hm; unfold get_c in Hm; rewrite bind_gets in Hm; apply Commit_record in Hm as (Est & Es & Hm);
    cbn [fst snd] in *; rewrite E1 in *.
  - destruct Hm as (data & _ & _ & Hn). unfold set_store, modify in H. injection H as <- <-. cbn [fst snd].
    split_and!; try done; [unfold acks; by rewrite Es|by rewrite Est].
  - done.
Qed.

(** A durable DEL removes exactly what was acknowledged.  Either it changed nothing
    that [P] sees, no acknowledgement and no journal record, or it is a DEL with the
    identity of an acknowledgement whose resources were just observed with exactly its
    identifiers, and everything it changed was changed after its intent was in the journal.
    If it then fails the intent stays there; if it succeeds the absence of the resources
    was observed, the acknowledgement is marked deleted and the endpoint left the store. *)
Theorem durable_del_write_ahead P {PF : PosixFrame P} req s s' r :
  reads_only P s.1.1 -> P s.2 -> continuity_del network req s = (s', r) ->
  (untouched P s s' /\ s'.1.2 = s.1.2) \/
  exists id a seq data s1 w w', let key := endpointKey (Some id) in
    acks s.1.1 !! key = Some a /\ normalizeIdentity (ack_Identity a) = normalizeIdentity (Some id) /\
    ro_Observe (cc_observer s.1.1) (ack_record a) w = (w', Ok (ack_Receipt a, false)) /\
    cc_state s1.1.1 = cc_state s.1.1 /\ P s1.2 /\ json_Marshal a = Ok data /\
    r_Pending (crec s1.1.1) = Some {| i_Sequence := seq; i_Operation := "cni-del"; i_Payload := data |} /\
    match r with
    | Err _ => crec s'.1.1 = crec s1.1.1
    | Ok resp => resp = deleted_response DEL_DELETED id /\
        acks s'.1.1 = <[key := set_status "deleted" (ack_Reason a) (ack_VerifiedAt a) a]> (acks s.1.1) /\
        r_Pending (crec s'.1.1) = None /\ s'.1.2 = delete key s.1.2 /\
        exists w w' rc, ro_Observe (cc_observer s.1.1) (ack_record a) w = (w', Ok (rc, true))
    end.
Proof.
  intros HR Hp H. unfold continuity_del in H. rewrite bind_lift in H.
  destruct (validateIdentity _) as [id|e]; [|simplify_eq; by left; split_and!].
  apply bind_inv in H as [(s1 & [] & Hr%wrap_ok_inv & H)|(e & (r1 & Hr & _)%wrap_inv & ->)];
    pose proof (ready_frame P _ _ _ Hp Hr) as Hp1; apply ready_run in Hr as (Est & Es & Er & Hr); [|by left; split_and!].
  destruct (Hr eq_refl) as [_ E1]. unfold get_ack in H. rewrite bind_gets, E1 in H. set (key := endpointKey (Some id)) in *.
  destruct (acks s.1.1 !! key) as [a|] eqn:Hk; [|unfold ret in H; simplify_eq; by left; split_and!].
  destruct (same_str (normalizeIdentity _) _) eqn:Hid; [|cbn [negb] in H; unfold ret in H; simplify_eq; by left; split_and!].
  cbn [negb] in H. case_bool_decide; [|unfold ret in H; simplify_eq; by left; split_and!].
  assert (s1.1.1 = s.1.1) as Ec by (by rewrite E1).
  apply bind_inv in H as [(s2 & [] & Hv%wrap_ok_inv & H)|(e & (r1 & Hv & _)%wrap_inv & ->)];
    destruct (preserves_run _ _ s1 _ _ (F_verifyResources P s.1.1 HR a) (conj Ec Hp1) Hv) as [E2 Hp2]; last first.
  { left. apply quiet_run in Hv; [|intros; apply quiet_verifyResources]. split; [|by rewrite Hv]. split_and!; [done|by rewrite E2..]. }
  apply verifyResources_ok in Hv as (E3 & w' & Ho). rewrite Ec in Ho.
  apply bind_inv in H as [(s3 & seq & Hb%wrap_ok_inv & H)|(e & (r1 & Hb & Erb)%wrap_inv & ->)];
    pose proof (journal_frame P _ _ _ _ (Begin_frame P _ _) Hp2 Hb) as Hp3;
    apply Begin_record in Hb as (Eb2 & Esb & Eob & Hb); last first.
  { left. destruct r1; [done|]. split; [|congruence]. split_and!; [done|congruence..]. }
  right. destruct Hb as (data & Hm & _ & _ & Hpd). exists id, a, seq, data, s3, s1.2, w'. unfold same_str in Hid. apply bool_decide_eq_true in Hid.
  rewrite E2 in Esb, Eob. cbv zeta. split_and!; try done.
  apply bind_inv in H as [(s4 & [] & Hx%wrap_ok_inv & H)|(e & (r4 & Hx & Er4)%wrap_inv & ->)]; apply cni_del_execute_run in Hx.
  - unfold ret in H. simplify_eq. unfold acks in *. rewrite Esb, Eb2, E3, E1, Eob in Hx. destruct Hx as (? & ? & ? & ?). by split_and!.
  - by destruct r4.
Qed.

(** ** The gate of the exporter *)

(** The resources of an ACK were observed with its identifiers. *)
Definition seen c a : Prop := exists w w', ro_Observe (cc_observer c) (ack_record a) w = (w', Ok (ack_Receipt a, false)).

Lemma validate_loop l s s' :
  mfold (validate_one network) tt l s = (s', Ok tt) ->
  s'.1.1 = s.1.1 /\ (forall k, is_Some (s'.1.2 !! k) -> is_Some (s.1.2 !! k)) /\
  forall k a, (k, a) ∈ l -> ack_State a <> "pending_creation"%string /\ ack_State a <> "quarantined"%string /\
    (ack_State a = "active"%string -> s'.1.2 !! k = None \/ seen s.1.1 a).
Proof.
  revert s. induction l as [|[k a] l IH]; intros s H; cbn [mfold] in H.
  - unfold ret in H. simplify_eq. split_and!; try done. intros k a ?%elem_of_nil. done.
  - apply bind_ok_inv in H as (s1 & [] & Hone & H). apply IH in H as (Ec & Hst & Hl). unfold validate_one in Hone.
    destruct (_ || _) eqn:Hbad; [done|]. apply orb_false_iff in Hbad as [Hp Hq]. unfold same_str in Hp, Hq.
    apply bool_decide_eq_false in Hp, Hq.
    assert (s1.1.1 = s.1.1 /\ (forall k, is_Some (s1.1.2 !! k) -> is_Some (s.1.2 !! k)) /\
      (ack_State a = "active"%string -> s1.1.2 !! k = None \/ seen s.1.1 a)) as (E1 & Hs1 & Ha).
    { destruct (same_str (ack_State a) "active") eqn:Hact; cbn [negb] in Hone;
        [|unfold ret in Hone; simplify_eq; split_and!; try done; unfold same_str in Hact; by apply bool_decide_eq_false in Hact].
      apply bind_ok_inv in Hone as (s2 & deleted & Hw & Hone). apply quiet_run in Hw; [|intros; apply quiet_verify_workload].
      destruct deleted.
      - unfold set_store, modify in Hone. simplify_eq. simpl. rewrite Hw. split_and!; try done.
        + intros k' [x Hx]. apply lookup_delete_Some in Hx as [_ Hx]. by eexists.
        + left. by rewrite lookup_delete_eq.
      - apply verifyResources_ok in Hone as (E & w' & Ho). rewrite Hw in *. rewrite E. split_and!; try done. right. by exists s2.2, w'. }
    split_and!; [congruence|by intros; apply Hs1, Hst|]. intros k' a' [[= -> ->]|Hin]%elem_of_cons.
    + split_and!; try done. intros Hact. destruct (Ha Hact) as [Hn|?]; [left|by right].
      destruct (s'.1.2 !! k) eqn:Ek; [|done]. destruct (Hst k) as [x Hx]; [by eexists|]. congruence.
    + unfold seen in *. rewrite <-E1. by apply Hl.
Qed.

(** The check of the endpoints only reads the outside world. *)
Lemma validateContinuity_frame P {PF : PosixFrame P} s s' r :
  reads_only P s.1.1 -> P s.2 -> validateContinuity network s = (s', r) -> P s'.2.
Proof.
  intros HR Hp H. unfold validateContinuity in H. apply bind_inv in H as [(s1 & [] & Hr & H)|(e & Hr & _)];
    pose proof (ready_frame P _ _ _ Hp Hr) as Hp1; [|done].
  apply ready_run in Hr as (_ & _ & _ & Hr). destruct (Hr eq_refl) as [_ E1].
  assert (preserves (fun s : cst * W => s.1.1 = s1.1.1 /\ P s.2) (let! c := get_c in mfold (validate_one network) tt (range (acks c)))) as HF.
  { rewrite <-E1 in HR. apply F_get_c, preserves_mfold. intros [] [k a].
    assert (preserves (fun s : cst * W => s.1.1 = s1.1.1 /\ P s.2) (verify_workload a)).
    { unfold verify_workload. apply F_get_c, F_on_snd, HR. }
    pose proof (F_verifyResources P _ HR a). pose proof (F_set_store P s1.1.1 (delete k)).
    unfold validate_one. pres; auto. }
  apply (preserves_run _ _ s1 s' r HF); [done|exact H].
Qed.

(** An endpoint that may be exported: an ACK of an active endpoint that is in the store has
    its identity and addresses. *)
Definition exportable (st : Store) (ep : LocalEndpoint) key a : Prop :=
  ack_State a = "active"%string /\ is_Some (st !! key) /\ NetworkID ep = sp_NetworkID (ack_Spec a) /\
  (EndpointID ep = sp_ID (ack_Spec a) /\ Incarnation ep = sp_Incarnation (ack_Spec a) \/
   EndpointID ep = ("ovn-netlink/" +:+ rc_LSPUUID (ack_Receipt a))%string) /\
  EqualFold (MACAddress ep) (sp_MACAddress (ack_Spec a)) = true /\
  if MACOnly ep then IPAddresses ep = [] else same_ips (IPAddresses ep) (sp_IPAddresses (ack_Spec a)) = true.

Lemma export_match_sound st ep key a : export_match st ep (key, a) = Ok true -> exportable st ep key a.
Proof.
  unfold export_match, exportable, same_str. intros H.
  destruct (_ || _) eqn:E1 in H; [done|]. bools. destruct (_ && _) eqn:E2 in H; [done|].
  destruct (negb _) eqn:E3 in H; [done|]. bools. destruct (_ && negb _) eqn:E4 in H; [done|].
  destruct (EqualFold _ _); [|done]. cbn [negb] in H. split_and!; try done.
  - apply andb_false_iff in E2 as [E2|E2]; bools; [|by right]. left. split; [done|].
    rewrite bool_decide_eq_true_2 in E4 by done. cbn [andb] in E4. by bools.
  - destruct (MACOnly ep).
    + destruct (negb _) eqn:E5 in H; [done|]. bools. by apply length_zero_iff_nil.
    + by destruct (same_ips _ _).
Qed.

Lemma export_find_sound st ep l : export_find st ep l = Ok true -> exists key a, (key, a) ∈ l /\ exportable st ep key a.
Proof.
  induction l as [|[key a] l IH]; cbn [export_find]; [done|].
  unfold rbind. destruct (export_match st ep (key, a)) as [[]|] eqn:E; [..|done].
  - intros _. exists key, a. split; [left|by apply export_match_sound].
  - intros (k & b & ? & ?)%IH. exists k, b. split; [by right|done].
Qed.

(** Only acknowledged endpoints are exported.  When the gate accepts a list of
    endpoints, no endpoint of the agent is pending or quarantined, and each one in the list
    has the identity, MAC and addresses of an acknowledged active endpoint whose Pod still
    exists and whose resources were observed, in this very check, with the recorded
    identifiers. *)
Theorem export_gate_sound eps s s' :
  validateRecoveredExportEndpoints network eps s = (s', Ok tt) ->
  (forall key a, acks s.1.1 !! key = Some a -> ack_State a <> "pending_creation"%string /\ ack_State a <> "quarantined"%string) /\
  forall ep, ep ∈ eps -> exists key a, acks s.1.1 !! key = Some a /\ exportable s'.1.2 ep key a /\ seen s.1.1 a.
Proof.
  intros H. unfold validateRecoveredExportEndpoints in H. apply bind_ok_inv in H as (s1 & [] & Hv & H).
  unfold validateContinuity in Hv. apply bind_ok_inv in Hv as (s0 & [] & Hr & Hv). apply ready_run in Hr as (_ & _ & _ & Hr).
  destruct (Hr eq_refl) as [_ E0]. unfold get_c in Hv, H. rewrite bind_gets, E0 in Hv. apply validate_loop in Hv as (E1 & _ & Hl).
  rewrite bind_gets in H. unfold lift, bind, gets in H. injection H as <- H. rewrite E0 in *. rewrite E1 in H. split.
  - intros key a Hk. destruct (Hl key a) as (? & ? & _); [by apply range_lookup|done].
  - revert H.
    apply (rfold_invariant _ (fun l _ => forall ep, ep ∈ l -> exists key a, acks s.1.1 !! key = Some a /\ exportable s1.1.2 ep key a /\ seen s.1.1 a));
      [by intros ? ?%elem_of_nil|].
    intros done0 ep0 [] [] _ Hdone Hone ep1 [Hd|Hd]%elem_of_app; [by apply Hdone|].
    apply list_elem_of_singleton in Hd as ->.
    unfold export_one, rbind in Hone. destruct (export_find _ _ _) as [[]|] eqn:Ef; [|done..].
    apply export_find_sound in Ef as (key & a & Hk & Hex). exists key, a. split_and!; [by apply range_lookup|done|].
    destruct (Hl key a Hk) as (_ & _ & Hs). destruct Hex as (Hact & [x Hx] & _). destruct (Hs Hact); [congruence|done].
Qed.
Lemma export_gate_frame P {PF : PosixFrame P} eps s s' r :
  reads_only P s.1.1 -> P s.2 -> validateRecoveredExportEndpoints network eps s = (s', r) -> P s'.2.
Proof.
  intros HR Hp H. unfold validateRecoveredExportEndpoints in H.
  apply bind_inv in H as [(s1 & [] & Hv & H)|(e & Hv & ->)]; apply (validateContinuity_frame P) in Hv; try done.
  unfold lift, bind, gets, get_c in H. by injection H as <- _.
Qed.
End effect.
