(* ===== verification/CniNode.v ===== *)
(** * The node agent's CNI service

    Models the entry points of [CNIServer] ([src/pkg/nodeagent/server.go],
    [cni_activation.go], [cni_continuity_export.go]), which choose between the plain and
    the durable operations and refuse everything once the server is drained, and the
    exporter's guarded view of them ([export_continuity.go]).  The mutex [operations] is
    held by each of them from its first to its last line, so each is one step. *)

From S2P Require Import Prelude GoStd Journal Type2 Reconciler Attachment Endpoint CniTypes CniServer CniContinuity.
From S2P Require Import CniContinuitySafety CniContinuityEffect.

(** [CNIServer], less its backends *)
Record CNIServer (W : Type) := { sv_stopping : bool; sv_continuity : option (cniContinuity W); sv_store : Store }.
Arguments sv_stopping {W} _.
Arguments sv_continuity {W} _.
Arguments sv_store {W} _.

Section node.
Context {W : Type} {PX : Posix W} {SH : Sha256} {JR : Json record} {JE : Json envelope} {UL : UuidLib} {BT : BgpTypes}.
Context {JA : Json cniEndpointACK} {JT : Json cniACKState} {MR : MapRange} {CL : Clock W}.
Context (endpoint : EndpointManager W) (network : networkBackend W).
Context (attachmentChecker : option (EndpointSpec -> M W unit)).
Notation cst := (cniContinuity W * Store)%type.
Notation CM := (M (cst * W)).
Notation NM := (M (CNIServer W * W)).

(** Run an operation of the durable server, whose continuity is [c]. *)
Definition durable {A} (c : cniContinuity W) (m : CM A) : NM A :=
  fun s => let '(((c', st), w), r) := m ((c, sv_store s.1), s.2) in
           (({| sv_stopping := sv_stopping s.1; sv_continuity := Some c'; sv_store := st |}, w), r).
(** Run an operation of the server without continuity. *)
Definition plain {A} (m : M (Store * W) A) : NM A :=
  fun s => let '((st, w), r) := m (sv_store s.1, s.2) in
           (({| sv_stopping := sv_stopping s.1; sv_continuity := sv_continuity s.1; sv_store := st |}, w), r).
Definition get_server : NM (CNIServer W) := gets fst.
Definition drained : error := status Unavailable "CNI operations drained".

(** [CNIServer.Add] *)
Definition server_Add (req : option CNIAddRequest) : NM CNIAddResponse :=
  let! sv := get_server in
  if sv_stopping sv then fail drained else
  match sv_continuity sv with
  | Some c => durable c (continuity_add endpoint network req)
  | None => plain (Add endpoint network req)
  end.

(** [CNIServer.Del] *)
Definition server_Del (req : option CNIDelRequest) : NM CNIDelResponse :=
  let! sv := get_server in
  if sv_stopping sv then fail drained else
  match sv_continuity sv with
  | Some c => durable c (continuity_del network req)
  | None => plain (Del endpoint network attachmentChecker req)
  end.

(** [CNIServer.Check] *)
Definition server_Check (req : option CNICheckRequest) : NM CNICheckResponse :=
  let! sv := get_server in
  if sv_stopping sv then fail drained else
  do! match sv_continuity sv with
      | Some c => wrap (status_of FailedPrecondition "") (durable c (continuity_check network req))
      | None => ret tt
      end in
  plain (Check endpoint network attachmentChecker req).

(** [CNIServer.recoverCNI] with a complete continuity *)
Definition server_recoverCNI (c : cniContinuity W) : NM unit :=
  let! sv := get_server in
  if bool_decide (is_Some (sv_continuity sv)) then fail (ErrBlocked "incomplete/already enabled CNI continuity") else
  fun s => let '(((c', st), w), r) := recoverCNI network ((c, sv_store s.1), s.2) in
           (({| sv_stopping := sv_stopping s.1; sv_continuity := if is_ok r then Some c' else None; sv_store := st |}, w), r).

(** [CNIServer.verifyPendingCNI] *)
Definition server_verifyPending : NM unit :=
  let! sv := get_server in
  if sv_stopping sv then ret tt else
  match sv_continuity sv with
  | None => ret tt
  | Some c => durable c (verifyPendingCNI network)
  end.

(** [CNIServer.ValidateContinuity] *)
Definition server_ValidateContinuity : NM unit :=
  let! sv := get_server in
  match sv_continuity sv with
  | None => ret tt
  | Some c => durable c (validateContinuity network)
  end.

(** [CNIServer.ValidateRecoveredExportEndpoints] *)
Definition server_ValidateExport (endpoints : list LocalEndpoint) : NM unit :=
  let! sv := get_server in
  if sv_stopping sv then fail (Errorf "CNI operations drained") else
  match sv_continuity sv with
  | None => ret tt
  | Some c => durable c (validateRecoveredExportEndpoints network endpoints)
  end.

(** The [drain] of [StartUnixServer] *)
Definition drain : NM unit :=
  modify (fun s => ({| sv_stopping := true; sv_continuity := sv_continuity s.1; sv_store := sv_store s.1 |}, s.2)).

(** [continuityExportObserver.DesiredLocalEndpoints]; [source] is the observer it guards. *)
Definition guarded_endpoints (source : M W (list LocalEndpoint)) : NM (list LocalEndpoint) :=
  let! sv := get_server in
  match sv_continuity sv with
  | None => fail (ErrBlocked "durable CNI continuity is required for recovered exports")
  | Some _ =>
      let! endpoints := on_snd source in
      do! server_ValidateExport endpoints in
      ret endpoints
  end.

(** [continuityRouteApplier.Add] and [Delete] *)
Definition guarded_add (applier : Type2RouteApplier W) (route : Type2Route) : NM string :=
  let! sv := get_server in
  match sv_continuity sv with
  | None => fail (ErrBlocked "CNI continuity unavailable")
  | Some _ =>
      do! server_ValidateExport [t_Endpoint route] in
      on_snd (applier_Add applier route)
  end.
Definition guarded_delete (applier : Type2RouteApplier W) (route : OwnedType2Route) : NM unit := on_snd (applier_Delete applier route).

(** ** What the server promises *)

(** Everything that happens to a server: its requests, its background verification, the
    exporter, the drain, the close of its journal and the rest of the world. *)
Inductive server_step : CNIServer W * W -> CNIServer W * W -> Prop :=
  | ss_add req s s' r : server_Add req s = (s', r) -> server_step s s'
  | ss_del req s s' r : server_Del req s = (s', r) -> server_step s s'
  | ss_check req s s' r : server_Check req s = (s', r) -> server_step s s'
  | ss_recover c s s' r : server_recoverCNI c s = (s', r) -> server_step s s'
  | ss_verify s s' r : server_verifyPending s = (s', r) -> server_step s s'
  | ss_validate s s' r : server_ValidateContinuity s = (s', r) -> server_step s s'
  | ss_export eps s s' r : server_ValidateExport eps s = (s', r) -> server_step s s'
  | ss_endpoints source s s' r : guarded_endpoints source s = (s', r) -> server_step s s'
  | ss_advertise applier route s s' r : guarded_add applier route s = (s', r) -> server_step s s'
  | ss_withdraw applier route s s' r : guarded_delete applier route s = (s', r) -> server_step s s'
  | ss_drain s s' r : drain s = (s', r) -> server_step s s'
  | ss_world (sv : CNIServer W) w w' : server_step (sv, w) (sv, w').

Notation cstep := (cstep endpoint network).
(** The server [s] is the durable server [x]. *)
Definition shows (s : CNIServer W * W) (x : cst * W) : Prop :=
  sv_continuity s.1 = Some x.1.1 /\ sv_store s.1 = x.1.2 /\ s.2 = x.2.
(** A call that is a history of the durable server, where the server has one. *)
Definition simulates (s s' : CNIServer W * W) : Prop := forall x, shows s x -> exists x', shows s' x' /\ rtc cstep x x'.

Lemma simulates_refl s : simulates s s.
Proof. intros x Hx. by exists x. Qed.
Lemma simulates_trans s1 s2 s3 : simulates s1 s2 -> simulates s2 s3 -> simulates s1 s3.
Proof. intros H1 H2 x (x1 & Hx1 & R1)%H1. apply H2 in Hx1 as (x2 & Hx2 & R2). exists x2. split; [done|by etrans]. Qed.
Lemma simulates_world s s' : s'.1 = s.1 -> simulates s s'.
Proof.
  destruct s as [sv w], s' as [sv' w']. simpl. intros -> [[c st] w0] (Hc & Hs & Hw). simpl in *. subst.
  exists ((c, sv_store sv), w'). split; [done|]. apply rtc_once, cs_world.
Qed.
Lemma simulates_durable {A} c (m : CM A) s s' r :
  sv_continuity s.1 = Some c -> durable c m s = (s', r) -> (forall x x' r, m x = (x', r) -> cstep x x') -> simulates s s'.
Proof.
  intros Hc H Hm [[c0 st] w0] (Hc0 & Hs & Hw). simpl in *. rewrite Hc in Hc0. simplify_eq. unfold durable in H.
  destruct (m _) as [[[c' st'] w'] r'] eqn:E. simplify_eq. exists ((c', st'), w'). split; [done|]. by eapply rtc_once, Hm.
Qed.
Lemma simulates_on_snd {A} (m : M W A) s s' r : on_snd m s = (s', r) -> simulates s s'.
Proof. intros [E _]%on_snd_inv. by apply simulates_world. Qed.
Lemma Check_quiet req (st : Store) : preserves (fun s : Store * W => s.1 = st) (Check endpoint network attachmentChecker req).
Proof.
  assert (forall A (m : M W A), preserves (fun s : Store * W => s.1 = st) (on_snd m)) as Ho.
  { intros A m s Hs. destruct (on_snd m s) as [s' r] eqn:E. apply on_snd_inv in E as [E _]. simpl. congruence. }
  unfold Check. pres.
Qed.
Lemma get_server_inv {A} (k : CNIServer W -> NM A) s s' r : bind get_server k s = (s', r) -> k s.1 s = (s', r).
Proof. done. Qed.

(** The shape of the entry points: the drain, the durable operation, the plain one. *)
Lemma simulates_entry {A} (off without : NM A) (m : CM A) s s' r :
  (if sv_stopping s.1 then off else match sv_continuity s.1 with Some c => durable c m | None => without end) s = (s', r) ->
  (sv_stopping s.1 = true -> s' = s) -> (forall x x' r, m x = (x', r) -> cstep x x') -> simulates s s'.
Proof.
  intros H Hoff Hm. destruct (sv_stopping s.1) eqn:Hs; [rewrite Hoff by done; apply simulates_refl|].
  destruct (sv_continuity s.1) as [c|] eqn:Hc; [by eapply simulates_durable|]. intros x [Hx _]. congruence.
Qed.
Lemma simulates_ValidateExport eps s s' r : server_ValidateExport eps s = (s', r) -> simulates s s'.
Proof.
  intros H%get_server_inv. eapply simulates_entry; [exact H| |intros; by eapply cs_export].
  intros Hs. rewrite Hs in H. by injection H.
Qed.
Lemma simulates_Check req s s' r : server_Check req s = (s', r) -> simulates s s'.
Proof.
  intros H%get_server_inv. destruct (sv_stopping s.1); [injection H as <- <-; apply simulates_refl|].
  destruct (sv_continuity s.1) as [c|] eqn:Hc; [|intros x [Hx _]; congruence].
  assert (forall r0 s0, wrap (status_of FailedPrecondition "") (durable c (continuity_check network req)) s = (s0, r0) -> simulates s s0) as Hd.
  { intros r0 s0 (r1 & Hw & _)%wrap_inv. eapply simulates_durable; [done..|]. intros. by eapply cs_check. }
  apply bind_inv in H as [(s3 & [] & Hw & H)|(e & Hw & ->)]; [|by eapply Hd].
  apply Hd in Hw. eapply simulates_trans; [done|]. apply simulates_world. unfold plain in H.
  destruct (Check _ _ _ _ _) as [[st w] r'] eqn:E. apply (preserves_run _ _ _ _ _ (Check_quiet req (sv_store s3.1))) in E; [|done].
  simpl in E. simplify_eq. by destruct s3 as [[] ?].
Qed.

Lemma server_step_simulates s s' : server_step s s' -> simulates s s'.
Proof.
  intros [req s1 s2 r H|req s1 s2 r H|req s1 s2 r H|c s1 s2 r H|s1 s2 r H|s1 s2 r H|eps s1 s2 r H|source s1 s2 r H|ap route s1 s2 r H
         |ap route s1 s2 r H|s1 s2 r H|sv w w'].
  - apply get_server_inv in H. eapply simulates_entry; [exact H| |intros; by eapply cs_add]. intros Hs. rewrite Hs in H. by injection H.
  - apply get_server_inv in H. eapply simulates_entry; [exact H| |intros; by eapply cs_del]. intros Hs. rewrite Hs in H. by injection H.
  - by eapply simulates_Check.
  - apply get_server_inv in H. destruct (sv_continuity s1.1) as [c0|] eqn:Hc; [|intros x [Hx _]; congruence].
    injection H as <- <-. apply simulates_refl.
  - apply get_server_inv in H. eapply simulates_entry; [exact H| |intros; by eapply cs_verify]. intros Hs. rewrite Hs in H. by injection H.
  - apply get_server_inv in H. destruct (sv_continuity s1.1) as [c|] eqn:Hc; [|intros x [Hx _]; congruence].
    eapply simulates_durable; [done..|]. intros. by eapply cs_validate.
  - by eapply (simulates_ValidateExport eps).
  - apply get_server_inv in H. destruct (sv_continuity s1.1) as [c|] eqn:Hc; [|intros x [Hx _]; congruence].
    apply bind_inv in H as [(s3 & eps & Hw%simulates_on_snd & H)|(e & Hw & ->)]; [|by eapply simulates_on_snd].
    eapply simulates_trans; [done|]. apply bind_inv in H as [(s4 & [] & Hv & H)|(e & Hv & ->)]; [unfold ret in H; simplify_eq|];
      by eapply simulates_ValidateExport.
  - apply get_server_inv in H. destruct (sv_continuity s1.1) as [c|] eqn:Hc; [|intros x [Hx _]; congruence].
    apply bind_inv in H as [(s3 & [] & Hw%simulates_ValidateExport & H)|(e & Hw & ->)]; [|by eapply simulates_ValidateExport].
    eapply simulates_trans; [done|]. by eapply simulates_on_snd.
  - by eapply simulates_on_snd.
  - unfold drain, modify in H. simplify_eq. intros x Hx. by exists x.
  - by apply simulates_world.
Qed.
Lemma server_steps_simulate s s' : rtc server_step s s' -> simulates s s'.
Proof. induction 1; [apply simulates_refl|]. eapply simulates_trans; [by apply server_step_simulates|done]. Qed.

(** C5: the server never leaves its durable mode.  Once [recoverCNI] succeeded, everything
    that the whole server does, its requests, its background verification and its part in
    the export, is a history of the durable continuity that was recovered: no request
    reaches the operations without a journal, and every theorem on the histories of the
    continuity is one on the server. *)
Theorem durable_server_refines c s0 s s' :
  server_recoverCNI c s0 = (s, Ok tt) -> rtc server_step s s' ->
  exists x x', recoverCNI network ((c, sv_store s0.1), s0.2) = (x, Ok tt) /\ shows s x /\ shows s' x' /\ rtc cstep x x'.
Proof.
  intros H%get_server_inv Hs. case_bool_decide; [done|]. destruct (recoverCNI _ _) as [[[c' st] w] r] eqn:E. injection H as <- ->.
  exists ((c', st), w). apply server_steps_simulate in Hs. destruct (Hs ((c', st), w)) as (x' & Hx & Hr); [done|]. by exists x'.
Qed.

(** A server that will not change its endpoints any more. *)
Definition retired (c : cniContinuity W) (st : Store) (s : CNIServer W * W) : Prop :=
  sv_stopping s.1 = true /\ (exists c', sv_continuity s.1 = Some c' /\ crec c' = crec c /\ cc_state c' = cc_state c) /\ sv_store s.1 ⊆ st.

Lemma validateContinuity_keeps (r0 : record) (s0 : cniACKState) (st : Store) :
  preserves (fun x : cst * W => (crec x.1.1 = r0 /\ cc_state x.1.1 = s0) /\ x.1.2 ⊆ st) (validateContinuity network).
Proof.
  assert (forall A (m : CM A), (forall y, preserves (fun x : cst * W => x.1 = y) m) ->
    preserves (fun x : cst * W => (crec x.1.1 = r0 /\ cc_state x.1.1 = s0) /\ x.1.2 ⊆ st) m) as Hq.
  { intros A m Hm x Hx. specialize (Hm x.1 x eq_refl). simpl in Hm. by rewrite Hm. }
  unfold validateContinuity. apply preserves_bind.
  { intros x Hx. destruct (ready x) as [x' r] eqn:E. apply ready_run in E as (E1 & E2 & E3 & _). simpl. by rewrite E1, E2, E3. }
  intros []. apply preserves_bind; [by intros ?|]. intros c. apply preserves_mfold. intros [] [k a]. unfold validate_one.
  destruct (_ || _); [pres|]. destruct (negb _); [pres|]. apply preserves_bind; [apply Hq; intros y; apply quiet_verify_workload|]. intros [].
  - intros x [? ?]. split; [done|]. simpl. etrans; [apply delete_subseteq|done].
  - apply Hq. intros y. apply quiet_verifyResources.
Qed.

Lemma retired_refused {A} c st (m : CNIServer W -> NM A) (off : error) s s' r :
  retired c st s -> bind get_server (fun sv => if sv_stopping sv then fail off else m sv) s = (s', r) -> s' = s.
Proof. intros (Hs & _) H%get_server_inv. rewrite Hs in H. by injection H. Qed.

Lemma server_step_retired c st s s' : server_step s s' -> retired c st s -> retired c st s'.
Proof.
  intros H Hret. pose proof Hret as (Hs & (c0 & Hc & Hcrec & Hstate) & Hst). revert Hret.
  destruct H as [req s1 s2 r H|req s1 s2 r H|req s1 s2 r H|c1 s1 s2 r H|s1 s2 r H|s1 s2 r H|eps s1 s2 r H|source s1 s2 r H|ap route s1 s2 r H
         |ap route s1 s2 r H|s1 s2 r H|sv w w']; intros Hret; try (eapply retired_refused in H; [by subst|done]); try apply get_server_inv in H.
  - rewrite Hc in H. simpl in H. unfold fail in H. by simplify_eq.
  - rewrite Hs in H. unfold ret in H. by simplify_eq.
  - rewrite Hc in H. unfold durable in H. destruct (validateContinuity _ _) as [[[c' st'] w'] r'] eqn:E. simplify_eq.
    apply (preserves_run _ _ _ _ _ (validateContinuity_keeps (crec c) (cc_state c) st)) in E as [[? ?] ?]; [|done]. simpl in *.
    split_and!; simpl; eauto.
  - rewrite Hc in H. apply bind_inv in H as [(s3 & eps & [E _]%on_snd_inv & H)|(e & [E _]%on_snd_inv & ->)]; [|by unfold retired; rewrite E].
    assert (retired c st s3) as Hret3 by (by unfold retired; rewrite E).
    apply bind_inv in H as [(s4 & [] & Hv & H)|(e & Hv & ->)]; (eapply retired_refused in Hv; [|done]); subst; [|done]. unfold ret in H. by simplify_eq.
  - rewrite Hc in H. apply bind_inv in H as [(s3 & [] & Hv & H)|(e & Hv & ->)]; (eapply retired_refused in Hv as E; [|done]); subst; [|done].
    apply get_server_inv in Hv. by rewrite Hs in Hv.
  - apply on_snd_inv in H as [E _]. unfold retired. by rewrite E.
  - unfold drain, modify in H. simplify_eq. split_and!; simpl; eauto.
  - done.
Qed.

(** A drained server is retired.  After the drain, whatever requests still arrive and
    whatever runs in the background, the server stays drained, its journal and its
    acknowledgements do not change and no endpoint enters its store: the next process
    finds exactly the state of the drain. *)
Theorem drained_server_retired c s s' :
  sv_stopping s.1 = true -> sv_continuity s.1 = Some c -> rtc server_step s s' -> retired c (sv_store s.1) s'.
Proof.
  intros Hs Hc Hr. assert (retired c (sv_store s.1) s) as Hret by (split_and!; eauto).
  clear Hs Hc. revert Hret. generalize (sv_store s.1) as st. induction Hr; eauto using server_step_retired.
Qed.

(** C8: only acknowledged endpoints are advertised.  The guarded applier hands a route to
    the speaker only if the endpoint of the route is one of an acknowledged active endpoint
    of this agent, whose resources were just observed with the recorded identifiers, while
    no other operation of the agent runs in between; otherwise nothing that [P] sees
    happened. *)
Theorem advertise_acknowledged P {PF : PosixFrame P} applier route c s s' r :
  sv_continuity s.1 = Some c -> reads_only network P c -> P s.2 -> guarded_add applier route s = (s', r) ->
  (is_ok r = false /\ P s'.2) \/
  exists key a w1, sv_stopping s.1 = false /\ acks c !! key = Some a /\ exportable (sv_store s'.1) (t_Endpoint route) key a /\ seen c a /\ P w1 /\
    applier_Add applier route w1 = (s'.2, r).
Proof.
  intros Hc HR HP H%get_server_inv. rewrite Hc in H. assert (forall s1 r1, server_ValidateExport [t_Endpoint route] s = (s1, r1) ->
    P s1.2 /\ (r1 = Ok tt -> exists key a, sv_stopping s.1 = false /\ acks c !! key = Some a /\
      exportable (sv_store s1.1) (t_Endpoint route) key a /\ seen c a)) as Hgate.
  { intros s1 r1 Hv%get_server_inv. destruct (sv_stopping s.1); [unfold fail in Hv; by simplify_eq|]. rewrite Hc in Hv. unfold durable in Hv.
    destruct (validateRecoveredExportEndpoints _ _ _) as [[[c' st] w] r'] eqn:E. simplify_eq. simpl. split.
    - by apply (export_gate_frame network P) in E.
    - intros ->. apply export_gate_sound in E as [_ E]. destruct (E (t_Endpoint route)) as (key & a & ? & ? & ?); [left|]. eauto 10. }
  apply bind_inv in H as [(s1 & [] & Hv & H)|(e & Hv & ->)]; apply Hgate in Hv as [HP1 Hok]; [right|by left].
  destruct (Hok eq_refl) as (key & a & ? & ? & ? & ?). apply on_snd_inv in H as [E H]. exists key, a, s1.2. rewrite E. by split_and!.
Qed.
End node.
