(* ===== verification/VethBackend.v ===== *)
(** * The Linux attachment of a pod

    Models [linuxVethBackend] of [src/pkg/nodeagent/network_backend.go]: the veth pair
    between the node and the network namespace of a pod, with its ownership in the interface
    alias.  Netlink and network namespaces are parameters. *)

From S2P Require Import Prelude GoStd Journal Type2 Attachment Endpoint CniTypes CniServer CniContinuity.

(** ** The kernel *)

(** [netlink.Link] and the attributes that are read. *)
Record LinkAttrs := { la_Name : string; la_Alias : string; la_Index : Z; la_ParentIndex : Z; la_Up : bool; la_HardwareAddr : list Z }.
Record Link := { lk_Type : string; lk_Attrs : option LinkAttrs }.
(** Netlink and namespaces: [W] holds the namespace of the thread.  [LinkByName] answers
    [None] for a [LinkNotFoundError]; an address list has the text of each [IPNet]. *)
Class VethKernel (W : Type) := {
  NetNS : Type; NlAddr : Type;
  LinkByName : string -> M W (option Link);
  LinkAddVeth : LinkAttrs -> string -> M W unit;
  LinkDel : Link -> M W unit;
  LinkSetAlias : Link -> string -> M W unit;
  LinkSetUp : Link -> M W unit;
  LinkSetName : Link -> string -> M W unit;
  LinkSetHardwareAddr : Link -> list Z -> M W unit;
  LinkSetNsFd : Link -> NetNS -> M W unit;
  nl_ParseAddr : string -> result NlAddr;
  AddrAdd : Link -> NlAddr -> M W unit;
  AddrList : Link -> M W (list (option string));
  netns_Get : M W NetNS;
  netns_GetFromPath : string -> M W NetNS;
  netns_Set : NetNS -> M W unit;
}.

Definition owned_by (alias : string) (link : Link) : bool :=
  match lk_Attrs link with Some a => bool_decide (la_Alias a = alias) | None => false end.
Definition up_veth (link : Link) : bool :=
  bool_decide (lk_Type link = "veth"%string) && match lk_Attrs link with Some a => la_Up a | None => false end.

Section veth.
Context {W : Type} {VK : VethKernel W}.
Notation records := (gmap string networkState).
Notation BM := (M (records * W)).
Notation kernel := (on_snd (T := records)).

(** [LinkByName] where a missing link is an error like any other. *)
Definition link_named (name : string) : M W Link :=
  let! o := LinkByName name in match o with Some l => ret l | None => fail (Errorf "Link not found") end.

(** [withNetNSPath] *)
Definition withNetNSPath {A} (path : string) (fn : M W A) : M W A :=
  let! orig := wrap (Wrapped "get current netns") netns_Get in
  let! target := wrap (Wrapped "open target netns") (netns_GetFromPath path) in
  do! wrap (Wrapped "switch to netns") (netns_Set target) in
  let! r := attempt fn in
  do! ignore (netns_Set orig) in
  lift r.

(** What [Check] looks for, when the backend has no record. *)
Definition inferred (key : string) (rec : endpointRecord) : result networkState :=
  match rec_runtime rec, rec_attachment rec with
  | Some _, Some _ =>
      if blank (GetIfName (rec_runtime rec)) then Err errAttachmentNotFound else
      Ok {| ns_HostIfName := hostVethNameForKey key; ns_ContainerIfName := TrimSpace (GetIfName (rec_runtime rec));
            ns_MACAddress := TrimSpace (GetStaticMac (rec_attachment rec)); ns_StaticIPCIDR := TrimSpace (GetStaticIpCidr (rec_attachment rec)) |}
  | _, _ => Err errAttachmentNotFound
  end.
Definition peers (host link : Link) : bool :=
  match lk_Attrs host, lk_Attrs link with
  | Some h, Some l => (la_ParentIndex h =? la_Index l) && (la_ParentIndex l =? la_Index h)
  | _, _ => false
  end.
Definition has_mac (mac : string) (link : Link) : bool :=
  match lk_Attrs link with Some a => EqualFold (HardwareAddr_String (la_HardwareAddr a)) mac | None => false end.
(** The container side, seen from its namespace. *)
Definition check_container (owner : string) (state : networkState) (host : Link) : M W unit :=
  let! link := wrap (Wrapped "container interface not found") (link_named (ns_ContainerIfName state)) in
  if negb (owned_by owner link) then fail (Errorf "container interface ownership mismatch")
  else if negb (up_veth link) then fail (Errorf "container interface is not an up veth")
  else if negb (peers host link) then fail (Errorf "veth peer mismatch")
  else if negb (blank (ns_MACAddress state)) && negb (has_mac (ns_MACAddress state) link) then fail (Errorf "container mac mismatch")
  else if blank (ns_StaticIPCIDR state) then ret tt else
  let! addresses := wrap (Wrapped "list addrs") (AddrList link) in
  if bool_decide (Some (ns_StaticIPCIDR state) ∈ addresses) then ret tt else fail (Errorf "container ip missing").
(** [Check] *)
Definition veth_Check (key : string) (rec : endpointRecord) : BM networkState :=
  let! known := gets (fun s => s.1 !! key) in
  let! state := lift (match known with Some st => Ok st | None => inferred key rec end) in
  let! host := wrap (Wrapped "host interface not found") (kernel (link_named (ns_HostIfName state))) in
  if negb (owned_by (ownerAliasForKey key) host) then fail (Errorf "host interface ownership mismatch")
  else if negb (up_veth host) then fail (Errorf "host interface is not an up veth") else
  let netnsPath := TrimSpace (GetNetnsPath (rec_runtime rec)) in
  if bool_decide (netnsPath = ""%string) then fail (Errorf "runtime.netns_path is required for check") else
  do! kernel (withNetNSPath netnsPath (check_container (ownerAliasForKey key) state host)) in
  do! modify (fun s => (<[key := state]> s.1, s.2)) in
  ret state.

(** What [Ensure] makes of a valid request: the namespace, the interface, the address. *)
Record veth_plan := { vp_NetnsPath : string; vp_HostIfName : string; vp_PeerIfName : string; vp_ContainerIfName : string; vp_MAC : string; vp_IPCIDR : string; vp_Owner : string }.
Definition plan_state (p : veth_plan) : networkState :=
  {| ns_HostIfName := vp_HostIfName p; ns_ContainerIfName := vp_ContainerIfName p; ns_MACAddress := vp_MAC p; ns_StaticIPCIDR := vp_IPCIDR p |}.
Definition peer_name (key : string) : string :=
  let peer := peerVethNameForKey key in
  if bool_decide (hostVethNameForKey key = peer) then str (take ifNameMaxLen (chars (peer +:+ "p"))) else peer.
Definition veth_request (key : string) (rec : endpointRecord) : result veth_plan :=
  let netnsPath := TrimSpace (GetNetnsPath (rec_runtime rec)) in
  let containerIfName := TrimSpace (GetIfName (rec_runtime rec)) in
  let mac := TrimSpace (GetStaticMac (rec_attachment rec)) in
  let ipCIDR := TrimSpace (GetStaticIpCidr (rec_attachment rec)) in
  if bool_decide (netnsPath = ""%string) then Err (Errorf "runtime.netns_path is required for linux backend")
  else if bool_decide (containerIfName = ""%string) then Err (Errorf "runtime.if_name is required for linux backend")
  else if bool_decide (mac = ""%string) then Err (Errorf "attachment.static_mac is required for linux backend")
  else if bool_decide (ipCIDR = ""%string) then Err (Errorf "attachment.static_ip_cidr is required for linux backend")
  else if bool_decide (ParseCIDR ipCIDR = None) then Err (Errorf "attachment.static_ip_cidr invalid")
  else if bool_decide (ParseMAC mac = None) then Err (Errorf "attachment.static_mac invalid")
  else Ok {| vp_NetnsPath := netnsPath; vp_HostIfName := hostVethNameForKey key; vp_PeerIfName := peer_name key; vp_ContainerIfName := containerIfName;
             vp_MAC := mac; vp_IPCIDR := ipCIDR; vp_Owner := ownerAliasForKey key |}.

(** [cleanup], once the pair was created. *)
Definition cleanup (p : veth_plan) : M W unit :=
  let! found := attempt (LinkByName (vp_HostIfName p)) in
  match found with Ok (Some link) => ignore (LinkDel link) | _ => ret tt end.
(** The veth object the code keeps: it has no index of its own. *)
Definition veth_attrs (p : veth_plan) : LinkAttrs :=
  {| la_Name := vp_HostIfName p; la_Alias := vp_Owner p; la_Index := 0; la_ParentIndex := 0; la_Up := false; la_HardwareAddr := [] |}.
Definition veth_link (p : veth_plan) : Link := {| lk_Type := "veth"; lk_Attrs := Some (veth_attrs p) |}.
(** The moved peer, in the namespace of the pod. *)
Definition configure_peer (p : veth_plan) : M W unit :=
  let! link := wrap (Wrapped "find moved peer") (link_named (vp_PeerIfName p)) in
  let! link := (if bool_decide (vp_PeerIfName p = vp_ContainerIfName p) then ret link else
                do! wrap (Wrapped "rename peer") (LinkSetName link (vp_ContainerIfName p)) in
                wrap (Wrapped "find renamed interface") (link_named (vp_ContainerIfName p))) in
  do! ignore (LinkSetAlias link (vp_Owner p)) in
  let! hw := lift (of_option (Errorf "invalid MAC") (ParseMAC (vp_MAC p))) in
  do! wrap (Wrapped "set mac") (LinkSetHardwareAddr link hw) in
  let! addr := lift (map_err (Wrapped "parse static ip") (nl_ParseAddr (vp_IPCIDR p))) in
  let! added := attempt (AddrAdd link addr) in
  do! match added with
      | Err e => if Contains (error_text e) "file exists" then ret tt else fail (Wrapped "set ip" e)
      | Ok _ => ret tt
      end in
  wrap (Wrapped "set container interface up") (LinkSetUp link).
(** Everything after the creation; an error of it triggers the cleanup. *)
Definition wire_up (p : veth_plan) : M W unit :=
  let! host := wrap (Wrapped "find host interface after creation") (link_named (vp_HostIfName p)) in
  do! wrap (Wrapped "set host interface alias") (LinkSetAlias host (vp_Owner p)) in
  do! wrap (Wrapped "set host interface up") (LinkSetUp (veth_link p)) in
  let! peer := wrap (Wrapped "find peer interface") (link_named (vp_PeerIfName p)) in
  do! ignore (LinkSetAlias peer (vp_Owner p)) in
  let! target := wrap (Wrapped "open netns") (netns_GetFromPath (vp_NetnsPath p)) in
  do! wrap (Wrapped "move peer to netns") (LinkSetNsFd peer target) in
  withNetNSPath (vp_NetnsPath p) (configure_peer p).
Definition create_pair (p : veth_plan) : M W unit :=
  do! wrap (Wrapped "create veth pair") (LinkAddVeth (veth_attrs p) (vp_PeerIfName p)) in
  let! r := attempt (wire_up p) in
  match r with Ok _ => ret tt | Err e => do! cleanup p in fail e end.
(** [Ensure] *)
Definition veth_Ensure (key : string) (rec : endpointRecord) : BM (networkState * bool) :=
  let! p := lift (veth_request key rec) in
  let! known := gets (fun s => s.1 !! key) in
  if match known with Some st => negb (bool_decide (st = plan_state p)) | None => false end then fail (Errorf "network attachment conflict") else
  let! host := wrap (Wrapped "find host interface") (kernel (LinkByName (vp_HostIfName p))) in
  match host with
  | Some link =>
      if negb (owned_by (vp_Owner p) link) then fail (Errorf "host interface exists and is not owned by endpoint") else
      let! state := wrap (Wrapped "verify existing network attachment") (veth_Check key rec) in
      ret (state, false)
  | None =>
      do! kernel (create_pair p) in
      do! modify (fun s => (<[key := plan_state p]> s.1, s.2)) in
      ret (plan_state p, true)
  end.

(** [Delete]: a record that is gone with its interface is forgotten. *)
Definition forget (key : string) : BM unit := modify (fun s => (delete key s.1, s.2)).
Definition veth_Delete (key : string) (_ : endpointRecord) : BM unit :=
  let! known := gets (fun s => s.1 !! key) in
  let name := match known with Some st => ns_HostIfName st | None => hostVethNameForKey key end in
  let! link := wrap (Wrapped "observe host interface") (kernel (LinkByName name)) in
  match link with
  | None => forget key
  | Some link =>
      if negb (owned_by (ownerAliasForKey key) link) then fail (Errorf "host interface is not owned by endpoint") else
      do! wrap (Wrapped "delete host interface") (kernel (LinkDel link)) in
      forget key
  end.
(** [DeleteAcknowledged] *)
Definition veth_DeleteAcknowledged (key : string) (rec : endpointRecord) (index : Z) : BM unit :=
  if index <=? 0 then fail (Errorf "missing acknowledged host veth index") else
  let! link := kernel (LinkByName (sp_OVSInterfaceName (rec_endpointSpec rec))) in
  match link with
  | None => ret tt
  | Some link =>
      if negb match lk_Attrs link with Some a => la_Index a =? index | None => false end then fail (Errorf "acknowledged host veth index changed") else
      do! veth_Check key rec in
      do! kernel (LinkDel link) in
      forget key
  end.

(** [linuxVethBackend] as the server sees it. *)
Definition linuxVethBackend : networkBackend (records * W) :=
  {| nb_Ensure := veth_Ensure; nb_Delete := veth_Delete; nb_Check := veth_Check; nb_DeleteAcknowledged := Some veth_DeleteAcknowledged |}.
End veth.
