(* ===== verification/VethSafety.v ===== *)
(** * What the Linux backend does to the node

    A contract of the kernel in four predicates on the world: at home ([P]), at home with
    the new pair of an endpoint ([C]), and visiting the namespace of the pod from each of
    them.  Under it the backend takes the node from [P] to [C] or leaves it in [P], and
    deletes only what it owns.  What a successful check has seen. *)

From S2P Require Import Prelude GoStd Journal Calls Type2 Attachment Endpoint CniTypes CniServer CniContinuity VethBackend.

Section contract.
Context {W : Type} {VK : VethKernel W} (key : string) (rec : endpointRecord).
Notation host := (hostVethNameForKey key).
Notation owner := (ownerAliasForKey key).

(** Looking around changes nothing. *)
Record quiet (I : W -> Prop) : Prop := {
  q_link name : preserves I (LinkByName name); q_get : preserves I netns_Get; q_path path : preserves I (netns_GetFromPath path);
}.
(** Entering the namespace of a path and coming back; the way back does not fail. *)
Record visits (I J : W -> Prop) : Prop := {
  v_enter path ns w w' r : answers I (netns_GetFromPath path) ns -> I w -> netns_Set ns w = (w', r) -> if is_ok r then J w' else I w';
  v_leave ns w w' r : answers I netns_Get ns -> J w -> netns_Set ns w = (w', r) -> I w';
}.
Definition seen (I : W -> Prop) (name : string) (link : Link) : Prop := answers I (LinkByName name) (Some link).

Record veth_contract (P QP C QC : W -> Prop) (p : veth_plan) : Prop := {
  vc_home : quiet P;
  vc_visit : visits P QP;
  vc_look name : preserves QP (LinkByName name);
  vc_addresses link : preserves QP (AddrList link);
  (* the pair is created only where no interface had its name, under the owner's alias *)
  vc_add w w' r : answers P (LinkByName host) None -> P w -> LinkAddVeth (veth_attrs p) (vp_PeerIfName p) w = (w', r) -> if is_ok r then C w' else P w';
  (* then only its two ends are changed *)
  vc_created : quiet C;
  vc_alias link : seen C host link \/ seen C (vp_PeerIfName p) link -> preserves C (LinkSetAlias link owner);
  vc_up : preserves C (LinkSetUp (veth_link p));
  vc_move link ns : seen C (vp_PeerIfName p) link -> preserves C (LinkSetNsFd link ns);
  vc_build : visits C QC;
  vc_find name : preserves QC (LinkByName name);
  vc_rename link : seen QC (vp_PeerIfName p) link -> preserves QC (LinkSetName link (vp_ContainerIfName p));
  vc_configure link : seen QC (vp_PeerIfName p) link \/ seen QC (vp_ContainerIfName p) link ->
    preserves QC (LinkSetAlias link owner) /\ (forall hw, preserves QC (LinkSetHardwareAddr link hw)) /\ (forall a, preserves QC (AddrAdd link a)) /\ preserves QC (LinkSetUp link);
  (* an undo removes it *)
  vc_undo link w w' r : seen C host link -> C w -> LinkDel link w = (w', r) -> if is_ok r then P w' else C w';
  (* an interface is deleted when it carries the owner's alias *)
  vc_delete name link : seen P name link -> owned_by owner link = true -> preserves P (LinkDel link);
}.

Context (P QP C QC : W -> Prop) (p : veth_plan) (Hp : veth_request key rec = Ok p) (K : veth_contract P QP C QC p).

Lemma plan_names : vp_HostIfName p = host /\ vp_Owner p = owner.
Proof. unfold veth_request in Hp. cbv zeta in Hp. do 6 (case_match; [done|]). by simplify_eq. Qed.

Lemma call_link_named I name : preserves I (LinkByName name) -> call I I (link_named name) (seen I name).
Proof.
  intros Hl. eapply call_seq; [by apply call_answers|]. intros [l|] Hx; [by apply call_ret|apply call_fail].
Qed.
Lemma call_ignore {A} I (m : M W A) : preserves I m -> call I I (ignore m) (fun _ => True).
Proof. intros Hm. eapply call_seq; [by apply call_keeps, preserves_attempt|]. intros r _. by apply call_ret. Qed.

(** A visit. *)
Lemma call_visit {A} I J path (fn : M W A) Q : quiet I -> visits I J -> call J J fn Q -> call I I (withNetNSPath path fn) Q.
Proof.
  intros [_ Hg Hpath] [He Hl] Hf. eapply call_seq; [by apply call_wrap, call_answers|]. intros orig Ho.
  eapply call_seq; [by apply call_wrap, call_answers|]. intros target Ht w w' r Hw H.
  apply bind_inv in H as [(w1 & [] & H1 & H)|(e & H1 & ->)].
  - apply wrap_ok_inv in H1. pose proof (He _ _ _ _ _ Ht Hw H1) as Hj. simpl in Hj. rewrite bind_attempt in H.
    destruct (fn w1) as [w2 r2] eqn:E. simpl in H. destruct (Hf _ _ _ Hj E) as [Hj2 HQ]. unfold ignore in H.
    unfold bind, attempt, ret, lift in H. destruct (netns_Set orig w2) as [w3 r3] eqn:E3. simplify_eq. split; [by eapply Hl|done].
  - apply wrap_inv in H1 as (r' & H1 & Hr'). pose proof (He _ _ _ _ _ Ht Hw H1) as Hj. destruct r'; [discriminate Hr'|]. by split.
Qed.

(** ** Checking *)

(** What a passed check has seen on the two sides. *)
Definition checked_host (state : networkState) (h : Link) : Prop :=
  seen P (ns_HostIfName state) h /\ owned_by owner h = true /\ up_veth h = true.
Definition checked_container (state : networkState) (h link : Link) : Prop :=
  seen QP (ns_ContainerIfName state) link /\ owned_by owner link = true /\ up_veth link = true /\ peers h link = true /\
  (blank (ns_MACAddress state) = false -> has_mac (ns_MACAddress state) link = true) /\
  (blank (ns_StaticIPCIDR state) = false -> exists l, answers QP (AddrList link) l /\ Some (ns_StaticIPCIDR state) ∈ l).
Lemma call_check_container state h : call QP QP (check_container owner state h) (fun _ => exists link, checked_container state h link).
Proof.
  eapply call_seq; [apply call_wrap, call_link_named, K|]. intros link Hl.
  apply call_if; intros Ho; [apply call_fail|]. apply call_if; intros Hu; [apply call_fail|].
  apply call_if; intros Hpeer; [apply call_fail|]. apply call_if; intros Hm; [apply call_fail|]. apply negb_false_iff in Ho, Hu, Hpeer.
  assert (Hmac : blank (ns_MACAddress state) = false -> has_mac (ns_MACAddress state) link = true).
  { intros Hb. rewrite Hb in Hm. by apply negb_false_iff in Hm. }
  apply call_if; intros Hi; [apply call_ret; exists link; split_and!; [done..|congruence]|].
  eapply call_seq; [apply call_wrap, call_answers, K|]. intros l Ha. apply call_if; intros Hin; [|apply call_fail].
  apply call_ret. exists link. split_and!; try done. intros _. exists l. by apply bool_decide_eq_true in Hin.
Qed.
(** The attachment a check looks for. *)
Definition target (s : gmap string networkState * W) : result networkState := match s.1 !! key with Some st => Ok st | None => inferred key rec end.
Lemma Check_run s s' r : P s.2 -> veth_Check key rec s = (s', r) ->
  P s'.2 /\ match r with
  | Ok st => target s = Ok st /\ s'.1 = <[key := st]> s.1 /\ exists h link, checked_host st h /\ checked_container st h link
  | Err _ => s'.1 = s.1
  end.
Proof.
  intros Hs H. unfold veth_Check in H. rewrite bind_gets in H. fold (target s) in H. rewrite bind_lift in H. destruct (target s) as [state|e] eqn:Ht; [|by simplify_eq].
  apply bind_inv in H as [(s1 & h & H1 & H)|(e & H1 & ->)].
  - apply wrap_ok_inv, on_snd_inv in H1 as [E1 H1]. destruct (call_link_named P _ (q_link P (vc_home _ _ _ _ _ K) _) _ _ _ Hs H1) as [Hs1 Hh].
    specialize (Hh _ eq_refl). destruct (owned_by owner h) eqn:Ho; cbn [negb] in H; [|unfold fail, lift in H; by simplify_eq].
    destruct (up_veth h) eqn:Hu; cbn [negb] in H; [|unfold fail, lift in H; by simplify_eq]. cbv zeta in H.
    destruct (bool_decide _) in H; [unfold fail, lift in H; by simplify_eq|].
    apply bind_inv in H as [(s2 & [] & Hv & H)|(e & Hv & ->)]; apply on_snd_inv in Hv as [E2 Hv];
      destruct (call_visit P QP _ _ _ (vc_home _ _ _ _ _ K) (vc_visit _ _ _ _ _ K) (call_check_container state h) _ _ _ Hs1 Hv) as [Hs2 Hc].
    + destruct (Hc _ eq_refl) as [link Hlink]. unfold bind, modify, ret in H. simplify_eq. simpl. rewrite E2, E1. split_and!; [done..|]. by exists h, link.
    + split; [done|congruence].
  - apply wrap_inv in H1 as (r' & H1 & Hr'). apply on_snd_inv in H1 as [E1 H1]. destruct (call_link_named P _ (q_link P (vc_home _ _ _ _ _ K) _) _ _ _ Hs H1) as [Hs1 _]. done.
Qed.

(** ** Creating *)

Lemma call_configure : call QC QC (configure_peer p) (fun _ => True).
Proof.
  destruct plan_names as [_ Ho]. eapply call_seq; [apply call_wrap, call_link_named, K|]. intros link0 Hl0.
  apply (call_seq _ _ _ (fun link => seen QC (vp_PeerIfName p) link \/ seen QC (vp_ContainerIfName p) link)).
  { apply call_if; intros _; [by apply call_ret; left|]. eapply call_seq; [apply call_wrap, call_keeps, K, Hl0|]. intros _ _.
    eapply call_weaken; [apply call_wrap, call_link_named, K|]. intros l Hl. by right. }
  intros link Hl. destruct (vc_configure _ _ _ _ _ K link Hl) as (Ha & Hhw & Haddr & Hup). rewrite Ho.
  eapply call_seq; [by apply call_ignore|]. intros _ _. eapply call_seq; [by apply (call_lift _ _ (fun _ => True))|]. intros hw _.
  eapply call_seq; [by apply call_wrap, call_keeps|]. intros _ _. eapply call_seq; [by apply (call_lift _ _ (fun _ => True))|]. intros addr _.
  eapply call_seq; [by apply call_keeps, preserves_attempt|]. intros added _. apply (call_seq _ _ _ (fun _ => True)).
  { destruct added; [by apply call_ret|]. apply call_if; intros _; [by apply call_ret|apply call_fail]. }
  intros _ _. by apply call_wrap, call_keeps.
Qed.
Lemma call_wire_up : call C C (wire_up p) (fun _ => True).
Proof.
  destruct plan_names as [Hh Ho]. unfold wire_up. rewrite Hh, Ho.
  eapply call_seq; [apply call_wrap, call_link_named, K|]. intros h Hlh.
  eapply call_seq; [apply call_wrap, call_keeps, K; by left|]. intros _ _. eapply call_seq; [apply call_wrap, call_keeps, K|]. intros _ _.
  eapply call_seq; [apply call_wrap, call_link_named, K|]. intros peer Hlp. eapply call_seq; [apply call_ignore, K; by right|]. intros _ _.
  eapply call_seq; [apply call_wrap, call_keeps, K|]. intros ns _. eapply call_seq; [apply call_wrap, call_keeps, K, Hlp|]. intros _ _.
  eapply call_visit; [apply K|apply K|apply call_configure].
Qed.
(** A clean-up whose own calls did not find or did not delete the pair. *)
Definition cleanup_failed (w' : W) : Prop :=
  C w' /\ exists w, C w /\ ((exists r, LinkByName host w = (w', r) /\ forall link, r <> Ok (Some link)) \/ exists link e, seen C host link /\ LinkDel link w = (w', Err e)).
Lemma undo_run w w' r : C w -> cleanup p w = (w', r) -> r = Ok tt /\ (P w' \/ cleanup_failed w').
Proof.
  destruct plan_names as [Hh _]. intros Hw H. unfold cleanup in H. rewrite Hh, bind_attempt in H. destruct (LinkByName host w) as [w1 r1] eqn:E.
  pose proof (q_link C (vc_created _ _ _ _ _ K) host w Hw) as Hc. rewrite E in Hc. simpl in *.
  destruct r1 as [[link|]|e].
  - assert (Hl : seen C host link) by by exists w, w1. unfold ignore, bind, attempt, ret in H. destruct (LinkDel link w1) as [w2 r2] eqn:E2. simplify_eq. split; [done|].
    pose proof (vc_undo _ _ _ _ _ K _ _ _ _ Hl Hc E2) as Hu. destruct r2 as [[]|e]; [by left|]. right. split; [done|]. exists w1. eauto 6.
  - unfold ret in H. simplify_eq. split; [done|]. right. split; [done|]. exists w. eauto 6.
  - unfold ret in H. simplify_eq. split; [done|]. right. split; [done|]. exists w. eauto 6.
Qed.
Lemma create_run w w' r : answers P (LinkByName host) None -> P w -> create_pair p w = (w', r) -> if is_ok r then C w' else P w' \/ cleanup_failed w'.
Proof.
  intros Ha Hw H. unfold create_pair in H. apply bind_inv in H as [(w1 & [] & H1 & H)|(e & H1 & ->)].
  - apply wrap_ok_inv in H1. pose proof (vc_add _ _ _ _ _ K _ _ _ Ha Hw H1) as Hc. simpl in Hc. rewrite bind_attempt in H.
    destruct (wire_up p w1) as [w2 r2] eqn:E. simpl in H. destruct (call_wire_up _ _ _ Hc E) as [Hc2 _]. destruct r2 as [u|e].
    + unfold ret in H. by simplify_eq.
    + destruct (cleanup p w2) as [w3 r3] eqn:E3. destruct (undo_run _ _ _ Hc2 E3) as [-> HP]. unfold bind in H. rewrite E3 in H. unfold fail, lift in H. by simplify_eq.
  - apply wrap_inv in H1 as (r' & H1 & Hr'). pose proof (vc_add _ _ _ _ _ K _ _ _ Ha Hw H1) as Hc. destruct r'; [discriminate Hr'|]. by left.
Qed.

(** ** The operations *)

Lemma target_plan s st : (match s.1 !! key with Some st => negb (bool_decide (st = plan_state p)) | None => false end) = false -> target s = Ok st -> st = plan_state p.
Proof.
  intros Hk Ht. unfold target in Ht. destruct (s.1 !! key) as [known|].
  - apply negb_false_iff, bool_decide_eq_true in Hk. congruence.
  - clear Hk. unfold veth_request in Hp. cbv zeta in Hp. do 6 (case_match; [done|]). unfold inferred in Ht. destruct (rec_runtime rec), (rec_attachment rec); try done.
    case_match; [done|]. by simplify_eq.
Qed.


(** What a successful [Check] of the Linux backend means: a host interface and, in the
    namespace of the pod, a container interface that are up veths with the owner's alias,
    each the peer of the other, the container side with the static MAC and the static address
    of the attachment; the check changes nothing on the node and records what it saw. *)
Theorem veth_Check_sound s s' st : P s.2 -> veth_Check key rec s = (s', Ok st) ->
  P s'.2 /\ s'.1 = <[key := st]> s.1 /\ target s = Ok st /\ exists h link, checked_host st h /\ checked_container st h link.
Proof. intros Hs H. destruct (Check_run _ _ _ Hs H) as (? & ? & ? & ?). done. Qed.

(** Deletion is confined to what the endpoint owns: [Delete] removes an interface only
    when it carries the owner's alias, so that it keeps whatever holds of the rest of the
    node; it forgets the record when the interface is gone and keeps it on an error. *)
Theorem veth_Delete_owned s s' r : P s.2 -> veth_Delete key rec s = (s', r) -> P s'.2 /\ s'.1 = if is_ok r then delete key s.1 else s.1.
Proof.
  intros Hs H. unfold veth_Delete in H. rewrite bind_gets in H. cbv zeta in H. set (name := match s.1 !! key with Some _ => _ | None => _ end) in H. clearbody name.
  apply bind_inv in H as [(s1 & o & H1 & H)|(e & H1 & ->)].
  2: { apply wrap_inv in H1 as (r' & H1 & _). apply on_snd_inv in H1 as [E1 H1]. by destruct (call_answers P _ (q_link P (vc_home _ _ _ _ _ K) name) _ _ _ Hs H1). }
  apply wrap_ok_inv, on_snd_inv in H1 as [E1 H1]. destruct (call_answers P _ (q_link P (vc_home _ _ _ _ _ K) name) _ _ _ Hs H1) as [Hs1 Hl]. specialize (Hl _ eq_refl).
  destruct o as [link|]; [|unfold forget, modify in H; simplify_eq; by rewrite E1].
  destruct (owned_by owner link) eqn:Ho; cbn [negb] in H; [|unfold fail, lift in H; by simplify_eq].
  pose proof (vc_delete _ _ _ _ _ K name link Hl Ho) as Hd. apply call_keeps in Hd.
  apply bind_inv in H as [(s2 & [] & H2 & H)|(e & H2 & ->)].
  - apply wrap_ok_inv, on_snd_inv in H2 as [E2 H2]. destruct (Hd _ _ _ Hs1 H2) as [Hs2 _]. unfold forget, modify in H. simplify_eq. simpl. by rewrite E2, E1.
  - apply wrap_inv in H2 as (r' & H2 & _). apply on_snd_inv in H2 as [E2 H2]. destruct (Hd _ _ _ Hs1 H2) as [Hs2 _]. split; [done|]. simpl. by rewrite E2, E1.
Qed.
End contract.
