(* ===== verification/ExportObserver.v ===== *)
(** * The endpoints of the node agent

    Models [src/pkg/nodeagent/export_observer.go] and [local_netlink_observer.go]: which
    local endpoints the node agent offers to the exporter, from its own attachment records
    ([CNIEndpointObserver]), from ports that OVN serves itself ([nativeOVNPorts]), and from
    both with the observer of [Observer].  The OVSDB clients are parameters. *)

From S2P Require Import Prelude GoStd Journal Type2 Exporter Attachment Endpoint Observer CniTypes CniServer CniContinuity.
From Stdlib Require Import Ascii.

(** ** Rows *)

(** [exportPortBinding], [exportDatapath], [exportChassis] *)
Record exportPortBinding := {
  xb_UUID : string; xb_LogicalPort : string; xb_Chassis : option string; xb_Up : option bool; xb_Datapath : string; xb_Type : string;
  xb_MAC : list string; xb_Options : gmap string string;
}.
Record exportDatapath := { xd_UUID : string; xd_ExternalIDs : gmap string string }.
Record exportChassis := { xc_UUID : string; xc_Name : string }.
(** The columns of [nbdb.LogicalSwitch] and [vswitch.Interface] that are read. *)
Record exportSwitch := { xs_UUID : string; xs_Name : string; xs_Ports : list string; xs_OtherConfig : gmap string string }.
Record exportInterface := {
  xi_UUID : string; xi_Name : string; xi_ExternalIDs : gmap string string; xi_Ofport : option Z; xi_Error : option string;
}.
(** [exportSnapshot] *)
Record exportSnapshot := {
  es_Switches : list exportSwitch; es_LSPs : list LogicalSwitchPort; es_Bridges : list Bridge; es_Ports : list Port;
  es_Interfaces : list exportInterface; es_Bindings : list exportPortBinding; es_Chassis : list exportChassis; es_Datapaths : list exportDatapath;
}.

(** ** Reading the databases *)

(** A client that runs a select; [R] is a row as the library returns it. *)
Record SelectClient (W R : Type) := {
  sc_Connected : M W bool;
  sc_Select : string -> list string -> M W (list (string * list R));       (* the error and the rows of each result *)
}.
Arguments sc_Connected {W R} _.
Arguments sc_Select {W R} _ _ _.
(** [GetSelectResults]: the decoding of rows into the models. *)
Class SelectRows (R : Type) := {
  dec_Switches : list R -> result (list exportSwitch); dec_LSPs : list R -> result (list LogicalSwitchPort); dec_Bridges : list R -> result (list Bridge);
  dec_Ports : list R -> result (list Port); dec_Interfaces : list R -> result (list exportInterface); dec_Bindings : list R -> result (list exportPortBinding);
  dec_Chassis : list R -> result (list exportChassis); dec_Datapaths : list R -> result (list exportDatapath);
}.

Section reads.
Context {W R : Type} {SR : SelectRows R}.

(** [selectExportRows] *)
Definition selectExportRows {A} (c : option (SelectClient W R)) (table : string) (columns : list string) (decode : list R -> result A) : M W A :=
  match c with
  | None => fail (Errorf "backend disconnected")
  | Some c =>
      let! up := sc_Connected c in
      if negb up then fail (Errorf "backend disconnected") else
      let! results := wrap (Wrapped "read") (sc_Select c table columns) in
      match results with
      | [(err, rows)] => if negb (bool_decide (err = ""%string)) then fail (Errorf "incomplete/failed read") else lift (map_err (Wrapped "decode") (decode rows))
      | _ => fail (Errorf "incomplete/failed read")
      end
  end.

(** [liveExportState.Snapshot] *)
Definition live_Snapshot (nb ovs sb : option (SelectClient W R)) : M W exportSnapshot :=
  let! switches := selectExportRows nb "Logical_Switch" ["_uuid"; "name"; "ports"; "other_config"]%string dec_Switches in
  let! lsps := selectExportRows nb "Logical_Switch_Port" ["_uuid"; "name"; "addresses"; "external_ids"]%string dec_LSPs in
  let! bridges := selectExportRows ovs "Bridge" ["_uuid"; "name"; "ports"]%string dec_Bridges in
  let! ports := selectExportRows ovs "Port" ["_uuid"; "name"; "interfaces"]%string dec_Ports in
  let! interfaces := selectExportRows ovs "Interface" ["_uuid"; "name"; "external_ids"; "ofport"; "error"]%string dec_Interfaces in
  let! bindings := selectExportRows sb "Port_Binding" ["_uuid"; "logical_port"; "chassis"; "up"; "datapath"; "type"; "mac"; "options"]%string dec_Bindings in
  let! chassis := selectExportRows sb "Chassis" ["_uuid"; "name"]%string dec_Chassis in
  let! datapaths := selectExportRows sb "Datapath_Binding" ["_uuid"; "external_ids"]%string dec_Datapaths in
  ret {| es_Switches := switches; es_LSPs := lsps; es_Bridges := bridges; es_Ports := ports; es_Interfaces := interfaces; es_Bindings := bindings;
         es_Chassis := chassis; es_Datapaths := datapaths |}.

(** [liveOVNExportState] *)
Definition live_ports (nb : option (SelectClient W R)) : M W (list OVNLogicalSwitchPort) :=
  let! ports := selectExportRows nb "Logical_Switch_Port" ["_uuid"; "name"; "addresses"; "external_ids"]%string dec_LSPs in
  ret ((fun p => {| olp_Name := lsp_Name p; olp_Addresses := lsp_Addresses p; olp_ExternalIDs := lsp_ExternalIDs p |}) <$> ports).
Definition binding_chassis (names : gmap string string) (acc : list OVNPortBinding) (b : exportPortBinding) : result (list OVNPortBinding) :=
  let? name := match xb_Chassis b with
               | None => Ok ""%string
               | Some c => of_option (Errorf "Port_Binding references unknown chassis") (names !! c)
               end in
  Ok (acc ++ [{| opb_LogicalPort := xb_LogicalPort b; opb_Chassis := name |}]).
Definition live_bindings (sb : option (SelectClient W R)) : M W (list OVNPortBinding) :=
  let! bindings := selectExportRows sb "Port_Binding" ["_uuid"; "logical_port"; "chassis"]%string dec_Bindings in
  let! chassis := selectExportRows sb "Chassis" ["_uuid"; "name"]%string dec_Chassis in
  let names : gmap string string := foldl (fun m c => <[xc_UUID c := xc_Name c]> m) ∅ chassis in
  lift (rfold (binding_chassis names) [] bindings).
Definition liveOVNExportState (nb sb : option (SelectClient W R)) : OVNStateSource W :=
  {| os_ListLogicalSwitchPorts := live_ports nb; os_ListPortBindings := live_bindings sb |}.
End reads.

(** ** The evidence for an attachment *)

(** [netip.ParsePrefix]: the address of a prefix. *)
Definition ParsePrefix (s : string) : option Addr :=
  match split "/"%char (chars s) with
  | [addr; bits] =>
      ip ← ParseAddr (str addr);
      if negb (zoneless ip) then None
      else if match bits with c :: _ :: _ => bool_decide (code c < 49) || bool_decide (57 < code c) | _ => false end then None
      else if bool_decide (bits = []) then None
      else n ← decimal 0 bits; if n <=? (if Is4 ip then 32 else 128) then Some ip else None
  | _ => None
  end.

(** The row with a name; [None] when there are several. *)
Fixpoint unique_named {A} (p : A -> bool) (found : option A) (rows : list A) : option (option A) :=
  match rows with
  | [] => Some found
  | x :: rows => if p x then match found with Some _ => None | None => unique_named p (Some x) rows end else unique_named p found rows
  end.
(** The names of the rows that hold a reference, once per reference. *)
Definition holders {A} (name : A -> string) (refs : A -> list string) (uuid : string) (rows : list A) : list string :=
  concat ((fun r => (fun _ => name r) <$> List.filter (fun x => bool_decide (x = uuid)) (refs r)) <$> rows).

(** The first condition of [exportDataplaneReason]. *)
Definition identity_agrees (spec : EndpointSpec) (rec : endpointRecord) : bool :=
  let id := rec_identity rec in
  bool_decide (wl_Kind (sp_Workload spec) = "pod"%string) && negb (bool_decide (wl_UID (sp_Workload spec) = ""%string))
  && bool_decide (sp_ID spec = sp_NetworkID spec +:+ "|" +:+ sp_AttachmentID spec +:+ "|" +:+ wl_UID (sp_Workload spec))%string
  && bool_decide (GetEndpointId id = sp_ID spec) && bool_decide (GetNetworkId id = sp_NetworkID spec)
  && bool_decide (GetAttachmentId id = sp_AttachmentID spec) && bool_decide (GetWorkloadUid id = wl_UID (sp_Workload spec))
  && bool_decide (GetIncarnation id = sp_Incarnation spec) && negb (bool_decide (sp_Incarnation spec = ""%string))
  && bool_decide (GetContainerId (rec_runtime rec) = sp_Incarnation spec).
Definition wanted_ids (spec : EndpointSpec) : gmap string string :=
  ExternalIDsForIdentity {| id_EndpointID := sp_ID spec; id_NetworkID := sp_NetworkID spec; id_AttachmentID := sp_AttachmentID spec;
                            id_WorkloadUID := wl_UID (sp_Workload spec); id_Incarnation := sp_Incarnation spec |} (sp_LogicalSwitchPort spec) "".
Definition owned (want ids : gmap string string) : bool :=
  forallb (fun kv => bool_decide (at_key ids kv.1 = kv.2)) (map_to_list want).
Definition address_agrees (spec : EndpointSpec) (prefix : string) (ip : Addr) (address : string) : bool :=
  match Fields address with
  | [mac; a] => EqualFold mac (sp_MACAddress spec) && (bool_decide (a = prefix) || bool_decide (a = Addr_String ip))
  | _ => false
  end.
Definition interface_ready (i : exportInterface) : bool :=
  match xi_Ofport i with Some n => 0 <? n | None => false end
  && match xi_Error i with Some e => bool_decide (e = ""%string) | None => true end.

(** The part of [exportDataplaneReason] from the southbound binding on, then from the OVS
    interface on, then from the logical switch port on. *)
Definition binding_reason (lsp : LogicalSwitchPort) (chassis : string) (data : exportSnapshot) : string :=
  match unique_named (fun b => bool_decide (xb_LogicalPort b = lsp_Name lsp)) None (es_Bindings data) with
  | None => "duplicate Port_Binding"
  | Some None => "SB Port_Binding absent/down/unbound"
  | Some (Some b) =>
      match xb_Chassis b, xb_Up b with
      | Some c, Some true =>
          if existsb (fun r => bool_decide (xc_UUID r = c) && bool_decide (xc_Name r = chassis)) (es_Chassis data) then ""
          else "SB Port_Binding is not on configured local chassis"
      | _, _ => "SB Port_Binding absent/down/unbound"
      end
  end%string.
Definition interface_reason (spec : EndpointSpec) (lsp : LogicalSwitchPort) (chassis : string) (data : exportSnapshot) : string :=
  match unique_named (fun i => bool_decide (xi_Name i = sp_OVSInterfaceName spec)) None (es_Interfaces data) with
  | None => "duplicate OVS Interface"
  | Some None => "OVS Interface absent or wrong owner/iface-id"
  | Some (Some iface) =>
      if negb (owned (wanted_ids spec) (xi_ExternalIDs iface)) then "OVS Interface absent or wrong owner/iface-id"
      else if negb (interface_ready iface) then "OVS Interface ofport/error unready" else
      match unique_named (fun p => bool_decide (po_Name p = sp_OVSInterfaceName spec)) None (es_Ports data) with
      | None => "duplicate OVS Port"
      | Some None => "OVS Port/Interface relationship unready"
      | Some (Some port) =>
          if negb (bool_decide (po_Interfaces port = [xi_UUID iface])) then "OVS Port/Interface relationship unready" else
          let at_ := holders br_Name br_Ports (po_UUID port) (es_Bridges data) in
          if existsb (fun n => negb (bool_decide (n = "br-int"%string))) at_ then "OVS Port attached outside br-int"
          else if negb (bool_decide (length at_ = 1%nat)) then "OVS Port not uniquely attached to br-int"
          else binding_reason lsp chassis data
      end
  end%string.
Definition port_reason (spec : EndpointSpec) (cfg : EVPNNetworkConfig) (prefix : string) (ip : Addr) (chassis : string) (data : exportSnapshot) : string :=
  match unique_named (fun p => bool_decide (lsp_Name p = sp_LogicalSwitchPort spec)) None (es_LSPs data) with
  | None => "duplicate LSP"
  | Some None => "NB LSP absent"
  | Some (Some lsp) =>
      if negb (owned (wanted_ids spec) (lsp_ExternalIDs lsp)) then "NB LSP ownership mismatch" else
      let at_ := holders xs_Name xs_Ports (lsp_UUID lsp) (es_Switches data) in
      if existsb (fun n => negb (bool_decide (n = n_LogicalSwitch cfg))) at_ then "LSP in unexpected switch"
      else if negb (bool_decide (length at_ = 1%nat)) then "LSP switch membership not unique" else
      match lsp_Addresses lsp with
      | [address] => if negb (address_agrees spec prefix ip address) then "LSP MAC/IP differs from CNI attachment"
                     else interface_reason spec lsp chassis data
      | _ => "LSP address set differs from CNI attachment"
      end
  end%string.
(** [exportDataplaneReason] *)
Definition exportDataplaneReason (spec : EndpointSpec) (rec : endpointRecord) (cfg : EVPNNetworkConfig) (chassis : string) (data : exportSnapshot) : string :=
  if negb (identity_agrees spec rec) then "CNI identity/incarnation mismatch"
  else if negb (bool_decide (sp_LogicalSwitch spec = n_LogicalSwitch cfg)) then "logical switch differs from allowlist" else
  match sp_IPAddresses spec with
  | [prefix] =>
      match ParsePrefix prefix with
      | Some ip => if Is4 ip then port_reason spec cfg prefix ip chassis data else "managed endpoint is not a single IPv4 prefix"
      | None => "managed endpoint is not a single IPv4 prefix"
      end
  | _ => "exactly one managed IPv4 prefix required"
  end%string.

(** ** The observer of attachments *)

(** [ExportObservation] *)
Record ExportObservation := { eo_EndpointID : string; eo_Incarnation : string; eo_State : string; eo_Reason : string }.

Definition network_configs (networks : list EVPNNetworkConfig) : gmap string EVPNNetworkConfig :=
  foldl (fun m cfg => <[n_NetworkID cfg := cfg]> m) ∅ networks.
(** Why the endpoint of a record is not exported; the empty text when it is. *)
Definition record_reason (config : ExporterConfig) (data : exportSnapshot) (rec : endpointRecord) : string :=
  let spec := rec_endpointSpec rec in
  match network_configs (c_Networks config) !! sp_NetworkID spec with
  | None => "network not allowlisted"
  | Some cfg =>
      if n_Enabled cfg && bool_decide (ExportSource cfg = "cni"%string) then exportDataplaneReason spec rec cfg (c_LocalChassis config) data
      else if negb (bool_decide (ExportSource cfg = "cni"%string)) then ("network authority is " +:+ ExportSource cfg)
      else "network not allowlisted"
  end%string.
Definition local_endpoint (config : ExporterConfig) (cfg : EVPNNetworkConfig) (spec : EndpointSpec) (ip : Addr) : LocalEndpoint :=
  {| NetworkID := sp_NetworkID spec; EndpointID := sp_ID spec; Incarnation := sp_Incarnation spec; MACAddress := sp_MACAddress spec;
     IPAddresses := [Addr_String ip]; VNI := n_VNI cfg; RouteDistinguisher := n_RouteDistinguisher cfg; RouteTargets := n_RouteTargets cfg;
     LocalVTEP := n_LocalVTEP cfg; NodeName := c_NodeName config; Chassis := c_LocalChassis config; Advertise := true; MACOnly := false |}.

Section cni.
Context {MR : MapRange} {W : Type}.
(** The state source, the records of the server and its network backend. *)
Context (snapshot : M W exportSnapshot) (records : W -> gmap string endpointRecord) (network : networkBackend W) (config : ExporterConfig).
Notation OM := (M (list ExportObservation * W)).

Definition observe_as (obs : list ExportObservation -> list ExportObservation) : OM unit := modify (fun s => (obs s.1, s.2)).
Definition observation (rec : endpointRecord) (state reason : string) : ExportObservation :=
  {| eo_EndpointID := sp_ID (rec_endpointSpec rec); eo_Incarnation := sp_Incarnation (rec_endpointSpec rec); eo_State := state; eo_Reason := reason |}.

(** One record. *)
Definition cni_step (data : exportSnapshot) (desired : list LocalEndpoint) (rec : endpointRecord) : OM (list LocalEndpoint) :=
  let spec := rec_endpointSpec rec in
  let reason := record_reason config data rec in
  if negb (bool_decide (reason = ""%string)) then do! observe_as (fun l => l ++ [observation rec "unready" reason]) in ret desired else
  let! checked := attempt (on_snd (nb_Check network (endpointKey (rec_identity rec)) rec)) in
  match checked with
  | Err e =>
      do! observe_as (fun l => l ++ [observation rec "observation-error" ("Linux attachment verification: " +:+ error_text e)%string]) in
      fail (Errorf "Linux attachment verification")
  | Ok _ =>
      match sp_IPAddresses spec, network_configs (c_Networks config) !! sp_NetworkID spec with
      | prefix :: _, Some cfg =>
          match ParsePrefix prefix with
          | None => fail (Errorf "invalid managed endpoint address")
          | Some ip => do! observe_as (fun l => l ++ [observation rec "ready" "NB/OVS/Linux/SB ownership and readiness verified"]) in
                       ret (desired ++ [local_endpoint config cfg spec ip])
          end
      | _, _ => fail (Errorf "index out of range")
      end
  end.
Definition sorted_records (w : W) : list endpointRecord := sort_by (fun r => endpointKey (rec_identity r)) (range (records w)).*2.
(** [CNIEndpointObserver.DesiredLocalEndpoints] *)
Definition cni_DesiredLocalEndpoints : OM (list LocalEndpoint) :=
  do! observe_as (fun _ => []) in
  let! read := attempt (on_snd snapshot) in
  match read with
  | Err e =>
      do! observe_as (fun _ => [{| eo_EndpointID := ""; eo_Incarnation := ""; eo_State := "observation-error"; eo_Reason := error_text e |}]) in fail e
  | Ok data =>
      let! recs := gets (fun s => sorted_records s.2) in
      do! (if bool_decide (length recs = 0%nat)
           then observe_as (fun l => l ++ [{| eo_EndpointID := ""; eo_Incarnation := ""; eo_State := "absent"; eo_Reason := "no managed CNI attachment records" |}])
           else ret tt) in
      mfold (cni_step data) [] recs
  end.
End cni.

(** ** The observer of native ports *)

(** What a logical switch must say for a network that OVN serves itself. *)
Definition native_settings (cfg : EVPNNetworkConfig) : list (string * string) :=
  [("dynamic-routing-vni", itoa (n_VNI cfg)); ("dynamic-routing-bridge-ifname", n_BridgeDevice cfg);
   ("dynamic-routing-vxlan-ifname", n_VXLANDevice cfg); ("dynamic-routing-advertise-ifname", n_AdvertiseDevice cfg)]%string.
(** The switch of a network and its ports ([switchUUID], [members]). *)
Definition switch_step (cfg : EVPNNetworkConfig) (acc : string * list string) (sw : exportSwitch) : result (string * list string) :=
  if negb (bool_decide (xs_Name sw = n_LogicalSwitch cfg)) then Ok acc
  else if negb (bool_decide (acc.1 = ""%string)) then Err (Errorf "ambiguous native logical switch")
  else if negb (forallb (fun kv => bool_decide (at_key (xs_OtherConfig sw) kv.1 = kv.2)) (native_settings cfg))
  then Err (Errorf "native OVN mapping differs")
  else if negb (Contains ("," +:+ at_key (xs_OtherConfig sw) "dynamic-routing-redistribute" +:+ ",") ",fdb,")%string
  then Err (Errorf "native local FDB redistribution is not enabled")
  else Ok (xs_UUID sw, acc.2 ++ xs_Ports sw).
(** The static address of a port: its MAC and the IPs it may use. *)
Definition native_ip (acc : list string) (raw : string) : result (list string) :=
  let? ip := match ParseAddr raw with Some ip => Ok ip | None => of_option (Errorf "invalid static IP") (ParsePrefix raw) end in
  if IsUnspecified ip || IsMulticast ip then Err (Errorf "requires unicast static IPs") else Ok (acc ++ [Addr_String (unmap ip)]).
Definition native_address (raw : string) : result (string * list string) :=
  match Fields raw with
  | [] => Err (Errorf "MAC absent")
  | p :: parts =>
      match ParseMAC p with
      | Some (m0 :: m) =>
          if negb (bool_decide (length (m0 :: m) = 6%nat)) || negb (Z.land m0 1 =? 0)
             || bool_decide (HardwareAddr_String (m0 :: m) = "00:00:00:00:00:00"%string)
          then Err (Errorf "invalid unicast MAC")
          else let? ips := rfold native_ip [] parts in Ok (HardwareAddr_String (m0 :: m), ips)
      | _ => Err (Errorf "invalid unicast MAC")
      end
  end.
(** One binding of one port. *)
Definition native_binding (config : ExporterConfig) (cfg : EVPNNetworkConfig) (chassis switchUUID : string) (datapaths : list exportDatapath)
    (lsp : LogicalSwitchPort) (result : list LocalEndpoint) (pb : exportPortBinding) : Prelude.result (list LocalEndpoint) :=
  if negb (bool_decide (xb_LogicalPort pb = lsp_Name lsp)) || negb (bool_decide (xb_Chassis pb = Some chassis)) then Ok result
  else if negb (bool_decide (xb_Up pb = Some true)) then Err (Errorf "local native port readiness uncertain")
  else if negb (bool_decide (xb_Type pb = ""%string)) || bool_decide (at_key (xb_Options pb) "dynamic-routing-advertise" = "false"%string) then Ok result
  else if negb (existsb (fun dp => bool_decide (xd_UUID dp = xb_Datapath pb) && bool_decide (at_key (xd_ExternalIDs dp) "logical-switch" = switchUUID)) datapaths)
          || bool_decide (xb_UUID pb = ""%string) || bool_decide (lsp_UUID lsp = ""%string)
  then Err (Errorf "native PB datapath/identity mismatch") else
  match lsp_Addresses lsp, xb_MAC pb with
  | [a], [b] =>
      if negb (bool_decide (a = b)) then Err (Errorf "requires a single converged static MAC binding") else
      let? (mac, ips) := native_address b in
      Ok (result ++ [{| NetworkID := n_NetworkID cfg; EndpointID := ("ovn-netlink/" +:+ lsp_UUID lsp)%string; Incarnation := xb_UUID pb; MACAddress := mac;
                        IPAddresses := ips; VNI := n_VNI cfg; RouteDistinguisher := n_RouteDistinguisher cfg; RouteTargets := n_RouteTargets cfg;
                        LocalVTEP := n_LocalVTEP cfg; NodeName := c_NodeName config; Chassis := c_LocalChassis config; Advertise := true;
                        MACOnly := bool_decide (ips = []) |}])
  | _, _ => Err (Errorf "requires a single converged static MAC binding")
  end.
Definition native_port (config : ExporterConfig) (cfg : EVPNNetworkConfig) (chassis : string) (sw : string * list string) (data : exportSnapshot)
    (result : list LocalEndpoint) (lsp : LogicalSwitchPort) : Prelude.result (list LocalEndpoint) :=
  if negb (bool_decide (lsp_UUID lsp ∈ sw.2)) then Ok result
  else rfold (native_binding config cfg chassis sw.1 (es_Datapaths data) lsp) result (es_Bindings data).
Definition native_network (config : ExporterConfig) (chassis : string) (data : exportSnapshot) (result : list LocalEndpoint) (cfg : EVPNNetworkConfig)
    : Prelude.result (list LocalEndpoint) :=
  if negb (n_Enabled cfg) || negb (bool_decide (ExportSource cfg = "ovn-netlink"%string)) then Ok result else
  let? sw := rfold (switch_step cfg) (""%string, []) (es_Switches data) in
  if bool_decide (sw.1 = ""%string) then Err (Errorf "native logical switch absent; observation non-authoritative")
  else rfold (native_port config cfg chassis sw data) result (es_LSPs data).
Definition chassis_step (name : string) (acc : string) (row : exportChassis) : result string :=
  if negb (bool_decide (xc_Name row = name)) then Ok acc
  else if negb (bool_decide (acc = ""%string)) then Err (Errorf "ambiguous local OVN chassis") else Ok (xc_UUID row).
Definition native_endpoints (config : ExporterConfig) (data : exportSnapshot) : result (list LocalEndpoint) :=
  let? chassis := rfold (chassis_step (c_LocalChassis config)) ""%string (es_Chassis data) in
  if bool_decide (chassis = ""%string) then Err (Errorf "local OVN chassis absent") else
  let? result := rfold (native_network config chassis data) [] (c_Networks config) in
  Ok (sort_by RouteKey result).

Section native.
Context {W : Type}.
(** [nativeOVNPorts.DesiredLocalEndpoints] *)
Definition native_DesiredLocalEndpoints (snapshot : M W exportSnapshot) (config : ExporterConfig) : M W (list LocalEndpoint) :=
  let! data := snapshot in lift (native_endpoints config data).
(** [selectedEndpointObserver.DesiredLocalEndpoints] *)
Definition selected_step (endpoints : list LocalEndpoint) (observer : option (M W (list LocalEndpoint))) : M W (list LocalEndpoint) :=
  match observer with None => ret endpoints | Some m => let! observed := m in ret (endpoints ++ observed) end.
Definition selected_DesiredLocalEndpoints (cni framework native : option (M W (list LocalEndpoint))) : M W (list LocalEndpoint) :=
  mfold selected_step [] [cni; framework; native].
End native.
