(* ===== verification/ExportObserverSafety.v ===== *)
(** * What the node agent's observers promise

    The reason the code gives for not exporting an attachment is empty exactly when the
    databases hold the evidence for it; the observer of attachments returns exactly the
    endpoints with that evidence, the native observer exactly the static ports of this
    chassis, and an exporter on top of them advertises nothing else. *)

From S2P Require Import Prelude GoStd Journal Type2 Reconciler Exporter Attachment Endpoint Observer CniTypes CniServer CniContinuity ExportObserver.

(** ** Unique rows *)

Lemma unique_named_found {A} p (x : A) rows : unique_named p (Some x) rows = (if existsb p rows then None else Some (Some x)).
Proof. induction rows as [|y l IH]; [done|]. simpl. by destruct (p y). Qed.
Lemma unique_named_spec {A} p (rows : list A) x : unique_named p None rows = Some (Some x) <-> List.filter p rows = [x].
Proof.
  induction rows as [|y l IH]; simpl; [done|]. destruct (p y); [|done]. rewrite unique_named_found.
  assert (existsb p l = false <-> List.filter p l = []) as E.
  { clear IH. induction l as [|z l IH]; simpl; [done|]. destruct (p z); [by split|done]. }
  destruct (existsb p l); [|rewrite (proj1 E eq_refl); by split; intros [= ->]]. split; [done|]. intros [= -> Hl]. by apply E in Hl.
Qed.
Lemma single_name (l : list string) n : existsb (fun x => negb (bool_decide (x = n))) l = false /\ length l = 1%nat <-> l = [n].
Proof.
  split; [|intros ->; simpl; by rewrite bool_decide_eq_true_2]. intros [H Hl]. destruct l as [|x [|]]; try done. simpl in H.
  rewrite orb_false_r in H. bools. by subst.
Qed.

(** ** The evidence for an attachment *)

Section evidence.
Context (spec : EndpointSpec) (rec : endpointRecord) (cfg : EVPNNetworkConfig) (chassis : string) (data : exportSnapshot).

(** The identity that the record, the specification and the runtime agree on. *)
Record same_pod : Prop := {
  sp_pod : wl_Kind (sp_Workload spec) = "pod"%string; sp_uid : wl_UID (sp_Workload spec) <> ""%string; sp_incarnated : sp_Incarnation spec <> ""%string;
  sp_named : sp_ID spec = (sp_NetworkID spec +:+ "|" +:+ sp_AttachmentID spec +:+ "|" +:+ wl_UID (sp_Workload spec))%string;
  sp_recorded : (GetEndpointId (rec_identity rec), GetNetworkId (rec_identity rec), GetAttachmentId (rec_identity rec),
                 GetWorkloadUid (rec_identity rec), GetIncarnation (rec_identity rec))
                = (sp_ID spec, sp_NetworkID spec, sp_AttachmentID spec, wl_UID (sp_Workload spec), sp_Incarnation spec);
  sp_container : GetContainerId (rec_runtime rec) = sp_Incarnation spec;
}.
(** Every ownership key has the value that the attachment gives it. *)
Definition carries (ids : gmap string string) : Prop := forall key value, wanted_ids spec !! key = Some value -> at_key ids key = value.

(** The rows that show the attachment, from the northbound port to the chassis. *)
Record attached_rows (prefix : string) (ip : Addr) (lsp : LogicalSwitchPort) (iface : exportInterface) (port : Port) (b : exportPortBinding)
    (home : string) : Prop := {
  ar_lsp : List.filter (fun p => bool_decide (lsp_Name p = sp_LogicalSwitchPort spec)) (es_LSPs data) = [lsp];
  ar_lsp_owned : carries (lsp_ExternalIDs lsp);
  ar_switch : holders xs_Name xs_Ports (lsp_UUID lsp) (es_Switches data) = [n_LogicalSwitch cfg];
  ar_address : exists raw mac a, lsp_Addresses lsp = [raw] /\ Fields raw = [mac; a] /\ EqualFold mac (sp_MACAddress spec) = true
    /\ (a = prefix \/ a = Addr_String ip);
  ar_iface : List.filter (fun i => bool_decide (xi_Name i = sp_OVSInterfaceName spec)) (es_Interfaces data) = [iface];
  ar_iface_owned : carries (xi_ExternalIDs iface);
  ar_iface_ready : (exists n, xi_Ofport iface = Some n /\ 0 < n) /\ (xi_Error iface = None \/ xi_Error iface = Some ""%string);
  ar_port : List.filter (fun p => bool_decide (po_Name p = sp_OVSInterfaceName spec)) (es_Ports data) = [port];
  ar_port_iface : po_Interfaces port = [xi_UUID iface];
  ar_bridge : holders br_Name br_Ports (po_UUID port) (es_Bridges data) = ["br-int"%string];
  ar_binding : List.filter (fun b => bool_decide (xb_LogicalPort b = lsp_Name lsp)) (es_Bindings data) = [b];
  ar_up : xb_Chassis b = Some home /\ xb_Up b = Some true;
  ar_home : exists r, r ∈ es_Chassis data /\ xc_UUID r = home /\ xc_Name r = chassis;
}.
Definition attached_here : Prop :=
  same_pod /\ sp_LogicalSwitch spec = n_LogicalSwitch cfg
  /\ exists prefix ip lsp iface port b home, sp_IPAddresses spec = [prefix] /\ ParsePrefix prefix = Some ip /\ Is4 ip = true
     /\ attached_rows prefix ip lsp iface port b home.

Lemma identity_agrees_spec : identity_agrees spec rec = true <-> same_pod.
Proof.
  unfold identity_agrees. split; [intros H; bools; split; congruence|]. intros [H1 H2 H3 H4 H5 H6]. injection H5 as E1 E2 E3 E4 E5.
  rewrite !andb_true_iff, !negb_true_iff, !bool_decide_eq_true, !bool_decide_eq_false. split_and!; congruence.
Qed.
Lemma owned_spec ids : owned (wanted_ids spec) ids = true <-> carries ids.
Proof.
  unfold owned, carries. rewrite forallb_forall. split.
  - intros H key value Hk. specialize (H (key, value)). simpl in H. apply elem_of_map_to_list, list_elem_of_In in Hk. apply H in Hk. by bools.
  - intros H [key value] Hin%list_elem_of_In%elem_of_map_to_list. simpl. apply bool_decide_eq_true, H, Hin.
Qed.
Lemma interface_ready_spec i : interface_ready i = true <-> (exists n, xi_Ofport i = Some n /\ 0 < n) /\ (xi_Error i = None \/ xi_Error i = Some ""%string).
Proof.
  unfold interface_ready. rewrite andb_true_iff. destruct (xi_Ofport i) as [n|], (xi_Error i) as [e|]; rewrite ?Z.ltb_lt, ?bool_decide_eq_true; naive_solver.
Qed.
Lemma address_agrees_spec prefix ip raw : address_agrees spec prefix ip raw = true <->
  exists mac a, Fields raw = [mac; a] /\ EqualFold mac (sp_MACAddress spec) = true /\ (a = prefix \/ a = Addr_String ip).
Proof.
  unfold address_agrees. destruct (Fields raw) as [|mac [|a [|]]]; try (split; [done|naive_solver]).
  rewrite andb_true_iff, orb_true_iff, !bool_decide_eq_true. naive_solver.
Qed.

Definition bound (lsp : LogicalSwitchPort) (b : exportPortBinding) (home : string) : Prop :=
  List.filter (fun b => bool_decide (xb_LogicalPort b = lsp_Name lsp)) (es_Bindings data) = [b]
  /\ (xb_Chassis b = Some home /\ xb_Up b = Some true) /\ exists r, r ∈ es_Chassis data /\ xc_UUID r = home /\ xc_Name r = chassis.
Lemma home_spec home : existsb (fun r => bool_decide (xc_UUID r = home) && bool_decide (xc_Name r = chassis)) (es_Chassis data) = true
  <-> exists r, r ∈ es_Chassis data /\ xc_UUID r = home /\ xc_Name r = chassis.
Proof.
  rewrite existsb_exists. split; intros (r & Hr & H); exists r; rewrite list_elem_of_In in *; [bools; done|]. split; [done|].
  by rewrite andb_true_iff, !bool_decide_eq_true.
Qed.
Lemma binding_reason_spec lsp : binding_reason lsp chassis data = ""%string <-> exists b home, bound lsp b home.
Proof.
  unfold binding_reason, bound. split.
  - intros H. destruct (unique_named _ None _) as [[b|]|] eqn:E; [|done..]. apply unique_named_spec in E.
    destruct (xb_Chassis b) as [c|] eqn:Ec; [|done]. destruct (xb_Up b) as [[]|] eqn:Eu; [|done..].
    destruct (existsb _ _) eqn:Eh; [|done]. apply home_spec in Eh. by exists b, c.
  - intros (b & home & E & [Hc Hu] & Hh). apply unique_named_spec in E. rewrite E, Hc, Hu. apply home_spec in Hh. by rewrite Hh.
Qed.
Definition plugged (lsp : LogicalSwitchPort) (iface : exportInterface) (port : Port) : Prop :=
  List.filter (fun i => bool_decide (xi_Name i = sp_OVSInterfaceName spec)) (es_Interfaces data) = [iface]
  /\ carries (xi_ExternalIDs iface) /\ ((exists n, xi_Ofport iface = Some n /\ 0 < n) /\ (xi_Error iface = None \/ xi_Error iface = Some ""%string))
  /\ List.filter (fun p => bool_decide (po_Name p = sp_OVSInterfaceName spec)) (es_Ports data) = [port]
  /\ po_Interfaces port = [xi_UUID iface] /\ holders br_Name br_Ports (po_UUID port) (es_Bridges data) = ["br-int"%string].
Lemma interface_reason_spec lsp :
  interface_reason spec lsp chassis data = ""%string <-> (exists iface port, plugged lsp iface port) /\ exists b home, bound lsp b home.
Proof.
  rewrite <-binding_reason_spec. unfold interface_reason, plugged. split.
  - intros H. destruct (unique_named _ None (es_Interfaces data)) as [[i|]|] eqn:Ei; [|done..]. apply unique_named_spec in Ei.
    destruct (owned _ _) eqn:Eo; [|done]. apply owned_spec in Eo. destruct (interface_ready i) eqn:Er; [|done]. apply interface_ready_spec in Er.
    simpl in H. destruct (unique_named _ None (es_Ports data)) as [[p|]|] eqn:Ep; [|done..]. apply unique_named_spec in Ep.
    destruct (bool_decide (po_Interfaces p = _)) eqn:Epi; [|done]. simpl in H. destruct (existsb _ _) eqn:Ee; [done|].
    destruct (bool_decide (length _ = _)) eqn:El; [|done]. bools. split; [|exact H]. exists i, p. destruct Er. split_and!; [assumption..|]. by apply single_name.
  - intros [(i & p & Ei & Eo%owned_spec & Er%interface_ready_spec & Ep & Epi & [Ee El]%single_name) Hb]. apply unique_named_spec in Ei, Ep.
    rewrite Ei, Eo, Er. simpl. rewrite Ep, (bool_decide_eq_true_2 _ Epi). simpl. rewrite Ee, (bool_decide_eq_true_2 _ El). exact Hb.
Qed.
Lemma port_reason_spec prefix ip : port_reason spec cfg prefix ip chassis data = ""%string <->
  exists lsp iface port b home, attached_rows prefix ip lsp iface port b home.
Proof.
  unfold port_reason. split.
  - intros H. destruct (unique_named _ None (es_LSPs data)) as [[l|]|] eqn:El; [|done..]. apply unique_named_spec in El.
    destruct (owned _ _) eqn:Eo; [|done]. apply owned_spec in Eo. simpl in H. destruct (existsb _ _) eqn:Ee; [done|].
    destruct (bool_decide (length _ = _)) eqn:Elen; [|done]. simpl in H. bools.
    destruct (lsp_Addresses l) as [|raw []] eqn:Ea; [done| |done]. destruct (address_agrees _ _ _ _) eqn:Eag; [|done]. simpl in H.
    apply address_agrees_spec in Eag as (mac & a & Hf & Hm & Hip).
    apply interface_reason_spec in H as [(i & p & Ei & Eio & Er & Ep & Epi & Ebr) (b & home & Eb & Hup & Hh)].
    exists l, i, p, b, home. split; try assumption; [by apply single_name|by exists raw, mac, a].
  - intros (l & i & p & b & home & [El Eo [Ee Elen]%single_name (raw & mac & a & Ea & Hag) Ei Eio Er Ep Epi Ebr Eb Hup Hh]).
    apply unique_named_spec in El. apply owned_spec in Eo. rewrite El, Eo. simpl. rewrite Ee, (bool_decide_eq_true_2 _ Elen), Ea. simpl.
    rewrite (proj2 (address_agrees_spec prefix ip raw)) by eauto. simpl. apply interface_reason_spec. split; [exists i, p; exact (conj Ei (conj Eio (conj Er (conj Ep (conj Epi Ebr)))))|exists b, home; exact (conj Eb (conj Hup Hh))].
Qed.
Lemma dataplane_reason_spec : exportDataplaneReason spec rec cfg chassis data = ""%string <-> attached_here.
Proof.
  unfold exportDataplaneReason, attached_here. split.
  - intros H. destruct (identity_agrees spec rec) eqn:Ei; [|done]. apply identity_agrees_spec in Ei. simpl in H.
    destruct (bool_decide (sp_LogicalSwitch spec = _)) eqn:Es; [|done]. bools. simpl in H.
    destruct (sp_IPAddresses spec) as [|prefix []]; [done| |done]. destruct (ParsePrefix prefix) as [ip|] eqn:Ep; [|done].
    destruct (Is4 ip) eqn:E4; [|done]. apply port_reason_spec in H as (l & i & p & b & home & H). split_and!; [assumption..|]. exists prefix, ip, l, i, p, b, home. split_and!; [done|assumption..].
  - intros (Hi%identity_agrees_spec & Hs & prefix & ip & l & i & p & b & home & Ha & Hp & H4 & H). rewrite Hi, (bool_decide_eq_true_2 _ Hs), Ha, Hp, H4.
    simpl. apply port_reason_spec. exists l, i, p, b, home. exact H.
Qed.
End evidence.

(** C19: the node agent's readiness check says exactly that the databases show the
    attachment: an empty reason means that the record, the specification and the runtime
    agree on one pod, and that one northbound port with its ownership and address, in the
    network's switch alone, one ready OVS interface with its ownership, behind one port on
    the integration bridge alone, and one southbound binding that is up on this chassis
    exist; and whenever they exist the reason is empty. *)
Theorem export_reason_exact spec rec cfg chassis data :
  exportDataplaneReason spec rec cfg chassis data = ""%string <-> attached_here spec rec cfg chassis data.
Proof. apply dataplane_reason_spec. Qed.

(** ** The observer of attachments *)

Section cni.
Context {MR : MapRange} {W : Type} (snapshot : M W exportSnapshot) (records : W -> gmap string endpointRecord) (network : networkBackend W).
Context (config : ExporterConfig).

(** The endpoint that a record stands for, when its network exports attachments and the databases show it. *)
Definition exported (data : exportSnapshot) (rec : endpointRecord) (ep : LocalEndpoint) : Prop :=
  exists cfg prefix ip, network_configs (c_Networks config) !! sp_NetworkID (rec_endpointSpec rec) = Some cfg
    /\ n_Enabled cfg = true /\ ExportSource cfg = "cni"%string
    /\ attached_here (rec_endpointSpec rec) rec cfg (c_LocalChassis config) data
    /\ sp_IPAddresses (rec_endpointSpec rec) = [prefix] /\ ParsePrefix prefix = Some ip /\ ep = local_endpoint config cfg (rec_endpointSpec rec) ip.
Definition verified (rec : endpointRecord) : Prop :=
  exists w w' st, nb_Check network (endpointKey (rec_identity rec)) rec w = (w', Ok st).

Lemma record_reason_spec data rec : record_reason config data rec = ""%string <->
  exists cfg, network_configs (c_Networks config) !! sp_NetworkID (rec_endpointSpec rec) = Some cfg /\ n_Enabled cfg = true /\ ExportSource cfg = "cni"%string
    /\ attached_here (rec_endpointSpec rec) rec cfg (c_LocalChassis config) data.
Proof.
  unfold record_reason. cbv zeta. destruct (network_configs _ !! _) as [cfg|]; [|split; [done|naive_solver]].
  destruct (n_Enabled cfg) eqn:Ee, (bool_decide (ExportSource cfg = _)) eqn:Es; bools; simpl; rewrite ?dataplane_reason_spec.
  - split; [by exists cfg|]. by intros (? & [= ->] & _ & _ & ?).
  - split; [done|]. intros (? & [= ->] & _ & ? & _). done.
  - split; [done|]. intros (? & [= ->] & ? & _). congruence.
  - split; [done|]. intros (? & [= ->] & ? & _). congruence.
Qed.
Lemma exported_total data rec : record_reason config data rec = ""%string -> exists ep, exported data rec ep.
Proof.
  intros (cfg & Hc & He & Hs & Ha)%record_reason_spec. pose proof Ha as (_ & _ & prefix & ip & l & i & p & b & home & Hi & Hp & _).
  eexists. exists cfg, prefix, ip. split_and!; done.
Qed.
Lemma exported_unique data rec ep ep' : exported data rec ep -> exported data rec ep' -> ep = ep'.
Proof. intros (c & p & i & Hc & _ & _ & _ & Hp & Hi & ->) (c' & p' & i' & Hc' & _ & _ & _ & Hp' & Hi' & ->). congruence. Qed.

(** One record, then all of them. *)
Lemma cni_step_run data acc rec s s' eps : cni_step network config data acc rec s = (s', Ok eps) ->
  (record_reason config data rec <> ""%string /\ eps = acc) \/ (exists ep, exported data rec ep /\ eps = acc ++ [ep] /\ verified rec).
Proof.
  unfold cni_step. cbv zeta. destruct (bool_decide (record_reason config data rec = ""%string)) eqn:Er; bools; simpl.
  - intros [(s1 & r & Hc & H)|(e & _ & [=])]%bind_inv. right. destruct r as [st|e].
    + destruct (exported_total data rec Er) as (ep & Hep). pose proof Hep as (cfg & prefix & ip & Hcfg & _ & _ & _ & Hpre & Hip & ->).
      rewrite Hpre, Hcfg, Hip in H. exists (local_endpoint config cfg (rec_endpointSpec rec) ip). split; [done|].
      apply bind_inv in H as [(s2 & u & _ & H)|(e & _ & [=])]. unfold ret in H. simplify_eq. split; [done|].
      unfold attempt in Hc. destruct (on_snd _ s) as [s2' r'] eqn:E. simplify_eq. unfold on_snd in E.
      destruct (nb_Check network _ rec s.2) as [w' r''] eqn:E2. simplify_eq. by exists s.2, w', st.
    + apply bind_inv in H as [(s2 & u & _ & [=])|(e' & _ & [=])].
  - left. split; [done|]. apply bind_inv in H as [(s1 & u & _ & H)|(e & _ & [=])]. unfold ret in H. by simplify_eq.
Qed.
Lemma cni_loop_run data recs : forall acc s s' eps, mfold (cni_step network config data) acc recs s = (s', Ok eps) ->
  (forall ep, ep ∈ eps <-> ep ∈ acc \/ exists rec, rec ∈ recs /\ exported data rec ep)
  /\ forall rec ep, rec ∈ recs -> exported data rec ep -> verified rec.
Proof.
  induction recs as [|rec l IH]; intros acc s s' eps H; simpl in H.
  - unfold ret in H. simplify_eq. split; [|set_solver]. intros ep. split; [by left|]. intros [?|(r & Hr & _)]; [done|]. by apply not_elem_of_nil in Hr.
  - apply bind_inv in H as [(s1 & acc' & H1 & H)|(e & _ & [=])]. destruct (IH _ _ _ _ H) as [IHe IHv].
    apply cni_step_run in H1 as [[Hr ->]|(ep0 & Hep & -> & Hv)].
    + assert (forall ep, ~ exported data rec ep) as Hno.
      { intros ep (cfg & prefix & ip & Hc & He & Hs & Ha & _). apply Hr, record_reason_spec. by exists cfg. }
      split; [|intros r ep [->|Hin]%elem_of_cons Hx; [by destruct (Hno ep)|by eapply IHv]]. intros ep. rewrite IHe. split.
      * intros [?|(r & Hin & Hx)]; [by left|]. right. exists r. split; [by right|done].
      * intros [?|(r & [->|Hin]%elem_of_cons & Hx)]; [by left|by destruct (Hno ep)|]. right. by exists r.
    + split.
      * intros ep. rewrite IHe, elem_of_app, list_elem_of_singleton. split.
        -- intros [[?| ->]|(r & Hin & Hx)]; [by left|right; exists rec; split; [left|done]|]. right. exists r. split; [by right|done].
        -- intros [?|(r & [->|Hin]%elem_of_cons & Hx)]; [by left; left|left; right; by eapply exported_unique|]. right. by exists r.
      * intros r ep [->|Hin]%elem_of_cons Hx; [done|by eapply IHv].
Qed.

Lemma cni_observed obs w s' eps :
  cni_DesiredLocalEndpoints snapshot records network config (obs, w) = (s', Ok eps) ->
  exists data w1, snapshot w = (w1, Ok data)
    /\ (forall ep, ep ∈ eps <-> exists key rec, records w1 !! key = Some rec /\ exported data rec ep)
    /\ forall key rec ep, records w1 !! key = Some rec -> exported data rec ep -> verified rec.
Proof.
  unfold cni_DesiredLocalEndpoints. intros H. apply bind_inv in H as [(s1 & u & H1 & H)|(e & _ & [=])]. unfold observe_as, modify in H1. simplify_eq/=.
  apply bind_inv in H as [(s2 & r & H2 & H)|(e & _ & [=])]. unfold attempt, on_snd in H2. simpl in H2. destruct (snapshot w) as [w1 r'] eqn:Es. simplify_eq.
  destruct r as [data|e]; [|apply bind_inv in H as [(s3 & u & _ & [=])|(e' & _ & [=])]]. exists data, w1. split; [done|].
  rewrite bind_gets in H. simpl in H. apply bind_inv in H as [(s3 & u & _ & H)|(e & _ & [=])]. apply cni_loop_run in H as [He Hv].
  assert (forall rec, rec ∈ sorted_records records w1 <-> exists key, records w1 !! key = Some rec) as Hin.
  { intros rec. unfold sorted_records. rewrite sort_by_elem, list_elem_of_fmap. split; [intros ([k r] & -> & Hk%range_lookup); by exists k|].
    intros [k Hk]. exists (k, rec). by rewrite range_lookup. }
  split.
  - intros ep. rewrite He. split; [intros [Hn|(rec & [key Hk]%Hin & Hx)]; [by apply not_elem_of_nil in Hn|by exists key, rec]|].
    intros (key & rec & Hk & Hx). right. exists rec. split; [|done]. apply Hin. by exists key.
  - intros key rec ep Hk Hx. eapply Hv; [|done]. apply Hin. by exists key.
Qed.
(** The observer of attachments offers exactly the attachments the databases show.
    When [DesiredLocalEndpoints] answers, it has read a complete snapshot, and its
    endpoints are exactly those of the records of the server whose network exports
    attachments and whose rows prove them; each of them also passed the check of its Linux
    attachment. *)
Theorem cni_observer_exact obs w s' eps :
  cni_DesiredLocalEndpoints snapshot records network config (obs, w) = (s', Ok eps) ->
  exists data w1, snapshot w = (w1, Ok data)
    /\ (forall ep, ep ∈ eps <-> exists key rec, records w1 !! key = Some rec /\ exported data rec ep)
    /\ forall key rec ep, records w1 !! key = Some rec -> exported data rec ep -> verified rec.
Proof. apply cni_observed. Qed.
End cni.

(** ** The observer of native ports *)

(** A loop whose rounds append what a relation says. *)
Lemma rfold_collects {A B} (f : list B -> A -> result (list B)) (R : A -> B -> Prop) l :
  (forall acc x acc', x ∈ l -> f acc x = Ok acc' -> forall b, b ∈ acc' <-> b ∈ acc \/ R x b) ->
  forall acc acc', rfold f acc l = Ok acc' -> forall b, b ∈ acc' <-> b ∈ acc \/ exists x, x ∈ l /\ R x b.
Proof.
  induction l as [|x l IH]; intros Hf acc acc' H b; simpl in H.
  - simplify_eq. split; [by left|]. intros [?|(x & Hx & _)]; [done|]. by apply not_elem_of_nil in Hx.
  - destruct (f acc x) as [acc1|] eqn:E; [|done]. simpl in H. rewrite (IH (fun a y a' Hy => Hf a y a' (proj2 (elem_of_cons _ _ _) (or_intror Hy))) _ _ H b).
    rewrite (Hf acc x acc1) by (done || left). split.
    + intros [[?|?]|(y & Hy & ?)]; [by left|right; exists x; split; [left|done]|right; exists y; split; [by right|done]].
    + intros [?|(y & [->|Hy]%elem_of_cons & ?)]; [by left; left|by left; right|]. right. by exists y.
Qed.

Section native.
Context (config : ExporterConfig) (data : exportSnapshot) (chassis : string).

(** The switch of a network, with the ports of the rows that carry its name. *)
Record native_switch (cfg : EVPNNetworkConfig) (uuid : string) (members : list string) : Prop := {
  nw_named : uuid <> ""%string;
  nw_row : exists row, row ∈ es_Switches data /\ xs_Name row = n_LogicalSwitch cfg /\ xs_UUID row = uuid
    /\ Forall (fun kv => at_key (xs_OtherConfig row) kv.1 = kv.2) (native_settings cfg)
    /\ Contains ("," +:+ at_key (xs_OtherConfig row) "dynamic-routing-redistribute" +:+ ",") ",fdb," = true;
  nw_members : members = concat (xs_Ports <$> List.filter (fun r => bool_decide (xs_Name r = n_LogicalSwitch cfg)) (es_Switches data));
}.
(** A binding of a port that OVN serves on this chassis with a static address, and its endpoint. *)
Record native_static (cfg : EVPNNetworkConfig) (uuid : string) (lsp : LogicalSwitchPort) (pb : exportPortBinding) (ep : LocalEndpoint) : Prop := {
  nv_here : xb_LogicalPort pb = lsp_Name lsp /\ xb_Chassis pb = Some chassis /\ xb_Up pb = Some true;
  nv_vif : xb_Type pb = ""%string /\ at_key (xb_Options pb) "dynamic-routing-advertise" <> "false"%string;
  nv_datapath : exists dp, dp ∈ es_Datapaths data /\ xd_UUID dp = xb_Datapath pb /\ at_key (xd_ExternalIDs dp) "logical-switch" = uuid;
  nv_identified : xb_UUID pb <> ""%string /\ lsp_UUID lsp <> ""%string;
  nv_address : exists raw mac ips, lsp_Addresses lsp = [raw] /\ xb_MAC pb = [raw] /\ native_address raw = Ok (mac, ips)
    /\ ep = {| NetworkID := n_NetworkID cfg; EndpointID := ("ovn-netlink/" +:+ lsp_UUID lsp)%string; Incarnation := xb_UUID pb; MACAddress := mac;
               IPAddresses := ips; VNI := n_VNI cfg; RouteDistinguisher := n_RouteDistinguisher cfg; RouteTargets := n_RouteTargets cfg;
               LocalVTEP := n_LocalVTEP cfg; NodeName := c_NodeName config; Chassis := c_LocalChassis config; Advertise := true;
               MACOnly := bool_decide (ips = []) |};
}.

Lemma native_binding_run cfg uuid lsp acc pb acc' : native_binding config cfg chassis uuid (es_Datapaths data) lsp acc pb = Ok acc' ->
  forall ep, ep ∈ acc' <-> ep ∈ acc \/ native_static cfg uuid lsp pb ep.
Proof.
  unfold native_binding. intros H ep.
  destruct (negb (bool_decide (xb_LogicalPort pb = _)) || _) eqn:E1; [simplify_eq; split; [by left|intros [?|[[? [? ?]] ? ? ? ?]]; [done|]]; apply orb_true_iff in E1 as [E1|E1]; bools; congruence|].
  destruct (negb (bool_decide (xb_Up pb = _))) eqn:E2; [done|].
  destruct (negb (bool_decide (xb_Type pb = _)) || _) eqn:E3; [simplify_eq; split; [by left|intros [?|[? [? ?] ? ? ?]]; [done|]]; apply orb_true_iff in E3 as [E3|E3]; bools; congruence|].
  destruct (negb (existsb _ _) || _ || _) eqn:E4; [done|]. bools. apply existsb_exists in H0 as (dp & Hdp%list_elem_of_In & Hdpx).
  destruct (lsp_Addresses lsp) as [|a []] eqn:Ea; [done| |done]. destruct (xb_MAC pb) as [|b []] eqn:Em; [done| |done].
  destruct (bool_decide (a = b)) eqn:Eab; [|done]. bools. subst b. simpl in H. destruct (native_address a) as [[mac ips]|] eqn:En; simplify_eq/=.
  rewrite elem_of_app, list_elem_of_singleton. split.
  - intros [?| ->]; [by left|]. right. split; [done..|by exists dp|done|]. by exists a, mac, ips.
  - intros [?|[_ _ _ _ (raw & mac' & ips' & Hr & _ & Hn & ->)]]; [by left|]. right. rewrite Ea in Hr. simplify_eq. by rewrite En in Hn; simplify_eq.
Qed.
Lemma switch_row cfg uuid members : rfold (switch_step cfg) (""%string, []) (es_Switches data) = Ok (uuid, members) -> uuid <> ""%string ->
  native_switch cfg uuid members /\ forall uuid' members', native_switch cfg uuid' members' -> uuid' = uuid /\ members' = members.
Proof.
  intros H Hne. set (I := fun (dn : list exportSwitch) (acc : string * list string) =>
    acc.2 = concat (xs_Ports <$> List.filter (fun r => bool_decide (xs_Name r = n_LogicalSwitch cfg)) dn)
    /\ (acc.1 <> ""%string -> exists row, row ∈ dn /\ xs_Name row = n_LogicalSwitch cfg /\ xs_UUID row = acc.1
        /\ Forall (fun kv => at_key (xs_OtherConfig row) kv.1 = kv.2) (native_settings cfg)
        /\ Contains ("," +:+ at_key (xs_OtherConfig row) "dynamic-routing-redistribute" +:+ ",") ",fdb," = true)
    /\ forall row, row ∈ dn -> xs_Name row = n_LogicalSwitch cfg -> xs_UUID row = ""%string \/ xs_UUID row = acc.1).
  assert (I (es_Switches data) (uuid, members)) as (H1 & H2 & H3).
  2: { split; [split; [done|by apply H2|done]|]. intros u' m' [Hu (row & Hr & Hn & <- & _) ->]. split; [|done]. by destruct (H3 row Hr Hn). }
  apply (rfold_invariant _ I) in H; [done|split_and!; [done|done|intros row Hr; by apply not_elem_of_nil in Hr]|].
  intros dn sw [u m] [u' m'] _ (Im & Ir & Ia) Hs. unfold switch_step in Hs. simpl in Im, Ir, Ia.
  unfold I. rewrite List.filter_app. cbn [List.filter fst snd]. destruct (bool_decide (xs_Name sw = _)) eqn:En; cbn [negb fst] in Hs.
  - destruct (bool_decide (u = _)) eqn:Eu; [|done]. cbn [negb] in Hs. destruct (forallb _ _) eqn:Ef; [|done]. cbn [negb] in Hs.
    destruct (Contains _ _) eqn:Ec; [|done]. cbn [negb snd] in Hs. simplify_eq. bools. rewrite fmap_app, concat_app. cbn [fmap list_fmap concat]. rewrite app_nil_r. split_and!; [done| |].
    2: { intros row [Hr| ->%list_elem_of_singleton]%elem_of_app Hn; [|by right]. left. destruct (Ia row Hr Hn); congruence. }
    intros _. exists sw. split_and!; [set_solver|done..| |done]. apply Forall_forall. intros kv Hkv%list_elem_of_In.
    rewrite forallb_forall in Ef. apply Ef in Hkv. by bools.
  - simplify_eq. rewrite app_nil_r. bools. split_and!; [done| |].
    + intros Hu. destruct (Ir Hu) as (row & Hr & Hrest). exists row. split; [set_solver|done].
    + intros row [Hr| ->%list_elem_of_singleton]%elem_of_app Hn; [by apply Ia|done].
Qed.
Definition serves (cfg : EVPNNetworkConfig) : Prop := n_Enabled cfg = true /\ ExportSource cfg = "ovn-netlink"%string.
Definition native_of (cfg : EVPNNetworkConfig) (ep : LocalEndpoint) : Prop :=
  exists uuid members lsp pb, native_switch cfg uuid members /\ (lsp ∈ es_LSPs data /\ lsp_UUID lsp ∈ members) /\ pb ∈ es_Bindings data
    /\ native_static cfg uuid lsp pb ep.
Lemma native_port_run cfg uuid members acc lsp acc' : native_port config cfg chassis (uuid, members) data acc lsp = Ok acc' ->
  forall ep, ep ∈ acc' <-> ep ∈ acc \/ (lsp_UUID lsp ∈ members /\ exists pb, pb ∈ es_Bindings data /\ native_static cfg uuid lsp pb ep).
Proof.
  unfold native_port. cbn [fst snd]. intros H ep. case_bool_decide as Hm; cbn [negb] in H; [|simplify_eq; naive_solver].
  rewrite (rfold_collects _ (native_static cfg uuid lsp) _ (fun a pb a' _ => native_binding_run cfg uuid lsp a pb a') _ _ H ep). naive_solver.
Qed.
Lemma native_network_run acc cfg acc' : native_network config chassis data acc cfg = Ok acc' ->
  (serves cfg -> exists uuid members, native_switch cfg uuid members) /\ forall ep, ep ∈ acc' <-> ep ∈ acc \/ (serves cfg /\ native_of cfg ep).
Proof.
  unfold native_network, serves. intros H. destruct (n_Enabled cfg) eqn:Ee; [|simplify_eq/=; naive_solver].
  destruct (bool_decide (ExportSource cfg = _)) eqn:Es; bools; cbn [negb orb] in H; [|simplify_eq; naive_solver].
  destruct (rfold (switch_step cfg) _ _) as [[uuid members]|] eqn:Esw; [|done]. cbn [rbind fst] in H. case_bool_decide as Hu; [done|].
  apply switch_row in Esw as [Hsw Huniq]; [|done]. split; [by exists uuid, members|]. intros ep.
  rewrite (rfold_collects _ _ _ (fun a lsp a' _ => native_port_run cfg uuid members a lsp a') _ _ H ep). unfold native_of. split; (intros [?|Hx]; [by left|right]).
  - destruct Hx as (lsp & Hl & Hm & pb & Hpb & Hn). split; [done|]. by exists uuid, members, lsp, pb.
  - destruct Hx as (_ & u & m & lsp & pb & Hs & [Hl Hm] & Hpb & Hn). destruct (Huniq u m Hs) as [-> ->]. exists lsp. split; [done|]. split; [done|]. by exists pb.
Qed.
End native.

Lemma chassis_row name rows uuid : rfold (chassis_step name) ""%string rows = Ok uuid -> uuid <> ""%string ->
  exists row, row ∈ rows /\ xc_Name row = name /\ xc_UUID row = uuid.
Proof.
  intros H. set (I := fun (dn : list exportChassis) (u : string) => u <> ""%string -> exists row, row ∈ dn /\ xc_Name row = name /\ xc_UUID row = u).
  apply (rfold_invariant _ I) in H; [exact H|intros Hn; by destruct Hn|]. intros dn row u u' _ Hi Hs Hu. unfold chassis_step in Hs.
  destruct (bool_decide (xc_Name row = name)) eqn:En; simpl in Hs; [|simplify_eq; destruct (Hi Hu) as (r & Hr & ?); exists r; set_solver].
  destruct (bool_decide (u = _)); simplify_eq/=. bools. exists row. set_solver.
Qed.


(** ** From the databases to the routes *)

Section advertised.
Context {BT : BgpTypes} {BL : BgpLib} {MR : MapRange} {W : Type} {CX : Ctx (list ExportObservation * W)}.
Context (snapshot : M W exportSnapshot) (records : W -> gmap string endpointRecord) (network : networkBackend W) (config : ExporterConfig).

(** C18: what is advertised is attached here.  When a live round of an exporter on the
    observer of attachments succeeds, the acknowledged routes are those of the attachments
    that one snapshot of the three databases proved: every acknowledged route is the
    endpoint of a server record that the snapshot shows attached on this chassis and whose
    Linux attachment was checked, and every such record has its acknowledged route. *)
Theorem advertised_is_attached (e e' : EndpointExporter (list ExportObservation * W)) obs w s' res :
  e_Observer e = Some (cni_DesiredLocalEndpoints snapshot records network config) ->
  exporter_Reconcile (e, (obs, w)) = ((e', s'), (res, None)) -> e_DryRun e = false ->
  exists data w1, snapshot w = (w1, Ok data)
    /\ (forall k o, rr_applied (the_rr e') !! k = Some o -> exists key rec ep, records w1 !! key = Some rec
          /\ exported config data rec ep /\ verified network rec /\ equivalent (o_Endpoint o) ep)
    /\ forall key rec ep, records w1 !! key = Some rec -> exported config data rec ep ->
         exists k o, wire ep = Some k /\ rr_applied (the_rr e') !! k = Some o /\ equivalent (o_Endpoint o) ep.
Proof.
  intros Ho H Hd. apply reconcile_success in H as (observe & w2 & desired & dm & Hobs & Hrun & _ & Hdm & Hc & _); [|done].
  change (e_Observer e = Some observe) in Hobs. rewrite Ho in Hobs. simplify_eq. apply cni_observed in Hrun as (data & w1 & Hs & He & Hv). exists data, w1. split; [done|].
  apply desired_map_inv in Hdm as [Hd1 Hd2]. split.
  - intros k o Hk. specialize (Hc k). rewrite Hk in Hc. inversion Hc as [? ep Heq Ho' Hep|]; subst.
    destruct (Hd1 k ep) as (_ & _ & Hin & _); [done|]. apply He in Hin as (key & rec & Hr & Hx). exists key, rec, ep. split_and!; eauto.
  - intros key rec ep Hr Hx. destruct (Hd2 ep) as (k & ep' & Hw & Hep & Heq).
    + apply He. by exists key, rec.
    + by destruct Hx as (cfg & prefix & ip & _ & _ & _ & _ & _ & _ & ->).
    + specialize (Hc k). rewrite Hep in Hc. inversion Hc as [o ? Heq' Hk Hx'|]; subst. exists k, o. split_and!; [done..|]. by etrans.
Qed.
End advertised.
