(* ===== verification/CniPluginSafety.v ===== *)
(** * What the CNI plugin promises

    The identity it gives an endpoint is the one the exporter accepts; whatever the server
    answers can be printed; timeouts are not what the configuration says when they are
    absurdly long. *)

From S2P Require Import Prelude GoStd Journal GoJson Calls Type2 Attachment Endpoint CniTypes CniServer CniPlugin CniContinuity ExportObserver ExportObserverSafety.
From Stdlib Require Import Ascii.

(** ** Trimmed names *)

Lemma TrimSpace_no_front s : TrimSpace s = s <-> no_front space_runes (chars s) /\ no_front (@rev ascii <$> space_runes) (rev (chars s)).
Proof.
  split.
  - intros H. unfold TrimSpace in H. set (l := trim_l (chars s)) in *.
    assert (Hl : no_front space_runes l) by (apply trim_front_no_front; [apply space_runes_nonempty|done]).
    set (u := trim_front (@rev ascii <$> space_runes) (length l) (rev l)) in *.
    assert (Hu : no_front (@rev ascii <$> space_runes) u).
    { apply trim_front_no_front; [apply space_runes_rev_nonempty|]. by rewrite length_rev. }
    assert (Hs : chars s = rev u) by (rewrite <-H, chars_str; reflexivity). split.
    + destruct (trim_front_suffix (@rev ascii <$> space_runes) (length l) (rev l)) as [p Hp]. fold u in Hp. apply (f_equal (@rev ascii)) in Hp.
      rewrite rev_involutive, rev_app_distr in Hp. rewrite Hs. apply (no_front_prefix _ _ (rev p)). by rewrite <-Hp.
    + by rewrite Hs, rev_involutive.
  - intros [H1 H2]. unfold TrimSpace, trim_l. rewrite trim_front_id by done. unfold trim_r. rewrite trim_front_id by done. by rewrite rev_involutive, str_chars.
Qed.
(** Trimming stops at a byte that is part of no space. *)
Definition bar : ascii := "|"%char.
Lemma bar_not_space : Forall (fun p => bar ∉ p) space_runes /\ Forall (fun p => bar ∉ p) (@rev ascii <$> space_runes).
Proof.
  assert (H : forall ps : list (list ascii), forallb (fun p => bool_decide (bar ∉ p)) ps = true -> Forall (fun p => bar ∉ p) ps).
  { intros ps Hp. apply Forall_forall. intros p Hin. rewrite forallb_forall in Hp. apply (bool_decide_eq_true (bar ∉ p)), Hp, list_elem_of_In, Hin. }
  split; apply H; vm_compute; reflexivity.
Qed.
Lemma no_front_bar ps l1 l2 : Forall (fun p => bar ∉ p) ps -> no_front ps l1 -> l1 <> [] -> no_front ps (l1 ++ bar :: l2).
Proof.
  intros Hb Hn Hne. unfold no_front in *. rewrite Forall_forall in Hb, Hn |- *. intros p Hp. destruct (strip p _) as [r|] eqn:E; [|done]. exfalso.
  apply strip_Some in E. symmetry in E. apply app_eq_inv in E as [(k & Hp' & Hr)|(k & Hl & Hr)].
  - subst p. destruct k as [|c k]; simpl in Hr.
    + rewrite app_nil_r in Hp. specialize (Hn l1 Hp). assert (strip l1 l1 = Some []) by (apply strip_Some; by rewrite app_nil_r). congruence.
    + injection Hr as <- _. apply (Hb _ Hp). apply elem_of_app. right. left.
  - subst l1. specialize (Hn p Hp). assert (strip p (p ++ k) = Some k) by by apply strip_Some. congruence.
Qed.
Lemma chars_nonempty s : s <> ""%string -> chars s <> [].
Proof. by destruct s. Qed.
(** A name between bars is trimmed when its ends are. *)
Lemma TrimSpace_bars a b c : TrimSpace a = a -> a <> ""%string -> TrimSpace c = c -> c <> ""%string ->
  TrimSpace (a +:+ "|" +:+ b +:+ "|" +:+ c) = (a +:+ "|" +:+ b +:+ "|" +:+ c)%string.
Proof.
  intros [Ha _]%TrimSpace_no_front Hna [_ Hc]%TrimSpace_no_front Hnc. destruct bar_not_space as [B1 B2]. apply TrimSpace_no_front. rewrite !chars_app. split.
  - change (chars "|"%string) with [bar]. cbn [app]. apply no_front_bar; [done..|by apply chars_nonempty].
  - change (chars "|"%string) with [bar]. rewrite !rev_app_distr, <-!app_assoc. cbn [rev app]. apply no_front_bar; [done..|].
    intros H%(f_equal (@rev ascii)). rewrite rev_involutive in H. by apply (chars_nonempty c Hnc).
Qed.
Lemma firstNonEmpty_trimmed l : TrimSpace (firstNonEmpty l) = firstNonEmpty l.
Proof. induction l as [|v l IH]; [done|]. cbn [firstNonEmpty]. cbv zeta. case_bool_decide; [done|]. apply TrimSpace_idem. Qed.
Lemma firstNonEmpty_last l v : blank v = false -> firstNonEmpty (l ++ [v]) <> ""%string.
Proof.
  intros Hv. induction l as [|x l IH]; cbn [app firstNonEmpty]; cbv zeta; [|by case_bool_decide].
  unfold blank in Hv. rewrite Hv. by apply bool_decide_eq_false in Hv.
Qed.
Lemma firstNonEmpty_app l1 l2 : firstNonEmpty l1 = ""%string -> firstNonEmpty (l1 ++ l2) = firstNonEmpty l2.
Proof. induction l1 as [|x l IH]; [done|]. cbn [app firstNonEmpty]. cbv zeta. case_bool_decide; done. Qed.

(** ** Identity *)

Section plugin.
Context {JP : Json pluginConfig} (LoadArgs : string -> result cniArgs).

Lemma parseConfig_run stdin raw c a : parseConfig LoadArgs stdin raw = Ok (c, a) ->
  exists c0, json_Unmarshal stdin = Some c0 /\ c = trimmed_config c0 /\ pc_NetworkID c <> ""%string /\ pc_AttachmentID c <> ""%string /\ pc_CNIVersion c <> ""%string.
Proof.
  unfold parseConfig. destruct (json_Unmarshal stdin) as [c0|]; [|done]. cbn [of_option rbind]. cbv zeta. intros H.
  do 4 (case_bool_decide; [done|]). destruct (match pc_SupportedVersions _ with [] => _ | _ => _ end); [done|].
  destruct (if blank raw then _ else _) as [p|]; [|done]. cbn [rbind] in H. destruct (_ && _); [done|]. simplify_eq. by exists c0.
Qed.
Context (stdin raw : string) (c : pluginConfig) (a : cniArgs) (args : CmdArgs) (Hc : parseConfig LoadArgs stdin raw = Ok (c, a)).
Notation identity := (buildEndpointIdentity c a args).
Notation runtime := (buildRuntimeContext c args).

Lemma request_accepted i rt att : validateAddRequest (Some (buildAddRequest c a args)) = Ok (i, rt, att) -> i = identity /\ rt = runtime.
Proof.
  unfold validateAddRequest, validateIdentity. cbn [add_Identity add_Runtime add_Attachment buildAddRequest]. repeat (destruct (blank _); [done|]). cbn [rbind].
  destruct (validateStaticConfig _); [|done]. cbn [rbind]. by intros [= -> -> _].
Qed.
Context (Hct : blank (ca_ContainerID args) = false).
Lemma workload_uid : ei_WorkloadUid identity <> ""%string /\ TrimSpace (ei_WorkloadUid identity) = ei_WorkloadUid identity.
Proof.
  split; [|apply firstNonEmpty_trimmed]. apply (firstNonEmpty_last [pc_WorkloadUID c; WORKLOAD_UID a; K8S_POD_UID a]). unfold blank in *. by rewrite TrimSpace_idem.
Qed.
(** The specification that the server derives. *)
Lemma request_spec spec : mapCNIAddRequestToEndpointSpec (buildAddRequest c a args) = Ok spec ->
  wl_Kind (sp_Workload spec) = "pod"%string /\ wl_UID (sp_Workload spec) = ei_WorkloadUid identity /\ sp_ID spec = TrimSpace (ei_EndpointId identity)
  /\ sp_NetworkID spec = TrimSpace (ei_NetworkId identity) /\ sp_AttachmentID spec = TrimSpace (ei_AttachmentId identity)
  /\ sp_Incarnation spec = TrimSpace (ei_Incarnation identity).
Proof.
  destruct workload_uid as [Hu Htu]. unfold mapCNIAddRequestToEndpointSpec. cbn [add_Identity add_Runtime add_Attachment add_K8S buildAddRequest default]. cbv zeta.
  case_bool_decide; [done|]. set (spec0 := spec_of _ _ _ _ _).
  assert (Huid : wl_UID (sp_Workload spec0) = ei_WorkloadUid identity).
  { unfold spec0, spec_of. cbn [sp_Workload wl_UID firstNonEmpty]. cbv zeta. by rewrite Htu, bool_decide_eq_false_2. }
  rewrite Huid, (bool_decide_eq_false_2 _ Hu). destruct (EndpointSpec_Validate _); [|done]. cbn [rbind]. intros [= <-]. split_and!; try reflexivity. exact Huid.
Qed.

End plugin.

(** ** Printing *)

Lemma parseCIDR_total v : is_Some (ParseCIDR v) -> is_Some (parseCIDR v).
Proof.
  intros [ip E]. unfold parseCIDR. rewrite E. cbn. unfold ParseCIDR in E. destruct (split _ (chars v)) as [|x [|mask [|y l]]]; try done.
  - destruct (ParseAddr (str x)); [|done]. cbn in E. destruct (_ || _); [done|]. destruct (decimal 0 mask); [by eexists|done].
  - destruct (ParseAddr (str x)); [|done]. cbn in E. by rewrite orb_true_r in E.
Qed.
(** A result of the server can be printed, with the address on its own interface. *)
Lemma cni_result_prints version name mac sandbox ip cniVersion : (ip = ""%string \/ is_Some (ParseCIDR (TrimSpace ip))) ->
  exists r, toCNIResult (Some (cni_result version name mac sandbox ip)) cniVersion = Ok r
    /\ (forall x, x ∈ pr_IPs r -> Some (pi_Address x) = parseCIDR (TrimSpace ip) /\ forall i, pi_Interface x = Some i -> 0 <= i < Z.of_nat (length (pr_Interfaces r)))
    /\ (ip <> ""%string -> pr_IPs r <> []).
Proof.
  intros Hip. unfold toCNIResult, cni_result. cbn [cr_Interfaces cr_Ips cr_Routes cr_Dns cr_CniVersion]. cbv zeta.
  generalize (if negb (bool_decide (name = ""%string)) || negb (bool_decide (mac = ""%string)) || negb (bool_decide (sandbox = ""%string))
              then [{| ci_Name := name; ci_Mac := mac; ci_Sandbox := sandbox |}] else []). intros ifs.
  case_bool_decide as Hb; cbn [rfold rbind].
  - eexists. split; [reflexivity|]. split; [|done]. intros x Hx. by apply not_elem_of_nil in Hx.
  - destruct Hip as [->|Hip]; [done|]. apply parseCIDR_total in Hip as [net En]. unfold to_ip. cbn [ip_Address ip_Gateway ip_Interface]. rewrite En. cbn [of_option rbind].
    change (parse_gateway "") with (@Ok (option Addr) None). cbn [rbind]. rewrite length_fmap.
    case_bool_decide as Hl; [|assert ((0 <? 0) || (Z.of_nat (length ifs) <=? 0) = false) as -> by (apply orb_false_iff; split; [done|lia])]; cbn [rbind app];
      eexists; (split; [reflexivity|]); (split; [|done]); intros x Hx%list_elem_of_singleton; subst x; (split; [done|]); intros i Hi; cbn in Hi; simplify_eq;
      cbn [pr_Interfaces]; rewrite length_fmap; lia.
Qed.

Section printing.
Context {W : Type} (endpoint : EndpointManager W) (network : networkBackend W).
(** The network backend reports an address or none. *)
Context (Hnet : forall key rec w w' st created, nb_Ensure network key rec w = (w', Ok (st, created)) ->
  blank (ns_StaticIPCIDR st) = true \/ is_Some (ParseCIDR (TrimSpace (ns_StaticIPCIDR st)))).

(** Whatever the server answers to an ADD can be printed: the plugin does not fail after
    the server has created an endpoint.  Every address of the printed result is one the server
    gave, on an interface of the result. *)
Theorem added_is_printable req s s' resp version : Add endpoint network req s = (s', Ok resp) ->
  exists r, toCNIResult (ad_Result resp) version = Ok r
    /\ forall x i, x ∈ pr_IPs r -> pi_Interface x = Some i -> 0 <= i < Z.of_nat (length (pr_Interfaces r)).
Proof.
  intros H. apply Add_spec in H as (key & rec0 & w1 & st & created & Hacc & Hens & _ & Hres & _). cbv zeta in Hres. rewrite Hres.
  destruct Hacc as [req0 i rt a spec -> Hv _ -> ->]. assert (Hr : rec_result (attached (requested i rt a spec) st) = Some (buildResultFromNetworkState (Some rt) (Some a) st)) by done.
  rewrite Hr. unfold buildResultFromNetworkState. edestruct cni_result_prints as (r & E & Hx & _); [|exists r; split; [exact E|]; intros x j Hin; by apply Hx].
  assert (Hva : TrimSpace (ar_StaticIpCidr a) = ""%string \/ is_Some (ParseCIDR (TrimSpace (ar_StaticIpCidr a)))).
  { unfold validateAddRequest in Hv. destruct (validateIdentity _); [|done]. cbn [rbind] in Hv. destruct (add_Runtime req0); [|done]. destruct (blank _); [done|].
    destruct (validateStaticConfig _) eqn:Es; [|done]. cbn [rbind] in Hv. simplify_eq. unfold validateStaticConfig in Es. cbv zeta in Es.
    destruct (decide (TrimSpace (ar_StaticIpCidr (default zero_attachment (add_Attachment req0))) = ""%string)) as [E|E]; [by left|]. right.
    rewrite (bool_decide_eq_false_2 _ E) in Es. cbn [negb andb] in Es. case_bool_decide as Hs; [exact Hs|done]. }
  cbn [GetStaticIpCidr from_option firstNonEmpty]. cbv zeta. rewrite !TrimSpace_idem. destruct (Hnet _ _ _ _ _ _ Hens) as [Hb|Hp].
  - unfold blank in Hb. rewrite Hb. destruct (bool_decide (TrimSpace (ar_StaticIpCidr a) = ""%string)) eqn:Hz; [by left|]. apply bool_decide_eq_false in Hz.
    rewrite TrimSpace_idem. destruct Hva as [|Hva]; [done|by right].
  - destruct (bool_decide (TrimSpace (ns_StaticIPCIDR st) = ""%string)) eqn:Hz; [apply bool_decide_eq_true in Hz; rewrite Hz in Hp; by destruct Hp|]. right. by rewrite TrimSpace_idem.
Qed.
End printing.

(** ** Timeouts *)

(** Timeouts: for every configured time that fits into 32 bits the deadline of the call
    is that time, positive and without overflow, the server is told the same, and dialling may
    take no longer than that or three seconds. *)
Theorem timeouts_exact (c0 : pluginConfig) a id : pc_TimeoutSeconds c0 < 2 ^ 32 -> let c := trimmed_config c0 in
  0 < pc_TimeoutSeconds c /\ rpcTimeout c = pc_TimeoutSeconds c * second /\ rm_TimeoutSeconds (buildRequestMeta c a id) = pc_TimeoutSeconds c
  /\ 0 < dialTimeout c /\ dialTimeout c = Z.min (rpcTimeout c) defaultDialTimeout.
Proof.
  intros Hlt. cbv zeta. assert (Ht : 0 < pc_TimeoutSeconds (trimmed_config c0) < 2 ^ 32).
  { unfold trimmed_config. cbn [pc_TimeoutSeconds]. unfold defaultTimeoutSeconds. destruct (Z.leb_spec (pc_TimeoutSeconds c0) 0); lia. }
  revert Ht. generalize (trimmed_config c0). clear c0 Hlt. intros c Ht. assert (Er : rpcTimeout c = pc_TimeoutSeconds c * second).
  { unfold rpcTimeout, int64, second. rewrite Z.mod_small by lia. lia. }
  unfold dialTimeout. rewrite Er. unfold defaultDialTimeout, second. cbn [rm_TimeoutSeconds buildRequestMeta]. unfold wrap32. rewrite Z.mod_small by lia.
  split_and!; try done; try lia; destruct (Z.leb_spec (pc_TimeoutSeconds c * 10 ^ 9) (3 * 10 ^ 9)); lia.
Qed.
(** Beyond that the deadline may lie in the past. *)
Example timeout_wraps c0 : pc_TimeoutSeconds c0 = 9223372037 -> rpcTimeout (trimmed_config c0) < 0.
Proof. intros E. unfold rpcTimeout, trimmed_config. cbn [pc_TimeoutSeconds]. rewrite E. vm_compute. reflexivity. Qed.

(** ** The commands *)

Section commands.
Context {W : Type} {JP : Json pluginConfig} (LoadArgs : string -> result cniArgs) (node : PluginNode W).
Notation anywhere := (fun _ : W => True).
Lemma call_anywhere {A} (m : M W A) : call anywhere anywhere m (answers anywhere m).
Proof. by apply call_answers. Qed.
Lemma call_deferring {A} (close : M W unit) (body : M W A) Q : call anywhere anywhere body Q -> call anywhere anywhere (deferring close body) Q.
Proof.
  intros Hb. eapply call_seq; [apply call_attempt, Hb|]. intros r Hr. eapply call_seq; [apply call_anywhere|]. intros u _. by apply call_lift.
Qed.
Lemma call_with_client {A} c (body : AgentClient W -> M W A) Q :
  (forall client, answers anywhere (pn_Dial node ("unix://" +:+ pc_NodeAgentSocket c)%string (dialTimeout c)) client -> call anywhere anywhere (body client) Q) ->
  call anywhere anywhere (with_client node c body) Q.
Proof. intros Hb. eapply call_seq; [apply call_wrap, call_anywhere|]. intros client Hd. by apply call_deferring, Hb. Qed.

(** What an ADD delivered: an accepted call with the request of this invocation, and its
    result on the output. *)
Record add_delivered (args : CmdArgs) : Prop := {
  dv_add : exists c a meta client resp r, parseConfig LoadArgs (ca_StdinData args) (ca_Args args) = Ok (c, a)
    /\ answers anywhere (pn_Dial node ("unix://" +:+ pc_NodeAgentSocket c)%string (dialTimeout c)) client
    /\ answers anywhere (ac_Add client (buildAddRequest c a args) meta) (Some resp) /\ ar_Success resp = true
    /\ toCNIResult (ar_Result resp) (pc_CNIVersion c) = Ok r /\ answers anywhere (pn_Print node r (pc_CNIVersion c)) tt;
}.
Definition del_delivered (args : CmdArgs) : Prop :=
  exists c a meta client resp outcome, parseConfig LoadArgs (ca_StdinData args) (ca_Args args) = Ok (c, a)
    /\ answers anywhere (pn_Dial node ("unix://" +:+ pc_NodeAgentSocket c)%string (dialTimeout c)) client
    /\ answers anywhere (ac_Del client (buildDelRequest c a args) meta) (Some resp) /\ dl_Success resp = true /\ dl_Outcome resp = Some outcome.
Lemma call_add_body c a args meta : parseConfig LoadArgs (ca_StdinData args) (ca_Args args) = Ok (c, a) ->
  call anywhere anywhere (add_body node c (buildAddRequest c a args) meta) (fun _ => add_delivered args).
Proof.
  intros Hc. apply call_with_client. intros client Hd. eapply call_seq; [apply call_wrap, call_anywhere|]. intros [resp|] Hr; [|apply call_fail].
  apply call_if; intros Hs; [apply call_fail|]. apply negb_false_iff in Hs.
  eapply call_seq; [apply (call_lift _ _ (fun r => toCNIResult (ar_Result resp) (pc_CNIVersion c) = Ok r)); destruct (toCNIResult _ _); by intros ? [= ->]|].
  intros r Ht. eapply call_weaken; [apply call_anywhere|]. intros [] Hp. split. exists c, a, meta, client, resp, r. auto 10.
Qed.

(** An ADD of the plugin reports success only when the node agent accepted the request of
    this very invocation and its result was printed; a DEL only when the agent answered with
    one of the outcomes that mean the endpoint is not there any more. *)
Theorem plugin_reports_success args w w' :
  (cmdAdd LoadArgs node args w = (w', Ok tt) -> add_delivered args) /\ (cmdDel LoadArgs node args w = (w', Ok tt) -> del_delivered args).
Proof.
  split; intros H.
  - assert (Hc : call anywhere anywhere (cmdAdd LoadArgs node args) (fun _ => add_delivered args)); [|by destruct (Hc _ _ _ I H) as [_ Hr]; apply (Hr tt)].
    eapply call_seq; [by apply (call_lift _ _ (fun x => parseConfig LoadArgs (ca_StdinData args) (ca_Args args) = Ok x))|]. intros [c a] Hp. cbv beta iota zeta.
    eapply call_seq; [apply call_anywhere|]. intros meta _. apply call_if; intros _; [|by apply call_add_body].
    eapply call_seq; [apply call_wrap, call_anywhere|]. intros ns _. by apply call_deferring, call_add_body.
  - assert (Hc : call anywhere anywhere (cmdDel LoadArgs node args) (fun _ => del_delivered args)); [|by destruct (Hc _ _ _ I H) as [_ Hr]; apply (Hr tt)].
    eapply call_seq; [by apply (call_lift _ _ (fun x => parseConfig LoadArgs (ca_StdinData args) (ca_Args args) = Ok x))|]. intros [c a] Hp. cbv beta iota zeta.
    eapply call_seq; [apply call_anywhere|]. intros meta _. apply call_with_client. intros client Hd. eapply call_seq; [apply call_wrap, call_anywhere|].
    intros [resp|] Hr; [|apply call_fail]. apply call_if; intros Hs; [apply call_fail|]. apply negb_false_iff in Hs.
    destruct (dl_Outcome resp) as [o|] eqn:Eo; [|apply call_fail]. assert (Hdel : del_delivered args) by (exists c, a, meta, client, resp, o; auto 10). destruct o; by apply call_ret.
Qed.
End commands.
