(* ===== verification/CniResources.v ===== *)
(** * The resources of an endpoint, observed and deleted

    Models the observer and the attestor that the durable continuity runs with:
    [nativeCNIObserver] and [KubernetesCNIWorkloadAttestor] of
    [src/pkg/nodeagent/cni_continuity_runtime.go], the exact deletion of
    [cni_continuity_delete.go] and the evidence of a sandbox in creation of
    [cni_continuity_sandbox.go] and [provider_containerd_linux.go].  The databases, the
    Kubernetes API, the container runtime and the kernel are parameters. *)

From S2P Require Import Prelude GoStd Journal GoJson Type2 Attachment Endpoint Observer CniTypes CniServer CniContinuity VethBackend ExportObserver.
From Stdlib Require Import Ascii.

(** ** The rows of an endpoint *)

(** A row by its name, unless a row of another name claims the endpoint. *)
Fixpoint named_row {A} (name : A -> string) (ids : A -> gmap string string) (target id : string) (found : option A) (rows : list A) : result (option A) :=
  match rows with
  | [] => Ok found
  | x :: rows =>
      if bool_decide (name x = target) then
        match found with Some _ => Err (Errorf "duplicate CNI row") | None => named_row name ids target id (Some x) rows end
      else if bool_decide (at_key (ids x) ExternalIDEndpointID = id) then Err (Errorf "endpoint identity exists under another name")
      else named_row name ids target id found rows
  end.
(** One reference to the row: where it may be, and how often it is. *)
Definition member_step (home : string) (acc : nat * string) (r : string * string) : result (nat * string) :=
  if negb (bool_decide (r.1 = home)) || bool_decide (r.2 = ""%string) then Err (Errorf "CNI switch or bridge mismatch") else Ok (S acc.1, r.2).
(** The rows that hold a reference, once per reference. *)
Definition holding {A} (refs : A -> list string) (uuid : string) (rows : list A) : list A :=
  concat ((fun r => (fun _ => r) <$> List.filter (fun x => bool_decide (x = uuid)) (refs r)) <$> rows).
Definition switch_receipt (uuid : string) : cniReceipt :=
  {| rc_SwitchUUID := uuid; rc_LSPUUID := ""; rc_InterfaceUUID := ""; rc_PortUUID := ""; rc_BridgeUUID := ""; rc_HostIfIndex := 0; rc_NetNSDevice := 0; rc_NetNSInode := 0 |}.

(** The checks of [Observe] once the three rows are there. *)
Definition observe_provisioned (spec : EndpointSpec) (data : exportSnapshot) (sw : string) (lsp : LogicalSwitchPort) (iface : exportInterface) (port : Port)
    : result cniReceipt :=
  let want := wanted_ids spec in
  if negb (owned want (lsp_ExternalIDs lsp) && owned want (xi_ExternalIDs iface)) then Err (Errorf "CNI resource ownership mismatch")
  else if match xi_Error iface with Some e => negb (bool_decide (e = ""%string)) | None => false end then Err (Errorf "CNI OVS attachment error")
  else if negb (bool_decide (po_Interfaces port = [xi_UUID iface])) then Err (Errorf "CNI OVS interface membership mismatch")
  else if negb match xi_Ofport iface with Some n => 0 <? n | None => false end then Err (Sentinel SCNIResourceUnready "CNI resource is not ready") else
  let? (members, sw) := rfold (member_step (sp_LogicalSwitch spec)) (O, sw) ((fun s => (xs_Name s, xs_UUID s)) <$> holding xs_Ports (lsp_UUID lsp) (es_Switches data)) in
  let? (bridges, br) := rfold (member_step "br-int") (O, ""%string) ((fun b => (br_Name b, br_UUID b)) <$> holding br_Ports (po_UUID port) (es_Bridges data)) in
  if negb (bool_decide (members = 1%nat)) || negb (bool_decide (bridges = 1%nat)) then Err (Errorf "CNI membership not unique") else
  match sp_IPAddresses spec, lsp_Addresses lsp with
  | [prefix], [address] =>
      match ParseCIDR prefix with
      | Some ip => if negb (address_agrees spec prefix ip address) then Err (Errorf "CNI static address mismatch") else
                   Ok {| rc_SwitchUUID := sw; rc_LSPUUID := lsp_UUID lsp; rc_InterfaceUUID := xi_UUID iface; rc_PortUUID := po_UUID port;
                         rc_BridgeUUID := br; rc_HostIfIndex := 0; rc_NetNSDevice := 0; rc_NetNSInode := 0 |}
      | None => Err (Errorf "CNI static address mismatch")
      end
  | _, _ => Err (Errorf "incomplete CNI static address observation")
  end.
(** [Observe] on a snapshot of the databases; [true] when nothing is there. *)
Definition observe_rows (spec : EndpointSpec) (data : exportSnapshot) : result (cniReceipt * bool) :=
  match List.filter (fun s => bool_decide (xs_Name s = sp_LogicalSwitch spec)) (es_Switches data) with
  | [sw] =>
      if bool_decide (xs_UUID sw = ""%string) then Err (Errorf "configured CNI switch absent or ambiguous") else
      let? lsp := named_row lsp_Name lsp_ExternalIDs (sp_LogicalSwitchPort spec) (sp_ID spec) None (es_LSPs data) in
      let? iface := named_row xi_Name xi_ExternalIDs (sp_OVSInterfaceName spec) (sp_ID spec) None (es_Interfaces data) in
      let? port := of_option (Errorf "duplicate CNI Port") (unique_named (fun p => bool_decide (po_Name p = sp_OVSInterfaceName spec)) None (es_Ports data)) in
      match lsp, iface, port with
      | None, None, None => Ok (switch_receipt (xs_UUID sw), true)
      | Some lsp, Some iface, Some port =>
          if bool_decide (lsp_UUID lsp = ""%string) || bool_decide (xi_UUID iface = ""%string) || bool_decide (po_UUID port = ""%string)
          then Err (Errorf "partial CNI resources or missing UUID") else
          let? receipt := observe_provisioned spec data (xs_UUID sw) lsp iface port in
          Ok (receipt, false)
      | _, _, _ => Err (Errorf "partial CNI resources or missing UUID")
      end
  | _ => Err (Errorf "configured CNI switch absent or ambiguous")
  end.

(** ** The databases *)

(** The operations of a transaction (RFC 7047) that the deletion uses. *)
Inductive ovs_value := VUUID (id : string) | VUUIDs (ids : list string) | VMap (m : gmap string string).
Record Condition := { cn_Column : string; cn_Function : string; cn_Value : ovs_value }.
Record Operation := {
  op_Op : string; op_Table : string; op_Where : list Condition; op_Columns : list string; op_Rows : list (list (string * ovs_value));
  op_Until : string; op_Timeout : option Z; op_Mutations : list (string * string * ovs_value);
}.
Record OperationResult := { or_Error : string; or_Count : Z }.
(** A libovsdb client: [None] is the nil client. *)
Record CniClient (W R : Type) := {
  cl_select : SelectClient W R;
  cl_Transact : list Operation -> M W (list OperationResult);
}.
Arguments cl_select {W R} _.
Arguments cl_Transact {W R} _ _.
(** [ovsdb.NewOvsMap], and the numbers of the file that [stat] finds at a path. *)
Class NodeLib (W : Type) := {
  NewOvsMap : gmap string string -> result ovs_value;
  node_Stat : string -> M W (Z * Z);
}.
(** [exportStateSource]: the live databases, or another implementation. *)
Inductive cni_source (W R : Type) :=
  | LiveState (nb ovs : option (CniClient W R))
  | OtherState (snapshot : M W exportSnapshot).
Arguments LiveState {W R} _ _.
Arguments OtherState {W R} _.
(** [nativeCNIObserver] *)
Record nativeCNIObserver (W R : Type) := { no_source : cni_source W R; no_networks : gmap string string }.
Arguments no_source {W R} _.
Arguments no_networks {W R} _.

Section observer.
Context {W R : Type} {SR : SelectRows R} {VK : VethKernel W} {NL : NodeLib W}.
Implicit Types o : nativeCNIObserver W R.

(** [cniLiveState.Snapshot]: the tables that the observer needs. *)
Definition cni_Snapshot (nb ovs : option (CniClient W R)) : M W exportSnapshot :=
  let nb := cl_select <$> nb in
  let ovs := cl_select <$> ovs in
  let! switches := selectExportRows nb "Logical_Switch" ["_uuid"; "name"; "ports"]%string dec_Switches in
  let! lsps := selectExportRows nb "Logical_Switch_Port" ["_uuid"; "name"; "addresses"; "external_ids"]%string dec_LSPs in
  let! bridges := selectExportRows ovs "Bridge" ["_uuid"; "name"; "ports"]%string dec_Bridges in
  let! ports := selectExportRows ovs "Port" ["_uuid"; "name"; "interfaces"]%string dec_Ports in
  let! interfaces := selectExportRows ovs "Interface" ["_uuid"; "name"; "external_ids"; "ofport"; "error"]%string dec_Interfaces in
  ret {| es_Switches := switches; es_LSPs := lsps; es_Bridges := bridges; es_Ports := ports; es_Interfaces := interfaces; es_Bindings := [];
         es_Chassis := []; es_Datapaths := [] |}.
Definition source_Snapshot (s : cni_source W R) : M W exportSnapshot :=
  match s with LiveState nb ovs => cni_Snapshot nb ovs | OtherState snapshot => snapshot end.

(** The Linux side of a live endpoint, added to its receipt. *)
Definition observe_linux (rec : endpointRecord) (receipt : cniReceipt) : M W cniReceipt :=
  let! host := link_named (sp_OVSInterfaceName (rec_endpointSpec rec)) in
  match lk_Attrs host with
  | Some a =>
      if negb (bool_decide (la_Alias a = ownerAliasForKey (endpointKey (rec_identity rec)))) || negb (bool_decide (lk_Type host = "veth"%string))
      then fail (Errorf "CNI host veth identity mismatch") else
      let! ns := node_Stat (GetNetnsPath (rec_runtime rec)) in
      ret {| rc_SwitchUUID := rc_SwitchUUID receipt; rc_LSPUUID := rc_LSPUUID receipt; rc_InterfaceUUID := rc_InterfaceUUID receipt;
             rc_PortUUID := rc_PortUUID receipt; rc_BridgeUUID := rc_BridgeUUID receipt; rc_HostIfIndex := la_Index a;
             rc_NetNSDevice := ns.1; rc_NetNSInode := ns.2 |}
  | None => fail (Errorf "CNI host veth identity mismatch")
  end.
(** [nativeCNIObserver.Observe] *)
Definition native_Observe o (rec : endpointRecord) : M W (cniReceipt * bool) :=
  let spec := rec_endpointSpec rec in
  let sw := at_key (no_networks o) (sp_NetworkID spec) in
  if bool_decide (sw = ""%string) || negb (bool_decide (sw = sp_LogicalSwitch spec)) then fail (Errorf "CNI logical switch not in immutable mapping") else
  let! data := source_Snapshot (no_source o) in
  let! (receipt, absent) := lift (observe_rows spec data) in
  if absent then ret (receipt, true) else
  match no_source o with
  | LiveState _ _ => let! receipt := observe_linux rec receipt in ret (receipt, false)
  | OtherState _ => ret (receipt, false)
  end.
(** [nativeCNIObserver.NetworkAbsent] *)
Definition native_NetworkAbsent (key : string) : M W unit :=
  let! link := LinkByName (hostVethNameForKey key) in
  match link with None => ret tt | Some _ => fail (Errorf "CNI host veth still present") end.

(** ** The exact deletion *)

Definition uuid_is (id : string) : Condition := {| cn_Column := "_uuid"; cn_Function := "=="; cn_Value := VUUID id |}.
(** [cniWaitUUID] *)
Definition cniWaitUUID (table id : string) (conditions : list Condition) : Operation :=
  {| op_Op := "wait"; op_Table := table; op_Where := uuid_is id :: conditions; op_Columns := ["_uuid"%string]; op_Rows := [[("_uuid"%string, VUUID id)]];
     op_Until := "=="; op_Timeout := Some 0; op_Mutations := [] |}.
Definition remove_reference (table id ref : string) : Operation :=
  {| op_Op := "mutate"; op_Table := table; op_Where := [uuid_is id]; op_Columns := []; op_Rows := []; op_Until := ""; op_Timeout := None;
     op_Mutations := [("ports"%string, "delete"%string, VUUIDs [ref])] |}.
Definition delete_row (table id : string) : Operation :=
  {| op_Op := "delete"; op_Table := table; op_Where := [uuid_is id]; op_Columns := []; op_Rows := []; op_Until := ""; op_Timeout := None; op_Mutations := [] |}.
Definition ovs_ops (receipt : cniReceipt) (bridge : string) (owner : Condition) : list Operation :=
  [cniWaitUUID "Interface" (rc_InterfaceUUID receipt) [owner];
   cniWaitUUID "Port" (rc_PortUUID receipt) [{| cn_Column := "interfaces"; cn_Function := "=="; cn_Value := VUUIDs [rc_InterfaceUUID receipt] |}];
   cniWaitUUID "Bridge" bridge [{| cn_Column := "ports"; cn_Function := "includes"; cn_Value := VUUIDs [rc_PortUUID receipt] |}];
   remove_reference "Bridge" bridge (rc_PortUUID receipt);
   delete_row "Port" (rc_PortUUID receipt);
   delete_row "Interface" (rc_InterfaceUUID receipt)].
Definition nb_ops (receipt : cniReceipt) (owner : Condition) : list Operation :=
  [cniWaitUUID "Logical_Switch_Port" (rc_LSPUUID receipt) [owner];
   cniWaitUUID "Logical_Switch" (rc_SwitchUUID receipt) [{| cn_Column := "ports"; cn_Function := "includes"; cn_Value := VUUIDs [rc_LSPUUID receipt] |}];
   remove_reference "Logical_Switch" (rc_SwitchUUID receipt) (rc_LSPUUID receipt);
   delete_row "Logical_Switch_Port" (rc_LSPUUID receipt)].
(** The check of a result against its operation. *)
Definition result_ok (o : Operation) (r : OperationResult) : bool :=
  bool_decide (or_Error r = ""%string) && negb (bool_decide (op_Op o = "delete"%string) && negb (or_Count r =? 1)).
(** [cniExactTransaction] *)
Definition cniExactTransaction (c : option (CniClient W R)) (ops : list Operation) : M W unit :=
  match c with
  | None => fail (Errorf "CNI exact cleanup backend disconnected")
  | Some c =>
      let! up := sc_Connected (cl_select c) in
      if negb up then fail (Errorf "CNI exact cleanup backend disconnected") else
      let! results := cl_Transact c ops in
      if negb (bool_decide (length results = length ops)) then fail (Errorf "incomplete CNI exact cleanup transaction")
      else if forallb (fun x => result_ok x.1 x.2) (combine ops results) then ret tt else fail (Errorf "CNI exact cleanup failed")
  end.
(** The bridge that holds the port: the last one of the name. *)
Definition bridge_of (data : exportSnapshot) (port : string) : string :=
  List.last (br_UUID <$> List.filter (fun b => bool_decide (br_Name b = "br-int"%string) && bool_decide (port ∈ br_Ports b)) (es_Bridges data)) ""%string.
(** [nativeCNIObserver.DeleteExact] *)
Definition native_DeleteExact o (ack : cniEndpointACK) : M W unit :=
  match no_source o with
  | OtherState _ => fail (Errorf "CNI exact cleanup requires native live backend")
  | LiveState nb ovs =>
      let! (receipt, absent) := native_Observe o (ack_record ack) in
      if absent || negb (bool_decide (receipt = ack_Receipt ack)) then fail (Errorf "CNI exact cleanup resource identity changed") else
      let! ids := lift (NewOvsMap (wanted_ids (ack_Spec ack))) in
      let owner := {| cn_Column := "external_ids"; cn_Function := "includes"; cn_Value := ids |} in
      let! data := source_Snapshot (no_source o) in
      let bridge := bridge_of data (rc_PortUUID receipt) in
      if bool_decide (bridge = ""%string) then fail (Errorf "CNI exact cleanup bridge UUID missing") else
      do! cniExactTransaction ovs (ovs_ops receipt bridge owner) in
      cniExactTransaction nb (nb_ops receipt owner)
  end.

(** The observer as the continuity sees it. *)
Definition native_observer o : cniResourceObserver W :=
  {| ro_Observe := native_Observe o; ro_NetworkAbsent := native_NetworkAbsent; ro_DeleteExact := native_DeleteExact o |}.
End observer.

(** ** The attestor of workloads *)

(** What the code reads of a Node, of a Pod and of a sandbox. *)
Record Node := { nd_UID : string; nd_Deleting : bool }.
Record Pod := { pd_UID : string; pd_NodeName : string; pd_Deleting : bool }.
Record SandboxMetadata := { sm_Uid : string; sm_Name : string; sm_Namespace : string }.
Record SandboxStatus := { ss_Id : string; ss_Metadata : option SandboxMetadata; ss_Ready : bool }.
Record SandboxResponse := { sr_Status : option SandboxStatus; sr_Info : gmap string string }.
(** The part of the verbose information, and of [ctr containers info], that is decoded. *)
Record sandboxInfo := { si_PID : Z }.
Record containerInfo := { ci_ID : string; ci_Labels : gmap string string }.
(** Direct reads; [None] is the error of a missing object. *)
Record CoreClient (W : Type) := { kc_Node : string -> M W Node; kc_Pod : string -> string -> M W (option Pod) }.
Arguments kc_Node {W} _ _.
Arguments kc_Pod {W} _ _ _.
(** [KubernetesCNIWorkloadAttestor] *)
Record KubernetesCNIWorkloadAttestor (W : Type) := {
  ka_Client : option (CoreClient W);
  ka_NodeName : string;
  ka_NodeUID : string;
  ka_Sandbox : option (string -> M W (option SandboxResponse));
  ka_CreatingSandbox : option (WorkloadRef -> string -> string -> M W unit);
}.
Arguments ka_Client {W} _.
Arguments ka_NodeName {W} _.
Arguments ka_NodeUID {W} _.
Arguments ka_Sandbox {W} _.
Arguments ka_CreatingSandbox {W} _.

(** [strconv.ParseInt(s, 10, bits)] *)
Definition ParseInt (bits : Z) (s : string) : option Z :=
  let limit := Z.shiftl 1 (bits - 1) in
  let value l := match l with [] => None | _ => decimal 0 l end in
  match chars s with
  | "-"%char :: l => n ← value l; if n <=? limit then Some (- n) else None
  | "+"%char :: l => n ← value l; if n <? limit then Some n else None
  | l => n ← value l; if n <? limit then Some n else None
  end.
(** [strings.Split(strings.TrimSpace(text), "\n")] *)
Definition lines_of (text : string) : list string := str <$> split (byte 10) (chars (TrimSpace text)).
(** The rows of [containerdTaskRunning]. *)
Fixpoint task_rows (id : string) (found : bool) (rows : list string) : result bool :=
  match rows with
  | [] => Ok found
  | row :: rows =>
      match Fields row with
      | [task; pid; status] =>
          if negb (bool_decide (task = id)) then task_rows id found rows
          else if found then Err (Errorf "duplicate runtime task")
          else match ParseInt 32 pid with
               | Some n => if n <=? 0 then Err (Errorf "invalid runtime task PID")
                           else if negb (bool_decide (status = "RUNNING"%string)) then Ok false
                           else task_rows id true rows
               | None => Err (Errorf "invalid runtime task PID")
               end
      | _ => Err (Errorf "invalid ctr task row")
      end
  end.
(** [containerdTaskRunning] *)
Definition containerdTaskRunning (output id : string) : result bool :=
  match lines_of output with
  | heading :: rows =>
      if negb (bool_decide (Fields heading = ["TASK"; "PID"; "STATUS"]%string)) then Err (Errorf "unsupported ctr tasks list format") else task_rows id false rows
  | [] => Err (Errorf "unsupported ctr tasks list format")
  end.
(** The loop of [verifyCreatingSandboxEvidence] that finds the process of the task. *)
Definition task_pid_step (id : string) (acc : Z) (row : string) : result Z :=
  match Fields row with
  | [task; pid; _] =>
      if negb (bool_decide (task = id)) then Ok acc else
      match ParseInt 64 pid with Some n => if n <=? 0 then Err (Errorf "invalid creating sandbox task PID") else Ok n | None => Err (Errorf "invalid creating sandbox task PID") end
  | _ => Ok acc
  end.
Definition proc_netns (pid : Z) : string := ("/proc/" +:+ pretty pid +:+ "/ns/net")%string.

Section attestor.
Context {W : Type} {NL : NodeLib W} {JI : Json sandboxInfo} {JC : Json containerInfo}.
Implicit Types a : KubernetesCNIWorkloadAttestor W.

(** [os.SameFile] of the namespace of a process and of a path. *)
Definition same_netns (pid : Z) (netns : string) : M W bool :=
  let! task := node_Stat (proc_netns pid) in
  let! here := node_Stat netns in
  ret (bool_decide (task = here)).
Definition pod_known a (ref : WorkloadRef) : bool :=
  match ka_Client a with None => false | Some _ => true end
  && bool_decide (wl_Kind ref = "pod"%string) && negb (bool_decide (wl_UID ref = ""%string)) && negb (bool_decide (wl_Name ref = ""%string))
  && negb (bool_decide (wl_Namespace ref = ""%string)) && bool_decide (wl_NodeName ref = ka_NodeName a) && negb (bool_decide (ka_NodeUID a = ""%string)).
(** [VerifyPod]: [true] when the Pod is gone. *)
Definition VerifyPod a (ref : WorkloadRef) : M W bool :=
  match ka_Client a with
  | Some c =>
      if negb (pod_known a ref) then fail (Errorf "incomplete authoritative Pod identity") else
      let! node := kc_Node c (ka_NodeName a) in
      if negb (bool_decide (nd_UID node = ka_NodeUID a)) || nd_Deleting node then fail (Sentinel SCNIIdentityConflict "Node changed or deleting") else
      let! pod := kc_Pod c (wl_Namespace ref) (wl_Name ref) in
      match pod with
      | None => ret true
      | Some pod =>
          if negb (bool_decide (pd_UID pod = wl_UID ref)) || negb (bool_decide (pd_NodeName pod = ka_NodeName a)) || pd_Deleting pod
          then fail (Sentinel SCNIIdentityConflict "Pod UID/node changed or deleting") else ret false
      end
  | None => fail (Errorf "incomplete authoritative Pod identity")
  end.
Definition sandbox_matches (ref : WorkloadRef) (container : string) (st : option SandboxStatus) : bool :=
  match st with
  | Some st => bool_decide (ss_Id st = container) &&
      match ss_Metadata st with
      | Some m => bool_decide (sm_Uid m = wl_UID ref) && bool_decide (sm_Name m = wl_Name ref) && bool_decide (sm_Namespace m = wl_Namespace ref)
      | None => false
      end
  | None => false
  end.
(** The process of a sandbox, and the inspection that stands in for it during creation. *)
Definition sandbox_pid (resp : SandboxResponse) : option Z :=
  info ← json_Unmarshal (at_key (sr_Info resp) "info"); if si_PID info <=? 0 then None else Some (si_PID info).
Definition inspect_creating a (ref : WorkloadRef) (container netns : string) (creating : bool) (e : error) : M W bool :=
  match creating, ka_CreatingSandbox a with
  | true, Some inspect => do! inspect ref container netns in ret false
  | _, _ => fail e
  end.
(** The namespace of a published sandbox. *)
Definition verify_sandbox a (ref : WorkloadRef) (container netns : string) (creating : bool) (resp : SandboxResponse) : M W bool :=
  if negb (sandbox_matches ref container (sr_Status resp)) then fail (Sentinel SCNIIdentityConflict "CRI sandbox/Pod mismatch")
  else if negb creating && negb match sr_Status resp with Some st => ss_Ready st | None => false end then fail (Sentinel SCNIRuntimePending "CNI runtime pending") else
  match sandbox_pid resp with
  | Some pid =>
      let! same := same_netns pid netns in
      if same then ret false else fail (Sentinel SCNIIdentityConflict "sandbox namespace differs from attachment")
  | None => inspect_creating a ref container netns creating (Errorf "CRI sandbox task PID unavailable")
  end.
(** [verify] *)
Definition attestor_verify a (creating : bool) (ref : WorkloadRef) (container netns : string) : M W bool :=
  match ka_Sandbox a with
  | Some sandbox =>
      if negb (pod_known a ref) || bool_decide (container = ""%string) || bool_decide (netns = ""%string)
      then fail (Errorf "incomplete authoritative CNI workload identity") else
      let! deleted := VerifyPod a ref in
      if deleted then ret true else
      let! resp := wrap (Wrapped "CRI sandbox observation") (sandbox container) in
      match resp with
      | Some resp => verify_sandbox a ref container netns creating resp
      | None => inspect_creating a ref container netns creating (Sentinel SCNIRuntimePending "sandbox unpublished")
      end
  | None => fail (Errorf "incomplete authoritative CNI workload identity")
  end.
(** The attestor as the continuity sees it. *)
Definition kubernetes_attestor a : CNIWorkloadAttestor W :=
  {| wa_Verify := attestor_verify a false; wa_VerifyPod := Some (VerifyPod a); wa_VerifyCreating := Some (attestor_verify a true) |}.

(** [verifyCreatingSandboxEvidence] *)
Definition creating_labels (ref : WorkloadRef) (id : string) (info : containerInfo) : bool :=
  let label k := at_key (ci_Labels info) k in
  bool_decide (ci_ID info = id) && bool_decide (label "io.cri-containerd.kind"%string = "sandbox"%string)
  && bool_decide (label "io.kubernetes.pod.uid"%string = wl_UID ref) && bool_decide (label "io.kubernetes.pod.namespace"%string = wl_Namespace ref)
  && bool_decide (label "io.kubernetes.pod.name"%string = wl_Name ref).
Definition verifyCreatingSandboxEvidence (raw tasks : string) (ref : WorkloadRef) (id netns : string) : M W unit :=
  let! info := lift (of_option (ExtErr "json") (json_Unmarshal raw)) in
  if negb (creating_labels ref id info) then fail (Errorf "creating sandbox container identity differs from independently read Pod") else
  match containerdTaskRunning tasks id with
  | Ok true =>
      let! pid := lift (rfold (task_pid_step id) 0 (tail (lines_of tasks))) in
      let! same := same_netns pid netns in
      if same then ret tt else fail (Errorf "creating sandbox pause task namespace differs from CNI netns")
  | _ => fail (Errorf "creating sandbox task not independently running")
  end.
(** [cniCreatingSandboxAttestor.VerifySandbox]; [ctr] runs the tool of the runtime. *)
Definition VerifySandbox (ctr : list string -> M W string) (ref : WorkloadRef) (id netns : string) : M W unit :=
  if negb (validSHA256 id) then fail (Errorf "invalid sandbox container ID") else
  let! raw := ctr ["containers"; "info"; id]%string in
  let! tasks := ctr ["tasks"; "list"]%string in
  verifyCreatingSandboxEvidence raw tasks ref id netns.
End attestor.
