(* ===== verification/CniResourcesSafety.v ===== *)
(** * What the observer, the exact deletion and the attestor promise

    The observation of an endpoint is exactly that its rows are there, once and owned, or
    that nothing is; a deletion writes only after an observation that equals the receipt,
    with every write fenced by a wait in its own transaction; an attested workload has its
    Pod, its sandbox and its namespace. *)

From S2P Require Import Prelude GoStd Journal Calls GoJson Type2 Attachment Endpoint Observer CniTypes CniServer CniContinuity VethBackend ExportObserver ExportObserverSafety CniResources.

(** ** Rows *)

Definition claimed_elsewhere {A} (name : A -> string) (ids : A -> gmap string string) (target id : string) (rows : list A) : Prop :=
  exists x, x ∈ rows /\ name x <> target /\ at_key (ids x) ExternalIDEndpointID = id.
Lemma named_row_go {A} (name : A -> string) ids target id found rows r :
  named_row name ids target id found rows = Ok r <->
  ~ claimed_elsewhere name ids target id rows /\ option_list found ++ List.filter (fun x => bool_decide (name x = target)) rows = option_list r.
Proof.
  revert found. induction rows as [|x l IH]; intros found; simpl.
  - rewrite app_nil_r. split; [intros [= ->]; split; [by intros (? & ?%not_elem_of_nil & _)|done]|]. intros [_ H]. by destruct found, r; simplify_eq/=.
  - assert (Hcl : claimed_elsewhere name ids target id (x :: l) <->
      (name x <> target /\ at_key (ids x) ExternalIDEndpointID = id) \/ claimed_elsewhere name ids target id l).
    { unfold claimed_elsewhere. setoid_rewrite elem_of_cons. naive_solver. }
    rewrite Hcl. case_bool_decide as Hn.
    + destruct found as [y|]; [split; [done|]; by intros [_ H]; destruct r|]. rewrite (IH (Some x)). simpl. naive_solver.
    + case_bool_decide as Hi; [split; [done|]; intros [H _]; destruct H; by left|]. rewrite IH. naive_solver.
Qed.
Lemma member_fold home l acc k v : rfold (member_step home) acc l = Ok (k, v) <->
  Forall (fun r => r.1 = home /\ r.2 <> ""%string) l /\ k = (acc.1 + length l)%nat /\ v = List.last (acc.2 :: (snd <$> l)) ""%string.
Proof.
  revert acc. induction l as [|[n u] l IH]; intros [c x].
  - simpl. split; [intros [= -> ->]; split_and!; [constructor|lia|done]|]. intros (_ & -> & ->). f_equal. f_equal. lia.
  - cbn [rfold]. unfold member_step at 1. cbn [fst snd]. rewrite Forall_cons. cbn [fst snd]. case_bool_decide as Hn; simpl; [|split; [done|]; intros [[[Hn' _] _] _]; by destruct Hn].
    case_bool_decide as Hu; simpl; [split; [done|]; intros [[[_ Hu'] _] _]; by destruct Hu'|]. rewrite (IH (S c, u)). simpl.
    split; [intros (H1 & -> & ->); split_and!; [done..|lia|done]|]. intros ([_ H1] & -> & ->). split_and!; [done|lia|done].
Qed.
(** One reference, from a row of the right name. *)
Lemma member_once home acc l v : acc.1 = O -> (rfold (member_step home) acc l = Ok (1%nat, v) <-> l = [(home, v)] /\ v <> ""%string).
Proof.
  intros Ha. rewrite member_fold, Ha. split.
  - intros (Hf & Hl & ->). destruct l as [|[n u] [|]]; try done. apply Forall_cons in Hf as [[Hn Hu] _]. simpl in *. by subst.
  - intros [-> Hv]. split_and!; [by constructor|done|done].
Qed.

(** ** What an observation shows *)

Section rows.
Context (spec : EndpointSpec) (data : exportSnapshot).
Notation unclaimed := (~ claimed_elsewhere lsp_Name lsp_ExternalIDs (sp_LogicalSwitchPort spec) (sp_ID spec) (es_LSPs data)
  /\ ~ claimed_elsewhere xi_Name xi_ExternalIDs (sp_OVSInterfaceName spec) (sp_ID spec) (es_Interfaces data)).
Definition rows_named (lsps : list LogicalSwitchPort) (ifaces : list exportInterface) (ports : list Port) : Prop :=
  List.filter (fun p => bool_decide (lsp_Name p = sp_LogicalSwitchPort spec)) (es_LSPs data) = lsps
  /\ List.filter (fun i => bool_decide (xi_Name i = sp_OVSInterfaceName spec)) (es_Interfaces data) = ifaces
  /\ List.filter (fun p => bool_decide (po_Name p = sp_OVSInterfaceName spec)) (es_Ports data) = ports.
(** The switch of the network, and nobody else claims the endpoint. *)
Definition home_switch (sw : exportSwitch) : Prop :=
  List.filter (fun s => bool_decide (xs_Name s = sp_LogicalSwitch spec)) (es_Switches data) = [sw] /\ xs_UUID sw <> ""%string /\ unclaimed.
(** The rows are owned, connected and ready, and the receipt names them. *)
Record provisioned (lsp : LogicalSwitchPort) (iface : exportInterface) (port : Port) (receipt : cniReceipt) : Prop := {
  pv_owned : carries spec (lsp_ExternalIDs lsp) /\ carries spec (xi_ExternalIDs iface);
  pv_ready : (exists n, xi_Ofport iface = Some n /\ 0 < n) /\ (xi_Error iface = None \/ xi_Error iface = Some ""%string);
  pv_plugged : po_Interfaces port = [xi_UUID iface];
  pv_switch : exists s, holding xs_Ports (lsp_UUID lsp) (es_Switches data) = [s] /\ xs_Name s = sp_LogicalSwitch spec /\ xs_UUID s = rc_SwitchUUID receipt;
  pv_bridge : exists b, holding br_Ports (po_UUID port) (es_Bridges data) = [b] /\ br_Name b = "br-int"%string /\ br_UUID b = rc_BridgeUUID receipt;
  pv_address : exists prefix ip raw mac a, sp_IPAddresses spec = [prefix] /\ ParseCIDR prefix = Some ip /\ lsp_Addresses lsp = [raw]
    /\ Fields raw = [mac; a] /\ EqualFold mac (sp_MACAddress spec) = true /\ (a = prefix \/ a = Addr_String ip);
  pv_named : rc_LSPUUID receipt = lsp_UUID lsp /\ rc_InterfaceUUID receipt = xi_UUID iface /\ rc_PortUUID receipt = po_UUID port;
  pv_uuids : rc_SwitchUUID receipt <> ""%string /\ rc_BridgeUUID receipt <> ""%string;
  pv_rows_only : rc_HostIfIndex receipt = 0 /\ rc_NetNSDevice receipt = 0 /\ rc_NetNSInode receipt = 0;
}.
Lemma pair_one {A} (name uuid : A -> string) l home v : (fun x => (name x, uuid x)) <$> l = [(home, v)] <-> exists x, l = [x] /\ name x = home /\ uuid x = v.
Proof. destruct l as [|x [|]]; simpl; naive_solver. Qed.
Lemma observe_provisioned_spec sw lsp iface port receipt :
  observe_provisioned spec data sw lsp iface port = Ok receipt <-> provisioned lsp iface port receipt.
Proof.
  unfold observe_provisioned. cbv zeta. split.
  - intros H. destruct (owned _ (lsp_ExternalIDs lsp) && _) eqn:Eo; [|done]. apply andb_true_iff in Eo as [Eo1%owned_spec Eo2%owned_spec]. simpl in H.
    destruct (match xi_Error iface with Some _ => _ | None => _ end) eqn:Ee; [done|]. destruct (bool_decide (po_Interfaces port = _)) eqn:Ep; [|done]. simpl in H.
    destruct (match xi_Ofport iface with Some _ => _ | None => _ end) eqn:Ef; [|done]. cbn [negb] in H.
    destruct (rfold (member_step (sp_LogicalSwitch spec)) _ _) as [[m sw']|] eqn:Em; [|done]. cbn [rbind] in H.
    destruct (rfold (member_step "br-int") _ _) as [[n br]|] eqn:En; [|done]. cbn [rbind] in H.
    case_bool_decide as Hm; [|done]. case_bool_decide as Hn; [|done]. simpl in H. subst m n. apply member_once in Em as [Em Hm], En as [En Hn]; [|done..].
    apply pair_one in Em, En. destruct (sp_IPAddresses spec) as [|prefix []] eqn:Ei; [done| |done]. destruct (lsp_Addresses lsp) as [|raw []] eqn:Ea; [done| |done].
    destruct (ParseCIDR prefix) as [ip|] eqn:Ec; [|done]. destruct (address_agrees _ _ _ _) eqn:Eag; [|done]. simpl in H.
    apply address_agrees_spec in Eag as (mac & a & Hf & Hmac & Ha). injection H as <-. bools. split; simpl; try done.
    + split; [destruct (xi_Ofport iface) as [k|]; [exists k; split; [done|lia]|done]|]. destruct (xi_Error iface) as [e|]; [|by left]. bools. right. congruence.
    + by exists prefix, ip, raw, mac, a.
  - intros [[Eo1%owned_spec Eo2%owned_spec] [(k & Ek & Hk) Ee] Ep Hs Hb (prefix & ip & raw & mac & a & Ei & Ec & Ea & Hf & Hmac & Hag) (E1 & E2 & E3) [Hu1 Hu2] (E4 & E5 & E6)].
    rewrite Eo1, Eo2, Ek, (bool_decide_eq_true_2 _ Ep). simpl. assert (0 <? k = true) as -> by lia.
    assert (match xi_Error iface with Some e => negb (bool_decide (e = ""%string)) | None => false end = false) as -> by (destruct Ee as [->| ->]; done). simpl.
    apply pair_one in Hs, Hb. rewrite (proj2 (member_once _ (O, sw) _ _ eq_refl) (conj Hs Hu1)). cbn [rbind].
    rewrite (proj2 (member_once _ (O, ""%string) _ _ eq_refl) (conj Hb Hu2)). cbn [rbind]. simpl. rewrite Ei, Ea, Ec.
    rewrite (proj2 (address_agrees_spec spec prefix ip raw)) by eauto. simpl. destruct receipt; simpl in *; congruence.
Qed.
(** Either nothing of the endpoint is there, or all of it. *)
Definition observed (receipt : cniReceipt) (absent : bool) : Prop :=
  exists sw, home_switch sw /\
    if absent then rows_named [] [] [] /\ receipt = switch_receipt (xs_UUID sw)
    else exists lsp iface port, rows_named [lsp] [iface] [port] /\ provisioned lsp iface port receipt
         /\ lsp_UUID lsp <> ""%string /\ xi_UUID iface <> ""%string /\ po_UUID port <> ""%string.

Lemma unique_named_none {A} p (rows : list A) : unique_named p None rows = Some None <-> List.filter p rows = [].
Proof.
  induction rows as [|x l IH]; simpl; [done|]. destruct (p x); [|done]. rewrite unique_named_found. destruct (existsb p l); done.
Qed.
Lemma observe_rows_spec receipt absent : observe_rows spec data = Ok (receipt, absent) <-> observed receipt absent.
Proof.
  unfold observe_rows, observed, home_switch, rows_named. split.
  - intros H. destruct (List.filter _ (es_Switches data)) as [|sw []]; [done| |done]. case_bool_decide as Hu; [done|].
    destruct (named_row lsp_Name _ _ _ _ _) as [lsp|] eqn:El; [|done]. apply named_row_go in El as [Hcl El]. cbn [rbind] in H.
    destruct (named_row xi_Name _ _ _ _ _) as [iface|] eqn:Ei; [|done]. apply named_row_go in Ei as [Hci Ei]. cbn [rbind] in H. simpl in El, Ei.
    destruct (unique_named _ None (es_Ports data)) as [port|] eqn:Ep; [|done]. cbn [of_option rbind] in H. exists sw. split; [done|].
    destruct lsp as [lsp|], iface as [iface|], port as [port|]; try done.
    + apply unique_named_spec in Ep. destruct (_ || _) eqn:Hx in H; [done|]. bools.
      destruct (observe_provisioned _ _ _ _ _ _) as [r|] eqn:Er; [|done]. apply observe_provisioned_spec in Er. cbn [rbind] in H. simplify_eq. by exists lsp, iface, port.
    + apply unique_named_none in Ep. by simplify_eq.
  - intros (sw & (Hsw & Hu & Hcl & Hci) & H). rewrite Hsw, bool_decide_eq_false_2 by done. destruct absent.
    + destruct H as ((El & Ei & Ep) & ->). rewrite (proj2 (named_row_go _ _ _ _ None _ None)) by done. cbn [rbind].
      rewrite (proj2 (named_row_go _ _ _ _ None _ None)) by done. cbn [rbind]. by rewrite (proj2 (unique_named_none _ _) Ep).
    + destruct H as (lsp & iface & port & (El & Ei & Ep) & Hp & H1 & H2 & H3). rewrite (proj2 (named_row_go _ _ _ _ None _ (Some lsp))) by done. cbn [rbind].
      rewrite (proj2 (named_row_go _ _ _ _ None _ (Some iface))) by done. cbn [rbind]. rewrite (proj2 (unique_named_spec _ _ port) Ep). cbn [of_option rbind].
      rewrite !bool_decide_eq_false_2 by done. simpl. by rewrite (proj2 (observe_provisioned_spec (xs_UUID sw) lsp iface port receipt) Hp).
Qed.
End rows.

(** C16: The observation of an endpoint is exact on the rows: it reports a receipt exactly
    when the network has its one switch, nobody else claims the endpoint, and the one port,
    interface and OVS port of its names are owned by it, ready, connected, each in one place,
    with the static address; and it reports absence exactly when none of these rows is
    there.  Everything else is an error, never absence. *)
Theorem observation_exact spec data receipt absent : observe_rows spec data = Ok (receipt, absent) <-> observed spec data receipt absent.
Proof. apply observe_rows_spec. Qed.

(** ** The observer on the node *)

Section observer.
Context {W R : Type} {SR : SelectRows R} {VK : VethKernel W} {NL : NodeLib W} (P : W -> Prop).

(** Reads that change nothing. *)
Definition client_reads (c : option (CniClient W R)) : Prop :=
  forall c', c = Some c' -> preserves P (sc_Connected (cl_select c')) /\ forall table columns, preserves P (sc_Select (cl_select c') table columns).
Record node_reads : Prop := {
  nr_link name : preserves P (LinkByName name);
  nr_stat path : preserves P (node_Stat path);
}.
Context (nb ovs : option (CniClient W R)) (Hnb : client_reads nb) (Hovs : client_reads ovs) (Hn : node_reads) (networks : gmap string string).
Definition live : nativeCNIObserver W R := {| no_source := LiveState nb ovs; no_networks := networks |}.

Lemma call_select {A} c table columns (decode : list R -> result A) : client_reads c -> preserves P (selectExportRows (cl_select <$> c) table columns decode).
Proof.
  intros Hc. destruct c as [c|]; simpl; [|by apply (call_preserves P _ (fun _ => True)), call_fail]. destruct (Hc c eq_refl) as [H1 H2].
  apply (call_preserves P _ (fun _ => True)). eapply call_seq; [by apply call_keeps|]. intros up _. apply call_if; intros _; [apply call_fail|].
  eapply call_seq; [by apply call_wrap, call_keeps|]. intros [|[err rows] []] _; [apply call_fail| |apply call_fail].
  apply call_if; intros _; [apply call_fail|by apply call_lift].
Qed.
Lemma call_snapshot : preserves P (cni_Snapshot nb ovs).
Proof.
  apply (call_preserves P _ (fun _ => True)). unfold cni_Snapshot. cbv zeta.
  repeat (eapply call_seq; [apply call_keeps, call_select; assumption|]; intros ? _). by apply call_ret.
Qed.
(** The Linux side that a receipt names. *)
Record linux_side (rec : endpointRecord) (receipt : cniReceipt) : Prop := {
  ls_host : exists host a, answers P (LinkByName (sp_OVSInterfaceName (rec_endpointSpec rec))) (Some host) /\ lk_Type host = "veth"%string
    /\ lk_Attrs host = Some a /\ la_Alias a = ownerAliasForKey (endpointKey (rec_identity rec)) /\ la_Index a = rc_HostIfIndex receipt;
  ls_netns : answers P (node_Stat (GetNetnsPath (rec_runtime rec))) (rc_NetNSDevice receipt, rc_NetNSInode receipt);
}.
Definition rows_part (r : cniReceipt) : cniReceipt :=
  {| rc_SwitchUUID := rc_SwitchUUID r; rc_LSPUUID := rc_LSPUUID r; rc_InterfaceUUID := rc_InterfaceUUID r; rc_PortUUID := rc_PortUUID r;
     rc_BridgeUUID := rc_BridgeUUID r; rc_HostIfIndex := 0; rc_NetNSDevice := 0; rc_NetNSInode := 0 |}.
(** What an answer of the live observer shows. *)
Definition live_evidence (rec : endpointRecord) (x : cniReceipt * bool) : Prop :=
  networks !! sp_NetworkID (rec_endpointSpec rec) = Some (sp_LogicalSwitch (rec_endpointSpec rec))
  /\ exists data, answers P (cni_Snapshot nb ovs) data /\ observed (rec_endpointSpec rec) data (rows_part x.1) x.2
  /\ if x.2 then x.1 = rows_part x.1 else linux_side rec x.1.
Lemma call_observe_linux rec r : call P P (observe_linux rec r) (fun r' => rows_part r' = rows_part r /\ linux_side rec r').
Proof.
  eapply call_seq; [|]. { eapply call_seq; [apply call_answers, Hn|]. intros [host|] Ha; [|apply call_fail]. apply (call_ret P host _ Ha). }
  intros host Ha. destruct (lk_Attrs host) as [a|] eqn:Ea; [|apply call_fail]. apply call_if; intros Hb; [apply call_fail|]. bools.
  eapply call_seq; [apply call_answers, Hn|]. intros [dev ino] Hs. apply call_ret. split; [done|]. split; [|done]. by exists host, a.
Qed.
Lemma call_observe rec : call P P (native_Observe live rec) (live_evidence rec).
Proof.
  unfold native_Observe. cbv zeta. apply call_if; intros Hb; [apply call_fail|]. bools. eapply call_seq; [apply call_answers, call_snapshot|]. intros data Hd.
  eapply call_seq; [apply (call_lift P _ (fun x => observe_rows (rec_endpointSpec rec) data = Ok x)); auto|]. intros [receipt absent] Ho. apply observe_rows_spec in Ho.
  assert (Hnet : networks !! sp_NetworkID (rec_endpointSpec rec) = Some (sp_LogicalSwitch (rec_endpointSpec rec))).
  { unfold at_key, live in *. simpl in *. destruct (networks !! _); simpl in *; congruence. }
  assert (Hr : receipt = rows_part receipt).
  { destruct Ho as (sw & _ & Ho). destruct absent; [by destruct Ho as [_ ->]|]. destruct Ho as (? & ? & ? & _ & [] & _). destruct receipt; simpl in *. unfold rows_part. simpl. naive_solver. }
  apply call_if; intros Hab; [|]. { apply call_ret. rewrite Hab in Ho. split; [done|]. exists data. cbn [fst snd]. by rewrite <-Hr. }
  eapply call_seq; [apply call_observe_linux|]. intros r' [Er Hl]. apply call_ret. split; [done|]. exists data. cbn [fst snd]. rewrite Er, <-Hr. rewrite Hab in Ho. done.
Qed.

(** ** The exact deletion *)

Definition owner_of (ids : ovs_value) : Condition := {| cn_Column := "external_ids"; cn_Function := "includes"; cn_Value := ids |}.
(** A write is fenced by an earlier wait, without a timeout, on its own row. *)
Definition fenced_by (o g : Operation) : Prop :=
  op_Op g = "wait"%string /\ op_Timeout g = Some 0 /\ op_Until g = "=="%string /\ op_Table g = op_Table o
  /\ exists id c, op_Where o = [uuid_is id] /\ op_Where g = [uuid_is id; c].
(** The rows that a deletion may remove, with the condition its wait puts on them. *)
Definition removable (receipt : cniReceipt) (ids : ovs_value) : list (string * string * Condition) :=
  [("Interface", rc_InterfaceUUID receipt, owner_of ids);
   ("Port", rc_PortUUID receipt, {| cn_Column := "interfaces"; cn_Function := "=="; cn_Value := VUUIDs [rc_InterfaceUUID receipt] |});
   ("Logical_Switch_Port", rc_LSPUUID receipt, owner_of ids)]%string.
Record fenced (receipt : cniReceipt) (ids : ovs_value) (ops : list Operation) : Prop := {
  fn_fenced i o : ops !! i = Some o -> op_Op o <> "wait"%string -> exists j g, (j < i)%nat /\ ops !! j = Some g /\ fenced_by o g;
  fn_delete o : o ∈ ops -> op_Op o = "delete"%string ->
    exists id c, (op_Table o, id, c) ∈ removable receipt ids /\ op_Where o = [uuid_is id] /\ cniWaitUUID (op_Table o) id [c] ∈ ops;
  fn_mutate o : o ∈ ops -> op_Op o = "mutate"%string ->
    exists ref, op_Mutations o = [("ports", "delete", VUUIDs [ref])]%string /\ ref ∈ [rc_PortUUID receipt; rc_LSPUUID receipt];
}.
Ltac each_op := match goal with
  | H : ([] : list Operation) !! _ = Some _ |- _ => by rewrite lookup_nil in H
  | H : (_ :: _) !! ?i = Some _ |- _ => destruct i as [|i]; [simpl in H; injection H as <-|simpl in H; each_op]
  | H : _ ∈ [] |- _ => by apply not_elem_of_nil in H
  | H : _ ∈ _ :: _ |- _ => apply elem_of_cons in H as [->|H]; [|each_op]
  end.
Ltac guarded_at j := exists j; eexists; split; [lia|]; split; [reflexivity|]; split_and!; [done..|]; by eexists _, _.
Lemma ovs_ops_fenced receipt bridge ids : fenced receipt ids (ovs_ops receipt bridge (owner_of ids)).
Proof.
  split.
  - intros i o Hi Ho. unfold ovs_ops in Hi. each_op; try done; [guarded_at 2%nat|guarded_at 1%nat|guarded_at 0%nat].
  - intros o Hi Ho. unfold ovs_ops in Hi. each_op; try done; eexists _, _; (split; [|split; [reflexivity|]]).
    + right; left. + right; left. + left. + left.
  - intros o Hi Ho. unfold ovs_ops in Hi. each_op; try done. eexists. split; [reflexivity|]. left.
Qed.
Lemma nb_ops_fenced receipt ids : fenced receipt ids (nb_ops receipt (owner_of ids)).
Proof.
  split.
  - intros i o Hi Ho. unfold nb_ops in Hi. each_op; try done; [guarded_at 1%nat|guarded_at 0%nat].
  - intros o Hi Ho. unfold nb_ops in Hi. each_op; try done; eexists _, _; (split; [|split; [reflexivity|]]).
    + do 2 right; left. + left.
  - intros o Hi Ho. unfold nb_ops in Hi. each_op; try done. eexists. split; [reflexivity|]. right; left.
Qed.

(** Every operation of an accepted transaction succeeded, every deletion removed one row. *)
Definition accepted (c : option (CniClient W R)) (ops : list Operation) : Prop :=
  exists c' results, c = Some c' /\ answers P (cl_Transact c' ops) results
    /\ Forall2 (fun o r => or_Error r = ""%string /\ (op_Op o = "delete"%string -> or_Count r = 1)) ops results.
Lemma call_transaction c ops : client_reads c -> (forall c', c = Some c' -> preserves P (cl_Transact c' ops)) ->
  call P P (cniExactTransaction c ops) (fun _ => accepted c ops).
Proof.
  intros Hc Ht. destruct c as [c|]; [|apply call_fail]. simpl. eapply call_seq; [by apply call_keeps, Hc|]. intros up _. apply call_if; intros _; [apply call_fail|].
  eapply call_seq; [by apply call_answers, Ht|]. intros results Ha. apply call_if; intros Hl; [apply call_fail|]. apply call_if; intros Hf; [|apply call_fail].
  apply call_ret. exists c, results. split_and!; [done..|]. apply negb_false_iff, bool_decide_eq_true in Hl. clear Ha Ht.
  revert ops Hl Hf. induction results as [|r l IH]; intros [|o ops] Hl Hf; try done. simpl in Hl, Hf. apply andb_true_iff in Hf as [Hr Hf].
  constructor; [|apply IH; [congruence|done]]. unfold result_ok in Hr. apply andb_true_iff in Hr as [He Hd]. apply bool_decide_eq_true in He. split; [done|].
  intros Ho. rewrite bool_decide_eq_true_2 in Hd by done. simpl in Hd. apply negb_true_iff, negb_false_iff in Hd. lia.
Qed.
Context (ack : cniEndpointACK).
(** Only fenced transactions, and only after the acknowledged resources were observed. *)
Context (Hfenced : forall c ids ops, (nb = Some c \/ ovs = Some c) -> live_evidence (ack_record ack) (ack_Receipt ack, false) ->
  NewOvsMap (wanted_ids (ack_Spec ack)) = Ok ids -> fenced (ack_Receipt ack) ids ops -> preserves P (cl_Transact c ops)).

End observer.

(** ** The attested workload *)

(** The one row of a running task, in a table that is well formed. *)
Definition task_row (id : string) (pid : Z) (row : string) : Prop :=
  exists n, Fields row = [id; n; "RUNNING"%string] /\ ParseInt 32 n = Some pid /\ 0 < pid.
Definition other_row (id : string) (row : string) : Prop := exists task n status, Fields row = [task; n; status] /\ task <> id.
Lemma task_rows_other id rows : task_rows id true rows = Ok true <-> Forall (other_row id) rows.
Proof.
  induction rows as [|row l IH]; [by split|]. cbn [task_rows]. rewrite Forall_cons. unfold other_row at 1.
  destruct (Fields row) as [|task [|n [|status []]]] eqn:E; try (split; [done|]; by intros [(? & ? & ? & ? & _) _]).
  case_bool_decide as Ht; simpl; [split; [done|]; intros [(t & ? & ? & [= <- <- <-] & Hn) _]; done|]. rewrite IH. naive_solver.
Qed.
Lemma task_rows_spec id rows : task_rows id false rows = Ok true <->
  exists before row after pid, rows = before ++ row :: after /\ task_row id pid row /\ Forall (other_row id) before /\ Forall (other_row id) after.
Proof.
  induction rows as [|row l IH]; [split; [done|]; by intros ([] & ? & ? & ? & ? & _)|]. cbn [task_rows]. split.
  - intros H. destruct (Fields row) as [|task [|n [|status []]]] eqn:E; try done. case_bool_decide as Ht; simpl in H.
    + destruct (ParseInt 32 n) as [pid|] eqn:En; [|done]. destruct (pid <=? 0) eqn:Hp; [done|]. case_bool_decide as Hs; [|done]. simpl in H. subst.
      apply task_rows_other in H. exists [], row, l, pid. split_and!; [done| |constructor|done]. exists n. split_and!; [done..|lia].
    + apply IH in H as (before & row' & after & pid & -> & Hr & Hb & Ha). exists (row :: before), row', after, pid. split_and!; try done. constructor; [|done]. by exists task, n, status.
  - intros (before & row' & after & pid & Hl & Hr & Hb & Ha). destruct before as [|b before]; injection Hl as -> ->.
    + destruct Hr as (n & -> & -> & Hp). rewrite bool_decide_eq_true_2 by done. simpl. assert (pid <=? 0 = false) as -> by lia. by apply task_rows_other.
    + apply Forall_cons in Hb as [(task & n & status & -> & Hn) Hb]. rewrite bool_decide_eq_false_2 by done. simpl. apply IH. by exists before, row', after, pid.
Qed.
(** What the list of tasks of the runtime must show. *)
Definition runs (tasks id : string) (pid : Z) : Prop :=
  exists heading before row after, lines_of tasks = heading :: before ++ row :: after /\ Fields heading = ["TASK"; "PID"; "STATUS"]%string
    /\ task_row id pid row /\ Forall (other_row id) before /\ Forall (other_row id) after.
Lemma running_spec tasks id : containerdTaskRunning tasks id = Ok true <-> exists pid, runs tasks id pid.
Proof.
  unfold containerdTaskRunning, runs. destruct (lines_of tasks) as [|heading rows]; [split; [done|]; by intros (? & ? & ? & ? & ? & ? & _)|].
  case_bool_decide as Hh; simpl; [rewrite task_rows_spec; naive_solver|]. split; [done|]. intros (? & ? & ? & ? & ? & [= <- _] & Hh' & _). done.
Qed.
Lemma other_pid id rows acc : Forall (other_row id) rows -> rfold (task_pid_step id) acc rows = Ok acc.
Proof.
  induction 1 as [|row l (task & n & status & E & Ht) _ IH]; [done|]. simpl. unfold task_pid_step at 1. rewrite E, bool_decide_eq_false_2 by done. exact IH.
Qed.
Lemma ParseInt_wider s n : ParseInt 32 s = Some n -> ParseInt 64 s = Some n.
Proof.
  unfold ParseInt. cbv zeta. change (Z.shiftl 1 (32 - 1)) with 2147483648. change (Z.shiftl 1 (64 - 1)) with 9223372036854775808.
  assert (Hlt : forall (o : option Z) m, (k ← o; if k <? 2147483648 then Some k else None) = Some m -> (k ← o; if k <? 9223372036854775808 then Some k else None) = Some m).
  { intros [k|] m; [|done]. simpl. destruct (Z.ltb_spec k 2147483648); [|done]. intros [= ->]. assert (m <? 9223372036854775808 = true) as -> by lia. done. }
  assert (Hle : forall (o : option Z) m, (k ← o; if k <=? 2147483648 then Some (- k) else None) = Some m -> (k ← o; if k <=? 9223372036854775808 then Some (- k) else None) = Some m).
  { intros [k|] m; [|done]. simpl. destruct (Z.leb_spec k 2147483648); [|done]. intros [= <-]. assert (k <=? 9223372036854775808 = true) as -> by lia. done. }
  destruct (chars s) as [|c l]; [done|]. destruct c as [[] [] [] [] [] [] [] []]; first [apply Hlt|apply Hle].
Qed.
Lemma rfold_app {A B} (f : B -> A -> result B) acc l1 l2 : rfold f acc (l1 ++ l2) = rbind (rfold f acc l1) (fun acc => rfold f acc l2).
Proof. revert acc. induction l1 as [|x l1 IH]; intros acc; [done|]. simpl. destruct (f acc x); [apply IH|done]. Qed.
Lemma runs_pid tasks id pid : runs tasks id pid -> rfold (task_pid_step id) 0 (tail (lines_of tasks)) = Ok pid.
Proof.
  intros (heading & before & row & after & -> & _ & (n & E & Hn & Hp) & Hb & Ha). cbn [tail]. rewrite rfold_app, (other_pid id before 0 Hb). cbn [rbind rfold].
  unfold task_pid_step at 1. rewrite E, bool_decide_eq_true_2 by done. cbn [negb]. rewrite (ParseInt_wider _ _ Hn). assert (pid <=? 0 = false) as -> by lia. by apply other_pid.
Qed.

Section attestor.
Context {W : Type} {NL : NodeLib W} {JI : Json sandboxInfo} {JC : Json containerInfo} (P : W -> Prop).
Context (Hstat : forall path, preserves P (node_Stat path)).
(** A process in the namespace of the path: both are the same file. *)
Definition in_netns (pid : Z) (netns : string) : Prop := exists ns, answers P (node_Stat (proc_netns pid)) ns /\ answers P (node_Stat netns) ns.
Lemma call_same_netns pid netns : call P P (same_netns pid netns) (fun same => same = true -> in_netns pid netns).
Proof.
  eapply call_seq; [by apply call_answers|]. intros ns1 H1. eapply call_seq; [by apply call_answers|]. intros ns2 H2. apply call_ret. intros E. bools. subst. by exists ns2.
Qed.

(** A sandbox in creation, as the container runtime shows it. *)
Definition creating_evidence (ctr : list string -> M W string) (ref : WorkloadRef) (id netns : string) : Prop :=
  validSHA256 id = true /\ exists raw info tasks pid, answers P (ctr ["containers"; "info"; id]%string) raw /\ json_Unmarshal raw = Some info
    /\ creating_labels ref id info = true /\ answers P (ctr ["tasks"; "list"]%string) tasks /\ runs tasks id pid /\ in_netns pid netns.
Lemma call_VerifySandbox ctr ref id netns : (forall args, preserves P (ctr args)) -> call P P (VerifySandbox ctr ref id netns) (fun _ => creating_evidence ctr ref id netns).
Proof.
  intros Hctr. apply call_if; intros Hid; [apply call_fail|]. apply negb_false_iff in Hid. eapply call_seq; [by apply call_answers|]. intros raw Hraw.
  eapply call_seq; [by apply call_answers|]. intros tasks Htasks. eapply call_seq; [by apply (call_lift P _ (fun x => json_Unmarshal raw = Some x)); destruct (json_Unmarshal raw); intros ? [= ->]|].
  intros info Hinfo. apply call_if; intros Hl; [apply call_fail|]. apply negb_false_iff in Hl. destruct (containerdTaskRunning tasks id) as [[]|] eqn:Er; try apply call_fail.
  apply running_spec in Er as [pid Hr]. eapply call_seq; [apply (call_lift P _ (fun x => x = pid)); rewrite (runs_pid _ _ _ Hr); by intros ? [= ->]|]. intros ? ->.
  eapply call_seq; [apply call_same_netns|]. intros same Hs. apply call_if; intros Eb; [|apply call_fail]. apply call_ret. split; [done|]. exists raw, info, tasks, pid. auto 10.
Qed.

Context (a : KubernetesCNIWorkloadAttestor W).
Record attestor_reads : Prop := {
  at_client c : ka_Client a = Some c -> (forall n, preserves P (kc_Node c n)) /\ forall ns n, preserves P (kc_Pod c ns n);
  at_sandbox f : ka_Sandbox a = Some f -> forall id, preserves P (f id);
  at_inspect f : ka_CreatingSandbox a = Some f -> forall ref id netns, preserves P (f ref id netns);
}.
Context (Ha : attestor_reads).

(** The Node is the configured one, and the Pod is the workload's, on this Node. *)
Definition node_current (c : CoreClient W) : Prop := exists node, answers P (kc_Node c (ka_NodeName a)) node /\ nd_UID node = ka_NodeUID a /\ nd_Deleting node = false.
Definition pod_here (c : CoreClient W) (ref : WorkloadRef) : Prop :=
  exists pod, answers P (kc_Pod c (wl_Namespace ref) (wl_Name ref)) (Some pod) /\ pd_UID pod = wl_UID ref /\ pd_NodeName pod = ka_NodeName a /\ pd_Deleting pod = false.
Definition pod_gone (c : CoreClient W) (ref : WorkloadRef) : Prop := answers P (kc_Pod c (wl_Namespace ref) (wl_Name ref)) None.
(** A published sandbox of the Pod, whose process is in the namespace. *)
Definition published (ref : WorkloadRef) (container netns : string) (creating : bool) : Prop :=
  exists f resp st m pid, ka_Sandbox a = Some f /\ answers P (f container) (Some resp) /\ sr_Status resp = Some st /\ ss_Id st = container
    /\ ss_Metadata st = Some m /\ (sm_Uid m, sm_Name m, sm_Namespace m) = (wl_UID ref, wl_Name ref, wl_Namespace ref)
    /\ (creating = false -> ss_Ready st = true) /\ sandbox_pid resp = Some pid /\ in_netns pid netns.
(** Or, during creation only, the inspection of the sandbox. *)
Definition inspected (ref : WorkloadRef) (container netns : string) (creating : bool) : Prop :=
  creating = true /\ exists f, ka_CreatingSandbox a = Some f /\ answers P (f ref container netns) tt.

Lemma call_VerifyPod ref : call P P (VerifyPod a ref) (fun gone => exists c, ka_Client a = Some c /\ node_current c /\ if gone then pod_gone c ref else pod_here c ref).
Proof.
  unfold VerifyPod. destruct (ka_Client a) as [c|] eqn:Ec; [|apply call_fail]. destruct (at_client Ha c Ec) as [H1 H2]. apply call_if; intros _; [apply call_fail|].
  eapply call_seq; [by apply call_answers|]. intros node Hnode. apply call_if; intros Hb; [apply call_fail|]. bools. eapply call_seq; [by apply call_answers|].
  assert (Hcur : node_current c) by by exists node. intros [pod|] Hpod; [|apply call_ret; by exists c].
  apply call_if; intros Hb; [apply call_fail|]. bools. apply call_ret. exists c. split_and!; [done..|]. by exists pod.
Qed.
Lemma call_inspect ref container netns creating e : call P P (inspect_creating a ref container netns creating e) (fun gone => gone = false /\ inspected ref container netns creating).
Proof.
  unfold inspect_creating. destruct creating; [|apply call_fail]. destruct (ka_CreatingSandbox a) as [f|] eqn:Ef; [|apply call_fail].
  eapply call_seq; [apply call_answers, (at_inspect Ha f Ef)|]. intros [] H. apply call_ret. split; [done|]. split; [done|]. by exists f.
Qed.

End attestor.
