(* ===== verification/BgpHandler.v ===== *)
(** * The handler of BGP advertisements

    Models [src/services/bgp_ad_handler/main.go]: a service that watches the best EVPN paths
    of a speaker and turns Type-2 routes into ports of the OVSDB service, or into entries of
    the Linux bridge.  The environment, the OVSDB service, the commands and netlink are
    parameters; log messages are left out. *)

From S2P Require Import Prelude GoStd Journal Type2 CniTypes CniServer CniContinuity RouteImporter CniResources.
From Stdlib Require Import Ascii.

(** ** Configuration *)

Inductive handlerMode := handlerModeOVSDB | handlerModeNetlink | handlerModeDisabled.
#[export] Instance handlerMode_eq_dec : EqDecision handlerMode.
Proof. solve_decision. Defined.
(** [netlinkConfig] *)
Record netlinkConfig := {
  hc_BridgeDevice : string; hc_VxlanDevice : string; hc_AdvertiseDevice : string; hc_VxlanPrefix : string; hc_VxlanPort : Z; hc_ManageVxlan : bool;
  hc_LogicalSwitchName : string;
}.

Section environment.
Context (Getenv : string -> string) (Hostname : option string).
Definition env (key : string) : string := TrimSpace (Getenv key).
(** [resolveHandlerMode] *)
Definition resolveHandlerMode : handlerMode :=
  let mode := ToLower (env "BGP_AD_HANDLER_MODE") in
  if bool_decide (mode = ""%string) || bool_decide (mode = "ovsdb"%string) then handlerModeOVSDB
  else if bool_decide (mode = "netlink"%string) then handlerModeNetlink else handlerModeDisabled.
(** [configuredVniSet] *)
Definition vni_entry (entry : list ascii) : option Z :=
  v ← ParseInt 64 (TrimSpace (str entry)); if v <=? 0 then None else Some v.
Definition configuredVniSet : gset Z :=
  let raw := env "DYNAMIC_ROUTING_VNIS" in
  let raw := if bool_decide (raw = ""%string) then env "DYNAMIC_ROUTING_VNI" else raw in
  let raw := if bool_decide (raw = ""%string) then "1000"%string else raw in
  let set : gset Z := list_to_set (omap vni_entry (split ","%char (chars raw))) in
  if bool_decide (set = ∅) then {[1000]} else set.
(** [isVniProvisioned], [defaultVNI] *)
Definition isVniProvisioned (vni : Z) : bool := bool_decide (vni ∈ configuredVniSet).
Definition defaultVNI : Z :=
  let chosen := foldr (fun v c => if (c =? 0) || (v <? c) then v else c) 0 (elements configuredVniSet) in
  if chosen <=? 0 then 1000 else chosen.
(** [loadNetlinkConfig] *)
Definition or_default (s d : string) : string := if bool_decide (s = ""%string) then d else s.
Definition loadNetlinkConfig : netlinkConfig :=
  {| hc_BridgeDevice := or_default (env "NETLINK_BRIDGE_DEV") ("br-evpn" +:+ itoa defaultVNI);
     hc_VxlanDevice := or_default (env "NETLINK_VXLAN_DEV") ("vxlan" +:+ itoa defaultVNI);
     hc_AdvertiseDevice := or_default (env "NETLINK_ADVERTISE_DEV") ("evpnadv" +:+ itoa defaultVNI);
     hc_VxlanPrefix := or_default (env "NETLINK_VXLAN_PREFIX") "vxlan";
     hc_VxlanPort := match ParseInt 64 (env "NETLINK_VXLAN_PORT") with Some port => if 0 <? port then port else 4789 | None => 4789 end;
     hc_ManageVxlan := EqualFold (env "NETLINK_MANAGE_VXLAN") "true";
     hc_LogicalSwitchName := or_default (env "NETLINK_LOGICAL_SWITCH_NAME") "evpn-network" |}.
(** [resolveNetworkName] *)
Definition resolveNetworkName : string :=
  let named := firstNonEmpty (Getenv <$> ["NETWORK_NAME"; "OVN_LS_NAME"; "NODE_NAME"; "K8S_NODE_NAME"]%string) in
  if negb (bool_decide (named = ""%string)) then named else
  match Hostname with
  | Some h => if negb (blank h) && negb (bool_decide (h = "localhost"%string)) then h else "ovn-local"
  | None => "ovn-local"
  end.
(** [gobgpGrpcAddr], [gobgpControllerMode] *)
Definition gobgpGrpcAddr : string :=
  or_default (firstNonEmpty (Getenv <$> ["GOBGP_ENDPOINT"; "GOBGP_GRPC_ADDR"; "GOBGP_ADDR"]%string)) "127.0.0.1:50051".
Definition gobgpControllerMode : bool :=
  if negb (bool_decide (ToLower (env "GOBGP_MODE") = "k8gobgp"%string)) then false else
  let addr := ToLower (TrimSpace gobgpGrpcAddr) in
  bool_decide (addr = ""%string) || HasPrefix addr "unix://" || Contains addr ":179".
End environment.

(** ** Paths *)

(** The part of [api.EVPNMACIPAdvertisementRoute] and of [api.Path] that is read; an
    attribute is [Some] of its next hops when it is an MP_REACH_NLRI. *)
Inductive HandlerRD := RdTwoOctetASN | RdIPAddress | RdFourOctetASN.
Record MacAdv := { ma_Rd : option HandlerRD; ma_MacAddress : string; ma_IpAddress : string; ma_Labels : list Z }.
Inductive HandlerNLRI := EvpnMacadv (m : MacAdv) | OtherNLRI.
Record HandlerPath := {
  hp_EVPN : bool; hp_Nlri : option HandlerNLRI; hp_Pattrs : list (option (list string)); hp_IsWithdraw : bool; hp_NeighborIp : string; hp_SourceId : string;
}.
(** The first next hop of the first MP_REACH_NLRI that has one. *)
Fixpoint first_next_hop (attrs : list (option (list string))) : string :=
  match attrs with
  | [] => ""
  | Some (h :: _) :: _ => h
  | _ :: attrs => first_next_hop attrs
  end.
(** [strings.Split(ip, "/")[0]] *)
Definition before_slash (ip : string) : string := match split "/"%char (chars ip) with x :: _ => str x | [] => "" end.
(** [strings.ReplaceAll] of one character *)
Definition replace_char (a b : ascii) (s : string) : string := str (map (fun c => if bool_decide (c = a) then b else c) (chars s)).
Definition sanitized (s : string) : string := replace_char "."%char "-"%char (replace_char ":"%char "-"%char s).
Definition short (n : nat) (s : string) : string := str (take n (chars s)).
(** [localClientPortName], [legacyLocalClientPortName] *)
Definition localClientPortName (ip : string) : string := "k8s-" +:+ sanitized ip.
Definition legacyLocalClientPortName (ip : string) : string := "client-" +:+ sanitized ip.
(** The name of the transit port and of its tunnel. *)
Definition transit_name (sourceId neighborIp : string) : string :=
  let idPart := short 8 (sanitized sourceId) in
  let idPart := if bool_decide (idPart = ""%string) then short 8 (sanitized neighborIp) else idPart in
  let idPart := if bool_decide (idPart = ""%string) then "unknown"%string else idPart in
  "rt-" +:+ short 10 idPart.

(** ** The OVSDB service *)

Record Status := { st_Success : bool; st_Message : string }.
Record AddVtepRequest := { av_LsName : string; av_LspName : string; av_VxlanName : string; av_RemoteIp : string; av_Key : string; av_DstPort : string }.
(** [OvsdbServiceClient]; [None] is a nil status, or an answer without a network or port. *)
Record OvsdbServiceClient (W : Type) := {
  oc_GetNetwork : string -> M W (option string);
  oc_AddNetwork : string -> M W (option Status);
  oc_GetLogicalSwitchPort : string -> M W (option (list string));
  oc_AddVtep : AddVtepRequest -> M W (option Status);
  oc_AddClient : string -> string -> string -> M W (option Status);
  oc_DelClient : string -> string -> string -> M W (option Status);
  oc_AddLogicalSwitchPort : string -> list string -> string -> M W (option Status);
  oc_DelLogicalSwitchPort : string -> M W (option Status);
  oc_DelVtep : string -> string -> string -> M W (option Status);
}.
Arguments oc_GetNetwork {W} _ _.
Arguments oc_AddNetwork {W} _ _.
Arguments oc_GetLogicalSwitchPort {W} _ _.
Arguments oc_AddVtep {W} _ _.
Arguments oc_AddClient {W} _ _ _ _.
Arguments oc_DelClient {W} _ _ _ _.
Arguments oc_AddLogicalSwitchPort {W} _ _ _ _.
Arguments oc_DelLogicalSwitchPort {W} _ _.
Arguments oc_DelVtep {W} _ _ _ _.

(** What a nil pointer does to the process. *)
Definition nil_pointer : error := Errorf "nil pointer dereference".
Definition succeeded (s : option Status) : bool := match s with Some s => st_Success s | None => false end.

Section retry.
Context {W : Type}.
(** The reasons that are worth another attempt. *)
Definition transient (reason : string) : bool :=
  existsb (Contains reason) ["not connected"; "connection refused"; "unavailable"; "transport is closing"; "temporarily unavailable"]%string.
(** [ovsdbWithRetry]: up to eight attempts, here [fuel]; the last status and the last error
    are kept. *)
Fixpoint retry_from (fuel : nat) (lastStatus : option Status) (lastErr : option error) (op : string) (call : M W (option Status)) : M W (option Status * option error) :=
  match fuel with
  | O => ret (match lastStatus with
              | Some s => (Some s, lastErr)
              | None => (Some {| st_Success := false; st_Message := (op +:+ " failed after retries")%string |}, None)
              end)
  | S fuel =>
      let! r := attempt call in
      match r with
      | Ok (Some s) =>
          if st_Success s then ret (Some s, None)
          else if transient (or_default (st_Message s) "empty response") then retry_from fuel (Some s) lastErr op call
          else ret (Some s, None)
      | Ok None => ret (None, None)
      | Err e => if transient (or_default (error_text e) "empty response") then retry_from fuel lastStatus (Some e) op call else ret (None, Some e)
      end
  end.
Definition ovsdbWithRetry : string -> M W (option Status) -> M W (option Status * option error) := retry_from 8 None None.
End retry.

(** ** Routes as ports of the OVSDB service *)

Section ovsdb.
Context {W : Type} (c : OvsdbServiceClient W) (Getenv : string -> string) (networkName : string).

(** A call whose outcome is only logged. *)
Definition logged {A} (m : M W A) : M W unit := do! attempt m in ret tt.

(** [withdrawRemoteOVSDBRoute] *)
Definition withdrawRemoteOVSDBRoute (lspName vxlanName macAddr ip : string) : M W unit :=
  do! wrap (Wrapped "DelClient failed") (oc_DelClient c lspName macAddr ip) in
  do! (if bool_decide (lspName = networkName) then ret tt else logged (oc_DelClient c networkName macAddr ip)) in
  let! lspResp := wrap (Wrapped "GetLogicalSwitchPort failed") (oc_GetLogicalSwitchPort c lspName) in
  match lspResp with
  | Some [] =>
      let! status := wrap (Wrapped "DelVtep failed") (oc_DelVtep c networkName lspName vxlanName) in
      if succeeded status then ret tt else fail (Errorf "DelVtep returned unsuccessful status")
  | _ => ret tt
  end.

(** [withdrawLocalOVSDBRoute] *)
Definition withdraw_port (_ : unit) (portName : string) : M W unit :=
  if bool_decide (portName = ""%string) then ret tt else
  let! resp := attempt (oc_GetLogicalSwitchPort c portName) in
  match resp with
  | Ok (Some _) => logged (oc_DelLogicalSwitchPort c portName)
  | _ => ret tt
  end.
Definition withdrawLocalOVSDBRoute (localPortNames : list string) : M W unit := mfold withdraw_port tt localPortNames.

(** The dynamic network discovery of [handlePathOVSDB]: whether to go on. *)
Definition add_network : M W bool :=
  let! r := attempt (oc_AddNetwork c networkName) in
  match r with
  | Err _ => ret false
  | Ok None => fail nil_pointer
  | Ok (Some s) => ret (st_Success s)
  end.
Definition discover_network : M W bool :=
  let! r := attempt (oc_GetNetwork c networkName) in
  match r with
  | Ok (Some name) => if bool_decide (name = ""%string) then add_network else ret true
  | _ => add_network
  end.

(** The clean-up of a route that comes back to its own node: [true] when one of the local
    ports has the address. *)
Fixpoint reflected (lspName macAddr ip : string) (localPortNames : list string) : M W bool :=
  match localPortNames with
  | [] => ret false
  | name :: names =>
      let! r := attempt (oc_GetLogicalSwitchPort c name) in
      match r with
      | Ok (Some addresses) =>
          if bool_decide ((macAddr +:+ " " +:+ ip)%string ∈ addresses) then
            do! logged (oc_DelClient c lspName macAddr ip) in
            do! (if bool_decide (lspName = networkName) then ret tt else logged (oc_DelClient c networkName macAddr ip)) in
            ret true
          else reflected lspName macAddr ip names
      | _ => reflected lspName macAddr ip names
      end
  end.

(** A retried call: whether it succeeded; a response that is nil crashes the process. *)
Definition retried (op : string) (call : M W (option Status)) : M W bool :=
  let! r := ovsdbWithRetry op call in
  match r.2, r.1 with
  | Some _, _ => ret false
  | None, None => fail nil_pointer
  | None, Some s => ret (st_Success s)
  end.

(** A route from another speaker becomes an address of the transit port. *)
Definition import_remote (lspName vxlanName macAddr ip vni neighborIp nextHop : string) : M W unit :=
  let! mine := reflected lspName macAddr ip [localClientPortName ip; legacyLocalClientPortName ip] in
  if mine : bool then ret tt else
  let tunnelRemoteIP := if bool_decide (ParseIP neighborIp = None) then nextHop else neighborIp in
  let! vtep := retried "AddVtep" (oc_AddVtep c {| av_LsName := networkName; av_LspName := lspName; av_VxlanName := vxlanName;
                                                   av_RemoteIp := tunnelRemoteIP; av_Key := vni; av_DstPort := "4789" |}) in
  if negb vtep then ret tt else
  do! retried "AddClient" (oc_AddClient c lspName macAddr ip) in ret tt.
(** A route of this speaker becomes a port of its own. *)
Definition provision_local (macAddr ip : string) : M W unit :=
  do! retried "AddLogicalSwitchPort" (oc_AddLogicalSwitchPort c (localClientPortName ip) [(macAddr +:+ " " +:+ ip)%string] networkName) in ret tt.

(** The branches of [handlePathOVSDB] for a MAC/IP route with a provisioned VNI. *)
Definition isLocalOrigin (p : HandlerPath) (localRouterID nextHop : string) : bool :=
  (negb (bool_decide (hp_SourceId p = ""%string)) && bool_decide (hp_SourceId p = localRouterID)) || bool_decide (nextHop = "0.0.0.0"%string).
Definition isRemoteSpeaker (p : HandlerPath) (localRouterID : string) : bool :=
  negb (bool_decide (hp_NeighborIp p = ""%string)) && negb (bool_decide (hp_SourceId p = localRouterID)).
Definition apply_route (p : HandlerPath) (localRouterID macAddr ip nextHop vni : string) : M W unit :=
  let lspName := transit_name (hp_SourceId p) (hp_NeighborIp p) in
  if hp_IsWithdraw p then
    if isRemoteSpeaker p localRouterID then logged (withdrawRemoteOVSDBRoute lspName lspName macAddr ip)
    else if isLocalOrigin p localRouterID nextHop then logged (withdrawLocalOVSDBRoute [localClientPortName ip; legacyLocalClientPortName ip])
    else ret tt
  else if isRemoteSpeaker p localRouterID then import_remote lspName lspName macAddr ip vni (hp_NeighborIp p) nextHop
  else provision_local macAddr ip.

(** [handlePathOVSDB]: the administrator field of the route distinguisher is read for the
    log, which crashes on a distinguisher that is not of the IP-address form. *)
Definition handlePathOVSDB (p : HandlerPath) (localRouterID : string) : M W unit :=
  if negb (hp_EVPN p) then ret tt else
  match hp_Nlri p with
  | Some (EvpnMacadv m) =>
      match ma_Rd m with
      | Some RdIPAddress =>
          let ip := before_slash (ma_IpAddress m) in
          if bool_decide (ip = ""%string) || bool_decide (ParseIP ip = None) then ret tt else
          let! found := discover_network in
          if negb found then ret tt else
          let vniValue := from_option id 0 (head (ma_Labels m)) in
          if negb (isVniProvisioned Getenv vniValue) then ret tt else
          apply_route p localRouterID (ma_MacAddress m) ip (first_next_hop (hp_Pattrs p)) (itoa vniValue)
      | _ => fail nil_pointer
      end
  | _ => ret tt
  end.
End ovsdb.

(** ** Routes as entries of the Linux bridge *)

(** A link as the handler reads it: [hl_Vxlan] is the VNI of a VXLAN device. *)
Record HandlerLink := { hl_Name : string; hl_Index : Z; hl_Vxlan : option Z }.
Record HandlerNeigh := { hn_LinkIndex : Z; hn_INET : bool; hn_HardwareAddr : list Z; hn_IP : Addr }.
Class HandlerNetlink (W : Type) := {
  hnl_LinkByName : string -> M W HandlerLink;
  hnl_LinkList : M W (list HandlerLink);
  hnl_LinkAddBridge : string -> M W unit;
  hnl_LinkAddVxlan : string -> Z -> Z -> M W unit;
  hnl_LinkSetUp : HandlerLink -> M W unit;
  hnl_LinkSetMaster : HandlerLink -> HandlerLink -> M W unit;
  hnl_NeighSet : HandlerNeigh -> M W unit;
  hnl_NeighDel : HandlerNeigh -> M W unit;
}.

(** [firstMpReachNextHop], [remoteVTEPFromPath] *)
Definition firstMpReachNextHop (attrs : list (option (list string))) : string := TrimSpace (first_next_hop attrs).
Definition remoteVTEPFromPath (p : HandlerPath) : string :=
  let nextHop := firstMpReachNextHop (hp_Pattrs p) in
  match ParseIP nextHop with Some ip => if IsUnspecified ip then "" else nextHop | None => "" end.

Section netlink.
Context {W : Type} {EX : Exec W} {HN : HandlerNetlink W}.

(** A command whose output may excuse its failure. *)
Definition run_command (args : list string) (excused : string -> bool) : M W unit := fun w =>
  let '(w, (out, err)) := CombinedOutput args w in
  (w, match err with None => Ok tt | Some e => if excused (TrimSpace out) then Ok tt else Err (Wrapped "command failed" e) end).
(** The lines of a listing. *)
Definition list_command (args : list string) : M W (list string) := fun w =>
  let '(w, (out, err)) := CombinedOutput args w in
  (w, match err with None => Ok (str <$> split (byte 10) (chars out)) | Some e => Err (Wrapped "bridge fdb show failed" e) end).

(** [setRemoteVtepNeighbor] *)
Definition vtep_neighbor_args (vxlanName remoteVTEP : string) (withdraw : bool) : list string :=
  ["ip"; "neigh"; if withdraw then "del" else "replace"; remoteVTEP; "dev"; vxlanName; "lladdr"; flood_mac; "nud"; "permanent"]%string.
Definition setRemoteVtepNeighbor (vxlanName remoteVTEP : string) (withdraw : bool) : M W unit :=
  if bool_decide (remoteVTEP = ""%string) then ret tt else
  if bool_decide (ParseIP remoteVTEP = None) then fail (Errorf "invalid remote VTEP") else
  run_command (vtep_neighbor_args vxlanName remoteVTEP withdraw) (fun msg => withdraw && no_such msg).

(** The device after the first "dev" that has a field after it. *)
Fixpoint after_dev (fields : list string) : option string :=
  match fields with
  | f :: ((d :: _) as rest) => if bool_decide (f = "dev"%string) then Some d else after_dev rest
  | _ => None
  end.
(** [isMacLearnedOnNonVxlanPort]: one line of the listing, then all of them. *)
Definition learned_elsewhere (vxlanName target line : string) : bool :=
  match Fields (TrimSpace line) with
  | f0 :: ((_ :: _ :: _) as rest) =>
      bool_decide (ToLower f0 = target) &&
      match after_dev rest with
      | Some dev => negb (bool_decide (dev = ""%string)) && negb (bool_decide (dev = vxlanName))
      | None => false
      end
  | _ => false
  end.
Definition isMacLearnedOnNonVxlanPort (bridgeName vxlanName macAddr : string) : M W bool :=
  let! lines := list_command ["bridge"; "fdb"; "show"; "br"; bridgeName]%string in
  ret (existsb (learned_elsewhere vxlanName (ToLower (TrimSpace macAddr))) lines).

(** [removeMacFromVxlanFdb]: the arguments kept of an entry, then the deletions. *)
Fixpoint fdb_args (fields : list string) : list string :=
  match fields with
  | [] => []
  | f :: rest =>
      if bool_decide (f = "dst"%string) then
        match rest with v :: rest' => "dst"%string :: v :: fdb_args rest' | [] => [] end
      else if bool_decide (f = "vlan"%string) then
        match rest with v :: rest' => "vlan"%string :: v :: fdb_args rest' | [] => ["vlan"%string] end
      else if bool_decide (f ∈ ["self"; "permanent"; "router"; "static"; "extern_learn"; "master"]%string) then f :: fdb_args rest
      else fdb_args rest
  end.
Definition remove_fdb_line (vxlanName target : string) (_ : unit) (line : string) : M W unit :=
  match Fields (TrimSpace line) with
  | f0 :: rest =>
      if bool_decide (ToLower f0 = target)
      then run_command (["bridge"; "fdb"; "del"; f0; "dev"; vxlanName]%string ++ fdb_args rest) no_such
      else ret tt
  | [] => ret tt
  end.
Definition removeMacFromVxlanFdb (vxlanName macAddr : string) : M W unit :=
  let! lines := list_command ["bridge"; "fdb"; "show"; "dev"; vxlanName]%string in
  mfold (remove_fdb_line vxlanName (ToLower (TrimSpace macAddr))) tt lines.

(** [setRemoteMacFdbEntry], [setFloodEntry] *)
Definition fdb_entry (vxlanName mac remoteVTEP verb : string) : list string :=
  ["bridge"; "fdb"; verb; mac; "dev"; vxlanName; "dst"; remoteVTEP; "self"; "permanent"]%string.
Definition setRemoteMacFdbEntry (vxlanName hwAddr remoteVTEP : string) (withdraw : bool) : M W unit :=
  run_command (fdb_entry vxlanName hwAddr remoteVTEP (if withdraw then "del" else "replace")) (fun msg => withdraw && no_such msg).
Definition setFloodEntry (vxlanName remoteVTEP : string) (withdraw : bool) : M W unit :=
  run_command (fdb_entry vxlanName flood_mac remoteVTEP (if withdraw then "del" else "append"))
              (fun msg => (negb withdraw && Contains msg "File exists") || (withdraw && no_such msg)).

(** [ensureBridgeLink] *)
Definition ensureBridgeLink (name : string) : M W HandlerLink :=
  let! r := attempt (hnl_LinkByName name) in
  match r with
  | Ok link => ret link
  | Err _ =>
      do! wrap (Wrapped "create bridge") (hnl_LinkAddBridge name) in
      wrap (Wrapped "resolve bridge after create") (hnl_LinkByName name)
  end.
(** [resolveVxlanLink] *)
Definition create_vxlan (name : string) (vni port : Z) : M W HandlerLink :=
  do! wrap (Wrapped "create vxlan device") (hnl_LinkAddVxlan name vni port) in
  wrap (Wrapped "resolve vxlan device after create") (hnl_LinkByName name).
Definition resolveVxlanLink (vni : Z) (cfg : netlinkConfig) : M W HandlerLink :=
  if negb (bool_decide (hc_VxlanDevice cfg = ""%string)) then
    let! r := attempt (hnl_LinkByName (hc_VxlanDevice cfg)) in
    match r with
    | Ok link => ret link
    | Err _ => if hc_ManageVxlan cfg then create_vxlan (hc_VxlanDevice cfg) vni (hc_VxlanPort cfg) else fail (Errorf "vxlan device not found")
    end
  else
    let! links := attempt hnl_LinkList in
    match (match links with Ok links => List.find (fun l => bool_decide (hl_Vxlan l = Some vni)) links | Err _ => None end) with
    | Some link => ret link
    | None =>
        if negb (hc_ManageVxlan cfg) then fail (Errorf "vxlan interface not found") else
        let candidate := (hc_VxlanPrefix cfg +:+ itoa vni)%string in
        let! r := attempt (hnl_LinkByName candidate) in
        match r with Ok link => ret link | Err _ => create_vxlan candidate vni (hc_VxlanPort cfg) end
    end.

(** The remote half of [applyNetlinkClient]. *)
Definition apply_remote (withdraw : bool) (macAddr remoteVTEP : string) (vni : Z) (cfg : netlinkConfig) (bridgeLink : HandlerLink) : M W unit :=
  let! vxlanLink := resolveVxlanLink vni cfg in
  do! (if hc_ManageVxlan cfg then
         do! wrap (Wrapped "link up") (hnl_LinkSetUp vxlanLink) in wrap (Wrapped "attach vxlan to bridge") (hnl_LinkSetMaster vxlanLink bridgeLink)
       else ret tt) in
  do! setRemoteVtepNeighbor (hl_Name vxlanLink) remoteVTEP withdraw in
  let! localOnBridge := wrap (Wrapped "check local bridge ownership") (isMacLearnedOnNonVxlanPort (hl_Name bridgeLink) (hl_Name vxlanLink) macAddr) in
  if localOnBridge && negb withdraw then wrap (Wrapped "remove conflicting remote fdb") (removeMacFromVxlanFdb (hl_Name vxlanLink) macAddr)
  else
    do! setRemoteMacFdbEntry (hl_Name vxlanLink) macAddr remoteVTEP withdraw in
    setFloodEntry (hl_Name vxlanLink) remoteVTEP withdraw.
(** Its neighbour half. *)
Definition apply_neighbor (withdraw : bool) (hw : list Z) (clientAddr : Addr) (cfg : netlinkConfig) : M W unit :=
  let! adv := attempt (hnl_LinkByName (hc_AdvertiseDevice cfg)) in
  let neighborDevice := match adv with Ok _ => hc_AdvertiseDevice cfg | Err _ => hc_BridgeDevice cfg end in
  let! link := wrap (Wrapped "neighbor/interface not found") (hnl_LinkByName neighborDevice) in
  let entry := {| hn_LinkIndex := hl_Index link; hn_INET := Is4 clientAddr; hn_HardwareAddr := hw; hn_IP := clientAddr |} in
  if withdraw then logged (hnl_NeighDel entry) else wrap (Wrapped "neighbor set") (hnl_NeighSet entry).
(** [applyNetlinkClient] *)
Definition applyNetlinkClient (withdraw : bool) (macAddr clientIP remoteVTEP : string) (vni : Z) (cfg : netlinkConfig) : M W unit :=
  let! hw := lift (of_option (Errorf "invalid mac") (ParseMAC macAddr)) in
  let! clientAddr := lift (if bool_decide (clientIP = ""%string) then Ok None
                           else match ParseIP clientIP with Some a => Ok (Some a) | None => Err (Errorf "invalid client IP") end) in
  let! bridgeLink := ensureBridgeLink (hc_BridgeDevice cfg) in
  do! wrap (Wrapped "link up") (hnl_LinkSetUp bridgeLink) in
  do! (if bool_decide (ParseIP remoteVTEP = None) then ret tt else apply_remote withdraw macAddr remoteVTEP vni cfg bridgeLink) in
  match clientAddr with Some a => apply_neighbor withdraw hw a cfg | None => ret tt end.

(** [handlePathNetlink]; the classification of a local origin is only logged. *)
Definition handlePathNetlink (Getenv : string -> string) (cfg : netlinkConfig) (p : HandlerPath) : M W unit :=
  if negb (hp_EVPN p) then ret tt else
  match hp_Nlri p with
  | Some (EvpnMacadv m) =>
      let macAddr := TrimSpace (ma_MacAddress m) in
      let clientIP := before_slash (TrimSpace (ma_IpAddress m)) in
      if bool_decide (macAddr = ""%string) then ret tt else
      if negb (bool_decide (clientIP = ""%string)) && bool_decide (ParseIP clientIP = None) then ret tt else
      let vni := from_option id 0 (head (ma_Labels m)) in
      if (vni <=? 0) || negb (isVniProvisioned Getenv vni) then ret tt else
      logged (applyNetlinkClient (hp_IsWithdraw p) macAddr clientIP (remoteVTEPFromPath p) vni cfg)
  | _ => ret tt
  end.
End netlink.

(** ** The service *)

Section service.
Context {W : Type} {EX : Exec W} {HN : HandlerNetlink W} (c : OvsdbServiceClient W) (Getenv : string -> string) (Hostname : option string).

(** [handlePath] *)
Definition handlePath (mode : handlerMode) (cfg : netlinkConfig) (networkName localRouterID : string) (p : HandlerPath) : M W unit :=
  match mode with
  | handlerModeNetlink => handlePathNetlink Getenv cfg p
  | _ => handlePathOVSDB c Getenv networkName p localRouterID
  end.
(** [main] up to its stream of events: whether the process handles paths at all, and the
    network it ensures first. *)
Definition handler_idle : bool :=
  bool_decide (resolveHandlerMode Getenv = handlerModeDisabled)
  || (gobgpControllerMode Getenv && negb (bool_decide (resolveHandlerMode Getenv = handlerModeOVSDB))).
Definition ensure_network : M W unit :=
  if bool_decide (resolveHandlerMode Getenv = handlerModeOVSDB) then
    let! r := ovsdbWithRetry "AddNetwork" (oc_AddNetwork c (resolveNetworkName Getenv Hostname)) in
    match r.2 with
    | Some e => fail (Wrapped "Failed to add/ensure network" e)
    | None => if succeeded r.1 then ret tt else fail (Errorf "Failed to add network")
    end
  else ret tt.
(** The paths of the listing and of the events, one after the other. *)
Definition handle_paths (localRouterID : string) (paths : list HandlerPath) : M W unit :=
  mfold (fun _ p => handlePath (resolveHandlerMode Getenv) (loadNetlinkConfig Getenv) (resolveNetworkName Getenv Hostname) localRouterID p) tt paths.
End service.
