(* ===== verification/BgpHandlerSafety.v ===== *)
(** * What the handler of BGP advertisements does

    The configuration it reads, the calls its retries make, and a contract of the OVSDB
    service and of the kernel under which a path changes only what it names: a predicate of
    the world that the permitted calls keep is kept by the handler.  Whatever a permission
    depends on was seen in the world where the predicate holds. *)

From S2P Require Import Prelude GoStd Journal Calls Type2 CniTypes CniServer CniContinuity RouteImporter CniResources BgpHandler.

(** ** Configuration *)

Section configuration.
Context (Getenv : string -> string).

Lemma vni_entry_positive entry v : vni_entry entry = Some v -> 0 < v.
Proof. unfold vni_entry. intros (x & _ & H)%bind_Some. case_match; simplify_eq. lia. Qed.
Lemma configured_positive v : v ∈ configuredVniSet Getenv -> 0 < v.
Proof.
  unfold configuredVniSet. cbv zeta. case_bool_decide; [set_solver by lia|].
  rewrite elem_of_list_to_set, list_elem_of_omap. intros (entry & _ & Hv). by eapply vni_entry_positive.
Qed.
Lemma configured_nonempty : configuredVniSet Getenv <> ∅.
Proof. unfold configuredVniSet. cbv zeta. case_bool_decide; set_solver. Qed.
Definition smaller (v c : Z) : Z := if (c =? 0) || (v <? c) then v else c.
Lemma smaller_least l : (forall v, v ∈ l -> 0 < v) -> l <> [] ->
  foldr smaller 0 l ∈ l /\ forall v, v ∈ l -> foldr smaller 0 l <= v.
Proof.
  induction l as [|x l IH]; [done|]. intros Hpos _. simpl. pose proof (Hpos x ltac:(set_solver)).
  destruct l as [|y l]; [simpl; unfold smaller; simpl; split; [set_solver|intros v; rewrite list_elem_of_singleton; lia]|].
  destruct IH as [Hin Hle]; [set_solver|done|]. pose proof (Hpos _ (list_elem_of_further _ _ _ Hin)).
  set (m := foldr smaller 0 (y :: l)) in *. unfold smaller. destruct (Z.eqb_spec m 0); [lia|]. simpl orb.
  destruct (Z.ltb_spec x m); (split; [set_solver|]); intros v [->|Hv]%elem_of_cons; try lia; specialize (Hle v Hv); lia.
Qed.
(** The set of configured VNIs is never empty and its members are positive; the default one
    is the smallest of them. *)
Theorem defaultVNI_least :
  0 < defaultVNI Getenv /\ isVniProvisioned Getenv (defaultVNI Getenv) = true /\ forall v, isVniProvisioned Getenv v = true -> 0 < v /\ defaultVNI Getenv <= v.
Proof.
  destruct (smaller_least (elements (configuredVniSet Getenv))) as [Hin Hle].
  { intros v Hv%elem_of_elements. by apply configured_positive. }
  { intros He%elements_empty_inv%leibniz_equiv. by apply configured_nonempty in He. }
  apply elem_of_elements in Hin. pose proof (configured_positive _ Hin) as Hpos.
  assert (Hd : defaultVNI Getenv = foldr smaller 0 (elements (configuredVniSet Getenv))).
  { unfold defaultVNI. cbv zeta. fold smaller. destruct (Z.leb_spec (foldr smaller 0 (elements (configuredVniSet Getenv))) 0); [lia|done]. }
  unfold isVniProvisioned. rewrite Hd. split_and!; [done|by apply bool_decide_eq_true|]. intros v Hv%bool_decide_eq_true.
  split; [by apply configured_positive|]. by apply Hle, elem_of_elements.
Qed.
End configuration.

(** ** Retries *)

Section retries.
Context {W : Type}.
(** An answer that ends the retries. *)
Definition final (r : result (option Status)) : bool :=
  match r with
  | Ok (Some s) => st_Success s || negb (transient (or_default (st_Message s) "empty response"))
  | Ok None => true
  | Err e => negb (transient (or_default (error_text e) "empty response"))
  end.
(** What the caller gets of it. *)
Definition returned (r : result (option Status)) : option Status * option error := match r with Ok s => (s, None) | Err e => (None, Some e) end.

Lemma retry_step fuel st er op (call : M W (option Status)) w :
  retry_from (S fuel) st er op call w =
  let '(w1, r) := call w in
  if final r then (w1, Ok (returned r))
  else retry_from fuel (match r with Ok s => s | Err _ => st end) (match r with Ok _ => er | Err e => Some e end) op call w1.
Proof.
  simpl. rewrite bind_attempt. destruct (call w) as [w1 [[s|]|e]]; simpl; [destruct (st_Success s); [done|]|done|].
  - by destruct (transient _).
  - by destruct (transient _).
Qed.
(** A run of the retries: the answers of the calls, in order. *)
Inductive answered (call : M W (option Status)) : W -> list (result (option Status)) -> W -> Prop :=
  | answered_nil w : answered call w [] w
  | answered_cons w w1 w2 r l : call w = (w1, r) -> answered call w1 l w2 -> answered call w (r :: l) w2.

Lemma retry_answered fuel st er op call w w' r : retry_from fuel st er op call w = (w', r) ->
  (forall s, st = Some s -> st_Success s = false) ->
  exists l, answered call w l w' /\ (length l <= fuel)%nat /\
    ((exists r0 l0, l = l0 ++ [r0] /\ Forall (fun x => final x = false) l0 /\ final r0 = true /\ r = Ok (returned r0))
     \/ (length l = fuel /\ Forall (fun x => final x = false) l /\ exists s e, r = Ok (Some s, e) /\ st_Success s = false)).
Proof.
  revert st er w. induction fuel as [|fuel IH]; intros st er w H Hst.
  - exists []. split_and!; [..|right]; [|done|split_and!; [done..|]]; destruct st as [s|]; injection H as <- <-; [constructor..| |]; eauto.
  - rewrite retry_step in H. destruct (call w) as [w1 r1] eqn:E. destruct (final r1) eqn:Ef.
    + injection H as <- <-. exists [r1]. split_and!; [by repeat econstructor|simpl; lia|]. left. exists r1, []. done.
    + apply IH in H as (l & Hl & Hn & H).
      * exists (r1 :: l). split_and!; [by econstructor|simpl; lia|]. destruct H as [(r0 & l0 & -> & Hf & H)|(Hlen & Hf & H)].
        { left. exists r0, (r1 :: l0). split_and!; [done|by constructor|..]; tauto. }
        { right. split_and!; [simpl; lia|by constructor|done]. }
      * intros s Hs. destruct r1 as [[s1|]|e]; simplify_eq; [|by apply Hst]. simpl in Ef. by destruct (st_Success s).
Qed.
(** C27: Between one and eight calls are made; all but the last failed in a way that is
    worth another attempt; the answer of a last call that succeeded or failed otherwise is
    returned, and after eight attempts an unsuccessful status. *)
Theorem ovsdbWithRetry_bounded op (call : M W (option Status)) w :
  exists l w' status err, ovsdbWithRetry op call w = (w', Ok (status, err)) /\ answered call w l w' /\ (1 <= length l <= 8)%nat /\
    ((exists r0 l0, l = l0 ++ [r0] /\ Forall (fun x => final x = false) l0 /\ final r0 = true /\ (status, err) = returned r0)
     \/ (length l = 8%nat /\ Forall (fun x => final x = false) l /\ succeeded status = false)).
Proof.
  destruct (ovsdbWithRetry op call w) as [w' r] eqn:E. apply retry_answered in E as (l & Hl & Hn & H); [|done].
  destruct H as [(r0 & l0 & -> & Hf & H0 & ->)|(Hlen & Hf & s & e & -> & Hs)].
  - exists (l0 ++ [r0]), w', (returned r0).1, (returned r0).2. rewrite <- surjective_pairing. rewrite length_app in *. simpl in *.
    split_and!; [done..|lia|lia|]. left. by exists r0, l0.
  - exists l, w', (Some s), e. split_and!; [done..|lia|lia|]. right. done.
Qed.
End retries.

(** ** Ports *)

Section ovsdb_contract.
Context {W : Type} (c : OvsdbServiceClient W) (Getenv : string -> string) (networkName localRouterID : string) (p : HandlerPath) (m : MacAdv).
Notation ip := (before_slash (ma_IpAddress m)).
Notation mac := (ma_MacAddress m).
Notation tuple := (mac +:+ " " +:+ ip)%string.
Notation transit := (transit_name (hp_SourceId p) (hp_NeighborIp p)).
Notation local_names := [localClientPortName ip; legacyLocalClientPortName ip].
Notation vni := (from_option id 0 (head (ma_Labels m))).

(** A port was read and did not have the address of the route. *)
Definition without_tuple (P : W -> Prop) (name : string) : Prop :=
  exists w w' r, P w /\ oc_GetLogicalSwitchPort c name w = (w', r) /\ forall addresses, r = Ok (Some addresses) -> tuple ∉ addresses.
(** What the routes of another speaker permit. *)
Definition may_import (P : W -> Prop) : Prop :=
  hp_IsWithdraw p = false /\ isRemoteSpeaker p localRouterID = true /\ isVniProvisioned Getenv vni = true /\ Forall (without_tuple P) local_names.
Definition may_tunnel (P : W -> Prop) (req : AddVtepRequest) : Prop :=
  may_import P /\ av_LsName req = networkName /\ av_LspName req = transit /\ av_VxlanName req = transit /\ av_Key req = itoa vni
  /\ (av_RemoteIp req = hp_NeighborIp p \/ (ParseIP (hp_NeighborIp p) = None /\ av_RemoteIp req = first_next_hop (hp_Pattrs p))).

Record ovsdb_contract (P : W -> Prop) : Prop := {
  hk_network name : preserves P (oc_GetNetwork c name);
  hk_ensure : preserves P (oc_AddNetwork c networkName);
  hk_port name : preserves P (oc_GetLogicalSwitchPort c name);
  (* a tunnel and its address, unless a local port has the address *)
  hk_tunnel req : may_tunnel P req -> preserves P (oc_AddVtep c req);
  hk_client : may_import P -> preserves P (oc_AddClient c transit mac ip);
  (* the address leaves the transit port and the switch's own port *)
  hk_remove name : isRemoteSpeaker p localRouterID = true -> name = transit \/ name = networkName -> preserves P (oc_DelClient c name mac ip);
  (* the tunnel of a withdrawn route, once its port was seen without addresses *)
  hk_untunnel : hp_IsWithdraw p = true -> isRemoteSpeaker p localRouterID = true -> answers P (oc_GetLogicalSwitchPort c transit) (Some []) ->
    preserves P (oc_DelVtep c networkName transit transit);
  (* the port of a local address *)
  hk_local : hp_IsWithdraw p = false -> isRemoteSpeaker p localRouterID = false -> preserves P (oc_AddLogicalSwitchPort c (localClientPortName ip) [tuple] networkName);
  hk_unlocal name addresses : hp_IsWithdraw p = true -> isRemoteSpeaker p localRouterID = false -> isLocalOrigin p localRouterID (first_next_hop (hp_Pattrs p)) = true ->
    name ∈ local_names -> answers P (oc_GetLogicalSwitchPort c name) (Some addresses) -> preserves P (oc_DelLogicalSwitchPort c name);
}.

Context (P : W -> Prop) (K : ovsdb_contract P).

Lemma call_logged {A} (x : M W A) : preserves P x -> call P P (logged x) (fun _ => True).
Proof. intros Hx. eapply call_seq; [by apply call_keeps, preserves_attempt|]. intros r _. by apply call_ret. Qed.
Lemma preserves_retry fuel st er op (x : M W (option Status)) : preserves P x -> preserves P (retry_from fuel st er op x).
Proof.
  intros Hx. revert st er. induction fuel as [|fuel IH]; intros st er w Hw; [done|]. rewrite retry_step.
  pose proof (Hx w Hw) as H1. destruct (x w) as [w1 r]. simpl in H1. destruct (final r); [done|]. by apply IH.
Qed.
Lemma call_retried op (x : M W (option Status)) : preserves P x -> call P P (retried op x) (fun _ => True).
Proof.
  intros Hx. eapply call_seq; [by apply call_keeps, preserves_retry|]. intros r _.
  destruct r.2; [by apply call_ret|]. destruct r.1; [by apply call_ret|apply call_fail].
Qed.
Lemma call_remove_both : isRemoteSpeaker p localRouterID = true ->
  call P P (if bool_decide (transit = networkName) then ret tt else logged (oc_DelClient c networkName mac ip)) (fun _ => True).
Proof. intros Hr. apply call_if; intros _; [by apply call_ret|]. apply call_logged, K; auto. Qed.

Lemma call_withdraw_remote : hp_IsWithdraw p = true -> isRemoteSpeaker p localRouterID = true ->
  call P P (withdrawRemoteOVSDBRoute c networkName transit transit mac ip) (fun _ => True).
Proof.
  intros Hw Hr. eapply call_seq; [apply call_wrap, call_keeps, K; auto|]. intros _ _.
  eapply call_seq; [by apply call_remove_both|]. intros _ _.
  eapply call_seq; [apply call_wrap, call_answers, K|]. intros [[|a l]|] Ha; [|by apply call_ret..].
  eapply call_seq; [apply call_wrap, call_keeps, K; auto|]. intros st _. apply call_if; intros _; [by apply call_ret|apply call_fail].
Qed.
Lemma call_withdraw_local : hp_IsWithdraw p = true -> isRemoteSpeaker p localRouterID = false -> isLocalOrigin p localRouterID (first_next_hop (hp_Pattrs p)) = true ->
  preserves P (withdrawLocalOVSDBRoute c local_names).
Proof.
  intros Hw Hr Ho.
  assert (Hport : forall name, name ∈ local_names -> preserves P (withdraw_port c tt name)).
  { intros name Hn. apply (call_preserves _ _ (fun _ => True)). unfold withdraw_port. apply call_if; intros _; [by apply call_ret|].
    eapply call_seq; [eapply call_attempt, call_answers, K|]. intros [[a|]|e] Ha; [|by apply call_ret..].
    apply call_logged. eapply (hk_unlocal P K); eauto. }
  unfold withdrawLocalOVSDBRoute. simpl mfold. apply preserves_bind; [apply Hport; set_solver|]. intros []. apply preserves_bind; [apply Hport; set_solver|].
  intros []. apply preserves_ret.
Qed.
Lemma call_cleanup : isRemoteSpeaker p localRouterID = true ->
  call P P (do! logged (oc_DelClient c transit mac ip) in
            do! (if bool_decide (transit = networkName) then ret tt else logged (oc_DelClient c networkName mac ip)) in ret true) (fun b => b = true).
Proof.
  intros Hr. eapply call_seq; [apply call_logged, K; auto|]. intros _ _. eapply call_seq; [by apply call_remove_both|]. intros _ _. by apply call_ret.
Qed.
Lemma call_reflected names : isRemoteSpeaker p localRouterID = true ->
  call P P (reflected c networkName transit mac ip names) (fun mine => mine = false -> Forall (without_tuple P) names).
Proof.
  intros Hr. induction names as [|name names IH]; simpl; [by apply call_ret|].
  intros w w' r Hw H. rewrite bind_attempt in H. destruct (oc_GetLogicalSwitchPort c name w) as [w1 r1] eqn:E.
  pose proof (hk_port P K name w Hw) as Hw1. rewrite E in Hw1. simpl in Hw1.
  assert (Hnext : (forall addresses, r1 = Ok (Some addresses) -> tuple ∉ addresses) -> reflected c networkName transit mac ip names w1 = (w', r) ->
                  P w' /\ forall a, r = Ok a -> a = false -> Forall (without_tuple P) (name :: names)).
  { intros Hno Hx. destruct (IH _ _ _ Hw1 Hx) as [? HF]. split; [done|]. intros a Ha Hf. constructor; [by exists w, w1, r1|by eapply HF]. }
  destruct r1 as [[addresses|]|e]; [|by apply Hnext..]. cbn [fst snd] in H.
  destruct (bool_decide (tuple ∈ addresses)) eqn:Hin; [|apply bool_decide_eq_false in Hin].
  - destruct (call_cleanup Hr _ _ _ Hw1 H) as [? Hb]. split; [done|]. intros a Ha Hf. by rewrite (Hb a Ha) in Hf.
  - apply Hnext; [|exact H]. intros l Hl. by simplify_eq.
Qed.
Lemma call_import : hp_IsWithdraw p = false -> isRemoteSpeaker p localRouterID = true -> isVniProvisioned Getenv vni = true ->
  call P P (import_remote c networkName transit transit mac ip (itoa vni) (hp_NeighborIp p) (first_next_hop (hp_Pattrs p))) (fun _ => True).
Proof.
  intros Hw Hr Hv. eapply call_seq; [by apply call_reflected|]. intros [] HF; [by apply call_ret|]. assert (Hmay : may_import P) by (split_and!; auto).
  eapply call_seq; [apply call_retried, K|].
  - split; [done|]. simpl. split_and!; try done. case_bool_decide; [by right|by left].
  - intros b _. apply call_if; intros _; [by apply call_ret|]. eapply call_seq; [apply call_retried, (hk_client P K Hmay)|]. intros ? _. by apply call_ret.
Qed.
Lemma call_apply_route : isVniProvisioned Getenv vni = true ->
  call P P (apply_route c networkName p localRouterID mac ip (first_next_hop (hp_Pattrs p)) (itoa vni)) (fun _ => True).
Proof.
  intros Hv. unfold apply_route. cbv zeta. apply call_if; intros Hw; (apply call_if; intros Hr).
  - eapply call_logged, call_preserves, call_withdraw_remote; done.
  - apply call_if; intros Ho; [|by apply call_ret]. by apply call_logged, call_withdraw_local.
  - by apply call_import.
  - eapply call_seq; [by apply call_retried, K|]. intros ? _. by apply call_ret.
Qed.
Lemma call_discover : call P P (discover_network c networkName) (fun _ => True).
Proof.
  assert (Ha : call P P (add_network c networkName) (fun _ => True)).
  { eapply call_seq; [apply call_keeps, preserves_attempt, K|]. intros [[s|]|e] _; [by apply call_ret|apply call_fail|by apply call_ret]. }
  eapply call_seq; [apply call_keeps, preserves_attempt, K|]. intros [[n|]|e] _; [|done..]. apply call_if; intros _; [done|by apply call_ret].
Qed.
End ovsdb_contract.

(** ** The bridge *)

Section netlink_contract.
Context {W : Type} {EX : Exec W} {HN : HandlerNetlink W} (withdraw : bool) (mac remoteVTEP : string) (vni : Z) (cfg : netlinkConfig).
Notation target := (ToLower (TrimSpace mac)).
Notation named P name link := (answers P (hnl_LinkByName name) link).

(** A command that keeps the predicate, whatever it prints. *)
Definition runs (P : W -> Prop) (args : list string) : Prop := forall w, P w -> P (CombinedOutput args w).1.
Definition missing (P : W -> Prop) (name : string) : Prop := exists w w' e, P w /\ hnl_LinkByName name w = (w', Err e).
(** The device for the VNI: the configured one, or one of the listing, or the one of the prefix. *)
Definition vxlan_name : string := if bool_decide (hc_VxlanDevice cfg = ""%string) then (hc_VxlanPrefix cfg +:+ itoa vni)%string else hc_VxlanDevice cfg.
Definition vxlan_of (P : W -> Prop) (vx : HandlerLink) : Prop :=
  named P vxlan_name vx \/ (hc_VxlanDevice cfg = ""%string /\ hl_Vxlan vx = Some vni /\ exists l, answers P hnl_LinkList l /\ vx ∈ l).
(** Whether the bridge was seen with the MAC on a port that is not the tunnel. *)
Definition seen_on_bridge (P : W -> Prop) (b vx : HandlerLink) (there : bool) : Prop :=
  exists lines, answers P (list_command ["bridge"; "fdb"; "show"; "br"; hl_Name b]%string) lines /\ existsb (learned_elsewhere (hl_Name vx) target) lines = there.
(** An entry of the tunnel for the MAC was listed. *)
Definition listed (P : W -> Prop) (vx : HandlerLink) (f0 : string) (rest : list string) : Prop :=
  ToLower f0 = target /\ exists lines line, answers P (list_command ["bridge"; "fdb"; "show"; "dev"; hl_Name vx]%string) lines /\ line ∈ lines /\ Fields (TrimSpace line) = f0 :: rest.

Record netlink_contract (P : W -> Prop) : Prop := {
  nk_link name : preserves P (hnl_LinkByName name);
  nk_links : preserves P hnl_LinkList;
  nk_show args : preserves P (list_command ("bridge" :: "fdb" :: "show" :: args)%string);
  (* the bridge is created when it is missing, the tunnel when it is missing and managed *)
  nk_bridge : missing P (hc_BridgeDevice cfg) -> preserves P (hnl_LinkAddBridge (hc_BridgeDevice cfg));
  nk_bridge_up b : named P (hc_BridgeDevice cfg) b -> preserves P (hnl_LinkSetUp b);
  nk_tunnel : hc_ManageVxlan cfg = true -> missing P vxlan_name -> preserves P (hnl_LinkAddVxlan vxlan_name vni (hc_VxlanPort cfg));
  nk_tunnel_up b vx : hc_ManageVxlan cfg = true -> named P (hc_BridgeDevice cfg) b -> vxlan_of P vx -> preserves P (hnl_LinkSetUp vx) /\ preserves P (hnl_LinkSetMaster vx b);
  nk_vtep vx : is_Some (ParseIP remoteVTEP) -> vxlan_of P vx -> runs P (vtep_neighbor_args (hl_Name vx) remoteVTEP withdraw);
  (* the entries of the route are installed when the MAC was not seen on another port, and
     those of a withdrawn one are removed *)
  nk_install b vx : withdraw = false -> is_Some (ParseIP remoteVTEP) -> named P (hc_BridgeDevice cfg) b -> vxlan_of P vx -> seen_on_bridge P b vx false ->
    runs P (fdb_entry (hl_Name vx) mac remoteVTEP "replace") /\ runs P (fdb_entry (hl_Name vx) flood_mac remoteVTEP "append");
  nk_remove vx : withdraw = true -> is_Some (ParseIP remoteVTEP) -> vxlan_of P vx ->
    runs P (fdb_entry (hl_Name vx) mac remoteVTEP "del") /\ runs P (fdb_entry (hl_Name vx) flood_mac remoteVTEP "del");
  (* a MAC of this node loses its entries on the tunnel *)
  nk_conflict b vx f0 rest : withdraw = false -> named P (hc_BridgeDevice cfg) b -> vxlan_of P vx -> seen_on_bridge P b vx true -> listed P vx f0 rest ->
    runs P (["bridge"; "fdb"; "del"; f0; "dev"; hl_Name vx]%string ++ fdb_args rest);
  (* the neighbour on the advertising device, or on the bridge *)
  nk_neighbor link hw a : named P (hc_AdvertiseDevice cfg) link \/ named P (hc_BridgeDevice cfg) link -> ParseMAC mac = Some hw ->
    let entry := {| hn_LinkIndex := hl_Index link; hn_INET := Is4 a; hn_HardwareAddr := hw; hn_IP := a |} in
    preserves P (if withdraw then hnl_NeighDel entry else hnl_NeighSet entry);
}.

Context (P : W -> Prop) (K : netlink_contract P).

Lemma call_run args ex : runs P args -> call P P (run_command args ex) (fun _ => True).
Proof.
  intros Hr w w' r Hw H. specialize (Hr w Hw). unfold run_command in H. destruct (CombinedOutput args w) as [w1 [out err]]. by simplify_eq.
Qed.
Lemma attempt_named name w w' r : P w -> hnl_LinkByName name w = (w', r) ->
  P w' /\ match r with Ok link => named P name link | Err _ => missing P name end.
Proof.
  intros Hw H. pose proof (nk_link P K name w Hw) as Hp. rewrite H in Hp. split; [done|].
  destruct r as [l|e]; [by exists w, w'|by exists w, w', e].
Qed.
Lemma call_attempt_named name : call P P (attempt (hnl_LinkByName name)) (fun r => match r with Ok link => named P name link | Err _ => missing P name end).
Proof. intros w w' r Hw (r' & H & ->)%attempt_inv. apply attempt_named in H as [? ?]; [|done]. split; [done|]. by intros ? [= <-]. Qed.

Lemma call_bridge : call P P (ensureBridgeLink (hc_BridgeDevice cfg)) (fun b => named P (hc_BridgeDevice cfg) b).
Proof.
  eapply call_seq; [apply call_attempt_named|]. intros [b|e] Hb; [by apply call_ret|].
  eapply call_seq; [apply call_wrap, call_keeps; by apply K|]. intros _ _. apply call_wrap, call_answers, K.
Qed.
Lemma call_create : hc_ManageVxlan cfg = true -> missing P vxlan_name -> call P P (create_vxlan vxlan_name vni (hc_VxlanPort cfg)) (vxlan_of P).
Proof.
  intros Hm Hn. eapply call_seq; [apply call_wrap, call_keeps; by apply K|]. intros _ _.
  eapply call_weaken; [apply call_wrap, call_answers, K|]. intros vx Hvx. by left.
Qed.
Lemma call_resolve : call P P (resolveVxlanLink vni cfg) (vxlan_of P).
Proof.
  pose proof (call_create) as Hcreate. unfold resolveVxlanLink, vxlan_of. unfold vxlan_of, vxlan_name in *. destruct (bool_decide (hc_VxlanDevice cfg = ""%string)) eqn:E; cbn [negb].
  - apply bool_decide_eq_true in E. eapply call_seq; [apply call_attempt, call_answers, K|]. intros links Hl.
    destruct (match links with Ok links => _ | Err _ => None end) as [vx|] eqn:Ef.
    { apply call_ret. right. destruct links as [l|]; [|done]. apply List.find_some in Ef as [Hin Hv]. apply list_elem_of_In in Hin.
      apply bool_decide_eq_true in Hv. split_and!; [done..|]. exists l. auto. }
    apply call_if; intros Hm; [apply call_fail|]. apply negb_false_iff in Hm. cbv zeta.
    eapply call_seq; [apply call_attempt_named|]. intros [vx|e] Hvx; [apply call_ret; by left|by apply Hcreate].
  - eapply call_seq; [apply call_attempt_named|]. intros [vx|e] Hvx; [apply call_ret; by left|].
    apply call_if; intros Hm; [by apply Hcreate|apply call_fail].
Qed.
Lemma call_on_bridge b vx : call P P (isMacLearnedOnNonVxlanPort (hl_Name b) (hl_Name vx) mac) (seen_on_bridge P b vx).
Proof. eapply call_seq; [apply call_answers, K|]. intros lines Hl. apply call_ret. by exists lines. Qed.
Lemma call_conflict b vx : withdraw = false -> named P (hc_BridgeDevice cfg) b -> vxlan_of P vx -> seen_on_bridge P b vx true ->
  call P P (removeMacFromVxlanFdb (hl_Name vx) mac) (fun _ => True).
Proof.
  intros Hw Hb Hvx Hs. eapply call_seq; [apply call_answers, K|]. intros lines Hl.
  assert (Hsub : forall l, l ⊆ lines -> preserves P (mfold (remove_fdb_line (hl_Name vx) target) tt l)).
  { induction l as [|line l IH]; intros Hin; simpl; [apply preserves_ret|]. apply preserves_bind; [|intros []; apply IH; set_solver].
    unfold remove_fdb_line. destruct (Fields (TrimSpace line)) as [|f0 rest] eqn:Ef; [apply preserves_ret|].
    destruct (bool_decide (ToLower f0 = target)) eqn:Et; [|apply preserves_ret]. apply bool_decide_eq_true in Et.
    eapply call_preserves, call_run, (nk_conflict P K b); try done. split; [done|]. exists lines, line. split_and!; [done| |done]. apply Hin. set_solver. }
  by apply call_keeps, Hsub.
Qed.
Lemma call_entries b vx : is_Some (ParseIP remoteVTEP) -> named P (hc_BridgeDevice cfg) b -> vxlan_of P vx ->
  withdraw = true \/ seen_on_bridge P b vx false ->
  call P P (do! setRemoteMacFdbEntry (hl_Name vx) mac remoteVTEP withdraw in setFloodEntry (hl_Name vx) remoteVTEP withdraw) (fun _ => True).
Proof.
  intros Hip Hb Hvx Hs.
  assert (Hboth : runs P (fdb_entry (hl_Name vx) mac remoteVTEP (if withdraw then "del" else "replace")) /\
                  runs P (fdb_entry (hl_Name vx) flood_mac remoteVTEP (if withdraw then "del" else "append"))).
  { pose proof (nk_install P K b vx) as Hi. pose proof (nk_remove P K vx) as Hr. destruct withdraw; [by apply Hr|]. destruct Hs as [|Hs]; [done|]. by apply Hi. }
  destruct Hboth as [Hm Hf]. eapply call_seq; [by apply call_run|]. intros _ _. by apply call_run.
Qed.
Lemma call_remote b : is_Some (ParseIP remoteVTEP) -> named P (hc_BridgeDevice cfg) b ->
  call P P (apply_remote withdraw mac remoteVTEP vni cfg b) (fun _ => True).
Proof.
  intros Hip Hb. eapply call_seq; [apply call_resolve|]. intros vx Hvx. eapply (call_seq _ _ _ (fun _ => True)).
  { apply call_if; intros Hm; [|by apply call_ret]. destruct (nk_tunnel_up P K b vx Hm Hb Hvx) as [Hu Hs].
    eapply call_seq; [by apply call_wrap, call_keeps|]. intros _ _. by apply call_wrap, call_keeps. }
  intros _ _. eapply (call_seq _ _ _ (fun _ => True)).
  { apply call_if; intros _; [by apply call_ret|]. apply call_if; intros _; [apply call_fail|]. by apply call_run, K. }
  intros _ _. eapply call_seq; [apply call_wrap, call_on_bridge|]. intros there Hs. apply call_if; intros Hc.
  - apply andb_true_iff in Hc as [-> Hw%negb_true_iff]. apply call_wrap. by eapply call_conflict.
  - eapply call_entries; try done. destruct withdraw; [by left|right]. by destruct there.
Qed.
Lemma call_neighbor hw a : ParseMAC mac = Some hw -> call P P (apply_neighbor withdraw hw a cfg) (fun _ => True).
Proof.
  intros Hm. eapply call_seq; [apply call_keeps, preserves_attempt, K|]. intros adv _. cbv zeta.
  eapply call_seq; [apply call_wrap, call_answers, K|]. intros link Hl.
  assert (Hn := nk_neighbor P K link hw a ltac:(destruct adv; auto) Hm). cbv zeta in Hn. destruct withdraw.
  - eapply call_seq; [by apply call_keeps, preserves_attempt|]. intros ? _. by apply call_ret.
  - by apply call_wrap, call_keeps.
Qed.
Lemma apply_confined clientIP : preserves P (applyNetlinkClient withdraw mac clientIP remoteVTEP vni cfg).
Proof.
  apply (call_preserves _ _ (fun _ => True)). eapply (call_seq _ _ _ (fun hw => ParseMAC mac = Some hw)).
  { apply call_lift. intros hw Hh. by destruct (ParseMAC mac); simplify_eq/=. }
  intros hw Hh. eapply (call_seq _ _ _ (fun _ => True)); [by apply call_lift|]. intros clientAddr _.
  eapply call_seq; [apply call_bridge|]. intros b Hb. eapply call_seq; [apply call_wrap, call_keeps; by apply K|]. intros _ _.
  eapply (call_seq _ _ _ (fun _ => True)).
  { apply call_if; intros Hip; [by apply call_ret|]. apply call_remote; [|done]. apply bool_decide_eq_false in Hip. by destruct (ParseIP remoteVTEP). }
  intros _ _. destruct clientAddr as [a|]; [by apply call_neighbor|by apply call_ret].
Qed.
End netlink_contract.

(** The entries of the bridge follow the path: under the contract, whose permissions name
    the MAC, the next hop and the VNI of the path, the handler does nothing else.  A
    forwarding entry is installed only after the bridge was listed without the MAC on
    another port, and a MAC of this node loses the entries that were listed for it. *)
Theorem handlePathNetlink_confined {W} {EX : Exec W} {HN : HandlerNetlink W} (Getenv : string -> string) (cfg : netlinkConfig) (p : HandlerPath) (m : MacAdv) (P : W -> Prop) :
  hp_Nlri p = Some (EvpnMacadv m) ->
  netlink_contract (hp_IsWithdraw p) (TrimSpace (ma_MacAddress m)) (remoteVTEPFromPath p) (from_option id 0 (head (ma_Labels m))) cfg P ->
  preserves P (handlePathNetlink Getenv cfg p).
Proof.
  intros Hm K. apply (call_preserves _ _ (fun _ => True)). unfold handlePathNetlink. rewrite Hm. cbv zeta.
  do 4 (apply call_if; intros _; [by apply call_ret|]). eapply call_seq; [by apply call_keeps, preserves_attempt, apply_confined|]. intros ? _. by apply call_ret.
Qed.
