(* ===== verification/OperatorTypes.v ===== *)
(** * Data of the operator

    Models the types of [src/deploy/operator/api/v1alpha1/evpncore_types.go] and the
    ownership of objects of [src/deploy/operator/controllers/journal.go] and
    [lifecycle.go]: which Kubernetes objects an installation may touch.  The accessors of
    [unstructured.Unstructured] and the validation rules of Kubernetes are library code and
    parameters. *)

From S2P Require Import Prelude GoStd Journal GoJson.

(** ** Comparing values *)

(** [json.Marshal] compares scalars by their text; arrays and objects differ from them. *)
Definition same_scalar (a b : json) : bool :=
  match a, b with
  | JNull, JNull => true
  | JBool x, JBool y => bool_decide (x = y)
  | JNum x, JNum y => bool_decide (x = y)
  | JStr x, JStr y => bool_decide (x = y)
  | _, _ => false
  end.

(** [controlledFieldsEqual] *)
Fixpoint controlledFieldsEqual (desired live : json) : bool :=
  match desired with
  | JObj d =>
      match live with
      | JObj l => forallb (fun kv => controlledFieldsEqual kv.2 (field kv.1 l)) d
      | _ => false
      end
  | JArr d =>
      match live with
      | JArr l => (fix go d l := match d, l with
                                 | [], [] => true
                                 | x :: d, y :: l => controlledFieldsEqual x y && go d l
                                 | _, _ => false
                                 end) d l
      | _ => false
      end
  | _ => same_scalar desired live
  end.

(** The declared part of a document: scalars are equal, arrays agree element by element, and
    an object has at least the declared fields. *)
Definition scalar (j : json) : bool := match j with JArr _ | JObj _ => false | _ => true end.
Inductive declares : json -> json -> Prop :=
  | declares_scalar d : scalar d = true -> declares d d
  | declares_array d l : Forall2 declares d l -> declares (JArr d) (JArr l)
  | declares_object d l : (forall k x, (k, x) ∈ d -> declares x (field k l)) -> declares (JObj d) (JObj l).

Lemma same_scalar_spec d l : scalar d = true -> same_scalar d l = true <-> declares d l.
Proof.
  intros Hd. split.
  - intros H. assert (l = d) as -> by (destruct d, l; simpl in *; bools; congruence). by constructor.
  - inversion 1 as [d' Hs| |]; subst; [|done..]. destruct l; simpl in *; rewrite ?bool_decide_eq_true_2; done.
Qed.

(** The operator's drift check is exact: [controlledFieldsEqual] says that a live object
    has every field the manifest declares, with the declared value, at any depth, and says
    nothing of the fields the manifest leaves out. *)
Theorem controlledFieldsEqual_spec desired live : controlledFieldsEqual desired live = true <-> declares desired live.
Proof.
  revert live. induction desired as [|b|n|s|d IH|d IH] using json_rect'; intros live;
    [exact (same_scalar_spec JNull live eq_refl)|exact (same_scalar_spec (JBool b) live eq_refl)|exact (same_scalar_spec (JNum n) live eq_refl)
    |exact (same_scalar_spec (JStr s) live eq_refl)|..]; simpl.
  - destruct live as [| | | |l|]; try (split; [done|by inversion 1]).
    trans (Forall2 declares d l); [|split; [by constructor|by inversion 1]].
    revert l. induction IH as [|x d Hx _ IHd]; intros [|y l]; try (split; [done|by inversion 1]).
    rewrite Forall2_cons, andb_true_iff, Hx. by rewrite IHd.
  - destruct live as [| | | | |l]; try (split; [done|by inversion 1]).
    trans (forall k x, (k, x) ∈ d -> declares x (field k l)); [|split; [by constructor|by inversion 1]].
    rewrite forallb_forall. rewrite Forall_forall in IH. split.
    + intros H k x Hin. apply (IH _ Hin), (H (k, x)). by apply list_elem_of_In.
    + intros H [k x] Hin%list_elem_of_In. apply (IH _ Hin). by apply H.
Qed.

(** ** Custom resources *)

(** Types of the Kubernetes libraries that the code only hands on. *)
Class KubeTypes := {
  Toleration : Type;
  Toleration_eq_dec :: EqDecision Toleration;
  Taint : Type;
  Condition : Type;
  Condition_eq_dec :: EqDecision Condition;
}.

(** [NodeAgentSpec], [BGPSpec] and [EvpnCoreSpec] *)
Record NodeAgentSpec {KT : KubeTypes} := {
  na_Enabled : bool; na_Image : string; na_NodeSelector : gmap string string; na_Tolerations : list Toleration; na_Mode : string;
  na_NetworkBackend : string; na_Socket : string; na_OVNNBEndpoint : string; na_OVSDBEndpoint : string; na_OVNSBEndpoint : string;
  na_ExportConfigPath : string; na_ExportStatusPath : string; na_ExportInterval : string; na_ExportTimeout : string;
  na_RemoteConfigPath : string; na_RemoteStatusPath : string; na_RemoteInterval : string; na_RemoteTimeout : string;
  na_GoBGPHostPath : string; na_CNIContinuityConfigPath : string; na_ProviderAttestation : bool; na_ProviderCTRHostPath : string;
}.
Record EvpnCoreSpec {KT : KubeTypes} := {
  cs_Enabled : bool; cs_AppNamespace : string; cs_OvnNamespace : string; cs_AppImage : string; cs_GobgpImage : string;
  cs_OvnImage : string; cs_DataplaneNode : string; cs_NodeAgent : NodeAgentSpec; cs_BGPProvider : string;
}.
(** [ManagedResource] *)
Record ManagedResource := {
  mr_APIVersion : string; mr_Kind : string; mr_Namespace : string; mr_Name : string; mr_UID : string; mr_State : string;
  mr_Conflict : string;
}.
(** [EvpnCoreStatus]; an empty list is omitted from the wire, so it is not distinguished from [nil]. *)
Record EvpnCoreStatus {KT : KubeTypes} := {
  cst_Phase : string; cst_Ready : bool; cst_Reason : string; cst_ObservedGeneration : Z; cst_Conditions : list Condition;
  cst_ManagedResources : list ManagedResource;
}.
(** [EvpnCore] with the metadata the code reads; [core_Deleting]: the deletion timestamp is set. *)
Record EvpnCore {KT : KubeTypes} := {
  core_Namespace : string; core_Name : string; core_UID : string; core_Generation : Z; core_ResourceVersion : string;
  core_Created : Z; core_Deleting : bool; core_Finalizers : list string; core_Spec : EvpnCoreSpec; core_Status : EvpnCoreStatus;
}.

#[export] Instance NodeAgentSpec_eq_dec {KT : KubeTypes} : EqDecision NodeAgentSpec.
Proof. solve_decision. Defined.
#[export] Instance EvpnCoreSpec_eq_dec {KT : KubeTypes} : EqDecision EvpnCoreSpec.
Proof. solve_decision. Defined.
#[export] Instance ManagedResource_eq_dec : EqDecision ManagedResource.
Proof. solve_decision. Defined.
#[export] Instance EvpnCoreStatus_eq_dec {KT : KubeTypes} : EqDecision EvpnCoreStatus.
Proof. solve_decision. Defined.

Definition Finalizer : string := "evpn.romanspb80.github.io/core-cleanup".
Definition OwnerKey : string := "evpn.romanspb80.github.io/installation-uid".
Definition LockName : string := "evpn-core-installation".
Definition LockNamespace : string := "evpn-operator-system".
Definition fieldManager : string := "evpn-core-operator".
Definition lastAppliedKey : string := "evpn.romanspb80.github.io/last-applied".
Definition envDefaultsKey : string := "evpn.romanspb80.github.io/template-env-defaults".
Definition managedByKey : string := "app.kubernetes.io/managed-by".
Definition maxManagedResources : nat := 256.

(** ** Objects *)

(** The methods of [unstructured.Unstructured] and its nested accessors. *)
Class UnstructuredLib := {
  GetAPIVersion : json -> string; GetKind : json -> string; GetNamespace : json -> string; GetName : json -> string;
  GetUID : json -> string; GetResourceVersion : json -> string; IsDeleting : json -> bool;
  GetAnnotations : json -> gmap string string; GetLabels : json -> gmap string string;
  SetAnnotations : gmap string string -> json -> json; SetLabels : gmap string string -> json -> json;
  SetNamespace : string -> json -> json;
  NestedSlice : json -> list string -> result (option (list json));
  SetNestedSlice : list json -> list string -> json -> result json;
  SetNestedMap : json -> list string -> json -> result json;
  RemoveNestedField : list string -> json -> json;
}.

Definition index (key : string) (m : gmap string string) : string := default ""%string (m !! key).

Section objects.
Context {KT : KubeTypes} {UL : UnstructuredLib} {JJ : Json json}.

(** [resourceRef] *)
Definition resourceRef (obj : json) : ManagedResource :=
  {| mr_APIVersion := GetAPIVersion obj; mr_Kind := GetKind obj; mr_Namespace := GetNamespace obj; mr_Name := GetName obj;
     mr_UID := GetUID obj; mr_State := "Observed"; mr_Conflict := "" |}.

(** [sameResource] *)
Definition sameResource (a b : ManagedResource) : bool :=
  bool_decide (mr_APIVersion a = mr_APIVersion b) && bool_decide (mr_Kind a = mr_Kind b)
  && bool_decide (mr_Namespace a = mr_Namespace b) && bool_decide (mr_Name a = mr_Name b).

(** [ownedJournalValid]; decoding [null] leaves the map [nil], a value that is no object is an error. *)
Definition ownedJournalValid (core : EvpnCore) (obj : json) : bool :=
  if negb (bool_decide (index OwnerKey (GetAnnotations obj) = core_UID core)) then false
  else match json_Unmarshal (index lastAppliedKey (GetAnnotations obj)) with
       | Some JNull => bool_decide (index OwnerKey (GetAnnotations (JObj [])) = core_UID core)
                       && sameResource (resourceRef obj) (resourceRef (JObj []))
       | Some (JObj m) => bool_decide (index OwnerKey (GetAnnotations (JObj m)) = core_UID core)
                          && sameResource (resourceRef obj) (resourceRef (JObj m))
       | _ => false
       end.

(** [ownershipProblem]: the message, or the empty string. *)
Definition ownershipProblem (core : EvpnCore) (obj : json) : string :=
  let ref := resourceRef obj in
  if existsb (fun old => sameResource old ref && negb (bool_decide (mr_UID old = ""%string)) && negb (bool_decide (mr_UID old = mr_UID ref)))
             (cst_ManagedResources (core_Status core))
  then "replacement UID"
  else if negb (ownedJournalValid core obj) then "lacks verified installation ownership and last-applied journal"
  else "".

(** [cleanupAllowed] *)
Definition cleanupAllowed (ref : ManagedResource) : bool :=
  bool_decide ((mr_APIVersion ref +:+ "/" +:+ mr_Kind ref)%string
                 ∈ ["v1/Service"; "v1/ConfigMap"; "v1/ServiceAccount"; "apps/v1/Deployment"; "apps/v1/DaemonSet"]%string)
  && negb (bool_decide (mr_Namespace ref = "k8gobgp-system"%string)) && negb (bool_decide (mr_Name ref = "k8gobgp"%string)).

(** [managedKinds] *)
Definition managedKinds : list (string * string) :=
  [("v1", "Service"); ("v1", "ConfigMap"); ("v1", "ServiceAccount"); ("apps/v1", "Deployment"); ("apps/v1", "DaemonSet")]%string.
End objects.
