(* ===== verification/OperatorManifest.v ===== *)
(** * The operator's manifest

    Models [src/deploy/operator/controllers/manifest.go] and [configurePlacement] of
    [placement.go]: which specifications are accepted and which objects an installation
    consists of.  The YAML decoder, the conversion of pod specifications and the validation
    rules of Kubernetes are library code and parameters. *)

From S2P Require Import Prelude GoStd Journal GoJson OperatorTypes.
From Stdlib Require Import Ascii.

(** ** Durations *)

(** The leading digits of a text and the rest. *)
Fixpoint leading_digits (l : list ascii) : list ascii * list ascii :=
  match l with
  | [] => ([], [])
  | c :: r => match digit c with Some _ => let '(d, rest) := leading_digits r in (c :: d, rest) | None => ([], l) end
  end.
(** The leading characters that are neither a digit nor a period. *)
Fixpoint leading_unit (l : list ascii) : list ascii * list ascii :=
  match l with
  | [] => ([], [])
  | c :: r =>
      if bool_decide (c = "."%char) then ([], l) else
      match digit c with Some _ => ([], l) | None => let '(u, rest) := leading_unit r in (c :: u, rest) end
  end.
Definition unit_ns (u : list ascii) : option Z :=
  let name := str u in
  if bool_decide (name = "ns"%string) then Some 1
  else if bool_decide (name ∈ ["us"; str [byte 194; byte 181; byte 115]; str [byte 206; byte 188; byte 115]]%string) then Some 1000
  else if bool_decide (name = "ms"%string) then Some (10 ^ 6) else if bool_decide (name = "s"%string) then Some (10 ^ 9)
  else if bool_decide (name = "m"%string) then Some (60 * 10 ^ 9) else if bool_decide (name = "h"%string) then Some (3600 * 10 ^ 9)
  else None.

(** The groups of a duration; [fuel] is the length of the text, which every group shortens. *)
Fixpoint duration_groups (fuel : nat) (acc : Z) (l : list ascii) : option Z :=
  match fuel, l with
  | _, [] => Some acc
  | O, _ => None
  | S fuel, _ =>
      let '(int, l) := leading_digits l in
      let '(frac, l) := match l with "."%char :: r => leading_digits r | _ => ([], l) end in
      if bool_decide (int = []) && bool_decide (frac = []) then None else
      let '(u, l) := leading_unit l in
      match unit_ns u, decimal 0 int, decimal 0 frac with
      | Some unit, Some v, Some f =>
          if 2 ^ 63 / unit <? v then None else
          let v := v * unit + f * unit / 10 ^ Z.of_nat (length frac) in
          if (2 ^ 63 <? v) || (2 ^ 63 <? acc + v) then None else duration_groups fuel (acc + v) l
      | _, _, _ => None
      end
  end.
(** [time.ParseDuration], in nanoseconds; the part of a fraction below a nanosecond is cut
    off, where Go computes it in [float64]. *)
Definition ParseDuration (s : string) : option Z :=
  let '(neg, l) := match chars s with "-"%char :: l => (true, l) | "+"%char :: l => (false, l) | l => (false, l) end in
  if bool_decide (l = ["0"%char]) then Some 0
  else if bool_decide (l = []) then None
  else d ← duration_groups (length l) 0 l;
       if (neg : bool) then Some (- d) else if 2 ^ 63 - 1 <? d then None else Some d.

(** ** The specification *)

(** [k8s.io/apimachinery/pkg/util/validation]: whether a value has no problems. *)
Class KubeValidation := {
  IsDNS1123Subdomain : string -> bool;
  IsDNS1123Label : string -> bool;
  IsQualifiedName : string -> bool;
  IsValidLabelValue : string -> bool;
}.

Definition is_empty (s : string) : bool := bool_decide (s = ""%string).

(** [defaultString] *)
Definition defaultString (value fallback : string) : string := if is_empty value then fallback else value.

Section spec.
Context {KT : KubeTypes} {KV : KubeValidation}.

(** [namespaces] *)
Definition namespaces (spec : EvpnCoreSpec) : string * string :=
  (defaultString (cs_AppNamespace spec) "evpn-system", defaultString (cs_OvnNamespace spec) "ovn-system").

Definition namespace_ok (ns : string) : bool := IsDNS1123Label ns && negb (bool_decide (ns = "k8gobgp-system"%string)).
Definition duration_ok (value : string) : bool :=
  is_empty value || match ParseDuration value with Some d => 0 <? d | None => false end.
Definition agent_path_ok (path : string) : bool := is_empty path || clean_abs path && HasPrefix path "/run/evpn-node-agent/".
Definition host_path_ok (path : string) : bool := is_empty path || clean_abs path.
Definition selector_ok (node : string) (kv : string * string) : bool :=
  bool_decide (kv.1 = "kubernetes.io/hostname"%string) && bool_decide (kv.2 = node) && IsQualifiedName kv.1 && IsValidLabelValue kv.2.

(** The part of [validateSpec] on an enabled node agent; the order of its maps does not
    matter, because every test fails with an error. *)
Definition validate_agent (spec : EvpnCoreSpec) : result unit :=
  let n := cs_NodeAgent spec in
  let mode := defaultString (na_Mode n) "real-ovn-ovs" in
  let backend := defaultString (na_NetworkBackend n) "linux-veth" in
  if negb (bool_decide (mode ∈ ["real-ovn-ovs"; "in-memory"]%string)) then Err (Errorf "unsupported Node-Agent mode")
  else if negb (bool_decide (backend ∈ ["linux-veth"; "in-memory"]%string)) then Err (Errorf "unsupported Node-Agent network backend")
  else if (negb (is_empty (na_ExportConfigPath n)) || negb (is_empty (na_RemoteConfigPath n)) || negb (is_empty (na_CNIContinuityConfigPath n)))
          && (negb (bool_decide (mode = "real-ovn-ovs"%string)) || negb (bool_decide (backend = "linux-veth"%string)))
  then Err (Errorf "Type-2 export/import requires real-ovn-ovs/linux-veth")
  else if negb (forallb duration_ok [na_ExportInterval n; na_ExportTimeout n; na_RemoteInterval n; na_RemoteTimeout n])
  then Err (Errorf "must be a positive Go duration")
  else if negb (forallb agent_path_ok [na_Socket n; na_ExportConfigPath n; na_ExportStatusPath n; na_RemoteConfigPath n; na_RemoteStatusPath n;
                                       na_CNIContinuityConfigPath n])
  then Err (Errorf "must be a clean absolute path under /run/evpn-node-agent/")
  else if negb (host_path_ok (na_GoBGPHostPath n)) then Err (Errorf "nodeAgent.gobgpHostPath must be a clean absolute directory path other than /")
  else if negb (host_path_ok (na_ProviderCTRHostPath n)) then Err (Errorf "nodeAgent.providerCTRHostPath must be a clean absolute file path")
  else if negb (is_empty (na_CNIContinuityConfigPath n)) && negb (na_ProviderAttestation n)
  then Err (Errorf "CNI continuity requires administrator-enabled provider attestation runtime access")
  else if negb (forallb (selector_ok (cs_DataplaneNode spec)) (map_to_list (na_NodeSelector n)))
  then Err (Errorf "multi-node/arbitrary nodeAgent.nodeSelector is unsupported")
  else Ok tt.

(** [validateSpec] *)
Definition validateSpec (spec : EvpnCoreSpec) : result unit :=
  let '(app, ovn) := namespaces spec in
  if cs_Enabled spec && (negb (IsDNS1123Subdomain (cs_DataplaneNode spec)) || is_empty (cs_DataplaneNode spec))
  then Err (Errorf "spec.dataplaneNode must name the single designated Kubernetes Node")
  else if negb (bool_decide (defaultString (cs_BGPProvider spec) "k8gobgp" = "k8gobgp"%string)) then Err (Errorf "BGP provider is not implemented")
  else if negb (forallb namespace_ok [app; ovn]) then Err (Errorf "invalid namespace")
  else if negb (na_Enabled (cs_NodeAgent spec)) then Ok tt
  else validate_agent spec.
End spec.

(** ** Rendering *)

Fixpoint rmap {A B} (f : A -> result B) (l : list A) : result (list B) :=
  match l with
  | [] => Ok []
  | x :: l => let? y := f x in let? ys := rmap f l in Ok (y :: ys)
  end.

(** [m[key] = v] and [delete(m, key)] *)
Definition set_field (key : string) (v : json) (m : list (string * json)) : list (string * json) :=
  (key, v) :: List.filter (fun kv => negb (bool_decide (kv.1 = key))) m.
Definition del_field (key : string) (m : list (string * json)) : list (string * json) :=
  List.filter (fun kv => negb (bool_decide (kv.1 = key))) m.
(** [s, _ := v.(string)] *)
Definition as_string (v : json) : string := match v with JStr s => s | _ => "" end.
Definition as_map (msg : string) (v : json) : result (list (string * json)) := match v with JObj m => Ok m | _ => Err (Errorf msg) end.

Definition containers_path : list string := ["spec"; "template"; "spec"; "containers"]%string.

(** [shellQuote] *)
Fixpoint quote_chars (l : list ascii) : list ascii :=
  match l with
  | [] => []
  | c :: l => if bool_decide (c = byte 39) then byte 39 :: byte 34 :: byte 39 :: byte 34 :: byte 39 :: quote_chars l else c :: quote_chars l
  end.
Definition shellQuote (value : string) : string := str (byte 39 :: quote_chars (chars value) ++ [byte 39]).

(** How a POSIX shell reads one word: outside quotes, in single quotes, where every
    character stands for itself, and in double quotes, where [$], the backquote, the
    backslash and [!] are special.  [None]: not a single literal word. *)
Inductive quoting := Bare | Single | Double.
Definition bare_literal (c : ascii) : bool :=
  let n := Z.of_N (N_of_ascii c) in
  (48 <=? n) && (n <=? 57) || (65 <=? n) && (n <=? 90) || (97 <=? n) && (n <=? 122) || bool_decide (n ∈ [43; 44; 45; 46; 47; 58; 64; 95]).
Definition double_special (c : ascii) : bool := bool_decide (c ∈ [byte 33; byte 36; byte 92; byte 96]).
Fixpoint shell_word (q : quoting) (l : list ascii) : option (list ascii) :=
  match q, l with
  | Bare, [] => Some []
  | _, [] => None
  | Bare, c :: l =>
      if bool_decide (c = byte 39) then shell_word Single l
      else if bool_decide (c = byte 34) then shell_word Double l
      else if bare_literal c then cons c <$> shell_word Bare l else None
  | Single, c :: l => if bool_decide (c = byte 39) then shell_word Bare l else cons c <$> shell_word Single l
  | Double, c :: l =>
      if bool_decide (c = byte 34) then shell_word Bare l
      else if double_special c then None else cons c <$> shell_word Double l
  end.

Lemma shell_word_quoted l : shell_word Single (quote_chars l ++ [byte 39]) = Some l.
Proof.
  induction l as [|c l IH]; [done|]. simpl quote_chars. case_bool_decide as Hc.
  - subst c. change (cons (byte 39) <$> shell_word Single (quote_chars l ++ [byte 39]) = Some (byte 39 :: l)). by rewrite IH.
  - simpl. rewrite bool_decide_eq_false_2, IH by done. done.
Qed.

(** No configured value escapes into the shell: a shell reads the output of [shellQuote]
    as one literal word, the value itself, whatever characters it has. *)
Theorem shellQuote_roundtrip value : shell_word Bare (chars (shellQuote value)) = Some (chars value).
Proof. unfold shellQuote. rewrite chars_str. change (shell_word Single (quote_chars (chars value) ++ [byte 39]) = Some (chars value)). apply shell_word_quoted. Qed.

(** [corev1.PodSpec]: the fields the code writes, and the rest of the type. *)
Record VolumeMount := { vm_Name : string; vm_MountPath : string; vm_ReadOnly : bool }.
Class PodRest := { ContainerRest : Type; VolumeRest : Type; PodSpecRest : Type }.
Record Container {PR : PodRest} := {
  ct_Image : string; ct_Args : list string; ct_VolumeMounts : list VolumeMount; ct_ReadinessCommand : option (list string);
  ct_Rest : ContainerRest;
}.
(** A volume from a host path has its path and type; any other has none. *)
Record Volume {PR : PodRest} := { vo_Name : string; vo_HostPath : option (string * string); vo_Rest : option VolumeRest }.
Record PodSpec {KT : KubeTypes} {PR : PodRest} := {
  ps_Containers : list Container; ps_InitContainers : list Container; ps_NodeSelector : gmap string string;
  ps_Tolerations : list Toleration; ps_ServiceAccountName : string; ps_AutomountToken : option bool; ps_Volumes : list Volume;
  ps_Rest : PodSpecRest;
}.

(** The decoder of YAML documents and the converters of Kubernetes types. *)
Class ManifestLib {KT : KubeTypes} {PR : PodRest} := {
  yaml_documents : string -> list (result json);
  NestedMap : json -> list string -> result (option json);
  PodSpec_of : json -> result PodSpec;
  of_PodSpec : PodSpec -> result json;
  affinity_of : string -> result json;
  tolerations_of : list Toleration -> result (list json);
}.

Section render.
Context {KT : KubeTypes} {UL : UnstructuredLib} {JJ : Json json} {PR : PodRest} {ML : ManifestLib}.

(** One environment entry of [applySpecOverrides]. *)
Definition override_env (appNS ovnNS : string) (value : json) : result json :=
  let? env := as_map "invalid environment entry" value in
  let key := as_string (field "name" env) in
  let set v := JObj (del_field "valueFrom" (set_field "value" (JStr v) env)) in
  Ok (if bool_decide (key = "OVN_NB_ENDPOINT"%string) then set ("tcp:ovn-ovs." +:+ ovnNS +:+ ".svc.cluster.local:6641")%string
      else if bool_decide (key = "OVS_DB_ENDPOINT"%string) then set ("tcp:ovn-ovs." +:+ ovnNS +:+ ".svc.cluster.local:6640")%string
      else if bool_decide (key = "OVSDB_ADDR"%string) then set ("ovsdb-mgmt." +:+ appNS +:+ ".svc.cluster.local:50053")%string
      else JObj env).

Definition with_env (envs : list json) (c : list (string * json)) : list (string * json) :=
  if bool_decide (envs = []) then c else set_field "env" (JArr envs) c.

(** One container of [applySpecOverrides]. *)
Definition override_container (spec : EvpnCoreSpec) (objName : string) (value : json) : result json :=
  let '(appNS, ovnNS) := namespaces spec in
  let? c := as_map "invalid container" value in
  let image := if bool_decide (objName = "evpn-node-agent"%string) then defaultString (na_Image (cs_NodeAgent spec)) "evpn4ovn/node-agent:kind"
               else if bool_decide (as_string (field "name" c) = "ovn-ovs"%string) then defaultString (cs_OvnImage spec) "evpn4ovn/ovn-ovs:kind"
               else defaultString (cs_AppImage spec) "evpn4ovn/app:kind" in
  let c := set_field "image" (JStr image) c in
  let? envs := NestedSlice (JObj c) ["env"%string] in
  let? envs := rmap (override_env appNS ovnNS) (default [] envs) in
  Ok (JObj (with_env envs c)).

(** [applySpecOverrides] *)
Definition applySpecOverrides (obj : json) (spec : EvpnCoreSpec) : result json :=
  let? containers := NestedSlice obj containers_path in
  match containers with
  | None => Ok obj
  | Some containers =>
      let? containers := rmap (override_container spec (GetName obj)) containers in
      SetNestedSlice containers containers_path obj
  end.

(** [previousEnvEqual] *)
Fixpoint env_search (env : list (string * json)) (l : list json) : option bool :=
  match l with
  | [] => None
  | JObj e :: l => if bool_decide (field "name" e = field "name" env)
                   then Some (controlledFieldsEqual (JObj e) (JObj env) && controlledFieldsEqual (JObj env) (JObj e)) else env_search env l
  | _ :: l => env_search env l
  end.
Fixpoint previousEnvEqual (containers : list json) (name : json) (env : list (string * json)) : bool :=
  match containers with
  | [] => false
  | JObj c :: rest =>
      if negb (bool_decide (field "name" c = name)) then previousEnvEqual rest name env else
      match NestedSlice (JObj c) ["env"%string] with
      | Err _ => false
      | Ok envs => match env_search env (default [] envs) with Some b => b | None => previousEnvEqual rest name env end
      end
  | _ :: rest => previousEnvEqual rest name env
  end.

Definition gobgp_endpoint (e : list (string * json)) : bool := bool_decide (field "name" e = JStr "GOBGP_ENDPOINT").

(** The override an existing container has for one environment entry. *)
Fixpoint env_override (defaults : list json) (name : json) (e : list (string * json)) (oldEnv : list json) : result json :=
  match oldEnv with
  | [] => Ok (JObj e)
  | v :: oldEnv =>
      let? o := as_map "invalid existing environment entry" v in
      if bool_decide (field "name" e = field "name" o) && negb (previousEnvEqual defaults name o) then Ok (JObj o)
      else env_override defaults name e oldEnv
  end.
Definition preserve_env (defaults : list json) (name : json) (oldEnv : list json) (value : json) : result json :=
  let? e := as_map "invalid desired environment entry" value in
  if negb (gobgp_endpoint e) then Ok (JObj e) else env_override defaults name e oldEnv.
Definition preserve_from (defaults : list json) (c : list (string * json)) (previous : json) : result (list (string * json)) :=
  let? p := as_map "invalid existing container" previous in
  if negb (bool_decide (field "name" c = field "name" p)) then Ok c else
  let? env := NestedSlice (JObj c) ["env"%string] in
  let? oldEnv := NestedSlice (JObj p) ["env"%string] in
  let? env := rmap (preserve_env defaults (field "name" c) (default [] oldEnv)) (default [] env) in
  Ok (with_env env c).
Definition preserve_container (defaults old : list json) (value : json) : result json :=
  let? c := as_map "invalid desired container" value in
  let? c := rfold (preserve_from defaults) c old in
  Ok (JObj c).

(** Decode into a map, or into a slice: [null] leaves it empty. *)
Definition unmarshal_map (text : string) : result json :=
  match json_Unmarshal text with
  | Some (JObj m) => Ok (JObj m)
  | Some JNull => Ok (JObj [])
  | _ => Err (Errorf "decode previous environment defaults")
  end.
Definition unmarshal_slice (text : string) : result (list json) :=
  match json_Unmarshal text with
  | Some (JArr l) => Ok l
  | Some JNull => Ok []
  | _ => Err (Errorf "decode template environment defaults")
  end.

(** [preserveRuntimeEnvOverrides] *)
Definition preserveRuntimeEnvOverrides (desired existing : json) : result json :=
  if negb (bool_decide (GetKind desired = "Deployment"%string)) then Ok desired else
  let? next := NestedSlice desired containers_path in
  let? old := NestedSlice existing containers_path in
  let? applied := unmarshal_map (index lastAppliedKey (GetAnnotations existing)) in
  let? defaults := NestedSlice applied containers_path in
  let encoded := index envDefaultsKey (GetAnnotations existing) in
  let? defaults := if is_empty encoded then Ok (default [] defaults) else unmarshal_slice encoded in
  let? next := rmap (preserve_container defaults (default [] old)) (default [] next) in
  SetNestedSlice next containers_path desired.

(** [templateEnvDefaults] *)
Definition container_defaults (value : json) : result (list json) :=
  let? c := as_map "invalid template container" value in
  let? envs := NestedSlice (JObj c) ["env"%string] in
  let? envs := rmap (as_map "invalid template environment entry") (default [] envs) in
  Ok ((fun e => JObj [("name"%string, field "name" c); ("env"%string, JArr [JObj e])]) <$> List.filter gobgp_endpoint envs).
Definition templateEnvDefaults (obj : json) : result string :=
  let? containers := NestedSlice obj containers_path in
  let? l := rmap container_defaults (default [] containers) in
  json_Marshal (JArr (concat l)).

(** [configurePlacement] *)
Definition placement_path (name : string) : list string := ["spec"; "template"; "spec"; name]%string.
Definition configurePlacement (obj : json) (spec : EvpnCoreSpec) : result json :=
  let obj := RemoveNestedField (placement_path "nodeSelector") obj in
  let? affinity := affinity_of (cs_DataplaneNode spec) in
  let? obj := SetNestedMap affinity (placement_path "affinity") obj in
  let? tolerations := tolerations_of (na_Tolerations (cs_NodeAgent spec)) in
  if bool_decide (tolerations = []) then Ok (RemoveNestedField (placement_path "tolerations") obj)
  else SetNestedSlice tolerations (placement_path "tolerations") obj.

(** ** The node agent *)

Definition with_images (image : string) (c : Container) : Container :=
  {| ct_Image := image; ct_Args := ct_Args c; ct_VolumeMounts := ct_VolumeMounts c; ct_ReadinessCommand := ct_ReadinessCommand c;
     ct_Rest := ct_Rest c |}.
Definition with_args (args : list string) (c : Container) : Container :=
  {| ct_Image := ct_Image c; ct_Args := args; ct_VolumeMounts := ct_VolumeMounts c; ct_ReadinessCommand := ct_ReadinessCommand c;
     ct_Rest := ct_Rest c |}.
Definition with_mounts (mounts : list VolumeMount) (c : Container) : Container :=
  {| ct_Image := ct_Image c; ct_Args := ct_Args c; ct_VolumeMounts := ct_VolumeMounts c ++ mounts;
     ct_ReadinessCommand := ct_ReadinessCommand c; ct_Rest := ct_Rest c |}.
(** A probe that is [nil] is dereferenced: the process panics. *)
Definition with_probe (command : list string) (c : Container) : result Container :=
  match ct_ReadinessCommand c with
  | None => Err (Errorf "nil pointer dereference")
  | Some _ => Ok {| ct_Image := ct_Image c; ct_Args := ct_Args c; ct_VolumeMounts := ct_VolumeMounts c; ct_ReadinessCommand := Some command;
                    ct_Rest := ct_Rest c |}
  end.

Definition host_volume (name path kind : string) : Volume := {| vo_Name := name; vo_HostPath := Some (path, kind); vo_Rest := None |}.
Definition attestation_volumes (n : NodeAgentSpec) : list Volume :=
  [host_volume "provider-attestation" "/etc/evpn/provider-attestation" "Directory"; host_volume "provider-containerd" "/run/containerd" "Directory";
   host_volume "provider-ctr" (defaultString (na_ProviderCTRHostPath n) "/usr/bin/ctr") "File"].
Definition attestation_mounts : list VolumeMount :=
  [{| vm_Name := "provider-attestation"; vm_MountPath := "/etc/evpn/provider-attestation"; vm_ReadOnly := true |};
   {| vm_Name := "provider-containerd"; vm_MountPath := "/run/containerd"; vm_ReadOnly := true |};
   {| vm_Name := "provider-ctr"; vm_MountPath := "/usr/local/libexec/evpn-ctr"; vm_ReadOnly := true |}].

Definition agent_mode (n : NodeAgentSpec) : string := defaultString (na_Mode n) "real-ovn-ovs".
Definition agent_nb (n : NodeAgentSpec) : string := defaultString (na_OVNNBEndpoint n) "unix:/var/run/ovn/ovnnb_db.sock".
Definition agent_ovs (n : NodeAgentSpec) : string := defaultString (na_OVSDBEndpoint n) "unix:/var/run/openvswitch/db.sock".
Definition agent_socket (n : NodeAgentSpec) : string := defaultString (na_Socket n) "/run/evpn-node-agent/agent.sock".
Definition agent_args (n : NodeAgentSpec) : list string :=
  ["--socket=" +:+ agent_socket n; "--mode=" +:+ agent_mode n;
   "--network-backend=" +:+ defaultString (na_NetworkBackend n) "linux-veth"; "--ovn-nb-endpoint=" +:+ agent_nb n;
   "--ovsdb-endpoint=" +:+ agent_ovs n;
   "--ovn-sb-endpoint=" +:+ defaultString (na_OVNSBEndpoint n) "unix:/var/run/ovn/ovnsb_db.sock";
   "--evpn-export-config=" +:+ na_ExportConfigPath n; "--evpn-export-status=" +:+ na_ExportStatusPath n;
   "--evpn-export-interval=" +:+ defaultString (na_ExportInterval n) "2s"; "--evpn-export-timeout=" +:+ defaultString (na_ExportTimeout n) "5s";
   "--evpn-remote-config=" +:+ na_RemoteConfigPath n; "--evpn-remote-status=" +:+ na_RemoteStatusPath n;
   "--evpn-remote-interval=" +:+ defaultString (na_RemoteInterval n) "2s"; "--evpn-remote-timeout=" +:+ defaultString (na_RemoteTimeout n) "5s";
   "--cni-continuity-config=" +:+ na_CNIContinuityConfigPath n]%string.

(** The tests the init container waits for. *)
Definition dependencies (n : NodeAgentSpec) : list string :=
  (if bool_decide (agent_mode n = "real-ovn-ovs"%string)
   then (fun e => "test -S " +:+ shellQuote (TrimPrefix e "unix:"))%string <$> List.filter (fun e => HasPrefix e "unix:") [agent_nb n; agent_ovs n]
   else [])
  ++ ((fun p => "test -r " +:+ shellQuote p)%string
        <$> List.filter (fun p => negb (is_empty p)) [na_ExportConfigPath n; na_RemoteConfigPath n; na_CNIContinuityConfigPath n]).
Definition init_args (n : NodeAgentSpec) : list string :=
  let check := match dependencies n with [] => ":"%string | l => Join l " && " end in
  [("for i in $(seq 1 180); do if " +:+ check +:+ "; then exit 0; fi; sleep 1; done; echo 'Node-Agent dependencies unavailable' >&2; exit 1")%string].

(** The volume named [gobgp] gets the configured host path; a [nil] host path panics. *)
Definition gobgp_volume (n : NodeAgentSpec) (v : Volume) : result Volume :=
  if negb (bool_decide (vo_Name v = "gobgp"%string)) then Ok v else
  match vo_HostPath v with
  | None => Err (Errorf "nil pointer dereference")
  | Some (_, kind) => Ok {| vo_Name := vo_Name v; vo_HostPath := Some (defaultString (na_GoBGPHostPath n) "/run/gobgp", kind); vo_Rest := vo_Rest v |}
  end.

(** The pod of the node agent. *)
Definition agent_pod (n : NodeAgentSpec) (p : PodSpec) : result PodSpec :=
  match ps_Containers p, ps_InitContainers p with
  | [c], [i] =>
      let attest := na_ProviderAttestation n in
      let image := defaultString (na_Image n) "evpn4ovn/node-agent:kind" in
      let c := with_images image (with_args (agent_args n) (if attest then with_mounts attestation_mounts c else c)) in
      let? volumes := rmap (gobgp_volume n) (ps_Volumes p ++ if attest then attestation_volumes n else []) in
      let? c := with_probe ["/bin/sh"; "-ec"; "nc -z -U " +:+ shellQuote (agent_socket n)]%string c in
      Ok {| ps_Containers := [c]; ps_InitContainers := [with_args (init_args n) (with_images image i)];
            ps_NodeSelector := if bool_decide (na_NodeSelector n = ∅) then ps_NodeSelector p else na_NodeSelector n;
            ps_Tolerations := na_Tolerations n;
            ps_ServiceAccountName := if attest then "evpn-provider-observer" else ps_ServiceAccountName p;
            ps_AutomountToken := if attest then Some true else ps_AutomountToken p; ps_Volumes := volumes; ps_Rest := ps_Rest p |}
  | _, _ => Err (Errorf "Node-Agent template requires one agent and one dependency init container")
  end.

(** [configureNodeAgent] *)
Definition configureNodeAgent (obj : json) (n : NodeAgentSpec) : result json :=
  let? raw := NestedMap obj ["spec"; "template"; "spec"]%string in
  match raw with
  | None => Err (Errorf "Node-Agent template has no pod spec")
  | Some raw =>
      let? p := PodSpec_of raw in
      let? p := agent_pod n p in
      let? updated := of_PodSpec p in
      SetNestedMap updated ["spec"; "template"; "spec"]%string obj
  end.

(** ** The objects of an installation *)

Definition is_agent (obj : json) : bool :=
  bool_decide (GetKind obj = "DaemonSet"%string) && bool_decide (GetName obj = "evpn-node-agent"%string).
Definition is_ovn (obj : json) : bool := bool_decide (GetName obj = "ovn-ovs"%string) && bool_decide (GetKind obj = "Deployment"%string).

Definition place_namespace (spec : EvpnCoreSpec) (obj : json) : json :=
  let '(appNS, ovnNS) := namespaces spec in
  if bool_decide (GetNamespace obj ∈ [""; "evpn-system"]%string) then SetNamespace appNS obj
  else if bool_decide (GetNamespace obj = "ovn-system"%string) then SetNamespace ovnNS obj else obj.
Definition with_defaults (obj : json) : result json :=
  if negb (bool_decide (GetKind obj = "Deployment"%string)) then Ok obj else
  let? defaults := templateEnvDefaults obj in
  Ok (SetAnnotations (<[envDefaultsKey := defaults]> (GetAnnotations obj)) obj).

(** One document of [renderManifest]; [None] for one that is skipped. *)
Definition render_object (spec : EvpnCoreSpec) (obj : json) : result (option json) :=
  if bool_decide (obj ∈ [JObj []; JNull]) || bool_decide (GetKind obj = "Namespace"%string) then Ok None
  else if is_empty (GetName obj) || is_empty (GetAPIVersion obj) || is_empty (GetKind obj)
  then Err (Errorf "core manifest object requires apiVersion, kind and metadata.name")
  else
  let obj := place_namespace spec obj in
  if negb (cleanupAllowed (resourceRef obj)) then Err (Errorf "unsupported managed resource")
  else if is_agent obj && negb (na_Enabled (cs_NodeAgent spec)) then Ok None
  else
  let? obj := if is_agent obj then configureNodeAgent obj (cs_NodeAgent spec) else Ok obj in
  let? obj := applySpecOverrides obj spec in
  let? obj := with_defaults obj in
  let? obj := if is_ovn obj || is_agent obj then configurePlacement obj spec else Ok obj in
  Ok (Some obj).

Definition render_step (spec : EvpnCoreSpec) (acc : list json) (doc : result json) : result (list json) :=
  let? obj := map_err (fun _ => Errorf "decode core manifest") doc in
  let? rendered := render_object spec obj in
  Ok (acc ++ option_list rendered).

(** [renderManifest] *)
Definition renderManifest (data : string) (spec : EvpnCoreSpec) : result (list json) :=
  let? objects := rfold (render_step spec) [] (yaml_documents data) in
  if bool_decide (objects = []) then Err (Errorf "core manifest contains no managed resources") else Ok objects.
End render.
