(* ===== verification/Operator.v ===== *)
(** * The operator

    Models the controller of [src/deploy/operator/controllers]: [evpncore_controller.go],
    [lifecycle.go], [journal.go], [snapshot.go], [placement.go] and [readiness.go].  The
    Kubernetes API is the class [Kube].  A reconciliation works on a snapshot of the custom
    resource, whose status is its journal: the state is the snapshot and the world.  The
    manager runs one reconciliation at a time.  Events are not modelled. *)

From S2P Require Import Prelude GoStd Journal GoJson OperatorTypes OperatorManifest.

(** ** Kubernetes *)

(** [coordv1.Lease] *)
Record Lease := { ls_Labels : gmap string string; ls_Holder : option string; ls_ResourceVersion : string }.
(** [corev1.Node]: its labels, conditions (type and status), and taints. *)
Record Node {KT : KubeTypes} := {
  nd_Labels : gmap string string; nd_Conditions : list (string * string); nd_Unschedulable : bool; nd_Taints : list Taint;
}.
(** What the code reads of a pod template: its labels and the commands and arguments of its containers. *)
Record PodTemplate := { pt_Labels : gmap string string; pt_Containers : list (list string * list string) }.
Record Listed := { li_Namespace : string; li_Name : string; li_Annotations : gmap string string; li_Template : PodTemplate }.
(** [appsv1.Deployment]; a condition has type, status and reason. *)
Record Deployment := {
  dp_Deleting : bool; dp_Generation : Z; dp_ObservedGeneration : Z; dp_Conditions : list (string * string * string);
  dp_SpecReplicas : option Z; dp_Updated : Z; dp_Available : Z; dp_Ready : Z; dp_Replicas : Z; dp_Raw : json;
}.
(** [appsv1.DaemonSet] *)
Record DaemonSet := {
  ds_Deleting : bool; ds_Generation : Z; ds_ObservedGeneration : Z; ds_Desired : Z; ds_Updated : Z; ds_Ready : Z; ds_Available : Z;
  ds_Unavailable : Z; ds_Misscheduled : Z; ds_Raw : json;
}.

(** The clients of the controller: the API reader, the cached client and its writes.  A
    write answers with the object as the server returns it. *)
Class Kube {KT : KubeTypes} (W : Type) := {
  cached_GetCore : string -> string -> M W EvpnCore;
  GetCore : string -> string -> M W EvpnCore;
  ListCores : M W (list EvpnCore);
  PatchStatus : EvpnCore -> EvpnCore -> M W EvpnCore;
  PatchCore : EvpnCore -> EvpnCore -> M W unit;
  GetLease : M W Lease;
  CreateLease : Lease -> M W unit;
  UpdateLease : Lease -> M W unit;
  cached_GetNamespace : string -> M W unit;
  CreateNamespace : string -> M W unit;
  GetObject : ManagedResource -> M W json;
  ListObjects : string -> string -> string -> nat -> M W (list json * string);
  CreateObject : json -> M W json;
  PatchObject : json -> string -> M W json;
  DeleteObject : json -> string -> string -> M W unit;
  GetNode : string -> M W Node;
  ListDaemonSets : M W (list Listed);
  ListDeployments : M W (list Listed);
  GetDeployment : string -> string -> M W Deployment;
  GetDaemonSet : string -> string -> M W DaemonSet;
  ReadFile : string -> M W string;
}.

(** Library functions: a JSON patch of three documents, the conditions of a status (which
    carry the time), tolerations, and the conversion of a typed object. *)
Class KubeLib {KT : KubeTypes} (W : Type) := {
  CreateThreeWayJSONMergePatch : string -> string -> string -> result string;
  SetStatusCondition : list Condition -> (string * bool) -> Z -> string -> string -> M W (list Condition);
  taint_Effect : Taint -> string;
  ToleratesTaint : Toleration -> Taint -> bool;
  ToUnstructured : json -> json -> result json;
}.

Definition NotFound : error -> bool := fun e => errors_Is e SKubeNotFound.
Definition ownershipConflict (msg : string) : error := Sentinel SInstallationConflict msg.
Definition errSnapshotChanged : error := Sentinel SSnapshotChanged "EvpnCore reconciliation snapshot changed".

(** ** The inventory *)

(** What [remember] does to the inventory. *)
Fixpoint remember_entry (ref : ManagedResource) (l : list ManagedResource) : result (list ManagedResource) :=
  match l with
  | [] => Ok [ref]
  | old :: l =>
      if sameResource old ref then
        if negb (is_empty (mr_UID old)) && negb (is_empty (mr_UID ref)) && negb (bool_decide (mr_UID old = mr_UID ref))
        then Err (ownershipConflict "journal UID differs from live UID")
        else Ok ((if is_empty (mr_UID ref) then old else ref) :: l)
      else let? l := remember_entry ref l in Ok (old :: l)
  end.

(** Replace the first entry of a resource, or append one. *)
Fixpoint put_entry (f : ManagedResource -> ManagedResource) (ref : ManagedResource) (l : list ManagedResource) : list ManagedResource :=
  match l with
  | [] => [ref]
  | old :: l => if sameResource old ref then f old :: l else old :: put_entry f ref l
  end.

Definition set_conflict (msg : string) (r : ManagedResource) : ManagedResource :=
  {| mr_APIVersion := mr_APIVersion r; mr_Kind := mr_Kind r; mr_Namespace := mr_Namespace r; mr_Name := mr_Name r; mr_UID := mr_UID r;
     mr_State := mr_State r; mr_Conflict := msg |}.
Definition pending (r : ManagedResource) : ManagedResource :=
  {| mr_APIVersion := mr_APIVersion r; mr_Kind := mr_Kind r; mr_Namespace := mr_Namespace r; mr_Name := mr_Name r; mr_UID := mr_UID r;
     mr_State := "CreationPending"; mr_Conflict := mr_Conflict r |}.
Definition unborn (r : ManagedResource) : ManagedResource :=
  {| mr_APIVersion := mr_APIVersion r; mr_Kind := mr_Kind r; mr_Namespace := mr_Namespace r; mr_Name := mr_Name r; mr_UID := "";
     mr_State := "CreationPending"; mr_Conflict := "" |}.

(** One discovered resource in [discover]. *)
Definition discover_entry (l : list ManagedResource) (ref : ManagedResource) : list ManagedResource :=
  put_entry (fun old => if negb (is_empty (mr_UID old)) && negb (bool_decide (mr_UID old = mr_UID ref)) then set_conflict "UID changed" old
                        else if negb (is_empty (mr_Conflict ref)) then set_conflict (mr_Conflict ref) old else ref) ref l.

(** ** Snapshots *)

Section operator.
Context {KT : KubeTypes} {KV : KubeValidation} {UL : UnstructuredLib} {JJ : Json json} {PR : PodRest} {ML : ManifestLib}.
Context {W : Type} {KU : Kube W} {KL : KubeLib W}.
Notation OM := (M (EvpnCore * W)).

Definition with_status (st : EvpnCoreStatus) (c : EvpnCore) : EvpnCore :=
  {| core_Namespace := core_Namespace c; core_Name := core_Name c; core_UID := core_UID c; core_Generation := core_Generation c;
     core_ResourceVersion := core_ResourceVersion c; core_Created := core_Created c; core_Deleting := core_Deleting c;
     core_Finalizers := core_Finalizers c; core_Spec := core_Spec c; core_Status := st |}.
Definition with_finalizers (l : list string) (c : EvpnCore) : EvpnCore :=
  {| core_Namespace := core_Namespace c; core_Name := core_Name c; core_UID := core_UID c; core_Generation := core_Generation c;
     core_ResourceVersion := core_ResourceVersion c; core_Created := core_Created c; core_Deleting := core_Deleting c;
     core_Finalizers := l; core_Spec := core_Spec c; core_Status := core_Status c |}.
Definition with_resources (l : list ManagedResource) (st : EvpnCoreStatus) : EvpnCoreStatus :=
  {| cst_Phase := cst_Phase st; cst_Ready := cst_Ready st; cst_Reason := cst_Reason st; cst_ObservedGeneration := cst_ObservedGeneration st;
     cst_Conditions := cst_Conditions st; cst_ManagedResources := l |}.

Definition get_core : OM EvpnCore := gets fst.
Definition inventory (c : EvpnCore) : list ManagedResource := cst_ManagedResources (core_Status c).

(** [currentSnapshot] *)
Definition currentSnapshot : OM EvpnCore :=
  let! snapshot := get_core in
  let! r := attempt (on_snd (GetCore (core_Namespace snapshot) (core_Name snapshot))) in
  match r with
  | Err e => fail (if NotFound e then errSnapshotChanged else e)
  | Ok current =>
      if negb (bool_decide (core_UID current = core_UID snapshot)) || negb (core_Generation current =? core_Generation snapshot)
         || negb (bool_decide (core_Spec current = core_Spec snapshot)) || negb (Bool.eqb (core_Deleting current) (core_Deleting snapshot))
      then fail errSnapshotChanged else ret current
  end.

(** [editStatus]; [changed] is the test on the statuses before and after the edit. *)
Definition editStatus_if (changed : EvpnCoreStatus -> EvpnCoreStatus -> bool) (edit : EvpnCoreStatus -> M W EvpnCoreStatus) : OM unit :=
  let! current := currentSnapshot in
  let! st := on_snd (edit (core_Status current)) in
  let next := with_status st current in
  let! answer := (if changed (core_Status current) st then wrap (Wrapped "persist EvpnCore status") (on_snd (PatchStatus current next))
                  else ret next) in
  modify (fun s => (with_status (core_Status answer) s.1, s.2)).
Definition status_changed (a b : EvpnCoreStatus) : bool := negb (bool_decide (a = b)).
Definition editStatus : (EvpnCoreStatus -> M W EvpnCoreStatus) -> OM unit := editStatus_if status_changed.
(** An edit of the inventory alone. *)
Definition editInventory (edit : list ManagedResource -> result (list ManagedResource)) : OM unit :=
  editStatus (fun st => let! l := lift (edit (cst_ManagedResources st)) in ret (with_resources l st)).

(** [contains] *)
Definition contains (values : list string) (value : string) : bool := bool_decide (value ∈ values).

(** [editFinalizer] *)
Definition editFinalizer (add : bool) : OM unit :=
  let! current := currentSnapshot in
  if add then
    if contains (core_Finalizers current) Finalizer then ret tt
    else on_snd (PatchCore current (with_finalizers (core_Finalizers current ++ [Finalizer]) current))
  else on_snd (PatchCore current (with_finalizers (List.filter (fun f => negb (bool_decide (f = Finalizer))) (core_Finalizers current)) current)).

(** [setStatus]; the edit is run with the generation of the snapshot. *)
Definition phases : list string := ["Reconciling"; "Ready"; "Degraded"; "Deleting"; "ConfigurationInvalid"]%string.
Definition setStatus (phase reason message : string) : OM unit :=
  let! c := get_core in
  editStatus (fun st =>
    let! conditions := mfold (fun cs typ => SetStatusCondition cs (typ, bool_decide (phase = typ)) (core_Generation c) reason message)
                             (cst_Conditions st) phases in
    ret {| cst_Phase := phase; cst_Ready := bool_decide (phase = "Ready"%string); cst_Reason := message;
           cst_ObservedGeneration := core_Generation c; cst_Conditions := conditions; cst_ManagedResources := cst_ManagedResources st |}).

(** ** The installation lock *)

Definition core_key (c : EvpnCore) : string := (core_Namespace c +:+ "/" +:+ core_Name c)%string.
(** The order of [claimLock]: by creation, then by name. *)
Definition core_le (a b : EvpnCore) : Prop :=
  core_Created a < core_Created b \/ core_Created a = core_Created b /\ String.le (core_key a) (core_key b).
#[export] Instance core_le_dec : RelDecision core_le.
Proof. intros a b. unfold core_le. apply _. Defined.
Definition candidate (item : EvpnCore) : bool :=
  (cs_Enabled (core_Spec item) || contains (core_Finalizers item) Finalizer)
  && (contains (core_Finalizers item) Finalizer || is_ok (validateSpec (core_Spec item))).

(** [claimLock] *)
Definition lock_managed (l : Lease) : bool := bool_decide (index managedByKey (ls_Labels l) = fieldManager).
Definition held_by (l : Lease) : string := default ""%string (ls_Holder l).
Definition claim_free (lock : option Lease) (cores : list EvpnCore) : OM unit :=
  let! core := get_core in
  if match List.find candidate (merge_sort core_le cores) with Some item => negb (bool_decide (core_UID item = core_UID core)) | None => false end
  then fail (ownershipConflict "only the oldest enabled installation may acquire the lock")
  else if is_empty (core_UID core) then fail (Errorf "EvpnCore UID is required for ownership") else
  do! (if contains (core_Finalizers core) Finalizer then ret tt else editFinalizer true) in
  do! currentSnapshot in
  match lock with
  | None => on_snd (CreateLease {| ls_Labels := {[managedByKey := fieldManager]}; ls_Holder := Some (core_UID core); ls_ResourceVersion := "" |})
  | Some l => on_snd (UpdateLease {| ls_Labels := ls_Labels l; ls_Holder := Some (core_UID core); ls_ResourceVersion := ls_ResourceVersion l |})
  end.
Definition claimLock : OM unit :=
  let! core := get_core in
  let! cores := on_snd ListCores in
  let! r := attempt (on_snd GetLease) in
  match r with
  | Err e => if NotFound e then claim_free None cores else fail e
  | Ok lock =>
      if negb (lock_managed lock) then fail (ownershipConflict "installation lock is not managed by this operator")
      else if negb (is_empty (held_by lock)) then
        if bool_decide (held_by lock = core_UID core) then ret tt else fail (ownershipConflict "singleton installation held by another EvpnCore")
      else claim_free (Some lock) cores
  end.

(** [releaseLock] *)
Definition releaseLock : OM unit :=
  do! currentSnapshot in
  let! core := get_core in
  let! r := attempt (on_snd GetLease) in
  match r with
  | Err e => if NotFound e then ret tt else fail e
  | Ok lock =>
      if negb (lock_managed lock) || negb (bool_decide (ls_Holder lock = Some (core_UID core))) then ret tt
      else on_snd (UpdateLease {| ls_Labels := ls_Labels lock; ls_Holder := Some ""%string; ls_ResourceVersion := ls_ResourceVersion lock |})
  end.

(** [ensureNamespace] *)
Definition ensureNamespace (name : string) : OM unit :=
  let! r := attempt (on_snd (cached_GetNamespace name)) in
  match r with
  | Ok _ => ret tt
  | Err e =>
      if negb (NotFound e) then fail e else
      let! r := attempt (on_snd (CreateNamespace name)) in
      match r with
      | Ok _ => ret tt
      | Err e => if errors_Is e SKubeAlreadyExists then ret tt else fail e
      end
  end.
(** ** The journal *)

(** [remember] *)
Definition remember (ref : ManagedResource) : OM unit := editInventory (remember_entry ref).

(** [recordConflict] *)
Definition recordConflict (ref : ManagedResource) (message : string) : OM unit :=
  do! editInventory (fun l => Ok (put_entry (set_conflict message) (set_conflict message ref) l)) in
  fail (ownershipConflict message).

(** [creationIntent] *)
Definition creationIntent (ref : ManagedResource) : OM unit :=
  let! r := attempt (on_snd (GetObject ref)) in
  match r with
  | Ok _ => fail (ownershipConflict "appeared before recreation; retry ownership verification")
  | Err e => if NotFound e then editInventory (fun l => Ok (put_entry (fun _ => unborn ref) (unborn ref) l)) else fail e
  end.

(** The objects of one kind in [discover]. *)
Definition discover_object (acc : list ManagedResource) (obj : json) : OM (list ManagedResource) :=
  let! core := get_core in
  let ref := resourceRef obj in
  if negb (cleanupAllowed ref) then fail (Errorf "installation label on excluded resource; administrator disposition required")
  else ret (acc ++ [set_conflict (ownershipProblem core obj) ref]).
Definition discover_kind (acc : list ManagedResource) (gvk : string * string) : OM (list ManagedResource) :=
  let! core := get_core in
  let! (items, next) := on_snd (ListObjects gvk.1 (gvk.2 +:+ "List") (core_UID core) (S maxManagedResources)) in
  if negb (is_empty next) || (maxManagedResources <? length acc + length items)%nat
  then fail (Errorf "installation discovery exceeds 256 resources; administrator inventory required")
  else mfold discover_object acc items.
(** [discover] *)
Definition discover : OM unit :=
  do! currentSnapshot in
  let! discovered := mfold discover_kind [] managedKinds in
  editInventory (fun l =>
    let l := foldl discover_entry l discovered in
    if (maxManagedResources <? length l)%nat then Err (Errorf "installation journal exceeds 256 entries") else Ok l).

(** ** Applying *)

(** The annotations and labels that mark an object as owned. *)
Definition owned_annotations (core : EvpnCore) (obj : json) : gmap string string := <[OwnerKey := core_UID core]> (GetAnnotations obj).
Definition mark_owned (core : EvpnCore) (obj : json) : json :=
  let obj := SetAnnotations (owned_annotations core obj) obj in
  SetLabels (<[managedByKey := fieldManager]> (<[OwnerKey := core_UID core]> (GetLabels obj))) obj.
(** The object with the journal of what was applied. *)
Definition journaled (core : EvpnCore) (desired : string) (obj : json) : json :=
  SetAnnotations (<[lastAppliedKey := desired]> (owned_annotations core obj)) (mark_owned core obj).

(** The patch with the resource version it was computed from; writing to a [nil] map panics. *)
Definition versioned_patch (patch version : string) : result string :=
  match json_Unmarshal patch with
  | Some (JObj fields) =>
      let metadata := match field "metadata" fields with JObj m => m | _ => [] end in
      json_Marshal (JObj (set_field "metadata" (JObj (set_field "resourceVersion" (JStr version) metadata)) fields))
  | Some JNull => Err (Errorf "assignment to entry in nil map")
  | _ => Err (Errorf "decode patch")
  end.

Definition apply_create (obj : json) : OM unit :=
  let! core := get_core in
  let! desired := lift (json_Marshal (mark_owned core obj)) in
  let next := journaled core desired obj in
  do! creationIntent (resourceRef next) in
  do! currentSnapshot in
  let! created := on_snd (CreateObject next) in
  remember (resourceRef created).

Definition apply_patch (obj current : json) (desired : string) : OM unit :=
  let! core := get_core in
  let previous := index lastAppliedKey (GetAnnotations current) in
  if is_empty previous then fail (Errorf "owned object has no last-applied journal; refusing unsafe update") else
  let! next := lift (json_Marshal (journaled core desired obj)) in
  let! live := lift (json_Marshal current) in
  let! patch := lift (map_err (Wrapped "compute patch") (CreateThreeWayJSONMergePatch previous next live)) in
  if bool_decide (patch = "{}"%string) then remember (resourceRef current) else
  let! patch := lift (versioned_patch patch (GetResourceVersion current)) in
  do! currentSnapshot in
  let! answer := on_snd (PatchObject current patch) in
  remember (resourceRef answer).

Definition apply_existing (obj current : json) : OM unit :=
  let! core := get_core in
  let message := ownershipProblem core current in
  if negb (is_empty message) then recordConflict (resourceRef obj) message
  else if IsDeleting current then fail (Errorf "is still deleting") else
  let! obj := lift (preserveRuntimeEnvOverrides obj current) in
  let! obj := lift (applySpecOverrides obj (core_Spec core)) in
  let! desired := lift (json_Marshal (mark_owned core obj)) in
  if bool_decide (index lastAppliedKey (GetAnnotations current) = desired) && controlledFieldsEqual (mark_owned core obj) current
  then remember (resourceRef current)
  else apply_patch obj current desired.

(** [applyResource] *)
Definition applyResource (obj : json) : OM unit :=
  do! remember (pending (resourceRef obj)) in
  let! r := attempt (on_snd (GetObject (resourceRef obj))) in
  match r with
  | Err e => if NotFound e then apply_create obj else fail e
  | Ok current => apply_existing obj current
  end.

(** ** Cleanup *)

(** What the planning loop of [cleanup] has collected. *)
Record CleanupPlan := { cp_Remaining : list ManagedResource; cp_Deletes : list json; cp_Conflicts : list error }.

Definition cleanup_ref (desired : list json) (plan : CleanupPlan) (ref : ManagedResource) : OM CleanupPlan :=
  let keep := existsb (fun obj => sameResource ref (resourceRef obj)) desired in
  if negb (cleanupAllowed ref) then fail (Errorf "unsupported cleanup inventory entry") else
  let! r := attempt (on_snd (GetObject ref)) in
  match r with
  | Err e => if NotFound e then ret plan else fail e
  | Ok obj =>
      let! core := get_core in
      let message := ownershipProblem core obj in
      let remaining := cp_Remaining plan ++ [set_conflict message ref] in
      if negb (is_empty message)
      then ret {| cp_Remaining := remaining; cp_Deletes := cp_Deletes plan; cp_Conflicts := cp_Conflicts plan ++ [ownershipConflict message] |}
      else ret {| cp_Remaining := remaining; cp_Deletes := if keep then cp_Deletes plan else cp_Deletes plan ++ [obj];
                  cp_Conflicts := cp_Conflicts plan |}
  end.

Definition delete_object (_ : unit) (obj : json) : OM unit :=
  do! currentSnapshot in
  if IsDeleting obj then ret tt else
  let! r := attempt (on_snd (DeleteObject obj (GetUID obj) (GetResourceVersion obj))) in
  match r with
  | Ok _ => ret tt
  | Err e => if NotFound e then ret tt else fail e
  end.

(** [errors.Join] of a list *)
Definition join_errors (l : list error) : option error := foldr (fun e acc => errors_Join (Some e) acc) None l.

(** The new inventory is an allocated slice: an empty one differs from the [nil] that was read. *)
Definition inventory_replaced (a b : EvpnCoreStatus) : bool :=
  status_changed a b || bool_decide (cst_ManagedResources a = []) && bool_decide (cst_ManagedResources b = []).

(** [cleanup] *)
Definition cleanup (desired : list json) : OM bool :=
  do! discover in
  let! core := get_core in
  let expected := inventory core in
  let! plan := mfold (cleanup_ref desired) {| cp_Remaining := []; cp_Deletes := []; cp_Conflicts := [] |} expected in
  do! editStatus_if inventory_replaced (fun st =>
        if negb (bool_decide (cst_ManagedResources st = expected))
        then fail (Sentinel SKubeConflict "inventory changed during cleanup planning")
        else ret (with_resources (cp_Remaining plan) st)) in
  do! lift (of_error (join_errors (cp_Conflicts plan))) in
  do! mfold delete_object tt (cp_Deletes plan) in
  ret (bool_decide (cp_Deletes plan = [])).

(** ** Node agents and placement *)

(** [nodeAgentPod] *)
Definition agent_name (value : string) : bool := bool_decide (value ∈ ["node-agent"; "framework-node-agent"; "evpn-node-agent"]%string).
Definition nodeAgentPod (name : string) (pod : PodTemplate) : bool :=
  existsb agent_name [name; index "app" (pt_Labels pod); index "app.kubernetes.io/name" (pt_Labels pod)]
  || existsb (fun c => existsb (fun command => Contains command "evpn-node-agent") (c.1 ++ c.2)) (pt_Containers pod).

(** [checkNodeAgentConflict] *)
Definition foreign_agent (core : EvpnCore) (o : Listed) : bool :=
  negb (bool_decide (index OwnerKey (li_Annotations o) = core_UID core)) && nodeAgentPod (li_Name o) (li_Template o).
Definition checkNodeAgentConflict : OM unit :=
  let! core := get_core in
  if negb (na_Enabled (cs_NodeAgent (core_Spec core))) then ret tt else
  let! agents := on_snd ListDaemonSets in
  if existsb (foreign_agent core) agents then fail (ownershipConflict "independent Node-Agent DaemonSet exists") else
  let! deployments := on_snd ListDeployments in
  if existsb (foreign_agent core) deployments then fail (ownershipConflict "independent Node-Agent Deployment exists") else ret tt.

(** [placementAvailable]: whether the node can run the workloads, and why not. *)
Definition node_ready (n : Node) : bool := existsb (fun c => bool_decide (c = ("Ready", "True")%string)) (nd_Conditions n).
Definition taint_blocks (spec : EvpnCoreSpec) (t : Taint) : bool :=
  bool_decide (taint_Effect t ∈ ["NoSchedule"; "NoExecute"]%string)
  && negb (existsb (fun toleration => ToleratesTaint toleration t) (na_Tolerations (cs_NodeAgent spec))).
Definition placementAvailable (spec : EvpnCoreSpec) : OM (bool * string) :=
  let! r := attempt (on_snd (GetNode (cs_DataplaneNode spec))) in
  match r with
  | Err e => if NotFound e then ret (false, "designated dataplane Node does not exist"%string) else fail e
  | Ok node =>
      let selector := index "kubernetes.io/hostname" (na_NodeSelector (cs_NodeAgent spec)) in
      if negb (is_empty selector) && negb (bool_decide (index "kubernetes.io/hostname" (nd_Labels node) = selector))
      then ret (false, "designated dataplane Node does not match the supplied hostname selector"%string)
      else if negb (node_ready node) || nd_Unschedulable node then ret (false, "designated dataplane Node is not Ready and schedulable"%string)
      else if existsb (taint_blocks spec) (nd_Taints node) then ret (false, "designated dataplane Node has untolerated taint"%string)
      else ret (true, ""%string)
  end.

(** ** Readiness *)

(** [verifyWorkloadOwnership] *)
Definition verifyWorkloadOwnership (desired raw : json) (deleting : bool) : OM unit :=
  let! core := get_core in
  let! obj := lift (ToUnstructured desired raw) in
  let message := ownershipProblem core obj in
  if negb (is_empty message) then fail (ownershipConflict message)
  else if deleting then fail (Errorf "is deleting") else ret tt.

Definition deployment_failed (c : string * string * string) : bool :=
  let '(typ, st, reason) := c in
  bool_decide (typ = "Progressing"%string) && bool_decide (st = "False"%string) && bool_decide (reason = "ProgressDeadlineExceeded"%string)
  || bool_decide (typ = "ReplicaFailure"%string) && bool_decide (st = "True"%string).
Definition rolled_out (d : Deployment) : bool :=
  let replicas := default 1 (dp_SpecReplicas d) in
  negb (dp_ObservedGeneration d <? dp_Generation d) && negb (replicas =? 0) && (dp_Updated d =? replicas) && (dp_Available d =? replicas)
  && (dp_Ready d =? replicas) && (dp_Replicas d =? replicas).
Definition agents_out (name : string) (d : DaemonSet) : bool :=
  negb (ds_ObservedGeneration d <? ds_Generation d) && negb (ds_Desired d =? 0)
  && negb (bool_decide (name = "evpn-node-agent"%string) && negb (ds_Desired d =? 1))
  && (ds_Updated d =? ds_Desired d) && (ds_Ready d =? ds_Desired d) && (ds_Available d =? ds_Desired d) && (ds_Unavailable d =? 0)
  && (ds_Misscheduled d =? 0).

(** The loop of [workloadStatus]: the number of workloads, what it waits for, and an early answer. *)
Record Rollout := { ro_Count : nat; ro_Waiting : string; ro_Failed : option string }.
Definition workload (acc : Rollout) (obj : json) : OM Rollout :=
  if bool_decide (is_Some (ro_Failed acc)) then ret acc else
  let wait msg := {| ro_Count := S (ro_Count acc); ro_Waiting := msg; ro_Failed := None |} in
  if bool_decide (GetKind obj = "Deployment"%string) then
    let! d := on_snd (GetDeployment (GetNamespace obj) (GetName obj)) in
    do! verifyWorkloadOwnership obj (dp_Raw d) (dp_Deleting d) in
    if dp_ObservedGeneration d <? dp_Generation d then ret (wait "Deployment controller has not observed the generation")
    else if existsb deployment_failed (dp_Conditions d)
    then ret {| ro_Count := S (ro_Count acc); ro_Waiting := ro_Waiting acc; ro_Failed := Some "Deployment failed"%string |}
    else ret (wait (if rolled_out d then ro_Waiting acc else "Deployment has not completed its rollout"))
  else if bool_decide (GetKind obj = "DaemonSet"%string) then
    let! d := on_snd (GetDaemonSet (GetNamespace obj) (GetName obj)) in
    do! verifyWorkloadOwnership obj (ds_Raw d) (ds_Deleting d) in
    ret (wait (if agents_out (GetName obj) d then ro_Waiting acc else "DaemonSet is not available on every selected node"))
  else ret acc.
(** [workloadStatus]: phase, reason and message. *)
Definition workloadStatus (objects : list json) : OM (string * string * string) :=
  let! acc := mfold workload {| ro_Count := 0; ro_Waiting := ""; ro_Failed := None |} objects in
  ret (match ro_Failed acc with
       | Some message => ("Degraded", "WorkloadFailed", message)
       | None =>
           if (ro_Count acc =? 0)%nat then ("Reconciling", "NoWorkloads", "no managed workloads to evaluate")
           else if negb (is_empty (ro_Waiting acc)) then ("Reconciling", "WorkloadsPending", ro_Waiting acc)
           else ("Ready", "WorkloadsAvailable", "all managed Deployments and DaemonSets have completed their rollouts")
       end%string).

(** ** Reconciliation *)

(** [ctrl.Result]; the delay is in seconds. *)
Record Result := { res_Requeue : bool; res_RequeueAfter : Z }.
Definition done_result : Result := {| res_Requeue := false; res_RequeueAfter := 0 |}.
Definition after (seconds : Z) : Result := {| res_Requeue := false; res_RequeueAfter := seconds |}.

(** [failed] *)
Definition failed (err : error) : OM Result :=
  if errors_Is err SSnapshotChanged then ret {| res_Requeue := true; res_RequeueAfter := 0 |} else
  let conflict := errors_Is err SInstallationConflict in
  let! r := attempt (setStatus "Degraded" (if conflict then "OwnershipConflict" else "ReconcileFailed")%string (error_text err)) in
  match r with
  | Err statusErr => fail (Joined err statusErr)
  | Ok _ => if conflict then ret (after 30) else fail err
  end.

(** [loadCoreManifest]: the first of the paths that can be read. *)
Fixpoint load_from (paths : list string) : M W string :=
  match paths with
  | [] => fail (Errorf "core-resource manifest not found")
  | path :: paths =>
      let! r := attempt (ReadFile path) in
      match r with
      | Ok data => ret data
      | Err e => if errno_Is e ENOENT then load_from paths else fail (Wrapped ("read core manifest " +:+ path) e)
      end
  end.
Definition loadCoreManifest : M W string :=
  load_from ["/app/core-resources.yaml"; "/core-resources.yaml"; "deploy/operator/core-resources.yaml"]%string.

Definition cleanup_message : string := "removing installation-owned Kubernetes resources".
(** The part of [Reconcile] for a resource that is being deleted. *)
Definition reconcile_deletion : OM Result :=
  let! core := get_core in
  if negb (contains (core_Finalizers core) Finalizer) then ret done_result else
  do! (if bool_decide (cst_Phase (core_Status core) = "Deleting"%string) then ret tt
       else setStatus "Deleting" "CleanupInProgress" cleanup_message) in
  let! r := attempt (cleanup []) in
  match r with
  | Err e =>
      let! r := attempt (setStatus "Deleting" "CleanupFailed" (error_text e)) in
      match r with Err statusErr => fail (Joined e statusErr) | Ok _ => fail e end
  | Ok false => do! setStatus "Deleting" "CleanupInProgress" cleanup_message in ret (after 5)
  | Ok true => do! releaseLock in do! editFinalizer false in ret done_result
  end.

(** [if err != nil { return r.failed(ctx, &core, err) }] *)
Definition or_failed {A} (m : OM A) (k : A -> OM Result) : OM Result :=
  let! r := attempt m in
  match r with Err e => failed e | Ok a => k a end.

(** The part of [Reconcile] for an installation: from the lock to the status of the workloads. *)
Definition reconcile_objects (objects : list json) : OM Result :=
  or_failed checkNodeAgentConflict (fun _ =>
  or_failed (cleanup objects) (fun done =>
  if negb done
  then do! setStatus "Reconciling" "PruningResources" "waiting for obsolete managed resources to be deleted" in ret (after 5)
  else
  or_failed (mfold (fun _ obj => applyResource obj) tt objects) (fun _ =>
  or_failed (workloadStatus objects) (fun '(phase, reason, message) =>
  do! setStatus phase reason message in ret (after 30))))).
Definition reconcile_installation : OM Result :=
  let! core := get_core in
  let spec := core_Spec core in
  or_failed claimLock (fun _ =>
  or_failed (placementAvailable spec) (fun '(available, message) =>
  if negb (available : bool) then do! setStatus "Reconciling" "PlacementPending" message in ret (after 30) else
  or_failed (ensureNamespace (namespaces spec).1) (fun _ =>
  or_failed (ensureNamespace (namespaces spec).2) (fun _ =>
  or_failed (on_snd loadCoreManifest) (fun data =>
  or_failed (lift (renderManifest data spec)) reconcile_objects))))).

Definition reconcile_core : OM Result :=
  let! core := get_core in
  if core_Deleting core then reconcile_deletion
  else if negb (cs_Enabled (core_Spec core)) then
    do! setStatus "Reconciling" "Disabled" "reconciliation paused; existing resources and installation lock are retained" in ret done_result
  else match validateSpec (core_Spec core) with
  | Err e => do! setStatus "ConfigurationInvalid" "InvalidSpec" (error_text e) in ret done_result
  | Ok _ =>
      do! (if cst_ObservedGeneration (core_Status core) =? core_Generation core then ret tt
           else setStatus "Reconciling" "NewGeneration" "evaluating current installation intent") in
      reconcile_installation
  end.

(** [Reconcile] *)
Definition Reconcile (namespace name : string) : M W Result :=
  let! r := attempt (cached_GetCore namespace name) in
  match r with
  | Err e => if NotFound e then ret done_result else fail e
  | Ok core => fun w => let '((_, w), r) := reconcile_core (core, w) in (w, r)
  end.

(** ** Readiness is sound *)

(** A Deployment that was read as the installation's own, with its rollout complete. *)
Definition deployment_ready (c : EvpnCore) (obj : json) : Prop :=
  exists w w' d o, GetDeployment (GetNamespace obj) (GetName obj) w = (w', Ok d) /\ ToUnstructured obj (dp_Raw d) = Ok o
  /\ ownershipProblem c o = ""%string /\ dp_Deleting d = false /\ dp_Generation d <= dp_ObservedGeneration d
  /\ existsb deployment_failed (dp_Conditions d) = false
  /\ exists n, n = default 1 (dp_SpecReplicas d) /\ n <> 0 /\ dp_Updated d = n /\ dp_Available d = n /\ dp_Ready d = n /\ dp_Replicas d = n.
Definition daemonset_ready (c : EvpnCore) (obj : json) : Prop :=
  exists w w' d o, GetDaemonSet (GetNamespace obj) (GetName obj) w = (w', Ok d) /\ ToUnstructured obj (ds_Raw d) = Ok o
  /\ ownershipProblem c o = ""%string /\ ds_Deleting d = false /\ ds_Generation d <= ds_ObservedGeneration d
  /\ exists n, n = ds_Desired d /\ n <> 0 /\ (GetName obj = "evpn-node-agent"%string -> n = 1) /\ ds_Updated d = n /\ ds_Ready d = n
     /\ ds_Available d = n /\ ds_Unavailable d = 0 /\ ds_Misscheduled d = 0.
Definition is_workload (obj : json) : Prop := GetKind obj = "Deployment"%string \/ GetKind obj = "DaemonSet"%string.
Definition workload_ready (c : EvpnCore) (obj : json) : Prop :=
  (GetKind obj = "Deployment"%string -> deployment_ready c obj) /\ (GetKind obj = "DaemonSet"%string -> daemonset_ready c obj).

Lemma rolled_out_spec d : rolled_out d = true ->
  exists n, n = default 1 (dp_SpecReplicas d) /\ n <> 0 /\ dp_Updated d = n /\ dp_Available d = n /\ dp_Ready d = n /\ dp_Replicas d = n.
Proof. unfold rolled_out. intros. bools. eauto 10. Qed.
Lemma agents_out_spec name d : agents_out name d = true -> ds_Generation d <= ds_ObservedGeneration d
  /\ exists n, n = ds_Desired d /\ n <> 0 /\ (name = "evpn-node-agent"%string -> n = 1) /\ ds_Updated d = n /\ ds_Ready d = n
     /\ ds_Available d = n /\ ds_Unavailable d = 0 /\ ds_Misscheduled d = 0.
Proof.
  unfold agents_out. intros. bools. split; [done|]. exists (ds_Desired d). split_and!; try done. intros ->.
  match goal with H : (_ && _) = false |- _ => rewrite bool_decide_eq_true_2 in H by done; simpl in H end. by bools.
Qed.

Lemma verifyWorkloadOwnership_inv desired raw del s s' u : verifyWorkloadOwnership desired raw del s = (s', Ok u) ->
  s' = s /\ del = false /\ exists o, ToUnstructured desired raw = Ok o /\ ownershipProblem s.1 o = ""%string.
Proof. unfold verifyWorkloadOwnership, get_core. intros H. msteps. unfold is_empty in *. bools. eauto. Qed.

(** One round: the accumulator stays clean only if the object is ready. *)
Lemma workload_inv acc obj s s' acc' : workload acc obj s = (s', Ok acc') -> s'.1 = s.1
  /\ (ro_Failed acc' = None -> ro_Waiting acc' = ""%string -> ro_Failed acc = None /\ ro_Waiting acc = ""%string /\ workload_ready s.1 obj
      /\ (ro_Count acc' <> 0%nat -> ro_Count acc <> 0%nat \/ is_workload obj)).
Proof.
  unfold workload, workload_ready, is_workload. intros H. destruct (bool_decide (is_Some _)) eqn:Ef.
  { unfold ret in H. simplify_eq. split; [done|]. intros Hf. bools. rewrite Hf in Ef. by destruct Ef. }
  assert (ro_Failed acc = None) as Hf by (destruct (ro_Failed acc); [|done]; bools; destruct Ef; by eexists).
  case_bool_decide as Hd; [|case_bool_decide as Hs].
  - apply bind_ok_inv in H as ([c1 w1] & d & [Hc Hget]%on_snd_inv & H). apply bind_ok_inv in H as (s2 & [] & Hv & H).
    apply verifyWorkloadOwnership_inv in Hv as (-> & Hdel & o & Ho & Hown). simpl in *. subst c1. unfold ret in H. rewrite Hd.
    destruct (_ <? _) eqn:Eg; [simplify_eq; done|]. destruct (existsb _ _) eqn:Ex; [simplify_eq; done|].
    destruct (rolled_out d) eqn:Er; simplify_eq; simpl; [|done]. split; [done|]. intros _ Hw. bools. split_and!; try done.
    + intros _. exists s.2, w1, d, o. split_and!; try done. by apply rolled_out_spec.
    + auto.
  - apply bind_ok_inv in H as ([c1 w1] & d & [Hc Hget]%on_snd_inv & H). apply bind_ok_inv in H as (s2 & [] & Hv & H).
    apply verifyWorkloadOwnership_inv in Hv as (-> & Hdel & o & Ho & Hown). simpl in *. subst c1. unfold ret in H. rewrite Hs.
    destruct (agents_out _ d) eqn:Er; simplify_eq; simpl; [|done]. split; [done|]. intros _ Hw. apply agents_out_spec in Er as [Hg Hn].
    split_and!; try done; [|by auto]. intros _. exists s.2, w1, d, o. by split_and!.
  - unfold ret in H. simplify_eq. split; [done|]. intros _ Hw. split_and!; try done. by left.
Qed.

(** [Ready] is never reported early: when [workloadStatus] answers [Ready], the manifest
    has a workload, and every Deployment and DaemonSet of it was read as owned by the
    installation, not being deleted, observed at its current generation and fully rolled
    out (the node agent on exactly one node). *)
Theorem workloadStatus_ready objects s s' reason msg : workloadStatus objects s = (s', Ok ("Ready"%string, reason, msg)) ->
  (exists obj, obj ∈ objects /\ is_workload obj) /\ forall obj, obj ∈ objects -> workload_ready s.1 obj.
Proof.
  intros (s1 & acc & Hf & H)%bind_ok_inv. unfold ret in H. destruct (ro_Failed acc) eqn:Ef; [simplify_eq|].
  destruct (ro_Count acc =? 0)%nat eqn:Ec; [simplify_eq|]. destruct (is_empty (ro_Waiting acc)) eqn:Ew; [|simplify_eq]. clear H.
  unfold is_empty in Ew. bools. apply Nat.eqb_neq in Ec.
  apply (mfold_invariant _ (fun done acc s1 => s1.1 = s.1 /\ (ro_Failed acc = None -> ro_Waiting acc = ""%string ->
    (ro_Count acc <> 0%nat -> exists obj, obj ∈ done /\ is_workload obj) /\ forall obj, obj ∈ done -> workload_ready s.1 obj))) in Hf.
  - destruct Hf as [_ H]. destruct (H Ef Ew) as [H1 H2]. split; [by apply H1|done].
  - split; [done|]. intros _ _. split; [done|]. intros obj Ho. by apply not_elem_of_nil in Ho.
  - intros done obj b b' s2 s3 _ [Hs IH] Hw. apply workload_inv in Hw as [Hs' Hw]. split; [congruence|]. intros H1 H2.
    destruct (Hw H1 H2) as (Hf1 & Hw1 & Hr & Hc). destruct (IH Hf1 Hw1) as [IH1 IH2]. rewrite Hs in Hr. split.
    + intros [Hn|Hn]%Hc; [destruct (IH1 Hn) as (obj' & ? & ?); exists obj'|exists obj]; (split; [set_solver|done]).
    + intros obj' [?|Ho]%elem_of_app; [by apply IH2|]. apply list_elem_of_singleton in Ho as ->. done.
Qed.
End operator.
