(* ===== verification/OperatorSpec.v ===== *)
(** * What the operator may do to a cluster

    An abstract protocol for the controller of [src/deploy/operator/controllers]: the part
    of a cluster it works on, what the Kubernetes API promises about it ([KubeStore]), and
    the steps an installation may take ([op_step]), each with its guard in the state it
    is taken in.  The invariants of the protocol are proved by induction on the steps;
    [OperatorSafety] proves that a reconciliation only takes such steps.  Nobody else writes
    to the cluster during a reconciliation; every call may fail, before or after its effect. *)

From S2P Require Import Prelude GoStd Journal GoJson OperatorTypes OperatorManifest Operator.

Definition ObjectKey : Type := string * string * string * string.
Definition res_key (r : ManagedResource) : ObjectKey := (mr_APIVersion r, mr_Kind r, mr_Namespace r, mr_Name r).

Lemma sameResource_key a b : sameResource a b = true <-> res_key a = res_key b.
Proof.
  unfold sameResource, res_key. rewrite !andb_true_iff, !bool_decide_eq_true. split; [by intros [[[-> ->] ->] ->]|by intros [= -> -> -> ->]].
Qed.
Lemma sameResource_neq a b : sameResource a b = false <-> res_key a <> res_key b.
Proof. rewrite <-sameResource_key. by destruct (sameResource a b). Qed.

Section spec.
Context {KT : KubeTypes} {UL : UnstructuredLib} {JJ : Json json}.

(** The cluster: the custom resources by namespace and name, the lock and the objects. *)
Record Cluster := {
  cl_cores : gmap (string * string) EvpnCore; cl_lease : option Lease; cl_objects : gmap ObjectKey json;
}.
Definition obj_key (o : json) : ObjectKey := res_key (resourceRef o).
Definition id_of (c : EvpnCore) : string * string := (core_Namespace c, core_Name c).
Definition with_cores f (v : Cluster) : Cluster := {| cl_cores := f (cl_cores v); cl_lease := cl_lease v; cl_objects := cl_objects v |}.
Definition with_lease l (v : Cluster) : Cluster := {| cl_cores := cl_cores v; cl_lease := l; cl_objects := cl_objects v |}.
Definition with_objects f (v : Cluster) : Cluster := {| cl_cores := cl_cores v; cl_lease := cl_lease v; cl_objects := f (cl_objects v) |}.
Definition with_version (rv : string) (c : EvpnCore) : EvpnCore :=
  {| core_Namespace := core_Namespace c; core_Name := core_Name c; core_UID := core_UID c; core_Generation := core_Generation c;
     core_ResourceVersion := rv; core_Created := core_Created c; core_Deleting := core_Deleting c;
     core_Finalizers := core_Finalizers c; core_Spec := core_Spec c; core_Status := core_Status c |}.

(** ** The promises of the API *)

Section promises.
Context {W : Type} (view : W -> Cluster).
(** A read leaves the cluster alone; it may fail, and a [NotFound] is true. *)
Definition reads {A} (m : M W A) (Q : Cluster -> A -> Prop) (absent : Cluster -> Prop) : Prop :=
  forall w, view (m w).1 = view w
            /\ match (m w).2 with Ok a => Q (view w) a | Err e => NotFound e = true -> absent (view w) end.
(** A write that succeeds has its effect; one that fails has it or not. *)
Definition writes {A} (m : M W A) (T : Cluster -> Cluster -> A -> Prop) : Prop :=
  forall w, match (m w).2 with
            | Ok a => T (view w) (view (m w).1) a
            | Err e => view (m w).1 = view w \/ exists a, T (view w) (view (m w).1) a
            end.
Definition silent {A} (m : M W A) : Prop := forall w, view (m w).1 = view w.
End promises.

Class KubeStore (W : Type) {KU : Kube W} {KL : KubeLib W} := {
  view : W -> Cluster;
  law_cached_GetCore ns n : silent view (cached_GetCore ns n);
  law_cached_id ns n w w' c : cached_GetCore ns n w = (w', Ok c) -> id_of c = (ns, n);
  law_GetCore ns n : reads view (GetCore ns n) (fun v c => cl_cores v !! (ns, n) = Some c /\ id_of c = (ns, n) /\ core_UID c <> ""%string)
                               (fun v => cl_cores v !! (ns, n) = None);
  law_ListCores : silent view ListCores;
  (* the patch carries the resource version of its base *)
  law_PatchStatus cur next : writes view (PatchStatus cur next) (fun v v' a =>
    cl_cores v !! id_of cur = Some cur /\ a.(core_Status) = core_Status next
    /\ exists rv, v' = with_cores (<[id_of cur := with_version rv (with_status (core_Status next) cur)]>) v);
  (* a resource that is being deleted goes with its last finalizer *)
  law_PatchCore cur next : writes view (PatchCore cur next) (fun v v' _ =>
    cl_cores v !! id_of cur = Some cur
    /\ ((exists rv, v' = with_cores (<[id_of cur := with_version rv (with_finalizers (core_Finalizers next) cur)]>) v)
        \/ core_Deleting cur = true /\ core_Finalizers next = [] /\ v' = with_cores (delete (id_of cur)) v));
  law_GetLease : reads view GetLease (fun v l => cl_lease v = Some l) (fun v => cl_lease v = None);
  law_CreateLease l : writes view (CreateLease l) (fun v v' _ =>
    cl_lease v = None /\ exists rv, v' = with_lease (Some {| ls_Labels := ls_Labels l; ls_Holder := ls_Holder l; ls_ResourceVersion := rv |}) v);
  law_UpdateLease l : writes view (UpdateLease l) (fun v v' _ =>
    exists rv, v' = with_lease (Some {| ls_Labels := ls_Labels l; ls_Holder := ls_Holder l; ls_ResourceVersion := rv |}) v);
  law_cached_GetNamespace n : silent view (cached_GetNamespace n);
  law_CreateNamespace n : silent view (CreateNamespace n);
  law_GetObject ref : reads view (GetObject ref) (fun v o => cl_objects v !! res_key ref = Some o /\ obj_key o = res_key ref)
                                (fun v => cl_objects v !! res_key ref = None);
  law_ListObjects version kind uid n : reads view (ListObjects version (kind +:+ "List") uid n) (fun v '(items, next) =>
    (forall o, o ∈ items -> cl_objects v !! obj_key o = Some o)
    /\ (next = ""%string -> forall ns name o, cl_objects v !! (version, kind, ns, name) = Some o -> index OwnerKey (GetLabels o) = uid ->
        o ∈ items /\ obj_key o = (version, kind, ns, name))) (fun _ => True);
  law_CreateObject o : writes view (CreateObject o) (fun v v' a =>
    cl_objects v !! obj_key o = None /\ exists o', index OwnerKey (GetAnnotations o') = index OwnerKey (GetAnnotations o)
    /\ v' = with_objects (<[obj_key o := o']>) v);
  law_PatchObject cur patch : writes view (PatchObject cur patch) (fun v v' _ =>
    is_Some (cl_objects v !! obj_key cur) /\ exists o', v' = with_objects (<[obj_key cur := o']>) v);
  (* the object of the precondition is gone, or marked and left to its finalizers *)
  law_DeleteObject o uid rv : writes view (DeleteObject o uid rv) (fun v v' _ =>
    (exists cur, cl_objects v !! obj_key o = Some cur /\ GetUID cur = uid /\ GetResourceVersion cur = rv)
    /\ (v' = with_objects (delete (obj_key o)) v \/ exists o', v' = with_objects (<[obj_key o := o']>) v));
  law_GetNode n : silent view (GetNode n);
  law_ListDaemonSets : silent view ListDaemonSets;
  law_ListDeployments : silent view ListDeployments;
  law_GetDeployment ns n : silent view (GetDeployment ns n);
  law_GetDaemonSet ns n : silent view (GetDaemonSet ns n);
  law_ReadFile path : silent view (ReadFile path);
  law_SetStatusCondition cs typ g reason msg : silent view (SetStatusCondition cs typ g reason msg);
}.

(** ** The protocol *)

Section protocol.
Context (id : string * string) (uid : string) (deleting : bool).

(** The journal has an entry for a key. *)
Definition in_journal (l : list ManagedResource) (k : ObjectKey) : Prop := k ∈ res_key <$> l.
(** An object this installation may touch. *)
Definition owned (o : json) : Prop := exists core, core_UID core = uid /\ ownershipProblem core o = ""%string.
Definition holds_lock (v : Cluster) : Prop := exists l, cl_lease v = Some l /\ lock_managed l = true /\ ls_Holder l = Some uid.
(** No object of the installation is left. *)
Definition nothing_left (v : Cluster) : Prop :=
  (forall c, cl_cores v !! id = Some c -> inventory c = [])
  /\ forall version kind ns name o, (version, kind) ∈ managedKinds ->
     cl_objects v !! (version, kind, ns, name) = Some o -> index OwnerKey (GetLabels o) <> uid.

(** How the journal may change. *)
Inductive journal_edit (v : Cluster) : list ManagedResource -> list ManagedResource -> Prop :=
  | edit_none l : journal_edit v l l
  | edit_remember ref l l' : remember_entry ref l = Ok l' -> journal_edit v l l'
  | edit_conflict ref msg l : journal_edit v l (put_entry (set_conflict msg) (set_conflict msg ref) l)
  | edit_intent ref l : cl_objects v !! res_key ref = None -> journal_edit v l (put_entry (fun _ => unborn ref) (unborn ref) l)
  | edit_discover refs l :
      (forall ref, ref ∈ refs -> is_Some (cl_objects v !! res_key ref)) ->
      (length (foldl discover_entry l refs) <= maxManagedResources)%nat -> journal_edit v l (foldl discover_entry l refs)
  | edit_clean (keep : ManagedResource -> option ManagedResource) l :
      (forall ref, match keep ref with Some ref' => res_key ref' = res_key ref | None => cl_objects v !! res_key ref = None end) ->
      journal_edit v l (omap keep l).

(** The custom resource of the installation, in the state the reconciliation started from. *)
Definition live (v : Cluster) (c : EvpnCore) : Prop := cl_cores v !! id = Some c /\ core_UID c = uid /\ core_Deleting c = deleting.

Inductive op_step : Cluster -> Cluster -> Prop :=
  | step_status v c st rv :
      live v c -> journal_edit v (inventory c) (cst_ManagedResources st) ->
      op_step v (with_cores (<[id := with_version rv (with_status st c)]>) v)
  | step_finalize v c rv :
      live v c -> deleting = false ->
      op_step v (with_cores (<[id := with_version rv (with_finalizers (core_Finalizers c ++ [Finalizer]) c)]>) v)
  | step_release v c v' l :
      live v c -> deleting = true -> nothing_left v -> ~ holds_lock v ->
      l = List.filter (fun f => negb (bool_decide (f = Finalizer))) (core_Finalizers c) ->
      (exists rv, v' = with_cores (<[id := with_version rv (with_finalizers l c)]>) v) \/ l = [] /\ v' = with_cores (delete id) v ->
      op_step v v'
  | step_lock v c l rv :
      live v c -> deleting = false -> uid <> ""%string ->
      match cl_lease v with None => True | Some old => lock_managed old = true /\ held_by old = ""%string end ->
      lock_managed l = true -> ls_Holder l = Some uid ->
      op_step v (with_lease (Some {| ls_Labels := ls_Labels l; ls_Holder := ls_Holder l; ls_ResourceVersion := rv |}) v)
  | step_unlock v c l rv :
      live v c -> deleting = true -> nothing_left v -> cl_lease v = Some l -> lock_managed l = true -> ls_Holder l = Some uid ->
      op_step v (with_lease (Some {| ls_Labels := ls_Labels l; ls_Holder := Some ""%string; ls_ResourceVersion := rv |}) v)
  | step_create v c k o :
      live v c -> deleting = false -> holds_lock v -> cl_objects v !! k = None -> in_journal (inventory c) k ->
      index OwnerKey (GetAnnotations o) = uid ->
      op_step v (with_objects (<[k := o]>) v)
  | step_patch v c k o o' :
      live v c -> deleting = false -> holds_lock v -> cl_objects v !! k = Some o -> in_journal (inventory c) k -> owned o ->
      IsDeleting o = false ->
      op_step v (with_objects (<[k := o']>) v)
  | step_delete v c k o v' :
      live v c -> cl_objects v !! k = Some o -> in_journal (inventory c) k -> owned o -> IsDeleting o = false ->
      v' = with_objects (delete k) v \/ (exists o', v' = with_objects (<[k := o']>) v) ->
      op_step v v'.

(** ** Invariants of the protocol *)

(** Add a key that is not there. *)
Definition add_key (ks : list ObjectKey) (k : ObjectKey) : list ObjectKey := if decide (k ∈ ks) then ks else ks ++ [k].
Lemma add_key_NoDup ks k : NoDup ks -> NoDup (add_key ks k).
Proof. intros. unfold add_key. case_decide; [done|]. apply NoDup_app. split_and!; [done|set_solver|apply NoDup_singleton]. Qed.
Lemma add_key_incl ks k x : x ∈ ks \/ x = k -> x ∈ add_key ks k.
Proof. unfold add_key. case_decide; set_solver. Qed.
Lemma add_key_cons k0 ks k : k <> k0 -> add_key (k0 :: ks) k = k0 :: add_key ks k.
Proof. intros. unfold add_key. repeat case_decide; set_solver. Qed.
Lemma add_keys_NoDup l ks : NoDup ks -> NoDup (foldl add_key ks l).
Proof. revert ks. induction l; intros ks Hks; simpl; [done|]. by apply IHl, add_key_NoDup. Qed.
Lemma add_keys_incl l ks x : x ∈ ks \/ x ∈ l -> x ∈ foldl add_key ks l.
Proof.
  revert ks. induction l as [|k l IH]; intros ks Hx; simpl; [set_solver|]. apply IH. destruct Hx as [Hx|[->|Hx]%elem_of_cons]; auto using add_key_incl.
Qed.

Lemma remember_keys ref l l' : remember_entry ref l = Ok l' -> res_key <$> l' = add_key (res_key <$> l) (res_key ref).
Proof.
  revert l'. induction l as [|old l IH]; intros l' H; simpl in H; [by simplify_eq|].
  destruct (sameResource old ref) eqn:E.
  - apply sameResource_key in E. case_match; [done|]. injection H as <-. unfold add_key. rewrite decide_True by (simpl; rewrite E; left).
    destruct (is_empty (mr_UID ref)); simpl; congruence.
  - apply sameResource_neq in E. destruct (remember_entry ref l) as [l1|]; simplify_eq/=. by rewrite add_key_cons, (IH l1).
Qed.
Lemma put_keys f ref l : (forall r, res_key (f r) = res_key r \/ res_key (f r) = res_key ref) ->
  res_key <$> put_entry f ref l = add_key (res_key <$> l) (res_key ref).
Proof.
  intros Hf. induction l as [|old l IH]; simpl; [done|]. destruct (sameResource old ref) eqn:E; simpl.
  - apply sameResource_key in E. unfold add_key. rewrite decide_True by (rewrite E; left). destruct (Hf old); congruence.
  - apply sameResource_neq in E. rewrite add_key_cons by congruence. f_equal. exact IH.
Qed.
Lemma discover_keys refs l : res_key <$> foldl discover_entry l refs = foldl add_key (res_key <$> l) (res_key <$> refs).
Proof.
  revert l. induction refs as [|ref refs IH]; intros l; simpl; [done|]. rewrite IH. f_equal.
  apply put_keys. intros r. repeat case_match; auto.
Qed.

Lemma clean_keys v (keep : ManagedResource -> option ManagedResource) l :
  (forall ref, match keep ref with Some ref' => res_key ref' = res_key ref | None => cl_objects v !! res_key ref = None end) ->
  (res_key <$> omap keep l) `sublist_of` (res_key <$> l)
  /\ forall k, k ∈ res_key <$> l -> is_Some (cl_objects v !! k) -> k ∈ res_key <$> omap keep l.
Proof.
  intros Hk. induction l as [|ref l [IH1 IH2]]; simpl; [done|]. specialize (Hk ref). destruct (keep ref) as [ref'|]; simpl.
  - rewrite Hk. split; [by apply sublist_skip|]. intros k. rewrite !elem_of_cons. naive_solver.
  - split; [by apply sublist_cons|]. intros k [->|H]%elem_of_cons Hs; [|by apply IH2]. rewrite Hk in Hs. by destruct Hs.
Qed.

(** The entries of the journal stay distinct, and it loses no entry of an existing object. *)
Lemma journal_edit_keys v l l' : journal_edit v l l' ->
  (NoDup (res_key <$> l) -> NoDup (res_key <$> l'))
  /\ forall k, in_journal l k -> is_Some (cl_objects v !! k) -> in_journal l' k.
Proof.
  unfold in_journal. intros [l0|ref l0 l1 H|ref msg l0|ref l0 H|refs l0 H _|keep l0 H]; [done|..].
  - rewrite (remember_keys _ _ _ H). auto using add_key_NoDup, add_key_incl.
  - rewrite put_keys by auto. auto using add_key_NoDup, add_key_incl.
  - rewrite put_keys by auto. auto using add_key_NoDup, add_key_incl.
  - rewrite discover_keys. auto using add_keys_NoDup, add_keys_incl.
  - destruct (clean_keys v keep l0 H) as [H1 H2]. split; [by intros; eapply sublist_NoDup|done].
Qed.

Definition journal_distinct (v : Cluster) : Prop := forall c, cl_cores v !! id = Some c -> NoDup (res_key <$> inventory c).
(** Every object that names this installation as its owner is in the journal. *)
Definition journal_complete (v : Cluster) : Prop :=
  forall c k o, cl_cores v !! id = Some c -> core_UID c = uid -> cl_objects v !! k = Some o -> index OwnerKey (GetAnnotations o) = uid ->
  in_journal (inventory c) k.

Lemma owned_annotation o : owned o -> index OwnerKey (GetAnnotations o) = uid.
Proof.
  intros (core & <- & H). unfold ownershipProblem in H. destruct (existsb _ _); [done|].
  unfold ownedJournalValid in H. case_bool_decide as Ha; [exact Ha|discriminate].
Qed.

Lemma step_distinct v v' : op_step v v' -> journal_distinct v -> journal_distinct v'.
Proof.
  intros Hs Hv c'. destruct Hs as [v c st rv [Hc _] He|v c rv [Hc _]|v c v' l [Hc _] _ _ _ _ Hv'| | | | |v c k o v' _ _ _ _ _ Hv'];
    simpl; try (by apply Hv).
  - rewrite lookup_insert_eq. intros ?; simplify_eq. simpl. eapply journal_edit_keys; [done|]. by apply Hv.
  - rewrite lookup_insert_eq. intros ?; simplify_eq. by apply (Hv c).
  - destruct Hv' as [[rv ->]|[_ ->]]; simpl; rewrite ?lookup_insert_eq, ?lookup_delete_eq; intros ?; simplify_eq. by apply (Hv c).
  - destruct Hv' as [->|[o' ->]]; simpl; by apply Hv.
Qed.

Lemma step_complete v v' : op_step v v' -> journal_complete v -> journal_complete v'.
Proof.
  intros Hs Hv c' k' o1.
  destruct Hs as [v c st rv [Hc [Hi _]] He|v c rv [Hc [Hi _]]|v c v' l [Hc [Hi _]] _ _ _ _ Hv'| | |v c k o [Hc _] _ _ _ Hj _
                 |v c k o o' [Hc [Hi _]] _ _ Ho Hj|v c k o v' [Hc [Hi _]] Ho Hj _ _ Hv']; simpl; try (by apply Hv).
  - rewrite lookup_insert_eq. intros ? Hu Hl Ha; simplify_eq/=. eapply journal_edit_keys; [done| |done]. by eapply Hv.
  - rewrite lookup_insert_eq. intros ? Hu Hl Ha; simplify_eq/=. by apply (Hv c k' o1).
  - destruct Hv' as [[rv ->]|[_ ->]]; simpl; rewrite ?lookup_insert_eq, ?lookup_delete_eq; intros ? Hu Hl Ha; simplify_eq/=.
    by apply (Hv c k' o1).
  - intros Hc' Hu [[<- <-]|[Hk Hl]]%lookup_insert_Some Ha; simplify_eq; [done|]. by eapply Hv.
  - intros Hc' Hu [[<- <-]|[Hk Hl]]%lookup_insert_Some Ha; simplify_eq; [done|]. by eapply Hv.
  - destruct Hv' as [->|[o' ->]]; simpl; intros Hc' Hu Hl Ha.
    + apply lookup_delete_Some in Hl as [_ Hl]. by eapply Hv.
    + apply lookup_insert_Some in Hl as [[<- <-]|[_ Hl]]; [simplify_eq; done|]. by eapply Hv.
Qed.

(** An object without the ownership of the installation keeps its content. *)
Lemma step_spares k o v v' : ~ owned o -> op_step v v' -> cl_objects v !! k = Some o -> cl_objects v' !! k = Some o.
Proof.
  intros Ho Hs Hv. destruct Hs as [| |v c v' l _ _ _ _ _ Hv'| | | | |v c k0 o0 v' _ Hl _ Hown _ Hv']; simpl; try done.
  - by destruct Hv' as [[rv ->]|[_ ->]].
  - rewrite lookup_insert_ne; [done|]. intros ->. congruence.
  - rewrite lookup_insert_ne; [done|]. intros ->. congruence.
  - assert (k0 <> k) by (intros ->; congruence). destruct Hv' as [->|[o' ->]]; simpl; rewrite ?lookup_delete_ne, ?lookup_insert_ne by done; done.
Qed.

(** While another installation holds the lock, this one cannot take it, and adds and changes nothing. *)
Definition locked_out (v : Cluster) : Prop := exists l, cl_lease v = Some l /\ held_by l <> ""%string /\ held_by l <> uid.
(** Every object was there before, unless it took the place of one the installation owned. *)
Definition nothing_added (v v' : Cluster) : Prop :=
  forall k o, cl_objects v' !! k = Some o -> cl_objects v !! k = Some o \/ exists o0, cl_objects v !! k = Some o0 /\ owned o0.
Lemma step_locked_out v v' : op_step v v' -> locked_out v -> cl_lease v' = cl_lease v /\ nothing_added v v'.
Proof.
  intros Hs (l & Hl & Hn & Hu). assert (~ holds_lock v) as Hh.
  { intros (l' & Hl' & _ & Hh). unfold held_by in Hu. simplify_eq. by rewrite Hh in Hu. }
  unfold nothing_added.
  destruct Hs as [| |v c v' l' _ _ _ _ _ Hv'|v c l' rv _ _ _ Hfree|v c l' rv _ _ _ Hl' _ Hh'| | |v c k0 o0 v' _ Ho _ Hown _ Hv'];
    simpl; try (split; [done|]; by auto).
  - destruct Hv' as [[rv ->]|[_ ->]]; simpl; auto.
  - rewrite Hl in Hfree. by destruct Hfree.
  - simplify_eq. unfold held_by in Hu. by rewrite Hh' in Hu.
  - destruct Hv' as [->|[o' ->]]; simpl; (split; [done|]); intros k1 o1.
    + intros [_ ?]%lookup_delete_Some. auto.
    + intros [[<- <-]|[_ ?]]%lookup_insert_Some; eauto.
Qed.

(** The lock is kept until the installation is deleted. *)
Lemma step_keeps_lock v v' : deleting = false -> op_step v v' -> holds_lock v -> holds_lock v'.
Proof.
  intros Hd Hs (l & Hl & Hm & Hh).
  destruct Hs as [| |v c v' l' _ Hd'|v c l' rv _ _ _ _ Hm' Hh'|v c l' rv _ Hd'| | |v c k o v' _ _ _ _ _ Hv']; simplify_eq; try by (exists l).
  - eexists. split; [reflexivity|done].
  - destruct Hv' as [->|[o' ->]]; by exists l.
Qed.

(** ** Runs of the protocol *)
Definition steps : Cluster -> Cluster -> Prop := rtc op_step.
Lemma steps_keep (J : Cluster -> Prop) v v' : (forall v v', op_step v v' -> J v -> J v') -> steps v v' -> J v -> J v'.
Proof. intros HJ. induction 1; eauto. Qed.
Lemma steps_locked_out v v' : steps v v' -> locked_out v -> cl_lease v' = cl_lease v /\ nothing_added v v'.
Proof.
  induction 1 as [v|v v1 v2 H1 _ IH]; intros Hv; [split; [done|by left]|]. destruct (step_locked_out _ _ H1 Hv) as [Hl Ha].
  assert (locked_out v1) as Hv1 by (unfold locked_out; by rewrite Hl). destruct (IH Hv1) as [Hl' Ha']. split; [congruence|].
  intros k o Ho. destruct (Ha' k o Ho) as [H|(o1 & H & Ho1)]; [by apply Ha|]. destruct (Ha k o1 H) as [?|?]; eauto.
Qed.
End protocol.
End spec.
