(* ===== verification/OperatorSafety.v ===== *)
(** * The operator follows its protocol

    A weakest-precondition calculus for the runs of the controller of
    [src/deploy/operator/controllers]: a run takes steps of [OperatorSpec], and what a call
    returned is known of the cluster it was called in.  Then, for each operation, that its
    runs take only permitted steps, whatever it returns. *)

From S2P Require Import Prelude GoStd Journal GoJson OperatorTypes OperatorManifest Operator OperatorSpec.

(** Annotations that were set are read back. *)
Class AnnotationLaws {UL : UnstructuredLib} := law_annotations m o : GetAnnotations (SetAnnotations m o) = m.

Section safety.
Context {KT : KubeTypes} {KV : KubeValidation} {UL : UnstructuredLib} {JJ : Json json} {PR : PodRest} {ML : ManifestLib}.
Context {W : Type} {KU : Kube W} {KL : KubeLib W} {KS : KubeStore W} {AL : AnnotationLaws}.
Notation OM := (M (EvpnCore * W)).

(** The resource a reconciliation started from. *)
Context (c0 : EvpnCore).
Notation id := (id_of c0).
Notation uid := (core_UID c0).
Notation deleting := (core_Deleting c0).
Notation op_step := (op_step id uid deleting).
Notation steps := (steps id uid deleting).
Notation live := (live id uid deleting).

(** Only the status of the snapshot changes. *)
Definition frozen (c : EvpnCore) : Prop := c = with_status (core_Status c) c0.
Lemma frozen_status st c : frozen c -> frozen (with_status st c).
Proof. by intros ->. Qed.
Lemma frozen_id c : frozen c -> id_of c = id. Proof. by intros ->. Qed.
Lemma frozen_uid c : frozen c -> core_UID c = uid. Proof. by intros ->. Qed.
Lemma frozen_deleting c : frozen c -> core_Deleting c = deleting. Proof. by intros ->. Qed.
Lemma frozen_spec c : frozen c -> core_Spec c = core_Spec c0. Proof. by intros ->. Qed.

Lemma keep_distinct v v' : steps v v' -> journal_distinct id v -> journal_distinct id v'.
Proof. apply steps_keep, step_distinct. Qed.
Lemma keep_lock v v' : deleting = false -> steps v v' -> holds_lock uid v -> holds_lock uid v'.
Proof. intros Hd. apply steps_keep. intros ? ?. by apply step_keeps_lock. Qed.

(** ** The calculus *)

Definition wp {A} (m : OM A) (Q : result A -> EvpnCore -> Cluster -> Prop) (c : EvpnCore) (v : Cluster) : Prop :=
  forall w, view w = v -> frozen (m (c, w)).1.1 /\ steps v (view (m (c, w)).1.2) /\ Q (m (c, w)).2 (m (c, w)).1.1 (view (m (c, w)).1.2).
(** A postcondition for a successful run. *)
Definition on_ok {A} (Q : A -> EvpnCore -> Cluster -> Prop) (r : result A) (c : EvpnCore) (v : Cluster) : Prop :=
  match r with Ok a => Q a c v | Err _ => True end.

Section rules.
Context {A B : Type} (c : EvpnCore) (v : Cluster).
Implicit Types Q : result A -> EvpnCore -> Cluster -> Prop.

Lemma wp_pure (r : result A) Q : frozen c -> Q r c v -> wp (lift r) Q c v.
Proof. intros Hc HQ w <-. split_and!; [done|constructor|done]. Qed.
Lemma wp_ret (a : A) Q : frozen c -> Q (Ok a) c v -> wp (ret a) Q c v.
Proof. apply (wp_pure (Ok a)). Qed.
Lemma wp_fail e Q : frozen c -> Q (Err e) c v -> wp (fail e) Q c v.
Proof. apply (wp_pure (Err e)). Qed.
Lemma wp_mono (m : OM A) Q Q' :
  wp m Q c v -> (forall r c' v', frozen c' -> steps v v' -> Q r c' v' -> Q' r c' v') -> wp m Q' c v.
Proof. intros Hm HQ w Hw. destruct (Hm w Hw) as (? & ? & ?). split_and!; auto. Qed.
Lemma wp_bind (m : OM A) (k : A -> OM B) (R : result B -> EvpnCore -> Cluster -> Prop) :
  wp m (fun r c v => match r with Ok a => wp (k a) R c v | Err e => R (Err e) c v end) c v -> wp (bind m k) R c v.
Proof.
  intros Hm w Hw. destruct (Hm w Hw) as (Hf & Hs & HQ). unfold bind. destruct (m (c, w)) as [[c' w'] [a|e]]; simpl in *; [|done].
  destruct (HQ w' eq_refl) as (? & ? & ?). split_and!; [done|by etrans|done].
Qed.
Lemma wp_attempt (m : OM A) (R : result (result A) -> EvpnCore -> Cluster -> Prop) :
  wp m (fun r => R (Ok r)) c v -> wp (attempt m) R c v.
Proof. intros Hm w Hw. destruct (Hm w Hw) as (? & ? & ?). unfold attempt. by destruct (m (c, w)). Qed.
Lemma wp_wrap f (m : OM A) Q : wp m (fun r => Q (map_err f r)) c v -> wp (wrap f m) Q c v.
Proof. intros Hm w Hw. destruct (Hm w Hw) as (? & ? & ?). unfold wrap. by destruct (m (c, w)). Qed.
Lemma wp_silent (m : M W A) Q : silent view m -> frozen c -> (forall r, Q r c v) -> wp (on_snd m) Q c v.
Proof. intros Hm Hc HQ w <-. specialize (Hm w). unfold on_snd. simpl. destruct (m w) as [w' r]. simpl in *. rewrite Hm. split_and!; [done|constructor|done]. Qed.
Lemma wp_read (m : M W A) P absent Q : reads view m P absent -> frozen c -> (forall a, P v a -> Q (Ok a) c v) ->
  (forall e, (NotFound e = true -> absent v) -> Q (Err e) c v) -> wp (on_snd m) Q c v.
Proof.
  intros Hm Hc H1 H2 w <-. destruct (Hm w) as [Hv Hr]. unfold on_snd. simpl. destruct (m w) as [w' [a|e]]; simpl in *; rewrite Hv; (split_and!; [done|constructor|auto]).
Qed.
Lemma wp_write (m : M W A) T Q : writes view m T -> frozen c ->
  (forall a v', T v v' a -> op_step v v' /\ Q (Ok a) c v' /\ forall e, Q (Err e) c v') -> (forall e, Q (Err e) c v) -> wp (on_snd m) Q c v.
Proof.
  intros Hm Hc HT He w <-. specialize (Hm w). unfold on_snd. simpl. destruct (m w) as [w' [a|e]]; simpl in *.
  - destruct (HT _ _ Hm) as (? & ? & _). split_and!; [done|by apply rtc_once|done].
  - destruct Hm as [->|[a Ha]]; [split_and!; [done|constructor|done]|].
    destruct (HT _ _ Ha) as (? & _ & ?). split_and!; [done|by apply rtc_once|done].
Qed.
End rules.

Lemma wp_get_core (Q : result EvpnCore -> EvpnCore -> Cluster -> Prop) c v : frozen c -> Q (Ok c) c v -> wp get_core Q c v.
Proof. intros Hc HQ w <-. split_and!; [done|constructor|done]. Qed.
Lemma wp_let_core {B} (k : EvpnCore -> OM B) Q c v : wp (k c) Q c v -> wp (bind get_core k) Q c v.
Proof. intros H w Hw. exact (H w Hw). Qed.

Lemma wp_let_lift {A B} (x : result A) (k : A -> OM B) Q c v :
  frozen c -> (forall a, x = Ok a -> wp (k a) Q c v) -> (forall e, Q (Err e) c v) -> wp (bind (lift x) k) Q c v.
Proof. intros Hc Hk HE. apply wp_bind, wp_pure; [done|]. destruct x; auto. Qed.

(** A loop: the invariant is known after each round, and on failure only [E]. *)
Lemma wp_mfold {A B} (f : B -> A -> OM B) (P : list A -> B -> EvpnCore -> Cluster -> Prop) (E : error -> EvpnCore -> Cluster -> Prop) l acc c v :
  frozen c ->
  (forall done x rest b c v, l = done ++ x :: rest -> frozen c -> P done b c v ->
     wp (f b x) (fun r c v => match r with Ok b' => P (done ++ [x]) b' c v | Err e => E e c v end) c v) ->
  P [] acc c v -> wp (mfold f acc l) (fun r c v => match r with Ok b => P l b c v | Err e => E e c v end) c v.
Proof.
  intros Hc Hf. assert (forall done l', l = done ++ l' -> forall b c v, frozen c -> P done b c v ->
    wp (mfold f b l') (fun r c v => match r with Ok b => P l b c v | Err e => E e c v end) c v) as H; [|by apply (H [])].
  intros done l'. revert done. induction l' as [|x l' IH]; intros done -> b c' v' Hc' Hb; simpl.
  - apply wp_ret; [done|]. by rewrite app_nil_r.
  - apply wp_bind. eapply wp_mono; [by eapply Hf|]. intros [b'|e] c1 v1 Hc1 _ H1; [|done].
    apply (IH (done ++ [x])); [by rewrite <-app_assoc|done..].
Qed.

(** ** Snapshots and the journal *)

Lemma wp_currentSnapshot Q c v : frozen c ->
  (forall cur, live v cur -> id_of cur = id -> uid <> ""%string -> Q (Ok cur) c v) -> (forall e, Q (Err e) c v) -> wp currentSnapshot Q c v.
Proof.
  intros Hc H1 H2. unfold currentSnapshot. apply wp_let_core, wp_bind, wp_attempt. eapply wp_read; [apply law_GetCore|done|..]; simpl.
  - change (core_Namespace c, core_Name c) with (id_of c). rewrite (frozen_id c) by done. intros cur (Hv & Hi & Hu).
    destruct (_ || _) eqn:E; [by apply wp_fail|]. apply wp_ret; [done|]. bools.
    assert (core_UID cur = uid) as Hu' by (rewrite <-(frozen_uid c) by done; done).
    apply H1; [|done|congruence]. split_and!; [done..|]. rewrite <-(frozen_deleting c) by done. by apply Bool.eqb_prop.
  - intros e _. by apply wp_fail.
Qed.

(** The status is written, and read back into the snapshot. *)
Lemma wp_editStatus changed edit (R : list ManagedResource -> list ManagedResource -> Prop) Q c v :
  (forall a b, changed a b = false -> a = b) -> frozen c -> (forall l l', R l l' -> journal_edit v l l') ->
  (forall cur w, live v cur -> view w = v -> view (edit (core_Status cur) w).1 = v
     /\ forall st, (edit (core_Status cur) w).2 = Ok st -> R (inventory cur) (cst_ManagedResources st)) ->
  (forall cur c' v' l, frozen c' -> live v' cur -> core_Status c' = core_Status cur -> R l (inventory cur) -> cl_objects v' = cl_objects v ->
     cl_lease v' = cl_lease v -> Q (Ok tt) c' v') ->
  (forall e v', Q (Err e) c v') -> wp (editStatus_if changed edit) Q c v.
Proof.
  intros Hch Hc HR Hedit HQ HE. unfold editStatus_if. apply wp_bind, wp_currentSnapshot; [done| |done]. intros cur Hl Hi Hu.
  intros w Hw. unfold bind, on_snd. simpl. destruct (Hedit cur w Hl Hw) as [He Hr].
  destruct (edit (core_Status cur) w) as [w1 [st|e]]; simpl in *; [|rewrite He; split_and!; [done|constructor|auto]]. specialize (Hr st eq_refl).
  destruct (changed (core_Status cur) st) eqn:Ech; simpl.
  - pose proof (law_PatchStatus cur (with_status st cur) w1) as Hp. unfold wrap. simpl.
    assert (forall v', (exists a, cl_cores (view w1) !! id_of cur = Some cur /\ core_Status a = st
              /\ exists rv, v' = with_cores (<[id_of cur := with_version rv (with_status st cur)]>) (view w1)) -> op_step v v') as Hstep.
    { intros v' (a & _ & _ & rv & ->). rewrite Hi, He. apply step_status; auto. }
    destruct (PatchStatus _ _ w1) as [w2 [a|e]]; simpl in *.
    + destruct Hp as (Hin & Ha & rv & Hv'). split_and!; [by apply frozen_status|apply rtc_once, Hstep; eauto|].
      rewrite Hv', He, Hi. eapply (HQ (with_version rv (with_status st cur))); simpl; [by apply frozen_status| |done|done|done|done].
      destruct Hl as (_ & ? & ?). split_and!; simpl; [by rewrite lookup_insert_eq|done..].
    + split_and!; [done| |auto]. destruct Hp as [->|[a Ha]]; [rewrite He; constructor|apply rtc_once, Hstep; eauto].
  - apply Hch in Ech as <-. rewrite He. split_and!; [by apply frozen_status|constructor|].
    by eapply HQ; [apply frozen_status| | | | |].
Qed.

Lemma status_changed_eq a b : status_changed a b = false -> a = b.
Proof. unfold status_changed. intros. by bools. Qed.
Lemma wp_editInventory (edit : list ManagedResource -> result (list ManagedResource)) (R : list ManagedResource -> list ManagedResource -> Prop) Q c v :
  frozen c -> (forall l l', R l l' -> journal_edit v l l') -> (forall l l', edit l = Ok l' -> R l l') ->
  (forall cur c' v' l, frozen c' -> live v' cur -> core_Status c' = core_Status cur -> R l (inventory cur) -> cl_objects v' = cl_objects v ->
     cl_lease v' = cl_lease v -> Q (Ok tt) c' v') ->
  (forall e v', Q (Err e) c v') -> wp (editInventory edit) Q c v.
Proof.
  intros Hc HR Hedit. apply wp_editStatus; [apply status_changed_eq|done..|]. intros cur w Hl Hw. unfold bind, lift.
  destruct (edit _) eqn:E; simpl; (split; [done|]); intros st; [intros [= <-]; simpl; by apply Hedit|done].
Qed.

(** The journal of the cluster has an entry for a key. *)
Definition journaled_key (k : ObjectKey) (v : Cluster) : Prop := exists cur, live v cur /\ in_journal (inventory cur) k.

Lemma wp_remember ref Q c v : frozen c ->
  (forall c' v', frozen c' -> journaled_key (res_key ref) v' -> cl_objects v' = cl_objects v -> cl_lease v' = cl_lease v -> Q (Ok tt) c' v') ->
  (forall e v', Q (Err e) c v') -> wp (remember ref) Q c v.
Proof.
  intros Hc HQ. apply (wp_editInventory _ (fun l l' => remember_entry ref l = Ok l')); [done| |done|].
  { intros l l' H. by eapply edit_remember. }
  intros cur c' v' l Hc' Hl _ Hr. apply HQ; [done|]. exists cur. split; [done|].
  unfold in_journal. rewrite (remember_keys _ _ _ Hr). apply add_key_incl. by right.
Qed.
Lemma wp_recordConflict ref msg Q c v : frozen c -> (forall e c' v', frozen c' -> Q (Err e) c' v') -> wp (recordConflict ref msg) Q c v.
Proof.
  intros Hc HQ. apply wp_bind.
  apply (wp_editInventory _ (fun l l' => l' = put_entry (set_conflict msg) (set_conflict msg ref) l)); [done| |by intros ? ? [= ->]| |by auto].
  { intros l l' ->. constructor. }
  intros. apply wp_fail; auto.
Qed.
Lemma wp_creationIntent ref Q c v : frozen c ->
  (forall c' v', frozen c' -> journaled_key (res_key ref) v' -> cl_objects v' !! res_key ref = None -> cl_lease v' = cl_lease v -> Q (Ok tt) c' v') ->
  (forall e v', Q (Err e) c v') -> wp (creationIntent ref) Q c v.
Proof.
  intros Hc HQ HE. apply wp_bind, wp_attempt. eapply wp_read; [apply law_GetObject|done|..]; simpl.
  - intros. by apply wp_fail.
  - intros e Habs. destruct (NotFound e); [|by apply wp_fail].
    apply (wp_editInventory _ (fun l l' => l' = put_entry (fun _ => unborn ref) (unborn ref) l)); [done| |by intros ? ? [= ->]| |done].
    { intros l l' ->. constructor. auto. }
    intros cur c' v' l Hc' Hl _ Hr Ho. apply HQ; [done| |rewrite Ho; auto]. exists cur. split; [done|].
    unfold in_journal. rewrite Hr, put_keys by auto. apply add_key_incl. by right.
Qed.

(** The status edits that leave the journal alone. *)
Lemma wp_setStatus phase reason msg (Q : result unit -> EvpnCore -> Cluster -> Prop) c v : frozen c ->
  (forall c' v', frozen c' -> cl_objects v' = cl_objects v -> cl_lease v' = cl_lease v -> Q (Ok tt) c' v') ->
  (forall e v', Q (Err e) c v') -> wp (setStatus phase reason msg) Q c v.
Proof.
  intros Hc HQ HE. apply wp_let_core, (wp_editStatus _ _ eq); [apply status_changed_eq|done|intros ? ? ->; constructor| |eauto|done].
  intros cur w Hl <-. unfold bind.
  assert (forall cs ps w, view (mfold (fun cs typ => SetStatusCondition cs (typ, bool_decide (phase = typ)) (core_Generation c) reason msg) cs ps w).1 = view w) as H.
  { intros cs ps w0. apply (mfold_preserves _ (fun x => view x = view w0)); [|done]. intros. by rewrite law_SetStatusCondition. }
  specialize (H (cst_Conditions (core_Status cur)) phases w). destruct (mfold _ _ _ _) as [w' [cs|e]]; simpl in *; (split; [done|]); [by intros st [= <-]|done].
Qed.

(** ** The lock and the finalizer *)

Lemma wp_finalizer_add (Q : result unit -> EvpnCore -> Cluster -> Prop) c v : deleting = false -> frozen c ->
  (forall v', cl_lease v' = cl_lease v -> Q (Ok tt) c v') -> (forall e v', Q (Err e) c v') -> wp (editFinalizer true) Q c v.
Proof.
  intros Hd Hc HQ HE. apply wp_bind, wp_currentSnapshot; [done| |auto]. intros cur Hl Hi _. case_match; [apply wp_ret; auto|].
  eapply wp_write; [apply law_PatchCore|done| |auto]. intros [] v' (_ & [[rv ->]|(Hdel & _)]); [|destruct Hl as (_ & _ & ?); congruence].
  rewrite Hi. simpl. split_and!; [by apply step_finalize|by apply HQ|auto].
Qed.

Lemma wp_claim_free lock cores (Q : result unit -> EvpnCore -> Cluster -> Prop) c v : deleting = false -> frozen c ->
  match lock with None => cl_lease v = None | Some l => cl_lease v = Some l /\ lock_managed l = true /\ held_by l = ""%string end ->
  (forall c' v', frozen c' -> holds_lock uid v' -> Q (Ok tt) c' v') -> (forall e c' v', frozen c' -> Q (Err e) c' v') -> wp (claim_free lock cores) Q c v.
Proof.
  intros Hd Hc Hlock HQ HE. apply wp_let_core. destruct (match _ with Some _ => _ | None => _ end); [apply wp_fail; auto|].
  destruct (is_empty _); [apply wp_fail; auto|]. apply wp_bind.
  set (K := fun (r : result unit) c v' => match r with Ok _ => frozen c /\ cl_lease v' = cl_lease v | Err _ => True end).
  eapply (wp_mono _ _ _ K). { destruct (contains _ _); [by apply wp_ret|by apply wp_finalizer_add]. }
  intros [[]|e] c1 v1 Hc1 _ HK; [|auto]. destruct HK as [_ Hl1]. apply wp_bind, wp_currentSnapshot; [done| |auto]. intros cur Hl Hi Hu. rewrite <-Hl1 in Hlock.
  rewrite (frozen_uid c) by done.
  destruct lock as [l|].
  - destruct Hlock as (Hs & Hm & Hh). eapply wp_write; [apply law_UpdateLease|done| |auto]. intros [] v' [rv ->]. split_and!; [|apply HQ; [done|]|auto].
    + eapply (step_lock _ _ _ _ cur {| ls_Labels := ls_Labels l; ls_Holder := Some uid; ls_ResourceVersion := "" |}); [done..|by rewrite Hs|done|done].
    + eexists. split; [reflexivity|]. by split.
  - eapply wp_write; [apply law_CreateLease|done| |auto]. intros [] v' [_ [rv ->]]. split_and!; [|apply HQ; [done|]|auto].
    + eapply (step_lock _ _ _ _ cur {| ls_Labels := {[managedByKey := fieldManager]}; ls_Holder := Some uid; ls_ResourceVersion := "" |}); [done..|by rewrite Hlock|done|done].
    + eexists. split; [reflexivity|]. by split.
Qed.

Lemma wp_claimLock (Q : result unit -> EvpnCore -> Cluster -> Prop) c v : deleting = false -> frozen c ->
  (forall c' v', frozen c' -> holds_lock uid v' -> Q (Ok tt) c' v') -> (forall e c' v', frozen c' -> Q (Err e) c' v') -> wp claimLock Q c v.
Proof.
  intros Hd Hc HQ HE. apply wp_let_core, wp_bind, wp_silent; [apply law_ListCores|done|]. intros [cores|e]; [|auto].
  apply wp_bind, wp_attempt. eapply wp_read; [apply law_GetLease|done|..]; simpl.
  - intros l Hl. case_match eqn:Em; [apply wp_fail; auto|]. case_match eqn:Eh.
    + case_match eqn:Eu; [|apply wp_fail; auto]. apply wp_ret; [done|]. apply HQ; [done|]. exists l. bools.
      rewrite (frozen_uid c) in Eu by done. unfold held_by in *. by destruct (ls_Holder l); simplify_eq/=.
    + apply wp_claim_free; auto. bools. unfold is_empty in Eh. by bools.
  - intros e He. case_match; [|apply wp_fail; auto]. apply wp_claim_free; auto.
Qed.

Lemma wp_releaseLock (Q : result unit -> EvpnCore -> Cluster -> Prop) c v : deleting = true -> frozen c -> nothing_left id uid v ->
  (forall v', nothing_left id uid v' -> ~ holds_lock uid v' -> Q (Ok tt) c v') -> (forall e v', Q (Err e) c v') -> wp releaseLock Q c v.
Proof.
  intros Hd Hc Hn HQ HE. apply wp_bind, wp_currentSnapshot; [done| |auto]. intros cur Hl Hi Hu. apply wp_let_core, wp_bind, wp_attempt.
  eapply wp_read; [apply law_GetLease|done|..]; simpl.
  - intros l Hll. rewrite (frozen_uid c) by done. destruct (_ || _) eqn:E.
    + apply wp_ret; [done|]. apply HQ; [done|]. intros (l' & Hl' & Hm & Hh). simplify_eq. rewrite Hm, Hh in E. simpl in E. by bools.
    + bools. eapply wp_write; [apply law_UpdateLease|done| |auto]. intros [] v' [rv ->]. simpl. split_and!; [by eapply step_unlock|apply HQ|auto].
      * done.
      * intros (l' & Hl' & _ & Hh). simplify_eq/=; congruence.
  - intros e He. case_match; [|apply wp_fail; auto]. apply wp_ret; [done|]. apply HQ; [done|]. intros (l & Hll & _). rewrite He in Hll by done. done.
Qed.

Lemma wp_finalizer_remove (Q : result unit -> EvpnCore -> Cluster -> Prop) c v : deleting = true -> frozen c -> nothing_left id uid v -> ~ holds_lock uid v ->
  (forall v', cl_objects v' = cl_objects v -> cl_lease v' = cl_lease v ->
     (forall cur, cl_cores v' !! id = Some cur -> Finalizer ∉ core_Finalizers cur) -> Q (Ok tt) c v') ->
  (forall e v', Q (Err e) c v') -> wp (editFinalizer false) Q c v.
Proof.
  intros Hd Hc Hn Hh HQ HE. apply wp_bind, wp_currentSnapshot; [done| |auto]. intros cur Hl Hi _.
  eapply wp_write; [apply law_PatchCore|done| |auto]. rewrite Hi. intros [] v' (_ & Hv').
  assert (op_step v v') as Hs. { eapply step_release; [done..|reflexivity|]. destruct Hv' as [?|(_ & ? & ?)]; [by left|by right]. }
  split_and!; [done| |auto]. destruct Hv' as [[rv ->]|(_ & _ & ->)]; apply HQ; simpl; [done..| |done|done|].
  - rewrite lookup_insert_eq. intros cur' [= <-]. simpl. rewrite list_elem_of_In, List.filter_In. intros [_ Hf]. by bools.
  - by rewrite lookup_delete_eq.
Qed.

(** ** Applying *)

Lemma ownershipProblem_owned c o : frozen c -> is_empty (ownershipProblem c o) = true -> owned uid o.
Proof. intros Hc He. exists c. split; [by apply frozen_uid|]. unfold is_empty in He. by bools. Qed.

Notation any := (fun _ _ _ => True).

Lemma wp_apply_create obj c v : deleting = false -> frozen c -> holds_lock uid v -> wp (apply_create obj) any c v.
Proof.
  intros Hd Hc Hh. apply wp_let_core, wp_let_lift; [done| |done]. intros desired _.
  apply wp_bind, wp_creationIntent; [done| |done]. intros c1 v1 Hc1 (cur & Hl & Hj) Ho Hl1.
  apply wp_bind, wp_currentSnapshot; [done| |done]. intros cur' Hl' _ _. apply wp_bind.
  eapply wp_write; [apply law_CreateObject|done| |done]. intros a v' (_ & o' & Ha & ->). split_and!; [|by apply wp_remember|done].
  eapply (step_create _ _ _ _ cur); [done|done| |exact Ho|exact Hj|].
  - unfold holds_lock. by rewrite Hl1.
  - rewrite Ha. unfold journaled, owned_annotations. rewrite law_annotations. unfold index.
    rewrite lookup_insert_ne, lookup_insert_eq by discriminate. by apply frozen_uid.
Qed.

Lemma wp_apply_patch obj o desired c v : deleting = false -> frozen c -> holds_lock uid v -> journaled_key (obj_key o) v ->
  cl_objects v !! obj_key o = Some o -> owned uid o -> IsDeleting o = false -> wp (apply_patch obj o desired) any c v.
Proof.
  intros Hd Hc Hh (cur & Hl & Hj) Ho Hown Hdel. apply wp_let_core. cbv beta zeta. case_match; [by apply wp_fail|].
  do 3 (apply wp_let_lift; [done| |done]; intros ? _). case_match; [by apply wp_remember|].
  apply wp_let_lift; [done| |done]. intros ? _. apply wp_bind, wp_currentSnapshot; [done| |done]. intros _ _ _ _. apply wp_bind.
  eapply wp_write; [apply law_PatchObject|done| |done]. intros a' v' (_ & o' & ->). split_and!; [by eapply step_patch|by apply wp_remember|done].
Qed.

Lemma wp_applyResource obj c v : deleting = false -> frozen c -> holds_lock uid v -> wp (applyResource obj) any c v.
Proof.
  intros Hd Hc Hh. apply wp_bind, wp_remember; [done| |done]. intros c1 v1 Hc1 Hj Ho Hl.
  assert (holds_lock uid v1) by (unfold holds_lock; by rewrite Hl). apply wp_bind, wp_attempt.
  eapply wp_read; [apply law_GetObject|done|..]; simpl.
  - intros o [Hlo Hk]. apply wp_let_core. cbv beta zeta. case_match eqn:Ep; [by apply wp_recordConflict|]. bools. case_match; [by apply wp_fail|].
    do 3 (apply wp_let_lift; [done| |done]; intros ? _). case_match; [by apply wp_remember|].
    apply wp_apply_patch; try done; [by rewrite Hk..|by eapply ownershipProblem_owned].
  - intros e _. case_match; [by apply wp_apply_create|by apply wp_fail].
Qed.

(** ** Discovery *)

(** The objects of the installation, by their label, that the journal has to cover. *)
Definition covers (v : Cluster) (kinds : list (string * string)) (ks : list ObjectKey) : Prop :=
  forall version kind ns name o, (version, kind) ∈ kinds -> cl_objects v !! (version, kind, ns, name) = Some o ->
  index OwnerKey (GetLabels o) = uid -> (version, kind, ns, name) ∈ ks.
Definition unmoved (c : EvpnCore) (v : Cluster) : EvpnCore -> Cluster -> Prop := fun c' v' => c' = c /\ v' = v.

Lemma wp_discover_objects items acc c v : frozen c ->
  wp (mfold discover_object acc items) (fun r c' v' => unmoved c v c' v'
    /\ match r with Ok refs => res_key <$> refs = (res_key <$> acc) ++ (obj_key <$> items) | Err _ => True end) c v.
Proof.
  intros Hc. eapply wp_mono.
  - apply (wp_mfold _ (fun done b c' v' => unmoved c v c' v' /\ res_key <$> b = (res_key <$> acc) ++ (obj_key <$> done)) (fun _ => unmoved c v)); [done|..].
    + intros done o rest b c' v' _ _ [[-> ->] Hb]. apply wp_let_core. cbv beta zeta. case_match; [by apply wp_fail|].
      apply wp_ret; [done|]. split; [done|]. by rewrite !fmap_app, Hb, (assoc_L (++)).
    + split; [done|]. by rewrite app_nil_r.
  - intros [refs|e] c' v' _ _; [tauto|]. intros H. by split.
Qed.

Lemma wp_discover_kinds c v : frozen c ->
  wp (mfold discover_kind [] managedKinds) (fun r c' v' => unmoved c v c' v'
    /\ match r with Ok refs => covers v managedKinds (res_key <$> refs) /\ forall ref, ref ∈ refs -> is_Some (cl_objects v !! res_key ref) | Err _ => True end) c v.
Proof.
  intros Hc. eapply wp_mono.
  - apply (wp_mfold _ (fun done b c' v' => unmoved c v c' v' /\ covers v done (res_key <$> b) /\ forall k, k ∈ res_key <$> b -> is_Some (cl_objects v !! k))
             (fun _ => unmoved c v)); [done|..].
    + intros done [version kind] rest b c' v' _ _ [[-> ->] [Hcov Hin]]. apply wp_let_core, wp_bind.
      eapply wp_read; [apply law_ListObjects|done| |by intros; split]. intros [items next] [Hitems Hall]. cbn [fst snd] in Hall. case_match; [by apply wp_fail|].
      apply orb_false_iff in H as [Hnext _]. unfold is_empty in Hnext. bools. subst next.
      eapply wp_mono; [by apply wp_discover_objects|]. intros [refs|e] c' v' _ _ [[-> ->] Hk]; [|done]. split_and!; [done|..].
      * intros version' kind' ns name o Hd Ho Hlab. rewrite Hk. apply elem_of_app. apply elem_of_app in Hd as [Hd|Hd].
        { left. by eapply Hcov. }
        apply list_elem_of_singleton in Hd. simplify_eq. right. rewrite (frozen_uid c) in Hall by done.
        destruct (Hall eq_refl ns name o Ho Hlab) as [Hi <-]. by apply list_elem_of_fmap_2.
      * intros k. rewrite Hk. intros [?|Hi]%elem_of_app; [by apply Hin|]. apply list_elem_of_fmap in Hi as (o & -> & Ho). eauto.
    + split_and!; [done|intros ????? H; by apply not_elem_of_nil in H|intros k H; by apply not_elem_of_nil in H].
  - intros [refs|e] c' v' _ _; [|intros H; by split]. intros (Hu & Hcov & Hin). split_and!; [done..|].
    intros ref Hr. apply Hin. by apply list_elem_of_fmap_2.
Qed.

Lemma wp_discover (Q : result unit -> EvpnCore -> Cluster -> Prop) c v : frozen c ->
  (forall cur c' v', frozen c' -> live v' cur -> core_Status c' = core_Status cur -> covers v' managedKinds (res_key <$> inventory cur) ->
     Q (Ok tt) c' v') ->
  (forall e c' v', frozen c' -> Q (Err e) c' v') -> wp discover Q c v.
Proof.
  intros Hc HQ HE. apply wp_bind, wp_currentSnapshot; [done| |auto]. intros _ _ _ _. apply wp_bind. eapply wp_mono; [by apply wp_discover_kinds|].
  intros [refs|e] c' v' Hc' _ [[-> ->] H]; [|auto]. destruct H as [Hcov Hin].
  apply (wp_editInventory _ (fun l l' => l' = foldl discover_entry l refs /\ (length l' <= maxManagedResources)%nat)); [done|..|auto].
  - intros l l' [-> Hlen]. by apply edit_discover.
  - intros l l'. cbv beta zeta. case_match eqn:El; [done|]. intros [= <-]. split; [done|]. by apply Nat.ltb_ge in El.
  - intros cur c' v' l Hcf Hl Hs [Hi _] Ho _. apply (HQ cur); [done..|]. unfold covers. rewrite Ho, Hi, discover_keys.
    intros. apply add_keys_incl. right. by eapply Hcov.
Qed.

(** ** Cleanup *)

Section cleanup.
Context (desired : list json) (c : EvpnCore) (v : Cluster).

(** What stays of an entry. *)
Definition keep_entry (ref : ManagedResource) : option ManagedResource :=
  (fun o => set_conflict (ownershipProblem c o) ref) <$> cl_objects v !! res_key ref.
Lemma keep_entry_clean ref : match keep_entry ref with Some ref' => res_key ref' = res_key ref | None => cl_objects v !! res_key ref = None end.
Proof. unfold keep_entry. by destruct (cl_objects v !! res_key ref). Qed.
(** What the planning loop knows after some entries. *)
Record planned (done : list ManagedResource) (plan : CleanupPlan) : Prop := {
  pl_remaining : cp_Remaining plan = omap keep_entry done;
  pl_deletes : (obj_key <$> cp_Deletes plan) `sublist_of` (res_key <$> done);
  pl_owned o : o ∈ cp_Deletes plan -> cl_objects v !! obj_key o = Some o /\ owned uid o;
  pl_absent : desired = [] -> cp_Conflicts plan = [] -> cp_Deletes plan = [] -> forall ref, ref ∈ done -> cl_objects v !! res_key ref = None;
}.

Lemma planned_absent done plan ref : planned done plan -> cl_objects v !! res_key ref = None -> planned (done ++ [ref]) plan.
Proof.
  intros [Hr Hd Ho Ha] Habs. split; [..|done|].
  - rewrite omap_app, Hr. simpl. assert (keep_entry ref = None) as -> by (unfold keep_entry; by rewrite Habs). by rewrite app_nil_r.
  - rewrite fmap_app. by apply sublist_inserts_r.
  - intros H1 H2 H3 r [Hin|Hin%list_elem_of_singleton]%elem_of_app; subst; [by apply Ha|done].
Qed.
Lemma planned_found done plan ref o deletes conflicts : planned done plan -> cl_objects v !! res_key ref = Some o -> obj_key o = res_key ref ->
  (deletes = cp_Deletes plan /\ (conflicts <> [] \/ desired <> []) \/ deletes = cp_Deletes plan ++ [o] /\ owned uid o) ->
  planned (done ++ [ref]) {| cp_Remaining := cp_Remaining plan ++ [set_conflict (ownershipProblem c o) ref]; cp_Deletes := deletes; cp_Conflicts := conflicts |}.
Proof.
  intros [Hr Hd Ho Ha] Hl Hk Hdel. split; simpl.
  - rewrite omap_app, Hr. simpl. by assert (keep_entry ref = Some (set_conflict (ownershipProblem c o) ref)) as -> by (unfold keep_entry; by rewrite Hl).
  - rewrite !fmap_app. destruct Hdel as [[-> _]|[-> _]]; [by apply sublist_inserts_r|]. rewrite fmap_app. simpl. rewrite Hk. by apply sublist_app.
  - destruct Hdel as [[-> _]|[-> Hown]]; [done|]. intros o' [?|Hin%list_elem_of_singleton]%elem_of_app; subst; [by apply Ho|]. by rewrite Hk.
  - intros -> -> H. destruct Hdel as [[_ []]|[-> _]]; [done|done|]. by apply app_eq_nil in H as [_ ?].
Qed.

(** A plan without deletions and conflicts for an installation that goes: nothing is left. *)
Lemma planned_nothing_left cur plan cur' v' : planned (inventory cur) plan -> covers v managedKinds (res_key <$> inventory cur) ->
  desired = [] -> cp_Conflicts plan = [] -> cp_Deletes plan = [] ->
  live v' cur' -> inventory cur' = omap keep_entry (inventory cur) -> cl_objects v' = cl_objects v -> nothing_left id uid v'.
Proof.
  intros Hp Hcov H1 H2 H3 [Hl _] Hi Ho. pose proof (pl_absent _ _ Hp H1 H2 H3) as Habs. split.
  - intros c' Hc'. simplify_eq. rewrite Hi. clear -Habs. induction (inventory cur) as [|ref l IH]; [done|]. simpl.
    assert (keep_entry ref = None) as -> by (unfold keep_entry; rewrite Habs by left; done). apply IH. intros. apply Habs. by right.
  - rewrite Ho. intros version kind ns name o Hin Hlo Hlab. specialize (Hcov _ _ _ _ _ Hin Hlo Hlab).
    apply list_elem_of_fmap in Hcov as (ref & Heq & Hr). specialize (Habs ref Hr). unfold ObjectKey in *. rewrite <-Heq in Habs. congruence.
Qed.

Lemma wp_plan l : frozen c ->
  wp (mfold (cleanup_ref desired) {| cp_Remaining := []; cp_Deletes := []; cp_Conflicts := [] |} l)
     (fun r c' v' => unmoved c v c' v' /\ match r with Ok plan => planned l plan | Err _ => True end) c v.
Proof.
  intros Hc. eapply wp_mono.
  - apply (wp_mfold _ (fun done plan c' v' => unmoved c v c' v' /\ planned done plan) (fun _ => unmoved c v)); [done|..].
    + intros done ref rest plan c' v' _ _ [[-> ->] Hp]. unfold cleanup_ref. case_match; [by apply wp_fail|].
      apply wp_bind, wp_attempt. eapply wp_read; [apply law_GetObject|done|..]; simpl.
      * intros o [Ho Hk]. apply wp_let_core. cbv beta zeta. destruct (is_empty _) eqn:E; simpl; apply wp_ret; try done; (split; [done|]).
        { apply planned_found; [done..|]. destruct (existsb _ desired) eqn:Ed; [left|right]; (split; [done|]).
          - right. by intros ->.
          - by eapply ownershipProblem_owned. }
        apply planned_found; [done..|]. left. split; [done|]. left. by destruct (cp_Conflicts plan).
      * intros e He. case_match; [|by apply wp_fail]. apply wp_ret; [done|]. split; [done|]. by apply planned_absent; [|apply He].
    + split; [done|]. split; simpl; [done|done|intros o H; by apply not_elem_of_nil in H|intros _ _ _ r H; by apply not_elem_of_nil in H].
  - intros [plan|e] c' v' _ _ H; [done|by split].
Qed.

(** Each object is still the one that was planned when its turn comes. *)
Lemma wp_deletes l : frozen c -> NoDup (obj_key <$> l) ->
  (exists cur, live v cur /\ forall o, o ∈ l -> in_journal (inventory cur) (obj_key o)) ->
  (forall o, o ∈ l -> cl_objects v !! obj_key o = Some o /\ owned uid o) ->
  wp (mfold delete_object tt l) any c v.
Proof.
  intros Hc Hnd (cur & Hl & Hj) Ho. eapply wp_mono.
  - apply (wp_mfold _ (fun done _ c' v' => live v' cur
             /\ forall o, o ∈ l -> obj_key o ∉ obj_key <$> done -> cl_objects v' !! obj_key o = Some o) (fun _ _ _ => True)); [done|..|by split; [|intros; apply Ho]].
    intros done o rest [] c' v' El Hc' [Hl' Hp]. apply wp_bind, wp_currentSnapshot; [done| |done]. intros _ _ _ _.
    assert (o ∈ l) as Hol by (rewrite El; set_solver).
    assert (obj_key o ∉ obj_key <$> done) as Hod.
    { rewrite El, fmap_app, NoDup_app in Hnd. destruct Hnd as (_ & Hnd & _). intros Hi. apply (Hnd _ Hi). left. }
    assert (forall v'', live v'' cur -> (forall k, k <> obj_key o -> cl_objects v'' !! k = cl_objects v' !! k) -> live v'' cur
            /\ forall o', o' ∈ l -> obj_key o' ∉ obj_key <$> done ++ [o] -> cl_objects v'' !! obj_key o' = Some o') as Hnext.
    { intros v'' Hl'' Hsame. split; [done|]. intros o' Ho'. rewrite fmap_app, not_elem_of_app. intros [Hn1 Hn2].
      rewrite Hsame; [by apply Hp|]. intros Heq. apply Hn2. rewrite Heq. left. }
    case_match eqn:Ed; [apply wp_ret; [done|]; by apply Hnext|]. apply wp_bind, wp_attempt.
    eapply wp_write; [apply law_DeleteObject|done|..]; simpl.
    + intros [] v'' [_ Hv'']. assert (live v'' cur /\ forall k, k <> obj_key o -> cl_objects v'' !! k = cl_objects v' !! k) as [Hl2 Hs2].
      { destruct Hv'' as [->|[o' ->]]; (split; [done|]); intros k Hk; simpl; by rewrite ?lookup_delete_ne, ?lookup_insert_ne by done. }
      split_and!.
      * eapply (step_delete _ _ _ _ cur); [done|by apply Hp|by apply Hj|by apply Ho|done|done].
      * apply wp_ret; [done|]. by apply Hnext.
      * intros e. case_match; [|by apply wp_fail]. apply wp_ret; [done|]. by apply Hnext.
    + intros e. case_match; [|by apply wp_fail]. apply wp_ret; [done|]. by apply Hnext.
  - done.
Qed.
End cleanup.

Lemma inventory_replaced_eq a b : inventory_replaced a b = false -> a = b.
Proof. unfold inventory_replaced. intros [H _]%orb_false_iff. by apply status_changed_eq. Qed.
Lemma join_errors_None l : join_errors l = None -> l = [].
Proof. destruct l as [|e l]; [done|]. unfold join_errors. simpl. by destruct (foldr _ _ l). Qed.

Lemma wp_cleanup desired (Q : result bool -> EvpnCore -> Cluster -> Prop) c v : frozen c -> journal_distinct id v ->
  (forall done c' v', frozen c' -> (desired = [] -> done = true -> nothing_left id uid v') -> Q (Ok done) c' v') ->
  (forall e c' v', frozen c' -> Q (Err e) c' v') -> wp (cleanup desired) Q c v.
Proof.
  intros Hc Hnd HQ HE. apply wp_bind. eapply wp_mono.
  { apply (wp_discover (fun r c' v' => match r with Ok _ => exists cur, live v' cur /\ core_Status c' = core_Status cur
                                         /\ covers v' managedKinds (res_key <$> inventory cur) | Err _ => True end)); [done| |done].
    intros cur c' v' _ ? ? ?. by exists cur. }
  intros [[]|e] c1 v1 Hc1 Hs1 H1; [|auto]. destruct H1 as (cur & Hl & Hst & Hcov).
  assert (journal_distinct id v1) as Hnd1 by (by eapply keep_distinct).
  assert (inventory c1 = inventory cur) as Hi by (unfold inventory; by rewrite Hst).
  apply wp_let_core, wp_bind. rewrite Hi. eapply wp_mono; [by apply wp_plan|]. intros [plan|e] c2 v2 _ _ [[-> ->] Hp]; [|auto].
  apply wp_bind, (wp_editStatus _ _ (fun l l' => l = inventory cur /\ l' = omap (keep_entry c1 v1) l)); [apply inventory_replaced_eq|done|..|auto].
  - intros l l' [_ ->]. apply edit_clean, keep_entry_clean.
  - intros cur' w Hl' Hw. case_match eqn:Eb; simpl; (split; [done|]); intros st; [done|]. intros [= <-]. bools.
    split; [exact Eb|]. simpl. change (cst_ManagedResources (core_Status cur')) with (inventory cur'). rewrite (pl_remaining _ _ _ _ _ Hp). f_equal. by symmetry.
  - intros cur2 c2 v2 l Hc2 Hl2 _ [-> Hinv] Ho _. apply wp_let_lift; [done| |auto]. intros [] Hj. apply wp_bind.
    destruct (decide (cp_Deletes plan = [])) as [Hd|Hd].
    { rewrite Hd. apply wp_ret; [done|]. apply wp_ret; [done|]. apply HQ; [done|]. intros Hdes _.
      assert (cp_Conflicts plan = []) as Hcf by (apply join_errors_None; by destruct (join_errors _)).
      by apply (planned_nothing_left desired c1 v1 cur plan cur2 v2). }
    rewrite (bool_decide_eq_false_2 _ Hd). eapply wp_mono; [apply (wp_deletes _ _ (cp_Deletes plan)); [done|..]|].
    + eapply sublist_NoDup; [|apply (pl_deletes _ _ _ _ _ Hp)]. by apply Hnd1, Hl.
    + exists cur2. split; [done|]. intros o Hod. unfold in_journal. rewrite Hinv. destruct (pl_owned _ _ _ _ _ Hp _ Hod) as [Hlo _].
      apply (proj2 (clean_keys v1 _ _ (keep_entry_clean c1 v1))); [|by eexists].
      eapply elem_of_sublist; [|apply (pl_deletes _ _ _ _ _ Hp)]. by apply list_elem_of_fmap_2.
    + rewrite Ho. apply (pl_owned _ _ _ _ _ Hp).
    + intros [[]|e] c3 v3 Hc3 _ _; [|auto]. apply wp_ret; [done|]. by apply HQ.
Qed.

(** ** Reconciliation *)

Lemma wp_failed err c v : frozen c -> wp (failed err) any c v.
Proof.
  intros Hc. unfold failed. case_match; [by apply wp_ret|]. cbv zeta. apply wp_bind, wp_attempt, wp_setStatus; [done|..].
  - intros c' v' Hc' _ _. case_match; [by apply wp_ret|by apply wp_fail].
  - intros. by apply wp_fail.
Qed.
Lemma wp_or_failed {A} (m : OM A) k c v :
  wp m (fun r c v => match r with Ok a => wp (k a) any c v | Err _ => True end) c v -> wp (or_failed m k) any c v.
Proof.
  intros Hm. apply wp_bind, wp_attempt. eapply wp_mono; [done|]. intros [a|e] c' v' Hc' _ H; [done|by apply wp_failed].
Qed.
Lemma wp_status_then phase reason msg (a : Result) (Q : result Result -> EvpnCore -> Cluster -> Prop) c v : frozen c ->
  (forall c' v', Q (Ok a) c' v') -> (forall e c' v', Q (Err e) c' v') -> wp (do! setStatus phase reason msg in ret a) Q c v.
Proof. intros Hc H1 H2. apply wp_bind, wp_setStatus; [done| |auto]. intros. apply wp_ret; auto. Qed.

Lemma wp_ensureNamespace n c v : frozen c -> wp (ensureNamespace n) (fun _ c' v' => unmoved c v c' v') c v.
Proof.
  intros Hc. apply wp_bind, wp_attempt, wp_silent; [apply law_cached_GetNamespace|done|]. intros [|e]; [by apply wp_ret|].
  case_match; [by apply wp_fail|]. apply wp_bind, wp_attempt, wp_silent; [apply law_CreateNamespace|done|]. intros [|e']; [by apply wp_ret|].
  case_match; [by apply wp_ret|by apply wp_fail].
Qed.
Lemma wp_placement spec c v : frozen c -> wp (placementAvailable spec) (fun _ c' v' => unmoved c v c' v') c v.
Proof.
  intros Hc. apply wp_bind, wp_attempt, wp_silent; [apply law_GetNode|done|]. intros [node|e]; cbv beta zeta; repeat case_match;
    first [by apply wp_ret|by apply wp_fail].
Qed.
Lemma load_from_silent paths : silent view (load_from paths).
Proof.
  induction paths as [|path paths IH]; [done|]. intros w. simpl. rewrite bind_attempt. pose proof (law_ReadFile path w) as H.
  destruct (ReadFile path w) as [w' [data|e]]; simpl in *; [done|]. case_match; [|done]. by rewrite IH.
Qed.
Lemma wp_checkNodeAgentConflict c v : frozen c -> wp checkNodeAgentConflict (fun _ c' v' => unmoved c v c' v') c v.
Proof.
  intros Hc. apply wp_let_core. cbv beta zeta. case_match; [by apply wp_ret|].
  apply wp_bind, wp_silent; [apply law_ListDaemonSets|done|]. intros [agents|e]; [|done]. case_match; [by apply wp_fail|].
  apply wp_bind, wp_silent; [apply law_ListDeployments|done|]. intros [ds|e]; [|done]. case_match; [by apply wp_fail|by apply wp_ret].
Qed.
Lemma wp_verify desired raw del c v : frozen c -> wp (verifyWorkloadOwnership desired raw del) (fun _ c' v' => unmoved c v c' v') c v.
Proof.
  intros Hc. apply wp_let_core, wp_let_lift; [done| |done]. intros obj _. cbv beta zeta. repeat case_match; first [by apply wp_ret|by apply wp_fail].
Qed.
Lemma wp_workloadStatus objects c v : frozen c -> wp (workloadStatus objects) any c v.
Proof.
  intros Hc. apply wp_bind. eapply wp_mono.
  - apply (wp_mfold _ (fun _ _ c' v' => unmoved c v c' v') (fun _ => unmoved c v)); [done| |done].
    intros done obj rest acc c' v' _ _ [-> ->]. unfold workload. cbv zeta. case_match; [by apply wp_ret|]. case_match; [|case_match; [|by apply wp_ret]].
    + apply wp_bind, wp_silent; [apply law_GetDeployment|done|]. intros [d|e]; [|done]. apply wp_bind.
      eapply wp_mono; [by apply wp_verify|]. intros [[]|e] c' v' _ _ [-> ->]; [|done]. repeat case_match; by apply wp_ret.
    + apply wp_bind, wp_silent; [apply law_GetDaemonSet|done|]. intros [d|e]; [|done]. apply wp_bind.
      eapply wp_mono; [by apply wp_verify|]. intros [[]|e] c' v' _ _ [-> ->]; [|done]. by apply wp_ret.
  - intros [acc|e] c' v' Hc' _ _; [by apply wp_ret|done].
Qed.

Lemma wp_applyAll objects c v : deleting = false -> frozen c -> holds_lock uid v ->
  wp (mfold (fun _ obj => applyResource obj) tt objects) any c v.
Proof.
  intros Hd Hc Hh. eapply wp_mono; [|done].
  apply (wp_mfold _ (fun _ _ _ v' => holds_lock uid v') (fun _ _ _ => True)); [done| |done].
  intros done obj rest [] c' v' _ Hc' Hh'. eapply wp_mono; [by apply wp_applyResource|]. intros [[]|e] c1 v1 _ Hs _; [|done].
  by eapply keep_lock.
Qed.

Lemma wp_reconcile_objects objects c v : deleting = false -> frozen c -> holds_lock uid v -> journal_distinct id v ->
  wp (reconcile_objects objects) any c v.
Proof.
  intros Hd Hc Hh Hnd. apply wp_or_failed. eapply wp_mono; [by apply wp_checkNodeAgentConflict|]. intros [[]|e] c' v' _ _ [-> ->]; [|done].
  apply wp_or_failed. eapply wp_mono; [by apply (wp_cleanup _ any)|]. intros [finished|e] c1 v1 Hc1 Hs1 _; [|done].
  case_match; [by apply wp_status_then|].
  assert (holds_lock uid v1) as Hh1 by (by eapply keep_lock).
  apply wp_or_failed. eapply wp_mono; [by apply wp_applyAll|]. intros [[]|e] c2 v2 Hc2 _ _; [|done].
  apply wp_or_failed. eapply wp_mono; [by apply wp_workloadStatus|]. intros [[[phase reason] msg]|e] c3 v3 Hc3 _ _; [|done]. by apply wp_status_then.
Qed.

Lemma wp_reconcile_installation c v : deleting = false -> frozen c -> journal_distinct id v -> wp reconcile_installation any c v.
Proof.
  intros Hd Hc Hnd. apply wp_let_core. cbv zeta. apply wp_or_failed. eapply wp_mono.
  { apply (wp_claimLock (fun r _ v' => match r with Ok _ => holds_lock uid v' | Err _ => True end)); done. }
  intros [[]|e] c1 v1 Hc1 Hs1 Hh1; [|done].
  assert (journal_distinct id v1) as Hnd1 by (by eapply keep_distinct).
  apply wp_or_failed. eapply wp_mono; [by apply wp_placement|]. intros [[available msg]|e] c' v' _ _ [-> ->]; [|done].
  case_match; [by apply wp_status_then|].
  do 2 (apply wp_or_failed; eapply wp_mono; [by apply wp_ensureNamespace|]; intros [[]|e] c' v' _ _ [-> ->]; [|done]).
  apply wp_or_failed, wp_silent; [apply load_from_silent|done|]. intros [data|e]; [|done].
  apply wp_or_failed, wp_pure; [done|]. destruct (renderManifest _ _); [|done]. by apply wp_reconcile_objects.
Qed.

(** What holds once the resource is released. *)
Definition uninstalled (v : Cluster) : Prop :=
  covers v managedKinds [] /\ ~ holds_lock uid v /\ forall cur, cl_cores v !! id = Some cur -> Finalizer ∉ core_Finalizers cur.
Lemma nothing_left_covers v : nothing_left id uid v -> covers v managedKinds [].
Proof. intros [_ H] version kind ns name o Hk Ho Hl. by destruct (H _ _ _ _ _ Hk Ho). Qed.

Lemma wp_reconcile_deletion c v : deleting = true -> frozen c -> journal_distinct id v ->
  wp reconcile_deletion (fun r _ v' => contains (core_Finalizers c) Finalizer = true -> r = Ok done_result -> uninstalled v') c v.
Proof.
  intros Hd Hc Hnd. apply wp_let_core. cbv beta zeta. case_match eqn:Ef; [apply wp_ret; [done|]; intros Hf; by rewrite Hf in Ef|].
  apply wp_bind. eapply wp_mono.
  { instantiate (1 := any). case_match; [by apply wp_ret|by apply wp_setStatus]. }
  intros [[]|e] c1 v1 Hc1 Hs1 _; [|done].
  assert (journal_distinct id v1) as Hnd1 by (by eapply keep_distinct).
  apply wp_bind, wp_attempt, wp_cleanup; [done..| |].
  - intros [] c2 v2 Hc2 Hn.
    + apply wp_bind, wp_releaseLock; [done|done|by apply Hn| |done]. intros v3 Hn3 Hh3.
      apply wp_bind, wp_finalizer_remove; [done..| |done]. intros v4 Ho Hl Hfin. apply wp_ret; [done|]. intros _ _. split_and!; [..|done].
      * unfold covers. rewrite Ho. by apply nothing_left_covers.
      * unfold holds_lock. by rewrite Hl.
    + by apply wp_status_then.
  - intros e c2 v2 Hc2. apply wp_bind, wp_attempt, wp_setStatus; [done|..]; intros; by apply wp_fail.
Qed.

Lemma wp_reconcile_core c v : frozen c -> journal_distinct id v ->
  wp reconcile_core (fun r _ v' => deleting = true -> contains (core_Finalizers c) Finalizer = true -> r = Ok done_result -> uninstalled v') c v.
Proof.
  intros Hc Hnd. apply wp_let_core. rewrite (frozen_deleting c) by done. destruct deleting eqn:Hd.
  { eapply wp_mono; [by apply wp_reconcile_deletion|]. auto. }
  eapply (wp_mono _ _ _ any); [|done]. case_match; [by apply wp_status_then|]. destruct (validateSpec _); [|by apply wp_status_then].
  apply wp_bind. eapply (wp_mono _ _ _ any); [case_match; [by apply wp_ret|by apply wp_setStatus]|].
  intros [[]|e] c1 v1 Hc1 Hs1 _; [|done]. apply wp_reconcile_installation; [done..|]. by eapply keep_distinct.
Qed.
End safety.

(** ** What a reconciliation does to the cluster *)

Section theorems.
Context {KT : KubeTypes} {KV : KubeValidation} {UL : UnstructuredLib} {JJ : Json json} {PR : PodRest} {ML : ManifestLib}.
Context {W : Type} {KU : Kube W} {KL : KubeLib W} {KS : KubeStore W} {AL : AnnotationLaws}.
Context (ns name : string) (w w0 : W) (core : EvpnCore).
(** The manager's cache holds the resource. *)
Context (Hcached : cached_GetCore ns name w = (w0, Ok core)).
Notation uid := (core_UID core).

Lemma Reconcile_cached : view w0 = view w /\ id_of core = (ns, name) /\ frozen core core
  /\ Reconcile ns name w = (let '((_, w'), r) := reconcile_core (core, w0) in (w', r)).
Proof.
  pose proof (law_cached_GetCore ns name w) as Hv. rewrite Hcached in Hv. split_and!; [done|by eapply law_cached_id|by destruct core|].
  unfold Reconcile. rewrite bind_attempt, Hcached. done.
Qed.

Lemma Reconcile_run : journal_distinct (ns, name) (view w) ->
  steps (ns, name) uid (core_Deleting core) (view w) (view (Reconcile ns name w).1)
  /\ (core_Deleting core = true -> contains (core_Finalizers core) Finalizer = true -> (Reconcile ns name w).2 = Ok done_result ->
      uninstalled core (view (Reconcile ns name w).1)).
Proof.
  destruct Reconcile_cached as (Hv & Hid & Hf & ->). rewrite <-Hid, <-Hv. intros Hnd.
  destruct (wp_reconcile_core core core (view w0) Hf Hnd w0 eq_refl) as (_ & H1 & H2).
  by destruct (reconcile_core (core, w0)) as [[c' w'] r].
Qed.



(** C12: no child is stranded: if every object that names the installation as its owner has
    an entry in the journal, the same holds after a reconciliation that stopped anywhere. *)
Theorem operator_journal_complete : journal_distinct (ns, name) (view w) -> journal_complete (ns, name) uid (view w) ->
  journal_complete (ns, name) uid (view (Reconcile ns name w).1).
Proof. intros [Hs _]%Reconcile_run. eapply steps_keep; [apply step_complete|exact Hs]. Qed.

(** C14: the journal is a map: its entries name distinct resources, and a reconciliation
    keeps it so. *)
Theorem operator_journal_typed : journal_distinct (ns, name) (view w) -> journal_distinct (ns, name) (view (Reconcile ns name w).1).
Proof. intros Hd. eapply steps_keep; [apply step_distinct|by apply Reconcile_run|done]. Qed.

(** The installation is a singleton: while another one holds the lock, a reconciliation
    leaves the lock alone and adds no object; what it changes it owned before. *)
Theorem operator_locked_out : journal_distinct (ns, name) (view w) -> locked_out uid (view w) ->
  cl_lease (view (Reconcile ns name w).1) = cl_lease (view w) /\ nothing_added uid (view w) (view (Reconcile ns name w).1).
Proof. intros [Hs _]%Reconcile_run. by eapply steps_locked_out. Qed.

End theorems.
