(* ===== verification/SimWorld.v ===== *)
(** * A concrete speaker and world

    A BGP library over plain strings that satisfies [BgpLaws], a speaker whose RIB
    is a list, and a world that holds that RIB next to the file system of [Sim].
    The theorems hold for every library, speaker and world; this one lets the
    witnesses run them. *)

From S2P Require Import Prelude GoStd Journal Sim Type2 Reconciler GobgpAdapter ExportRecovery Exporter.

(** ** A packet library *)

#[export] Instance sim_bgp_types : BgpTypes := { RD := string; RT := string }.

Definition sim_parse (s : string) : option string := if bool_decide (s = ""%string) then None else Some s.
Definition sim_text (n : EVPNNLRI) : string :=
  match RouteTypeData n with
  | None => itoa (RouteType n)
  | Some m => Join [default ""%string (m_RD m); HardwareAddr_String (m_MAC m);
                    from_option Addr_String ""%string (m_IP m); Join (itoa <$> m_Labels m) ","] " "
  end.
Definition sim_comm (c : ExtComm) : string :=
  match c with
  | ECRouteTarget rt => "rt:" +:+ rt
  | ECEncap t => "encap:" +:+ itoa t
  | ECMacMobility s b => "mobility:" +:+ itoa s +:+ (if b then "!" else "")
  | ECOther b => b
  end%string.
Definition sim_attr (a : PathAttr) : string :=
  match a with
  | AttrOrigin v => "origin:" +:+ itoa v
  | AttrNextHop ip => "nexthop:" +:+ Addr_String ip
  | AttrMpReach _ _ nh _ _ => "mpreach:" +:+ Addr_String nh
  | AttrExtComm cs => "comms:" +:+ Join (sim_comm <$> cs) ","
  | AttrTunnelEncap => "tunnel"
  | AttrOther t => "attr:" +:+ itoa t
  end%string.

#[export] Instance sim_bgp : BgpLib := {
  ParseRouteDistinguisher := sim_parse;
  RD_String s := s;
  ParseRouteTarget := sim_parse;
  RT_String s := s;
  NewEVPNMacIPAdvertisementRoute rd mac ip labels :=
    Ok {| RouteType := EVPN_ROUTE_TYPE_MAC_IP_ADVERTISEMENT;
          RouteTypeData := Some {| m_RD := Some rd; m_ESI := replicate 10 0; m_ETag := 0; m_MacLength := 48;
            m_MAC := default [] (ParseMAC mac); m_IPLength := 32; m_IP := Some ip; m_Labels := labels |} |};
  NewPathAttributeNextHop ip := Ok (AttrNextHop ip);
  NLRI_String := sim_text;
  NLRI_Serialize n := Ok (sim_text n);
  EC_Serialize c := Ok (sim_comm c);
  Attr_Serialize a := Ok (sim_attr a);
}.

#[export] Instance sim_bgp_laws : BgpLaws.
Proof. intros n1 n2 b [= <-] [= E]. done. Qed.

(** ** The world *)

Record simw := { sw_fs : simfs; sw_rib : list Type2RIBPath; sw_uuid : Z }.

Definition sim_world : simw := {| sw_fs := sim_empty; sw_rib := []; sw_uuid := 1 |}.

Definition sw_set_fs (f : simfs) (w : simw) : simw := {| sw_fs := f; sw_rib := sw_rib w; sw_uuid := sw_uuid w |}.
#[export] Instance sim_world_posix : Posix simw := posix_over sw_fs sw_set_fs.

(** The journal's file operations leave the RIB alone. *)
Section rib.
Context (rib : list Type2RIBPath).
Let I (w : simw) : Prop := sw_rib w = rib.

Lemma on_fs_rib {A} (m : M simfs A) : preserves I (over sw_fs sw_set_fs m).
Proof. intros w Hw. unfold over. by destruct (m (sw_fs w)). Qed.
#[local] Instance rib_frame : PosixFrame I.
Proof. split; intros; apply on_fs_rib. Qed.

Lemma Begin_rib {P} {JP : Json P} op (p : P) j w : sw_rib w = rib -> sw_rib (Begin op p (j, w)).1.2 = rib.
Proof. intros Hw. exact (Begin_frame I op p (j, w) Hw). Qed.
Lemma Commit_rib {P} {JP : Json P} seq (p : P) j w : sw_rib w = rib -> sw_rib (Commit seq p (j, w)).1.2 = rib.
Proof. intros Hw. exact (Commit_frame I seq p (j, w) Hw). Qed.
End rib.

#[export] Instance sim_ctx : Ctx simw := fun _ => None.

(** The speaker: a complete snapshot, AddPath with a fresh identifier, DeletePath by
    identifier. *)
Definition sim_source : Type2RIBSource simw := {| source_Snapshot w := (w, Ok (sw_rib w)) |}.

Definition sim_add (route : Type2Route) : M simw string :=
  fun w => let id := ("u" +:+ itoa (sw_uuid w))%string in
    ({| sw_fs := sw_fs w;
        sw_rib := sw_rib w ++ [{| p_PathUUID := id; p_Local := true; p_NLRI := Some (t_NLRI route);
                                  p_PathAttributes := t_PathAttributes route |}];
        sw_uuid := sw_uuid w + 1 |}, Ok id).
Definition sim_delete (o : OwnedType2Route) : M simw unit :=
  fun w => ({| sw_fs := sw_fs w;
               sw_rib := List.filter (fun p => negb (bool_decide (p_PathUUID p = o_PathUUID o))) (sw_rib w);
               sw_uuid := sw_uuid w |}, Ok tt).
Definition sim_applier : Type2RouteApplier simw := {| applier_Add := sim_add; applier_Delete := sim_delete |}.

Definition sim_speaker : VerifiedSpeaker simw :=
  {| speaker_Check := ret tt; speaker_Incarnation := ret "boot-1"%string |}.
Definition sim_gate : ReadinessGate simw := ret tt.

(** The same speaker behind its gRPC API: one response per path of the RIB. *)
#[export] Instance sim_api_types : ApiTypes := { ApiNlri := EVPNNLRI; ApiAttrs := list PathAttr }.
Definition sim_path (id : string) (external : bool) (n : option EVPNNLRI) (attrs : list PathAttr) : ApiPath :=
  {| ap_Uuid := id; ap_Family := Some (25, 70); ap_NeighborIp := ""; ap_SourceId := ""; ap_SourceAsn := 0;
     ap_Identifier := 0; ap_LocalIdentifier := 0; ap_IsFromExternal := external; ap_IsWithdraw := false;
     ap_Best := true; ap_Stale := false; ap_Filtered := false; ap_IsNexthopInvalid := false;
     ap_Nlri := n; ap_NlriBinary := ""; ap_Pattrs := []; ap_Attrs := attrs |}.
#[export] Instance sim_api_util : ApiUtil := {
  GetNativeNlri p := Ok (ap_Nlri p);
  GetNativePathAttributes p := Ok (ap_Attrs p);
  NewPath n attrs := Ok (sim_path "" false (Some n) attrs);
}.

Definition sim_api_path (p : Type2RIBPath) : ApiPath :=
  sim_path (p_PathUUID p) (negb (p_Local p)) (p_NLRI p) (p_PathAttributes p).
Definition sim_client : GoBgpServiceClient simw :=
  {| client_GetBgp := ret (Some {| g_Asn := 65000; g_RouterId := "192.0.2.1"; g_Families := [1] |});
     client_ListPath w :=
       (w, Ok (Some {| st_responses := (fun p => Some (Some [Some (sim_api_path p)])) <$> sw_rib w;
                       st_end := None |}));
     client_AddPath p w :=
       let id := ("u" +:+ itoa (sw_uuid w))%string in
       ({| sw_fs := sw_fs w;
           sw_rib := sw_rib w ++ [{| p_PathUUID := id; p_Local := true; p_NLRI := ap_Nlri p;
                                     p_PathAttributes := ap_Attrs p |}];
           sw_uuid := sw_uuid w + 1 |}, Ok id);
     client_DeletePath id w :=
       ({| sw_fs := sw_fs w;
           sw_rib := List.filter (fun p => negb (bool_decide (p_PathUUID p = id))) (sw_rib w);
           sw_uuid := sw_uuid w |}, Ok tt) |}.
Definition sim_adapter : GoBGPType2Adapter simw := {| a_Client := Some sim_client; a_Gate := Some sim_gate |}.

(** A gate that stops being ready once nine routes were advertised. *)
Definition sim_guard : ReadinessGate simw :=
  fun w => (w, if sw_uuid w <? 10 then Ok tt else Err (Errorf "not ready")).

(** Host and port around the only colon, and one port. *)
#[export] Instance sim_host_port : HostPort := {
  SplitHostPort s := match map str (split (Ascii.ascii_of_nat 58) (chars s)) with [h; p] => Some (h, p) | _ => None end;
  ParsePort p := if bool_decide (p = "50051"%string) then Some 50051 else None;
}.

(** ** Codecs for the exporter's records *)

#[export] Instance LocalEndpoint_codec : Codec LocalEndpoint :=
  via_codec (fun e => ((NetworkID e, EndpointID e, Incarnation e, MACAddress e, IPAddresses e, VNI e),
                            (RouteDistinguisher e, RouteTargets e, LocalVTEP e, NodeName e, Chassis e,
                             Advertise e, MACOnly e)))
    (fun '((a, b, c, d, e, f), (g, h, i, j, k, l, m)) =>
       {| NetworkID := a; EndpointID := b; Incarnation := c; MACAddress := d; IPAddresses := e; VNI := f;
          RouteDistinguisher := g; RouteTargets := h; LocalVTEP := i; NodeName := j; Chassis := k;
          Advertise := l; MACOnly := m |}) ltac:(by intros []).
#[export] Instance OwnedType2Route_codec : Codec OwnedType2Route :=
  via_codec (fun o => (o_Endpoint o, o_PathUUID o))
    (fun '(a, b) => {| o_Endpoint := a; o_PathUUID := b |}) ltac:(by intros []).
#[export] Instance exportReceipt_codec : Codec exportReceipt :=
  via_codec (fun r => (er_Owned r, er_NLRI r, er_Attributes r, er_Incarnation r))
    (fun '(a, b, c, d) => {| er_Owned := a; er_NLRI := b; er_Attributes := c; er_Incarnation := d |})
    ltac:(by intros []).
#[export] Instance exportRecoveryState_codec : Codec exportRecoveryState :=
  via_codec (fun s => (es_Version s, es_Incarnation s, es_Receipts s))
    (fun '(a, b, c) => {| es_Version := a; es_Incarnation := b; es_Receipts := c |}) ltac:(by intros []).
#[export] Instance exportIntent_codec : Codec exportIntent :=
  via_codec (fun i => (ei_Incarnation i, ei_Route i))
    (fun '(a, b) => {| ei_Incarnation := a; ei_Route := b |}) ltac:(by intros []).

(** ** Endpoints *)

Definition sim_endpoint (id mac ip : string) : LocalEndpoint :=
  {| NetworkID := "net"; EndpointID := id; Incarnation := "1"; MACAddress := mac; IPAddresses := [ip];
     VNI := 100; RouteDistinguisher := "65000:1"; RouteTargets := ["65000:100"; "65000:200"];
     LocalVTEP := "192.0.2.1"; NodeName := "node"; Chassis := "chassis"; Advertise := true; MACOnly := false |}.
Definition ep_a : LocalEndpoint := sim_endpoint "a" "0a:00:00:00:00:01" "10.0.0.1".
Definition ep_b : LocalEndpoint := sim_endpoint "b" "0a:00:00:00:00:02" "10.0.0.2/24".


Definition zero_route : Type2Route :=
  {| t_Endpoint := ep_a; t_Action := RouteAdvertise;
     t_NLRI := {| RouteType := 0; RouteTypeData := None |}; t_PathAttributes := []; t_operation := None |}.

Example sim_build : is_ok (BuildType2Route ep_a) && is_ok (BuildType2Route ep_b) = true.
Proof. vm_compute. reflexivity. Qed.
