(* ===== verification/SimRemote.v ===== *)
(** * A concrete RIB of remote routes

    Two routes of one remote endpoint, one with and one without its address, a
    speaker that lists them, and the codecs of the importer's records. *)

From S2P Require Import Prelude GoStd Journal Sim Type2 Reconciler GobgpAdapter ExportRecovery.
From S2P Require Import Exporter RemoteType2 SimWorld.

#[export] Instance sim_remote_lib : RemoteLib := {
  TunnelType_String t := if t =? 8 then "vxlan"%string else itoa t;
  ESI_Serialize b := Ok b;
}.

#[export] Instance sim_sha256_laws : Sha256Laws.
Proof. intros s. discriminate. Defined.

Lemma sim_sha256_inj a b : sha256_hex a = sha256_hex b -> a = b.
Proof. by intros [= ->]. Qed.

(** ** Codecs *)

#[export] Instance RemotePathIdentity_codec : Codec RemotePathIdentity :=
  via_codec (fun i => (rp_Key i, rp_NeighborIP i, rp_SourceID i, rp_SourceASN i, rp_Identifier i, rp_LocalIdentifier i))
    (fun '(a, b, c, d, e, f) => {| rp_Key := a; rp_NeighborIP := b; rp_SourceID := c; rp_SourceASN := d;
                                   rp_Identifier := e; rp_LocalIdentifier := f |}) ltac:(by intros []).
#[export] Instance Classification_codec : Codec Classification :=
  via_codec (fun c => match c with CWithdrawn => None | CLocal => Some false | CRemote => Some true end)
    (fun o => match o with None => CWithdrawn | Some false => CLocal | Some true => CRemote end) ltac:(by intros []).
#[export] Instance DecodedRemoteType2_codec : Codec DecodedRemoteType2 :=
  via_codec (fun d => ((d_Source d, d_Classification d, d_RouteType d, d_RD d, d_EthernetTag d, d_ESI d),
                       (d_MAC d, d_IP d, d_Labels d, d_RouteTargets d, d_Encapsulation d, d_NextHop d),
                       (d_Best d, d_Stale d, d_Filtered d, d_NexthopInvalid d, d_AttributeKey d)))
    (fun '((a, b, c, d, e, f), (g, h, i, j, k, l), (m, n, o, p, q)) =>
       {| d_Source := a; d_Classification := b; d_RouteType := c; d_RD := d; d_EthernetTag := e; d_ESI := f;
          d_MAC := g; d_IP := h; d_Labels := i; d_RouteTargets := j; d_Encapsulation := k; d_NextHop := l;
          d_Best := m; d_Stale := n; d_Filtered := o; d_NexthopInvalid := p; d_AttributeKey := q |})
    ltac:(by intros []).
#[export] Instance ValidatedRemoteRoute_codec : Codec ValidatedRemoteRoute :=
  via_codec (fun v => (v_NetworkID v, v_VNI v, v_Route v))
    (fun '(a, b, c) => {| v_NetworkID := a; v_VNI := b; v_Route := c |}) ltac:(by intros []).
#[export] Instance DesiredRemoteEndpoint_codec : Codec DesiredRemoteEndpoint :=
  via_codec (fun e => (de_Key e, de_NetworkID e, de_VNI e, de_MAC e, de_IP e, de_RemoteVTEP e, de_Validated e, de_Routes e))
    (fun '(a, b, c, d, e, f, g, h) =>
       {| de_Key := a; de_NetworkID := b; de_VNI := c; de_MAC := d; de_IP := e; de_RemoteVTEP := f;
          de_Validated := g; de_Routes := h |}) ltac:(by intros []).
#[export] Instance RemoteImportIssue_codec : Codec RemoteImportIssue :=
  via_codec (fun i => (ii_PathKey i, ii_Reason i)) (fun '(a, b) => {| ii_PathKey := a; ii_Reason := b |})
    ltac:(by intros []).
#[export] Instance RemoteImportSnapshot_codec : Codec RemoteImportSnapshot :=
  via_codec (fun s => (is_Authoritative s, is_Generation s, is_Endpoints s, is_Issues s))
    (fun '(a, b, c, d) => {| is_Authoritative := a; is_Generation := b; is_Endpoints := c; is_Issues := d |})
    ltac:(by intros []).

(** Digests of identities do not collide. *)
Lemma sim_remoteHash_inj (a b : list string) : remoteHash a = remoteHash b -> a = b.
Proof.
  intros H%sim_sha256_inj. assert (put a = put b) as E by exact (f_equal (fun s => match s with String _ s => s | _ => s end) H).
  pose proof (get_put a EmptyString) as Ha. rewrite E, get_put in Ha. congruence.
Qed.

Lemma sim_collision_free c paths : collision_free c paths.
Proof. intros v v' _ _. apply sim_remoteHash_inj. Qed.

(** ** Routes *)

Definition sim_remote_nlri (ip : option Addr) : EVPNNLRI :=
  {| RouteType := EVPN_ROUTE_TYPE_MAC_IP_ADVERTISEMENT;
     RouteTypeData := Some {| m_RD := Some "65000:1"%string; m_ESI := replicate 10 0; m_ETag := 0; m_MacLength := 48;
       m_MAC := [10; 0; 0; 0; 0; 9]; m_IPLength := if ip then 32 else 0; m_IP := ip; m_Labels := [100] |} |}.
Definition sim_remote_path (ip : option Addr) : ApiPath :=
  {| ap_Uuid := ""; ap_Family := Some (25, 70); ap_NeighborIp := "192.0.2.254"; ap_SourceId := "192.0.2.254";
     ap_SourceAsn := 65000; ap_Identifier := 0; ap_LocalIdentifier := 0; ap_IsFromExternal := true;
     ap_IsWithdraw := false; ap_Best := true; ap_Stale := false; ap_Filtered := false; ap_IsNexthopInvalid := false;
     ap_Nlri := Some (sim_remote_nlri ip); ap_NlriBinary := ""; ap_Pattrs := [Some (Some 1%nat); Some None; Some None];
     ap_Attrs := [AttrMpReach 25 70 (Addr4 192 0 2 7) false [Some (sim_remote_nlri ip)]; AttrOrigin 0;
                  AttrExtComm [ECRouteTarget "65000:100"%string; ECEncap 8]] |}.
Definition sim_remote_rib : list ApiPath := [sim_remote_path None; sim_remote_path (Some (Addr4 10 0 0 9))].

Definition sim_import_config : RemoteImportConfig :=
  {| ri_LocalVTEP := "192.0.2.1";
     ri_Networks := [{| rn_NetworkID := "net"; rn_VNI := 100; rn_ImportRouteTargets := ["65000:100"];
                        rn_AllowedVTEPs := ["192.0.2.7"] |}] |}.

(** A speaker that lists one path per response. *)
Definition sim_remote_source (rib : list ApiPath) : GoBGPRemoteRIBSource simw :=
  {| g_Client := Some (ret (Some {| st_responses := (fun p => Some (Some [Some p])) <$> rib; st_end := None |}));
     g_Gate := Some sim_gate |}.

Example sim_remote_observed :
  match observe sim_import_config [] sim_remote_rib [] with
  | (_, Ok n) => (fun e => (de_MAC e, de_IP e, de_RemoteVTEP e, length (de_Routes e))) <$> is_Endpoints n
  | _ => []
  end = [("0a:00:00:00:00:09"%string, "10.0.0.9"%string, "192.0.2.7"%string, 2%nat)].
Proof. vm_compute. reflexivity. Qed.
