(* ===== verification/SimOvsdb.v ===== *)
(** * A concrete OVSDB

    One world that holds an Open_vSwitch and an OVN northbound database, with
    clients over both: a transaction runs its operations in order on a copy and
    is abandoned when a [wait] does not hold, as [OvsdbWait] asks.  It lets the
    witnesses of the attachment and endpoint properties run. *)

From S2P Require Import Prelude GoStd Attachment OvsdbStore Endpoint.

Record simdb := {
  db_bridges : list Bridge;
  db_ifaces : list Interface;
  db_ports : list Port;
  db_switches : list LogicalSwitch;
  db_lsps : list LogicalSwitchPort;
  db_next : Z;
}.

Definition set_ovs (b : list Bridge) (i : list Interface) (p : list Port) (w : simdb) : simdb :=
  {| db_bridges := b; db_ifaces := i; db_ports := p; db_switches := db_switches w; db_lsps := db_lsps w;
     db_next := db_next w |}.
Definition set_nb (s : list LogicalSwitch) (l : list LogicalSwitchPort) (w : simdb) : simdb :=
  {| db_bridges := db_bridges w; db_ifaces := db_ifaces w; db_ports := db_ports w; db_switches := s;
     db_lsps := l; db_next := db_next w |}.
Definition is_uuid (u v : string) : bool := bool_decide (u = v).
Definition without (u : string) (l : list string) : list string := List.filter (fun v => negb (is_uuid u v)) l.

Definition sim_newuuid : M simdb string := fun w =>
  ({| db_bridges := db_bridges w; db_ifaces := db_ifaces w; db_ports := db_ports w;
      db_switches := db_switches w; db_lsps := db_lsps w; db_next := db_next w + 1 |}, Ok (itoa (db_next w))).

(** The [external_ids] of the interface with a UUID. *)
Definition sim_ids (w : simdb) (uuid : string) : option (gmap string string) :=
  i ← List.find (fun i => is_uuid uuid (if_UUID i)) (db_ifaces w); if_ExternalIDs i.

(** One operation of a transaction; [None] abandons it. *)
Definition exec (op : Request) (w : simdb) : option simdb :=
  match op with
  | CreateIface i => Some (set_ovs (db_bridges w) (db_ifaces w ++ [i]) (db_ports w) w)
  | CreatePortRow p => Some (set_ovs (db_bridges w) (db_ifaces w) (db_ports w ++ [p]) w)
  | UpdateIface u i =>
      Some (set_ovs (db_bridges w) ((fun j => if is_uuid u (if_UUID j) then i else j) <$> db_ifaces w) (db_ports w) w)
  | UpdatePortRow u p =>
      Some (set_ovs (db_bridges w) (db_ifaces w) ((fun q => if is_uuid u (po_UUID q) then p else q) <$> db_ports w) w)
  | DeleteIface u expected =>
      Some (set_ovs (db_bridges w) (List.filter (fun i => negb (is_uuid u (if_UUID i) &&
              match expected with None => true | Some m => bool_decide (if_ExternalIDs i = Some m) end)) (db_ifaces w))
              (db_ports w) w)
  | DeletePortRow u =>
      Some (set_ovs (db_bridges w) (db_ifaces w) (List.filter (fun p => negb (is_uuid u (po_UUID p))) (db_ports w)) w)
  | MutateBridgePorts ins u ps =>
      Some (set_ovs ((fun b => if is_uuid u (br_UUID b)
                               then {| br_UUID := br_UUID b; br_Name := br_Name b;
                                       br_Ports := if ins then br_Ports b ++ ps
                                                   else foldr without (br_Ports b) ps |}
                               else b) <$> db_bridges w) (db_ifaces w) (db_ports w) w)
  | WaitIface u expected => if bool_decide (sim_ids w u = Some expected) then Some w else None
  end.
Fixpoint exec_all (ops : list Request) (w : simdb) : option simdb :=
  match ops with [] => Some w | op :: ops => w' ← exec op w; exec_all ops w' end.

Definition done_result : OperationResult := {| or_Error := ""; or_Details := ""; or_Count := 1 |}.
Definition timed_out : OperationResult := {| or_Error := "timed out"; or_Details := ""; or_Count := 0 |}.

Definition sim_ovs : Client simdb Request := {|
  cl_Bridges w := (w, Ok (db_bridges w));
  cl_Interfaces w := (w, Ok (db_ifaces w));
  cl_Ports w := (w, Ok (db_ports w));
  cl_build r := Ok [r];
  cl_Transact ops w := match exec_all ops w with
                       | Some w' => (w', Ok (replicate (length ops) done_result))
                       | None => (w, Ok [timed_out])
                       end;
  cl_NewUUID := sim_newuuid;
|}.

#[export] Instance sim_ovs_wait : OvsdbWait sim_ovs id sim_ids.
Proof.
  split; [done|]. intros w uuid expected ops rest w' r [= <-] E Hne. cbn in E.
  rewrite bool_decide_eq_false_2 in E by done. simplify_eq/=. split; [done|].
  intros results [= <-]. done.
Qed.

(** The northbound side. *)
Definition nb_exec (w : simdb) (op : NbRequest) : simdb :=
  match op with
  | CreateLSP l => set_nb (db_switches w) (db_lsps w ++ [l]) w
  | UpdateLSP u a ids =>
      set_nb (db_switches w) ((fun l => if is_uuid u (lsp_UUID l)
        then {| lsp_UUID := lsp_UUID l; lsp_Name := lsp_Name l; lsp_Addresses := a; lsp_ExternalIDs := ids |}
        else l) <$> db_lsps w) w
  | DeleteLSP u => set_nb (db_switches w) (List.filter (fun l => negb (is_uuid u (lsp_UUID l))) (db_lsps w)) w
  | MutateSwitchPorts ins s ps =>
      set_nb ((fun t => if is_uuid (ls_UUID s) (ls_UUID t)
        then {| ls_UUID := ls_UUID t; ls_Name := ls_Name t;
                ls_Ports := if ins then ls_Ports t ++ ps else foldr without (ls_Ports t) ps |}
        else t) <$> db_switches w) (db_lsps w) w
  end.
Definition sim_nb : NbClient simdb NbRequest := {|
  nb_Switches w := (w, Ok (db_switches w));
  nb_Ports w := (w, Ok (db_lsps w));
  nb_build r := Ok [r];
  nb_Transact ops w := (foldl nb_exec w ops, Ok (replicate (length ops) done_result));
  nb_NewUUID := sim_newuuid;
|}.

#[export] Instance simdb_ctx : Ctx simdb := fun _ => None.

(** ** An endpoint *)

Definition sim_spec : EndpointSpec :=
  {| sp_ID := "net|att|pod"; sp_NetworkID := "net"; sp_AttachmentID := "att"; sp_Incarnation := "1";
     sp_Workload := {| wl_Kind := "Pod"; wl_UID := "pod"; wl_Name := "p"; wl_Namespace := "ns"; wl_NodeName := "node" |};
     sp_LogicalSwitch := "ls"; sp_LogicalSwitchPort := "lsp"; sp_OVSInterfaceName := "veth0";
     sp_MACAddress := "0a:00:00:00:00:01"; sp_IPAddresses := ["10.0.0.1"%string] |}.
Definition sim_identity : Identity := attachmentIdentityFromSpec sim_spec.
Definition sim_attachment : AttachmentSpec :=
  {| as_EndpointID := sp_ID sim_spec; as_LogicalSwitchPort := "lsp"; as_OVSInterfaceName := "veth0";
     as_MACAddress := sp_MACAddress sim_spec |}.
Definition sim_manager : Manager simdb :=
  {| m_ovn := libovsdb_ovn (Some sim_nb); m_attach := Some (Some (ovs_attachments (libovsdb_store sim_ovs)));
     m_allowAttach := true |}.

Definition db_empty : simdb :=
  {| db_bridges := [{| br_UUID := "b1"; br_Name := "br-int"; br_Ports := [] |}]; db_ifaces := []; db_ports := [];
     db_switches := [{| ls_UUID := "s1"; ls_Name := "ls"; ls_Ports := [] |}]; db_lsps := []; db_next := 1 |}.

(** The databases after the endpoint was ensured. *)
Definition db_ensured : simdb := (EnsureEndpoint sim_manager sim_spec db_empty).1.

Example sim_ensure :
  length (db_ifaces db_ensured) = 1%nat /\ length (db_lsps db_ensured) = 1%nat.
Proof. split; vm_compute; reflexivity. Qed.
