(* ===== verification/SimNetlink.v ===== *)
(** * A concrete kernel

    A bridge and a VXLAN device, a neighbour table that remembers whether a write
    followed a listing of its table, and the file system of [Sim] beside it. *)

From S2P Require Import Prelude GoStd Journal Sim Type2 Reconciler GobgpAdapter ExportRecovery.
From S2P Require Import Exporter RemoteType2 SimWorld SimRemote Netlink NetlinkSafety NetlinkRecovery.

(** [nw_listed] is the table of the last kernel call, if it was a listing; [nw_blind]
    says that some write did not follow a listing of its table. *)
Record netw := {
  nw_fs : simfs;
  nw_neighs : list Neigh;
  nw_listed : option (Z * Z);
  nw_blind : bool;
}.

Definition nw_set_fs (f : simfs) (w : netw) : netw :=
  {| nw_fs := f; nw_neighs := nw_neighs w; nw_listed := nw_listed w; nw_blind := nw_blind w |}.
#[export] Instance netw_posix : Posix netw := posix_over nw_fs nw_set_fs.

Definition sim_link (name : string) (index : Z) (vxlan : option Vxlan) : Link :=
  {| l_Name := name; l_Index := index; l_Type := if vxlan then "vxlan" else "bridge";
     l_MasterIndex := if vxlan then 4 else 0; l_HardwareAddr := [2; 0; 0; 0; 0; index]; l_Alias := ""; l_Vxlan := vxlan |}.
Definition sim_links : list Link :=
  [sim_link "br0" 4 None; sim_link "vx0" 5 (Some {| vx_VxlanId := 100; vx_SrcAddr := Some (Addr4 192 0 2 1); vx_Port := 4789 |})].

(** The kernel types the neighbours it lists. *)
Definition typed (n : Neigh) : Neigh :=
  if (ng_Type n =? 0) && negb (ng_Family n =? AF_BRIDGE) then
    {| ng_LinkIndex := ng_LinkIndex n; ng_Family := ng_Family n; ng_State := ng_State n; ng_Flags := ng_Flags n;
       ng_FlagsExt := ng_FlagsExt n; ng_Type := RTN_UNICAST; ng_IP := ng_IP n; ng_HardwareAddr := ng_HardwareAddr n;
       ng_Vlan := ng_Vlan n; ng_VNI := ng_VNI n; ng_MasterIndex := ng_MasterIndex n |}
  else n.
Definition in_table (i f : Z) (n : Neigh) : bool := (ng_LinkIndex n =? i) && (ng_Family n =? f).
Definition written (neighs : list Neigh) (n : Neigh) (w : netw) : netw :=
  {| nw_fs := nw_fs w; nw_neighs := neighs; nw_listed := None;
     nw_blind := nw_blind w || negb (bool_decide (nw_listed w = Some (ng_LinkIndex n, ng_Family n))) |}.

#[export] Instance sim_kernel : ownedKernel netw := {
  LinkByName name w := (w, of_option (Errno 19) (List.find (fun l => bool_decide (l_Name l = name)) sim_links));
  NeighList i f w := ({| nw_fs := nw_fs w; nw_neighs := nw_neighs w; nw_listed := Some (i, f); nw_blind := nw_blind w |},
                      Ok (typed <$> List.filter (in_table i f) (nw_neighs w)));
  NeighAdd n w := (written (nw_neighs w ++ [n]) n w, Ok tt);
  NeighDel n w := (written (List.filter (fun m => negb (sameKernelSlot (kernelEntry m) (kernelEntry n))) (nw_neighs w)) n w, Ok tt);
  KernelClose w := (w, Ok tt);
}.
#[export] Instance sim_subscription : LinkSubscription netw := {
  recv_updates w := (w, ([], false));
  subscription_lost _ := false;
}.
#[export] Instance netw_ctx : Ctx netw := fun _ => None.

#[export] Instance sim_typed : TypedKernel (W := netw).
Proof.
  intros i f w w' entries n [= _ <-] Hn Hf. apply list_elem_of_fmap in Hn as (m & -> & _). unfold typed in *.
  destruct (ng_Type m =? 0) eqn:E, (ng_Family m =? AF_BRIDGE) eqn:E2; simpl in *; first [done|lia].
Qed.

(** Only kernel writes can be blind. *)
Definition not_blind (w : netw) : Prop := nw_blind w = false.
#[export] Instance not_blind_frame : KernelFrame not_blind.
Proof.
  assert (forall A (m : M simfs A), preserves not_blind (over nw_fs nw_set_fs m)) as H
    by (intros A m w Hw; unfold over; by destruct (m (nw_fs w))).
  split; [split; intros; apply H| | | |]; intros; try (intros w Hw; exact Hw); assumption.
Qed.

(** ** Codecs *)

#[export] Instance RemoteNetlinkNetwork_codec : Codec RemoteNetlinkNetwork :=
  via_codec (fun n => (nn_NetworkID n, nn_LogicalSwitch n, nn_VNI n, nn_BridgeDevice n, nn_VXLANDevice n))
    (fun '(a, b, c, d, e) => {| nn_NetworkID := a; nn_LogicalSwitch := b; nn_VNI := c; nn_BridgeDevice := d;
                                nn_VXLANDevice := e |}) ltac:(by intros []).
#[export] Instance RemoteDeviceIdentity_codec : Codec RemoteDeviceIdentity :=
  via_codec (fun d => ((rd_Name d, rd_Ifindex d, rd_Kind d, rd_MasterIndex d, rd_VNI d), (rd_Local d, rd_Port d, rd_MAC d, rd_Alias d)))
    (fun '((a, b, c, d, e), (f, g, h, i)) =>
       {| rd_Name := a; rd_Ifindex := b; rd_Kind := c; rd_MasterIndex := d; rd_VNI := e; rd_Local := f; rd_Port := g;
          rd_MAC := h; rd_Alias := i |}) ltac:(by intros []).
#[export] Instance RemoteKernelEntry_codec : Codec RemoteKernelEntry :=
  via_codec (fun e => ((ke_Family e, ke_Ifindex e, ke_MAC e, ke_IP e, ke_State e, ke_Flags e),
                       (ke_FlagsExt e, ke_Type e, ke_VLAN e, ke_VNI e, ke_Master e)))
    (fun '((a, b, c, d, e, f), (g, h, i, j, k)) =>
       {| ke_Family := a; ke_Ifindex := b; ke_MAC := c; ke_IP := d; ke_State := e; ke_Flags := f; ke_FlagsExt := g;
          ke_Type := h; ke_VLAN := i; ke_VNI := j; ke_Master := k |}) ltac:(by intros []).
#[export] Instance RemoteObjectReceipt_codec : Codec RemoteObjectReceipt :=
  via_codec (fun o => (ob_Request o, ob_Observed o, ob_Status o, ob_ACK o, ob_DeleteACK o, ob_Error o))
    (fun '(a, b, c, d, e, f) => {| ob_Request := a; ob_Observed := b; ob_Status := c; ob_ACK := d; ob_DeleteACK := e;
                                   ob_Error := f |}) ltac:(by intros []).
#[export] Instance RemoteNetlinkReceipt_codec : Codec RemoteNetlinkReceipt :=
  via_codec (fun r => ((nr_Controller r, nr_Target r, nr_Network r, nr_Endpoint r, nr_Incarnation r, nr_Generation r),
                       (nr_Devices r, nr_FDB r, nr_Neighbor r, nr_Status r, nr_Retiring r)))
    (fun '((a, b, c, d, e, f), (g, h, i, j, k)) =>
       {| nr_Controller := a; nr_Target := b; nr_Network := c; nr_Endpoint := d; nr_Incarnation := e; nr_Generation := f;
          nr_Devices := g; nr_FDB := h; nr_Neighbor := i; nr_Status := j; nr_Retiring := k |}) ltac:(by intros []).
#[export] Instance remoteReceiptState_codec : Codec remoteReceiptState :=
  via_codec (fun s => ((rs_Version s, rs_Controller s, rs_Target s, rs_Networks s, rs_Devices s),
                       (rs_Receipts s, rs_Latest s, rs_Snapshot s, rs_Quarantine s)))
    (fun '((a, b, c, d, e), (f, g, h, i)) =>
       {| rs_Version := a; rs_Controller := b; rs_Target := c; rs_Networks := d; rs_Devices := e; rs_Receipts := f;
          rs_Latest := g; rs_Snapshot := h; rs_Quarantine := i |}) ltac:(by intros []).

(** ** A backend *)

Definition sim_network : RemoteNetlinkNetwork :=
  {| nn_NetworkID := "net"; nn_LogicalSwitch := "ls"; nn_VNI := 100; nn_BridgeDevice := "br0"; nn_VXLANDevice := "vx0" |}.
Definition sim_netlink_config : RemoteNetlinkConfig :=
  {| nc_Enabled := true; nc_ExclusiveWriter := true; nc_StateDirectory := "/j"; nc_Networks := [sim_network];
     nc_Recovery := Some sim_domain |}.

(** The devices as the kernel reports them, and a fresh journal. *)
Definition sim_backend : ownedNetlinkState :=
  with_journal (match sim_open.2 with Ok j => Some j | Err _ => None end)
    (with_devices (list_to_map ((fun l => (l_Name l, remoteDeviceIdentity l)) <$> sim_links))
       (new_state sim_netlink_config "controller" "b/ns")).
Definition sim_netw : netw := {| nw_fs := sim_open.1; nw_neighs := []; nw_listed := None; nw_blind := false |}.
