(* ===== verification/RouteImporterRuns.v ===== *)
(** * Two behaviours of the unverified importer

    Concrete runs that show where the loop of [src/pkg/evpn/route_importer.go] loses
    forwarding state. *)

From S2P Require Import Prelude GoStd Journal Sim Type2 Reconciler GobgpAdapter ExportRecovery.
From S2P Require Import Exporter RemoteType2 SimWorld Netlink RouteImporter SimRemote SimNetlink.

Definition run_network : EVPNImportNetwork :=
  {| en_Name := "net"; en_VNI := 100; en_RouteTarget := "65000:100"; en_VXLANDevice := "vx0"; en_BridgeDevice := "br0";
     en_NeighborDevice := "br0" |}.
Definition run_validator : Type2RouteValidator := {| tv_LocalVTEP := "192.0.2.1"; tv_Networks := [run_network] |}.
Definition run_route (mac ip vtep : string) : ReceivedType2Route :=
  {| rr_MAC := mac; rr_IP := ip; rr_RD := "65000:1"; rr_Labels := [100]; rr_NextHop := vtep;
     rr_Attrs := [AttrExtComm [ECRouteTarget "65000:100"%string]] |}.
Definition endpoint_a (vtep : string) : ReceivedType2Route := run_route "0a:00:00:00:00:09" "10.0.0.9" vtep.
Definition endpoint_b (vtep : string) : ReceivedType2Route := run_route "0a:00:00:00:00:0a" "10.0.0.10" vtep.

(** ** A failed update *)

(** A dataplane: the programmed tunnels, and whether the next creation fails. *)
Definition flaky : Type := list (string * string) * bool.
Definition flaky_backend : DataplaneBackend flaky := {|
  backend_Apply r (w : flaky) := if w.2 then ((w.1, false), Err (Errorf "busy")) else (((ir_MAC r, ir_RemoteVTEP r) :: w.1, false), Ok tt);
  backend_Withdraw r (w : flaky) := ((List.filter (fun t => negb (bool_decide (t = (ir_MAC r, ir_RemoteVTEP r)))) w.1, w.2), Ok tt);
|}.
Definition flaky_round (routes : list ReceivedType2Route) : M (gmap string ImportedType2Route * flaky) unit :=
  ReconcileOnce (ret routes) run_validator flaky_backend.

(** The route is programmed, then moves while one creation fails, then moves back. *)
Definition lost0 := flaky_round [endpoint_a "192.0.2.7"] (∅, ([], false)).
Definition lost1 := flaky_round [endpoint_a "192.0.2.8"] (lost0.1.1, (lost0.1.2.1, true)).
Definition lost2 := flaky_round [endpoint_a "192.0.2.7"] lost1.1.

(** When the creation for a changed route fails after its withdrawal succeeded, [active]
    still lists the withdrawn route; when the RIB returns to it the next round reports
    success without programming anything. *)
Theorem failed_update_loses_route :
  lost0.2 = Ok tt /\ lost0.1.2.1 = [("0a:00:00:00:00:09", "192.0.2.7")]%string /\
  lost1.2 = Err (Errorf "busy") /\
  lost2.2 = Ok tt /\ size lost2.1.1 = 1%nat /\ lost2.1.2.1 = [].
Proof. vm_compute. done. Qed.

(** ** Shared flood entries *)

(** The commands that ran; [bridge fdb show] lists the flood entry of one tunnel. *)
#[local] Instance log_exec : Exec (list (list string)) := fun args w =>
  (args :: w, (if bool_decide (args = ["sudo"; "-n"; "bridge"; "fdb"; "show"; "dev"; "vx0"]%string)
               then (flood_mac +:+ " dst 192.0.2.7 self permanent" +:+ newline)%string else ""%string, None)).
Definition log_round (routes : list ReceivedType2Route) : M (gmap string ImportedType2Route * list (list string)) unit :=
  ReconcileOnce (ret routes) run_validator LinuxVXLANBackend.

Definition shared0 := log_round [endpoint_a "192.0.2.7"; endpoint_b "192.0.2.7"] (∅, []).
Definition shared1 := log_round [endpoint_b "192.0.2.7"] (shared0.1.1, []).

(** Withdrawing one of two routes of a remote VTEP removes the flood entry of that VTEP,
    which the other route, still active, needs. *)
Theorem withdrawal_removes_shared_flood :
  shared0.2 = Ok tt /\ size shared0.1.1 = 2%nat /\ shared1.2 = Ok tt /\
  ir_RemoteVTEP <$> (map_to_list shared1.1.1).*2 = ["192.0.2.7"%string] /\
  ["sudo"; "-n"; "bridge"; "fdb"; "del"; flood_mac; "dev"; "vx0"; "dst"; "192.0.2.7"; "self"; "permanent"]%string ∈ shared1.1.2.
Proof. split_and!; [vm_compute; reflexivity..|]. apply (bool_decide_eq_true _). vm_compute. reflexivity. Qed.
