(* ===== verification/SimCni.v ===== *)
(** * A concrete node

    The file system of [Sim] beside the in-memory backends of [CniServer], a clock that
    reads from a list, an observer that reports the ports of the in-memory backend, and an
    admission authority. *)

From S2P Require Import Prelude GoStd Journal Sim Type2 Attachment Endpoint CniTypes CniServer CniContinuity CniContinuitySafety.

Record cniw := { cw_fs : simfs; cw_mem : InMemory.world; cw_times : list Z }.
Definition cw_set_fs (f : simfs) (w : cniw) : cniw := {| cw_fs := f; cw_mem := cw_mem w; cw_times := cw_times w |}.
Definition cw_set_times (l : list Z) (w : cniw) : cniw := {| cw_fs := cw_fs w; cw_mem := cw_mem w; cw_times := l |}.
#[export] Instance cniw_posix : Posix cniw := posix_over cw_fs cw_set_fs.
#[export] Instance cniw_clock : Clock cniw := {
  time_Now w := (cw_set_times (tail (cw_times w)) w, default 0 (head (cw_times w)));
  timer_or_done w := (w, None);
}.

Definition on_mem {A} (m : M InMemory.world A) : M cniw A :=
  fun w => let '(x, r) := m (cw_mem w) in ({| cw_fs := cw_fs w; cw_mem := x; cw_times := cw_times w |}, r).
Definition mem_network : networkBackend cniw := {|
  nb_Ensure key rec := on_mem (nb_Ensure InMemory.network key rec);
  nb_Delete key rec := on_mem (nb_Delete InMemory.network key rec);
  nb_Check key rec := on_mem (nb_Check InMemory.network key rec);
  nb_DeleteAcknowledged := None;
|}.
Definition mem_endpoint : EndpointManager cniw := {|
  em_Ensure spec := on_mem (em_Ensure InMemory.endpoint spec);
  em_Get id port := on_mem (em_Get InMemory.endpoint id port);
  em_Delete spec := on_mem (em_Delete InMemory.endpoint spec);
  em_CheckIdentity := None;
|}.

(** ** Observer, attestor, authority *)

Definition mem_receipt : cniReceipt :=
  {| rc_SwitchUUID := "sw"; rc_LSPUUID := "lsp"; rc_InterfaceUUID := "if"; rc_PortUUID := "port"; rc_BridgeUUID := "br";
     rc_HostIfIndex := 7; rc_NetNSDevice := 4; rc_NetNSInode := 5 |}.
Definition mem_observer : cniResourceObserver cniw := {|
  ro_Observe rec w := (w, Ok (mem_receipt, bool_decide (InMemory.mem_ports (cw_mem w) !! sp_LogicalSwitchPort (rec_endpointSpec rec) = None)));
  ro_NetworkAbsent key w := (w, if bool_decide (InMemory.mem_networks (cw_mem w) !! key = None) then Ok tt else Err (Errorf "network present"));
  ro_DeleteExact a := em_Delete mem_endpoint (ack_Spec a);
|}.
Definition mem_workload : CNIWorkloadAttestor cniw :=
  {| wa_Verify _ _ _ := ret false; wa_VerifyPod := Some (fun _ => ret false); wa_VerifyCreating := None |}.

Definition a_sha256 : string := "00000000000000000000000000000000000000000000000000000000000000ff".
Definition a_process (pid : Z) : CNIProcessEvidence :=
  {| pe_PID := pid; pe_StartTicks := "12"; pe_ExecutableSHA256 := a_sha256; pe_BootID := "boot" |}.
Definition an_admission : CNIAdmissionEvidence :=
  {| ae_Caller := a_process 10; ae_Processes := [a_process 10; a_process 11; a_process 12]; ae_NetNSDevice := 4; ae_NetNSInode := 5;
     ae_ContainerID := "ctr"; ae_PodUID := "uid" |}.

(** ** A request *)

Definition an_identity : EndpointIdentity :=
  {| ei_EndpointId := "net|att|uid"; ei_NetworkId := "net"; ei_AttachmentId := "att"; ei_WorkloadUid := "uid"; ei_Incarnation := "ctr" |}.
Definition an_add : CNIAddRequest := {|
  add_Identity := Some an_identity;
  add_Runtime := Some {| rt_CniVersion := "1.0.0"; rt_ContainerId := "ctr"; rt_NetnsPath := "/run/netns/a"; rt_IfName := "net1" |};
  add_Attachment := Some {| ar_LogicalSwitch := "ls"; ar_OvsInterfaceName := ""; ar_StaticIpCidr := "10.0.0.5/24";
                            ar_StaticMac := "0a:00:00:00:00:05" |};
  add_K8S := Some {| k8_PodNamespace := "ns"; k8_PodName := "pod"; k8_PodUid := "uid"; k8_NodeName := "" |};
|}.
Definition a_del : CNIDelRequest := {|
  del_Identity := Some an_identity; del_Runtime := add_Runtime an_add; del_Attachment := add_Attachment an_add; del_K8S := add_K8S an_add;
|}.
Definition a_key : string := endpointKey (Some an_identity).

(** ** Codecs *)

#[export] Instance EndpointIdentity_codec : Codec EndpointIdentity :=
  via_codec (fun i => (ei_EndpointId i, ei_NetworkId i, ei_AttachmentId i, ei_WorkloadUid i, ei_Incarnation i))
    (fun '(a, b, c, d, e) => {| ei_EndpointId := a; ei_NetworkId := b; ei_AttachmentId := c; ei_WorkloadUid := d; ei_Incarnation := e |})
    ltac:(by intros []).
#[export] Instance CNIRuntimeContext_codec : Codec CNIRuntimeContext :=
  via_codec (fun r => (rt_CniVersion r, rt_ContainerId r, rt_NetnsPath r, rt_IfName r))
    (fun '(a, b, c, d) => {| rt_CniVersion := a; rt_ContainerId := b; rt_NetnsPath := c; rt_IfName := d |}) ltac:(by intros []).
#[export] Instance AttachmentRequest_codec : Codec AttachmentRequest :=
  via_codec (fun r => (ar_LogicalSwitch r, ar_OvsInterfaceName r, ar_StaticIpCidr r, ar_StaticMac r))
    (fun '(a, b, c, d) => {| ar_LogicalSwitch := a; ar_OvsInterfaceName := b; ar_StaticIpCidr := c; ar_StaticMac := d |}) ltac:(by intros []).
#[export] Instance CNIInterface_codec : Codec CNIInterface :=
  via_codec (fun i => (ci_Name i, ci_Mac i, ci_Sandbox i)) (fun '(a, b, c) => {| ci_Name := a; ci_Mac := b; ci_Sandbox := c |}) ltac:(by intros []).
#[export] Instance CNIIPConfig_codec : Codec CNIIPConfig :=
  via_codec (fun i => (ip_Address i, ip_Interface i, ip_Gateway i))
    (fun '(a, b, c) => {| ip_Address := a; ip_Interface := b; ip_Gateway := c |}) ltac:(by intros []).
#[export] Instance CNIRoute_codec : Codec CNIRoute :=
  via_codec (fun r => (ro_Dst r, ro_Gw r)) (fun '(a, b) => {| ro_Dst := a; ro_Gw := b |}) ltac:(by intros []).
#[export] Instance CNIDNS_codec : Codec CNIDNS :=
  via_codec (fun d => (dns_Nameservers d, dns_Searches d, dns_Options d, dns_Domain d))
    (fun '(a, b, c, d) => {| dns_Nameservers := a; dns_Searches := b; dns_Options := c; dns_Domain := d |}) ltac:(by intros []).
#[export] Instance CNIResult_codec : Codec CNIResult :=
  via_codec (fun r => (cr_CniVersion r, cr_Interfaces r, cr_Ips r, cr_Routes r, cr_Dns r))
    (fun '(a, b, c, d, e) => {| cr_CniVersion := a; cr_Interfaces := b; cr_Ips := c; cr_Routes := d; cr_Dns := e |}) ltac:(by intros []).
#[export] Instance WorkloadRef_codec : Codec WorkloadRef :=
  via_codec (fun w => (wl_Kind w, wl_UID w, wl_Name w, wl_Namespace w, wl_NodeName w))
    (fun '(a, b, c, d, e) => {| wl_Kind := a; wl_UID := b; wl_Name := c; wl_Namespace := d; wl_NodeName := e |}) ltac:(by intros []).
#[export] Instance EndpointSpec_codec : Codec EndpointSpec :=
  via_codec (fun s => ((sp_ID s, sp_NetworkID s, sp_AttachmentID s, sp_Incarnation s, sp_Workload s),
                       (sp_LogicalSwitch s, sp_LogicalSwitchPort s, sp_OVSInterfaceName s, sp_MACAddress s, sp_IPAddresses s)))
    (fun '((a, b, c, d, e), (f, g, h, i, j)) =>
       {| sp_ID := a; sp_NetworkID := b; sp_AttachmentID := c; sp_Incarnation := d; sp_Workload := e; sp_LogicalSwitch := f;
          sp_LogicalSwitchPort := g; sp_OVSInterfaceName := h; sp_MACAddress := i; sp_IPAddresses := j |}) ltac:(by intros []).
#[export] Instance cniReceipt_codec : Codec cniReceipt :=
  via_codec (fun r => ((rc_SwitchUUID r, rc_LSPUUID r, rc_InterfaceUUID r, rc_PortUUID r, rc_BridgeUUID r),
                       (rc_HostIfIndex r, rc_NetNSDevice r, rc_NetNSInode r)))
    (fun '((a, b, c, d, e), (f, g, h)) =>
       {| rc_SwitchUUID := a; rc_LSPUUID := b; rc_InterfaceUUID := c; rc_PortUUID := d; rc_BridgeUUID := e; rc_HostIfIndex := f;
          rc_NetNSDevice := g; rc_NetNSInode := h |}) ltac:(by intros []).
#[export] Instance CNIProcessEvidence_codec : Codec CNIProcessEvidence :=
  via_codec (fun p => (pe_PID p, pe_StartTicks p, pe_ExecutableSHA256 p, pe_BootID p))
    (fun '(a, b, c, d) => {| pe_PID := a; pe_StartTicks := b; pe_ExecutableSHA256 := c; pe_BootID := d |}) ltac:(by intros []).
#[export] Instance CNIAdmissionEvidence_codec : Codec CNIAdmissionEvidence :=
  via_codec (fun e => (ae_Caller e, ae_Processes e, ae_NetNSDevice e, ae_NetNSInode e, ae_ContainerID e, ae_PodUID e))
    (fun '(a, b, c, d, e, f) => {| ae_Caller := a; ae_Processes := b; ae_NetNSDevice := c; ae_NetNSInode := d; ae_ContainerID := e;
                                   ae_PodUID := f |}) ltac:(by intros []).
#[export] Instance cniEndpointACK_codec : Codec cniEndpointACK :=
  via_codec (fun a => ((ack_Identity a, ack_Runtime a, ack_Attachment a, ack_Result a, ack_Spec a, ack_Receipt a),
                       (ack_State a, ack_Admission a, ack_CreatedAt a, ack_VerifyBy a, ack_VerifiedAt a, ack_Reason a)))
    (fun '((a, b, c, d, e, f), (g, h, i, j, k, l)) =>
       {| ack_Identity := a; ack_Runtime := b; ack_Attachment := c; ack_Result := d; ack_Spec := e; ack_Receipt := f; ack_State := g;
          ack_Admission := h; ack_CreatedAt := i; ack_VerifyBy := j; ack_VerifiedAt := k; ack_Reason := l |}) ltac:(by intros []).
#[export] Instance cniACKState_codec : Codec cniACKState :=
  via_codec (fun s => (st_Version s, st_Endpoints s)) (fun '(a, b) => {| st_Version := a; st_Endpoints := b |}) ltac:(by intros []).
#[export] Instance cniACKState_struct : JsonStruct cniACKState.
Proof. intros a s [= <-]. done. Qed.

(** ** Runs *)

(** A process before its recovery, with a journal that was just created; [authority] says
    whether an ADD needs admission. *)
Definition node (authority : bool) : cniContinuity cniw := {|
  cc_nodeName := "node"; cc_journal := j_fresh; cc_workload := mem_workload; cc_observer := mem_observer;
  cc_state := {| st_Version := 0; st_Endpoints := None |};
  cc_authority := if authority then Some (fun _ => ret an_admission) else None;
|}.
Definition fresh_world (times : list Z) : cniw := {| cw_fs := fs_fresh; cw_mem := InMemory.empty; cw_times := times |}.
Definition before_recovery (authority : bool) (times : list Z) : (cniContinuity cniw * Store) * cniw :=
  ((node authority, ∅), fresh_world times).

(** The process after its recovery, after an ADD and after a DEL. *)
Definition recovered (authority : bool) (times : list Z) := recoverCNI mem_network (before_recovery authority times).
Definition added (authority : bool) (times : list Z) :=
  continuity_add mem_endpoint mem_network (Some an_add) (recovered authority times).1.
Definition removed (authority : bool) (times : list Z) := continuity_del mem_network (Some a_del) (added authority times).1.
