(* ===== verification/CniContinuityRuns.v ===== *)
(** * An activation outside its window

    A concrete run of [CniContinuity]: [verifyPendingCNI] compares the clock with the
    deadline of a pending endpoint and then reads the clock again for the stamp, so the
    stamp can lie after the deadline.  The restart's [validateCNIACK] refuses such an
    acknowledgement, and with it the whole recovery. *)

From S2P Require Import Prelude GoStd Journal Sim Type2 Attachment Endpoint CniTypes CniServer CniContinuity CniContinuitySafety SimCni.

Definition seconds (n : Z) : Z := n * 10 ^ 9.
(** The ADD at 100 s, the two comparisons at 219 s, the stamp at 221 s: the endpoint was to
    be verified by 220 s. *)
Definition late_times : list Z := seconds <$> [100; 219; 219; 221].
Definition activated (times : list Z) := verifyPendingCNI mem_network (added true times).1.

(** The next process: it opens the journal and recovers. *)
Definition restarted (s : (cniContinuity cniw * Store) * cniw) : result unit :=
  let '(w, r) := Open "/j" sim_domain false s.2 in
  match r with
  | Err e => Err e
  | Ok j => (recoverCNI mem_network ((with_journal j (node true), ∅), w)).2
  end.

(** When the clock passes the deadline between the last comparison and the stamp, the
    activation succeeds and is durable, and the next process refuses to recover: the
    endpoint's own acknowledgement is invalid.  With a clock that stays before the
    deadline the same run recovers. *)
Theorem late_activation_locks_out :
  is_ok (added true late_times).2 = true /\ (activated late_times).2 = Ok tt /\
  (ack_State ∘ snd <$> map_to_list (acks (activated late_times).1.1.1)) = ["active"%string] /\
  restarted (activated late_times).1 = Err (ErrBlocked "invalid ACK") /\
  restarted (activated (seconds <$> [100; 219; 219; 219])).1 = Ok tt.
Proof. vm_compute. done. Qed.
