(* ===== verification/Witnesses.v ===== *)
(** * Witnesses

    For every property with hypotheses, the property applied to a run in the
    concrete world of [Sim], [SimWorld], [SimRemote] and [SimOvsdb], so that its hypotheses are known to
    hold together.  The runs are computed from the definitions. *)

From S2P Require Import Prelude GoStd Journal Sim Type2 Reconciler GobgpAdapter ExportRecovery.
From S2P Require Import Exporter RemoteType2 Attachment OvsdbStore Endpoint SimWorld SimRemote SimOvsdb.

(** ** Journal *)

(** The fresh journal after a [Begin]. *)
Definition j_begun : (Journal * simfs) * result Z := Begin "op" "data"%string (j_fresh, fs_fresh).

Lemma journal_reachable_witness :
  rtc jstep (j_fresh, fs_fresh) j_begun.1 /\
  record_inv sim_domain (j_record j_begun.1.1) /\
  r_Sequence (j_record j_fresh) <= r_Sequence (j_record j_begun.1.1).
Proof.
  assert (rtc jstep (j_fresh, fs_fresh) j_begun.1) as Hs.
  { apply rtc_once. eapply (js_begin _ _ _ "op" "data"%string). apply surjective_pairing. }
  split; [exact Hs|].
  apply (journal_reachable_inv sim_domain (j_fresh, fs_fresh) j_begun.1); [|exact Hs].
  split; [run|]. split; vm_compute; congruence.
Defined.

Lemma journal_fencing_witness :
  rtc jstep (zero_journal, fs_fresh) (Begin "op" "data"%string (zero_journal, fs_fresh)).1 /\
  j_record (Begin "op" "data"%string (zero_journal, fs_fresh)).1.1 = null_record sim_domain.
Proof.
  assert (rtc jstep (zero_journal, fs_fresh) (Begin "op" "data"%string (zero_journal, fs_fresh)).1) as Hs.
  { apply rtc_once. eapply (js_begin _ _ _ "op" "data"%string). apply surjective_pairing. }
  split; [exact Hs|].
  eapply (journal_fencing (zero_journal, fs_fresh)); [|by left|exact Hs].
  split; vm_compute; congruence.
Defined.

Lemma decode_encode_witness :
  decode_journal (value ""%string (encode_journal (j_record j_begun.1.1))) sim_domain =
  Ok (j_record j_begun.1.1).
Proof.
  apply (decode_encode_journal sim_domain (j_record j_begun.1.1)).
  - split; [run|]. split; vm_compute; congruence.
  - assert (is_ok (encode_journal (j_record j_begun.1.1)) = true) as H by run.
    by destruct (encode_journal (j_record j_begun.1.1)).
Defined.

Lemma persist_atomic_witness :
  exists j w data, persist (null_record sim_domain) (j_fresh, fs_fresh) = ((j, w), Ok tt) /\
    encode_journal (null_record sim_domain) = Ok data /\ entry w journalName = Some data.
Proof.
  assert (held 2 j_fresh) as Hd by run.
  ok_run (persist (null_record sim_domain) (j_fresh, fs_fresh)) as [j w], [] eqn E.
  destruct (persist_atomic j_fresh fs_fresh _ j w _ Hd E) as [_ H].
  destruct (H eq_refl) as (data & ? & ?). exists j, w, data. known.
Defined.

Lemma open_verified_witness :
  exists w j, Open "/j" sim_domain true sim_empty = (w, Ok j) /\
    Domain_validate sim_domain = Ok tt /\ ~ fenced j /\ record_ok sim_domain (j_record j) = true.
Proof.
  ok_run (Open "/j" sim_domain true sim_empty) as w, j eqn E.
  destruct (open_verified "/j" sim_domain true sim_empty w _ E) as (? & ? & ? & _).
  exists w, j. known.
Defined.

(** ** Type-2 routes and the reconciler *)

Lemma BuildType2Route_witness :
  exists r, BuildType2Route ep_a = Ok r /\ t_Endpoint r = ep_a /\ t_Action r = RouteAdvertise.
Proof.
  assert (is_ok (BuildType2Route ep_a) = true) as H by run.
  destruct (BuildType2Route ep_a) as [r|] eqn:E; [|discriminate H].
  destruct (BuildType2Route_spec ep_a r E) as (_ & _ & ? & ? & _). exists r. known.
Defined.

(** A reconciler resynchronised with an empty RIB, one that advertises [ep_a], and a
    plan that moves it to [ep_b]. *)
Definition rr_empty : RouteReconciler * simw := (Resync (Some sim_source) [] (NewRouteReconciler, sim_world)).1.
Definition plan_a : RouteReconciler * result (list Type2Route) := Reconcile [ep_a] rr_empty.1.
Definition rr_a : RouteReconciler * simw :=
  (ApplyAll (value [] plan_a.2) (Some sim_applier) (plan_a.1, rr_empty.2)).1.
Definition plan_b : RouteReconciler * result (list Type2Route) := Reconcile [ep_b] rr_a.1.

Lemma reconcile_converges_witness :
  exists r1 deltas r2 w2, Reconcile [ep_b] rr_a.1 = (r1, Ok deltas) /\ length deltas = 2%nat /\
    ApplyAll deltas (Some sim_applier) (r1, rr_a.2) = ((r2, w2), Ok tt) /\ (Reconcile [ep_b] r2).2 = Ok [].
Proof.
  assert (is_ok (ApplyAll (value [] (Reconcile [ep_b] rr_a.1).2) (Some sim_applier)
                          ((Reconcile [ep_b] rr_a.1).1, rr_a.2)).2 = true) as H2 by run.
  assert (length (value [] (Reconcile [ep_b] rr_a.1).2) = 2%nat) as Hl by run.
  ok_run (Reconcile [ep_b] rr_a.1) as r1, deltas eqn E1. cbn [value fst snd] in H2, Hl.
  destruct (ApplyAll deltas (Some sim_applier) (r1, rr_a.2)) as [[r2 w2] [[]|]] eqn:E2; [|discriminate H2].
  destruct (reconcile_converges [ep_b] (Some sim_applier) rr_a.1 r1 rr_a.2 deltas r2 w2 E1 E2)
    as (_ & _ & _ & _ & _ & ?).
  exists r1, deltas, r2, w2. known.
Defined.

Lemma reconcile_live_witness :
  exists r1 deltas r2 w2, Reconcile [ep_a; ep_b] rr_a.1 = (r1, Ok deltas) /\
    ApplyAll deltas (Some sim_applier) (r1, rr_a.2) = ((r2, w2), Ok tt).
Proof.
  ok_run (Reconcile [ep_a; ep_b] rr_a.1) as r1, deltas eqn E1.
  assert (rr_synchronized rr_a.1 = true) as Hs by run.
  assert (live_api (fun w => 0 < sw_uuid w) sim_applier) as Hl.
  { split; [done|intros w route Hw|intros w o Hw].
    - eexists _, _. split; [reflexivity|]. split; [done|]. simpl. lia.
    - eexists. split; [reflexivity|]. exact Hw. }
  assert (0 < sw_uuid rr_a.2) as Hw by run.
  destruct (reconcile_live (fun w => 0 < sw_uuid w) sim_applier [ep_a; ep_b] rr_a.1 r1 rr_a.2 deltas Hl Hw Hs E1)
    as (r2 & w2 & _ & ? & _).
  exists r1, deltas, r2, w2. known.
Defined.

(** A delta whose operation is not registered. *)
Lemma Apply_error_witness :
  exists r w e, Apply zero_route (Some sim_applier) rr_a = ((r, w), Err e) /\ w = rr_a.2.
Proof.
  assert (is_ok (Apply zero_route (Some sim_applier) (rr_a.1, rr_a.2)).2 = false) as H by run.
  destruct (Apply zero_route (Some sim_applier) (rr_a.1, rr_a.2)) as [[r w] [|e]] eqn:E; [discriminate H|].
  pose proof (Apply_error zero_route (Some sim_applier) rr_a.1 rr_a.2 r w e E) as [_ Hw].
  exists r, w, e. split_and!.
  - by rewrite <-E, <-surjective_pairing.
  - destruct Hw as [->|(? & ? & ? & _ & _ & _ & Hop & _)]; [reflexivity|discriminate Hop].
Defined.

Definition rr_one : (RouteReconciler * simw) * result unit :=
  Apply (List.hd zero_route (value [] plan_a.2)) (Some sim_applier) (plan_a.1, rr_empty.2).

Lemma reconciler_reachable_witness :
  rtc (rr_step (W := simw)) NewRouteReconciler rr_one.1.1 /\ AppliedRoutes rr_one.1.1 <> [] /\ rr_inv rr_one.1.1.
Proof.
  assert (rtc (rr_step (W := simw)) NewRouteReconciler rr_one.1.1) as Hs.
  { eapply rtc_l; [exact (rr_step_Resync (Some sim_source) [] NewRouteReconciler sim_world)|].
    eapply rtc_l; [exact (rr_step_Reconcile [ep_a] rr_empty.1)|].
    apply rtc_once. exact (rr_step_Apply _ (Some sim_applier) plan_a.1 rr_empty.2). }
  split; [exact Hs|]. split; [vm_compute; discriminate|].
  apply (reconciler_reachable_inv (W := simw) rr_one.1.1 Hs).
Defined.

Lemma Resync_witness :
  exists r w, Resync (Some sim_source) (AppliedRoutes rr_a.1) (NewRouteReconciler, rr_a.2) = ((r, w), Ok tt) /\
    rr_synchronized r = true /\ AppliedRoutes rr_a.1 <> [].
Proof.
  assert (AppliedRoutes rr_a.1 <> []) as Hn by (vm_compute; discriminate).
  ok_run (Resync (Some sim_source) (AppliedRoutes rr_a.1) (NewRouteReconciler, rr_a.2)) as [r w], [] eqn E.
  destruct (Resync_spec _ _ _ _ _ _ _ E) as (_ & _ & _ & _ & _ & _ & ? & _).
  exists r, w. known.
Defined.

Lemma resyncDurable_witness :
  exists r w, resyncDurable sim_source (AppliedRoutes rr_a.1) (NewRouteReconciler, rr_a.2) = ((r, w), Ok tt) /\
    rr_synchronized r = true.
Proof.
  ok_run (resyncDurable sim_source (AppliedRoutes rr_a.1) (NewRouteReconciler, rr_a.2)) as [r w], [] eqn E.
  destruct (resyncDurable_spec _ _ _ _ _ _ _ E) as (_ & _ & _ & _ & ? & _).
  exists r, w. known.
Defined.

(** ** The GoBGP adapter *)

Lemma adapter_Snapshot_witness :
  exists w paths raws, adapter_Snapshot sim_adapter rr_a.2 = (w, Ok paths) /\ paths <> [] /\
    decodes (concat raws) paths.
Proof.
  assert (value [] (adapter_Snapshot sim_adapter rr_a.2).2 <> []) as Hn by (vm_compute; discriminate).
  ok_run (adapter_Snapshot sim_adapter rr_a.2) as w, paths eqn E.
  destruct (adapter_Snapshot_complete sim_adapter _ w paths E)
    as (_ & _ & raws & _ & _ & _ & _ & _ & _ & _ & ? & _).
  exists w, paths, raws. known.
Defined.

(** The only write of a withdrawal is the DeletePath of the owned identifier. *)
Definition owned_a : OwnedType2Route :=
  List.hd {| o_Endpoint := ep_b; o_PathUUID := "" |} (AppliedRoutes rr_a.1).

Lemma adapter_Delete_witness :
  exists w id w2, adapter_Delete sim_adapter owned_a rr_a.2 = (w, Ok tt) /\
    uuid_Parse (o_PathUUID owned_a) = Some id /\ client_DeletePath sim_client id w2 = (w, Ok tt) /\ rr_a.2 = w2.
Proof.
  assert (length (sw_rib (adapter_Delete sim_adapter owned_a rr_a.2).1) <> length (sw_rib rr_a.2)) as Hn
    by (vm_compute; discriminate).
  ok_run (adapter_Delete sim_adapter owned_a rr_a.2) as w, [] eqn E.
  destruct (adapter_Delete_exact (eq rr_a.2) sim_adapter) with (owned := owned_a) (w := rr_a.2) (w' := w)
    (r := Ok tt) as [[<- _]|(c & id & _ & _ & _ & _ & w2 & Hc & Hid & _ & _ & _ & _ & _ & _ & _ & Hw & Hdel)].
  - intros g w0 [= <-] <-. reflexivity.
  - intros c w0 [= <-] <-. reflexivity.
  - reflexivity.
  - exact E.
  - by destruct Hn.
  - injection Hc as <-. exists w, id, w2. known.
Defined.

Definition route_b : Type2Route := value zero_route (BuildType2Route ep_b).

Lemma adapter_Add_witness :
  exists w id path w2, adapter_Add sim_adapter route_b rr_a.2 = (w, Ok id) /\
    client_AddPath sim_client path w2 = (w, Ok id) /\ rr_a.2 = w2.
Proof.
  ok_run (adapter_Add sim_adapter route_b rr_a.2) as w, id eqn E.
  destruct (adapter_Add_exclusive (eq rr_a.2) sim_adapter) with (route := route_b) (w := rr_a.2) (w' := w)
    (r := Ok id) as [[_ [e He]]|(c & _ & path & _ & _ & w2 & u & Hc & _ & _ & _ & Hw & Hadd & Hu)].
  - intros g w0 [= <-] <-. reflexivity.
  - intros c w0 [= <-] <-. reflexivity.
  - reflexivity.
  - exact E.
  - discriminate He.
  - injection Hc as <-. destruct (Hu id eq_refl) as (b & i & -> & Hb & _ & ->).
    assert (b = i) as -> by (cbn in Hb; case_bool_decide; congruence).
    exists w, i, path, w2. known.
Defined.

(** ** Durable export ownership *)

(** A recovery opened on an empty state directory, recovered against the speaker, and
    then advertising [ep_a]. *)
Definition sim_cfg : ExportRecoveryConfig := {| rc_StateDirectory := "/j"; rc_Domain := sim_domain |}.
Definition x_zero : ExportRecovery simw :=
  {| x_journal := zero_journal; x_state := fresh_state; x_source := sim_source; x_applier := sim_applier;
     x_speaker := sim_speaker; x_fault := None |}.
Definition x_open : simw * result (ExportRecovery simw) :=
  OpenExportRecovery sim_cfg (Some sim_source) (Some sim_applier) (Some sim_speaker) sim_world.
Definition x_fresh : ExportRecovery simw * simw := (value x_zero x_open.2, x_open.1).
Definition x_ready : ExportRecovery simw * simw := (Recover x_fresh).1.
Definition route_a : Type2Route := value zero_route (BuildType2Route ep_a).
Definition x_added : ExportRecovery simw * simw := (x_Add route_a x_ready).1.

Lemma x_fresh_inv : x_inv x_fresh.1.
Proof.
  split_and!; [|right; split; run|split; vm_compute; congruence].
  split_and!; [run|intros _; run|constructor].
Qed.
Lemma x_ready_inv : x_inv x_ready.1.
Proof.
  destruct (Recover_keeps_inv x_fresh x_ready (Recover x_fresh).2) as [H _];
    [exact x_fresh_inv|apply surjective_pairing|exact H].
Qed.
Lemma x_added_inv : x_inv x_added.1.
Proof.
  assert (x_fault x_ready.1 = None) as Hf by run.
  destruct (x_Add_inv route_a x_ready x_added (x_Add route_a x_ready).2) as [H _];
    [exact Hf|exact x_ready_inv|apply surjective_pairing|exact H].
Qed.

(** The speaker, the RIB and the journal of a recovery in the simulated world. *)
Lemma sim_quiet rib (r : ExportRecovery simw) :
  x_speaker r = sim_speaker -> x_source r = sim_source -> quiet (fun w => sw_rib w = rib) r.
Proof.
  intros Hs Hr. split; rewrite ?Hs, ?Hr; [done..| |].
  - intros *. apply Begin_rib.
  - intros *. apply Commit_rib.
Qed.

Lemma Recover_witness :
  exists s out, Recover x_added = (s, Ok out) /\ out <> [] /\ out ≡ₚ er_Owned <$> es_receipts (x_state s.1).
Proof.
  assert (value [] (Recover x_added).2 <> []) as Hn by (vm_compute; discriminate).
  ok_run (Recover x_added) as s, out eqn E.
  destruct (Recover_no_adoption x_added s (Ok out) x_added_inv E) as (_ & _ & _ & _ & _ & _ & _ & ?).
  exists s, out. known.
Defined.


Lemma Delete_witness :
  exists s w1 w2 j1 p, x_Delete owned_a x_added = (s, Ok tt) /\ sw_rib w1 = sw_rib x_added.2 /\
    applier_Delete (x_applier x_added.1) owned_a w1 = (w2, Ok tt) /\
    r_Pending (j_record j1) = Some p /\ i_Operation p = "export-delete"%string /\
    r_Pending (j_record (x_journal s.1)) = None.
Proof.
  assert (x_fault x_added.1 = None) as Hf by run.
  assert (quiet (fun w => sw_rib w = sw_rib x_added.2) x_added.1) as Hq by (apply sim_quiet; run).
  ok_run (x_Delete owned_a x_added) as s, [] eqn E.
  destruct (Delete_write_ahead _ owned_a x_added s (Ok tt) x_added_inv Hq eq_refl Hf E)
    as [(e & He & _)|(? & ? & ? & ? & ? & ? & j1 & w1 & w2 & ? & _ & _ & _ & _ & _ & _ & Hp & Hw & Ha & -> & _ & _ & Hn & _)];
    [discriminate He|].
  eexists s, w1, w2, j1, _. split_and!; [reflexivity|exact Hw|exact Ha|exact Hp|reflexivity|exact Hn].
Defined.

Lemma recovery_reachable_witness :
  rtc x_step x_fresh x_added /\ es_receipts (x_state x_added.1) <> [] /\
  agrees (x_journal x_added.1) (x_state x_added.1).
Proof.
  assert (rtc x_step x_fresh x_added) as Hs.
  { eapply rtc_l; [exact (xs_Recover x_fresh x_ready _ (surjective_pairing (Recover x_fresh)))|].
    apply rtc_once. exact (xs_Add route_a x_ready x_added _ (surjective_pairing (x_Add route_a x_ready))). }
  split; [exact Hs|]. split; [vm_compute; discriminate|]. revert Hs.
  assert (is_u64 (r_Sequence (j_record (x_journal x_fresh.1)))) as Hu by (split; vm_compute; congruence).
  revert Hu. unfold x_fresh, x_open.
  ok_run (OpenExportRecovery sim_cfg (Some sim_source) (Some sim_applier) (Some sim_speaker) sim_world)
    as w0, r0 eqn E. intros Hu Hs.
  destruct (recovery_reachable_inv sim_cfg _ _ _ sim_world w0 r0 x_added E) as [_ H].
  - exact Hu.
  - exact Hs.
  - exact H.
Defined.

(** ** The exporter *)

Definition exporter_of (observe : list LocalEndpoint) (dry : bool) : EndpointExporter simw :=
  {| e_Observer := Some (ret observe); e_Gate := Some sim_guard; e_Continuity := Some (ret tt);
     e_Source := Some sim_source; e_Applier := Some sim_applier; e_DryRun := dry; e_Recovery := None;
     e_reconciler := None; e_initialized := false; e_blocked := None |}.
Definition e_new : EndpointExporter simw := exporter_of [ep_a; ep_b] false.
Definition e_running : EndpointExporter simw * simw := (exporter_Reconcile (e_new, sim_world)).1.

(** Name the results of an exporter round that returns no error. *)
Tactic Notation "ok_round" constr(x) "as" ident(e) ident(w) ident(res) "eqn" ident(E) :=
  let H := fresh in
  assert (match x.2.2 with None => true | Some _ => false end = true) as H by run;
  destruct x as [[e w] [res [?|]]] eqn:E; [discriminate H|clear H].

Lemma exporter_converges_witness :
  exists e w res, exporter_Reconcile (e_new, sim_world) = ((e, w), (res, None)) /\
    length (xr_Applied res) = 2%nat /\ xr_Applied res = AppliedRoutes (the_rr e) /\ xr_Desired res = [ep_a; ep_b].
Proof.
  assert (length (xr_Applied (exporter_Reconcile (e_new, sim_world)).2.1) = 2%nat) as Hl by run.
  ok_round (exporter_Reconcile (e_new, sim_world)) as e w res eqn E.
  destruct (exporter_converges e_new sim_world e w res E eq_refl)
    as (o & w1 & desired & dm & [= <-] & [= <- <-] & _ & _ & _ & ? & ? & _).
  exists e, w, res. known.
Defined.

(** A blocked exporter makes a round and stays blocked. *)
Definition e_stuck : EndpointExporter simw := set_e_blocked (Errorf "stop") e_running.1.

Lemma exporter_fenced_witness :
  (exporter_Reconcile (e_stuck, sim_world)).1.2 = sim_world /\
  e_blocked (exporter_Reconcile (e_stuck, sim_world)).1.1 = Some (Errorf "stop").
Proof.
  destruct (exporter_fenced (e_stuck, sim_world) (exporter_Reconcile (e_stuck, sim_world)).1 (Errorf "stop"))
    as (? & ? & _); [reflexivity| |known].
  apply rtc_once. exact (round_Reconcile (e_stuck, sim_world) _ _ (surjective_pairing _)).
Defined.

Lemma exporter_dry_run_witness :
  exists e w r, reconcile (Some (ret [ep_a])) (exporter_of [] true, sim_world) = ((e, w), r) /\
    the_rr e = NewRouteReconciler /\ e_blocked e = None.
Proof.
  destruct (reconcile (Some (ret [ep_a])) (exporter_of [] true, sim_world)) as [[e w] r] eqn:E.
  destruct (exporter_dry_run _ (exporter_of [] true) sim_world e w r eq_refl E) as (? & ? & _).
  exists e, w, r. known.
Defined.


Lemma drain_networks_witness :
  exists e w res, DrainNetworks {["net"%string]} (e_running.1, e_running.2) = ((e, w), (res, None)) /\
    AppliedRoutes (the_rr e_running.1) <> [] /\
    forall k o, rr_applied (the_rr e) !! k = Some o -> NetworkID (o_Endpoint o) <> "net"%string.
Proof.
  assert (e_DryRun e_running.1 = false) as Hd by run.
  assert (AppliedRoutes (the_rr e_running.1) <> []) as Hn by (vm_compute; discriminate).
  ok_round (DrainNetworks {["net"%string]} (e_running.1, e_running.2)) as e w res eqn E.
  destruct (drain_networks {["net"%string]} e_running.1 e_running.2 e w res E Hd) as [H _].
  exists e, w, res. split_and!; [reflexivity|exact Hn|].
  intros k o Ho En. apply (H k o Ho). rewrite En. by apply elem_of_singleton.
Defined.

Definition sim_network (id switch vtep : string) (vni : Z) : EVPNNetworkConfig :=
  {| n_NetworkID := id; n_LogicalSwitch := switch; n_Enabled := true; n_VNI := vni;
     n_RouteDistinguisher := "65000:1"; n_RouteTargets := ["65000:1"%string]; n_LocalVTEP := vtep;
     n_ExporterSource := "ovn-netlink"; n_BridgeDevice := "br" +:+ id; n_VXLANDevice := "vx" +:+ id;
     n_AdvertiseDevice := "ad" +:+ id |}.
Definition sim_exporter_config : ExporterConfig :=
  {| c_Enabled := true; c_DryRun := true; c_ProcessContinuity := false; c_NodeName := "node";
     c_LocalChassis := "chassis"; c_GRPCEndpoint := "127.0.0.1:50051"; c_ASN := 65000;
     c_RouterID := "192.0.2.1"; c_Networks := [sim_network "1" "s1" "192.0.2.1" 100; sim_network "2" "s2" "192.0.2.1" 200];
     c_AttestationConfigPath := ""; c_Recovery := None |}.

Lemma ExporterConfig_Validate_witness :
  ExporterConfig_Validate sim_exporter_config = Ok tt /\
  NoDup (c_Networks sim_exporter_config ≫= native_devices).
Proof.
  assert (ExporterConfig_Validate sim_exporter_config = Ok tt) as E by run.
  destruct (ExporterConfig_Validate_sound sim_exporter_config E eq_refl) as (_ & _ & _ & _ & _ & _ & ? & _).
  split; [exact E|assumption].
Defined.

(** ** Attachments *)

Definition sim_store : OVSStore simdb := libovsdb_store sim_ovs.

Lemma lists_read (w : simdb) :
  preserves (eq w) (ListBridges sim_store) /\ preserves (eq w) (ListInterfaces sim_store) /\
  preserves (eq w) (ListPorts sim_store).
Proof. split_and!; intros w0 <-; reflexivity. Qed.

Lemma listed {W A} (f : W -> A) (w w' : W) (a : A) : (w, Ok (f w)) = (w', Ok a) -> f w = a.
Proof. by intros [= _ ?]. Qed.

(** The one write of a deletion is the guarded detachment of the identity's own interface. *)
Lemma DeleteAttachment_witness :
  exists w iface ids, DeleteAttachmentWithIdentity sim_store sim_identity "lsp" db_ensured =
      (w, Ok (DeleteOutcomeDeleted, None)) /\
    iface ∈ db_ifaces db_ensured /\ deletable sim_identity iface ids.
Proof.
  destruct (lists_read db_ensured) as (Hb & Hi & Hp).
  run_to (DeleteAttachmentWithIdentity sim_store sim_identity "lsp" db_ensured)
    (Ok (DeleteOutcomeDeleted, None : option error)) as w eqn E.
  destruct (DeleteAttachment_exact sim_store (eq db_ensured) Hb Hi Hp sim_identity "lsp" db_ensured w _ eq_refl E)
    as [(_ & o & e & Hr & Hm)|(ifaces & w1 & iface & ids & w2 & b & Hl & Hin & _ & Hd & _)].
  - injection Hr as <- <-. destruct (Hm eq_refl) as [Hm' _]. discriminate Hm'.
  - apply (listed db_ifaces) in Hl. subst ifaces. exists w, iface, ids. known.
Defined.

(** Ensuring in an empty database creates the interface with the identity's own record. *)
Lemma EnsureAttachment_witness :
  exists w st, EnsureAttachmentWithIdentity sim_store sim_identity sim_attachment db_empty = (w, Ok st) /\
    ValidateIdentity sim_identity = Ok tt.
Proof.
  destruct (lists_read db_empty) as (_ & Hi & Hp).
  assert (length (db_ifaces (EnsureAttachmentWithIdentity sim_store sim_identity sim_attachment db_empty).1) <> 0%nat)
    as Hn by (vm_compute; discriminate).
  ok_run (EnsureAttachmentWithIdentity sim_store sim_identity sim_attachment db_empty) as w, st eqn E.
  destruct (EnsureAttachment_owned sim_store (eq db_empty) Hi Hp sim_identity sim_attachment db_empty w (Ok st) eq_refl E)
    as [<-|[Hv _]]; [by destruct Hn|].
  exists w, st. known.
Defined.

Lemma CheckAttachment_witness :
  exists w rc, CheckAttachmentWithIdentity sim_store sim_identity "lsp" "veth0" db_ensured = (w, Ok rc) /\
    db_ensured = w /\ ar_Identity rc = sim_identity.
Proof.
  destruct (lists_read db_ensured) as (Hb & Hi & Hp).
  ok_run (CheckAttachmentWithIdentity sim_store sim_identity "lsp" "veth0" db_ensured) as w, rc eqn E.
  destruct (CheckAttachment_sound sim_store (eq db_ensured) Hb Hi Hp sim_identity "lsp" "veth0" db_ensured w (Ok rc) eq_refl E)
    as [Hw Hrc].
  destruct (Hrc rc eq_refl) as [? _]. exists w, rc. known.
Defined.

Definition iface_uuid : string := match db_ifaces db_ensured with i :: _ => if_UUID i | [] => "" end.
Definition port_uuid : string := match db_ports db_ensured with p :: _ => po_UUID p | [] => "" end.
Definition iface_ids : gmap string string := ExternalIDsForIdentity sim_identity "lsp" (sp_MACAddress sim_spec).

Lemma DetachPort_witness :
  exists w, store_DetachPort sim_ovs "br-int" port_uuid iface_uuid iface_ids db_ensured = (w, Ok true) /\
    sim_ids db_ensured iface_uuid = Some iface_ids.
Proof.
  run_to (store_DetachPort sim_ovs "br-int" port_uuid iface_uuid iface_ids db_ensured) (Ok true) as w eqn E.
  destruct (DetachPort_guarded sim_ovs id sim_ids "br-int" port_uuid iface_uuid iface_ids db_ensured w (Ok true) E)
    as [[_ Hr]|(w1 & _ & _ & _ & _ & _ & _ & Hw & _ & Hids)].
  - by destruct Hr.
  - unfold id in Hw. subst w1. exists w. known.
Defined.

(** ** Endpoints *)

Lemma DeleteEndpoint_witness :
  exists w w1, DeleteEndpoint sim_manager sim_spec db_ensured = (w, Ok tt) /\
    DeleteLogicalSwitchPort (m_ovn sim_manager) (port_spec sim_spec []) w1 = (w, Ok tt).
Proof.
  run_to (DeleteEndpoint sim_manager sim_spec db_ensured) (Ok tt) as w eqn E.
  destruct (DeleteEndpoint_order sim_manager sim_spec db_ensured w (Ok tt) E)
    as [(w1 & _ & _ & H)|(e & He & _)]; [|discriminate He].
  exists w, w1. known.
Defined.

Lemma EnsureEndpoint_witness :
  exists w st, EnsureEndpoint sim_manager sim_spec db_empty = (w, Ok (st, None)) /\
    es_ID st = sp_ID sim_spec /\ es_OVNPortState st = StateEnsured.
Proof.
  assert (match (EnsureEndpoint sim_manager sim_spec db_empty).2 with Ok (_, None) => true | _ => false end = true)
    as H by run.
  destruct (EnsureEndpoint sim_manager sim_spec db_empty) as [w [[st [e|]]|e]] eqn:E; try discriminate H.
  destruct (EnsureEndpoint_reports sim_manager sim_spec db_empty w st None E)
    as [[_ Hn]|(_ & _ & _ & _ & _ & _ & ? & ? & _)]; [by destruct Hn|].
  exists w, st. known.
Defined.

Lemma backend_Delete_witness :
  exists w lsp, backend_Delete (Some sim_nb) (port_spec sim_spec []) db_ensured = (w, Ok tt) /\
    lsp ∈ db_lsps db_ensured /\ owned_fields (lsp_ExternalIDs lsp) (port_spec sim_spec []).
Proof.
  assert (length (db_lsps (backend_Delete (Some sim_nb) (port_spec sim_spec []) db_ensured).1) <>
          length (db_lsps db_ensured)) as Hn by (vm_compute; discriminate).
  run_to (backend_Delete (Some sim_nb) (port_spec sim_spec []) db_ensured) (Ok tt) as w eqn E.
  destruct (backend_Delete_owned sim_nb (eq db_ensured)) with (spec := port_spec sim_spec []) (w := db_ensured)
    (w' := w) (r := Ok tt) as [<-|(ports & lsp & _ & _ & w1 & _ & _ & Hp & Hin & _ & Ho & _)].
  - intros w0 <-. reflexivity.
  - intros w0 <-. reflexivity.
  - reflexivity.
  - exact E.
  - by destruct Hn.
  - apply (listed db_lsps) in Hp. subst ports. exists w, lsp. known.
Defined.

(** ** Remote routes *)

Definition remote_read : M simw RemoteRIBSnapshot := ReadRemoteRIB (sim_remote_source sim_remote_rib).
Definition remote_importer : ReadOnlyType2Importer simw :=
  {| im_source := remote_read; im_config := sim_import_config; im_confirmed := zero_snapshot; im_pending := "" |}.
(** The importer after its first poll. *)
Definition polled : ReadOnlyType2Importer simw * simw := (Poll (remote_importer, sim_world)).1.

Lemma Poll_confirmed_twice_witness :
  exists s snap m, Poll polled = (s, (snap, None)) /\ is_Authoritative snap = true /\
    observed (remote_importer, sim_world) = Some m /\ length (is_Endpoints snap) = 1%nat.
Proof.
  assert (is_Authoritative (Poll polled).2.1 = true /\ length (is_Endpoints (Poll polled).2.1) = 1%nat)
    as [Ha Hl] by (split; run).
  destruct (Poll polled) as [s [snap err]] eqn:E.
  destruct (Poll_confirmed_twice (Some remote_read) sim_import_config remote_importer sim_world polled
    (observed (remote_importer, sim_world)) s snap err) as (m & n & Hm & _ & _ & -> & _).
  - run.
  - apply rtc_once. eapply ps_Poll. apply surjective_pairing.
  - exact E.
  - exact Ha.
  - exists s, snap, m. known.
Defined.

Lemma observe_sound_witness :
  exists iss n, observe sim_import_config [] sim_remote_rib [] = (iss, Ok n) /\
    NoDup (de_Key <$> is_Endpoints n).
Proof.
  ok_run (observe sim_import_config [] sim_remote_rib []) as iss, n eqn E.
  destruct (observe_sound sim_import_config sim_remote_rib [] [] iss n) as (_ & Hn & _).
  - run.
  - apply sim_collision_free.
  - exact E.
  - exists iss, n. known.
Defined.

Lemma Poll_frozen_witness :
  exists s snap, Poll (remote_importer, sim_world) = (s, (snap, None)) /\ is_Authoritative snap = false /\
    im_confirmed s.1 = zero_snapshot.
Proof.
  assert (is_Authoritative (Poll (remote_importer, sim_world)).2.1 = false /\
          (Poll (remote_importer, sim_world)).2.2 = None) as [Ha He] by (split; run).
  destruct (Poll (remote_importer, sim_world)) as [s [snap err]] eqn:E. simpl in Ha, He. subst err.
  pose proof (Poll_frozen (remote_importer, sim_world) s snap None E) as H. rewrite Ha in H.
  destruct H as (Hc & _). exists s, snap. known.
Defined.
