(* ===== verification/NetlinkWitnesses.v ===== *)
(** * Witnesses for the remote programming

    The importer runs twice on the RIB of [SimRemote] and the kernel of [SimNetlink]: the
    first round only observes, the second programs one endpoint. *)

From S2P Require Import Prelude GoStd Journal Sim Type2 Reconciler GobgpAdapter ExportRecovery.
From S2P Require Import Exporter RemoteType2 SimWorld SimRemote Netlink NetlinkSafety NetlinkRecovery NetlinkHistory.
From S2P Require Import NetlinkEffect RemoteImport RemoteImportSafety RemoteImportBounds RouteImporter SimNetlink RouteImporterRuns.

Definition reader0 : ReadOnlyType2Importer netw :=
  {| im_source := ret {| raw_Paths := sim_remote_rib; raw_Complete := true |}; im_config := sim_import_config;
     im_confirmed := zero_snapshot; im_pending := "" |}.
Definition restored := NewValidatedRemoteType2Importer reader0 sim_backend.
Definition i0 : RemoteType2Importer := match restored.2 with Ok i => i | Err _ => NewRemoteType2Importer end.
Definition st0 := ((i0, restored.1), (sim_backend, sim_netw)).
(** After one and after two rounds. *)
Definition st1 := reconcileValidated st0.
Definition st2 := reconcileValidated st1.1.

Lemma sim_started : started reader0 sim_backend restored.1 i0.
Proof.
  split.
  - reflexivity.
  - run.
  - assert (os_receipts sim_backend = ∅) as E by reflexivity. intros key o r ob H. by rewrite E, lookup_empty in H.
  - by left.
  - discriminate.
  - assert (os_latest sim_backend = ∅) as E by reflexivity. intros key n H. by rewrite E, lookup_empty in H.
  - reflexivity.
  - assert (os_devices sim_backend = list_to_map ((fun l => (l_Name l, remoteDeviceIdentity l)) <$> sim_links)) as Ed by reflexivity.
    intros n1 n2 d1 d2 H1 H2 E. rewrite Ed in H1, H2. simpl in H1, H2. apply lookup_insert_Some in H1, H2.
    destruct H1 as [[<- <-]|[_ [[<- <-]|[_ H1]]%lookup_insert_Some]], H2 as [[<- <-]|[_ [[<- <-]|[_ H2]]%lookup_insert_Some]];
      try done; by rewrite ?lookup_empty in H1, H2.
Qed.

Lemma sim_rounds : rtc istep st0 st2.1.
Proof. eapply rtc_l; [|eapply rtc_once]; eapply is_reconcile; apply surjective_pairing. Qed.

Lemma sim_guarded st : rtc istep st0 st -> rtc (gstep any) (sim_backend, sim_netw) st.2.
Proof.
  intros H. pose proof (started_good _ _ _ _ sim_netw sim_started) as Hg.
  destruct (isteps_good (sim_backend, sim_netw) st0 st H Hg) as (_ & _ & _ & Hs). exact Hs.
Qed.



(** What a restart reads after the two rounds. *)
Definition stored : string := from_option r_State ""%string (jrec st2.1.2.1).

Definition restart : ownedNetlinkState := new_state sim_netlink_config "other" "b/ns".

Lemma receipts_survive_witness :
  exists st rest, json_Decode stored = Some (st, rest) /\ size <$> rs_Receipts st = Some 1%nat /\
    validateReceipts (load_state st "m" restart) = Ok tt.
Proof.
  assert (match json_Decode stored with
          | Some (st, _) => bool_decide (size <$> rs_Receipts st = Some 1%nat) && bool_decide (rs_Quarantine st = ""%string)
                            && durable_ok restart st && negb (bool_decide (stored = "null"%string))
          | None => false
          end = true) as H by run.
  destruct (json_Decode (A := remoteReceiptState) stored) as [[st rest]|] eqn:E; [|done]. bools.
  destruct (jrec st2.1.2.1) as [r|] eqn:Hr; [|by vm_compute in Hr]. exists st, rest. split_and!; [done..|].
  assert (stored = r_State r) as Es by (unfold stored; by rewrite Hr). rewrite Es in *.
  apply (receipts_survive_restart any (sim_backend, sim_netw) st2.1.2 r st rest restart "m"%string).
  - apply sim_started.
  - apply sim_started.
  - apply sim_started.
  - exact (sim_guarded st2.1 sim_rounds).
  - exact Hr.
  - done.
  - exact E.
  - done.
  - done.
Defined.

(** The first application of the endpoint, as the importer makes it. *)
Definition sim_route : ImportedType2Route :=
  match (map_to_list (ti_active st2.1.1.1)) with (_, r) :: _ => r | [] => receiptRoute (newReceipt sim_backend sim_network (desired_route 0 sim_network zero_endpoint)) end.


Lemma counters_bounded_witness :
  bounded st2.1.1.1 st2.1.2.1 /\ forward (st0.1.1, st0.2) (st2.1.1.1, st2.1.2) /\ ti_epoch st2.1.1.1 = 1.
Proof.
  assert (bounded st2.1.1.1 st2.1.2.1 /\ forward (st0.1.1, st0.2) (st2.1.1.1, st2.1.2)) as [Hb Hf].
  { apply (counters_stay_bounded _ _ _ _ sim_netw st0 st2.1 sim_started); [reflexivity|exact sim_rounds]. }
  split_and!; [exact Hb|exact Hf|run].
Defined.

(** A round of the unverified importer that programs one route. *)
Lemma order_free_witness :
  lost0.2 = Ok tt /\ exists w received desired, w = ([] : list (string * string), false) /\ length received = 1%nat /\
    desired_routes run_validator received = Ok desired /\ lost0.1.1 = target ∅ desired.
Proof.
  split; [run|].
  destruct (ReconcileOnce_order_free (ret [endpoint_a "192.0.2.7"]) run_validator flaky_backend (∅, ([], false)) lost0.1)
    as (w & received & desired & [= <- <-] & Hd & E).
  - assert (lost0.2 = Ok tt) as <- by run. apply surjective_pairing.
  - exists ([], false), [endpoint_a "192.0.2.7"], desired. split_and!; [reflexivity|reflexivity|exact Hd|exact E].
Defined.

(** A RIB that cannot be read. *)
Definition no_rib : M flaky (list ReceivedType2Route) := fail (Errorf "unavailable").
Definition patient (_ : Z) (w : flaky) : flaky * option error := (w, None).

Lemma Run_gives_up_witness :
  is_Some (Run no_rib run_validator flaky_backend patient 3 (∅, ([], false))) /\
  Run no_rib run_validator flaky_backend patient 2 (∅, ([], false)) = None.
Proof.
  split; [|run]. apply (Run_gives_up no_rib run_validator flaky_backend patient (∅, ([], false)) 3).
  - reflexivity.
  - unfold maxRetries. lia.
Defined.
