(* ===== verification/SimModel1.v ===== *)
(** * Concrete databases of OVS and OVN

    In-memory databases for the OVSDB programmer: tables by UUID, atomic transactions, and
    the garbage collection of rows that nothing refers to.  They hold rows that belong to
    somebody else, and keep them.  An in-memory tunnel programmer for the handler. *)

From S2P Require Import Prelude GoStd Journal Sim Type2 Reconciler GobgpAdapter ExportRecovery.
From S2P Require Import Exporter RemoteType2 SimWorld SimRemote Model1 Model1Safety Model1Programmer Model1ProgrammerSafety.

(** ** Tables *)

Record dbw := {
  db_bridges : gmap string VBridge; db_ports : gmap string VPort; db_interfaces : gmap string VInterface; db_root : VRoot;
  db_switches : gmap string NSwitch; db_lsps : gmap string NPort; db_next : Z;
}.
Definition on_bridges f w := {| db_bridges := f (db_bridges w); db_ports := db_ports w; db_interfaces := db_interfaces w; db_root := db_root w;
  db_switches := db_switches w; db_lsps := db_lsps w; db_next := db_next w |}.
Definition on_ports f w := {| db_bridges := db_bridges w; db_ports := f (db_ports w); db_interfaces := db_interfaces w; db_root := db_root w;
  db_switches := db_switches w; db_lsps := db_lsps w; db_next := db_next w |}.
Definition on_interfaces f w := {| db_bridges := db_bridges w; db_ports := db_ports w; db_interfaces := f (db_interfaces w); db_root := db_root w;
  db_switches := db_switches w; db_lsps := db_lsps w; db_next := db_next w |}.
Definition on_root f w := {| db_bridges := db_bridges w; db_ports := db_ports w; db_interfaces := db_interfaces w; db_root := f (db_root w);
  db_switches := db_switches w; db_lsps := db_lsps w; db_next := db_next w |}.
Definition on_switches f w := {| db_bridges := db_bridges w; db_ports := db_ports w; db_interfaces := db_interfaces w; db_root := db_root w;
  db_switches := f (db_switches w); db_lsps := db_lsps w; db_next := db_next w |}.
Definition on_lsps f w := {| db_bridges := db_bridges w; db_ports := db_ports w; db_interfaces := db_interfaces w; db_root := db_root w;
  db_switches := db_switches w; db_lsps := f (db_lsps w); db_next := db_next w |}.
Definition on_next f w := {| db_bridges := db_bridges w; db_ports := db_ports w; db_interfaces := db_interfaces w; db_root := db_root w;
  db_switches := db_switches w; db_lsps := db_lsps w; db_next := f (db_next w) |}.

(** The rows of a table, with their identifiers. *)
Definition bridge_row (kv : string * VBridge) : VBridge :=
  {| vb_UUID := kv.1; vb_Name := vb_Name kv.2; vb_Ports := vb_Ports kv.2; vb_FailMode := vb_FailMode kv.2; vb_Controller := vb_Controller kv.2;
     vb_ExternalIDs := vb_ExternalIDs kv.2 |}.
Definition port_row (kv : string * VPort) : VPort :=
  {| vp_UUID := kv.1; vp_Name := vp_Name kv.2; vp_Interfaces := vp_Interfaces kv.2; vp_ExternalIDs := vp_ExternalIDs kv.2 |}.
Definition interface_row (kv : string * VInterface) : VInterface :=
  {| vi_UUID := kv.1; vi_Name := vi_Name kv.2; vi_Type := vi_Type kv.2; vi_Options := vi_Options kv.2; vi_ExternalIDs := vi_ExternalIDs kv.2 |}.
Definition switch_row (kv : string * NSwitch) : NSwitch := {| ns_UUID := kv.1; ns_Name := ns_Name kv.2; ns_Ports := ns_Ports kv.2 |}.
Definition lsp_row (kv : string * NPort) : NPort :=
  {| np_UUID := kv.1; np_Name := np_Name kv.2; np_Type := np_Type kv.2; np_Addresses := np_Addresses kv.2; np_Options := np_Options kv.2;
     np_Tag := np_Tag kv.2; np_ExternalIDs := np_ExternalIDs kv.2 |}.

(** ** Transactions *)

(** A set column after a mutation. *)
Definition mutate (insert : bool) (x : string) (l : list string) : list string :=
  if insert then if bool_decide (x ∈ l) then l else l ++ [x] else filter (fun y => y <> x) l.
Definition create {A} (uuid : string) (x : A) (m : gmap string A) : option (gmap string A) :=
  match m !! uuid with Some _ => None | None => Some (<[uuid := x]> m) end.
Definition apply_v (r : VRequest) (w : dbw) : option dbw :=
  match r with
  | VCreateBridge b => (fun m => on_bridges (fun _ => m) w) <$> create (vb_UUID b) b (db_bridges w)
  | VCreatePort p => (fun m => on_ports (fun _ => m) w) <$> create (vp_UUID p) p (db_ports w)
  | VCreateInterface i => (fun m => on_interfaces (fun _ => m) w) <$> create (vi_UUID i) i (db_interfaces w)
  | VMutateRoot ins _ u => Some (on_root (fun r => {| vr_UUID := vr_UUID r; vr_Bridges := mutate ins u (vr_Bridges r); vr_ExternalIDs := vr_ExternalIDs r |}) w)
  | VUpdateRoot _ ids => Some (on_root (fun r => {| vr_UUID := vr_UUID r; vr_Bridges := vr_Bridges r; vr_ExternalIDs := ids |}) w)
  | VMutateBridge ins b p => Some (on_bridges (alter (fun b =>
      {| vb_UUID := vb_UUID b; vb_Name := vb_Name b; vb_Ports := mutate ins p (vb_Ports b); vb_FailMode := vb_FailMode b; vb_Controller := vb_Controller b;
         vb_ExternalIDs := vb_ExternalIDs b |}) (vb_UUID b)) w)
  | VUpdateInterface i => Some (on_interfaces (alter (fun o =>
      {| vi_UUID := vi_UUID o; vi_Name := vi_Name o; vi_Type := vi_Type i; vi_Options := vi_Options i; vi_ExternalIDs := vi_ExternalIDs i |}) (vi_UUID i)) w)
  | VUpdatePort p => Some (on_ports (alter (fun o =>
      {| vp_UUID := vp_UUID o; vp_Name := vp_Name o; vp_Interfaces := vp_Interfaces p; vp_ExternalIDs := vp_ExternalIDs p |}) (vp_UUID p)) w)
  | VDeleteBridge u => Some (on_bridges (delete u) w)
  | VDeletePort u => Some (on_ports (delete u) w)
  | VDeleteInterface u _ => Some (on_interfaces (delete u) w)
  end.
Definition apply_n (r : NRequest) (w : dbw) : option dbw :=
  match r with
  | NCreatePort p => (fun m => on_lsps (fun _ => m) w) <$> create (np_UUID p) p (db_lsps w)
  | NDeletePort u => Some (on_lsps (delete u) w)
  | NMutateSwitch ins s p => Some (on_switches (alter (fun s => {| ns_UUID := ns_UUID s; ns_Name := ns_Name s; ns_Ports := mutate ins p (ns_Ports s) |}) (ns_UUID s)) w)
  end.
(** Rows that nothing refers to go away. *)
Definition used {A} (refs : list string) (m : gmap string A) : gmap string A := filter (fun kv => kv.1 ∈ refs) m.
Definition collect (w : dbw) : dbw :=
  let w := on_bridges (used (vr_Bridges (db_root w))) w in
  let w := on_ports (used (concat ((fun kv => vb_Ports kv.2) <$> map_to_list (db_bridges w)))) w in
  on_interfaces (used (concat ((fun kv => vp_Interfaces kv.2) <$> map_to_list (db_ports w)))) w.
(** All of a transaction, or nothing. *)
Definition run_all {Op} (apply : Op -> dbw -> option dbw) (finish : dbw -> dbw) (ops : list Op) : M dbw (list OpResult) := fun w =>
  match foldr (fun op k w => apply op w ≫= k) Some ops w with
  | Some w' => (finish w', Ok ((fun _ => {| op_Error := ""; op_Count := 1 |}) <$> ops))
  | None => (w, Ok [{| op_Error := "constraint violation"; op_Count := 0 |}])
  end.
Definition new_uuid : M dbw string := fun w => (on_next (Z.succ) w, Ok ("u" +:+ itoa (db_next w))%string).
Definition rows {A B} (row : string * A -> B) (table : dbw -> gmap string A) : M dbw (list B) := fun w => (w, Ok (row <$> map_to_list (table w))).

Definition sim_ovs : OvsClient dbw VRequest := {|
  ov_Bridges := rows bridge_row db_bridges; ov_Ports := rows port_row db_ports; ov_Interfaces := rows interface_row db_interfaces;
  ov_Roots := fun w => (w, Ok [db_root w]); ov_build r := Ok [r]; ov_Transact := run_all apply_v collect;
  ov_is_update r := match r with VUpdateRoot _ _ | VUpdateInterface _ | VUpdatePort _ => true | _ => false end; ov_NewUUID := new_uuid;
|}.
Definition sim_nbdb : NbDbClient dbw NRequest := {|
  nd_Switches := rows switch_row db_switches; nd_Ports := rows lsp_row db_lsps; nd_build r := Ok [r]; nd_Transact := run_all apply_n (fun w => w);
  nd_is_update _ := false; nd_NewUUID := new_uuid;
|}.

(** ** Rows of somebody else *)

Definition foreign_bridge : VBridge :=
  {| vb_UUID := "fb"; vb_Name := "br-ex"; vb_Ports := ["fp"]; vb_FailMode := None; vb_Controller := []; vb_ExternalIDs := ∅ |}.
Definition foreign_port : VPort := {| vp_UUID := "fp"; vp_Name := "eth0"; vp_Interfaces := ["fi"]; vp_ExternalIDs := ∅ |}.
Definition foreign_interface : VInterface :=
  {| vi_UUID := "fi"; vi_Name := "eth0"; vi_Type := "system"; vi_Options := ∅; vi_ExternalIDs := ∅ |}.
Definition foreign_lsp : NPort :=
  {| np_UUID := "fl"; np_Name := "vm"; np_Type := ""; np_Addresses := ["dynamic"]; np_Options := ∅; np_Tag := None; np_ExternalIDs := ∅ |}.
Record foreign_kept (w : dbw) : Prop := {
  fk_bridge : db_bridges w !! "fb"%string = Some foreign_bridge; fk_port : db_ports w !! "fp"%string = Some foreign_port;
  fk_interface : db_interfaces w !! "fi"%string = Some foreign_interface; fk_attached : "fb"%string ∈ vr_Bridges (db_root w);
  fk_host : vr_ExternalIDs (db_root w) !! "hostname"%string = Some "node-1"%string; fk_lsp : db_lsps w !! "fl"%string = Some foreign_lsp;
  fk_switch : exists s, db_switches w !! "sw"%string = Some s /\ ns_Name s = "ls"%string /\ "fl"%string ∈ ns_Ports s;
}.

Lemma mutate_keeps (ins : bool) x y l : y ∈ l -> (ins = false -> x <> y) -> y ∈ mutate ins x l.
Proof.
  intros Hy Hne. unfold mutate. destruct ins; [case_bool_decide; set_solver|]. apply list_elem_of_filter. split; [|done]. intros ->. by apply Hne.
Qed.
Lemma create_keeps {A} u (x y : A) m m' k : create u x m = Some m' -> m !! k = Some y -> m' !! k = Some y.
Proof. unfold create. destruct (m !! u) eqn:E; [done|]. intros [= <-] Hk. rewrite lookup_insert_ne; [done|]. intros ->. congruence. Qed.
Lemma used_keeps {A} refs (m : gmap string A) k x : m !! k = Some x -> k ∈ refs -> used refs m !! k = Some x.
Proof. intros. by apply map_lookup_filter_Some. Qed.
Lemma referred {A} (f : A -> list string) (m : gmap string A) k x y : m !! k = Some x -> y ∈ f x -> y ∈ concat ((fun kv => f kv.2) <$> map_to_list m).
Proof.
  intros Hk Hy. apply list_elem_of_In, in_concat. exists (f x). split; [|by apply list_elem_of_In]. apply list_elem_of_In, list_elem_of_fmap.
  exists (k, x). split; [done|]. by apply elem_of_map_to_list.
Qed.
Lemma unmanaged : ~ managed ∅.
Proof. unfold managed, id_at. by rewrite lookup_empty. Qed.

(** A listed row with the mark is not one of the foreign ones. *)
Lemma listed_bridge b : listed foreign_kept (ov_Bridges sim_ovs) b -> managed (vb_ExternalIDs b) -> vb_UUID b <> "fb"%string.
Proof.
  intros (w & w' & l & Hw & [= <- <-] & ([k x] & -> & Hkx%elem_of_map_to_list)%list_elem_of_fmap) Hm E. simpl in *. subst k.
  rewrite (fk_bridge w Hw) in Hkx. simplify_eq. by apply unmanaged.
Qed.
Lemma listed_port p : listed foreign_kept (ov_Ports sim_ovs) p -> managed (vp_ExternalIDs p) -> vp_UUID p <> "fp"%string.
Proof.
  intros (w & w' & l & Hw & [= <- <-] & ([k x] & -> & Hkx%elem_of_map_to_list)%list_elem_of_fmap) Hm E. simpl in *. subst k.
  rewrite (fk_port w Hw) in Hkx. simplify_eq. by apply unmanaged.
Qed.
Lemma listed_interface i : listed foreign_kept (ov_Interfaces sim_ovs) i -> managed (vi_ExternalIDs i) -> vi_UUID i <> "fi"%string.
Proof.
  intros (w & w' & l & Hw & [= <- <-] & ([k x] & -> & Hkx%elem_of_map_to_list)%list_elem_of_fmap) Hm E. simpl in *. subst k.
  rewrite (fk_interface w Hw) in Hkx. simplify_eq. by apply unmanaged.
Qed.
Lemma listed_lsp p : listed foreign_kept (nd_Ports sim_nbdb) p -> managed (np_ExternalIDs p) -> np_UUID p <> "fl"%string.
Proof.
  intros (w & w' & l & Hw & [= <- <-] & ([k x] & -> & Hkx%elem_of_map_to_list)%list_elem_of_fmap) Hm E. simpl in *. subst k.
  rewrite (fk_lsp w Hw) in Hkx. simplify_eq. by apply unmanaged.
Qed.
Lemma new_uuid_fresh u w w' : new_uuid w = (w', Ok u) -> exists s, u = ("u" +:+ s)%string.
Proof. intros [= <- <-]. by eexists. Qed.

Lemma apply_v_keeps r w w' : v_allowed sim_ovs foreign_kept r -> foreign_kept w -> apply_v r w = Some w' -> foreign_kept w'.
Proof.
  intros Ha Hw H. pose proof Hw as [Hb Hp Hi Hr Hh Hl Hs].
  destruct Ha as [| | | | |root n ids Hl0 He| |i Hm0 Ho|p Hm0 Ho| | |]; simpl in H; try (apply fmap_Some in H as (m & Hc & ->)); simplify_eq/=.
  - split; simpl; try done. by eapply create_keeps.
  - split; simpl; try done. by eapply create_keeps.
  - split; simpl; try done. by eapply create_keeps.
  - split; simpl; try done. by apply (mutate_keeps true).
  - split; simpl; try done. apply (mutate_keeps false); [done|]. intros _. by apply listed_bridge.
  - split; simpl; try done. destruct Hl0 as (w0 & w1 & l & Hw0 & [= <- <-] & ->%list_elem_of_singleton). destruct He as [He _].
    rewrite He; [apply (fk_host w0 Hw0)|discriminate|]. unfold model1BridgeMappingOwnerKey. discriminate.
  - split; simpl; try done. rewrite lookup_alter_ne; [done|]. by apply listed_bridge.
  - split; simpl; try done. rewrite lookup_alter_ne; [done|]. destruct Ho as [(w0 & w1 & _ & [s ->]%new_uuid_fresh)|(old & Ho & Hm & ->)]; [done|by apply listed_interface].
  - split; simpl; try done. rewrite lookup_alter_ne; [done|]. destruct Ho as [(w0 & w1 & _ & [s ->]%new_uuid_fresh)|(old & Ho & Hm & ->)]; [done|by apply listed_port].
  - split; simpl; try done. rewrite lookup_delete_ne; [done|]. by apply listed_bridge.
  - split; simpl; try done. rewrite lookup_delete_ne; [done|]. by apply listed_port.
  - split; simpl; try done. rewrite lookup_delete_ne; [done|]. by apply listed_interface.
Qed.
Lemma apply_n_keeps r w w' : n_allowed sim_nbdb foreign_kept r -> foreign_kept w -> apply_n r w = Some w' -> foreign_kept w'.
Proof.
  intros Ha Hw H. pose proof Hw as [Hb Hp Hi Hr Hh Hl Hs].
  destruct Ha as [| |ins s port Hs0 Hport]; simpl in H; try (apply fmap_Some in H as (m & Hc & ->)); simplify_eq/=.
  - split; simpl; try done. by eapply create_keeps.
  - split; simpl; try done. rewrite lookup_delete_ne; [done|]. by apply listed_lsp.
  - split; simpl; try done. destruct Hs as (s0 & Hs & Hn & Hin). destruct (decide (ns_UUID s = "sw"%string)) as [->|Hne].
    + rewrite lookup_alter_eq, Hs. eexists. split_and!; [done|done|]. simpl. apply mutate_keeps; [done|]. intros ->.
      destruct Hport as [(p & ? & ? & <-)|[? _]]; [by apply listed_lsp|done].
    + rewrite lookup_alter_ne by done. by exists s0.
Qed.
Lemma collect_keeps w : foreign_kept w -> foreign_kept (collect w).
Proof.
  intros [Hb Hp Hi Hr Hh Hl Hs].
  assert (used (vr_Bridges (db_root w)) (db_bridges w) !! "fb"%string = Some foreign_bridge) as Hb' by (by apply used_keeps).
  split; simpl; try done.
  - apply used_keeps; [done|]. eapply (referred vb_Ports); [exact Hb'|left].
  - apply used_keeps; [done|]. eapply (referred vp_Interfaces _ _ foreign_port); [|left]. apply used_keeps; [exact Hp|]. eapply (referred vb_Ports); [exact Hb'|left].
Qed.

Lemma run_all_keeps {Op} (apply : Op -> dbw -> option dbw) finish ops :
  (forall op w w', op ∈ ops -> foreign_kept w -> apply op w = Some w' -> foreign_kept w') -> (forall w, foreign_kept w -> foreign_kept (finish w)) ->
  preserves foreign_kept (run_all apply finish ops).
Proof.
  intros Ha Hf w Hw. unfold run_all. destruct (foldr _ Some ops w) as [w'|] eqn:E; [|done]. apply Hf. clear Hf.
  revert w Hw E. induction ops as [|op ops IH]; intros w Hw E; simpl in E; [by simplify_eq|].
  destruct (apply op w) as [w1|] eqn:E1; [|done]. simpl in E. eapply IH; [intros; eapply Ha; [by right|..]; done| |exact E]. eapply Ha; [left|done|done].
Qed.
Lemma built_self {A} (l acc ops : list A) : rfold (fun acc r => let? ops := Ok [r] in Ok (acc ++ ops)) acc l = Ok ops -> ops = acc ++ l.
Proof. revert acc. induction l as [|x l IH]; intros acc; simpl; [intros [= ->]; by rewrite app_nil_r|]. intros ->%IH. by rewrite <-app_assoc. Qed.

Lemma sim_keeps : keeps sim_ovs sim_nbdb foreign_kept.
Proof.
  split; try (intros w Hw; exact Hw); try (intros w []; by split).
  - intros requests ops Ha ->%built_self. apply run_all_keeps; [|apply collect_keeps]. intros op w w' Hop. apply apply_v_keeps.
    rewrite Forall_forall in Ha. by apply Ha.
  - intros requests ops Ha ->%built_self. apply run_all_keeps; [|done]. intros op w w' Hop. apply apply_n_keeps. rewrite Forall_forall in Ha. by apply Ha.
Qed.
