(* ===== verification/Model1Witnesses.v ===== *)
(** * Witnesses for the OVSDB-programmed integration

    The handler runs on the RIB of [SimRemote]: with an in-memory tunnel store that fails
    once, and with [LibovsdbModel1Programmer] on the databases of [SimModel1]. *)

From S2P Require Import Prelude GoStd Journal Sim Type2 Reconciler GobgpAdapter ExportRecovery.
From S2P Require Import Exporter RemoteType2 SimWorld SimRemote Model1 Model1Safety Model1Programmer Model1ProgrammerSafety SimModel1.

(** ** A tunnel store that can be down *)

Record tunnelw := { tw_tunnels : gmap string Model1Tunnel; tw_down : bool }.
#[local] Instance tunnelw_ctx : Ctx tunnelw := fun _ => None.
Definition store_write (f : gmap string Model1Tunnel -> gmap string Model1Tunnel) : M tunnelw unit := fun w =>
  if tw_down w then (w, Err (Errorf "down")) else ({| tw_tunnels := f (tw_tunnels w); tw_down := false |}, Ok tt).
Definition sim_programmer : Model1TunnelProgrammer tunnelw := {|
  tp_DeleteProviderBridge _ := ret tt; tp_EnsureNetwork _ := ret tt; tp_DeleteNetwork _ := ret tt;
  tp_EnsureTunnel t := store_write <[model1TunnelID (mt_Key t) := t]>; tp_DeleteTunnel t := store_write (delete (model1TunnelID (mt_Key t)));
|}.
#[local] Instance sim_store : TunnelStore sim_programmer.
Proof.
  refine {| tunnels := tw_tunnels |}; simpl; try (intros n w w' r [= <- <-]; done);
    intros t w w' r; unfold store_write; destruct (tw_down w); intros [= <- <-]; simpl; auto.
Defined.

(** ** Rounds *)

Section rounds.
Context {W : Type}.
Definition m1_reader : ReadOnlyType2Importer W :=
  {| im_source := ret {| raw_Paths := sim_remote_rib; raw_Complete := true |}; im_config := sim_import_config;
     im_confirmed := zero_snapshot; im_pending := "" |}.
Definition m1_network : Model1Network :=
  {| mn_NetworkID := "net"; mn_LogicalSwitch := "ls"; mn_PhysicalNetwork := "physnet1"; mn_ProviderBridge := "br-evpn"; mn_VNI := 100 |}.
Definition m1_config : Model1Config := {| mc_Networks := [m1_network]; mc_UDPPort := 4789; mc_ExclusiveWriter := true |}.
Definition m1_handler : Model1Type2Handler W :=
  {| mh_reader := m1_reader; mh_config := m1_config; mh_active := ∅; mh_generation := 0; mh_digest := "" |}.
End rounds.
Example m1_handler_new : NewModel1Type2Handler (Some m1_reader) m1_config = Ok (m1_handler : Model1Type2Handler tunnelw).
Proof. run. Qed.

(** What the reader confirms. *)
Definition m1_snapshot : RemoteImportSnapshot :=
  let i := (Poll (m1_reader, {| tw_tunnels := ∅; tw_down := false |})).1 in (Poll i).2.1.
Definition down : tunnelw := {| tw_tunnels := ∅; tw_down := true |}.
Definition up : tunnelw := {| tw_tunnels := ∅; tw_down := false |}.
Definition m1_failed := ReconcileSnapshot sim_programmer m1_snapshot (m1_handler, down).
Definition m1_done := ReconcileSnapshot sim_programmer m1_snapshot (m1_failed.1.1, up).
Definition m1_tunnel : Model1Tunnel := default
  {| mt_Key := {| tk_NetworkID := ""; tk_LogicalSwitch := ""; tk_VNI := 0; tk_RemoteVTEP := "" |}; mt_Name := ""; mt_Addresses := []; mt_UDPPort := 0; mt_Bridge := "" |}
  (snd <$> head (map_to_list (tw_tunnels m1_done.1.2))).


Lemma stale_snapshot_witness : exists e, ReconcileSnapshot sim_programmer zero_snapshot m1_done.1 = (m1_done.1, Err e).
Proof. apply stale_snapshot_inert. left. reflexivity. Defined.

Lemma bridge_mappings_witness :
  parseModel1BridgeMappings (formatModel1BridgeMappings {["physnet1" := "br-evpn"; "physnet0" := "br-ex"]}) = Ok {["physnet1" := "br-evpn"; "physnet0" := "br-ex"]}
  /\ formatModel1BridgeMappings {["physnet1" := "br-evpn"; "physnet0" := "br-ex"]} = "physnet0:br-ex,physnet1:br-evpn"%string.
Proof.
  split; [|run]. apply bridge_mappings_roundtrip.
  intros k v [[<- <-]|[_ [<- <-]%lookup_singleton_Some]]%lookup_insert_Some; run.
Defined.

(** ** The programmer on the databases *)

#[local] Instance dbw_ctx : Ctx dbw := fun _ => None.
Definition db0 : dbw := {|
  db_bridges := {["fb" := foreign_bridge]}; db_ports := {["fp" := foreign_port]}; db_interfaces := {["fi" := foreign_interface]};
  db_root := {| vr_UUID := "root"; vr_Bridges := ["fb"]; vr_ExternalIDs := {["hostname" := "node-1"; "ovn-bridge-mappings" := "physnet0:br-ex"]} |};
  db_switches := {["sw" := {| ns_UUID := "sw"; ns_Name := "ls"; ns_Ports := ["fl"] |}]}; db_lsps := {["fl" := foreign_lsp]}; db_next := 0;
|}.
Definition libovsdb := LibovsdbModel1Programmer sim_ovs sim_nbdb.
(** One round programs the tunnel; an empty snapshot then takes everything away. *)
Definition db_round := ReconcileSnapshot libovsdb m1_snapshot (m1_handler, db0).
Definition db_again := ReconcileSnapshot libovsdb m1_snapshot db_round.1.
Definition m1_empty : RemoteImportSnapshot :=
  {| is_Authoritative := true; is_Generation := is_Generation m1_snapshot + 1; is_Endpoints := []; is_Issues := [] |}.
Definition db_empty := ReconcileSnapshot libovsdb m1_empty db_again.1.
Example libovsdb_run :
  (db_round.2, db_again.2, db_empty.2) = (Ok tt, Ok tt, Ok tt)
  /\ sort_Strings (vi_Name ∘ snd <$> map_to_list (db_interfaces db_again.1.2)) = ["br-evpn"; "eth0"; mt_Name m1_tunnel]%string
  /\ id_at model1BridgeMappingsKey (vr_ExternalIDs (db_root db_again.1.2)) = "physnet0:br-ex,physnet1:br-evpn"%string
  /\ length (map_to_list (db_lsps db_again.1.2)) = 2%nat
  /\ db_interfaces db_empty.1.2 = {["fi" := foreign_interface]} /\ db_root db_empty.1.2 = db_root db0 /\ db_lsps db_empty.1.2 = {["fl" := foreign_lsp]}.
Proof. split_and!; run. Qed.

(** After the network and the tunnel are programmed the foreign rows are as before. *)
Definition db_network := tp_EnsureNetwork libovsdb m1_network db0.
Definition db_tunnel := tp_EnsureTunnel libovsdb m1_tunnel db_network.1.

(** ** A lost answer *)

(** The database commits the transaction that creates a tunnel, and its answer is lost. *)
Definition lossy_ovs : OvsClient dbw VRequest := {|
  ov_Bridges := ov_Bridges sim_ovs; ov_Ports := ov_Ports sim_ovs; ov_Interfaces := ov_Interfaces sim_ovs; ov_Roots := ov_Roots sim_ovs;
  ov_build := ov_build sim_ovs; ov_is_update := ov_is_update sim_ovs; ov_NewUUID := ov_NewUUID sim_ovs;
  ov_Transact ops := fun w =>
    let '(w', r) := ov_Transact sim_ovs ops w in
    if existsb (fun op => match op with VCreateInterface i => bool_decide (vi_Type i = "vxlan"%string) | _ => false end) ops
    then (w', Err (Errorf "connection lost")) else (w', r);
|}.
Definition lost_round := ReconcileSnapshot (LibovsdbModel1Programmer lossy_ovs sim_nbdb) m1_snapshot (m1_handler, db0).
Definition stuck_round := ReconcileSnapshot libovsdb m1_empty lost_round.1.
(** The handler does not know the tunnel, so no later snapshot withdraws it, and the
    withdrawal of the network is refused because of it: the state never changes again. *)
Example lost_answer_orphans_tunnel :
  is_ok lost_round.2 = false /\ mh_active lost_round.1.1 = ∅
  /\ is_ok stuck_round.2 = false /\ stuck_round.1.2 = lost_round.1.2 /\ mh_active stuck_round.1.1 = ∅
  /\ length (map_to_list (db_interfaces stuck_round.1.2)) = 3%nat.
Proof. split_and!; run. Qed.
