(* ===== verification/ExportWitnesses.v ===== *)
(** * Witnesses for the observers

    One pod attached to a chassis, one port that OVN serves there and one owned by the
    framework, in the three databases; the observers see them and an exporter advertises the
    pod. *)

From S2P Require Import Prelude GoStd Journal Sim Type2 Reconciler GobgpAdapter ExportRecovery Exporter SimWorld Attachment Endpoint Observer.
From S2P Require Import CniTypes CniServer CniContinuity ExportObserver ExportObserverSafety.

(** ** Databases *)

Definition x_network (id ls source : string) : EVPNNetworkConfig :=
  {| n_NetworkID := id; n_LogicalSwitch := ls; n_Enabled := true; n_VNI := 100; n_RouteDistinguisher := "65000:1"; n_RouteTargets := ["65000:100"];
     n_LocalVTEP := "192.0.2.1"; n_ExporterSource := source; n_BridgeDevice := "br0"; n_VXLANDevice := "vx0"; n_AdvertiseDevice := "adv0" |}.
Definition x_config : ExporterConfig :=
  {| c_Enabled := true; c_DryRun := false; c_ProcessContinuity := true; c_NodeName := "node"; c_LocalChassis := "chassis-1"; c_GRPCEndpoint := "";
     c_ASN := 65000; c_RouterID := "192.0.2.1"; c_Networks := [x_network "net" "ls" ""; x_network "native" "lsn" "ovn-netlink"];
     c_AttestationConfigPath := ""; c_Recovery := None |}.
Definition x_spec : EndpointSpec :=
  {| sp_ID := "net|att|pod-1"; sp_NetworkID := "net"; sp_AttachmentID := "att"; sp_Incarnation := "c1";
     sp_Workload := {| wl_Kind := "pod"; wl_UID := "pod-1"; wl_Name := "p"; wl_Namespace := "default"; wl_NodeName := "node" |};
     sp_LogicalSwitch := "ls"; sp_LogicalSwitchPort := "lsp-1"; sp_OVSInterfaceName := "veth1"; sp_MACAddress := "0a:00:00:00:00:01";
     sp_IPAddresses := ["10.0.0.5/24"] |}.
Definition x_record : endpointRecord :=
  {| rec_identity := Some {| ei_EndpointId := "net|att|pod-1"; ei_NetworkId := "net"; ei_AttachmentId := "att"; ei_WorkloadUid := "pod-1"; ei_Incarnation := "c1" |};
     rec_runtime := Some {| rt_CniVersion := "1.0.0"; rt_ContainerId := "c1"; rt_NetnsPath := "/ns"; rt_IfName := "eth0" |};
     rec_attachment := None; rec_result := None; rec_endpointSpec := x_spec |}.
Definition x_settings : gmap string string :=
  list_to_map (("dynamic-routing-redistribute"%string, "nat,fdb"%string) :: native_settings (x_network "native" "lsn" "ovn-netlink")).
Definition x_data : exportSnapshot := {|
  es_Switches := [{| xs_UUID := "s1"; xs_Name := "ls"; xs_Ports := ["l1"]; xs_OtherConfig := ∅ |};
                  {| xs_UUID := "s2"; xs_Name := "lsn"; xs_Ports := ["l2"]; xs_OtherConfig := x_settings |}];
  es_LSPs := [{| lsp_UUID := "l1"; lsp_Name := "lsp-1"; lsp_Addresses := ["0A:00:00:00:00:01 10.0.0.5"]; lsp_ExternalIDs := wanted_ids x_spec |};
              {| lsp_UUID := "l2"; lsp_Name := "vm"; lsp_Addresses := ["0a:00:00:00:00:02 10.0.1.7"]; lsp_ExternalIDs := ∅ |}];
  es_Bridges := [{| br_UUID := "b1"; br_Name := "br-int"; br_Ports := ["p1"] |}];
  es_Ports := [{| po_UUID := "p1"; po_Name := "veth1"; po_Interfaces := ["i1"] |}];
  es_Interfaces := [{| xi_UUID := "i1"; xi_Name := "veth1"; xi_ExternalIDs := wanted_ids x_spec; xi_Ofport := Some 7; xi_Error := None |}];
  es_Bindings := [{| xb_UUID := "pb1"; xb_LogicalPort := "lsp-1"; xb_Chassis := Some "ch1"%string; xb_Up := Some true; xb_Datapath := "d1"; xb_Type := "";
                     xb_MAC := ["0a:00:00:00:00:01 10.0.0.5"]; xb_Options := ∅ |};
                  {| xb_UUID := "pb2"; xb_LogicalPort := "vm"; xb_Chassis := Some "ch1"%string; xb_Up := Some true; xb_Datapath := "d2"; xb_Type := "";
                     xb_MAC := ["0a:00:00:00:00:02 10.0.1.7"]; xb_Options := ∅ |}];
  es_Chassis := [{| xc_UUID := "ch1"; xc_Name := "chassis-1" |}; {| xc_UUID := "ch2"; xc_Name := "chassis-2" |}];
  es_Datapaths := [{| xd_UUID := "d2"; xd_ExternalIDs := {["logical-switch" := "s2"]} |}];
|}.
Definition x_backend : networkBackend simw := {|
  nb_Ensure _ _ := fail (Errorf "unused"); nb_Delete _ _ := ret tt; nb_DeleteAcknowledged := None;
  nb_Check _ _ := ret {| ns_HostIfName := "veth1"; ns_ContainerIfName := "eth0"; ns_MACAddress := "0a:00:00:00:00:01"; ns_StaticIPCIDR := "10.0.0.5/24" |};
|}.
Definition x_records (_ : simw) : gmap string endpointRecord := {["k" := x_record]}.
Definition x_snapshot : M simw exportSnapshot := ret x_data.

(** ** The observers *)

Definition x_observer := cni_DesiredLocalEndpoints x_snapshot x_records x_backend x_config.
Definition x_observed := x_observer ([], sim_world).

Lemma export_reason_run : exportDataplaneReason x_spec x_record (x_network "net" "ls" "") "chassis-1" x_data = ""%string.
Proof. run. Qed.

Lemma cni_observer_witness :
  (exists data w1, x_snapshot sim_world = (w1, Ok data)
    /\ forall ep, ep ∈ [local_endpoint x_config (x_network "net" "ls" "") x_spec (Addr4 10 0 0 5)] <-> exists key rec, x_records w1 !! key = Some rec /\ exported x_config data rec ep)
  /\ eo_State <$> x_observed.1.1 = ["ready"%string].
Proof.
  split; [|run]. destruct (cni_observer_exact x_snapshot x_records x_backend x_config [] sim_world x_observed.1
    [local_endpoint x_config (x_network "net" "ls" "") x_spec (Addr4 10 0 0 5)]) as (data & w1 & H1 & H2 & _).
  - assert (x_observed.2 = Ok [local_endpoint x_config (x_network "net" "ls" "") x_spec (Addr4 10 0 0 5)]) as <- by run. apply surjective_pairing.
  - by exists data, w1.
Defined.


(** ** The exporter on the observer of attachments *)

#[local] Instance x_ctx : Ctx (list ExportObservation * simw) := fun _ => None.
Definition x_exporter : EndpointExporter (list ExportObservation * simw) :=
  {| e_Observer := Some x_observer; e_Gate := Some (on_snd sim_guard); e_Continuity := Some (ret tt);
     e_Source := Some {| source_Snapshot := on_snd (source_Snapshot sim_source) |};
     e_Applier := Some {| applier_Add r := on_snd (applier_Add sim_applier r); applier_Delete r := on_snd (applier_Delete sim_applier r) |};
     e_DryRun := false; e_Recovery := None; e_reconciler := None; e_initialized := false; e_blocked := None |}.
Definition x_round := exporter_Reconcile (x_exporter, ([], sim_world)).

Lemma advertised_is_attached_witness :
  (forall k o, rr_applied (the_rr x_round.1.1) !! k = Some o -> exists key rec ep, x_records sim_world !! key = Some rec
     /\ exported x_config x_data rec ep /\ verified x_backend rec /\ equivalent (o_Endpoint o) ep)
  /\ EndpointID <$> (o_Endpoint <$> xr_Applied x_round.2.1) = ["net|att|pod-1"%string].
Proof.
  split; [|run].
  destruct (advertised_is_attached x_snapshot x_records x_backend x_config x_exporter x_round.1.1 [] sim_world x_round.1.2 x_round.2.1) as (data & w1 & H1 & H2 & _);
    [reflexivity| |reflexivity|].
  - assert (x_round.2.2 = None) as <- by run. change (x_round = (x_round.1.1, x_round.1.2, (x_round.2.1, x_round.2.2))).
    destruct x_round as [[e s] [res r]]. reflexivity.
  - unfold x_snapshot, ret in H1. simplify_eq. exact H2.
Defined.

(** ** The observer of OVN state *)

Definition x_ovn : OVNEndpointObserver unit := {|
  oo_Source := Some {| os_ListLogicalSwitchPorts := ret [{| olp_Name := "lsp-1"; olp_Addresses := ["dynamic"; "0a:00:00:00:00:01 10.0.0.5/24"]; olp_ExternalIDs := wanted_ids x_spec |};
                                                         {| olp_Name := "lsp-2"; olp_Addresses := ["0a:00:00:00:00:02 10.0.0.6"]; olp_ExternalIDs := wanted_ids x_spec |}];
                       os_ListPortBindings := ret [{| opb_LogicalPort := "lsp-1"; opb_Chassis := "chassis-2" |}; {| opb_LogicalPort := "lsp-2"; opb_Chassis := "chassis-2" |};
                                                   {| opb_LogicalPort := "lsp-1"; opb_Chassis := "chassis-1" |}] |};
  oo_LocalNode := "node"; oo_LocalChassis := "chassis-1"; oo_Networks := {["net" := x_network "net" "ls" "framework"]};
|}.
Lemma ovn_observer_witness : exists ep, ovn_DesiredLocalEndpoints x_ovn tt = (tt, Ok [ep]) /\ IPAddresses ep = ["10.0.0.5"%string]
  /\ exists lsp bindings, advertisable x_ovn bindings lsp ep.
Proof.
  destruct (ovn_DesiredLocalEndpoints x_ovn tt) as [[] [[|ep [|]]|]] eqn:E; try (vm_compute in E; discriminate E). exists ep. split; [done|].
  split; [revert E; vm_compute; by intros [= <-]|].
  destruct (ovn_observer_exact x_ovn tt tt [ep] E) as (source & ports & bindings & w1 & _ & _ & _ & _ & _ & H & _).
  destruct (H ep) as (lsp & _ & Hl); [left|]. by exists lsp, bindings.
Defined.
