(* ===== verification/VethWitnesses.v ===== *)
(** * Witnesses for the Linux backend

    A kernel with two network namespaces and a foreign interface that must stay as it is; a
    pod is attached, checked and detached there. *)

From S2P Require Import Prelude GoStd Journal Calls Type2 Attachment Endpoint CniTypes CniServer CniContinuity VethBackend VethSafety.

(** ** The kernel *)

Record simlink := { sl_ns : nat; sl_attrs : LinkAttrs; sl_addrs : list string }.
Record vethw := { vw_ns : nat; vw_links : list simlink }.
Notation sl_index l := (la_Index (sl_attrs l)).
Notation sl_peer l := (la_ParentIndex (sl_attrs l)).

Definition named (ns : nat) (name : string) (l : simlink) : bool := bool_decide (sl_ns l = ns) && bool_decide (la_Name (sl_attrs l) = name).
Definition as_link (l : simlink) : Link := {| lk_Type := "veth"; lk_Attrs := Some (sl_attrs l) |}.
(** A request names a link by its index, and by its name when it has none. *)
Definition denotes (ns : nat) (link : Link) (l : simlink) : bool :=
  match lk_Attrs link with Some a => if la_Index a =? 0 then named ns (la_Name a) l else la_Index a =? sl_index l | None => false end.
Definition sim_update (link : Link) (f : simlink -> simlink) : M vethw unit := fun w =>
  ({| vw_ns := vw_ns w; vw_links := map (fun l => if denotes (vw_ns w) link l then f l else l) (vw_links w) |}, Ok tt).
Definition with_attrs (f : LinkAttrs -> LinkAttrs) (l : simlink) : simlink := {| sl_ns := sl_ns l; sl_attrs := f (sl_attrs l); sl_addrs := sl_addrs l |}.
Definition doomed (link : Link) (l : simlink) : bool :=
  match lk_Attrs link with Some a => (la_Index a =? sl_index l) || (la_Index a =? sl_peer l) | None => false end.
Definition fresh_index (l : list simlink) : Z := foldr (fun x => Z.max (sl_index x + 1)) 1 l.
Definition new_link (ns : nat) (name alias : string) (i j : Z) : simlink :=
  {| sl_ns := ns; sl_attrs := {| la_Name := name; la_Alias := alias; la_Index := i; la_ParentIndex := j; la_Up := false; la_HardwareAddr := [] |}; sl_addrs := [] |}.

#[export] Instance sim_veth : VethKernel vethw := {
  NetNS := nat; NlAddr := string;
  LinkByName name w := (w, Ok (as_link <$> List.find (named (vw_ns w) name) (vw_links w)));
  LinkAddVeth a peer w :=
    if existsb (named (vw_ns w) (la_Name a)) (vw_links w) || existsb (named (vw_ns w) peer) (vw_links w) then (w, Err (Errorf "file exists")) else
    let i := fresh_index (vw_links w) in
    ({| vw_ns := vw_ns w; vw_links := vw_links w ++ [new_link (vw_ns w) (la_Name a) "" i (i + 1); new_link (vw_ns w) peer "" (i + 1) i] |}, Ok tt);
  LinkDel link w := ({| vw_ns := vw_ns w; vw_links := List.filter (fun l => negb (doomed link l)) (vw_links w) |}, Ok tt);
  LinkSetAlias link alias := sim_update link (with_attrs (fun a =>
    {| la_Name := la_Name a; la_Alias := alias; la_Index := la_Index a; la_ParentIndex := la_ParentIndex a; la_Up := la_Up a; la_HardwareAddr := la_HardwareAddr a |}));
  LinkSetUp link := sim_update link (with_attrs (fun a =>
    {| la_Name := la_Name a; la_Alias := la_Alias a; la_Index := la_Index a; la_ParentIndex := la_ParentIndex a; la_Up := true; la_HardwareAddr := la_HardwareAddr a |}));
  LinkSetName link name := sim_update link (with_attrs (fun a =>
    {| la_Name := name; la_Alias := la_Alias a; la_Index := la_Index a; la_ParentIndex := la_ParentIndex a; la_Up := la_Up a; la_HardwareAddr := la_HardwareAddr a |}));
  LinkSetHardwareAddr link hw := sim_update link (with_attrs (fun a =>
    {| la_Name := la_Name a; la_Alias := la_Alias a; la_Index := la_Index a; la_ParentIndex := la_ParentIndex a; la_Up := la_Up a; la_HardwareAddr := hw |}));
  LinkSetNsFd link ns := sim_update link (fun l => {| sl_ns := ns; sl_attrs := sl_attrs l; sl_addrs := sl_addrs l |});
  nl_ParseAddr s := Ok s;
  AddrAdd link a := sim_update link (fun l => {| sl_ns := sl_ns l; sl_attrs := sl_attrs l; sl_addrs := a :: sl_addrs l |});
  AddrList link w := (w, Ok (map Some (flat_map sl_addrs (List.filter (denotes (vw_ns w) link) (vw_links w)))));
  netns_Get w := (w, Ok (vw_ns w));
  netns_GetFromPath path w := (w, if bool_decide (path = "/run/netns/a"%string) then Ok 1%nat else Err (Errorf "no such file or directory"));
  netns_Set ns w := ({| vw_ns := ns; vw_links := vw_links w |}, Ok tt);
}.

(** ** A pod *)

Definition v_key : string := "net|att|net|att|uid".
Definition v_spec : EndpointSpec :=
  {| sp_ID := "net|att|uid"; sp_NetworkID := "net"; sp_AttachmentID := "att"; sp_Incarnation := "ctr";
     sp_Workload := {| wl_Kind := "pod"; wl_UID := "uid"; wl_Name := "p"; wl_Namespace := "default"; wl_NodeName := "node" |};
     sp_LogicalSwitch := "ls"; sp_LogicalSwitchPort := "lsp"; sp_OVSInterfaceName := hostVethNameForKey v_key; sp_MACAddress := "0a:00:00:00:00:01";
     sp_IPAddresses := ["10.0.0.5/24"] |}.
Definition v_record : endpointRecord :=
  {| rec_identity := Some {| ei_EndpointId := "net|att|uid"; ei_NetworkId := "net"; ei_AttachmentId := "att"; ei_WorkloadUid := "uid"; ei_Incarnation := "ctr" |};
     rec_runtime := Some {| rt_CniVersion := "1.0.0"; rt_ContainerId := "ctr"; rt_NetnsPath := "/run/netns/a"; rt_IfName := "net1" |};
     rec_attachment := Some {| ar_LogicalSwitch := "ls"; ar_OvsInterfaceName := ""; ar_StaticIpCidr := "10.0.0.5/24"; ar_StaticMac := "0a:00:00:00:00:01" |};
     rec_result := None; rec_endpointSpec := v_spec |}.
Definition v_plan : veth_plan :=
  {| vp_NetnsPath := "/run/netns/a"; vp_HostIfName := hostVethNameForKey v_key; vp_PeerIfName := peerVethNameForKey v_key; vp_ContainerIfName := "net1";
     vp_MAC := "0a:00:00:00:00:01"; vp_IPCIDR := "10.0.0.5/24"; vp_Owner := ownerAliasForKey v_key |}.
Lemma v_request : veth_request v_key v_record = Ok v_plan.
Proof. vm_compute. reflexivity. Qed.
(** An interface of somebody else. *)
Definition foreign : simlink := new_link 0 "eth0" "uplink" 7 0.
Definition v_home : vethw := {| vw_ns := 0; vw_links := [foreign] |}.

(** ** The contract *)

(** The foreign interface is as it was, beside it there is nothing but the pair. *)
Definition mine (l : simlink) : Prop := (sl_index l = 8 /\ sl_peer l = 9) \/ (sl_index l = 9 /\ sl_peer l = 8).
Definition beside (ns : nat) (good : list simlink -> Prop) (w : vethw) : Prop := vw_ns w = ns /\ exists ls, vw_links w = foreign :: ls /\ good ls.
(** Nothing else, or, when [b], a pair in place. *)
Definition settled (b : bool) (ls : list simlink) : Prop :=
  ls = [] \/ b = true /\ Forall mine ls /\ existsb (named 0 (hostVethNameForKey v_key)) ls = true.
Lemma settled_mine b ls : settled b ls -> Forall mine ls.
Proof. intros [->|(_ & H & _)]; [constructor|done]. Qed.

Definition of_pair (link : Link) : Prop := exists l, link = as_link l /\ mine l.
Lemma seen_pair ns good name link : (forall ls, good ls -> Forall mine ls) -> named ns name foreign = false -> seen (beside ns good) name link -> of_pair link.
Proof.
  intros Hg Hn (w & w' & (<- & ls & Els & Hls) & H). apply Hg in Hls. simpl in H. rewrite Els in H. simpl in H. rewrite Hn in H.
  destruct (List.find _ ls) as [l|] eqn:E; simplify_eq. apply List.find_some in E as [Hin _]. exists l. split; [done|].
  rewrite Forall_forall in Hls. by apply Hls, list_elem_of_In.
Qed.
Lemma update_pair ns link f : (of_pair link \/ link = veth_link v_plan) -> (forall l, mine l -> mine (f l)) -> preserves (beside ns (Forall mine)) (sim_update link f).
Proof.
  intros Hl Hf w (<- & ls & Els & Hls). split; [done|]. simpl. rewrite Els. simpl. assert (Hd : denotes (vw_ns w) link foreign = false).
  { destruct Hl as [(l & -> & [[E _]|[E _]])| ->]; unfold denotes; simpl; [rewrite E; done..|]. unfold named. by rewrite andb_false_r. }
  rewrite Hd. eexists. split; [done|]. apply Forall_map. eapply Forall_impl; [exact Hls|]. intros l H. cbv beta. destruct (denotes _ _ l); [by apply Hf|exact H].
Qed.
Lemma delete_pair ns good link w : of_pair link -> Forall mine good -> vw_links w = foreign :: good -> vw_ns w = ns -> (LinkDel link w).1 = {| vw_ns := ns; vw_links := [foreign] |}.
Proof.
  intros (l & -> & Hl) Hg Els <-. simpl. f_equal. rewrite Els. simpl. assert (doomed (as_link l) foreign = false) as ->.
  { unfold doomed, as_link. cbn [lk_Attrs]. by destruct Hl as [[-> _]|[-> _]]. }
  clear Els. simpl. f_equal. induction Hg as [|x g Hx _ IH]; [done|]. simpl. assert (doomed (as_link l) x = true) as ->; [|done].
  unfold doomed, as_link. cbn [lk_Attrs]. by destruct Hl as [[-> _]|[-> _]], Hx as [[-> ->]|[-> ->]].
Qed.

Lemma home_visits good good' : (forall ls, good ls <-> good' ls) -> visits (beside 0 good) (beside 1 good').
Proof.
  intros Hg. split.
  - intros path ns w w' r (x & x' & _ & Hns) (Hw & ls & Els & Hls) H. simpl in *. case_bool_decide; simplify_eq. simpl. split; [done|]. exists ls. by rewrite <-Hg.
  - intros ns w w' r (x & x' & (Hx & _) & Hns) (Hw & ls & Els & Hls) H. simpl in *. simplify_eq. split; [done|]. exists ls. by rewrite Hg.
Qed.
Lemma veth_quiet ns good : quiet (beside ns good).
Proof. by split; intros; intros w Hw. Qed.
Lemma sim_add b w w' r : beside 0 (settled b) w -> LinkAddVeth (veth_attrs v_plan) (vp_PeerIfName v_plan) w = (w', r) ->
  if is_ok r then beside 0 (Forall mine) w' else beside 0 (settled b) w'.
Proof.
  intros Hw H. pose proof Hw as (Hns & ls & Els & [->|(-> & Hm & Hx)]); simpl in H; rewrite Hns, Els in H.
  - simpl in H. simplify_eq. simpl. split; [done|]. eexists. split; [done|]. apply Forall_cons_2; [by left|]. apply Forall_cons_2; [by right|constructor].
  - cbn [existsb vp_HostIfName v_plan veth_attrs la_Name] in H. rewrite Hx, orb_true_r in H. cbn [orb] in H. by simplify_eq.
Qed.
Lemma owned_pair ns b name link : seen (beside ns (settled b)) name link -> owned_by (ownerAliasForKey v_key) link = true -> of_pair link.
Proof.
  intros (w & w' & (<- & ls & Els & Hls%settled_mine) & H) Ho. simpl in H. rewrite Els in H. simpl in H. destruct (named (vw_ns w) name foreign); [by simplify_eq|].
  destruct (List.find _ ls) as [l|] eqn:E; simplify_eq. apply List.find_some in E as [Hin _]. exists l. split; [done|].
  rewrite Forall_forall in Hls. by apply Hls, list_elem_of_In.
Qed.
Ltac pair_update := apply update_pair; [left; by (eapply seen_pair; [| |eassumption])|by intros l [?|?]; [left|right]].
Lemma sim_contract b : veth_contract v_key (beside 0 (settled b)) (beside 1 (settled b)) (beside 0 (Forall mine)) (beside 1 (Forall mine)) v_plan.
Proof.
  split; try (by intros; intros w Hw); try apply veth_quiet; try by apply home_visits.
  - intros w w' r _. apply sim_add.
  - intros link [Hl|Hl]; pair_update.
  - apply update_pair; [by right|by intros l [?|?]; [left|right]].
  - intros link ns Hl. pair_update.
  - intros link Hl. pair_update.
  - intros link [Hl|Hl]; (split_and!; [|intros hw|intros a|]; pair_update).
  - intros link w w' r Hl (Hns & ls & Els & Hls) H. apply seen_pair in Hl; [|done..]. pose proof (delete_pair 0 ls link w Hl Hls Els Hns) as Hd.
    rewrite H in Hd. simpl in H, Hd. simplify_eq. split; [done|]. exists []. split; [done|by left].
  - intros name link Hl Ho w (Hns & ls & Els & Hls%settled_mine). apply owned_pair in Hl; [|done]. rewrite (delete_pair 0 ls link w Hl Hls Els Hns).
    split; [done|]. exists []. split; [done|by left].
Qed.

(** ** The runs *)

Notation v_run := (veth_Ensure v_key v_record (∅, v_home)).
Definition v_attached : gmap string networkState * vethw := Eval vm_compute in fst v_run.
Lemma v_created : v_run = (v_attached, Ok (plan_state v_plan, true)).
Proof. vm_compute. reflexivity. Qed.
Lemma v_home_beside : beside 0 (settled false) v_home.
Proof. split; [done|]. exists []. split; [done|by left]. Qed.
Lemma v_attached_beside : beside 0 (settled true) v_attached.2.
Proof. split; [done|]. eexists. split; [reflexivity|]. right. split_and!; [done| |done]. apply Forall_cons_2; [by left|]. apply Forall_cons_2; [by right|constructor]. Qed.
(** The second call finds the pair, the deletion leaves what was there before. *)
Lemma v_again : veth_Ensure v_key v_record (∅, v_attached.2) = (v_attached, Ok (plan_state v_plan, false)).
Proof. vm_compute. reflexivity. Qed.
Lemma v_checked : veth_Check v_key v_record (∅, v_attached.2) = (v_attached, Ok (plan_state v_plan)).
Proof. vm_compute. reflexivity. Qed.
Lemma v_deleted : veth_Delete v_key v_record v_attached = ((∅, v_home), Ok tt).
Proof. vm_compute. reflexivity. Qed.

Lemma veth_Check_witness : exists h link, checked_host v_key (beside 0 (settled true)) (plan_state v_plan) h /\ checked_container v_key (beside 1 (settled true)) (plan_state v_plan) h link.
Proof.
  destruct (veth_Check_sound v_key v_record _ _ _ _ v_plan (sim_contract true) (∅, v_attached.2) _ _ v_attached_beside v_checked) as (_ & _ & _ & Hc). exact Hc.
Defined.
Lemma veth_Delete_witness : beside 0 (settled true) v_home /\ ∅ = delete v_key v_attached.1.
Proof.
  destruct (veth_Delete_owned v_key v_record _ _ _ _ v_plan (sim_contract true) _ _ _ v_attached_beside v_deleted) as [Hp Hd]. exact (conj Hp Hd).
Defined.
