(* ===== verification/CniResourcesWitnesses.v ===== *)
(** * Witnesses for the observer, the exact deletion and the attestor

    The kernel of [VethWitnesses] beside the two databases, which run the transactions of
    RFC 7047 that the deletion uses; rows of another endpoint must stay. *)

From S2P Require Import Prelude GoStd Journal Calls GoJson Type2 Attachment Endpoint Observer CniTypes CniServer CniContinuity VethBackend VethSafety VethWitnesses.
From S2P Require Import ExportObserver ExportObserverSafety CniResources CniResourcesSafety.

(** ** The node *)

Notation resw := (exportSnapshot * vethw)%type.
#[export] Instance res_veth : VethKernel resw := {
  NetNS := nat; NlAddr := string;
  LinkByName name := on_snd (LinkByName name); LinkAddVeth a peer := on_snd (LinkAddVeth a peer); LinkDel link := on_snd (LinkDel link);
  LinkSetAlias link alias := on_snd (LinkSetAlias link alias); LinkSetUp link := on_snd (LinkSetUp link); LinkSetName link name := on_snd (LinkSetName link name);
  LinkSetHardwareAddr link hw := on_snd (LinkSetHardwareAddr link hw); LinkSetNsFd link ns := on_snd (LinkSetNsFd link (ns : @NetNS vethw _));
  nl_ParseAddr s := Ok s; AddrAdd link a := on_snd (AddrAdd link (a : @NlAddr vethw _)); AddrList link := on_snd (AddrList link);
  netns_Get := on_snd (netns_Get : M vethw nat); netns_GetFromPath path := on_snd (netns_GetFromPath path : M vethw nat); netns_Set ns := on_snd (netns_Set (ns : @NetNS vethw _));
}.
#[export] Instance res_lib : NodeLib resw := {
  NewOvsMap m := Ok (VMap m);
  node_Stat path w := (w, if existsb (fun p => bool_decide (path = p)) ["/run/netns/a"; proc_netns 77]%string then Ok (4, 26) else Err (Errno 2));
}.

(** ** The databases *)

Inductive anyrow := RSwitch (s : exportSwitch) | RLsp (l : LogicalSwitchPort) | RBridge (b : Bridge) | RPort (p : Port) | RIface (i : exportInterface).
#[export] Instance res_rows : SelectRows anyrow := {
  dec_Switches l := Ok (omap (fun r => match r with RSwitch s => Some s | _ => None end) l);
  dec_LSPs l := Ok (omap (fun r => match r with RLsp s => Some s | _ => None end) l);
  dec_Bridges l := Ok (omap (fun r => match r with RBridge s => Some s | _ => None end) l);
  dec_Ports l := Ok (omap (fun r => match r with RPort s => Some s | _ => None end) l);
  dec_Interfaces l := Ok (omap (fun r => match r with RIface s => Some s | _ => None end) l);
  dec_Bindings _ := Ok []; dec_Chassis _ := Ok []; dec_Datapaths _ := Ok [];
}.
Definition all_rows (d : exportSnapshot) : list anyrow :=
  (RSwitch <$> es_Switches d) ++ (RLsp <$> es_LSPs d) ++ (RBridge <$> es_Bridges d) ++ (RPort <$> es_Ports d) ++ (RIface <$> es_Interfaces d).
Definition row_table (r : anyrow) : string :=
  match r with RSwitch _ => "Logical_Switch" | RLsp _ => "Logical_Switch_Port" | RBridge _ => "Bridge" | RPort _ => "Port" | RIface _ => "Interface" end.
Definition row_uuid (r : anyrow) : string :=
  match r with RSwitch s => xs_UUID s | RLsp l => lsp_UUID l | RBridge b => br_UUID b | RPort p => po_UUID p | RIface i => xi_UUID i end.
(** A condition of a wait, on a row. *)
Definition holds_of (c : Condition) (r : anyrow) : bool :=
  match cn_Value c, r with
  | VUUID id, _ => bool_decide (row_uuid r = id)
  | VMap m, RLsp l => owned m (lsp_ExternalIDs l)
  | VMap m, RIface i => owned m (xi_ExternalIDs i)
  | VUUIDs l, RPort p => bool_decide (po_Interfaces p = l)
  | VUUIDs l, RBridge b => forallb (fun x => bool_decide (x ∈ br_Ports b)) l
  | VUUIDs l, RSwitch s => forallb (fun x => bool_decide (x ∈ xs_Ports s)) l
  | _, _ => false
  end.
Definition selected (o : Operation) (r : anyrow) : bool := bool_decide (row_table r = op_Table o) && forallb (fun c => holds_of c r) (op_Where o).
(** Removing references from the rows an operation selects. *)
Definition without (refs ports : list string) : list string := List.filter (fun x => negb (bool_decide (x ∈ refs))) ports.
Definition mutated (o : Operation) (r : anyrow) : anyrow :=
  if negb (selected o r) then r else
  match op_Mutations o, r with
  | [(_, _, VUUIDs refs)], RSwitch s => RSwitch {| xs_UUID := xs_UUID s; xs_Name := xs_Name s; xs_Ports := without refs (xs_Ports s); xs_OtherConfig := xs_OtherConfig s |}
  | [(_, _, VUUIDs refs)], RBridge b => RBridge {| br_UUID := br_UUID b; br_Name := br_Name b; br_Ports := without refs (br_Ports b) |}
  | _, _ => r
  end.
Definition snapshot_of (rows : list anyrow) : exportSnapshot := {|
  es_Switches := omap (fun r => match r with RSwitch s => Some s | _ => None end) rows; es_LSPs := omap (fun r => match r with RLsp s => Some s | _ => None end) rows;
  es_Bridges := omap (fun r => match r with RBridge s => Some s | _ => None end) rows; es_Ports := omap (fun r => match r with RPort s => Some s | _ => None end) rows;
  es_Interfaces := omap (fun r => match r with RIface s => Some s | _ => None end) rows; es_Bindings := []; es_Chassis := []; es_Datapaths := [] |}.
(** One operation; a wait that does not hold ends the transaction. *)
Definition exec_op (acc : list anyrow * list OperationResult) (o : Operation) : result (list anyrow * list OperationResult) :=
  let found := Z.of_nat (length (List.filter (selected o) acc.1)) in
  if bool_decide (op_Op o = "wait"%string) then (if found =? 1 then Ok (acc.1, acc.2 ++ [{| or_Error := ""; or_Count := 0 |}]) else Err (Errorf "timed out"))
  else if bool_decide (op_Op o = "mutate"%string) then Ok (mutated o <$> acc.1, acc.2 ++ [{| or_Error := ""; or_Count := found |}])
  else if bool_decide (op_Op o = "delete"%string) then Ok (List.filter (fun r => negb (selected o r)) acc.1, acc.2 ++ [{| or_Error := ""; or_Count := found |}])
  else Err (Errorf "unknown operation").
Definition sim_Transact (ops : list Operation) : M resw (list OperationResult) := fun w =>
  match rfold exec_op (all_rows w.1, []) ops with
  | Ok (rows, results) => ((snapshot_of rows, w.2), Ok results)
  | Err _ => (w, Ok [{| or_Error := "timed out"; or_Count := 0 |}])
  end.
Definition res_client : CniClient resw anyrow := {|
  cl_select := {| sc_Connected := ret true; sc_Select table _ w := (w, Ok [(""%string, List.filter (fun r => bool_decide (row_table r = table)) (all_rows w.1))]) |};
  cl_Transact := sim_Transact |}.

(** ** An attached endpoint and its neighbour *)

Definition n_lsp : LogicalSwitchPort := {| lsp_UUID := "l9"; lsp_Name := "other"; lsp_Addresses := []; lsp_ExternalIDs := ∅ |}.
Definition n_iface : exportInterface := {| xi_UUID := "i9"; xi_Name := "veth9"; xi_ExternalIDs := ∅; xi_Ofport := Some 9; xi_Error := None |}.
Definition n_port : Port := {| po_UUID := "p9"; po_Name := "veth9"; po_Interfaces := ["i9"%string] |}.
Definition r_data : exportSnapshot := {|
  es_Switches := [{| xs_UUID := "s1"; xs_Name := "ls"; xs_Ports := ["l1"; "l9"]; xs_OtherConfig := ∅ |}];
  es_LSPs := [{| lsp_UUID := "l1"; lsp_Name := "lsp"; lsp_Addresses := ["0a:00:00:00:00:01 10.0.0.5"]; lsp_ExternalIDs := wanted_ids v_spec |}; n_lsp];
  es_Bridges := [{| br_UUID := "b1"; br_Name := "br-int"; br_Ports := ["p1"; "p9"] |}];
  es_Ports := [{| po_UUID := "p1"; po_Name := hostVethNameForKey v_key; po_Interfaces := ["i1"] |}; n_port];
  es_Interfaces := [{| xi_UUID := "i1"; xi_Name := hostVethNameForKey v_key; xi_ExternalIDs := wanted_ids v_spec; xi_Ofport := Some 5; xi_Error := None |}; n_iface];
  es_Bindings := []; es_Chassis := []; es_Datapaths := [] |}%string.
Definition r_world : resw := (r_data, v_attached.2).
Definition r_receipt : cniReceipt :=
  {| rc_SwitchUUID := "s1"; rc_LSPUUID := "l1"; rc_InterfaceUUID := "i1"; rc_PortUUID := "p1"; rc_BridgeUUID := "b1"; rc_HostIfIndex := 8; rc_NetNSDevice := 4; rc_NetNSInode := 26 |}.
Definition r_ack : cniEndpointACK := ack_of v_record r_receipt "active".
Definition r_observer : nativeCNIObserver resw anyrow := live (Some res_client) (Some res_client) {["net"%string := "ls"%string]}.
Lemma r_observed : native_Observe r_observer v_record r_world = (r_world, Ok (r_receipt, false)).
Proof. vm_compute. reflexivity. Qed.
(** The rows of the endpoint are gone, those of the neighbour are not. *)
Definition r_after : resw := Eval vm_compute in fst (native_DeleteExact r_observer r_ack r_world).
Lemma r_deleted : native_DeleteExact r_observer r_ack r_world = (r_after, Ok tt).
Proof. vm_compute. reflexivity. Qed.
Lemma r_gone : native_Observe r_observer v_record r_after = (r_after, Ok (switch_receipt "s1", true)).
Proof. vm_compute. reflexivity. Qed.

(** ** The neighbour stays *)

Definition neighbours : list anyrow := [RLsp n_lsp; RIface n_iface; RPort n_port].
Definition intact (w : resw) : Prop := Forall (fun r => r ∈ all_rows w.1) neighbours.
Lemma snapshot_rows rows r : r ∈ rows -> r ∈ all_rows (snapshot_of rows).
Proof.
  intros H. unfold all_rows, snapshot_of. cbn [es_Switches es_LSPs es_Bridges es_Ports es_Interfaces]. rewrite !elem_of_app, !list_elem_of_fmap.
  setoid_rewrite list_elem_of_omap. destruct r as [x|x|x|x|x]; [left|right; left|do 2 right; left|do 3 right; left|do 4 right]; exists x; (split; [done|eexists; split; [exact H|done]]).
Qed.
Lemma spared r o : r ∈ neighbours -> (exists id c, (op_Table o, id, c) ∈ removable r_receipt (VMap (wanted_ids v_spec)) /\ op_Where o = [uuid_is id]) -> selected o r = false.
Proof.
  intros Hr (id & c & Hin & Hw). unfold selected. rewrite Hw. cbn [forallb uuid_is]. unfold holds_of. cbn [cn_Value]. rewrite andb_true_r.
  apply andb_false_iff. right. apply bool_decide_eq_false. assert (id ∈ ["i1"; "p1"; "l1"]%string) as Hid.
  { unfold removable in Hin. rewrite !elem_of_cons in Hin. rewrite !elem_of_cons. destruct Hin as [[= _ -> _]|[[= _ -> _]|[[= _ -> _]|[]%not_elem_of_nil]]]; auto. }
  unfold neighbours in Hr. rewrite !elem_of_cons in Hr. rewrite !elem_of_cons in Hid. destruct Hr as [->|[->|[->|[]%not_elem_of_nil]]], Hid as [->|[->|[->|[]%not_elem_of_nil]]]; discriminate.
Qed.
Lemma fenced_intact ops : fenced r_receipt (VMap (wanted_ids v_spec)) ops -> preserves intact (sim_Transact ops).
Proof.
  intros Hf w Hw. unfold sim_Transact. destruct (rfold exec_op _ ops) as [[rows results]|] eqn:E; [|exact Hw]. cbn [fst]. unfold intact. cbn [fst].
  assert (Hrows : Forall (fun r => r ∈ rows) neighbours); [|eapply Forall_impl; [exact Hrows|]; intros r; apply snapshot_rows].
  revert E. generalize (@nil OperationResult). unfold intact in Hw. revert Hw. generalize (all_rows w.1). assert (Hd : forall o, o ∈ ops -> op_Op o = "delete"%string ->
    exists id c, (op_Table o, id, c) ∈ removable r_receipt (VMap (wanted_ids v_spec)) /\ op_Where o = [uuid_is id]).
  { intros o Ho Hdel. destruct (fn_delete _ _ _ Hf o Ho Hdel) as (id & c & H1 & H2 & _). by exists id, c. }
  clear Hf w.
  induction ops as [|o ops IH]; intros rs Hw res E; [by injection E as -> _|]. cbn [rfold] in E. destruct (exec_op (rs, res) o) as [[rs' res']|] eqn:Eo; [|discriminate E].
  cbn [rbind] in E. eapply IH; [intros o' Ho'; apply Hd; by right| |exact E]. unfold exec_op in Eo. cbn [fst snd] in Eo.
  destruct (bool_decide (op_Op o = "wait"%string)); [destruct (_ =? 1); [by injection Eo as <- _|discriminate Eo]|].
  destruct (bool_decide (op_Op o = "mutate"%string)); [|destruct (bool_decide (op_Op o = "delete"%string)) eqn:Edel; [|discriminate Eo]]; injection Eo as <- _.
  - rewrite Forall_forall in Hw |- *. intros r Hr. specialize (Hw r Hr). apply list_elem_of_fmap. exists r. split; [|exact Hw].
    unfold neighbours in Hr. rewrite !elem_of_cons in Hr. unfold mutated. destruct (negb _); [reflexivity|].
    destruct Hr as [->|[->|[->|[]%not_elem_of_nil]]]; by destruct (op_Mutations o) as [|[[? ?] []] []].
  - apply bool_decide_eq_true in Edel. destruct (Hd o (list_elem_of_here _ _) Edel) as (id & c & Hin & Hwh).
    rewrite Forall_forall in Hw |- *. intros r Hr. apply list_elem_of_In, List.filter_In. split; [by apply list_elem_of_In, Hw|].
    rewrite (spared r o Hr); [reflexivity|]. by exists id, c.
Qed.

Lemma res_reads : client_reads intact (Some res_client).
Proof. intros c [= <-]. split; [|intros table columns]; intros w Hw; exact Hw. Qed.
Lemma res_node_reads : node_reads intact.
Proof. split; intros; intros w Hw; [|exact Hw]. destruct w as [d k]. exact Hw. Qed.
Lemma r_intact : intact r_world.
Proof.
  unfold intact, neighbours, r_world. rewrite !Forall_cons. split_and!; [| | |by constructor]; vm_compute;
    repeat (first [apply list_elem_of_here|apply list_elem_of_further]).
Qed.

(** ** An attested workload *)

#[export] Instance res_info : Json sandboxInfo := {
  json_Marshal i := Ok (pretty (si_PID i)); json_Decode s := (fun n => ({| si_PID := n |}, ""%string)) <$> ParseInt 64 s;
}.
#[export] Instance res_container : Json containerInfo := {
  json_Marshal i := Ok (ci_ID i);
  json_Decode s := Some ({| ci_ID := s; ci_Labels := list_to_map [("io.cri-containerd.kind", "sandbox"); ("io.kubernetes.pod.uid", "uid");
    ("io.kubernetes.pod.namespace", "default"); ("io.kubernetes.pod.name", "p")]%string |}, ""%string);
}.
Definition r_tasks : string := ("TASK    PID    STATUS" +:+ String (byte 10) "abc     12     STOPPED" +:+ String (byte 10) ("ctr     77     RUNNING" +:+ String (byte 10) ""))%string.
Definition r_ctr (args : list string) : M resw string :=
  if bool_decide (head args = Some "tasks"%string) then ret r_tasks else ret "ctr"%string.
Definition r_attestor : KubernetesCNIWorkloadAttestor resw := {|
  ka_Client := Some {| kc_Node _ := ret {| nd_UID := "node-uid"; nd_Deleting := false |};
                       kc_Pod ns name := ret (if bool_decide (name = "p"%string) then Some {| pd_UID := "uid"; pd_NodeName := "node"; pd_Deleting := false |} else None) |};
  ka_NodeName := "node"; ka_NodeUID := "node-uid";
  ka_Sandbox := Some (fun id => ret (if bool_decide (id = "ctr"%string) then
      Some {| sr_Status := Some {| ss_Id := "ctr"; ss_Metadata := Some {| sm_Uid := "uid"; sm_Name := "p"; sm_Namespace := "default" |}; ss_Ready := true |};
              sr_Info := {["info"%string := "77"%string]} |} else None));
  ka_CreatingSandbox := Some (VerifySandbox r_ctr) |}.
Example r_running : containerdTaskRunning r_tasks "ctr" = Ok true /\ containerdTaskRunning r_tasks "abc" = Ok false /\ containerdTaskRunning r_tasks "x" = Ok false.
Proof. vm_compute. auto. Qed.
Lemma r_verified : attestor_verify r_attestor false (sp_Workload v_spec) "ctr" "/run/netns/a" r_world = (r_world, Ok false).
Proof. vm_compute. reflexivity. Qed.
Lemma r_attestor_reads : attestor_reads intact r_attestor.
Proof.
  split.
  - intros c [= <-]. split; intros; intros w Hw; exact Hw.
  - intros f [= <-] id w Hw. exact Hw.
  - intros f [= <-] ref id netns. eapply call_preserves, call_VerifySandbox; [apply res_node_reads|]. intros args w Hw. unfold r_ctr. by destruct (bool_decide _).
Qed.
