(* ===== verification/CniPluginWitnesses.v ===== *)
(** * Witnesses for the CNI plugin

    An invocation of the plugin for a Pod, on a node whose agent is the server of
    [CniServer] with its in-memory backends. *)

From S2P Require Import Prelude GoStd Journal GoJson Calls Type2 Attachment Endpoint CniTypes CniServer CniPlugin CniContinuity ExportObserver ExportObserverSafety CniPluginSafety.

Definition p_config : pluginConfig :=
  {| pc_CNIVersion := "1.0.0"; pc_NodeAgentSocket := " /run/agent.sock "; pc_NetworkID := "net "; pc_LogicalSwitch := "ls"; pc_AttachmentID := "att"; pc_IPAddress := "10.0.0.5/24";
     pc_MACAddress := "0a:00:00:00:00:01"; pc_OVSInterfaceName := ""; pc_TimeoutSeconds := 0; pc_RequestID := ""; pc_EndpointID := ""; pc_WorkloadUID := "";
     pc_Incarnation := ""; pc_SupportedVersions := ["0.4.0"; " 1.0.0"]%string; pc_CreationIdentity := true |}.
#[export] Instance p_json : Json pluginConfig := {
  json_Marshal _ := Ok "{}"%string; json_Decode s := if bool_decide (s = "{}"%string) then Some (p_config, ""%string) else None;
}.
Definition p_args : CmdArgs := {| ca_ContainerID := "ctr"; ca_Netns := "/run/netns/a"; ca_IfName := "net1"; ca_Args := "K8S_POD_UID=uid"; ca_StdinData := "{}" |}.
Definition p_parsed : cniArgs :=
  {| K8S_POD_NAMESPACE := "default"; K8S_POD_NAME := "p"; K8S_POD_UID := "uid"; K8S_POD_INFRA_CONTAINER_ID := "ctr"; K8S_NODE_NAME := "node"; REQUEST_ID := "";
     WORKLOAD_UID := ""; INCARNATION := ""; ENDPOINT_ID := "" |}.
Definition p_load (_ : string) : result cniArgs := Ok p_parsed.
Definition p_parse : result (pluginConfig * cniArgs) := parseConfig p_load (ca_StdinData p_args) (ca_Args p_args).
Lemma p_parses : parseConfig p_load (ca_StdinData p_args) (ca_Args p_args) = Ok (trimmed_config p_config, p_parsed).
Proof. vm_compute. reflexivity. Qed.
Notation p_request := (buildAddRequest (trimmed_config p_config) p_parsed p_args).
Definition p_spec : EndpointSpec := Eval vm_compute in match mapCNIAddRequestToEndpointSpec p_request with Ok s => s | Err _ => spec_of (buildEndpointIdentity p_config p_parsed p_args) (buildRuntimeContext p_config p_args) zero_attachment None "" end.
Lemma p_mapped : mapCNIAddRequestToEndpointSpec p_request = Ok p_spec.
Proof. vm_compute. reflexivity. Qed.
Lemma p_valid : validateAddRequest (Some p_request) =
  Ok (buildEndpointIdentity (trimmed_config p_config) p_parsed p_args, buildRuntimeContext (trimmed_config p_config) p_args, buildAttachment (trimmed_config p_config) p_args).
Proof. vm_compute. reflexivity. Qed.
Definition p_state : networkState := {| ns_HostIfName := "evp1"; ns_ContainerIfName := "net1"; ns_MACAddress := "0a:00:00:00:00:01"; ns_StaticIPCIDR := "10.0.0.5/24" |}.

(** ** The plugin and the server *)

Notation p_world := (Store * InMemory.world * list Result)%type.
Definition on_agent {A} (m : M (Store * InMemory.world) A) : M p_world A := fun w => let '(s, r) := m w.1 in ((s, w.2), r).
Definition p_client : AgentClient p_world := {|
  ac_Add req _ := let! resp := on_agent (Add InMemory.endpoint InMemory.network (Some req)) in ret (Some {| ar_Success := true; ar_Result := ad_Result resp |});
  ac_Del req _ := let! resp := on_agent (Del InMemory.endpoint InMemory.network None (Some req)) in ret (Some {| dl_Success := true; dl_Outcome := Some (dr_Outcome resp) |});
  ac_Check _ _ := ret None; ac_Close := ret tt |}.
Definition p_node : PluginNode p_world := {|
  pn_Open _ := ret 7; pn_Close _ := ret tt; pn_Dial _ _ := ret p_client; pn_NewUUID := ret "id"%string; pn_Print r _ := modify (fun w => (w.1, w.2 ++ [r])) |}.
Definition p_start : p_world := ((∅, InMemory.empty), []).
(** The address that the configuration asks for is printed, and a DEL removes the record. *)
Example plugin_run : let w := (cmdAdd p_load p_node p_args p_start).1 in
  (cmdAdd p_load p_node p_args p_start).2 = Ok tt /\ (fun r => (in_IP <$> (pi_Address <$> pr_IPs r), ci_Name <$> pr_Interfaces r)) <$> w.2 = [([Addr4 10 0 0 5], ["net1"%string])]
  /\ (cmdDel p_load p_node p_args w).2 = Ok tt /\ map_to_list (cmdDel p_load p_node p_args w).1.1.1 = [].
Proof. vm_compute. auto. Qed.
Lemma added_is_printable_witness : exists s' resp r, Add InMemory.endpoint InMemory.network (Some p_request) (∅, InMemory.empty) = (s', Ok resp) /\ toCNIResult (ad_Result resp) "1.0.0" = Ok r.
Proof.
  destruct (Add InMemory.endpoint InMemory.network (Some p_request) (∅, InMemory.empty)) as [s' [resp|]] eqn:E; [|vm_compute in E; discriminate E].
  destruct (added_is_printable InMemory.endpoint
    {| nb_Ensure key rec w := match nb_Ensure InMemory.network key rec w with
                              | (w', Ok (st, b)) => if bool_decide (blank (ns_StaticIPCIDR st) = true \/ is_Some (ParseCIDR (TrimSpace (ns_StaticIPCIDR st)))) then (w', Ok (st, b)) else (w', Err (Errorf "address"))
                              | x => x end;
       nb_Delete := nb_Delete InMemory.network; nb_Check := nb_Check InMemory.network; nb_DeleteAcknowledged := None |}) with (req := Some p_request) (s := (∅ : Store, InMemory.empty)) (s' := s') (resp := resp) (version := "1.0.0"%string) as (r & Hr & _).
  - intros key rec w w' st created. cbn [nb_Ensure]. destruct (nb_Ensure InMemory.network key rec w) as [w1 [[st1 b1]|]]; [|discriminate]. case_bool_decide as Hb; [|discriminate]. intros [= <- <- <-]. exact Hb.
  - rewrite <-E. vm_compute. reflexivity.
  - exists s', resp, r. split; [reflexivity|exact Hr].
Defined.
