(* ===== verification/BgpHandlerWitnesses.v ===== *)
(** * Witnesses for the handler of BGP advertisements

    An OVSDB service with ports and tunnels, a kernel with a bridge and its forwarding
    entries, and paths that are handled there; the examples show what routes of two
    speakers, or of two MACs behind one VTEP, do to each other. *)

From S2P Require Import Prelude GoStd Journal Calls Type2 CniTypes CniServer CniContinuity RouteImporter CniResources BgpHandler BgpHandlerSafety.

(** ** An OVSDB service *)

Record portw := { pw_ports : gmap string (list string); pw_vteps : gmap string AddVtepRequest; pw_down : nat }.
Definition done_status : option Status := Some {| st_Success := true; st_Message := "" |}.
Definition refused (msg : string) : option Status := Some {| st_Success := false; st_Message := msg |}.
Definition with_ports (f : gmap string (list string) -> gmap string (list string)) (w : portw) : portw :=
  {| pw_ports := f (pw_ports w); pw_vteps := pw_vteps w; pw_down := pw_down w |}.
(** A service that is away for the first calls that add a tunnel. *)
Definition sim_ovsdb : OvsdbServiceClient portw := {|
  oc_GetNetwork name w := (w, Ok (Some name));
  oc_AddNetwork name w := (w, Ok done_status);
  oc_GetLogicalSwitchPort name w := (w, Ok (pw_ports w !! name));
  oc_AddVtep req w :=
    match pw_down w with
    | S n => ({| pw_ports := pw_ports w; pw_vteps := pw_vteps w; pw_down := n |}, Ok (refused "ovsdb not connected"))
    | O => ({| pw_ports := <[av_LspName req := default [] (pw_ports w !! av_LspName req)]> (pw_ports w);
               pw_vteps := <[av_VxlanName req := req]> (pw_vteps w); pw_down := 0 |}, Ok done_status)
    end;
  oc_AddClient name mac ip w := (with_ports (alter (fun l => (mac +:+ " " +:+ ip)%string :: l) name) w, Ok done_status);
  oc_DelClient name mac ip w := (with_ports (alter (List.filter (fun a => negb (bool_decide (a = (mac +:+ " " +:+ ip)%string)))) name) w, Ok done_status);
  oc_AddLogicalSwitchPort name addresses ls w := (with_ports (<[name := addresses]>) w, Ok done_status);
  oc_DelLogicalSwitchPort name w := (with_ports (delete name) w, Ok done_status);
  oc_DelVtep ls lsp vxlan w :=
    ({| pw_ports := delete lsp (pw_ports w); pw_vteps := delete vxlan (pw_vteps w); pw_down := pw_down w |}, Ok done_status);
|}.
Definition sim_env (key : string) : string := if bool_decide (key = "DYNAMIC_ROUTING_VNIS"%string) then "1000, 2000" else "".
Definition adv (rd : HandlerRD) (mac ip : string) : MacAdv := {| ma_Rd := Some rd; ma_MacAddress := mac; ma_IpAddress := ip; ma_Labels := [1000] |}.
Definition sim_path (source neighbor : string) (withdraw : bool) (m : MacAdv) : HandlerPath :=
  {| hp_EVPN := true; hp_Nlri := Some (EvpnMacadv m); hp_Pattrs := [None; Some [neighbor]]; hp_IsWithdraw := withdraw; hp_NeighborIp := neighbor; hp_SourceId := source |}.
Definition empty_service : portw := {| pw_ports := {["tenant" := ["02:00:00:00:00:01 10.0.0.1"%string]]}; pw_vteps := ∅; pw_down := 2 |}.

(** The port of a tenant stays as it is. *)
Definition tenant_kept (w : portw) : Prop := pw_ports w !! "tenant"%string = Some ["02:00:00:00:00:01 10.0.0.1"%string].
Definition mac_a : MacAdv := adv RdIPAddress "02:00:00:00:00:0a" "10.0.0.10/32".
Definition path_a : HandlerPath := sim_path "192.168.1.10" "172.17.0.2" false mac_a.
Lemma tenant_contract p m : before_slash (ma_IpAddress m) = "10.0.0.10"%string -> transit_name (hp_SourceId p) (hp_NeighborIp p) = "rt-192-168-"%string ->
  ovsdb_contract sim_ovsdb sim_env "net" "192.168.1.1" p m tenant_kept.
Proof.
  intros Hip Hn. split; rewrite ?Hn, ?Hip; unfold tenant_kept; try (intros; intros w Hw; exact Hw).
  - intros req (_ & _ & Hl & _) w Hw. simpl. rewrite Hn in Hl. destruct (pw_down w); simpl; [|exact Hw]. rewrite Hl, lookup_insert_ne; [exact Hw|discriminate].
  - intros _ w Hw. simpl. rewrite lookup_alter_ne; [exact Hw|discriminate].
  - intros name _ Hname w Hw. simpl. rewrite lookup_alter_ne; [exact Hw|destruct Hname; subst; discriminate].
  - intros _ _ _ w Hw. simpl. rewrite lookup_delete_ne; [exact Hw|discriminate].
  - intros _ _ w Hw. simpl. rewrite lookup_insert_ne; [exact Hw|discriminate].
  - intros name addresses _ _ _ Hname _ w Hw. simpl. rewrite lookup_delete_ne; [exact Hw|]. intros ->.
    apply elem_of_cons in Hname as [Hx|Hx]; [revert Hx; vm_compute; discriminate|]. apply list_elem_of_singleton in Hx. revert Hx. vm_compute. discriminate.
Qed.

(** The name of a transit port keeps eight characters of the router ID: two speakers of one
    network share the port, and the second takes over the tunnel of the first. *)
Definition path_b : HandlerPath := sim_path "192.168.1.20" "172.17.0.3" false (adv RdIPAddress "02:00:00:00:00:0b" "10.0.0.11/32").
Definition handled (paths : list HandlerPath) (w : portw) : portw * result unit :=
  mfold (fun _ p => handlePathOVSDB sim_ovsdb sim_env "net" p "192.168.1.1") tt paths w.
Example two_speakers_share_a_tunnel :
  transit_name "192.168.1.10" "172.17.0.2" = transit_name "192.168.1.20" "172.17.0.3" /\
  let w := (handled [path_a; path_b] empty_service).1 in
  av_RemoteIp <$> pw_vteps w !! "rt-192-168-"%string = Some "172.17.0.3"%string /\ size (pw_vteps w) = 1%nat /\
  pw_ports w !! "rt-192-168-"%string = Some ["02:00:00:00:00:0b 10.0.0.11"; "02:00:00:00:00:0a 10.0.0.10"]%string.
Proof. vm_compute. split_and!; reflexivity. Qed.

(** A route distinguisher that is not of the IP-address form stops the process. *)
Lemma distinguisher_crashes {W} (c : OvsdbServiceClient W) Getenv networkName localRouterID p m w :
  hp_EVPN p = true -> hp_Nlri p = Some (EvpnMacadv m) -> ma_Rd m <> Some RdIPAddress ->
  handlePathOVSDB c Getenv networkName p localRouterID w = (w, Err nil_pointer).
Proof. intros He Hm Hrd. unfold handlePathOVSDB. rewrite He, Hm. cbn [negb]. destruct (ma_Rd m) as [[]|]; try reflexivity. destruct (Hrd eq_refl). Qed.

(** ** A kernel *)

(** A forwarding entry: MAC, device, and the rest of its line. *)
Definition entry : Type := string * string * list string.
Record fdbw := { fw_fdb : list entry; fw_neigh : list (string * string); fw_clients : list HandlerNeigh }.
Definition with_fdb (f : list entry -> list entry) (w : fdbw) : fdbw := {| fw_fdb := f (fw_fdb w); fw_neigh := fw_neigh w; fw_clients := fw_clients w |}.
Definition with_neigh (f : list (string * string) -> list (string * string)) (w : fdbw) : fdbw := {| fw_fdb := fw_fdb w; fw_neigh := f (fw_neigh w); fw_clients := fw_clients w |}.
Definition with_clients (f : list HandlerNeigh -> list HandlerNeigh) (w : fdbw) : fdbw := {| fw_fdb := fw_fdb w; fw_neigh := fw_neigh w; fw_clients := f (fw_clients w) |}.
Definition entry_line (with_dev : bool) (e : entry) : string := Join (e.1.1 :: (if with_dev then ["dev"%string; e.1.2] else []) ++ e.2) " ".
Definition on_device (dev : string) (e : entry) : bool := bool_decide (e.1.2 = dev).
Definition without (x : entry) (l : list entry) : list entry := List.filter (fun e => negb (bool_decide (e = x))) l.
Definition newline : string := str [byte 10].
Definition sim_show (rest : list string) (w : fdbw) : string :=
  match rest with
  | [kind; dev] => if bool_decide (kind = "br"%string) then Join (map (entry_line true) (fw_fdb w)) newline
                   else Join (map (entry_line false) (List.filter (on_device dev) (fw_fdb w))) newline
  | _ => ""
  end.
Definition sim_change (verb : string) (e : entry) (w : fdbw) : fdbw * (string * option error) :=
  if bool_decide (verb = "del"%string) then
    if bool_decide (e ∈ fw_fdb w) then (with_fdb (without e) w, (""%string, None))
    else (w, ("RTNETLINK answers: No such file or directory"%string, Some (Errorf "exit status 2")))
  else (with_fdb (fun l => e :: without e l) w, (""%string, None)).
Definition sim_neigh (verb : string) (n : string * string) (w : fdbw) : fdbw :=
  let l := List.filter (fun x => negb (bool_decide (x = n))) (fw_neigh w) in
  with_neigh (fun _ => if bool_decide (verb = "del"%string) then l else n :: l) w.
#[export] Instance sim_exec : Exec fdbw := fun args w =>
  match args with
  | tool :: _ :: verb :: rest =>
      if bool_decide (verb = "show"%string) then (w, (sim_show rest w, None)) else
      match rest with
      | x :: _ :: dev :: more => if bool_decide (tool = "bridge"%string) then sim_change verb (x, dev, more) w else (sim_neigh verb (x, dev) w, (""%string, None))
      | _ => (w, (""%string, Some (Errorf "exit status 1")))
      end
  | _ => (w, (""%string, Some (Errorf "exit status 1")))
  end.
Definition sim_links : list HandlerLink :=
  [{| hl_Name := "br-evpn1000"; hl_Index := 3; hl_Vxlan := None |}; {| hl_Name := "vxlan1000"; hl_Index := 4; hl_Vxlan := Some 1000 |}].
#[export] Instance sim_handler_netlink : HandlerNetlink fdbw := {
  hnl_LinkByName name w := (w, of_option (Errorf "Link not found") (List.find (fun l => bool_decide (hl_Name l = name)) sim_links));
  hnl_LinkList w := (w, Ok sim_links);
  hnl_LinkAddBridge name w := (w, Err (Errorf "operation not permitted"));
  hnl_LinkAddVxlan name vni port w := (w, Err (Errorf "operation not permitted"));
  hnl_LinkSetUp l w := (w, Ok tt);
  hnl_LinkSetMaster l b w := (w, Ok tt);
  hnl_NeighSet n w := (with_clients (cons n) w, Ok tt);
  hnl_NeighDel n w := (with_clients (List.filter (fun x => negb (hn_LinkIndex x =? hn_LinkIndex n))) w, Ok tt);
}.
Definition sim_cfg : netlinkConfig := loadNetlinkConfig sim_env.
(** A MAC that the bridge has learned on a port of this node. *)
Definition local_entry : entry := ("02:00:00:00:00:0c"%string, "veth7"%string, ["master"; "br-evpn1000"]%string).
Definition quiet_bridge : fdbw := {| fw_fdb := [local_entry]; fw_neigh := []; fw_clients := [] |}.
Definition local_kept (w : fdbw) : Prop := local_entry ∈ fw_fdb w.

Lemma kept_without e l : e <> local_entry -> local_entry ∈ l -> local_entry ∈ without e l.
Proof.
  intros He Hl. unfold without. apply list_elem_of_In, List.filter_In. split; [by apply list_elem_of_In|]. apply negb_true_iff, bool_decide_eq_false. congruence.
Qed.
Lemma entries_kept verb mac rest : verb <> "show"%string -> runs local_kept ("bridge" :: "fdb" :: verb :: mac :: "dev" :: "vxlan1000" :: rest)%string.
Proof.
  intros Hv w Hw. unfold CombinedOutput, sim_exec. rewrite bool_decide_eq_false_2 by exact Hv. rewrite bool_decide_eq_true_2 by reflexivity.
  assert (He : (mac, "vxlan1000"%string, rest) <> local_entry) by (unfold local_entry; intros [=]).
  unfold sim_change. destruct (bool_decide (verb = "del"%string)); [destruct (bool_decide _); [|exact Hw]|]; unfold local_kept; cbn [fst with_fdb fw_fdb].
  - by apply kept_without.
  - apply elem_of_cons. right. by apply kept_without.
Qed.
Lemma neighbors_kept verb ip rest : verb <> "show"%string -> runs local_kept ("ip" :: "neigh" :: verb :: ip :: "dev" :: "vxlan1000" :: rest)%string.
Proof.
  intros Hv w Hw. unfold CombinedOutput, sim_exec. rewrite bool_decide_eq_false_2 by exact Hv. rewrite bool_decide_eq_false_2 by discriminate. exact Hw.
Qed.
Lemma tunnel_found vni vx : vxlan_of vni sim_cfg local_kept vx -> hl_Name vx = "vxlan1000"%string.
Proof.
  intros [(w & w' & _ & H)|(H & _)]; [|revert H; vm_compute; discriminate].
  assert (Hn : vxlan_name vni sim_cfg = "vxlan1000"%string) by (vm_compute; reflexivity). rewrite Hn in H. injection H as _ H. revert H. vm_compute. intros [= <-]. reflexivity.
Qed.
Lemma local_contract withdraw mac vtep vni : netlink_contract withdraw mac vtep vni sim_cfg local_kept.
Proof.
  split; try (intros; intros w Hw; exact Hw).
  - intros b vx _ _ _. split; intros w Hw; exact Hw.
  - intros vx _ Hvx. rewrite (tunnel_found _ _ Hvx). apply neighbors_kept. by destruct withdraw.
  - intros b vx _ _ _ Hvx _. rewrite (tunnel_found _ _ Hvx). split; by apply entries_kept.
  - intros vx _ _ Hvx. rewrite (tunnel_found _ _ Hvx). split; by apply entries_kept.
  - intros b vx f0 rest _ _ Hvx _ _. rewrite (tunnel_found _ _ Hvx). by apply entries_kept.
  - intros link hw a _ _ entry w Hw. by destruct withdraw.
Qed.
(** The address of a remote MAC is installed on the tunnel, that of a MAC the bridge has
    learned on a port of this node is not. *)
Definition vtep_path (withdraw : bool) (mac ip : string) : HandlerPath := sim_path "10.255.0.9" "172.17.0.9" withdraw (adv RdIPAddress mac ip).
Definition path_x : HandlerPath := vtep_path false "02:00:00:00:00:0a" "10.0.0.10/32".
Definition path_local : HandlerPath := vtep_path false "02:00:00:00:00:0c" "10.0.0.12/32".
Definition on_tunnel (mac : string) : entry := (mac, "vxlan1000"%string, ["dst"; "172.17.0.9"; "self"; "permanent"]%string).
Definition netlink_handled (paths : list HandlerPath) (w : fdbw) : fdbw :=
  (mfold (fun _ p => handlePathNetlink sim_env sim_cfg p) tt paths w).1.
Lemma handlePathNetlink_confined_witness :
  preserves local_kept (handlePathNetlink sim_env sim_cfg path_x) /\
  fw_fdb (netlink_handled [path_x; path_local] quiet_bridge) = [on_tunnel flood_mac; on_tunnel "02:00:00:00:00:0a"; local_entry].
Proof.
  split; [|vm_compute; reflexivity].
  refine (handlePathNetlink_confined sim_env sim_cfg path_x (adv RdIPAddress "02:00:00:00:00:0a" "10.0.0.10/32") local_kept eq_refl _). apply local_contract.
Defined.

(** Withdrawing one MAC removes the flood entry and the neighbour of its VTEP although
    another MAC behind the same VTEP is still advertised. *)
Example withdraw_drops_shared_entries :
  let both := netlink_handled [path_x; vtep_path false "02:00:00:00:00:0b" "10.0.0.11/32"] quiet_bridge in
  let w := netlink_handled [vtep_path true "02:00:00:00:00:0a" "10.0.0.10/32"] both in
  on_tunnel flood_mac ∈ fw_fdb both /\ ("172.17.0.9", "vxlan1000")%string ∈ fw_neigh both /\
  fw_fdb w = [on_tunnel "02:00:00:00:00:0b"; local_entry] /\ fw_neigh w = [].
Proof. split_and!; [eapply bool_decide_eq_true; vm_compute; reflexivity..|vm_compute; reflexivity|vm_compute; reflexivity]. Qed.
