(* ===== verification/CniWitnesses.v ===== *)
(** * Witnesses for the CNI server

    The requests of [CniServer], [CniContinuity] and [CniNode] on the node of [SimCni]. *)

From S2P Require Import Prelude GoStd Journal Sim Type2 Reconciler SimWorld Attachment Endpoint CniTypes CniServer CniContinuity.
From S2P Require Import CniContinuitySafety CniContinuityEffect CniNode SimCni CniContinuityRuns.

(** ** The plain server *)

Definition mem_add := Add InMemory.endpoint InMemory.network (Some an_add) (∅, InMemory.empty).

Lemma Add_spec_witness :
  exists key rec, accepted (Some an_add) key rec /\ is_Some (mem_add.1.1 !! key).
Proof.
  assert (match mem_add.2 with Ok resp => negb (ad_IdempotentReplay resp) | Err _ => false end = true) as H by run.
  destruct mem_add as [s' [resp|e]] eqn:E; [|done]. unfold mem_add in E. cbn [snd] in H. bools.
  destruct (Add_spec InMemory.endpoint InMemory.network (Some an_add) (∅, InMemory.empty) s' (Ok resp) E)
    as (key & rec & w1 & st & created & Ha & _ & _ & _ & Hk).
  rewrite H in Hk. destruct Hk as [_ Hk]. exists key, rec. split; [exact Ha|]. simpl. rewrite Hk. by rewrite lookup_insert_eq.
Defined.

(** The endpoint manager does not touch the network attachments. *)
Lemma em_spares net spec : preserves (fun w => InMemory.mem_networks w = net) (em_Ensure InMemory.endpoint spec).
Proof.
  assert (forall sp, preserves (fun w => InMemory.mem_networks w = net) (EnsureLogicalSwitchPort InMemory.ovn sp))
    by (intros sp w Hw; simpl; by repeat case_match).
  assert (forall i sp, preserves (fun w => InMemory.mem_networks w = net) (EnsureWithIdentity InMemory.attachments i sp))
    by (intros i sp w Hw; simpl; by repeat case_match).
  unfold InMemory.endpoint. cbn [manager_of em_Ensure]. unfold or_error, EnsureEndpoint. cbn [m_allowAttach m_attach m_ovn]. pres; auto.
Qed.

Lemma ensure_known w key rec w1 st :
  is_Some (InMemory.mem_networks w !! key) -> nb_Ensure InMemory.network key rec w <> (w1, Ok (st, true)).
Proof. intros [x Hx]. simpl. rewrite Hx. by case_bool_decide. Qed.

Lemma Add_spares_witness :
  is_Some (InMemory.mem_networks (Add InMemory.endpoint InMemory.network (Some an_add) mem_add.1).1.2 !! a_key).
Proof.
  assert (is_Some (InMemory.mem_networks mem_add.1.2 !! a_key)) as Hk by (apply (bool_decide_eq_true _); run).
  apply (Add_spares_attachments InMemory.endpoint InMemory.network (fun w => is_Some (InMemory.mem_networks w !! a_key)) (Some an_add) mem_add.1
    (Add InMemory.endpoint InMemory.network (Some an_add) mem_add.1).1 (Add InMemory.endpoint InMemory.network (Some an_add) mem_add.1).2).
  - intros key rec w Hw. simpl. destruct (InMemory.mem_networks w !! key); [exact Hw|]. simpl.
    destruct (decide (key = a_key)) as [->|Hne]; [by rewrite lookup_insert_eq|]. by rewrite lookup_insert_ne.
  - intros spec w Hw. pose proof (em_spares (InMemory.mem_networks w) spec w eq_refl) as E. cbn beta in E. cbn beta. rewrite E. exact Hw.
  - intros key rec w1 st [req0 i rt a spec [= <-] Hv _ -> _]. assert (i = an_identity) as -> by (vm_compute in Hv; injection Hv as <- _ _; reflexivity).
    exact (ensure_known _ _ _ _ _ Hk).
  - exact Hk.
  - apply surjective_pairing.
Defined.

Lemma Del_known_witness :
  (Del InMemory.endpoint InMemory.network None (Some a_del) mem_add.1).1.1 = delete a_key mem_add.1.1.
Proof.
  assert (is_ok (Del InMemory.endpoint InMemory.network None (Some a_del) mem_add.1).2 = true
    /\ match mem_add.1.1 !! a_key with Some rec => isStaleDelete (rec_identity rec) (Some an_identity) = false | None => False end) as [Hok Hrec] by (split; run).
  destruct (mem_add.1.1 !! a_key) as [rec|] eqn:Hk; [|done].
  destruct (Del InMemory.endpoint InMemory.network None (Some a_del) mem_add.1) as [s' r] eqn:E.
  pose proof (Del_known_spec InMemory.endpoint InMemory.network None a_del an_identity rec mem_add.1 s' r ltac:(run) Hk E) as H.
  rewrite Hrec in H. destruct r as [resp|e]; [|discriminate Hok]. destruct H as (_ & H & _). exact H.
Defined.

Lemma add_del_witness :
  exists rec, mem_add.1.1 = <[a_key := rec]> ∅.
Proof.
  assert (match mem_add.2 with Ok resp => negb (ad_IdempotentReplay resp) | Err _ => false end = true) as H by run.
  destruct mem_add as [s1 [resp|e]] eqn:E; [|done]. unfold mem_add in E. cbn [snd] in H. bools.
  destruct (add_del_roundtrip InMemory.endpoint InMemory.network None (Some an_add) an_identity a_del (∅, InMemory.empty) s1 resp E H)
    as (rec & Hs & _).
  - eexists _, _. run.
  - reflexivity.
  - exists rec. exact Hs.
Defined.

(** ** The durable server *)

Definition in_time : list Z := seconds <$> [100; 219; 219; 219].

Lemma add_step s : cstep mem_endpoint mem_network s (continuity_add mem_endpoint mem_network (Some an_add) s).1.
Proof. eapply cs_add, surjective_pairing. Qed.
Lemma verify_step s : cstep mem_endpoint mem_network s (verifyPendingCNI mem_network s).1.
Proof. eapply cs_verify, surjective_pairing. Qed.
Lemma history_run : rtc (cstep mem_endpoint mem_network) (recovered true in_time).1 (activated in_time).1.
Proof. eapply rtc_l; [apply add_step|]. apply rtc_once, verify_step. Qed.

Lemma acks_survive_witness :
  exists st, recovered_state (r_State (crec (activated in_time).1.1.1)) = Ok st /\ size <$> st_Endpoints st = Some 1%nat /\
    forall key a, default ∅ (st_Endpoints st) !! key = Some a -> timely a -> validateCNIACK key a = Ok tt.
Proof.
  assert ((recovered true in_time).2 = Ok tt /\
    match recovered_state (r_State (crec (activated in_time).1.1.1)) with Ok st => size <$> st_Endpoints st = Some 1%nat | Err _ => False end)
    as [H Hn] by (split; run).
  destruct (acks_survive_restart mem_endpoint mem_network (before_recovery true in_time) (recovered true in_time).1 (activated in_time).1)
    as (st & Hst & Hall & _).
  - rewrite <-H. apply surjective_pairing.
  - exact history_run.
  - rewrite Hst in Hn. exists st. exact (conj Hst (conj Hn Hall)).
Defined.

(** The recovery of the next process. *)
Definition next_process (s : (cniContinuity cniw * Store) * cniw) : (cniContinuity cniw * Store) * cniw :=
  ((with_journal (cc_journal s.1.1) (node true), ∅), s.2).
Definition second := recoverCNI mem_network (next_process (activated in_time).1).

Lemma recovery_adopts_witness : exists rec, second.1.1.2 !! a_key = Some rec /\ restored_from second.1.1.1 a_key rec.
Proof.
  assert (second.2 = Ok tt /\ is_Some (second.1.1.2 !! a_key)) as [H [rec Hr]] by (split; [run|apply (bool_decide_eq_true _); run]).
  exists rec. split; [exact Hr|].
  apply (recovery_adopts_nothing mem_network (next_process (activated in_time).1) second.1 a_key rec); [|exact Hr].
  rewrite <-H. apply surjective_pairing.
Defined.

(** A process that stopped after the intent of a DEL. *)
Definition uncertain :=
  let s := (activated in_time).1 in
  match acks s.1.1 !! a_key with Some a => (on_cni_journal (Begin "cni-del" a) s).1 | None => s end.

Lemma uncertain_outcome_witness :
  stopped uncertain (continuity_add mem_endpoint mem_network (Some an_add)) /\
  stopped uncertain (continuity_del mem_network (Some a_del)) /\
  stopped uncertain (continuity_check mem_network (Some a_del)) /\
  stopped uncertain (verifyPendingCNI mem_network) /\
  stopped uncertain (validateRecoveredExportEndpoints mem_network []).
Proof.
  assert (is_Some (r_Pending (crec uncertain.1.1))) as [i Hi] by (apply (bool_decide_eq_true _); run).
  exact (uncertain_outcome_blocks mem_endpoint mem_network uncertain i (Some an_add) (Some a_del) [] Hi).
Defined.

(** ** Effects *)

(** The in-memory backends are [m]. *)
Definition backends (m : InMemory.world) (w : cniw) : Prop := cw_mem w = m.
#[local] Instance backends_frame m : PosixFrame (backends m).
Proof.
  assert (forall A (f : M simfs A), preserves (backends m) (over cw_fs cw_set_fs f)) as H
    by (intros A f w Hw; unfold over; by destruct (f (cw_fs w))).
  split; intros; apply H.
Qed.
Lemma node_reads m c : cc_observer c = mem_observer -> cc_workload c = mem_workload -> cc_authority c = cc_authority (node true) ->
  reads_only mem_network (backends m) c.
Proof.
  intros Ho Hw Ha. split; intros; rewrite ?Ho, ?Hw, ?Ha in *; try by intros w Hb.
  - injection H as <-. by intros w Hb.
  - injection H as <-. by intros w Hb.
Qed.


Lemma durable_del_witness :
  exists a seq data (s1 : (cniContinuity cniw * Store) * cniw), backends (cw_mem (added true in_time).1.2) s1.2 /\
    acks (added true in_time).1.1.1 !! a_key = Some a /\
    r_Pending (crec s1.1.1) = Some {| i_Sequence := seq; i_Operation := "cni-del"; i_Payload := data |} /\
    (removed true in_time).1.1.2 = delete a_key (added true in_time).1.1.2.
Proof.
  assert (is_ok (removed true in_time).2 = true /\ bool_decide ((removed true in_time).1.1.2 = (added true in_time).1.1.2) = false) as [Hok Hne]
    by (split; run).
  pose proof (durable_del_write_ahead mem_network (backends (cw_mem (added true in_time).1.2)) (Some a_del) (added true in_time).1
    (removed true in_time).1 (removed true in_time).2) as H.
  destruct H as [H|(id & a & seq & data & s1 & w & w' & Ha & _ & _ & _ & Hp & _ & Hpd & Hr)].
  - apply node_reads; reflexivity.
  - reflexivity.
  - apply surjective_pairing.
  - destruct H as [_ E]. bools. exfalso. exact (Hne E).
  - destruct (removed true in_time).2 as [resp|e] eqn:Er; [|discriminate Hok]. destruct Hr as (-> & _ & _ & Hd & _).
    assert (id = an_identity) as -> by (vm_compute in Er; injection Er as <-; reflexivity).
    exists a, seq, data, s1. exact (conj Hp (conj Ha (conj Hpd Hd))).
Defined.

(** ** The whole server *)

Definition plain_server : CNIServer cniw := {| sv_stopping := false; sv_continuity := None; sv_store := ∅ |}.
Definition booted := server_recoverCNI mem_network (node true) (plain_server, fresh_world in_time).
Definition serving := server_Add mem_endpoint mem_network (Some an_add) booted.1.
Definition ready_server := server_verifyPending mem_network serving.1.
Notation node_step := (server_step (BT := sim_bgp_types) mem_endpoint mem_network None).

Lemma server_steps : rtc node_step booted.1 ready_server.1.
Proof.
  assert (forall s, node_step s (server_Add mem_endpoint mem_network (Some an_add) s).1) as Ha by (intros; eapply ss_add, surjective_pairing).
  assert (forall s, node_step s (server_verifyPending mem_network s).1) as Hv by (intros; eapply ss_verify, surjective_pairing).
  eapply rtc_l; [apply Ha|]. apply rtc_once, Hv.
Qed.

Lemma durable_server_witness :
  exists x x', shows booted.1 x /\ shows ready_server.1 x' /\ rtc (cstep mem_endpoint mem_network) x x'.
Proof.
  assert (booted.2 = Ok tt) as H by run.
  destruct (durable_server_refines mem_endpoint mem_network None (node true) (plain_server, fresh_world in_time) booted.1 ready_server.1)
    as (x & x' & _ & Hx & Hx' & Hr).
  - rewrite <-H. apply surjective_pairing.
  - exact server_steps.
  - exists x, x'. exact (conj Hx (conj Hx' Hr)).
Defined.

Definition drained_server := (drain ready_server.1).1.
Definition after_drain := (server_Del mem_endpoint mem_network None (Some a_del) drained_server).1.

Lemma drained_server_witness : exists c, sv_continuity drained_server.1 = Some c /\ retired c (sv_store drained_server.1) after_drain.
Proof.
  assert (sv_stopping drained_server.1 = true /\ is_Some (sv_continuity drained_server.1)) as [Hs [c Hc]]
    by (split; [run|apply (bool_decide_eq_true _); run]).
  exists c. split; [exact Hc|].
  apply (drained_server_retired (BT := sim_bgp_types) mem_endpoint mem_network None c drained_server after_drain Hs Hc).
  assert (forall s, node_step s (server_Del mem_endpoint mem_network None (Some a_del) s).1) as Hd by (intros; eapply ss_del, surjective_pairing).
  apply rtc_once, Hd.
Defined.

(** A speaker that remembers being called in the clock. *)
Definition a_speaker : Type2RouteApplier cniw :=
  {| applier_Add _ w := (cw_set_times [42] w, Ok "path"%string); applier_Delete _ := ret tt |}.
Definition a_route : Type2Route := {|
  t_Endpoint := {| NetworkID := "net"; EndpointID := "net|att|uid"; Incarnation := "ctr"; MACAddress := "0A:00:00:00:00:05";
                   IPAddresses := ["10.0.0.5"%string]; VNI := 100; RouteDistinguisher := "65000:1"; RouteTargets := ["65000:100"%string];
                   LocalVTEP := "192.0.2.1"; NodeName := "node"; Chassis := "c"; Advertise := true; MACOnly := false |};
  t_Action := RouteAdvertise; t_NLRI := {| RouteType := 2; RouteTypeData := None |}; t_PathAttributes := []; t_operation := None;
|}.
Definition advertised := guarded_add mem_network a_speaker a_route ready_server.1.

Lemma advertise_witness :
  exists c key a, sv_continuity ready_server.1.1 = Some c /\ acks c !! key = Some a /\
    exportable (sv_store advertised.1.1) (t_Endpoint a_route) key a /\ seen c a /\ cw_times advertised.1.2 = [42].
Proof.
  assert (is_ok advertised.2 = true /\ cw_times advertised.1.2 = [42]) as [Hok Ht] by (split; run).
  assert (is_Some (sv_continuity ready_server.1.1)) as [c Hc] by (apply (bool_decide_eq_true _); run).
  assert (forall A (f : cniContinuity cniw -> A) v, f <$> sv_continuity ready_server.1.1 = Some v -> f c = v) as Hf
    by (intros A f v E; rewrite Hc in E; injection E; trivial).
  destruct (advertise_acknowledged mem_network (backends (cw_mem ready_server.1.2)) a_speaker a_route c ready_server.1 advertised.1 advertised.2)
    as [[H _]|(key & a & w1 & _ & Hk & He & Hsn & _)].
  - exact Hc.
  - apply node_reads; apply Hf; run.
  - reflexivity.
  - apply surjective_pairing.
  - rewrite H in Hok. discriminate Hok.
  - exists c, key, a. exact (conj Hc (conj Hk (conj He (conj Hsn Ht)))).
Defined.
