(* ===== verification/SimOperator.v ===== *)
(** * A concrete cluster

    An in-memory Kubernetes API that keeps the promises of [OperatorSpec]: objects are JSON
    documents, every write gets a new resource version, a patch is a merge patch, and a
    delete checks its preconditions.  The witnesses run the operator on it. *)

From S2P Require Import Prelude GoStd Journal GoJson Sim OperatorTypes OperatorManifest Operator OperatorSpec OperatorSafety.
From Stdlib Require Import Ascii.

(** ** A text for documents *)

Fixpoint put_json (j : json) : string :=
  match j with
  | JNull => "n"
  | JBool b => if b then "t" else "f"
  | JNum s => "#" +:+ put s
  | JStr s => "$" +:+ put s
  | JArr l => "[" +:+ (fix go l := match l with [] => "." | x :: l => ";" +:+ put_json x +:+ go l end) l
  | JObj m => "{" +:+ (fix go m := match m with [] => "." | kv :: m => ";" +:+ put kv.1 +:+ put_json kv.2 +:+ go m end) m
  end%string.
(** A value, the elements of an array, or the fields of an object. *)
Fixpoint get_json (fuel : nat) (s : string) : option (json * string) :=
  match fuel with
  | O => None
  | S fuel =>
      match s with
      | String "n" s => Some (JNull, s)
      | String "t" s => Some (JBool true, s)
      | String "f" s => Some (JBool false, s)
      | String "#" s => prod_map JNum (fun x => x) <$> get s
      | String "$" s => prod_map JStr (fun x => x) <$> get s
      | String "[" s => prod_map JArr (fun x => x) <$> get_array fuel s
      | String "{" s => prod_map JObj (fun x => x) <$> get_fields fuel s
      | _ => None
      end
  end
with get_array (fuel : nat) (s : string) : option (list json * string) :=
  match fuel with
  | O => None
  | S fuel =>
      match s with
      | String "." s => Some ([], s)
      | String ";" s => '(x, s) ← get_json fuel s; '(l, s) ← get_array fuel s; Some (x :: l, s)
      | _ => None
      end
  end
with get_fields (fuel : nat) (s : string) : option (list (string * json) * string) :=
  match fuel with
  | O => None
  | S fuel =>
      match s with
      | String "." s => Some ([], s)
      | String ";" s => '(k, s) ← get s; '(x, s) ← get_json fuel s; '(m, s) ← get_fields fuel s; Some ((k, x) :: m, s)
      | _ => None
      end
  end.
#[export] Instance sim_json : Json json := {
  json_Marshal j := Ok (put_json j);
  json_Decode s := get_json (String.length s) s;
}.

(** ** Documents *)

Definition fields_of (j : json) : list (string * json) := match j with JObj m => m | _ => [] end.
Fixpoint get_path (path : list string) (j : json) : json :=
  match path with [] => j | k :: path => get_path path (field k (fields_of j)) end.
Fixpoint set_path (path : list string) (v j : json) : json :=
  match path with [] => v | k :: path => JObj (set_field k (set_path path v (field k (fields_of j))) (fields_of j)) end.

Lemma field_set_ne k k' v m : k <> k' -> field k' (set_field k v m) = field k' m.
Proof.
  intros Hk. unfold set_field. simpl. rewrite bool_decide_eq_false_2 by done. induction m as [|[k1 v1] m IH]; [done|]. simpl.
  destruct (bool_decide_reflect (k1 = k)) as [->|]; simpl; [by rewrite bool_decide_eq_false_2|]. by rewrite IH.
Qed.
Lemma get_set_path path v j : get_path path (set_path path v j) = v.
Proof. revert j. induction path as [|k path IH]; intros j; [done|]. simpl. rewrite bool_decide_eq_true_2 by done. apply IH. Qed.

Definition strings_of (j : json) : gmap string string := list_to_map ((fun kv => (kv.1, as_string kv.2)) <$> fields_of j).
Definition of_strings (m : gmap string string) : json := JObj ((fun kv => (kv.1, JStr kv.2)) <$> map_to_list m).
Lemma strings_of_strings m : strings_of (of_strings m) = m.
Proof.
  unfold strings_of, of_strings. simpl. rewrite <-list_fmap_compose. etransitivity; [|apply list_to_map_to_list]. f_equal.
  rewrite <-(list_fmap_id (map_to_list m)) at 2. apply list_fmap_ext. by intros i [k v] _.
Qed.

Definition meta (key : string) : list string := ["metadata"; key]%string.
#[export] Instance sim_unstructured : UnstructuredLib := {
  GetAPIVersion o := as_string (get_path ["apiVersion"%string] o); GetKind o := as_string (get_path ["kind"%string] o);
  GetNamespace o := as_string (get_path (meta "namespace") o); GetName o := as_string (get_path (meta "name") o);
  GetUID o := as_string (get_path (meta "uid") o); GetResourceVersion o := as_string (get_path (meta "resourceVersion") o);
  IsDeleting o := negb (bool_decide (get_path (meta "deletionTimestamp") o = JNull));
  GetAnnotations o := strings_of (get_path (meta "annotations") o); GetLabels o := strings_of (get_path (meta "labels") o);
  SetAnnotations m := set_path (meta "annotations") (of_strings m); SetLabels m := set_path (meta "labels") (of_strings m);
  SetNamespace ns := set_path (meta "namespace") (JStr ns);
  NestedSlice o path := match get_path path o with JArr l => Ok (Some l) | JNull => Ok None | _ => Err (Errorf "not a slice") end;
  SetNestedSlice l path o := Ok (set_path path (JArr l) o);
  SetNestedMap m path o := Ok (set_path path m o);
  RemoveNestedField path o := match path with [] => o | k :: _ => set_path path JNull o end;
}.
#[export] Instance sim_annotations : AnnotationLaws.
Proof. intros m o. unfold GetAnnotations, SetAnnotations, sim_unstructured. by rewrite get_set_path, strings_of_strings. Qed.

#[export] Instance sim_kube_types : KubeTypes := { Toleration := string; Taint := string * string; Condition := string * bool * string }.
#[export] Instance sim_validation : KubeValidation := {
  IsDNS1123Subdomain s := negb (is_empty s); IsDNS1123Label s := negb (is_empty s); IsQualifiedName s := negb (is_empty s);
  IsValidLabelValue _ := true;
}.
#[export] Instance sim_pod : PodRest := { ContainerRest := unit; VolumeRest := unit; PodSpecRest := unit }.
(** A manifest is an array of documents; pod specifications are not converted. *)
#[export] Instance sim_manifest : ManifestLib := {
  yaml_documents s := match json_Unmarshal s with Some (JArr l) => Ok <$> l | _ => [Err (Errorf "decode")] end;
  NestedMap o path := match get_path path o with JNull => Ok None | m => Ok (Some m) end;
  PodSpec_of _ := Err (Errorf "no pod specifications");
  of_PodSpec _ := Err (Errorf "no pod specifications");
  affinity_of node := Ok (JObj [("node"%string, JStr node)]);
  tolerations_of l := Ok (JStr <$> l);
}.

(** ** The API *)

Record kubew := { kw_cluster : Cluster; kw_files : gmap string string; kw_nodes : gmap string Node; kw_version : Z }.
Definition set_cluster (v : Cluster) (w : kubew) : kubew :=
  {| kw_cluster := v; kw_files := kw_files w; kw_nodes := kw_nodes w; kw_version := kw_version w + 1 |}.
#[export] Instance EvpnCore_eq_dec : EqDecision EvpnCore.
Proof. solve_decision. Defined.

Definition not_found : error := Sentinel SKubeNotFound "not found".
Definition conflict : error := Sentinel SKubeConflict "conflict".
Definition stored_core (ns n : string) : M kubew EvpnCore := fun w =>
  (w, match cl_cores (kw_cluster w) !! (ns, n) with
      | Some c => if bool_decide (id_of c = (ns, n) /\ core_UID c <> ""%string) then Ok c else Err (Errorf "bad resource")
      | None => Err not_found
      end).
Definition put_core (cur next : EvpnCore) : M kubew EvpnCore := fun w =>
  if bool_decide (cl_cores (kw_cluster w) !! id_of cur = Some cur)
  then let c := with_version (itoa (kw_version w)) next in (set_cluster (with_cores (<[id_of cur := c]>) (kw_cluster w)) w, Ok c)
  else (w, Err conflict).
Definition put_lease (l : Lease) : M kubew unit := fun w =>
  (set_cluster (with_lease (Some {| ls_Labels := ls_Labels l; ls_Holder := ls_Holder l; ls_ResourceVersion := itoa (kw_version w) |}) (kw_cluster w)) w, Ok tt).
Definition put_object (k : ObjectKey) (o : json) : M kubew json := fun w =>
  let o := set_path (meta "resourceVersion") (JStr (itoa (kw_version w))) o in
  (set_cluster (with_objects (<[k := o]>) (kw_cluster w)) w, Ok o).

(** A JSON merge patch. *)
Fixpoint merge_patch (p t : json) : json :=
  match p with
  | JObj fs => JObj (foldr (fun kv acc => match kv.2 with JNull => del_field kv.1 acc | _ => set_field kv.1 (merge_patch kv.2 (field kv.1 acc)) acc end)
                           (fields_of t) fs)
  | _ => p
  end.
Definition keyed (kv : ObjectKey * json) : bool := bool_decide (obj_key kv.2 = kv.1).
(** A deployment that is rolled out. *)
Definition rolled (o : json) : Deployment :=
  {| dp_Deleting := IsDeleting o; dp_Generation := 1; dp_ObservedGeneration := 1; dp_Conditions := []; dp_SpecReplicas := None; dp_Updated := 1;
     dp_Available := 1; dp_Ready := 1; dp_Replicas := 1; dp_Raw := o |}.
Definition stored_object (ref : ManagedResource) : M kubew json := fun w =>
  (w, match cl_objects (kw_cluster w) !! res_key ref with
      | Some o => if bool_decide (obj_key o = res_key ref) then Ok o else Err (Errorf "bad object")
      | None => Err not_found
      end).
Definition named (kind ns n : string) : ManagedResource :=
  {| mr_APIVersion := "apps/v1"; mr_Kind := kind; mr_Namespace := ns; mr_Name := n; mr_UID := ""; mr_State := ""; mr_Conflict := "" |}.

#[export] Instance sim_kube : Kube kubew := {
  cached_GetCore := stored_core;
  GetCore := stored_core;
  ListCores w := (w, Ok (map_to_list (cl_cores (kw_cluster w))).*2);
  PatchStatus cur next := put_core cur (with_status (core_Status next) cur);
  PatchCore cur next w :=
    if bool_decide (cl_cores (kw_cluster w) !! id_of cur = Some cur) && core_Deleting cur && bool_decide (core_Finalizers next = [])
    then (set_cluster (with_cores (delete (id_of cur)) (kw_cluster w)) w, Ok tt)
    else let '(w, r) := put_core cur (with_finalizers (core_Finalizers next) cur) w in (w, rbind r (fun _ => Ok tt));
  GetLease w := (w, of_option not_found (cl_lease (kw_cluster w)));
  CreateLease l w := if bool_decide (cl_lease (kw_cluster w) = None) then put_lease l w else (w, Err (Sentinel SKubeAlreadyExists "exists"));
  UpdateLease := put_lease;
  cached_GetNamespace _ w := (w, Ok tt);
  CreateNamespace _ w := (w, Ok tt);
  GetObject := stored_object;
  ListObjects version kinds uid n w :=
    let objects := map_to_list (cl_objects (kw_cluster w)) in
    (w, if forallb keyed objects
        then Ok ((List.filter (fun kv => bool_decide (kv.1.1.1.1 = version /\ (kv.1.1.1.2 +:+ "List")%string = kinds
                                                      /\ index OwnerKey (GetLabels kv.2) = uid)) objects).*2, ""%string)
        else Err (Errorf "bad object"));
  CreateObject o w :=
    if bool_decide (cl_objects (kw_cluster w) !! obj_key o = None)
    then put_object (obj_key o) (set_path (meta "uid") (JStr ("uid-" +:+ itoa (kw_version w))%string) o) w
    else (w, Err (Sentinel SKubeAlreadyExists "exists"));
  PatchObject cur patch w :=
    match json_Unmarshal patch with
    | Some p => if bool_decide (cl_objects (kw_cluster w) !! obj_key cur = Some cur) then put_object (obj_key cur) (merge_patch p cur) w
                else (w, Err conflict)
    | None => (w, Err (Errorf "bad patch"))
    end;
  DeleteObject o uid rv w :=
    match cl_objects (kw_cluster w) !! obj_key o with
    | None => (w, Err not_found)
    | Some cur => if bool_decide (GetUID cur = uid /\ GetResourceVersion cur = rv)
                  then (set_cluster (with_objects (delete (obj_key o)) (kw_cluster w)) w, Ok tt) else (w, Err conflict)
    end;
  GetNode n w := (w, of_option not_found (kw_nodes w !! n));
  ListDaemonSets w := (w, Ok []);
  ListDeployments w := (w, Ok []);
  GetDeployment ns n w := let '(w, r) := stored_object (named "Deployment" ns n) w in (w, rbind r (fun o => Ok (rolled o)));
  GetDaemonSet ns n w := (w, Err not_found);
  ReadFile path w := (w, of_option (Errno ENOENT) (kw_files w !! path));
}.
#[export] Instance sim_kube_lib : KubeLib kubew := {
  CreateThreeWayJSONMergePatch _ next _ := Ok next;
  SetStatusCondition cs typ _ reason _ w :=
    (w, Ok ((typ.1, typ.2, reason) :: List.filter (fun c => negb (bool_decide (c.1.1 = typ.1))) cs));
  taint_Effect t := t.2;
  ToleratesTaint t taint := bool_decide (t = taint.1);
  ToUnstructured _ o := Ok o;
}.

(** ** The promises hold *)

Lemma put_core_writes cur next : writes kw_cluster (put_core cur next) (fun v v' a =>
  cl_cores v !! id_of cur = Some cur /\ exists rv, a = with_version rv next /\ v' = with_cores (<[id_of cur := a]>) v).
Proof. intros w. unfold put_core. case_bool_decide; simpl; [eauto|by left]. Qed.
Lemma put_lease_writes l : writes kw_cluster (put_lease l) (fun v v' _ =>
  exists rv, v' = with_lease (Some {| ls_Labels := ls_Labels l; ls_Holder := ls_Holder l; ls_ResourceVersion := rv |}) v).
Proof. intros w. simpl. eauto. Qed.
Lemma stored_core_reads ns n : reads kw_cluster (stored_core ns n)
  (fun v c => cl_cores v !! (ns, n) = Some c /\ id_of c = (ns, n) /\ core_UID c <> ""%string) (fun v => cl_cores v !! (ns, n) = None).
Proof.
  intros w. unfold stored_core. simpl. split; [done|]. destruct (cl_cores (kw_cluster w) !! (ns, n)) as [c|]; [|done]. by case_bool_decide.
Qed.
Lemma stored_object_reads ref : reads kw_cluster (stored_object ref)
  (fun v o => cl_objects v !! res_key ref = Some o /\ obj_key o = res_key ref) (fun v => cl_objects v !! res_key ref = None).
Proof.
  intros w. unfold stored_object. simpl. split; [done|]. destruct (cl_objects (kw_cluster w) !! res_key ref) as [o|]; [|done]. by case_bool_decide.
Qed.
Lemma owner_stored k v o : k <> "annotations"%string ->
  GetAnnotations (set_path (meta k) v o) = GetAnnotations o.
Proof.
  intros Hk. unfold GetAnnotations, sim_unstructured, meta. cbn [get_path set_path fields_of]. f_equal.
  rewrite (eq_refl : field "metadata" (set_field "metadata" (JObj (set_field k v (fields_of (field "metadata" (fields_of o))))) (fields_of o))
                     = JObj (set_field k v (fields_of (field "metadata" (fields_of o))))).
  cbn [fields_of]. by apply field_set_ne.
Qed.

Lemma PatchCore_writes cur next : writes kw_cluster (PatchCore cur next) (fun v v' _ =>
  cl_cores v !! id_of cur = Some cur
  /\ ((exists rv, v' = with_cores (<[id_of cur := with_version rv (with_finalizers (core_Finalizers next) cur)]>) v)
      \/ core_Deleting cur = true /\ core_Finalizers next = [] /\ v' = with_cores (delete (id_of cur)) v)).
Proof.
  intros w. cbn [PatchCore sim_kube]. destruct (_ && _) eqn:E; [bools; simpl; auto|].
  pose proof (put_core_writes cur (with_finalizers (core_Finalizers next) cur) w) as H. destruct (put_core _ _ w) as [w' [a|e]]; simpl in *.
  - destruct H as (Hc & rv & -> & ->). eauto.
  - destruct H as [->|(a & Hc & rv & -> & ->)]; [by left|]. right. exists tt. eauto.
Qed.
Lemma ListObjects_reads version kind uid n : reads kw_cluster (ListObjects version (kind +:+ "List") uid n) (fun v '(items, next) =>
    (forall o, o ∈ items -> cl_objects v !! obj_key o = Some o)
    /\ (next = ""%string -> forall ns name o, cl_objects v !! (version, kind, ns, name) = Some o -> index OwnerKey (GetLabels o) = uid ->
        o ∈ items /\ obj_key o = (version, kind, ns, name))) (fun _ => True).
Proof.
  intros w. cbn [ListObjects sim_kube fst snd]. split; [done|]. destruct (forallb keyed _) eqn:Hk; [|done].
  rewrite forallb_forall in Hk. setoid_rewrite <-list_elem_of_In in Hk. split.
  - intros o Ho. apply list_elem_of_fmap in Ho as ([k o'] & -> & Hi%list_elem_of_In%List.filter_In). destruct Hi as [Hi%list_elem_of_In _].
    specialize (Hk _ Hi). unfold keyed in Hk. bools. simpl in *. rewrite Hk. by apply elem_of_map_to_list.
  - intros _ ns name o Ho%elem_of_map_to_list Hl. specialize (Hk _ Ho). unfold keyed in Hk. bools. split; [|done].
    apply list_elem_of_fmap. exists ((version, kind, ns, name), o). split; [done|]. apply list_elem_of_In, List.filter_In.
    split; [by apply list_elem_of_In|]. by apply bool_decide_eq_true_2.
Qed.

Lemma PatchStatus_writes cur next : writes kw_cluster (PatchStatus cur next) (fun v v' a =>
  cl_cores v !! id_of cur = Some cur /\ core_Status a = core_Status next
  /\ exists rv, v' = with_cores (<[id_of cur := with_version rv (with_status (core_Status next) cur)]>) v).
Proof.
  intros w. pose proof (put_core_writes cur (with_status (core_Status next) cur) w) as H. cbn [PatchStatus sim_kube].
  destruct (put_core _ _ w) as [w' [a|e]]; simpl in *.
  - destruct H as (Hc & rv & -> & ->). eauto.
  - destruct H as [->|(a & Hc & rv & -> & ->)]; [by left|]. right. eexists (with_version rv (with_status (core_Status next) cur)). eauto.
Qed.
Lemma CreateObject_writes o : writes kw_cluster (CreateObject o) (fun v v' a =>
  cl_objects v !! obj_key o = None /\ exists o', index OwnerKey (GetAnnotations o') = index OwnerKey (GetAnnotations o)
  /\ v' = with_objects (<[obj_key o := o']>) v).
Proof.
  intros w. cbn [CreateObject sim_kube]. case_bool_decide; [|by left]. unfold put_object. cbn [fst snd set_cluster kw_cluster]. split; [done|].
  exists (set_path (meta "resourceVersion") (JStr (itoa (kw_version w))) (set_path (meta "uid") (JStr ("uid-" +:+ itoa (kw_version w))%string) o)).
  split; [|reflexivity]. by rewrite !owner_stored.
Qed.
Lemma PatchObject_writes cur patch : writes kw_cluster (PatchObject cur patch) (fun v v' _ =>
  is_Some (cl_objects v !! obj_key cur) /\ exists o', v' = with_objects (<[obj_key cur := o']>) v).
Proof.
  intros w. cbn [PatchObject sim_kube]. destruct (json_Unmarshal patch); [|by left]. case_bool_decide as H; [|by left]. unfold put_object. cbn [fst snd set_cluster kw_cluster]. eauto.
Qed.
Lemma DeleteObject_writes o uid rv : writes kw_cluster (DeleteObject o uid rv) (fun v v' _ =>
  (exists cur, cl_objects v !! obj_key o = Some cur /\ GetUID cur = uid /\ GetResourceVersion cur = rv)
  /\ (v' = with_objects (delete (obj_key o)) v \/ exists o', v' = with_objects (<[obj_key o := o']>) v)).
Proof.
  intros w. cbn [DeleteObject sim_kube]. destruct (cl_objects (kw_cluster w) !! obj_key o) as [cur|] eqn:E; [|by left].
  case_bool_decide as H; [|by left]. cbn [fst snd set_cluster kw_cluster]. eauto.
Qed.

#[export] Instance sim_store : KubeStore kubew.
Proof.
  refine {| view := kw_cluster |}; try (intros; by intros w).
  - intros ns n w w' c H. destruct (stored_core_reads ns n w) as [_ Hr]. cbn [cached_GetCore sim_kube] in H. rewrite H in Hr. by destruct Hr as (_ & ? & _).
  - apply stored_core_reads.
  - apply PatchStatus_writes.
  - apply PatchCore_writes.
  - intros w. simpl. split; [done|]. by destruct (cl_lease (kw_cluster w)).
  - intros l w. cbn [CreateLease sim_kube]. case_bool_decide; [|by left]. pose proof (put_lease_writes l w). simpl in *. eauto.
  - apply put_lease_writes.
  - apply stored_object_reads.
  - apply ListObjects_reads.
  - apply CreateObject_writes.
  - apply PatchObject_writes.
  - apply DeleteObject_writes.
Defined.

(** ** Runs *)

Definition a_spec : EvpnCoreSpec := {|
  cs_Enabled := true; cs_AppNamespace := ""; cs_OvnNamespace := ""; cs_AppImage := ""; cs_GobgpImage := ""; cs_OvnImage := "";
  cs_DataplaneNode := "node-1";
  cs_NodeAgent := {|
    na_Enabled := false; na_Image := ""; na_NodeSelector := ∅; na_Tolerations := []; na_Mode := ""; na_NetworkBackend := ""; na_Socket := "";
    na_OVNNBEndpoint := ""; na_OVSDBEndpoint := ""; na_OVNSBEndpoint := ""; na_ExportConfigPath := ""; na_ExportStatusPath := "";
    na_ExportInterval := ""; na_ExportTimeout := ""; na_RemoteConfigPath := ""; na_RemoteStatusPath := ""; na_RemoteInterval := "";
    na_RemoteTimeout := ""; na_GoBGPHostPath := ""; na_CNIContinuityConfigPath := ""; na_ProviderAttestation := false; na_ProviderCTRHostPath := "" |};
  cs_BGPProvider := "" |}.
Definition a_core : EvpnCore := {|
  core_Namespace := "default"; core_Name := "core"; core_UID := "core-1"; core_Generation := 1; core_ResourceVersion := "1"; core_Created := 5;
  core_Deleting := false; core_Finalizers := []; core_Spec := a_spec;
  core_Status := {| cst_Phase := ""; cst_Ready := false; cst_Reason := ""; cst_ObservedGeneration := 0; cst_Conditions := []; cst_ManagedResources := [] |} |}.
(** The manifest: a configuration and a deployment. *)
Definition document (version kind ns name : string) (rest : list (string * json)) : json :=
  JObj ([("apiVersion"%string, JStr version); ("kind"%string, JStr kind);
         ("metadata"%string, JObj [("name"%string, JStr name); ("namespace"%string, JStr ns)])] ++ rest).
Definition a_manifest : string :=
  put_json (JArr [document "v1" "ConfigMap" "" "settings" []; document "apps/v1" "Deployment" "ovn-system" "ovn-ovs" []]).
Definition a_node : Node := {| nd_Labels := ∅; nd_Conditions := [("Ready", "True")%string]; nd_Unschedulable := false; nd_Taints := [] |}.
Definition a_cluster (c : EvpnCore) (lease : option Lease) (objects : gmap ObjectKey json) : kubew := {|
  kw_cluster := {| cl_cores := {[("default", "core")%string := c]}; cl_lease := lease; cl_objects := objects |};
  kw_files := {["/core-resources.yaml"%string := a_manifest]}; kw_nodes := {["node-1"%string := a_node]}; kw_version := 10 |}.

Definition fresh : kubew := a_cluster a_core None ∅.
Definition installed : kubew * result Result := Reconcile "default" "core" fresh.
