(* ===== verification/OperatorWitnesses.v ===== *)
(** * The operator's theorems at work

    Applies the theorems about the operator to runs on the cluster of [SimOperator]: an
    installation, one that meets a foreign object, one that finds the lock taken, and a
    deletion. *)

From S2P Require Import Prelude GoStd Journal GoJson Sim OperatorTypes OperatorManifest Operator OperatorSpec OperatorSafety SimOperator.

Notation reconcile := (Reconcile "default" "core").

Lemma distinct_at (w : kubew) (c : EvpnCore) : cl_cores (kw_cluster w) !! ("default", "core")%string = Some c ->
  bool_decide (NoDup (res_key <$> inventory c)) = true -> journal_distinct ("default", "core")%string (view w).
Proof. intros Hc Hn c' Hc'. change (cl_cores (kw_cluster w) !! ("default", "core")%string = Some c') in Hc'. simplify_eq. by bools. Qed.
Lemma fresh_distinct lease objects : journal_distinct ("default", "core")%string (view (a_cluster a_core lease objects)).
Proof. apply (distinct_at _ a_core); [apply lookup_singleton_eq|done]. Qed.
Lemma fresh_cached lease objects : cached_GetCore "default" "core" (a_cluster a_core lease objects) = (a_cluster a_core lease objects, Ok a_core).
Proof. unfold cached_GetCore, sim_kube, stored_core. simpl. by rewrite lookup_singleton_eq. Qed.

(** ** Installation *)

(** The number of objects, and the phase of the resource. *)
Definition outcome (w : kubew) : nat * option string :=
  (size (cl_objects (kw_cluster w)), (fun c => cst_Phase (core_Status c)) <$> cl_cores (kw_cluster w) !! ("default", "core")%string).


Lemma operator_typed_witness : journal_distinct ("default", "core")%string (view installed.1) /\ outcome installed.1 = (2%nat, Some "Ready"%string).
Proof. split; [exact (operator_journal_typed "default" "core" fresh fresh a_core (fresh_cached _ _) (fresh_distinct _ _))|run]. Defined.

Lemma fresh_complete : journal_complete ("default", "core")%string "core-1" (view fresh).
Proof. intros c k o _ _ Ho. assert ((∅ : gmap ObjectKey json) !! k = Some o) as H by exact Ho. by rewrite lookup_empty in H. Qed.
Lemma operator_complete_witness :
  journal_complete ("default", "core")%string "core-1" (view installed.1) /\ outcome installed.1 = (2%nat, Some "Ready"%string).
Proof.
  split; [exact (operator_journal_complete "default" "core" fresh fresh a_core (fresh_cached _ _) (fresh_distinct _ _) fresh_complete)|run].
Defined.

(** ** A foreign object in the way *)

Definition settings_key : ObjectKey := ("v1", "ConfigMap", "evpn-system", "settings")%string.
Definition foreign : json := document "v1" "ConfigMap" "evpn-system" "settings" [("data"%string, JStr "mine")].
Definition occupied : kubew := a_cluster a_core None {[settings_key := foreign]}.
Lemma foreign_not_owned : ~ owned "core-1" foreign.
Proof. intros H%owned_annotation. vm_compute in H. discriminate. Qed.

(** ** A lock that is taken *)

Definition other_lease : Lease := {| ls_Labels := {[managedByKey := fieldManager]}; ls_Holder := Some "core-0"%string; ls_ResourceVersion := "3" |}.
Definition contended : kubew := a_cluster a_core (Some other_lease) ∅.
Lemma operator_locked_out_witness :
  cl_lease (view (reconcile contended).1) = Some other_lease /\ outcome (reconcile contended).1 = (0%nat, Some "Degraded"%string).
Proof.
  split; [|run].
  apply (operator_locked_out "default" "core" contended contended a_core (fresh_cached _ _) (fresh_distinct _ _)).
  exists other_lease. split; [reflexivity|]. split; discriminate.
Defined.

(** ** Deletion *)

Definition mark_deleting (c : EvpnCore) : EvpnCore :=
  {| core_Namespace := core_Namespace c; core_Name := core_Name c; core_UID := core_UID c; core_Generation := core_Generation c;
     core_ResourceVersion := core_ResourceVersion c; core_Created := core_Created c; core_Deleting := true;
     core_Finalizers := core_Finalizers c; core_Spec := core_Spec c; core_Status := core_Status c |}.
Definition going : kubew := set_cluster (with_cores (fmap mark_deleting) (kw_cluster installed.1)) installed.1.
(** The first round deletes the objects, the second one finds them gone. *)
Definition emptied : kubew := (reconcile going).1.
Definition last_core : EvpnCore := default a_core (cl_cores (kw_cluster emptied) !! ("default", "core")%string).


(** ** Readiness *)

Definition a_deployment : json := document "apps/v1" "Deployment" "ovn-system" "ovn-ovs" [].
Definition installed_core : EvpnCore := default a_core (cl_cores (kw_cluster installed.1) !! ("default", "core")%string).
Definition checked := workloadStatus [a_deployment] (installed_core, installed.1).
Lemma workloadStatus_ready_witness : workload_ready (W := kubew) installed_core a_deployment.
Proof.
  destruct (workloadStatus_ready (W := kubew) [a_deployment] (installed_core, installed.1) checked.1 "WorkloadsAvailable"
              "all managed Deployments and DaemonSets have completed their rollouts") as [_ H].
  - assert (checked.2 = Ok ("Ready", "WorkloadsAvailable", "all managed Deployments and DaemonSets have completed their rollouts")%string) as E by run.
    rewrite <-E. apply surjective_pairing.
  - apply H. left.
Defined.
